(* ===== verification/_CoqProject ===== *)
-Q . S2P
Prelude.v
GoStrings.v
Netip.v
Ipam.v
PasswordPolicy.v
Codec.v
Db.v
StoreInv.v
StoreUsers.v
StoreNodes.v
StoreAnnounce.v
StoreOps.v
UsersProps.v
CascadeProps.v
NodesProps.v
AnnounceProps.v
Wg.v
WgProps.v
Auth.v
AuthProps.v
Netfw.v
NetfwProps.v
Isolation.v
Api.v
ApiZones.v
ApiRoutes.v
ApiProps.v
StoreEffects.v
Sync.v
Js.v
Base64Js.v
Base64JsProps.v
BufferJs.v
BufferJsProps.v
BufferInts.v
BufferOps.v
BufferOpsProps.v
BufferIntsProps.v
SyncPlane.v
SyncData.v
SyncHandlers.v
SyncDeletes.v
SyncGrowth.v
SyncQuiet.v
SyncServe.v
Netutil.v
Engine.v
EngineProps.v
EngineRoutes.v
NatCtl.v
NatCtlProps.v
RouteSync.v
RouteSyncProps.v
Daemon.v
DaemonProps.v
ApiClient.v
ClientPaths.v
ClientSession.v
ClientReads.v
Routerd.v
RouterLists.v
RouterdProps.v
Tunnel.v
TunnelProps.v
StateFile.v
Panel.v
NodeReads.v
PanelProps.v
PanelSync.v
Onboard.v
OnboardProps.v
ServerConfig.v
ConfigProps.v
ApiOps.v
App.v
AppProps.v
Life.v
RunProps.v
RouterCmd.v
RouterCmdProps.v
