(* ===== verification/Prelude.v ===== *)
(** * lanweave: a verification development

    lanweave is a self-hosted mesh VPN. Its server, a Go program, registers users
    and devices (nodes), gives each node an address, groups nodes into zones and
    lets a node announce a subnet of its own LAN into a zone under a synthetic
    block of the overlay. All of it is recorded in SQLite; the WireGuard device and
    the nftables table that decides which packets the relay forwards are derived
    from the database. This library models the server and proves what makes it
    correct. Paths below are under src/.

    ** Parts, and where they are modelled

    - Prelude.v: results, the state-and-error monad with its triples [wp] and
      [pres], the notations ([let!], [do!]) and the list lemmas. GoStrings.v: the
      parts of strings, strconv and fmt the code calls. Netip.v: net/netip for IPv4
      (an address is a 32-bit [Z]); IPv6 text is the parameter [NetipV6].
      Codec.v: base64, hexadecimal and SHA-256, executable.
    - Ipam.v: internal/server/ipam: [PoolRange], [Block], [Overlaps],
      [AllocateBlock]. PasswordPolicy.v: pkg/passwordpolicy.
    - internal/server/store. Db.v is the schema of migrations/*.sql: a table is its
      rows with the AUTOINCREMENT counter, statements are functions on the database
      that check keys and cascade deletes; [Store] adds what a method can observe
      of its environment: the clock, the failures the driver is about to report and
      the entropy tape. StoreUsers.v is users.go, register.go, invites.go and
      refresh_tokens.go; StoreNodes.v nodes.go and zones.go; StoreAnnounce.v
      announcements.go. StoreInv.v defines the schema invariant and shows every
      statement keeps it; StoreOps.v composes the methods into runs ([repo_op],
      [run_ops]).
    - internal/server/netfw/nftables.go: Netfw.v. The manager's methods build the
      batches the code builds and send them to a kernel, the class [Nftables],
      whose laws ([NftablesLaws]) say a flush applies its batch or changes nothing.
    - internal/server/wg and internal/server/status: Wg.v. The server's interface,
      peers and key file, and the handshake tracker. wgtypes, wgctrl with netlink,
      and the disk are the classes [WgTypes], [WgHost] and the record [Disk].
    - internal/server/auth: Auth.v. PHC strings, session tokens, the first
      administrator; argon2 and the JWT library are classes with laws.
    - internal/server/api: Api.v (accounts, nodes, invites, administration),
      ApiZones.v (zones and announcements), ApiRoutes.v (route table, middleware,
      and the start-up rebuild of internal/server/app). A handler is a computation
      on a [World]: the store, the kernel, the device, the tracker and the log.
      A request's body is the outcome of decodeJSON; [Err] carries the error
      response, [Ok] the success response.
    - internal/server/config: ServerConfig.v, defaults and validation of the
      configuration the TOML decodes to, and time.ParseDuration with its
      wrapping sums and float64 fractions. internal/server/app: App.v, the start of a
      server up to the moment it serves, on a [Machine] (the server's state and the
      files of the host).

    - internal/server/api/docs/assets/swagger-ui-bundle.js, the viewer of the API
      documentation, the only JavaScript of the repository (minified: all of it is
      line 2). Js.v is the language: 32-bit operators, strings as UTF-16 units,
      typed arrays. Base64Js.v is its module 67526 (base64-js); module 48287 (buffer) is
      BufferJs.v (text encodings), BufferOps.v (construction, conversion, comparison and
      search) and BufferInts.v (integers of one to six bytes).

    - The clients of the server. Netutil.v is internal/netutil (canonical prefixes,
      overlap with the local networks). RouteSync.v is internal/client/routesync and
      internal/router/reconcile: the aggregation of the zones' announcement lists.
      NatCtl.v is internal/router/natctl, the router's translation table; Engine.v is
      internal/router/engine, the router's kernel tunnel and its consumer routes;
      Daemon.v is internal/router/daemon, the loop that keeps that tunnel up.
      ApiClient.v is internal/client/apiclient, the calls on the server's API, with
      the part of net/url and http.ServeMux that carries a path to its route, path
      cleaning and its redirect included.
      Routerd.v is the daemon's own part of cmd/lanweave-routerd/main.go: the
      reconciliation of the router with the server's lists; RouterCmd.v is the command
      line and the commands of the same program (main.go and announce.go), with the part
      of package flag they use.
    - The desktop client over the same calls. Tunnel.v is internal/client/tunnel: the
      profile texts, the consumer routes, the calls on a tunnel as threads whose steps
      interleave ([thread_step], [sys_step]), and the engine those calls drive, with the
      counters it reads from its device ([wg_up], [sumTransfer]). Panel.v is internal/client/panel,
      every operation of its controller, over the API client, the key ring, the state
      file and the firewall. StateFile.v is internal/client/state, the saved record over
      the calls on its file; Onboard.v is internal/client/onboard with wgkey, the first
      run. NodeReads.v has a transport that loses requests and
      answers, over any other.

    A component's client is proved against its interface: the classes above are
    what the code relies on of third-party packages, and each has an executable
    instance under which the witnesses evaluate.

    ** What the theorems show

    - Ipam, PasswordPolicy, Auth: allocation is first fit and reports exhaustion
      exactly when the pool is exhausted, the pool's range is exact, with the
      wrap-around of its 32-bit sums; the password check is the ordered list of its
      rules; hashes and tokens verify to what was hashed and issued.
    - StoreOps, UsersProps, NodesProps, AnnounceProps, CascadeProps: every run of the
      methods keeps the schema and the synthetic blocks disjoint; a failed method
      changes nothing; the outcome of registration, token refresh, node
      creation, announcing, detaching and user deletion on every branch.
    - NetfwProps, Isolation: each manager method implements its effect on the
      abstract zones ([Iso]), and a table that represents such zones forwards a
      packet exactly when the zones allow it.
    - WgProps: each peer method implements its effect on the device, a key file is
      never overwritten, the online status comes from the last successful poll.
    - ApiProps: who may do what; refusals have no effect.
    - StoreEffects: the effect of each method of the store on its success, as the
      one database it leaves, and the rules that only the methods enforce (caps, subnets
      apart, an invite behind each account, the last administrator). Sync: the agreement of the dataplane with the database
      ([fw_synced], [wg_synced]), and that the start-up rebuild establishes it.
    - SyncPlane, SyncData: the reasoning about a handler that logs no failure
      ([calm]), the dataplane as predicates ([Plane]) with a rule for each call, and
      how members, routes and allowed IPs follow rows that leave. SyncHandlers,
      SyncDeletes, SyncGrowth, SyncQuiet: every handler keeps the agreement.
      SyncServe: so does every request through the router, and the relay a server
      reaches ([running]) forwards exactly the packets its database allows.
    - ApiOps: what a request does to the store is a run of repository operations, so
      what holds of every run holds of every server, and what creation makes true
      of a node or an announcement stays true. ConfigProps: a validated pool is apart
      from the VPN network. AppProps, RunProps: what a start that serves went through,
      and what one that fails leaves. Life: over all of a server's life ([life]: starts,
      requests of any outcome, kills, restarts) the database stays well formed and its
      blocks apart from the VPN's addresses, and a restart makes the relay forward
      exactly what the database allows; two requests that overlap can part the table
      from the database until then ([late_join_leaks]).
    - NatCtlProps: a rebuilt translation table is the given rules, reads back as them
      and maps a synthetic block onto the announced subnet host by host. EngineProps,
      EngineRoutes: what Up, Down and SetRoutes leave on success and on failure.
      DaemonProps: the watch loop converges. ClientPaths: the route a zone's path
      reaches. ClientSession joins the client to the server's
      router ([served]): an expired session is renewed behind a call. ClientReads: the
      listing calls answer what the store's queries say. RouterLists, RouterdProps: what
      these lists make of a database, and that one reconciliation makes the router's
      translation table and routes what the database says of its node. RouterCmdProps:
      what each command of the router may touch, what announcing a subnet and signing the
      router out come to. NodeReads: every call of a
      signed-in client is the server's handler of that operation. PanelProps: signing a machine out, over a network that
      loses messages, is done or blocked. OnboardProps: a machine that was set up, and
      the server that has its node, agree. StateFile: saving is all or nothing. PanelSync: the panel's route list is the
      database's. TunnelProps: the state of the tunnel is the truth under every
      interleaving, and what interleavings the code does not withstand; the engine
      leaks no adapter and reads its counters right. Netutil,
      RouteSyncProps: the canonical list of prefixes and the aggregation as functions of
      what they are given.
    - Base64JsProps, BufferJsProps, BufferOpsProps, BufferIntsProps: the viewer's
      encoders and decoders invert each other, agree with the standard encodings and
      stay within their budgets; comparison is the lexicographic order, search ends and finds
      the first or last occurrence, integers are read back as they were written.

    ** Conventions and bounds

    Times are seconds in the store, as the code stores them; the sub-second part
    is a field of the world. A SELECT without ORDER BY answers in table order.
    Addresses are 32-bit and the wrap-around of the code's sums is written out.
    Recursion is structural except for the allocator's scan, whose fuel is the number of
    candidate blocks of the pool ([alloc_fuel_enough] shows it suffices), the retries of
    code generation, which the code itself bounds, TrimSpace and the loops of the
    JavaScript, whose fuel is the length of what they run over, where every round
    advances, or for the search, which goes back, the product of both lengths
    ([Buffer_search] shows it never runs out). The driver's failures are a list of
    booleans, one per statement: an empty list is a driver that does not fail.

    ** Not modelled

    Requests are served one after the other, but in Life, where the database sees any
    sequence of repository operations and one overlap of a join with a leave is played
    out: the interleavings of the handlers' calls on the kernel are not modelled in
    general. Nor are the decoding of TOML, logging, JSON and HTTP framing, TLS and process
    lifecycle, the migration runner; the rest of the viewer's bundle (third-party user
    interface) and of its Buffer (floating point, 64-bit integers, fill, copy, concat, swap); of the desktop client (internal/client) the user
    interface, the languages, the files and system calls behind its interfaces (wireguard-go
    is a class with laws), the datagram that probes the server; the entry points of the server's and
    the desktop client's binaries (cmd/lanweaved, cmd/lanweave-client).
    The verification of a dummy hash that equalises the time of a failed login has
    no effect and is left out. *)
From stdpp Require Export base numbers list strings gmap fin_maps pretty.
From Stdlib Require Export ZArith Lia.
From Stdlib Require Import Ascii.

#[export] Set Warnings "-clear-no-such-hyp".
#[global] Open Scope string_scope.
#[global] Open Scope list_scope.
#[global] Open Scope Z_scope.

(** ** Results, as Go's [(value, error)] pairs *)

Inductive res (E A : Type) : Type :=
| Ok (a : A)
| Err (e : E).
Arguments Ok {E A} a.
Arguments Err {E A} e.

#[global] Instance res_eq_dec E A `{EqDecision E, EqDecision A} : EqDecision (res E A).
Proof. solve_decision. Defined.

Definition is_ok {E A} (r : res E A) : bool := match r with Ok _ => true | Err _ => false end.

(** ** The state-and-error monad the stateful components are written in *)

Definition M (E S A : Type) : Type := S -> res E A * S.

Definition ret {E S A} (a : A) : M E S A := fun s => (Ok a, s).
Definition throw {E S A} (e : E) : M E S A := fun s => (Err e, s).
Definition bind {E S A B} (m : M E S A) (f : A -> M E S B) : M E S B := fun s =>
  match m s with
  | (Ok a, s') => f a s'
  | (Err e, s') => (Err e, s')
  end.

(** [try m] runs [m] and returns its outcome as a value: the [if err != nil]
    that follows a Go call inspects it. *)
Definition try {E S A} (m : M E S A) : M E S (res E A) := fun s =>
  let '(r, s') := m s in (Ok r, s').

Definition gets {E S A} (f : S -> A) : M E S A := fun s => (Ok (f s), s).
Definition modify {E S} (f : S -> S) : M E S unit := fun s => (Ok tt, f s).

Declare Scope lw_scope.
Delimit Scope lw_scope with lw.
Notation "'let!' x ':=' m 'in' k" := (bind m (fun x => k))
  (at level 10, x pattern, m at level 100, k at level 200) : lw_scope.
Notation "'do!' m 'in' k" := (bind m (fun _ => k))
  (at level 10, m at level 100, k at level 200) : lw_scope.

(** [when b m] is Go's [if b { m }] with a statement that yields no value. *)
Definition when {E S} (b : bool) (m : M E S unit) : M E S unit := if b then m else ret tt.

Fixpoint for_each {E S A} (l : list A) (f : A -> M E S unit) : M E S unit :=
  match l with
  | [] => ret tt
  | x :: l => bind (f x) (fun _ => for_each l f)
  end.

Fixpoint map_each {E S A B} (l : list A) (f : A -> M E S B) : M E S (list B) :=
  match l with
  | [] => ret []
  | x :: l => bind (f x) (fun y => bind (map_each l f) (fun ys => ret (y :: ys)))
  end.

(** ** Lists *)

Lemma and_not_nil {A} (P : Prop) (x : A) : P <-> P /\ (x ∉ []).
Proof. split; [by split; [|apply not_elem_of_nil]|by intros []]. Qed.
Lemma filter_of_fmap {A B} (P : B -> Prop) `{forall y, Decision (P y)} (f : A -> B) (l : list A) :
  filter P (f <$> l) = f <$> filter (fun x => P (f x)) l.
Proof. induction l as [|x l IH]; [done|]. rewrite fmap_cons, !filter_cons, IH. by destruct (decide (P (f x))). Qed.
Lemma filter_iff_in {A} (P Q : A -> Prop) `{forall x, Decision (P x)} `{forall x, Decision (Q x)} (l : list A) :
  (forall x, x ∈ l -> P x <-> Q x) -> filter P l = filter Q l.
Proof.
  induction l as [|x l IH]; intros Heq; [done|]. rewrite !filter_cons, IH by (intros; apply Heq; by right).
  specialize (Heq x (list_elem_of_here _ _)). destruct (decide (P x)), (decide (Q x)); tauto.
Qed.
Lemma filter_all {A} (P : A -> Prop) `{forall x, Decision (P x)} (l : list A) : (forall x, x ∈ l -> P x) -> filter P l = l.
Proof.
  induction l as [|x l IH]; intros HP; [done|]. rewrite filter_cons_True by (apply HP; left). f_equal.
  apply IH. intros y Hy. apply HP. by right.
Qed.

Lemma sublist_fmap_mono {A B} (f : A -> B) l k : sublist l k -> sublist (f <$> l) (f <$> k).
Proof. induction 1; simpl; by constructor. Qed.

(** A run whose result is known. *)
Lemma run_pair {A B} (p : A * B) a : fst p = a -> p = (a, snd p).
Proof. destruct p. simpl. by intros ->. Qed.

(** ** Weakest preconditions and preserved invariants *)

Section Wp.
  Context {E S : Type}.

Definition wp {A} (m : M E S A) (Q : res E A -> S -> Prop) (s : S) : Prop :=
    Q (fst (m s)) (snd (m s)).

Lemma wp_mono {A} (m : M E S A) (Q Q' : res E A -> S -> Prop) s :
    wp m Q s -> (forall r s', Q r s' -> Q' r s') -> wp m Q' s.
  Proof. unfold wp; eauto. Qed.

Lemma wp_ret {A} (a : A) (Q : res E A -> S -> Prop) s : Q (Ok a) s -> wp (ret a) Q s.
  Proof. done. Qed.

Lemma wp_throw {A} e (Q : res E A -> S -> Prop) s : Q (Err e) s -> wp (throw e) Q s.
  Proof. done. Qed.

Lemma wp_bind {A B} (m : M E S A) (f : A -> M E S B) Q s :
    wp m (fun r s' => match r with Ok a => wp (f a) Q s' | Err e => Q (Err e) s' end) s ->
    wp (bind m f) Q s.
  Proof. unfold wp, bind. by destruct (m s) as [[a|e] s']. Qed.

Lemma wp_try {A} (m : M E S A) Q s :
    wp m (fun r s' => Q (Ok r) s') s -> wp (try m) Q s.
  Proof. unfold wp, try. by destruct (m s). Qed.

  (** [pres I m]: running [m] keeps the state invariant [I], whatever [m] returns. *)
Definition pres {A} (I : S -> Prop) (m : M E S A) : Prop := forall s, I s -> I (snd (m s)).

Lemma pres_ret {A} I (a : A) : pres I (ret a).
  Proof. by intros s ?. Qed.
Lemma pres_throw {A} I e : pres I (throw (A:=A) e).
  Proof. by intros s ?. Qed.
Lemma pres_gets {A} I (f : S -> A) : pres I (gets f).
  Proof. by intros s ?. Qed.
Lemma pres_bind {A B} I (m : M E S A) (f : A -> M E S B) :
    pres I m -> (forall a, pres I (f a)) -> pres I (bind m f).
  Proof.
    intros Hm Hf s Hs. unfold bind. specialize (Hm s Hs).
    destruct (m s) as [[a|e] s'] eqn:Hms; [by apply Hf|done].
  Qed.
Lemma pres_try {A} I (m : M E S A) : pres I m -> pres I (try m).
  Proof. intros Hm s Hs. unfold try. specialize (Hm s Hs). by destruct (m s). Qed.
Lemma pres_when I b (m : M E S unit) : pres I m -> pres I (when b m).
  Proof. destruct b; [done|]. intros _. apply pres_ret. Qed.
Lemma pres_for_each {A} I (l : list A) (f : A -> M E S unit) :
    (forall x, pres I (f x)) -> pres I (for_each l f).
  Proof.
    intros Hf. induction l as [|x l IH]; simpl; [apply pres_ret|].
    apply pres_bind; [apply Hf|done].
  Qed.
Lemma pres_map_each {A B} I (l : list A) (f : A -> M E S B) :
    (forall x, pres I (f x)) -> pres I (map_each l f).
  Proof.
    intros Hf. induction l as [|x l IH]; simpl; [apply pres_ret|].
    apply pres_bind; [apply Hf|intros y]. apply pres_bind; [done|intros ys]. apply pres_ret.
  Qed.
End Wp.

Create HintDb pres discriminated.
#[export] Hint Resolve pres_ret pres_throw pres_gets : pres.

(** [pres_auto] proves [pres I m] for a handler assembled from operations whose
    [pres] lemmas are in the hint database, splitting on every branch. *)
Ltac pres_auto :=
  repeat first
    [ progress intros
    | solve [auto with pres nocore]
    | match goal with
      | |- pres _ (let x := ?v in _) => cbv zeta
      | |- pres _ (bind _ _) => apply pres_bind
      | |- pres _ (for_each _ _) => apply pres_for_each
      | |- pres _ (map_each _ _) => apply pres_map_each
      | |- pres _ (when _ _) => apply pres_when
      | |- pres _ (try _) => apply pres_try
      | |- pres _ (match ?x with _ => _ end) => destruct x
      | |- pres _ (if ?b then _ else _) => destruct b
      end ].
