(* ===== verification/GoStrings.v ===== *)
(** * The part of [strings] and [strconv] the repository uses

    Standard-library functions on byte strings, with the round trips between
    decimal printing ([%d], [FormatInt]) and parsing ([ParseInt], [Atoi]). *)
From S2P Require Import Prelude.
From Stdlib Require Import Ascii.


(** ** Splitting and searching *)

Fixpoint Split (c : ascii) (s : string) : list string :=
  match s with
  | "" => [""]
  | String a r =>
      if decide (a = c) then "" :: Split c r
      else match Split c r with
           | [] => [String a ""]
           | h :: t => String a h :: t
           end
  end.

(** [strings.Cut] on a one-byte separator. *)
Fixpoint Cut (c : ascii) (s : string) : option (string * string) :=
  match s with
  | "" => None
  | String a r =>
      if decide (a = c) then Some ("", r)
      else match Cut c r with Some (x, y) => Some (String a x, y) | None => None end
  end.

(** Split at the last occurrence, as [LastIndexByte] is used. *)
Fixpoint CutLast (c : ascii) (s : string) : option (string * string) :=
  match s with
  | "" => None
  | String a r =>
      match CutLast c r with
      | Some (x, y) => Some (String a x, y)
      | None => if decide (a = c) then Some ("", r) else None
      end
  end.

Fixpoint HasPrefix (p s : string) : bool :=
  match p, s with
  | "", _ => true
  | String a p, String b s => bool_decide (a = b) && HasPrefix p s
  | _, "" => false
  end.

Fixpoint CutPrefix (s p : string) {struct p} : option string :=
  match p, s with
  | "", _ => Some s
  | String a p, String b s => if decide (a = b) then CutPrefix s p else None
  | _, "" => None
  end.

(** [strings.Contains(s, sub)]. *)
Fixpoint StrContains (s sub : string) : bool :=
  HasPrefix sub s || match s with "" => false | String _ r => StrContains r sub end.

Fixpoint chars (P : ascii -> bool) (s : string) : bool :=
  match s with "" => true | String a r => P a && chars P r end.

Abbreviation no_char c := (chars (fun a => bool_decide (a <> c))).

Lemma chars_app P s t : chars P (s +:+ t) = chars P s && chars P t.
Proof. induction s as [|a s IH]; simpl; [done|]. by rewrite <- andb_assoc, <- IH. Qed.
Lemma chars_impl (P Q : ascii -> bool) s :
  (forall a, P a = true -> Q a = true) -> chars P s = true -> chars Q s = true.
Proof.
  intros HPQ. induction s as [|a s IH]; simpl; [done|].
  rewrite !andb_true_iff. intros [? ?]; auto.
Qed.

Lemma Split_no_char c s : no_char c s = true -> Split c s = [s].
Proof.
  induction s as [|a s IH]; simpl; [done|]. rewrite andb_true_iff. intros [Ha Hs].
  case_bool_decide; [|done]. rewrite decide_False by done. by rewrite IH.
Qed.
Lemma Split_app c s t : no_char c s = true -> Split c (s +:+ String c "" +:+ t) = s :: Split c t.
Proof.
  change (String c "" +:+ t) with (String c t).
  induction s as [|a s IH]; simpl; [by rewrite decide_True|].
  rewrite andb_true_iff. intros [Ha Hs]. case_bool_decide; [|done].
  rewrite decide_False by done.
  by rewrite IH.
Qed.
Lemma Split_snoc c s t : no_char c t = true -> Split c (s +:+ String c t) = Split c s ++ [t].
Proof.
  intros Ht. induction s as [|a s IH].
  - change ("" +:+ String c t) with (String c t). cbn [Split]. rewrite decide_True by done. by rewrite (Split_no_char _ _ Ht).
  - change (String a s +:+ String c t) with (String a (s +:+ String c t)). cbn [Split]. rewrite IH. case_decide; [done|].
    destruct (Split c s) as [|x xs] eqn:Hs; [|done]. exfalso. clear -Hs. destruct s as [|b s]; [done|]. cbn [Split] in Hs.
    case_decide; [done|]. by destruct (Split c s).
Qed.
Lemma Cut_app c s t : no_char c s = true -> Cut c (s +:+ String c "" +:+ t) = Some (s, t).
Proof.
  change (String c "" +:+ t) with (String c t).
  induction s as [|a s IH]; simpl; [by rewrite decide_True|].
  rewrite andb_true_iff. intros [Ha Hs]. case_bool_decide; [|done].
  rewrite decide_False by done.
  by rewrite IH.
Qed.
Lemma CutLast_none c s : no_char c s = true -> CutLast c s = None.
Proof.
  induction s as [|a s IH]; simpl; [done|]. rewrite andb_true_iff. intros [Ha Hs].
  case_bool_decide; [|done]. rewrite IH by done. by rewrite decide_False.
Qed.
Lemma CutLast_app c s t : no_char c t = true -> CutLast c (s +:+ String c "" +:+ t) = Some (s, t).
Proof.
  change (String c "" +:+ t) with (String c t).
  intros Ht. induction s as [|a s IH]; simpl.
  - by rewrite CutLast_none, decide_True.
  - by rewrite IH.
Qed.
Lemma CutLast_parts c s x y : CutLast c s = Some (x, y) -> s = x +:+ String c y /\ no_char c y = true.
Proof.
  assert (forall t, CutLast c t = None -> no_char c t = true) as Hnone.
  { induction t as [|b t IH]; [done|]. cbn [CutLast chars]. destruct (CutLast c t) as [[]|]; [done|]. case_decide; [done|].
    intros _. by rewrite bool_decide_true, IH. }
  revert x. induction s as [|a s IH]; intros x; [done|]. cbn [CutLast]. destruct (CutLast c s) as [[x1 y1]|] eqn:Hc.
  - intros [= <- <-]. destruct (IH x1 eq_refl) as [-> Hy]. done.
  - case_decide; [|done]. intros [= <- <-]. subst. split; [done|]. by apply Hnone.
Qed.
Lemma CutPrefix_app p s : CutPrefix (p +:+ s) p = Some s.
Proof. induction p as [|a p IH]; simpl; [done|]. by rewrite decide_True. Qed.

(** ** [path.Clean], and [path/filepath]'s on Unix *)

(** The elements of a cleaned path, [acc] reversed. *)
Fixpoint clean_elems (rooted : bool) (acc l : list string) : list string :=
  match l with
  | [] => rev acc
  | e :: l =>
      if bool_decide (e = "" \/ e = ".") then clean_elems rooted acc l else
      if bool_decide (e = "..") then
        match acc with
        | [] => clean_elems rooted (if rooted then [] else [".."]) l
        | top :: up => clean_elems rooted (if bool_decide (top = "..") then ".." :: acc else up) l
        end
      else clean_elems rooted (e :: acc) l
  end.
Definition Clean (path : string) : string :=
  let rooted := match path with String a _ => bool_decide (a = "/"%char) | "" => false end in
  let body := String.concat "/" (clean_elems rooted [] (Split "/"%char path)) in
  if rooted then "/" +:+ body else if bool_decide (body = "") then "." else body.

Example cleaned : Clean <$> ["/a//b/../c/."; "a/../../b"; "/.."; ""; "./x/"] = ["/a/c"; "../b"; "/"; "."; "x"].
Proof. by vm_compute. Qed.

(** An element that cleaning keeps. *)
Definition proper (e : string) : Prop := e <> "" /\ e <> "." /\ e <> "..".
#[export] Instance proper_dec e : Decision (proper e).
Proof. unfold proper. apply _. Defined.

Lemma clean_elems_proper rooted l acc : Forall proper l -> clean_elems rooted acc l = rev acc ++ l.
Proof.
  intros Hl. revert acc. induction Hl as [|e l (H1 & H2 & H3) _ IH]; intros acc; [by rewrite app_nil_r|].
  cbn [clean_elems]. rewrite !bool_decide_false, IH by tauto. cbn [rev]. by rewrite <- app_assoc.
Qed.
Lemma concat_Split c s : String.concat (String c "") (Split c s) = s.
Proof.
  induction s as [|a s IH]; [done|]. cbn [Split]. case_decide as Ha.
  - subst a. destruct (Split c s) as [|x l] eqn:Hs; [|by rewrite <- IH]. exfalso. clear -Hs. destruct s as [|b s]; [done|].
    cbn [Split] in Hs. case_decide; [done|]. by destruct (Split c s).
  - destruct (Split c s) as [|x l]; [by rewrite <- IH|]. rewrite <- IH. by destruct l.
Qed.
(** A rooted path of such elements is its own cleaning. *)
Lemma Clean_proper l s : Split "/"%char s = "" :: l -> l <> [] -> Forall proper l -> Clean s = s.
Proof.
  intros Hs Hne Hl. pose proof (concat_Split "/"%char s) as Hc. rewrite Hs in Hc. destruct l as [|e l]; [done|].
  change (String.concat (String "/" "") ("" :: e :: l)) with ("/" +:+ String.concat "/" (e :: l)) in Hc.
  unfold Clean. rewrite Hs. change (clean_elems ?b [] ("" :: e :: l)) with (clean_elems b [] (e :: l)).
  rewrite clean_elems_proper by done. cbn [rev app]. by rewrite <- Hc.
Qed.

(** ** Decimal numbers *)

Definition digit_of (a : ascii) : option Z :=
  let n := Z.of_nat (nat_of_ascii a) in
  if (48 <=? n) && (n <=? 57) then Some (n - 48) else None.
Definition is_digit (a : ascii) : bool := bool_decide (is_Some (digit_of a)).

Fixpoint parse_digits (acc : Z) (s : string) : option Z :=
  match s with
  | "" => Some acc
  | String a r => d ← digit_of a; parse_digits (acc * 10 + d) r
  end.

Definition parse_dec (s : string) : option Z :=
  match s with "" => None | _ => parse_digits 0 s end.

(** [strconv.ParseInt(s, 10, 64)] (and [Atoi] on a 64-bit platform). *)
Definition ParseInt64 (s : string) : option Z :=
  let '(neg, body) := match s with
                      | String a r => if decide (a = "-"%char) then (true, r)
                                      else if decide (a = "+"%char) then (false, r) else (false, s)
                      | "" => (false, s)
                      end in
  n ← parse_dec body;
  let v := if neg then - n else n in
  if (- 2 ^ 63 <=? v) && (v <? 2 ^ 63) then Some v else None.

Lemma digit_of_char n : (n < 10)%N -> digit_of (pretty_N_char n) = Some (Z.of_N n).
Proof.
  intros H. assert (n ∈ N.of_nat <$> seq 0 10) as Hn.
  { apply list_elem_of_fmap. exists (N.to_nat n). split; [lia|]. apply elem_of_seq. lia. }
  clear H. revert n Hn. apply Forall_forall. by repeat constructor.
Qed.

Lemma parse_digits_pretty_go x s :
  parse_digits 0 (pretty_N_go x s) = parse_digits (Z.of_N x) s.
Proof.
  revert s. induction (N.lt_wf_0 x) as [x _ IH]; intros s.
  destruct (decide (x = 0)%N) as [->|Hx]; [by rewrite pretty_N_go_0|].
  rewrite pretty_N_go_step by lia. rewrite IH by (apply N.div_lt; lia). simpl.
  rewrite digit_of_char by (apply N.mod_lt; done). simpl. f_equal.
  pose proof (N.div_mod x 10). lia.
Qed.

Lemma chars_pretty_go P x s :
  (forall n, (n < 10)%N -> P (pretty_N_char n) = true) ->
  chars P s = true -> chars P (pretty_N_go x s) = true.
Proof.
  intros HP. revert s. induction (N.lt_wf_0 x) as [x _ IH]; intros s Hs.
  destruct (decide (x = 0)%N) as [->|Hx]; [by rewrite pretty_N_go_0|].
  rewrite pretty_N_go_step by lia. apply IH; [apply N.div_lt; lia|]. simpl.
  rewrite HP by (apply N.mod_lt; done). done.
Qed.

Lemma pretty_N_digits (n : N) : chars is_digit (pretty n) = true.
Proof.
  unfold pretty, pretty_N. case_decide; [done|]. apply chars_pretty_go; [|done].
  intros k Hk. unfold is_digit. rewrite digit_of_char by done. done.
Qed.
Lemma parse_dec_pretty_N (n : N) : parse_dec (pretty n) = Some (Z.of_N n).
Proof.
  unfold pretty, pretty_N. case_decide; [by subst|].
  transitivity (parse_digits 0 (pretty_N_go n "")); [|apply parse_digits_pretty_go].
  unfold parse_dec. destruct (pretty_N_go n "") eqn:E; [|done].
  pose proof (parse_digits_pretty_go n "") as H1. rewrite E in H1. simpl in H1. injection H1. lia.
Qed.

Lemma pretty_Z_nonneg z : 0 <= z -> pretty z = pretty (Z.to_N z).
Proof. destruct z; done. Qed.
Lemma parse_dec_pretty z : 0 <= z -> parse_dec (pretty z) = Some z.
Proof. intros H. rewrite pretty_Z_nonneg, parse_dec_pretty_N by done. f_equal. lia. Qed.
Lemma pretty_Z_digits z : 0 <= z -> chars is_digit (pretty z) = true.
Proof. intros H. rewrite pretty_Z_nonneg by done. apply pretty_N_digits. Qed.

Lemma digits_no_char c s : is_digit c = false -> chars is_digit s = true -> no_char c s = true.
Proof. intros Hc. apply chars_impl. intros a Ha. case_bool_decide; [done|]. subst. congruence. Qed.

(** Printing an integer never produces the given non-digit byte (other than a sign). *)
Lemma pretty_Z_no_char c (z : Z) : is_digit c = false -> c <> "-"%char -> no_char c (pretty z) = true.
Proof.
  intros Hc Hm. destruct z as [|p|p].
  - apply digits_no_char; [done|]. apply (pretty_Z_digits 0). lia.
  - apply digits_no_char; [done|]. apply (pretty_Z_digits (Z.pos p)). lia.
  - change (no_char c ("-" +:+ pretty (N.pos p)) = true). rewrite chars_app.
    apply andb_true_iff. split; [simpl; by rewrite bool_decide_true|].
    apply digits_no_char; [done|]. apply pretty_N_digits.
Qed.

Lemma ParseInt64_pretty z : 0 <= z < 2 ^ 63 -> ParseInt64 (pretty z) = Some z.
Proof.
  intros H. pose proof (pretty_Z_digits z ltac:(lia)) as Hd.
  pose proof (parse_dec_pretty z ltac:(lia)) as Hp. unfold ParseInt64.
  destruct (pretty z) as [|a r]; [done|]. simpl in Hd. apply andb_true_iff in Hd as [Ha _].
  rewrite decide_False by (intros ->; done). rewrite decide_False by (intros ->; done).
  rewrite Hp. simpl. rewrite (proj2 (Z.leb_le _ _)), (proj2 (Z.ltb_lt _ _)) by lia. done.
Qed.

(** ** White space *)

(** The UTF-8 encodings of the code points [unicode.IsSpace] accepts. *)
Definition space_encodings : list (list nat) :=
  [[9]; [10]; [11]; [12]; [13]; [32]; [194; 133]; [194; 160]; [225; 154; 128];
   [226; 128; 128]; [226; 128; 129]; [226; 128; 130]; [226; 128; 131]; [226; 128; 132];
   [226; 128; 133]; [226; 128; 134]; [226; 128; 135]; [226; 128; 136]; [226; 128; 137];
   [226; 128; 138]; [226; 128; 168]; [226; 128; 169]; [226; 128; 175]; [226; 129; 159];
   [227; 128; 128]]%nat.

Fixpoint strip_bytes (p l : list nat) : option (list nat) :=
  match p, l with
  | [], _ => Some l
  | x :: p, y :: l => if decide (x = y) then strip_bytes p l else None
  | _, [] => None
  end.
Fixpoint first_strip (ps : list (list nat)) (l : list nat) : option (list nat) :=
  match ps with
  | [] => None
  | p :: ps => match strip_bytes p l with Some r => Some r | None => first_strip ps l end
  end.
Fixpoint trim_left (fuel : nat) (ps : list (list nat)) (l : list nat) : list nat :=
  match fuel with
  | O => l
  | S fuel => match first_strip ps l with Some r => trim_left fuel ps r | None => l end
  end.

Fixpoint bytes_of (s : string) : list nat :=
  match s with "" => [] | String a r => nat_of_ascii a :: bytes_of r end.
Fixpoint of_bytes (l : list nat) : string :=
  match l with [] => "" | b :: r => String (ascii_of_nat b) (of_bytes r) end.

(** [strings.TrimSpace]: fuel [length] suffices, each step drops at least a byte. *)
Definition TrimSpace (s : string) : string :=
  let l := bytes_of s in
  let l := trim_left (length l) space_encodings l in
  let l := reverse (trim_left (length l) (reverse <$> space_encodings) (reverse l)) in
  of_bytes l.

Lemma of_bytes_of s : of_bytes (bytes_of s) = s.
Proof. induction s as [|a s IH]; simpl; [done|]. by rewrite ascii_nat_embedding, IH. Qed.
Lemma bytes_of_app s t : bytes_of (s +:+ t) = bytes_of s ++ bytes_of t.
Proof. induction s as [|a s IH]; simpl; [done|]. by rewrite <- IH. Qed.

(** Printable ASCII other than the space. *)
Definition graphic (a : ascii) : bool := Nat.ltb 32 (nat_of_ascii a) && Nat.ltb (nat_of_ascii a) 127.
Definition graphic_byte (b : nat) : Prop := (32 < b < 127)%nat.

Lemma graphic_bytes s : chars graphic s = true -> Forall graphic_byte (bytes_of s).
Proof.
  induction s as [|a s IH]; simpl; [constructor|]. rewrite andb_true_iff. intros [Ha Hs].
  constructor; [|by apply IH]. unfold graphic in Ha. apply andb_true_iff in Ha as [H1 H2].
  apply Nat.ltb_lt in H1, H2. done.
Qed.

(** Every encoding starts with a byte that is not graphic. *)
Definition no_graphic (ps : list (list nat)) : bool :=
  forallb (fun p => match p with x :: _ => Nat.leb x 32 || Nat.leb 127 x | [] => false end) ps.

Lemma trim_graphic ps b l fuel : no_graphic ps = true -> graphic_byte b ->
  trim_left fuel ps (b :: l) = b :: l.
Proof.
  intros Hps Hb. destruct fuel; cbn [trim_left]; [done|].
  assert (first_strip ps (b :: l) = None) as ->; [|done].
  unfold no_graphic in Hps. induction ps as [|p ps IH]; cbn [forallb first_strip] in *; [done|].
  apply andb_true_iff in Hps as [Hp Hps]. rewrite (IH Hps).
  destruct p as [|x p]; [done|]. cbn [strip_bytes]. rewrite decide_False; [done|]. intros ->. unfold graphic_byte in Hb.
  apply orb_true_iff in Hp as [Hx%Nat.leb_le|Hx%Nat.leb_le]; lia.
Qed.

(** ** ASCII case folding *)

Definition lower_char (a : ascii) : ascii :=
  let n := nat_of_ascii a in
  if (Nat.leb 65 n && Nat.leb n 90)%bool then ascii_of_nat (n + 32) else a.
Fixpoint lower_ascii (s : string) : string :=
  match s with "" => "" | String a r => String (lower_char a) (lower_ascii r) end.
