(* ===== verification/Netip.v ===== *)
(** * The part of [net/netip] and [encoding/binary] the repository uses

    Standard-library functions only: IPv4 addresses as 32-bit values, CIDR
    prefixes, their parsing and their textual form.  IPv6 text is recognised
    by a parameter ([NetipV6]): the repository only ever tests such a prefix
    for being IPv6. *)
From S2P Require Import Prelude GoStrings.
From Stdlib Require Import Ascii.

(** ** Fixed-width arithmetic *)

Definition W32 : Z := 2 ^ 32.
Definition u32 (x : Z) : Z := x mod W32.
Definition is_u32 (x : Z) : Prop := 0 <= x < W32.

Lemma u32_id x : is_u32 x -> u32 x = x.
Proof. intros H. apply Z.mod_small, H. Qed.
Lemma u32_range x : is_u32 (u32 x).
Proof. unfold is_u32, u32. apply Z.mod_pos_bound. reflexivity. Qed.
#[export] Hint Resolve u32_range : core.

(** ** Addresses: an IPv4 [netip.Addr] is its 32-bit value *)

Abbreviation Addr := Z (only parsing).

Definition As4 (a : Addr) : list Z :=
  [Z.shiftr a 24 mod 256; Z.shiftr a 16 mod 256; Z.shiftr a 8 mod 256; a mod 256].
Definition AddrFrom4 (b : list Z) : Addr :=
  match b with
  | [b0; b1; b2; b3] => Z.lor (Z.lor (Z.shiftl b0 24) (Z.shiftl b1 16)) (Z.lor (Z.shiftl b2 8) b3)
  | _ => 0
  end.

(** [binary.BigEndian.Uint32] and [PutUint32]. *)
Definition be_Uint32 (b : list Z) : Z :=
  match b with
  | [b0; b1; b2; b3] => Z.lor (Z.lor b3 (Z.shiftl b2 8)) (Z.lor (Z.shiftl b1 16) (Z.shiftl b0 24))
  | _ => 0
  end.
Definition be_PutUint32 (v : Z) : list Z :=
  [Z.shiftr v 24 mod 256; Z.shiftr v 16 mod 256; Z.shiftr v 8 mod 256; v mod 256].

(** Combining disjoint bytes is a sum. *)
Lemma lor_shiftl_add x y k :
  0 <= k -> 0 <= y < 2 ^ k -> Z.lor (Z.shiftl x k) y = x * 2 ^ k + y.
Proof.
  intros Hk Hy. rewrite <- Z.shiftl_mul_pow2, <- Z.add_lor_land by done.
  enough (Z.land (Z.shiftl x k) y = 0) as -> by lia.
  apply Z.bits_inj'. intros n Hn. rewrite Z.land_spec, Z.bits_0.
  destruct (decide (n < k)); [by rewrite Z.shiftl_spec_low|].
  rewrite <- (Z.mod_small y (2 ^ k)), Z.mod_pow2_bits_high by lia. apply andb_false_r.
Qed.

Lemma bytes_sum b0 b1 b2 b3 :
  0 <= b0 < 256 -> 0 <= b1 < 256 -> 0 <= b2 < 256 -> 0 <= b3 < 256 ->
  AddrFrom4 [b0; b1; b2; b3] = b0 * 2 ^ 24 + b1 * 2 ^ 16 + b2 * 2 ^ 8 + b3 /\
  be_Uint32 [b0; b1; b2; b3] = b0 * 2 ^ 24 + b1 * 2 ^ 16 + b2 * 2 ^ 8 + b3.
Proof.
  intros H0 H1 H2 H3.
  assert (AddrFrom4 [b0; b1; b2; b3] = b0 * 2 ^ 24 + b1 * 2 ^ 16 + b2 * 2 ^ 8 + b3) as E.
  { unfold AddrFrom4. rewrite (lor_shiftl_add b2 b3 8) by lia.
    rewrite <- Z.lor_assoc, (lor_shiftl_add b1 _ 16) by lia.
    rewrite lor_shiftl_add by lia. lia. }
  split; [done|]. rewrite <- E. unfold AddrFrom4, be_Uint32.
  rewrite (Z.lor_comm b3), (Z.lor_comm (Z.shiftl b1 16)), Z.lor_comm. done.
Qed.

Lemma bytes_of_u32 v :
  Z.shiftr v 24 mod 256 * 2 ^ 24 + Z.shiftr v 16 mod 256 * 2 ^ 16
    + Z.shiftr v 8 mod 256 * 2 ^ 8 + v mod 256 = u32 v.
Proof.
  rewrite !Z.shiftr_div_pow2 by lia. unfold u32, W32. Z.div_mod_to_equations. lia.
Qed.

Lemma byte_range x : 0 <= x mod 256 < 256.
Proof. apply Z.mod_pos_bound. lia. Qed.
#[export] Hint Resolve byte_range : core.

Lemma be_Uint32_As4 a : be_Uint32 (As4 a) = u32 a.
Proof. unfold As4. rewrite (proj2 (bytes_sum _ _ _ _ (byte_range _) (byte_range _) (byte_range _) (byte_range _))). apply bytes_of_u32. Qed.
Lemma AddrFrom4_be v : AddrFrom4 (be_PutUint32 v) = u32 v.
Proof. unfold be_PutUint32. rewrite (proj1 (bytes_sum _ _ _ _ (byte_range _) (byte_range _) (byte_range _) (byte_range _))). apply bytes_of_u32. Qed.

Lemma As4_inj a b : is_u32 a -> is_u32 b -> As4 a = As4 b -> a = b.
Proof.
  intros Ha Hb E. apply (f_equal be_Uint32) in E.
  rewrite !be_Uint32_As4, !u32_id in E by done. done.
Qed.

(** ** Prefixes *)

(** An IPv4 [netip.Prefix]. *)
Record Prefix : Type := PrefixFrom { Addr_of : Addr; Bits : Z }.
#[export] Instance Prefix_eq_dec : EqDecision Prefix.
Proof. solve_decision. Defined.
#[export] Instance Prefix_countable : Countable Prefix.
Proof.
  refine (inj_countable' (fun p => (Addr_of p, Bits p)) (fun '(a, b) => PrefixFrom a b) _).
  by intros [].
Defined.

(** A valid prefix, as [ParsePrefix] returns it. *)
Definition prefix_ok (p : Prefix) : Prop := is_u32 (Addr_of p) /\ 0 <= Bits p <= 32.

(** [Prefix.Masked]: the host bits cleared. *)
Definition mask_addr (a bits : Z) : Z := Z.shiftl (Z.shiftr a (32 - bits)) (32 - bits).
Definition Masked (p : Prefix) : Prefix := PrefixFrom (mask_addr (Addr_of p) (Bits p)) (Bits p).

(** [Prefix.Contains]: the top [Bits] bits agree. *)
Definition Contains (p : Prefix) (a : Addr) : bool :=
  Z.shiftr (Addr_of p) (32 - Bits p) =? Z.shiftr a (32 - Bits p).

(** [Prefix.Overlaps] on IPv4 prefixes: the shorter one decides. *)
Definition PrefixOverlaps (p q : Prefix) : bool :=
  let n := Z.min (Bits p) (Bits q) in
  Z.shiftr (Addr_of p) (32 - n) =? Z.shiftr (Addr_of q) (32 - n).

Lemma mask_addr_eq a bits : 0 <= bits <= 32 -> mask_addr a bits = a - a mod 2 ^ (32 - bits).
Proof.
  intros Hb. unfold mask_addr. rewrite Z.shiftr_div_pow2, Z.shiftl_mul_pow2 by lia.
  pose proof (Z.div_mod a (2 ^ (32 - bits)) ltac:(lia)). lia.
Qed.

Lemma pow_le_32 k : 0 <= k <= 32 -> 1 <= 2 ^ k <= W32.
Proof. intros H. unfold W32. split; [|apply Z.pow_le_mono_r; lia]. pose proof (Z.pow_pos_nonneg 2 k). lia. Qed.

Lemma W32_split bits : 0 <= bits <= 32 -> W32 = 2 ^ bits * 2 ^ (32 - bits).
Proof. intros H. unfold W32. rewrite <- Z.pow_add_r by lia. f_equal. lia. Qed.

(** A masked base plus its block stays inside the address space. *)
Lemma mask_addr_fits a bits :
  is_u32 a -> 0 <= bits <= 32 ->
  0 <= mask_addr a bits /\ mask_addr a bits + 2 ^ (32 - bits) <= W32 /\
  mask_addr a bits mod 2 ^ (32 - bits) = 0.
Proof.
  intros Ha Hb. pose proof (W32_split bits Hb) as HW.
  pose proof (pow_le_32 (32 - bits) ltac:(lia)) as Hp.
  unfold mask_addr. rewrite Z.shiftr_div_pow2, Z.shiftl_mul_pow2 by lia.
  pose proof (Z.div_pos a (2 ^ (32 - bits))) as Hd.
  assert (a / 2 ^ (32 - bits) < 2 ^ bits).
  { apply Z.div_lt_upper_bound; [lia|]. rewrite Z.mul_comm, <- HW. apply Ha. }
  destruct Ha as [Ha0 Ha1]. split; [nia|]. split; [nia|]. apply Z.mod_mul. lia.
Qed.

Lemma mask_addr_idemp a bits : 0 <= bits <= 32 -> mask_addr (mask_addr a bits) bits = mask_addr a bits.
Proof.
  intros Hb. unfold mask_addr. rewrite !Z.shiftr_div_pow2, !Z.shiftl_mul_pow2 by lia.
  rewrite Z.div_mul by lia. done.
Qed.

Lemma Masked_ok p : prefix_ok p -> prefix_ok (Masked p).
Proof.
  intros [Ha Hb]. split; [|done]. simpl.
  pose proof (mask_addr_fits _ _ Ha Hb). pose proof (pow_le_32 (32 - Bits p) ltac:(lia)).
  unfold is_u32. lia.
Qed.

Lemma Contains_iff p a :
  0 <= Bits p <= 32 ->
  Contains p a = true <->
  mask_addr (Addr_of p) (Bits p) <= a < mask_addr (Addr_of p) (Bits p) + 2 ^ (32 - Bits p).
Proof.
  intros Hb. unfold Contains, mask_addr. rewrite Z.eqb_eq, !Z.shiftr_div_pow2, Z.shiftl_mul_pow2 by lia.
  set (s := 2 ^ (32 - Bits p)). assert (0 < s) by (apply Z.pow_pos_nonneg; lia).
  pose proof (Z.div_mod a s ltac:(lia)). pose proof (Z.mod_pos_bound a s ltac:(lia)).
  split; [intros ->; nia|]. intros Hr.
  apply Z.le_antisymm; [apply Z.div_le_lower_bound; nia|].
  apply Z.lt_succ_r. apply Z.div_lt_upper_bound; nia.
Qed.

(** ** Text *)

(** [Addr.String] and [Prefix.String] on IPv4. *)
Definition octet_str (z : Z) : string := pretty z.
Definition AddrString (a : Addr) : string :=
  match As4 a with
  | [b0; b1; b2; b3] =>
      octet_str b0 +:+ "." +:+ octet_str b1 +:+ "." +:+ octet_str b2 +:+ "." +:+ octet_str b3
  | _ => ""
  end.
Definition PrefixString (p : Prefix) : string := AddrString (Addr_of p) +:+ "/" +:+ pretty (Bits p).

(** One field of a dotted quad: decimal digits, no leading zero, at most 255. *)
Definition parse_octet (s : string) : option Z :=
  match s with
  | String "0" (String _ _) => None
  | _ => n ← parse_dec s; if n <=? 255 then Some n else None
  end.

Definition ParseAddr4 (s : string) : option Addr :=
  match Split "."%char s with
  | [s0; s1; s2; s3] =>
      b0 ← parse_octet s0; b1 ← parse_octet s1; b2 ← parse_octet s2; b3 ← parse_octet s3;
      Some (AddrFrom4 [b0; b1; b2; b3])
  | _ => None
  end.

(** The bit count after the slash: digits, no leading zero unless it is "0", at most 32. *)
Definition parse_bits (s : string) : option Z :=
  match s with
  | String "0" (String _ _) => None
  | _ => n ← parse_dec s; if n <=? 32 then Some n else None
  end.

Definition ParsePrefix4 (s : string) : option Prefix :=
  '(a, b) ← CutLast "/"%char s;
  addr ← ParseAddr4 a; bits ← parse_bits b; Some (PrefixFrom addr bits).

(** IPv6 prefix text: outside the model, a parameter. *)
Class NetipV6 : Type := v6_prefix : string -> option (Z * Z).

Inductive AnyPrefix : Type :=
| P4 (p : Prefix)
| P6 (addr bits : Z).

Definition ParsePrefix `{NetipV6} (s : string) : option AnyPrefix :=
  match ParsePrefix4 s with
  | Some p => Some (P4 p)
  | None => '(a, b) ← v6_prefix s; Some (P6 a b)
  end.

(** *** Round trips *)

Definition small_ok (n : nat) : bool :=
  bool_decide (parse_octet (pretty (Z.of_nat n)) = Some (Z.of_nat n)).
Lemma parse_octet_str z : 0 <= z < 256 -> parse_octet (octet_str z) = Some z.
Proof.
  intros Hz. assert (forallb small_ok (seq 0 256) = true) as H by (vm_compute; done).
  rewrite forallb_forall in H. specialize (H (Z.to_nat z)).
  rewrite in_seq in H. specialize (H ltac:(lia)).
  apply bool_decide_eq_true in H. rewrite Z2Nat.id in H by lia. done.
Qed.

Definition small_bits_ok (n : nat) : bool :=
  bool_decide (parse_bits (pretty (Z.of_nat n)) = Some (Z.of_nat n)).
Lemma parse_bits_str z : 0 <= z <= 32 -> parse_bits (pretty z) = Some z.
Proof.
  intros Hz. assert (forallb small_bits_ok (seq 0 33) = true) as H by (vm_compute; done).
  rewrite forallb_forall in H. specialize (H (Z.to_nat z)).
  rewrite in_seq in H. specialize (H ltac:(lia)).
  apply bool_decide_eq_true in H. rewrite Z2Nat.id in H by lia. done.
Qed.

Lemma pretty_no_dot (z : Z) : no_char "."%char (pretty z) = true.
Proof. by apply pretty_Z_no_char. Qed.

Lemma ParseAddr4_String a : is_u32 a -> ParseAddr4 (AddrString a) = Some a.
Proof.
  intros Ha. unfold ParseAddr4, AddrString, As4, octet_str.
  rewrite !Split_app by apply pretty_no_dot. rewrite Split_no_char by apply pretty_no_dot.
  fold (octet_str (Z.shiftr a 24 mod 256)) (octet_str (Z.shiftr a 16 mod 256))
    (octet_str (Z.shiftr a 8 mod 256)) (octet_str (a mod 256)).
  rewrite !parse_octet_str by done. cbn -[AddrFrom4]. f_equal.
  rewrite <- (u32_id a Ha) at 5. rewrite <- (AddrFrom4_be a). done.
Qed.

Lemma ParsePrefix4_String p : prefix_ok p -> ParsePrefix4 (PrefixString p) = Some p.
Proof.
  intros [Ha Hb]. unfold ParsePrefix4, PrefixString.
  rewrite CutLast_app by (by apply pretty_Z_no_char). unfold mbind, option_bind.
  rewrite ParseAddr4_String, parse_bits_str by done. by destruct p.
Qed.

Lemma PrefixString_no_char c p :
  is_digit c = false -> c <> "-"%char -> c <> "."%char -> c <> "/"%char ->
  no_char c (PrefixString p) = true.
Proof.
  intros Hd Hm Hdot Hs. unfold PrefixString, AddrString, As4, octet_str.
  rewrite !chars_app, !pretty_Z_no_char by done. simpl. by rewrite !bool_decide_true.
Qed.

(** Whatever parses is a valid prefix. *)
Lemma parse_digits_nonneg acc s n : 0 <= acc -> parse_digits acc s = Some n -> 0 <= n.
Proof.
  revert acc. induction s as [|a s IH]; intros acc Hacc; simpl; [congruence|].
  destruct (digit_of a) as [d|] eqn:E; simpl; [|done]. apply IH.
  unfold digit_of in E. case_match; [|done]. simplify_eq.
  apply andb_true_iff in H as [H _]. apply Z.leb_le in H. lia.
Qed.
Lemma parse_dec_nonneg s n : parse_dec s = Some n -> 0 <= n.
Proof. unfold parse_dec. destruct s; [done|]. by apply parse_digits_nonneg. Qed.

Lemma parse_octet_range s n : parse_octet s = Some n -> 0 <= n < 256.
Proof.
  intros H. assert ((m ← parse_dec s; if m <=? 255 then Some m else None) = Some n) as E.
  { unfold parse_octet in H. repeat case_match; done. }
  clear H. destruct (parse_dec s) as [m|] eqn:Em; simpl in E; [|done].
  apply parse_dec_nonneg in Em. case_match; [|done]. simplify_eq. lia.
Qed.
Lemma parse_bits_range s n : parse_bits s = Some n -> 0 <= n <= 32.
Proof.
  intros H. assert ((m ← parse_dec s; if m <=? 32 then Some m else None) = Some n) as E.
  { unfold parse_bits in H. repeat case_match; done. }
  clear H. destruct (parse_dec s) as [m|] eqn:Em; simpl in E; [|done].
  apply parse_dec_nonneg in Em. case_match; [|done]. simplify_eq. lia.
Qed.

Lemma AddrFrom4_range b0 b1 b2 b3 :
  0 <= b0 < 256 -> 0 <= b1 < 256 -> 0 <= b2 < 256 -> 0 <= b3 < 256 ->
  is_u32 (AddrFrom4 [b0; b1; b2; b3]).
Proof. intros. rewrite (proj1 (bytes_sum b0 b1 b2 b3 ltac:(done) ltac:(done) ltac:(done) ltac:(done))). unfold is_u32, W32. lia. Qed.

Lemma ParseAddr4_range s a : ParseAddr4 s = Some a -> is_u32 a.
Proof.
  unfold ParseAddr4. destruct (Split "."%char s) as [|s0 [|s1 [|s2 [|s3 [|]]]]]; try done.
  destruct (parse_octet s0) as [b0|] eqn:E0; [|done].
  destruct (parse_octet s1) as [b1|] eqn:E1; [|done].
  destruct (parse_octet s2) as [b2|] eqn:E2; [|done].
  destruct (parse_octet s3) as [b3|] eqn:E3; [|done].
  unfold mbind, option_bind. intros [= <-]. apply AddrFrom4_range; eapply parse_octet_range; eassumption.
Qed.

Lemma ParsePrefix4_ok s p : ParsePrefix4 s = Some p -> prefix_ok p.
Proof.
  unfold ParsePrefix4. destruct (CutLast "/"%char s) as [[a b]|]; simpl; [|done].
  destruct (ParseAddr4 a) as [addr|] eqn:Ea; simpl; [|done].
  destruct (parse_bits b) as [bits|] eqn:Eb; simpl; [|done]. intros [= <-].
  split; simpl; [by eapply ParseAddr4_range|by eapply parse_bits_range].
Qed.
Lemma ParsePrefix_ok `{NetipV6} s p : ParsePrefix s = Some (P4 p) -> prefix_ok p.
Proof.
  unfold ParsePrefix. destruct (ParsePrefix4 s) as [q|] eqn:E.
  - intros [= <-]. by eapply ParsePrefix4_ok.
  - by destruct (v6_prefix s) as [[]|].
Qed.
