(* ===== verification/Ipam.v ===== *)
(** * Address-pool arithmetic ([internal/server/ipam])

    [PoolRange], the address conversions and the synthetic-block allocator,
    on [uint32] values kept at their width. *)
From S2P Require Import Prelude GoStrings Netip.

(** ** ipam.go *)

Inductive ipam_err : Type := ErrParse | ErrNotIPv4 | ErrTooSmall | ErrDoesNotFit | ErrNoSpace.
#[export] Instance ipam_err_eq_dec : EqDecision ipam_err.
Proof. solve_decision. Defined.

Definition AddrToUint32 (a : Addr) : Z := be_Uint32 (As4 a).
Definition Uint32ToAddr (u : Z) : Addr := AddrFrom4 (be_PutUint32 u).

Definition PoolRange `{NetipV6} (cidr : string) : res ipam_err (Z * Z) :=
  match ParsePrefix cidr with
  | None => Err ErrParse
  | Some (P6 _ _) => Err ErrNotIPv4
  | Some (P4 prefix) =>
      let prefix := Masked prefix in
      let base := AddrToUint32 (Addr_of prefix) in
      let hostBits := 32 - Bits prefix in
      let broadcast := Z.lor base (u32 (Z.shiftl 1 hostBits - 1)) in
      let first := u32 (base + 2) in
      let last := u32 (broadcast - 1) in
      if last <? first then Err ErrTooSmall else Ok (first, last)
  end.

(** ** blocks.go *)

Record Block : Type := mkBlock { Base : Z; PrefixLen : Z }.
#[export] Instance Block_eq_dec : EqDecision Block.
Proof. solve_decision. Defined.
#[export] Instance Block_countable : Countable Block.
Proof.
  refine (inj_countable' (fun b => (Base b, PrefixLen b)) (fun '(a, l) => mkBlock a l) _).
  by intros [].
Defined.

Definition BlockFromPrefix (p : Prefix) : Block :=
  let p := Masked p in mkBlock (AddrToUint32 (Addr_of p)) (Bits p).
Definition BlockPrefix (b : Block) : Prefix := PrefixFrom (Uint32ToAddr (Base b)) (PrefixLen b).

(** [uint64(1) << (32 - b.PrefixLen)]: at most [2^32], no wrap-around in 64 bits. *)
Definition size (b : Block) : Z := Z.shiftl 1 (32 - PrefixLen b).

Definition Overlaps (a b : Block) : bool :=
  let aStart := Base a in let aEnd := Base a + size a in
  let bStart := Base b in let bEnd := Base b + size b in
  (aStart <? bEnd) && (bStart <? aEnd).

Definition rfc1918 : list Prefix :=
  [ PrefixFrom (AddrFrom4 [10; 0; 0; 0]) 8;
    PrefixFrom (AddrFrom4 [172; 16; 0; 0]) 12;
    PrefixFrom (AddrFrom4 [192; 168; 0; 0]) 16 ].

Definition IsRFC1918 (p : Prefix) : bool :=
  existsb (fun r => Contains r (Addr_of p) && (Bits r <=? Bits p)) rfc1918.

(** The allocator's loop: [base] runs over the aligned slots of the pool. The
    loop body is the code's; [fuel] bounds the iterations and is computed from
    the pool's size below. *)
Fixpoint alloc_loop (fuel : nat) (base step poolEnd prefixLen : Z) (used : list Block)
    : option Block :=
  match fuel with
  | O => None
  | S fuel =>
      if base + step <=? poolEnd then
        let candidate := mkBlock (u32 base) prefixLen in
        if existsb (Overlaps candidate) used
        then alloc_loop fuel (base + step) step poolEnd prefixLen used
        else Some candidate
      else None
  end.

Definition alloc_fuel (poolSize step : Z) : nat := S (Z.to_nat (poolSize / step)).

Definition AllocateBlock (pool : AnyPrefix) (prefixLen : Z) (used : list Block)
    : res ipam_err Block :=
  match pool with
  | P6 _ _ => Err ErrNotIPv4
  | P4 pool =>
      if (prefixLen <? Bits pool) || (32 <? prefixLen) then Err ErrDoesNotFit
      else
        let poolBlock := BlockFromPrefix pool in
        let step := size (mkBlock 0 prefixLen) in
        let poolEnd := Base poolBlock + size poolBlock in
        match alloc_loop (alloc_fuel (size poolBlock) step) (Base poolBlock) step poolEnd
                prefixLen used with
        | Some candidate => Ok candidate
        | None => Err ErrNoSpace
        end
  end.

(** ** Conversions *)

Lemma AddrToUint32_u32 a : AddrToUint32 a = u32 a.
Proof. apply be_Uint32_As4. Qed.
Lemma Uint32ToAddr_u32 u : Uint32ToAddr u = u32 u.
Proof. apply AddrFrom4_be. Qed.
Lemma AddrToUint32_id a : is_u32 a -> AddrToUint32 a = a.
Proof. intros. by rewrite AddrToUint32_u32, u32_id. Qed.
Lemma Uint32ToAddr_col x : Uint32ToAddr (u32 x) = u32 x.
Proof. rewrite Uint32ToAddr_u32. apply u32_id, u32_range. Qed.
Lemma Uint32ToAddr_id a : is_u32 a -> Uint32ToAddr a = a.
Proof. intros. by rewrite Uint32ToAddr_u32, u32_id. Qed.

(** ** Blocks as sets of addresses *)

(** A block the pools deal in: a masked base and a length between 0 and 32. *)
Definition block_ok (b : Block) : Prop :=
  is_u32 (Base b) /\ 0 <= PrefixLen b <= 32 /\ Base b mod size b = 0.

Definition in_block (x : Z) (b : Block) : Prop := Base b <= x < Base b + size b.

Lemma size_pow b : PrefixLen b <= 32 -> size b = 2 ^ (32 - PrefixLen b).
Proof. intros. unfold size. by rewrite Z.shiftl_mul_pow2, Z.mul_1_l by lia. Qed.
Lemma size_pos b : PrefixLen b <= 32 -> 0 < size b.
Proof. intros. rewrite size_pow by done. apply Z.pow_pos_nonneg; lia. Qed.

Lemma Overlaps_iff a b :
  PrefixLen a <= 32 -> PrefixLen b <= 32 ->
  Overlaps a b = true <-> exists x, in_block x a /\ in_block x b.
Proof.
  intros Ha Hb. pose proof (size_pos a Ha). pose proof (size_pos b Hb).
  unfold Overlaps, in_block. rewrite andb_true_iff, !Z.ltb_lt. split.
  - intros [? ?]. exists (Z.max (Base a) (Base b)). lia.
  - intros (x & ? & ?). lia.
Qed.

Lemma Overlaps_sym a b : Overlaps a b = Overlaps b a.
Proof. unfold Overlaps. apply andb_comm. Qed.

Lemma Overlaps_refl a : PrefixLen a <= 32 -> Overlaps a a = true.
Proof. intros Ha. pose proof (size_pos a Ha). unfold Overlaps. rewrite andb_true_iff, !Z.ltb_lt. lia. Qed.

Lemma BlockFromPrefix_eq p :
  prefix_ok p -> BlockFromPrefix p = mkBlock (mask_addr (Addr_of p) (Bits p)) (Bits p).
Proof.
  intros Hp. unfold BlockFromPrefix. simpl. rewrite AddrToUint32_id; [done|].
  apply (Masked_ok p Hp).
Qed.

Lemma BlockFromPrefix_ok p : prefix_ok p -> block_ok (BlockFromPrefix p).
Proof.
  intros Hp. rewrite BlockFromPrefix_eq by done. destruct (Masked_ok p Hp) as [H1 H2].
  destruct Hp as [Ha Hb]. split; [exact H1|]. split; [exact H2|].
  rewrite size_pow by (simpl; lia). apply mask_addr_fits; done.
Qed.

Lemma block_fits b : block_ok b -> Base b + size b <= W32.
Proof.
  intros (Hb & Hl & Hm). rewrite size_pow in * by lia.
  pose proof (W32_split (PrefixLen b) Hl) as HW. unfold is_u32 in Hb.
  set (s := 2 ^ (32 - PrefixLen b)) in *.
  assert (0 < s) by (apply Z.pow_pos_nonneg; lia).
  apply Z.mod_divide in Hm as [k Hk]; [|lia]. rewrite Hk in *.
  assert (k < 2 ^ PrefixLen b).
  { apply (Z.mul_lt_mono_pos_r s); [done|]. rewrite <- HW. apply Hb. }
  rewrite HW. nia.
Qed.

(** Natural alignment: two blocks are nested or disjoint. *)
Lemma block_nested a b :
  block_ok a -> block_ok b -> PrefixLen a <= PrefixLen b ->
  Overlaps a b = true <-> in_block (Base b) a.
Proof.
  intros (Ha & Hla & Hma) (Hb & Hlb & Hmb) Hle.
  pose proof (size_pos a ltac:(lia)). pose proof (size_pos b ltac:(lia)).
  unfold Overlaps, in_block. rewrite andb_true_iff, !Z.ltb_lt. split; [|lia].
  intros [H1 H2]. split; [|done].
  rewrite size_pow in * by lia.
  replace (32 - PrefixLen a) with ((PrefixLen b - PrefixLen a) + (32 - PrefixLen b)) in * by lia.
  rewrite Z.pow_add_r in * by lia. set (s := 2 ^ (32 - PrefixLen b)) in *.
  assert (0 < 2 ^ (PrefixLen b - PrefixLen a)) by (apply Z.pow_pos_nonneg; lia).
  assert (0 < s) by (apply Z.pow_pos_nonneg; lia).
  apply Z.mod_divide in Hma as [ka Hka]; [|nia]. apply Z.mod_divide in Hmb as [kb Hkb]; [|lia].
  rewrite Hka, Hkb in *.
  assert (ka * 2 ^ (PrefixLen b - PrefixLen a) < kb + 1); [|nia].
  apply (Z.mul_lt_mono_pos_r s); [done|]. nia.
Qed.

(** ** PoolRange *)

Lemma broadcast_eq base k :
  0 <= k <= 32 -> base mod 2 ^ k = 0 -> 0 <= base ->
  Z.lor base (u32 (Z.shiftl 1 k - 1)) = base + 2 ^ k - 1.
Proof.
  intros Hk Hm Hb. pose proof (pow_le_32 k Hk).
  rewrite Z.shiftl_mul_pow2, Z.mul_1_l by lia. rewrite u32_id by (unfold is_u32; lia).
  apply Z.mod_divide in Hm as [q ->]; [|lia].
  rewrite <- Z.shiftl_mul_pow2, lor_shiftl_add by lia.
  rewrite Z.shiftl_mul_pow2 by lia. lia.
Qed.

Lemma PoolRange_unfold `{NetipV6} cidr p :
  ParsePrefix cidr = Some (P4 p) ->
  let base := mask_addr (Addr_of p) (Bits p) in
  PoolRange cidr =
    let first := u32 (base + 2) in
    let last := u32 (base + 2 ^ (32 - Bits p) - 2) in
    if last <? first then Err ErrTooSmall else Ok (first, last).
Proof.
  intros Hp. unfold PoolRange. rewrite Hp. apply ParsePrefix_ok in Hp as Hok.
  pose proof (Masked_ok p Hok) as [Hm _]. simpl in *. destruct Hok as [Ha Hb].
  destruct (mask_addr_fits _ _ Ha Hb) as (H0 & H1 & H2).
  rewrite AddrToUint32_id, broadcast_eq by (done || lia).
  replace (mask_addr (Addr_of p) (Bits p) + 2 ^ (32 - Bits p) - 1 - 1)
    with (mask_addr (Addr_of p) (Bits p) + 2 ^ (32 - Bits p) - 2) by lia. done.
Qed.

Lemma PoolRange_u32 `{NetipV6} cidr first last : PoolRange cidr = Ok (first, last) -> is_u32 first /\ is_u32 last.
Proof.
  unfold PoolRange. repeat case_match; try done; intros [= <- <-]; split; apply u32_range.
Qed.
(** C40: [PoolRange] on a pool of /30 or larger succeeds, and the inclusive range it
    returns is exactly the pool's addresses without the network address, the
    server address (base + 1) and the broadcast address. *)
Theorem PoolRange_spec `{NetipV6} cidr p :
  ParsePrefix cidr = Some (P4 p) -> Bits p <= 30 ->
  exists first last, PoolRange cidr = Ok (first, last) /\ first <= last /\
    forall x, first <= x <= last <->
      Contains p x = true /\ x <> mask_addr (Addr_of p) (Bits p) /\
      x <> mask_addr (Addr_of p) (Bits p) + 1 /\
      x <> mask_addr (Addr_of p) (Bits p) + 2 ^ (32 - Bits p) - 1.
Proof.
  intros Hp Hbits. rewrite (PoolRange_unfold _ _ Hp). cbv zeta. apply ParsePrefix_ok in Hp as [Ha Hb].
  destruct (mask_addr_fits _ _ Ha Hb) as (H0 & H1 & _).
  assert (2 ^ 2 <= 2 ^ (32 - Bits p)) by (apply Z.pow_le_mono_r; lia).
  rewrite !u32_id by (unfold is_u32; lia). rewrite (proj2 (Z.ltb_ge _ _)) by lia.
  eexists _, _. split; [done|]. split; [lia|]. intros x.
  rewrite Contains_iff by done. lia.
Qed.

(** The parser parameter of the witnesses: no IPv6 text. *)
Definition no_v6 : NetipV6 := fun _ => None.

Lemma PoolRange_spec_witness :
  exists first last, PoolRange (H := no_v6) "100.127.0.0/16" = Ok (first, last) /\ first <= last /\
    forall x, first <= x <= last <->
      Contains (PrefixFrom 1686044672 16) x = true /\ x <> mask_addr 1686044672 16 /\
      x <> mask_addr 1686044672 16 + 1 /\ x <> mask_addr 1686044672 16 + 2 ^ (32 - 16) - 1.
Proof.
  apply (PoolRange_spec (H := no_v6) "100.127.0.0/16" (PrefixFrom 1686044672 16));
    [vm_compute; reflexivity | simpl; lia].
Defined.

(** On the pools too small to hold a client (/31 and /32) [PoolRange] reports the
    error its comment promises, except where the [uint32] arithmetic wraps
    around: the pools at the top of the address space and 0.0.0.0/32, for which
    it returns a range that lies outside the pool. *)
Theorem PoolRange_too_small `{NetipV6} cidr p :
  ParsePrefix cidr = Some (P4 p) -> 31 <= Bits p ->
  PoolRange cidr = Err ErrTooSmall <->
  ~ (W32 - 2 <= Addr_of p \/ (Addr_of p = 0 /\ Bits p = 32)).
Proof.
  intros Hp Hbits. rewrite (PoolRange_unfold _ _ Hp). cbv zeta. apply ParsePrefix_ok in Hp as [Ha Hb].
  rewrite mask_addr_eq by done. unfold is_u32, u32, W32 in *.
  assert (Bits p = 31 \/ Bits p = 32) as [E|E] by lia; rewrite E; simpl.
  all: case_match eqn:Hlt; [apply Z.ltb_lt in Hlt|apply Z.ltb_ge in Hlt].
  all: split; [intros Hr|intros Hr].
  all: try discriminate Hr; try reflexivity; try (exfalso; apply Hr); try intros Hr'.
  all: Z.div_mod_to_equations; lia.
Qed.

Lemma PoolRange_too_small_witness :
  PoolRange (H := no_v6) "255.255.255.254/31" = Err ErrTooSmall <->
  ~ (W32 - 2 <= 4294967294 \/ (4294967294 = 0 /\ 31 = 32)).
Proof.
  apply (PoolRange_too_small (H := no_v6) "255.255.255.254/31" (PrefixFrom 4294967294 31));
    [vm_compute; reflexivity | simpl; lia].
Defined.

(** What the wrap-around returns on a /31 and on a /32. *)
Example PoolRange_wraps :
  PoolRange (H := no_v6) "255.255.255.254/31" = Ok (0, 4294967294) /\
  PoolRange (H := no_v6) "0.0.0.0/32" = Ok (2, 4294967295).
Proof. vm_compute. split; reflexivity. Qed.

(** ** AllocateBlock *)

Definition is_free (used : list Block) (b : Block) : Prop := existsb (Overlaps b) used = false.

Lemma is_free_spec used b : is_free used b <-> forall u, u ∈ used -> Overlaps b u = false.
Proof.
  unfold is_free. rewrite <- not_true_iff_false, existsb_exists. split.
  - intros H u Hu. apply not_true_iff_false. intros Ho. apply H. exists u.
    by rewrite <- list_elem_of_In.
  - intros H (u & Hu & Ho). apply list_elem_of_In in Hu. by rewrite H in Ho.
Qed.

(** The aligned blocks of length [len] inside the pool. *)
Definition sub_block (pool : Prefix) (len : Z) (b : Block) : Prop :=
  block_ok b /\ PrefixLen b = len /\
  mask_addr (Addr_of pool) (Bits pool) <= Base b /\
  Base b + size b <= mask_addr (Addr_of pool) (Bits pool) + 2 ^ (32 - Bits pool).

Lemma alloc_loop_some fuel base step poolEnd len used c :
  0 <= base -> 0 < step -> poolEnd <= W32 ->
  alloc_loop fuel base step poolEnd len used = Some c ->
  exists k, 0 <= k /\ c = mkBlock (base + k * step) len /\ base + k * step + step <= poolEnd /\
    is_free used c /\ forall j, 0 <= j < k -> ~ is_free used (mkBlock (base + j * step) len).
Proof.
  intros Hb Hs HW. revert base Hb. induction fuel as [|fuel IH]; intros base Hb; simpl; [done|].
  destruct (base + step <=? poolEnd) eqn:Hle; [|done]. apply Z.leb_le in Hle.
  rewrite u32_id by (unfold is_u32; lia).
  destruct (existsb _ used) eqn:Hex.
  - intros (k & Hk & -> & Hend & Hfree & Hmin)%IH; [|lia].
    exists (k + 1). replace (base + (k + 1) * step) with (base + step + k * step) by lia.
    split; [lia|]. split; [done|]. split; [lia|]. split; [done|].
    intros j Hj. destruct (decide (j = 0)) as [->|].
    + unfold is_free. rewrite Z.mul_0_l, Z.add_0_r, Hex. done.
    + replace (base + j * step) with (base + step + (j - 1) * step) by lia. apply Hmin. lia.
  - intros [= <-]. exists 0. rewrite Z.mul_0_l, Z.add_0_r.
    split; [lia|]. split; [done|]. split; [lia|]. split; [done|lia].
Qed.

Lemma alloc_loop_none fuel base step poolEnd len used :
  0 <= base -> 0 < step -> poolEnd <= W32 -> poolEnd - base < Z.of_nat fuel * step ->
  alloc_loop fuel base step poolEnd len used = None ->
  forall k, 0 <= k -> base + k * step + step <= poolEnd ->
    ~ is_free used (mkBlock (base + k * step) len).
Proof.
  intros Hb Hs HW. revert base Hb. induction fuel as [|fuel IH]; intros base Hb Hf; simpl.
  { intros _ k Hk Hend. nia. }
  destruct (base + step <=? poolEnd) eqn:Hle.
  - apply Z.leb_le in Hle. rewrite u32_id by (unfold is_u32; lia).
    destruct (existsb _ used) eqn:Hex; [|done]. intros Hn k Hk Hend.
    destruct (decide (k = 0)) as [->|].
    + unfold is_free. rewrite Z.mul_0_l, Z.add_0_r, Hex. done.
    + replace (base + k * step) with (base + step + (k - 1) * step) by lia.
      apply IH; [lia|lia|done|lia|lia].
  - intros _ k Hk Hend. apply Z.leb_gt in Hle. nia.
Qed.

(** The aligned blocks are the loop's slots. *)
Lemma sub_block_slots pool len b :
  prefix_ok pool -> Bits pool <= len <= 32 ->
  sub_block pool len b <->
  exists k, 0 <= k /\ b = mkBlock (mask_addr (Addr_of pool) (Bits pool) + k * 2 ^ (32 - len)) len /\
    mask_addr (Addr_of pool) (Bits pool) + k * 2 ^ (32 - len) + 2 ^ (32 - len)
      <= mask_addr (Addr_of pool) (Bits pool) + 2 ^ (32 - Bits pool).
Proof.
  intros [Ha Hb] Hlen. destruct (mask_addr_fits _ _ Ha Hb) as (H0 & H1 & H2).
  set (base := mask_addr _ _) in *. set (s := 2 ^ (32 - len)).
  assert (0 < s) by (apply Z.pow_pos_nonneg; lia).
  assert (exists q, base = q * s) as [q Hq].
  { apply Z.mod_divide in H2 as [q Hq]; [|apply Z.pow_nonzero; lia].
    exists (q * 2 ^ (len - Bits pool)). rewrite Hq, <- Z.mul_assoc. f_equal.
    unfold s. rewrite <- Z.pow_add_r by lia. f_equal. lia. }
  unfold sub_block. fold base. split.
  - intros ((Hr & Hl & Hm) & Hlb & Hlo & Hhi). rewrite size_pow, Hlb in * by lia. fold s in Hm, Hhi.
    apply Z.mod_divide in Hm as [r Hr']; [|lia]. exists (r - q).
    replace (base + (r - q) * s) with (Base b) by (rewrite Hq, Hr'; lia).
    split; [rewrite Hq, Hr' in Hlo; nia|]. split; [destruct b; simpl in *; by subst|lia].
  - intros (k & Hk & -> & Hend). simpl. rewrite size_pow by (simpl; lia). simpl. fold s.
    assert (base + k * s < W32) by lia. split; [|split; [done|nia]].
    split; [unfold is_u32; simpl; nia|]. split; [simpl; lia|].
    rewrite size_pow by (simpl; lia). simpl. fold s. rewrite Hq, <- Z.mul_add_distr_r. apply Z.mod_mul. lia.
Qed.

Lemma AllocateBlock_unfold pool len used :
  prefix_ok pool -> Bits pool <= len <= 32 ->
  AllocateBlock (P4 pool) len used =
    let base := mask_addr (Addr_of pool) (Bits pool) in
    match alloc_loop (alloc_fuel (2 ^ (32 - Bits pool)) (2 ^ (32 - len))) base (2 ^ (32 - len))
            (base + 2 ^ (32 - Bits pool)) len used with
    | Some candidate => Ok candidate
    | None => Err ErrNoSpace
    end.
Proof.
  intros Hok Hlen. unfold AllocateBlock. rewrite BlockFromPrefix_eq by done.
  rewrite (proj2 (Z.ltb_ge _ _)), (proj2 (Z.ltb_ge _ _)) by lia. simpl orb. cbv iota zeta.
  destruct Hok as [_ Hb]. rewrite !size_pow by (simpl; lia). done.
Qed.

(** The fuel covers every slot of the pool. *)
Lemma alloc_fuel_enough base pb len :
  0 <= pb <= len -> len <= 32 ->
  base + 2 ^ (32 - pb) - base < Z.of_nat (alloc_fuel (2 ^ (32 - pb)) (2 ^ (32 - len))) * 2 ^ (32 - len).
Proof.
  intros Hpb Hlen. unfold alloc_fuel.
  assert (0 < 2 ^ (32 - len)) by (apply Z.pow_pos_nonneg; lia).
  assert (0 <= 2 ^ (32 - pb)) by (apply Z.pow_nonneg; lia).
  rewrite Nat2Z.inj_succ, Z2Nat.id by (apply Z.div_pos; lia).
  pose proof (Z.mul_succ_div_gt (2 ^ (32 - pb)) (2 ^ (32 - len)) ltac:(done)). lia.
Qed.

Section Allocation.
  Context (pool : Prefix) (len : Z) (used : list Block).
  Hypothesis (Hpool : prefix_ok pool) (Hlen : Bits pool <= len <= 32).

Lemma AllocateBlock_sound b :
    AllocateBlock (P4 pool) len used = Ok b ->
    sub_block pool len b /\ is_free used b /\
    forall b', sub_block pool len b' -> Base b' < Base b -> ~ is_free used b'.
  Proof.
    destruct (Hpool) as [Ha Hb]. destruct (mask_addr_fits _ _ Ha Hb) as (H0 & H1 & _).
    assert (0 < 2 ^ (32 - len)) by (apply Z.pow_pos_nonneg; lia).
    rewrite AllocateBlock_unfold by done. cbv zeta.
    destruct (alloc_loop _ _ _ _ _ _) as [c|] eqn:E; [|done]. intros [= <-].
    apply alloc_loop_some in E as (k & Hk & -> & Hend & Hfree & Hmin); [|done..].
    split; [rewrite sub_block_slots by done; eauto|]. split; [done|].
    intros b' (j & Hj & -> & _)%sub_block_slots Hlt; [|done..]. apply Hmin. simpl in Hlt. nia.
  Qed.

Lemma AllocateBlock_full :
    AllocateBlock (P4 pool) len used = Err ErrNoSpace ->
    forall b, sub_block pool len b -> ~ is_free used b.
  Proof.
    destruct (Hpool) as [Ha Hb]. destruct (mask_addr_fits _ _ Ha Hb) as (H0 & H1 & _).
    assert (0 < 2 ^ (32 - len)) by (apply Z.pow_pos_nonneg; lia).
    rewrite AllocateBlock_unfold by done. cbv zeta.
    destruct (alloc_loop _ _ _ _ _ _) as [c|] eqn:E; [done|]. intros _ b Hsub.
    apply sub_block_slots in Hsub as (k & Hk & -> & Hend); [|done..].
    eapply alloc_loop_none; [exact H0|done| |apply alloc_fuel_enough|exact E|done|done]; lia.
  Qed.

Lemma AllocateBlock_total :
    (exists b, AllocateBlock (P4 pool) len used = Ok b) \/
    AllocateBlock (P4 pool) len used = Err ErrNoSpace.
  Proof.
    rewrite AllocateBlock_unfold by done. cbv zeta.
    destruct (alloc_loop _ _ _ _ _ _); [left; eauto|by right].
  Qed.
End Allocation.

(** C39: [AllocateBlock] is first fit: on an IPv4 pool and a length that fits it, the
    block it returns is an aligned block of the pool that overlaps no used block
    and has no free aligned block below it; and it returns [ErrNoSpace] exactly
    when every aligned block of that length overlaps a used one. *)
Theorem AllocateBlock_first_fit pool len used :
  prefix_ok pool -> Bits pool <= len <= 32 ->
  (forall b, AllocateBlock (P4 pool) len used = Ok b <->
     sub_block pool len b /\ is_free used b /\
     forall b', sub_block pool len b' -> Base b' < Base b -> ~ is_free used b') /\
  (AllocateBlock (P4 pool) len used = Err ErrNoSpace <->
     forall b, sub_block pool len b -> ~ is_free used b).
Proof.
  intros Hp Hl. destruct (AllocateBlock_total pool len used Hp Hl) as [[c Hc]|Hn].
  - pose proof (AllocateBlock_sound _ _ _ Hp Hl c Hc) as (Hs & Hf & Hm).
    split; [intros b; split|split].
    + apply AllocateBlock_sound; done.
    + intros (Hs' & Hf' & Hm').
      assert (Base b = Base c) as E.
      { destruct (Z.lt_total (Base b) (Base c)) as [?|[?|?]]; [|done|].
        - by destruct (Hm b). - by destruct (Hm' c). }
      rewrite Hc. destruct Hs as (_ & Hs & _), Hs' as (_ & Hs' & _).
      destruct b, c; simpl in *; by subst.
    + congruence.
    + intros Hall. by destruct (Hall c Hs).
  - pose proof (AllocateBlock_full _ _ _ Hp Hl Hn) as Hall.
    split; [intros b; split; [congruence|intros (Hs & Hf & _); by destruct (Hall b)]|done].
Qed.

Lemma AllocateBlock_first_fit_witness :
  AllocateBlock (P4 (PrefixFrom 1684275200 16)) 23 [mkBlock 1684275200 24] = Ok (mkBlock 1684275712 23).
Proof.
  apply (AllocateBlock_first_fit (PrefixFrom 1684275200 16) 23 [mkBlock 1684275200 24]).
  - split; [unfold is_u32, W32; simpl; lia|simpl; lia].
  - simpl; lia.
  - apply AllocateBlock_sound; [split; [unfold is_u32, W32; simpl; lia|simpl; lia]|simpl; lia|].
    vm_compute. reflexivity.
Defined.
