(* ===== verification/PasswordPolicy.v ===== *)
(** * The account-password policy ([pkg/passwordpolicy])

    The one-pass check both the server's register handler and the client wizard
    call, and its equivalence with the declarative rules of its comment. *)
From S2P Require Import Prelude GoStrings.
From Stdlib Require Import Ascii.

Definition minLen : nat := 8.
Definition maxLen : nat := 64.

Inductive Reason : Type :=
| ReasonOK | ReasonCharset | ReasonTooShort | ReasonTooLong
| ReasonNoUpper | ReasonNoLower | ReasonNoDigit.
#[export] Instance Reason_eq_dec : EqDecision Reason.
Proof. solve_decision. Defined.

Definition ReasonString (r : Reason) : string :=
  match r with
  | ReasonOK => "ok"
  | ReasonCharset => "charset"
  | ReasonTooShort => "too_short"
  | ReasonTooLong => "too_long"
  | ReasonNoUpper => "no_upper"
  | ReasonNoLower => "no_lower"
  | ReasonNoDigit => "no_digit"
  end.

Definition byte_in (lo hi : nat) (b : ascii) : bool :=
  Nat.leb lo (nat_of_ascii b) && Nat.leb (nat_of_ascii b) hi.

Definition is_upper : ascii -> bool := byte_in 65 90.
Definition is_lower : ascii -> bool := byte_in 97 122.
Definition is_num : ascii -> bool := byte_in 48 57.
Definition outside_charset (b : ascii) : bool :=
  Nat.ltb (nat_of_ascii b) 33 || Nat.ltb 126 (nat_of_ascii b).

(** The [for] loop: the three flags, or the early [ReasonCharset] return. *)
Fixpoint scan (pw : string) (hasUpper hasLower hasDigit : bool) : option (bool * bool * bool) :=
  match pw with
  | EmptyString => Some (hasUpper, hasLower, hasDigit)
  | String b rest =>
      if outside_charset b then None
      else if is_upper b then scan rest true hasLower hasDigit
      else if is_lower b then scan rest hasUpper true hasDigit
      else if is_num b then scan rest hasUpper hasLower true
      else scan rest hasUpper hasLower hasDigit
  end.

Definition Validate (pw : string) : Reason * bool :=
  match scan pw false false false with
  | None => (ReasonCharset, false)
  | Some (hasUpper, hasLower, hasDigit) =>
      if Nat.ltb (String.length pw) minLen then (ReasonTooShort, false)
      else if Nat.ltb maxLen (String.length pw) then (ReasonTooLong, false)
      else if negb hasUpper then (ReasonNoUpper, false)
      else if negb hasLower then (ReasonNoLower, false)
      else if negb hasDigit then (ReasonNoDigit, false)
      else (ReasonOK, true)
  end.

(** ** The rules, one by one *)

Fixpoint some_char (P : ascii -> bool) (s : string) : bool :=
  match s with EmptyString => false | String a r => P a || some_char P r end.

(** The rules in the order of the package comment, each with its reason. *)
Definition rules (pw : string) : list (Reason * bool) :=
  [ (ReasonCharset, chars (byte_in 33 126) pw);
    (ReasonTooShort, Nat.leb 8 (String.length pw));
    (ReasonTooLong, Nat.leb (String.length pw) 64);
    (ReasonNoUpper, some_char is_upper pw);
    (ReasonNoLower, some_char is_lower pw);
    (ReasonNoDigit, some_char is_num pw) ].

Fixpoint first_failing (rs : list (Reason * bool)) : Reason * bool :=
  match rs with
  | [] => (ReasonOK, true)
  | (r, holds) :: rs => if holds then first_failing rs else (r, false)
  end.

Lemma outside_charset_spec b : outside_charset b = negb (byte_in 33 126 b).
Proof.
  unfold outside_charset, byte_in. rewrite negb_andb. f_equal.
  - by rewrite Nat.ltb_antisym.
  - by rewrite Nat.ltb_antisym.
Qed.

Lemma byte_in_disjoint lo hi lo' hi' b :
  (hi < lo')%nat -> byte_in lo hi b = true -> byte_in lo' hi' b = false.
Proof.
  intros H. unfold byte_in. rewrite andb_true_iff, !Nat.leb_le. intros [? ?].
  apply andb_false_iff. left. apply Nat.leb_gt. lia.
Qed.
Lemma byte_in_disjoint' lo hi lo' hi' b :
  (hi' < lo)%nat -> byte_in lo hi b = true -> byte_in lo' hi' b = false.
Proof.
  intros H. unfold byte_in. rewrite andb_true_iff, !Nat.leb_le. intros [? ?].
  apply andb_false_iff. right. apply Nat.leb_gt. lia.
Qed.

(** The loop computes the three existential rules, or reports a bad byte. *)
Lemma scan_spec pw u l d :
  scan pw u l d =
    if chars (byte_in 33 126) pw
    then Some (u || some_char is_upper pw, l || some_char is_lower pw, d || some_char is_num pw)
    else None.
Proof.
  revert u l d. induction pw as [|b pw IH]; intros u l d; simpl; [by rewrite !orb_false_r|].
  rewrite outside_charset_spec. destruct (byte_in 33 126 b); simpl; [|done].
  destruct (is_upper b) eqn:Eu; [|destruct (is_lower b) eqn:El; [|destruct (is_num b) eqn:Ed]].
  - unfold is_lower, is_num. rewrite (byte_in_disjoint 65 90), (byte_in_disjoint' 65 90) by (done || lia).
    rewrite IH. by destruct u.
  - unfold is_num. rewrite (byte_in_disjoint' 97 122) by (done || lia). rewrite IH. by destruct l.
  - rewrite IH. by destruct d.
  - by rewrite IH.
Qed.

(** The one-pass password check returns the verdict of the first rule that
    fails in the documented order (charset, too short, too long, upper case,
    lower case, digit), and accepts exactly the passwords that meet them all. *)
Theorem Validate_first_failing pw :
  Validate pw = first_failing (rules pw) /\
  (snd (Validate pw) = true <->
     chars (byte_in 33 126) pw = true /\ (8 <= String.length pw <= 64)%nat /\
     some_char is_upper pw = true /\ some_char is_lower pw = true /\ some_char is_num pw = true).
Proof.
  assert (Validate pw = first_failing (rules pw)) as E.
  { unfold Validate, minLen, maxLen. rewrite scan_spec, !Nat.ltb_antisym. simpl.
    repeat (case_match; simplify_eq/=; try done). }
  split; [done|]. rewrite E. unfold rules. simpl. repeat case_match; simpl.
  all: rewrite ?Nat.leb_le, ?Nat.leb_gt in *; split; intros Hx; try discriminate Hx.
  all: try (destruct Hx as (? & ? & ? & ? & ?)); try congruence; try lia. all: repeat split; done || lia.
Qed.
