(* ===== verification/Codec.v ===== *)
(** * Encodings and digests of the standard library

    [encoding/base64] (raw URL and raw standard alphabets), [encoding/hex] and
    [crypto/sha256], on byte lists and byte strings, as the refresh tokens, the
    invite codes and the password hashes use them. *)
From S2P Require Import Prelude GoStrings Netip.
From Stdlib Require Import Ascii.

Definition is_byte (b : Z) : Prop := 0 <= b < 256.

(** ** Bytes of a Go string *)

Definition byte_of (a : ascii) : Z := Z.of_nat (nat_of_ascii a).
Definition char_of (b : Z) : ascii := ascii_of_nat (Z.to_nat b).
Fixpoint bytes_of (s : string) : list Z :=
  match s with "" => [] | String a r => byte_of a :: bytes_of r end.
Fixpoint string_of (l : list Z) : string :=
  match l with [] => "" | b :: l => String (char_of b) (string_of l) end.

(** ** Base64 without padding *)

Definition b64_char (c62 c63 : ascii) (i : Z) : ascii :=
  if i <? 26 then char_of (65 + i) else if i <? 52 then char_of (71 + i)
  else if i <? 62 then char_of (i - 4) else if i =? 62 then c62 else c63.
Definition b64_index (c62 c63 a : ascii) : option Z :=
  let n := byte_of a in
  if (65 <=? n) && (n <=? 90) then Some (n - 65)
  else if (97 <=? n) && (n <=? 122) then Some (n - 71)
  else if (48 <=? n) && (n <=? 57) then Some (n + 4)
  else if decide (a = c62) then Some 62 else if decide (a = c63) then Some 63 else None.

Fixpoint sextets (l : list Z) : list Z :=
  match l with
  | a :: b :: c :: l =>
      a / 4 :: (a mod 4) * 16 + b / 16 :: (b mod 16) * 4 + c / 64 :: c mod 64 :: sextets l
  | [a; b] => [a / 4; (a mod 4) * 16 + b / 16; (b mod 16) * 4]
  | [a] => [a / 4; (a mod 4) * 16]
  | [] => []
  end.
(** The decoder is not strict: unused trailing bits are dropped. *)
Fixpoint unsextets (l : list Z) : option (list Z) :=
  match l with
  | s0 :: s1 :: s2 :: s3 :: l =>
      r ← unsextets l;
      Some (s0 * 4 + s1 / 16 :: (s1 mod 16) * 16 + s2 / 4 :: (s2 mod 4) * 64 + s3 :: r)
  | [s0; s1; s2] => Some [s0 * 4 + s1 / 16; (s1 mod 16) * 16 + s2 / 4]
  | [s0; s1] => Some [s0 * 4 + s1 / 16]
  | [_] => None
  | [] => Some []
  end.

Fixpoint b64_map (c62 c63 : ascii) (l : list Z) : string :=
  match l with [] => "" | i :: l => String (b64_char c62 c63 i) (b64_map c62 c63 l) end.
(** Line breaks are skipped. *)
Fixpoint b64_indices (c62 c63 : ascii) (s : string) : option (list Z) :=
  match s with
  | "" => Some []
  | String a r =>
      if decide (byte_of a = 10 \/ byte_of a = 13) then b64_indices c62 c63 r
      else i ← b64_index c62 c63 a; l ← b64_indices c62 c63 r; Some (i :: l)
  end.

Definition RawURLEncode (l : list Z) : string := b64_map "-"%char "_"%char (sextets l).
Definition RawStdEncode (l : list Z) : string := b64_map "+"%char "/"%char (sextets l).
Definition RawStdDecode (s : string) : option (list Z) :=
  b64_indices "+"%char "/"%char s ≫= unsextets.

Lemma list_ind3 {A} (P : list A -> Prop) :
  P [] -> (forall a, P [a]) -> (forall a b, P [a; b]) ->
  (forall a b c l, P l -> P (a :: b :: c :: l)) -> forall l, P l.
Proof.
  intros H0 H1 H2 H3 l. enough (P l /\ (forall a, P (a :: l)) /\ (forall a b, P (a :: b :: l))) as [? _] by done.
  induction l as [|x l (IH0 & IH1 & IH2)]; [by auto|]. split_and!; [apply IH1|intros; apply IH2|auto].
Qed.

Lemma byte_sextet_range b k : is_byte b -> 0 < k -> 0 <= b mod k < k.
Proof. intros; by apply Z.mod_pos_bound. Qed.

Lemma unsextets_sextets l : Forall is_byte l -> unsextets (sextets l) = Some l.
Proof.
  induction l as [|a|a b|a b c l IH] using list_ind3; intros Hl; decompose_Forall; unfold is_byte in *; simpl;
    [done| | |rewrite IH by done; simpl]; repeat f_equal; Z.to_euclidean_division_equations; lia.
Qed.

Lemma sextets_range l : Forall is_byte l -> Forall (fun i => 0 <= i < 64) (sextets l).
Proof.
  induction l as [|a|a b|a b c l IH] using list_ind3; intros Hl; decompose_Forall; unfold is_byte in *; simpl;
    repeat constructor; try (by apply IH); Z.to_euclidean_division_equations; lia.
Qed.

Definition index_ok (c62 c63 : ascii) (n : nat) : bool :=
  bool_decide (b64_index c62 c63 (b64_char c62 c63 (Z.of_nat n)) = Some (Z.of_nat n)) &&
  bool_decide (~ (byte_of (b64_char c62 c63 (Z.of_nat n)) = 10 \/ byte_of (b64_char c62 c63 (Z.of_nat n)) = 13)).
Lemma std_index_ok n : (n < 64)%nat -> index_ok "+"%char "/"%char n = true.
Proof.
  intros Hn. assert (forallb (index_ok "+"%char "/"%char) (List.seq 0 64) = true) as H by (by vm_compute).
  rewrite forallb_forall in H. apply H, in_seq. lia.
Qed.

Lemma std_indices_map l :
  Forall (fun i => 0 <= i < 64) l -> b64_indices "+"%char "/"%char (b64_map "+"%char "/"%char l) = Some l.
Proof.
  induction 1 as [|i l Hi Hl IH]; [done|]. simpl.
  pose proof (std_index_ok (Z.to_nat i)) as Hok. unfold index_ok in Hok. rewrite Z2Nat.id in Hok by lia.
  rewrite andb_true_iff, !bool_decide_eq_true in Hok. destruct Hok as [Hix Hnl]; [lia|].
  rewrite decide_False by done. by rewrite Hix; simpl; rewrite IH.
Qed.

Lemma RawStdDecode_Encode l : Forall is_byte l -> RawStdDecode (RawStdEncode l) = Some l.
Proof.
  intros Hl. unfold RawStdDecode, RawStdEncode.
  rewrite std_indices_map by (by apply sextets_range). simpl. by apply unsextets_sextets.
Qed.

Lemma RawStdEncode_chars (P : ascii -> bool) l :
  forallb (fun n => P (b64_char "+"%char "/"%char (Z.of_nat n))) (List.seq 0 64) = true ->
  Forall is_byte l -> chars P (RawStdEncode l) = true.
Proof.
  intros HP Hl. unfold RawStdEncode. induction (sextets_range l Hl) as [|i js Hi Hjs IH]; [done|].
  simpl. rewrite IH, andb_true_r. rewrite forallb_forall in HP. specialize (HP (Z.to_nat i)).
  rewrite Z2Nat.id in HP by lia. apply HP, in_seq. lia.
Qed.
(** The alphabet never contains the [$] that separates PHC fields. *)
Lemma RawStdEncode_no_dollar l : Forall is_byte l -> no_char "$"%char (RawStdEncode l) = true.
Proof. by apply RawStdEncode_chars. Qed.

(** ** Hex *)

Definition hex_char (i : Z) : ascii := if i <? 10 then char_of (48 + i) else char_of (87 + i).
Fixpoint HexEncode (l : list Z) : string :=
  match l with
  | [] => ""
  | b :: l => String (hex_char (b / 16)) (String (hex_char (b mod 16)) (HexEncode l))
  end.

(** ** SHA-256 (FIPS 180-4) *)

Definition rotr (n x : Z) : Z := u32 (Z.lor (Z.shiftr x n) (Z.shiftl x (32 - n))).
(** The constants as the standard defines them: the first 32 bits of the
    fractional parts of the cube roots (square roots) of the first primes. *)
Fixpoint cube_root (n : nat) (x lo : Z) : Z :=
  match n with
  | O => lo
  | S n => let c := lo + 2 ^ Z.of_nat n in cube_root n x (if c * c * c <=? x then c else lo)
  end.
Definition is_prime (n : Z) : bool :=
  forallb (fun d => negb (n mod d =? 0)) (seqZ 2 (Z.sqrt n - 1)).
Definition primes (bound : Z) : list Z := List.filter is_prime (seqZ 2 (bound - 2)).
Definition sha_k : list Z :=
  Eval vm_compute in (fun p => u32 (cube_root 40 (p * 2 ^ 96) 0)) <$> primes 312.
Definition sha_init : list Z :=
  Eval vm_compute in (fun p => u32 (Z.sqrt (p * 2 ^ 64))) <$> primes 20.

(** The message schedule: each step appends one word to the window of the last 16. *)
Fixpoint schedule (n : nat) (w : list Z) : list Z :=
  match n with
  | O => w
  | S n =>
      match w with
      | w0 :: rest =>
          let w1 := nth 0 rest 0 in let w9 := nth 8 rest 0 in let w14 := nth 13 rest 0 in
          let s0 := Z.lxor (rotr 7 w1) (Z.lxor (rotr 18 w1) (Z.shiftr w1 3)) in
          let s1 := Z.lxor (rotr 17 w14) (Z.lxor (rotr 19 w14) (Z.shiftr w14 10)) in
          w0 :: schedule n (rest ++ [u32 (w0 + s0 + w9 + s1)])
      | [] => []
      end
  end.
Fixpoint rounds (kw : list (Z * Z)) (a b c d e f g h : Z) : list Z :=
  match kw with
  | [] => [a; b; c; d; e; f; g; h]
  | (k, w) :: kw =>
      let s1 := Z.lxor (rotr 6 e) (Z.lxor (rotr 11 e) (rotr 25 e)) in
      let ch := Z.lxor (Z.land e f) (Z.land (Z.lxor e (W32 - 1)) g) in
      let t1 := h + s1 + ch + k + w in
      let s0 := Z.lxor (rotr 2 a) (Z.lxor (rotr 13 a) (rotr 22 a)) in
      let maj := Z.lxor (Z.land a b) (Z.lxor (Z.land a c) (Z.land b c)) in
      rounds kw (u32 (t1 + s0 + maj)) a b c (u32 (d + t1)) e f g
  end.
Definition compress (h w : list Z) : list Z :=
  match h with
  | [a; b; c; d; e; f; g; k] =>
      zip_with (fun x y => u32 (x + y)) h (rounds (zip sha_k (schedule 48 w)) a b c d e f g k)
  | _ => h
  end.
Fixpoint words (l : list Z) : list Z :=
  match l with a :: b :: c :: d :: l => be_Uint32 [a; b; c; d] :: words l | _ => [] end.
Fixpoint blocks (n : nat) (h l : list Z) : list Z :=
  match n with O => h | S n => blocks n (compress h (words (take 64 l))) (drop 64 l) end.
Definition sha_pad (l : list Z) : list Z :=
  let n := Z.of_nat (length l) in
  l ++ [128] ++ replicate (Z.to_nat ((55 - n) mod 64)) 0
    ++ be_PutUint32 (8 * n / W32) ++ be_PutUint32 (u32 (8 * n)).
Definition Sum256 (l : list Z) : list Z :=
  let p := sha_pad l in blocks (length p / 64) sha_init p ≫= be_PutUint32.

Example Sum256_abc :
  HexEncode (Sum256 (bytes_of "abc")) = "ba7816bf8f01cfea414140de5dae2223b00361a396177a9cb410ff61f20015ad".
Proof. by vm_compute. Qed.
