(* ===== verification/Db.v ===== *)
(** * The SQLite database ([internal/server/store], [migrations/*.sql])

    The schema of migrations 1 to 7 as records, one list of rows per table in
    rowid order, the constraint checks and the [ON DELETE] actions of its SQL,
    and the statement-execution monad the repositories run in. *)
From S2P Require Import Prelude GoStrings.

#[local] Open Scope lw_scope.

(** ** Rows *)

Record user_row : Type := UserRow
  { u_id : Z; u_name : string; u_hash : string; u_admin : bool; u_created : Z }.
Record invite_row : Type := InviteRow
  { i_id : Z; i_code : string; i_creator : option Z; i_used_by : option Z;
    i_used_at : option Z; i_created : Z; i_expires : option Z }.
Record node_row : Type := NodeRow
  { n_id : Z; n_user : Z; n_name : string; n_key : string; n_ip : Z; n_created : Z;
    n_platform : string }.
Record zone_row : Type := ZoneRow
  { z_id : Z; z_name : string; z_hash : string; z_owner : Z; z_created : Z }.
Record member_row : Type := MemberRow { m_zone : Z; m_node : Z; m_joined : Z }.
Record refresh_row : Type := RefreshRow
  { r_id : Z; r_user : Z; r_hash : string; r_expires : Z; r_revoked : option Z; r_created : Z }.
Record ann_row : Type := AnnRow
  { a_id : Z; a_node : Z; a_real : Z; a_len : Z; a_synth : Z; a_created : Z }.
Record attach_row : Type := AttachRow { az_ann : Z; az_zone : Z }.

#[export] Instance user_row_eq_dec : EqDecision user_row.
Proof. solve_decision. Defined.
#[export] Instance invite_row_eq_dec : EqDecision invite_row.
Proof. solve_decision. Defined.
#[export] Instance node_row_eq_dec : EqDecision node_row.
Proof. solve_decision. Defined.
#[export] Instance zone_row_eq_dec : EqDecision zone_row.
Proof. solve_decision. Defined.
#[export] Instance member_row_eq_dec : EqDecision member_row.
Proof. solve_decision. Defined.
#[export] Instance refresh_row_eq_dec : EqDecision refresh_row.
Proof. solve_decision. Defined.
#[export] Instance ann_row_eq_dec : EqDecision ann_row.
Proof. solve_decision. Defined.
#[export] Instance attach_row_eq_dec : EqDecision attach_row.
Proof. solve_decision. Defined.

(** ** Tables *)

(** A table with an [INTEGER PRIMARY KEY AUTOINCREMENT]: its rows in rowid order
    and its [sqlite_sequence] entry, the largest rowid ever used. *)
Record table (A : Type) : Type := Table { rows : list A; seq : Z }.
Arguments Table {A} rows seq.
Arguments rows {A} t.
Arguments seq {A} t.

Definition empty_table {A} : table A := Table [] 0.
(** The rowid the next insert gets. *)
Definition next_id {A} (t : table A) : Z := seq t + 1.
Definition insert_row {A} (mk : Z -> A) (t : table A) : table A :=
  Table (rows t ++ [mk (next_id t)]) (next_id t).
Definition map_rows {A} (f : A -> A) (t : table A) : table A := Table (f <$> rows t) (seq t).
Definition keep_rows {A} (P : A -> Prop) `{forall x, Decision (P x)} (t : table A) : table A :=
  Table (filter P (rows t)) (seq t).

Record DB : Type := mkDB
  { users : table user_row;
    invites : table invite_row;
    nodes : table node_row;
    zones : table zone_row;
    zone_members : list member_row;
    refresh_tokens : table refresh_row;
    announcements : table ann_row;
    announcement_zones : list attach_row }.

Definition empty_db : DB :=
  mkDB empty_table empty_table empty_table empty_table [] empty_table empty_table [].

Definition set_users t (d : DB) : DB :=
  mkDB t (invites d) (nodes d) (zones d) (zone_members d) (refresh_tokens d) (announcements d) (announcement_zones d).
Definition set_invites t (d : DB) : DB :=
  mkDB (users d) t (nodes d) (zones d) (zone_members d) (refresh_tokens d) (announcements d) (announcement_zones d).
Definition set_nodes t (d : DB) : DB :=
  mkDB (users d) (invites d) t (zones d) (zone_members d) (refresh_tokens d) (announcements d) (announcement_zones d).
Definition set_zones t (d : DB) : DB :=
  mkDB (users d) (invites d) (nodes d) t (zone_members d) (refresh_tokens d) (announcements d) (announcement_zones d).
Definition set_members l (d : DB) : DB :=
  mkDB (users d) (invites d) (nodes d) (zones d) l (refresh_tokens d) (announcements d) (announcement_zones d).
Definition set_refresh t (d : DB) : DB :=
  mkDB (users d) (invites d) (nodes d) (zones d) (zone_members d) t (announcements d) (announcement_zones d).
Definition set_anns t (d : DB) : DB :=
  mkDB (users d) (invites d) (nodes d) (zones d) (zone_members d) (refresh_tokens d) t (announcement_zones d).
Definition set_attachments l (d : DB) : DB :=
  mkDB (users d) (invites d) (nodes d) (zones d) (zone_members d) (refresh_tokens d) (announcements d) l.

(** ** ON DELETE actions *)

(** [DELETE FROM announcements WHERE P]: cascades to the attachments. *)
Definition delete_anns (P : ann_row -> Prop) `{forall a, Decision (P a)} (d : DB) : DB :=
  let dead := a_id <$> filter P (rows (announcements d)) in
  set_anns (keep_rows (fun a => ~ P a) (announcements d))
    (set_attachments (filter (fun az => az_ann az ∉ dead) (announcement_zones d)) d).

(** [DELETE FROM nodes WHERE P]: cascades to memberships and announcements. *)
Definition delete_nodes (P : node_row -> Prop) `{forall n, Decision (P n)} (d : DB) : DB :=
  let dead := n_id <$> filter P (rows (nodes d)) in
  delete_anns (fun a => a_node a ∈ dead)
    (set_members (filter (fun m => m_node m ∉ dead) (zone_members d))
      (set_nodes (keep_rows (fun n => ~ P n) (nodes d)) d)).

(** [DELETE FROM zones WHERE P]: cascades to memberships and attachments. *)
Definition delete_zones (P : zone_row -> Prop) `{forall z, Decision (P z)} (d : DB) : DB :=
  let dead := z_id <$> filter P (rows (zones d)) in
  set_attachments (filter (fun az => az_zone az ∉ dead) (announcement_zones d))
    (set_members (filter (fun m => m_zone m ∉ dead) (zone_members d))
      (set_zones (keep_rows (fun z => ~ P z) (zones d)) d)).

Definition null_if (id : Z) (o : option Z) : option Z :=
  match o with Some x => if decide (x = id) then None else Some x | None => None end.

(** [DELETE FROM users WHERE id = ?]: cascades to nodes, owned zones and refresh
    tokens; the invite references become NULL. *)
Definition delete_user (id : Z) (d : DB) : DB :=
  let d := delete_nodes (fun n => n_user n = id) d in
  let d := delete_zones (fun z => z_owner z = id) d in
  let d := set_refresh (keep_rows (fun r => r_user r <> id) (refresh_tokens d)) d in
  let d := set_invites (map_rows (fun i => InviteRow (i_id i) (i_code i) (null_if id (i_creator i))
                         (null_if id (i_used_by i)) (i_used_at i) (i_created i) (i_expires i)) (invites d)) d in
  set_users (keep_rows (fun u => u_id u <> id) (users d)) d.

(** ** Errors *)

Inductive serr : Type :=
| EDriver (msg : string)  (** an error of the driver, wrapped by [fmt.Errorf] *)
| EOther (msg : string)
| ErrUserExists | ErrUserNotFound | ErrLastAdmin
| ErrInviteInvalid
| ErrNodeNameTaken | ErrPubKeyTaken | ErrPoolExhausted | ErrNodeNotFound | ErrDeviceLimitReached
| ErrZoneNameTaken | ErrZoneOrPassword | ErrNotMember | ErrOwnedZoneLimitReached
| ErrAnnounceLimit | ErrSubnetOverlap | ErrSyntheticPoolExhausted | ErrAnnouncementNotFound
| ErrRefreshInvalid.
#[export] Instance serr_eq_dec : EqDecision serr.
Proof. solve_decision. Defined.

Definition unique_msg (cols : string) : string := "UNIQUE constraint failed: " +:+ cols.
Definition fk_msg : string := "FOREIGN KEY constraint failed".
Definition io_msg : string := "disk I/O error".

Definition isUniqueViolation (e : serr) : bool :=
  match e with EDriver msg => StrContains msg "UNIQUE constraint failed" | _ => false end.
Definition isUniqueViolationOn (e : serr) (col : string) : bool :=
  match e with
  | EDriver msg => StrContains msg "UNIQUE constraint failed" && StrContains msg col
  | _ => false
  end.

(** Which of several violated UNIQUE constraints SQLite names in its message is
    up to the library: a parameter that picks one of them. *)
Class Sqlite : Type :=
  { pick_violation : list string -> option string;
    pick_violation_in l c : pick_violation l = Some c -> c ∈ l;
    pick_violation_some l : l <> [] -> pick_violation l <> None }.

(** [first_violation]: an instance for the witnesses. *)
#[global, program] Instance first_violation : Sqlite | 100 :=
  {| pick_violation l := head l |}.
Next Obligation. intros [|x l] c; simpl; [done|]. intros [= ->]. left. Qed.
Next Obligation. by intros [|x l]. Qed.

(** ** Executing statements *)

(** The store's world: the database, whether each coming driver call fails
    ([true]; an exhausted list means no more failures), the clock in seconds
    and the random byte strings still to be read. *)
Record Store : Type := mkStore
  { s_db : DB; s_faults : list bool; s_now : Z; s_rand : list (list Z) }.

Definition with_db (d : DB) (s : Store) : Store := mkStore d (s_faults s) (s_now s) (s_rand s).

Abbreviation SM := (M serr Store).

(** A driver call either fails or runs its continuation. *)
Definition driver {A} (m : SM A) : SM A := fun s =>
  match s_faults s with
  | true :: fs => (Err (EDriver io_msg), mkStore (s_db s) fs (s_now s) (s_rand s))
  | false :: fs => m (mkStore (s_db s) fs (s_now s) (s_rand s))
  | [] => m s
  end.

Definition query {A} (f : DB -> A) : SM A := driver (gets (fun s => f (s_db s))).

(** [sql.Result]. *)
Record SqlResult : Type := mkResult { LastInsertId : Z; RowsAffected : Z }.

(** A write: fails with the constraint message, leaving the database as it was. *)
Definition exec (f : DB -> res string (SqlResult * DB)) : SM SqlResult :=
  driver (fun s => match f (s_db s) with
                   | Ok (r, d) => (Ok r, with_db d s)
                   | Err msg => (Err (EDriver msg), s)
                   end).

(** [BeginTx] ... [Commit] with the deferred [Rollback]: the body's writes become
    visible only when the body returns normally and the commit succeeds. *)
Definition tx {A} (body : SM A) : SM A := fun s =>
  let d0 := s_db s in
  match driver (ret tt) s with
  | (Err e, s1) => (Err e, s1)
  | (Ok _, s1) =>
      match body s1 with
      | (Err e, s2) => (Err e, with_db d0 s2)
      | (Ok a, s2) =>
          match driver (ret tt) s2 with
          | (Err e, s3) => (Err e, with_db d0 s3)
          | (Ok _, s3) => (Ok a, s3)
          end
      end
  end.

Definition now_seconds : SM Z := gets s_now.

(** [rand.Read]: the next random byte string, an error when the source fails. *)
Definition rand_read : SM (list Z) := fun s =>
  match s_rand s with
  | b :: bs => (Ok b, mkStore (s_db s) (s_faults s) (s_now s) bs)
  | [] => (Err (EOther "rand: read failed"), s)
  end.

(** ** INSERT statements with their constraint checks *)

(** Uniqueness and foreign keys checked, then the row is appended. *)
Definition checked_insert `{Sqlite} {A} (violated : list string) (fk : bool)
    (mk : Z -> A) (t : table A) (set : table A -> DB) : res string (SqlResult * DB) :=
  match pick_violation violated with
  | Some c => Err (unique_msg c)
  | None => if fk then Ok (mkResult (next_id t) 1, set (insert_row mk t)) else Err fk_msg
  end.

Definition user_exists (d : DB) (id : Z) : bool := bool_decide (id ∈ u_id <$> rows (users d)).
Definition node_exists (d : DB) (id : Z) : bool := bool_decide (id ∈ n_id <$> rows (nodes d)).
Definition zone_exists (d : DB) (id : Z) : bool := bool_decide (id ∈ z_id <$> rows (zones d)).
Definition ann_exists (d : DB) (id : Z) : bool := bool_decide (id ∈ a_id <$> rows (announcements d)).

Definition violation (b : bool) (cols : string) : list string := if b then [cols] else [].

(** [COLLATE NOCASE] compares ASCII letters case-insensitively. *)
Definition insert_user `{Sqlite} (name hash : string) (admin : bool) (created : Z) (d : DB) :=
  checked_insert
    (violation (bool_decide (lower_ascii name ∈ lower_ascii ∘ u_name <$> rows (users d))) "users.username")
    true (fun id => UserRow id name hash admin created) (users d) (fun t => set_users t d).

Definition insert_invite `{Sqlite} (code : string) (creator : Z) (created : Z) (expires : option Z) (d : DB) :=
  checked_insert
    (violation (bool_decide (code ∈ i_code <$> rows (invites d))) "invites.code")
    (user_exists d creator)
    (fun id => InviteRow id code (Some creator) None None created expires) (invites d)
    (fun t => set_invites t d).

Definition insert_node `{Sqlite} (user : Z) (name key : string) (ip created : Z) (platform : string) (d : DB) :=
  checked_insert
    (violation (bool_decide (key ∈ n_key <$> rows (nodes d))) "nodes.wg_pubkey" ++
     violation (bool_decide (ip ∈ n_ip <$> rows (nodes d))) "nodes.ip" ++
     violation (bool_decide ((user, name) ∈ (fun n => (n_user n, n_name n)) <$> rows (nodes d)))
       "nodes.user_id, nodes.name")
    (user_exists d user)
    (fun id => NodeRow id user name key ip created platform) (nodes d) (fun t => set_nodes t d).

Definition insert_zone `{Sqlite} (name hash : string) (owner created : Z) (d : DB) :=
  checked_insert
    (violation (bool_decide (name ∈ z_name <$> rows (zones d))) "zones.name")
    (user_exists d owner)
    (fun id => ZoneRow id name hash owner created) (zones d) (fun t => set_zones t d).

Definition insert_refresh `{Sqlite} (user : Z) (hash : string) (expires created : Z) (d : DB) :=
  checked_insert
    (violation (bool_decide (hash ∈ r_hash <$> rows (refresh_tokens d))) "refresh_tokens.token_hash")
    (user_exists d user)
    (fun id => RefreshRow id user hash expires None created) (refresh_tokens d) (fun t => set_refresh t d).

Definition insert_ann `{Sqlite} (node real len synth created : Z) (d : DB) :=
  checked_insert
    (violation (bool_decide ((node, real, len) ∈ (fun a => (a_node a, a_real a, a_len a)) <$> rows (announcements d)))
       "announcements.node_id, announcements.real_base, announcements.prefix_len" ++
     violation (bool_decide ((synth, len) ∈ (fun a => (a_synth a, a_len a)) <$> rows (announcements d)))
       "announcements.synthetic_base, announcements.prefix_len")
    (node_exists d node)
    (fun id => AnnRow id node real len synth created) (announcements d) (fun t => set_anns t d).

(** [INSERT INTO zone_members ... ON CONFLICT DO NOTHING]. *)
Definition insert_member (zone node joined : Z) (d : DB) : res string (SqlResult * DB) :=
  if bool_decide ((zone, node) ∈ (fun m => (m_zone m, m_node m)) <$> zone_members d)
  then Ok (mkResult 0 0, d)
  else if zone_exists d zone && node_exists d node
       then Ok (mkResult 0 1, set_members (zone_members d ++ [MemberRow zone node joined]) d)
       else Err fk_msg.

(** [INSERT INTO announcement_zones], plain and [OR IGNORE]. *)
Definition insert_attachment (ignore : bool) (ann zone : Z) (d : DB) : res string (SqlResult * DB) :=
  if bool_decide ((ann, zone) ∈ (fun az => (az_ann az, az_zone az)) <$> announcement_zones d)
  then if ignore then Ok (mkResult 0 0, d)
       else Err (unique_msg "announcement_zones.announcement_id, announcement_zones.zone_id")
  else if ann_exists d ann && zone_exists d zone
       then Ok (mkResult 0 1, set_attachments (announcement_zones d ++ [AttachRow ann zone]) d)
       else Err fk_msg.

(** ** UPDATE, DELETE and single-row SELECT *)

Definition count_where {A} (P : A -> Prop) `{forall x, Decision (P x)} (l : list A) : Z :=
  Z.of_nat (length (filter P l)).

(** [UPDATE t SET f WHERE P]. *)
Definition update_where {A} (P : A -> Prop) `{forall x, Decision (P x)} (f : A -> A)
    (t : table A) (set : table A -> DB) : res string (SqlResult * DB) :=
  Ok (mkResult 0 (count_where P (rows t)), set (map_rows (fun x => if decide (P x) then f x else x) t)).

Definition DELETE_user (id : Z) (d : DB) : res string (SqlResult * DB) :=
  Ok (mkResult 0 (count_where (fun u => u_id u = id) (rows (users d))), delete_user id d).
Definition DELETE_nodes (P : node_row -> Prop) `{forall n, Decision (P n)} (d : DB) :
    res string (SqlResult * DB) :=
  Ok (mkResult 0 (count_where P (rows (nodes d))), delete_nodes P d).
Definition DELETE_zones (P : zone_row -> Prop) `{forall z, Decision (P z)} (d : DB) :
    res string (SqlResult * DB) :=
  Ok (mkResult 0 (count_where P (rows (zones d))), delete_zones P d).
Definition DELETE_anns (P : ann_row -> Prop) `{forall a, Decision (P a)} (d : DB) :
    res string (SqlResult * DB) :=
  Ok (mkResult 0 (count_where P (rows (announcements d))), delete_anns P d).
Definition DELETE_members (P : member_row -> Prop) `{forall m, Decision (P m)} (d : DB) :
    res string (SqlResult * DB) :=
  Ok (mkResult 0 (count_where P (zone_members d)),
      set_members (filter (fun m => ~ P m) (zone_members d)) d).
Definition DELETE_attachments (P : attach_row -> Prop) `{forall az, Decision (P az)} (d : DB) :
    res string (SqlResult * DB) :=
  Ok (mkResult 0 (count_where P (announcement_zones d)),
      set_attachments (filter (fun az => ~ P az) (announcement_zones d)) d).

(** [QueryRow ... Scan]: the first matching row, [None] for [sql.ErrNoRows]. *)
Definition first_row {A} (P : A -> Prop) `{forall x, Decision (P x)} (l : list A) : option A :=
  head (filter P l).

Definition user_by_id (d : DB) (id : Z) := first_row (fun u => u_id u = id) (rows (users d)).
Definition node_by_id (d : DB) (id : Z) := first_row (fun n => n_id n = id) (rows (nodes d)).
Definition zone_by_id (d : DB) (id : Z) := first_row (fun z => z_id z = id) (rows (zones d)).
Definition ann_by_id (d : DB) (id : Z) := first_row (fun a => a_id a = id) (rows (announcements d)).

(** [JOIN b ON P]: the rows of [b] that satisfy the join condition. *)
Definition join_on {A B} (l : list A) (P : A -> Prop) `{forall x, Decision (P x)} (k : A -> list B) : list B :=
  filter P l ≫= k.
