(* ===== verification/StoreInv.v ===== *)
(** * The schema invariant

    What migrations 1 to 7 promise of a database at rest: increasing rowids
    bounded by [sqlite_sequence], the UNIQUE and PRIMARY KEY constraints and the
    foreign keys; and that every statement the repositories execute keeps it,
    whatever the driver does. *)
From stdpp Require Import sorting.
From S2P Require Import Prelude GoStrings Netip Ipam Db.

#[local] Open Scope lw_scope.

(** ** Constraints on one table *)

Definition table_ok {A} (pk : A -> Z) (t : table A) : Prop :=
  0 <= seq t /\ StronglySorted Z.lt (pk <$> rows t) /\ (forall x, x ∈ rows t -> 0 < pk x <= seq t).
Definition uniq {A B} (key : A -> B) (l : list A) : Prop := NoDup (key <$> l).
Definition refs {A B} (fk : A -> Z) (l : list A) (pk : B -> Z) (l' : list B) : Prop :=
  forall x, x ∈ l -> fk x ∈ pk <$> l'.
(** A nullable reference. *)
Definition refs_opt {A B} (fk : A -> option Z) (l : list A) (pk : B -> Z) (l' : list B) : Prop :=
  forall x i, x ∈ l -> fk x = Some i -> i ∈ pk <$> l'.

Record schema_ok (d : DB) : Prop := mkSchema
  { ok_users : table_ok u_id (users d);
    ok_invites : table_ok i_id (invites d);
    ok_nodes : table_ok n_id (nodes d);
    ok_zones : table_ok z_id (zones d);
    ok_refresh : table_ok r_id (refresh_tokens d);
    ok_anns : table_ok a_id (announcements d);
    uq_user_name : uniq (lower_ascii ∘ u_name) (rows (users d));
    uq_code : uniq i_code (rows (invites d));
    uq_node_key : uniq n_key (rows (nodes d));
    uq_node_ip : uniq n_ip (rows (nodes d));
    uq_node_name : uniq (fun n => (n_user n, n_name n)) (rows (nodes d));
    uq_zone_name : uniq z_name (rows (zones d));
    uq_member : uniq (fun m => (m_zone m, m_node m)) (zone_members d);
    uq_token : uniq r_hash (rows (refresh_tokens d));
    uq_real : uniq (fun a => (a_node a, a_real a, a_len a)) (rows (announcements d));
    uq_synth : uniq (fun a => (a_synth a, a_len a)) (rows (announcements d));
    uq_attach : uniq (fun az => (az_ann az, az_zone az)) (announcement_zones d);
    fk_creator : refs_opt i_creator (rows (invites d)) u_id (rows (users d));
    fk_used_by : refs_opt i_used_by (rows (invites d)) u_id (rows (users d));
    fk_node_user : refs n_user (rows (nodes d)) u_id (rows (users d));
    fk_zone_owner : refs z_owner (rows (zones d)) u_id (rows (users d));
    fk_member_zone : refs m_zone (zone_members d) z_id (rows (zones d));
    fk_member_node : refs m_node (zone_members d) n_id (rows (nodes d));
    fk_refresh_user : refs r_user (rows (refresh_tokens d)) u_id (rows (users d));
    fk_ann_node : refs a_node (rows (announcements d)) n_id (rows (nodes d));
    fk_attach_ann : refs az_ann (announcement_zones d) a_id (rows (announcements d));
    fk_attach_zone : refs az_zone (announcement_zones d) z_id (rows (zones d)) }.

(** ** Generic preservation lemmas *)

Lemma StronglySorted_sublist {A} (R : relation A) l k :
  sublist l k -> StronglySorted R k -> StronglySorted R l.
Proof.
  induction 1 as [|x l k Hl IH|x l k Hl IH]; intros Hk; [done| |]; inversion Hk; subst; [|by auto].
  constructor; [by auto|]. rewrite Forall_forall in *. intros y Hy. eapply elem_of_submseteq in Hy;
    [eauto|by apply sublist_submseteq].
Qed.

Section Generic.
  Context {A B : Type}.
  Implicit Types (l k : list A) (t : table A).

Lemma table_ok_sub (pk : A -> Z) t t' :
    sublist (rows t') (rows t) -> seq t' = seq t -> table_ok pk t -> table_ok pk t'.
  Proof.
    intros Hsub Hseq (H0 & Hs & Hr). unfold table_ok. rewrite Hseq. split_and!; [done| |].
    - eapply StronglySorted_sublist; [by apply sublist_fmap_mono|done].
    - intros x Hx. apply Hr. eapply elem_of_submseteq; [done|by apply sublist_submseteq].
  Qed.
Lemma table_ok_keep (pk : A -> Z) (P : A -> Prop) `{forall x, Decision (P x)} t :
    table_ok pk t -> table_ok pk (keep_rows P t).
  Proof. apply table_ok_sub; [apply sublist_filter|done]. Qed.
Lemma table_ok_insert (pk : A -> Z) mk t :
    (forall i, pk (mk i) = i) -> table_ok pk t -> table_ok pk (insert_row mk t).
  Proof.
    intros Hpk (H0 & Hs & Hr). unfold table_ok, insert_row, next_id; simpl. split_and!; [lia| |].
    - rewrite fmap_app. simpl. rewrite Hpk. apply StronglySorted_app_2; [|done|repeat constructor].
      intros x y Hx Hy. apply list_elem_of_singleton in Hy as ->.
      apply list_elem_of_fmap in Hx as (z & -> & Hz). specialize (Hr z Hz). lia.
    - intros x [Hx| ->%list_elem_of_singleton]%elem_of_app; [specialize (Hr x Hx); lia|].
      rewrite Hpk. lia.
  Qed.
Lemma fmap_key_map (key : A -> B) (f : A -> A) l :
    (forall x, key (f x) = key x) -> key <$> (f <$> l) = key <$> l.
  Proof. intros Hf. rewrite <- list_fmap_compose. apply list_fmap_ext. intros; apply Hf. Qed.

Lemma uniq_sub (key : A -> B) l k : sublist k l -> uniq key l -> uniq key k.
  Proof. intros Hs Hl. eapply sublist_NoDup; [done|]. by apply sublist_fmap_mono. Qed.
Lemma uniq_filter (key : A -> B) (P : A -> Prop) `{forall x, Decision (P x)} l :
    uniq key l -> uniq key (filter P l).
  Proof. apply uniq_sub, sublist_filter. Qed.
Lemma uniq_snoc (key : A -> B) l x : key x ∉ key <$> l -> uniq key l -> uniq key (l ++ [x]).
  Proof.
    intros Hx Hl. unfold uniq. rewrite fmap_app. apply NoDup_app. split_and!; [done| |apply NoDup_singleton].
    simpl. intros y Hy ->%list_elem_of_singleton. done.
  Qed.
Lemma uniq_map (key : A -> B) (f : A -> A) l :
    (forall x, key (f x) = key x) -> uniq key l -> uniq key (f <$> l).
  Proof. intros Hf. unfold uniq. by rewrite fmap_key_map. Qed.

Lemma refs_filter (fk : A -> Z) (P : A -> Prop) `{forall x, Decision (P x)} l (pk : B -> Z) (l' : list B) :
    refs fk l pk l' -> refs fk (filter P l) pk l'.
  Proof. intros Hr x Hx. apply Hr. apply list_elem_of_filter in Hx. tauto. Qed.
Lemma refs_snoc_l (fk : A -> Z) l x (pk : B -> Z) (l' : list B) :
    fk x ∈ pk <$> l' -> refs fk l pk l' -> refs fk (l ++ [x]) pk l'.
  Proof. intros Hx Hr y [Hy| ->%list_elem_of_singleton]%elem_of_app; [by apply Hr|done]. Qed.
Lemma refs_snoc_r (fk : A -> Z) l (pk : B -> Z) (l' : list B) y :
    refs fk l pk l' -> refs fk l pk (l' ++ [y]).
  Proof. intros Hr x Hx. rewrite fmap_app. apply elem_of_app. left. by apply Hr. Qed.
Lemma refs_map_l (fk : A -> Z) (f : A -> A) l (pk : B -> Z) (l' : list B) :
    (forall x, fk (f x) = fk x) -> refs fk l pk l' -> refs fk (f <$> l) pk l'.
  Proof. intros Hf Hr x (y & -> & Hy)%list_elem_of_fmap. rewrite Hf. by apply Hr. Qed.
Lemma refs_map_r (fk : A -> Z) l (pk : B -> Z) (f : B -> B) (l' : list B) :
    (forall x, pk (f x) = pk x) -> refs fk l pk l' -> refs fk l pk (f <$> l').
  Proof. intros Hf Hr x Hx. rewrite <- list_fmap_compose. rewrite (list_fmap_ext _ pk l'); [by apply Hr|intros; apply Hf]. Qed.

  (** Deleting referenced rows together with the rows that refer to them. *)
Lemma refs_cascade (fk : A -> Z) l (pk : B -> Z) (P : B -> Prop) `{forall y, Decision (P y)} (l' : list B) :
    refs fk l pk l' ->
    refs fk (filter (fun x => fk x ∉ pk <$> filter P l') l) pk (filter (fun y => ~ P y) l').
  Proof.
    intros Hr x [Hx Hxl]%list_elem_of_filter. specialize (Hr x Hxl).
    apply list_elem_of_fmap in Hr as (y & Heq & Hy). apply list_elem_of_fmap. exists y. split; [done|].
    apply list_elem_of_filter. split; [|done]. intros HP. apply Hx. rewrite Heq.
    apply list_elem_of_fmap. exists y. split; [done|]. by apply list_elem_of_filter.
  Qed.
  (** Rows no kept row refers to may be deleted. *)
Lemma refs_unreferenced (fk : A -> Z) l (pk : B -> Z) (P : B -> Prop) `{forall y, Decision (P y)} (l' : list B) :
    refs fk l pk l' -> (forall x y, x ∈ l -> pk y = fk x -> P y) ->
    refs fk l pk (filter P l').
  Proof.
    intros Hr HP x Hx. specialize (Hr x Hx). apply list_elem_of_fmap in Hr as (y & Heq & Hy).
    apply list_elem_of_fmap. exists y. split; [done|]. apply list_elem_of_filter. eauto.
  Qed.

Lemma refs_opt_snoc_l (fk : A -> option Z) l x (pk : B -> Z) (l' : list B) :
    (forall i, fk x = Some i -> i ∈ pk <$> l') -> refs_opt fk l pk l' -> refs_opt fk (l ++ [x]) pk l'.
  Proof. intros Hx Hr y i [Hy| ->%list_elem_of_singleton]%elem_of_app; eauto. Qed.
Lemma refs_opt_snoc_r (fk : A -> option Z) l (pk : B -> Z) (l' : list B) y :
    refs_opt fk l pk l' -> refs_opt fk l pk (l' ++ [y]).
  Proof. intros Hr x i Hx Hi. rewrite fmap_app. apply elem_of_app. left. eauto. Qed.
Lemma refs_opt_map_l (fk : A -> option Z) (f : A -> A) l (pk : B -> Z) (l' : list B) :
    (forall x i, x ∈ l -> fk (f x) = Some i -> fk x = Some i \/ i ∈ pk <$> l') ->
    refs_opt fk l pk l' -> refs_opt fk (f <$> l) pk l'.
  Proof. intros Hf Hr x i (y & -> & Hy)%list_elem_of_fmap Hi. destruct (Hf y i Hy Hi); eauto. Qed.
End Generic.

Create HintDb schema discriminated.
#[export] Hint Resolve table_ok_keep table_ok_insert uniq_filter uniq_snoc uniq_map refs_filter
  refs_snoc_l refs_snoc_r refs_cascade refs_opt_snoc_l refs_opt_snoc_r : schema.

Lemma table_ok_map {A} (pk : A -> Z) (f : A -> A) t :
  (forall x, pk (f x) = pk x) -> table_ok pk t -> table_ok pk (map_rows f t).
Proof.
  intros Hf (H0 & Hs & Hr). unfold table_ok, map_rows; simpl. rewrite (fmap_key_map pk f) by done.
  split_and!; [done|done|]. intros x (y & -> & Hy)%list_elem_of_fmap. rewrite Hf. by apply Hr.
Qed.

(** [schema_solve H]: each constraint of the new database from the old ones in [H]. *)
Ltac schema_solve H :=
  destruct H; constructor; simpl; try assumption; eauto 3 with schema.

(** ** DELETE statements *)

Lemma delete_anns_ok P `{forall a, Decision (P a)} d : schema_ok d -> schema_ok (delete_anns P d).
Proof. intros Hd. unfold delete_anns. schema_solve Hd. Qed.
Lemma DELETE_attachments_ok P `{forall a, Decision (P a)} d :
  schema_ok d -> schema_ok (set_attachments (filter P (announcement_zones d)) d).
Proof. intros Hd. schema_solve Hd. Qed.
Lemma DELETE_members_ok P `{forall a, Decision (P a)} d :
  schema_ok d -> schema_ok (set_members (filter P (zone_members d)) d).
Proof. intros Hd. schema_solve Hd. Qed.
Lemma delete_zones_ok P `{forall a, Decision (P a)} d : schema_ok d -> schema_ok (delete_zones P d).
Proof. intros Hd. unfold delete_zones. schema_solve Hd. Qed.

Lemma delete_nodes_ok P `{forall n, Decision (P n)} d : schema_ok d -> schema_ok (delete_nodes P d).
Proof.
  intros Hd. unfold delete_nodes, delete_anns. simpl. schema_solve Hd.
Qed.

Lemma refs_delete {A} (fk : A -> Z) (l : list A) id (us : list user_row) :
  refs fk l u_id us -> (forall x, x ∈ l -> fk x <> id) ->
  refs fk l u_id (filter (fun u => u_id u <> id) us).
Proof. intros Hr Hl. apply refs_unreferenced; [done|]. intros x y Hx ->. by apply Hl. Qed.

Lemma refs_opt_null {A} (fk : A -> option Z) (f : A -> A) (l : list A) id (us : list user_row) :
  (forall x, fk (f x) = null_if id (fk x)) -> refs_opt fk l u_id us ->
  refs_opt fk (f <$> l) u_id (filter (fun u => u_id u <> id) us).
Proof.
  intros Hf Hr x i (y & -> & Hy)%list_elem_of_fmap. rewrite Hf. unfold null_if.
  destruct (fk y) as [j|] eqn:Hj; [|done]. case_decide as Hne; [done|]. intros [= <-].
  specialize (Hr y j Hy Hj). apply list_elem_of_fmap in Hr as (u & -> & Hu).
  apply list_elem_of_fmap. exists u. split; [done|]. by apply list_elem_of_filter.
Qed.

Lemma delete_user_ok id d : schema_ok d -> schema_ok (delete_user id d).
Proof.
  intros Hd. unfold delete_user.
  assert (Hns : forall n, n ∈ rows (nodes (delete_nodes (fun n => n_user n = id) d)) -> n_user n <> id).
  { intros n [? _]%list_elem_of_filter. done. }
  apply (delete_nodes_ok (fun n => n_user n = id)) in Hd.
  set (d1 := delete_nodes _ d) in *. clearbody d1.
  assert (Hzs : forall z, z ∈ rows (zones (delete_zones (fun z => z_owner z = id) d1)) -> z_owner z <> id).
  { intros z [? _]%list_elem_of_filter. done. }
  apply (delete_zones_ok (fun z => z_owner z = id)) in Hd.
  change (nodes d1) with (nodes (delete_zones (fun z => z_owner z = id) d1)) in Hns.
  set (d2 := delete_zones _ d1) in *. clearbody d2.
  schema_solve Hd.
  all: try (by apply uniq_map).
  all: try (by apply table_ok_map).
  all: try (by apply refs_opt_null).
  all: apply refs_delete; [by try apply refs_filter|try done].
  by intros r [? _]%list_elem_of_filter.
Qed.

(** ** INSERT statements *)

Lemma violation_nil b cols : violation b cols = [] -> b = false.
Proof. by destruct b. Qed.

Lemma checked_insert_ok `{Sqlite} {A} violated fk (mk : Z -> A) t set r d :
  checked_insert violated fk mk t set = Ok (r, d) ->
  violated = [] /\ fk = true /\ d = set (insert_row mk t) /\ r = mkResult (next_id t) 1.
Proof.
  unfold checked_insert. destruct (pick_violation violated) eqn:Hp; [done|]. destruct fk; [|done].
  intros [= <- <-]. split_and!; [|done..]. by destruct violated as [|v l]; [|destruct (pick_violation_some (v :: l))].
Qed.

(** Turns the checks that passed into the facts the invariant needs. *)
Ltac insert_facts H :=
  apply checked_insert_ok in H as (?Hv & ?Hfk & -> & _);
  repeat match goal with Hv : _ ++ _ = [] |- _ => apply app_nil in Hv as [? ?] end;
  repeat match goal with Hv : violation _ _ = [] |- _ => apply violation_nil in Hv; rewrite bool_decide_eq_false in Hv end;
  unfold user_exists, node_exists, zone_exists, ann_exists in *;
  rewrite ?bool_decide_eq_true in *.

Lemma insert_user_ok `{Sqlite} name hash admin now d r d' :
  insert_user name hash admin now d = Ok (r, d') -> schema_ok d -> schema_ok d'.
Proof. unfold insert_user. intros Hi Hd. insert_facts Hi. schema_solve Hd. Qed.
Lemma insert_invite_ok `{Sqlite} code creator now expires d r d' :
  insert_invite code creator now expires d = Ok (r, d') -> schema_ok d -> schema_ok d'.
Proof.
  unfold insert_invite. intros Hi Hd. insert_facts Hi. schema_solve Hd.
  all: apply refs_opt_snoc_l; [by intros i [= <-]|done].
Qed.
Lemma insert_node_ok `{Sqlite} user name key ip now platform d r d' :
  insert_node user name key ip now platform d = Ok (r, d') -> schema_ok d -> schema_ok d'.
Proof. unfold insert_node. intros Hi Hd. insert_facts Hi. schema_solve Hd. Qed.
Lemma insert_zone_ok `{Sqlite} name hash owner now d r d' :
  insert_zone name hash owner now d = Ok (r, d') -> schema_ok d -> schema_ok d'.
Proof. unfold insert_zone. intros Hi Hd. insert_facts Hi. schema_solve Hd. Qed.
Lemma insert_refresh_ok `{Sqlite} user hash expires now d r d' :
  insert_refresh user hash expires now d = Ok (r, d') -> schema_ok d -> schema_ok d'.
Proof. unfold insert_refresh. intros Hi Hd. insert_facts Hi. schema_solve Hd. Qed.
Lemma insert_ann_ok `{Sqlite} node real len synth now d r d' :
  insert_ann node real len synth now d = Ok (r, d') -> schema_ok d -> schema_ok d'.
Proof. unfold insert_ann. intros Hi Hd. insert_facts Hi. schema_solve Hd. Qed.

Lemma insert_member_ok zone node now d r d' :
  insert_member zone node now d = Ok (r, d') -> schema_ok d -> schema_ok d'.
Proof.
  unfold insert_member. case_bool_decide as Hm; [by intros [= <- <-]|].
  unfold zone_exists, node_exists. do 2 case_bool_decide; simpl; try done. intros [= <- <-] Hd. schema_solve Hd.
Qed.
Lemma insert_attachment_ok ignore ann zone d r d' :
  insert_attachment ignore ann zone d = Ok (r, d') -> schema_ok d -> schema_ok d'.
Proof.
  unfold insert_attachment. case_bool_decide as Hm; [destruct ignore; [by intros [= <- <-]|done]|].
  unfold ann_exists, zone_exists. do 2 case_bool_decide; simpl; try done. intros [= <- <-] Hd. schema_solve Hd.
Qed.

(** ** Statements and transactions in the store monad *)

Definition store_ok (s : Store) : Prop := schema_ok (s_db s).
Definition stmt_ok (f : DB -> res string (SqlResult * DB)) : Prop :=
  forall d r d', f d = Ok (r, d') -> schema_ok d -> schema_ok d'.

(** Everything about the store's monad that does not depend on the invariant:
    a predicate on databases is preserved by statements that preserve it. *)
Section Preserve.
  Context (J : DB -> Prop).

Lemma pres_driver {A} (m : SM A) :
    pres (fun s => J (s_db s)) m -> pres (fun s => J (s_db s)) (driver m).
  Proof. intros Hm s Hs. unfold driver. destruct (s_faults s) as [|[] fs]; [by apply Hm|done|by apply Hm]. Qed.
Lemma pres_query {A} (f : DB -> A) : pres (fun s => J (s_db s)) (query f).
  Proof. apply pres_driver, pres_gets. Qed.
Lemma pres_exec f :
    (forall d r d', f d = Ok (r, d') -> J d -> J d') -> pres (fun s => J (s_db s)) (exec f).
  Proof. intros Hf. apply pres_driver. intros s Hs. destruct (f (s_db s)) as [[r d]|e] eqn:Hfd; simpl; eauto. Qed.
Lemma pres_rand : pres (fun s => J (s_db s)) rand_read.
  Proof. intros s Hs. unfold rand_read. by destruct (s_rand s). Qed.
Lemma pres_tx {A} (m : SM A) : pres (fun s => J (s_db s)) m -> pres (fun s => J (s_db s)) (tx m).
  Proof.
    intros Hm s Hs. unfold tx.
    pose proof (pres_driver (ret tt) (pres_ret _ _) s Hs) as H1.
    destruct (driver (ret tt) s) as [[]  s1]; [|done]. simpl in H1.
    pose proof (Hm s1 H1) as H2. destruct (m s1) as [[] s2]; [|done]. simpl in H2.
    pose proof (pres_driver (ret tt) (pres_ret _ _) s2 H2) as H3.
    by destruct (driver (ret tt) s2) as [[] s3].
  Qed.
Lemma pres_update {A} (P : A -> Prop) `{forall x, Decision (P x)} (f : A -> A) (t : DB -> table A) set :
    (forall d, J d -> J (set d (map_rows (fun x => if decide (P x) then f x else x) (t d)))) ->
    pres (fun s => J (s_db s)) (exec (fun d => update_where P f (t d) (set d))).
  Proof. intros Hj. apply pres_exec. unfold update_where. intros d r d' [= <- <-]. apply Hj. Qed.
End Preserve.

(** A store operation keeps the schema invariant. *)
Abbreviation keeps_schema := (pres store_ok).

Lemma keeps_query {A} (f : DB -> A) : keeps_schema (query f).
Proof. apply (pres_query schema_ok). Qed.
Lemma keeps_exec f : stmt_ok f -> keeps_schema (exec f).
Proof. apply (pres_exec schema_ok). Qed.
Lemma keeps_rand : keeps_schema rand_read.
Proof. apply (pres_rand schema_ok). Qed.
Lemma keeps_now : keeps_schema now_seconds.
Proof. apply pres_gets. Qed.
Lemma keeps_tx {A} (m : SM A) : keeps_schema m -> keeps_schema (tx m).
Proof. apply (pres_tx schema_ok). Qed.

Lemma DELETE_user_stmt id : stmt_ok (DELETE_user id).
Proof. intros d r d' [= <- <-]. apply delete_user_ok. Qed.
Lemma DELETE_nodes_stmt P `{forall n, Decision (P n)} : stmt_ok (DELETE_nodes P).
Proof. intros d r d' [= <- <-]. by apply delete_nodes_ok. Qed.
Lemma DELETE_zones_stmt P `{forall z, Decision (P z)} : stmt_ok (DELETE_zones P).
Proof. intros d r d' [= <- <-]. by apply delete_zones_ok. Qed.
Lemma DELETE_anns_stmt P `{forall a, Decision (P a)} : stmt_ok (DELETE_anns P).
Proof. intros d r d' [= <- <-]. by apply delete_anns_ok. Qed.
Lemma DELETE_members_stmt P `{forall m, Decision (P m)} : stmt_ok (DELETE_members P).
Proof. intros d r d' [= <- <-]. apply DELETE_members_ok. Qed.
Lemma DELETE_attachments_stmt P `{forall az, Decision (P az)} : stmt_ok (DELETE_attachments P).
Proof. intros d r d' [= <- <-]. apply DELETE_attachments_ok. Qed.
Lemma insert_user_stmt `{Sqlite} name hash admin now : stmt_ok (insert_user name hash admin now).
Proof. intros d r d'. apply insert_user_ok. Qed.
Lemma insert_invite_stmt `{Sqlite} code creator now expires : stmt_ok (insert_invite code creator now expires).
Proof. intros d r d'. apply insert_invite_ok. Qed.
Lemma insert_refresh_stmt `{Sqlite} user hash expires now : stmt_ok (insert_refresh user hash expires now).
Proof. intros d r d'. apply insert_refresh_ok. Qed.
Lemma insert_ann_stmt `{Sqlite} node real len synth now : stmt_ok (insert_ann node real len synth now).
Proof. intros d r d'. apply insert_ann_ok. Qed.
Lemma insert_member_stmt zone node now : stmt_ok (insert_member zone node now).
Proof. intros d r d'. apply insert_member_ok. Qed.
Lemma insert_attachment_stmt ignore ann zone : stmt_ok (insert_attachment ignore ann zone).
Proof. intros d r d'. apply insert_attachment_ok. Qed.

#[export] Hint Resolve keeps_query keeps_exec keeps_rand keeps_now : pres.
#[export] Hint Resolve DELETE_user_stmt DELETE_nodes_stmt DELETE_zones_stmt DELETE_anns_stmt
  DELETE_members_stmt DELETE_attachments_stmt insert_user_stmt insert_invite_stmt
  insert_refresh_stmt insert_ann_stmt insert_member_stmt insert_attachment_stmt : pres.

(** ** Looking rows up *)

Lemma first_row_some {A} (P : A -> Prop) `{forall x, Decision (P x)} l x :
  first_row P l = Some x -> P x /\ x ∈ l.
Proof.
  unfold first_row. intros Hh.
  assert (x ∈ filter P l) as Hf by (destruct (filter P l); [done|injection Hh as ->; left]).
  by apply list_elem_of_filter in Hf.
Qed.
Lemma first_row_none {A} (P : A -> Prop) `{forall x, Decision (P x)} l :
  first_row P l = None <-> forall x, x ∈ l -> ~ P x.
Proof.
  unfold first_row. split.
  - intros Hh x Hx HP. assert (x ∈ filter P l) as Hf by (by apply list_elem_of_filter).
    destruct (filter P l); [by apply not_elem_of_nil in Hf|done].
  - intros Hn. destruct (filter P l) as [|y l'] eqn:Hf; [done|].
    assert (y ∈ filter P l) as [? ?]%list_elem_of_filter by (rewrite Hf; left). by destruct (Hn y).
Qed.
Lemma uniq_inj {A B} (key : A -> B) l x y : uniq key l -> x ∈ l -> y ∈ l -> key x = key y -> x = y.
Proof.
  unfold uniq. induction l as [|z l IH]; [by intros _ ?%not_elem_of_nil|]. simpl. intros [Hz Hl]%NoDup_cons.
  assert (forall w, w ∈ l -> key w <> key z) as Hw.
  { intros w Hw Heq. apply Hz. rewrite <- Heq. by apply list_elem_of_fmap_2. }
  intros [->|Hx]%elem_of_cons [->|Hy]%elem_of_cons Heq; [done|by destruct (Hw y)|by destruct (Hw x)|auto].
Qed.
Lemma table_ok_uniq {A} (pk : A -> Z) t : table_ok pk t -> uniq pk (rows t).
Proof.
  intros (_ & Hs & _). unfold uniq. induction Hs as [|i l Hs IH Hi]; constructor; [|done].
  intros Hin. rewrite Forall_forall in Hi. specialize (Hi _ Hin). lia.
Qed.
Lemma table_ok_next {A} (pk : A -> Z) t x : table_ok pk t -> x ∈ rows t -> pk x <> next_id t.
Proof. intros (_ & _ & Hr) Hx. specialize (Hr x Hx). unfold next_id. lia. Qed.

(** A lookup by a unique key finds the one row that has it. *)
Lemma first_row_unique {A} (P : A -> Prop) `{forall x, Decision (P x)} l x :
  (forall y, y ∈ l -> P y -> y = x) -> x ∈ l -> P x -> first_row P l = Some x.
Proof.
  intros Hu Hx HP. destruct (first_row P l) as [y|] eqn:Hy.
  - apply first_row_some in Hy as [? ?]. f_equal. by apply Hu.
  - rewrite first_row_none in Hy. by destruct (Hy x).
Qed.
Lemma by_id_iff {A} (pk : A -> Z) t id x :
  table_ok pk t -> first_row (fun y => pk y = id) (rows t) = Some x <-> x ∈ rows t /\ pk x = id.
Proof.
  intros Ht. split; [by intros [? ?]%first_row_some|]. intros [Hx <-].
  apply first_row_unique; [|done..]. intros y Hy Heq. by apply (uniq_inj pk (rows t)); [apply table_ok_uniq| | |].
Qed.
Lemma count_where_pos {A} (P : A -> Prop) `{forall x, Decision (P x)} l x :
  x ∈ l -> P x -> 1 <= count_where P l.
Proof.
  intros Hx HP. unfold count_where. assert (x ∈ filter P l) as Hf by (by apply list_elem_of_filter).
  destruct (filter P l); [by apply not_elem_of_nil in Hf|simpl; lia].
Qed.
Lemma count_where_zero {A} (P : A -> Prop) `{forall x, Decision (P x)} l :
  count_where P l = 0 <-> forall x, x ∈ l -> ~ P x.
Proof.
  split.
  - intros Hc x Hx HP. pose proof (count_where_pos P l x Hx HP). lia.
  - intros Hn. unfold count_where. destruct (filter P l) as [|y l'] eqn:Hf; [done|].
    assert (y ∈ filter P l) as [? ?]%list_elem_of_filter by (rewrite Hf; left). by destruct (Hn y).
Qed.
(** At most one row satisfies a predicate that fixes a unique key. *)
Lemma count_where_unique {A B} (P : A -> Prop) `{forall x, Decision (P x)} (key : A -> B) l k :
  uniq key l -> (forall x, P x -> key x = k) -> count_where P l <= 1.
Proof.
  intros Hu HP. unfold count_where. pose proof (uniq_filter key P l Hu) as Hf.
  destruct (filter P l) as [|x [|y l']] eqn:Heq; [simpl; lia..|]. exfalso.
  assert (x ∈ filter P l /\ y ∈ filter P l) as [[Hx _]%list_elem_of_filter [Hy _]%list_elem_of_filter].
  { rewrite Heq. split; [left|right; left]. }
  unfold uniq in Hf. simpl in Hf. apply NoDup_cons in Hf as [Hf _]. apply Hf.
  rewrite (HP x), (HP y) by done. left.
Qed.
