(* ===== verification/StoreUsers.v ===== *)
(** * Users, registration, invites and refresh tokens
    ([internal/server/store/users.go], [register.go], [invites.go],
    [refresh_tokens.go])

    Row records stand for the Go structs of the same name: the text columns
    hold RFC 3339 times in UTC, written by the program itself, so parsing them
    back cannot fail and comparing them as text is comparing seconds. An error
    wrapped with [%w] keeps its identity. *)
From S2P Require Import Prelude GoStrings Netip Ipam Codec Db.

#[local] Open Scope lw_scope.

(** ** [UserRepo] *)

Definition GetByUsername (username : string) : SM (option user_row) :=
  query (fun d => first_row (fun u => lower_ascii (u_name u) = lower_ascii username) (rows (users d))).
Definition GetUserByID (id : Z) : SM (option user_row) := query (fun d => user_by_id d id).

Definition CreateAdmin `{Sqlite} (username passwordHash : string) : SM user_row :=
  let! now := now_seconds in
  let! r := try (exec (insert_user username passwordHash true now)) in
  match r with
  | Err e => throw (if isUniqueViolation e then ErrUserExists else e)
  | Ok res => ret (UserRow (LastInsertId res) username passwordHash true now)
  end.

Record RouteRecomputeNode : Type := mkRecompute { rr_node : Z; rr_key : string; rr_ip : Addr }.

Record DeletionResult : Type := mkDeletion
  { NodePubKeys : list string;
    SurvivingMemberships : list (Addr * Z);    (** address, zone *)
    OwnedZoneIDs : list Z;
    SurvivingZoneRoutes : list (Z * Prefix);   (** zone, synthetic block *)
    RouteRecomputeNodes : list RouteRecomputeNode }.

Definition owned_zone_ids (target : Z) (d : DB) : list Z :=
  z_id <$> filter (fun z => z_owner z = target) (rows (zones d)).
Definition node_keys (target : Z) (d : DB) : list string :=
  n_key <$> filter (fun n => n_user n = target) (rows (nodes d)).

Definition surviving_memberships (target : Z) (d : DB) : list (Addr * Z) :=
  zone_members d ≫= fun m =>
  join_on (rows (nodes d)) (fun n => n_id n = m_node m) (fun n =>
  join_on (rows (zones d)) (fun z => z_id z = m_zone m) (fun z =>
  if decide (n_user n = target /\ z_owner z <> target)
  then [(Uint32ToAddr (u32 (n_ip n)), m_zone m)] else [])).

Definition surviving_routes (target : Z) (d : DB) : list (Z * Prefix) :=
  announcement_zones d ≫= fun az =>
  join_on (rows (announcements d)) (fun a => a_id a = az_ann az) (fun a =>
  join_on (rows (nodes d)) (fun n => n_id n = a_node a) (fun n =>
  join_on (rows (zones d)) (fun z => z_id z = az_zone az) (fun z =>
  if decide (n_user n = target /\ z_owner z <> target)
  then [(az_zone az, BlockPrefix (mkBlock (u32 (a_synth a)) (a_len a)))] else []))).

(** Announcements left without any attachment, joined with their node. *)
Definition orphans (d : DB) : list (ann_row * node_row) :=
  rows (announcements d) ≫= fun a =>
  join_on (rows (nodes d)) (fun n => n_id n = a_node a) (fun n =>
  if decide (a_id a ∉ az_ann <$> announcement_zones d) then [(a, n)] else []).

(** The cursor loop over [orphans], with its [seenNode] map. *)
Fixpoint gather_orphans (seen : gset Z) (l : list (ann_row * node_row)) :
    list Z * list RouteRecomputeNode :=
  match l with
  | [] => ([], [])
  | (a, n) :: l =>
      let fresh := bool_decide (a_node a ∉ seen) in
      let '(ids, nodes) := gather_orphans (if fresh then {[a_node a]} ∪ seen else seen) l in
      (a_id a :: ids,
       if fresh then mkRecompute (a_node a) (n_key n) (Uint32ToAddr (u32 (n_ip n))) :: nodes else nodes)
  end.

Definition DeleteCascade (targetID : Z) : SM DeletionResult :=
  tx (let! row := query (fun d => user_by_id d targetID) in
      match row with
      | None => throw ErrUserNotFound
      | Some u =>
          do! (if u_admin u
               then let! admins := query (fun d => count_where (fun u => u_admin u = true) (rows (users d))) in
                    if admins <=? 1 then throw ErrLastAdmin else ret tt
               else ret tt) in
          let! owned := query (owned_zone_ids targetID) in
          let! keys := query (node_keys targetID) in
          let! mems := query (surviving_memberships targetID) in
          let! routes := query (surviving_routes targetID) in
          do! exec (DELETE_user targetID) in
          let! orphanRows := query orphans in
          let '(orphanIDs, recompute) := gather_orphans ∅ orphanRows in
          do! for_each orphanIDs (fun annID =>
                do! exec (DELETE_anns (fun a => a_id a = annID)) in ret tt) in
          ret (mkDeletion keys mems owned routes recompute)
      end).

(** ** [Store.Register] *)

Definition consumable (code : string) (now : Z) (i : invite_row) : Prop :=
  i_code i = code /\ i_used_at i = None /\
  match i_expires i with None => True | Some t => now < t end.
#[global] Instance consumable_dec code now i : Decision (consumable code now i).
Proof. unfold consumable. destruct (i_expires i); apply _. Defined.

Definition consume_invite (uid now : Z) (code : string) (d : DB) : res string (SqlResult * DB) :=
  update_where (consumable code now)
    (fun i => InviteRow (i_id i) (i_code i) (i_creator i) (Some uid) (Some now) (i_created i) (i_expires i))
    (invites d) (fun t => set_invites t d).

Definition Register `{Sqlite} (username passwordHash code : string) : SM user_row :=
  tx (let! now := now_seconds in
      let! r := try (exec (insert_user username passwordHash false now)) in
      match r with
      | Err e => throw (if isUniqueViolation e then ErrUserExists else e)
      | Ok res =>
          let uid := LastInsertId res in
          let! upd := exec (consume_invite uid now code) in
          if negb (RowsAffected upd =? 1) then throw ErrInviteInvalid
          else ret (UserRow uid username passwordHash false now)
      end).

(** ** [InviteRepo] *)

Definition nanos : Z := 1000000000.

Definition generateInviteCode : SM string :=
  let! b := rand_read in ret (RawURLEncode b).

Fixpoint create_invite `{Sqlite} (tries : nat) (creator now : Z) (expires : option Z) : SM string :=
  match tries with
  | O => throw (EOther "create invite: exhausted unique-code retries")
  | S tries =>
      let! code := generateInviteCode in
      let! r := try (exec (insert_invite code creator now expires)) in
      match r with
      | Ok _ => ret code
      | Err e => if isUniqueViolation e then create_invite tries creator now expires else throw e
      end
  end.

(** [ttl] and the returned expiry are in nanoseconds; the column keeps whole seconds. *)
Definition CreateInvite `{Sqlite} (creator ttl : Z) : SM (string * option Z) :=
  let! now := now_seconds in
  let expiresAt := if 0 <? ttl then Some (now * nanos + ttl) else None in
  let! code := create_invite 5 creator now ((fun t => t / nanos) <$> expiresAt) in
  ret (code, expiresAt).

(** An invite with the names of its creator and consumer. *)
Record Invite : Type := mkInvite
  { inv_row : invite_row; CreatedByName : option string; UsedByName : option string }.

Definition name_of (d : DB) (id : option Z) : option string :=
  id ≫= fun i => u_name <$> user_by_id d i.
Definition ListInvites : SM (list Invite) :=
  query (fun d => (fun i => mkInvite i (name_of d (i_creator i)) (name_of d (i_used_by i)))
                    <$> reverse (rows (invites d))).

(** ** [RefreshTokenRepo] *)

(** 30 days, in seconds. *)
Definition refreshTTL : Z := 30 * 24 * 3600.

Definition hashRefreshToken (plaintext : string) : string :=
  HexEncode (Sum256 (bytes_of plaintext)).

Definition Issue `{Sqlite} (userID : Z) : SM string :=
  let! b := rand_read in
  let plaintext := RawURLEncode b in
  let! now := now_seconds in
  do! exec (insert_refresh userID (hashRefreshToken plaintext) (now + refreshTTL) now) in
  ret plaintext.

Definition live_hash (hash : string) (r : refresh_row) : Prop := r_hash r = hash /\ r_revoked r = None.
#[global] Instance live_hash_dec hash r : Decision (live_hash hash r).
Proof. unfold live_hash. apply _. Defined.

Definition slide (hash : string) (expires : Z) (d : DB) : res string (SqlResult * DB) :=
  update_where (live_hash hash)
    (fun r => RefreshRow (r_id r) (r_user r) (r_hash r) expires (r_revoked r) (r_created r))
    (refresh_tokens d) (fun t => set_refresh t d).
Definition revoke (hash : string) (now : Z) (d : DB) : res string (SqlResult * DB) :=
  update_where (live_hash hash)
    (fun r => RefreshRow (r_id r) (r_user r) (r_hash r) (r_expires r) (Some now) (r_created r))
    (refresh_tokens d) (fun t => set_refresh t d).

Definition ValidateRefresh (plaintext : string) : SM Z :=
  let! now := now_seconds in
  let hash := hashRefreshToken plaintext in
  let! row := query (fun d => first_row (fun r => r_hash r = hash) (rows (refresh_tokens d))) in
  match row with
  | None => throw ErrRefreshInvalid
  | Some r =>
      if decide (r_revoked r <> None) then throw ErrRefreshInvalid
      else if negb (now <? r_expires r) then throw ErrRefreshInvalid
      else do! exec (slide hash (now + refreshTTL)) in ret (r_user r)
  end.

Definition Revoke (plaintext : string) : SM unit :=
  let! now := now_seconds in
  do! exec (revoke (hashRefreshToken plaintext) now) in ret tt.
