(* ===== verification/StoreNodes.v ===== *)
(** * Nodes and zones ([internal/server/store/nodes.go], [zones.go]) *)
From stdpp Require Import sorting.
From S2P Require Import Prelude GoStrings Netip Ipam Db.

#[local] Open Scope lw_scope.

(** ** [NodeRepo] *)

Definition maxAllocRetries : nat := 100.

(** The row as the [Node] struct shows it: the address read back through [uint32]. *)
Definition node_of_row (n : node_row) : node_row :=
  NodeRow (n_id n) (n_user n) (n_name n) (n_key n) (Uint32ToAddr (u32 (n_ip n))) (n_created n) (n_platform n).

Fixpoint min_list (l : list Z) : option Z :=
  match l with
  | [] => None
  | x :: l => Some (match min_list l with Some m => Z.min x m | None => x end)
  end.

(** The candidates of the query: [first] and the successor of every used address. *)
Definition free_candidates (first last : Z) (d : DB) : list Z :=
  let ips := n_ip <$> rows (nodes d) in
  filter (fun c => (c ∉ ips) /\ c <= last)
    (first :: ((fun ip => ip + 1) <$> filter (fun ip => first <= ip /\ ip < last) ips)).

Definition lowestFree (first last : Z) : SM (option Z) :=
  let! c := query (fun d => min_list (free_candidates first last d)) in
  ret (u32 <$> c).

Definition node_count (user : Z) (d : DB) : Z := count_where (fun n => n_user n = user) (rows (nodes d)).

(** With a cap, [INSERT ... SELECT ... WHERE count < cap]: no row at the cap. *)
Definition insert_node_capped `{Sqlite} (userID : Z) (name pubKey platform : string)
    (ipVal now maxDevices : Z) (d : DB) : res string (SqlResult * DB) :=
  if (0 <? maxDevices) && negb (node_count userID d <? maxDevices) then Ok (mkResult 0 0, d)
  else insert_node userID name pubKey ipVal now platform d.

Definition insertNode `{Sqlite} userID name pubKey platform ipVal now maxDevices : SM SqlResult :=
  exec (insert_node_capped userID name pubKey platform ipVal now maxDevices).

Fixpoint create_node `{Sqlite} (tries : nat) (userID : Z) (name pubKey platform : string)
    (first last maxDevices now : Z) : SM node_row :=
  match tries with
  | O => throw (EOther "allocate address: exhausted retries under contention")
  | S tries =>
      let! free := lowestFree first last in
      match free with
      | None => throw ErrPoolExhausted
      | Some ipVal =>
          let! r := try (insertNode userID name pubKey platform ipVal now maxDevices) in
          match r with
          | Err e =>
              if isUniqueViolationOn e "nodes.ip"
              then create_node tries userID name pubKey platform first last maxDevices now
              else if isUniqueViolationOn e "nodes.wg_pubkey" then throw ErrPubKeyTaken
              else if isUniqueViolationOn e "nodes.user_id" || isUniqueViolationOn e "nodes.name"
              then throw ErrNodeNameTaken
              else throw e
          | Ok res =>
              if (0 <? maxDevices) && (RowsAffected res =? 0) then throw ErrDeviceLimitReached
              else ret (NodeRow (LastInsertId res) userID name pubKey (Uint32ToAddr ipVal) now platform)
          end
      end
  end.

Definition CreateNode `{Sqlite} (userID : Z) (name pubKey platform : string)
    (first last maxDevices : Z) : SM node_row :=
  let! now := now_seconds in
  create_node maxAllocRetries userID name pubKey platform first last maxDevices now.

Definition or_not_found {A} (e : serr) (o : option A) : SM A :=
  match o with Some a => ret a | None => throw e end.

Definition GetNodeByID (nodeID : Z) : SM node_row :=
  let! o := query (fun d => node_by_id d nodeID) in
  or_not_found ErrNodeNotFound (node_of_row <$> o).

Definition owned_node (userID nodeID : Z) (d : DB) : option node_row :=
  first_row (fun n => n_id n = nodeID /\ n_user n = userID) (rows (nodes d)).

Definition GetOwned (userID nodeID : Z) : SM node_row :=
  let! o := query (owned_node userID nodeID) in
  or_not_found ErrNodeNotFound (node_of_row <$> o).

Definition ListByUser (userID : Z) : SM (list node_row) :=
  query (fun d => node_of_row <$> reverse (filter (fun n => n_user n = userID) (rows (nodes d)))).

Definition AllForPeers : SM (list node_row) := query (fun d => node_of_row <$> rows (nodes d)).

Definition DeleteOwned (userID nodeID : Z) : SM string :=
  let! o := query (owned_node userID nodeID) in
  let! n := or_not_found ErrNodeNotFound o in
  do! exec (DELETE_nodes (fun n => n_id n = nodeID /\ n_user n = userID)) in
  ret (n_key n).

(** ** [ZoneRepo] *)

Definition owned_zone_count (owner : Z) (d : DB) : Z :=
  count_where (fun z => z_owner z = owner) (rows (zones d)).

Definition insert_zone_capped `{Sqlite} (owner : Z) (name hash : string) (now maxOwned : Z) (d : DB) :
    res string (SqlResult * DB) :=
  if (0 <? maxOwned) && negb (owned_zone_count owner d <? maxOwned) then Ok (mkResult 0 0, d)
  else insert_zone name hash owner now d.

Definition insertZone `{Sqlite} owner name hash now maxOwned : SM SqlResult :=
  exec (insert_zone_capped owner name hash now maxOwned).

Definition CreateZone `{Sqlite} (ownerID : Z) (name passwordHash : string) (maxOwnedZones : Z) : SM zone_row :=
  let! now := now_seconds in
  let! r := try (insertZone ownerID name passwordHash now maxOwnedZones) in
  match r with
  | Err e => throw (if isUniqueViolationOn e "zones.name" then ErrZoneNameTaken else e)
  | Ok res =>
      if (0 <? maxOwnedZones) && (RowsAffected res =? 0) then throw ErrOwnedZoneLimitReached
      else ret (ZoneRow (LastInsertId res) name passwordHash ownerID now)
  end.

Definition set_zone_hash (zoneID : Z) (hash : string) (d : DB) : res string (SqlResult * DB) :=
  update_where (fun z => z_id z = zoneID)
    (fun z => ZoneRow (z_id z) (z_name z) hash (z_owner z) (z_created z)) (zones d) (fun t => set_zones t d).

Definition UpdateZonePassword (zoneID : Z) (passwordHash : string) : SM unit :=
  do! exec (set_zone_hash zoneID passwordHash) in ret tt.

Definition DeleteZoneRow (zoneID : Z) : SM unit :=
  do! exec (DELETE_zones (fun z => z_id z = zoneID)) in ret tt.

Definition GetZoneByName (name : string) : SM (option zone_row) :=
  query (fun d => first_row (fun z => z_name z = name) (rows (zones d))).

Definition JoinZone (zoneID nodeID : Z) : SM unit :=
  let! now := now_seconds in
  do! exec (insert_member zoneID nodeID now) in ret tt.

Definition LeaveZone (zoneID nodeID : Z) : SM unit :=
  let! res := exec (DELETE_members (fun m => m_zone m = zoneID /\ m_node m = nodeID)) in
  if RowsAffected res =? 0 then throw ErrNotMember else ret tt.

Record ZoneMember : Type := mkMember { mb_node : Z; mb_name : string; mb_ip : Addr; mb_owner : string }.

(** [ORDER BY n.ip] over the joined rows. *)
Definition member_le (a b : Z * ZoneMember) : Prop := a.1 <= b.1.
#[global] Instance member_le_dec : RelDecision member_le.
Proof. unfold RelDecision, member_le. intros a b. apply _. Defined.

Definition members_joined (zoneID : Z) (d : DB) : list (Z * ZoneMember) :=
  join_on (zone_members d) (fun m => m_zone m = zoneID) (fun m =>
  join_on (rows (nodes d)) (fun n => n_id n = m_node m) (fun n =>
  join_on (rows (users d)) (fun u => u_id u = n_user n) (fun u =>
  [(n_ip n, mkMember (n_id n) (n_name n) (Uint32ToAddr (u32 (n_ip n))) (u_name u))]))).

Definition MembersByZone (zoneID : Z) : SM (list ZoneMember) :=
  query (fun d => snd <$> merge_sort member_le (members_joined zoneID d)).

(** The zones a user participates in, as owner or through a member node. *)
Definition member_zone_ids (userID : Z) (d : DB) : list Z :=
  zone_members d ≫= fun m =>
  join_on (rows (nodes d)) (fun n => n_id n = m_node m) (fun n =>
  if decide (n_user n = userID) then [m_zone m] else []).

Definition ListForUser (userID : Z) : SM (list (zone_row * bool)) :=
  query (fun d =>
    (fun z => (z, bool_decide (z_owner z = userID))) <$>
      reverse (filter (fun z => z_owner z = userID \/ z_id z ∈ member_zone_ids userID d) (rows (zones d)))).

Definition is_participant (zoneID userID : Z) (d : DB) : bool :=
  bool_decide (zoneID ∈ z_id <$> filter (fun z => z_owner z = userID) (rows (zones d)))
  || bool_decide (zoneID ∈ member_zone_ids userID d).

Definition IsParticipant (zoneID userID : Z) : SM bool := query (is_participant zoneID userID).

(** *** The startup rebuild *)

Record ZoneState : Type := mkZoneState { zs_id : Z; zs_ips : list Addr }.

(** [zones LEFT JOIN zone_members LEFT JOIN nodes]: a zone without members keeps
    one row with a NULL address. *)
Definition node_rows (zone : Z) (ns : list node_row) : list (Z * option Z) :=
  match ns with
  | [] => [(zone, None)]
  | _ => (fun n => (zone, Some (n_ip n))) <$> ns
  end.
Definition zone_rows (d : DB) (z : zone_row) : list (Z * option Z) :=
  match filter (fun m => m_zone m = z_id z) (zone_members d) with
  | [] => [(z_id z, None)]
  | ms => ms ≫= fun m => node_rows (z_id z) (filter (fun n => n_id n = m_node m) (rows (nodes d)))
  end.
Definition rebuild_rows (d : DB) : list (Z * option Z) := rows (zones d) ≫= zone_rows d.

Definition rebuild_step (st : list ZoneState * gmap Z nat) (row : Z * option Z) :
    list ZoneState * gmap Z nat :=
  let '(states, idx) := st in
  let '(zoneID, ipVal) := row in
  let '(states, idx, i) :=
    match idx !! zoneID with
    | Some i => (states, idx, i)
    | None => (states ++ [mkZoneState zoneID []], <[zoneID := length states]> idx, length states)
    end in
  (match ipVal with
   | Some v => alter (fun z => mkZoneState (zs_id z) (zs_ips z ++ [Uint32ToAddr (u32 v)])) i states
   | None => states
   end, idx).

Definition AllForRebuild : SM (list ZoneState) :=
  query (fun d => (foldl rebuild_step ([], ∅) (rebuild_rows d)).1).

Definition ZonesForNode (nodeID : Z) : SM (list Z) :=
  query (fun d => m_zone <$> filter (fun m => m_node m = nodeID) (zone_members d)).
