(* ===== verification/StoreAnnounce.v ===== *)
(** * Subnet announcements ([internal/server/store/announcements.go]) *)
From stdpp Require Import sorting.
From S2P Require Import Prelude GoStrings Netip Ipam Db StoreNodes.

#[local] Open Scope lw_scope.

Record Announcement : Type := mkAnn
  { an_id : Z; an_node : Z; Real : Block; Synthetic : Block; an_created : Z;
    an_node_name : string; an_owner : string }.

Definition announcementFromRow (id nodeID : Z) (real : Block) (synthBase created : Z) : Announcement :=
  mkAnn id nodeID real (mkBlock synthBase (PrefixLen real)) created "" "".

(** [scanBlocks] over the real or the synthetic columns. *)
Definition real_block (a : ann_row) : Block := mkBlock (u32 (a_real a)) (a_len a).
Definition synth_block (a : ann_row) : Block := mkBlock (u32 (a_synth a)) (a_len a).
Definition blocksToPrefixes (l : list Block) : list Prefix := BlockPrefix <$> l.

Definition same_announcement (nodeID : Z) (real : Block) (a : ann_row) : Prop :=
  a_node a = nodeID /\ a_real a = Base real /\ a_len a = PrefixLen real.
#[global] Instance same_announcement_dec nodeID real a : Decision (same_announcement nodeID real a).
Proof. unfold same_announcement. apply _. Defined.

Definition is_member (zoneID nodeID : Z) (d : DB) : bool :=
  bool_decide ((zoneID, nodeID) ∈ (fun m => (m_zone m, m_node m)) <$> zone_members d).

(** Announcements of all the nodes of a user. *)
Definition user_ann_count (userID : Z) (d : DB) : Z :=
  Z.of_nat (length (rows (announcements d) ≫= fun a =>
    join_on (rows (nodes d)) (fun n => n_id n = a_node a) (fun n =>
    if decide (n_user n = userID) then [a_id a] else []))).

Definition alloc_err (e : ipam_err) : serr :=
  match e with
  | ErrNoSpace => ErrSyntheticPoolExhausted
  | _ => EOther "allocate synthetic block"
  end.

Definition CreateAnnouncement `{Sqlite} (userID nodeID : Z) (real : Block) (zoneID limit : Z)
    (pool : AnyPrefix) : SM (Announcement * bool) :=
  tx (let! member := query (is_member zoneID nodeID) in
      if negb member then throw ErrNotMember else
      let! existing := query (fun d => first_row (same_announcement nodeID real) (rows (announcements d))) in
      match existing with
      | Some a =>
          let! res := exec (insert_attachment true (a_id a) zoneID) in
          ret (announcementFromRow (a_id a) nodeID real (u32 (a_synth a)) (a_created a),
               0 <? RowsAffected res)
      | None =>
          let! nodeBlocks := query (fun d =>
            real_block <$> filter (fun a => a_node a = nodeID) (rows (announcements d))) in
          if existsb (Overlaps real) nodeBlocks then throw ErrSubnetOverlap else
          do! (if 0 <? limit
               then let! count := query (user_ann_count userID) in
                    if limit <=? count then throw ErrAnnounceLimit else ret tt
               else ret tt) in
          let! used := query (fun d => synth_block <$> rows (announcements d)) in
          match AllocateBlock pool (PrefixLen real) used with
          | Err e => throw (alloc_err e)
          | Ok synthetic =>
              let! now := now_seconds in
              let! res := exec (insert_ann nodeID (Base real) (PrefixLen real) (Base synthetic) now) in
              let annID := LastInsertId res in
              do! exec (insert_attachment false annID zoneID) in
              ret (announcementFromRow annID nodeID real (Base synthetic) now, true)
          end
      end).

Definition attachment_count (annID : Z) (d : DB) : Z :=
  count_where (fun az => az_ann az = annID) (announcement_zones d).

Definition reclaimIfOrphaned (annID : Z) : SM bool :=
  let! remaining := query (attachment_count annID) in
  if 0 <? remaining then ret false
  else do! exec (DELETE_anns (fun a => a_id a = annID)) in ret true.

Definition ann_of_row (a : ann_row) : Announcement :=
  announcementFromRow (a_id a) (a_node a) (real_block a) (u32 (a_synth a)) (a_created a).

Definition getAnnouncementTx (annID : Z) : SM Announcement :=
  let! o := query (fun d => ann_by_id d annID) in
  or_not_found ErrAnnouncementNotFound (ann_of_row <$> o).

Definition GetAnnouncement (annID : Z) : SM Announcement := getAnnouncementTx annID.

Definition Detach (zoneID annID : Z) : SM (Announcement * bool) :=
  tx (let! ann := getAnnouncementTx annID in
      let! res := exec (DELETE_attachments (fun az => az_ann az = annID /\ az_zone az = zoneID)) in
      if RowsAffected res =? 0 then throw ErrAnnouncementNotFound else
      let! reclaimed := reclaimIfOrphaned annID in
      ret (ann, reclaimed)).

(** The attachments of the database, each with its announcement. *)
Definition attached (d : DB) : list (attach_row * ann_row) :=
  announcement_zones d ≫= fun az =>
  join_on (rows (announcements d)) (fun a => a_id a = az_ann az) (fun a => [(az, a)]).

(** [ORDER BY a.id]. *)
Definition ann_le (a b : Announcement) : Prop := an_id a <= an_id b.
#[global] Instance ann_le_dec : RelDecision ann_le.
Proof. unfold RelDecision, ann_le. intros a b. apply _. Defined.

Definition ListByZone (zoneID : Z) : SM (list Announcement) :=
  query (fun d => merge_sort ann_le
    (join_on (attached d) (fun p => az_zone p.1 = zoneID) (fun p =>
     join_on (rows (nodes d)) (fun n => n_id n = a_node p.2) (fun n =>
     join_on (rows (users d)) (fun u => u_id u = n_user n) (fun u =>
     let a := ann_of_row p.2 in
     [mkAnn (an_id a) (an_node a) (Real a) (Synthetic a) (an_created a) (n_name n) (u_name u)]))))).

Definition RoutesForNode (nodeID : Z) : SM (list Prefix) :=
  query (fun d => blocksToPrefixes
    (synth_block <$> filter (fun a => a_node a = nodeID) (rows (announcements d)))).

(** The loops that append to [map[int64][]netip.Prefix]. *)
Definition append_route (m : gmap Z (list Prefix)) (kp : Z * Prefix) : gmap Z (list Prefix) :=
  <[kp.1 := default [] (m !! kp.1) ++ [kp.2]]> m.

(** [ORDER BY az.zone_id, a.id] and [ORDER BY node_id, id]. *)
Definition key_le (a b : (Z * Z) * (Z * Prefix)) : Prop :=
  a.1.1 < b.1.1 \/ (a.1.1 = b.1.1 /\ a.1.2 <= b.1.2).
#[global] Instance key_le_dec : RelDecision key_le.
Proof. unfold RelDecision, key_le. intros a b. apply _. Defined.

Definition zone_routes (d : DB) : list (Z * Prefix) :=
  snd <$> merge_sort key_le
    ((fun p => ((az_zone p.1, a_id p.2), (az_zone p.1, BlockPrefix (synth_block p.2)))) <$> attached d).
Definition node_routes (d : DB) : list (Z * Prefix) :=
  snd <$> merge_sort key_le
    ((fun a => ((a_node a, a_id a), (a_node a, BlockPrefix (synth_block a)))) <$> rows (announcements d)).

Definition RoutesByZone : SM (gmap Z (list Prefix)) :=
  query (fun d => foldl append_route ∅ (zone_routes d)).
Definition RoutesByNode : SM (gmap Z (list Prefix)) :=
  query (fun d => foldl append_route ∅ (node_routes d)).

Record DetachedRoute : Type := mkDetached { dr_ann : Z; dr_synthetic : Prefix; dr_reclaimed : bool }.

Definition DetachAllForNodeZone (nodeID zoneID : Z) : SM (list DetachedRoute) :=
  tx (let! recs := query (fun d =>
        (fun p => (a_id p.2, synth_block p.2)) <$>
          filter (fun p => az_zone p.1 = zoneID /\ a_node p.2 = nodeID) (attached d)) in
      map_each recs (fun rc =>
        do! exec (DELETE_attachments (fun az => az_ann az = rc.1 /\ az_zone az = zoneID)) in
        let! reclaimed := reclaimIfOrphaned rc.1 in
        ret (mkDetached rc.1 (BlockPrefix rc.2) reclaimed))).

Record ZoneDetachment : Type := mkZoneDetachment
  { zd_ann : Z; zd_node : Z; zd_zone : Z; zd_synthetic : Prefix; zd_reclaimed : bool }.

Definition AttachmentsForNode (nodeID : Z) : SM (list ZoneDetachment) :=
  query (fun d =>
    (fun p => mkZoneDetachment (az_ann p.1) nodeID (az_zone p.1) (BlockPrefix (synth_block p.2)) false) <$>
      filter (fun p => a_node p.2 = nodeID) (attached d)).

Definition DetachAllForZone (zoneID : Z) : SM (list ZoneDetachment) :=
  tx (let! dets := query (fun d =>
        (fun p => mkZoneDetachment (az_ann p.1) (a_node p.2) zoneID (BlockPrefix (synth_block p.2)) false) <$>
          filter (fun p => az_zone p.1 = zoneID) (attached d)) in
      do! exec (DELETE_attachments (fun az => az_zone az = zoneID)) in
      map_each dets (fun dt =>
        let! reclaimed := reclaimIfOrphaned (zd_ann dt) in
        ret (mkZoneDetachment (zd_ann dt) (zd_node dt) (zd_zone dt) (zd_synthetic dt) reclaimed))).
