(* ===== verification/StoreOps.v ===== *)
(** * Runs of repository operations

    Every mutating method of the repositories as one inductive type, so that
    statements about "any run of the server against its database" are statements
    about lists of operations; between two operations the clock moves, the driver
    may start failing and fresh random bytes arrive. *)
From stdpp Require Import sorting.
From S2P Require Import Prelude GoStrings Netip Ipam Codec Db StoreInv StoreUsers StoreNodes StoreAnnounce.

#[local] Open Scope lw_scope.

Inductive repo_op : Type :=
| OpCreateAdmin (name hash : string)
| OpRegister (name hash code : string)
| OpDeleteUser (id : Z)
| OpCreateInvite (creator ttl : Z)
| OpIssue (user : Z)
| OpValidate (token : string)
| OpRevoke (token : string)
| OpCreateNode (user : Z) (name key platform : string) (first last cap : Z)
| OpDeleteNode (user node : Z)
| OpCreateZone (owner : Z) (name hash : string) (cap : Z)
| OpUpdateZonePassword (zone : Z) (hash : string)
| OpDeleteZone (zone : Z)
| OpJoin (zone node : Z)
| OpLeave (zone node : Z)
| OpAnnounce (user node : Z) (real : Block) (zone limit : Z) (pool : AnyPrefix)
| OpDetach (zone ann : Z)
| OpDetachNodeZone (node zone : Z)
| OpDetachZone (zone : Z)
(** The environment: the time, the driver's failures and the entropy to come. *)
| OpEnv (now : Z) (faults : list bool) (rand : list (list Z)).

Definition void {A} (m : SM A) : SM unit := let! _ := m in ret tt.

Definition exec_op `{Sqlite} (op : repo_op) : SM unit :=
  match op with
  | OpCreateAdmin name hash => void (CreateAdmin name hash)
  | OpRegister name hash code => void (Register name hash code)
  | OpDeleteUser id => void (DeleteCascade id)
  | OpCreateInvite creator ttl => void (CreateInvite creator ttl)
  | OpIssue user => void (Issue user)
  | OpValidate token => void (ValidateRefresh token)
  | OpRevoke token => Revoke token
  | OpCreateNode user name key platform first last cap =>
      void (CreateNode user name key platform first last cap)
  | OpDeleteNode user node => void (DeleteOwned user node)
  | OpCreateZone owner name hash cap => void (CreateZone owner name hash cap)
  | OpUpdateZonePassword zone hash => UpdateZonePassword zone hash
  | OpDeleteZone zone => DeleteZoneRow zone
  | OpJoin zone node => JoinZone zone node
  | OpLeave zone node => LeaveZone zone node
  | OpAnnounce user node real zone limit pool => void (CreateAnnouncement user node real zone limit pool)
  | OpDetach zone ann => void (Detach zone ann)
  | OpDetachNodeZone node zone => void (DetachAllForNodeZone node zone)
  | OpDetachZone zone => void (DetachAllForZone zone)
  | OpEnv now faults rand => fun s => (Ok tt, mkStore (s_db s) faults now rand)
  end.

Definition run_op `{Sqlite} (op : repo_op) (s : Store) : Store := snd (exec_op op s).

Definition run_ops `{Sqlite} (ops : list repo_op) (s : Store) : Store := foldl (fun s op => run_op op s) s ops.

Lemma run_ops_inv `{Sqlite} (I : Store -> Prop) (ok : repo_op -> Prop) ops s :
  (forall op s, ok op -> I s -> I (run_op op s)) -> Forall ok ops -> I s -> I (run_ops ops s).
Proof. intros Hop Hops. revert s. induction Hops; simpl; auto. Qed.

(** ** The schema invariant is kept by every operation *)

Ltac update_solve :=
  intros d r d' [= <- <-] Hd; destruct Hd; constructor; simpl; try assumption;
  first [ apply table_ok_map | apply uniq_map | apply refs_map_l | apply refs_map_r | idtac ];
  try assumption; try (by intros; simpl; case_decide).

Lemma slide_stmt hash expires : stmt_ok (slide hash expires).
Proof. update_solve. Qed.
Lemma revoke_stmt hash now : stmt_ok (revoke hash now).
Proof. update_solve. Qed.
Lemma set_zone_hash_stmt zone hash : stmt_ok (set_zone_hash zone hash).
Proof. update_solve. Qed.

(** Consuming an invite needs the new user to exist: it is the row the
    transaction has just inserted. *)
Lemma consume_invite_ok uid now code d r d' :
  uid ∈ u_id <$> rows (users d) ->
  consume_invite uid now code d = Ok (r, d') -> schema_ok d -> schema_ok d'.
Proof.
  intros Huid. revert r d'. unfold consume_invite, update_where. intros r d' [= <- <-] Hd.
  destruct Hd; constructor; simpl; try assumption;
    first [apply table_ok_map | apply uniq_map | apply refs_opt_map_l]; try assumption;
    try (by intros; simpl; case_decide).
  - intros x i Hx. case_decide; auto.
  - intros x i Hx. case_decide; simpl; [intros [= <-]; by right|by left].
Qed.

Lemma insert_node_capped_stmt `{Sqlite} user name key platform ip now cap :
  stmt_ok (insert_node_capped user name key platform ip now cap).
Proof.
  intros d r d'. unfold insert_node_capped. case_match; [by intros [= <- <-]|]. apply insert_node_ok.
Qed.
Lemma insert_zone_capped_stmt `{Sqlite} owner name hash now cap :
  stmt_ok (insert_zone_capped owner name hash now cap).
Proof.
  intros d r d'. unfold insert_zone_capped. case_match; [by intros [= <- <-]|]. apply insert_zone_ok.
Qed.
#[export] Hint Resolve slide_stmt revoke_stmt set_zone_hash_stmt insert_node_capped_stmt
  insert_zone_capped_stmt : pres.

Lemma create_invite_keeps `{Sqlite} tries creator now expires : keeps_schema (create_invite tries creator now expires).
Proof.
  induction tries as [|tries IH]; simpl; [apply pres_throw|]. unfold generateInviteCode. pres_auto.
Qed.
Lemma create_node_keeps `{Sqlite} tries user name key platform first last cap now :
  keeps_schema (create_node tries user name key platform first last cap now).
Proof.
  induction tries as [|tries IH]; simpl; [apply pres_throw|]. unfold lowestFree, insertNode. pres_auto.
Qed.
#[export] Hint Resolve create_invite_keeps create_node_keeps : pres.

Lemma or_not_found_keeps {A} e (o : option A) : keeps_schema (or_not_found e o).
Proof. destruct o; [apply pres_ret|apply pres_throw]. Qed.
Lemma reclaim_keeps ann : keeps_schema (reclaimIfOrphaned ann).
Proof. unfold reclaimIfOrphaned. pres_auto. Qed.
#[export] Hint Resolve or_not_found_keeps reclaim_keeps : pres.

(** A successful insert leaves the new user in the table. *)
Lemma insert_user_new `{Sqlite} name hash admin now d r d' :
  insert_user name hash admin now d = Ok (r, d') -> LastInsertId r ∈ u_id <$> rows (users d').
Proof.
  unfold insert_user. intros (_ & _ & -> & ->)%checked_insert_ok. simpl. rewrite fmap_app.
  apply elem_of_app. right. simpl. left.
Qed.

Lemma exec_inv f s r s' : exec f s = (r, s') ->
  (r = Err (EDriver io_msg) /\ s_db s' = s_db s) \/
  (exists msg, f (s_db s) = Err msg /\ r = Err (EDriver msg) /\ s_db s' = s_db s) \/
  (exists x d, f (s_db s) = Ok (x, d) /\ r = Ok x /\ s_db s' = d).
Proof.
  unfold exec, driver. destruct (s_faults s) as [|[] fs]; simpl.
  - destruct (f (s_db s)) as [[x d]|m] eqn:Hf; intros [= <- <-]; simpl; [right; right; eauto|right; left; eauto].
  - intros [= <- <-]. by left.
  - destruct (f (s_db s)) as [[x d]|m] eqn:Hf; intros [= <- <-]; simpl; [right; right; eauto|right; left; eauto].
Qed.

Lemma Register_keeps `{Sqlite} name hash code : keeps_schema (Register name hash code).
Proof.
  unfold Register. apply keeps_tx, pres_bind; [apply keeps_now|]. intros now s Hs. unfold bind, try.
  destruct (exec (insert_user name hash false now) s) as [r s1] eqn:Hex.
  pose proof (keeps_exec _ (insert_user_stmt name hash false now) s Hs) as H1. rewrite Hex in H1. simpl in H1.
  destruct r as [res|e]; [|done].
  destruct (exec_inv _ _ _ _ Hex) as [[? _]|[(? & _ & ? & _)|(x & d & Hf & [= <-] & Hdb)]]; [done..|].
  apply insert_user_new in Hf. rewrite <- Hdb in Hf.
  destruct (exec (consume_invite _ _ _) s1) as [r2 s2] eqn:Hex2.
  assert (store_ok s2) as H2.
  { destruct (exec_inv _ _ _ _ Hex2) as [[_ Hd]|[(m & _ & _ & Hd)|(y & d' & Hf2 & _ & Hd)]];
      unfold store_ok; rewrite Hd; [done..|]. by eapply consume_invite_ok. }
  destruct r2; simpl; [by destruct (negb _)|done].
Qed.

Ltac unfold_ops :=
  unfold CreateAdmin, DeleteCascade, CreateInvite, generateInviteCode, Issue, ValidateRefresh, Revoke,
    CreateNode, DeleteOwned, CreateZone, insertZone, UpdateZonePassword, DeleteZoneRow, JoinZone, LeaveZone,
    CreateAnnouncement, Detach, getAnnouncementTx, DetachAllForNodeZone, DetachAllForZone.

Lemma pres_void {A} I (m : SM A) : pres I m -> pres I (void m).
Proof. intros Hm. unfold void. pres_auto. Qed.

Lemma exec_op_keeps `{Sqlite} op : keeps_schema (exec_op op).
Proof.
  destruct op; cbn [exec_op]; try match goal with |- pres _ (void _) => apply pres_void end; [|by apply Register_keeps|..|by intros s Hs];
    unfold_ops; try apply keeps_tx; pres_auto.
Qed.

Lemma empty_db_ok : schema_ok empty_db.
Proof.
  assert (Hnil : forall A (x : A), x ∉ []) by (intros; apply not_elem_of_nil).
  constructor; try (intros x Hx; by destruct (Hnil _ x)); try (intros x i Hx; by destruct (Hnil _ x));
    try apply NoDup_nil_2; (split_and!; [done|constructor|intros x Hx; by destruct (Hnil _ x)]).
Qed.

Lemma run_ops_schema `{Sqlite} ops s : store_ok s -> store_ok (run_ops ops s).
Proof.
  apply (run_ops_inv store_ok (fun _ => True)); [|by apply Forall_true].
  intros op s' _. apply exec_op_keeps.
Qed.

(** ** Failed operations change nothing *)

Definition reads {A} (m : SM A) : Prop := forall s, s_db (snd (m s)) = s_db s.
Definition nofail {A} (m : SM A) : Prop := forall s, is_ok (fst (m s)) = true.
(** An error outcome leaves the database as it was. *)
Definition atomic {A} (m : SM A) : Prop := forall s e s', m s = (Err e, s') -> s_db s' = s_db s.

Lemma reads_pres {A} (m : SM A) : (forall d, pres (fun s => s_db s = d) m) -> reads m.
Proof. intros Hm s. by apply (Hm (s_db s)). Qed.
Lemma reads_query {A} (f : DB -> A) : reads (query f).
Proof. apply reads_pres. intros d. apply (pres_query (fun d' => d' = d)). Qed.
Lemma reads_rand : reads rand_read.
Proof. apply reads_pres. intros d. apply (pres_rand (fun d' => d' = d)). Qed.
Lemma reads_now : reads now_seconds.
Proof. done. Qed.
Lemma reads_ret {A} (a : A) : reads (ret a).
Proof. done. Qed.
Lemma reads_throw {A} e : reads (throw (A:=A) e).
Proof. done. Qed.
Lemma reads_bind {A B} (m : SM A) (f : A -> SM B) : reads m -> (forall a, reads (f a)) -> reads (bind m f).
Proof. intros Hm Hf s. unfold bind. specialize (Hm s). destruct (m s) as [[a|e] s1]; [|done]. by rewrite Hf. Qed.
Lemma reads_try {A} (m : SM A) : reads m -> reads (try m).
Proof. intros Hm s. unfold try. specialize (Hm s). by destruct (m s). Qed.
Lemma reads_or_not_found {A} e (o : option A) : reads (or_not_found e o).
Proof. by destruct o. Qed.

Lemma atomic_reads {A} (m : SM A) : reads m -> atomic m.
Proof. intros Hm s e s' Hs. specialize (Hm s). by rewrite Hs in Hm. Qed.
Lemma atomic_exec f : atomic (exec f).
Proof.
  intros s e s' Hs. destruct (exec_inv _ _ _ _ Hs) as [[_ ?]|[(? & _ & _ & ?)|(? & ? & _ & ? & _)]]; done.
Qed.
Lemma atomic_tx {A} (m : SM A) : atomic (tx m).
Proof.
  intros s e s'. unfold tx. pose proof (pres_driver (fun d => d = s_db s) (ret tt) (pres_ret _ _) s eq_refl) as H1.
  destruct (driver (ret tt) s) as [[]  s1]; [|by intros [= _ <-]]. simpl in H1.
  destruct (m s1) as [[] s2]; [|by intros [= _ <-]]. by destruct (driver (ret tt) s2) as [[] s3]; intros [= _ <-].
Qed.
Lemma atomic_read_bind {A B} (m : SM A) (f : A -> SM B) : reads m -> (forall a, atomic (f a)) -> atomic (bind m f).
Proof.
  intros Hm Hf s e s'. unfold bind. specialize (Hm s). destruct (m s) as [[a|e'] s1]; simpl in Hm.
  - intros Hs. rewrite (Hf _ _ _ _ Hs). done.
  - by intros [= _ <-].
Qed.
Lemma atomic_bind_nofail {A B} (m : SM A) (f : A -> SM B) :
  atomic m -> (forall a, nofail (f a)) -> atomic (bind m f).
Proof.
  intros Hm Hf s e s'. unfold bind. specialize (Hm s). destruct (m s) as [[a|e'] s1] eqn:Hms.
  - intros Hs. specialize (Hf a s1). by rewrite Hs in Hf.
  - intros [= <- <-]. by eapply Hm.
Qed.
Lemma nofail_ret {A} (a : A) : nofail (ret a).
Proof. done. Qed.
(** A statement followed by a check: the check must pass if the statement
    changed anything. *)
Lemma atomic_exec_check {B} f (k : SqlResult -> SM B) :
  (forall s r d, f (s_db s) = Ok (r, d) -> d = s_db s /\ reads (k r) \/ nofail (k r)) ->
  atomic (bind (exec f) k).
Proof.
  intros Hf s e s'. unfold bind. destruct (exec f s) as [r s1] eqn:Hex.
  destruct (exec_inv _ _ _ _ Hex) as [[-> Hd]|[(m & _ & -> & Hd)|(x & d & Hfd & -> & Hd)]];
    [by intros [= _ <-]..|].
  destruct (Hf _ _ _ Hfd) as [[-> Hk]|Hk].
  - intros Hs. specialize (Hk s1). rewrite Hs in Hk. simpl in Hk. congruence.
  - intros Hs. specialize (Hk s1). by rewrite Hs in Hk.
Qed.
(** The same with the outcome inspected. *)
Lemma atomic_try_exec {B} f (k : res serr SqlResult -> SM B) :
  (forall e, atomic (k (Err e))) ->
  (forall s r d, f (s_db s) = Ok (r, d) -> d = s_db s /\ reads (k (Ok r)) \/ nofail (k (Ok r))) ->
  atomic (bind (try (exec f)) k).
Proof.
  intros He Hf s e s'. unfold bind, try. destruct (exec f s) as [r s1] eqn:Hex.
  destruct (exec_inv _ _ _ _ Hex) as [[-> Hd]|[(m & _ & -> & Hd)|(x & d & Hfd & -> & Hd)]].
  1,2: intros Hs; by rewrite (He _ _ _ _ Hs).
  destruct (Hf _ _ _ Hfd) as [[-> Hk]|Hk].
  - intros Hs. specialize (Hk s1). rewrite Hs in Hk. simpl in Hk. congruence.
  - intros Hs. specialize (Hk s1). by rewrite Hs in Hk.
Qed.

Create HintDb atomic discriminated.
#[export] Hint Resolve reads_query reads_rand reads_now reads_ret reads_throw reads_or_not_found atomic_exec
  atomic_tx nofail_ret : atomic.
#[export] Hint Extern 5 (atomic _) => apply atomic_reads : atomic.

Lemma create_invite_atomic `{Sqlite} tries creator now expires : atomic (create_invite tries creator now expires).
Proof.
  induction tries as [|tries IH]; simpl; [auto with atomic|]. unfold generateInviteCode.
  apply atomic_read_bind; [apply reads_bind; auto with atomic|intros code].
  apply atomic_try_exec; [intros e; destruct (isUniqueViolation e); auto with atomic|]. by right.
Qed.

Lemma capped_check (cap n : Z) : (0 <? cap) && (n =? 0) = true -> n = 0.
Proof. lia. Qed.

Lemma insert_result_one `{Sqlite} {A} violated fk (mk : Z -> A) t set r d :
  checked_insert violated fk mk t set = Ok (r, d) -> RowsAffected r = 1.
Proof. by intros (_ & _ & _ & ->)%checked_insert_ok. Qed.

Lemma create_node_atomic `{Sqlite} tries user name key platform first last cap now :
  atomic (create_node tries user name key platform first last cap now).
Proof.
  induction tries as [|tries IH]; simpl; [auto with atomic|]. unfold lowestFree, insertNode.
  apply atomic_read_bind; [apply reads_bind; auto with atomic|intros [ip|]; [|auto with atomic]].
  apply atomic_try_exec; [intros e; repeat case_match; auto with atomic|].
  intros s r d Hf. unfold insert_node_capped in Hf. destruct (_ && negb _) eqn:Hcap.
  - injection Hf as <- <-. left. split; [done|]. case_match; auto with atomic.
  - right. unfold insert_node in Hf. apply insert_result_one in Hf. rewrite Hf, andb_false_r. auto with atomic.
Qed.

Lemma create_zone_atomic `{Sqlite} owner name hash cap : atomic (CreateZone owner name hash cap).
Proof.
  unfold CreateZone, insertZone. apply atomic_read_bind; [auto with atomic|intros now].
  apply atomic_try_exec; [auto with atomic|]. intros s r d Hf. unfold insert_zone_capped in Hf.
  destruct (_ && negb _) eqn:Hcap.
  - injection Hf as <- <-. left. split; [done|]. case_match; auto with atomic.
  - right. unfold insert_zone in Hf. apply insert_result_one in Hf. rewrite Hf, andb_false_r. auto with atomic.
Qed.

Lemma filter_none {A} (P : A -> Prop) `{forall x, Decision (P x)} l :
  count_where P l = 0 -> filter (fun x => ~ P x) l = l.
Proof.
  rewrite count_where_zero. induction l as [|x l IH]; intros Hn; [done|].
  rewrite filter_cons_True by (apply Hn; left). f_equal. apply IH. intros y Hy. apply Hn. by right.
Qed.

Lemma leave_atomic zone node : atomic (LeaveZone zone node).
Proof.
  unfold LeaveZone. apply atomic_exec_check. intros s r d [= <- <-]. simpl.
  destruct (_ =? 0) eqn:Hc; [|right; auto with atomic]. apply Z.eqb_eq, filter_none in Hc.
  left. rewrite Hc. split; [by destruct (s_db s)|auto with atomic].
Qed.

Lemma atomic_void {A} (m : SM A) : atomic m -> atomic (void m).
Proof. intros Hm. apply atomic_bind_nofail; auto with atomic. Qed.

Lemma exec_op_atomic `{Sqlite} op : atomic (exec_op op).
Proof.
  destruct op; cbn [exec_op]; try match goal with |- atomic (void _) => apply atomic_void end;
    try solve [apply atomic_tx | apply leave_atomic | apply create_zone_atomic | done]; unfold_ops.
  - apply atomic_read_bind; [auto with atomic|intros now]. apply atomic_try_exec; [auto with atomic|by right].
  - apply atomic_read_bind; [auto with atomic|intros now].
    apply atomic_bind_nofail; [apply create_invite_atomic|done].
  - do 2 (apply atomic_read_bind; [auto with atomic|intros ?]). apply atomic_bind_nofail; auto with atomic.
  - do 2 (apply atomic_read_bind; [auto with atomic|intros ?]).
    repeat case_match; auto with atomic. apply atomic_bind_nofail; auto with atomic.
  - apply atomic_read_bind; [auto with atomic|intros ?]. apply atomic_bind_nofail; auto with atomic.
  - apply atomic_read_bind; [auto with atomic|intros ?]. apply create_node_atomic.
  - do 2 (apply atomic_read_bind; [auto with atomic|intros ?]). apply atomic_bind_nofail; auto with atomic.
  - apply atomic_bind_nofail; auto with atomic.
  - apply atomic_bind_nofail; auto with atomic.
  - apply atomic_read_bind; [auto with atomic|intros ?]. apply atomic_bind_nofail; auto with atomic.
Qed.

(** C23: a repository operation that returns an error leaves the database exactly
    as it found it: no partial registration, cascade, announcement or detachment
    survives, whichever driver call of the operation failed. *)
Theorem failed_op_unchanged `{Sqlite} op s e s' :
  exec_op op s = (Err e, s') -> s_db s' = s_db s.
Proof. apply exec_op_atomic. Qed.

Lemma failed_op_unchanged_witness :
  s_db (snd (exec_op (OpDeleteUser 7) (mkStore empty_db [] 0 []))) = empty_db.
Proof. by apply (failed_op_unchanged (OpDeleteUser 7) (mkStore empty_db [] 0 []) ErrUserNotFound). Defined.

(** ** Invariants beyond the schema

    The statements the operations execute, apart from the inserts of a refresh
    token and of an announcement; a property of databases (and of the entropy still to come) that each
    of them keeps is kept by every operation. *)
Inductive prim `{Sqlite} : (DB -> res string (SqlResult * DB)) -> Prop :=
| prim_user name hash admin now : prim (insert_user name hash admin now)
| prim_invite code creator now expires : prim (insert_invite code creator now expires)
| prim_node user name key platform ip now cap : prim (insert_node_capped user name key platform ip now cap)
| prim_zone owner name hash now cap : prim (insert_zone_capped owner name hash now cap)
| prim_member zone node now : prim (insert_member zone node now)
| prim_attach ignore ann zone : prim (insert_attachment ignore ann zone)
| prim_consume uid now code : prim (consume_invite uid now code)
| prim_slide hash expires : prim (slide hash expires)
| prim_revoke hash now : prim (revoke hash now)
| prim_zone_hash zone hash : prim (set_zone_hash zone hash)
| prim_delete_user id : prim (DELETE_user id)
| prim_delete_nodes P `{forall n, Decision (P n)} : prim (DELETE_nodes P)
| prim_delete_zones P `{forall z, Decision (P z)} : prim (DELETE_zones P)
| prim_delete_anns P `{forall a, Decision (P a)} : prim (DELETE_anns P)
| prim_delete_members P `{forall m, Decision (P m)} : prim (DELETE_members P)
| prim_delete_attachments P `{forall az, Decision (P az)} : prim (DELETE_attachments P).

Section AnyInvariant.
  Context `{Sqlite} (J : DB -> Prop) (Q : list Z -> Prop).
  Context (HJ : forall f d r d', prim f -> f d = Ok (r, d') -> J d -> J d').
  Context (HQ : forall b user expires now d r d', Q b ->
    insert_refresh user (hashRefreshToken (RawURLEncode b)) expires now d = Ok (r, d') -> J d -> J d').

Definition inv (s : Store) : Prop := J (s_db s) /\ Forall Q (s_rand s).

Lemma inv_driver {A} (m : SM A) : pres inv m -> pres inv (driver m).
  Proof. intros Hm s Hs. unfold driver. destruct (s_faults s) as [|[] fs]; [by apply Hm|done|by apply Hm]. Qed.
Lemma inv_query {A} (f : DB -> A) : pres inv (query f).
  Proof. apply inv_driver, pres_gets. Qed.
Lemma inv_exec f : prim f -> pres inv (exec f).
  Proof.
    intros Hf. apply inv_driver. intros s [Hs HR]. destruct (f (s_db s)) as [[r d]|e] eqn:Hfd; simpl; [|done].
    split; [by eapply HJ|done].
  Qed.
Lemma inv_now : pres inv now_seconds.
  Proof. apply pres_gets. Qed.
Lemma inv_code : pres inv generateInviteCode.
  Proof.
    apply pres_bind; [|intros; apply pres_ret]. intros s [Hs HR]. unfold rand_read.
    destruct (s_rand s) as [|b l] eqn:E; simpl; (split; [done|]); [by rewrite E|].
    by apply Forall_cons in HR as [_ HR].
  Qed.
Lemma inv_tx {A} (m : SM A) : pres inv m -> pres inv (tx m).
  Proof.
    intros Hm s Hs. unfold tx.
    pose proof (inv_driver (ret tt) (pres_ret _ _) s Hs) as H1.
    destruct (driver (ret tt) s) as [[]  s1]; [|done]. simpl in H1.
    pose proof (Hm s1 H1) as H2. destruct Hs as [HJ0 _], H2 as [H2 H2'].
    destruct (m s1) as [[] s2]; [|done]. simpl in *.
    pose proof (inv_driver (ret tt) (pres_ret _ _) s2 (conj H2 H2')) as [H3 H3'].
    by destruct (driver (ret tt) s2) as [[] s3].
  Qed.
Lemma inv_issue user : pres inv (Issue user).
  Proof.
    unfold Issue. intros s [Hs HR]. unfold bind at 1, rand_read.
    destruct (s_rand s) as [|b l] eqn:E; simpl; [split; [done|by rewrite E]|].
    apply Forall_cons in HR as [Hb HR]. unfold bind at 1. cbn. unfold bind.
    destruct (exec _ _) as [r s1] eqn:Hex.
    assert (inv s1) as H1; [|by destruct r].
    unfold exec, driver in Hex. simpl in Hex. destruct (s_faults s) as [|[] fs]; simpl in Hex;
      first [destruct (insert_refresh _ _ _ _ _) as [[x d]|] eqn:Hi | idtac]; injection Hex as <- <-;
      split; simpl; try done; by eapply HQ.
  Qed.
  #[local] Hint Resolve inv_query inv_exec inv_now inv_code : pres.
  #[local] Hint Constructors prim : pres.

Lemma inv_create_invite tries creator now expires : pres inv (create_invite tries creator now expires).
  Proof. induction tries as [|tries IH]; simpl; pres_auto. Qed.
Lemma inv_create_node tries user name key platform first last cap now :
    pres inv (create_node tries user name key platform first last cap now).
  Proof. induction tries as [|tries IH]; simpl; unfold lowestFree, insertNode; pres_auto. Qed.
Lemma inv_or_not_found {A} e (o : option A) : pres inv (or_not_found e o).
  Proof. destruct o; pres_auto. Qed.
Lemma inv_reclaim ann : pres inv (reclaimIfOrphaned ann).
  Proof. unfold reclaimIfOrphaned. pres_auto. Qed.
  #[local] Hint Resolve inv_create_invite inv_create_node inv_or_not_found inv_reclaim inv_issue : pres.

  (** When inserting any announcement keeps the invariant, announcing does. *)
Lemma inv_announce_plain :
    (forall node real len synth now d r d', insert_ann node real len synth now d = Ok (r, d') -> J d -> J d') ->
    forall user node real zone limit pool, pres inv (CreateAnnouncement user node real zone limit pool).
  Proof.
    intros Hann user node real zone limit pool.
    assert (forall node real len synth now, pres inv (exec (insert_ann node real len synth now))) as Hex.
    { intros ? ? ? ? ?. apply inv_driver. intros s [Hs HR].
      destruct (insert_ann _ _ _ _ _ (s_db s)) as [[r d]|e] eqn:Hfd; simpl; [|done].
      split; [by eapply Hann|done]. }
    apply inv_tx. pres_auto.
  Qed.

  Context (A : Z -> Z -> Block -> Z -> Z -> AnyPrefix -> Prop).
  Context (HA : forall user node real zone limit pool, A user node real zone limit pool ->
    pres inv (CreateAnnouncement user node real zone limit pool)).

  (** The conditions on the entropy that arrives and on the announcements made. *)
Definition op_ok (op : repo_op) : Prop :=
    match op with
    | OpEnv _ _ rand => Forall Q rand
    | OpAnnounce user node real zone limit pool => A user node real zone limit pool
    | _ => True
    end.

Lemma exec_op_inv op : op_ok op -> pres inv (exec_op op).
  Proof.
    destruct op; cbn [exec_op op_ok]; intros Hop;
      try match goal with |- pres _ (void _) => apply pres_void end;
      try apply inv_issue; try (by intros s [Hs _]); try (by apply HA);
      unfold Register; unfold_ops; try apply inv_tx; pres_auto.
  Qed.

Lemma run_ops_any ops s : Forall op_ok ops -> inv s -> inv (run_ops ops s).
  Proof. apply run_ops_inv. intros op s' Hop. by apply exec_op_inv. Qed.
End AnyInvariant.
