(* ===== verification/UsersProps.v ===== *)
(** * Properties of users, registration, invites and refresh tokens *)
From S2P Require Import Prelude GoStrings Netip Ipam Codec Db StoreInv StoreUsers StoreNodes StoreAnnounce StoreOps.

#[local] Open Scope lw_scope.

(** A store whose driver does not fail. *)
Abbreviation Quiet d now rand := (mkStore d [] now rand).

Lemma exec_quiet f d now rand :
  exec f (Quiet d now rand) = match f d with
                              | Ok (r, d') => (Ok r, Quiet d' now rand)
                              | Err msg => (Err (EDriver msg), Quiet d now rand)
                              end.
Proof. unfold exec, driver. simpl. by destruct (f d) as [[r d']|msg]. Qed.
Lemma tx_quiet {A} (m : SM A) d now rand a d' rand' :
  m (Quiet d now rand) = (Ok a, Quiet d' now rand') -> tx m (Quiet d now rand) = (Ok a, Quiet d' now rand').
Proof. intros Hm. unfold tx. simpl. by rewrite Hm. Qed.
Lemma tx_quiet_err {A} (m : SM A) d now rand e d' rand' :
  m (Quiet d now rand) = (Err e, Quiet d' now rand') -> tx m (Quiet d now rand) = (Err e, Quiet d now rand').
Proof. intros Hm. unfold tx. simpl. by rewrite Hm. Qed.

Lemma bind_ok {A B} (m : SM A) (f : A -> SM B) s a s' : m s = (Ok a, s') -> bind m f s = f a s'.
Proof. unfold bind. by intros ->. Qed.
Lemma bind_err {A B} (m : SM A) (f : A -> SM B) s e s' : m s = (Err e, s') -> bind m f s = (Err e, s').
Proof. unfold bind. by intros ->. Qed.
Lemma try_eq {A} (m : SM A) s r s' : m s = (r, s') -> try m s = (Ok r, s').
Proof. unfold try. by intros ->. Qed.

Lemma bind_try_exec {B} f (k : res serr SqlResult -> SM B) d now rand :
  bind (try (exec f)) k (Quiet d now rand) =
    match f d with
    | Ok (r, d') => k (Ok r) (Quiet d' now rand)
    | Err msg => k (Err (EDriver msg)) (Quiet d now rand)
    end.
Proof. unfold bind, try. rewrite exec_quiet. by destruct (f d) as [[r d']|msg]. Qed.
Lemma bind_exec {B} f (k : SqlResult -> SM B) d now rand :
  bind (exec f) k (Quiet d now rand) =
    match f d with
    | Ok (r, d') => k r (Quiet d' now rand)
    | Err msg => (Err (EDriver msg), Quiet d now rand)
    end.
Proof. unfold bind. rewrite exec_quiet. by destruct (f d) as [[r d']|msg]. Qed.
Lemma bind_query {A B} (f : DB -> A) (k : A -> SM B) d now rand :
  bind (query f) k (Quiet d now rand) = k (f d) (Quiet d now rand).
Proof. reflexivity. Qed.
Lemma bind_now {B} (k : Z -> SM B) d now rand : bind now_seconds k (Quiet d now rand) = k now (Quiet d now rand).
Proof. reflexivity. Qed.

Lemma driver_ret {A} (a : A) s r s' : driver (ret a) s = (r, s') -> s_db s' = s_db s.
Proof. unfold driver. by destruct (s_faults s) as [|[] fs]; intros [= _ <-]. Qed.

Lemma unique_is_violation c : isUniqueViolation (EDriver (unique_msg c)) = true.
Proof. reflexivity. Qed.

Lemma pick_singleton `{Sqlite} c : pick_violation [c] = Some c.
Proof.
  destruct (pick_violation [c]) as [c'|] eqn:Hp.
  - apply pick_violation_in in Hp. by apply list_elem_of_singleton in Hp as ->.
  - by apply pick_violation_some in Hp.
Qed.
Lemma pick_nil `{Sqlite} : pick_violation [] = None.
Proof.
  destruct (pick_violation []) as [c|] eqn:Hp; [|done]. apply pick_violation_in in Hp.
  by apply not_elem_of_nil in Hp.
Qed.
Lemma checked_insert_free `{Sqlite} {A} fk (mk : Z -> A) t set :
  fk = true -> checked_insert [] fk mk t set = Ok (mkResult (next_id t) 1, set (insert_row mk t)).
Proof. intros ->. unfold checked_insert. by rewrite pick_nil. Qed.
Lemma checked_insert_clash `{Sqlite} {A} c fk (mk : Z -> A) t set :
  checked_insert [c] fk mk t set = Err (unique_msg c).
Proof. unfold checked_insert. by rewrite pick_singleton. Qed.

(** ** Registration *)

Definition name_taken (name : string) (d : DB) : Prop :=
  lower_ascii name ∈ lower_ascii ∘ u_name <$> rows (users d).

Lemma insert_user_taken `{Sqlite} name hash admin now d :
  name_taken name d -> insert_user name hash admin now d = Err (unique_msg "users.username").
Proof. intros Ht. unfold insert_user. rewrite bool_decide_true by done. by unfold violation; rewrite checked_insert_clash. Qed.
Lemma insert_user_free `{Sqlite} name hash admin now d :
  ~ name_taken name d ->
  insert_user name hash admin now d =
    Ok (mkResult (next_id (users d)) 1,
        set_users (insert_row (fun id => UserRow id name hash admin now) (users d)) d).
Proof. intros Ht. unfold insert_user. rewrite bool_decide_false by done. unfold violation. by rewrite checked_insert_free. Qed.

(** The invite a registration consumes, marked used; the others are as they were. *)
Definition mark_used (i : invite_row) (uid now : Z) (j : invite_row) : invite_row :=
  if decide (j = i)
  then InviteRow (i_id i) (i_code i) (i_creator i) (Some uid) (Some now) (i_created i) (i_expires i)
  else j.

Lemma consume_one uid now code d i :
  uniq i_code (rows (invites d)) -> i ∈ rows (invites d) -> consumable code now i ->
  consume_invite uid now code d =
    Ok (mkResult 0 1, set_invites (map_rows (mark_used i uid now) (invites d)) d).
Proof.
  intros Hu Hi Hc. unfold consume_invite, update_where.
  assert (forall j, j ∈ rows (invites d) -> consumable code now j -> j = i) as Hone.
  { intros j Hj Hcj. apply (uniq_inj i_code (rows (invites d))); [done..|]. destruct Hc as [-> _], Hcj as [-> _]. done. }
  f_equal. f_equal.
  - f_equal. pose proof (count_where_pos _ _ _ Hi Hc).
    pose proof (count_where_unique (consumable code now) i_code (rows (invites d)) code Hu
      (fun j Hj => proj1 Hj)). lia.
  - f_equal. unfold map_rows. f_equal. apply list_fmap_ext. intros k j Hj%list_elem_of_lookup_2.
    unfold mark_used. repeat case_decide; subst; try done. exfalso. by eauto.
Qed.

(** Without driver failures, [Register] is decided by two questions. A taken
    user name (case-insensitively) yields [ErrUserExists]; a free name with no
    redeemable invite of that code yields [ErrInviteInvalid]; otherwise the new
    non-admin user is appended, exactly the invite of that code is marked used by
    it, and no other row of the database changes. *)
Theorem Register_spec `{Sqlite} name hash code d now rand :
  schema_ok d ->
  let uid := next_id (users d) in
  (name_taken name d ->
     Register name hash code (Quiet d now rand) = (Err ErrUserExists, Quiet d now rand)) /\
  (~ name_taken name d -> (forall i, i ∈ rows (invites d) -> ~ consumable code now i) ->
     Register name hash code (Quiet d now rand) = (Err ErrInviteInvalid, Quiet d now rand)) /\
  (forall i, ~ name_taken name d -> i ∈ rows (invites d) -> consumable code now i ->
     Register name hash code (Quiet d now rand) =
       (Ok (UserRow uid name hash false now),
        Quiet (set_invites (map_rows (mark_used i uid now) (invites d))
                 (set_users (insert_row (fun id => UserRow id name hash false now) (users d)) d)) now rand)).
Proof.
  intros Hd uid. unfold Register. split_and!.
  - intros Ht. eapply tx_quiet_err. unfold bind, try. simpl. rewrite exec_quiet, insert_user_taken by done. done.
  - intros Ht Hno. eapply tx_quiet_err. unfold bind, try. simpl. rewrite exec_quiet, insert_user_free by done.
    simpl. rewrite (proj2 (count_where_zero _ _)) by done. done.
  - intros i Ht Hi Hc. apply tx_quiet. unfold bind, try. simpl. rewrite exec_quiet, insert_user_free by done.
    cbn iota beta. rewrite exec_quiet. rewrite (consume_one _ now code _ i). 1: done. 1: exact (uq_code d Hd). all: done.
Qed.

Definition invite_only : DB :=
  set_invites (Table [InviteRow 1 "c0de" None None None 0 (Some 50)] 1) empty_db.

Lemma invite_only_ok : schema_ok invite_only.
Proof.
  destruct empty_db_ok; constructor; try done.
  - split_and!; [done|repeat constructor|by intros x ->%list_elem_of_singleton].
  - apply NoDup_singleton.
  - by intros x i ->%list_elem_of_singleton.
  - by intros x i ->%list_elem_of_singleton.
Qed.

Lemma Register_spec_witness :
  fst (Register "alice" "h" "c0de" (Quiet invite_only 10 [])) = Ok (UserRow 1 "alice" "h" false 10).
Proof.
  pose proof (Register_spec "alice" "h" "c0de" invite_only 10 [] invite_only_ok) as (_ & _ & Hr).
  rewrite (Hr (InviteRow 1 "c0de" None None None 0 (Some 50))); [reflexivity| | |].
  - vm_compute. intros Hx. inversion Hx.
  - left.
  - repeat split; vm_compute; reflexivity.
Defined.

(** ** An invite code registers one account *)

Definition redeemed (code : string) (d : DB) : Prop :=
  uniq i_code (rows (invites d)) /\ exists i, i ∈ rows (invites d) /\ i_code i = code /\ i_used_at i <> None.

Lemma redeemed_map code d (f : invite_row -> invite_row) :
  (forall i, i_code (f i) = i_code i) -> (forall i, i_used_at i <> None -> i_used_at (f i) <> None) ->
  redeemed code d -> redeemed code (set_invites (map_rows f (invites d)) d).
Proof.
  intros Hc Hu [Huniq (i & Hi & Hcode & Hused)]. split; simpl; [by apply uniq_map|].
  exists (f i). split; [by apply list_elem_of_fmap_2|]. rewrite Hc. auto.
Qed.
Lemma redeemed_eq code d d' : invites d' = invites d -> redeemed code d -> redeemed code d'.
Proof. unfold redeemed. by intros ->. Qed.

Lemma redeemed_prim `{Sqlite} code f d r d' :
  prim f -> f d = Ok (r, d') -> redeemed code d -> redeemed code d'.
Proof.
  destruct 1; unfold insert_node_capped, insert_zone_capped.
  all: try (unfold insert_user, insert_node, insert_zone, insert_member, insert_attachment;
    repeat case_match; try done; first [intros (_ & _ & -> & _)%checked_insert_ok | intros [= _ <-]];
    by apply redeemed_eq).
  - unfold insert_invite. intros Hi. insert_facts Hi. intros [Hu (i & Hi & Hc)]. split; simpl.
    + by apply uniq_snoc.
    + exists i. split; [apply elem_of_app; by left|done].
  - intros [= _ <-]. apply redeemed_map; intros; by case_decide.
  - intros [= _ <-] Hr. unfold delete_user.
    apply (redeemed_map code d (fun i => InviteRow (i_id i) (i_code i) (null_if id (i_creator i))
      (null_if id (i_used_by i)) (i_used_at i) (i_created i) (i_expires i))) in Hr; done.
Qed.

Lemma redeemed_invalid `{Sqlite} name hash code s :
  redeemed code (s_db s) -> is_ok (fst (Register name hash code s)) = false.
Proof.
  intros Hr. unfold Register, tx.
  destruct (driver (ret tt) s) as [[[]|e] s1] eqn:Hd; [|done].
  apply driver_ret in Hd as Hdb.
  rewrite <- Hdb in Hr. unfold bind, try. simpl.
  destruct (exec (insert_user _ _ _ _) s1) as [r s2] eqn:Hex. destruct r as [res|e]; [|done].
  destruct (exec_inv _ _ _ _ Hex) as [[? _]|[(? & _ & ? & _)|(x & d & Hf & [= <-] & Hdb2)]]; [done..|].
  apply (redeemed_prim code) in Hf; [|constructor|done]. rewrite <- Hdb2 in Hf.
  destruct (exec (consume_invite _ _ _) s2) as [r2 s3] eqn:Hex2.
  destruct (exec_inv _ _ _ _ Hex2) as [[-> _]|[(? & _ & -> & _)|(y & d' & Hf2 & -> & _)]]; [done..|].
  injection Hf2 as <- _. simpl. destruct Hf as [Hu (i & Hi & Hc & Hused)].
  rewrite (proj2 (count_where_zero _ _)); [done|]. intros j Hj (Hcj & Hnone & _).
  apply Hused. rewrite (uniq_inj i_code _ i j Hu Hi Hj) by congruence. done.
Qed.

Lemma Register_redeems `{Sqlite} name hash code s u s' :
  store_ok s -> Register name hash code s = (Ok u, s') -> redeemed code (s_db s').
Proof.
  intros Hs. unfold Register, tx.
  destruct (driver (ret tt) s) as [[[]|e] s1] eqn:Hd; [|done].
  apply driver_ret in Hd as Hdb.
  unfold bind, try. simpl.
  destruct (exec (insert_user _ _ _ _) s1) as [r s2] eqn:Hex. destruct r as [res|e]; [|done].
  destruct (exec_inv _ _ _ _ Hex) as [[? _]|[(? & _ & ? & _)|(x & d & Hf & [= <-] & Hdb2)]]; [done..|].
  assert (schema_ok (s_db s2)) as H2 by (rewrite Hdb2; eapply insert_user_ok; [done|by rewrite Hdb]).
  destruct (exec (consume_invite _ _ _) s2) as [r2 s3] eqn:Hex2.
  destruct (exec_inv _ _ _ _ Hex2) as [[-> _]|[(? & _ & -> & _)|(y & d' & Hf2 & -> & Hdb3)]]; [done..|].
  injection Hf2 as <- <-. simpl. destruct (count_where _ _ =? 1) eqn:Hn; [|done]. simpl.
  destruct (driver (ret tt) s3) as [[[]|e] s4] eqn:Hd4; [|done]. intros [= _ <-].
  rewrite (driver_ret _ _ _ _ Hd4), Hdb3. apply Z.eqb_eq in Hn. unfold count_where in Hn.
  destruct (filter _ _) as [|i l] eqn:Hfi; [done|].
  assert (i ∈ filter (consumable code (s_now s1)) (rows (invites (s_db s2)))) as [Hc Hi]%list_elem_of_filter
    by (rewrite Hfi; left).
  split; simpl.
  - apply uniq_map; [intros; by case_decide|by apply uq_code].
  - eexists. split; [by apply list_elem_of_fmap_2|]. rewrite decide_True by done. simpl. destruct Hc as [-> _]. done.
Qed.

(** C16: an invite code is redeemed at most once: after a successful registration
    with a code, whatever the server then does with its database (deleting the
    account that used the code included) and whatever fails on the way, no other
    registration with that code succeeds. *)
Theorem invite_single_use `{Sqlite} name hash code s u s' ops name' hash' :
  store_ok s -> Register name hash code s = (Ok u, s') ->
  is_ok (fst (Register name' hash' code (run_ops ops s'))) = false.
Proof.
  intros Hs Hr. apply redeemed_invalid. apply Register_redeems in Hr; [|done].
  assert (forall b user expires now d r d', True ->
    insert_refresh user (hashRefreshToken (RawURLEncode b)) expires now d = Ok (r, d') -> redeemed code d -> redeemed code d')
    as Href.
  { unfold insert_refresh. intros b user expires now d r d' _ (_ & _ & -> & _)%checked_insert_ok. by apply redeemed_eq. }
  apply (run_ops_any (redeemed code) (fun _ => True) (redeemed_prim code) Href (fun _ _ _ _ _ _ => True)).
  - intros user node real zone limit pool _. apply inv_announce_plain; [apply redeemed_prim|].
    unfold insert_ann. intros ? ? ? ? ? d r d' (_ & _ & -> & _)%checked_insert_ok. by apply redeemed_eq.
  - apply Forall_true. intros []; simpl; try done. by apply Forall_true.
  - split; [done|]. by apply Forall_true.
Qed.

Lemma invite_single_use_witness :
  is_ok (fst (Register "bob" "h" "c0de"
    (run_ops [OpDeleteUser 1; OpEnv 20 [] []] (snd (Register "alice" "h" "c0de" (Quiet invite_only 10 [])))))) = false.
Proof.
  apply (invite_single_use "alice" "h" "c0de" (Quiet invite_only 10 []) (UserRow 1 "alice" "h" false 10)).
  - apply invite_only_ok.
  - vm_compute. reflexivity.
Defined.

(** ** Refresh tokens *)

Definition live (now : Z) (r : refresh_row) : Prop := r_revoked r = None /\ now < r_expires r.
#[export] Instance live_dec now r : Decision (live now r).
Proof. unfold live. apply _. Defined.

(** The row with its window slid forward. *)
Definition slid (now : Z) (r : refresh_row) : refresh_row :=
  RefreshRow (r_id r) (r_user r) (r_hash r) (now + refreshTTL) (r_revoked r) (r_created r).
Definition slide_row (now : Z) (r r' : refresh_row) : refresh_row :=
  if decide (r_hash r' = r_hash r) then slid now r' else r'.

Lemma token_row d r :
  uniq r_hash (rows (refresh_tokens d)) -> r ∈ rows (refresh_tokens d) ->
  first_row (fun r' => r_hash r' = r_hash r) (rows (refresh_tokens d)) = Some r.
Proof. intros Hu Hr. apply first_row_unique; [|done..]. intros y Hy Heq. by eapply (uniq_inj r_hash). Qed.

(** A live token slides its own row; any other token is refused. *)
Lemma ValidateRefresh_live p d now rand r :
  schema_ok d -> r ∈ rows (refresh_tokens d) -> r_hash r = hashRefreshToken p -> live now r ->
  ValidateRefresh p (Quiet d now rand) =
    (Ok (r_user r), Quiet (set_refresh (map_rows (slide_row now r) (refresh_tokens d)) d) now rand).
Proof.
  intros Hd Hr Hh [Hlive Hexp]. unfold ValidateRefresh, bind, query, driver, gets. cbn [fst snd s_faults s_db s_now now_seconds gets].
  rewrite <- Hh, token_row by (done || exact (uq_token d Hd)).
  rewrite decide_False by naive_solver. rewrite (proj2 (Z.ltb_lt _ _)) by done. cbn [negb].
  rewrite exec_quiet. unfold slide, update_where, ret. do 3 f_equal. unfold map_rows.
  erewrite list_fmap_ext; [reflexivity|]. intros k r' Hr'%list_elem_of_lookup_2. unfold slide_row, slid.
  destruct (decide (r_hash r' = r_hash r)) as [Heq|Hne].
  - rewrite decide_True; [done|]. split; [done|]. by rewrite (uniq_inj r_hash _ r' r (uq_token d Hd) Hr' Hr Heq).
  - rewrite decide_False; [done|]. by intros [? _].
Qed.
Lemma ValidateRefresh_dead p d now rand :
  (forall r, r ∈ rows (refresh_tokens d) -> r_hash r = hashRefreshToken p -> ~ live now r) ->
  ValidateRefresh p (Quiet d now rand) = (Err ErrRefreshInvalid, Quiet d now rand).
Proof.
  intros Hno. unfold ValidateRefresh, bind, query, driver, gets. cbn [fst snd s_faults s_db s_now now_seconds gets].
  destruct (first_row _ _) as [r|] eqn:Hf; [|done]. apply first_row_some in Hf as [Hh Hr].
  specialize (Hno r Hr Hh). destruct (decide (r_revoked r <> None)) as [|Hn]; [done|].
  destruct (now <? r_expires r) eqn:Hlt; [|done]. exfalso. apply Hno. split; [|lia].
  destruct (r_revoked r); [|done]. by destruct Hn.
Qed.

(** [Validate] accepts a refresh token exactly when the database has a row with
    its digest that is neither revoked nor expired; it then returns the row's user
    and moves that row's expiry, and nothing else, to thirty days from now. Every
    other token is refused with the same error and the database is left alone. *)
Theorem ValidateRefresh_spec p d now rand :
  schema_ok d ->
  (forall r, r ∈ rows (refresh_tokens d) -> r_hash r = hashRefreshToken p -> live now r ->
     ValidateRefresh p (Quiet d now rand) =
       (Ok (r_user r), Quiet (set_refresh (map_rows (slide_row now r) (refresh_tokens d)) d) now rand)) /\
  ((forall r, r ∈ rows (refresh_tokens d) -> r_hash r = hashRefreshToken p -> ~ live now r) ->
     ValidateRefresh p (Quiet d now rand) = (Err ErrRefreshInvalid, Quiet d now rand)).
Proof.
  intros Hd. split; [intros r Hr Hh Hl; by apply ValidateRefresh_live|by apply ValidateRefresh_dead].
Qed.

Definition token_only : DB :=
  set_refresh (Table [RefreshRow 1 1 (hashRefreshToken "tok") 100 None 0] 1)
    (set_users (Table [UserRow 1 "alice" "h" false 0] 1) empty_db).
Lemma token_only_ok : schema_ok token_only.
Proof.
  destruct empty_db_ok; constructor; try done.
  1,2: split_and!; [done|repeat constructor|by intros x ->%list_elem_of_singleton].
  1,2: apply NoDup_singleton.
  1,2: by intros x i Hx%not_elem_of_nil.
  1,2: by intros x Hx%not_elem_of_nil.
  intros x ->%list_elem_of_singleton. left.
Qed.
Lemma ValidateRefresh_spec_witness :
  fst (ValidateRefresh "tok" (Quiet token_only 5 [])) = Ok 1 /\
  fst (ValidateRefresh "tok" (Quiet token_only 100 [])) = Err ErrRefreshInvalid.
Proof.
  split.
  - pose proof (ValidateRefresh_spec "tok" token_only 5 [] token_only_ok) as [Hv _].
    rewrite (Hv (RefreshRow 1 1 (hashRefreshToken "tok") 100 None 0)); [reflexivity|left|reflexivity|split; reflexivity].
  - pose proof (ValidateRefresh_spec "tok" token_only 100 [] token_only_ok) as [_ Hv].
    rewrite Hv; [reflexivity|]. intros r Hr%list_elem_of_singleton _ [_ Hl]. subst r. simpl in Hl. lia.
Defined.

(** *** Revocation is permanent *)

Definition revoked (h : string) (d : DB) : Prop :=
  forall r, r ∈ rows (refresh_tokens d) -> r_hash r = h -> r_revoked r <> None.

Lemma revoked_map h d (f : refresh_row -> refresh_row) :
  (forall r, r_hash (f r) = r_hash r) -> (forall r, r_revoked r <> None -> r_revoked (f r) <> None) ->
  revoked h d -> revoked h (set_refresh (map_rows f (refresh_tokens d)) d).
Proof. intros Hh Hf Hr r (r0 & -> & Hr0)%list_elem_of_fmap Heq. rewrite Hh in Heq. eauto. Qed.
Lemma revoked_eq h d d' : refresh_tokens d' = refresh_tokens d -> revoked h d -> revoked h d'.
Proof. unfold revoked. by intros ->. Qed.

Lemma revoked_prim `{Sqlite} h f d r d' : prim f -> f d = Ok (r, d') -> revoked h d -> revoked h d'.
Proof.
  destruct 1; unfold insert_node_capped, insert_zone_capped.
  all: try (unfold insert_user, insert_invite, insert_node, insert_zone, insert_member, insert_attachment;
    repeat case_match; try done; first [intros (_ & _ & -> & _)%checked_insert_ok | intros [= _ <-]];
    by apply revoked_eq).
  - intros [= _ <-]. apply revoked_map; intros; by case_decide.
  - intros [= _ <-]. apply revoked_map; intros; by case_decide.
  - intros [= _ <-] Hr r' [_ Hr']%list_elem_of_filter. by apply Hr.
Qed.

(** The token's digest is not one a random string still to be drawn would have. *)
Definition not_drawn (p : string) (b : list Z) : Prop := hashRefreshToken (RawURLEncode b) <> hashRefreshToken p.

(** Once [Revoke] has succeeded the token never validates again, whatever
    operations follow, at whatever time, unless fresh entropy reproduces a token
    with the same digest. *)
Theorem revoked_never_validates `{Sqlite} p s ops :
  fst (Revoke p s) = Ok tt ->
  Forall (not_drawn p) (s_rand s) ->
  Forall (op_ok (not_drawn p) (fun _ _ _ _ _ _ => True)) ops ->
  is_ok (fst (ValidateRefresh p (run_ops ops (snd (Revoke p s))))) = false.
Proof.
  intros Hok Hrand Hops.
  assert (inv (revoked (hashRefreshToken p)) (not_drawn p) (snd (Revoke p s))) as Hi.
  { revert Hok. unfold Revoke, bind. simpl. destruct (exec _ s) as [r s1] eqn:Hex.
    destruct (exec_inv _ _ _ _ Hex) as [[-> _]|[(? & _ & -> & _)|(x & d & Hf & -> & Hdb)]]; [done..|]. intros _. simpl.
    split.
    - rewrite Hdb. injection Hf as _ <-. intros r' (r & -> & Hr)%list_elem_of_fmap. case_decide as Hl; [done|].
      intros Heq Hn. by apply Hl.
    - revert Hex. unfold exec, driver. destruct (s_faults s) as [|[] fs]; [| |]; try destruct (revoke _ _ _) as [[]|];
        simpl; intros Hex; try done; injection Hex as _ <-; done. }
  assert (forall b user expires now d r d', not_drawn p b ->
    insert_refresh user (hashRefreshToken (RawURLEncode b)) expires now d = Ok (r, d') ->
    revoked (hashRefreshToken p) d -> revoked (hashRefreshToken p) d') as Href.
  { unfold insert_refresh. intros b user expires now d r d' Hb (_ & _ & -> & _)%checked_insert_ok Hr
      r' [Hr'| ->%list_elem_of_singleton]%elem_of_app; [by apply Hr|]. simpl. intros Heq. by destruct Hb. }
  apply (run_ops_any _ _ (revoked_prim _) Href (fun _ _ _ _ _ _ => True)) with (ops := ops) in Hi; [| |done].
  - destruct Hi as [Hi _]. revert Hi. generalize (run_ops ops (snd (Revoke p s))). intros s' Hr.
    unfold ValidateRefresh, bind. simpl. unfold query, driver.
    destruct (s_faults s') as [|[] fs]; simpl; [|done|];
      (destruct (first_row _ _) as [r|] eqn:Hf; [|done]); apply first_row_some in Hf as [Hh Hin];
      rewrite decide_True by eauto; done.
  - intros user node real zone limit pool _. apply inv_announce_plain; [apply revoked_prim|].
    unfold insert_ann. intros ? ? ? ? ? d r d' (_ & _ & -> & _)%checked_insert_ok. by apply revoked_eq.
Qed.

Lemma revoked_never_validates_witness :
  is_ok (fst (ValidateRefresh "tok"
    (run_ops [OpEnv 3 [] [[1]]; OpIssue 1; OpValidate "tok"] (snd (Revoke "tok" (Quiet token_only 1 [])))))) = false.
Proof.
  apply (revoked_never_validates "tok" (Quiet token_only 1 [])
    [OpEnv 3 [] [[1]]; OpIssue 1; OpValidate "tok"]).
  - reflexivity.
  - constructor.
  - repeat constructor. unfold not_drawn. vm_compute. discriminate.
Defined.
