(* ===== verification/CascadeProps.v ===== *)
(** * The user-deletion cascade and the footprint it reports *)
From S2P Require Import Prelude GoStrings Netip Ipam Codec Db StoreInv StoreUsers StoreNodes StoreAnnounce StoreOps UsersProps.

#[local] Open Scope lw_scope.

(** ** Rows that survive a cascade *)

Lemma alive_iff {A} (pk : A -> Z) (P : A -> Prop) `{forall x, Decision (P x)} l i :
  uniq pk l -> i ∈ pk <$> l -> i ∉ pk <$> filter P l <-> i ∈ pk <$> filter (fun x => ~ P x) l.
Proof.
  intros Hu Hi. apply list_elem_of_fmap in Hi as (x & -> & Hx). split.
  - intros Hn. apply list_elem_of_fmap. exists x. split; [done|]. apply list_elem_of_filter. split; [|done].
    intros HP. apply Hn. apply list_elem_of_fmap_2. by apply list_elem_of_filter.
  - intros (y & Heq & [HP Hy]%list_elem_of_filter)%list_elem_of_fmap
      (z & Heq' & [HP' Hz]%list_elem_of_filter)%list_elem_of_fmap.
    rewrite (uniq_inj pk l y x), (uniq_inj pk l x z) in HP; done.
Qed.

(** A join on a key: membership in the list of joined results. *)
Lemma elem_of_join_on {A B} (l : list A) (P : A -> Prop) `{forall x, Decision (P x)} (k : A -> list B) y :
  y ∈ join_on l P k <-> exists x, x ∈ l /\ P x /\ y ∈ k x.
Proof. unfold join_on. rewrite list_elem_of_bind. setoid_rewrite list_elem_of_filter. firstorder. Qed.

Lemma elem_of_if {A} (P : Prop) `{Decision P} (x y : A) : y ∈ (if decide P then [x] else []) <-> P /\ y = x.
Proof. case_decide; rewrite ?list_elem_of_singleton; [tauto|]. split; [by intros ?%not_elem_of_nil|tauto]. Qed.

(** ** Reclaiming announcements by id *)

Fixpoint delete_ann_ids (ids : list Z) (d : DB) : DB :=
  match ids with [] => d | i :: ids => delete_ann_ids ids (delete_anns (fun a => a_id a = i) d) end.

Lemma for_each_delete ids d now rand :
  for_each ids (fun i => do! exec (DELETE_anns (fun a => a_id a = i)) in ret tt) (Quiet d now rand) =
    (Ok tt, Quiet (delete_ann_ids ids d) now rand).
Proof. revert d. induction ids as [|i ids IH]; intros d; simpl; [done|]. unfold bind. simpl. apply IH. Qed.

(** Deleting announcements touches no other table, but for their attachments. *)
Lemma delete_ann_ids_rest ids d :
  let d' := delete_ann_ids ids d in
  refresh_tokens d' = refresh_tokens d /\ invites d' = invites d /\ seq (announcements d') = seq (announcements d).
Proof.
  revert d. induction ids as [|i ids IH]; intros d; [done|]. cbn [delete_ann_ids].
  destruct (IH (delete_anns (fun a => a_id a = i) d)) as (H1 & H2 & H3). cbv zeta. rewrite H1, H2, H3. by split_and!.
Qed.
(** Deleting announcements that have no attachment touches nothing else. *)
Lemma delete_ann_ids_spec ids d :
  (forall az, az ∈ announcement_zones d -> az_ann az ∉ ids) ->
  let d' := delete_ann_ids ids d in
  users d' = users d /\ nodes d' = nodes d /\ zones d' = zones d /\ zone_members d' = zone_members d /\
  announcement_zones d' = announcement_zones d /\
  (forall a, a ∈ rows (announcements d') <-> a ∈ rows (announcements d) /\ a_id a ∉ ids).
Proof.
  revert d. induction ids as [|i ids IH]; intros d Haz; simpl.
  { split_and!; try done. intros a. split; [|by intros [? _]]. intros Ha. by split; [|apply not_elem_of_nil]. }
  set (d1 := delete_anns (fun a => a_id a = i) d).
  assert (announcement_zones d1 = announcement_zones d) as Hz.
  { unfold d1, delete_anns. simpl. apply filter_all. intros az Hin (a & Heq & [Ha _]%list_elem_of_filter)%list_elem_of_fmap.
    apply (Haz az Hin). rewrite Heq, Ha. left. }
  destruct (IH d1) as (H1 & H2 & H3 & H4 & H5 & H6).
  { rewrite Hz. intros az Hin Hids. apply (Haz az Hin). by right. }
  rewrite H1, H2, H3, H4, H5, Hz. split_and!; try done. intros a. rewrite H6. unfold d1. simpl.
  rewrite list_elem_of_filter, elem_of_cons. naive_solver.
Qed.

Lemma gather_orphans_spec seen l :
  (gather_orphans seen l).1 = (fun p => a_id p.1) <$> l /\
  forall i, i ∈ rr_node <$> (gather_orphans seen l).2 <-> (i ∉ seen) /\ (i ∈ (fun p => a_node p.1) <$> l).
Proof.
  revert seen. induction l as [|[a n] l IH]; intros seen; simpl.
  { split; [done|]. intros i. split; [by intros ?%not_elem_of_nil|by intros [_ ?%not_elem_of_nil]]. }
  case_bool_decide as Hs.
  - specialize (IH ({[a_node a]} ∪ seen)). destruct (gather_orphans _ l) as [ids ns]. simpl in *.
    destruct IH as [-> IH]. split; [done|]. intros i. rewrite !elem_of_cons, IH, elem_of_union, elem_of_singleton.
    destruct (decide (i = a_node a)); naive_solver.
  - specialize (IH seen). destruct (gather_orphans seen l) as [ids ns]. simpl in *.
    destruct IH as [-> IH]. split; [done|]. intros i. rewrite !elem_of_cons, IH. naive_solver.
Qed.

Lemma gather_orphans_rows seen l r : r ∈ (gather_orphans seen l).2 ->
  exists a n, (a, n) ∈ l /\ r = mkRecompute (a_node a) (n_key n) (u32 (n_ip n)).
Proof.
  revert seen. induction l as [|[a n] l IH]; intros seen; simpl; [by intros ?%not_elem_of_nil|].
  destruct (gather_orphans _ l) as [ids ns] eqn:Hg. simpl. intros Hr.
  assert (r ∈ ns \/ r = mkRecompute (a_node a) (n_key n) (u32 (n_ip n))) as [Hns| ->].
  { case_bool_decide; [|by left]. apply elem_of_cons in Hr as [->|Hr]; [right; by rewrite Uint32ToAddr_col|by left]. }
  - destruct (IH (if bool_decide (a_node a ∉ seen) then {[a_node a]} ∪ seen else seen)) as (a' & n' & Hin & ->).
    { by rewrite Hg. }
    exists a', n'. split; [by right|done].
  - exists a, n. split; [by left|done].
Qed.

(** ** The cascade *)

(** The database right after [DELETE FROM users]. *)
Lemma delete_user_rows id d :
  schema_ok d ->
  let d1 := delete_user id d in
  rows (users d1) = filter (fun u => u_id u <> id) (rows (users d)) /\
  rows (nodes d1) = filter (fun n => n_user n <> id) (rows (nodes d)) /\
  rows (zones d1) = filter (fun z => z_owner z <> id) (rows (zones d)) /\
  (forall m, m ∈ zone_members d1 <-> m ∈ zone_members d /\
     m_node m ∈ n_id <$> rows (nodes d1) /\ m_zone m ∈ z_id <$> rows (zones d1)) /\
  (forall a, a ∈ rows (announcements d1) <-> a ∈ rows (announcements d) /\ a_node a ∈ n_id <$> rows (nodes d1)) /\
  (forall az, az ∈ announcement_zones d1 <-> az ∈ announcement_zones d /\
     az_ann az ∈ a_id <$> rows (announcements d1) /\ az_zone az ∈ z_id <$> rows (zones d1)).
Proof.
  intros Hd d1. destruct Hd.
  split_and!; [done..| | |].
  - intros m. unfold d1. simpl. rewrite !list_elem_of_filter. split.
    + intros (Hz & Hn & Hm). split_and!; [done| |];
        (apply alive_iff; [by apply table_ok_uniq| |done]); [by apply fk_member_node|by apply fk_member_zone].
    + intros (Hm & Hn & Hz).
      apply alive_iff in Hn; [|by apply table_ok_uniq|by apply fk_member_node].
      apply alive_iff in Hz; [|by apply table_ok_uniq|by apply fk_member_zone]. done.
  - intros a. unfold d1. simpl. rewrite !list_elem_of_filter. split.
    + intros (Hn & Ha). split; [done|]. destruct (decide (a_node a ∈ n_id <$> filter (fun n => n_user n = id) (rows (nodes d)))); [done|].
      apply alive_iff; [by apply table_ok_uniq|by apply fk_ann_node|done].
    + intros (Ha & Hn). split; [|done]. apply alive_iff in Hn; [done|by apply table_ok_uniq|by apply fk_ann_node].
  - intros az. unfold d1. simpl. rewrite !list_elem_of_filter. split.
    + intros (Hz & Ha & Hin). split_and!; [done| |].
      * apply alive_iff; [by apply table_ok_uniq|by apply fk_attach_ann|done].
      * apply alive_iff; [by apply table_ok_uniq|by apply fk_attach_zone|done].
    + intros (Hin & Ha & Hz). split_and!; [| |done].
      * apply alive_iff in Hz; [done|by apply table_ok_uniq|by apply fk_attach_zone].
      * by apply alive_iff in Ha; [|by apply table_ok_uniq|by apply fk_attach_ann].
Qed.

(** An invite once the user is gone: no longer made, or used, by it. *)
Definition forget_user (id : Z) (i : invite_row) : invite_row :=
  let other u := if decide (u = Some id) then None else u in
  InviteRow (i_id i) (i_code i) (other (i_creator i)) (other (i_used_by i)) (i_used_at i) (i_created i) (i_expires i).

Lemma null_if_spec id o : null_if id o = if decide (o = Some id) then None else o.
Proof. destruct o as [x|]; [|done]. simpl. repeat case_decide; congruence. Qed.

(** What remains, and what the caller is told, when user [id] is deleted. *)
Record cascade (id : Z) (d d' : DB) (res : DeletionResult) : Prop := mkCascade
  { cs_users : rows (users d') = filter (fun u => u_id u <> id) (rows (users d));
    cs_nodes : rows (nodes d') = filter (fun n => n_user n <> id) (rows (nodes d));
    cs_zones : rows (zones d') = filter (fun z => z_owner z <> id) (rows (zones d));
    (** the sessions of the user go; an invite stays, without its name *)
    cs_refresh : rows (refresh_tokens d') = filter (fun r => r_user r <> id) (rows (refresh_tokens d));
    cs_invites : rows (invites d') = forget_user id <$> rows (invites d);
    (** ids are not given out again *)
    cs_zone_seq : seq (zones d') = seq (zones d);
    cs_seqs : seq (users d') = seq (users d) /\ seq (nodes d') = seq (nodes d) /\ seq (refresh_tokens d') = seq (refresh_tokens d) /\
      seq (invites d') = seq (invites d) /\ seq (announcements d') = seq (announcements d);
    cs_members m : m ∈ zone_members d' <-> m ∈ zone_members d /\
      m_node m ∈ n_id <$> rows (nodes d') /\ m_zone m ∈ z_id <$> rows (zones d');
    cs_attach az : az ∈ announcement_zones d' <-> az ∈ announcement_zones d /\
      (exists a, a ∈ rows (announcements d) /\ a_id a = az_ann az /\ a_node a ∈ n_id <$> rows (nodes d')) /\
      az_zone az ∈ z_id <$> rows (zones d');
    cs_anns a : a ∈ rows (announcements d') <-> a ∈ rows (announcements d) /\
      a_node a ∈ n_id <$> rows (nodes d') /\ a_id a ∈ az_ann <$> announcement_zones d';
    (** the report *)
    cs_keys : NodePubKeys res = n_key <$> filter (fun n => n_user n = id) (rows (nodes d));
    cs_owned : OwnedZoneIDs res = z_id <$> filter (fun z => z_owner z = id) (rows (zones d));
    cs_surviving ip z : (ip, z) ∈ SurvivingMemberships res <-> exists m n,
      m ∈ zone_members d /\ n ∈ rows (nodes d) /\ m_node m = n_id n /\ n_user n = id /\
      ip = u32 (n_ip n) /\ m_zone m = z /\ z ∈ z_id <$> rows (zones d');
    cs_routes z p : (z, p) ∈ SurvivingZoneRoutes res <-> exists az a n,
      az ∈ announcement_zones d /\ a ∈ rows (announcements d) /\ n ∈ rows (nodes d) /\
      az_ann az = a_id a /\ a_node a = n_id n /\ n_user n = id /\
      p = BlockPrefix (synth_block a) /\ az_zone az = z /\ z ∈ z_id <$> rows (zones d');
    cs_recompute i : i ∈ rr_node <$> RouteRecomputeNodes res <->
      i ∈ n_id <$> rows (nodes d') /\
      exists a, a ∈ rows (announcements d) /\ a_node a = i /\ a ∉ rows (announcements d');
    cs_recompute_row r : r ∈ RouteRecomputeNodes res ->
      exists n, n ∈ rows (nodes d') /\ r = mkRecompute (n_id n) (n_key n) (u32 (n_ip n)) }.

Lemma zone_survives d id i z :
  schema_ok d -> z ∈ rows (zones d) -> z_id z = i ->
  z_owner z <> id <-> i ∈ z_id <$> filter (fun z => z_owner z <> id) (rows (zones d)).
Proof.
  intros Hd Hz <-. split.
  - intros Ho. apply list_elem_of_fmap_2. by apply list_elem_of_filter.
  - intros (z' & Heq & [Ho Hz']%list_elem_of_filter)%list_elem_of_fmap.
    by rewrite (uniq_inj z_id (rows (zones d)) z z') by (done || apply table_ok_uniq, ok_zones, Hd).
Qed.

Lemma surviving_memberships_spec id d ip i :
  schema_ok d ->
  (ip, i) ∈ surviving_memberships id d <-> exists m n,
    m ∈ zone_members d /\ n ∈ rows (nodes d) /\ m_node m = n_id n /\ n_user n = id /\
    ip = u32 (n_ip n) /\ m_zone m = i /\ i ∈ z_id <$> filter (fun z => z_owner z <> id) (rows (zones d)).
Proof.
  intros Hd. unfold surviving_memberships. rewrite list_elem_of_bind. setoid_rewrite elem_of_join_on.
  setoid_rewrite elem_of_join_on. setoid_rewrite elem_of_if. split.
  - intros (m & (n & Hn & Hnm & z & Hz & Hzm & (Hu & Ho) & [= -> ->]) & Hm). exists m, n.
    rewrite Uint32ToAddr_col. split_and!; try done.
    by apply (zone_survives d id (m_zone m) z).
  - intros (m & n & Hm & Hn & Heq & Hu & -> & <- & Hz). exists m. split; [|done]. exists n. split_and!; [done..|].
    pose proof Hz as (z & Hzm & [Ho Hzin]%list_elem_of_filter)%list_elem_of_fmap. exists z.
    by rewrite Uint32ToAddr_col.
Qed.

Lemma surviving_routes_spec id d i p :
  schema_ok d ->
  (i, p) ∈ surviving_routes id d <-> exists az a n,
    az ∈ announcement_zones d /\ a ∈ rows (announcements d) /\ n ∈ rows (nodes d) /\
    az_ann az = a_id a /\ a_node a = n_id n /\ n_user n = id /\
    p = BlockPrefix (synth_block a) /\ az_zone az = i /\
    i ∈ z_id <$> filter (fun z => z_owner z <> id) (rows (zones d)).
Proof.
  intros Hd. unfold surviving_routes. rewrite list_elem_of_bind. setoid_rewrite elem_of_join_on.
  setoid_rewrite elem_of_join_on. setoid_rewrite elem_of_join_on. setoid_rewrite elem_of_if. split.
  - intros (az & (a & Ha & Haz & n & Hn & Hna & z & Hz & Hzm & (Hu & Ho) & [= -> ->]) & Hin). exists az, a, n.
    split_and!; try done. by apply (zone_survives d id (az_zone az) z).
  - intros (az & a & n & Hin & Ha & Hn & H1 & H2 & H3 & -> & <- & Hz). exists az. split; [|done].
    exists a. split_and!; [done..|]. exists n. split_and!; [done..|].
    pose proof Hz as (z & Hzm & [Ho Hzin]%list_elem_of_filter)%list_elem_of_fmap. by exists z.
Qed.

Lemma orphans_spec d a n :
  (a, n) ∈ orphans d <-> a ∈ rows (announcements d) /\ n ∈ rows (nodes d) /\ n_id n = a_node a /\
    a_id a ∉ az_ann <$> announcement_zones d.
Proof.
  unfold orphans. rewrite list_elem_of_bind. setoid_rewrite elem_of_join_on. setoid_rewrite elem_of_if.
  split; [|naive_solver]. intros (a' & (n' & ? & ? & ? & [= -> ->]) & ?). done.
Qed.

(** What the orphan pass of the transaction leaves of a database. *)
Lemma reclaim_orphans_spec d :
  schema_ok d ->
  let ids := (gather_orphans ∅ (orphans d)).1 in
  let d' := delete_ann_ids ids d in
  users d' = users d /\ nodes d' = nodes d /\ zones d' = zones d /\ zone_members d' = zone_members d /\
  announcement_zones d' = announcement_zones d /\
  (forall a, a ∈ rows (announcements d') <->
     a ∈ rows (announcements d) /\ a_id a ∈ az_ann <$> announcement_zones d) /\
  (forall i, i ∈ rr_node <$> (gather_orphans ∅ (orphans d)).2 <->
     exists a, a ∈ rows (announcements d) /\ a_node a = i /\ a ∉ rows (announcements d')).
Proof.
  intros Hd ids d'. destruct (gather_orphans_spec ∅ (orphans d)) as [Hids Hrr].
  destruct (delete_ann_ids_spec ids d) as (H1 & H2 & H3 & H4 & H5 & H6).
  { unfold ids. rewrite Hids. intros az Haz ([a n] & Heq & (_ & _ & _ & Ho)%orphans_spec)%list_elem_of_fmap.
    apply Ho. simpl in Heq. rewrite <- Heq. by apply list_elem_of_fmap_2. }
  assert (forall a, a ∈ rows (announcements d) -> a_id a ∉ ids <-> a_id a ∈ az_ann <$> announcement_zones d) as Horph.
  { intros a Ha. unfold ids. rewrite Hids. split.
    - intros Hn. destruct (decide (a_id a ∈ az_ann <$> announcement_zones d)) as [|Ho]; [done|]. exfalso. apply Hn.
      pose proof (fk_ann_node d Hd a Ha) as (n & Hnid & Hn')%list_elem_of_fmap.
      apply list_elem_of_fmap. exists (a, n). split; [done|]. by apply orphans_spec.
    - intros Haz ([a' n] & Heq & (Ha' & _ & _ & Ho)%orphans_spec)%list_elem_of_fmap. simpl in Heq.
      rewrite Heq in Haz. done. }
  fold d' in H1, H2, H3, H4, H5, H6.
  assert (forall a, a ∈ rows (announcements d') <->
     a ∈ rows (announcements d) /\ a_id a ∈ az_ann <$> announcement_zones d) as Hanns.
  { intros a. rewrite H6. split; intros [Ha Hx]; (split; [done|]); by apply Horph. }
  split_and!; try done. intros i. rewrite Hrr. split.
  - intros [_ ([a n] & -> & (Ha & _ & _ & Ho)%orphans_spec)%list_elem_of_fmap]. exists a. simpl.
    split_and!; [done..|]. by rewrite Hanns; intros [_ ?].
  - intros (a & Ha & <- & Hgone). split; [apply not_elem_of_empty|].
    pose proof (fk_ann_node d Hd a Ha) as (n & Hnid & Hn')%list_elem_of_fmap.
    apply list_elem_of_fmap. exists (a, n). split; [done|]. apply orphans_spec. split_and!; try done.
    intros Haz. apply Hgone. by rewrite Hanns.
Qed.

(** The transaction's body, without driver failures. *)
Lemma DeleteCascade_quiet id d now rand u :
  user_by_id d id = Some u ->
  (u_admin u = true -> 1 < count_where (fun u => u_admin u = true) (rows (users d))) ->
  DeleteCascade id (Quiet d now rand) =
    (Ok (mkDeletion (node_keys id d) (surviving_memberships id d) (owned_zone_ids id d)
           (surviving_routes id d) (gather_orphans ∅ (orphans (delete_user id d))).2),
     Quiet (delete_ann_ids (gather_orphans ∅ (orphans (delete_user id d))).1 (delete_user id d)) now rand).
Proof.
  intros Hu Hadm. unfold DeleteCascade. apply tx_quiet.
  unfold bind at 1, query at 1, driver at 1, gets at 1. cbn [s_faults s_db]. rewrite Hu.
  erewrite bind_ok.
  2: { destruct (u_admin u) eqn:Hau; [|reflexivity]. unfold bind, query, driver, gets. cbn [s_faults s_db].
       destruct (count_where _ _ <=? 1) eqn:Hc; [|reflexivity]. specialize (Hadm eq_refl).
       apply Z.leb_le in Hc. exfalso. eapply Z.lt_irrefl, Z.lt_le_trans; [exact Hadm|exact Hc]. }
  do 6 (cbv beta; erewrite bind_ok by reflexivity). cbn [s_db with_db s_faults s_now s_rand].
  destruct (gather_orphans ∅ (orphans (delete_user id d))) as [ids ns].
  by erewrite bind_ok by apply for_each_delete.
Qed.

(** What the transaction's statements do is the cascade. *)
Lemma cascade_ok id d : schema_ok d ->
  cascade id d (delete_ann_ids (gather_orphans ∅ (orphans (delete_user id d))).1 (delete_user id d))
    (mkDeletion (node_keys id d) (surviving_memberships id d) (owned_zone_ids id d)
       (surviving_routes id d) (gather_orphans ∅ (orphans (delete_user id d))).2).
Proof.
  intros Hd. set (d1 := delete_user id d).
  pose proof (delete_user_rows id d Hd) as (Eu & En & Ez & Hm & Ha & Haz). fold d1 in Eu, En, Ez, Hm, Ha, Haz.
  pose proof (reclaim_orphans_spec d1 (delete_user_ok id d Hd)) as (Fu & Fn & Fz & Fm & Faz & Fa & Frr).
  destruct (delete_ann_ids_rest (gather_orphans ∅ (orphans d1)).1 d1) as (Fr & Fi & Fs).
  cbv zeta in Fu, Fn, Fz, Fm, Faz, Fa, Frr. constructor; rewrite ?Fu, ?Fn, ?Fz, ?Fm, ?Faz, ?Fr, ?Fi, ?Fs; try done.
  - apply list_fmap_ext. intros _ i _. unfold forget_user. by rewrite !null_if_spec.
  - intros az. rewrite (Haz az). split.
    + intros (Hin & (a & -> & [Hx Hn]%Ha)%list_elem_of_fmap & Hz). split_and!; [done| |done]. by exists a.
    + intros (Hin & (a & Hx & <- & Hn) & Hz). split_and!; [done|by apply list_elem_of_fmap_2, Ha|done].
  - intros a. rewrite Fa, Ha. tauto.
  - intros ip z. simpl. rewrite surviving_memberships_spec by done. done.
  - intros z p. simpl. rewrite surviving_routes_spec by done. done.
  - intros i. simpl. rewrite Frr. split.
    + intros (a & Ha1 & <- & Hgone). pose proof (proj1 (Ha a) Ha1) as [Had Hn]. split; [done|]. by exists a.
    + intros (Hi & a & Had & <- & Hgone). exists a. split_and!; [|done..]. by apply Ha.
  - intros r (a & n & (_ & Hn & Hid & _)%orphans_spec & ->)%gather_orphans_rows. exists n. by rewrite Hid.
Qed.

(** C15: deleting a user removes exactly what is attributable to it, in one
    transaction: an unknown id and the last administrator are refused; otherwise
    the user, its nodes, its zones and its refresh tokens go, the memberships,
    attachments and announcements that referred to them go with them, other users'
    announcements left without any zone are reclaimed, invites stay without the
    user's name, and every other row and every id counter is as it was; the result
    reports precisely the keys of the removed nodes, the removed zones, the
    memberships and synthetic routes to be cleared from surviving zones, and the
    surviving nodes whose routes shrank. *)
Theorem DeleteCascade_spec id d now rand :
  schema_ok d ->
  match user_by_id d id with
  | None => DeleteCascade id (Quiet d now rand) = (Err ErrUserNotFound, Quiet d now rand)
  | Some u =>
      if u_admin u && (count_where (fun u => u_admin u = true) (rows (users d)) <=? 1)
      then DeleteCascade id (Quiet d now rand) = (Err ErrLastAdmin, Quiet d now rand)
      else exists res d', DeleteCascade id (Quiet d now rand) = (Ok res, Quiet d' now rand) /\
             cascade id d d' res
  end.
Proof.
  intros Hd. destruct (user_by_id d id) as [u|] eqn:Hu.
  2: { eapply tx_quiet_err. unfold bind, query, driver, gets. cbn [s_faults s_db]. by rewrite Hu. }
  destruct (u_admin u && _) eqn:Hlast.
  { apply andb_true_iff in Hlast as [Ha Hc]. eapply tx_quiet_err.
    unfold bind at 1, query at 1, driver at 1, gets at 1. cbn [s_faults s_db]. rewrite Hu.
    apply bind_err. rewrite Ha. unfold bind, query, driver, gets. cbn [s_faults s_db]. by rewrite Hc. }
  do 2 eexists. split; [|by apply cascade_ok].
  apply (DeleteCascade_quiet id d now rand u Hu). intros Ha. rewrite Ha in Hlast. simpl in Hlast.
  apply Z.leb_gt in Hlast. exact Hlast.
Qed.

Definition two_users : DB :=
  set_members [MemberRow 1 1 0] (set_zones (Table [ZoneRow 1 "z" "h" 2 0] 1)
    (set_nodes (Table [NodeRow 1 1 "n" "k" 9 0 "linux"] 1)
      (set_users (Table [UserRow 1 "a" "h" false 0; UserRow 2 "b" "h" true 0] 2) empty_db))).

Lemma two_users_ok : schema_ok two_users.
Proof.
  assert (Hn : forall A (x : A), x ∉ []) by (intros; apply not_elem_of_nil).
  constructor; try (intros x Hx; by destruct (Hn _ x)); try (intros x i Hx; by destruct (Hn _ x));
    try (by apply (bool_decide_unpack _); vm_compute).
  all: try (split_and!; [done|repeat constructor|intros x Hx; set_unfold in Hx; naive_solver lia]).
  all: intros x Hx; set_unfold in Hx; destruct Hx as [->|[]]; simpl; set_solver.
Qed.

Lemma DeleteCascade_spec_witness :
  fst (DeleteCascade 1 (Quiet two_users 0 [])) = Ok (mkDeletion ["k"] [(9, 1)] [] [] []) /\
  fst (DeleteCascade 2 (Quiet two_users 0 [])) = Err ErrLastAdmin.
Proof.
  split.
  - pose proof (DeleteCascade_spec 1 two_users 0 [] two_users_ok) as (res & d' & Hc & _).
    vm_compute in Hc. vm_compute. injection Hc as <- _. reflexivity.
  - assert (DeleteCascade 2 (Quiet two_users 0 []) = (Err ErrLastAdmin, Quiet two_users 0 [])) as ->
      by exact (DeleteCascade_spec 2 two_users 0 [] two_users_ok). reflexivity.
Defined.
