(* ===== verification/NodesProps.v ===== *)
(** * Properties of nodes and zones: address allocation, caps, the rebuild listing *)
From stdpp Require Import sorting.
From S2P Require Import Prelude GoStrings Netip Ipam Codec Db StoreInv StoreUsers StoreNodes StoreAnnounce StoreOps UsersProps CascadeProps.

#[local] Open Scope lw_scope.

(** ** The lowest free address *)

Definition used_ips (d : DB) : list Z := n_ip <$> rows (nodes d).

Lemma min_list_none l : min_list l = None <-> l = [].
Proof. by destruct l as [|x l]; simpl; split; try destruct (min_list l). Qed.
Lemma min_list_some l m : min_list l = Some m <-> m ∈ l /\ forall x, x ∈ l -> m <= x.
Proof.
  revert m. induction l as [|y l IH]; intros m; simpl.
  { split; [done|]. by intros [?%not_elem_of_nil _]. }
  setoid_rewrite elem_of_cons. destruct (min_list l) as [k|] eqn:Hk.
  - specialize (proj1 (IH k) eq_refl) as [Hin Hle]. split.
    + intros [= <-]. split; [destruct (Z.min_spec y k) as [[_ ->]|[_ ->]]; auto|].
      intros x [->|Hx]; [lia|]. specialize (Hle x Hx). lia.
    + intros [[->|Hm] Hall]; f_equal.
      * pose proof (Hall k (or_intror Hin)). lia.
      * pose proof (Hall y (or_introl eq_refl)). pose proof (Hall k (or_intror Hin)).
        pose proof (Hle m Hm). lia.
  - apply min_list_none in Hk as ->. split.
    + intros [= <-]. split; [by left|]. intros x [->|?%not_elem_of_nil]; [lia|done].
    + intros [[->|?%not_elem_of_nil] _]; done.
Qed.

Definition free_in (first last : Z) (d : DB) (c : Z) : Prop := first <= c <= last /\ c ∉ used_ips d.

Lemma elem_of_candidates first last d c :
  c ∈ free_candidates first last d <->
  (c ∉ used_ips d) /\ c <= last /\ (c = first \/ ((c - 1) ∈ used_ips d) /\ first <= c - 1 < last).
Proof.
  unfold free_candidates. change (n_ip <$> rows (nodes d)) with (used_ips d). cbv zeta.
  rewrite list_elem_of_filter, elem_of_cons, list_elem_of_fmap. split.
  - intros [[Hn Hl] [->|(ip & -> & Hip)]]; [tauto|].
    apply list_elem_of_filter in Hip as [[H1 H2] Hin].
    split_and!; [done..|]. right. replace (ip + 1 - 1) with ip by lia. split; [done|lia].
  - intros (Hn & Hl & Hc). split; [done|]. destruct Hc as [->|[Hin Hr]]; [by left|]. right.
    exists (c - 1). split; [lia|]. apply list_elem_of_filter. split; [lia|done].
Qed.

(** Below every free address of the pool there is a candidate of the query. *)
Lemma candidate_below first last d c :
  free_in first last d c -> exists c', c' ∈ free_candidates first last d /\ c' <= c.
Proof.
  intros [[Hlo Hhi] Hfree]. revert Hhi Hfree.
  apply (Zlt_lower_bound_ind (fun c => c <= last -> c ∉ used_ips d ->
    exists c', c' ∈ free_candidates first last d /\ c' <= c) first); [|done].
  clear c Hlo. intros c IH Hlo Hhi Hfree.
  destruct (decide (c = first)) as [->|Hne].
  { exists first. split; [|lia]. apply elem_of_candidates. auto. }
  destruct (decide ((c - 1) ∈ used_ips d)) as [Hin|Hnin].
  - exists c. split; [|lia]. apply elem_of_candidates. split_and!; [done..|]. right. split; [done|lia].
  - destruct (IH (c - 1)) as (c' & Hc' & Hle); [lia|lia|done|]. exists c'. split; [done|lia].
Qed.

Lemma candidate_free first last d c : c ∈ free_candidates first last d -> free_in first last d c.
Proof. rewrite elem_of_candidates. unfold free_in. intros (Hn & Hl & [->|[Hin Hr]]); (split; [lia|done]). Qed.

Lemma lowest_some first last d c :
  min_list (free_candidates first last d) = Some c <->
  free_in first last d c /\ forall c', free_in first last d c' -> c <= c'.
Proof.
  rewrite min_list_some. split.
  - intros [Hc Hmin]. pose proof Hc as (Hn & Hl & Hor)%elem_of_candidates. split; [split; [|done]; lia|].
    intros c' Hf. destruct (candidate_below _ _ _ _ Hf) as (c'' & Hc'' & Hle). specialize (Hmin c'' Hc''). lia.
  - intros [[Hr Hn] Hmin]. assert (forall x, x ∈ free_candidates first last d -> c <= x) as Hle.
    { intros x Hx. by apply Hmin, candidate_free. }
    split; [|done]. destruct (candidate_below first last d c (conj Hr Hn)) as (c' & Hc' & Hle').
    specialize (Hle c' Hc'). by replace c with c' by lia.
Qed.
Lemma lowest_none first last d :
  min_list (free_candidates first last d) = None <-> forall c, ~ free_in first last d c.
Proof.
  rewrite min_list_none. split.
  - intros Hnil c (c' & Hc' & _)%candidate_below. rewrite Hnil in Hc'. by apply not_elem_of_nil in Hc'.
  - intros Hno. destruct (free_candidates first last d) as [|c l] eqn:Hl; [done|].
    assert (c ∈ free_candidates first last d) as Hc by (rewrite Hl; left).
    destruct (Hno c). pose proof Hc as (Hn & Hle & Hor)%elem_of_candidates. split; [lia|done].
Qed.

(** ** Creating a node *)

Definition node_name_taken (user : Z) (name : string) (d : DB) : Prop :=
  (user, name) ∈ (fun n => (n_user n, n_name n)) <$> rows (nodes d).
Definition key_taken (key : string) (d : DB) : Prop := key ∈ n_key <$> rows (nodes d).
#[export] Instance node_name_taken_dec user name d : Decision (node_name_taken user name d).
Proof. unfold node_name_taken. apply _. Defined.
#[export] Instance key_taken_dec key d : Decision (key_taken key d).
Proof. unfold key_taken. apply _. Defined.
Definition at_cap (user cap : Z) (d : DB) : Prop := 0 < cap <= node_count user d.

Definition with_node (n : node_row) (d : DB) : DB := set_nodes (insert_row (fun _ => n) (nodes d)) d.

(** Inserting on an address that is free: the answer the caller sees. *)
Lemma insert_node_cases `{Sqlite} user name key ip now platform d :
  ip ∉ used_ips d -> user_exists d user = true ->
  let n := NodeRow (next_id (nodes d)) user name key ip now platform in
  (~ key_taken key d -> ~ node_name_taken user name d ->
     insert_node user name key ip now platform d = Ok (mkResult (n_id n) 1, with_node n d)) /\
  (key_taken key d \/ node_name_taken user name d -> exists c,
     insert_node user name key ip now platform d = Err (unique_msg c) /\
     (c = "nodes.wg_pubkey" /\ key_taken key d \/ c = "nodes.user_id, nodes.name" /\ node_name_taken user name d)).
Proof.
  intros Hip Hu n. unfold insert_node, checked_insert.
  rewrite (bool_decide_false (ip ∈ _)) by done. unfold violation, key_taken, node_name_taken. rewrite app_nil_l.
  split.
  - intros Hk Hn. rewrite !bool_decide_false by done. simpl. rewrite pick_nil, Hu. done.
  - intros Hor. repeat case_bool_decide; simpl; try tauto;
      (destruct (pick_violation _) as [c|] eqn:Hp; [|by apply pick_violation_some in Hp]);
      exists c; (split; [done|]); apply pick_violation_in in Hp; set_unfold in Hp; naive_solver.
Qed.

(** Its outcomes. *)
Lemma CreateNode_cases `{Sqlite} user name key platform first last cap d now rand :
  schema_ok d -> user_exists d user = true -> is_u32 first -> is_u32 last ->
  let s := Quiet d now rand in
  let out := CreateNode user name key platform first last cap s in
  (forall c, ~ free_in first last d c) /\ out = (Err ErrPoolExhausted, s) \/
  exists ip, free_in first last d ip /\ (forall c, free_in first last d c -> ip <= c) /\
    let n := NodeRow (next_id (nodes d)) user name key ip now platform in
    (at_cap user cap d /\ out = (Err ErrDeviceLimitReached, s) \/
     ~ at_cap user cap d /\
      (~ key_taken key d /\ ~ node_name_taken user name d /\ out = (Ok n, Quiet (with_node n d) now rand) \/
       key_taken key d /\ out = (Err ErrPubKeyTaken, s) \/
       node_name_taken user name d /\ out = (Err ErrNodeNameTaken, s))).
Proof.
  intros Hd Hu Hf Hl s out. unfold out, CreateNode, s.
  erewrite bind_ok by reflexivity. change maxAllocRetries with (S 99). generalize 99%nat as k. intros k.
  cbn [create_node]. unfold lowestFree. erewrite bind_ok by (erewrite bind_ok by reflexivity; reflexivity).
  cbn [s_db s_now]. destruct (min_list (free_candidates first last d)) as [ip|] eqn:Hmin; cbn [fmap option_fmap option_map].
  2: { left. split; [by apply lowest_none|done]. }
  apply lowest_some in Hmin as [[Hr Hfree] Hleast]. right. exists ip. split; [done|]. split; [done|].
  rewrite u32_id by (unfold is_u32 in *; lia). unfold insertNode.
  rewrite bind_try_exec. unfold insert_node_capped, at_cap.
  destruct ((0 <? cap) && negb (node_count user d <? cap)) eqn:Hcap.
  - left. split; [lia|]. simpl. rewrite andb_true_r. assert ((0 <? cap) = true) as -> by lia. done.
  - right. split; [lia|]. destruct (insert_node_cases user name key ip now platform d Hfree Hu) as [Hok Hbad].
    destruct (decide (key_taken key d \/ node_name_taken user name d)) as [Hor|Hnor].
    + destruct (Hbad Hor) as (c & -> & [[-> Hk]|[-> Hn]]); [right; left|right; right]; done.
    + left. rewrite Hok by tauto. simpl. rewrite andb_false_r, Uint32ToAddr_id by (unfold is_u32 in *; lia).
      split_and!; tauto.
Qed.

(** C38: creating a node, without driver failures and concurrent writers: an
    exhausted range yields [ErrPoolExhausted]; otherwise the address is the least
    free one of the range, a user at the cap is refused, a duplicate key or name is
    refused with an error that names a duplicate that exists, and else the node is
    appended with that address; a refused creation changes nothing. *)
Theorem CreateNode_spec `{Sqlite} user name key platform first last cap d now rand :
  schema_ok d -> user_exists d user = true -> is_u32 first -> is_u32 last ->
  let s := Quiet d now rand in
  let out := CreateNode user name key platform first last cap s in
  (forall c, ~ free_in first last d c) /\ out = (Err ErrPoolExhausted, s) \/
  exists ip, free_in first last d ip /\ (forall c, free_in first last d c -> ip <= c) /\
    let n := NodeRow (next_id (nodes d)) user name key ip now platform in
    (at_cap user cap d /\ out = (Err ErrDeviceLimitReached, s) \/
     ~ at_cap user cap d /\
      (~ key_taken key d /\ ~ node_name_taken user name d /\ out = (Ok n, Quiet (with_node n d) now rand) \/
       key_taken key d /\ out = (Err ErrPubKeyTaken, s) \/
       node_name_taken user name d /\ out = (Err ErrNodeNameTaken, s))).
Proof. apply CreateNode_cases. Qed.

Lemma CreateNode_spec_witness :
  fst (CreateNode 1 "n2" "k2" "linux" 9 20 0 (Quiet two_users 5 [])) = Ok (NodeRow 2 1 "n2" "k2" 10 5 "linux").
Proof.
  destruct (CreateNode_spec 1 "n2" "k2" "linux" 9 20 0 two_users 5 [] two_users_ok) as [[Hno _]|(ip & Hip & Hleast & H)];
    [reflexivity|unfold is_u32, W32; lia..| |].
  - exfalso. apply (Hno 10). split; [lia|]. vm_compute. intros Hin. inversion Hin as [|? ? ? H']; inversion H'.
  - assert (ip = 10) as ->.
    { assert (free_in 9 20 two_users 10) as H10%Hleast.
      { split; [lia|]. intros Hin%list_elem_of_singleton. discriminate. }
      destruct Hip as [Hr Hn]. assert (ip <> 9) by (intros ->; apply Hn; left). lia. }
    destruct H as [[Hc _]|[_ [(_ & _ & ->)|[[Hk _]|[Hk _]]]]]; [destruct Hc; lia|reflexivity| |];
      apply list_elem_of_singleton in Hk; discriminate.
Defined.

(** ** The startup listing of zones *)

Definition member_ips (z : Z) (d : DB) : list Addr :=
  filter (fun m => m_zone m = z) (zone_members d) ≫= fun m =>
  (fun n => u32 (n_ip n)) <$> filter (fun n => n_id n = m_node m) (rows (nodes d)).
Definition zone_states (d : DB) : list ZoneState :=
  (fun z => mkZoneState (z_id z) (member_ips (z_id z) d)) <$> rows (zones d).

Definition row_ips (l : list (Z * option Z)) : list Addr :=
  omap (fun r => (fun v => Uint32ToAddr (u32 v)) <$> r.2) l.

(** More rows of a zone already in the listing, at its end. *)
Lemma rebuild_more i l states idx z :
  Forall (fun r => r.1 = i) l -> idx !! i = Some (length states) -> zs_id z = i ->
  foldl rebuild_step (states ++ [z], idx) l = (states ++ [mkZoneState i (zs_ips z ++ row_ips l)], idx).
Proof.
  intros Hl Hidx. revert z. induction Hl as [|[j o] l Hj Hl IH]; intros z Hz; simpl.
  { rewrite app_nil_r. subst i. by destruct z. }
  simpl in Hj. subst j. rewrite Hidx. destruct o as [v|]; simpl; [|by apply IH].
  replace (length states) with (length states + 0)%nat by lia. rewrite alter_app_r.
  simpl. rewrite IH by done. simpl. by rewrite <- app_assoc.
Qed.
(** The rows of a zone not yet in the listing. *)
Lemma rebuild_zone i l states idx :
  l <> [] -> Forall (fun r => r.1 = i) l -> idx !! i = None ->
  foldl rebuild_step (states, idx) l =
    (states ++ [mkZoneState i (row_ips l)], <[i := length states]> idx).
Proof.
  intros Hne Hl Hidx. destruct Hl as [|[j o] l Hj Hl]; [done|]. simpl in Hj. subst j. simpl. rewrite Hidx.
  destruct o as [v|]; simpl.
  - replace (length states) with (length states + 0)%nat at 1 by lia. rewrite alter_app_r. simpl.
    rewrite (rebuild_more i l) by (done || by rewrite lookup_insert_eq). done.
  - by rewrite (rebuild_more i l) by (done || by rewrite lookup_insert_eq).
Qed.

Lemma row_ips_app l k : row_ips (l ++ k) = row_ips l ++ row_ips k.
Proof. apply omap_app. Qed.

Lemma join_rows i (ns : list node_row) :
  node_rows i ns <> [] /\ Forall (fun r => r.1 = i) (node_rows i ns) /\
  row_ips (node_rows i ns) = (fun n => u32 (n_ip n)) <$> ns.
Proof.
  destruct ns as [|n ns]; simpl; [by repeat constructor|]. split_and!; [done| |].
  - constructor; [done|]. apply Forall_fmap. by apply Forall_true.
  - rewrite Uint32ToAddr_col. f_equal. induction ns as [|m ns IH]; simpl; [done|]. by rewrite Uint32ToAddr_col, IH.
Qed.

Lemma zone_rows_spec d z :
  zone_rows d z <> [] /\ Forall (fun r => r.1 = z_id z) (zone_rows d z) /\
  row_ips (zone_rows d z) = member_ips (z_id z) d.
Proof.
  unfold zone_rows, member_ips. destruct (filter _ (zone_members d)) as [|m ms]; [by repeat constructor|].
  split_and!.
  - rewrite bind_cons. destruct (join_rows (z_id z) (filter (fun n => n_id n = m_node m) (rows (nodes d)))) as (Hne & _ & _).
    by intros [Hnil _]%app_nil.
  - generalize (m :: ms). intros l. induction l as [|m' l IH]; simpl; [done|].
    apply Forall_app. split; [|done]. apply join_rows.
  - generalize (m :: ms). intros l. induction l as [|m' l IH]; [done|].
    rewrite !bind_cons, row_ips_app, IH. f_equal. apply join_rows.
Qed.

Lemma rebuild_fold d zs states (idx : gmap Z nat) :
  NoDup (z_id <$> zs) -> (forall z, z ∈ zs -> idx !! z_id z = None) ->
  (foldl rebuild_step (states, idx) (zs ≫= zone_rows d)).1 =
    states ++ ((fun z => mkZoneState (z_id z) (member_ips (z_id z) d)) <$> zs).
Proof.
  revert states idx. induction zs as [|z zs IH]; intros states idx Hnd Hidx; simpl.
  { by rewrite app_nil_r. }
  apply NoDup_cons in Hnd as [Hz Hnd]. destruct (zone_rows_spec d z) as (Hne & Hall & Hips).
  rewrite foldl_app, (rebuild_zone (z_id z)) by (done || by apply Hidx; left).
  rewrite IH; [by rewrite <- app_assoc, Hips|done|].
  intros z' Hz'. rewrite lookup_insert_ne; [apply Hidx; by right|].
  intros Heq. apply Hz. rewrite Heq. by apply list_elem_of_fmap_2.
Qed.

(** [AllForRebuild] regroups the joined rows faithfully: it returns every zone
    once, in id order, empty zones included, with the addresses of exactly its
    member nodes in the order of their rows. *)
Theorem AllForRebuild_spec d now rand :
  schema_ok d -> AllForRebuild (Quiet d now rand) = (Ok (zone_states d), Quiet d now rand).
Proof.
  intros Hd. unfold AllForRebuild, query, driver, gets. cbn [s_faults s_db]. do 2 f_equal.
  apply (rebuild_fold d (rows (zones d)) [] ∅); [apply table_ok_uniq, ok_zones, Hd|done].
Qed.
Lemma AllForRebuild_spec_witness :
  fst (AllForRebuild (Quiet two_users 0 [])) = Ok [mkZoneState 1 [9]].
Proof. rewrite (AllForRebuild_spec two_users 0 [] two_users_ok). vm_compute. reflexivity. Defined.
