(* ===== verification/AnnounceProps.v ===== *)
(** * Properties of announcements: synthetic blocks, attachment and reclaim *)
From S2P Require Import Prelude GoStrings Netip Ipam Codec Db StoreInv StoreUsers StoreNodes StoreAnnounce StoreOps UsersProps CascadeProps.

#[local] Open Scope lw_scope.

(** ** Weakest preconditions of driver calls *)

(** Only the schedule of failures moved on. *)
Definition same (s s' : Store) : Prop := s_db s' = s_db s /\ s_now s' = s_now s /\ s_rand s' = s_rand s.

Lemma wp_query {A} (f : DB -> A) (Q : res serr A -> Store -> Prop) s :
  (forall e s', same s s' -> Q (Err e) s') -> (forall s', same s s' -> Q (Ok (f (s_db s))) s') -> wp (query f) Q s.
Proof.
  intros He Ho. unfold wp, query, driver, gets. destruct (s_faults s) as [|[] fs]; simpl;
    [by apply Ho|by apply He|]. by apply (Ho (mkStore (s_db s) fs (s_now s) (s_rand s))).
Qed.
Lemma wp_exec f (Q : res serr SqlResult -> Store -> Prop) s :
  (forall e s', same s s' -> Q (Err e) s') ->
  (forall r d s', f (s_db s) = Ok (r, d) -> s_db s' = d -> s_now s' = s_now s -> s_rand s' = s_rand s -> Q (Ok r) s') ->
  wp (exec f) Q s.
Proof.
  intros He Ho. unfold wp, exec, driver.
  destruct (s_faults s) as [|[] fs]; simpl; [|by apply He|];
    (destruct (f (s_db s)) as [[r d]|msg] eqn:Hf; simpl; [by eapply Ho|by apply He]).
Qed.

(** ** Synthetic blocks never overlap *)

Definition synth (a : ann_row) : Block := mkBlock (a_synth a) (a_len a).
Definition real (a : ann_row) : Block := mkBlock (a_real a) (a_len a).

(** Every announcement holds an aligned block of the pool that overlaps no other
    announcement's, and a node's real subnets do not overlap one another. *)
Record blocks_ok (pool : Prefix) (d : DB) : Prop := mkBlocksOk
  { bk_synth a : a ∈ rows (announcements d) -> sub_block pool (a_len a) (synth a);
    bk_real a : a ∈ rows (announcements d) -> block_ok (real a);
    bk_disjoint a b : a ∈ rows (announcements d) -> b ∈ rows (announcements d) -> a <> b ->
      Overlaps (synth a) (synth b) = false;
    bk_node a b : a ∈ rows (announcements d) -> b ∈ rows (announcements d) -> a <> b -> a_node a = a_node b ->
      Overlaps (real a) (real b) = false }.

Lemma blocks_ok_sub pool d d' :
  (forall a, a ∈ rows (announcements d') -> a ∈ rows (announcements d)) -> blocks_ok pool d -> blocks_ok pool d'.
Proof. intros Hsub []; constructor; intros; auto. Qed.

Lemma prim_anns `{Sqlite} f d r d' a :
  prim f -> f d = Ok (r, d') -> a ∈ rows (announcements d') -> a ∈ rows (announcements d).
Proof.
  destruct 1; unfold insert_node_capped, insert_zone_capped, insert_user, insert_invite, insert_node, insert_zone,
    insert_member, insert_attachment; repeat case_match; try done;
    first [intros (_ & _ & -> & _)%checked_insert_ok | intros [= _ <-]]; simpl; rewrite ?list_elem_of_filter; tauto.
Qed.

Lemma col_blocks pool d a :
  blocks_ok pool d -> a ∈ rows (announcements d) -> synth_block a = synth a /\ real_block a = real a.
Proof.
  intros Hb Ha. pose proof (bk_synth pool d Hb a Ha) as (Hok & _). pose proof (bk_real pool d Hb a Ha) as Hr.
  unfold synth_block, real_block, synth, real. destruct Hok as [Hs _], Hr as [Hr _]. simpl in *.
  by rewrite !u32_id.
Qed.

Lemma AllocateBlock_fits pool len used b : AllocateBlock (P4 pool) len used = Ok b -> Bits pool <= len <= 32.
Proof. cbn [AllocateBlock]. destruct (_ || _) eqn:Hb; [done|]. intros _. lia. Qed.

(** The block the allocator picks against the blocks in use. *)
Lemma alloc_blocks_ok pool d node realb blk now :
  prefix_ok pool -> block_ok realb -> Bits pool <= PrefixLen realb <= 32 -> blocks_ok pool d ->
  AllocateBlock (P4 pool) (PrefixLen realb) (synth_block <$> rows (announcements d)) = Ok blk ->
  existsb (Overlaps realb) (real_block <$> filter (fun a => a_node a = node) (rows (announcements d))) = false ->
  blocks_ok pool (set_anns (insert_row (fun id => AnnRow id node (Base realb) (PrefixLen realb) (Base blk) now)
                             (announcements d)) d).
Proof.
  intros Hp Hrb Hlen Hb Halloc Hreal.
  destruct (AllocateBlock_sound pool (PrefixLen realb) _ Hp Hlen blk Halloc) as (Hsub & Hfree & _).
  pose proof (proj1 (is_free_spec _ _) Hfree) as Hno. clear Hfree.
  assert (blk = mkBlock (Base blk) (PrefixLen realb)) as Hblk.
  { destruct Hsub as (_ & <- & _). by destruct blk. }
  set (new := AnnRow (next_id (announcements d)) node (Base realb) (PrefixLen realb) (Base blk) now).
  assert (Hin : forall a, a ∈ rows (announcements d) ++ [new] -> a ∈ rows (announcements d) \/ a = new).
  { intros a. rewrite elem_of_app, list_elem_of_singleton. done. }
  assert (Hns : forall a, a ∈ rows (announcements d) -> Overlaps (synth new) (synth a) = false).
  { intros a Ha. unfold synth at 1. simpl. rewrite <- Hblk. apply Hno.
    rewrite <- (proj1 (col_blocks pool d a Hb Ha)). by apply list_elem_of_fmap_2. }
  assert (Hnr : forall a, a ∈ rows (announcements d) -> a_node a = node -> Overlaps (real new) (real a) = false).
  { intros a Ha Hna. replace (real new) with realb by (by destruct realb).
    apply (proj1 (is_free_spec _ _) Hreal). rewrite <- (proj2 (col_blocks pool d a Hb Ha)).
    apply list_elem_of_fmap_2. by apply list_elem_of_filter. }
  destruct Hb as [Hs Hr Hd Hn]. constructor; simpl.
  - intros a [Ha| ->]%Hin; [by apply Hs|]. unfold synth. simpl. by rewrite <- Hblk.
  - intros a [Ha| ->]%Hin; [by apply Hr|]. by destruct realb.
  - intros a b [Ha| ->]%Hin [Hb| ->]%Hin Hne; [by apply Hd|rewrite Overlaps_sym; by apply Hns|by apply Hns|done].
  - intros a b [Ha| ->]%Hin [Hb| ->]%Hin Hne Heq; [by apply Hn|rewrite Overlaps_sym; by apply Hnr|by apply Hnr|done].
Qed.

(** The announcements made: from this pool. *)
Definition announce_ok (pool : Prefix) (user node : Z) (realb : Block) (zone limit : Z) (p : AnyPrefix) : Prop :=
  p = P4 pool /\ block_ok realb.

Lemma announce_keeps_blocks `{Sqlite} Q pool user node realb zone limit p :
  prefix_ok pool -> announce_ok pool user node realb zone limit p ->
  pres (inv (blocks_ok pool) Q) (CreateAnnouncement user node realb zone limit p).
Proof.
  intros Hp (-> & Hrb). apply inv_tx. intros s [Hb HQ].
  set (I := inv (blocks_ok pool) Q).
  match goal with |- _ (snd (?m s)) => change (wp m (fun _ s' => I s') s) end.
  assert (Hsame : forall s1 s2, I s1 -> same s1 s2 -> I s2).
  { intros s1 s2 [H1 H2] (Hd & _ & Hr). split; [by rewrite Hd|by rewrite Hr]. }
  apply wp_bind, wp_query; [intros e s1 Hs1; by eapply Hsame|]. intros s1 Hs1.
  assert (I s1) as H1 by (by eapply Hsame).
  destruct (negb _); [done|].
  apply wp_bind, wp_query; [intros e s2 Hs2; by eapply Hsame|]. intros s2 Hs2.
  assert (I s2) as H2 by (by eapply Hsame).
  destruct (first_row _ _) as [a|].
  { apply wp_bind, wp_exec; [intros e s3 Hs3; by eapply Hsame|]. intros r d s3 Hf Hd _ Hr. apply wp_ret.
    destruct H2 as [H2 HQ2]. split; [|by rewrite Hr]. rewrite Hd. eapply blocks_ok_sub; [|done].
    intros a'. apply (prim_anns _ _ _ _ _ (prim_attach true (a_id a) zone) Hf). }
  apply wp_bind, wp_query; [intros e s3 Hs3; by eapply Hsame|]. intros s3 Hs3.
  assert (I s3) as H3 by (by eapply Hsame). destruct (existsb _ _) eqn:Hreal; [done|].
  rewrite <- (proj1 Hs3) in Hreal.
  apply wp_bind. eapply wp_mono with (Q := fun r s4 => same s3 s4).
  { destruct (0 <? limit); [|by apply wp_ret]. apply wp_bind, wp_query; [done|]. intros s4 Hs4.
    destruct (limit <=? _); [by apply wp_throw|by apply wp_ret]. }
  intros [[]|e] s4 Hs4; [|by eapply Hsame]. assert (I s4) as H4 by (by eapply Hsame).
  rewrite <- (proj1 Hs4) in Hreal.
  apply wp_bind, wp_query; [intros e s5 Hs5; by eapply Hsame|]. intros s5 Hs5.
  assert (I s5) as H5 by (by eapply Hsame). rewrite <- (proj1 Hs5) in Hreal |- *.
  destruct (AllocateBlock _ _ _) as [blk|e] eqn:Halloc; [|done]. apply AllocateBlock_fits in Halloc as Hlen.
  apply wp_bind. change (wp now_seconds ?Q s5) with (Q (Ok (s_now s5)) s5). cbv beta.
  destruct H5 as [H5 HQ5]. apply wp_bind, wp_exec.
  { intros e s6 Hs6. by eapply (Hsame s5). }
  intros r d s6 Hins Hd6 _ Hr6.
  unfold insert_ann in Hins. apply checked_insert_ok in Hins as (_ & _ & -> & ->).
  assert (I s6) as H6.
  { split; [|by rewrite Hr6]. rewrite Hd6. by apply alloc_blocks_ok. }
  apply wp_bind, wp_exec; [intros e s7 Hs7; by eapply Hsame|]. intros r d s7 Hf Hd _ Hr. apply wp_ret.
  destruct H6 as [H6 HQ6]. split; [|by rewrite Hr]. rewrite Hd. eapply blocks_ok_sub; [|done].
  intros a'. eapply (prim_anns _ _ _ _ _ (prim_attach false _ zone) Hf).
Qed.

Lemma empty_blocks_ok pool : blocks_ok pool empty_db.
Proof. constructor; intros; exfalso; match goal with Ha : ?a ∈ rows _ |- _ => by apply (not_elem_of_nil a) end. Qed.

Lemma run_blocks `{Sqlite} pool ops s :
  prefix_ok pool -> Forall (op_ok (fun _ => True) (announce_ok pool)) ops -> blocks_ok pool (s_db s) -> blocks_ok pool (s_db (run_ops ops s)).
Proof.
  intros Hp Hops Hb.
  assert (inv (blocks_ok pool) (fun _ => True) (run_ops ops s)) as [? _]; [|done].
  eapply run_ops_any; [| | |exact Hops|].
  - intros f d r d' Hf Hd. apply blocks_ok_sub. intros a. by eapply prim_anns.
  - unfold insert_refresh. intros b user expires t d r d' _ (_ & _ & -> & _)%checked_insert_ok. by apply blocks_ok_sub.
  - intros user node realb zone limit p Hok. by apply announce_keeps_blocks.
  - split; [done|by apply Forall_true].
Qed.
Lemma run_blocks_ok `{Sqlite} pool ops now faults rand :
  prefix_ok pool -> Forall (op_ok (fun _ => True) (announce_ok pool)) ops ->
  blocks_ok pool (s_db (run_ops ops (mkStore empty_db faults now rand))).
Proof. intros Hp Hops. by apply run_blocks, empty_blocks_ok. Qed.

(** Whatever the server does with its database, whatever fails and however the
    clock moves, as long as announcements are made from one pool: every announced
    synthetic block is an aligned block of the pool, no two announcements hold
    overlapping synthetic blocks, and no node announces two overlapping subnets. *)
Theorem synthetic_blocks_disjoint `{Sqlite} pool ops now faults rand :
  prefix_ok pool -> Forall (op_ok (fun _ => True) (announce_ok pool)) ops ->
  blocks_ok pool (s_db (run_ops ops (mkStore empty_db faults now rand))).
Proof. apply run_blocks_ok. Qed.

Definition demo_pool : Prefix := PrefixFrom 1681915904 16.
Definition demo_ops : list repo_op :=
  [OpCreateAdmin "a" "h"; OpCreateNode 1 "n" "k" "openwrt" 2 9 0; OpCreateZone 1 "z" "h" 0; OpJoin 1 1;
   OpAnnounce 1 1 (mkBlock 3232235776 24) 1 0 (P4 demo_pool)].
Definition demo_db : DB := s_db (run_ops demo_ops (mkStore empty_db [] 0 [])).
Lemma demo_pool_ok : prefix_ok demo_pool.
Proof. split; [unfold is_u32, W32; simpl; lia|simpl; lia]. Qed.
Lemma demo_ops_ok : Forall (op_ok (fun _ => True) (announce_ok demo_pool)) demo_ops.
Proof. repeat constructor; simpl; try lia; unfold is_u32, W32; simpl; lia. Qed.
Lemma demo_db_ok : schema_ok demo_db.
Proof. apply (run_ops_schema demo_ops (mkStore empty_db [] 0 [])), empty_db_ok. Qed.
Lemma demo_blocks_ok : blocks_ok demo_pool demo_db.
Proof. apply run_blocks_ok; [apply demo_pool_ok|apply demo_ops_ok]. Qed.

Lemma synthetic_blocks_disjoint_witness :
  blocks_ok demo_pool (s_db (run_ops demo_ops (mkStore empty_db [] 0 []))).
Proof. apply synthetic_blocks_disjoint; [apply demo_pool_ok|apply demo_ops_ok]. Defined.

(** ** Announcing *)

Definition own_overlap (node : Z) (realb : Block) (d : DB) : Prop :=
  exists a, a ∈ rows (announcements d) /\ a_node a = node /\ Overlaps realb (real a) = true.
Definition used_blocks (d : DB) : list Block := synth <$> rows (announcements d).
Definition attach (ann zone : Z) (d : DB) : DB :=
  if decide ((ann, zone) ∈ (fun az => (az_ann az, az_zone az)) <$> announcement_zones d) then d
  else set_attachments (announcement_zones d ++ [AttachRow ann zone]) d.
Definition with_ann (a : ann_row) (d : DB) : DB := set_anns (insert_row (fun _ => a) (announcements d)) d.

Lemma used_blocks_col pool d :
  blocks_ok pool d -> synth_block <$> rows (announcements d) = used_blocks d.
Proof.
  intros Hb. apply list_fmap_ext. intros k a Ha%list_elem_of_lookup_2.
  exact (proj1 (col_blocks pool d a Hb Ha)).
Qed.

Lemma own_overlap_col pool node realb d :
  blocks_ok pool d ->
  existsb (Overlaps realb) (real_block <$> filter (fun a => a_node a = node) (rows (announcements d))) = true <->
  own_overlap node realb d.
Proof.
  intros Hb. rewrite existsb_exists. setoid_rewrite <- list_elem_of_In. setoid_rewrite list_elem_of_fmap. split.
  - intros (b & (a & -> & [Hn Ha]%list_elem_of_filter) & Ho). exists a.
    by rewrite <- (proj2 (col_blocks pool d a Hb Ha)).
  - intros (a & Ha & Hn & Ho). exists (real a). split; [|done]. exists a.
    rewrite (proj2 (col_blocks pool d a Hb Ha)). split; [done|]. by apply list_elem_of_filter.
Qed.

Lemma member_exists zone node d :
  schema_ok d -> is_member zone node d = true -> zone_exists d zone = true /\ node_exists d node = true.
Proof.
  intros Hd Hm. unfold is_member in Hm. apply bool_decide_eq_true in Hm.
  apply list_elem_of_fmap in Hm as (m & [= -> ->] & Hm).
  unfold zone_exists, node_exists. rewrite !bool_decide_eq_true.
  split; [by apply (fk_member_zone d Hd)|by apply (fk_member_node d Hd)].
Qed.

Lemma attach_ok ignore ann zone d :
  ann_exists d ann = true -> zone_exists d zone = true ->
  (ann, zone) ∉ (fun az => (az_ann az, az_zone az)) <$> announcement_zones d ->
  insert_attachment ignore ann zone d =
    Ok (mkResult 0 1, set_attachments (announcement_zones d ++ [AttachRow ann zone]) d).
Proof. intros Ha Hz Hn. unfold insert_attachment. rewrite bool_decide_false by done. by rewrite Ha, Hz. Qed.

(** Inserting the row of a new announcement cannot clash. *)
Lemma insert_new_ann `{Sqlite} pool d node realb blk now :
  schema_ok d -> blocks_ok pool d -> node_exists d node = true -> PrefixLen blk = PrefixLen realb ->
  PrefixLen blk <= 32 -> is_free (used_blocks d) blk ->
  (forall a, a ∈ rows (announcements d) -> ~ same_announcement node realb a) ->
  let a := AnnRow (next_id (announcements d)) node (Base realb) (PrefixLen realb) (Base blk) now in
  insert_ann node (Base realb) (PrefixLen realb) (Base blk) now d =
    Ok (mkResult (next_id (announcements d)) 1, with_ann a d).
Proof.
  intros Hd Hb Hn Hlen Hle Hfree Hnew a. unfold insert_ann. rewrite !bool_decide_false.
  - unfold violation. simpl. by rewrite checked_insert_free.
  - intros (a' & [= Hs Hl] & Ha')%list_elem_of_fmap.
    pose proof (proj1 (is_free_spec _ _) Hfree (synth a') (list_elem_of_fmap_2 _ _ _ Ha')) as Hno.
    assert (synth a' = blk) as Heq by (unfold synth; rewrite <- Hs, <- Hl, <- Hlen; by destruct blk).
    rewrite Heq, Overlaps_refl in Hno; done.
  - intros (a' & [= H1 H2 H3] & Ha')%list_elem_of_fmap. by apply (Hnew a' Ha').
Qed.

Section Announcing.
  Context `{Sqlite} (pool : Prefix) (user node zone limit : Z) (realb : Block) (d : DB) (now : Z) (rand : list (list Z)).
  Context (Hd : schema_ok d) (Hb : blocks_ok pool d) (Hp : prefix_ok pool) (Hrb : block_ok realb)
    (Hlen : Bits pool <= PrefixLen realb <= 32).
Let s := Quiet d now rand.
Let out := CreateAnnouncement user node realb zone limit (P4 pool) s.

Lemma announce_not_member : is_member zone node d = false -> out = (Err ErrNotMember, s).
  Proof. intros Hm. eapply tx_quiet_err. rewrite bind_query, Hm. reflexivity. Qed.

Lemma announce_existing a :
    is_member zone node d = true -> a ∈ rows (announcements d) -> same_announcement node realb a ->
    out = (Ok (ann_of_row a, bool_decide ((a_id a, zone) ∉ (fun az => (az_ann az, az_zone az)) <$> announcement_zones d)),
           Quiet (attach (a_id a) zone d) now rand).
  Proof.
    intros Hm Ha Hsame. apply tx_quiet. rewrite bind_query, Hm. cbn [negb].
    rewrite bind_query. rewrite (first_row_unique _ _ a); [| |done..].
    2: { intros b Hbin (H1 & H2 & H3). destruct Hsame as (G1 & G2 & G3).
         apply (uniq_inj _ _ b a (uq_real d Hd)); [done..|]. congruence. }
    rewrite bind_exec.
    assert (announcementFromRow (a_id a) node realb (u32 (a_synth a)) (a_created a) = ann_of_row a) as ->.
    { unfold ann_of_row. rewrite (proj2 (col_blocks pool d a Hb Ha)). destruct Hsame as (<- & H1 & H2).
      unfold announcementFromRow, real. rewrite H1, H2. by destruct realb. }
    unfold attach. case_decide as Hin.
    - rewrite bool_decide_false by tauto. unfold insert_attachment. rewrite bool_decide_true by done. done.
    - rewrite bool_decide_true by done. destruct (member_exists _ _ _ Hd Hm) as [Hz _].
      rewrite (attach_ok true _ _ d) by (try done; unfold ann_exists; rewrite bool_decide_eq_true; by apply list_elem_of_fmap_2).
      reflexivity.
  Qed.

  Context (Hm : is_member zone node d = true)
    (Hnew : forall a, a ∈ rows (announcements d) -> ~ same_announcement node realb a).

Lemma announce_new_unfold :
    out = tx (if existsb (Overlaps realb) (real_block <$> filter (fun a => a_node a = node) (rows (announcements d)))
              then throw ErrSubnetOverlap else
              do! (if 0 <? limit
                   then let! count := query (user_ann_count user) in
                        if limit <=? count then throw ErrAnnounceLimit else ret tt
                   else ret tt) in
              let! used := query (fun d => synth_block <$> rows (announcements d)) in
              match AllocateBlock (P4 pool) (PrefixLen realb) used with
              | Err e => throw (alloc_err e)
              | Ok synthetic =>
                  let! now := now_seconds in
                  let! res := exec (insert_ann node (Base realb) (PrefixLen realb) (Base synthetic) now) in
                  let annID := LastInsertId res in
                  do! exec (insert_attachment false annID zone) in
                  ret (announcementFromRow annID node realb (Base synthetic) now, true)
              end) s.
  Proof.
    unfold out, CreateAnnouncement, tx. cbn [driver s_faults s ret]. unfold s.
    rewrite bind_query, Hm. cbn [negb]. rewrite bind_query.
    rewrite (proj2 (first_row_none _ _)) by done. by rewrite bind_query.
  Qed.

Lemma announce_overlap : own_overlap node realb d -> out = (Err ErrSubnetOverlap, s).
  Proof.
    intros Ho. rewrite announce_new_unfold. eapply tx_quiet_err.
    rewrite (proj2 (own_overlap_col pool node realb d Hb)) by done. reflexivity.
  Qed.

  Context (Hno : ~ own_overlap node realb d).

Lemma not_overlapping :
    existsb (Overlaps realb) (real_block <$> filter (fun a => a_node a = node) (rows (announcements d))) = false.
  Proof. apply not_true_iff_false. by rewrite own_overlap_col. Qed.

Lemma announce_limit : 0 < limit <= user_ann_count user d -> out = (Err ErrAnnounceLimit, s).
  Proof.
    intros Hl. rewrite announce_new_unfold, not_overlapping. eapply tx_quiet_err. apply bind_err.
    assert ((0 <? limit) = true) as -> by lia. rewrite bind_query.
    assert ((limit <=? user_ann_count user d) = true) as -> by lia. reflexivity.
  Qed.

  Context (Hquota : ~ (0 < limit <= user_ann_count user d)).

Lemma announce_alloc :
    out = tx (match AllocateBlock (P4 pool) (PrefixLen realb) (used_blocks d) with
              | Err e => throw (alloc_err e)
              | Ok synthetic =>
                  let! now := now_seconds in
                  let! res := exec (insert_ann node (Base realb) (PrefixLen realb) (Base synthetic) now) in
                  let annID := LastInsertId res in
                  do! exec (insert_attachment false annID zone) in
                  ret (announcementFromRow annID node realb (Base synthetic) now, true)
              end) s.
  Proof.
    rewrite announce_new_unfold, not_overlapping. unfold tx. cbn [driver s_faults s ret]. unfold s.
    erewrite bind_ok.
    2: { destruct (0 <? limit) eqn:Hl; [|reflexivity]. rewrite bind_query.
         assert ((limit <=? user_ann_count user d) = false) as -> by lia. reflexivity. }
    by rewrite bind_query, (used_blocks_col pool) by done.
  Qed.

Lemma announce_exhausted :
    (forall b, sub_block pool (PrefixLen realb) b -> ~ is_free (used_blocks d) b) ->
    out = (Err ErrSyntheticPoolExhausted, s).
  Proof.
    intros Hfull. rewrite announce_alloc. eapply tx_quiet_err.
    destruct (AllocateBlock_total pool (PrefixLen realb) (used_blocks d) Hp Hlen) as [[b Hok]| ->]; [|reflexivity].
    destruct (AllocateBlock_sound pool _ _ Hp Hlen b Hok) as (Hs & Hf & _). by destruct (Hfull b).
  Qed.

Lemma announce_fresh b :
    sub_block pool (PrefixLen realb) b -> is_free (used_blocks d) b ->
    exists blk, sub_block pool (PrefixLen realb) blk /\ is_free (used_blocks d) blk /\
      (forall b', sub_block pool (PrefixLen realb) b' -> Base b' < Base blk -> ~ is_free (used_blocks d) b') /\
      let a := AnnRow (next_id (announcements d)) node (Base realb) (PrefixLen realb) (Base blk) now in
      out = (Ok (mkAnn (a_id a) node realb blk now "" "", true),
             Quiet (attach (a_id a) zone (with_ann a d)) now rand).
  Proof.
    intros Hs Hf. rewrite announce_alloc.
    destruct (AllocateBlock_total pool (PrefixLen realb) (used_blocks d) Hp Hlen) as [[blk Hok]|Hfull].
    2: { by destruct (AllocateBlock_full pool _ _ Hp Hlen Hfull b). }
    exists blk. pose proof (AllocateBlock_sound pool _ _ Hp Hlen blk Hok) as (Hsub & Hfree & Hleast).
    split_and!; [done..|]. cbv zeta. apply tx_quiet. rewrite Hok.
    destruct (member_exists _ _ _ Hd Hm) as [Hz Hnode]. pose proof Hsub as (Hblk & Hl & _).
    unfold s. rewrite bind_now, bind_exec, (insert_new_ann pool) by (try done; destruct Hblk; lia).
    cbn [LastInsertId]. rewrite bind_exec.
    set (a := AnnRow _ _ _ _ _ _).
    assert ((a_id a, zone) ∉ (fun az => (az_ann az, az_zone az)) <$> announcement_zones (with_ann a d)) as Hfr.
    { intros (az & [= Heq _] & Haz)%list_elem_of_fmap. apply (fk_attach_ann d Hd) in Haz as (a' & Heq' & Ha')%list_elem_of_fmap.
      eapply (table_ok_next a_id); [apply (ok_anns d Hd)|exact Ha'|]. rewrite <- Heq', <- Heq. done. }
    rewrite attach_ok; [|unfold ann_exists; rewrite bool_decide_eq_true; simpl; rewrite fmap_app; apply elem_of_app; right; left
      |done|done].
    unfold attach. rewrite decide_False by done. unfold ret, announcementFromRow. do 4 f_equal. by destruct blk; simpl in *; subst.
  Qed.
End Announcing.

(** C37: announcing a subnet into a zone, without driver failures. A node that is
    not a member of the zone is refused. A subnet the node already announces keeps
    its synthetic block and is only attached, once. Otherwise a subnet that overlaps
    another of the node's, a user at the quota and a pool without a free block of
    that size are refused with their own errors, in that order; and else the
    announcement gets the lowest free block and its first attachment. Refusals
    change nothing. *)
Theorem CreateAnnouncement_spec `{Sqlite} pool user node zone limit realb d now rand :
  schema_ok d -> blocks_ok pool d -> prefix_ok pool -> block_ok realb -> Bits pool <= PrefixLen realb <= 32 ->
  let s := Quiet d now rand in
  let out := CreateAnnouncement user node realb zone limit (P4 pool) s in
  let free b := sub_block pool (PrefixLen realb) b /\ is_free (used_blocks d) b in
  (is_member zone node d = false -> out = (Err ErrNotMember, s)) /\
  (is_member zone node d = true ->
    (forall a, a ∈ rows (announcements d) -> same_announcement node realb a ->
      out = (Ok (ann_of_row a,
                 bool_decide ((a_id a, zone) ∉ (fun az => (az_ann az, az_zone az)) <$> announcement_zones d)),
             Quiet (attach (a_id a) zone d) now rand)) /\
    ((forall a, a ∈ rows (announcements d) -> ~ same_announcement node realb a) ->
      (own_overlap node realb d -> out = (Err ErrSubnetOverlap, s)) /\
      (~ own_overlap node realb d -> 0 < limit <= user_ann_count user d -> out = (Err ErrAnnounceLimit, s)) /\
      (~ own_overlap node realb d -> ~ (0 < limit <= user_ann_count user d) ->
        (forall b, ~ free b) -> out = (Err ErrSyntheticPoolExhausted, s)) /\
      (forall b, ~ own_overlap node realb d -> ~ (0 < limit <= user_ann_count user d) -> free b ->
        exists blk, free blk /\ (forall b', free b' -> Base blk <= Base b') /\
          let a := AnnRow (next_id (announcements d)) node (Base realb) (PrefixLen realb) (Base blk) now in
          out = (Ok (mkAnn (a_id a) node realb blk now "" "", true),
                 Quiet (attach (a_id a) zone (with_ann a d)) now rand)))).
Proof.
  intros Hd Hb Hp Hrb Hlen s out free. split; [by apply announce_not_member|]. intros Hm. split.
  { intros a. by apply announce_existing with (pool := pool). }
  intros Hnew. split_and!.
  - by apply announce_overlap.
  - by apply announce_limit.
  - intros Hno Hq Hfull. apply announce_exhausted; try done. intros b Hs Hf. by apply (Hfull b).
  - intros b Hno Hq [Hs Hf].
    destruct (announce_fresh pool user node zone limit realb d now rand Hd Hb Hp Hlen Hm Hnew Hno Hq b Hs Hf)
      as (blk & H1 & H2 & H3 & H4).
    exists blk. split; [done|]. split; [|done]. intros b' [Hs' Hf'].
    destruct (Z.lt_ge_cases (Base b') (Base blk)) as [Hlt|]; [|done]. by destruct (H3 b' Hs' Hlt).
Qed.

Lemma CreateAnnouncement_spec_witness :
  fst (CreateAnnouncement 1 1 (mkBlock 3232235776 24) 1 0 (P4 demo_pool) (Quiet demo_db 7 [])) =
    Ok (mkAnn 1 1 (mkBlock 3232235776 24) (mkBlock 1681915904 24) 0 "" "", false).
Proof.
  destruct (CreateAnnouncement_spec demo_pool 1 1 1 0 (mkBlock 3232235776 24) demo_db 7 [] demo_db_ok demo_blocks_ok
    demo_pool_ok) as [_ Hm].
  - repeat split; vm_compute; congruence.
  - simpl; lia.
  - destruct (Hm eq_refl) as [Hex _].
    rewrite (Hex (AnnRow 1 1 3232235776 24 1681915904 0)); [vm_compute; reflexivity|left|repeat split; reflexivity].
Defined.

(** ** Detaching *)

Lemma tx_bind_query {A B} (f : DB -> A) (k : A -> SM B) d now rand :
  tx (bind (query f) k) (Quiet d now rand) = tx (k (f d)) (Quiet d now rand).
Proof. reflexivity. Qed.

Lemma reclaim_quiet ann d now rand :
  reclaimIfOrphaned ann (Quiet d now rand) =
    if decide (ann ∈ az_ann <$> announcement_zones d) then (Ok false, Quiet d now rand)
    else (Ok true, Quiet (delete_anns (fun a => a_id a = ann) d) now rand).
Proof.
  unfold reclaimIfOrphaned. rewrite bind_query. case_decide as Hin.
  - apply list_elem_of_fmap in Hin as (az & -> & Haz). unfold attachment_count.
    pose proof (count_where_pos (fun az' => az_ann az' = az_ann az) _ az Haz eq_refl).
    by assert ((0 <? count_where (fun az' => az_ann az' = az_ann az) (announcement_zones d)) = true) as -> by lia.
  - unfold attachment_count. rewrite (proj2 (count_where_zero _ _)); [reflexivity|].
    intros az Haz <-. apply Hin. by apply list_elem_of_fmap_2.
Qed.

(** What detaching announcement [a] from a zone leaves. *)
Record detached (a : ann_row) (zone : Z) (d d' : DB) (reclaimed : bool) : Prop := mkDetachedTo
  { dt_flag : reclaimed = bool_decide (a_id a ∉ az_ann <$> announcement_zones d');
    dt_attach az : az ∈ announcement_zones d' <-> az ∈ announcement_zones d /\ az <> AttachRow (a_id a) zone;
    dt_anns b : b ∈ rows (announcements d') <-> b ∈ rows (announcements d) /\ (reclaimed = true -> b <> a);
    dt_users : users d' = users d;
    dt_nodes : nodes d' = nodes d;
    dt_zones : zones d' = zones d;
    dt_members : zone_members d' = zone_members d }.

Lemma attach_neq az ann zone : az <> AttachRow ann zone <-> ~ (az_ann az = ann /\ az_zone az = zone).
Proof. destruct az as [x y]; simpl. split; intros H; [intros [-> ->]|intros [= -> ->]]; by apply H. Qed.

Lemma attached_count_pos ann zone d :
  AttachRow ann zone ∈ announcement_zones d <->
  (count_where (fun az => az_ann az = ann /\ az_zone az = zone) (announcement_zones d) =? 0) = false.
Proof.
  rewrite Z.eqb_neq, count_where_zero. split.
  - intros Hin Hno. by apply (Hno _ Hin).
  - intros Hnot. destruct (decide (AttachRow ann zone ∈ announcement_zones d)) as [|Hn]; [done|]. exfalso. apply Hnot.
    intros [x y] Hin [Hx Hy]; simpl in *; subst. done.
Qed.

(** [Detach] on an announcement that does not exist, or is not attached to the
    zone, answers [ErrAnnouncementNotFound] and changes nothing; otherwise it removes
    that one attachment, and reclaims the announcement, saying so, exactly when no
    attachment of it is left. *)
Theorem Detach_spec zone ann d now rand :
  schema_ok d ->
  ((AttachRow ann zone ∉ announcement_zones d) ->
     Detach zone ann (Quiet d now rand) = (Err ErrAnnouncementNotFound, Quiet d now rand)) /\
  ((AttachRow ann zone ∈ announcement_zones d) -> exists a reclaimed d',
     a ∈ rows (announcements d) /\ a_id a = ann /\
     Detach zone ann (Quiet d now rand) = (Ok (ann_of_row a, reclaimed), Quiet d' now rand) /\
     detached a zone d d' reclaimed).
Proof.
  intros Hd. unfold Detach, getAnnouncementTx. split.
  - intros Hno. destruct (ann_by_id d ann) as [a|] eqn:Ha; eapply tx_quiet_err.
    + erewrite bind_ok by (rewrite bind_query, Ha; reflexivity). rewrite bind_exec. cbn [DELETE_attachments RowsAffected].
      rewrite attached_count_pos in Hno. apply not_false_iff_true in Hno. by rewrite Hno.
    + apply bind_err. rewrite bind_query, Ha. reflexivity.
  - intros Hin. pose proof (fk_attach_ann d Hd _ Hin) as (a & Heq & Ha)%list_elem_of_fmap. simpl in Heq. subst ann.
    assert (ann_by_id d (a_id a) = Some a) as Hfirst by (by apply (by_id_iff a_id _ _ _ (ok_anns d Hd))).
    set (d1 := set_attachments (filter (fun az => ~ (az_ann az = a_id a /\ az_zone az = zone)) (announcement_zones d)) d).
    assert (Hd1 : forall az, az ∈ announcement_zones d1 <-> az ∈ announcement_zones d /\ az <> AttachRow (a_id a) zone).
    { intros az. unfold d1. simpl. rewrite list_elem_of_filter, attach_neq. tauto. }
    set (d' := if decide (a_id a ∈ az_ann <$> announcement_zones d1) then d1 else delete_ann_ids [a_id a] d1).
    exists a, (bool_decide (a_id a ∉ az_ann <$> announcement_zones d1)), d'.
    split_and!; [done|done| |].
    { apply tx_quiet. erewrite bind_ok by (rewrite bind_query, Hfirst; reflexivity). rewrite bind_exec.
      cbn [DELETE_attachments RowsAffected]. rewrite (proj1 (attached_count_pos _ _ _)) by done. fold d1.
      unfold bind. rewrite reclaim_quiet. unfold d'. case_decide as Hleft.
      - by rewrite bool_decide_false by tauto.
      - by rewrite bool_decide_true. }
    unfold d'. case_decide as Hleft.
    { rewrite bool_decide_false by tauto. constructor; try done.
      - by rewrite bool_decide_false by tauto.
      - intros b. unfold d1. simpl. naive_solver. }
    rewrite bool_decide_true by done.
    destruct (delete_ann_ids_spec [a_id a] d1) as (H1 & H2 & H3 & H4 & H5 & H6).
    { intros az Haz Heq%list_elem_of_singleton. apply Hleft. rewrite <- Heq. by apply list_elem_of_fmap_2. }
    constructor; rewrite ?H1, ?H2, ?H3, ?H4, ?H5; try done.
    + by rewrite bool_decide_true.
    + intros b. rewrite H6, list_elem_of_singleton. unfold d1. simpl. split.
      * intros [Hb Hne]. split; [done|]. by intros _ ->.
      * intros [Hb Hne]. split; [done|]. intros Heq. apply (Hne eq_refl).
        by apply (uniq_inj a_id (rows (announcements d))); [apply table_ok_uniq, ok_anns| | |].
Qed.

Lemma Detach_spec_witness :
  fst (Detach 1 1 (Quiet demo_db 0 [])) =
    Ok (mkAnn 1 1 (mkBlock 3232235776 24) (mkBlock 1681915904 24) 0 "" "", true).
Proof.
  destruct (proj2 (Detach_spec 1 1 demo_db 0 [] demo_db_ok)) as (a & r & d' & Ha & Hid & -> & Hdet).
  - left.
  - apply list_elem_of_singleton in Ha as ->. destruct Hdet as [-> Hatt _ _ _ _ _].
    rewrite bool_decide_true; [vm_compute; reflexivity|].
    intros (az & Heq & [Haz Hne]%Hatt)%list_elem_of_fmap. apply list_elem_of_singleton in Haz as ->.
    apply Hne. reflexivity.
Defined.
