(* ===== verification/Wg.v ===== *)
(** * The WireGuard interface ([internal/server/wg], [internal/server/status])

    The server's key file, the interface set-up, peer configuration and the
    online-status tracker. [wgctrl], [wgtypes], [netlink] and the kernel device
    are parameters: operations on an opaque device state, with the laws of the
    WireGuard configuration protocol as a second class. *)
From S2P Require Import Prelude GoStrings Netip Ipam.
From Stdlib Require Import Ascii.

#[local] Open Scope lw_scope.

(** ** addr.go *)

Inductive addr_err : Type := EParsePool | EPoolNotIPv4 | EPoolTooSmall | ENoHost.

Definition FirstUsableAddress `{NetipV6} (cidr : string) : res addr_err (Addr * Z) :=
  match ParsePrefix cidr with
  | None => Err EParsePool
  | Some (P6 _ _) => Err EPoolNotIPv4
  | Some (P4 prefix) =>
      let bits := Bits prefix in
      if 30 <? bits then Err EPoolTooSmall else
      let first := u32 (Addr_of (Masked prefix) + 1) in
      if negb (Contains prefix first) then Err ENoHost else Ok (first, bits)
  end.

(** ** [wgtypes] and the device *)

Abbreviation Key := (list Z).

(** [wgtypes.Key]: parsing, printing, key generation from random bytes, and the
    public key of a private one. *)
Class WgTypes : Type :=
  { ParseKey : string -> option Key;
    KeyString : Key -> string;
    GeneratePrivateKey : list Z -> Key;
    PublicKeyOf : Key -> Key }.
(** [String] prints base64, which [ParseKey] reads back. *)
Class WgTypesLaws `{WgTypes} : Type :=
  { ParseKey_String bs : ParseKey (KeyString (GeneratePrivateKey bs)) = Some (GeneratePrivateKey bs);
    KeyString_graphic bs : chars graphic (KeyString (GeneratePrivateKey bs)) = true }.

(** [wgtypes.PeerConfig] and [wgtypes.Config]: the fields the repository sets. *)
Record WPeer : Type := mkWPeer
  { pc_key : Key; pc_remove : bool; ReplaceAllowedIPs : bool; AllowedIPs : list Prefix }.
Record WConfig : Type := mkWConfig
  { wc_private : option Key; wc_port : option Z; wc_replace : bool; wc_peers : list WPeer }.

(** The device: its key and port, and each peer's allowed IPs. *)
Record WgDevice : Type := mkDevice
  { wd_private : option Key; wd_port : Z; wd_peers : gmap Key (gset Prefix) }.

(** One peer section. An allowed IP belongs to one peer: adding it takes it away
    from the peer that had it. *)
Definition apply_peer (peers : gmap Key (gset Prefix)) (c : WPeer) : gmap Key (gset Prefix) :=
  if pc_remove c then delete (pc_key c) peers else
  let ips := list_to_set (AllowedIPs c) : gset Prefix in
  let old := if ReplaceAllowedIPs c then ∅ else default ∅ (peers !! pc_key c) in
  <[pc_key c := old ∪ ips]> ((fun s => s ∖ ips) <$> peers).

Definition apply_config (c : WConfig) (dev : WgDevice) : WgDevice :=
  mkDevice (match wc_private c with Some k => Some k | None => wd_private dev end)
           (default (wd_port dev) (wc_port c))
           (foldl apply_peer (if wc_replace c then ∅ else wd_peers dev) (wc_peers c)).

(** [time.Time] with its zero value as [None]; nanoseconds since the epoch. *)
Abbreviation GoTime := (option Z).

Inductive nl_err : Type := LinkNotFound | ENetlink.

(** [netlink] and [wgctrl] calls on one host, by interface name. *)
Class WgHost (D : Type) : Type :=
  { LinkByName : string -> M nl_err D string;            (** the link's type *)
    LinkAdd_Wireguard : string -> M nl_err D unit;
    LinkSetMTU : string -> Z -> M nl_err D unit;
    AddrReplace : string -> Prefix -> M nl_err D unit;
    LinkSetUp : string -> M nl_err D unit;
    RouteReplace : string -> Prefix -> M nl_err D unit;
    wgctrl_New : M nl_err D unit;
    ConfigureDevice : string -> WConfig -> M nl_err D unit;
    Device_Peers : string -> M nl_err D (list (Key * GoTime)) }.

(** What a successful configuration does to the device. Nothing is assumed of the
    device after a failed one. *)
Class WgHostLaws (D : Type) `{WgHost D} : Type :=
  { wg_view : D -> string -> WgDevice;
    configure_ok name c h h' : ConfigureDevice name c h = (Ok tt, h') ->
      wg_view h' name = apply_config c (wg_view h name) }.

Record WgConfig : Type := mkWgCfg { cfg_Interface : string; cfg_Network : string; cfg_ListenPort : Z; cfg_MTU : Z }.

(** [Server]: the interface name and the public key. *)
Record Server : Type := mkServer { srv_name : string; srv_pub : Key }.

(** [wg.PeerConfig]. *)
Record PeerConfig : Type := mkPeer { peer_PublicKey : string; peer_IP : Addr; peer_Routes : list Prefix }.

Inductive wg_err : Type := EAddr (e : addr_err) | EConflict | EHost (e : nl_err) | EParseKey.

(** ** iface.go *)

Definition peerConfig `{WgTypes} (publicKey : string) (ip : Addr) (routes : list Prefix) : res wg_err WPeer :=
  match ParseKey publicKey with
  | None => Err EParseKey
  | Some key => Ok (mkWPeer key false true (PrefixFrom ip 32 :: (Masked <$> routes)))
  end.

Section Iface.
Context {D : Type} `{WgHost D} `{WgTypes} `{NetipV6}.

(** A host call, its error wrapped. *)
Definition host {A} (m : M nl_err D A) : M wg_err D A :=
  let! r := (fun h => let '(r, h') := m h in (Ok r, h')) in
  match r with Ok a => ret a | Err e => throw (EHost e) end.
Definition lift {A} (r : res wg_err A) : M wg_err D A :=
  match r with Ok a => ret a | Err e => throw e end.

Definition ensureLink (name : string) : M wg_err D bool :=
  let! r := try (host (LinkByName name)) in
  match r with
  | Ok ty => if decide (ty = "wireguard") then ret false else throw EConflict
  | Err (EHost LinkNotFound) =>
      do! host (LinkAdd_Wireguard name) in
      do! host (LinkByName name) in
      ret true
  | Err e => throw e
  end.

Definition EnsureInterface (cfg : WgConfig) (key : Key) : M wg_err D Server :=
  match FirstUsableAddress (cfg_Network cfg) with
  | Err e => throw (EAddr e)
  | Ok (addr, bits) =>
      do! ensureLink (cfg_Interface cfg) in
      do! (if 0 <? cfg_MTU cfg then host (LinkSetMTU (cfg_Interface cfg) (cfg_MTU cfg)) else ret tt) in
      do! host (AddrReplace (cfg_Interface cfg) (PrefixFrom addr bits)) in
      do! host (LinkSetUp (cfg_Interface cfg)) in
      do! host wgctrl_New in
      do! host (ConfigureDevice (cfg_Interface cfg)
                  (mkWConfig (Some key) (Some (cfg_ListenPort cfg)) true [])) in
      ret (mkServer (cfg_Interface cfg) (PublicKeyOf key))
  end.

Definition SetPeerRoutes (s : Server) (publicKey : string) (ip : Addr) (routes : list Prefix) : M wg_err D unit :=
  let! peer := lift (peerConfig publicKey ip routes) in
  host (ConfigureDevice (srv_name s) (mkWConfig None None false [peer])).

Definition AddPeer (s : Server) (publicKey : string) (ip : Addr) : M wg_err D unit :=
  SetPeerRoutes s publicKey ip [].

Definition RemovePeer (s : Server) (publicKey : string) : M wg_err D unit :=
  match ParseKey publicKey with
  | None => throw EParseKey
  | Some key =>
      host (ConfigureDevice (srv_name s) (mkWConfig None None false [mkWPeer key true false []]))
  end.

Definition ReplacePeers (s : Server) (peers : list PeerConfig) : M wg_err D unit :=
  let! cfgs := map_each peers (fun p => lift (peerConfig (peer_PublicKey p) (peer_IP p) (peer_Routes p))) in
  host (ConfigureDevice (srv_name s) (mkWConfig None None true cfgs)).

Definition EnsurePoolRoute (s : Server) (pool : Prefix) : M wg_err D unit :=
  do! host (LinkByName (srv_name s)) in
  host (RouteReplace (srv_name s) (Masked pool)).

Definition Handshakes (s : Server) : M wg_err D (gmap string GoTime) :=
  let! peers := host (Device_Peers (srv_name s)) in
  ret (foldl (fun m p => <[KeyString p.1 := p.2]> m) ∅ peers).
End Iface.

(** ** key.go *)

(** The file system as the key file sees it: contents and permission bits. Each
    call may fail; a failing write leaves the number of bytes given. *)
Record Disk : Type := mkDisk
  { files : gmap string (string * Z); disk_faults : list (option nat); disk_rand : list (list Z) }.

Inductive key_err : Type := EChmod | ERead | ECorrupt | EGenerate | EWrite | EStat.

(** [disk_call e m f]: the call fails with [f] applied to the fault, or runs [m]. *)
Definition disk_call {A} (e : key_err) (fail : nat -> Disk -> Disk) (m : M key_err Disk A) : M key_err Disk A := fun d =>
  match disk_faults d with
  | Some n :: fs => (Err e, fail n (mkDisk (files d) fs (disk_rand d)))
  | None :: fs => m (mkDisk (files d) fs (disk_rand d))
  | [] => m d
  end.
Definition unchanged (n : nat) (d : Disk) : Disk := d.
Definition put_file (path : string) (f : string * Z) (d : Disk) : Disk :=
  mkDisk (<[path := f]> (files d)) (disk_faults d) (disk_rand d).

(** [os.Stat]: the permission bits, [None] for a missing file. *)
Definition Stat (path : string) : M key_err Disk (option Z) :=
  disk_call EStat unchanged (gets (fun d => snd <$> files d !! path)).
Definition Chmod (path : string) (mode : Z) : M key_err Disk unit :=
  disk_call EChmod unchanged (fun d =>
    match files d !! path with
    | Some (c, _) => (Ok tt, put_file path (c, mode) d)
    | None => (Err EChmod, d)
    end).
Definition ReadFile (path : string) : M key_err Disk string :=
  disk_call ERead unchanged (fun d =>
    match files d !! path with Some (c, _) => (Ok c, d) | None => (Err ERead, d) end).
(** [os.WriteFile] creating the file with mode 0600; the mode of an existing file stays. *)
Definition write_at (path data : string) (d : Disk) : Disk :=
  put_file path (data, match files d !! path with Some (_, m) => m | None => 384 end) d.
Definition WriteFile (path data : string) : M key_err Disk unit :=
  disk_call EWrite (fun n => write_at path (String.substring 0 n data)) (fun d => (Ok tt, write_at path data d)).
Definition disk_random : M key_err Disk (list Z) := fun d =>
  match disk_rand d with
  | b :: bs => (Ok b, mkDisk (files d) (disk_faults d) bs)
  | [] => (Err EGenerate, d)
  end.

Definition nl_string : string := String (ascii_of_nat 10) "".

Definition LoadOrGenerateKey `{WgTypes} (path : string) : M key_err Disk (Key * bool) :=
  let! info := Stat path in
  match info with
  | Some mode =>
      do! (if negb (Z.land mode 63 =? 0) then Chmod path 384 else ret tt) in
      let! data := ReadFile path in
      match ParseKey (TrimSpace data) with
      | None => throw ECorrupt
      | Some key => ret (key, false)
      end
  | None =>
      let! bs := disk_random in
      let key := GeneratePrivateKey bs in
      do! WriteFile path (KeyString key +:+ nl_string) in
      ret (key, true)
  end.

(** ** status/tracker.go *)

Definition Threshold : Z := 180 * 1000000000.

Record Tracker : Type := mkTracker { snapshot : gmap string GoTime; threshold : Z }.
Definition NewTracker : Tracker := mkTracker ∅ Threshold.

(** One poll of the source: a failed one keeps the snapshot and is logged. *)
Definition refresh_tracker {E} (poll : res E (gmap string GoTime)) (t : Tracker) : Tracker :=
  match poll with Ok snap => mkTracker snap (threshold t) | Err _ => t end.
(** [Run] over the outcomes of its polls, counting the warnings. *)
Definition run_tracker {E} (polls : list (res E (gmap string GoTime))) (t : Tracker) : Tracker * nat :=
  foldl (fun '(t, warns) poll => (refresh_tracker poll t, if is_ok poll then warns else S warns)) (t, O) polls.

Definition Online (t : Tracker) (now : Z) (pubKey : string) : bool :=
  match snapshot t !! pubKey with
  | Some (Some ts) => now - ts <? threshold t
  | _ => false
  end.
Definition LastHandshake (t : Tracker) (pubKey : string) : option Z :=
  match snapshot t !! pubKey with Some (Some ts) => Some ts | _ => None end.
