(* ===== verification/WgProps.v ===== *)
(** * Properties of the WireGuard component *)
From S2P Require Import Prelude GoStrings Netip Ipam Codec Wg.
From Stdlib Require Import Ascii.

#[local] Open Scope lw_scope.

(** ** Peers *)

(** The allowed IPs a node's peer is given: its address and its announced blocks. *)
Definition allowed_ips (ip : Addr) (routes : list Prefix) : gset Prefix :=
  list_to_set (PrefixFrom ip 32 :: (Masked <$> routes)).

(** No other peer than [k] has one of [ips]. *)
Definition unclaimed (k : Key) (ips : gset Prefix) (m : gmap Key (gset Prefix)) : Prop :=
  forall k' s, m !! k' = Some s -> k' <> k -> s ## ips.

Lemma apply_peer_set m k l : unclaimed k (list_to_set l) m ->
  apply_peer m (mkWPeer k false true l) = <[k := list_to_set l]> m.
Proof.
  intros Hm. unfold apply_peer; cbn [pc_remove pc_key AllowedIPs ReplaceAllowedIPs].
  rewrite (left_id_L ∅ (∪)). apply map_eq. intros k'.
  destruct (decide (k' = k)) as [->|Hk]; [by rewrite !lookup_insert_eq|].
  rewrite !lookup_insert_ne, lookup_fmap by done.
  destruct (m !! k') as [s|] eqn:Hs; simpl; [|done]. f_equal.
  specialize (Hm _ _ Hs Hk). set_solver.
Qed.

Section FoldPeers.
Context (A : Type) (key : A -> Key) (ips : A -> list Prefix).

Definition section_of (a : A) : WPeer := mkWPeer (key a) false true (ips a).

Lemma fold_peers l m :
  NoDup (key <$> l) ->
  (forall a b, a ∈ l -> b ∈ l -> key a <> key b -> (list_to_set (ips a) : gset Prefix) ## list_to_set (ips b)) ->
  (forall a, a ∈ l -> unclaimed (key a) (list_to_set (ips a)) m) ->
  let m' := foldl apply_peer m (section_of <$> l) in
  (forall a, a ∈ l -> m' !! key a = Some (list_to_set (ips a))) /\
  (forall k, (k ∉ key <$> l) -> m' !! k = m !! k).
Proof.
  revert m. induction l as [|a l IH]; intros m Hnd Hdis Hm; simpl.
  { split; [by intros a ?%not_elem_of_nil|done]. }
  apply NoDup_cons in Hnd as [Ha Hnd].
  assert (forall b, b ∈ l -> key b <> key a) as Hne.
  { intros b Hb Heq. apply Ha. apply list_elem_of_fmap. by exists b. }
  assert (apply_peer m (section_of a) = <[key a := list_to_set (ips a)]> m) as Heq
    by (apply apply_peer_set, Hm; left).
  rewrite Heq.
  destruct (IH (<[key a := list_to_set (ips a)]> m)) as [H1 H2]; [done| | |].
  { intros b c ? ?. apply Hdis; by right. }
  { intros b Hb k' s Hs Hk'. apply lookup_insert_Some in Hs as [[<- <-]|[_ Hs]].
    - apply Hdis; [left|by right|]. symmetry. by apply Hne.
    - eapply Hm; [by right|done|done]. }
  split.
  - intros b [->|Hb]%elem_of_cons; [|by apply H1]. rewrite H2 by done. by rewrite lookup_insert_eq.
  - intros k Hk. apply not_elem_of_cons in Hk as [? ?]. rewrite H2 by done. by rewrite lookup_insert_ne.
Qed.
End FoldPeers.

Section Device.
Context {D : Type} `{WgHostLaws D} `{WgTypes}.

Definition device (h : D) (s : Server) : gmap Key (gset Prefix) := wd_peers (wg_view h (srv_name s)).

Lemma host_inv {A} (m : M nl_err D A) h r h' : host m h = (r, h') ->
  match r with Ok a => m h = (Ok a, h') | Err _ => exists e, m h = (Err e, h') end.
Proof.
  unfold host, bind. destruct (m h) as [[a|e] h1]; intros [= <- <-]; [done|by exists e].
Qed.

Lemma configure_inv s c h h' : host (ConfigureDevice (srv_name s) c) h = (Ok tt, h') ->
  device h' s = wd_peers (apply_config c (wg_view h (srv_name s))).
Proof. intros Hc%host_inv. unfold device. by rewrite (configure_ok _ _ _ _ Hc). Qed.

(** A successful [SetPeerRoutes] installs exactly the node's allowed IPs. *)
Lemma SetPeerRoutes_ok s key ip routes h h' :
  SetPeerRoutes s key ip routes h = (Ok tt, h') ->
  exists k, ParseKey key = Some k /\
    (unclaimed k (allowed_ips ip routes) (device h s) ->
     device h' s = <[k := allowed_ips ip routes]> (device h s)).
Proof.
  unfold SetPeerRoutes, peerConfig, bind, lift. destruct (ParseKey key) as [k|]; [|done].
  simpl. intros Hc%configure_inv. exists k. split; [done|]. intros Hu. rewrite Hc.
  simpl. by apply apply_peer_set.
Qed.

Lemma RemovePeer_ok s key h h' :
  RemovePeer s key h = (Ok tt, h') ->
  exists k, ParseKey key = Some k /\ device h' s = delete k (device h s).
Proof.
  unfold RemovePeer. destruct (ParseKey key) as [k|]; [|done].
  intros Hc%configure_inv. exists k. split; [done|]. by rewrite Hc.
Qed.

(** [peerConfig] over a list of peers. *)
Lemma peerConfigs_ok peers h r h' :
  map_each peers (fun p => lift (D:=D) (peerConfig (peer_PublicKey p) (peer_IP p) (peer_Routes p))) h = (r, h') ->
  h' = h /\
  match r with
  | Ok cs => exists ks, (ParseKey ∘ peer_PublicKey) <$> peers = Some <$> ks /\
      cs = section_of _ fst (fun q => PrefixFrom (peer_IP q.2) 32 :: (Masked <$> peer_Routes q.2)) <$> zip ks peers
  | Err _ => exists p, p ∈ peers /\ ParseKey (peer_PublicKey p) = None
  end.
Proof.
  revert r h'. induction peers as [|p peers IH]; intros r h'.
  { cbn. intros [= <- <-]. split; [done|]. by exists []. }
  cbn [map_each]. unfold bind at 1. unfold lift at 1, peerConfig at 1.
  destruct (ParseKey (peer_PublicKey p)) as [k|] eqn:Hk; cbn.
  - unfold bind. destruct (map_each _ _ h) as [[cs|e] h1]; cbn; intros [= <- <-];
      destruct (IH _ _ eq_refl) as [-> Hr]; (split; [done|]).
    + destruct Hr as (ks & Hks & ->). exists (k :: ks). simpl. rewrite Hk, Hks. done.
    + destruct Hr as (q & ? & ?). exists q. split; [by right|done].
  - intros [= <- <-]. split; [done|]. exists p. split; [left|done].
Qed.

(** The peers of a list, as the map they should become. *)
Definition peers_match (peers : list PeerConfig) (m : gmap Key (gset Prefix)) : Prop :=
  forall k s, m !! k = Some s <->
    exists p, p ∈ peers /\ ParseKey (peer_PublicKey p) = Some k /\ s = allowed_ips (peer_IP p) (peer_Routes p).

Definition peers_distinct (peers : list PeerConfig) : Prop :=
  NoDup ((ParseKey ∘ peer_PublicKey) <$> peers) /\
  forall p q, p ∈ peers -> q ∈ peers -> ParseKey (peer_PublicKey p) <> ParseKey (peer_PublicKey q) ->
    allowed_ips (peer_IP p) (peer_Routes p) ## allowed_ips (peer_IP q) (peer_Routes q).

Lemma ReplacePeers_ok s peers h h' :
  ReplacePeers s peers h = (Ok tt, h') -> peers_distinct peers -> peers_match peers (device h' s).
Proof.
  unfold ReplacePeers, bind. destruct (map_each peers _ h) as [[cs|e] h1] eqn:Hm; [|done].
  apply peerConfigs_ok in Hm as [-> (ks & Hks & ->)]. intros Hc%configure_inv [Hnd Hdis].
  rewrite Hc. cbn [apply_config wd_peers wc_replace wc_peers].
  assert (length ks = length peers) as Hlen.
  { apply (f_equal length) in Hks. by rewrite !length_fmap in Hks. }
  assert (forall k p, (k, p) ∈ zip ks peers -> p ∈ peers /\ ParseKey (peer_PublicKey p) = Some k) as Hz.
  { intros k p (i & Hi)%list_elem_of_lookup. apply lookup_zip_Some in Hi as [Hk Hp].
    split; [by eapply list_elem_of_lookup_2|].
    assert (((ParseKey ∘ peer_PublicKey) <$> peers) !! i = (Some <$> ks) !! i) as Heq by by rewrite Hks.
    rewrite !list_lookup_fmap, Hk, Hp in Heq. simpl in Heq. by apply (inj Some) in Heq. }
  assert (forall p, p ∈ peers -> exists k, (k, p) ∈ zip ks peers) as Hz'.
  { intros p (i & Hi)%list_elem_of_lookup.
    destruct (lookup_lt_is_Some_2 ks i) as [k Hk]. { rewrite Hlen. by eapply lookup_lt_Some. }
    exists k. apply list_elem_of_lookup. exists i. apply lookup_zip_Some. done. }
  destruct (fold_peers _ fst (fun q => PrefixFrom (peer_IP q.2) 32 :: (Masked <$> peer_Routes q.2)) (zip ks peers) ∅)
    as [Hset Hkeep].
  { rewrite fst_zip by lia. apply (NoDup_fmap_1 Some). by rewrite <- Hks. }
  { intros [k p] [k' q] [Hp Hk]%Hz [Hq Hk']%Hz Hne. simpl in *. apply (Hdis p q); [done..|]. congruence. }
  { intros a _ k' s' Hs'. by rewrite lookup_empty in Hs'. }
  intros k st. split.
  - intros Hst. destruct (decide (k ∈ fst <$> zip ks peers)) as [Hin|Hout].
    + apply list_elem_of_fmap in Hin as ([k1 p] & -> & Hin). exists p. destruct (Hz _ _ Hin) as [? ?].
      split_and!; [done..|]. cbn [fst] in Hst. specialize (Hset _ Hin). cbn [fst snd] in Hset.
      rewrite Hset in Hst. by apply (inj Some) in Hst.
    + rewrite (Hkeep _ Hout), lookup_empty in Hst. done.
  - intros (p & Hp & Hk & ->). destruct (Hz' _ Hp) as [k1 Hin]. destruct (Hz _ _ Hin) as [_ Hk1].
    rewrite Hk in Hk1. apply (inj Some) in Hk1 as <-. specialize (Hset _ Hin). cbn [fst snd] in Hset. by rewrite Hset.
Qed.
End Device.

(** ** The manager's contract on peers *)

Inductive wg_op : Type :=
| WgSetRoutes (key : string) (ip : Addr) (routes : list Prefix)
| WgAdd (key : string) (ip : Addr)
| WgRemove (key : string)
| WgReplace (peers : list PeerConfig).

Definition run_wg {D} `{WgHost D} `{WgTypes} (s : Server) (op : wg_op) : M wg_err D unit :=
  match op with
  | WgSetRoutes key ip routes => SetPeerRoutes s key ip routes
  | WgAdd key ip => AddPeer s key ip
  | WgRemove key => RemovePeer s key
  | WgReplace peers => ReplacePeers s peers
  end.

(** The allowed IPs to install are not those of another peer. *)
Definition wg_pre `{WgTypes} (op : wg_op) (m : gmap Key (gset Prefix)) : Prop :=
  let fresh key ips := forall k, ParseKey key = Some k -> unclaimed k ips m in
  match op with
  | WgSetRoutes key ip routes => fresh key (allowed_ips ip routes)
  | WgAdd key ip => fresh key (allowed_ips ip [])
  | WgRemove _ => True
  | WgReplace peers => peers_distinct peers
  end.

Definition wg_effect `{WgTypes} (op : wg_op) (m m' : gmap Key (gset Prefix)) : Prop :=
  match op with
  | WgSetRoutes key ip routes => exists k, ParseKey key = Some k /\ m' = <[k := allowed_ips ip routes]> m
  | WgAdd key ip => exists k, ParseKey key = Some k /\ m' = <[k := {[PrefixFrom ip 32]}]> m
  | WgRemove key => exists k, ParseKey key = Some k /\ m' = delete k m
  | WgReplace peers => peers_match peers m'
  end.

Lemma allowed_ips_nil ip : allowed_ips ip [] = {[PrefixFrom ip 32]}.
Proof. unfold allowed_ips. simpl. set_solver. Qed.

(** Each peer operation of the WireGuard server implements its effect on the
    device's peers: a successful call leaves exactly the described allowed IPs on
    the named peer and every other peer as it was ([ReplacePeers]: exactly the
    given peers), and a key that does not parse never reaches the device. *)
Theorem peers_refine {D} `{WgHostLaws D} `{WgTypes} s op h r h' :
  run_wg s op h = (r, h') ->
  match r with
  | Ok _ => wg_pre op (device h s) -> wg_effect op (device h s) (device h' s)
  | Err EParseKey => h' = h
  | Err _ => True
  end.
Proof.
  intros Hrun. destruct r as [[]|e].
  - destruct op as [key ip routes|key ip|key|peers]; simpl in *; intros Hpre.
    + apply SetPeerRoutes_ok in Hrun as (k & Hk & Hdev). eauto.
    + apply SetPeerRoutes_ok in Hrun as (k & Hk & Hdev). rewrite <- allowed_ips_nil. eauto.
    + apply RemovePeer_ok in Hrun. done.
    + by eapply ReplacePeers_ok.
  - destruct e; [done..|].
    assert (forall (m : M nl_err D unit), host m h = (Err EParseKey, h') -> False) as Hno.
    { intros m. unfold host, bind. by destruct (m h) as [[]?]. }
    destruct op as [key ip routes|key ip|key|peers]; simpl in Hrun;
      unfold AddPeer, SetPeerRoutes, RemovePeer, peerConfig, lift, ReplacePeers, bind in Hrun.
    1-3: destruct (ParseKey key); cbn in Hrun; [by apply Hno in Hrun|by injection Hrun].
    fold (@lift D) in Hrun. destruct (map_each peers _ h) as [[cs|e] h1] eqn:Hm.
    + apply peerConfigs_ok in Hm as [-> _]. by apply Hno in Hrun.
    + apply peerConfigs_ok in Hm as [-> _]. by injection Hrun.
Qed.

(** ** Addresses *)

(** The address the WireGuard interface takes is the pool's first host address,
    it lies inside the pool, and it is never in the range handed out to nodes. *)
Theorem server_address_reserved `{NetipV6} cidr p :
  ParsePrefix cidr = Some (P4 p) -> Bits p <= 30 ->
  let a := mask_addr (Addr_of p) (Bits p) + 1 in
  FirstUsableAddress cidr = Ok (a, Bits p) /\ Contains p a = true /\
  forall first last, PoolRange cidr = Ok (first, last) -> a < first.
Proof.
  intros Hp Hbits a. pose proof (ParsePrefix_ok _ _ Hp) as [Ha Hb].
  pose proof (mask_addr_fits (Addr_of p) (Bits p) ltac:(done) ltac:(lia)) as Hfit.
  assert (4 <= 2 ^ (32 - Bits p)) as Hpow.
  { change 4 with (2 ^ 2). apply Z.pow_le_mono_r; lia. }
  assert (is_u32 a) as Hu by (unfold is_u32, W32 in *; lia).
  assert (Contains p a = true) as Hc.
  { apply Contains_iff; [done..|]. subst a. lia. }
  split_and!.
  - unfold FirstUsableAddress. rewrite Hp. cbn [Masked Addr_of Bits].
    rewrite (proj2 (Z.ltb_ge _ _)) by lia. fold a. rewrite (u32_id a) by done. by rewrite Hc.
  - done.
  - intros first last Hr. unfold PoolRange in Hr. rewrite Hp in Hr. cbn [Masked Addr_of Bits] in Hr.
    destruct (_ <? _); [done|]. injection Hr as <- _. rewrite AddrToUint32_id by (unfold is_u32, W32 in *; lia).
    rewrite u32_id by (unfold is_u32, W32 in *; lia). subst a. lia.
Qed.

(** ** The key file *)

Lemma trim_newline l fuel : trim_left (S fuel) (reverse <$> space_encodings) (10%nat :: l) =
  trim_left fuel (reverse <$> space_encodings) l.
Proof. done. Qed.

(** [strings.TrimSpace] leaves a text of graphic characters. *)
Lemma TrimSpace_graphic s : chars graphic s = true -> TrimSpace s = s.
Proof.
  intros Hs%graphic_bytes. unfold TrimSpace. destruct (GoStrings.bytes_of s) as [|b l] eqn:Hl.
  { cbn. by rewrite <- (of_bytes_of s), Hl. }
  inversion_clear Hs as [|? ? Hb Hrest]. rewrite trim_graphic by done.
  destruct (reverse (b :: l)) as [|c k] eqn:Hr.
  { by apply (f_equal length) in Hr; rewrite length_reverse in Hr. }
  rewrite trim_graphic; [by rewrite <- Hr, reverse_involutive, <- Hl, of_bytes_of|done|].
  assert (c ∈ b :: l) as Hc by (rewrite <- (reverse_involutive (b :: l)), Hr, elem_of_reverse; left).
  assert (Forall graphic_byte (b :: l)) as Hall by by constructor.
  rewrite Forall_forall in Hall. by apply Hall.
Qed.
(** [strings.TrimSpace] takes the final newline off a line of graphic characters. *)
Lemma TrimSpace_line s : chars graphic s = true -> TrimSpace (s +:+ nl_string) = s.
Proof.
  intros Hs%graphic_bytes. unfold TrimSpace. rewrite bytes_of_app.
  change (GoStrings.bytes_of nl_string) with [10%nat].
  destruct (GoStrings.bytes_of s) as [|b l] eqn:Hl.
  { cbn. by rewrite <- (of_bytes_of s), Hl. }
  inversion_clear Hs as [|? ? Hb Hrest].
  simpl app. rewrite trim_graphic by done.
  change (b :: l ++ [10%nat]) with ((b :: l) ++ [10%nat]).
  rewrite reverse_app, length_app. change (reverse [10%nat]) with [10%nat].
  change ([10%nat] ++ ?x) with (10%nat :: x). rewrite Nat.add_comm. change (1 + ?n)%nat with (S n).
  rewrite trim_newline. destruct (reverse (b :: l)) as [|c k] eqn:Hr.
  { by apply (f_equal length) in Hr; rewrite length_reverse in Hr. }
  rewrite trim_graphic; [|done|].
  - by rewrite <- Hr, reverse_involutive, <- Hl, of_bytes_of.
  - assert (c ∈ b :: l) as Hc by (rewrite <- (reverse_involutive (b :: l)), Hr, elem_of_reverse; left).
    assert (Forall graphic_byte (b :: l)) as Hall by by constructor.
    rewrite Forall_forall in Hall. by apply Hall.
Qed.

Lemma disk_call_inv {A} e fail (m : M key_err Disk A) d r d' :
  disk_call e fail m d = (r, d') ->
  (exists n fs, r = Err e /\ d' = fail n (mkDisk (files d) fs (disk_rand d))) \/
  exists fs, m (mkDisk (files d) fs (disk_rand d)) = (r, d').
Proof.
  unfold disk_call. destruct (disk_faults d) as [|[n|] fs] eqn:Hf.
  - intros Hm. right. exists []. by destruct d; simpl in *; subst.
  - intros [= <- <-]. left. eauto.
  - intros Hm. right. eauto.
Qed.

(** What a later start finds, with a disk that does not fail. *)
Definition loads `{WgTypes} (path : string) (d : Disk) (key : Key) : Prop :=
  forall rand, LoadOrGenerateKey path (mkDisk (files d) [] rand) = (Ok (key, false), mkDisk (files d) [] rand).

(** The file keeps its contents; only its permission bits may have changed. *)
Definition kept (path : string) (d d' : Disk) : Prop :=
  forall c m, files d !! path = Some (c, m) -> exists m', files d' !! path = Some (c, m').

Lemma kept_refl path d d' : files d' = files d -> kept path d d'.
Proof. intros Hf c m Hc. exists m. by rewrite Hf. Qed.

Lemma Stat_inv path d r d' : Stat path d = (r, d') ->
  files d' = files d /\ match r with Ok o => o = snd <$> files d !! path | Err _ => True end.
Proof. unfold Stat. intros [(n & fs & -> & ->)|(fs & [= <- <-])]%disk_call_inv; done. Qed.

Lemma Chmod_inv path mode d r d' c m : files d !! path = Some (c, m) -> Chmod path mode d = (r, d') ->
  match r with Ok _ => files d' = <[path := (c, mode)]> (files d) | Err _ => files d' = files d end.
Proof.
  intros Hf. unfold Chmod. intros [(n & fs & -> & ->)|(fs & Hm)]%disk_call_inv; [done|].
  cbn in Hm. rewrite Hf in Hm. by injection Hm as <- <-.
Qed.

Lemma ReadFile_inv path d r d' c m : files d !! path = Some (c, m) -> ReadFile path d = (r, d') ->
  files d' = files d /\ match r with Ok c' => c' = c | Err _ => True end.
Proof.
  intros Hf. unfold ReadFile. intros [(n & fs & -> & ->)|(fs & Hm)]%disk_call_inv; [done|].
  cbn in Hm. rewrite Hf in Hm. by injection Hm as <- <-.
Qed.

Lemma loads_intro `{WgTypes} path d (c : string) (m : Z) key :
  files d !! path = Some (c, m) -> Z.land m 63 = 0 -> ParseKey (TrimSpace c) = Some key -> loads path d key.
Proof.
  intros Hf Hm Hkey rnd. unfold LoadOrGenerateKey, bind. cbn. rewrite Hf. cbn. rewrite Hm. cbn.
  rewrite Hf. cbn. by rewrite Hkey.
Qed.

(** The branch of [LoadOrGenerateKey] for a file that exists. *)
Lemma load_inv `{WgTypes} path d (c : string) (m : Z) r d' : files d !! path = Some (c, m) ->
  bind (if negb (Z.land m 63 =? 0) then Chmod path 384 else ret tt) (fun _ =>
  bind (ReadFile path) (fun data =>
  match ParseKey (TrimSpace data) with None => throw ECorrupt | Some key => ret (key, false) end)) d = (r, d') ->
  exists m' : Z, files d' = <[path := (c, m')]> (files d) /\
    match r with
    | Ok (key, fresh) => fresh = false /\ Z.land m' 63 = 0 /\ ParseKey (TrimSpace c) = Some key
    | Err _ => True
    end.
Proof.
  intros Hf Hrun. unfold bind in Hrun.
  assert (exists (m' : Z) d1, (forall r1 d1', (if negb (Z.land m 63 =? 0) then Chmod path 384 else ret tt) d = (r1, d1') ->
    d1' = d1 /\ files d1 = <[path := (c, m')]> (files d) /\ (is_ok r1 = true -> Z.land m' 63 = 0))) as (m' & d1 & H1).
  { destruct (Z.eqb_spec (Z.land m 63) 0) as [Hz|Hz]; cbn [negb].
    - exists m, d. intros r1 d1' [= <- <-]. rewrite insert_id by done. done.
    - destruct (Chmod path 384 d) as [r1 d1] eqn:Hc. pose proof (Chmod_inv _ _ _ _ _ _ _ Hf Hc) as Hr1.
      destruct r1 as [[]|e].
      + exists 384, d1. intros r1' d1' [= <- <-]. done.
      + exists m, d1. intros r1' d1' [= <- <-]. rewrite insert_id by done. done. }
  destruct ((if negb (Z.land m 63 =? 0) then Chmod path 384 else ret tt) d) as [r1 d1'] eqn:Hc.
  destruct (H1 _ _ eq_refl) as (-> & Hf1 & Hm'). exists m'.
  destruct r1 as [[]|e]; [|injection Hrun as <- <-; done].
  destruct (ReadFile path d1) as [r2 d2] eqn:Hr.
  apply (ReadFile_inv _ _ _ _ c m') in Hr as [Hf2 Hr]; [|by rewrite Hf1, lookup_insert_eq].
  destruct r2 as [data|e]; [subst data|injection Hrun as <- <-; by rewrite Hf2].
  destruct (ParseKey (TrimSpace c)); injection Hrun as <- <-; rewrite Hf2; auto.
Qed.

(** The server's identity is stable. A key is generated only when there is no
    key file, it is stored readable by its owner only, and every later start loads
    that same key; an existing key file, corrupt or not, is never overwritten,
    whichever call on the way fails; a loaded key comes from a file whose
    permissions exclude group and others; and no other file is touched. *)
Theorem key_file_stable `{WgTypesLaws} path d r d' :
  LoadOrGenerateKey path d = (r, d') ->
  kept path d d' /\ delete path (files d') = delete path (files d) /\
  match r with
  | Ok (key, true) => files d !! path = None /\ (exists c, files d' !! path = Some (c, 384)) /\ loads path d' key
  | Ok (key, false) => (exists c m, files d' !! path = Some (c, m) /\ Z.land m 63 = 0) /\ loads path d' key
  | Err _ => True
  end.
Proof.
  intros Hrun. unfold LoadOrGenerateKey, bind in Hrun. destruct (Stat path d) as [[info|e] d1] eqn:Hst.
  2:{ injection Hrun as <- <-. apply Stat_inv in Hst as [Hf _]. by split_and!; [apply kept_refl|rewrite Hf|]. }
  apply Stat_inv in Hst as [Hf1 ->]. destruct (files d !! path) as [[c m]|] eqn:Hfile; cbn in Hrun.
  - apply (load_inv path d1 c m) in Hrun; [|by rewrite Hf1].
    destruct Hrun as (m' & Hf & Hr). rewrite Hf1 in Hf. split_and!.
    + intros c' m0 Hc. rewrite Hfile in Hc. injection Hc as <- <-. exists m'. by rewrite Hf, lookup_insert_eq.
    + by rewrite Hf, delete_insert_eq.
    + destruct r as [[key []]|]; [by destruct Hr| |done]. destruct Hr as (_ & Hm' & Hkey). split.
      * exists c, m'. by rewrite Hf, lookup_insert_eq.
      * eapply loads_intro; [rewrite Hf; apply lookup_insert_eq|done..].
  - unfold disk_random in Hrun. destruct (disk_rand d1) as [|bs rnd]; cbn in Hrun.
    { injection Hrun as <- <-. by split_and!; [apply kept_refl|rewrite Hf1|]. }
    unfold WriteFile in Hrun. destruct (disk_call _ _ _ _) as [[[]|e] d2] eqn:Hw; injection Hrun as <- <-;
      apply disk_call_inv in Hw as [(n & fs & Hr & ->)|(fs & [= <-])]; try done; cbn; rewrite ?Hf1.
    + rewrite Hfile. split_and!; [|by rewrite delete_insert_eq|done|by eexists; apply lookup_insert_eq|].
      { intros c m Hc. by rewrite Hfile in Hc. }
      eapply loads_intro; [cbn; apply lookup_insert_eq|by rewrite Hfile|].
      rewrite TrimSpace_line by apply KeyString_graphic. apply ParseKey_String.
    + split_and!; [|by rewrite delete_insert_eq|done]. intros c m Hc. by rewrite Hfile in Hc.
Qed.

(** ** The interface and the tracker *)

(** Bringing the interface up, whatever the host does: on success the device
    carries the server's key and listen port and no peer at all, so no stale
    tunnel survives, and the server reports the matching public key; and a device
    of another type that already holds the name is refused, before anything is
    configured. *)
Theorem EnsureInterface_clean {D} `{WgHostLaws D} `{WgTypes} `{NetipV6} cfg key h r h' :
  EnsureInterface cfg key h = (r, h') ->
  (forall s, r = Ok s ->
     s = mkServer (cfg_Interface cfg) (PublicKeyOf key) /\
     wg_view h' (cfg_Interface cfg) = mkDevice (Some key) (cfg_ListenPort cfg) ∅) /\
  (forall ty h1 a, FirstUsableAddress (cfg_Network cfg) = Ok a ->
     LinkByName (cfg_Interface cfg) h = (Ok ty, h1) -> ty <> "wireguard" -> r = Err EConflict /\ h' = h1).
Proof.
  intros Hrun. split.
  - intros s ->. unfold EnsureInterface in Hrun. destruct (FirstUsableAddress _) as [[addr bits]|]; [|done].
    unfold bind in Hrun. repeat (match type of Hrun with context [match ?m ?x with _ => _ end] =>
      lazymatch m with host (ConfigureDevice _ _) => fail | _ => destruct (m x) as [[?|?] ?]; [|done] end end).
    destruct (host _ _) as [[[]|e] h2] eqn:Hc; [|done]. injection Hrun as <- <-. split; [done|].
    apply host_inv in Hc. rewrite (configure_ok _ _ _ _ Hc). done.
  - intros ty h1 [addr bits] Ha Hl Hty. unfold EnsureInterface in Hrun. rewrite Ha in Hrun.
    unfold ensureLink, host, try, bind in Hrun. rewrite Hl in Hrun. cbn in Hrun.
    rewrite decide_False in Hrun by done. by injection Hrun.
Qed.

(** The last successful poll of a run, if any. *)
Definition last_ok {E} (polls : list (res E (gmap string GoTime))) : option (gmap string GoTime) :=
  last (omap (fun p => match p with Ok m => Some m | Err _ => None end) polls).

(** The tracker's answers come from the last poll that succeeded: failed polls
    change nothing and are each logged once, before any success every node is
    offline, and a node is online exactly when its last handshake in that poll is
    a real one less than three minutes old. *)
Theorem tracker_last_poll {E} (polls : list (res E (gmap string GoTime))) now key :
  let (t, warns) := run_tracker polls NewTracker in
  snapshot t = default ∅ (last_ok polls) /\
  warns = length (filter (fun p => is_ok p = false) polls) /\
  (Online t now key = true <->
     exists m ts, last_ok polls = Some m /\ m !! key = Some (Some ts) /\ now - ts < 180000000000) /\
  (forall ts, LastHandshake t key = Some ts <->
     exists m, last_ok polls = Some m /\ m !! key = Some (Some ts)).
Proof.
  assert (forall polls : list (res E (gmap string GoTime)),
    run_tracker polls NewTracker =
      (mkTracker (default ∅ (last_ok polls)) Threshold, length (filter (fun p => is_ok p = false) polls))) as Hrun.
  { clear. intros polls. unfold run_tracker, last_ok. induction polls as [|p polls IH] using rev_ind; [done|].
    rewrite foldl_app, IH. simpl. rewrite omap_app, filter_app, length_app. destruct p as [m|e]; simpl.
    - by rewrite last_snoc, Nat.add_0_r.
    - rewrite app_nil_r. f_equal. lia. }
  rewrite Hrun. unfold Online, LastHandshake; cbn [snapshot threshold]. split_and!; [done..| |].
  - destruct (last_ok polls) as [m|]; simpl.
    + split.
      * destruct (m !! key) as [[ts|]|] eqn:Hk; try done. intros Hlt%Z.ltb_lt. by exists m, ts.
      * intros (m' & ts & [= <-] & -> & Hlt). by apply Z.ltb_lt.
    + rewrite lookup_empty. split; [done|]. by intros (? & ? & ? & _).
  - intros ts. destruct (last_ok polls) as [m|]; simpl.
    + split.
      * destruct (m !! key) as [[ts'|]|] eqn:Hk; try done. intros [= ->]. by exists m.
      * by intros (m' & [= <-] & ->).
    + rewrite lookup_empty. split; [done|]. by intros (? & ? & _).
Qed.

(** ** Concrete parameters, for the witnesses *)

#[global] Instance sim_wgtypes : WgTypes | 100 :=
  {| ParseKey s :=
       match CutLast "="%char s with
       | Some (b, "") => k ← RawStdDecode b; if decide (length k = 32%nat) then Some k else None
       | _ => None
       end;
     KeyString k := RawStdEncode k +:+ String "="%char "";
     GeneratePrivateKey bs := (fun b => b mod 256) <$> take 32 (bs ++ replicate 32 0);
     PublicKeyOf k := k |}.

#[global, program] Instance sim_wgtypes_laws : WgTypesLaws | 100 := {| ParseKey_String := _ |}.
Next Obligation.
  intros bs. cbn [ParseKey KeyString GeneratePrivateKey sim_wgtypes]. set (k := _ <$> _).
  change (String "="%char "") with (String "="%char "" +:+ ""). rewrite CutLast_app by done. cbn beta iota.
  assert (Forall is_byte k) as Hk.
  { apply Forall_fmap, Forall_true. intros b. by apply Z.mod_pos_bound. }
  rewrite RawStdDecode_Encode by done. cbn [mbind option_bind]. rewrite decide_True; [done|].
  subst k. rewrite length_fmap, length_take, length_app, length_replicate. lia.
Qed.
Next Obligation.
  intros bs. cbn [ParseKey KeyString GeneratePrivateKey sim_wgtypes]. rewrite chars_app. rewrite RawStdEncode_chars; [done|by vm_compute|].
  apply Forall_fmap, Forall_true. intros b. by apply Z.mod_pos_bound.
Qed.

(** A host: the links with their types, and the device of each. *)
Record SimHost : Type := mkHost { sim_links : gmap string string; sim_devices : string -> WgDevice }.
#[global] Instance sim_host : WgHost SimHost | 100 :=
  {| LinkByName n h := (match sim_links h !! n with Some ty => Ok ty | None => Err LinkNotFound end, h);
     LinkAdd_Wireguard n h := (Ok tt, mkHost (<[n := "wireguard"]> (sim_links h)) (sim_devices h));
     LinkSetMTU n m h := (Ok tt, h);
     AddrReplace n p h := (Ok tt, h);
     LinkSetUp n h := (Ok tt, h);
     RouteReplace n p h := (Ok tt, h);
     wgctrl_New h := (Ok tt, h);
     ConfigureDevice n c h :=
       (Ok tt, mkHost (sim_links h) (fun m => if decide (m = n) then apply_config c (sim_devices h n) else sim_devices h m));
     Device_Peers n h := (Ok ((fun p => (p.1, None)) <$> map_to_list (wd_peers (sim_devices h n))), h) |}.
#[global, program] Instance sim_host_laws : WgHostLaws SimHost | 100 :=
  {| wg_view h n := sim_devices h n |}.
Next Obligation. intros name c h h' [= <-]. cbn. by rewrite decide_True. Qed.

Definition bare_host : SimHost := mkHost ∅ (fun _ => mkDevice None 0 ∅).
Definition wg0 : Server := mkServer "wg0" [].
Definition key_a : string := KeyString (GeneratePrivateKey [1; 2; 3]).
Definition key_b : string := KeyString (GeneratePrivateKey [4; 5; 6]).
Definition demo_peers : list PeerConfig :=
  [mkPeer key_a 1681915906 []; mkPeer key_b 1681915907 [PrefixFrom 1684275200 24]].

Lemma demo_peers_distinct : peers_distinct demo_peers.
Proof.
  split.
  - apply NoDup_cons. split; [|apply NoDup_singleton]. by vm_compute; intros [=]%list_elem_of_singleton.
  - assert (forall p q, p ∈ demo_peers -> q ∈ demo_peers -> p <> q ->
      allowed_ips (peer_IP p) (peer_Routes p) ## allowed_ips (peer_IP q) (peer_Routes q)) as Hd.
    { intros p q Hp Hq Hne. unfold demo_peers in Hp, Hq. rewrite !elem_of_cons in Hp, Hq.
      apply (bool_decide_unpack _).
      destruct Hp as [->|[->|[]%not_elem_of_nil]], Hq as [->|[->|[]%not_elem_of_nil]];
        try (by destruct Hne); by vm_compute. }
    intros p q Hp Hq Hne. apply Hd; congruence.
Qed.

Lemma peers_refine_witness :
  peers_match demo_peers (device (snd (run_wg wg0 (WgReplace demo_peers) bare_host)) wg0).
Proof.
  refine (peers_refine wg0 (WgReplace demo_peers) bare_host (Ok tt) _ _ demo_peers_distinct).
  by vm_compute.
Defined.

#[local] Instance no_v6 : NetipV6 := fun _ => None.

Lemma server_address_reserved_witness :
  FirstUsableAddress "100.64.0.0/10" = Ok (1681915905, 10).
Proof. by apply (server_address_reserved "100.64.0.0/10" (PrefixFrom 1681915904 10)). Defined.

Definition empty_disk : Disk := mkDisk ∅ [] [[7; 7]].
Lemma key_file_stable_witness :
  loads "wg_private" (snd (LoadOrGenerateKey "wg_private" empty_disk)) (GeneratePrivateKey [7; 7]).
Proof.
  by apply (key_file_stable "wg_private" empty_disk (Ok (GeneratePrivateKey [7; 7], true))
              (snd (LoadOrGenerateKey "wg_private" empty_disk))).
Defined.

Definition demo_wg : WgConfig := mkWgCfg "wg0" "100.64.0.0/10" 51820 1420.
Lemma EnsureInterface_clean_witness :
  wg_view (snd (EnsureInterface demo_wg [1] bare_host)) "wg0" = mkDevice (Some [1]) 51820 ∅.
Proof.
  refine (proj2 (proj1 (EnsureInterface_clean demo_wg [1] bare_host (Ok (mkServer "wg0" [1])) _ _) _ eq_refl)).
  by vm_compute.
Defined.
