(* ===== verification/Auth.v ===== *)
(** * Passwords, session tokens and the first administrator ([internal/server/auth])

    argon2 and the JWT library are parameters; the PHC string format, the claims
    and their checks are the repository's own code. *)
From S2P Require Import Prelude GoStrings Netip Codec Db StoreUsers.
From Stdlib Require Import Ascii.

#[local] Open Scope lw_scope.

(** ** [fmt.Sscanf] with the verbs used here *)

(** White space before a number, newlines excepted. *)
Definition SkipSpace (s : string) : string :=
  let l := GoStrings.bytes_of s in
  of_bytes (trim_left (length l) (filter (fun p => p <> [10%nat]) space_encodings) l).

(** The longest run of decimal digits. *)
Fixpoint span_digits (s : string) : string * string :=
  match s with
  | String a r => if is_digit a then let '(d, rest) := span_digits r in (String a d, rest) else ("", s)
  | "" => ("", "")
  end.

Definition scan_number (s : string) : option (Z * string) :=
  let '(d, rest) := span_digits s in
  v ← parse_dec d; Some (v, rest).

(** [%d] into an unsigned integer of the given width: no sign, overflow is an error. *)
Definition scan_uint (width : Z) (s : string) : option (Z * string) :=
  '(v, rest) ← scan_number (SkipSpace s);
  if v <? 2 ^ width then Some (v, rest) else None.
(** [%d] into an [int]. *)
Definition scan_int (s : string) : option (Z * string) :=
  match SkipSpace s with
  | String a r =>
      if decide (a = "-"%char) then
        '(v, rest) ← scan_number r; if v <=? 2 ^ 63 then Some (- v, rest) else None
      else
        '(v, rest) ← scan_number (if decide (a = "+"%char) then r else String a r);
        if v <? 2 ^ 63 then Some (v, rest) else None
  | "" => None
  end.

(** ** password.go *)

Definition argonMemory : Z := 19456.
Definition argonIterations : Z := 2.
Definition argonParallelism : Z := 1.
Definition argonSaltLen : Z := 16.
Definition argonKeyLen : Z := 32.

(** [argon2]: its version number and [IDKey password salt time memory threads keyLen]. *)
Class Argon2 : Type :=
  { Argon2Version : Z;
    IDKey : list Z -> list Z -> Z -> Z -> Z -> Z -> list Z }.
Class Argon2Laws `{Argon2} : Type :=
  { version_small : 0 <= Argon2Version < 2 ^ 63;
    IDKey_bytes p salt t m n len : 0 <= len -> Forall is_byte (IDKey p salt t m n len);
    IDKey_length p salt t m n len : 0 <= len -> length (IDKey p salt t m n len) = Z.to_nat len }.

(** [fmt.Sprintf("$argon2id$v=%d$m=%d,t=%d,p=%d$%s$%s", ...)]. *)
Definition phc `{Argon2} (salt key : list Z) : string :=
  "$argon2id$v=" +:+ pretty Argon2Version +:+
  "$m=" +:+ pretty argonMemory +:+ ",t=" +:+ pretty argonIterations +:+ ",p=" +:+ pretty argonParallelism +:+
  "$" +:+ RawStdEncode salt +:+ "$" +:+ RawStdEncode key.

Definition password_key `{Argon2} (plain : string) (salt : list Z) : list Z :=
  IDKey (bytes_of plain) salt argonIterations argonMemory argonParallelism argonKeyLen.

Definition HashPassword `{Argon2} (plain : string) : SM string :=
  let! salt := rand_read in
  ret (phc salt (password_key plain salt)).

Inductive pw_err : Type := EFormat | EVersion | EUnsupported (v : Z) | EParams | ESalt | EHash.

(** The fields of [m=%d,t=%d,p=%d]; what follows the last number is ignored. *)
Definition scan_params (s : string) : option (Z * Z * Z) :=
  s ← CutPrefix s "m="; '(memory, s) ← scan_uint 32 s;
  s ← CutPrefix s ",t="; '(iterations, s) ← scan_uint 32 s;
  s ← CutPrefix s ",p="; '(parallelism, _) ← scan_uint 8 s;
  Some (memory, iterations, parallelism).

Definition VerifyPassword `{Argon2} (plain encoded : string) : res pw_err bool :=
  match Split "$"%char encoded with
  | [_; alg; p2; p3; p4; p5] =>
      if negb (bool_decide (alg = "argon2id")) then Err EFormat else
      match s ← CutPrefix p2 "v="; scan_int s with
      | None => Err EVersion
      | Some (version, _) =>
          if negb (version =? Argon2Version) then Err (EUnsupported version) else
          match scan_params p3 with
          | None => Err EParams
          | Some (memory, iterations, parallelism) =>
              match RawStdDecode p4 with
              | None => Err ESalt
              | Some salt =>
                  match RawStdDecode p5 with
                  | None => Err EHash
                  | Some want =>
                      let got := IDKey (bytes_of plain) salt iterations memory parallelism
                                   (Z.of_nat (length want)) in
                      Ok (bool_decide (got = want))
                  end
              end
          end
      end
  | _ => Err EFormat
  end.

(** ** jwt.go *)

Record Claims : Type := mkClaims { c_UserID : Z; c_Username : string; c_IsAdmin : bool }.

(** [jwtClaims] with its registered claims; the dates are whole seconds. *)
Record jwtClaims : Type := mkJwt
  { jc_Username : string; jc_IsAdmin : bool; jc_Subject : string; jc_IssuedAt : Z; jc_ExpiresAt : Z }.
#[export] Instance jwtClaims_eq_dec : EqDecision jwtClaims.
Proof. solve_decision. Defined.

(** The JWT library: signing with HS256, and parsing with the HS256 pin at a time. *)
Class JwtLib : Type :=
  { SignedString : jwtClaims -> string -> option string;
    ParseWithClaims : string -> string -> Z -> option jwtClaims }.
(** A token signed with a secret parses with it until it expires. *)
Class JwtLaws `{JwtLib} : Type :=
  { parse_signed c secret t now : SignedString c secret = Some t ->
      ParseWithClaims t secret now = if now <? jc_ExpiresAt c * 1000000000 then Some c else None }.

Record JWTManager : Type := mkJWTManager { jwt_secret : string; jwt_ttl : Z }.

(** [jwt.NewNumericDate] truncates to the second; times are in nanoseconds. *)
Definition NumericDate (t : Z) : Z := t / 1000000000.

Definition IssueJWT `{JwtLib} (m : JWTManager) (now : Z) (c : Claims) : option string :=
  SignedString (mkJwt (c_Username c) (c_IsAdmin c) (pretty (c_UserID c))
                  (NumericDate now) (NumericDate (now + jwt_ttl m))) (jwt_secret m).

Definition VerifyJWT `{JwtLib} (m : JWTManager) (now : Z) (token : string) : option Claims :=
  jc ← ParseWithClaims token (jwt_secret m) now;
  uid ← ParseInt64 (jc_Subject jc);
  Some (mkClaims uid (jc_Username jc) (jc_IsAdmin jc)).

(** ** bootstrap.go *)

Definition EnsureAdmin `{Sqlite, Argon2} (username password : string) : SM unit :=
  if bool_decide (username = "" \/ password = "") then throw (EOther "admin credential not provided") else
  let! existing := GetByUsername username in
  match existing with
  | Some _ => ret tt
  | None =>
      let! hash := HashPassword password in
      let! r := try (CreateAdmin username hash) in
      match r with
      | Ok _ => ret tt
      | Err ErrUserExists => ret tt
      | Err e => throw e
      end
  end.
