(* ===== verification/AuthProps.v ===== *)
(** * Properties of passwords, session tokens and the admin bootstrap *)
From S2P Require Import Prelude GoStrings Netip Codec Db StoreInv StoreUsers UsersProps Auth.
From Stdlib Require Import Ascii.

#[local] Open Scope lw_scope.

(** ** Scanning back what was printed *)

Lemma String_app_nil_r s : s +:+ "" = s.
Proof. induction s as [|a s IH]; [done|]. change (String a s +:+ "") with (String a (s +:+ "")). by rewrite IH. Qed.

Lemma SkipSpace_graphic a s : graphic a = true -> SkipSpace (String a s) = String a s.
Proof.
  intros Ha. unfold SkipSpace. simpl GoStrings.bytes_of. rewrite trim_graphic.
  - change (of_bytes (GoStrings.bytes_of (String a s)) = String a s). apply of_bytes_of.
  - by vm_compute.
  - unfold graphic in Ha. apply andb_true_iff in Ha as [H1%Nat.ltb_lt H2%Nat.ltb_lt]. done.
Qed.

Lemma digit_graphic a : is_digit a = true -> graphic a = true.
Proof.
  destruct a as [[] [] [] [] [] [] [] []]; by vm_compute.
Qed.

(** [s] does not start with a digit. *)
Definition stops (s : string) : bool := match s with String a _ => negb (is_digit a) | "" => true end.

Lemma span_digits_app d s : chars is_digit d = true -> stops s = true -> span_digits (d +:+ s) = (d, s).
Proof.
  intros Hd Hs. induction d as [|a d IH]; simpl in *.
  - destruct s as [|a s]; simpl in *; [done|]. apply negb_true_iff in Hs. by rewrite Hs.
  - apply andb_true_iff in Hd as [Ha Hd]. change (String a d +:+ s) with (String a (d +:+ s)). simpl.
    by rewrite Ha, IH.
Qed.

Lemma scan_number_pretty z s : 0 <= z -> stops s = true -> scan_number (pretty z +:+ s) = Some (z, s).
Proof.
  intros Hz Hs. unfold scan_number. rewrite span_digits_app by (done || by apply pretty_Z_digits).
  by rewrite parse_dec_pretty.
Qed.

Lemma pretty_starts z : 0 <= z -> exists a r, pretty z = String a r /\ is_digit a = true.
Proof.
  intros Hz. pose proof (pretty_Z_digits z Hz) as Hd. pose proof (parse_dec_pretty z Hz) as Hp.
  destruct (pretty z) as [|a r]; [done|]. apply andb_true_iff in Hd as [Ha _]. by exists a, r.
Qed.

Lemma scan_uint_pretty w z s : 0 <= z < 2 ^ w -> stops s = true -> scan_uint w (pretty z +:+ s) = Some (z, s).
Proof.
  intros Hz Hs. unfold scan_uint. destruct (pretty_starts z ltac:(lia)) as (a & r & Hp & Ha).
  rewrite Hp. change (String a r +:+ s) with (String a (r +:+ s)). rewrite SkipSpace_graphic by by apply digit_graphic.
  change (String a (r +:+ s)) with (String a r +:+ s). rewrite <- Hp, scan_number_pretty by (lia || done).
  simpl. by rewrite (proj2 (Z.ltb_lt _ _)) by lia.
Qed.

Lemma scan_int_pretty z s : 0 <= z < 2 ^ 63 -> stops s = true -> scan_int (pretty z +:+ s) = Some (z, s).
Proof.
  intros Hz Hs. unfold scan_int. destruct (pretty_starts z ltac:(lia)) as (a & r & Hp & Ha).
  rewrite Hp. change (String a r +:+ s) with (String a (r +:+ s)). rewrite SkipSpace_graphic by by apply digit_graphic.
  rewrite !decide_False by (by intros ->).
  change (String a (r +:+ s)) with (String a r +:+ s). rewrite <- Hp, scan_number_pretty by (lia || done).
  simpl. by rewrite (proj2 (Z.ltb_lt _ _)) by lia.
Qed.

(** ** The PHC string *)

Section Phc.
Context `{Argon2Laws}.

Lemma params_text : "m=" +:+ pretty argonMemory +:+ ",t=" +:+ pretty argonIterations +:+ ",p=" +:+ pretty argonParallelism
  = "m=19456,t=2,p=1".
Proof. by vm_compute. Qed.

Lemma phc_text salt key :
  phc salt key = "" +:+ "$" +:+ "argon2id" +:+ "$" +:+ ("v=" +:+ pretty Argon2Version) +:+
    "$" +:+ "m=19456,t=2,p=1" +:+ "$" +:+ RawStdEncode salt +:+ "$" +:+ RawStdEncode key.
Proof.
  unfold phc. assert (pretty argonMemory = "19456") as -> by by vm_compute.
  assert (pretty argonIterations = "2") as -> by by vm_compute.
  by assert (pretty argonParallelism = "1") as -> by by vm_compute.
Qed.

Lemma phc_fields salt key : Forall is_byte salt -> Forall is_byte key ->
  Split "$"%char (phc salt key) =
    [""; "argon2id"; "v=" +:+ pretty Argon2Version; "m=19456,t=2,p=1"; RawStdEncode salt; RawStdEncode key].
Proof.
  intros Hs Hk. pose proof version_small as Hv. rewrite phc_text.
  rewrite !Split_app; [by rewrite Split_no_char by by apply RawStdEncode_no_dollar|..]; try done.
  - by apply RawStdEncode_no_dollar.
  - simpl. by apply digits_no_char, pretty_Z_digits; [|lia].
Qed.

(** Verification against a hash the program made: the keys are compared. *)
Lemma Verify_phc salt key plain : Forall is_byte salt -> Forall is_byte key -> length key = 32%nat ->
  VerifyPassword plain (phc salt key) = Ok (bool_decide (password_key plain salt = key)).
Proof.
  intros Hs Hk Hlen. pose proof version_small as Hv. unfold VerifyPassword. rewrite phc_fields by done.
  cbn [negb]. rewrite bool_decide_true by done. cbn [negb].
  rewrite CutPrefix_app. cbn [mbind option_bind].
  rewrite <- (String_app_nil_r (pretty Argon2Version)), scan_int_pretty by (done || lia).
  rewrite Z.eqb_refl. cbn [negb].
  assert (scan_params "m=19456,t=2,p=1" = Some (argonMemory, argonIterations, argonParallelism)) as -> by by vm_compute.
  rewrite !RawStdDecode_Encode by done. by rewrite Hlen.
Qed.
End Phc.

Lemma Verify_phc_key `{Argon2Laws} salt p q : Forall is_byte salt ->
  VerifyPassword q (phc salt (password_key p salt)) =
    Ok (bool_decide (password_key q salt = password_key p salt)).
Proof. intros Hs. apply Verify_phc; [done|by apply IDKey_bytes|unfold password_key; by rewrite IDKey_length]. Qed.

(** Password hashing round trip, through the PHC text: what [HashPassword]
    stores is parsed back to the parameters and the salt it was made with, so
    [VerifyPassword] accepts exactly the passwords whose argon2 key under that salt
    is the stored one; the password itself among them, and it never errs. *)
Theorem password_roundtrip `{Argon2Laws} plain s h s' :
  HashPassword plain s = (Ok h, s') -> Forall (Forall is_byte) (s_rand s) ->
  exists salt, s_rand s = salt :: s_rand s' /\ VerifyPassword plain h = Ok true /\
    forall other, VerifyPassword other h = Ok (bool_decide (password_key other salt = password_key plain salt)).
Proof.
  unfold HashPassword, bind, rand_read. destruct (s_rand s) as [|salt rest]; [done|].
  intros [= <- <-] [Hsalt _]%Forall_cons. exists salt. split; [done|]. split.
  - by rewrite Verify_phc_key, bool_decide_true.
  - intros other. by apply Verify_phc_key.
Qed.

(** ** Session tokens *)

(** A session token carries its identity faithfully until it expires: verifying
    it gives back exactly the issued claims before the expiry second and nothing
    from then on. *)
Theorem session_token_roundtrip `{JwtLaws} m issued c t later :
  IssueJWT m issued c = Some t -> 0 <= c_UserID c < 2 ^ 63 ->
  VerifyJWT m later t = if later <? NumericDate (issued + jwt_ttl m) * 1000000000 then Some c else None.
Proof.
  intros Hi Hid. unfold VerifyJWT, IssueJWT in *. rewrite (parse_signed _ _ _ later Hi). cbn [jc_ExpiresAt].
  destruct (_ <? _); [|done]. cbn [mbind option_bind jc_Subject]. rewrite ParseInt64_pretty by done.
  by destruct c.
Qed.

(** ** Bootstrap *)

Lemma GetByUsername_quiet name d now rand :
  exists o, GetByUsername name (Quiet d now rand) = (Ok o, Quiet d now rand) /\ (is_Some o <-> name_taken name d).
Proof.
  eexists. split; [reflexivity|]. unfold name_taken. rewrite list_elem_of_fmap. split.
  - intros [u (Hname & Hu)%first_row_some]. exists u. split; [by symmetry|done].
  - intros (u & Hname & Hu). destruct (first_row _ _) as [v|] eqn:Hf; [by eexists|].
    exfalso. apply (proj1 (first_row_none _ _) Hf u Hu). by symmetry.
Qed.

(** The administrator bootstrap, without driver failures: an existing account of
    that name is left untouched, its stored hash included, whatever password is
    configured; otherwise an administrator with that name and a hash that verifies
    the configured password is appended, and running the bootstrap again changes
    nothing. *)
Theorem EnsureAdmin_spec `{Sqlite} `{Argon2Laws} name pw d now rand :
  name <> "" -> pw <> "" -> Forall (Forall is_byte) rand ->
  (name_taken name d -> EnsureAdmin name pw (Quiet d now rand) = (Ok tt, Quiet d now rand)) /\
  (forall salt rest, ~ name_taken name d -> rand = salt :: rest ->
     exists hash d', VerifyPassword pw hash = Ok true /\
       d' = set_users (insert_row (fun id => UserRow id name hash true now) (users d)) d /\
       EnsureAdmin name pw (Quiet d now rand) = (Ok tt, Quiet d' now rest) /\
       forall pw' now' rand', pw' <> "" -> EnsureAdmin name pw' (Quiet d' now' rand') = (Ok tt, Quiet d' now' rand')).
Proof.
  intros Hn Hpw Hrand.
  assert (forall pw d now rand, pw <> "" -> name_taken name d ->
    EnsureAdmin name pw (Quiet d now rand) = (Ok tt, Quiet d now rand)) as Htaken.
  { clear d now rand pw Hpw Hrand. intros pw d now rand Hpw Ht. unfold EnsureAdmin.
    rewrite bool_decide_false by (by intros [?|?]).
    destruct (GetByUsername_quiet name d now rand) as (o & Hg & Ho). rewrite (bind_ok _ _ _ _ _ Hg).
    destruct o as [u|]; [done|]. apply Ho in Ht as [? ?]. done. }
  split; [by apply Htaken|]. intros salt rest Hfree ->. apply Forall_cons in Hrand as [Hsalt _].
  exists (phc salt (password_key pw salt)). eexists. split_and!; [by rewrite Verify_phc_key, bool_decide_true|done| |].
  - unfold EnsureAdmin. rewrite bool_decide_false by (by intros [?|?]).
    destruct (GetByUsername_quiet name d now (salt :: rest)) as (o & Hg & Ho). rewrite (bind_ok _ _ _ _ _ Hg).
    destruct o as [u|]; [by destruct Hfree; apply Ho|].
    rewrite (bind_ok _ _ _ (phc salt (password_key pw salt)) (Quiet d now rest)) by done.
    unfold CreateAdmin. rewrite (bind_ok _ _ _ (Ok (UserRow (next_id (users d)) name (phc salt (password_key pw salt)) true now))
      (Quiet (set_users (insert_row (fun id => UserRow id name (phc salt (password_key pw salt)) true now) (users d)) d) now rest));
      [done|].
    apply try_eq. rewrite bind_now, bind_try_exec, insert_user_free by done. done.
  - intros pw' now' rand' Hpw'. apply Htaken; [done|]. unfold name_taken. destruct d. cbn.
    rewrite fmap_app. apply elem_of_app. right. left.
Qed.

(** ** Witnesses *)

(** A key derivation that hashes its inputs, cut to the length asked for. *)
#[global, program] Instance sim_argon2 : Argon2 | 100 :=
  {| Argon2Version := 19;
     IDKey p salt t m n len := resize (Z.to_nat len) 0 ((fun b => b mod 256) <$> (p ++ salt ++ [t; m; n])) |}.
#[global, program] Instance sim_argon2_laws : Argon2Laws | 100 := {| version_small := _ |}.
Next Obligation. done. Qed.
Next Obligation.
  intros. cbn. apply Forall_resize; [done|]. apply Forall_fmap, Forall_true. intros b. by apply Z.mod_pos_bound.
Qed.
Next Obligation. intros. cbn. apply length_resize. Qed.

Definition demo_salt : list Z := [1; 2; 3; 4; 5; 6; 7; 8; 9; 10; 11; 12; 13; 14; 15; 16].
Lemma demo_salt_bytes : Forall (Forall is_byte) [demo_salt].
Proof.
  apply Forall_singleton. unfold demo_salt.
  repeat (apply Forall_cons; split; [unfold is_byte; lia|]). apply Forall_nil_2.
Qed.

Lemma password_roundtrip_witness :
  exists h, HashPassword "Secret123" (Quiet empty_db 0 [demo_salt]) = (Ok h, Quiet empty_db 0 []) /\
    VerifyPassword "Secret123" h = Ok true.
Proof.
  eexists. split; [reflexivity|].
  by destruct (password_roundtrip "Secret123" (Quiet empty_db 0 [demo_salt]) _ _ eq_refl demo_salt_bytes) as (? & ? & ? & ?).
Defined.

(** A library whose tokens are looked up in a one-entry table. *)
Definition demo_claims : jwtClaims := mkJwt "ann" true "7" 100 3700.
#[global] Instance sim_jwt : JwtLib | 100 :=
  {| SignedString c secret := if decide (c = demo_claims /\ secret = "s") then Some "token" else None;
     ParseWithClaims t secret now :=
       if decide (t = "token" /\ secret = "s" /\ now < 3700 * 1000000000) then Some demo_claims else None |}.
#[global, program] Instance sim_jwt_laws : JwtLaws | 100 := {| parse_signed := _ |}.
Next Obligation.
  intros c secret t now. unfold SignedString, ParseWithClaims, sim_jwt. case_decide as Hc; [|done].
  destruct Hc as [-> ->]. intros [= <-]. change (jc_ExpiresAt demo_claims) with 3700.
  destruct (Z.ltb_spec now (3700 * 1000000000)) as [Hlt|Hge].
  - by rewrite decide_True.
  - rewrite decide_False; [done|]. intros (_ & _ & Hlt). lia.
Qed.

Lemma session_token_roundtrip_witness :
  IssueJWT (mkJWTManager "s" 3600000000000) 100000000000 (mkClaims 7 "ann" true) = Some "token" /\
  VerifyJWT (mkJWTManager "s" 3600000000000) 200000000000 "token" = Some (mkClaims 7 "ann" true).
Proof.
  split; [done|]. by rewrite (session_token_roundtrip _ 100000000000 (mkClaims 7 "ann" true)).
Defined.

Lemma EnsureAdmin_spec_witness : exists d',
  EnsureAdmin "root" "Secret123" (Quiet empty_db 5 [demo_salt]) = (Ok tt, Quiet d' 5 []) /\
  EnsureAdmin "root" "Other456" (Quiet d' 9 []) = (Ok tt, Quiet d' 9 []).
Proof.
  destruct (EnsureAdmin_spec "root" "Secret123" empty_db 5 [demo_salt] ltac:(done) ltac:(done) demo_salt_bytes)
    as [_ Hnew].
  destruct (Hnew demo_salt [] (fun H => not_elem_of_nil _ H) eq_refl) as (hash & d' & _ & _ & H1 & H2).
  exists d'. split; [done|]. by apply H2.
Defined.
