(* ===== verification/Netfw.v ===== *)
(** * The isolation table ([internal/server/netfw])

    [Manager]'s methods against the kernel as [google/nftables] exposes it. The
    library and the kernel are a parameter: a class of operations on an opaque
    kernel state, with the laws the manager relies on (a flush is atomic, a read
    reports the ruleset) as a second class. *)
From S2P Require Import Prelude GoStrings Netip Ipam.

#[local] Open Scope lw_scope.

(** ** What the manager sends and reads *)

(** The expressions of [nftables/expr] the manager builds, with their fields. *)
Inductive Expr : Type :=
| Meta_NFPROTO (reg : Z)
| Cmp (eq : bool) (reg : Z) (data : list Z)
| PayloadNetwork (dreg offset len : Z)
| Lookup (sreg : Z) (set : string)
| Ct_STATE (reg : Z)
| Bitwise (sreg dreg len : Z) (mask xor : list Z)
| VerdictAccept.
#[export] Instance Expr_eq_dec : EqDecision Expr.
Proof. solve_decision. Defined.

(** [nftables.SetElement]: the key bytes and the [IntervalEnd] flag. *)
Abbreviation SetElement := (list Z * bool)%type.
Record NftSet : Type := mkSet { set_interval : bool; set_elems : gset SetElement }.
(** A rule and the handle the kernel gave it. *)
Record Rule : Type := mkRule { rule_handle : Z; rule_exprs : list Expr }.
Record Chain : Type := mkChain { policy_drop : bool; chain_rules : list Rule }.
Record Table : Type := mkTable { chains : gmap string Chain; sets : gmap string NftSet; next_handle : Z }.
(** The inet tables by name. *)
Abbreviation Ruleset := (gmap string Table).

(** The messages of one batch. *)
Inductive NftOp : Type :=
| DelTable (t : string)
| AddTable (t : string)
| AddForwardChain (t chain : string)   (** filter, hook forward, policy drop *)
| AddRule (t chain : string) (e : list Expr)
| DelRule (t chain : string) (handle : Z)
| AddSet (t name : string) (interval : bool) (elems : list SetElement)
| SetAddElements (t name : string) (elems : list SetElement)
| SetDeleteElements (t name : string) (elems : list SetElement)
| DelSet (t name : string).

Definition lookup_sets (e : list Expr) : list string :=
  omap (fun x => match x with Lookup _ s => Some s | _ => None end) e.

Definition on_table (t : string) (f : Table -> option Table) (r : Ruleset) : option Ruleset :=
  tb ← r !! t; tb' ← f tb; Some (<[t := tb']> r).
Definition on_chain (c : string) (f : Chain -> Chain) (tb : Table) : option Table :=
  ch ← chains tb !! c; Some (mkTable (<[c := f ch]> (chains tb)) (sets tb) (next_handle tb)).
Definition bump (tb : Table) : Table := mkTable (chains tb) (sets tb) (next_handle tb + 1).
Definition on_set (s : string) (f : gset SetElement -> gset SetElement) (tb : Table) : option Table :=
  st ← sets tb !! s;
  Some (mkTable (chains tb) (<[s := mkSet (set_interval st) (f (set_elems st))]> (sets tb)) (next_handle tb)).
Definition referenced (s : string) (tb : Table) : Prop :=
  map_Exists (fun _ ch => Exists (fun r => s ∈ lookup_sets (rule_exprs r)) (chain_rules ch)) (chains tb).
#[export] Instance referenced_dec s tb : Decision (referenced s tb).
Proof. unfold referenced. apply _. Defined.

(** The effect of one message, [None] when the kernel rejects it: the object it
    names is missing, a rule refers to a missing set, or a set still in use is
    deleted. The laws below only say what a batch did when it succeeded, so a
    kernel that also rejects adding a present element or deleting a missing one
    satisfies them. *)
Definition apply_op (op : NftOp) (r : Ruleset) : option Ruleset :=
  match op with
  | DelTable t => if decide (is_Some (r !! t)) then Some (delete t r) else None
  | AddTable t => Some (match r !! t with Some _ => r | None => <[t := mkTable ∅ ∅ 1]> r end)
  | AddForwardChain t c =>
      on_table t (fun tb => Some (mkTable
        (match chains tb !! c with Some _ => chains tb | None => <[c := mkChain true []]> (chains tb) end)
        (sets tb) (next_handle tb))) r
  | AddRule t c e =>
      on_table t (fun tb =>
        if decide (Forall (fun s => is_Some (sets tb !! s)) (lookup_sets e))
        then on_chain c (fun ch => mkChain (policy_drop ch) (chain_rules ch ++ [mkRule (next_handle tb) e])) (bump tb)
        else None) r
  | DelRule t c h =>
      on_table t (on_chain c (fun ch => mkChain (policy_drop ch) (filter (fun x => rule_handle x <> h) (chain_rules ch)))) r
  | AddSet t s i elems =>
      on_table t (fun tb => Some (mkTable (chains tb)
        (match sets tb !! s with
         | Some st => <[s := mkSet (set_interval st) (set_elems st ∪ list_to_set elems)]> (sets tb)
         | None => <[s := mkSet i (list_to_set elems)]> (sets tb)
         end) (next_handle tb))) r
  | SetAddElements t s elems => on_table t (on_set s (fun x => x ∪ list_to_set elems)) r
  | SetDeleteElements t s elems => on_table t (on_set s (fun x => x ∖ list_to_set elems)) r
  | DelSet t s =>
      on_table t (fun tb => if decide (is_Some (sets tb !! s) /\ ~ referenced s tb)
                            then Some (mkTable (chains tb) (delete s (sets tb)) (next_handle tb)) else None) r
  end.

Fixpoint apply_batch (ops : list NftOp) (r : Ruleset) : option Ruleset :=
  match ops with [] => Some r | op :: ops => r' ← apply_op op r; apply_batch ops r' end.

(** ** The library *)

Class Nftables (K : Type) : Type :=
  { nft_New : M unit K unit;
    nft_ListTables : M unit K (list string);
    nft_ListChains : M unit K (list (string * string));  (** table, chain *)
    nft_GetSetByName : string -> string -> M unit K NftSet;
    nft_GetRules : string -> string -> M unit K (list Rule);
    nft_Flush : list NftOp -> M unit K unit }.

(** What the manager relies on: the ruleset behind a kernel state. *)
Class NftablesLaws (K : Type) `{Nftables K} : Type :=
  { nft_view : K -> Ruleset;
    nft_new_view k : nft_view (snd (nft_New k)) = nft_view k;
    nft_tables_view k : nft_view (snd (nft_ListTables k)) = nft_view k;
    nft_chains_view k : nft_view (snd (nft_ListChains k)) = nft_view k;
    nft_set_view t s k : nft_view (snd (nft_GetSetByName t s k)) = nft_view k;
    nft_rules_view t c k : nft_view (snd (nft_GetRules t c k)) = nft_view k;
    nft_tables_ok k l : fst (nft_ListTables k) = Ok l -> forall t, t ∈ l <-> is_Some (nft_view k !! t);
    nft_tables_nodup k l : fst (nft_ListTables k) = Ok l -> NoDup l;
    nft_chains_ok k l : fst (nft_ListChains k) = Ok l -> forall t c,
      (t, c) ∈ l <-> exists tb, nft_view k !! t = Some tb /\ is_Some (chains tb !! c);
    nft_set_ok t s k st : fst (nft_GetSetByName t s k) = Ok st ->
      exists tb, nft_view k !! t = Some tb /\ sets tb !! s = Some st;
    nft_rules_ok t c k rs : fst (nft_GetRules t c k) = Ok rs ->
      exists tb ch, nft_view k !! t = Some tb /\ chains tb !! c = Some ch /\ rs = chain_rules ch;
    (** A batch is applied as a whole or not at all. *)
    nft_flush_ok ops k k' : nft_Flush ops k = (Ok tt, k') -> apply_batch ops (nft_view k) = Some (nft_view k');
    nft_flush_err ops k k' e : nft_Flush ops k = (Err e, k') -> nft_view k' = nft_view k }.

(** ** [Manager] *)

Record ZoneState : Type := mkNfZone { zst_id : Z; MemberIPs : list Addr; RouteCIDRs : list Prefix }.

Definition zoneSetName (id : Z) : string := "zone_" +:+ pretty id.
Definition routesSetName (id : Z) : string := "zone_" +:+ pretty id +:+ "_routes".

Definition NFPROTO_IPV4 : Z := 2.
Definition CtStateBitESTABLISHED : Z := 2.
Definition CtStateBitRELATED : Z := 4.
(** [binaryutil.NativeEndian.PutUint32] on the little-endian platforms the relay
    is built for. *)
Definition NativeEndian_PutUint32 (v : Z) : list Z := rev (be_PutUint32 v).

Definition ipElements (ips : list Addr) : list SetElement := (fun ip => (As4 ip, false)) <$> ips.

Definition sameZoneAcceptExprs (set : string) : list Expr :=
  [Meta_NFPROTO 1; Cmp true 1 [NFPROTO_IPV4];
   PayloadNetwork 1 12 4; Lookup 1 set;
   PayloadNetwork 1 16 4; Lookup 1 set; VerdictAccept].

Definition zoneRouteAcceptExprs (members routes : string) : list Expr :=
  [Meta_NFPROTO 1; Cmp true 1 [NFPROTO_IPV4];
   PayloadNetwork 1 12 4; Lookup 1 members;
   PayloadNetwork 1 16 4; Lookup 1 routes; VerdictAccept].

Definition ctEstablishedAcceptExprs : list Expr :=
  [Ct_STATE 1;
   Bitwise 1 1 4 (NativeEndian_PutUint32 (Z.lor CtStateBitESTABLISHED CtStateBitRELATED))
     (NativeEndian_PutUint32 0);
   Cmp false 1 [0; 0; 0; 0]; VerdictAccept].

Definition rangeElements (p : Prefix) : list SetElement :=
  let b := BlockFromPrefix p in
  let start := As4 (Uint32ToAddr (Base b)) in
  let endExclusive := Base b + Z.shiftl 1 (32 - PrefixLen b) in
  let end_ := if 0xFFFFFFFF <? endExclusive then [0xFF; 0xFF; 0xFF; 0xFF]
              else As4 (Uint32ToAddr (u32 endExclusive)) in
  [(start, false); (end_, true)].

Arguments rangeElements : simpl never.

Definition ruleReferencesSet (r : Rule) (setName : string) : bool :=
  existsb (fun e => match e with Lookup _ s => bool_decide (s = setName) | _ => false end) (rule_exprs r).

Section Manager.
  Context {K : Type} `{Nftables K} (table : string).

  (** An error of the library or the kernel; its text is not modelled. *)
  Abbreviation NM := (M unit K).

Definition zone_ops (z : ZoneState) : list NftOp :=
    let set := zoneSetName (zst_id z) in
    let routes := routesSetName (zst_id z) in
    [AddSet table set false (ipElements (MemberIPs z));
     AddRule table "forward" (sameZoneAcceptExprs set);
     AddSet table routes true []]
    ++ ((fun p => SetAddElements table routes (rangeElements p)) <$> RouteCIDRs z)
    ++ [AddRule table "forward" (zoneRouteAcceptExprs set routes)].

Definition Rebuild (zones : list ZoneState) : NM unit :=
    do! nft_New in
    let! existing := nft_ListTables in
    do! nft_Flush (DelTable <$> filter (fun t => t = table) existing) in
    nft_Flush ([AddTable table; AddForwardChain table "forward";
                AddRule table "forward" ctEstablishedAcceptExprs]
               ++ (zones ≫= zone_ops)).

Definition tableAndChain : NM unit :=
    let! chains := nft_ListChains in
    match filter (fun tc => tc.1 = table /\ tc.2 = "forward") chains with
    | _ :: _ => ret tt
    | [] => throw tt
    end.

Definition AddZone (zoneID : Z) : NM unit :=
    do! nft_New in
    do! tableAndChain in
    nft_Flush (zone_ops (mkNfZone zoneID [] [])).

Definition edit_set (setName : string) (op : list NftOp) : NM unit :=
    do! nft_New in
    do! nft_GetSetByName table setName in
    nft_Flush op.

Definition AddZoneRoute (zoneID : Z) (prefix : Prefix) : NM unit :=
    edit_set (routesSetName zoneID) [SetAddElements table (routesSetName zoneID) (rangeElements prefix)].
Definition RemoveZoneRoute (zoneID : Z) (prefix : Prefix) : NM unit :=
    edit_set (routesSetName zoneID) [SetDeleteElements table (routesSetName zoneID) (rangeElements prefix)].
Definition AddMember (zoneID : Z) (ip : Addr) : NM unit :=
    edit_set (zoneSetName zoneID) [SetAddElements table (zoneSetName zoneID) (ipElements [ip])].
Definition RemoveMember (zoneID : Z) (ip : Addr) : NM unit :=
    edit_set (zoneSetName zoneID) [SetDeleteElements table (zoneSetName zoneID) (ipElements [ip])].

  (** A set that cannot be read back is skipped silently. *)
Definition delete_set (setName : string) : NM unit :=
    let! r := try (nft_GetSetByName table setName) in
    match r with
    | Ok _ => nft_Flush [DelSet table setName]
    | Err _ => ret tt
    end.

Definition DeleteZone (zoneID : Z) : NM unit :=
    do! nft_New in
    do! tableAndChain in
    let setNames := [zoneSetName zoneID; routesSetName zoneID] in
    let! rules := nft_GetRules table "forward" in
    let doomed := filter (fun r => existsb (ruleReferencesSet r) setNames = true) rules in
    do! (match doomed with
         | [] => ret tt
         | _ => nft_Flush ((fun r => DelRule table "forward" (rule_handle r)) <$> doomed)
         end) in
    for_each setNames delete_set.
End Manager.
