(* ===== verification/NetfwProps.v ===== *)
(** * The isolation table is what the zones say

    The abstract state of the table, zone ids with their members and routes, the
    relation between it and the kernel's ruleset, and that each method of the
    manager moves one along the other. *)
From Stdlib Require Import Ascii.
From S2P Require Import Prelude GoStrings Netip Ipam Netfw.

#[local] Open Scope lw_scope.

(** ** Set names *)

Lemma zoneSetName_inj i j : zoneSetName i = zoneSetName j -> i = j.
Proof. intros Heq. apply (inj (String.append "zone_")) in Heq. by apply (inj pretty) in Heq. Qed.

Lemma id_no_underscore (i : Z) : no_char "_"%char (pretty i) = true.
Proof. by apply pretty_Z_no_char. Qed.

Lemma routesSetName_inj i j : routesSetName i = routesSetName j -> i = j.
Proof.
  intros Heq. apply (inj (String.append "zone_")) in Heq.
  apply (f_equal (Cut "_"%char)) in Heq.
  change "_routes" with (String "_"%char "" +:+ "routes") in Heq.
  rewrite !Cut_app in Heq by apply id_no_underscore. injection Heq as Heq. by apply (inj pretty) in Heq.
Qed.

Lemma names_disjoint i j : zoneSetName i <> routesSetName j.
Proof.
  unfold zoneSetName, routesSetName. intros Heq. apply (inj (String.append "zone_")) in Heq.
  pose proof (id_no_underscore i) as Hno. rewrite Heq, chars_app, andb_false_r in Hno. done.
Qed.

(** ** The abstract state and its representation *)

(** Zone ids in rule order, the members and the routes of each. *)
Record Iso : Type := mkIso
  { iso_ids : list Z; iso_mem : Z -> gset Addr; iso_rts : Z -> gset Prefix }.

Definition zone_rules (i : Z) : list (list Expr) :=
  [sameZoneAcceptExprs (zoneSetName i); zoneRouteAcceptExprs (zoneSetName i) (routesSetName i)].
Definition iso_rules (ids : list Z) : list (list Expr) := ctEstablishedAcceptExprs :: (ids ≫= zone_rules).

Definition member_elems (ips : gset Addr) (st : NftSet) : Prop :=
  set_interval st = false /\ forall e, e ∈ set_elems st <-> exists ip, ip ∈ ips /\ e = (As4 ip, false).
Definition route_elems (ps : gset Prefix) (st : NftSet) : Prop :=
  set_interval st = true /\ forall e, e ∈ set_elems st <-> exists p, p ∈ ps /\ e ∈ rangeElements p.

Definition handles_ok (tb : Table) (ch : Chain) : Prop :=
  NoDup (rule_handle <$> chain_rules ch) /\ forall r, r ∈ chain_rules ch -> rule_handle r < next_handle tb.

(** The table holds exactly the abstract state; sets of other zones may linger. *)
Record table_repr (I : Iso) (tb : Table) (ch : Chain) : Prop := mkRepr
  { tr_chain : chains tb = {["forward" := ch]};
    tr_policy : policy_drop ch = true;
    tr_rules : rule_exprs <$> chain_rules ch = iso_rules (iso_ids I);
    tr_handles : handles_ok tb ch;
    tr_ids : NoDup (iso_ids I);
    tr_mem i : i ∈ iso_ids I -> exists st, sets tb !! zoneSetName i = Some st /\ member_elems (iso_mem I i) st;
    tr_rts i : i ∈ iso_ids I -> exists st, sets tb !! routesSetName i = Some st /\ route_elems (iso_rts I i) st }.

Definition fresh_zone (i : Z) (tb : Table) : Prop :=
  sets tb !! zoneSetName i = None /\ sets tb !! routesSetName i = None.

(** No zone above [n] has ever had a set. *)
Definition synced (t : string) (n : Z) (I : Iso) (r : Ruleset) : Prop :=
  exists tb ch, r !! t = Some tb /\ table_repr I tb ch /\ forall i, n < i -> fresh_zone i tb.

Lemma table_repr_ext I I' tb ch :
  iso_ids I = iso_ids I' -> (forall i, i ∈ iso_ids I -> iso_mem I i = iso_mem I' i /\ iso_rts I i = iso_rts I' i) ->
  table_repr I tb ch -> table_repr I' tb ch.
Proof.
  intros Hids Heq []. constructor; rewrite <- ?Hids; try done.
  - intros i Hi. destruct (Heq i Hi) as [<- _]. auto.
  - intros i Hi. destruct (Heq i Hi) as [_ <-]. auto.
Qed.

Lemma on_table_some t f r r' :
  on_table t f r = Some r' <-> exists tb tb', r !! t = Some tb /\ f tb = Some tb' /\ r' = <[t := tb']> r.
Proof.
  unfold on_table. destruct (r !! t) as [tb|]; simpl; [|naive_solver].
  destruct (f tb) as [tb'|] eqn:Hf; simpl; naive_solver.
Qed.
Lemma apply_batch_app a b r : apply_batch (a ++ b) r = (apply_batch a r ≫= apply_batch b).
Proof. revert r. induction a as [|op a IH]; intros r; simpl; [done|]. by destruct (apply_op op r); simpl. Qed.

(** *** Rules *)

(** Appending a rule whose sets exist. *)
Definition add_rule (e : list Expr) (tb : Table) (ch : Chain) : Table * Chain :=
  let ch' := mkChain (policy_drop ch) (chain_rules ch ++ [mkRule (next_handle tb) e]) in
  (mkTable {["forward" := ch']} (sets tb) (next_handle tb + 1), ch').

Lemma AddRule_inv t e r r' tb ch :
  apply_op (AddRule t "forward" e) r = Some r' -> r !! t = Some tb -> chains tb = {["forward" := ch]} ->
  r' = <[t := (add_rule e tb ch).1]> r.
Proof.
  intros (tb0 & tb' & Htb & Hf & ->)%on_table_some Htb' Hch. rewrite Htb in Htb'. injection Htb' as ->.
  case_decide; [|done]. unfold on_chain, bump in Hf. simpl in Hf. rewrite Hch, lookup_singleton_eq in Hf.
  injection Hf as <-. unfold add_rule. simpl. by rewrite insert_singleton_eq.
Qed.

Lemma add_rule_handles e tb ch : handles_ok tb ch -> handles_ok (add_rule e tb ch).1 (add_rule e tb ch).2.
Proof.
  intros [Hnd Hlt]. unfold handles_ok, add_rule. simpl. rewrite fmap_app. split.
  - apply NoDup_app. split_and!; [done| |apply NoDup_singleton]. simpl.
    intros h (r & -> & Hr)%list_elem_of_fmap Heq%list_elem_of_singleton. specialize (Hlt r Hr). lia.
  - intros r [Hr| ->%list_elem_of_singleton]%elem_of_app; [specialize (Hlt r Hr)|simpl]; lia.
Qed.

(** *** Installing a zone *)

Definition add_iso (i : Z) (ips : gset Addr) (ps : gset Prefix) (I : Iso) : Iso :=
  mkIso (iso_ids I ++ [i]) (fun j => if decide (j = i) then ips else iso_mem I j)
    (fun j => if decide (j = i) then ps else iso_rts I j).

(** The routes set after the loop that adds the announced blocks one by one. *)
Lemma add_routes_inv t s l r r' tb st :
  apply_batch ((fun p => SetAddElements t s (rangeElements p)) <$> l) r = Some r' ->
  r !! t = Some tb -> sets tb !! s = Some st ->
  exists x, r' = <[t := mkTable (chains tb) (<[s := mkSet (set_interval st) x]> (sets tb)) (next_handle tb)]> r /\
    forall e, e ∈ x <-> e ∈ set_elems st \/ exists p, p ∈ l /\ e ∈ rangeElements p.
Proof.
  revert r tb st. induction l as [|p l IH]; intros r tb st Hb Htb Hst; cbn [fmap list_fmap apply_batch apply_op] in Hb.
  { injection Hb as <-. exists (set_elems st). split.
    - assert (mkTable (chains tb) (<[s := mkSet (set_interval st) (set_elems st)]> (sets tb)) (next_handle tb) = tb) as ->.
      { destruct tb as [c ss n]; simpl in *. f_equal. apply insert_id. rewrite Hst. by destruct st. }
      symmetry. by apply insert_id.
    - intros e. split; [by left|]. intros [|(p & ?%not_elem_of_nil & _)]; done. }
  destruct (on_table _ _ r) as [r1|] eqn:Hr1; [|done]. cbn [mbind option_bind] in Hb.
  apply on_table_some in Hr1 as (tb0 & tb1 & Htb0 & Hf & ->). rewrite Htb in Htb0. injection Htb0 as <-.
  unfold on_set in Hf. rewrite Hst in Hf. apply (inj Some) in Hf as <-.
  eapply IH in Hb as (x & -> & Hx); [|by rewrite lookup_insert_eq|cbn [sets]; by rewrite lookup_insert_eq].
  exists x. cbn [chains sets next_handle set_interval]. rewrite !insert_insert_eq. split; [done|]. intros e. rewrite Hx. cbn [set_elems].
  rewrite elem_of_union, elem_of_list_to_set. setoid_rewrite elem_of_cons. naive_solver.
Qed.

Lemma zone_ops_inv t z r r' I tb ch :
  apply_batch (zone_ops t z) r = Some r' -> r !! t = Some tb -> table_repr I tb ch ->
  zst_id z ∉ iso_ids I -> fresh_zone (zst_id z) tb ->
  exists tb' ch', r' = <[t := tb']> r /\
    table_repr (add_iso (zst_id z) (list_to_set (MemberIPs z)) (list_to_set (RouteCIDRs z)) I) tb' ch' /\
    forall s, s <> zoneSetName (zst_id z) -> s <> routesSetName (zst_id z) -> sets tb' !! s = sets tb !! s.
Proof.
  intros Hb Htb [] Hid [Hz Hr]. set (i := zst_id z) in *.
  unfold zone_ops in Hb. fold i in Hb. rewrite app_assoc, apply_batch_app in Hb. cbn [app] in Hb.
  destruct (apply_batch _ r) as [r4|] eqn:H4; [|done]. cbn [mbind option_bind apply_batch] in Hb.
  cbn [app apply_batch] in H4.
  destruct (apply_op (AddSet _ _ _ _) r) as [r1|] eqn:H1; [|done]. cbn [mbind option_bind] in H4.
  destruct (apply_op (AddRule _ _ _) r1) as [r2|] eqn:H2; [|done]. cbn [mbind option_bind] in H4.
  destruct (apply_op (AddSet _ _ _ _) r2) as [r3|] eqn:H3; [|done]. cbn [mbind option_bind] in H4.
  destruct (apply_op (AddRule t "forward" (zoneRouteAcceptExprs _ _)) r4) as [r5|] eqn:H5; [|done]. injection Hb as <-.
  cbn [apply_op] in H1. apply on_table_some in H1 as (tb0 & tb1 & Htb0 & Hf1 & ->).
  rewrite Htb in Htb0. injection Htb0 as <-. rewrite Hz in Hf1. injection Hf1 as <-.
  eapply AddRule_inv in H2; [|by rewrite lookup_insert_eq|exact tr_chain0]. subst r2.
  cbn [apply_op] in H3. apply on_table_some in H3 as (tb2 & tb3 & Htb2 & Hf3 & ->).
  rewrite lookup_insert_eq in Htb2. injection Htb2 as <-. cbn [add_rule fst snd sets chains next_handle] in Hf3.
  rewrite lookup_insert_ne, Hr in Hf3 by apply names_disjoint. injection Hf3 as <-.
  eapply add_routes_inv in H4 as (x & Hr4 & Hx); [|by rewrite lookup_insert_eq|simpl; by rewrite lookup_insert_eq]. rewrite Hr4 in H5. clear Hr4.
  eapply AddRule_inv in H5; [|by rewrite lookup_insert_eq|reflexivity]. subst r5.
  rewrite !insert_insert_eq. do 2 eexists. split; [reflexivity|]. simpl. rewrite insert_insert_eq. split.
  - constructor; simpl.
    + reflexivity.
    + done.
    + cbn [chain_rules]. rewrite !fmap_app, tr_rules0. unfold iso_rules. simpl. f_equal. rewrite bind_app. simpl.
      by rewrite <- app_assoc.
    + pose proof (add_rule_handles (sameZoneAcceptExprs (zoneSetName i)) _ _ tr_handles0) as Hh1.
      pose proof (add_rule_handles (zoneRouteAcceptExprs (zoneSetName i) (routesSetName i)) _ _ Hh1) as Hh2.
      exact Hh2.
    + apply NoDup_app. split_and!; [done| |apply NoDup_singleton]. by intros j Hj ->%list_elem_of_singleton.
    + intros j Hj. destruct (decide (j = i)) as [->|Hne].
      * eexists. rewrite lookup_insert_ne by (intros Heq; by apply (names_disjoint i i)).
        rewrite lookup_insert_eq. split; [done|]. split; [done|]. intros e. simpl.
        rewrite elem_of_list_to_set. unfold ipElements. rewrite list_elem_of_fmap.
        setoid_rewrite elem_of_list_to_set. naive_solver.
      * apply elem_of_app in Hj as [Hj|?%list_elem_of_singleton]; [|done].
        destruct (tr_mem0 j Hj) as (st & Hst & Hm). exists st. split; [|done].
        rewrite lookup_insert_ne by (intros Heq; by apply (names_disjoint j i)).
        rewrite lookup_insert_ne; [done|]. by intros ?%zoneSetName_inj.
    + intros j Hj. destruct (decide (j = i)) as [->|Hne].
      * eexists. rewrite lookup_insert_eq. split; [done|]. split; [done|]. intros e. rewrite Hx. simpl.
        setoid_rewrite elem_of_list_to_set. split; [intros [?%not_elem_of_empty|]; done|by right].
      * apply elem_of_app in Hj as [Hj|?%list_elem_of_singleton]; [|done].
        destruct (tr_rts0 j Hj) as (st & Hst & Hm). exists st. split; [|done].
        rewrite lookup_insert_ne by (by intros ?%routesSetName_inj).
        rewrite lookup_insert_ne; [done|]. apply names_disjoint.
  - intros s Hs1 Hs2. by rewrite !lookup_insert_ne.
Qed.

(** *** Rebuilding *)

Definition zone_iso (z : ZoneState) : Iso -> Iso :=
  add_iso (zst_id z) (list_to_set (MemberIPs z)) (list_to_set (RouteCIDRs z)).
Definition isos (zones : list ZoneState) (I : Iso) : Iso := foldl (fun I z => zone_iso z I) I zones.
Definition empty_iso : Iso := mkIso [] (fun _ => ∅) (fun _ => ∅).

Lemma isos_ids zones I : iso_ids (isos zones I) = iso_ids I ++ (zst_id <$> zones).
Proof.
  revert I. induction zones as [|z zones IH]; intros I; simpl; [by rewrite app_nil_r|].
  by rewrite IH; simpl; rewrite <- app_assoc.
Qed.
Lemma isos_other zones I i :
  i ∉ zst_id <$> zones -> iso_mem (isos zones I) i = iso_mem I i /\ iso_rts (isos zones I) i = iso_rts I i.
Proof.
  revert I. induction zones as [|z zones IH]; intros I Hi; simpl; [done|].
  rewrite fmap_cons, not_elem_of_cons in Hi. destruct Hi as [Hne Hi].
  destruct (IH (zone_iso z I) Hi) as [-> ->]. simpl. by rewrite !decide_False.
Qed.
Lemma isos_lookup zones I z :
  NoDup (zst_id <$> zones) -> z ∈ zones ->
  iso_mem (isos zones I) (zst_id z) = list_to_set (MemberIPs z) /\
  iso_rts (isos zones I) (zst_id z) = list_to_set (RouteCIDRs z).
Proof.
  revert I. induction zones as [|z' zones IH]; intros I; [by intros _ ?%not_elem_of_nil|].
  rewrite fmap_cons. intros [Hn Hnd]%NoDup_cons [->|Hz]%elem_of_cons; simpl.
  - destruct (isos_other zones (zone_iso z' I) (zst_id z') Hn) as [-> ->]. simpl. by rewrite !decide_True.
  - by apply IH.
Qed.

(** Nothing but the sets of the listed zones changes when zones are installed. *)
Lemma zones_inv t zones r r' I tb ch :
  apply_batch (zones ≫= zone_ops t) r = Some r' -> r !! t = Some tb -> table_repr I tb ch ->
  NoDup (zst_id <$> zones) -> (forall z, z ∈ zones -> (zst_id z ∉ iso_ids I) /\ fresh_zone (zst_id z) tb) ->
  exists tb' ch', r' = <[t := tb']> r /\ table_repr (isos zones I) tb' ch' /\
    forall i, i ∉ zst_id <$> zones -> fresh_zone i tb -> fresh_zone i tb'.
Proof.
  revert r I tb ch. induction zones as [|z zones IH]; intros r I tb ch Hb Htb Hr Hnd Hz.
  { injection Hb as <-. exists tb, ch. split; [symmetry; by apply insert_id|done]. }
  rewrite bind_cons, apply_batch_app in Hb.
  destruct (apply_batch (zone_ops t z) r) as [r1|] eqn:H1; [|done]. cbn [mbind option_bind] in Hb.
  rewrite fmap_cons in Hnd. apply NoDup_cons in Hnd as [Hn Hnd].
  destruct (Hz z) as [Hid Hfr]; [left|].
  destruct (zone_ops_inv _ _ _ _ _ _ _ H1 Htb Hr Hid Hfr) as (tb1 & ch1 & Hr1 & Hrep & Hsets). subst r1.
  assert (Hkeep : forall i, i <> zst_id z -> fresh_zone i tb -> fresh_zone i tb1).
  { intros i Hi [F1 F2]. unfold fresh_zone.
    rewrite (Hsets (zoneSetName i)); [|by intros ?%zoneSetName_inj|apply names_disjoint].
    rewrite (Hsets (routesSetName i)); [done|intros Heq; by apply (names_disjoint (zst_id z) i)|by intros ?%routesSetName_inj]. }
  destruct (IH _ (zone_iso z I) tb1 ch1 Hb) as (tb' & ch' & -> & Hrep' & Hfr'); [by rewrite lookup_insert_eq|done|done| |].
  - intros z' Hz'. destruct (Hz z') as [Hid' Hfr']; [by right|].
    assert (zst_id z' <> zst_id z) by (intros Heq; apply Hn; rewrite <- Heq; by apply list_elem_of_fmap_2).
    split; [|by apply Hkeep]. simpl. rewrite elem_of_app, list_elem_of_singleton. tauto.
  - exists tb', ch'. rewrite insert_insert_eq. split_and!; [done..|].
    intros i Hi Hf. rewrite fmap_cons, not_elem_of_cons in Hi. apply Hfr'; [tauto|]. apply Hkeep; tauto.
Qed.

(** *** Editing one set *)

Definition upd_mem (i : Z) (f : gset Addr -> gset Addr) (I : Iso) : Iso :=
  mkIso (iso_ids I) (fun j => if decide (j = i) then f (iso_mem I j) else iso_mem I j) (iso_rts I).
Definition upd_rts (i : Z) (f : gset Prefix -> gset Prefix) (I : Iso) : Iso :=
  mkIso (iso_ids I) (iso_mem I) (fun j => if decide (j = i) then f (iso_rts I j) else iso_rts I j).

Definition with_set (s : string) (st : NftSet) (tb : Table) : Table :=
  mkTable (chains tb) (<[s := st]> (sets tb)) (next_handle tb).

Lemma on_set_inv t s g r r' :
  on_table t (on_set s g) r = Some r' ->
  exists tb st, r !! t = Some tb /\ sets tb !! s = Some st /\
    r' = <[t := with_set s (mkSet (set_interval st) (g (set_elems st))) tb]> r.
Proof.
  intros (tb & tb' & Htb & Hf & ->)%on_table_some. unfold on_set in Hf.
  destruct (sets tb !! s) as [st|] eqn:Hst; [|done]. apply (inj Some) in Hf as <-. by exists tb, st.
Qed.

Lemma with_set_fresh i s st tb st' :
  sets tb !! s = Some st' -> fresh_zone i tb -> fresh_zone i (with_set s st tb).
Proof.
  intros Hs [H1 H2]. split; simpl; (rewrite lookup_insert_ne; [done|]); intros ->; congruence.
Qed.

Lemma repr_mem i f I tb ch st x :
  table_repr I tb ch -> sets tb !! zoneSetName i = Some st ->
  (i ∈ iso_ids I -> member_elems (iso_mem I i) st ->
     forall e, e ∈ x <-> exists ip, ip ∈ f (iso_mem I i) /\ e = (As4 ip, false)) ->
  table_repr (upd_mem i f I) (with_set (zoneSetName i) (mkSet (set_interval st) x) tb) ch.
Proof.
  intros [] Hst Hx. constructor; simpl; try done.
  - intros j Hj. destruct (decide (j = i)) as [->|Hne].
    + eexists. rewrite lookup_insert_eq. split; [done|]. destruct (tr_mem0 i Hj) as (st' & Hst' & Hm).
      rewrite Hst in Hst'. injection Hst' as <-. split; simpl; [apply Hm|]. by apply Hx.
    + destruct (tr_mem0 j Hj) as (st' & Hst' & Hm). exists st'.
      rewrite lookup_insert_ne by (by intros ?%zoneSetName_inj). done.
  - intros j Hj. destruct (tr_rts0 j Hj) as (st' & Hst' & Hm). exists st'.
    rewrite lookup_insert_ne by apply names_disjoint. done.
Qed.
Lemma repr_rts i f I tb ch st x :
  table_repr I tb ch -> sets tb !! routesSetName i = Some st ->
  (i ∈ iso_ids I -> route_elems (iso_rts I i) st ->
     forall e, e ∈ x <-> exists p, p ∈ f (iso_rts I i) /\ e ∈ rangeElements p) ->
  table_repr (upd_rts i f I) (with_set (routesSetName i) (mkSet (set_interval st) x) tb) ch.
Proof.
  intros [] Hst Hx. constructor; simpl; try done.
  - intros j Hj. destruct (tr_mem0 j Hj) as (st' & Hst' & Hm). exists st'.
    rewrite lookup_insert_ne; [done|]. intros Heq. by apply (names_disjoint j i).
  - intros j Hj. destruct (decide (j = i)) as [->|Hne].
    + eexists. rewrite lookup_insert_eq. split; [done|]. destruct (tr_rts0 i Hj) as (st' & Hst' & Hm).
      rewrite Hst in Hst'. injection Hst' as <-. split; simpl; [apply Hm|]. by apply Hx.
    + destruct (tr_rts0 j Hj) as (st' & Hst' & Hm). exists st'.
      rewrite lookup_insert_ne by (by intros ?%routesSetName_inj). done.
Qed.

(** A block whose exclusive end is an address: the interval is not clamped. *)
Definition range_ok (p : Prefix) : Prop :=
  prefix_ok p /\ Base (BlockFromPrefix p) + size (BlockFromPrefix p) <= 0xFFFFFFFF.

Lemma rangeElements_eq p :
  range_ok p ->
  rangeElements p = [(As4 (Base (BlockFromPrefix p)), false);
                     (As4 (Base (BlockFromPrefix p) + size (BlockFromPrefix p)), true)].
Proof.
  intros [Hp Hend]. pose proof (BlockFromPrefix_ok p Hp) as (Hb & Hl & _). unfold rangeElements.
  pose proof (size_pos (BlockFromPrefix p) ltac:(lia)) as Hs. cbv zeta. fold (size (BlockFromPrefix p)).
  rewrite Uint32ToAddr_id by done. assert (is_u32 (Base (BlockFromPrefix p) + size (BlockFromPrefix p))).
  { unfold is_u32, W32 in *. lia. }
  rewrite u32_id, Uint32ToAddr_id by done.
  assert ((0xFFFFFFFF <? Base (BlockFromPrefix p) + size (BlockFromPrefix p)) = false) as -> by lia. done.
Qed.

(** Blocks that do not overlap share no interval boundary. *)
Lemma rangeElements_disjoint p q e :
  range_ok p -> range_ok q -> Overlaps (BlockFromPrefix p) (BlockFromPrefix q) = false ->
  e ∈ rangeElements p -> e ∈ rangeElements q -> False.
Proof.
  intros Hp Hq Ho. rewrite !rangeElements_eq by done.
  destruct Hp as [Hp Hpe], Hq as [Hq Hqe].
  pose proof (BlockFromPrefix_ok p Hp) as (Hpb & Hpl & _). pose proof (BlockFromPrefix_ok q Hq) as (Hqb & Hql & _).
  pose proof (size_pos (BlockFromPrefix p) ltac:(lia)). pose proof (size_pos (BlockFromPrefix q) ltac:(lia)).
  assert (forall x, in_block x (BlockFromPrefix p) -> in_block x (BlockFromPrefix q) -> False) as Hno.
  { intros x H1 H2. apply not_true_iff_false in Ho. apply Ho, Overlaps_iff; [lia|lia|]. by exists x. }
  unfold in_block in Hno. set (bp := Base _) in *. set (bq := Base (BlockFromPrefix q)) in *.
  set (sp := size (BlockFromPrefix p)) in *. set (sq := size (BlockFromPrefix q)) in *.
  assert (is_u32 (bp + sp)) by (unfold is_u32, W32 in *; lia).
  assert (is_u32 (bq + sq)) by (unfold is_u32, W32 in *; lia).
  rewrite !elem_of_cons. intros [->|[->|?%not_elem_of_nil]]; [| |done];
    intros [Heq|[Heq|?%not_elem_of_nil]]; try done; try discriminate Heq; apply (f_equal fst) in Heq; cbn [fst] in Heq.
  - apply As4_inj in Heq; [|done..]. apply (Hno bp); lia.
  - apply As4_inj in Heq; [|done..]. apply (Hno (bp + sp - 1)); lia.
Qed.

(** *** Deleting a zone *)

Definition del_iso (i : Z) (I : Iso) : Iso :=
  mkIso (filter (fun j => j <> i) (iso_ids I)) (iso_mem I) (iso_rts I).

Definition refs_zone (i : Z) (e : list Expr) : bool :=
  existsb (fun x => match x with
                    | Lookup _ s => bool_decide (s = zoneSetName i) || bool_decide (s = routesSetName i)
                    | _ => false end) e.

Lemma refs_zone_rule i r :
  existsb (ruleReferencesSet r) [zoneSetName i; routesSetName i] = refs_zone i (rule_exprs r).
Proof.
  unfold refs_zone, ruleReferencesSet. simpl. rewrite orb_false_r.
  induction (rule_exprs r) as [|e l IH]; simpl; [done|]. rewrite <- IH.
  destruct e; simpl; try done. by destruct (bool_decide _), (bool_decide _), (existsb _ l), (existsb _ l).
Qed.

Lemma refs_zone_ct i : refs_zone i ctEstablishedAcceptExprs = false.
Proof. done. Qed.
Lemma refs_zone_rules i j e : e ∈ zone_rules j -> refs_zone i e = bool_decide (i = j).
Proof.
  assert (bool_decide (zoneSetName j = routesSetName i) = false) as Hn1
    by (apply bool_decide_false, names_disjoint).
  assert (bool_decide (routesSetName j = zoneSetName i) = false) as Hn2
    by (apply bool_decide_false; intros Heq; by apply (names_disjoint i j)).
  assert (bool_decide (zoneSetName j = zoneSetName i) = bool_decide (i = j)) as Hz.
  { apply bool_decide_ext. split; [by intros ->%zoneSetName_inj|by intros ->]. }
  assert (bool_decide (routesSetName j = routesSetName i) = bool_decide (i = j)) as Hr.
  { apply bool_decide_ext. split; [by intros ->%routesSetName_inj|by intros ->]. }
  unfold zone_rules. rewrite !elem_of_cons. intros [->|[->|?%not_elem_of_nil]]; [| |done];
    unfold refs_zone; simpl; rewrite Hn1, Hz, ?Hn2, ?Hr; by destruct (bool_decide (i = j)).
Qed.

Lemma filter_bind_zone i ids :
  filter (fun e => refs_zone i e = false) (ids ≫= zone_rules) = filter (fun j => j <> i) ids ≫= zone_rules.
Proof.
  induction ids as [|j ids IH]; [done|]. rewrite bind_cons, filter_app, IH. destruct (decide (j = i)) as [->|Hne].
  - rewrite (filter_cons_False (fun j => j <> i)) by tauto.
    assert (filter (fun e => refs_zone i e = false) (zone_rules i) = []) as ->; [|done].
    assert (forall e, e ∉ filter (fun e => refs_zone i e = false) (zone_rules i)) as Hno.
    { intros e [Hf He]%list_elem_of_filter. rewrite (refs_zone_rules i i e He), bool_decide_true in Hf; done. }
    destruct (filter _ (zone_rules i)) as [|e l]; [done|]. exfalso. apply (Hno e). left.
  - rewrite (filter_cons_True (fun j => j <> i)), bind_cons by done. f_equal.
    assert (forall e, e ∈ zone_rules j -> refs_zone i e = false) as Hall.
    { intros e He. rewrite (refs_zone_rules i j e He). by apply bool_decide_false. }
    clear IH. induction (zone_rules j) as [|e l IHl]; [done|].
    rewrite filter_cons_True by (apply Hall; left). f_equal. apply IHl. intros e' He'. apply Hall. by right.
Qed.

Lemma filter_iso_rules i ids :
  filter (fun e => refs_zone i e = false) (iso_rules ids) = iso_rules (filter (fun j => j <> i) ids).
Proof. unfold iso_rules. rewrite filter_cons_True by done. by rewrite filter_bind_zone. Qed.

(** Deleting rules by handle. *)
Lemma DelRules_inv t hs r r' tb ch :
  apply_batch ((fun h => DelRule t "forward" h) <$> hs) r = Some r' ->
  r !! t = Some tb -> chains tb = {["forward" := ch]} ->
  r' = <[t := mkTable {["forward" := mkChain (policy_drop ch) (filter (fun x => rule_handle x ∉ hs) (chain_rules ch))]}
               (sets tb) (next_handle tb)]> r.
Proof.
  revert r tb ch. induction hs as [|h hs IH]; intros r tb ch Hb Htb Hch.
  - injection Hb as <-. symmetry. apply insert_id. rewrite Htb. f_equal. destruct tb as [c s n]. simpl in *.
    rewrite Hch. f_equal. f_equal. destruct ch as [pd rs]. simpl. f_equal. symmetry.
    apply filter_all. intros x _. apply not_elem_of_nil.
  - cbn [fmap list_fmap apply_batch apply_op] in Hb.
    destruct (on_table _ _ r) as [r1|] eqn:Hr1; [|done]. cbn [mbind option_bind] in Hb.
    apply on_table_some in Hr1 as (tb0 & tb1 & Htb0 & Hf & ->). rewrite Htb in Htb0. injection Htb0 as <-.
    unfold on_chain in Hf. rewrite Hch, lookup_singleton_eq in Hf. cbn [mbind option_bind] in Hf. injection Hf as <-.
    eapply IH in Hb; [|by rewrite lookup_insert_eq|simpl; by rewrite insert_singleton_eq].
    rewrite Hb, insert_insert_eq. simpl. do 4 f_equal. rewrite list_filter_filter. apply list_filter_iff.
    intros x. rewrite not_elem_of_cons. tauto.
Qed.

Lemma rules_filter id (rs : list Rule) :
  rule_exprs <$> filter (fun r => refs_zone id (rule_exprs r) = false) rs =
  filter (fun e => refs_zone id e = false) (rule_exprs <$> rs).
Proof.
  induction rs as [|r rs IH]; [done|]. rewrite fmap_cons, !filter_cons.
  destruct (decide (refs_zone id (rule_exprs r) = false)); by rewrite <- IH.
Qed.

(** Keeping the rules whose handle is not that of a doomed rule. *)
Lemma filter_undoomed (P : Rule -> Prop) `{forall r, Decision (P r)} (b : Rule -> bool) rs :
  NoDup (rule_handle <$> rs) -> (forall r, P r <-> b r = true) ->
  filter (fun x => rule_handle x ∉ rule_handle <$> filter P rs) rs = filter (fun r => b r = false) rs.
Proof.
  intros Hnd HP.
  enough (forall l, sublist l rs -> filter (fun x => rule_handle x ∉ rule_handle <$> filter P rs) l =
    filter (fun r => b r = false) l) as Hl by (by apply Hl).
  intros l. induction l as [|r l IH]; intros Hsub; [done|].
  assert (r ∈ rs) as Hr by (eapply elem_of_submseteq; [left|by apply sublist_submseteq]).
  assert (sublist l rs) as Hsub' by (etrans; [by apply sublist_cons|done]). specialize (IH Hsub').
  destruct (b r) eqn:Hbr.
  - rewrite (filter_cons_False (fun r => b r = false)) by (by rewrite Hbr). rewrite filter_cons_False; [done|].
    intros Hn. apply Hn, list_elem_of_fmap_2, list_elem_of_filter. by rewrite HP.
  - rewrite (filter_cons_True (fun r => b r = false)) by done. rewrite filter_cons_True; [by rewrite IH|].
    intros (r' & Heq & [Hr' Hin]%list_elem_of_filter)%list_elem_of_fmap.
    rewrite HP in Hr'. enough (r = r') by congruence.
    clear -Hnd Hr Hin Heq. induction rs as [|x rs IH]; [by apply not_elem_of_nil in Hr|].
    rewrite fmap_cons in Hnd. apply NoDup_cons in Hnd as [Hx Hnd].
    apply elem_of_cons in Hr as [->|Hr]; apply elem_of_cons in Hin as [->|Hin]; [done| | |by apply IH].
    + destruct Hx. rewrite Heq. by apply list_elem_of_fmap_2.
    + destruct Hx. rewrite <- Heq. by apply list_elem_of_fmap_2.
Qed.

Section ManagerProps.
  Context {K : Type} `{NftablesLaws K} (table : string).

Lemma new_view k r k' : nft_New k = (r, k') -> nft_view k' = nft_view k.
  Proof. intros Hn. pose proof (nft_new_view k) as Hv. by rewrite Hn in Hv. Qed.
Lemma get_set_view s k r k' : nft_GetSetByName table s k = (r, k') -> nft_view k' = nft_view k.
  Proof. intros Hn. pose proof (nft_set_view table s k) as Hv. by rewrite Hn in Hv. Qed.

Lemma Rebuild_ok zones n k k' :
    Rebuild table zones k = (Ok tt, k') -> NoDup (zst_id <$> zones) -> (forall z, z ∈ zones -> zst_id z <= n) ->
    synced table n (isos zones empty_iso) (nft_view k') /\
    forall t, t <> table -> nft_view k' !! t = nft_view k !! t.
  Proof.
    intros Hb Hnd Hle. unfold Rebuild, bind in Hb.
    destruct (nft_New k) as [[[]|] k1] eqn:H1; [|done]. apply new_view in H1.
    pose proof (nft_tables_view k1) as V2. pose proof (nft_tables_ok k1) as T2. pose proof (nft_tables_nodup k1) as N2.
    destruct (nft_ListTables k1) as [[l|] k2]; [|done]. simpl in V2, T2, N2.
    specialize (T2 l eq_refl). specialize (N2 l eq_refl).
    destruct (nft_Flush _ k2) as [[[]|] k3] eqn:H3; [|done]. apply nft_flush_ok in H3. rewrite V2, H1 in H3.
    rewrite H1 in T2.
    assert (nft_view k3 = delete table (nft_view k)) as V3.
    { destruct (decide (table ∈ l)) as [Hin|Hout].
      - assert (filter (fun t => t = table) l = [table]) as Hf.
        { clear -N2 Hin. induction N2 as [|t l Ht N2 IH]; [by apply not_elem_of_nil in Hin|].
          apply elem_of_cons in Hin as [<-|Hin].
          - rewrite filter_cons_True by done. f_equal.
            destruct (filter (fun t => t = table) l) as [|t' l'] eqn:Hf; [done|].
            assert (t' ∈ filter (fun t => t = table) l) as [-> Hin]%list_elem_of_filter by (rewrite Hf; left). done.
          - rewrite filter_cons_False by (intros ->; done). by apply IH. }
        rewrite Hf in H3. simpl in H3. rewrite decide_True in H3 by (by apply T2). by injection H3.
      - assert (filter (fun t => t = table) l = []) as Hf.
        { destruct (filter (fun t => t = table) l) as [|t' l'] eqn:Hf; [done|].
          assert (t' ∈ filter (fun t => t = table) l) as [-> Hin]%list_elem_of_filter by (rewrite Hf; left). done. }
        rewrite Hf in H3. injection H3 as <-. symmetry. apply delete_id.
        destruct (nft_view k !! table) eqn:Hl; [|done]. exfalso. apply Hout, T2. by rewrite Hl. }
    destruct (nft_Flush _ k3) as [[[]|] k4] eqn:H4; [|done]. injection Hb as <-. apply nft_flush_ok in H4.
    rewrite V3 in H4. rewrite apply_batch_app in H4.
    clear H3. destruct (apply_batch [_; _; _] _) as [r|] eqn:H5; [|done]. cbn [mbind option_bind] in H4.
    assert (exists tb ch, r = <[table := tb]> (delete table (nft_view k)) /\ table_repr empty_iso tb ch /\
      forall i, fresh_zone i tb) as (tb & ch & -> & Hrep & Hfr).
    { cbn [app apply_batch apply_op mbind option_bind] in H5. rewrite lookup_delete_eq in H5.
      unfold on_table in H5. repeat (rewrite lookup_insert_eq in H5; cbn in H5).
      rewrite decide_True in H5 by constructor. rewrite lookup_empty in H5. unfold on_chain in H5.
      cbn [chains bump] in H5. rewrite lookup_insert_eq in H5. cbn [mbind option_bind] in H5. injection H5 as <-.
      rewrite !insert_insert_eq. do 2 eexists. split; [reflexivity|]. split; [|done].
      constructor; simpl; try done; [|constructor|by intros ? ?%not_elem_of_nil|by intros ? ?%not_elem_of_nil].
      split; [apply NoDup_singleton|]. by intros x ->%list_elem_of_singleton. }
    destruct (zones_inv _ _ _ _ _ _ _ H4 (lookup_insert_eq _ _ _) Hrep Hnd) as (tb' & ch' & Hv & Hrep' & Hfr').
    { intros z Hz. split; [apply not_elem_of_nil|done]. }
    rewrite Hv, insert_insert_eq. split.
    - exists tb', ch'. split; [by rewrite lookup_insert_eq|]. split; [done|]. intros i Hi. apply Hfr'; [|done].
      intros (z & -> & Hz)%list_elem_of_fmap. specialize (Hle z Hz). lia.
    - intros t Ht. by rewrite lookup_insert_ne, lookup_delete_ne.
  Qed.

Lemma tableAndChain_view k r k' : tableAndChain table k = (r, k') -> nft_view k' = nft_view k.
  Proof.
    unfold tableAndChain, bind. pose proof (nft_chains_view k) as Hv.
    destruct (nft_ListChains k) as [[l|e] k1]; simpl in Hv.
    - destruct (filter _ l); intros [= _ <-]; done.
    - by intros [= _ <-].
  Qed.

  (** The single-batch methods: all of the batch, or nothing. *)
Lemma AddZone_ok id n I k k' :
    AddZone table id k = (Ok tt, k') -> synced table n I (nft_view k) -> n < id ->
    synced table id (add_iso id ∅ ∅ I) (nft_view k').
  Proof.
    intros Hb (tb & ch & Htb & Hrep & Hfr) Hlt. unfold AddZone, bind in Hb.
    destruct (nft_New k) as [[[]|] k1] eqn:H1; [|done]. apply new_view in H1.
    destruct (tableAndChain table k1) as [[[]|] k2] eqn:H2; [|done]. apply tableAndChain_view in H2.
    apply nft_flush_ok in Hb. rewrite H2, H1 in Hb.
    assert (id ∉ iso_ids I) as Hid.
    { intros Hin. destruct (tr_mem _ _ _ Hrep id Hin) as (st & Hst & _). destruct (Hfr id Hlt) as [Hn _]. congruence. }
    destruct (zone_ops_inv _ _ _ _ _ _ _ Hb Htb Hrep Hid (Hfr id Hlt)) as (tb' & ch' & Hv & Hrep' & Hsets).
    rewrite Hv. exists tb', ch'. split; [by rewrite lookup_insert_eq|]. split; [done|].
    intros i Hi. destruct (Hfr i) as [F1 F2]; [lia|]. split; simpl in Hsets.
    - rewrite Hsets; [done|intros ?%zoneSetName_inj; lia|apply names_disjoint].
    - rewrite Hsets; [done|intros Heq; by apply (names_disjoint id i)|intros ?%routesSetName_inj; lia].
  Qed.
Lemma AddZone_err id e k k' : AddZone table id k = (Err e, k') -> nft_view k' = nft_view k.
  Proof.
    intros Hb. unfold AddZone, bind in Hb.
    destruct (nft_New k) as [[[]|] k1] eqn:H1; apply new_view in H1; [|by injection Hb as _ <-].
    destruct (tableAndChain table k1) as [[[]|] k2] eqn:H2; apply tableAndChain_view in H2; [|injection Hb as _ <-; congruence].
    apply nft_flush_err in Hb. congruence.
  Qed.

Lemma edit_set_ok s op k k' :
    edit_set table s op k = (Ok tt, k') -> apply_batch op (nft_view k) = Some (nft_view k').
  Proof.
    intros Hb. unfold edit_set, bind in Hb.
    destruct (nft_New k) as [[[]|] k1] eqn:H1; [|done]. apply new_view in H1.
    destruct (nft_GetSetByName table s k1) as [[st|] k2] eqn:H2; [|done]. apply get_set_view in H2.
    apply nft_flush_ok in Hb. congruence.
  Qed.
Lemma edit_set_err s op e k k' : edit_set table s op k = (Err e, k') -> nft_view k' = nft_view k.
  Proof.
    intros Hb. unfold edit_set, bind in Hb.
    destruct (nft_New k) as [[[]|] k1] eqn:H1; apply new_view in H1; [|by injection Hb as _ <-].
    destruct (nft_GetSetByName table s k1) as [[st|] k2] eqn:H2; apply get_set_view in H2; [|injection Hb as _ <-; congruence].
    apply nft_flush_err in Hb. congruence.
  Qed.

Lemma AddMember_ok id ip n I k k' :
    AddMember table id ip k = (Ok tt, k') -> synced table n I (nft_view k) ->
    synced table n (upd_mem id (fun x => {[ip]} ∪ x) I) (nft_view k').
  Proof.
    intros Hb%edit_set_ok (tb & ch & Htb & Hrep & Hfr). cbn [apply_batch apply_op] in Hb.
    destruct (on_table _ _ _) as [r|] eqn:Hr; [|done]. apply (inj Some) in Hb as ->.
    apply on_set_inv in Hr as (tb0 & st & Htb0 & Hst & ->). rewrite Htb in Htb0. injection Htb0 as <-.
    exists (with_set (zoneSetName id) (mkSet (set_interval st) (set_elems st ∪ list_to_set (ipElements [ip]))) tb), ch.
    split; [by rewrite lookup_insert_eq|]. split; [|intros i Hi; eapply with_set_fresh; [done|by apply Hfr]].
    apply repr_mem; [done..|]. intros _ [_ Hm] e. rewrite elem_of_union, Hm, elem_of_list_to_set.
    unfold ipElements. rewrite list_elem_of_fmap. setoid_rewrite list_elem_of_singleton. set_solver.
  Qed.

Lemma RemoveMember_ok id ip n I k k' :
    RemoveMember table id ip k = (Ok tt, k') -> synced table n I (nft_view k) ->
    is_u32 ip -> (forall x, x ∈ iso_mem I id -> is_u32 x) ->
    synced table n (upd_mem id (fun x => x ∖ {[ip]}) I) (nft_view k').
  Proof.
    intros Hb%edit_set_ok (tb & ch & Htb & Hrep & Hfr) Hip Hall. cbn [apply_batch apply_op] in Hb.
    destruct (on_table _ _ _) as [r|] eqn:Hr; [|done]. apply (inj Some) in Hb as ->.
    apply on_set_inv in Hr as (tb0 & st & Htb0 & Hst & ->). rewrite Htb in Htb0. injection Htb0 as <-.
    exists (with_set (zoneSetName id) (mkSet (set_interval st) (set_elems st ∖ list_to_set (ipElements [ip]))) tb), ch.
    split; [by rewrite lookup_insert_eq|]. split; [|intros i Hi; eapply with_set_fresh; [done|by apply Hfr]].
    apply repr_mem; [done..|]. intros _ [_ Hm] e. rewrite elem_of_difference, Hm, elem_of_list_to_set.
    unfold ipElements. rewrite list_elem_of_fmap. setoid_rewrite list_elem_of_singleton.
    setoid_rewrite elem_of_difference. setoid_rewrite elem_of_singleton. split.
    - intros [(x & Hx & ->) Hne]. exists x. split; [|done]. split; [done|]. intros ->. apply Hne. by exists ip.
    - intros (x & [Hx Hne] & ->). split; [by exists x|]. intros (y & Heq & ->). apply Hne.
      apply (f_equal fst) in Heq. cbn [fst] in Heq. apply As4_inj in Heq; auto.
  Qed.

Lemma AddZoneRoute_ok id p n I k k' :
    AddZoneRoute table id p k = (Ok tt, k') -> synced table n I (nft_view k) ->
    synced table n (upd_rts id (fun x => {[p]} ∪ x) I) (nft_view k').
  Proof.
    intros Hb%edit_set_ok (tb & ch & Htb & Hrep & Hfr). cbn [apply_batch apply_op] in Hb.
    destruct (on_table _ _ _) as [r|] eqn:Hr; [|done]. apply (inj Some) in Hb as ->.
    apply on_set_inv in Hr as (tb0 & st & Htb0 & Hst & ->). rewrite Htb in Htb0. injection Htb0 as <-.
    exists (with_set (routesSetName id) (mkSet (set_interval st) (set_elems st ∪ list_to_set (rangeElements p))) tb), ch.
    split; [by rewrite lookup_insert_eq|]. split; [|intros i Hi; eapply with_set_fresh; [done|by apply Hfr]].
    apply repr_rts; [done..|]. intros _ [_ Hm] e. rewrite elem_of_union, Hm, elem_of_list_to_set. set_solver.
  Qed.

Lemma RemoveZoneRoute_ok id p n I k k' :
    RemoveZoneRoute table id p k = (Ok tt, k') -> synced table n I (nft_view k) ->
    range_ok p -> (forall q, q ∈ iso_rts I id -> q <> p ->
      range_ok q /\ Overlaps (BlockFromPrefix q) (BlockFromPrefix p) = false) ->
    synced table n (upd_rts id (fun x => x ∖ {[p]}) I) (nft_view k').
  Proof.
    intros Hb%edit_set_ok (tb & ch & Htb & Hrep & Hfr) Hp Hall. cbn [apply_batch apply_op] in Hb.
    destruct (on_table _ _ _) as [r|] eqn:Hr; [|done]. apply (inj Some) in Hb as ->.
    apply on_set_inv in Hr as (tb0 & st & Htb0 & Hst & ->). rewrite Htb in Htb0. injection Htb0 as <-.
    exists (with_set (routesSetName id) (mkSet (set_interval st) (set_elems st ∖ list_to_set (rangeElements p))) tb), ch.
    split; [by rewrite lookup_insert_eq|]. split; [|intros i Hi; eapply with_set_fresh; [done|by apply Hfr]].
    apply repr_rts; [done..|]. intros _ [_ Hm] e. rewrite elem_of_difference, Hm, elem_of_list_to_set.
    setoid_rewrite elem_of_difference. setoid_rewrite elem_of_singleton. split.
    - intros [(q & Hq & He) Hne]. exists q. split; [|done]. split; [done|]. by intros ->.
    - intros (q & [Hq Hne] & He). split; [by exists q|]. intros He'.
      destruct (Hall q Hq Hne) as [Hrq Ho]. by apply (rangeElements_disjoint q p e).
  Qed.

  (** One step of the set removal: the set is gone, or nothing happened. *)
Lemma delete_set_ok s n I k k' tb ch :
    delete_set table s k = (Ok tt, k') -> nft_view k !! table = Some tb -> table_repr I tb ch ->
    (forall i, n < i -> fresh_zone i tb) ->
    (forall i, i ∈ iso_ids I -> s <> zoneSetName i /\ s <> routesSetName i) ->
    exists tb', nft_view k' !! table = Some tb' /\ table_repr I tb' ch /\ forall i, n < i -> fresh_zone i tb'.
  Proof.
    intros Hb Htb Hrep Hfr Hs. unfold delete_set, bind, try in Hb.
    destruct (nft_GetSetByName table s k) as [[st|e] k1] eqn:H1; apply get_set_view in H1.
    2: { injection Hb as <-. exists tb. rewrite H1. done. }
    apply nft_flush_ok in Hb. rewrite H1 in Hb. cbn [apply_batch apply_op] in Hb.
    destruct (on_table _ _ _) as [r|] eqn:Hr; [|done]. apply (inj Some) in Hb as ->.
    apply on_table_some in Hr as (tb0 & tb' & Htb0 & Hf & ->). rewrite Htb in Htb0. injection Htb0 as <-.
    case_decide; [|done]. apply (inj Some) in Hf as <-. eexists. split; [by rewrite lookup_insert_eq|]. split.
    - destruct Hrep. constructor; simpl; try done.
      + intros i Hi. rewrite lookup_delete_ne by apply (Hs i Hi). auto.
      + intros i Hi. rewrite lookup_delete_ne by apply (Hs i Hi). auto.
    - intros i Hi. destruct (Hfr i Hi) as [F1 F2]. split; apply lookup_delete_None; right; [exact F1|exact F2].
  Qed.

Lemma DeleteZone_ok id n I k k' :
    DeleteZone table id k = (Ok tt, k') -> synced table n I (nft_view k) ->
    synced table n (del_iso id I) (nft_view k').
  Proof.
    intros Hb (tb & ch & Htb & Hrep & Hfr). unfold DeleteZone, bind in Hb.
    destruct (nft_New k) as [[[]|] k1] eqn:H1; [|done]. apply new_view in H1.
    destruct (tableAndChain table k1) as [[[]|] k2] eqn:H2; [|done]. apply tableAndChain_view in H2.
    pose proof (nft_rules_view table "forward" k2) as V3. pose proof (nft_rules_ok table "forward" k2) as R3.
    destruct (nft_GetRules table "forward" k2) as [[rs|] k3]; [|done]. simpl in V3, R3.
    destruct (R3 rs eq_refl) as (tb0 & ch0 & Htb0 & Hch0 & ->). clear R3.
    rewrite H2, H1, Htb in Htb0. injection Htb0 as <-. rewrite (tr_chain _ _ _ Hrep), lookup_singleton_eq in Hch0.
    injection Hch0 as <-.
    set (doomed := filter _ (chain_rules ch)) in Hb.
    destruct (match doomed with [] => ret tt | _ => _ end k3) as [[[]|] k4] eqn:H4; [|done].
    assert (exists tb1 ch1, nft_view k4 !! table = Some tb1 /\ table_repr (del_iso id I) tb1 ch1 /\
      forall i, n < i -> fresh_zone i tb1) as (tb1 & ch1 & Htb1 & Hrep1 & Hfr1).
    { assert (apply_batch ((fun h => DelRule table "forward" h) <$> (rule_handle <$> doomed)) (nft_view k) =
        Some (nft_view k4)) as Hdel.
      { rewrite <- list_fmap_compose. destruct doomed as [|r0 d0] eqn:Hdoom.
        - injection H4 as <-. simpl. congruence.
        - apply nft_flush_ok in H4. rewrite <- H4. f_equal. congruence. }
      eapply DelRules_inv in Hdel; [|done|apply (tr_chain _ _ _ Hrep)].
      set (ch1 := mkChain _ _) in Hdel. eexists _, ch1. rewrite Hdel. split; [by rewrite lookup_insert_eq|].
      split; [|intros i Hi; by apply Hfr]. destruct Hrep. destruct tr_handles0 as [Hnd Hlt].
      assert (chain_rules ch1 = filter (fun r => refs_zone id (rule_exprs r) = false) (chain_rules ch)) as Hch1.
      { unfold ch1. simpl. apply filter_undoomed; [done|]. intros r. by rewrite refs_zone_rule. }
      constructor; simpl; try done.
      + change (rule_exprs <$> chain_rules ch1 = iso_rules (filter (fun j => j <> id) (iso_ids I))).
        rewrite Hch1, rules_filter, tr_rules0. apply filter_iso_rules.
      + split.
        * change (NoDup (rule_handle <$> chain_rules ch1)). rewrite Hch1.
          eapply sublist_NoDup; [exact Hnd|]. apply sublist_fmap_mono, sublist_filter.
        * change (forall r, r ∈ chain_rules ch1 -> rule_handle r < next_handle tb). rewrite Hch1.
          intros r [_ Hr]%list_elem_of_filter. by apply Hlt.
      + by apply NoDup_filter.
      + intros i [_ Hi]%list_elem_of_filter. auto.
      + intros i [_ Hi]%list_elem_of_filter. auto. }
    assert (Hnames : forall i, i ∈ iso_ids (del_iso id I) -> i <> id) by (intros i [Hi _]%list_elem_of_filter; done).
    simpl in Hb. unfold bind in Hb.
    destruct (delete_set table (zoneSetName id) k4) as [[[]|] k5] eqn:H5; [|done].
    eapply delete_set_ok in H5 as (tb2 & Htb2 & Hrep2 & Hfr2); [|done..|].
    2: { intros i Hi. split; [intros Heq%zoneSetName_inj|apply names_disjoint]. by apply (Hnames i Hi). }
    destruct (delete_set table (routesSetName id) k5) as [[[]|] k6] eqn:H6; [|done]. injection Hb as <-.
    eapply delete_set_ok in H6 as (tb3 & Htb3 & Hrep3 & Hfr3); [|done..|].
    2: { intros i Hi. split; [intros Heq; by apply (names_disjoint i id)|intros Heq%routesSetName_inj].
         by apply (Hnames i Hi). }
    by exists tb3, ch1.
  Qed.
End ManagerProps.
