(* ===== verification/Isolation.v ===== *)
(** * Which packets the relay forwards

    The expressions' meaning in the kernel's nftables virtual machine is a
    parameter with one law per expression; the table the manager maintains then
    forwards exactly the traffic the zones allow. Also the refinement theorem of
    the manager, and a kernel to run it on. *)
From Stdlib Require Import Ascii.
From S2P Require Import Prelude GoStrings Netip Ipam Netfw NetfwProps.

#[local] Open Scope lw_scope.

(** ** The virtual machine *)

Definition Regs : Type := Z -> list Z.
Definition set_reg (r : Z) (v : list Z) (rg : Regs) : Regs := fun r' => if decide (r' = r) then v else rg r'.

(** A forwarded packet as the rules see it. *)
Record Packet : Type := mkPacket
  { pk_nfproto : Z;
    pk_header : list Z;      (** bytes of the network header *)
    pk_ctstate : list Z      (** conntrack state, four bytes *) }.

Definition slice (off len : Z) (l : list Z) : list Z := take (Z.to_nat len) (drop (Z.to_nat off) l).
Definition land_bytes (a b : list Z) : list Z := zip_with Z.land a b.
Definition lxor_bytes (a b : list Z) : list Z := zip_with Z.lxor a b.

(** Membership in a set: of a value, or, in an interval set, of a range whose
    start is at or below the key with no range end between them. *)
Definition in_set (st : NftSet) (key : list Z) : Prop :=
  if set_interval st
  then exists s, (s, false) ∈ set_elems st /\ be_Uint32 s <= be_Uint32 key /\
       forall e, (e, true) ∈ set_elems st -> be_Uint32 s < be_Uint32 e -> be_Uint32 key < be_Uint32 e
  else (key, false) ∈ set_elems st.

(** [vm_run sets pkt rg es]: the rule's expressions from registers [rg] end in accept. *)
Class NftVM : Type :=
  { vm_run : gmap string NftSet -> Packet -> Regs -> list Expr -> Prop;
    vm_nil ss p rg : ~ vm_run ss p rg [];
    vm_accept ss p rg es : vm_run ss p rg (VerdictAccept :: es);
    vm_meta ss p rg r es : vm_run ss p rg (Meta_NFPROTO r :: es) <-> vm_run ss p (set_reg r [pk_nfproto p] rg) es;
    vm_cmp ss p rg b r d es :
      vm_run ss p rg (Cmp b r d :: es) <-> (if b then rg r = d else rg r <> d) /\ vm_run ss p rg es;
    vm_payload ss p rg d off len es : 0 <= off -> 0 <= len -> off + len <= Z.of_nat (length (pk_header p)) ->
      vm_run ss p rg (PayloadNetwork d off len :: es) <->
      vm_run ss p (set_reg d (slice off len (pk_header p)) rg) es;
    vm_lookup ss p rg r s es :
      vm_run ss p rg (Lookup r s :: es) <-> (exists st, ss !! s = Some st /\ in_set st (rg r)) /\ vm_run ss p rg es;
    vm_ct ss p rg r es : vm_run ss p rg (Ct_STATE r :: es) <-> vm_run ss p (set_reg r (pk_ctstate p) rg) es;
    vm_bitwise ss p rg s d len mask xor es :
      vm_run ss p rg (Bitwise s d len mask xor :: es) <->
      vm_run ss p (set_reg d (lxor_bytes (land_bytes (rg s) mask) xor) rg) es }.

(** A forwarded packet passes the table: some rule accepts it (every verdict here
    is accept, and the chain's policy drops the rest). *)
Definition forwards `{NftVM} (t : string) (r : Ruleset) (p : Packet) : Prop :=
  exists tb ch x, r !! t = Some tb /\ chains tb !! "forward" = Some ch /\ x ∈ chain_rules ch /\
    vm_run (sets tb) p (fun _ => []) (rule_exprs x).

(** An IPv4 packet between two addresses. *)
Definition ipv4_packet (src dst : Addr) (p : Packet) : Prop :=
  pk_nfproto p = NFPROTO_IPV4 /\ 20 <= Z.of_nat (length (pk_header p)) /\
  slice 12 4 (pk_header p) = As4 src /\ slice 16 4 (pk_header p) = As4 dst.

(** Conntrack says the packet belongs to, or is related to, an accepted flow. *)
Definition ct_bits (p : Packet) (v : Z) : Prop := is_u32 v /\ pk_ctstate p = NativeEndian_PutUint32 v.
Definition established (v : Z) : Prop := Z.land v (Z.lor CtStateBitESTABLISHED CtStateBitRELATED) <> 0.

Section Forwarding.
  Context `{NftVM}.

Lemma land_low v : is_u32 v ->
    (lxor_bytes (land_bytes (NativeEndian_PutUint32 v)
       (NativeEndian_PutUint32 (Z.lor CtStateBitESTABLISHED CtStateBitRELATED))) (NativeEndian_PutUint32 0)
     = [0; 0; 0; 0]) <-> Z.land v (Z.lor CtStateBitESTABLISHED CtStateBitRELATED) = 0.
  Proof.
    intros Hv. change (Z.lor CtStateBitESTABLISHED CtStateBitRELATED) with 6.
    assert (NativeEndian_PutUint32 6 = [6; 0; 0; 0]) as -> by reflexivity.
    assert (NativeEndian_PutUint32 0 = [0; 0; 0; 0]) as -> by reflexivity.
    unfold NativeEndian_PutUint32, be_PutUint32. cbn [rev app]. unfold land_bytes, lxor_bytes. cbn [zip_with].
    rewrite !Z.land_0_r, !Z.lxor_0_r. change 256 with (2 ^ 8). rewrite <- (Z.land_ones v 8) by lia.
    rewrite <- Z.land_assoc. change (Z.land (Z.ones 8) 6) with 6. split; [by intros [= ->]|by intros ->].
  Qed.

  (** The return-path rule accepts exactly established and related packets. *)
Lemma ct_rule ss p v :
    ct_bits p v -> vm_run ss p (fun _ => []) ctEstablishedAcceptExprs <-> established v.
  Proof.
    intros [Hv Hct]. unfold ctEstablishedAcceptExprs. rewrite vm_ct, vm_bitwise, vm_cmp.
    unfold set_reg at 1 2. rewrite !decide_True by done. rewrite Hct, land_low by done. unfold established.
    split; [by intros [? _]|]. intros Hn. split; [done|]. apply vm_accept.
  Qed.

  (** An accept rule on two sets: source in the first, destination in the second. *)
Lemma two_set_rule ss p src dst m r :
    ipv4_packet src dst p ->
    vm_run ss p (fun _ => []) (zoneRouteAcceptExprs m r) <->
    (exists st, ss !! m = Some st /\ in_set st (As4 src)) /\ (exists st, ss !! r = Some st /\ in_set st (As4 dst)).
  Proof.
    intros (Hn & Hlen & Hs & Hd). unfold zoneRouteAcceptExprs.
    rewrite vm_meta, vm_cmp, vm_payload by lia. rewrite vm_lookup, vm_payload by lia. rewrite vm_lookup.
    unfold set_reg. cbn. rewrite Hn, Hs, Hd. split; [tauto|]. intros [H1 H2]. split_and!; try done. apply vm_accept.
  Qed.

Lemma same_is_route s : sameZoneAcceptExprs s = zoneRouteAcceptExprs s s.
  Proof. done. Qed.

Lemma in_members ips st a : member_elems ips st -> (forall x, x ∈ ips -> is_u32 x) -> is_u32 a ->
    in_set st (As4 a) <-> a ∈ ips.
  Proof.
    intros [Hi Hm] Hall Ha. unfold in_set. rewrite Hi, Hm. split; [|by exists a].
    intros (x & Hx & Heq). apply (f_equal fst) in Heq. cbn [fst] in Heq. apply As4_inj in Heq; [by subst|done|auto].
  Qed.

Lemma be_range x : is_u32 x -> be_Uint32 (As4 x) = x.
  Proof. intros Hx. rewrite be_Uint32_As4. by apply u32_id. Qed.

  (** The interval set of disjoint blocks holds the addresses of the blocks. *)
Lemma in_routes ps st a :
    route_elems ps st -> (forall p, p ∈ ps -> range_ok p) ->
    (forall p q, p ∈ ps -> q ∈ ps -> p <> q -> Overlaps (BlockFromPrefix p) (BlockFromPrefix q) = false) ->
    is_u32 a ->
    in_set st (As4 a) <-> exists p, p ∈ ps /\ in_block a (BlockFromPrefix p).
  Proof.
    intros [Hi Hm] Hok Hdis Ha. unfold in_set. rewrite Hi. rewrite be_range by done.
    assert (Hends : forall p, p ∈ ps -> is_u32 (Base (BlockFromPrefix p)) /\ 0 < size (BlockFromPrefix p) /\
      is_u32 (Base (BlockFromPrefix p) + size (BlockFromPrefix p)) /\ PrefixLen (BlockFromPrefix p) <= 32).
    { intros p Hp. destruct (Hok p Hp) as [Hpok Hend]. pose proof (BlockFromPrefix_ok p Hpok) as (Hb & Hl & _).
      pose proof (size_pos (BlockFromPrefix p) ltac:(lia)). split_and!; [done|done| |lia]. unfold is_u32, W32 in *. lia. }
    assert (Hst : forall s, (s, false) ∈ set_elems st <-> exists p, p ∈ ps /\ s = As4 (Base (BlockFromPrefix p))).
    { intros s. rewrite Hm. split; intros (p & Hp & He); exists p; (split; [done|]); rewrite rangeElements_eq in * by auto.
      - rewrite !elem_of_cons in He. destruct He as [He|[He|He%not_elem_of_nil]]; [|discriminate|done].
        by apply (f_equal fst) in He.
      - rewrite He. left. }
    assert (Hen : forall e, (e, true) ∈ set_elems st <-> exists p, p ∈ ps /\
      e = As4 (Base (BlockFromPrefix p) + size (BlockFromPrefix p))).
    { intros e. rewrite Hm. split; intros (p & Hp & He); exists p; (split; [done|]); rewrite rangeElements_eq in * by auto.
      - rewrite !elem_of_cons in He. destruct He as [He|[He|He%not_elem_of_nil]]; [discriminate| |done].
        by apply (f_equal fst) in He.
      - rewrite He. right. left. }
    unfold in_block. split.
    - intros (s & (p & Hp & ->)%Hst & Hle & Hno). exists p. split; [done|].
      destruct (Hends p Hp) as (Hb & Hs & He & _). rewrite be_range in Hle by done. split; [done|].
      specialize (Hno (As4 (Base (BlockFromPrefix p) + size (BlockFromPrefix p)))).
      rewrite !be_range in Hno by done. apply Hno; [|lia]. apply Hen. by exists p.
    - intros (p & Hp & Hle & Hlt). exists (As4 (Base (BlockFromPrefix p))).
      destruct (Hends p Hp) as (Hb & Hs & He & Hl). split_and!; [apply Hst; by exists p|by rewrite be_range|].
      intros e (q & Hq & ->)%Hen. destruct (Hends q Hq) as (Hqb & Hqs & Hqe & Hql). rewrite !be_range by done.
      intros Hlt'. destruct (decide (p = q)) as [->|Hne]; [done|].
      specialize (Hdis p q Hp Hq Hne). apply not_true_iff_false in Hdis.
      destruct (Z.lt_ge_cases a (Base (BlockFromPrefix q) + size (BlockFromPrefix q))) as [|Hge]; [done|]. exfalso.
      apply Hdis, Overlaps_iff; [done..|]. exists (Base (BlockFromPrefix q) + size (BlockFromPrefix q) - 1).
      unfold in_block. lia.
  Qed.
End Forwarding.

(** What the zones allow. *)
Definition same_zone (I : Iso) (src dst : Addr) : Prop :=
  exists i, i ∈ iso_ids I /\ src ∈ iso_mem I i /\ dst ∈ iso_mem I i.
Definition zone_route (I : Iso) (src dst : Addr) : Prop :=
  exists i p, i ∈ iso_ids I /\ src ∈ iso_mem I i /\ p ∈ iso_rts I i /\ in_block dst (BlockFromPrefix p).

(** Addresses and blocks as the database provides them. *)
Record iso_ok (I : Iso) : Prop := mkIsoOk
  { io_mem i a : i ∈ iso_ids I -> a ∈ iso_mem I i -> is_u32 a;
    io_rts i p : i ∈ iso_ids I -> p ∈ iso_rts I i -> range_ok p;
    io_disjoint i p q : i ∈ iso_ids I -> p ∈ iso_rts I i -> q ∈ iso_rts I i -> p <> q ->
      Overlaps (BlockFromPrefix p) (BlockFromPrefix q) = false }.

(** Zone isolation at packet level. In a table that represents the zones, the
    relay forwards an IPv4 packet exactly when it belongs to an established flow, or
    its source and destination are members of a common zone, or its source is a
    member of a zone into which the destination's subnet is announced. *)
Lemma zone_isolation `{NftVM} t n I r p src dst v :
  synced t n I r -> iso_ok I -> ipv4_packet src dst p -> is_u32 src -> is_u32 dst -> ct_bits p v ->
  forwards t r p <-> established v \/ same_zone I src dst \/ zone_route I src dst.
Proof.
  intros (tb & ch & Htb & Hrep & _) Hok Hp Hsrc Hdst Hct.
  assert (forwards t r p <-> exists e, e ∈ iso_rules (iso_ids I) /\ vm_run (sets tb) p (fun _ => []) e) as ->.
  { unfold forwards. rewrite <- (tr_rules _ _ _ Hrep). setoid_rewrite list_elem_of_fmap. split.
    - intros (tb' & ch' & x & Htb' & Hch' & Hx & Hrun). rewrite Htb in Htb'. injection Htb' as <-.
      rewrite (tr_chain _ _ _ Hrep), lookup_singleton_eq in Hch'. injection Hch' as <-. eauto.
    - intros (e & (x & -> & Hx) & Hrun). exists tb, ch, x.
      rewrite (tr_chain _ _ _ Hrep), lookup_singleton_eq. done. }
  unfold iso_rules. setoid_rewrite elem_of_cons. setoid_rewrite list_elem_of_bind.
  assert (Hz : forall i, i ∈ iso_ids I ->
    (vm_run (sets tb) p (fun _ => []) (sameZoneAcceptExprs (zoneSetName i)) <-> src ∈ iso_mem I i /\ dst ∈ iso_mem I i) /\
    (vm_run (sets tb) p (fun _ => []) (zoneRouteAcceptExprs (zoneSetName i) (routesSetName i)) <->
       src ∈ iso_mem I i /\ exists q, q ∈ iso_rts I i /\ in_block dst (BlockFromPrefix q))).
  { intros i Hi. destruct (tr_mem _ _ _ Hrep i Hi) as (sm & Hsm & Hm). destruct (tr_rts _ _ _ Hrep i Hi) as (sr & Hsr & Hr).
    assert (forall a, is_u32 a -> in_set sm (As4 a) <-> a ∈ iso_mem I i) as Hin
      by (intros a; apply in_members; [done|intros x; by apply (io_mem I Hok)]).
    assert (in_set sr (As4 dst) <-> exists q, q ∈ iso_rts I i /\ in_block dst (BlockFromPrefix q)) as Hrt.
    { apply in_routes; [done|intros q; by apply (io_rts I Hok)|intros q q'; by apply (io_disjoint I Hok)|done]. }
    rewrite same_is_route, !(two_set_rule _ p src dst) by done.
    rewrite Hsm, Hsr. setoid_rewrite (inj_iff Some). split.
    - rewrite <- (Hin src), <- (Hin dst) by done. naive_solver.
    - rewrite <- (Hin src), <- Hrt by done. naive_solver. }
  split.
  - intros (e & [->|(i & He & Hi)] & Hrun); [left; by apply (ct_rule _ p v) in Hrun|right].
    destruct (Hz i Hi) as [Hsame Hroute]. unfold zone_rules in He. rewrite !elem_of_cons in He.
    destruct He as [->|[->|?%not_elem_of_nil]]; [| |done].
    + left. exists i. by apply Hsame in Hrun.
    + right. apply Hroute in Hrun as (Hs & q & Hq & Hb). by exists i, q.
  - intros [Hest|[(i & Hi & Hs & Hd)|(i & q & Hi & Hs & Hq & Hb)]].
    + exists ctEstablishedAcceptExprs. split; [by left|]. by apply (ct_rule _ p v).
    + exists (sameZoneAcceptExprs (zoneSetName i)). split; [right; exists i; split; [left|done]|]. by apply Hz.
    + exists (zoneRouteAcceptExprs (zoneSetName i) (routesSetName i)).
      split; [right; exists i; split; [right; left|done]|]. apply Hz; [done|]. split; [done|]. by exists q.
Qed.

(** ** The manager refines the abstract state *)

Inductive nf_op : Type :=
| NfRebuild (zones : list ZoneState)
| NfAddZone (id : Z)
| NfAddMember (id : Z) (ip : Addr)
| NfRemoveMember (id : Z) (ip : Addr)
| NfAddRoute (id : Z) (p : Prefix)
| NfRemoveRoute (id : Z) (p : Prefix)
| NfDeleteZone (id : Z).

Definition run_nf {K} `{Nftables K} (t : string) (op : nf_op) : M unit K unit :=
  match op with
  | NfRebuild zones => Rebuild t zones
  | NfAddZone id => AddZone t id
  | NfAddMember id ip => AddMember t id ip
  | NfRemoveMember id ip => RemoveMember t id ip
  | NfAddRoute id p => AddZoneRoute t id p
  | NfRemoveRoute id p => RemoveZoneRoute t id p
  | NfDeleteZone id => DeleteZone t id
  end.

Definition spec_nf (op : nf_op) (I : Iso) : Iso :=
  match op with
  | NfRebuild zones => isos zones empty_iso
  | NfAddZone id => add_iso id ∅ ∅ I
  | NfAddMember id ip => upd_mem id (fun x => {[ip]} ∪ x) I
  | NfRemoveMember id ip => upd_mem id (fun x => x ∖ {[ip]}) I
  | NfAddRoute id p => upd_rts id (fun x => {[p]} ∪ x) I
  | NfRemoveRoute id p => upd_rts id (fun x => x ∖ {[p]}) I
  | NfDeleteZone id => del_iso id I
  end.

(** What the caller guarantees: fresh zone ids, IPv4 addresses, disjoint blocks. *)
Definition nf_pre (op : nf_op) (n : Z) (I : Iso) : Prop :=
  match op with
  | NfRebuild zones => NoDup (zst_id <$> zones) /\ forall z, z ∈ zones -> zst_id z <= n
  | NfAddZone id => n < id
  | NfRemoveMember id ip => is_u32 ip /\ forall x, x ∈ iso_mem I id -> is_u32 x
  | NfRemoveRoute id p => range_ok p /\ forall q, q ∈ iso_rts I id -> q <> p ->
      range_ok q /\ Overlaps (BlockFromPrefix q) (BlockFromPrefix p) = false
  | _ => True
  end.
(** The zone ids used so far. *)
Definition nf_bound (op : nf_op) (n : Z) : Z := match op with NfAddZone id => id | _ => n end.
Definition single_batch (op : nf_op) : bool := match op with NfRebuild _ | NfDeleteZone _ => false | _ => true end.

(** C14: each method of [Manager] implements its effect on the zones: on success the
    kernel's table represents the new abstract state, whatever it held before in the
    case of [Rebuild]; and a method that issues a single batch and fails has changed
    nothing. *)
Theorem manager_refines {K} `{NftablesLaws K} t op n I k r k' :
  run_nf t op k = (r, k') -> nf_pre op n I ->
  match r with
  | Ok _ => (match op with NfRebuild _ => True | _ => synced t n I (nft_view k) end) ->
            synced t (nf_bound op n) (spec_nf op I) (nft_view k')
  | Err _ => single_batch op = true -> nft_view k' = nft_view k
  end.
Proof.
  destruct r as [[]|e].
  - destruct op; cbn [run_nf nf_pre spec_nf nf_bound]; intros Hr Hpre Hs.
    + by apply (Rebuild_ok t zones n k k' Hr); destruct Hpre.
    + by eapply AddZone_ok.
    + by eapply AddMember_ok.
    + destruct Hpre. by eapply RemoveMember_ok.
    + by eapply AddZoneRoute_ok.
    + destruct Hpre. by eapply RemoveZoneRoute_ok.
    + by eapply DeleteZone_ok.
  - destruct op; cbn [run_nf single_batch]; intros Hr _ Hb; try done;
      first [by eapply AddZone_err | by eapply edit_set_err].
Qed.

(** ** A kernel and a virtual machine to run on *)

Definition sim_flush (ops : list NftOp) (k : Ruleset) : res unit unit * Ruleset :=
  match apply_batch ops k with Some k' => (Ok tt, k') | None => (Err tt, k) end.
#[global] Instance sim_kernel : Nftables Ruleset | 100 :=
  {| nft_New := ret tt;
     nft_ListTables k := (Ok (fst <$> map_to_list k), k);
     nft_ListChains k := (Ok (map_to_list k ≫= fun p => (fun c => (p.1, c)) <$> (fst <$> map_to_list (chains p.2))), k);
     nft_GetSetByName t s k :=
       (match k !! t ≫= fun tb => sets tb !! s with Some st => Ok st | None => Err tt end, k);
     nft_GetRules t c k :=
       (match k !! t ≫= fun tb => chains tb !! c with Some ch => Ok (chain_rules ch) | None => Err tt end, k);
     nft_Flush := sim_flush |}.

Lemma keys_iff {A} (m : gmap string A) s : s ∈ fst <$> map_to_list m <-> is_Some (m !! s).
Proof.
  rewrite list_elem_of_fmap. split.
  - intros ([s' a] & -> & Hin). apply elem_of_map_to_list in Hin. by exists a.
  - intros [a Ha]. exists (s, a). split; [done|]. by apply elem_of_map_to_list.
Qed.

#[global, program] Instance sim_kernel_laws : NftablesLaws Ruleset | 100 := {| nft_view k := k |}.
Solve Obligations with (try done).
Next Obligation. intros k l [= <-] t. apply keys_iff. Qed.
Next Obligation. intros k l [= <-]. apply NoDup_fst_map_to_list. Qed.
Next Obligation.
  intros k l [= <-] t c. rewrite list_elem_of_bind. split.
  - intros ([t' tb] & Hin & Hp). apply list_elem_of_fmap in Hin as (c' & [= -> ->] & Hc).
    apply elem_of_map_to_list in Hp. exists tb. split; [done|]. by apply keys_iff.
  - intros (tb & Htb & Hc). exists (t, tb). split; [|by apply elem_of_map_to_list].
    apply list_elem_of_fmap. exists c. split; [done|]. by apply keys_iff.
Qed.
Next Obligation.
  intros t s k st. simpl. destruct (k !! t) as [tb|]; simpl; [|done].
  destruct (sets tb !! s) eqn:Hs; [|done]. intros [= <-]. by exists tb.
Qed.
Next Obligation.
  intros t c k rs. simpl. destruct (k !! t) as [tb|]; simpl; [|done].
  destruct (chains tb !! c) as [ch|] eqn:Hc; [|done]. intros [= <-]. by exists tb, ch.
Qed.
Next Obligation. intros ops k k'. simpl. unfold sim_flush. destruct (apply_batch ops k); [|done]. by intros [= <-]. Qed.
Next Obligation. intros ops k k' e. simpl. unfold sim_flush. destruct (apply_batch ops k); [done|]. by intros [= _ <-]. Qed.

Fixpoint sim_run (ss : gmap string NftSet) (p : Packet) (rg : Regs) (es : list Expr) : Prop :=
  match es with
  | [] => False
  | e :: es =>
      match e with
      | VerdictAccept => True
      | Meta_NFPROTO r => sim_run ss p (set_reg r [pk_nfproto p] rg) es
      | Cmp b r d => (if b then rg r = d else rg r <> d) /\ sim_run ss p rg es
      | PayloadNetwork d off len => sim_run ss p (set_reg d (slice off len (pk_header p)) rg) es
      | Lookup r s => (exists st, ss !! s = Some st /\ in_set st (rg r)) /\ sim_run ss p rg es
      | Ct_STATE r => sim_run ss p (set_reg r (pk_ctstate p) rg) es
      | Bitwise s d len mask xor => sim_run ss p (set_reg d (lxor_bytes (land_bytes (rg s) mask) xor) rg) es
      end
  end.
#[global, program] Instance sim_vm : NftVM | 100 := {| vm_run := sim_run |}.
Solve Obligations with (try done).
Next Obligation. by intros ? ? ? ?. Qed.

Definition demo_zones : list ZoneState := [mkNfZone 1 [10; 11] [PrefixFrom 256 24]].
Definition demo_kernel : Ruleset := snd (Rebuild "lw" demo_zones ∅).
Definition demo_packet (src dst : Addr) : Packet :=
  mkPacket NFPROTO_IPV4 (replicate 12 0 ++ As4 src ++ As4 dst) [0; 0; 0; 0].

Lemma demo_zones_pre : nf_pre (NfRebuild demo_zones) 1 empty_iso.
Proof. split; [apply NoDup_singleton|]. intros z ->%list_elem_of_singleton. simpl. lia. Qed.

Lemma demo_rebuild : run_nf "lw" (NfRebuild demo_zones) ∅ = (Ok tt, demo_kernel).
Proof. apply run_pair. vm_compute. reflexivity. Qed.
Lemma demo_add : run_nf "lw" (NfAddZone 2) demo_kernel = (Ok tt, snd (AddZone "lw" 2 demo_kernel)).
Proof. apply run_pair. vm_compute. reflexivity. Qed.
Lemma demo_synced kern :
  run_nf "lw" (NfRebuild demo_zones) (∅ : Ruleset) = (Ok tt, kern) -> synced "lw" 1 (isos demo_zones empty_iso) kern.
Proof. intros Hr. destruct demo_zones_pre as [H1 H2]. exact (proj1 (Rebuild_ok "lw" demo_zones 1 ∅ kern Hr H1 H2)). Qed.

#[local] Opaque demo_kernel.
Lemma manager_refines_witness :
  synced "lw" 1 (isos demo_zones empty_iso) (nft_view demo_kernel).
Proof.
  exact (manager_refines "lw" (NfRebuild demo_zones) 1 empty_iso (∅ : Ruleset) (Ok tt) demo_kernel
    demo_rebuild demo_zones_pre I).
Defined.

Example demo_isolation :
  forwards "lw" demo_kernel (demo_packet 10 11) /\ forwards "lw" demo_kernel (demo_packet 10 300) /\
  ~ forwards "lw" demo_kernel (demo_packet 300 10).
Proof.
  pose proof (demo_synced demo_kernel demo_rebuild) as Hs.
  assert (iso_ok (isos demo_zones empty_iso)) as Hok.
  { assert (forall p, p ∈ iso_rts (isos demo_zones empty_iso) 1 -> p = PrefixFrom 256 24) as Hp.
    { intros p Hp. simpl in Hp. set_solver. }
    constructor; simpl iso_ids; intros i; [intros a|intros p|intros p q]; intros ->%list_elem_of_singleton.
    - intros Ha. simpl in Ha. assert (a = 10 \/ a = 11) as [-> | ->] by set_solver; unfold is_u32, W32; lia.
    - intros ->%Hp. split; [split; [unfold is_u32, W32; simpl; lia|simpl; lia]|vm_compute; congruence].
    - intros ->%Hp ->%Hp. done. }
  assert (forall a b, is_u32 a -> is_u32 b -> forwards "lw" demo_kernel (demo_packet a b) <->
    established 0 \/ same_zone (isos demo_zones empty_iso) a b \/ zone_route (isos demo_zones empty_iso) a b) as Hf.
  { intros a b Ha Hb. apply (zone_isolation "lw" 1 _ _ (demo_packet a b) a b 0 Hs Hok); [|done|done|split; [unfold is_u32, W32; lia|reflexivity]].
    split_and!; reflexivity || (simpl; lia). }
  split_and!.
  - apply Hf; [unfold is_u32, W32; lia..|]. right. left. exists 1. simpl. set_solver.
  - apply Hf; [unfold is_u32, W32; lia..|]. right. right. exists 1, (PrefixFrom 256 24). simpl.
    split_and!; [set_solver..|]. vm_compute. split; congruence.
  - rewrite Hf by (unfold is_u32, W32; lia). intros [He|[(i & Hi & Hm & _)|(i & p & Hi & Hm & _)]].
    + by apply He.
    + simpl in Hm, Hi. assert (i = 1) as -> by set_solver. simpl in Hm. set_solver.
    + simpl in Hm, Hi. assert (i = 1) as -> by set_solver. simpl in Hm. set_solver.
Defined.
