(* ===== verification/Api.v ===== *)
(** * The control-plane API: state, responses, accounts and nodes
    ([internal/server/api]: auth, invite, node and server handlers)

    A handler runs on the whole server's state: the store, the kernel's nftables
    state, the WireGuard host, the tracker and the error log. Writing a response
    and returning early is [throw]. A request body is its outcome of [decodeJSON]
    ([None] for a body that is refused); dates in responses are kept as numbers. *)
From S2P Require Import Prelude GoStrings Netip Ipam PasswordPolicy Codec Db StoreUsers StoreNodes StoreAnnounce Netfw Wg Auth.
From Stdlib Require Import Ascii.

#[local] Open Scope lw_scope.

(** ** Requests ([pkg/protocol]) *)

Record LoginRequest : Type := mkLogin { lr_Username : string; lr_Password : string }.
Record RefreshRequest : Type := mkRefresh { rf_RefreshToken : string }.
Record LogoutRequest : Type := mkLogout { lo_RefreshToken : string }.
Record RegisterRequest : Type := mkRegister { rg_InviteCode : string; rg_Username : string; rg_Password : string }.
Record RegisterNodeRequest : Type := mkRegisterNode { rn_Name : string; rn_WGPubKey : string; rn_Platform : string }.
Record CreateZoneRequest : Type := mkCreateZone { cz_Name : string; cz_Password : string; cz_NodeID : Z }.
Record JoinZoneRequest : Type := mkJoinZone { jz_NodeID : Z; jz_Password : string }.
Record LeaveZoneRequest : Type := mkLeaveZone { lz_NodeID : Z }.
Record ChangeZonePasswordRequest : Type := mkChangePassword { cp_Password : string }.
Record CreateAnnouncementRequest : Type := mkCreateAnn { ca_NodeID : Z; ca_Subnet : string }.

(** ** Responses *)

Record InviteListItem : Type := mkInviteItem
  { ii_Code : string; ii_Status : string; ii_CreatedBy : option string; ii_CreatedAt : Z;
    ii_UsedBy : option string; ii_UsedAt : option Z; ii_ExpiresAt : option Z }.
Record NodeResponse : Type := mkNodeResponse
  { nr_ID : Z; nr_Name : string; nr_IP : string; nr_CreatedAt : option Z; nr_Online : bool;
    nr_LastHandshake : option Z; nr_Platform : string }.
Record ZoneResponse : Type := mkZoneResponse { zr_ID : Z; zr_Name : string; zr_IsOwner : bool }.
Record ZoneMemberResponse : Type := mkMemberResponse
  { mr_NodeID : Z; mr_NodeName : string; mr_IP : string; mr_Owner : string }.
Record AnnouncementResponse : Type := mkAnnResponse
  { ar_ID : Z; ar_NodeID : Z; ar_NodeName : string; ar_Owner : string; ar_Subnet : string; ar_Synthetic : string }.

Inductive Body : Type :=
| BEmpty
| BError (code message : string)
| BLogin (token refreshToken : string)
| BRefresh (token : string)
| BMe (userID : Z) (username : string) (isAdmin : bool)
| BRegister (username : string) (isAdmin : bool)
| BCreateInvite (code : string) (expiresAt : option Z)
| BInvites (l : list InviteListItem)
| BServer (publicKey endpoint network : string) (mtu : Z)
| BHealth (status version : string)
| BNode (n : NodeResponse)
| BNodes (l : list NodeResponse)
| BZone (z : ZoneResponse)
| BZones (l : list ZoneResponse)
| BMembers (l : list ZoneMemberResponse)
| BAnn (a : AnnouncementResponse)
| BAnns (l : list AnnouncementResponse).

Record Resp : Type := mkResp { status : Z; body : Body }.

Definition WriteJSONError (code : Z) (err message : string) : Resp := mkResp code (BError err message).
Definition writeJSON (code : Z) (b : Body) : Resp := mkResp code b.

(** ** The server's state *)

(** [w_nanos]: the clock's position within the store's current second; a request
    is served at one instant. *)
Record World (K D : Type) : Type := mkWorld
  { w_store : Store; w_nanos : Z; w_nft : K; w_wg : D; w_status : Tracker; w_log : list string }.
Arguments mkWorld {K D}.
Arguments w_store {K D}.
Arguments w_nanos {K D}.
Arguments w_nft {K D}.
Arguments w_wg {K D}.
Arguments w_status {K D}.
Arguments w_log {K D}.

(** The fields of [handlers] and [Options] that configure the endpoints. An absent
    [announcePool] is the invalid zero prefix. *)
Record Options : Type := mkOptions
  { h_version : string; h_jwt : JWTManager; h_wg : Server; h_netfw : string;
    h_wgConfig : WgConfig; h_Endpoint : string;
    maxDevicesPerUser : Z; maxOwnedZonesPerUser : Z; maxAnnouncedSubnetsPerUser : Z;
    announcePool : option AnyPrefix; inviteTTL : Z }.

Section Handlers.
Context {K D : Type} `{Nftables K} `{WgHost D} `{WgTypes} `{NetipV6} `{Sqlite} `{Argon2} `{JwtLib}.
Context (h : Options).

Abbreviation HM := (M Resp (World K D)).

(** Calls into the components, their outcome as a value. *)
Definition db {A} (m : SM A) : HM (res serr A) := fun w =>
  let '(r, s) := m (w_store w) in
  (Ok r, mkWorld s (w_nanos w) (w_nft w) (w_wg w) (w_status w) (w_log w)).
Definition netfw {A} (m : M unit K A) : HM (res unit A) := fun w =>
  let '(r, k) := m (w_nft w) in
  (Ok r, mkWorld (w_store w) (w_nanos w) k (w_wg w) (w_status w) (w_log w)).
Definition wg {A} (m : M wg_err D A) : HM (res wg_err A) := fun w =>
  let '(r, d) := m (w_wg w) in
  (Ok r, mkWorld (w_store w) (w_nanos w) (w_nft w) d (w_status w) (w_log w)).

Definition log_error (msg : string) : HM unit := fun w =>
  (Ok tt, mkWorld (w_store w) (w_nanos w) (w_nft w) (w_wg w) (w_status w) (w_log w ++ [msg])).
Definition now_ns : HM Z := gets (fun w => s_now (w_store w) * 1000000000 + w_nanos w).

(** [if err != nil { log.Error(msg) }]. *)
Definition log_failure {E A} (msg : string) (r : res E A) : HM unit :=
  match r with Ok _ => ret tt | Err _ => log_error msg end.

Definition serverError {A} : HM A :=
  do! log_error "handler error" in
  throw (WriteJSONError 500 "internal_error" "An internal error occurred.").

(** The [errors.Is] cascade after a call: known errors have their response, the
    others end in [serverError]. *)
Definition or_fail {A} (known : serr -> option Resp) (m : HM (res serr A)) : HM A :=
  let! r := m in
  match r with
  | Ok a => ret a
  | Err e => match known e with Some resp => throw resp | None => serverError end
  end.
Definition or_server_error {A} (m : HM (res serr A)) : HM A := or_fail (fun _ => None) m.

Definition unauthorized : Resp := WriteJSONError 401 "unauthorized" "Authentication required.".
Definition not_found (message : string) : Resp := WriteJSONError 404 "not_found" message.
Definition validation_error (message : string) : Resp := WriteJSONError 400 "validation_error" message.

(** [IdentityFrom] and its check. *)
Definition identity (id : option Claims) : HM Claims :=
  match id with Some c => ret c | None => throw unauthorized end.
Definition decoded {A} (b : option A) : HM A :=
  match b with Some req => ret req | None => throw (validation_error "Invalid request body.") end.
Definition strlen (s : string) : Z := Z.of_nat (String.length s).

Definition node_missing (message : string) (e : serr) : option Resp :=
  match e with ErrNodeNotFound => Some (not_found message) | _ => None end.

(** ** auth_handlers.go *)

Definition passwordPolicyMessage (reason : Reason) : string :=
  match reason with
  | ReasonCharset => "Password may only contain ASCII letters, digits, and symbols (no spaces)."
  | ReasonTooShort | ReasonTooLong => "Password must be 8-64 characters."
  | _ => "Password must include an uppercase letter, a lowercase letter, and a digit."
  end.

Definition invalid_credentials : Resp := WriteJSONError 401 "invalid_credentials" "Invalid username or password.".
Definition invalid_refresh : Resp := WriteJSONError 401 "invalid_refresh_token" "Refresh token is invalid or expired.".

Definition issue_token (u : user_row) : HM string :=
  let! now := now_ns in
  match IssueJWT (h_jwt h) now (mkClaims (u_id u) (u_name u) (u_admin u)) with
  | Some token => ret token
  | None => serverError
  end.

Definition login (b : option LoginRequest) : HM Resp :=
  let! req := decoded b in
  if bool_decide (lr_Username req = "" \/ lr_Password req = "")
  then throw (validation_error "Username and password are required.") else
  let! u := or_server_error (db (GetByUsername (lr_Username req))) in
  match u with
  | None => throw invalid_credentials
  | Some u =>
      match VerifyPassword (lr_Password req) (u_hash u) with
      | Ok true =>
          let! token := issue_token u in
          let! refreshToken := or_server_error (db (Issue (u_id u))) in
          ret (writeJSON 200 (BLogin token refreshToken))
      | _ => throw invalid_credentials
      end
  end.

Definition refresh (b : option RefreshRequest) : HM Resp :=
  let! req := decoded b in
  if bool_decide (rf_RefreshToken req = "") then throw (validation_error "A refresh token is required.") else
  let! userID := or_fail (fun e => match e with ErrRefreshInvalid => Some invalid_refresh | _ => None end)
                   (db (ValidateRefresh (rf_RefreshToken req))) in
  let! u := or_server_error (db (GetUserByID userID)) in
  match u with
  | None => throw invalid_refresh
  | Some u =>
      let! token := issue_token u in
      ret (writeJSON 200 (BRefresh token))
  end.

Definition logout (b : option LogoutRequest) : HM Resp :=
  let! req := decoded b in
  if bool_decide (lo_RefreshToken req = "") then throw (validation_error "A refresh token is required.") else
  do! or_server_error (db (Revoke (lo_RefreshToken req))) in
  ret (mkResp 204 BEmpty).

Definition me (id : option Claims) : HM Resp :=
  let! id := identity id in
  ret (writeJSON 200 (BMe (c_UserID id) (c_Username id) (c_IsAdmin id))).

Definition register_failure (e : serr) : option Resp :=
  match e with
  | ErrInviteInvalid => Some (WriteJSONError 422 "invite_invalid" "Invite code is invalid or already used.")
  | ErrUserExists => Some (WriteJSONError 409 "username_taken" "That username is already taken.")
  | _ => None
  end.

Definition register (b : option RegisterRequest) : HM Resp :=
  let! req := decoded b in
  let username := TrimSpace (rg_Username req) in
  if bool_decide (username = "") || (64 <? strlen username)
  then throw (validation_error "Username must be 1-64 characters.") else
  let '(reason, ok) := Validate (rg_Password req) in
  if negb ok then throw (validation_error (passwordPolicyMessage reason)) else
  if bool_decide (rg_InviteCode req = "") then throw (validation_error "An invite code is required.") else
  let! hash := or_server_error (db (HashPassword (rg_Password req))) in
  let! u := or_fail register_failure (db (Register username hash (rg_InviteCode req))) in
  ret (writeJSON 201 (BRegister (u_name u) (u_admin u))).

(** [Format(time.RFC3339)] shows whole seconds. *)
Definition rfc3339 (ns : Z) : Z := ns / 1000000000.

(** ** server_handler.go, health.go *)

Definition serverInfo : HM Resp :=
  ret (writeJSON 200 (BServer (KeyString (srv_pub (h_wg h))) (h_Endpoint h)
                        (cfg_Network (h_wgConfig h)) (cfg_MTU (h_wgConfig h)))).

Definition healthz (version method : string) : HM Resp :=
  if negb (bool_decide (method = "GET"))
  then throw (WriteJSONError 405 "method_not_allowed" "Method not allowed.")
  else ret (mkResp 200 (BHealth "ok" version)).

(** ** invite_handlers.go *)

Definition createInvite (id : option Claims) : HM Resp :=
  let! id := identity id in
  let! (code, expiresAt) := or_server_error (db (CreateInvite (c_UserID id) (inviteTTL h))) in
  ret (writeJSON 201 (BCreateInvite code (rfc3339 <$> expiresAt))).

Definition toInviteListItem (now : Z) (inv : Invite) : InviteListItem :=
  let i := inv_row inv in
  let st :=
    match i_used_at i with
    | Some _ => "used"
    | None =>
        match i_expires i with
        | Some t => if t * 1000000000 <? now then "expired" else "unused"
        | None => "unused"
        end
    end in
  mkInviteItem (i_code i) st (CreatedByName inv) (i_created i) (UsedByName inv) (i_used_at i) (i_expires i).

Definition listInvites : HM Resp :=
  let! invites := or_server_error (db ListInvites) in
  let! now := now_ns in
  ret (writeJSON 200 (BInvites (toInviteListItem now <$> invites))).

(** ** node_handlers.go *)

(** [^[a-z0-9-]{1,32}$] *)
Definition platform_char (a : ascii) : bool :=
  let n := nat_of_ascii a in
  (Nat.leb 97 n && Nat.leb n 122) || (Nat.leb 48 n && Nat.leb n 57) || Nat.eqb n 45.
Definition platformPattern (s : string) : bool :=
  chars platform_char s && (1 <=? strlen s) && (strlen s <=? 32).

Definition create_node_failure (e : serr) : option Resp :=
  match e with
  | ErrNodeNameTaken => Some (WriteJSONError 409 "node_name_taken" "You already have a node with that name.")
  | ErrPubKeyTaken => Some (WriteJSONError 409 "pubkey_taken" "That public key is already registered.")
  | ErrDeviceLimitReached => Some (WriteJSONError 409 "device_limit_reached" "You have reached your device limit.")
  | ErrPoolExhausted => Some (WriteJSONError 503 "pool_exhausted" "No addresses are available in the pool.")
  | _ => None
  end.

Definition registerNode (id : option Claims) (b : option RegisterNodeRequest) : HM Resp :=
  let! id := identity id in
  let! req := decoded b in
  let name := TrimSpace (rn_Name req) in
  if bool_decide (name = "") || (64 <? strlen name)
  then throw (validation_error "Node name must be 1-64 characters.") else
  match ParseKey (rn_WGPubKey req) with
  | None => throw (validation_error "Invalid WireGuard public key.")
  | Some _ =>
      let platform := if decide (rn_Platform req = "") then "unknown" else rn_Platform req in
      if negb (platformPattern platform)
      then throw (validation_error "Platform must be 1-32 lowercase letters, digits or dashes.") else
      match PoolRange (cfg_Network (h_wgConfig h)) with
      | Err _ => serverError
      | Ok (first, last) =>
          let maxDevices := if c_IsAdmin id then 0 else maxDevicesPerUser h in
          let! node := or_fail create_node_failure
            (db (CreateNode (c_UserID id) name (rn_WGPubKey req) platform first last maxDevices)) in
          let! added := wg (AddPeer (h_wg h) (n_key node) (n_ip node)) in
          match added with
          | Err _ =>
              let! r := db (DeleteOwned (c_UserID id) (n_id node)) in
              do! log_failure "failed to roll back node after peer-add failure" r in
              serverError
          | Ok _ =>
              ret (writeJSON 201 (BNode (mkNodeResponse (n_id node) (n_name node) (AddrString (n_ip node))
                                           None false None (n_platform node))))
          end
      end
  end.

Definition node_item (t : Tracker) (now : Z) (n : node_row) : NodeResponse :=
  mkNodeResponse (n_id n) (n_name n) (AddrString (n_ip n)) (Some (n_created n))
    (Online t now (n_key n)) (rfc3339 <$> LastHandshake t (n_key n)) (n_platform n).

Definition listNodes (id : option Claims) : HM Resp :=
  let! id := identity id in
  let! nodes := or_server_error (db (ListByUser (c_UserID id))) in
  let! now := now_ns in
  let! t := gets w_status in
  ret (writeJSON 200 (BNodes (node_item t now <$> nodes))).

Definition deleteNode (id : option Claims) (path_id : string) : HM Resp :=
  let! id := identity id in
  match ParseInt64 path_id with
  | None => throw (not_found "Node not found.")
  | Some nodeID =>
      let! node := or_fail (node_missing "Node not found.") (db (GetOwned (c_UserID id) nodeID)) in
      let! zoneIDs := or_server_error (db (ZonesForNode nodeID)) in
      let! attachments := or_server_error (db (AttachmentsForNode nodeID)) in
      do! or_fail (node_missing "Node not found.") (db (DeleteOwned (c_UserID id) nodeID)) in
      let! r := wg (RemovePeer (h_wg h) (n_key node)) in
      do! log_failure "failed to remove peer for deleted node" r in
      do! for_each zoneIDs (fun zid =>
            let! r := netfw (RemoveMember (h_netfw h) zid (n_ip node)) in
            log_failure "failed to remove set element for deleted node" r) in
      do! for_each attachments (fun att =>
            let! r := netfw (RemoveZoneRoute (h_netfw h) (zd_zone att) (zd_synthetic att)) in
            log_failure "failed to remove zone route for deleted node" r) in
      ret (mkResp 204 BEmpty)
  end.

(** [RoutesForNode] and [SetPeerRoutes], each failure logged. *)
Definition recompute_peer (node : Z) (key : string) (ip : Addr) (msg_routes msg_peer : string) : HM unit :=
  let! routes := db (RoutesForNode node) in
  match routes with
  | Err _ => log_error msg_routes
  | Ok routes =>
      let! r := wg (SetPeerRoutes (h_wg h) key ip routes) in
      log_failure msg_peer r
  end.

(** ** admin_user_handlers.go *)

Definition delete_user_failure (e : serr) : option Resp :=
  match e with
  | ErrUserNotFound => Some (not_found "User not found.")
  | ErrLastAdmin => Some (WriteJSONError 409 "last_admin" "Cannot delete the last administrator.")
  | _ => None
  end.

Definition deleteUser (id : option Claims) (path_id : string) : HM Resp :=
  let! id := identity id in
  match ParseInt64 path_id with
  | None => throw (not_found "User not found.")
  | Some targetID =>
      if targetID =? c_UserID id
      then throw (WriteJSONError 403 "cannot_delete_self" "You cannot delete your own account.") else
      let! result := or_fail delete_user_failure (db (DeleteCascade targetID)) in
      do! for_each (NodePubKeys result) (fun pub =>
            let! r := wg (RemovePeer (h_wg h) pub) in
            log_failure "failed to remove peer for deleted user's node" r) in
      do! for_each (SurvivingMemberships result) (fun m =>
            let! r := netfw (RemoveMember (h_netfw h) m.2 m.1) in
            log_failure "failed to remove set element for deleted user's node" r) in
      do! for_each (OwnedZoneIDs result) (fun zid =>
            let! r := netfw (DeleteZone (h_netfw h) zid) in
            log_failure "failed to delete owned zone's rules" r) in
      do! for_each (SurvivingZoneRoutes result) (fun route =>
            let! r := netfw (RemoveZoneRoute (h_netfw h) route.1 route.2) in
            log_failure "failed to remove zone route for deleted user" r) in
      do! for_each (RouteRecomputeNodes result) (fun n =>
            recompute_peer (rr_node n) (rr_key n) (rr_ip n)
              "failed to recompute routes for surviving node" "failed to update surviving node's peer routes") in
      ret (mkResp 204 BEmpty)
  end.
End Handlers.
