(* ===== verification/ApiZones.v ===== *)
(** * The control-plane API: zones and subnet announcements
    ([internal/server/api/zone_handlers.go], [announce_handlers.go]) *)
From S2P Require Import Prelude GoStrings Netip Ipam Codec Db StoreUsers StoreNodes StoreAnnounce Netfw Wg Auth Api.

#[local] Open Scope lw_scope.

Section ZoneHandlers.
Context {K D : Type} `{Nftables K} `{WgHost D} `{WgTypes} `{NetipV6} `{Sqlite} `{Argon2}.
Context (h : Options).

Abbreviation HM := (M Resp (World K D)).

(** ** zone_handlers.go *)

Definition minZonePasswordLen : Z := 8.

Definition create_zone_failure (e : serr) : option Resp :=
  match e with
  | ErrZoneNameTaken => Some (WriteJSONError 409 "zone_name_taken" "That zone name is already taken.")
  | ErrOwnedZoneLimitReached => Some (WriteJSONError 409 "zone_limit_reached" "You have reached your zone limit.")
  | _ => None
  end.
Definition not_member_failure (e : serr) : option Resp :=
  match e with ErrNotMember => Some (not_found "Not found.") | _ => None end.

Definition rollbackZone (zoneID : Z) : HM unit :=
  let! r := db (DeleteZoneRow zoneID) in
  do! log_failure "failed to roll back zone after auto-join failure" r in
  let! r := netfw (DeleteZone (h_netfw h) zoneID) in
  log_failure "failed to delete zone nftables state on rollback" r.

Definition createZone (id : option Claims) (b : option CreateZoneRequest) : HM Resp :=
  let! id := identity id in
  let! req := decoded b in
  let name := TrimSpace (cz_Name req) in
  if bool_decide (name = "") || (64 <? strlen name)
  then throw (validation_error "Zone name must be 1-64 characters.") else
  if strlen (cz_Password req) <? minZonePasswordLen
  then throw (validation_error "Zone password must be at least 8 characters.") else
  let! member :=
    (if negb (cz_NodeID req =? 0)
     then let! n := or_fail (node_missing "Node not found.") (db (GetOwned (c_UserID id) (cz_NodeID req))) in
          ret (Some n)
     else ret None) in
  let! hash := or_server_error (db (HashPassword (cz_Password req))) in
  let maxOwnedZones := if c_IsAdmin id then 0 else maxOwnedZonesPerUser h in
  let! zone := or_fail create_zone_failure (db (CreateZone (c_UserID id) name hash maxOwnedZones)) in
  let! added := netfw (AddZone (h_netfw h) (z_id zone)) in
  match added with
  | Err _ =>
      let! r := db (DeleteZoneRow (z_id zone)) in
      do! log_failure "failed to roll back zone after nft failure" r in
      serverError
  | Ok _ =>
      do! (match member with
           | None => ret tt
           | Some m =>
               let! joined := db (JoinZone (z_id zone) (n_id m)) in
               match joined with
               | Err _ => do! rollbackZone (z_id zone) in serverError
               | Ok _ =>
                   let! r := netfw (AddMember (h_netfw h) (z_id zone) (n_ip m)) in
                   match r with
                   | Err _ => do! rollbackZone (z_id zone) in serverError
                   | Ok _ => ret tt
                   end
               end
           end) in
      ret (writeJSON 201 (BZone (mkZoneResponse (z_id zone) (z_name zone) true)))
  end.

Definition zoneOrPassword : Resp := WriteJSONError 403 "invalid_zone_or_password" "Invalid zone or password.".

Definition joinZone (id : option Claims) (path_name : string) (b : option JoinZoneRequest) : HM Resp :=
  let! id := identity id in
  let! req := decoded b in
  if (jz_NodeID req =? 0) || bool_decide (jz_Password req = "")
  then throw (validation_error "node_id and password are required.") else
  let! zone := or_server_error (db (GetZoneByName path_name)) in
  match zone with
  | None => throw zoneOrPassword
  | Some zone =>
      match VerifyPassword (jz_Password req) (z_hash zone) with
      | Ok true =>
          let! node := or_fail (node_missing "Node not found.") (db (GetOwned (c_UserID id) (jz_NodeID req))) in
          do! or_server_error (db (JoinZone (z_id zone) (n_id node))) in
          let! r := netfw (AddMember (h_netfw h) (z_id zone) (n_ip node)) in
          match r with
          | Err _ =>
              let! r := db (LeaveZone (z_id zone) (n_id node)) in
              do! log_failure "failed to roll back membership after nft failure" r in
              serverError
          | Ok _ => ret (mkResp 200 BEmpty)
          end
      | _ => throw zoneOrPassword
      end
  end.

(** The loop over the detached routes, and whether one of them was reclaimed. *)
Fixpoint drop_routes (zoneID : Z) (dets : list DetachedRoute) (reclaimed : bool) : HM bool :=
  match dets with
  | [] => ret reclaimed
  | det :: dets =>
      let! r := netfw (RemoveZoneRoute (h_netfw h) zoneID (dr_synthetic det)) in
      do! log_failure "failed to remove zone route on zone exit" r in
      drop_routes zoneID dets (reclaimed || dr_reclaimed det)
  end.

Definition cascadeNodeZoneAnnouncements (node : node_row) (zoneID : Z) : HM unit :=
  let! dets := db (DetachAllForNodeZone (n_id node) zoneID) in
  match dets with
  | Err _ => log_error "failed to detach announcements on zone exit"
  | Ok dets =>
      let! reclaimed := drop_routes zoneID dets false in
      if reclaimed
      then recompute_peer h (n_id node) (n_key node) (n_ip node)
             "failed to recompute routes on zone exit" "failed to shrink peer routes on zone exit"
      else ret tt
  end.

(** The common tail of [leaveZone] and [kickMember]. *)
Definition exit_zone (zoneID : Z) (node : node_row) (msg : string) : HM Resp :=
  do! or_fail not_member_failure (db (LeaveZone zoneID (n_id node))) in
  let! r := netfw (RemoveMember (h_netfw h) zoneID (n_ip node)) in
  do! log_failure msg r in
  do! cascadeNodeZoneAnnouncements node zoneID in
  ret (mkResp 204 BEmpty).

Definition leaveZone (id : option Claims) (path_name : string) (b : option LeaveZoneRequest) : HM Resp :=
  let! id := identity id in
  let! req := decoded b in
  let! zone := or_server_error (db (GetZoneByName path_name)) in
  match zone with
  | None => throw (not_found "Not found.")
  | Some zone =>
      let! node := or_fail (node_missing "Not found.") (db (GetOwned (c_UserID id) (lz_NodeID req))) in
      exit_zone (z_id zone) node "failed to remove set element on leave"
  end.

Definition zone_item (z : zone_row * bool) : ZoneResponse := mkZoneResponse (z_id z.1) (z_name z.1) z.2.

Definition listZones (id : option Claims) : HM Resp :=
  let! id := identity id in
  let! zones := or_server_error (db (ListForUser (c_UserID id))) in
  ret (writeJSON 200 (BZones (zone_item <$> zones))).

(** [memberZone] of announce_handlers.go; [zoneMembers] has the same prologue. *)
Definition memberZone (userID : Z) (path_name : string) : HM zone_row :=
  let! zone := or_server_error (db (GetZoneByName path_name)) in
  match zone with
  | None => throw (not_found "Not found.")
  | Some zone =>
      let! participant := or_server_error (db (IsParticipant (z_id zone) userID)) in
      if negb participant then throw (not_found "Not found.") else ret zone
  end.

Definition member_item (m : ZoneMember) : ZoneMemberResponse :=
  mkMemberResponse (mb_node m) (mb_name m) (AddrString (mb_ip m)) (mb_owner m).

Definition zoneMembers (id : option Claims) (path_name : string) : HM Resp :=
  let! id := identity id in
  let! zone := memberZone (c_UserID id) path_name in
  let! members := or_server_error (db (MembersByZone (z_id zone))) in
  ret (writeJSON 200 (BMembers (member_item <$> members))).

Definition ownedZone (userID : Z) (path_name : string) : HM zone_row :=
  let! zone := or_server_error (db (GetZoneByName path_name)) in
  match zone with
  | None => throw (not_found "Not found.")
  | Some zone =>
      if negb (z_owner zone =? userID)
      then throw (WriteJSONError 403 "forbidden" "Only the zone owner may perform this operation.")
      else ret zone
  end.

Definition changeZonePassword (id : option Claims) (path_name : string) (b : option ChangeZonePasswordRequest) : HM Resp :=
  let! id := identity id in
  let! zone := ownedZone (c_UserID id) path_name in
  let! req := decoded b in
  if strlen (cp_Password req) <? minZonePasswordLen
  then throw (validation_error "Zone password must be at least 8 characters.") else
  let! hash := or_server_error (db (HashPassword (cp_Password req))) in
  do! or_server_error (db (UpdateZonePassword (z_id zone) hash)) in
  ret (mkResp 200 BEmpty).

Definition kickMember (id : option Claims) (path_name path_node_id : string) : HM Resp :=
  let! id := identity id in
  let! zone := ownedZone (c_UserID id) path_name in
  match ParseInt64 path_node_id with
  | None => throw (not_found "Not found.")
  | Some nodeID =>
      let! node := or_fail (node_missing "Not found.") (db (GetNodeByID nodeID)) in
      exit_zone (z_id zone) node "failed to remove set element on kick"
  end.

(** The nodes are visited once each, in the order of their first reclaimed
    announcement. *)
Fixpoint recomputeReclaimedPeers (seen : gset Z) (dets : list ZoneDetachment) : HM unit :=
  match dets with
  | [] => ret tt
  | det :: dets =>
      if negb (zd_reclaimed det) || bool_decide (zd_node det ∈ seen)
      then recomputeReclaimedPeers seen dets
      else
        let! node := db (GetNodeByID (zd_node det)) in
        do! (match node with
             | Err _ => log_error "failed to load node for route recompute"
             | Ok node => recompute_peer h (zd_node det) (n_key node) (n_ip node)
                            "failed to recompute routes" "failed to update peer routes"
             end) in
        recomputeReclaimedPeers ({[zd_node det]} ∪ seen) dets
  end.

Definition deleteZone (id : option Claims) (path_name : string) : HM Resp :=
  let! id := identity id in
  let! zone := ownedZone (c_UserID id) path_name in
  let! dets := or_server_error (db (DetachAllForZone (z_id zone))) in
  do! or_server_error (db (DeleteZoneRow (z_id zone))) in
  let! r := netfw (DeleteZone (h_netfw h) (z_id zone)) in
  do! log_failure "failed to delete zone nftables state" r in
  do! recomputeReclaimedPeers ∅ dets in
  ret (mkResp 204 BEmpty).

(** ** announce_handlers.go *)

Definition announcePlatforms (platform : string) : bool := bool_decide (platform = "openwrt").

(** [None] for a subnet that may be announced, otherwise the message. An IPv6 VPN
    network or pool is outside the model: start-up refuses an IPv6 network and the configuration check an IPv6 pool. *)
Definition validAnnouncedSubnet (prefix : Prefix) : option string :=
  if (Bits prefix <? 16) || (30 <? Bits prefix)
  then Some "Subnet prefix length must be between /16 and /30." else
  if negb (IsRFC1918 prefix) then Some "Subnet must be a private (RFC1918) range." else
  let block := BlockFromPrefix prefix in
  if match ParsePrefix (cfg_Network (h_wgConfig h)) with
     | Some (P4 vpn) => Overlaps block (BlockFromPrefix vpn)
     | _ => false
     end
  then Some "Subnet overlaps the VPN address pool." else
  if match announcePool h with Some (P4 pool) => Overlaps block (BlockFromPrefix pool) | _ => false end
  then Some "Subnet overlaps the synthetic address pool." else
  None.

Definition rollbackAnnouncement (zoneID annID : Z) (node : node_row) : HM unit :=
  let! r := db (Detach zoneID annID) in
  match r with
  | Err _ => log_error "failed to roll back announcement after dataplane failure"
  | Ok _ => recompute_peer h (n_id node) (n_key node) (n_ip node)
              "failed to recompute routes on rollback" "failed to shrink peer routes on rollback"
  end.

Definition create_ann_failure (e : serr) : option Resp :=
  match e with
  | ErrNotMember => Some (not_found "Node is not a member of this zone.")
  | ErrSubnetOverlap =>
      Some (WriteJSONError 409 "subnet_overlap" "The subnet overlaps another announcement of the same node.")
  | ErrAnnounceLimit =>
      Some (WriteJSONError 409 "announce_limit_reached" "You have reached your announced subnet limit.")
  | ErrSyntheticPoolExhausted =>
      Some (WriteJSONError 503 "synthetic_pool_exhausted" "No synthetic address block of that size is available.")
  | _ => None
  end.

(** The dataplane growth for a fresh attachment. *)
Definition grow_dataplane (zone : zone_row) (node : node_row) (ann : Announcement) : HM unit :=
  let undo {A} : HM A := do! rollbackAnnouncement (z_id zone) (an_id ann) node in serverError in
  let! routes := db (RoutesForNode (n_id node)) in
  match routes with
  | Err _ => undo
  | Ok routes =>
      let! r := wg (SetPeerRoutes (h_wg h) (n_key node) (n_ip node) routes) in
      match r with
      | Err _ => undo
      | Ok _ =>
          let! r := netfw (AddZoneRoute (h_netfw h) (z_id zone) (BlockPrefix (Synthetic ann))) in
          match r with Err _ => undo | Ok _ => ret tt end
      end
  end.

Definition createAnnouncement (id : option Claims) (path_name : string) (b : option CreateAnnouncementRequest) : HM Resp :=
  let! id := identity id in
  let! zone := memberZone (c_UserID id) path_name in
  let! req := decoded b in
  match announcePool h with
  | None => throw (WriteJSONError 503 "announce_disabled"
              "Subnet announcements are disabled on this server (no synthetic pool configured).")
  | Some pool =>
      let! node := or_fail (node_missing "Node not found.") (db (GetOwned (c_UserID id) (ca_NodeID req))) in
      if negb (announcePlatforms (n_platform node))
      then throw (WriteJSONError 409 "platform_unsupported"
             "This node's platform cannot announce subnets (requires a router client that performs address translation).") else
      match ParsePrefix (ca_Subnet req) with
      | Some (P4 prefix) =>
          let prefix := Masked prefix in
          match validAnnouncedSubnet prefix with
          | Some msg => throw (WriteJSONError 400 "subnet_invalid" msg)
          | None =>
              let limit := if c_IsAdmin id then 0 else maxAnnouncedSubnetsPerUser h in
              let! (ann, attached) := or_fail create_ann_failure
                (db (CreateAnnouncement (c_UserID id) (n_id node) (BlockFromPrefix prefix) (z_id zone) limit pool)) in
              do! when attached (grow_dataplane zone node ann) in
              ret (writeJSON 201 (BAnn (mkAnnResponse (an_id ann) (n_id node) (n_name node) (c_Username id)
                     (PrefixString (BlockPrefix (Real ann))) (PrefixString (BlockPrefix (Synthetic ann))))))
          end
      | _ => throw (validation_error "Subnet must be an IPv4 CIDR like 192.168.1.0/24.")
      end
  end.

Definition ann_missing (e : serr) : option Resp :=
  match e with ErrAnnouncementNotFound => Some (not_found "Not found.") | _ => None end.

Definition deleteAnnouncement (id : option Claims) (path_name path_id : string) : HM Resp :=
  let! id := identity id in
  let! zone := memberZone (c_UserID id) path_name in
  match ParseInt64 path_id with
  | None => throw (not_found "Not found.")
  | Some annID =>
      let! ann := or_fail ann_missing (db (GetAnnouncement annID)) in
      let! node := or_server_error (db (GetNodeByID (an_node ann))) in
      if negb (n_user node =? c_UserID id) && negb (z_owner zone =? c_UserID id)
      then throw (not_found "Not found.") else
      let! (_, reclaimed) := or_fail ann_missing (db (Detach (z_id zone) annID)) in
      let! r := netfw (RemoveZoneRoute (h_netfw h) (z_id zone) (BlockPrefix (Synthetic ann))) in
      do! log_failure "failed to remove zone route" r in
      do! when reclaimed (recompute_peer h (n_id node) (n_key node) (n_ip node)
             "failed to recompute routes after detach" "failed to shrink peer routes after detach") in
      ret (mkResp 204 BEmpty)
  end.

Definition ann_item (a : Announcement) : AnnouncementResponse :=
  mkAnnResponse (an_id a) (an_node a) (an_node_name a) (an_owner a)
    (PrefixString (BlockPrefix (Real a))) (PrefixString (BlockPrefix (Synthetic a))).

Definition listAnnouncements (id : option Claims) (path_name : string) : HM Resp :=
  let! id := identity id in
  let! zone := memberZone (c_UserID id) path_name in
  let! anns := or_server_error (db (ListByZone (z_id zone))) in
  ret (writeJSON 200 (BAnns (ann_item <$> anns))).
End ZoneHandlers.
