(* ===== verification/ApiRoutes.v ===== *)
(** * Routing, authentication and start-up
    ([internal/server/api/middleware_auth.go], [middleware.go], [routes.go],
    [router.go]; [internal/server/app/dataplane.go]) *)
From S2P Require Import Prelude GoStrings Netip Ipam Codec Db StoreUsers StoreNodes StoreAnnounce Netfw Wg Auth Api ApiZones.
From Stdlib Require Import Ascii.

#[local] Open Scope lw_scope.

(** A request's body, as [decodeJSON] reads it into each request type. *)
Record Decoded : Type := mkDecoded
  { as_login : option LoginRequest; as_refresh : option RefreshRequest; as_logout : option LogoutRequest;
    as_register : option RegisterRequest; as_register_node : option RegisterNodeRequest;
    as_create_zone : option CreateZoneRequest; as_join_zone : option JoinZoneRequest;
    as_leave_zone : option LeaveZoneRequest; as_change_password : option ChangeZonePasswordRequest;
    as_create_ann : option CreateAnnouncementRequest }.
Definition no_body : Decoded := mkDecoded None None None None None None None None None None.

(** [rq_ctx] is the identity the context carries, [rq_auth] the Authorization
    header (empty when absent), [rq_path] the pattern's path values. *)
Record Request : Type := mkRequest
  { rq_method : string; rq_auth : string; rq_ctx : option Claims; rq_path : string -> string; rq_body : Decoded }.

Definition with_identity (c : Claims) (r : Request) : Request :=
  mkRequest (rq_method r) (rq_auth r) (Some c) (rq_path r) (rq_body r).

Section Routes.
Context {K D : Type} `{Nftables K} `{WgHost D} `{WgTypes} `{NetipV6} `{Sqlite} `{Argon2} `{JwtLib}.
Context (h : Options).

Abbreviation HM := (M Resp (World K D)).
Abbreviation Handler := (Request -> HM Resp).

(** ** middleware_auth.go *)

Definition AuthRequired (next : Handler) : Handler := fun r =>
  match CutPrefix (rq_auth r) "Bearer " with
  | None => throw unauthorized
  | Some token =>
      let! now := now_ns in
      match VerifyJWT (h_jwt h) now (TrimSpace token) with
      | None => throw unauthorized
      | Some claims => next (with_identity claims r)
      end
  end.

Definition AdminRequired (next : Handler) : Handler := fun r =>
  match rq_ctx r with
  | None => throw unauthorized
  | Some claims =>
      if negb (c_IsAdmin claims)
      then throw (WriteJSONError 403 "forbidden" "Administrator privileges required.")
      else next r
  end.

(** [RateLimit], given the shared limiter's answer for this request. *)
Definition RateLimit (allow : bool) (next : Handler) : Handler := fun r =>
  if negb allow
  then throw (WriteJSONError 429 "rate_limited" "Too many requests. Please retry shortly.")
  else next r.

(** ** routes.go *)

Definition routes : list (string * Handler) :=
  let authed := AuthRequired in
  let admin := AdminRequired in
  let name r := rq_path r "name" in
  [ ("/api/v1/healthz", fun r => healthz (h_version h) (rq_method r));
    ("POST /api/v1/login", fun r => login h (as_login (rq_body r)));
    ("POST /api/v1/register", fun r => register (as_register (rq_body r)));
    ("POST /api/v1/refresh", fun r => refresh h (as_refresh (rq_body r)));
    ("POST /api/v1/logout", fun r => logout (as_logout (rq_body r)));
    ("GET /api/v1/me", authed (fun r => me (rq_ctx r)));
    ("GET /api/v1/server", authed (fun r => serverInfo h));
    ("POST /api/v1/nodes", authed (fun r => registerNode h (rq_ctx r) (as_register_node (rq_body r))));
    ("GET /api/v1/nodes", authed (fun r => listNodes (rq_ctx r)));
    ("DELETE /api/v1/nodes/{id}", authed (fun r => deleteNode h (rq_ctx r) (rq_path r "id")));
    ("POST /api/v1/zones", authed (fun r => createZone h (rq_ctx r) (as_create_zone (rq_body r))));
    ("GET /api/v1/zones", authed (fun r => listZones (rq_ctx r)));
    ("POST /api/v1/zones/{name}/join", authed (fun r => joinZone h (rq_ctx r) (name r) (as_join_zone (rq_body r))));
    ("POST /api/v1/zones/{name}/leave", authed (fun r => leaveZone h (rq_ctx r) (name r) (as_leave_zone (rq_body r))));
    ("GET /api/v1/zones/{name}/members", authed (fun r => zoneMembers (rq_ctx r) (name r)));
    ("POST /api/v1/zones/{name}/announcements",
       authed (fun r => createAnnouncement h (rq_ctx r) (name r) (as_create_ann (rq_body r))));
    ("GET /api/v1/zones/{name}/announcements", authed (fun r => listAnnouncements (rq_ctx r) (name r)));
    ("DELETE /api/v1/zones/{name}/announcements/{id}",
       authed (fun r => deleteAnnouncement h (rq_ctx r) (name r) (rq_path r "id")));
    ("PATCH /api/v1/zones/{name}",
       authed (fun r => changeZonePassword (rq_ctx r) (name r) (as_change_password (rq_body r))));
    ("DELETE /api/v1/zones/{name}", authed (fun r => deleteZone h (rq_ctx r) (name r)));
    ("DELETE /api/v1/zones/{name}/members/{node_id}",
       authed (fun r => kickMember h (rq_ctx r) (name r) (rq_path r "node_id")));
    ("POST /api/v1/admin/invites", authed (admin (fun r => createInvite h (rq_ctx r))));
    ("GET /api/v1/admin/invites", authed (admin (fun r => listInvites)));
    ("DELETE /api/v1/admin/users/{id}", authed (admin (fun r => deleteUser h (rq_ctx r) (rq_path r "id")))) ].

Definition notFound : HM Resp := throw (not_found "The requested resource was not found.").

(** The mux: the handler of the pattern the request matched, if any. *)
Fixpoint lookup_route (matched : string) (rs : list (string * Handler)) : option Handler :=
  match rs with
  | [] => None
  | (p, f) :: rs => if decide (p = matched) then Some f else lookup_route matched rs
  end.
Definition mux (matched : option string) : Handler := fun r =>
  match matched ≫= (fun p => lookup_route p routes) with
  | Some f => f r
  | None => notFound
  end.

(** [NewRouter]: the rate limit, then the mux, on a request as it arrives: its
    context carries no identity. *)
Definition NewRouter (allow : bool) (matched : option string) (method auth : string)
    (path : string -> string) (b : Decoded) : HM Resp :=
  RateLimit allow (mux matched) (mkRequest method auth None path b).

(** ** dataplane.go *)

(** A start-up failure is fatal: [None]. *)
Abbreviation Boot := (M unit (World K D)).

Definition boot {E A} (m : World K D -> res Resp (res E A) * World K D) : Boot A := fun w =>
  match m w with
  | (Ok (Ok a), w') => (Ok a, w')
  | (_, w') => (Err tt, w')
  end.

Definition rebuildZoneRules : Boot unit :=
  let! states := boot (db AllForRebuild) in
  let! routesByZone := boot (db RoutesByZone) in
  let zones := (fun s => mkNfZone (zs_id s) (zs_ips s) (default [] (routesByZone !! zs_id s))) <$> states in
  boot (netfw (Rebuild (h_netfw h) zones)).

Definition rebuildNodePeers : Boot unit :=
  let! nodes := boot (db AllForPeers) in
  let! routesByNode := boot (db RoutesByNode) in
  let peers := (fun n => mkPeer (n_key n) (n_ip n) (default [] (routesByNode !! n_id n))) <$> nodes in
  boot (wg (ReplacePeers (h_wg h) peers)).

(** The order [app.Run] uses. *)
Definition rebuild_dataplane : Boot unit :=
  do! rebuildNodePeers in
  rebuildZoneRules.
End Routes.
