(* ===== verification/ApiProps.v ===== *)
(** * Who may do what: authentication and authorization of the API *)
From S2P Require Import Prelude GoStrings Netip Ipam Codec Db StoreInv StoreUsers StoreNodes StoreAnnounce UsersProps Netfw Isolation Wg WgProps Auth AuthProps Api ApiZones ApiRoutes.
From Stdlib Require Import Ascii.

#[local] Open Scope lw_scope.

(** ** The route table *)

Definition public_patterns : list string :=
  ["/api/v1/healthz"; "POST /api/v1/login"; "POST /api/v1/register"; "POST /api/v1/refresh"; "POST /api/v1/logout"].
Definition admin_patterns : list string :=
  ["POST /api/v1/admin/invites"; "GET /api/v1/admin/invites"; "DELETE /api/v1/admin/users/{id}"].

Section Guards.
Context {K D : Type} `{Nftables K} `{WgHost D} `{WgTypes} `{NetipV6} `{Sqlite} `{Argon2} `{JwtLib}.
Context (h : Options).

(** The identity a request's Authorization header proves. *)
Definition caller (auth : string) (w : World K D) : option Claims :=
  token ← CutPrefix auth "Bearer ";
  VerifyJWT (h_jwt h) (s_now (w_store w) * 1000000000 + w_nanos w) (TrimSpace token).

Definition guarded (p : string) (f : Request -> M Resp (World K D) Resp) : Prop :=
  exists g, f = AuthRequired h g /\ ((p ∈ admin_patterns) -> exists g', g = AdminRequired g').

Lemma routes_table p f : (p, f) ∈ routes (K:=K) (D:=D) h -> (p ∉ public_patterns) -> guarded p f.
Proof.
  intros Hin Hpub. unfold routes in Hin.
  do 5 (apply elem_of_cons in Hin as [[= -> ->]|Hin]; [exfalso; apply Hpub; set_solver|]).
  repeat (apply elem_of_cons in Hin as [[= -> ->]|Hin];
    [eexists; split; [reflexivity|]; first
      [ intros _; eexists; reflexivity
      | intros Ha; exfalso; revert Ha; apply (bool_decide_unpack _); by vm_compute ]|]).
  by apply not_elem_of_nil in Hin.
Qed.

Lemma lookup_route_in p (rs : list (string * (Request -> M Resp (World K D) Resp))) :
  (p ∈ fst <$> rs) -> exists f, lookup_route p rs = Some f /\ (p, f) ∈ rs.
Proof.
  induction rs as [|[q f] rs IH]; simpl; [by intros ?%not_elem_of_nil|].
  intros Hp. case_decide as Hq; [subst; exists f; split; [done|left]|].
  apply elem_of_cons in Hp as [->|Hp]; [done|]. destruct (IH Hp) as (g & ? & ?). exists g. split; [done|by right].
Qed.
(** Without a session, such a route is not entered. *)
Lemma guard_none p auth method path b (w : World K D) :
  (p ∈ fst <$> routes (K:=K) (D:=D) h) -> (p ∉ public_patterns) -> caller auth w = None ->
  NewRouter h true (Some p) method auth path b w = (Err unauthorized, w).
Proof.
  intros (f & Hf & Hin)%lookup_route_in Hpub Hc. destruct (routes_table _ _ Hin Hpub) as (g & -> & _).
  unfold NewRouter, RateLimit, mux. cbn [negb mbind option_bind]. rewrite Hf. unfold AuthRequired. unfold caller in Hc.
  cbn [rq_auth]. destruct (CutPrefix auth "Bearer ") as [token|]; cbn [mbind option_bind] in Hc; [|done].
  unfold bind, now_ns, gets. by rewrite Hc.
Qed.
End Guards.

(** C17: the access table. Whatever the endpoint, a request over the rate limit is
    answered 429; on every route that is not one of the five public ones, a request
    whose Authorization header does not carry a valid, unexpired session token is
    answered 401, and on the administration routes a valid token without the
    administrator flag is answered 403; all of these before anything is read from
    the body, logged or changed. *)
Theorem routes_guarded {K D : Type} `{Nftables K} `{WgHost D} `{WgTypes} `{NetipV6} `{Sqlite} `{Argon2} `{JwtLib}
    h p method auth path b (w : World K D) :
  NewRouter h false (Some p) method auth path b w =
    (Err (WriteJSONError 429 "rate_limited" "Too many requests. Please retry shortly."), w) /\
  ((p ∈ fst <$> routes (K:=K) (D:=D) h) -> (p ∉ public_patterns) ->
     (caller h auth w = None -> NewRouter h true (Some p) method auth path b w = (Err unauthorized, w)) /\
     (forall c, caller h auth w = Some c -> c_IsAdmin c = false -> (p ∈ admin_patterns) ->
        NewRouter h true (Some p) method auth path b w =
          (Err (WriteJSONError 403 "forbidden" "Administrator privileges required."), w))).
Proof.
  split; [done|]. intros Hp Hpub. split; [by apply guard_none|]. apply lookup_route_in in Hp as (f & Hf & Hin).
  destruct (routes_table _ _ _ Hin Hpub) as (g & -> & Hadm).
  unfold NewRouter, RateLimit, mux. cbn [negb mbind option_bind]. rewrite Hf. unfold AuthRequired, caller.
  cbn [rq_auth]. destruct (CutPrefix auth "Bearer ") as [token|]; cbn [mbind option_bind]; [|done].
  unfold bind, now_ns, gets. intros c -> Hc Hin'. destruct (Hadm Hin') as [g' ->]. unfold AdminRequired. cbn. by rewrite Hc.
Qed.

(** ** Zone authority *)

(** Nothing changed but the error log and the bookkeeping of the store's driver. *)
Definition same_data {K D} (w w' : World K D) : Prop :=
  s_db (w_store w') = s_db (w_store w) /\ w_nft w' = w_nft w /\ w_wg w' = w_wg w.
(** The request was refused without effect. *)
Definition refused {K D A} (out : res Resp A * World K D) (w : World K D) : Prop :=
  (exists resp, fst out = Err resp) /\ same_data w (snd out).

Section Refusals.
Context {K D : Type} `{Nftables K} `{WgHost D} `{WgTypes} `{NetipV6} `{Sqlite} `{Argon2}.

Lemma same_data_refl (w : World K D) : same_data w w.
Proof. done. Qed.
Lemma same_data_trans (w1 w2 w3 : World K D) : same_data w1 w2 -> same_data w2 w3 -> same_data w1 w3.
Proof. intros (? & ? & ?) (? & ? & ?). split_and!; congruence. Qed.

Lemma refused_bind {A B} (m : M Resp (World K D) A) (k : A -> M Resp (World K D) B) w w' :
  refused (m w') w -> refused (bind m k w') w.
Proof.
  unfold refused, bind. destruct (m w') as [[a|e] w1]; simpl; intros [[r [= ->]] Hs].
  split; [by exists r|done].
Qed.
Lemma refused_throw {A} r (w w' : World K D) : same_data w w' -> refused (throw (A:=A) r w') w.
Proof. intros Hs. split; [by exists r|done]. Qed.
Lemma refused_serverError {A} (w w' : World K D) : same_data w w' -> refused (serverError (A:=A) w') w.
Proof. intros Hs. unfold serverError, bind, log_error. by apply refused_throw. Qed.

(** A read of the database, successful or not, then the rest of the handler. *)
Lemma refused_query {A B} (f : DB -> A) (k : res serr A -> M Resp (World K D) B) w w' :
  same_data w w' ->
  (forall w1, same_data w w1 -> refused (k (Ok (f (s_db (w_store w)))) w1) w) ->
  (forall e w1, same_data w w1 -> refused (k (Err e) w1) w) ->
  refused (bind (db (query f)) k w') w.
Proof.
  intros (Hd & Hn & Hw) Hok Herr. unfold bind, db, query, driver, gets. rewrite <- Hd in Hok.
  destruct (s_faults (w_store w')) as [|[] fs]; cbn; [apply Hok|apply Herr|apply Hok]; done.
Qed.

Lemma bind_assoc {A B C} (m : M Resp (World K D) A) (f : A -> M Resp (World K D) B) (g : B -> M Resp (World K D) C) w :
  bind (bind m f) g w = bind m (fun a => bind (f a) g) w.
Proof. unfold bind. by destruct (m w) as [[a|e] w']. Qed.

(** [or_fail] around a read. *)
Lemma refused_read {A B} (f : DB -> A) known (k : A -> M Resp (World K D) B) w w' :
  same_data w w' ->
  (forall w1, same_data w w1 -> refused (k (f (s_db (w_store w))) w1) w) ->
  refused (bind (or_fail known (db (query f))) k w') w.
Proof.
  intros Hs Hok. unfold or_fail. rewrite bind_assoc. apply refused_query; [done|..].
  - intros w1 Hw1. by apply Hok.
  - intros e w1 Hw1. apply refused_bind with (k := k). destruct (known e); [by apply refused_throw|by apply refused_serverError].
Qed.

(** A lookup that ends in a not-found error. *)
Lemma refused_get {A A' B} (f : DB -> option A) (g : A -> A') e known (k : A' -> M Resp (World K D) B) w w' :
  same_data w w' ->
  (forall a w1, f (s_db (w_store w)) = Some a -> same_data w w1 -> refused (k (g a) w1) w) ->
  refused (bind (or_fail known (db (let! o := query f in or_not_found e (g <$> o)))) k w') w.
Proof.
  intros (Hd & Hn & Hw) Hok.
  assert (forall e1 w1, same_data w w1 ->
    refused (bind (match known e1 with Some resp => throw resp | None => serverError end) k w1) w) as Hfail.
  { intros e1 w1 Hs. apply refused_bind. destruct (known e1); [by apply refused_throw|by apply refused_serverError]. }
  unfold or_fail. rewrite bind_assoc. unfold db, query, driver, gets. unfold bind at 1 2.
  destruct (s_faults (w_store w')) as [|[] fs]; cbn; [|by apply Hfail|];
    (rewrite Hd; destruct (f (s_db (w_store w))) as [a|] eqn:Hf; cbn; [by apply Hok|by apply Hfail]).
Qed.

Lemma refused_identity {B} (id : option Claims) (k : Claims -> M Resp (World K D) B) w :
  (forall c, id = Some c -> refused (k c w) w) -> refused (bind (identity id) k w) w.
Proof. intros Hk. destruct id as [c|]; [by apply Hk|]. by apply refused_bind, refused_throw. Qed.

Lemma refused_decoded {A B} (b : option A) (k : A -> M Resp (World K D) B) w w' :
  same_data w w' -> (forall a, b = Some a -> refused (k a w') w) -> refused (bind (decoded b) k w') w.
Proof. intros Hs Hk. destruct b as [a|]; [by apply Hk|]. by apply refused_bind, refused_throw. Qed.

Lemma refused_ownedZone {B} uid name (k : zone_row -> M Resp (World K D) B) w :
  (forall z, z ∈ rows (zones (s_db (w_store w))) -> z_name z = name -> z_owner z <> uid) ->
  refused (bind (ownedZone uid name) k w) w.
Proof.
  intros Hno. apply refused_bind. unfold ownedZone, or_server_error, GetZoneByName.
  apply refused_read; [done|]. intros w1 Hw1. destruct (first_row _ _) as [z|] eqn:Hz; [|by apply refused_throw].
  apply first_row_some in Hz as [Hname Hin]. rewrite (proj2 (Z.eqb_neq _ _)) by by apply Hno.
  by apply refused_throw.
Qed.

Lemma refused_memberZone {B} uid name (k : zone_row -> M Resp (World K D) B) w :
  (forall z w1, z ∈ rows (zones (s_db (w_store w))) -> z_name z = name ->
     is_participant (z_id z) uid (s_db (w_store w)) = true -> same_data w w1 -> refused (k z w1) w) ->
  refused (bind (memberZone uid name) k w) w.
Proof.
  intros Hk. unfold memberZone, or_server_error, GetZoneByName, IsParticipant. rewrite bind_assoc.
  apply refused_read; [done|]. intros w1 Hw1. destruct (first_row _ _) as [z|] eqn:Hz;
    [|by apply refused_bind, refused_throw].
  apply first_row_some in Hz as [Hname Hin]. rewrite bind_assoc. apply refused_read; [done|].
  intros w2 Hw2. destruct (is_participant _ _ _) eqn:Hp; [|by apply refused_bind, refused_throw].
  by apply Hk.
Qed.
End Refusals.

(** The branch of a validation check that answers an error is refused. *)
Ltac refuse_if := match goal with |- refused ((if ?b then _ else _) _) _ => destruct b; [by apply refused_throw|] end.

(** C18: zone ownership. Deleting a zone, changing its password and ejecting a member
    are refused, without any effect on the database, the isolation table or the
    tunnel, unless the caller owns the zone named in the path. *)
Theorem owner_only {K D : Type} `{Nftables K} `{WgHost D} `{WgTypes} `{NetipV6} `{Sqlite} `{Argon2}
    h id name node b (w : World K D) :
  (forall c z, id = Some c -> z ∈ rows (zones (s_db (w_store w))) -> z_name z = name -> z_owner z <> c_UserID c) ->
  refused (deleteZone h id name w) w /\
  refused (changeZonePassword id name b w) w /\
  refused (kickMember h id name node w) w.
Proof.
  intros Hno. split_and!; apply refused_identity; intros c Hc; apply refused_ownedZone; by eauto.
Qed.

(** C19: zone visibility and announcement authority. A caller who neither owns the
    zone nor has a node in it can neither list its members and announcements nor
    announce into it or detach from it; announcing takes a node of the caller; and
    a participant can detach an announcement only as the owner of the announcing
    node or of the zone. Refusals have no effect. *)
Theorem participant_only {K D : Type} `{Nftables K} `{WgHost D} `{WgTypes} `{NetipV6} `{Sqlite} `{Argon2}
    h c name annID b (w : World K D) :
  let d := s_db (w_store w) in
  let participant := exists z, z ∈ rows (zones d) /\ z_name z = name /\ is_participant (z_id z) (c_UserID c) d = true in
  (~ participant -> refused (zoneMembers (Some c) name w) w /\ refused (listAnnouncements (Some c) name w) w /\
     refused (createAnnouncement h (Some c) name b w) w /\ refused (deleteAnnouncement h (Some c) name annID w) w) /\
  ((forall req n, b = Some req -> n ∈ rows (nodes d) -> n_id n = ca_NodeID req -> n_user n <> c_UserID c) ->
     refused (createAnnouncement h (Some c) name b w) w) /\
  ((forall z, z ∈ rows (zones d) -> z_name z = name -> z_owner z <> c_UserID c) ->
     (forall a n, a ∈ rows (announcements d) -> Some (a_id a) = ParseInt64 annID ->
        n ∈ rows (nodes d) -> n_id n = a_node a -> n_user n <> c_UserID c) ->
     refused (deleteAnnouncement h (Some c) name annID w) w).
Proof.
  intros d participant. split_and!.
  - intros Hno. split_and!; apply refused_identity; intros c' [= <-]; apply refused_memberZone;
      intros z w1 Hz Hname Hp _; exfalso; apply Hno; by exists z.
  - intros Hno. apply refused_identity; intros c' [= <-]. apply refused_memberZone. intros z w1 _ _ _ Hw1.
    apply refused_decoded; [done|]. intros req Hreq. destruct (announcePool h) as [pool|]; [|by apply refused_throw].
    apply refused_get; [done|]. intros n w2 Hn Hw2. apply first_row_some in Hn as [[Hid Hu] Hin].
    by destruct (Hno req n).
  - intros Hz Hann. apply refused_identity; intros c' [= <-]. apply refused_memberZone. intros z w1 Hin Hname _ Hw1.
    destruct (ParseInt64 annID) as [ann|] eqn:Hparse; [|by apply refused_throw].
    apply refused_get; [done|]. intros a w2 Ha Hw2. apply first_row_some in Ha as [Hid Hain].
    apply refused_get; [done|]. intros n w3 Hn Hw3. apply first_row_some in Hn as [Hnid Hnin].
    rewrite (proj2 (Z.eqb_neq _ _)); [|].
    + rewrite (proj2 (Z.eqb_neq (z_owner z) _)) by by apply Hz. by apply refused_throw.
    + apply (Hann a n); [done|by rewrite Hid|done|done].
Qed.

(** C20: node ownership. Deleting a node, joining or leaving a zone with it, and
    creating a zone it is to join are refused without effect unless the caller owns
    the node. *)
Theorem own_nodes_only {K D : Type} `{Nftables K} `{WgHost D} `{WgTypes} `{NetipV6} `{Sqlite} `{Argon2}
    h c nodeID path name bj bl bc (w : World K D) :
  (forall n, n ∈ rows (nodes (s_db (w_store w))) -> n_id n = nodeID -> n_user n <> c_UserID c) ->
  (ParseInt64 path = Some nodeID -> refused (deleteNode h (Some c) path w) w) /\
  (jz_NodeID bj = nodeID -> refused (joinZone h (Some c) name (Some bj) w) w) /\
  (lz_NodeID bl = nodeID -> refused (leaveZone h (Some c) name (Some bl) w) w) /\
  (cz_NodeID bc = nodeID -> nodeID <> 0 -> refused (createZone h (Some c) (Some bc) w) w).
Proof.
  intros Hno.
  assert (forall n, owned_node (c_UserID c) nodeID (s_db (w_store w)) = Some n -> False) as Hnone.
  { intros n ([Hid Hu] & Hin)%first_row_some. by apply (Hno n). }
  split_and!.
  - intros Hp. apply refused_identity. intros c' [= <-]. rewrite Hp. apply refused_get; [done|].
    intros n w1 Hn. by destruct (Hnone n).
  - intros Hj. apply refused_identity. intros c' [= <-]. apply refused_decoded; [done|]. intros req [= <-].
    refuse_if. apply refused_read; [done|]. intros w1 Hw1.
    destruct (first_row _ _) as [z|]; [|by apply refused_throw].
    destruct (VerifyPassword _ _) as [[]|]; try by apply refused_throw.
    rewrite Hj. apply refused_get; [done|]. intros n w2 Hn. by destruct (Hnone n).
  - intros Hl. apply refused_identity. intros c' [= <-]. apply refused_decoded; [done|]. intros req [= <-].
    apply refused_read; [done|]. intros w1 Hw1.
    destruct (first_row _ _) as [z|]; [|by apply refused_throw].
    rewrite Hl. apply refused_get; [done|]. intros n w2 Hn. by destruct (Hnone n).
  - intros Hz Hne. apply refused_identity. intros c' [= <-]. apply refused_decoded; [done|]. intros req [= <-].
    cbv zeta. do 2 refuse_if.
    rewrite Hz, (proj2 (Z.eqb_neq _ _)) by done. cbn [negb]. rewrite bind_assoc.
    apply refused_get; [done|]. intros n w1 Hn. by destruct (Hnone n).
Qed.

(** Joining tells nothing about zones. For a caller with well-formed input, an
    unknown zone, a wrong password and a stored hash that does not parse are
    answered with the same response and the same absence of effects. *)
Theorem join_no_oracle {K D : Type} `{Nftables K} `{WgHost D} `{Argon2} h c name req (w : World K D) :
  s_faults (w_store w) = [] -> jz_NodeID req <> 0 -> jz_Password req <> "" ->
  (forall z, z ∈ rows (zones (s_db (w_store w))) -> z_name z = name ->
     VerifyPassword (jz_Password req) (z_hash z) <> Ok true) ->
  joinZone h (Some c) name (Some req) w = (Err zoneOrPassword, w).
Proof.
  intros Hq Hid Hpw Hno. unfold joinZone, or_server_error, or_fail, GetZoneByName, db, query, driver, gets, bind.
  cbn [identity decoded ret]. rewrite (proj2 (Z.eqb_neq _ _)) by done. rewrite bool_decide_false by done. cbn [orb].
  rewrite Hq. cbn. assert (mkWorld (w_store w) (w_nanos w) (w_nft w) (w_wg w) (w_status w) (w_log w) = w) as Hw
    by by destruct w.
  destruct (first_row _ _) as [z|] eqn:Hz; [|by rewrite Hw].
  apply first_row_some in Hz as [Hname Hin]. specialize (Hno z Hin Hname).
  destruct (VerifyPassword _ _) as [[]|]; [done|by rewrite Hw..].
Qed.

(** ** Witnesses *)

#[local] Instance no_v6 : NetipV6 := fun _ => None.

(** Two users; the first owns the zone "home" and the node in it. *)
Definition api_db : DB :=
  set_members [MemberRow 1 1 0]
    (set_zones (Db.Table [ZoneRow 1 "home" "" 1 0] 1)
      (set_nodes (Db.Table [NodeRow 1 1 "router" key_a 1681915906 0 "openwrt"] 1)
        (set_users (Db.Table [UserRow 1 "ann" "" true 0; UserRow 2 "bob" "" false 0] 2) empty_db))).
Definition api_opts : Options :=
  mkOptions "1" (mkJWTManager "s" 3600000000000) wg0 "lanweave" (mkWgCfg "wg0" "100.64.0.0/10" 51820 0) "" 10 10 10 None 0.
Definition api_world : World Ruleset SimHost := mkWorld (Quiet api_db 150 []) 0 ∅ bare_host NewTracker [].
Definition bob : Claims := mkClaims 2 "bob" false.

Lemma routes_guarded_witness :
  NewRouter api_opts true (Some "DELETE /api/v1/zones/{name}") "DELETE" "" (fun _ => "home") no_body api_world
    = (Err unauthorized, api_world).
Proof.
  apply (routes_guarded api_opts "DELETE /api/v1/zones/{name}" "DELETE" "" (fun _ => "home") no_body api_world);
    [apply (bool_decide_unpack _); by vm_compute|apply (bool_decide_unpack _); by vm_compute|done].
Defined.

Lemma api_zone z : z ∈ rows (zones api_db) -> z = ZoneRow 1 "home" "" 1 0.
Proof. by intros ?%list_elem_of_singleton. Qed.
Lemma api_node n : n ∈ rows (nodes api_db) -> n = NodeRow 1 1 "router" key_a 1681915906 0 "openwrt".
Proof. by intros ?%list_elem_of_singleton. Qed.

Lemma owner_only_witness : refused (deleteZone api_opts (Some bob) "home" api_world) api_world.
Proof.
  apply (owner_only api_opts (Some bob) "home" "" None api_world). by intros c z [= <-] ->%api_zone.
Defined.

Lemma participant_only_witness : refused (listAnnouncements (Some bob) "home" api_world) api_world.
Proof.
  refine (proj1 (proj2 (proj1 (participant_only api_opts bob "home" "" None api_world) _))).
  intros (z & Hz & _ & Hp). apply api_zone in Hz as ->. by vm_compute in Hp.
Defined.

Lemma own_nodes_only_witness : refused (deleteNode api_opts (Some bob) "1" api_world) api_world.
Proof.
  refine (proj1 (own_nodes_only api_opts bob 1 "1" "home" (mkJoinZone 1 "x") (mkLeaveZone 1)
                  (mkCreateZone "z" "password" 1) api_world _) eq_refl).
  by intros n ->%api_node.
Defined.

Lemma join_no_oracle_witness :
  joinZone api_opts (Some bob) "home" (Some (mkJoinZone 1 "guess")) api_world = (Err zoneOrPassword, api_world) /\
  joinZone api_opts (Some bob) "away" (Some (mkJoinZone 1 "guess")) api_world = (Err zoneOrPassword, api_world).
Proof.
  split; apply join_no_oracle; try done; by intros z ->%api_zone.
Defined.
