(* ===== verification/StoreEffects.v ===== *)
(** * What a repository method does to the database, whatever the driver does

    [effect m d P]: run on database [d], [m] either fails and leaves [d] as it is,
    or returns some [a] with a database [d'] such that [P a d'], and [d'] satisfies
    the schema if [d] does. *)
From S2P Require Import Prelude GoStrings Netip Ipam Codec Db StoreInv StoreUsers StoreNodes StoreAnnounce StoreOps UsersProps CascadeProps.

#[local] Open Scope lw_scope.

(** ** Successful outcomes *)

Definition yields {A} (m : SM A) (d : DB) (P : A -> DB -> Prop) : Prop :=
  forall s a s', s_db s = d -> m s = (Ok a, s') -> P a (s_db s').

Lemma yields_mono {A} (m : SM A) d (P Q : A -> DB -> Prop) :
  yields m d P -> (forall a d', P a d' -> Q a d') -> yields m d Q.
Proof. intros Hm Hpq s a s' Hs Hrun. by eapply Hpq, Hm. Qed.
Lemma yields_ret {A} (a : A) d (P : A -> DB -> Prop) : P a d -> yields (ret a) d P.
Proof. by intros Hp s b s' <- [= <- <-]. Qed.
Lemma yields_throw {A} e d (P : A -> DB -> Prop) : yields (throw e) d P.
Proof. by intros s a s' _. Qed.
Lemma yields_bind {A B} (m : SM A) (k : A -> SM B) d P :
  yields m d (fun a d1 => yields (k a) d1 P) -> yields (bind m k) d P.
Proof.
  intros Hm s b s' Hs. unfold bind. destruct (m s) as [[a|e] s1] eqn:Hrun; [|done].
  intros Hk. by eapply (Hm s a s1 Hs Hrun).
Qed.
Lemma yields_query {A} (f : DB -> A) d (P : A -> DB -> Prop) : P (f d) d -> yields (query f) d P.
Proof.
  intros Hp s a s' <-. unfold query, driver, gets. destruct (s_faults s) as [|[] fs]; [|done|];
    by intros [= <- <-].
Qed.
Lemma yields_now d (P : Z -> DB -> Prop) : (forall t, P t d) -> yields now_seconds d P.
Proof. intros Hp s a s' <- [= <- <-]. apply Hp. Qed.
Lemma yields_rand d (P : list Z -> DB -> Prop) : (forall b, P b d) -> yields rand_read d P.
Proof. intros Hp s a s' <-. unfold rand_read. destruct (s_rand s); [done|]. intros [= <- <-]. apply Hp. Qed.
Lemma yields_exec f d (P : SqlResult -> DB -> Prop) :
  (forall r d', f d = Ok (r, d') -> P r d') -> yields (exec f) d P.
Proof.
  intros Hp s a s' <- Hrun. destruct (exec_inv _ _ _ _ Hrun) as [[? _]|[(? & _ & ? & _)|(r & d' & Hf & [= ->] & ->)]];
    [done..|]. by apply Hp.
Qed.
Lemma yields_try_exec f d (P : res serr SqlResult -> DB -> Prop) :
  (forall e, P (Err e) d) -> (forall r d', f d = Ok (r, d') -> P (Ok r) d') -> yields (try (exec f)) d P.
Proof.
  intros He Hp s a s' <-. unfold try. destruct (exec f s) as [r s1] eqn:Hrun. intros [= <- <-].
  destruct (exec_inv _ _ _ _ Hrun) as [[-> ->]|[(? & _ & -> & ->)|(x & d' & Hf & -> & ->)]]; auto.
Qed.
Lemma yields_or_not_found {A} e (o : option A) d (P : A -> DB -> Prop) :
  (forall a, o = Some a -> P a d) -> yields (or_not_found e o) d P.
Proof. destruct o as [a|]; intros Hp; [apply yields_ret; auto|apply yields_throw]. Qed.
Lemma driver_same s r s' : driver (ret tt) s = (r, s') -> s_db s' = s_db s.
Proof. unfold driver. destruct (s_faults s) as [|[] fs]; by intros [= _ <-]. Qed.
Lemma yields_tx {A} (m : SM A) d (P : A -> DB -> Prop) : yields m d P -> yields (tx m) d P.
Proof.
  intros Hm s a s' Hs. unfold tx. destruct (driver (ret tt) s) as [[[]|e] s1] eqn:H1; [|by intros]. apply driver_same in H1.
  destruct (m s1) as [[b|e] s2] eqn:Hrun; [|done]. destruct (driver (ret tt) s2) as [[[]|e] s3] eqn:H3; [|done].
  apply driver_same in H3. intros [= <- <-]. rewrite H3. eapply Hm; [|done]. congruence.
Qed.

(** ** Effects *)

Definition effect {A} (m : SM A) (d : DB) (P : A -> DB -> Prop) : Prop :=
  atomic m /\ yields m d P /\ pres (fun s => schema_ok (s_db s)) m.

(** The method behind an operation of [repo_op]. *)
Definition runs {A} (m : SM A) (e : SM unit) : Prop :=
  forall s, snd (e s) = snd (m s) /\ (forall err, fst (m s) = Err err -> fst (e s) = Err err).
Lemma runs_void {A} (m : SM A) : runs m (void m).
Proof. intros s. unfold void, bind. destruct (m s) as [[a|e] s1]; simpl; (split; [done|by intros err [= ->]]). Qed.
Lemma runs_unit (m : SM unit) : runs m m.
Proof. done. Qed.

Lemma effect_op `{Sqlite} {A} op (m : SM A) d P : runs m (exec_op op) -> yields m d P -> effect m d P.
Proof.
  intros Hm Hy. split_and!; [|done|].
  - intros s e s' Hrun. destruct (Hm s) as [Hsnd Herr]. rewrite Hrun in Hsnd, Herr. simpl in Hsnd, Herr.
    apply (exec_op_atomic op s e s'). rewrite (surjective_pairing (exec_op op s)). f_equal; auto.
  - intros s Hs. rewrite <- (proj1 (Hm s)). by apply (exec_op_keeps op).
Qed.
Lemma effect_reads {A} (m : SM A) d P : reads m -> yields m d P -> effect m d P.
Proof.
  intros Hr Hy. split_and!; [by apply atomic_reads|done|]. intros s Hs. by rewrite Hr.
Qed.
Lemma effect_mono {A} (m : SM A) d (P Q : A -> DB -> Prop) :
  effect m d P -> (forall a d', P a d' -> Q a d') -> effect m d Q.
Proof. intros (H1 & H2 & H3) Hpq. split_and!; [done|by eapply yields_mono|done]. Qed.

(** ** Reads *)

Lemma query_effect {A} (f : DB -> A) d : effect (query f) d (fun a d' => a = f d /\ d' = d).
Proof. apply effect_reads; [apply reads_query|by apply yields_query]. Qed.

Lemma get_effect {A B} (f : DB -> option A) (g : A -> B) e d :
  effect (let! o := query f in or_not_found e (g <$> o)) d (fun b d' => exists a, f d = Some a /\ b = g a /\ d' = d).
Proof.
  apply effect_reads; [apply reads_bind; [apply reads_query|intros o; apply reads_or_not_found]|].
  apply yields_bind, yields_query, yields_or_not_found. intros b. destruct (f d) as [a|]; [|done].
  intros [= <-]. by exists a.
Qed.

Lemma GetOwned_effect user id d :
  effect (GetOwned user id) d (fun n d' => d' = d /\
    exists n0, n0 ∈ rows (nodes d) /\ n_id n0 = id /\ n_user n0 = user /\ n = node_of_row n0).
Proof.
  eapply effect_mono; [apply get_effect|]. intros n d' (n0 & [[Hid Hu] Hin]%first_row_some & -> & ->).
  split; [done|]. by exists n0.
Qed.
Lemma GetNodeByID_effect id d :
  effect (GetNodeByID id) d (fun n d' => d' = d /\
    exists n0, n0 ∈ rows (nodes d) /\ n_id n0 = id /\ n = node_of_row n0).
Proof.
  eapply effect_mono; [apply get_effect|]. intros n d' (n0 & [Hid Hin]%first_row_some & -> & ->).
  split; [done|]. by exists n0.
Qed.
Lemma GetAnnouncement_effect id d :
  effect (GetAnnouncement id) d (fun a d' => d' = d /\
    exists a0, a0 ∈ rows (announcements d) /\ a_id a0 = id /\ a = ann_of_row a0).
Proof.
  eapply effect_mono; [apply get_effect|]. intros n d' (a0 & [Hid Hin]%first_row_some & -> & ->).
  split; [done|]. by exists a0.
Qed.

(** ** Creation *)

Section Creation.
Context `{Sqlite}.

Lemma CreateZone_effect owner name hash cap d :
  effect (CreateZone owner name hash cap) d (fun z d' => z_id z = next_id (zones d) /\ exists now,
    d' = set_zones (insert_row (fun id => ZoneRow id name hash owner now) (zones d)) d).
Proof.
  apply (effect_op (OpCreateZone owner name hash cap)); [apply runs_void|].
  apply yields_bind, yields_now. intros now. apply yields_bind, yields_try_exec; [intros e; apply yields_throw|].
  intros r d' Hf. destruct (_ && _) eqn:Hcap; [apply yields_throw|]. apply yields_ret.
  unfold insert_zone_capped in Hf. destruct (_ && negb _) eqn:Hn.
  - injection Hf as <- <-. apply andb_true_iff in Hn as [Hn _]. by rewrite Hn in Hcap.
  - apply checked_insert_ok in Hf as (_ & _ & -> & ->). split; [done|]. by exists now.
Qed.

Lemma create_node_yields tries user name key platform first last cap now d :
  yields (create_node tries user name key platform first last cap now) d (fun n d' => exists ip, is_u32 ip /\
    n = NodeRow (next_id (nodes d)) user name key (Uint32ToAddr ip) now platform /\
    d' = set_nodes (insert_row (fun id => NodeRow id user name key ip now platform) (nodes d)) d).
Proof.
  induction tries as [|tries IH]; [apply yields_throw|]. cbn [create_node]. unfold lowestFree.
  apply yields_bind, yields_bind, yields_query, yields_ret.
  destruct (min_list _) as [c|]; [|apply yields_throw]. cbn [fmap option_fmap option_map].
  apply yields_bind, yields_try_exec.
  - intros e. repeat case_match; try apply yields_throw. apply IH.
  - intros r d' Hf. destruct (_ && _) eqn:Hcap; [apply yields_throw|]. apply yields_ret.
    unfold insert_node_capped in Hf. destruct (_ && negb _) eqn:Hn.
    + injection Hf as <- <-. apply andb_true_iff in Hn as [Hn _]. by rewrite Hn in Hcap.
    + apply checked_insert_ok in Hf as (_ & _ & -> & ->). exists (u32 c). split; [apply u32_range|done].
Qed.
Lemma CreateNode_effect user name key platform first last cap d :
  effect (CreateNode user name key platform first last cap) d (fun n d' => exists ip now, is_u32 ip /\
    n = NodeRow (next_id (nodes d)) user name key (Uint32ToAddr ip) now platform /\
    d' = set_nodes (insert_row (fun id => NodeRow id user name key ip now platform) (nodes d)) d).
Proof.
  apply (effect_op (OpCreateNode user name key platform first last cap)); [apply runs_void|].
  apply yields_bind, yields_now. intros now. eapply yields_mono; [apply create_node_yields|].
  intros n d' (ip & ? & ? & ?). by exists ip, now.
Qed.

Lemma JoinZone_effect zone node d :
  effect (JoinZone zone node) d (fun _ d' => exists l, d' = set_members l d /\
    (forall m, m ∈ zone_members d -> m ∈ l) /\ (exists m, m ∈ l /\ m_zone m = zone /\ m_node m = node) /\
    (forall m, m ∈ l -> m ∈ zone_members d \/ m_zone m = zone /\ m_node m = node)).
Proof.
  apply (effect_op (OpJoin zone node)); [apply runs_unit|].
  apply yields_bind, yields_now. intros now. apply yields_bind, yields_exec. intros r d' Hf. apply yields_ret.
  unfold insert_member in Hf. case_bool_decide as Hin.
  - injection Hf as <- <-. exists (zone_members d). apply list_elem_of_fmap in Hin as (m & [= -> ->] & Hm).
    split_and!; [by destruct d|done|by exists m|by left].
  - destruct (_ && _); [|done]. injection Hf as <- <-. eexists. split; [done|].
    setoid_rewrite elem_of_app. setoid_rewrite list_elem_of_singleton. split_and!; [by left| |].
    + eexists. split; [by right|done].
    + intros m [Hm| ->]; [by left|by right].
Qed.
End Creation.

(** ** Deletion *)

Lemma count_where_some {A} (P : A -> Prop) `{forall x, Decision (P x)} l :
  count_where P l <> 0 -> exists x, x ∈ l /\ P x.
Proof.
  unfold count_where. destruct (filter P l) as [|x k] eqn:Hf; [done|]. intros _. exists x.
  assert (x ∈ filter P l) as [HP Hx]%list_elem_of_filter; [|done]. rewrite Hf. left.
Qed.

Lemma DeleteZoneRow_effect `{Sqlite} zone d :
  effect (DeleteZoneRow zone) d (fun _ d' => d' = delete_zones (fun z => z_id z = zone) d).
Proof.
  apply (effect_op (OpDeleteZone zone)); [apply runs_unit|].
  apply yields_bind, yields_exec. intros r d' [= <- <-]. by apply yields_ret.
Qed.
Lemma LeaveZone_effect `{Sqlite} zone node d :
  effect (LeaveZone zone node) d (fun _ d' =>
    d' = set_members (filter (fun m => ~ (m_zone m = zone /\ m_node m = node)) (zone_members d)) d /\
    exists m, m ∈ zone_members d /\ m_zone m = zone /\ m_node m = node).
Proof.
  apply (effect_op (OpLeave zone node)); [apply runs_unit|].
  apply yields_bind, yields_exec. intros r d' [= <- <-]. cbn [RowsAffected].
  destruct (_ =? 0) eqn:Hc; [apply yields_throw|]. apply yields_ret. split; [done|].
  apply Z.eqb_neq, count_where_some in Hc as (m & Hm & Hz). by exists m.
Qed.
Lemma DeleteOwned_effect `{Sqlite} user id d :
  effect (DeleteOwned user id) d (fun _ d' => d' = delete_nodes (fun n => n_id n = id /\ n_user n = user) d).
Proof.
  apply (effect_op (OpDeleteNode user id)); [apply runs_void|].
  apply yields_bind, yields_query, yields_bind, yields_or_not_found. intros n _.
  apply yields_bind, yields_exec. intros r d' [= <- <-]. by apply yields_ret.
Qed.

(** ** Detaching *)

(** Another zone still holds announcement [i]. *)
Definition kept (zone : Z) (d : DB) (i : Z) : Prop :=
  exists az, az ∈ announcement_zones d /\ az_ann az = i /\ az_zone az <> zone.

(** The attachments of the announcements [gone] to [zone] are removed, and those
    of the announcements [ids] that no other zone holds are reclaimed. *)
Record detached (zone : Z) (gone : Z -> Prop) (ids : list Z) (d d' : DB) : Prop := mkDetach
  { dt_nodes : nodes d' = nodes d; dt_zones : zones d' = zones d; dt_members : zone_members d' = zone_members d;
    dt_attach az : az ∈ announcement_zones d' <->
      az ∈ announcement_zones d /\ ~ (az_zone az = zone /\ gone (az_ann az));
    dt_anns a : a ∈ rows (announcements d') <->
      a ∈ rows (announcements d) /\ (a_id a ∈ ids -> kept zone d (a_id a)) }.

Lemma detached_refl zone (gone : Z -> Prop) d : (forall i, ~ gone i) -> detached zone gone [] d d.
Proof. intros Hg. constructor; try done; intros x; [naive_solver|]. set_solver. Qed.

Lemma detached_ext zone (gone gone' : Z -> Prop) ids d d' :
  (forall i, gone i <-> gone' i) -> detached zone gone ids d d' -> detached zone gone' ids d d'.
Proof. intros Hg []. constructor; try done. intros az. rewrite dt_attach0. by rewrite Hg. Qed.

Lemma unhook_ok zone (gone : Z -> Prop) ids d d1 (P : attach_row -> Prop) `{forall az, Decision (P az)}
    (gone' : Z -> Prop) r d2 :
  detached zone gone ids d d1 -> (forall az, P az <-> az_zone az = zone /\ gone' (az_ann az)) ->
  DELETE_attachments P d1 = Ok (r, d2) -> detached zone (fun i => gone i \/ gone' i) ids d d2.
Proof.
  intros [] HP [= _ <-]. constructor; try done. simpl.
  intros az. rewrite list_elem_of_filter, dt_attach0, HP. naive_solver.
Qed.

Lemma reclaim_step zone (gone : Z -> Prop) ids d d1 i :
  detached zone gone ids d d1 -> gone i ->
  yields (reclaimIfOrphaned i) d1 (fun b d2 => detached zone gone (ids ++ [i]) d d2 /\ (b = true \/ kept zone d i)).
Proof.
  intros [] Hi. apply yields_bind, yields_query. unfold attachment_count. destruct (0 <? _) eqn:Hc.
  - apply yields_ret. apply Z.ltb_lt in Hc.
    assert (kept zone d i) as Hk.
    { destruct (count_where_some (fun az => az_ann az = i) (announcement_zones d1)) as (az & [Haz Hn]%dt_attach0 & Ha); [lia|].
      exists az. split_and!; [done..|]. intros Hz. apply Hn. by rewrite Ha. }
    split; [|by right]. constructor; try done. intros a. rewrite dt_anns0, elem_of_app, list_elem_of_singleton.
    naive_solver.
  - assert (forall az, az ∈ announcement_zones d1 -> az_ann az <> i) as Hno.
    { apply (proj1 (count_where_zero (fun az => az_ann az = i) _)). unfold count_where in *. lia. }
    assert (~ kept zone d i) as Hk.
    { intros (az & Haz & Ha & Hz). apply (Hno az); [|done]. apply dt_attach0. split; [done|]. by intros [? _]. }
    apply yields_bind, yields_exec. intros r d2 [= _ <-]. apply yields_ret. split; [|by left].
    constructor; try done; simpl.
    + intros az. rewrite list_elem_of_filter, <- dt_attach0. split; [by intros [_ ?]|]. intros Haz. split; [|done].
      intros (a & Heq & [Ha _]%list_elem_of_filter)%list_elem_of_fmap. apply (Hno az Haz). congruence.
    + intros a. rewrite list_elem_of_filter, dt_anns0, elem_of_app, list_elem_of_singleton. naive_solver.
Qed.

Lemma yields_map_each {A B} (I : list A -> list B -> DB -> Prop) (f : A -> SM B) l d :
  I [] [] d ->
  (forall don x rest ys d1, l = don ++ x :: rest -> I don ys d1 ->
     yields (f x) d1 (fun y d2 => I (don ++ [x]) (ys ++ [y]) d2)) ->
  yields (map_each l f) d (fun ys d' => I l ys d').
Proof.
  intros H0 Hstep.
  assert (forall rest don ys d1, l = don ++ rest -> I don ys d1 ->
    yields (map_each rest f) d1 (fun ys' d' => I l (ys ++ ys') d')) as Hgen.
  { induction rest as [|x rest IH]; intros don ys d1 Hl Hi; simpl.
    - apply yields_ret. rewrite app_nil_r in Hl. subst. by rewrite app_nil_r.
    - apply yields_bind. eapply yields_mono; [by eapply Hstep|]. intros y d2 Hy. apply yields_bind.
      eapply yields_mono; [apply (IH (don ++ [x]) (ys ++ [y])); [by rewrite <- app_assoc|done]|].
      intros ys' d' Hd. apply yields_ret. cbv beta in Hd. by rewrite <- (app_assoc ys) in Hd. }
  by apply (Hgen l [] []).
Qed.

Lemma elem_of_attached d p :
  p ∈ attached d <-> p.1 ∈ announcement_zones d /\ p.2 ∈ rows (announcements d) /\ a_id p.2 = az_ann p.1.
Proof.
  unfold attached. rewrite list_elem_of_bind. setoid_rewrite elem_of_join_on. setoid_rewrite list_elem_of_singleton.
  destruct p as [az a]. simpl. naive_solver.
Qed.

Lemma Detach_effect `{Sqlite} zone ann d :
  effect (Detach zone ann) d (fun r d' =>
    detached zone (fun i => i = ann) [ann] d d' /\ (r.2 = true \/ kept zone d ann) /\
    exists az, az ∈ announcement_zones d /\ az_ann az = ann /\ az_zone az = zone).
Proof.
  apply (effect_op (OpDetach zone ann)); [apply runs_void|].
  apply yields_tx. unfold getAnnouncementTx. apply yields_bind, yields_bind, yields_query, yields_or_not_found. intros a _.
  apply yields_bind, yields_exec. intros r d1 Hdel.
  assert (detached zone (fun i => False \/ i = ann) [] d d1) as Hd1.
  { pose proof Hdel as Hdel'.
    eapply (unhook_ok zone (fun _ => False) [] d d _ (fun i => i = ann)) in Hdel'; [done| |intros; simpl; tauto].
    apply detached_refl. by intros i []. }
  injection Hdel as <- _. cbn [RowsAffected]. destruct (_ =? 0) eqn:Hc; [apply yields_throw|].
  apply Z.eqb_neq, count_where_some in Hc as (az & Haz & Ha & Hz).
  apply yields_bind. eapply yields_mono; [apply (reclaim_step zone _ [] d d1 ann Hd1); by right|].
  intros b d2 [Hd2 Hb]. apply yields_ret. split_and!; [|done|by exists az].
  eapply detached_ext; [|done]. intros i. tauto.
Qed.

Lemma DetachAllForNodeZone_effect `{Sqlite} node zone d :
  effect (DetachAllForNodeZone node zone) d (fun dets d' => exists recs : list (Z * Block),
    (forall rc, rc ∈ recs <-> exists az a, az ∈ announcement_zones d /\ az_zone az = zone /\ a ∈ rows (announcements d) /\
       a_id a = az_ann az /\ a_node a = node /\ rc = (a_id a, synth_block a)) /\
    dr_synthetic <$> dets = (fun rc => BlockPrefix rc.2) <$> recs /\
    detached zone (fun i => i ∈ recs.*1) recs.*1 d d' /\
    (existsb dr_reclaimed dets = true \/ forall rc, rc ∈ recs -> kept zone d rc.1)).
Proof.
  apply (effect_op (OpDetachNodeZone node zone)); [apply runs_void|].
  apply yields_tx, yields_bind, yields_query. set (recs := _ <$> filter _ _).
  eapply yields_mono.
  - apply (yields_map_each (fun don ys d1 =>
      dr_synthetic <$> ys = (fun rc => BlockPrefix rc.2) <$> don /\
      detached zone (fun i => i ∈ don.*1) don.*1 d d1 /\
      (existsb dr_reclaimed ys = true \/ forall rc, rc ∈ don -> kept zone d rc.1))).
    + split_and!; [done| |right; by intros rc ?%not_elem_of_nil]. apply detached_refl. intros i. apply not_elem_of_nil.
    + intros don x rest ys d1 _ (Hy & Hd1 & Hb).
      apply yields_bind, yields_exec. intros r d2 Hdel.
      eapply (unhook_ok _ _ _ _ _ _ (fun i => i = x.1)) in Hdel; [|exact Hd1|intros; simpl; tauto]. rename Hdel into Hd2. apply yields_bind. eapply yields_mono; [apply (reclaim_step zone _ don.*1 d d2 x.1 Hd2); by right|].
      intros b d3 [Hd3 Hk]. apply yields_ret. rewrite !fmap_app, Hy. split_and!; [done| |].
      * eapply detached_ext; [|done]. intros i. simpl. by rewrite elem_of_app, list_elem_of_singleton.
      * rewrite existsb_app. setoid_rewrite elem_of_app. setoid_rewrite list_elem_of_singleton. simpl.
        destruct Hb as [->|Hb]; [by left|]. destruct Hk as [->|Hk]; [left; by rewrite orb_true_r|].
        right. intros rc [Hrc| ->]; auto.
  - intros dets d' (H1 & H2 & H3). exists recs. split_and!; [|done..]. intros rc. subst recs.
    rewrite list_elem_of_fmap. setoid_rewrite list_elem_of_filter. setoid_rewrite elem_of_attached. split.
    + intros ([az a] & -> & (? & ?) & ? & ? & ?). simpl in *. by exists az, a.
    + intros (az & a & ? & ? & ? & ? & ? & ->). by exists (az, a).
Qed.

Lemma DetachAllForZone_effect `{Sqlite} zone d :
  effect (DetachAllForZone zone) d (fun dets d' => exists ids,
    detached zone (fun _ => True) ids d d' /\
    (forall i, i ∈ ids -> ~ kept zone d i -> exists dt, dt ∈ dets /\ zd_ann dt = i /\ zd_reclaimed dt = true) /\
    (forall dt, dt ∈ dets -> exists a, a ∈ rows (announcements d) /\ a_id a = zd_ann dt /\ a_node a = zd_node dt)).
Proof.
  apply (effect_op (OpDetachZone zone)); [apply runs_void|].
  apply yields_tx, yields_bind, yields_query. set (dets0 := _ <$> filter _ _).
  assert (forall dt, dt ∈ dets0 -> exists a, a ∈ rows (announcements d) /\ a_id a = zd_ann dt /\ a_node a = zd_node dt) as H0.
  { intros dt ([az a] & -> & [_ (? & ? & ?)%elem_of_attached]%list_elem_of_filter)%list_elem_of_fmap. by exists a. }
  apply yields_bind, yields_exec. intros r d1 Hdel.
  eapply (unhook_ok zone (fun _ => False) [] d d _ (fun _ => True)) in Hdel;
    [|apply detached_refl; by intros i []|intros; simpl; tauto].
  eapply yields_mono.
  - apply (yields_map_each (fun don ys d2 =>
      detached zone (fun _ => False \/ True) (zd_ann <$> don) d d2 /\
      (forall i, i ∈ zd_ann <$> don -> ~ kept zone d i -> exists dt, dt ∈ ys /\ zd_ann dt = i /\ zd_reclaimed dt = true) /\
      (forall dt, dt ∈ ys -> exists dt0, dt0 ∈ don /\ zd_ann dt = zd_ann dt0 /\ zd_node dt = zd_node dt0))).
    + split_and!; [done|by intros i ?%not_elem_of_nil..].
    + intros don x rest ys d2 _ (Hd2 & Hre & Hnd).
      apply yields_bind. eapply yields_mono; [apply (reclaim_step zone _ _ d d2 (zd_ann x) Hd2); by right|].
      intros b d3 [Hd3 Hk]. apply yields_ret. rewrite fmap_app. split_and!; [done|..].
      * intros i [Hi|Hi%list_elem_of_singleton]%elem_of_app Hnk.
        -- destruct (Hre i Hi Hnk) as (dt & ? & ?). exists dt. split; [|done]. apply elem_of_app. by left.
        -- destruct Hk as [->|Hk]; [|by subst]. eexists. split; [apply elem_of_app; right; by apply list_elem_of_singleton|].
           by subst i.
      * intros dt [Hdt| ->%list_elem_of_singleton]%elem_of_app.
        -- destruct (Hnd dt Hdt) as (dt0 & ? & ?). exists dt0. split; [|done]. apply elem_of_app. by left.
        -- exists x. split; [|done]. apply elem_of_app. right. by apply list_elem_of_singleton.
  - intros dets d' (H1 & H2 & H3). exists (zd_ann <$> dets0). split_and!; [|done|].
    + eapply detached_ext; [|done]. intros i. tauto.
    + intros dt (dt0 & Hdt0 & -> & ->)%H3. auto.
Qed.

(** ** Announcing and the cascade *)

(** What [CreateAnnouncement] did: [zone] now holds announcement [an_id ann], which
    existed or is new, with an allocated block. *)
Inductive announced (pool : AnyPrefix) (node zone : Z) (realb : Block) (d : DB) (ann : Announcement) : bool -> DB -> Prop :=
| announced_again a :
    a ∈ rows (announcements d) -> a_node a = node -> an_id ann = a_id a -> Synthetic ann = mkBlock (u32 (a_synth a)) (a_len a) ->
    (exists az, az ∈ announcement_zones d /\ az_ann az = a_id a /\ az_zone az = zone) ->
    announced pool node zone realb d ann false d
| announced_into a :
    a ∈ rows (announcements d) -> a_node a = node -> an_id ann = a_id a -> Synthetic ann = mkBlock (u32 (a_synth a)) (a_len a) ->
    announced pool node zone realb d ann true (set_attachments (announcement_zones d ++ [AttachRow (a_id a) zone]) d)
| announced_new blk now :
    let a := AnnRow (next_id (announcements d)) node (Base realb) (PrefixLen realb) (Base blk) now in
    AllocateBlock pool (PrefixLen realb) (synth_block <$> rows (announcements d)) = Ok blk ->
    existsb (Overlaps realb) (real_block <$> filter (fun a => a_node a = node) (rows (announcements d))) = false ->
    an_id ann = a_id a -> Synthetic ann = mkBlock (Base blk) (PrefixLen realb) ->
    announced pool node zone realb d ann true
      (set_attachments (announcement_zones d ++ [AttachRow (a_id a) zone])
        (set_anns (Table (rows (announcements d) ++ [a]) (a_id a)) d)).

Lemma insert_attachment_inv ignore ann zone d r d' : insert_attachment ignore ann zone d = Ok (r, d') ->
  (RowsAffected r = 0 /\ d' = d /\ ignore = true /\
     exists az, az ∈ announcement_zones d /\ az_ann az = ann /\ az_zone az = zone) \/
  (RowsAffected r = 1 /\ d' = set_attachments (announcement_zones d ++ [AttachRow ann zone]) d).
Proof.
  unfold insert_attachment. case_bool_decide as Hin.
  - destruct ignore; [|done]. intros [= <- <-]. left. apply list_elem_of_fmap in Hin as (az & [= -> ->] & Haz).
    split_and!; [done..|]. by exists az.
  - destruct (_ && _); [|done]. intros [= <- <-]. by right.
Qed.

Lemma CreateAnnouncement_effect `{Sqlite} user node realb zone limit pool d :
  effect (CreateAnnouncement user node realb zone limit pool) d (fun r d' =>
    (exists m, m ∈ zone_members d /\ m_zone m = zone /\ m_node m = node) /\
    announced pool node zone realb d r.1 r.2 d').
Proof.
  apply (effect_op (OpAnnounce user node realb zone limit pool)); [apply runs_void|].
  apply yields_tx, yields_bind, yields_query. destruct (negb _) eqn:Hm; [apply yields_throw|].
  assert (exists m, m ∈ zone_members d /\ m_zone m = zone /\ m_node m = node) as Hmem.
  { apply negb_false_iff in Hm. unfold is_member in Hm. apply bool_decide_eq_true in Hm.
    apply list_elem_of_fmap in Hm as (m & [= -> ->] & ?). by exists m. }
  apply yields_bind, yields_query. destruct (first_row _ _) as [a|] eqn:Hrow.
  - apply first_row_some in Hrow as [(Hnode & Hreal & Hlen) Hin].
    apply yields_bind, yields_exec. intros r d' Hf. apply yields_ret. split; [done|].
    apply insert_attachment_inv in Hf as [(-> & -> & _ & Hat)|[-> ->]]; cbn [fst snd Z.ltb Z.compare].
    + by eapply (announced_again _ _ _ _ _ _ a); try done; cbn; rewrite Hlen.
    + by eapply (announced_into _ _ _ _ _ _ a); try done; cbn; rewrite Hlen.
  - apply yields_bind, yields_query. destruct (existsb _ _) eqn:Hover; [apply yields_throw|].
    apply yields_bind. apply (yields_mono _ _ (fun _ d' => d' = d)).
    { destruct (0 <? limit); [|by apply yields_ret]. apply yields_bind, yields_query.
      destruct (_ <=? _); [apply yields_throw|by apply yields_ret]. }
    intros _ ? ->. apply yields_bind, yields_query. destruct (AllocateBlock _ _ _) as [blk|e] eqn:Halloc; [|apply yields_throw].
    apply yields_bind, yields_now. intros now. apply yields_bind, yields_exec. intros r d1 Hins.
    apply checked_insert_ok in Hins as (_ & _ & -> & ->). cbn [LastInsertId].
    apply yields_bind, yields_exec. intros r d2 Hat. apply yields_ret. split; [done|].
    apply insert_attachment_inv in Hat as [(_ & _ & ? & _)|[_ ->]]; [done|]. by apply announced_new.
Qed.

Lemma for_each_yields ids d :
  yields (for_each ids (fun i => do! exec (DELETE_anns (fun a => a_id a = i)) in ret tt)) d
    (fun _ d' => d' = delete_ann_ids ids d).
Proof.
  revert d. induction ids as [|i ids IH]; intros d; simpl; [by apply yields_ret|].
  apply yields_bind, yields_bind, yields_exec. intros r d' [= _ <-]. apply yields_ret, IH.
Qed.

Lemma DeleteCascade_effect `{Sqlite} id d : schema_ok d ->
  effect (DeleteCascade id) d (fun res d' => cascade id d d' res).
Proof.
  intros Hd. apply (effect_op (OpDeleteUser id)); [apply runs_void|].
  apply yields_tx, yields_bind, yields_query. destruct (user_by_id d id) as [u|]; [|apply yields_throw].
  apply yields_bind. apply (yields_mono _ _ (fun _ d' => d' = d)).
  { destruct (u_admin u); [|by apply yields_ret]. apply yields_bind, yields_query.
    destruct (_ <=? 1); [apply yields_throw|by apply yields_ret]. }
  intros _ ? ->. do 4 (apply yields_bind, yields_query). apply yields_bind, yields_exec. intros r d' [= _ <-].
  apply yields_bind, yields_query. pose proof (cascade_ok id d Hd) as Hc.
  destruct (gather_orphans _ _) as [ids ns]. apply yields_bind. eapply yields_mono; [apply for_each_yields|].
  intros _ d' ->. by apply yields_ret.
Qed.

(** ** What the methods guard

    The rules that no constraint of the schema enforces, only the methods. *)

Definition ann_count (user : Z) (d : DB) : Z :=
  count_where (fun a => a_node a ∈ n_id <$> filter (fun n => n_user n = user) (rows (nodes d))) (rows (announcements d)).
Lemma user_ann_count_spec user d : schema_ok d -> user_ann_count user d = ann_count user d.
Proof.
  intros Hd. unfold user_ann_count, ann_count, count_where. f_equal.
  pose proof (table_ok_uniq _ _ (ok_nodes _ Hd)) as Hu. induction (rows (announcements d)) as [|a l IH]; [done|].
  cbn [mbind list_bind]. rewrite length_app, IH, filter_cons. clear IH.
  assert (forall ns, uniq n_id ns -> length (join_on ns (fun n => n_id n = a_node a) (fun n => if decide (n_user n = user) then [a_id a] else [])) =
    if decide (a_node a ∈ n_id <$> filter (fun n => n_user n = user) ns) then 1%nat else 0%nat) as Hone; [|rewrite Hone by done; by case_decide].
  clear. intros ns. unfold join_on. induction ns as [|n ns IH]; intros Hu; [done|]. apply NoDup_cons in Hu as [Hn Hu]. specialize (IH Hu).
  rewrite !filter_cons. destruct (decide (n_id n = a_node a)) as [He|He].
  - cbn [mbind list_bind]. rewrite length_app, IH. rewrite (decide_False (P := a_node a ∈ n_id <$> filter _ ns)).
    2:{ intros (y & Hy & [_ Hin]%list_elem_of_filter)%list_elem_of_fmap. apply Hn. rewrite He, Hy. by apply list_elem_of_fmap_2. }
    destruct (decide (n_user n = user)); [rewrite decide_True; [done|]; rewrite fmap_cons, He; left|rewrite decide_False; [done|]].
    intros (y & Hy & [_ Hin]%list_elem_of_filter)%list_elem_of_fmap. apply Hn. rewrite He, Hy. by apply list_elem_of_fmap_2.
  - rewrite IH. destruct (decide (n_user n = user)); [|done]. rewrite fmap_cons. apply decide_ext. rewrite elem_of_cons. naive_solver.
Qed.

(** No user has more than [N] nodes, [Z'] zones or [L] announcements (0: no cap was
    set); the subnets announced behind one node are apart; every account that is no
    administrator used an invite, and a used invite stays so. *)
Record rules (N Z' L : Z) (d : DB) : Prop := mkRules
  { ru_nodes user : 0 < N -> node_count user d <= N;
    ru_zones user : 0 < Z' -> owned_zone_count user d <= Z';
    ru_anns user : 0 < L -> ann_count user d <= L;
    ru_apart a b : a ∈ rows (announcements d) -> b ∈ rows (announcements d) -> a_node a = a_node b -> a_id a <> a_id b ->
      Overlaps (real_block a) (real_block b) = false;
    ru_invited u : u ∈ rows (users d) -> u_admin u = false -> exists i, i ∈ rows (invites d) /\ i_used_by i = Some (u_id u);
    ru_unused i : i ∈ rows (invites d) -> i_used_at i = None -> i_used_by i = None }.
Definition has_admin (d : DB) : Prop := exists u, u ∈ rows (users d) /\ u_admin u = true.

(** A run with these caps; a subnet is announced for the owner of the node, as the
    handlers look it up. *)
Definition op_proper (N Z' L : Z) (op : repo_op) (d : DB) : Prop :=
  match op with
  | OpCreateNode _ _ _ _ _ _ cap => cap = N
  | OpCreateZone _ _ _ cap => cap = Z'
  | OpAnnounce user node real _ limit _ =>
      limit = L /\ is_u32 (Base real) /\ forall n, n ∈ rows (nodes d) -> n_id n = node -> n_user n = user
  | _ => True
  end.
Fixpoint proper_run `{Sqlite} (N Z' L : Z) (ops : list repo_op) (s : Store) : Prop :=
  match ops with
  | [] => True
  | op :: ops => op_proper N Z' L op (s_db s) /\ proper_run N Z' L ops (run_op op s)
  end.

Lemma count_where_sub {A} (P Q : A -> Prop) `{forall x, Decision (P x)} `{forall x, Decision (Q x)} l k :
  NoDup k -> (forall x, x ∈ k -> Q x -> x ∈ l /\ P x) -> count_where Q k <= count_where P l.
Proof.
  intros Hk Hs. unfold count_where. apply inj_le, submseteq_length, NoDup_submseteq; [by apply NoDup_filter|].
  intros x [Hq Hx]%list_elem_of_filter. apply list_elem_of_filter. by destruct (Hs x Hx Hq).
Qed.
Lemma count_where_fmap {A} (P : A -> Prop) `{forall x, Decision (P x)} (f : A -> A) l : (forall x, P (f x) <-> P x) -> count_where P (f <$> l) = count_where P l.
Proof. intros Hf. unfold count_where. f_equal. induction l as [|x l IH]; [done|]. rewrite fmap_cons, !filter_cons. repeat case_decide; naive_solver. Qed.
Lemma count_where_snoc {A} (P : A -> Prop) `{forall x, Decision (P x)} l x : count_where P (l ++ [x]) = count_where P l + (if decide (P x) then 1 else 0).
Proof. unfold count_where. rewrite filter_app, length_app, filter_cons, filter_nil. case_decide; simpl; lia. Qed.
Lemma table_nodup {A} (pk : A -> Z) t : table_ok pk t -> NoDup (rows t).
Proof. intros Ht. by eapply NoDup_fmap_1, table_ok_uniq. Qed.

Section Rules.
Context `{Sqlite} (N Z' L : Z).

(** Rows only went away, and the invites still name their users. *)
Lemma rules_shrink d d' : schema_ok d' -> rules N Z' L d ->
  (forall n, n ∈ rows (nodes d') -> n ∈ rows (nodes d)) -> (forall z, z ∈ rows (zones d') -> z ∈ rows (zones d)) ->
  (forall a, a ∈ rows (announcements d') -> a ∈ rows (announcements d)) ->
  (forall u, u ∈ rows (users d') -> u_admin u = false -> u ∈ rows (users d)) ->
  (forall i u, i ∈ rows (invites d) -> u ∈ rows (users d') -> i_used_by i = Some (u_id u) -> exists i', i' ∈ rows (invites d') /\ i_used_by i' = Some (u_id u)) ->
  (forall i, i ∈ rows (invites d') -> i_used_at i = None -> i_used_by i <> None -> exists i0, i0 ∈ rows (invites d) /\ i_used_at i0 = None /\ i_used_by i0 <> None) ->
  rules N Z' L d'.
Proof.
  intros Hd' [] Hn Hz Ha Hu Hi Hun. pose proof (table_nodup _ _ (ok_nodes _ Hd')). pose proof (table_nodup _ _ (ok_zones _ Hd')). pose proof (table_nodup _ _ (ok_anns _ Hd')).
  constructor.
  - intros user Hc. etransitivity; [|by apply (ru_nodes0 user)]. apply count_where_sub; [done|]. auto.
  - intros user Hc. etransitivity; [|by apply (ru_zones0 user)]. apply count_where_sub; [done|]. auto.
  - intros user Hc. etransitivity; [|by apply (ru_anns0 user)]. apply count_where_sub; [done|]. intros a Hin Hown. split; [auto|].
    apply list_elem_of_fmap in Hown as (n & -> & [? ?]%list_elem_of_filter). apply list_elem_of_fmap_2, list_elem_of_filter. auto.
  - intros a b. auto.
  - intros u Hin Hadm. destruct (ru_invited0 u) as (i & ? & ?); [auto..|]. eauto.
  - intros i Hin Hat. destruct (i_used_by i) as [x|] eqn:E; [|done]. destruct (Hun i) as (i0 & ? & ? & Hby); [done..|congruence|]. by rewrite ru_unused0 in Hby.
Qed.
(** Users and invites as they were. *)
Lemma rules_shrink_rows d d' : schema_ok d' -> rules N Z' L d -> users d' = users d -> invites d' = invites d ->
  (forall n, n ∈ rows (nodes d') -> n ∈ rows (nodes d)) -> (forall z, z ∈ rows (zones d') -> z ∈ rows (zones d)) ->
  (forall a, a ∈ rows (announcements d') -> a ∈ rows (announcements d)) -> rules N Z' L d'.
Proof. intros Hd' Hr Hu Hi Hn Hz Ha. apply (rules_shrink d); rewrite ?Hu, ?Hi; try done; eauto. Qed.

Context (b : bool).
Definition guarded (d : DB) : Prop := schema_ok d /\ rules N Z' L d /\ (b = true -> has_admin d).
Abbreviation keeps_rules := (pres (fun s => guarded (s_db s))).

Lemma keeps_yields {A} (m : SM A) s : atomic m -> (guarded (s_db s) -> yields m (s_db s) (fun _ d' => guarded d')) -> guarded (s_db s) -> guarded (s_db (snd (m s))).
Proof.
  intros Ha Hy Hg. destruct (m s) as [[a|e] s'] eqn:E; cbn [snd]; [by apply (Hy Hg s a s')|]. by rewrite (Ha _ _ _ E).
Qed.
Definition guarded_stmt (f : DB -> res string (SqlResult * DB)) : Prop := forall d r d', f d = Ok (r, d') -> guarded d -> guarded d'.
(** A statement that leaves users and invites alone. *)
Lemma shrink_stmt f : stmt_ok f -> (forall d r d', f d = Ok (r, d') -> users d' = users d /\ invites d' = invites d /\
  (forall n, n ∈ rows (nodes d') -> n ∈ rows (nodes d)) /\ (forall z, z ∈ rows (zones d') -> z ∈ rows (zones d)) /\
  (forall a, a ∈ rows (announcements d') -> a ∈ rows (announcements d))) -> guarded_stmt f.
Proof.
  intros Hf Hs d r d' He (Hd & Hr & Hadm). destruct (Hs _ _ _ He) as (Hu & Hi & Hn & Hz & Ha). pose proof (Hf _ _ _ He Hd) as Hd'.
  split_and!; [done|by eapply rules_shrink_rows|]. unfold has_admin. by rewrite Hu.
Qed.

Ltac shrinks := apply shrink_stmt; [auto with pres|]; let d := fresh in intros d ? ? [= <- <-]; cbn; split_and!; try done; by intros ? [_ ?]%list_elem_of_filter.
Lemma DELETE_nodes_rules P `{forall n, Decision (P n)} : guarded_stmt (DELETE_nodes P).
Proof. shrinks. Qed.
Lemma DELETE_zones_rules P `{forall n, Decision (P n)} : guarded_stmt (DELETE_zones P).
Proof. shrinks. Qed.
Lemma DELETE_anns_rules P `{forall n, Decision (P n)} : guarded_stmt (DELETE_anns P).
Proof. shrinks. Qed.
Lemma DELETE_members_rules P `{forall n, Decision (P n)} : guarded_stmt (DELETE_members P).
Proof. shrinks. Qed.
Lemma DELETE_attachments_rules P `{forall n, Decision (P n)} : guarded_stmt (DELETE_attachments P).
Proof. shrinks. Qed.
Lemma slide_rules hash expires : guarded_stmt (slide hash expires).
Proof. shrinks. Qed.
Lemma revoke_rules hash now : guarded_stmt (revoke hash now).
Proof. shrinks. Qed.
Lemma insert_refresh_rules user hash expires now : guarded_stmt (insert_refresh user hash expires now).
Proof. apply shrink_stmt; [auto with pres|]. intros d r d' (_ & _ & -> & _)%checked_insert_ok. by split_and!. Qed.
Lemma insert_member_rules zone node now : guarded_stmt (insert_member zone node now).
Proof.
  apply shrink_stmt; [auto with pres|]. intros d r d'. unfold insert_member. case_bool_decide; [by intros [= _ <-]|]. destruct (_ && _); [|done]. by intros [= _ <-].
Qed.
Lemma insert_attachment_rules ignore ann zone : guarded_stmt (insert_attachment ignore ann zone).
Proof. apply shrink_stmt; [auto with pres|]. by intros d r d' [(_ & -> & _)|[_ ->]]%insert_attachment_inv. Qed.

Lemma insert_admin_rules name hash now : guarded_stmt (insert_user name hash true now).
Proof.
  intros d r d' He (Hd & Hr & Hadm). pose proof (insert_user_stmt name hash true now _ _ _ He Hd) as Hd'.
  apply checked_insert_ok in He as (_ & _ & -> & _). split_and!; [done| |].
  - apply (rules_shrink d); try done; cbn; [|by eauto..]. intros x [?| ->%list_elem_of_singleton]%elem_of_app; done.
  - intros _. exists (UserRow (next_id (users d)) name hash true now). split; [|done]. apply elem_of_app. right. left.
Qed.
Lemma insert_invite_rules code creator now expires : guarded_stmt (insert_invite code creator now expires).
Proof.
  intros d r d' He (Hd & Hr & Hadm). pose proof (insert_invite_stmt code creator now expires _ _ _ He Hd) as Hd'.
  apply checked_insert_ok in He as (_ & _ & -> & _). split_and!; [done| |done]. apply (rules_shrink d); try done; cbn.
  - intros i u Hi _ Hby. exists i. split; [|done]. apply elem_of_app. by left.
  - intros i [?| ->%list_elem_of_singleton]%elem_of_app; [by eauto|done].
Qed.
Lemma set_zone_hash_rules zone hash : guarded_stmt (set_zone_hash zone hash).
Proof.
  intros d r d' He (Hd & Hr & Hadm). pose proof (set_zone_hash_stmt zone hash _ _ _ He Hd) as Hd'. injection He as <- <-.
  split_and!; [done| |done]. destruct Hr. constructor; try done. intros user Hc. specialize (ru_zones0 user Hc).
  unfold owned_zone_count in *. cbn. rewrite count_where_fmap; [done|]. intros z. by case_decide.
Qed.
Lemma capped_room cap n : (0 <? cap) && negb (n <? cap) = false -> 0 < cap -> n + 1 <= cap.
Proof. lia. Qed.
Lemma insert_node_rules user name key platform ip now : guarded_stmt (insert_node_capped user name key platform ip now N).
Proof.
  intros d r d' He (Hd & Hr & Hadm). pose proof (insert_node_capped_stmt user name key platform ip now N _ _ _ He Hd) as Hd'.
  unfold insert_node_capped in He. destruct (_ && _) eqn:Hcap; [by injection He as <- <-|].
  apply checked_insert_ok in He as (_ & _ & -> & _). split_and!; [done| |done]. destruct Hr. constructor; try done.
  - intros u Hc. unfold node_count in *. cbn. rewrite count_where_snoc. cbn. specialize (ru_nodes0 u Hc).
    case_decide; [subst u; by apply (capped_room N)|lia].
  - intros u Hc. etransitivity; [|by apply (ru_anns0 u)]. apply count_where_sub; [apply (table_nodup _ _ (ok_anns _ Hd))|].
    cbn. intros a Ha. rewrite filter_app, fmap_app, elem_of_app. intros [?|Hnew]; [done|]. exfalso.
    rewrite filter_cons, filter_nil in Hnew. cbn in Hnew. case_decide; [|by apply not_elem_of_nil in Hnew]. apply list_elem_of_singleton in Hnew. cbn in Hnew.
    pose proof (fk_ann_node d Hd a Ha) as (n & Hn & Hin)%list_elem_of_fmap. pose proof (ok_nodes _ Hd) as (_ & _ & Hle). specialize (Hle n Hin).
    unfold next_id in Hnew. lia.
Qed.
Lemma insert_zone_rules owner name hash now : guarded_stmt (insert_zone_capped owner name hash now Z').
Proof.
  intros d r d' He (Hd & Hr & Hadm). pose proof (insert_zone_capped_stmt owner name hash now Z' _ _ _ He Hd) as Hd'.
  unfold insert_zone_capped in He. destruct (_ && _) eqn:Hcap; [by injection He as <- <-|].
  apply checked_insert_ok in He as (_ & _ & -> & _). split_and!; [done| |done]. destruct Hr. constructor; try done.
  intros u Hc. unfold owned_zone_count in *. cbn. rewrite count_where_snoc. cbn. specialize (ru_zones0 u Hc).
  case_decide; [subst u; by apply (capped_room Z')|lia].
Qed.

Lemma keeps_guarded_exec f : guarded_stmt f -> keeps_rules (exec f).
Proof. apply (pres_exec guarded). Qed.
Lemma keeps_guarded_query {A} (f : DB -> A) : keeps_rules (query f).
Proof. apply (pres_query guarded). Qed.
Lemma keeps_guarded_rand : keeps_rules rand_read.
Proof. apply (pres_rand guarded). Qed.
Lemma keeps_guarded_now : keeps_rules now_seconds.
Proof. apply pres_gets. Qed.
#[local] Hint Resolve keeps_guarded_exec keeps_guarded_query keeps_guarded_rand keeps_guarded_now : pres.
#[local] Hint Resolve DELETE_nodes_rules DELETE_zones_rules DELETE_anns_rules DELETE_members_rules DELETE_attachments_rules slide_rules revoke_rules
  insert_refresh_rules insert_member_rules insert_attachment_rules insert_admin_rules insert_invite_rules set_zone_hash_rules insert_node_rules insert_zone_rules : pres.
Lemma create_invite_rules tries creator now expires : keeps_rules (create_invite tries creator now expires).
Proof. induction tries as [|tries IH]; simpl; unfold generateInviteCode; pres_auto. Qed.
Lemma create_node_rules tries user name key platform first last now : keeps_rules (create_node tries user name key platform first last N now).
Proof. induction tries as [|tries IH]; simpl; unfold lowestFree, insertNode; pres_auto. Qed.
Lemma or_not_found_rules {A} e (o : option A) : keeps_rules (or_not_found e o).
Proof. destruct o; pres_auto. Qed.
Lemma reclaim_rules ann : keeps_rules (reclaimIfOrphaned ann).
Proof. unfold reclaimIfOrphaned. pres_auto. Qed.
#[local] Hint Resolve create_invite_rules create_node_rules or_not_found_rules reclaim_rules : pres.

(** *** Registration, deletion, announcing *)

Lemma yields_and {A} (m : SM A) d (P Q : A -> DB -> Prop) : yields m d P -> yields m d Q -> yields m d (fun a d' => P a d' /\ Q a d').
Proof. intros Hp Hq s a s' Hs Hrun. split; [by eapply Hp|by eapply Hq]. Qed.
Lemma yields_const {A} (m : SM A) d (C : Prop) : C -> yields m d (fun _ _ => C).
Proof. by intros ? s a s'. Qed.

(** A registration takes an invite that was not used. *)
Lemma Register_rules name hash code d : guarded d -> yields (Register name hash code) d (fun _ d' =>
  rules N Z' L d' /\ exists now, users d' = insert_row (fun id => UserRow id name hash false now) (users d)).
Proof.
  intros (Hd & Hr & _). apply yields_tx, yields_bind, yields_now. intros now. apply yields_bind, yields_try_exec; [intros e; apply yields_throw|].
  intros r d1 He. pose proof (insert_user_stmt name hash false now _ _ _ He Hd) as Hd1. apply checked_insert_ok in He as (_ & _ & -> & ->). cbn [LastInsertId].
  apply yields_bind, yields_exec. intros r d2 [= <- <-]. cbn [RowsAffected]. destruct (negb _) eqn:Hone; [apply yields_throw|apply yields_ret].
  apply negb_false_iff, Z.eqb_eq in Hone. cbn in Hone |- *.
  assert (exists i, i ∈ rows (invites d) /\ consumable code now i) as (i & Hi & Hcon) by (apply (count_where_some (consumable code now)); lia).
  split; [|by exists now]. destruct Hr. constructor; try done; cbn.
  - intros u [Hu| ->%list_elem_of_singleton]%elem_of_app Hadm.
    + destruct (ru_invited0 u Hu Hadm) as (j & Hj & Hby). exists j. split; [|done]. apply list_elem_of_fmap. exists j. split; [|done].
      rewrite decide_False; [done|]. intros (_ & Hat & _). by rewrite ru_unused0 in Hby.
    + eexists. split; [apply list_elem_of_fmap; exists i; split; [reflexivity|done]|]. by rewrite decide_True.
  - intros j (k & -> & Hk)%list_elem_of_fmap. case_decide; [done|]. by apply ru_unused0.
Qed.

(** The last administrator stays. *)
Lemma DeleteCascade_admin id d : schema_ok d ->
  yields (DeleteCascade id) d (fun _ _ => has_admin d -> exists u, u ∈ rows (users d) /\ u_admin u = true /\ u_id u <> id).
Proof.
  intros Hd. apply yields_tx, yields_bind, yields_query. destruct (user_by_id d id) as [u|] eqn:Hu; [|apply yields_throw].
  pose proof (ok_users _ Hd) as Hok. pose proof (table_ok_uniq _ _ Hok) as Huq. unfold user_by_id in Hu. apply (by_id_iff u_id) in Hu as [Hin Hid]; [|done].
  apply yields_bind. destruct (u_admin u) eqn:Ha.
  - apply yields_bind, yields_query. destruct (_ <=? 1) eqn:Hc; [apply yields_throw|apply yields_ret, yields_const]. intros _.
    apply Z.leb_gt in Hc. unfold count_where in Hc. set (l := filter _ _) in Hc.
    assert (uniq u_id l) as Hul by by apply uniq_filter. assert (forall x, x ∈ l -> u_admin x = true /\ x ∈ rows (users d)) as Hl by by intros x Hx%list_elem_of_filter.
    destruct l as [|x [|y l]]; [cbn in Hc; lia..|]. apply NoDup_cons in Hul as [Hxy _].
    destruct (Hl x ltac:(left)) as [Hax Hx], (Hl y ltac:(right; left)) as [Hay Hy].
    destruct (decide (u_id x = id)) as [Hxi|]; [exists y|by exists x]. split_and!; [done..|]. intros Hyi. apply Hxy. rewrite Hxi, <- Hyi. left.
  - apply yields_ret, yields_const. intros (u' & Hin' & Ha'). exists u'. split_and!; [done..|]. intros Hid'.
    assert (u' = u) as -> by (apply (uniq_inj u_id (rows (users d))); (done || congruence)). congruence.
Qed.
Lemma DeleteCascade_rules id d : guarded d -> yields (DeleteCascade id) d (fun _ d' => guarded d').
Proof.
  intros (Hd & Hr & Hadm). pose proof (DeleteCascade_effect id d Hd) as (_ & Hy & Hk).
  intros s r s' <- Hrun. specialize (Hk s Hd). rewrite Hrun in Hk. cbn [snd] in Hk.
  pose proof (Hy s r s' eq_refl Hrun) as Hc. pose proof (DeleteCascade_admin id _ Hd s r s' eq_refl Hrun) as Hlast.
  split_and!; [done| |].
  - apply (rules_shrink (s_db s)); [done..|rewrite (cs_nodes _ _ _ _ Hc)|rewrite (cs_zones _ _ _ _ Hc)| |rewrite (cs_users _ _ _ _ Hc)|rewrite (cs_invites _ _ _ _ Hc), (cs_users _ _ _ _ Hc)|rewrite (cs_invites _ _ _ _ Hc)].
    + by intros n [_ ?]%list_elem_of_filter.
    + by intros z [_ ?]%list_elem_of_filter.
    + by intros a [? _]%(cs_anns _ _ _ _ Hc).
    + by intros u [_ ?]%list_elem_of_filter.
    + intros i u Hi [Hne _]%list_elem_of_filter Hby. exists (forget_user id i). split; [by apply list_elem_of_fmap_2|].
      unfold forget_user. cbn. rewrite Hby. rewrite decide_False; [done|congruence].
    + intros i (j & -> & Hj)%list_elem_of_fmap. unfold forget_user. cbn. intros Hat Hby. exists j. split_and!; [done..|]. by case_decide.
  - intros Hb. destruct (Hlast (Hadm Hb)) as (u & Hu & Ha & Hne). exists u. split; [|done]. rewrite (cs_users _ _ _ _ Hc). by apply list_elem_of_filter.
Qed.

(** A new announcement is within the limit. *)
Lemma CreateAnnouncement_limit user node realb zone pool d :
  yields (CreateAnnouncement user node realb zone L pool) d (fun r d' => 0 < L -> announcements d' = announcements d \/ user_ann_count user d < L).
Proof.
  apply yields_tx, yields_bind, yields_query. destruct (negb _); [apply yields_throw|]. apply yields_bind, yields_query.
  destruct (first_row _ _) as [a|].
  - apply yields_bind, yields_exec. intros r d' Hf. apply yields_ret. intros _. left.
    by apply insert_attachment_inv in Hf as [(_ & -> & _)|[_ ->]].
  - apply yields_bind, yields_query. destruct (existsb _ _); [apply yields_throw|]. apply yields_bind.
    apply (yields_mono _ _ (fun _ d' => d' = d /\ (0 < L -> user_ann_count user d < L))).
    { destruct (0 <? L) eqn:HL; [|apply yields_ret; split; [done|lia]]. apply yields_bind, yields_query.
      destruct (L <=? _) eqn:Hc; [apply yields_throw|apply yields_ret; split; [done|lia]]. }
    intros _ ? [-> Hroom]. eapply yields_mono; [apply (yields_const _ _ True I)|]. intros r d' _ HL. right. auto.
Qed.
Lemma CreateAnnouncement_rules user node realb zone pool d : is_u32 (Base realb) -> (forall n, n ∈ rows (nodes d) -> n_id n = node -> n_user n = user) ->
  guarded d -> yields (CreateAnnouncement user node realb zone L pool) d (fun _ d' => rules N Z' L d' /\ users d' = users d).
Proof.
  intros Hreal Hown (Hd & Hr & _). pose proof (CreateAnnouncement_effect user node realb zone L pool d) as (_ & Hy & _).
  eapply yields_mono; [apply (yields_and _ _ _ _ Hy (CreateAnnouncement_limit user node realb zone pool d))|]. clear Hy.
  intros r d' ((_ & Hann) & Hlim). destruct r as [ann new]. cbn [fst snd] in Hann. destruct Hann as [a| |blk now a0 _ Hover _ _].
  - done.
  - split; [|done]. destruct Hr. by constructor.
  - split; [|done]. subst a0. destruct Hr. constructor; try done; cbn.
    + intros u HL. specialize (ru_anns0 u HL). unfold ann_count in *. cbn. rewrite count_where_snoc. cbn. case_decide as Hnode; [|lia].
      apply list_elem_of_fmap in Hnode as (n & Hid & [Hu Hn]%list_elem_of_filter). rewrite (Hown n Hn (eq_sym Hid)) in Hu. subst u.
      destruct (Hlim HL) as [Heq|Hroom]; [exfalso|rewrite user_ann_count_spec in Hroom by done; unfold ann_count in Hroom; lia].
      cbn in Heq. apply (f_equal (fun t => length (rows t))) in Heq. cbn in Heq. rewrite length_app in Heq. simpl in Heq. lia.
    + assert (forall x, x ∈ rows (announcements d) -> a_node x = node -> Overlaps (mkBlock (u32 (Base realb)) (PrefixLen realb)) (real_block x) = false) as Hnew.
      { intros x Hx Hn. rewrite u32_id by done. destruct realb as [base len]. apply not_true_is_false. intros Ho.
        assert (existsb (Overlaps (mkBlock base len)) (real_block <$> filter (fun a => a_node a = node) (rows (announcements d))) = true) as Hex; [|congruence].
        apply existsb_exists. exists (real_block x). split; [|done]. apply list_elem_of_In, list_elem_of_fmap_2. by apply list_elem_of_filter. }
      intros a b' [Ha| ->%list_elem_of_singleton]%elem_of_app [Hb| ->%list_elem_of_singleton]%elem_of_app Hn Hne; cbn in *.
      * by apply ru_apart0.
      * rewrite Overlaps_sym. by apply Hnew.
      * by apply Hnew.
      * done.
Qed.

(** An operation of single methods, each of which keeps the rules. *)
#[local] Ltac one_by_one Hg := revert Hg; match goal with |- context [exec_op ?op ?s] =>
  apply (fun (Hk : pres (fun s => guarded (s_db s)) (exec_op op)) => Hk s) end; cbn [exec_op];
  try match goal with |- pres _ (void _) => apply pres_void end; unfold_ops; try apply (pres_tx guarded); pres_auto.
Lemma exec_op_rules op s : op_proper N Z' L op (s_db s) -> guarded (s_db s) -> guarded (s_db (run_op op s)).
Proof.
  intros Hop Hg. unfold run_op.
  assert (forall A (m : SM A), exec_op op = void m -> yields m (s_db s) (fun _ d' => rules N Z' L d' /\ (has_admin (s_db s) -> has_admin d')) ->
    guarded (s_db (snd (exec_op op s)))) as Hvoid.
  { intros A m E Hy. apply keeps_yields; [apply exec_op_atomic|intros _|done]. pose proof Hg as (Hd & _ & Hadm). rewrite E. apply yields_bind.
    intros s0 a s1 Hs0 Hrun. apply yields_ret. pose proof (exec_op_keeps op s0) as Hk. destruct (Hy s0 a s1 Hs0 Hrun) as [Hr Ha]. split_and!; [|done|auto].
    rewrite E in Hk. unfold void, bind, store_ok in Hk. rewrite Hrun in Hk. apply Hk. by rewrite Hs0. }
  destruct op; cbn [op_proper] in Hop; subst; try solve [one_by_one Hg].
  - eapply Hvoid; [reflexivity|]. eapply yields_mono; [by apply Register_rules|]. intros a d' (Hr & now & Hu). split; [done|].
    intros (u & Hin & Ha). exists u. split; [|done]. rewrite Hu. apply elem_of_app. by left.
  - apply keeps_yields; [apply exec_op_atomic| |done]. intros _. apply yields_bind. eapply yields_mono; [by apply DeleteCascade_rules|]. intros a d' ?. by apply yields_ret.
  - destruct Hop as (-> & Hreal & Hown). eapply Hvoid; [reflexivity|]. eapply yields_mono; [by apply CreateAnnouncement_rules|].
    intros a d' (Hr & Hu). split; [done|]. unfold has_admin. by rewrite Hu.
Qed.
End Rules.


(** One device each; the second one is refused, and so is the deletion of the only
    administrator. *)
Definition guard_db : DB := set_users (Table [UserRow 1 "root" "h" true 0] 1) empty_db.
Definition guard_start : Store := Quiet guard_db 100 [[1; 2; 3]].
Definition guard_ops : list repo_op :=
  [OpCreateInvite 1 0; OpRegister "ann" "h" "AQID"; OpRegister "eve" "h" "AQID"; OpCreateNode 2 "laptop" "k" "linux" 1 9 1;
   OpCreateNode 2 "phone" "k2" "linux" 1 9 1; OpDeleteUser 1].
Lemma guard_db_ok : schema_ok guard_db.
Proof.
  destruct empty_db_ok; constructor; try done.
  - split_and!; [done|repeat constructor|by intros x ->%list_elem_of_singleton].
  - apply NoDup_singleton.
  - by intros x i Hx%not_elem_of_nil.
  - by intros x i Hx%not_elem_of_nil.
  - by intros x Hx%not_elem_of_nil.
  - by intros x Hx%not_elem_of_nil.
  - by intros x Hx%not_elem_of_nil.
Qed.
Lemma guard_db_rules : rules 1 1 1 guard_db.
Proof. constructor; try done; try by intros a b Ha%not_elem_of_nil. - by intros u ->%list_elem_of_singleton. - by intros i Hi%not_elem_of_nil. Qed.
