(* ===== verification/Sync.v ===== *)
(** * The database and the dataplane agree

    The relay's forwarding state is derived from the database: the isolation table
    holds exactly the zones, members and announced blocks of the database, and the
    WireGuard device exactly its nodes as peers. This file defines the agreement,
    and proves that the start-up rebuild establishes it. *)
From stdpp Require Import sorting.
From S2P Require Import Prelude GoStrings Netip Ipam Codec Db StoreInv StoreUsers StoreNodes StoreAnnounce StoreOps UsersProps CascadeProps StoreEffects NodesProps AnnounceProps Netfw NetfwProps Isolation Wg WgProps Auth Api ApiZones ApiRoutes.

#[local] Open Scope lw_scope.

(** ** The dataplane state a database describes *)

Definition synth_prefix (a : ann_row) : Prefix := BlockPrefix (synth_block a).
Definition node_addr (n : node_row) : Addr := u32 (n_ip n).

Definition zone_prefixes (d : DB) (z : Z) : list Prefix :=
  (fun p => synth_prefix p.2) <$> filter (fun p => az_zone p.1 = z) (attached d).
Definition node_prefixes (d : DB) (n : Z) : list Prefix :=
  synth_prefix <$> filter (fun a => a_node a = n) (rows (announcements d)).

(** Zones in id order, the addresses of their members, their announced blocks. *)
Definition db_iso (d : DB) : Iso :=
  mkIso (z_id <$> rows (zones d)) (fun z => list_to_set (member_ips z d)) (fun z => list_to_set (zone_prefixes d z)).

Definition node_allowed (d : DB) (n : node_row) : gset Prefix := allowed_ips (node_addr n) (node_prefixes d (n_id n)).

Definition fw_synced (t : string) (d : DB) (r : Ruleset) : Prop := synced t (seq (zones d)) (db_iso d) r.
Definition wg_synced `{WgTypes} (d : DB) (m : gmap Key (gset Prefix)) : Prop :=
  forall k s, m !! k = Some s <->
    exists n, n ∈ rows (nodes d) /\ ParseKey (n_key n) = Some k /\ s = node_allowed d n.

(** What the server's own checks make true of its database: the schema, addresses
    and synthetic blocks out of their pools, and keys that parse. That no two nodes
    share a key is the registration's check only up to the spelling of the key. *)
Record data_ok `{WgTypes} (pool : Prefix) (d : DB) : Prop := mkDataOk
  { do_schema : schema_ok d;
    do_blocks : blocks_ok pool d;
    do_ip n : n ∈ rows (nodes d) -> is_u32 (n_ip n);
    do_len a : a ∈ rows (announcements d) -> a_len a < 32;
    do_key n : n ∈ rows (nodes d) -> is_Some (ParseKey (n_key n));
    do_key_inj n n' : n ∈ rows (nodes d) -> n' ∈ rows (nodes d) -> ParseKey (n_key n) = ParseKey (n_key n') -> n = n' }.

(** ** Membership in the derived state *)

Lemma elem_of_member_ips z d a :
  a ∈ member_ips z d <-> exists m n, m ∈ zone_members d /\ m_zone m = z /\ n ∈ rows (nodes d) /\ n_id n = m_node m /\ a = node_addr n.
Proof.
  unfold member_ips, node_addr. rewrite list_elem_of_bind. setoid_rewrite list_elem_of_fmap.
  setoid_rewrite list_elem_of_filter. naive_solver.
Qed.

Lemma elem_of_zone_prefixes d z p :
  p ∈ zone_prefixes d z <->
    exists az a, az ∈ announcement_zones d /\ az_zone az = z /\ a ∈ rows (announcements d) /\ a_id a = az_ann az /\ p = synth_prefix a.
Proof.
  unfold zone_prefixes. rewrite list_elem_of_fmap. setoid_rewrite list_elem_of_filter. setoid_rewrite elem_of_attached.
  split.
  - intros ([az a] & -> & Hz & ? & ? & ?). simpl in *. by exists az, a.
  - intros (az & a & ? & ? & ? & ? & ->). by exists (az, a).
Qed.

Lemma elem_of_node_prefixes d n p :
  p ∈ node_prefixes d n <-> exists a, a ∈ rows (announcements d) /\ a_node a = n /\ p = synth_prefix a.
Proof. unfold node_prefixes. rewrite list_elem_of_fmap. setoid_rewrite list_elem_of_filter. naive_solver. Qed.

Lemma allowed_ips_ext ip l l' : (forall p, p ∈ l <-> p ∈ l') -> allowed_ips ip l = allowed_ips ip l'.
Proof.
  intros Hl. unfold allowed_ips. simpl. f_equal. apply set_eq. intros p.
  rewrite !elem_of_list_to_set, !list_elem_of_fmap. by setoid_rewrite Hl.
Qed.

Section Data.
Context `{WgTypes} (pool : Prefix) (d : DB) (Hd : data_ok pool d).

Lemma synth_prefix_eq a : a ∈ rows (announcements d) ->
  synth_prefix a = PrefixFrom (a_synth a) (a_len a) /\ Masked (synth_prefix a) = synth_prefix a /\
  BlockFromPrefix (synth_prefix a) = synth a /\ prefix_ok (synth_prefix a).
Proof.
  intros Ha. pose proof (do_blocks _ _ Hd) as Hb. destruct (col_blocks pool d a Hb Ha) as [Hs _].
  destruct (bk_synth _ _ Hb a Ha) as ((Hu & Hl & Hal) & _ & _). cbn in Hu, Hl, Hal.
  assert (synth_prefix a = PrefixFrom (a_synth a) (a_len a)) as Heq.
  { unfold synth_prefix. rewrite Hs. unfold BlockPrefix, synth; simpl. by rewrite Uint32ToAddr_id. }
  assert (mask_addr (a_synth a) (a_len a) = a_synth a) as Hm.
  { rewrite mask_addr_eq by lia. rewrite size_pow in Hal by (simpl; lia). cbn in Hal. lia. }
  rewrite Heq. assert (prefix_ok (PrefixFrom (a_synth a) (a_len a))) as Hok by done. split_and!; [done| | |done].
  - unfold Masked; simpl. by rewrite Hm.
  - rewrite BlockFromPrefix_eq by done. simpl. by rewrite Hm.
Qed.

Lemma synth_prefix_inj a b : a ∈ rows (announcements d) -> b ∈ rows (announcements d) ->
  synth_prefix a = synth_prefix b -> a = b.
Proof.
  intros Ha Hb. rewrite (proj1 (synth_prefix_eq a Ha)), (proj1 (synth_prefix_eq b Hb)). intros [= Hs Hl].
  apply (uniq_inj (fun a => (a_synth a, a_len a)) (rows (announcements d))); [apply uq_synth, (do_schema _ _ Hd)|done..|].
  by rewrite Hs, Hl.
Qed.

Lemma node_addr_inj n n' : n ∈ rows (nodes d) -> n' ∈ rows (nodes d) -> node_addr n = node_addr n' -> n = n'.
Proof.
  intros Hn Hn'. unfold node_addr. rewrite !u32_id by by apply (do_ip _ _ Hd).
  apply (uniq_inj n_ip (rows (nodes d))); [apply uq_node_ip, (do_schema _ _ Hd)|done..].
Qed.

Lemma node_id_inj n n' : n ∈ rows (nodes d) -> n' ∈ rows (nodes d) -> n_id n = n_id n' -> n = n'.
Proof. apply uniq_inj, table_ok_uniq, ok_nodes, (do_schema _ _ Hd). Qed.

Lemma elem_of_node_allowed n p :
  p ∈ node_allowed d n <-> p = PrefixFrom (node_addr n) 32 \/
    exists a, a ∈ rows (announcements d) /\ a_node a = n_id n /\ p = synth_prefix a.
Proof.
  unfold node_allowed, allowed_ips. rewrite elem_of_list_to_set, elem_of_cons, list_elem_of_fmap.
  setoid_rewrite elem_of_node_prefixes. split; (intros [->|Hp]; [by left|right]).
  - destruct Hp as (q & -> & a & Ha & Hn & ->). exists a. split_and!; [done..|]. apply synth_prefix_eq, Ha.
  - destruct Hp as (a & Ha & Hn & ->). exists (synth_prefix a). split; [|by exists a].
    symmetry. apply synth_prefix_eq, Ha.
Qed.

(** Different nodes have disjoint allowed IPs. *)
Lemma node_allowed_disjoint n n' : n ∈ rows (nodes d) -> n' ∈ rows (nodes d) -> n <> n' ->
  node_allowed d n ## node_allowed d n'.
Proof.
  intros Hn Hn' Hne p. rewrite !elem_of_node_allowed.
  assert (forall a m, a ∈ rows (announcements d) -> synth_prefix a <> PrefixFrom (node_addr m) 32) as H32.
  { intros a m Ha. rewrite (proj1 (synth_prefix_eq a Ha)). intros [= _ Hl]. pose proof (do_len _ _ Hd a Ha). lia. }
  intros [->|(a & Ha & Han & ->)] [Hp|(b & Hb & Hbn & Hp)].
  - apply Hne, node_addr_inj; [done..|]. by injection Hp.
  - by apply (H32 b n).
  - by apply (H32 a n').
  - apply synth_prefix_inj in Hp as ->; [|done..]. apply Hne, node_id_inj; [done..|congruence].
Qed.
End Data.

(** ** Rebuilding from the database *)

Lemma append_fold l (m : gmap Z (list Prefix)) k :
  default [] (foldl append_route m l !! k) = default [] (m !! k) ++ (snd <$> filter (fun p => p.1 = k) l).
Proof.
  revert m. induction l as [|[j p] l IH]; intros m; simpl; [by rewrite app_nil_r|].
  rewrite IH. unfold append_route; simpl. destruct (decide (j = k)) as [->|Hj].
  - rewrite lookup_insert_eq, filter_cons_True by done. simpl. by rewrite <- app_assoc.
  - by rewrite lookup_insert_ne, filter_cons_False by done.
Qed.

Lemma elem_of_merge_sort {A} (R : relation A) `{RelDecision A A R} l x : x ∈ merge_sort R l <-> x ∈ l.
Proof. by rewrite merge_sort_Permutation. Qed.

Lemma elem_of_routes_by_zone d z p :
  p ∈ default [] (foldl append_route ∅ (zone_routes d) !! z) <-> p ∈ zone_prefixes d z.
Proof.
  rewrite append_fold, lookup_empty. simpl. rewrite list_elem_of_fmap, elem_of_zone_prefixes.
  setoid_rewrite list_elem_of_filter. unfold zone_routes. setoid_rewrite list_elem_of_fmap.
  setoid_rewrite elem_of_merge_sort. setoid_rewrite list_elem_of_fmap. setoid_rewrite elem_of_attached.
  split.
  - intros ([? ?] & -> & Hz & ? & Heq & [az a] & -> & ? & ? & ?). simpl in *. injection Heq as -> ->. by exists az, a.
  - intros (az & a & ? & <- & ? & ? & ->). exists (az_zone az, synth_prefix a). split; [done|]. split; [done|].
    eexists. split; [|by exists (az, a)]. done.
Qed.

Lemma elem_of_routes_by_node d n p :
  p ∈ default [] (foldl append_route ∅ (node_routes d) !! n) <-> p ∈ node_prefixes d n.
Proof.
  rewrite append_fold, lookup_empty. simpl. rewrite list_elem_of_fmap, elem_of_node_prefixes.
  setoid_rewrite list_elem_of_filter. unfold node_routes. setoid_rewrite list_elem_of_fmap.
  setoid_rewrite elem_of_merge_sort. setoid_rewrite list_elem_of_fmap.
  split.
  - intros ([? ?] & -> & Hz & ? & Heq & a & -> & ?). simpl in *. injection Heq as -> ->. by exists a.
  - intros (a & ? & <- & ->). exists (a_node a, synth_prefix a). split; [done|]. split; [done|].
    eexists. split; [|by exists a]. done.
Qed.

Lemma synced_ext t n I I' r :
  iso_ids I = iso_ids I' -> (forall i, i ∈ iso_ids I -> iso_mem I i = iso_mem I' i /\ iso_rts I i = iso_rts I' i) ->
  synced t n I r -> synced t n I' r.
Proof. intros Hids Heq (tb & ch & Htb & Hr & Hf). exists tb, ch. split_and!; [done|by eapply table_repr_ext|done]. Qed.

Section Rebuild.
Context {K D : Type} `{NftablesLaws K} `{WgHostLaws D} `{WgTypes}.

Lemma boot_query {A} (f : DB -> A) (w : World K D) a w' :
  boot (db (query f)) w = (Ok a, w') ->
  a = f (s_db (w_store w)) /\ s_db (w_store w') = s_db (w_store w) /\ w_nft w' = w_nft w /\ w_wg w' = w_wg w.
Proof.
  unfold boot, db, query, driver, gets. destruct (s_faults (w_store w)) as [|[] fs]; cbn; [|done|];
    by intros [= <- <-].
Qed.
Lemma boot_wg (m : M wg_err D unit) (w w' : World K D) :
  boot (wg m) w = (Ok tt, w') ->
  m (w_wg w) = (Ok tt, w_wg w') /\ w_store w' = w_store w /\ w_nft w' = w_nft w.
Proof. unfold boot, wg. destruct (m (w_wg w)) as [[[]|e] d]; [|done]. by intros [= <-]. Qed.
Lemma boot_netfw (m : M unit K unit) (w w' : World K D) :
  boot (netfw m) w = (Ok tt, w') ->
  m (w_nft w) = (Ok tt, w_nft w') /\ w_store w' = w_store w /\ w_wg w' = w_wg w.
Proof. unfold boot, netfw. destruct (m (w_nft w)) as [[[]|e] d]; [|done]. by intros [= <-]. Qed.

(** The peer configurations the rebuild computes. *)
Definition boot_peer (d : DB) (n : node_row) : PeerConfig :=
  mkPeer (n_key n) (n_ip n) (default [] (foldl append_route ∅ (node_routes d) !! n_id n)).

Lemma boot_peer_allowed d n :
  allowed_ips (peer_IP (boot_peer d (node_of_row n))) (peer_Routes (boot_peer d (node_of_row n))) = node_allowed d n.
Proof.
  unfold node_allowed, boot_peer, node_of_row. cbn [peer_IP peer_Routes n_ip n_id]. rewrite Uint32ToAddr_col. apply allowed_ips_ext. intros p.
  apply elem_of_routes_by_node.
Qed.

Lemma boot_peers_match pool d m : data_ok pool d ->
  peers_distinct (boot_peer d <$> (node_of_row <$> rows (nodes d))) /\
  (peers_match (boot_peer d <$> (node_of_row <$> rows (nodes d))) m -> wg_synced d m).
Proof.
  intros Hd. split; [split|].
  - rewrite <- list_fmap_compose, <- list_fmap_compose.
    apply NoDup_fmap_2_strong; [|by eapply (NoDup_fmap_1 n_id), table_ok_uniq, ok_nodes, do_schema].
    intros n n' Hn Hn' Heq. by apply (do_key_inj _ _ Hd n n').
  - intros p q Hp Hq Hne. rewrite <- list_fmap_compose in Hp, Hq.
    apply list_elem_of_fmap in Hp as (n & -> & Hn). apply list_elem_of_fmap in Hq as (n' & -> & Hn').
    cbn [compose]. rewrite !boot_peer_allowed. eapply node_allowed_disjoint; [done..|]. by intros ->.
  - intros Hm k s. rewrite (Hm k s). split.
    + intros (p & Hp & Hk & ->). rewrite <- list_fmap_compose in Hp. apply list_elem_of_fmap in Hp as (n & -> & Hn).
      exists n. split_and!; [done..|]. apply boot_peer_allowed.
    + intros (n & Hn & Hk & ->). exists (boot_peer d (node_of_row n)). split_and!; [|done|by rewrite boot_peer_allowed].
      by do 2 apply list_elem_of_fmap_2.
Qed.

Definition boot_zone (d : DB) (s : StoreNodes.ZoneState) : Netfw.ZoneState :=
  mkNfZone (zs_id s) (zs_ips s) (default [] (foldl append_route ∅ (zone_routes d) !! zs_id s)).

Lemma boot_zones_iso t d r n :
  schema_ok d -> synced t n (isos (boot_zone d <$> zone_states d) empty_iso) r -> synced t n (db_iso d) r.
Proof.
  intros Hd. set (l := boot_zone d <$> zone_states d).
  assert (zst_id <$> l = z_id <$> rows (zones d)) as Hids.
  { subst l. unfold zone_states. by rewrite <- !list_fmap_compose. }
  assert (NoDup (zst_id <$> l)) as Hnd by (rewrite Hids; apply table_ok_uniq, ok_zones, Hd).
  apply synced_ext; [by rewrite isos_ids; simpl|]. intros i. rewrite isos_ids. simpl. rewrite Hids.
  intros (z & -> & Hz)%list_elem_of_fmap.
  destruct (isos_lookup l empty_iso (boot_zone d (mkZoneState (z_id z) (member_ips (z_id z) d)))) as [Hm Hr]; [done| |].
  { subst l. apply list_elem_of_fmap_2. apply list_elem_of_fmap. by exists z. }
  cbn [boot_zone zst_id zs_id] in Hm, Hr. rewrite Hm, Hr. split; [done|].
  cbn [boot_zone RouteCIDRs zs_id db_iso iso_rts]. apply set_eq. intros p. rewrite !elem_of_list_to_set.
  apply elem_of_routes_by_zone.
Qed.
End Rebuild.

Lemma rebuild_peers_sync {K D} `{NftablesLaws K} `{WgHostLaws D} `{WgTypes} h pool (w w' : World K D) :
  data_ok pool (s_db (w_store w)) -> rebuildNodePeers h w = (Ok tt, w') ->
  s_db (w_store w') = s_db (w_store w) /\ w_nft w' = w_nft w /\ wg_synced (s_db (w_store w)) (device (w_wg w') (h_wg h)).
Proof.
  intros Hd Hrun. unfold rebuildNodePeers, bind in Hrun.
  destruct (boot (db AllForPeers) w) as [[ns|] w1] eqn:E1; [|done]. apply boot_query in E1 as (-> & D1 & N1 & G1).
  destruct (boot (db RoutesByNode) w1) as [[rn|] w2] eqn:E2; [|done]. apply boot_query in E2 as (-> & D2 & N2 & G2).
  apply boot_wg in Hrun as (Hrun & S3 & N3). rewrite D1 in Hrun. split_and!; [by rewrite S3, D2, D1|by rewrite N3, N2, N1|].
  destruct (boot_peers_match pool (s_db (w_store w)) (device (w_wg w') (h_wg h)) Hd) as [Hdist Hmatch].
  by apply Hmatch, (ReplacePeers_ok (h_wg h) _ (w_wg w2)).
Qed.
Lemma rebuild_rules_sync {K D} `{NftablesLaws K} `{WgHostLaws D} `{WgTypes} h (w w' : World K D) :
  schema_ok (s_db (w_store w)) -> rebuildZoneRules h w = (Ok tt, w') ->
  s_db (w_store w') = s_db (w_store w) /\ w_wg w' = w_wg w /\ fw_synced (h_netfw h) (s_db (w_store w)) (nft_view (w_nft w')).
Proof.
  intros Hsch Hrun. unfold rebuildZoneRules, bind in Hrun.
  destruct (boot (db AllForRebuild) w) as [[zs|] w4] eqn:E4; [|done]. apply boot_query in E4 as (-> & D4 & N4 & G4).
  destruct (boot (db RoutesByZone) w4) as [[rz|] w5] eqn:E5; [|done]. apply boot_query in E5 as (-> & D5 & N5 & G5).
  apply boot_netfw in Hrun as (Hrun & S6 & G6). rewrite D4 in Hrun. set (d := s_db (w_store w)) in *.
  split_and!; [by rewrite S6, D5, D4|by rewrite G6, G5, G4|].
  rewrite (rebuild_fold d (rows (zones d)) [] ∅) in Hrun; [|apply table_ok_uniq, ok_zones, Hsch|done].
  apply boot_zones_iso; [done|]. eapply proj1, Rebuild_ok; [exact Hrun|..].
  - unfold zone_states. rewrite <- !list_fmap_compose. apply table_ok_uniq, ok_zones, Hsch.
  - intros z Hz. apply list_elem_of_fmap in Hz as (st & -> & Hst). apply list_elem_of_fmap in Hst as (zr & -> & Hzr).
    cbn. destruct (ok_zones _ Hsch) as (_ & _ & Hb). destruct (Hb zr Hzr). done.
Qed.

(** C13: the start-up rebuild makes the dataplane what the database says. Whatever
    the kernel's table and the device held before, and whatever reads of the
    database fail on the way, when the rebuild reports success the isolation table
    holds exactly the database's zones with their members' addresses and announced
    blocks, and the device has exactly the registered nodes as peers, each with
    its address and its announced blocks; the database is as it was. *)
Theorem rebuild_establishes_sync {K D} `{NftablesLaws K} `{WgHostLaws D} `{WgTypes} h pool (w w' : World K D) :
  data_ok pool (s_db (w_store w)) -> rebuild_dataplane h w = (Ok tt, w') ->
  s_db (w_store w') = s_db (w_store w) /\
  fw_synced (h_netfw h) (s_db (w_store w')) (nft_view (w_nft w')) /\
  wg_synced (s_db (w_store w')) (device (w_wg w') (h_wg h)).
Proof.
  intros Hd Hrun. unfold rebuild_dataplane, bind in Hrun. destruct (rebuildNodePeers h w) as [[[]|] w1] eqn:Hpeers; [|done].
  apply (rebuild_peers_sync h pool) in Hpeers as (D1 & _ & Hwg); [|done].
  apply rebuild_rules_sync in Hrun as (D2 & G2 & Hfw); [|rewrite D1; apply (do_schema _ _ Hd)].
  rewrite G2, D2, D1. rewrite D1 in Hfw. done.
Qed.

(** ** A relay with one zone, one member and one announced subnet, rebuilt on a
    bare host *)

#[local] Instance no_v6 : NetipV6 := fun _ => None.
Definition sync_ops : list repo_op :=
  [OpCreateAdmin "ann" "h"; OpCreateNode 1 "router" key_a "openwrt" 1681915906 1681981437 0; OpCreateZone 1 "home" "h" 0;
   OpJoin 1 1; OpAnnounce 1 1 (mkBlock 3232235776 24) 1 0 (P4 demo_pool)].
Definition sync_db : DB := s_db (run_ops sync_ops (mkStore empty_db [] 0 [])).
Definition sync_world : World Ruleset SimHost := mkWorld (Quiet sync_db 150 []) 0 ∅ bare_host NewTracker [].
Definition sync_opts : Options :=
  mkOptions "1" (mkJWTManager "s" 3600000000000) wg0 "lanweave" (mkWgCfg "wg0" "100.64.0.0/10" 51820 0) "" 10 10 10 None 0.

Lemma sync_db_ok : data_ok demo_pool sync_db.
Proof.
  constructor.
  - apply (run_ops_schema sync_ops (mkStore empty_db [] 0 [])), empty_db_ok.
  - apply run_blocks_ok; [apply demo_pool_ok|]. repeat constructor; unfold is_u32, W32; cbn; lia.
  - intros n ->%list_elem_of_singleton. split; by vm_compute.
  - by intros a ->%list_elem_of_singleton.
  - intros n ->%list_elem_of_singleton. eexists. by vm_compute.
  - by intros n n' ->%list_elem_of_singleton ->%list_elem_of_singleton.
Qed.

Lemma rebuild_establishes_sync_witness :
  fw_synced "lanweave" sync_db (nft_view (w_nft (snd (rebuild_dataplane sync_opts sync_world)))).
Proof.
  refine (proj1 (proj2 (rebuild_establishes_sync sync_opts demo_pool sync_world _ sync_db_ok _))).
  by vm_compute.
Defined.
