(* ===== verification/Js.v ===== *)
(** * The JavaScript the bundled browser code is written in

    Integers are exact in a double below 2^53, so a number is a [Z] and each
    operator wraps as ECMAScript says: the bitwise operators work on 32 bits. A
    string is its UTF-16 code units. A [Uint8Array] is the list of its bytes; a
    store outside its bounds is ignored, and a load outside yields [undefined]. *)
From S2P Require Import Prelude.

Declare Scope js_scope.
Delimit Scope js_scope with js.

(** ** Numbers *)

Definition ToUint32 (x : Z) : Z := x mod 2 ^ 32.
Definition ToInt32 (x : Z) : Z := let u := x mod 2 ^ 32 in if u <? 2 ^ 31 then u else u - 2 ^ 32.
Definition ToUint8 (x : Z) : Z := x mod 2 ^ 8.

Definition js_and (x y : Z) : Z := Z.land (ToInt32 x) (ToInt32 y).
Definition js_or (x y : Z) : Z := Z.lor (ToInt32 x) (ToInt32 y).
(** The shift count is taken modulo 32. *)
Definition js_shl (x n : Z) : Z := ToInt32 (Z.shiftl (ToInt32 x) (ToUint32 n mod 32)).
Definition js_sar (x n : Z) : Z := Z.shiftr (ToInt32 x) (ToUint32 n mod 32).
Definition js_shr (x n : Z) : Z := Z.shiftr (ToUint32 x) (ToUint32 n mod 32).

Notation "x &' y" := (js_and x y) (at level 45, left associativity) : js_scope.
Notation "x |' y" := (js_or x y) (at level 47, left associativity) : js_scope.
Notation "x <<' n" := (js_shl x n) (at level 42, left associativity) : js_scope.

Notation "x >>' n" := (js_sar x n) (at level 42, left associativity) : js_scope.
Notation "x >>>' n" := (js_shr x n) (at level 42, left associativity) : js_scope.

(** ** Arrays and strings *)

Abbreviation JsString := (list Z).
Definition is_unit (c : Z) : Prop := 0 <= c < 2 ^ 16.
Definition js_length {A} (l : list A) : Z := Z.of_nat (length l).

(** [a[i]] and [s.charCodeAt(i)]; [None] is [undefined] or [NaN]. *)
Definition get {A} (l : list A) (i : Z) : option A := if i <? 0 then None else l !! Z.to_nat i.
(** Under a bitwise operator [undefined] and [NaN] count as 0. *)
Definition num (o : option Z) : Z := default 0 o.
(** A store into a [Uint8Array]. *)
Definition put8 (l : list Z) (i v : Z) : list Z :=
  if i <? 0 then l else <[Z.to_nat i := ToUint8 v]> l.
(** [l.slice(o, i)] for [0 <= o <= i]. *)
Definition js_slice {A} (l : list A) (o i : Z) : list A := take (Z.to_nat (i - o)) (drop (Z.to_nat o) l).

(** [s.indexOf(c)] for a one-unit string. *)
Fixpoint index_of (c : Z) (s : JsString) : option nat :=
  match s with
  | [] => None
  | x :: s => if decide (x = c) then Some O else S <$> index_of c s
  end.

(** ** Values in range *)

Lemma ToInt32_id x : - 2 ^ 31 <= x < 2 ^ 31 -> ToInt32 x = x.
Proof. unfold ToInt32. intros Hx. destruct (_ <? _) eqn:Hc; Z.to_euclidean_division_equations; lia. Qed.
Lemma ToUint32_id x : 0 <= x < 2 ^ 32 -> ToUint32 x = x.
Proof. apply Z.mod_small. Qed.
Lemma ToUint8_id x : 0 <= x < 2 ^ 8 -> ToUint8 x = x.
Proof. apply Z.mod_small. Qed.

(** Operands below 2^31: the operators are those of [Z]. *)
Lemma js_and_pos x y : 0 <= x < 2 ^ 31 -> 0 <= y < 2 ^ 31 -> js_and x y = Z.land x y.
Proof. intros. unfold js_and. by rewrite !ToInt32_id by lia. Qed.
Lemma js_and_mask x n : 0 <= x < 2 ^ 31 -> 0 <= n < 31 -> js_and x (2 ^ n - 1) = x mod 2 ^ n.
Proof.
  intros Hx Hn. assert (2 ^ n <= 2 ^ 30) by (apply Z.pow_le_mono_r; lia). assert (0 < 2 ^ n) by (apply Z.pow_pos_nonneg; lia).
  rewrite js_and_pos by lia. rewrite <- (Z.land_ones x n) by lia. by rewrite Z.ones_equiv.
Qed.
Lemma js_shl_pos x n : 0 <= n < 32 -> 0 <= x -> x * 2 ^ n < 2 ^ 31 -> js_shl x n = x * 2 ^ n.
Proof.
  intros Hn Hx Hs. assert (1 <= 2 ^ n) by (apply (Z.pow_le_mono_r 2 0); lia). unfold js_shl.
  rewrite (ToInt32_id x) by nia. rewrite ToUint32_id, Z.mod_small by lia. rewrite Z.shiftl_mul_pow2 by lia.
  apply ToInt32_id. nia.
Qed.
Lemma js_sar_pos x n : 0 <= n < 32 -> 0 <= x < 2 ^ 31 -> js_sar x n = x / 2 ^ n.
Proof.
  intros Hn Hx. unfold js_sar. rewrite ToInt32_id, ToUint32_id, Z.mod_small by lia. by rewrite Z.shiftr_div_pow2 by lia.
Qed.
Lemma js_shr_pos x n : 0 <= n < 32 -> 0 <= x < 2 ^ 32 -> js_shr x n = x / 2 ^ n.
Proof.
  intros Hn Hx. unfold js_shr. rewrite (ToUint32_id x), (ToUint32_id n), Z.mod_small by lia. by rewrite Z.shiftr_div_pow2 by lia.
Qed.

Lemma land_shifted a b k : 0 <= k -> 0 <= b < 2 ^ k -> Z.land (a * 2 ^ k) b = 0.
Proof.
  intros Hk Hb. apply Z.bits_inj'. intros n Hn. rewrite Z.land_spec, Z.bits_0.
  destruct (decide (n < k)).
  - by rewrite Z.mul_pow2_bits_low by lia.
  - rewrite <- (Z.mod_small b (2 ^ k)) by done. rewrite (Z.mod_pow2_bits_high b) by lia. apply andb_false_r.
Qed.
(** Disjoint fields combine by addition. *)
Lemma js_or_add a b k : 0 <= k -> 0 <= a -> 0 <= b < 2 ^ k -> a * 2 ^ k + b < 2 ^ 31 -> js_or (a * 2 ^ k) b = a * 2 ^ k + b.
Proof.
  intros Hk Ha Hb Hs. assert (0 <= a * 2 ^ k) by (apply Z.mul_nonneg_nonneg; lia).
  unfold js_or. rewrite !ToInt32_id by lia.
  rewrite <- Z.lxor_lor, <- Z.add_nocarry_lxor by (by apply land_shifted). done.
Qed.

Lemma js_length_nonneg {A} (l : list A) : 0 <= js_length l.
Proof. unfold js_length. lia. Qed.
Lemma length_put8 l i v : length (put8 l i v) = length l.
Proof. unfold put8. destruct (i <? 0); [done|]. by rewrite length_insert. Qed.

(** Storing values one after the other. *)
Fixpoint store (C : list Z) (j : Z) (vs : list Z) : list Z :=
  match vs with [] => C | v :: vs => store (put8 C j v) (j + 1) vs end.

Lemma store_app C j vs ws : store C j (vs ++ ws) = store (store C j vs) (j + js_length vs) ws.
Proof.
  revert C j. induction vs as [|v vs IH]; intros C j; cbn [app store].
  - f_equal. unfold js_length; simpl; lia.
  - rewrite IH. f_equal. unfold js_length. cbn [length]. lia.
Qed.
Lemma store_fill pre vs rest : length vs = length rest ->
  store (pre ++ rest) (js_length pre) vs = pre ++ (ToUint8 <$> vs).
Proof.
  revert pre rest. induction vs as [|v vs IH]; intros pre [|r rest]; try done. simpl. intros [= Hl].
  unfold put8. rewrite (proj2 (Z.ltb_ge (js_length pre) 0)) by (unfold js_length; lia).
  unfold js_length at 1. rewrite Nat2Z.id, insert_app_r_alt, Nat.sub_diag by lia. cbn [list_insert insert].
  specialize (IH (pre ++ [ToUint8 v]) rest Hl). rewrite <- !app_assoc in IH. cbn [app] in IH. etransitivity; [|exact IH]. f_equal.
  unfold js_length. rewrite length_app. simpl. lia.
Qed.
