(* ===== verification/Base64Js.v ===== *)
(** * Base64 in the bundled viewer (module 67526 of [swagger-ui-bundle.js])

    The API documentation viewer carries the [base64-js] package. An encoder input
    is the list of its bytes, a decoder input the code units of its string. *)
From S2P Require Import Prelude GoStrings Codec Js.
From Stdlib Require Import Ascii.

#[local] Open Scope js_scope.

Inductive js_err : Type := JsError (msg : string) | RangeError (msg : string) | TypeError (msg : string).

(** ** The tables *)

(** Code units of an ASCII literal. *)
Fixpoint units (s : string) : JsString :=
  match s with "" => [] | String a s => byte_of a :: units s end.

Definition b64_code : JsString := units "ABCDEFGHIJKLMNOPQRSTUVWXYZabcdefghijklmnopqrstuvwxyz0123456789+/".
Definition lookup : list Z := b64_code.
(** The sparse array [a]: filled by the loop, then [-] and [_] for URL-safe input. *)
Definition revLookup : gmap Z Z :=
  <[95 := 63]> (<[45 := 62]> (list_to_map (zip b64_code (Z.of_nat <$> List.seq 0 64)))).

(** [a[s.charCodeAt(i)]] as an operand of a bitwise operator. *)
Definition rev_at (s : JsString) (i : Z) : Z := num (c ← get s i; revLookup !! c).
(** [i[x]]: a one-unit string. *)
Definition char_at (x : Z) : JsString := match get lookup x with Some c => [c] | None => units "undefined" end.

(** ** Lengths *)

Definition getLens (s : JsString) : res js_err (Z * Z) :=
  let len := js_length s in
  if 0 <? len mod 4 then Err (JsError "Invalid string. Length must be a multiple of 4") else
  let validLen := match index_of 61 s with Some i => Z.of_nat i | None => len end in
  let placeHoldersLen := if validLen =? len then 0 else 4 - validLen mod 4 in
  Ok (validLen, placeHoldersLen).

(** [3*(i+a)/4-a]; the sum is a multiple of 4, so the division is exact. *)
Definition _byteLength (validLen placeHoldersLen : Z) : Z := 3 * (validLen + placeHoldersLen) / 4 - placeHoldersLen.

Definition byteLength (s : JsString) : res js_err Z :=
  match getLens s with
  | Err e => Err e
  | Ok (validLen, placeHoldersLen) => Ok (_byteLength validLen placeHoldersLen)
  end.

(** [new Uint8Array(n)]. *)
Definition new_Uint8Array (n : Z) : res js_err (list Z) :=
  if n <? 0 then Err (RangeError "Invalid typed array length") else Ok (replicate (Z.to_nat n) 0).

(** ** Decoding *)

(** [for(i=0;i<L;i+=4)]: the array, the next free index and [i]. *)
Fixpoint decode_loop (fuel : nat) (s : JsString) (L i : Z) (C : list Z) (j : Z) : list Z * Z * Z :=
  match fuel with
  | O => (C, j, i)
  | S fuel =>
      if i <? L then
        let o := (rev_at s i <<' 18) |' (rev_at s (i + 1) <<' 12) |' (rev_at s (i + 2) <<' 6) |' rev_at s (i + 3) in
        let C := put8 C j ((o >>' 16) &' 255) in
        let C := put8 C (j + 1) ((o >>' 8) &' 255) in
        let C := put8 C (j + 2) (255 &' o) in
        decode_loop fuel s L (i + 4) C (j + 3)
      else (C, j, i)
  end.

Definition toByteArray (s : JsString) : res js_err (list Z) :=
  match getLens s with
  | Err e => Err e
  | Ok (validLen, placeHoldersLen) =>
      match new_Uint8Array (_byteLength validLen placeHoldersLen) with
      | Err e => Err e
      | Ok C =>
          let L := if 0 <? placeHoldersLen then validLen - 4 else validLen in
          let '(C, j, i) := decode_loop (length s) s L 0 C 0 in
          let '(C, j) :=
            if placeHoldersLen =? 2
            then let o := (rev_at s i <<' 2) |' (rev_at s (i + 1) >>' 4) in (put8 C j (255 &' o), j + 1)
            else (C, j) in
          let C :=
            if placeHoldersLen =? 1
            then let o := (rev_at s i <<' 10) |' (rev_at s (i + 1) <<' 4) |' (rev_at s (i + 2) >>' 2) in
                 put8 (put8 C j ((o >>' 8) &' 255)) (j + 1) (255 &' o)
            else C in
          Ok C
      end
  end.

(** ** Encoding *)

(** [encodeChunk]: the triples of [s] from [x] to [e]. *)
Fixpoint encodeChunk (fuel : nat) (s : list Z) (x e : Z) : JsString :=
  match fuel with
  | O => []
  | S fuel =>
      if x <? e then
        let u := ((num (get s x) <<' 16) &' 16711680) + ((num (get s (x + 1)) <<' 8) &' 65280) +
                 (255 &' num (get s (x + 2))) in
        char_at ((u >>' 18) &' 63) ++ char_at ((u >>' 12) &' 63) ++ char_at ((u >>' 6) &' 63) ++ char_at (63 &' u) ++
        encodeChunk fuel s (x + 3) e
      else []
  end.

Definition maxChunkLength : Z := 16383.

(** The loop over the chunks, joined. *)
Fixpoint encode_chunks (fuel : nat) (s : list Z) (x C : Z) : JsString :=
  match fuel with
  | O => []
  | S fuel =>
      if x <? C then
        encodeChunk (length s) s x (if C <? x + maxChunkLength then C else x + maxChunkLength) ++
        encode_chunks fuel s (x + maxChunkLength) C
      else []
  end.

Definition fromByteArray (s : list Z) : JsString :=
  let a := js_length s in
  let u := a mod 3 in
  let parts := encode_chunks (length s) s 0 (a - u) in
  if u =? 1 then
    let o := num (get s (a - 1)) in
    parts ++ char_at (o >>' 2) ++ char_at ((o <<' 4) &' 63) ++ units "=="
  else if u =? 2 then
    let o := (num (get s (a - 2)) <<' 8) + num (get s (a - 1)) in
    parts ++ char_at (o >>' 10) ++ char_at ((o >>' 4) &' 63) ++ char_at ((o <<' 2) &' 63) ++ units "="
  else parts.

(** Two known encodings, one past the first chunk, one with URL-safe characters. *)
Example encode_hello : fromByteArray (bytes_of "hello") = units "aGVsbG8=".
Proof. by vm_compute. Qed.
Example decode_url_safe : toByteArray (units "-_8=") = toByteArray (units "+/8=").
Proof. by vm_compute. Qed.
