(* ===== verification/Base64JsProps.v ===== *)
(** * The bundled base64 against the standard encoding *)
From S2P Require Import Prelude GoStrings Codec Js Base64Js.
From Stdlib Require Import Ascii.

#[local] Open Scope js_scope.

(** RFC 4648 with padding, on the sextets of the library's Codec. *)
Definition b64_units (l : list Z) : JsString := units (b64_map "+"%char "/"%char l).
Definition padding (n : nat) : JsString := match (n mod 3)%nat with 1%nat => units "==" | 2%nat => units "=" | _ => [] end.
Definition StdEncode (bs : list Z) : JsString := units (RawStdEncode bs) ++ padding (length bs).

(** ** Finite checks *)

Lemma below_forall (n : nat) (P : Z -> bool) :
  forallb (fun i => P (Z.of_nat i)) (List.seq 0 n) = true -> forall x, 0 <= x < Z.of_nat n -> P x = true.
Proof.
  rewrite forallb_forall. intros HP x Hx. specialize (HP (Z.to_nat x)). rewrite Z2Nat.id in HP by lia.
  apply HP, in_seq. lia.
Qed.

Lemma below_decide (n : nat) (P : Z -> Prop) `{forall x, Decision (P x)} :
  forallb (fun i => bool_decide (P (Z.of_nat i))) (List.seq 0 n) = true -> forall x, 0 <= x < Z.of_nat n -> P x.
Proof.
  intros HP x Hx. pose proof (below_forall n (fun x => bool_decide (P x)) HP x Hx) as Hp. by apply bool_decide_eq_true in Hp.
Qed.

Lemma char_at_std i : 0 <= i < 64 -> char_at i = b64_units [i].
Proof.
  intros Hi. apply (below_decide 64 (fun i => char_at i = b64_units [i])); [by vm_compute|lia].
Qed.
Definition rev_unit (c : Z) : Z := num (revLookup !! c).
Lemma unit_std i : 0 <= i < 64 -> exists c, b64_units [i] = [c] /\ rev_unit c = i /\ c <> 61.
Proof.
  intros Hi.
  destruct (below_decide 64 (fun i => rev_unit <$> b64_units [i] = [i] /\ (61 ∉ b64_units [i]))
    ltac:(by vm_compute) i ltac:(lia)) as [Hc Hn].
  destruct (b64_units [i]) as [|c []]; try done. injection Hc as Hc. exists c. split_and!; [done..|].
  intros ->. apply Hn. left.
Qed.
Lemma byte_fields a : is_byte a -> (a <<' 16) &' 16711680 = a * 65536 /\ (a <<' 8) &' 65280 = a * 256 /\ 255 &' a = a.
Proof.
  intros Ha.
  apply (below_decide 256 (fun a => (a <<' 16) &' 16711680 = a * 65536 /\ (a <<' 8) &' 65280 = a * 256 /\ 255 &' a = a));
    [by vm_compute|unfold is_byte in Ha; lia].
Qed.

Lemma b64_units_app l k : b64_units (l ++ k) = b64_units l ++ b64_units k.
Proof. unfold b64_units. induction l as [|i l IH]; [done|]. simpl. by rewrite IH. Qed.
Lemma b64_units_cons i l : b64_units (i :: l) = b64_units [i] ++ b64_units l.
Proof. by rewrite <- (b64_units_app [i]). Qed.
Lemma sextets_app l k : (exists n, length l = 3 * n)%nat -> sextets (l ++ k) = sextets l ++ sextets k.
Proof.
  induction l as [|a|a b|a b c l IH] using list_ind3; intros [n Hn]; simpl in Hn; try lia; [done|].
  simpl. rewrite IH; [done|]. exists (n - 1)%nat. lia.
Qed.

(** ** Reading an array by triples and quadruples *)

Lemma get_nat {A} (l : list A) (i : nat) : get l (Z.of_nat i) = l !! i.
Proof. unfold get. rewrite (proj2 (Z.ltb_ge _ _)) by lia. by rewrite Nat2Z.id. Qed.
Lemma get_drop {A} (l : list A) (i : nat) (d : Z) x k :
  drop i l = x ++ k -> 0 <= d < Z.of_nat (length x) -> get l (Z.of_nat i + d) = x !! Z.to_nat d.
Proof.
  intros Hl Hd. replace (Z.of_nat i + d) with (Z.of_nat (i + Z.to_nat d)) by lia. rewrite get_nat.
  rewrite <- lookup_drop, Hl. apply lookup_app_l. lia.
Qed.
Lemma drop_more {A} (l : list A) i x k : drop i l = x ++ k -> drop (i + length x) l = k.
Proof. intros Hl. by rewrite <- drop_drop, Hl, drop_app_length. Qed.

(** ** Encoding *)

Lemma encode_triple a b c : is_byte a -> is_byte b -> is_byte c ->
  let u := ((a <<' 16) &' 16711680) + ((b <<' 8) &' 65280) + (255 &' c) in
  char_at ((u >>' 18) &' 63) ++ char_at ((u >>' 12) &' 63) ++ char_at ((u >>' 6) &' 63) ++ char_at (63 &' u) =
    b64_units (sextets [a; b; c]).
Proof.
  intros Ha Hb Hc u. subst u. rewrite (proj1 (byte_fields a Ha)), (proj1 (proj2 (byte_fields b Hb))).
  rewrite (proj2 (proj2 (byte_fields c Hc))). unfold is_byte in *. set (u := a * 65536 + b * 256 + c).
  assert (0 <= u < 2 ^ 24) as Hu by (unfold u; lia).
  assert (63 &' u = u mod 64) as ->.
  { unfold js_and. rewrite Z.land_comm. change (u &' (2 ^ 6 - 1) = u mod 64). by rewrite js_and_mask by lia. }
  rewrite !js_sar_pos by lia. change 63 with (2 ^ 6 - 1).
  rewrite !js_and_mask by (Z.to_euclidean_division_equations; lia).
  cbn [sextets]. rewrite (b64_units_cons (a / 4)), (b64_units_cons (a mod 4 * 16 + b / 16)), (b64_units_cons (b mod 16 * 4 + c / 64)).
  rewrite <- !char_at_std by (Z.to_euclidean_division_equations; lia).
  unfold u. do 3 f_equal; try (f_equal; Z.to_euclidean_division_equations; lia).
Qed.

Lemma encodeChunk_ok l : forall fuel s (x : nat) k,
  (exists n, length l = 3 * n)%nat -> (length l <= fuel)%nat -> drop x s = l ++ k -> Forall is_byte l ->
  encodeChunk fuel s (Z.of_nat x) (Z.of_nat (x + length l)) = b64_units (sextets l).
Proof.
  induction l as [|a|a b|a b c l IH] using list_ind3; intros fuel s x k [n Hn] Hf Hl Hb; cbn [length] in *; try lia.
  - destruct fuel; [done|]. cbn [encodeChunk]. by rewrite (proj2 (Z.ltb_ge _ _)) by lia.
  - destruct fuel as [|fuel]; [lia|]. cbn [encodeChunk]. rewrite (proj2 (Z.ltb_lt _ _)) by lia.
    do 3 (apply Forall_cons in Hb as [? Hb]). pose proof (get_drop s x 0 (a :: b :: c :: l) k Hl) as G0.
    pose proof (get_drop s x 1 (a :: b :: c :: l) k Hl) as G1. pose proof (get_drop s x 2 (a :: b :: c :: l) k Hl) as G2.
    rewrite Z.add_0_r in G0. rewrite G0, G1, G2 by (cbn [length]; lia). cbn [Z.to_nat Pos.to_nat Pos.iter_op Nat.add lookup list_lookup num default].
    change (sextets (a :: b :: c :: l)) with (sextets [a; b; c] ++ sextets l). rewrite b64_units_app.
    rewrite <- encode_triple by done. cbv zeta. rewrite <- !app_assoc. do 4 f_equal.
    replace (Z.of_nat x + 3) with (Z.of_nat (x + 3)) by lia.
    replace (x + S (S (S (length l))))%nat with (x + 3 + length l)%nat by lia.
    apply (IH fuel s (x + 3)%nat k); [exists (n - 1)%nat; lia|lia| |done].
    by apply (drop_more s x [a; b; c]).
Qed.

Lemma encode_chunks_done fuel s x C : C <= x -> encode_chunks fuel s x C = [].
Proof. destruct fuel; [done|]. intros Hx. cbn [encode_chunks]. by rewrite (proj2 (Z.ltb_ge _ _)). Qed.

(** Cutting at multiples of three makes the chunks invisible. *)
Lemma encode_chunks_ok fuel : forall l s (x : nat) k,
  (exists n, length l = 3 * n)%nat -> (length l <= fuel)%nat -> drop x s = l ++ k -> Forall is_byte l ->
  encode_chunks fuel s (Z.of_nat x) (Z.of_nat (x + length l)) = b64_units (sextets l).
Proof.
  induction fuel as [|fuel IH]; intros l s x k [n Hn] Hf Hl Hb; [by destruct l; [|simpl in Hf; lia]|].
  destruct (decide (l = [])) as [->|Hne]; [apply encode_chunks_done; simpl; lia|].
  assert (0 < length l)%nat as Hpos by (destruct l; [done|simpl; lia]).
  assert (length l <= length s)%nat as Hls.
  { apply (f_equal length) in Hl. rewrite length_drop, length_app in Hl. lia. }
  cbn [encode_chunks]. rewrite (proj2 (Z.ltb_lt _ _)) by lia. unfold maxChunkLength.
  destruct (Z.ltb_spec (Z.of_nat (x + length l)) (Z.of_nat x + 16383)) as [Hlt|Hge].
  - rewrite (encode_chunks_done fuel) by lia. rewrite app_nil_r. eapply encodeChunk_ok; [by exists n|done..].
  - set (w := Z.to_nat 16383). assert (w <= length l)%nat as Hw by lia. assert (w = 3 * Z.to_nat 5461)%nat as Hw3 by lia.
    rewrite <- (take_drop w l) in Hl. rewrite <- (take_drop w l) at 2. rewrite sextets_app, b64_units_app.
    2: { exists (Z.to_nat 5461). rewrite length_take. lia. }
    rewrite <- app_assoc in Hl. f_equal.
    + replace (Z.of_nat x + 16383) with (Z.of_nat (x + length (take w l))) by (rewrite length_take; lia).
      eapply encodeChunk_ok; [exists (Z.to_nat 5461); rewrite length_take; lia|rewrite length_take; lia|exact Hl|].
      by apply Forall_take.
    + replace (Z.of_nat x + 16383) with (Z.of_nat (x + w)) by lia.
      replace (x + length l)%nat with (x + w + length (drop w l))%nat by (rewrite length_drop; lia).
      eapply IH; [exists (n - Z.to_nat 5461)%nat; rewrite length_drop; lia|rewrite length_drop; lia| |by apply Forall_drop].
      apply drop_more in Hl. rewrite length_take in Hl. replace (w `min` length l)%nat with w in Hl by lia. exact Hl.
Qed.

(** The tail of one or two bytes. *)
Lemma encode_tail1 a : is_byte a ->
  char_at (a >>' 2) ++ char_at ((a <<' 4) &' 63) = b64_units (sextets [a]).
Proof.
  intros Ha. apply (below_decide 256 (fun a => char_at (a >>' 2) ++ char_at ((a <<' 4) &' 63) = b64_units (sextets [a])));
    [by vm_compute|unfold is_byte in Ha; lia].
Qed.
Lemma encode_tail2 a b : is_byte a -> is_byte b ->
  let o := (a <<' 8) + b in
  char_at (o >>' 10) ++ char_at ((o >>' 4) &' 63) ++ char_at ((o <<' 2) &' 63) = b64_units (sextets [a; b]).
Proof.
  intros Ha Hb o. subst o. unfold is_byte in *. rewrite js_shl_pos by lia. change (2 ^ 8) with 256.
  set (o := a * 256 + b). assert (0 <= o < 2 ^ 16) by (unfold o; lia).
  rewrite !js_sar_pos, js_shl_pos by lia. change 63 with (2 ^ 6 - 1).
  rewrite !js_and_mask by (Z.to_euclidean_division_equations; lia). cbn [sextets].
  rewrite (b64_units_cons (a / 4)), (b64_units_cons (a mod 4 * 16 + b / 16)).
  rewrite <- !char_at_std by (Z.to_euclidean_division_equations; lia).
  unfold o. f_equal; [|f_equal]; f_equal; Z.to_euclidean_division_equations; lia.
Qed.

Lemma split3 {A} (bs : list A) : exists l t, bs = l ++ t /\ (exists n, length l = 3 * n)%nat /\ (length t < 3)%nat.
Proof.
  induction bs as [|a|a b|a b c l (l' & t & -> & [n Hn] & Ht)] using list_ind3.
  - exists [], []. split_and!; [done|by exists 0%nat|simpl; lia].
  - exists [], [a]. split_and!; [done|by exists 0%nat|simpl; lia].
  - exists [], [a; b]. split_and!; [done|by exists 0%nat|simpl; lia].
  - exists (a :: b :: c :: l'), t. split_and!; [done|exists (S n); simpl; lia|done].
Qed.

Lemma fromByteArray_std bs : Forall is_byte bs -> fromByteArray bs = StdEncode bs.
Proof.
  intros Hb. destruct (split3 bs) as (l & t & -> & [n Hn] & Ht). apply Forall_app in Hb as [Hl Htb].
  unfold fromByteArray, StdEncode, padding, RawStdEncode. fold (b64_units (sextets (l ++ t))).
  rewrite sextets_app, b64_units_app by (by exists n).
  assert (js_length (l ++ t) mod 3 = Z.of_nat (length t)) as Hm.
  { unfold js_length. rewrite length_app, Hn. rewrite Nat2Z.inj_add, Nat2Z.inj_mul, Z.add_comm, Z.mul_comm, Z.mod_add by lia.
    apply Z.mod_small. lia. }
  assert (length (l ++ t) mod 3 = length t)%nat as Hm'.
  { rewrite length_app, Hn, Nat.add_comm, Nat.mul_comm, Nat.Div0.mod_add. apply Nat.mod_small. lia. }
  rewrite Hm, Hm'.
  assert (encode_chunks (length (l ++ t)) (l ++ t) 0 (js_length (l ++ t) - Z.of_nat (length t)) = b64_units (sextets l)) as ->.
  { replace (js_length (l ++ t) - Z.of_nat (length t)) with (Z.of_nat (0 + length l)) by (unfold js_length; rewrite length_app; lia).
    apply (encode_chunks_ok _ _ _ 0 t); [by exists n|rewrite length_app; lia|done..]. }
  assert (forall d x k, t = x ++ k -> d = Z.of_nat (length l) -> get (l ++ t) (d + Z.of_nat (length x)) = head k) as Hg.
  { intros d x k -> ->. replace (Z.of_nat (length l) + Z.of_nat (length x)) with (Z.of_nat (length l + length x)) by lia.
    rewrite get_nat, lookup_app_r by lia. rewrite Nat.add_comm, Nat.add_sub, lookup_app_r, Nat.sub_diag by lia. by destruct k. }
  destruct t as [|a [|b []]]; cbn [length] in *; try lia; cbn [Z.of_nat Z.eqb Pos.of_succ_nat Pos.eqb Pos.succ].
  - simpl. by rewrite !app_nil_r.
  - apply Forall_cons in Htb as [Ha _]. assert (get (l ++ [a]) (js_length (l ++ [a]) - 1) = Some a) as ->.
    { replace (js_length (l ++ [a]) - 1) with (Z.of_nat (length l) + Z.of_nat (length (@nil Z)))
        by (unfold js_length; rewrite length_app; simpl; lia). by apply (Hg _ [] [a]). }
    cbn [num default]. rewrite (app_assoc (char_at _)), encode_tail1 by done. by rewrite <- app_assoc.
  - apply Forall_cons in Htb as [Ha [Hb _]%Forall_cons]. assert (get (l ++ [a; b]) (js_length (l ++ [a; b]) - 2) = Some a) as ->.
    { replace (js_length (l ++ [a; b]) - 2) with (Z.of_nat (length l) + Z.of_nat (length (@nil Z)))
        by (unfold js_length; rewrite length_app; simpl; lia). by apply (Hg _ [] [a; b]). }
    assert (get (l ++ [a; b]) (js_length (l ++ [a; b]) - 1) = Some b) as ->.
    { replace (js_length (l ++ [a; b]) - 1) with (Z.of_nat (length l) + Z.of_nat (length [a]))
        by (unfold js_length; rewrite length_app; simpl; lia). by apply (Hg _ [a] [b]). }
    cbn [num default]. rewrite (app_assoc (char_at ((_ >>' 4) &' 63))), (app_assoc (char_at (_ >>' 10))).
    rewrite encode_tail2 by done. by rewrite <- app_assoc.
Qed.

(** ** Decoding *)

Definition quad (s0 s1 s2 s3 : Z) : Z := (s0 <<' 18) |' (s1 <<' 12) |' (s2 <<' 6) |' s3.
Definition dec_quad (o : Z) : list Z := [(o >>' 16) &' 255; (o >>' 8) &' 255; 255 &' o].

Lemma js_or_fields a b k : 0 <= k -> 0 <= a -> 0 <= b < 2 ^ k -> a * 2 ^ k + b < 2 ^ 31 -> a * 2 ^ k |' b = a * 2 ^ k + b.
Proof. apply js_or_add. Qed.

Lemma quad_eq s0 s1 s2 s3 : 0 <= s0 < 64 -> 0 <= s1 < 64 -> 0 <= s2 < 64 -> 0 <= s3 < 64 ->
  quad s0 s1 s2 s3 = s0 * 2 ^ 18 + s1 * 2 ^ 12 + s2 * 2 ^ 6 + s3.
Proof.
  intros H0 H1 H2 H3. unfold quad. rewrite !js_shl_pos by lia.
  rewrite (js_or_fields s0 (s1 * 2 ^ 12) 18) by lia.
  replace (s0 * 2 ^ 18 + s1 * 2 ^ 12) with ((s0 * 2 ^ 6 + s1) * 2 ^ 12) by lia.
  rewrite (js_or_fields _ (s2 * 2 ^ 6) 12) by lia.
  replace ((s0 * 2 ^ 6 + s1) * 2 ^ 12 + s2 * 2 ^ 6) with ((s0 * 2 ^ 12 + s1 * 2 ^ 6 + s2) * 2 ^ 6) by lia.
  rewrite js_or_fields by lia. lia.
Qed.

Lemma and255 o : 0 <= o < 2 ^ 31 -> o &' 255 = o mod 256 /\ 255 &' o = o mod 256.
Proof.
  intros Ho. assert (o &' 255 = o mod 256) as He by (change 255 with (2 ^ 8 - 1); by rewrite js_and_mask by lia).
  split; [done|]. rewrite <- He. unfold js_and. apply Z.land_comm.
Qed.

Lemma dec_quad_sextets a b c : is_byte a -> is_byte b -> is_byte c ->
  dec_quad (quad (a / 4) (a mod 4 * 16 + b / 16) (b mod 16 * 4 + c / 64) (c mod 64)) = [a; b; c].
Proof.
  intros Ha Hb Hc. unfold is_byte in *. rewrite quad_eq by (Z.to_euclidean_division_equations; lia).
  replace (a / 4 * 2 ^ 18 + (a mod 4 * 16 + b / 16) * 2 ^ 12 + (b mod 16 * 4 + c / 64) * 2 ^ 6 + c mod 64)
    with (a * 65536 + b * 256 + c) by (Z.to_euclidean_division_equations; lia).
  unfold dec_quad. rewrite !js_sar_pos by lia. set (o := a * 65536 + b * 256 + c).
  assert (0 <= o < 2 ^ 24) as Ho by (unfold o; lia).
  rewrite (proj1 (and255 (o / 2 ^ 16) ltac:(Z.to_euclidean_division_equations; lia))).
  rewrite (proj1 (and255 (o / 2 ^ 8) ltac:(Z.to_euclidean_division_equations; lia))).
  rewrite (proj2 (and255 o ltac:(lia))). unfold o.
  repeat f_equal; Z.to_euclidean_division_equations; lia.
Qed.

(** The characters of an encoding, read back through the table. *)
Lemma b64_units_rev l : Forall (fun x => 0 <= x < 64) l ->
  length (b64_units l) = length l /\ forall j : nat, num (c ← b64_units l !! j; revLookup !! c) = num (l !! j).
Proof.
  induction 1 as [|x l Hx Hl [IHl IH]]; [done|]. rewrite b64_units_cons.
  destruct (unit_std x Hx) as (c & -> & Hc & _). cbn [app length]. split; [by rewrite IHl|].
  intros [|j]; [exact Hc|apply IH].
Qed.
Lemma rev_at_std s (i : nat) (d : nat) l k x :
  drop i s = b64_units l ++ k -> Forall (fun x => 0 <= x < 64) l -> l !! d = Some x ->
  rev_at s (Z.of_nat i + Z.of_nat d) = x.
Proof.
  intros Hs Hl Hd. destruct (b64_units_rev l Hl) as [Hlen Hj]. pose proof (lookup_lt_Some _ _ _ Hd).
  unfold rev_at. rewrite (get_drop s i (Z.of_nat d) (b64_units l) k Hs) by lia. rewrite Nat2Z.id, Hj. by rewrite Hd.
Qed.

Lemma sextets_len l : (exists n, length l = 3 * n)%nat -> (length (sextets l) = length l + length l / 3)%nat.
Proof.
  induction l as [|a|a b|a b c l IH] using list_ind3; intros [n Hn]; simpl in Hn; try lia; [done|].
  cbn [sextets length]. rewrite IH by (exists (n - 1)%nat; lia).
  replace (S (S (S (length l)))) with (length l + 1 * 3)%nat by lia. rewrite Nat.div_add by lia. lia.
Qed.

Lemma decode_step fuel s L i C j s0 s1 s2 s3 : i < L ->
  rev_at s i = s0 -> rev_at s (i + 1) = s1 -> rev_at s (i + 2) = s2 -> rev_at s (i + 3) = s3 ->
  decode_loop (S fuel) s L i C j = decode_loop fuel s L (i + 4) (store C j (dec_quad (quad s0 s1 s2 s3))) (j + 3).
Proof.
  intros Hi <- <- <- <-. cbn [decode_loop]. rewrite (proj2 (Z.ltb_lt _ _)) by done. cbv zeta.
  unfold dec_quad, quad. cbn [store]. by replace (j + 1 + 1) with (j + 2) by lia.
Qed.

(** The loop may stop up to three units short of the last quadruple's end. *)
Lemma decode_loop_ok l : forall fuel s (i : nat) L C j k,
  (exists n, length l = 3 * n)%nat -> (length l <= fuel)%nat -> drop i s = b64_units (sextets l) ++ k -> Forall is_byte l ->
  Z.of_nat (i + length (sextets l)) - 4 < L <= Z.of_nat (i + length (sextets l)) ->
  decode_loop fuel s L (Z.of_nat i) C j = (store C j l, j + js_length l, Z.of_nat (i + length (sextets l))).
Proof.
  induction l as [|a|a b|a b c l IH] using list_ind3; intros fuel s i L C j k [n Hn] Hf Hs Hb HL; cbn [length] in Hn, Hf; try lia.
  - assert (j + js_length (@nil Z) = j) as -> by (unfold js_length; simpl; lia). cbn [sextets length store] in *.
    destruct fuel; cbn [decode_loop]; [by rewrite Nat.add_0_r|]. rewrite (proj2 (Z.ltb_ge _ _)) by lia.
    by rewrite Nat.add_0_r.
  - destruct fuel as [|fuel]; [lia|]. pose proof (sextets_range _ Hb) as Hr. do 3 (apply Forall_cons in Hb as [? Hb]).
    cbn [sextets length] in HL. assert (Z.of_nat i < L) as Hlt by lia.
    pose proof (rev_at_std s i 0 _ k _ Hs Hr eq_refl) as G0. pose proof (rev_at_std s i 1 _ k _ Hs Hr eq_refl) as G1.
    pose proof (rev_at_std s i 2 _ k _ Hs Hr eq_refl) as G2. pose proof (rev_at_std s i 3 _ k _ Hs Hr eq_refl) as G3.
    change (Z.of_nat 0) with 0 in G0. change (Z.of_nat 1) with 1 in G1. change (Z.of_nat 2) with 2 in G2.
    change (Z.of_nat 3) with 3 in G3. rewrite Z.add_0_r in G0.
    rewrite (decode_step _ _ _ _ _ _ _ _ _ _ Hlt G0 G1 G2 G3), dec_quad_sextets by done. clear G0 G1 G2 G3.
    change (sextets (a :: b :: c :: l)) with (sextets [a; b; c] ++ sextets l) in Hs, Hr.
    apply Forall_app in Hr as [Hr3 _]. rewrite b64_units_app, <- app_assoc in Hs. apply drop_more in Hs.
    rewrite (proj1 (b64_units_rev _ Hr3)) in Hs. cbn [sextets length] in Hs.
    replace (Z.of_nat i + 4) with (Z.of_nat (i + 4)) by lia.
    rewrite (IH fuel s (i + 4)%nat L _ _ k) by first [done | exists (n - 1)%nat; lia | lia].
    change (a :: b :: c :: l) with ([a; b; c] ++ l). rewrite store_app. unfold js_length. rewrite length_app. cbn [app sextets length].
    f_equal; [f_equal; lia|f_equal; lia].
Qed.

Lemma index_of_std l k : Forall (fun x => 0 <= x < 64) l ->
  index_of 61 (b64_units l ++ k) = (fun i => length l + i)%nat <$> index_of 61 k.
Proof.
  induction 1 as [|x l Hx Hl IH]; [change (b64_units [] ++ k) with k; by destruct (index_of 61 k)|]. rewrite b64_units_cons.
  destruct (unit_std x Hx) as (c & -> & _ & Hc). cbn [app index_of]. rewrite decide_False by done. rewrite IH.
  by destruct (index_of 61 k).
Qed.

Lemma decode_tail1 a : is_byte a -> 255 &' ((a / 4 <<' 2) |' ((a mod 4 * 16) >>' 4)) = a.
Proof.
  intros Ha. apply (below_decide 256 (fun a => 255 &' ((a / 4 <<' 2) |' ((a mod 4 * 16) >>' 4)) = a));
    [by vm_compute|unfold is_byte in Ha; lia].
Qed.
Lemma decode_tail2 a b : is_byte a -> is_byte b ->
  let o := (a / 4 <<' 10) |' ((a mod 4 * 16 + b / 16) <<' 4) |' ((b mod 16 * 4) >>' 2) in
  (o >>' 8) &' 255 = a /\ 255 &' o = b.
Proof.
  intros Ha Hb o. unfold is_byte in *. assert (o = a * 256 + b) as ->.
  { subst o. rewrite !js_shl_pos, js_sar_pos by (Z.to_euclidean_division_equations; lia).
    rewrite (js_or_fields (a / 4) _ 10) by (Z.to_euclidean_division_equations; lia).
    replace (a / 4 * 2 ^ 10 + (a mod 4 * 16 + b / 16) * 2 ^ 4) with ((a * 16 + b / 16) * 2 ^ 4)
      by (Z.to_euclidean_division_equations; lia).
    rewrite js_or_fields by (Z.to_euclidean_division_equations; lia). Z.to_euclidean_division_equations; lia. }
  rewrite js_sar_pos by lia. change (2 ^ 8) with 256. assert ((a * 256 + b) / 256 = a) as -> by (Z.to_euclidean_division_equations; lia).
  rewrite (proj1 (and255 a ltac:(lia))), (proj2 (and255 (a * 256 + b) ltac:(lia))).
  split; Z.to_euclidean_division_equations; lia.
Qed.

Lemma ToUint8_bytes l : Forall is_byte l -> ToUint8 <$> l = l.
Proof. induction 1 as [|x l Hx Hl IH]; [done|]. rewrite fmap_cons, IH. by rewrite ToUint8_id. Qed.

(** The lengths the decoder reads off an encoding of [l ++ t]. *)
Lemma std_lens l t n : length l = (3 * n)%nat -> (length t < 3)%nat -> Forall is_byte (l ++ t) ->
  getLens (StdEncode (l ++ t)) =
    Ok (4 * Z.of_nat n + Z.of_nat (length (sextets t)), match length t with O => 0 | _ => 3 - Z.of_nat (length t) end).
Proof.
  intros Hn Ht Hb. unfold StdEncode, RawStdEncode. fold (b64_units (sextets (l ++ t))).
  pose proof (sextets_range _ Hb) as Hr. pose proof (proj1 (b64_units_rev _ Hr)) as Hlen.
  assert (length (sextets (l ++ t)) = 4 * n + length (sextets t))%nat as Hsl.
  { rewrite sextets_app, length_app, sextets_len, Hn by (by exists n). rewrite (Nat.mul_comm 3 n), Nat.div_mul by lia. lia. }
  assert (padding (length (l ++ t)) = match length t with 1%nat => [61; 61] | 2%nat => [61] | _ => [] end) as ->.
  { unfold padding. rewrite length_app, Hn, Nat.add_comm, Nat.mul_comm, Nat.Div0.mod_add, Nat.mod_small by done.
    by destruct t as [|? [|? [|]]]. }
  unfold getLens, js_length. rewrite length_app, Hlen, Hsl, index_of_std by done. rewrite Hsl.
  destruct t as [|a [|b [|]]]; cbn [length sextets index_of fmap option_fmap option_map] in *; try lia;
    cbv [fmap option_fmap option_map]; [|rewrite decide_True by done..].
  - rewrite Nat.add_0_r. replace (Z.of_nat (4 * n + 0)) with (Z.of_nat n * 4) by lia. rewrite Z.mod_mul by lia.
    cbn [Z.ltb Z.compare]. rewrite Z.eqb_refl. do 2 f_equal; lia.
  - replace (Z.of_nat (4 * n + 2 + 2)) with ((Z.of_nat n + 1) * 4) by lia. rewrite Z.mod_mul by lia.
    cbn [Z.ltb Z.compare]. rewrite (proj2 (Z.eqb_neq _ _)) by lia. do 2 f_equal; [lia|].
    replace (Z.of_nat (4 * n + 2 + 0)) with (2 + Z.of_nat n * 4) by lia. by rewrite Z.mod_add by lia.
  - replace (Z.of_nat (4 * n + 3 + 1)) with ((Z.of_nat n + 1) * 4) by lia. rewrite Z.mod_mul by lia.
    cbn [Z.ltb Z.compare]. rewrite (proj2 (Z.eqb_neq _ _)) by lia. do 2 f_equal; [lia|].
    replace (Z.of_nat (4 * n + 3 + 0)) with (3 + Z.of_nat n * 4) by lia. by rewrite Z.mod_add by lia.
Qed.

Lemma toByteArray_std bs : Forall is_byte bs ->
  byteLength (StdEncode bs) = Ok (js_length bs) /\ toByteArray (StdEncode bs) = Ok bs.
Proof.
  intros Hb. destruct (split3 bs) as (l & t & -> & [n Hn] & Ht).
  pose proof (std_lens l t n Hn Ht Hb) as Hlens. set (s := StdEncode (l ++ t)) in *.
  assert (forall p, p = match length t with O => 0 | _ => 3 - Z.of_nat (length t) end ->
    _byteLength (4 * Z.of_nat n + Z.of_nat (length (sextets t))) p = js_length (l ++ t)) as Hbl.
  { intros p ->. unfold _byteLength, js_length. rewrite length_app, Hn.
    destruct t as [|a [|b [|]]]; cbn [length sextets] in *; try lia; Z.to_euclidean_division_equations; lia. }
  unfold byteLength, toByteArray. rewrite Hlens. cbv iota beta. rewrite Hbl by done. split; [done|].
  unfold new_Uint8Array. rewrite (proj2 (Z.ltb_ge _ _)) by (unfold js_length; lia).
  pose proof (proj1 (Forall_app is_byte l t) Hb) as [Hl Htb].
  pose proof (sextets_range _ Hb) as Hr. rewrite sextets_app in Hr by (by exists n). apply Forall_app in Hr as [Hrl Hrt].
  assert (length (sextets l) = 4 * n)%nat as Hsl.
  { rewrite sextets_len, Hn by (by exists n). rewrite (Nat.mul_comm 3 n), Nat.div_mul by lia. lia. }
  assert (exists pad, s = b64_units (sextets l) ++ b64_units (sextets t) ++ pad) as [pad Hs].
  { eexists. unfold s, StdEncode, RawStdEncode. fold (b64_units (sextets (l ++ t))).
    rewrite sextets_app, b64_units_app by (by exists n). by rewrite <- app_assoc. }
  assert (drop (0 + length (sextets l)) s = b64_units (sextets t) ++ pad) as Hdrop.
  { rewrite Nat.add_0_l, <- (proj1 (b64_units_rev _ Hrl)), Hs. by rewrite drop_app_length. }
  assert (length l <= length s)%nat as Hfuel.
  { rewrite Hs, !length_app, (proj1 (b64_units_rev _ Hrl)). lia. }
  assert (forall vs, length vs = length (l ++ t) -> Forall is_byte vs ->
    store (replicate (Z.to_nat (js_length (l ++ t))) 0) 0 vs = vs) as Hfill.
  { intros vs Hv Hvb. pose proof (store_fill [] vs (replicate (Z.to_nat (js_length (l ++ t))) 0)) as Hst.
    change (js_length []) with 0 in Hst. cbn [app] in Hst. rewrite Hst; [by apply ToUint8_bytes|]. rewrite length_replicate. unfold js_length. lia. }
  match goal with |- context [decode_loop ?f s ?L 0 ?C 0] =>
    pose proof (decode_loop_ok l f s 0 L C 0 _ (ex_intro _ n Hn) Hfuel Hs Hl) as Hloop end.
  change (Z.of_nat 0) with 0 in Hloop. rewrite Hloop; clear Hloop.
  2: { rewrite Hsl. destruct t as [|? [|? [|]]]; cbn [length sextets] in *; try lia.
       all: match goal with |- context [if ?b then _ else _] => destruct b eqn:Hp end;
         first [apply Z.ltb_lt in Hp | apply Z.ltb_ge in Hp]; lia. }
  destruct t as [|a [|b [|]]]; cbn [length sextets] in *; try lia.
  - cbn [Z.eqb]. rewrite Hfill by (by rewrite ?app_nil_r). by rewrite app_nil_r.
  - change (3 - Z.of_nat 1 =? 2) with true. change (3 - Z.of_nat 1 =? 1) with false. cbv iota beta.
    pose proof (rev_at_std s _ 0 _ pad _ Hdrop Hrt eq_refl) as G0. pose proof (rev_at_std s _ 1 _ pad _ Hdrop Hrt eq_refl) as G1.
    change (Z.of_nat 0) with 0 in G0. change (Z.of_nat 1) with 1 in G1. rewrite Z.add_0_r in G0. rewrite G0, G1.
    apply Forall_cons in Htb as [Ha _]. rewrite decode_tail1 by done.
    change (put8 (store ?C ?j l) (0 + js_length l) a) with (store (store C j l) (0 + js_length l) [a]).
    rewrite <- store_app. by rewrite Hfill.
  - change (3 - Z.of_nat 2 =? 2) with false. change (3 - Z.of_nat 2 =? 1) with true. cbv iota beta.
    pose proof (rev_at_std s _ 0 _ pad _ Hdrop Hrt eq_refl) as G0. pose proof (rev_at_std s _ 1 _ pad _ Hdrop Hrt eq_refl) as G1.
    pose proof (rev_at_std s _ 2 _ pad _ Hdrop Hrt eq_refl) as G2.
    change (Z.of_nat 0) with 0 in G0. change (Z.of_nat 1) with 1 in G1. change (Z.of_nat 2) with 2 in G2.
    rewrite Z.add_0_r in G0. rewrite G0, G1, G2.
    apply Forall_cons in Htb as [Ha [Hb' _]%Forall_cons]. destruct (decode_tail2 a b Ha Hb') as [-> ->].
    change (put8 (put8 (store ?C ?j l) (0 + js_length l) a) (0 + js_length l + 1) b)
      with (store (store C j l) (0 + js_length l) [a; b]).
    rewrite <- store_app. by rewrite Hfill.
Qed.

(** C32: the viewer's base64 encoder is the standard one. For any bytes, of any
    length, the chunked encoder returns exactly the RFC 4648 encoding with padding,
    and the decoder, which finds the padding again, returns exactly the bytes and
    announces their number beforehand. *)
Theorem base64_standard bs : Forall is_byte bs ->
  fromByteArray bs = StdEncode bs /\
  byteLength (fromByteArray bs) = Ok (js_length bs) /\
  toByteArray (fromByteArray bs) = Ok bs.
Proof. intros Hb. rewrite fromByteArray_std by done. split; [done|]. by apply toByteArray_std. Qed.

Lemma base64_standard_witness : toByteArray (fromByteArray [0; 255; 62; 7]) = Ok [0; 255; 62; 7].
Proof.
  apply (base64_standard [0; 255; 62; 7]). repeat constructor; by compute.
Defined.

(** ** Any input *)

Lemma decode_loop_done fuel s L i C j : L <= i -> decode_loop fuel s L i C j = (C, j, i).
Proof. destruct fuel; [done|]. intros Hi. cbn [decode_loop]. by rewrite (proj2 (Z.ltb_ge _ _)). Qed.

(** Fuel beyond one unit per quadruple changes nothing. *)
Lemma decode_loop_fuel k : forall fuel s L i C j, L - i <= 4 * Z.of_nat fuel ->
  decode_loop (fuel + k) s L i C j = decode_loop fuel s L i C j.
Proof.
  intros fuel. induction fuel as [|fuel IH]; intros s L i C j Hf; [by apply decode_loop_done; lia|].
  cbn [Nat.add decode_loop]. destruct (i <? L); [|done]. cbv zeta. apply IH. lia.
Qed.

Lemma Forall_put8 C j v : Forall is_byte C -> Forall is_byte (put8 C j v).
Proof.
  intros Hc. unfold put8. destruct (j <? 0); [done|]. apply Forall_insert; [done|].
  unfold is_byte, ToUint8. apply Z.mod_pos_bound. lia.
Qed.
Lemma decode_loop_bytes fuel s L : forall i C j, Forall is_byte C ->
  let r := decode_loop fuel s L i C j in Forall is_byte r.1.1 /\ length r.1.1 = length C.
Proof.
  induction fuel as [|fuel IH]; intros i C j Hc; [done|]. cbn [decode_loop]. destruct (i <? L); [|done].
  cbv zeta. edestruct IH as [Hb Hl]; [do 3 apply Forall_put8; exact Hc|]. split; [exact Hb|].
  rewrite Hl, !length_put8. done.
Qed.

Lemma index_of_lt c s i : index_of c s = Some i -> (i < length s)%nat.
Proof.
  revert i. induction s as [|x s IH]; intros i; [done|]. simpl. case_decide; [intros [= <-]; lia|].
  destruct (index_of c s) as [j|] eqn:Hj; [|done]. intros [= <-]. specialize (IH j eq_refl). lia.
Qed.

Lemma getLens_ok s : js_length s mod 4 = 0 -> index_of 61 s <> Some 0%nat ->
  exists v p, getLens s = Ok (v, p) /\ 0 <= _byteLength v p.
Proof.
  intros Hm Hi0. unfold getLens. rewrite (proj2 (Z.ltb_ge _ _)) by lia.
  set (v := match index_of 61 s with Some i => Z.of_nat i | None => js_length s end).
  set (p := if v =? js_length s then 0 else 4 - v mod 4). exists v, p. split; [done|].
  assert (0 <= v <= js_length s) as Hv.
  { unfold v, js_length. destruct (index_of 61 s) as [i|] eqn:Hi; [apply index_of_lt in Hi|]; lia. }
  assert (0 <= p <= 4 /\ (v + p) mod 4 = 0) as [Hp Hvp].
  { unfold p. destruct (Z.eqb_spec v (js_length s)) as [Hvl|_].
    - rewrite Z.add_0_r, Hvl. lia.
    - pose proof (Z.mod_pos_bound v 4). split; [lia|]. Z.to_euclidean_division_equations; lia. }
  assert (v = 0 -> p = 0) as H0.
  { intros Hv0. unfold p. destruct (Z.eqb_spec v (js_length s)) as [_|Hne]; [done|]. exfalso.
    unfold v in Hv0, Hne. destruct (index_of 61 s) as [i|]; [|done]. apply Hi0. f_equal. lia. }
  unfold _byteLength. destruct (decide (v = 0)) as [Hv0|Hv0]; [rewrite Hv0, H0 by done; done|].
  Z.to_euclidean_division_equations; lia.
Qed.
Lemma getLens_pad s : js_length s mod 4 = 0 -> index_of 61 s = Some 0%nat -> getLens s = Ok (0, 4).
Proof.
  intros Hm Hi. unfold getLens. rewrite (proj2 (Z.ltb_ge _ _)), Hi by lia. cbn [Z.of_nat].
  assert (js_length s <> 0) as Hne. { intros Hl. destruct s; [done|]. unfold js_length in Hl. simpl in Hl. lia. }
  by rewrite (proj2 (Z.eqb_neq _ _)) by lia.
Qed.
Lemma toByteArray_length s v p : getLens s = Ok (v, p) -> 0 <= _byteLength v p ->
  exists bs, toByteArray s = Ok bs /\ js_length bs = _byteLength v p /\ Forall is_byte bs.
Proof.
  intros Hl Hn. unfold toByteArray, new_Uint8Array. rewrite Hl, (proj2 (Z.ltb_ge _ _)) by lia.
  match goal with |- context [decode_loop ?f s ?L 0 ?C 0] =>
    pose proof (decode_loop_bytes f s L 0 C 0) as Hd; destruct (decode_loop f s L 0 C 0) as [[C1 j] i] end.
  cbn [fst] in Hd. destruct Hd as [Hb Hlen]; [apply Forall_replicate; by compute|]. rewrite length_replicate in Hlen.
  assert (js_length C1 = _byteLength v p) as Hl1 by (unfold js_length; lia).
  destruct (p =? 2), (p =? 1); eexists; (split; [reflexivity|]); unfold js_length in *;
    rewrite ?length_put8; (split; [done|]); repeat apply Forall_put8; done.
Qed.
Lemma toByteArray_any s : js_length s mod 4 = 0 -> index_of 61 s <> Some 0%nat ->
  exists bs, toByteArray s = Ok bs /\ Forall is_byte bs.
Proof.
  intros Hm Hi. destruct (getLens_ok s Hm Hi) as (v & p & Hl & Hn).
  destruct (toByteArray_length s v p Hl Hn) as (bs & ? & _ & ?). by exists bs.
Qed.

(** The decoder on any string. A length that is not a multiple of four is an
    error, and so is padding with nothing before it, for which the announced length
    is negative; every other string, whatever characters it holds, decodes to as
    many bytes as [byteLength] announces, and its loop ends within the fuel. *)
Theorem toByteArray_spec s :
  match byteLength s with
  | Err e => js_length s mod 4 <> 0 /\ toByteArray s = Err e
  | Ok n => js_length s mod 4 = 0 /\
      if decide (index_of 61 s = Some 0%nat) then n = -1 /\ exists msg, toByteArray s = Err (RangeError msg)
      else 0 <= n /\ exists bs, toByteArray s = Ok bs /\ js_length bs = n /\ Forall is_byte bs
  end /\
  forall L C k, L <= js_length s -> decode_loop (length s + k) s L 0 C 0 = decode_loop (length s) s L 0 C 0.
Proof.
  split; [|intros; apply decode_loop_fuel; unfold js_length in *; lia].
  destruct (decide (js_length s mod 4 = 0)) as [Hm|Hm].
  - unfold byteLength. case_decide as Hi.
    + rewrite (getLens_pad s Hm Hi). unfold toByteArray. rewrite (getLens_pad s Hm Hi). split; [done|]. split; [done|by eexists].
    + destruct (getLens_ok s Hm Hi) as (v & p & Hl & Hn). rewrite Hl. split; [done|]. split; [done|].
      by apply toByteArray_length.
  - assert (exists e, getLens s = Err e) as [e He].
    { unfold getLens. pose proof (Z.mod_pos_bound (js_length s) 4). rewrite (proj2 (Z.ltb_lt _ _)) by lia. by eexists. }
    unfold byteLength, toByteArray. by rewrite He.
Qed.

Lemma toByteArray_spec_witness :
  decode_loop (4 + 3) (units "QUJD") 4 0 [0; 0; 0] 0 = ([65; 66; 67], 3, 4) /\
  exists bs, toByteArray (units "-_8=") = Ok bs /\ js_length bs = 2 /\ Forall is_byte bs.
Proof.
  destruct (toByteArray_spec (units "QUJD")) as [_ Hf]. destruct (toByteArray_spec (units "-_8=")) as [Hs _]. split.
  - etransitivity; [apply (Hf 4 [0; 0; 0] 3%nat); by vm_compute|by vm_compute].
  - vm_compute (byteLength (units "-_8=")) in Hs. cbv iota in Hs. destruct Hs as [_ Hs]. vm_compute (decide _) in Hs.
    exact (proj2 Hs).
Defined.
