(* ===== verification/BufferJs.v ===== *)
(** * Text encodings of the bundled [Buffer] (module 48287 of [swagger-ui-bundle.js])

    The viewer carries the [buffer] package. A buffer is the list of its bytes;
    the functions here convert between bytes and JavaScript strings. *)
From S2P Require Import Prelude GoStrings Codec Js Base64Js.
From Stdlib Require Import Ascii.

#[local] Open Scope js_scope.

(** ** utf8ToBytes *)

(** The budget [o] of bytes that may still be emitted; [None] is [1/0]. *)
Definition spend (o : option Z) (k : Z) : option Z := (fun x => x - k) <$> o.
Definition fits (o : option Z) : bool := match o with Some x => -1 <? x | None => true end.

Definition replacement : list Z := [239; 191; 189].
(** [(o-=3)>-1&&_.push(239,191,189)]. *)
Definition push_replacement (o : option Z) : list Z := if fits (spend o 3) then replacement else [].

(** The bytes of one code point with the budget they cost, [None] past U+10FFFF. *)
Definition code_point (i : Z) : option (Z * list Z) :=
  if i <? 128 then Some (1, [i])
  else if i <? 2048 then Some (2, [(i >>' 6) |' 192; (63 &' i) |' 128])
  else if i <? 65536 then Some (3, [(i >>' 12) |' 224; ((i >>' 6) &' 63) |' 128; (63 &' i) |' 128])
  else if negb (i <? 1114112) then None
  else Some (4, [(i >>' 18) |' 240; ((i >>' 12) &' 63) |' 128; ((i >>' 6) &' 63) |' 128; (63 &' i) |' 128]).

(** The loop; [u] is the pending lead surrogate. The result is what is pushed from
    here on. *)
Fixpoint utf8_loop (s : JsString) (o : option Z) (u : option Z) : res js_err (list Z) :=
  match s with
  | [] => Ok []
  | i :: rest =>
      let emit i o pre :=
        match code_point i with
        | None => Err (JsError "Invalid code point")
        | Some (k, bs) =>
            if negb (fits (spend o k)) then Ok pre
            else match utf8_loop rest (spend o k) None with Ok l => Ok (pre ++ bs ++ l) | Err e => Err e end
        end in
      let replace u :=
        match utf8_loop rest (spend o 3) u with Ok l => Ok (push_replacement o ++ l) | Err e => Err e end in
      if (55295 <? i) && (i <? 57344) then
        match u with
        | None =>
            if 56319 <? i then replace None
            else match rest with [] => replace None | _ => utf8_loop rest o (Some i) end
        | Some lead =>
            if i <? 56320 then replace (Some i)
            else emit (65536 + (((lead - 55296) <<' 10) |' (i - 56320))) o []
        end
      else
        match u with
        | Some _ => emit i (spend o 3) (push_replacement o)
        | None => emit i o []
        end
  end.

(** [o=o||1/0]: a budget of 0 is no budget. *)
Definition utf8ToBytes (s : JsString) (o : option Z) : res js_err (list Z) :=
  utf8_loop s (match o with Some 0 => None | _ => o end) None.

(** ** utf8Slice *)

(** The code point that starts at [u] and its width, when its bytes are well formed. *)
Definition decode_at (s : list Z) (u i w : Z) : option Z :=
  let o := num (get s u) in
  if u + w <=? i then
    if w =? 1 then if o <? 128 then Some o else None
    else
      let b1 := num (get s (u + 1)) in
      if w =? 2 then
        if (192 &' b1) =? 128 then
          let C := ((31 &' o) <<' 6) |' (63 &' b1) in
          if 127 <? C then Some C else None
        else None
      else
        let b2 := num (get s (u + 2)) in
        if w =? 3 then
          if ((192 &' b1) =? 128) && ((192 &' b2) =? 128) then
            let C := ((15 &' o) <<' 12) |' ((63 &' b1) <<' 6) |' (63 &' b2) in
            if (2047 <? C) && ((C <? 55296) || (57343 <? C)) then Some C else None
          else None
        else
          let b3 := num (get s (u + 3)) in
          if ((192 &' b1) =? 128) && ((192 &' b2) =? 128) && ((192 &' b3) =? 128) then
            let C := ((15 &' o) <<' 18) |' ((63 &' b1) <<' 12) |' ((63 &' b2) <<' 6) |' (63 &' b3) in
            if (65535 <? C) && (C <? 1114112) then Some C else None
          else None
  else None.

Fixpoint utf8_slice_loop (fuel : nat) (s : list Z) (u i : Z) : JsString :=
  match fuel with
  | O => []
  | S fuel =>
      if u <? i then
        let o := num (get s u) in
        let w := if 239 <? o then 4 else if 223 <? o then 3 else if 191 <? o then 2 else 1 in
        match decode_at s u i w with
        | None => 65533 :: utf8_slice_loop fuel s (u + 1) i
        | Some c =>
            if 65535 <? c
            then ((((c - 65536) >>>' 10) &' 1023) |' 55296) :: (56320 |' (1023 &' (c - 65536)))
                   :: utf8_slice_loop fuel s (u + w) i
            else c :: utf8_slice_loop fuel s (u + w) i
        end
      else []
  end.

(** [String.fromCharCode.apply], 4096 units at a time. *)
Definition MAX_ARGUMENTS_LENGTH : Z := 4096.
Definition fromCharCode (l : list Z) : JsString := (fun c => c mod 2 ^ 16) <$> l.
Fixpoint join_chunks (fuel : nat) (s : list Z) (a : Z) : JsString :=
  match fuel with
  | O => []
  | S fuel =>
      if a <? js_length s
      then fromCharCode (js_slice s a (a + MAX_ARGUMENTS_LENGTH)) ++ join_chunks fuel s (a + MAX_ARGUMENTS_LENGTH)
      else []
  end.
Definition decodeCodePointsArray (s : list Z) : JsString :=
  if js_length s <=? MAX_ARGUMENTS_LENGTH then fromCharCode s else join_chunks (length s) s 0.

Definition utf8Slice (s : list Z) (o i : Z) : JsString :=
  let i := Z.min (js_length s) i in
  decodeCodePointsArray (utf8_slice_loop (Z.to_nat (i - o)) s o i).

(** ** latin1, ascii, utf16le *)

Definition asciiToBytes (s : JsString) : list Z := (fun c => 255 &' c) <$> s.
(** Bytes [o] to [i] of a buffer, [Math.min(s.length,i)]. *)
Definition window (s : list Z) (o i : Z) : list Z := js_slice s o (Z.min (js_length s) i).
Definition asciiSlice (s : list Z) (o i : Z) : JsString := fromCharCode ((fun b => 127 &' b) <$> window s o i).
Definition latin1Slice (s : list Z) (o i : Z) : JsString := fromCharCode (window s o i).

(** [!((o-=2)<0)]: the budget counts two bytes per unit. *)
Fixpoint utf16leToBytes (s : JsString) (o : Z) : list Z :=
  match s with
  | [] => []
  | c :: s => if o - 2 <? 0 then [] else c mod 256 :: (c >>' 8) :: utf16leToBytes s (o - 2)
  end.
(** An odd last byte is dropped. *)
Fixpoint utf16le_units (l : list Z) : JsString :=
  match l with a :: b :: l => (a + 256 * b) mod 2 ^ 16 :: utf16le_units l | _ => [] end.
Definition utf16leSlice (s : list Z) (o i : Z) : JsString := utf16le_units (js_slice s o i).

(** ** hex *)

Definition hex_digits : JsString := units "0123456789abcdef".
(** The table [L]. *)
Definition hex_pair (b : Z) : JsString :=
  match get hex_digits (b / 16), get hex_digits (b mod 16) with
  | Some h, Some l => [h; l]
  | _, _ => units "undefined"
  end.
Definition hexSlice (s : list Z) (o i : Z) : JsString :=
  let a := js_length s in
  let o := if o <? 0 then 0 else o in
  let i := if (i =? 0) || (i <? 0) || (a <? i) then a else i in
  js_slice s o i ≫= hex_pair.

(** [parseInt(str,16)]; [None] is [NaN]. *)
Definition white_space : list Z :=
  [9; 10; 11; 12; 13; 32; 160; 5760; 8192; 8193; 8194; 8195; 8196; 8197; 8198; 8199; 8200; 8201; 8202; 8232; 8233;
   8239; 8287; 12288; 65279].
Fixpoint trim_start (s : JsString) : JsString :=
  match s with c :: r => if decide (c ∈ white_space) then trim_start r else s | [] => [] end.
Definition hex_value (c : Z) : option Z :=
  if (48 <=? c) && (c <=? 57) then Some (c - 48)
  else if (97 <=? c) && (c <=? 102) then Some (c - 87)
  else if (65 <=? c) && (c <=? 70) then Some (c - 55)
  else None.
Fixpoint hex_run (acc : Z) (s : JsString) : Z :=
  match s with
  | c :: s => match hex_value c with Some v => hex_run (16 * acc + v) s | None => acc end
  | [] => acc
  end.
Definition parse_hex (s : JsString) : option Z :=
  let s := trim_start s in
  let '(sign, s) := match s with 45 :: s => (-1, s) | 43 :: s => (1, s) | _ => (1, s) end in
  let s := match s with 48 :: 120 :: s | 48 :: 88 :: s => s | _ => s end in
  match s with
  | c :: s => match hex_value c with Some v => Some (sign * hex_run v s) | None => None end
  | [] => None
  end.

(** The loop from byte [w]; [a2] is twice the limit, which may be half an integer.
    Returns the buffer and the number of bytes written. *)
Fixpoint hex_write_loop (fuel : nat) (s : list Z) (o : JsString) (i w a2 : Z) : list Z * Z :=
  match fuel with
  | O => (s, w)
  | S fuel =>
      if 2 * w <? a2 then
        match parse_hex (js_slice o (2 * w) (2 * w + 2)) with
        | None => (s, w)
        | Some v => hex_write_loop fuel (put8 s (i + w) v) o i (w + 1) a2
        end
      else (s, w)
  end.
(** [a = 0] stands for an absent length too. *)
Definition hexWrite (s : list Z) (o : JsString) (i a : Z) : list Z * Z :=
  let u := js_length s - i in
  let a := if a =? 0 then u else if u <? a then u else a in
  let a2 := if js_length o <? 2 * a then js_length o else 2 * a in
  hex_write_loop (length o) s o i 0 a2.

(** ** base64 with cleaning *)

Definition base64_char (c : Z) : bool := bool_decide (c ∈ b64_code ++ units "-_").
(** [split("=")[0]]. *)
Definition before_pad (s : JsString) : JsString := match index_of 61 s with Some i => take i s | None => s end.
Fixpoint pad_to_4 (fuel : nat) (s : JsString) : JsString :=
  match fuel with
  | O => s
  | S fuel => if js_length s mod 4 =? 0 then s else pad_to_4 fuel (s ++ [61])
  end.
(** [trim] removes white space only, which the regular expression removes too. *)
Definition base64clean (s : JsString) : JsString :=
  let s := filter (fun c => base64_char c = true) (before_pad s) in
  if js_length s <? 2 then [] else pad_to_4 4 s.
Definition base64ToBytes (s : JsString) : res js_err (list Z) := toByteArray (base64clean s).

(** [blitBuffer]: as many bytes as fit. *)
Fixpoint blit (fuel : nat) (o s : list Z) (u i a : Z) : list Z * Z :=
  match fuel with
  | O => (o, u)
  | S fuel =>
      if (u <? a) && negb ((js_length o <=? u + i) || (js_length s <=? u))
      then blit fuel (put8 o (u + i) (num (get s u))) s (u + 1) i a
      else (o, u)
  end.
Definition blitBuffer (s o : list Z) (i a : Z) : list Z * Z := blit (length s) o s 0 i a.

Example utf8_euro : utf8ToBytes [8364; 97] None = Ok [226; 130; 172; 97].
Proof. by vm_compute. Qed.
Example utf8_gothic : utf8Slice [240; 144; 141; 136] 0 4 = [55296; 57160].
Proof. by vm_compute. Qed.
Example hex_odd : hexWrite [0; 0; 0] (units "abc") 0 0 = ([171; 12; 0], 2).
Proof. by vm_compute. Qed.
(** A lead surrogate that follows another at the end is lost. *)
Example utf8_two_leads : utf8ToBytes [55296; 55297] None = Ok replacement.
Proof. by vm_compute. Qed.
