(* ===== verification/BufferJsProps.v ===== *)
(** * UTF-8 in the bundled [Buffer]: conversion there and back *)
From S2P Require Import Prelude GoStrings Codec Js Base64Js Base64JsProps BufferJs.

#[local] Open Scope js_scope.

(** ** The reference: code points of a UTF-16 string *)

Definition is_lead (c : Z) : bool := (55296 <=? c) && (c <=? 56319).
Definition is_trail (c : Z) : bool := (56320 <=? c) && (c <=? 57343).
Definition pair_of (c d : Z) : Z := 65536 + (c - 55296) * 1024 + (d - 56320).

(** The code points, U+FFFD for an unpaired surrogate. *)
Fixpoint code_points (s : JsString) : list Z :=
  match s with
  | [] => []
  | c :: rest =>
      if is_lead c then
        match rest with
        | d :: rest' => if is_trail d then pair_of c d :: code_points rest' else 65533 :: code_points rest
        | [] => [65533]
        end
      else if is_trail c then 65533 :: code_points rest
      else c :: code_points rest
  end.
(** [String.prototype.toWellFormed]. *)
Fixpoint toWellFormed (s : JsString) : JsString :=
  match s with
  | [] => []
  | c :: rest =>
      if is_lead c then
        match rest with
        | d :: rest' => if is_trail d then c :: d :: toWellFormed rest' else 65533 :: toWellFormed rest
        | [] => [65533]
        end
      else if is_trail c then 65533 :: toWellFormed rest
      else c :: toWellFormed rest
  end.
(** The code forgets a lead surrogate that ends the string right after another. *)
Fixpoint without_last_lead (s : JsString) : JsString :=
  match s with
  | [] => []
  | c :: rest =>
      match rest with
      | [d] => if is_lead c && is_lead d then [c] else c :: without_last_lead rest
      | _ => c :: without_last_lead rest
      end
  end.

Definition is_scalar (c : Z) : Prop := 0 <= c < 1114112 /\ ~ 55296 <= c <= 57343.
Definition enc (c : Z) : list Z := match code_point c with Some (_, bs) => bs | None => [] end.
Definition encoded (s : JsString) : list Z := code_points s ≫= enc.

(** The strong induction that [code_points] and [toWellFormed] follow. *)
Lemma surrogate_ind (P : JsString -> Prop) :
  P [] ->
  (forall c rest, is_lead c = false -> P rest -> P (c :: rest)) ->
  (forall c, is_lead c = true -> P [c]) ->
  (forall c d rest, is_lead c = true -> is_trail d = true -> P rest -> P (c :: d :: rest)) ->
  (forall c d rest, is_lead c = true -> is_trail d = false -> P (d :: rest) -> P (c :: d :: rest)) ->
  forall s, P s.
Proof.
  intros H0 H1 H2 H3 H4 s. enough (P s /\ forall c, P (c :: s)) as [? _] by done.
  induction s as [|d s [IH IHc]]; [split; [done|]; intros c; destruct (is_lead c) eqn:Hc; auto|].
  split; [apply IHc|]. intros c. destruct (is_lead c) eqn:Hc; [|by apply H1, IHc].
  destruct (is_trail d) eqn:Hd; [by apply H3|by apply H4, IHc].
Qed.

Ltac surr := unfold is_lead, is_trail, is_unit, is_scalar, pair_of in *; rewrite ?andb_true_iff, ?andb_false_iff, ?Z.leb_le, ?Z.leb_gt in *.

Lemma code_points_scalar s : Forall is_unit s -> Forall is_scalar (code_points s).
Proof.
  induction s as [|c rest Hc IH|c Hc|c d rest Hc Hd IH|c d rest Hc Hd IH] using surrogate_ind; intros Hs; [constructor|..];
    apply Forall_cons in Hs as [Hu Hs]; cbn [code_points]; rewrite Hc.
  - destruct (is_trail c) eqn:Ht; constructor; auto; surr; lia.
  - repeat constructor; surr; lia.
  - apply Forall_cons in Hs as [Hv Hs]. rewrite Hd. constructor; auto. surr. lia.
  - specialize (IH Hs). cbn [code_points] in IH. rewrite Hd in *. constructor; [surr; lia|exact IH].
Qed.

(** ** Encoding *)

Lemma code_point_ok c : 0 <= c < 1114112 -> exists k, code_point c = Some (k, enc c).
Proof.
  intros Hc. unfold enc, code_point. repeat case_match; eauto.
  exfalso. match goal with Hn : negb _ = true |- _ => apply negb_true_iff, Z.ltb_ge in Hn; lia end.
Qed.

Lemma utf8_emit_pair lead i : is_lead lead = true -> is_trail i = true ->
  65536 + (((lead - 55296) <<' 10) |' (i - 56320)) = pair_of lead i.
Proof.
  intros Hl Hi. surr. rewrite js_shl_pos by lia. rewrite js_or_fields by lia. lia.
Qed.

Lemma without_last_lead_cons c rest : is_lead c = false ->
  without_last_lead (c :: rest) = c :: without_last_lead rest.
Proof. intros Hc. cbn [without_last_lead]. rewrite Hc. by destruct rest as [|d []]. Qed.
Lemma without_last_lead_head c rest : exists l, without_last_lead (c :: rest) = c :: l.
Proof. cbn [without_last_lead]. destruct rest as [|d []]; eauto. destruct (_ && _); eauto. Qed.
Lemma without_last_lead_lead u c rest : is_lead c = false ->
  without_last_lead (u :: c :: rest) = u :: c :: without_last_lead rest.
Proof.
  intros Hc. rewrite <- without_last_lead_cons by done. cbn [without_last_lead]. rewrite Hc, andb_false_r.
  by destruct rest.
Qed.

Lemma surrogate_range c : (55295 <? c) && (c <? 57344) = is_lead c || is_trail c.
Proof. unfold is_lead, is_trail. apply eq_true_iff_eq. rewrite orb_true_iff, !andb_true_iff, !Z.ltb_lt, !Z.leb_le. lia. Qed.
Lemma enc_replacement : enc 65533 = replacement.
Proof. done. Qed.

Lemma utf8_loop_ok s : Forall is_unit s ->
  utf8_loop s None None = Ok (encoded (without_last_lead s)) /\
  forall u, is_lead u = true ->
    utf8_loop s None (Some u) = Ok (match s with [] => [] | _ => encoded (without_last_lead (u :: s)) end).
Proof.
  unfold encoded. induction s as [|c rest IH]; intros Hs; [done|]. apply Forall_cons in Hs as [Hu Hs]. destruct (IH Hs) as [IH0 IHu].
  cbn [utf8_loop]. rewrite surrogate_range. cbn [spend fmap option_fmap option_map fits negb push_replacement].
  unfold push_replacement; cbn [spend fmap option_fmap option_map fits].
  assert (is_lead c = true -> is_trail c = false /\ (56319 <? c) = false /\ (c <? 56320) = true) as Hlead.
  { intros Hl. surr. rewrite Z.ltb_ge, Z.ltb_lt. lia. }
  assert (is_trail c = true -> is_lead c = false /\ (56319 <? c) = true /\ (c <? 56320) = false) as Htrail.
  { intros Ht. surr. rewrite Z.ltb_lt, Z.ltb_ge. lia. }
  split.
  - destruct (is_lead c) eqn:Hl; [|destruct (is_trail c) eqn:Ht]; cbn [orb].
    + destruct (Hlead eq_refl) as (Ht & -> & Hlt). destruct rest as [|d rest]; [cbn; rewrite Hl; done|]. by rewrite IHu.
    + destruct (Htrail eq_refl) as (_ & -> & _). rewrite IH0, without_last_lead_cons by done. cbn [code_points].
      rewrite Hl, Ht. done.
    + destruct (code_point_ok c) as [k Hk]; [surr; lia|]. rewrite Hk, IH0, without_last_lead_cons by done. cbn [code_points].
      by rewrite Hl, Ht.
  - intros u Hlu. destruct (is_lead c) eqn:Hl; [|destruct (is_trail c) eqn:Ht]; cbn [orb].
    + destruct (Hlead eq_refl) as (Ht & _ & ->). rewrite IHu by done. destruct rest as [|d rest].
      * cbn. rewrite Hl, Hlu. cbn. by rewrite Hlu.
      * destruct (without_last_lead_head c (d :: rest)) as [l Hw].
        change (without_last_lead (u :: c :: d :: rest)) with (u :: without_last_lead (c :: d :: rest)). rewrite Hw.
        cbn [code_points]. rewrite Hlu, Ht. done.
    + destruct (Htrail eq_refl) as (_ & _ & ->). rewrite utf8_emit_pair by done.
      destruct (code_point_ok (pair_of u c)) as [k Hk]; [surr; lia|]. rewrite Hk, IH0, without_last_lead_lead by done.
      cbn [code_points app]. by rewrite Hlu, Ht.
    + destruct (code_point_ok c) as [k Hk]; [surr; lia|]. rewrite Hk, IH0, without_last_lead_lead by done.
      cbn [code_points]. rewrite Hlu, Ht, Hl. done.
Qed.

(** ** Decoding one code point *)

Lemma marks x :
  (0 <= x < 64 -> x |' 128 = 128 + x /\ 63 &' (128 + x) = x /\ 192 &' (128 + x) = 128) /\
  (0 <= x < 32 -> x |' 192 = 192 + x /\ 31 &' (192 + x) = x) /\
  (0 <= x < 16 -> x |' 224 = 224 + x /\ 15 &' (224 + x) = x) /\
  (0 <= x < 8 -> x |' 240 = 240 + x /\ 15 &' (240 + x) = x).
Proof.
  split_and!; intros Hx.
  - apply (below_decide 64 (fun x => x |' 128 = 128 + x /\ 63 &' (128 + x) = x /\ 192 &' (128 + x) = 128)); [by vm_compute|lia].
  - apply (below_decide 32 (fun x => x |' 192 = 192 + x /\ 31 &' (192 + x) = x)); [by vm_compute|lia].
  - apply (below_decide 16 (fun x => x |' 224 = 224 + x /\ 15 &' (224 + x) = x)); [by vm_compute|lia].
  - apply (below_decide 8 (fun x => x |' 240 = 240 + x /\ 15 &' (240 + x) = x)); [by vm_compute|lia].
Qed.

Lemma and63 x : 0 <= x < 2 ^ 31 -> 63 &' x = x mod 64 /\ x &' 63 = x mod 64.
Proof.
  intros Hx. assert (x &' 63 = x mod 64) as He by (change 63 with (2 ^ 6 - 1); by rewrite js_and_mask by lia).
  split; [|done]. rewrite <- He. unfold js_and. apply Z.land_comm.
Qed.

(** The bytes of a code point as arithmetic. *)
Definition tail (x : Z) : Z := 128 + x mod 64.
Lemma enc_eq c : 0 <= c < 1114112 ->
  enc c = if c <? 128 then [c]
          else if c <? 2048 then [192 + c / 64; tail c]
          else if c <? 65536 then [224 + c / 4096; tail (c / 64); tail c]
          else [240 + c / 262144; tail (c / 4096); tail (c / 64); tail c].
Proof.
  intros Hc. unfold enc, code_point, tail.
  destruct (c <? 128) eqn:H1; [done|]. apply Z.ltb_ge in H1.
  assert (forall x, 0 <= x < 2 ^ 31 -> (63 &' x) |' 128 = 128 + x mod 64 /\ (x &' 63) |' 128 = 128 + x mod 64) as Hm.
  { intros x Hx. destruct (and63 x Hx) as [-> ->]. destruct (marks (x mod 64)) as [Hk _].
    destruct Hk as [-> _]; [|done]. apply Z.mod_pos_bound. lia. }
  destruct (c <? 2048) eqn:H2; [|apply Z.ltb_ge in H2; destruct (c <? 65536) eqn:H3;
    [|apply Z.ltb_ge in H3; rewrite (proj2 (Z.ltb_lt c 1114112)) by lia; cbn [negb]]];
    rewrite !js_sar_pos by lia; rewrite (proj1 (Hm c ltac:(lia)));
    rewrite ?(fun k Hk => proj2 (Hm (c / 2 ^ k) Hk)) by (split; [apply Z.div_pos; lia|apply Z.div_lt_upper_bound; lia]).
  - apply Z.ltb_lt in H2. destruct (marks (c / 2 ^ 6)) as (_ & Hk & _).
    destruct Hk as [-> _]; [|done]. change (2 ^ 6) with 64. Z.to_euclidean_division_equations; lia.
  - apply Z.ltb_lt in H3. destruct (marks (c / 2 ^ 12)) as (_ & _ & Hk & _).
    destruct Hk as [-> _]; [|done]. change (2 ^ 12) with 4096. Z.to_euclidean_division_equations; lia.
  - destruct (marks (c / 2 ^ 18)) as (_ & _ & _ & Hk).
    destruct Hk as [-> _]; [|done]. change (2 ^ 18) with 262144. Z.to_euclidean_division_equations; lia.
Qed.

Lemma tail_byte x : is_byte (tail x) /\ 192 &' tail x = 128 /\ 63 &' tail x = x mod 64.
Proof.
  unfold tail, is_byte. pose proof (Z.mod_pos_bound x 64 ltac:(lia)). destruct (marks (x mod 64)) as [Hk _].
  destruct Hk as (_ & -> & ->); [done|]. split_and!; [lia|lia|done..].
Qed.
Lemma enc_bytes c : is_scalar c -> Forall is_byte (enc c) /\ (0 < length (enc c))%nat.
Proof.
  intros [Hc _]. rewrite enc_eq by done. pose proof (fun x => proj1 (tail_byte x)) as Ht.
  destruct (c <? 128) eqn:H1; [|destruct (c <? 2048) eqn:H2; [|destruct (c <? 65536) eqn:H3]];
    rewrite ?Z.ltb_lt, ?Z.ltb_ge in *; (split; [|simpl; lia]); repeat constructor; try apply Ht;
    unfold is_byte in *; Z.to_euclidean_division_equations; lia.
Qed.

(** Reading an encoded code point gives it back. *)
Lemma decode_enc s (u : nat) c rest i : is_scalar c ->
  drop u s = enc c ++ rest -> Z.of_nat u + Z.of_nat (length (enc c)) <= i ->
  let o := num (get s (Z.of_nat u)) in
  let w := if 239 <? o then 4 else if 223 <? o then 3 else if 191 <? o then 2 else 1 in
  w = Z.of_nat (length (enc c)) /\ decode_at s (Z.of_nat u) i w = Some c.
Proof.
  intros [Hc Hs] Hd Hi. cbv zeta.
  assert (forall (j : nat) b, enc c !! j = Some b -> num (get s (Z.of_nat u + Z.of_nat j)) = b) as Hg.
  { intros j b Hj. pose proof (lookup_lt_Some _ _ _ Hj).
    rewrite (get_drop s u (Z.of_nat j) (enc c) rest Hd), Nat2Z.id by lia. by rewrite Hj. }
  rewrite enc_eq in Hg, Hi |- * by done. pose proof (fun x => proj2 (tail_byte x)) as Ht.
  destruct (c <? 128) eqn:H1; [|destruct (c <? 2048) eqn:H2; [|destruct (c <? 65536) eqn:H3]];
    rewrite ?Z.ltb_lt, ?Z.ltb_ge in *; cbn [length] in *;
    pose proof (Hg 0%nat _ eq_refl) as G0; change (Z.of_nat 0) with 0 in G0; rewrite Z.add_0_r in G0; rewrite G0.
  - rewrite (proj2 (Z.ltb_ge 239 c)), (proj2 (Z.ltb_ge 223 c)), (proj2 (Z.ltb_ge 191 c)) by lia. split; [done|].
    unfold decode_at. rewrite G0, (proj2 (Z.leb_le _ _)) by lia. cbn [Z.eqb Pos.eqb]. by rewrite (proj2 (Z.ltb_lt c 128)) by lia.
  - pose proof (Hg 1%nat _ eq_refl) as G1. change (Z.of_nat 1) with 1 in G1.
    assert (0 <= c / 64 < 32) as Hq by (Z.to_euclidean_division_equations; lia).
    rewrite (proj2 (Z.ltb_ge 239 _)), (proj2 (Z.ltb_ge 223 _)), (proj2 (Z.ltb_lt 191 _)) by lia. split; [done|].
    unfold decode_at. rewrite G0, G1, (proj2 (Z.leb_le _ _)) by lia. cbn [Z.eqb Pos.eqb].
    destruct (Ht c) as [-> ->]. cbn [Z.eqb Pos.eqb]. destruct (marks (c / 64)) as (_ & Hk & _).
    destruct (Hk Hq) as [_ ->]. rewrite js_shl_pos, js_or_fields by (Z.to_euclidean_division_equations; lia).
    replace (c / 64 * 2 ^ 6 + c mod 64) with c by (Z.to_euclidean_division_equations; lia).
    by rewrite (proj2 (Z.ltb_lt 127 c)) by lia.
  - pose proof (Hg 1%nat _ eq_refl) as G1. pose proof (Hg 2%nat _ eq_refl) as G2. change (Z.of_nat 1) with 1 in G1.
    change (Z.of_nat 2) with 2 in G2. assert (0 <= c / 4096 < 16) as Hq by (Z.to_euclidean_division_equations; lia).
    rewrite (proj2 (Z.ltb_ge 239 _)), (proj2 (Z.ltb_lt 223 _)) by lia. split; [done|].
    unfold decode_at. rewrite G0, G1, G2, (proj2 (Z.leb_le _ _)) by lia. cbn [Z.eqb Pos.eqb].
    destruct (Ht c) as [-> ->], (Ht (c / 64)) as [-> ->]. cbn [Z.eqb Pos.eqb andb]. destruct (marks (c / 4096)) as (_ & _ & Hk & _).
    destruct (Hk Hq) as [_ ->]. rewrite !js_shl_pos by (Z.to_euclidean_division_equations; lia).
    rewrite (js_or_fields (c / 4096) _ 12) by (Z.to_euclidean_division_equations; lia).
    replace (c / 4096 * 2 ^ 12 + c / 64 mod 64 * 2 ^ 6) with (c / 64 * 2 ^ 6) by (Z.to_euclidean_division_equations; lia).
    rewrite js_or_fields by (Z.to_euclidean_division_equations; lia).
    replace (c / 64 * 2 ^ 6 + c mod 64) with c by (Z.to_euclidean_division_equations; lia).
    rewrite (proj2 (Z.ltb_lt 2047 c)) by lia. cbn [andb].
    destruct (Z.ltb_spec c 55296); [done|]. by rewrite (proj2 (Z.ltb_lt 57343 c)) by lia.
  - pose proof (Hg 1%nat _ eq_refl) as G1. pose proof (Hg 2%nat _ eq_refl) as G2. pose proof (Hg 3%nat _ eq_refl) as G3.
    change (Z.of_nat 1) with 1 in G1. change (Z.of_nat 2) with 2 in G2. change (Z.of_nat 3) with 3 in G3.
    assert (0 <= c / 262144 < 8) as Hq by (Z.to_euclidean_division_equations; lia).
    rewrite (proj2 (Z.ltb_lt 239 _)) by lia. split; [done|].
    unfold decode_at. rewrite G0, G1, G2, G3, (proj2 (Z.leb_le _ _)) by lia. cbn [Z.eqb Pos.eqb].
    destruct (Ht c) as [-> ->], (Ht (c / 64)) as [-> ->], (Ht (c / 4096)) as [-> ->]. cbn [Z.eqb Pos.eqb andb].
    destruct (marks (c / 262144)) as (_ & _ & _ & Hk).
    destruct (Hk Hq) as [_ ->]. rewrite !js_shl_pos by (Z.to_euclidean_division_equations; lia).
    rewrite (js_or_fields (c / 262144) _ 18) by (Z.to_euclidean_division_equations; lia).
    replace (c / 262144 * 2 ^ 18 + c / 4096 mod 64 * 2 ^ 12) with (c / 4096 * 2 ^ 12) by (Z.to_euclidean_division_equations; lia).
    rewrite (js_or_fields (c / 4096) _ 12) by (Z.to_euclidean_division_equations; lia).
    replace (c / 4096 * 2 ^ 12 + c / 64 mod 64 * 2 ^ 6) with (c / 64 * 2 ^ 6) by (Z.to_euclidean_division_equations; lia).
    rewrite js_or_fields by (Z.to_euclidean_division_equations; lia).
    replace (c / 64 * 2 ^ 6 + c mod 64) with c by (Z.to_euclidean_division_equations; lia).
    by rewrite (proj2 (Z.ltb_lt 65535 c)), (proj2 (Z.ltb_lt c 1114112)) by lia.
Qed.

(** ** The loops *)

Definition to_units (c : Z) : JsString :=
  if 65535 <? c then [(((c - 65536) >>>' 10) &' 1023) |' 55296; 56320 |' (1023 &' (c - 65536))] else [c].

Lemma to_units_pair c d : is_lead c = true -> is_trail d = true -> to_units (pair_of c d) = [c; d].
Proof.
  intros Hc Hd. surr. unfold to_units. rewrite (proj2 (Z.ltb_lt _ _)) by lia.
  set (x := 65536 + (c - 55296) * 1024 + (d - 56320) - 65536).
  assert (0 <= x < 2 ^ 20) as Hx by (unfold x; lia). rewrite js_shr_pos by lia. change 1023 with (2 ^ 10 - 1).
  rewrite js_and_mask by (Z.to_euclidean_division_equations; lia).
  assert ((2 ^ 10 - 1) &' x = x mod 2 ^ 10) as ->.
  { unfold js_and. rewrite Z.land_comm. change (x &' (2 ^ 10 - 1) = x mod 2 ^ 10). apply js_and_mask; lia. }
  assert (forall a b, 0 <= a < 64 -> 0 <= b < 2 ^ 10 -> a * 2 ^ 10 |' b = a * 2 ^ 10 + b) as Hor
    by (intros; apply js_or_fields; lia).
  f_equal; [|f_equal].
  - unfold js_or. rewrite Z.lor_comm. change 55296 with (54 * 2 ^ 10).
    change (54 * 2 ^ 10 |' ((x / 2 ^ 10) mod 2 ^ 10) = c). rewrite Hor by (Z.to_euclidean_division_equations; lia).
    unfold x. Z.to_euclidean_division_equations; lia.
  - change 56320 with (55 * 2 ^ 10). rewrite Hor by (Z.to_euclidean_division_equations; lia).
    unfold x. Z.to_euclidean_division_equations; lia.
Qed.

Lemma code_points_units s : Forall is_unit s -> code_points s ≫= to_units = toWellFormed s.
Proof.
  induction s as [|c rest Hc IH|c Hc|c d rest Hc Hd IH|c d rest Hc Hd IH] using surrogate_ind; intros Hs; [done|..];
    apply Forall_cons in Hs as [Hu Hs].
  - cbn [code_points toWellFormed]. rewrite Hc. specialize (IH Hs).
    destruct (is_trail c); rewrite bind_cons, IH; [done|]. unfold to_units. surr. by rewrite (proj2 (Z.ltb_ge _ _)) by lia.
  - cbn [code_points toWellFormed]. by rewrite Hc.
  - apply Forall_cons in Hs as [Hv Hs]. cbn [code_points toWellFormed]. rewrite Hc, Hd, bind_cons, IH, to_units_pair by done. done.
  - specialize (IH Hs). change (toWellFormed (c :: d :: rest)) with
      (if is_lead c then if is_trail d then c :: d :: toWellFormed rest else 65533 :: toWellFormed (d :: rest)
       else if is_trail c then 65533 :: toWellFormed (d :: rest) else c :: toWellFormed (d :: rest)).
    change (code_points (c :: d :: rest)) with
      (if is_lead c then if is_trail d then pair_of c d :: code_points rest else 65533 :: code_points (d :: rest)
       else if is_trail c then 65533 :: code_points (d :: rest) else c :: code_points (d :: rest)).
    rewrite Hc, Hd, bind_cons, IH. done.
Qed.

Lemma utf8_slice_ok cs : forall fuel s (u : nat) rest,
  Forall is_scalar cs -> drop u s = (cs ≫= enc) ++ rest -> (length (cs ≫= enc) <= fuel)%nat ->
  utf8_slice_loop fuel s (Z.of_nat u) (Z.of_nat (u + length (cs ≫= enc))) = cs ≫= to_units.
Proof.
  induction cs as [|c cs IH]; intros fuel s u rest Hcs Hd Hf.
  - simpl. rewrite Nat.add_0_r. destruct fuel; cbn [utf8_slice_loop]; [done|]. by rewrite (proj2 (Z.ltb_ge _ _)) by lia.
  - apply Forall_cons in Hcs as [Hc Hcs]. rewrite bind_cons in Hd, Hf |- *. rewrite length_app in Hf |- *. rewrite <- app_assoc in Hd.
    destruct (enc_bytes c Hc) as [_ Hpos]. destruct fuel as [|fuel]; [lia|]. cbn [utf8_slice_loop].
    rewrite (proj2 (Z.ltb_lt _ _)) by lia.
    pose proof (decode_enc s u c _ (Z.of_nat (u + (length (enc c) + length (cs ≫= enc)))) Hc Hd ltac:(lia)) as Hdec.
    cbv zeta in Hdec |- *. set (w := if 239 <? _ then _ else _) in *. destruct Hdec as [Hw ->].
    replace (Z.of_nat u + w) with (Z.of_nat (u + length (enc c))) by lia.
    replace (u + (length (enc c) + length (cs ≫= enc)))%nat with (u + length (enc c) + length (cs ≫= enc))%nat by lia.
    apply drop_more in Hd. rewrite (IH fuel s _ rest) by (done || lia). rewrite bind_cons. generalize (cs ≫= to_units). intros l.
    unfold to_units. by destruct (65535 <? c).
Qed.

Lemma fromCharCode_units s : Forall is_unit s -> fromCharCode s = s.
Proof.
  induction 1 as [|c s Hc Hs IH]; [done|]. unfold fromCharCode in *. rewrite fmap_cons, IH. f_equal. by apply Z.mod_small.
Qed.
Lemma join_chunks_ok fuel : forall s (a : nat), (length s - a <= fuel)%nat ->
  join_chunks fuel s (Z.of_nat a) = fromCharCode (drop a s).
Proof.
  induction fuel as [|fuel IH]; intros s a Hf; cbn [join_chunks]; [by rewrite drop_ge by lia|].
  unfold js_length. destruct (Z.ltb_spec (Z.of_nat a) (Z.of_nat (length s))) as [Hlt|Hge]; [|by rewrite drop_ge by lia].
  unfold MAX_ARGUMENTS_LENGTH. set (w := Z.to_nat 4096). replace (Z.of_nat a + 4096) with (Z.of_nat (a + w)) by lia.
  rewrite IH by lia. unfold js_slice. replace (Z.to_nat (Z.of_nat (a + w) - Z.of_nat a)) with w by lia. rewrite Nat2Z.id.
  unfold fromCharCode. rewrite <- fmap_app. f_equal. rewrite <- drop_drop. apply take_drop.
Qed.
Lemma decodeCodePointsArray_ok s : Forall is_unit s -> decodeCodePointsArray s = s.
Proof.
  intros Hs. unfold decodeCodePointsArray. destruct (_ <=? _); [by apply fromCharCode_units|].
  rewrite (join_chunks_ok _ _ 0) by lia. by apply fromCharCode_units.
Qed.

Lemma toWellFormed_units s : Forall is_unit s -> Forall is_unit (toWellFormed s).
Proof.
  assert (is_unit 65533) as Hr by by compute.
  induction s as [|c rest Hc IH|c Hc|c d rest Hc Hd IH|c d rest Hc Hd IH] using surrogate_ind; intros Hs; [constructor|..];
    apply Forall_cons in Hs as [Hu Hs]; cbn [toWellFormed]; rewrite Hc.
  - destruct (is_trail c); apply Forall_cons; auto.
  - by apply Forall_singleton.
  - apply Forall_cons in Hs as [Hv Hs]. rewrite Hd. apply Forall_cons; split; [done|]. apply Forall_cons; auto.
  - specialize (IH Hs). cbn [toWellFormed] in IH. rewrite Hd in *. apply Forall_cons; split; [done|exact IH].
Qed.
Lemma without_last_lead_sub s : Forall is_unit s -> Forall is_unit (without_last_lead s).
Proof.
  induction s as [|c rest IH]; intros Hs; [done|]. apply Forall_cons in Hs as [Hc Hs]. specialize (IH Hs).
  cbn [without_last_lead]. destruct rest as [|d []]; try by constructor. destruct (_ && _); by constructor.
Qed.

Lemma encoded_bytes s : Forall is_unit s -> Forall is_byte (encoded s).
Proof.
  intros Hs. unfold encoded. induction (code_points_scalar s Hs) as [|c cs Hc Hcs IH]; [constructor|].
  rewrite bind_cons. apply Forall_app. split; [by apply enc_bytes|done].
Qed.

Lemma utf8_read s : Forall is_unit s ->
  utf8Slice (encoded (without_last_lead s)) 0 (js_length (encoded (without_last_lead s))) = toWellFormed (without_last_lead s).
Proof.
  intros Hs. pose proof (without_last_lead_sub s Hs) as Hw. unfold utf8Slice. rewrite Z.min_id, Z.sub_0_r.
  unfold js_length. rewrite Nat2Z.id. set (cs := code_points (without_last_lead s)).
  pose proof (utf8_slice_ok cs (length (cs ≫= enc)) (cs ≫= enc) 0 [] (code_points_scalar _ Hw)) as Hsl.
  rewrite Nat.add_0_l in Hsl. unfold encoded. fold cs. change (Z.of_nat 0) with 0 in Hsl.
  rewrite Hsl by (done || by rewrite app_nil_r). unfold cs. rewrite code_points_units by done.
  by apply decodeCodePointsArray_ok, toWellFormed_units.
Qed.

(** C36: text to bytes and back. Writing any JavaScript string as UTF-8 yields
    bytes, and reading all of them back yields the string with each unpaired
    surrogate replaced by U+FFFD, so exactly the string if it is well formed; except
    that a lead surrogate at the end right after another is forgotten, which the
    replacement would keep. *)
Theorem utf8_roundtrip s : Forall is_unit s -> exists bs,
  utf8ToBytes s None = Ok bs /\ Forall is_byte bs /\
  utf8Slice bs 0 (js_length bs) = toWellFormed (without_last_lead s).
Proof.
  intros Hs. pose proof (without_last_lead_sub s Hs) as Hw. exists (encoded (without_last_lead s)).
  split_and!; [by apply utf8_loop_ok|by apply encoded_bytes|by apply utf8_read].
Qed.

Lemma utf8_roundtrip_witness :
  (exists bs, utf8ToBytes [8364; 55348; 56606; 55296; 97] None = Ok bs /\ Forall is_byte bs /\
     utf8Slice bs 0 (js_length bs) = [8364; 55348; 56606; 65533; 97]) /\
  without_last_lead [55296; 55297] = [55296].
Proof.
  split; [|done]. apply (utf8_roundtrip [8364; 55348; 56606; 55296; 97]). repeat constructor; by compute.
Defined.

(** ** Writing into a limited space *)

Lemma code_point_cost c k bs : code_point c = Some (k, bs) -> k = js_length bs /\ 0 < k.
Proof. unfold code_point. repeat case_match; try done; intros [= <- <-]; by compute. Qed.

(** [p] is what a budget of [o] bytes leaves of [bs]. *)
Definition within (o : Z) (p bs : list Z) : Prop :=
  p `prefix_of` bs /\ js_length p <= Z.max 0 o /\ (js_length bs <= o -> p = bs).

Lemma within_out o p bs : o < 0 -> within o p bs -> p = [].
Proof. intros Ho (_ & Hl & _). destruct p; [done|]. unfold js_length in Hl. simpl in Hl. lia. Qed.
Lemma push_replacement_cases o :
  push_replacement (Some o) = replacement /\ 0 <= o - 3 \/ push_replacement (Some o) = [] /\ o - 3 < 0.
Proof.
  unfold push_replacement, spend, fits; simpl. destruct (-1 <? o - 3) eqn:Hf; rewrite ?Z.ltb_lt, ?Z.ltb_ge in Hf;
    [left|right]; split; (done || lia).
Qed.
Lemma within_none o bs : o < js_length bs -> within o [] bs.
Proof. intros Ho. split_and!; [apply prefix_nil|unfold js_length; simpl; lia|lia]. Qed.
Lemma within_nil o : within o [] [].
Proof. split_and!; [done|unfold js_length; simpl; lia|done]. Qed.
Lemma within_replacement o p l : within (o - 3) p l -> within o (push_replacement (Some o) ++ p) (replacement ++ l).
Proof.
  intros Hp. destruct (push_replacement_cases o) as [[-> Ho]|[-> Ho]].
  - destruct Hp as (Hp & Hl & Ha). unfold within, js_length in *. split_and!; [by apply prefix_app|simpl; lia|].
    simpl. intros Hf. by rewrite Ha by lia.
  - rewrite (within_out _ _ _ Ho Hp). apply within_none. unfold js_length in *. simpl. lia.
Qed.
Lemma within_emit o p l b : 0 <= o - js_length b -> within (o - js_length b) p l -> within o (b ++ p) (b ++ l).
Proof.
  intros Ho (Hp & Hl & Ha). unfold within, js_length in *. split_and!; [by apply prefix_app|rewrite length_app; lia|].
  rewrite length_app. intros Hf. by rewrite Ha by lia.
Qed.

Section Budget.
Context (rest : JsString)
  (IH : forall o u l, utf8_loop rest None u = Ok l -> exists p, utf8_loop rest (Some o) u = Ok p /\ within o p l).

Lemma budget_replace u o r :
  match utf8_loop rest None u with Ok l => Ok (replacement ++ l) | Err e => Err e end = Ok r ->
  exists p, match utf8_loop rest (spend (Some o) 3) u with Ok l => Ok (push_replacement (Some o) ++ l) | Err e => Err e end
    = Ok p /\ within o p r.
Proof.
  destruct (utf8_loop rest None u) as [l|e] eqn:Hl; [|done]. intros [= <-].
  destruct (IH (o - 3) u l Hl) as (p & Hrun & Hp). change (spend (Some o) 3) with (Some (o - 3)). rewrite Hrun.
  eexists. split; [done|]. by apply within_replacement.
Qed.

Lemma budget_emit i o q pre pre' r :
  (forall p l, within o p l -> within q (pre ++ p) (pre' ++ l)) ->
  match code_point i with None => Err (JsError "Invalid code point") | Some (k, bs) =>
    match utf8_loop rest None None with Ok l => Ok (pre' ++ bs ++ l) | Err e => Err e end end = Ok r ->
  exists p, match code_point i with None => Err (JsError "Invalid code point") | Some (k, bs) =>
    if negb (fits (spend (Some o) k)) then Ok pre else
    match utf8_loop rest (spend (Some o) k) None with Ok l => Ok (pre ++ bs ++ l) | Err e => Err e end end = Ok p /\
    within q p r.
Proof.
  intros Hpre. destruct (code_point i) as [[k b]|] eqn:Hc; [|done]. apply code_point_cost in Hc as [-> Hk].
  destruct (utf8_loop rest None None) as [l|e] eqn:Hl; [|done]. intros [= <-].
  change (spend (Some o) (js_length b)) with (Some (o - js_length b)). cbn [fits].
  destruct (-1 <? o - js_length b) eqn:Hf; cbn [negb]; rewrite ?Z.ltb_lt, ?Z.ltb_ge in Hf.
  - destruct (IH (o - js_length b) None l Hl) as (p & -> & Hp). eexists. split; [done|].
    apply Hpre, within_emit; [lia|done].
  - eexists. split; [done|]. rewrite <- (app_nil_r pre) at 1. apply Hpre, within_none.
    unfold js_length in *. rewrite length_app. lia.
Qed.
End Budget.

Lemma utf8_loop_budget s : forall o u bs, utf8_loop s None u = Ok bs ->
  exists p, utf8_loop s (Some o) u = Ok p /\ within o p bs.
Proof.
  induction s as [|c rest IH]; intros o u bs; [intros [= <-]; exists []; split; [done|apply within_nil]|].
  cbn [utf8_loop]. cbv zeta.
  assert (forall i r, _ = Ok r -> _) as Hemit0 by (intros i r; by apply (budget_emit rest IH i o o [] [] r)).
  destruct ((55295 <? c) && (c <? 57344)).
  - destruct u as [lead|]; [destruct (c <? 56320)|destruct (56319 <? c); [|destruct rest as [|d rest]]];
      first [apply Hemit0 | by apply budget_replace | apply IH].
  - destruct u as [lead|]; [|apply Hemit0]. apply (budget_emit rest IH c (o - 3) o).
    intros p l. apply within_replacement.
Qed.

(** Writing text into limited space. With room for [n] bytes the encoder
    returns a prefix of the whole encoding, of at most [n] bytes, and never fails;
    it returns all of it when it fits, and also when there is no room at all, which
    is taken for unlimited room. *)
Theorem utf8_budget s n : Forall is_unit s -> 0 <= n -> exists p bs,
  utf8ToBytes s (Some n) = Ok p /\ utf8ToBytes s None = Ok bs /\
  p `prefix_of` bs /\ (0 < n -> js_length p <= n) /\ (n = 0 \/ js_length bs <= n -> p = bs).
Proof.
  intros Hs Hn. destruct (utf8_loop_ok s Hs) as [Hall _]. unfold utf8ToBytes. destruct (decide (n = 0)) as [->|Hne].
  - do 2 eexists. split_and!; [exact Hall|exact Hall|done|lia|done].
  - destruct (utf8_loop_budget s n None _ Hall) as (p & Hp & Hpre & Hlen & Hfit). exists p. eexists.
    split_and!; [destruct n; [done|exact Hp|exact Hp]|exact Hall|done|lia|]. intros [?|?]; [done|auto].
Qed.

Lemma utf8_budget_witness : utf8ToBytes [8364; 97; 8364] (Some 5) = Ok [226; 130; 172; 97] /\
  exists p bs, utf8ToBytes [8364; 97; 8364] (Some 5) = Ok p /\ utf8ToBytes [8364; 97; 8364] None = Ok bs /\
    p `prefix_of` bs /\ (0 < 5 -> js_length p <= 5) /\ (5 = 0 \/ js_length bs <= 5 -> p = bs).
Proof.
  split; [by vm_compute|]. apply (utf8_budget [8364; 97; 8364] 5); [repeat constructor; by compute|done].
Defined.

(** ** The other encodings *)

Lemma hex_pair_ok b : is_byte b -> exists h l, hex_pair b = [h; l] /\ parse_hex [h; l] = Some b.
Proof.
  intros Hb. assert (length (hex_pair b) = 2%nat /\ parse_hex (hex_pair b) = Some b) as [Hl Hp].
  { apply (below_decide 256 (fun b => length (hex_pair b) = 2%nat /\ parse_hex (hex_pair b) = Some b));
      [by vm_compute|unfold is_byte in Hb; lia]. }
  destruct (hex_pair b) as [|h [|l []]]; try done. by exists h, l.
Qed.
Lemma hex_pairs_length bs : Forall is_byte bs -> (length (bs ≫= hex_pair) = 2 * length bs)%nat.
Proof.
  induction 1 as [|b bs Hb Hbs IH]; [done|]. rewrite bind_cons, length_app, IH. destruct (hex_pair_ok b Hb) as (h & l & -> & _).
  simpl. lia.
Qed.

Lemma hex_write_ok bs : forall fuel s o w a2,
  Forall is_byte bs -> drop (2 * w) o = bs ≫= hex_pair -> a2 = 2 * Z.of_nat (w + length bs) -> (length bs <= fuel)%nat ->
  hex_write_loop fuel s o 0 (Z.of_nat w) a2 = (store s (Z.of_nat w) bs, Z.of_nat (w + length bs)).
Proof.
  induction bs as [|b bs IH]; intros fuel s o w a2 Hb Ho -> Hf; cbn [length] in *.
  - rewrite Nat.add_0_r. destruct fuel; cbn [hex_write_loop]; [done|]. by rewrite (proj2 (Z.ltb_ge _ _)) by lia.
  - apply Forall_cons in Hb as [Hb Hbs]. destruct fuel as [|fuel]; [lia|]. cbn [hex_write_loop].
    rewrite (proj2 (Z.ltb_lt _ _)) by lia. rewrite bind_cons in Ho. destruct (hex_pair_ok b Hb) as (h & l & Hh & Hp). rewrite Hh in Ho.
    unfold js_slice. replace (Z.to_nat (2 * Z.of_nat w + 2 - 2 * Z.of_nat w)) with 2%nat by lia.
    replace (Z.to_nat (2 * Z.of_nat w)) with (2 * w)%nat by lia. rewrite Ho. change (take 2 ([h; l] ++ _)) with [h; l]. rewrite Hp.
    rewrite Z.add_0_l. replace (Z.of_nat w + 1) with (Z.of_nat (S w)) by lia.
    rewrite (IH fuel _ o (S w)); [|done| |lia|lia].
    + cbn [store]. f_equal; [f_equal|]; lia.
    + apply (drop_more o (2 * w) [h; l]) in Ho. rewrite <- Ho. f_equal. simpl. lia.
Qed.

Lemma asciiToBytes_bytes s : Forall is_byte s -> asciiToBytes s = s.
Proof.
  induction 1 as [|c s Hc Hs IH]; [done|]. unfold asciiToBytes in *. rewrite fmap_cons, IH. f_equal.
  unfold is_byte in Hc. rewrite (proj2 (and255 c ltac:(lia))). by apply Z.mod_small.
Qed.
Lemma window_all s : window s 0 (js_length s) = s.
Proof. unfold window, js_slice. rewrite Z.min_id, Z.sub_0_r. unfold js_length. rewrite Nat2Z.id. simpl. by rewrite firstn_all. Qed.
Lemma utf16le_ok s n : Forall is_unit s -> (length s <= n)%nat ->
  utf16le_units (utf16leToBytes s (2 * Z.of_nat n)) = s /\ length (utf16leToBytes s (2 * Z.of_nat n)) = (2 * length s)%nat.
Proof.
  intros Hs. revert n. induction Hs as [|c s Hc Hs IH]; intros n Hn; [done|]. destruct n as [|n]; [simpl in Hn; lia|].
  cbn [utf16leToBytes length] in *. rewrite (proj2 (Z.ltb_ge _ _)) by lia.
  replace (2 * Z.of_nat (S n) - 2) with (2 * Z.of_nat n) by lia. destruct (IH n ltac:(lia)) as [IH1 IH2].
  cbn [utf16le_units length]. rewrite IH1, IH2. unfold is_unit in Hc. rewrite js_sar_pos by lia. split; [|lia]. f_equal.
  change (2 ^ 8) with 256. Z.to_euclidean_division_equations; lia.
Qed.

(** *** base64 with cleaning *)

Lemma b64_units_clean l : Forall (fun x => 0 <= x < 64) l -> filter (fun c => base64_char c = true) (b64_units l) = b64_units l.
Proof.
  induction 1 as [|x l Hx Hl IH]; [done|]. rewrite b64_units_cons, filter_app, IH. f_equal.
  apply (below_decide 64 (fun x => filter (fun c => base64_char c = true) (b64_units [x]) = b64_units [x])); [by vm_compute|lia].
Qed.
Lemma before_pad_std l k : Forall (fun x => 0 <= x < 64) l -> (k = [] \/ exists k', k = 61 :: k') ->
  before_pad (b64_units l ++ k) = b64_units l.
Proof.
  intros Hl Hk. unfold before_pad. rewrite index_of_std by done. destruct Hk as [->|[k' ->]].
  - cbn. by rewrite app_nil_r.
  - cbn [index_of]. rewrite decide_True by done. cbv [fmap option_fmap option_map]. rewrite Nat.add_0_r.
    rewrite <- (proj1 (b64_units_rev l Hl)). by rewrite take_app_length.
Qed.

Lemma pad_to_4_le fuel s : exists k, pad_to_4 fuel s = s ++ replicate k 61.
Proof.
  revert s. induction fuel as [|fuel IH]; intros s; cbn [pad_to_4]; [exists 0%nat; by rewrite app_nil_r|].
  destruct (_ =? 0); [exists 0%nat; by rewrite app_nil_r|]. destruct (IH (s ++ [61])) as [k ->]. exists (S k).
  by rewrite <- app_assoc.
Qed.
Lemma pad_to_4_mod fuel s : js_length s mod 4 = 0 \/ 4 - js_length s mod 4 <= Z.of_nat fuel ->
  js_length (pad_to_4 fuel s) mod 4 = 0.
Proof.
  revert s. induction fuel as [|fuel IH]; intros s Hs.
  - destruct Hs as [Hs|Hs]; [done|]. pose proof (Z.mod_pos_bound (js_length s) 4). lia.
  - cbn [pad_to_4]. destruct (Z.eqb_spec (js_length s mod 4) 0) as [|Hne]; [done|]. destruct Hs as [Hs|Hs]; [lia|].
    apply IH. unfold js_length in *. rewrite length_app, Nat2Z.inj_add. cbn [length].
    Z.to_euclidean_division_equations; lia.
Qed.
Lemma pad_to_4_done s : js_length (pad_to_4 4 s) mod 4 = 0.
Proof. apply pad_to_4_mod. pose proof (Z.mod_pos_bound (js_length s) 4). lia. Qed.

(** The cleaned text always decodes. *)
Lemma base64ToBytes_total s : exists bs, base64ToBytes s = Ok bs /\ Forall is_byte bs.
Proof.
  unfold base64ToBytes. pose proof (toByteArray_any (base64clean s)) as Hany. apply Hany; clear Hany.
  - unfold base64clean. destruct (_ <? 2); [done|apply pad_to_4_done].
  - unfold base64clean. set (k := filter _ _). destruct (Z.ltb_spec (js_length k) 2) as [_|Hk]; [done|].
    destruct (pad_to_4_le 4 k) as [n ->]. intros Hi.
    destruct k as [|c k'] eqn:Hkk; [unfold js_length in Hk; simpl in Hk; lia|].
    assert (c ∈ k) as Hc by (rewrite Hkk; left). subst k. apply list_elem_of_filter in Hc as [Hc _].
    cbn [app index_of] in Hi. destruct (decide (c = 61)) as [->|Hne]; [by vm_compute in Hc|].
    by destruct (index_of 61 (k' ++ _)).
Qed.
