(* ===== verification/BufferInts.v ===== *)
(** * Integers in the bundled [Buffer] (module 48287 of [swagger-ui-bundle.js])

    Reading and writing integers of one to six bytes, signed and unsigned, in both
    byte orders. Every intermediate value stays below 2^53, where doubles are exact,
    and a division by a power of 256 is exact before it is truncated. *)
From S2P Require Import Prelude Js Base64Js.

#[local] Open Scope js_scope.

(** ** Bounds *)

Definition checkOffset (s o n : Z) : res js_err unit :=
  if s <? 0 then Err (RangeError "offset is not uint") else
  if n <? s + o then Err (RangeError "Trying to access beyond buffer length") else Ok ().
Definition checkInt (buf : list Z) (value o n max min : Z) : res js_err unit :=
  if (max <? value) || (value <? min) then Err (RangeError "value is out of bounds") else
  if js_length buf <? o + n then Err (RangeError "Index out of range") else Ok ().

(** ** Reading *)

(** [for(;++k<n&&(u*=256);)a+=this[s+k]*u]: the value and the last [u]. *)
Fixpoint read_LE_loop (fuel : nat) (buf : list Z) (s n k u a : Z) : Z * Z :=
  match fuel with
  | O => (a, u)
  | S fuel =>
      let k := k + 1 in
      if k <? n then read_LE_loop fuel buf s n k (u * 256) (a + num (get buf (s + k)) * (u * 256)) else (a, u)
  end.
(** [for(;n>0&&(u*=256);)a+=this[s+--n]*u]. *)
Fixpoint read_BE_loop (fuel : nat) (buf : list Z) (s n u a : Z) : Z * Z :=
  match fuel with
  | O => (a, u)
  | S fuel =>
      if 0 <? n then read_BE_loop fuel buf s (n - 1) (u * 256) (a + num (get buf (s + (n - 1))) * (u * 256)) else (a, u)
  end.

Definition readUIntLE (buf : list Z) (s n : Z) : res js_err Z :=
  let s := ToUint32 s in let n := ToUint32 n in
  match checkOffset s n (js_length buf) with
  | Err e => Err e
  | Ok _ => Ok (read_LE_loop (Z.to_nat n) buf s n 0 1 (num (get buf s))).1
  end.
Definition readUIntBE (buf : list Z) (s n : Z) : res js_err Z :=
  let s := ToUint32 s in let n := ToUint32 n in
  match checkOffset s n (js_length buf) with
  | Err e => Err e
  | Ok _ => Ok (read_BE_loop (Z.to_nat n) buf s (n - 1) 1 (num (get buf (s + (n - 1))))).1
  end.
(** [u*=128,a>=u&&(a-=Math.pow(2,8*n))]. *)
Definition sign_extend (p : Z * Z) (n : Z) : Z :=
  let '(a, u) := p in if u * 128 <=? a then a - 2 ^ (8 * n) else a.
Definition readIntLE (buf : list Z) (s n : Z) : res js_err Z :=
  let s := ToUint32 s in let n := ToUint32 n in
  match checkOffset s n (js_length buf) with
  | Err e => Err e
  | Ok _ => Ok (sign_extend (read_LE_loop (Z.to_nat n) buf s n 0 1 (num (get buf s))) n)
  end.
Definition readIntBE (buf : list Z) (s n : Z) : res js_err Z :=
  let s := ToUint32 s in let n := ToUint32 n in
  match checkOffset s n (js_length buf) with
  | Err e => Err e
  | Ok _ => Ok (sign_extend (read_BE_loop (Z.to_nat n) buf s (n - 1) 1 (num (get buf (s + (n - 1))))) n)
  end.

(** ** Writing *)

(** [for(;++k<n&&(u*=256);)this[o+k]=value/u&255]. *)
Fixpoint write_UIntLE_loop (fuel : nat) (buf : list Z) (value o n k u : Z) : list Z :=
  match fuel with
  | O => buf
  | S fuel =>
      let k := k + 1 in
      if k <? n
      then let u := u * 256 in write_UIntLE_loop fuel (put8 buf (o + k) (Z.quot value u &' 255)) value o n k u
      else buf
  end.
(** [for(;--k>=0&&(u*=256);)this[o+k]=value/u&255]. *)
Fixpoint write_UIntBE_loop (fuel : nat) (buf : list Z) (value o k u : Z) : list Z :=
  match fuel with
  | O => buf
  | S fuel =>
      let k := k - 1 in
      if 0 <=? k
      then let u := u * 256 in write_UIntBE_loop fuel (put8 buf (o + k) (Z.quot value u &' 255)) value o k u
      else buf
  end.
(** The buffer and the offset after the integer. *)
Definition writeUIntLE (buf : list Z) (value o n : Z) : res js_err (list Z * Z) :=
  let o := ToUint32 o in let n := ToUint32 n in
  match checkInt buf value o n (2 ^ (8 * n) - 1) 0 with
  | Err e => Err e
  | Ok _ => Ok (write_UIntLE_loop (Z.to_nat n) (put8 buf o (255 &' value)) value o n 0 1, o + n)
  end.
Definition writeUIntBE (buf : list Z) (value o n : Z) : res js_err (list Z * Z) :=
  let o := ToUint32 o in let n := ToUint32 n in
  match checkInt buf value o n (2 ^ (8 * n) - 1) 0 with
  | Err e => Err e
  | Ok _ => Ok (write_UIntBE_loop (Z.to_nat n) (put8 buf (o + (n - 1)) (255 &' value)) value o (n - 1) 1, o + n)
  end.

(** [w] is the borrow: set once a lower byte of a negative value is not zero. *)
Definition borrow (buf : list Z) (value w p : Z) : Z :=
  if (value <? 0) && (0 =? w) && negb (num (get buf p) =? 0) then 1 else w.
Fixpoint write_IntLE_loop (fuel : nat) (buf : list Z) (value o n k u w : Z) : list Z :=
  match fuel with
  | O => buf
  | S fuel =>
      let k := k + 1 in
      if k <? n then
        let u := u * 256 in
        let w := borrow buf value w (o + k - 1) in
        write_IntLE_loop fuel (put8 buf (o + k) (((Z.quot value u |' 0) - w) &' 255)) value o n k u w
      else buf
  end.
Fixpoint write_IntBE_loop (fuel : nat) (buf : list Z) (value o k u w : Z) : list Z :=
  match fuel with
  | O => buf
  | S fuel =>
      let k := k - 1 in
      if 0 <=? k then
        let u := u * 256 in
        let w := borrow buf value w (o + k + 1) in
        write_IntBE_loop fuel (put8 buf (o + k) (((Z.quot value u |' 0) - w) &' 255)) value o k u w
      else buf
  end.
(** The byte count is not converted here. *)
Definition writeIntLE (buf : list Z) (value o n : Z) : res js_err (list Z * Z) :=
  let o := ToUint32 o in
  let a := 2 ^ (8 * n - 1) in
  match checkInt buf value o n (a - 1) (- a) with
  | Err e => Err e
  | Ok _ => Ok (write_IntLE_loop (Z.to_nat n) (put8 buf o (255 &' value)) value o n 0 1 0, o + n)
  end.
Definition writeIntBE (buf : list Z) (value o n : Z) : res js_err (list Z * Z) :=
  let o := ToUint32 o in
  let a := 2 ^ (8 * n - 1) in
  match checkInt buf value o n (a - 1) (- a) with
  | Err e => Err e
  | Ok _ => Ok (write_IntBE_loop (Z.to_nat n) (put8 buf (o + (n - 1)) (255 &' value)) value o (n - 1) 1 0, o + n)
  end.

Example write_minus_300 : writeIntLE [0; 0; 0; 7] (-300) 1 2 = Ok ([0; 212; 254; 7], 3).
Proof. by vm_compute. Qed.
Example read_minus_300 : readIntLE [0; 212; 254; 7] 1 2 = Ok (-300).
Proof. by vm_compute. Qed.
