(* ===== verification/BufferOps.v ===== *)
(** * The operations of the bundled [Buffer] (module 48287 of [swagger-ui-bundle.js])

    Construction from and conversion to strings by encoding name, writing,
    comparison and search. A buffer is the list of its bytes; an offset is the integer
    the code makes of its argument. *)
From S2P Require Import Prelude GoStrings Codec Js Base64Js BufferJs BufferInts.

#[local] Open Scope js_scope.

(** ** Encoding names *)

Inductive Encoding : Type := Hex | Utf8 | Ascii | Latin1 | Base64 | Utf16le.

(** The cases of the [switch] statements. *)
Definition encoding_names : list (JsString * Encoding) :=
  [(units "hex", Hex); (units "utf8", Utf8); (units "utf-8", Utf8); (units "ascii", Ascii); (units "latin1", Latin1);
   (units "binary", Latin1); (units "base64", Base64); (units "ucs2", Utf16le); (units "ucs-2", Utf16le);
   (units "utf16le", Utf16le); (units "utf-16le", Utf16le)].
Definition encoding_case (name : JsString) : option Encoding :=
  snd <$> List.find (fun p => bool_decide (p.1 = name)) encoding_names.
(** Of the characters outside ASCII only U+212A lowers to a single ASCII letter,
    [k], which no name has. *)
Definition toLowerCase (s : JsString) : JsString := (fun c => if (65 <=? c) && (c <=? 90) then c + 32 else c) <$> s.
(** The loop around the [switch]: the name as it is, then in lower case. *)
Definition encoding_of (name : JsString) : option Encoding :=
  match encoding_case name with Some e => Some e | None => encoding_case (toLowerCase name) end.
Definition isEncoding (name : JsString) : bool :=
  match encoding_case (toLowerCase name) with Some _ => true | None => false end.
Definition unknown_encoding {A} : res js_err A := Err (TypeError "Unknown encoding").
(** An absent or empty name means [utf8]. *)
Definition or_utf8 (enc : JsString) : JsString := match enc with [] => units "utf8" | _ => enc end.

(** ** Sizes and allocation *)

Definition kMaxLength : Z := 2147483647.
Definition createBuffer (n : Z) : res js_err (list Z) :=
  if kMaxLength <? n then Err (RangeError "The value is invalid for option size") else new_Uint8Array n.

(** [byteLength(string, encoding)]. *)
Definition Buffer_byteLength (s : JsString) (enc : JsString) : res js_err Z :=
  let i := js_length s in
  if i =? 0 then Ok 0 else
  match encoding_of enc with
  | Some Ascii | Some Latin1 => Ok i
  | Some Utf16le => Ok (2 * i)
  | Some Hex => Ok (i >>>' 1)
  | Some Base64 => match base64ToBytes s with Ok bs => Ok (js_length bs) | Err e => Err e end
  | Some Utf8 | None => match utf8ToBytes s None with Ok bs => Ok (js_length bs) | Err e => Err e end
  end.

(** [buf.slice(s, o)]; an absent end is [None]. *)
Definition slice_bound (n k : Z) : Z := if k <? 0 then Z.max 0 (k + n) else Z.min k n.
Definition Buffer_slice (buf : list Z) (s : Z) (o : option Z) : list Z :=
  let n := js_length buf in
  let s := slice_bound n (ToInt32 s) in
  let o := match o with None => n | Some o => slice_bound n (ToInt32 o) end in
  js_slice buf s (Z.max s o).

(** ** Writing a string *)

Definition utf8Write (buf : list Z) (s : JsString) (o i : Z) : res js_err (list Z * Z) :=
  match utf8ToBytes s (Some (js_length buf - o)) with Ok bs => Ok (blitBuffer bs buf o i) | Err e => Err e end.
Definition asciiWrite (buf : list Z) (s : JsString) (o i : Z) : list Z * Z := blitBuffer (asciiToBytes s) buf o i.
Definition base64Write (buf : list Z) (s : JsString) (o i : Z) : res js_err (list Z * Z) :=
  match base64ToBytes s with Ok bs => Ok (blitBuffer bs buf o i) | Err e => Err e end.
Definition ucs2Write (buf : list Z) (s : JsString) (o i : Z) : list Z * Z :=
  blitBuffer (utf16leToBytes s (js_length buf - o)) buf o i.

(** [buf.write(s, o, i, enc)] once its arguments are sorted out: the buffer and the
    number of bytes written. *)
Definition write (buf : list Z) (s : JsString) (o i : Z) (enc : JsString) : res js_err (list Z * Z) :=
  let u := js_length buf - o in
  let i := if u <? i then u else i in
  if (0 <? js_length s) && ((i <? 0) || (o <? 0)) || (js_length buf <? o)
  then Err (RangeError "Attempt to write outside buffer bounds") else
  match encoding_of (or_utf8 enc) with
  | Some Hex => Ok (hexWrite buf s o i)
  | Some Utf8 => utf8Write buf s o i
  | Some Ascii | Some Latin1 => Ok (asciiWrite buf s o i)
  | Some Base64 => base64Write buf s o i
  | Some Utf16le => Ok (ucs2Write buf s o i)
  | None => unknown_encoding
  end.

(** [Buffer.from(s, enc)] of a string. *)
Definition fromString (s : JsString) (enc : JsString) : res js_err (list Z) :=
  let enc := or_utf8 enc in
  if negb (isEncoding enc) then unknown_encoding else
  match Buffer_byteLength s enc with
  | Err e => Err e
  | Ok n =>
      let i := 0 |' n in
      match createBuffer i with
      | Err e => Err e
      | Ok a =>
          (* a.write(s, enc) *)
          match write a s 0 (js_length a) enc with
          | Err e => Err e
          | Ok (a, u) => Ok (if u =? i then a else Buffer_slice a 0 (Some u))
          end
      end
  end.

(** ** Reading a string *)

Definition base64Slice (buf : list Z) (o i : Z) : JsString :=
  if (o =? 0) && (i =? js_length buf) then fromByteArray buf else fromByteArray (js_slice buf o i).

Definition slowToString (buf : list Z) (enc : JsString) (o i : option Z) : res js_err JsString :=
  let n := js_length buf in
  let o := match o with Some o => if o <? 0 then 0 else o | None => 0 end in
  if n <? o then Ok [] else
  let i := match i with Some i => if n <? i then n else i | None => n end in
  if i <=? 0 then Ok [] else
  if ToUint32 i <=? ToUint32 o then Ok [] else
  let i := ToUint32 i in let o := ToUint32 o in
  match encoding_of (or_utf8 enc) with
  | Some Hex => Ok (hexSlice buf o i)
  | Some Utf8 => Ok (utf8Slice buf o i)
  | Some Ascii => Ok (asciiSlice buf o i)
  | Some Latin1 => Ok (latin1Slice buf o i)
  | Some Base64 => Ok (base64Slice buf o i)
  | Some Utf16le => Ok (utf16leSlice buf o i)
  | None => unknown_encoding
  end.
(** [buf.toString(enc)]. *)
Definition Buffer_toString (buf : list Z) (enc : JsString) : res js_err JsString :=
  if js_length buf =? 0 then Ok [] else slowToString buf enc None None.

(** ** Comparison *)

(** The loop over the common length, then the lengths. *)
Fixpoint compare_loop (fuel : nat) (s o : list Z) (u n : Z) : option (Z * Z) :=
  match fuel with
  | O => None
  | S fuel =>
      if u <? n then
        if num (get s u) =? num (get o u) then compare_loop fuel s o (u + 1) n
        else Some (num (get s u), num (get o u))
      else None
  end.
Definition Buffer_compare (s o : list Z) : Z :=
  let i := js_length s in let a := js_length o in
  let '(i, a) := match compare_loop (length s) s o 0 (Z.min i a) with Some p => p | None => (i, a) end in
  if i <? a then -1 else if a <? i then 1 else 0.
Definition Buffer_equals (s o : list Z) : bool := 0 =? Buffer_compare s o.

(** ** Search

    A search runs in bytes: the code's position [_] in units of [w] bytes is [k / w]
    here, so that a half position, which an odd offset or length makes, is a number
    too. [None]: the fuel is used up, which it never is ([Buffer_search]). *)

(** [a] of [arrayIndexOf]: the encoding, if there is one. *)
Definition unit_width (enc : option JsString) : Z :=
  match enc with
  | Some name => match encoding_case (toLowerCase name) with Some Utf16le => 2 | _ => 1 end
  | None => 1
  end.
(** [read]; [readUInt16BE] checks that both bytes are there. *)
Definition read_unit (w : Z) (s : list Z) (k : Z) : res js_err Z :=
  if w =? 1 then Ok (num (get s k)) else
  match checkOffset k 2 (js_length s) with
  | Err e => Err e
  | Ok _ => Ok ((num (get s k) <<' 8) |' num (get s (k + 1)))
  end.
(** [read(s,x)===read(o,y)]. *)
Definition same_unit (w : Z) (s : list Z) (x : Z) (o : list Z) (y : Z) : res js_err bool :=
  match read_unit w s x, read_unit w o y with
  | Ok x, Ok y => Ok (x =? y)
  | Err e, _ | _, Err e => Err e
  end.

(** [arrayIndexOf] forwards: [k] is the position, [a] the start of the partial match
    or -1. A mismatch inside a partial match goes back to its start. *)
Fixpoint indexOf_loop (fuel : nat) (w : Z) (s o : list Z) (k a : Z) : option (res js_err (option Z)) :=
  match fuel with
  | O => None
  | S fuel =>
      if k <? js_length s then
        match same_unit w s k o (if a =? -1 then 0 else k - a) with
        | Err e => Some (Err e)
        | Ok true =>
            let a := if a =? -1 then k else a in
            if k - a + w =? js_length o then Some (Ok (Some a)) else indexOf_loop fuel w s o (k + w) a
        | Ok false => indexOf_loop fuel w s o ((if a =? -1 then k else a) + w) (-1)
        end
      else Some (Ok None)
  end.
(** Backwards: the loop over the units of [o], then over the positions. *)
Fixpoint matches_at (fuel : nat) (w : Z) (s o : list Z) (k a : Z) : option (res js_err bool) :=
  match fuel with
  | O => None
  | S fuel =>
      if a <? js_length o then
        match same_unit w s (k + a) o a with
        | Err e => Some (Err e)
        | Ok true => matches_at fuel w s o k (a + w)
        | Ok false => Some (Ok false)
        end
      else Some (Ok true)
  end.
Fixpoint lastIndexOf_loop (fuel : nat) (w : Z) (s o : list Z) (k : Z) : option (res js_err (option Z)) :=
  match fuel with
  | O => None
  | S fuel =>
      if 0 <=? k then
        match matches_at (S (length o)) w s o k 0 with
        | None => None
        | Some (Err e) => Some (Err e)
        | Some (Ok true) => Some (Ok (Some k))
        | Some (Ok false) => lastIndexOf_loop fuel w s o (k - w)
        end
      else Some (Ok None)
  end.

(** The number a search returns: -1, the place [k] in bytes, or counted in two-byte
    units, which is the number [k / 2]. *)
Inductive Found : Type := NotFound | AtByte (k : Z) | AtUnit (k : Z).
Definition found (at_place : Z -> Found) (r : option (res js_err (option Z))) : option (res js_err Found) :=
  match r with
  | None => None
  | Some (Err e) => Some (Err e)
  | Some (Ok None) => Some (Ok NotFound)
  | Some (Ok (Some k)) => Some (Ok (at_place k))
  end.
Definition arrayIndexOf (s o : list Z) (i : Z) (enc : option JsString) (forward : bool) : option (res js_err Found) :=
  let w := unit_width enc in
  if negb (w =? 1) && ((js_length s <? 2) || (js_length o <? 2)) then Some (Ok NotFound) else
  if forward then found AtByte (indexOf_loop (length s * S (length o) + 1) w s o i (-1))
  else
    let i := if js_length s <? i + js_length o then js_length s - js_length o else i in
    found (if w =? 1 then AtByte else AtUnit) (lastIndexOf_loop (S (length s)) w s o i).

(** [bidirectionalIndexOf] of a buffer [o] at a numeric offset; [None] is [NaN]. *)
Definition bidirectionalIndexOf (s o : list Z) (i : option Z) (enc : option JsString) (forward : bool) : option (res js_err Found) :=
  let n := js_length s in
  let not_found := Some (Ok NotFound) in
  if n =? 0 then not_found else
  let i := match i with
    | Some i => if 2147483647 <? i then 2147483647 else if i <? -2147483648 then -2147483648 else i
    | None => if forward then 0 else n - 1
    end in
  let i := if i <? 0 then n + i else i in
  let search i := if js_length o =? 0 then not_found else arrayIndexOf s o i enc forward in
  if n <=? i then if forward then not_found else search (n - 1)
  else if i <? 0 then if forward then search 0 else not_found
  else search i.
