(* ===== verification/BufferOpsProps.v ===== *)
(** * The operations of the bundled [Buffer]: every encoding there and back, order, search *)
From S2P Require Import Prelude GoStrings Codec Js Base64Js Base64JsProps BufferJs BufferJsProps BufferInts BufferOps.

#[local] Open Scope js_scope.

(** ** Encoding names *)

Lemma encoding_case_lower name e : encoding_case name = Some e -> toLowerCase name = name.
Proof.
  unfold encoding_case. destruct (List.find _ _) as [[n e']|] eqn:Hf; [|done]. intros _.
  apply find_some in Hf as [Hin Hn]. apply bool_decide_eq_true in Hn. simpl in Hn. subst n.
  assert (Forall (fun p => toLowerCase p.1 = p.1) encoding_names) as Hall by (repeat constructor).
  rewrite Forall_forall in Hall. apply (Hall (name, e')). by apply list_elem_of_In.
Qed.
(** Names are compared without regard to case everywhere. *)
Lemma encoding_of_lower name : encoding_of name = encoding_case (toLowerCase name).
Proof.
  unfold encoding_of. destruct (encoding_case name) as [e|] eqn:He; [|done]. by rewrite (encoding_case_lower _ _ He).
Qed.
Lemma encoding_nonempty enc e : encoding_of enc = Some e -> or_utf8 enc = enc.
Proof. by destruct enc. Qed.

(** ** Filling a fresh buffer *)

Lemma blit_store l : forall fuel o s (u : nat) i a,
  drop u s = l -> Z.of_nat (u + length l) <= a -> 0 <= i -> i + Z.of_nat (u + length l) <= js_length o -> (length l <= fuel)%nat ->
  blit fuel o s (Z.of_nat u) i a = (store o (Z.of_nat u + i) l, Z.of_nat (u + length l)).
Proof.
  induction l as [|x l IH]; intros fuel o s u i a Hs Ha Hi Ho Hf; cbn [length] in *.
  - rewrite Nat.add_0_r. destruct fuel; cbn [blit]; [done|]. apply (f_equal length) in Hs. rewrite length_drop in Hs. simpl in Hs.
    rewrite (proj2 (Z.leb_le (js_length s) _)) by (unfold js_length; lia). by rewrite orb_true_r, andb_false_r.
  - destruct fuel as [|fuel]; [lia|]. cbn [blit]. pose proof (f_equal length Hs) as Hl. rewrite length_drop in Hl. simpl in Hl.
    rewrite (proj2 (Z.ltb_lt _ _)) by lia. rewrite !(proj2 (Z.leb_gt _ _)) by (unfold js_length in *; lia). cbn [negb orb andb].
    replace (Z.of_nat u + 1) with (Z.of_nat (S u)) by lia. rewrite IH.
    + assert (get s (Z.of_nat u) = Some x) as ->.
      { rewrite <- (Z.add_0_r (Z.of_nat u)). rewrite (get_drop s u 0 (x :: l) []); [done|by rewrite app_nil_r|simpl; lia]. }
      cbn [store num default]. f_equal; [|lia]. f_equal; lia.
    + replace (S u) with (u + 1)%nat by lia. by rewrite <- drop_drop, Hs.
    + lia.
    + done.
    + unfold js_length in *. rewrite length_put8. lia.
    + lia.
Qed.

Lemma store_all buf bs : Forall is_byte bs -> length buf = length bs -> store buf 0 bs = bs.
Proof.
  intros Hb Hl. pose proof (store_fill [] bs buf (eq_sym Hl)) as Hs. change (js_length []) with 0 in Hs.
  cbn [app] in Hs. by rewrite Hs, ToUint8_bytes.
Qed.
Lemma blit_all buf bs : Forall is_byte bs -> length buf = length bs ->
  blitBuffer bs buf 0 (js_length buf) = (bs, js_length bs).
Proof.
  intros Hb Hl. unfold blitBuffer. pose proof (blit_store bs (length bs) buf bs 0 0 (js_length buf)) as Hs.
  change (Z.of_nat 0) with 0 in Hs. rewrite Hs by (unfold js_length; lia || done). by rewrite store_all.
Qed.

Lemma createBuffer_ok n : 0 <= n <= kMaxLength -> createBuffer (0 |' n) = Ok (replicate (Z.to_nat n) 0) /\ 0 |' n = n.
Proof.
  unfold kMaxLength. intros Hn. assert (0 |' n = n) as Heq by (unfold js_or; by rewrite !ToInt32_id by lia).
  rewrite Heq. split; [|done]. unfold createBuffer, new_Uint8Array, kMaxLength. by rewrite !(proj2 (Z.ltb_ge _ _)) by lia.
Qed.

(** A string becomes the bytes [bs] when its size is computed as their number and
    writing it into as many bytes yields them. *)
Lemma fromString_ok s enc e bs : encoding_of enc = Some e -> js_length bs <= kMaxLength ->
  Buffer_byteLength s enc = Ok (js_length bs) ->
  (forall buf, length buf = length bs -> write buf s 0 (js_length buf) enc = Ok (bs, js_length bs)) ->
  fromString s enc = Ok bs.
Proof.
  intros He Hb Hl Hw. unfold fromString. rewrite (encoding_nonempty _ _ He). unfold isEncoding. rewrite <- encoding_of_lower, He.
  cbn [negb]. rewrite Hl. destruct (createBuffer_ok (js_length bs)) as [Hc Hi]; [unfold js_length in *; lia|].
  rewrite Hc, Hi, Hw.
  - by rewrite Z.eqb_refl.
  - rewrite length_replicate. unfold js_length. lia.
Qed.
(** Writing at 0 into all of a buffer. *)
Lemma write_whole buf s enc e : encoding_of enc = Some e ->
  write buf s 0 (js_length buf) enc =
    match e with
    | Hex => Ok (hexWrite buf s 0 (js_length buf))
    | Utf8 => utf8Write buf s 0 (js_length buf)
    | Ascii | Latin1 => Ok (asciiWrite buf s 0 (js_length buf))
    | Base64 => base64Write buf s 0 (js_length buf)
    | Utf16le => Ok (ucs2Write buf s 0 (js_length buf))
    end.
Proof.
  intros He. unfold write. rewrite Z.sub_0_r, Z.ltb_irrefl. rewrite !(proj2 (Z.ltb_ge _ 0)) by (unfold js_length; lia).
  cbn [orb]. rewrite andb_false_r. cbn [orb].
  rewrite (encoding_nonempty _ _ He), He. by destruct e.
Qed.
(** What each encoding shows of a buffer. *)
Definition shown (e : Encoding) (bs : list Z) : JsString :=
  match e with
  | Hex => hexSlice bs 0 (js_length bs)
  | Utf8 => utf8Slice bs 0 (js_length bs)
  | Ascii => asciiSlice bs 0 (js_length bs)
  | Latin1 => latin1Slice bs 0 (js_length bs)
  | Base64 => fromByteArray bs
  | Utf16le => utf16leSlice bs 0 (js_length bs)
  end.
Lemma toString_whole bs enc e : encoding_of enc = Some e -> js_length bs <= kMaxLength ->
  Buffer_toString bs enc = Ok (shown e bs).
Proof.
  intros He Hb. destruct bs as [|b bs]; [by destruct e|]. assert (0 < js_length (b :: bs)) as Hp by (unfold js_length; simpl; lia).
  set (l := b :: bs) in *. unfold kMaxLength in Hb. unfold Buffer_toString. rewrite (proj2 (Z.eqb_neq _ _)) by lia.
  unfold slowToString. rewrite (proj2 (Z.ltb_ge (js_length l) 0)), (proj2 (Z.leb_gt (js_length l) 0)) by lia.
  rewrite !ToUint32_id by lia. rewrite (proj2 (Z.leb_gt (js_length l) 0)) by lia.
  rewrite (encoding_nonempty _ _ He), He. destruct e; try done. unfold base64Slice. by rewrite !Z.eqb_refl.
Qed.

(** ** Each encoding *)

(** Buffers up to the longest string of current engines, 2^29 units. *)
Definition small {A} (l : list A) : Prop := js_length l < 2 ^ 29.

Lemma hex_there_back enc bs : encoding_of enc = Some Hex -> Forall is_byte bs -> small bs ->
  fromString (hexSlice bs 0 (js_length bs)) enc = Ok bs.
Proof.
  intros He Hb Hs. unfold small in Hs.
  assert (hexSlice bs 0 (js_length bs) = bs ≫= hex_pair) as ->.
  { unfold hexSlice. cbn [Z.ltb Z.compare]. rewrite Z.ltb_irrefl, orb_false_r.
    destruct (_ || _); rewrite <- (window_all bs) at 3; unfold window; by rewrite Z.min_id. }
  pose proof (hex_pairs_length bs Hb) as Hlen. set (s := bs ≫= hex_pair) in *.
  assert (js_length s = 2 * js_length bs) as Hl by (unfold js_length; lia).
  apply (fromString_ok _ _ Hex); [done|unfold kMaxLength; lia| |].
  - unfold Buffer_byteLength. rewrite He, Hl. destruct (Z.eqb_spec (2 * js_length bs) 0); [f_equal; lia|].
    pose proof (js_length_nonneg bs). rewrite js_shr_pos by lia. f_equal. change (2 ^ 1) with 2. rewrite Z.mul_comm. by rewrite Z.div_mul by done.
  - intros buf Hbuf. rewrite (write_whole _ _ _ _ He). unfold hexWrite.
    assert (js_length buf = js_length bs) as -> by (unfold js_length; lia).
    rewrite Z.sub_0_r, Z.ltb_irrefl, Hl. replace (if js_length bs =? 0 then js_length bs else js_length bs) with (js_length bs) by (by case_match).
    rewrite Z.ltb_irrefl. f_equal. pose proof (hex_write_ok bs (length s) buf s 0 (2 * js_length bs)) as Hw.
    change (Z.of_nat 0) with 0 in Hw. rewrite Hw; [|done..|lia]. by rewrite store_all.
Qed.

(** Both one-byte encodings write the bytes of the units. *)
Lemma latin1_write enc e s : encoding_of enc = Some e -> e = Latin1 \/ e = Ascii -> Forall is_byte s -> small s ->
  fromString s enc = Ok s.
Proof.
  intros He Hcase Hb Hs. unfold small in Hs. apply (fromString_ok _ _ e); [done|unfold kMaxLength; lia| |].
  - unfold Buffer_byteLength. rewrite He. destruct (Z.eqb_spec (js_length s) 0) as [Hz|]; [by rewrite Hz|].
    by destruct Hcase as [-> | ->].
  - intros buf Hbuf. rewrite (write_whole _ _ _ _ He). unfold asciiWrite. rewrite asciiToBytes_bytes by done.
    rewrite blit_all by done. by destruct Hcase as [-> | ->].
Qed.
Lemma byte_units l : Forall is_byte l -> Forall is_unit l.
Proof. intros Hl. eapply Forall_impl; [exact Hl|]. unfold is_byte, is_unit. simpl. lia. Qed.
Lemma latin1_read bs : Forall is_byte bs -> latin1Slice bs 0 (js_length bs) = bs.
Proof. intros Hb. unfold latin1Slice. rewrite window_all. by apply fromCharCode_units, byte_units. Qed.

Lemma utf16le_bytes s n : Forall is_unit s -> Forall is_byte (utf16leToBytes s n).
Proof.
  intros Hs. revert n. induction Hs as [|c s Hc Hs IH]; intros n; cbn [utf16leToBytes]; [constructor|].
  destruct (_ <? 0); [constructor|]. unfold is_unit in Hc. rewrite js_sar_pos by lia. repeat constructor; [..|done];
    unfold is_byte; change (2 ^ 8) with 256; Z.to_euclidean_division_equations; lia.
Qed.
Lemma utf16le_there enc s : encoding_of enc = Some Utf16le -> Forall is_unit s -> small s ->
  exists bs, fromString s enc = Ok bs /\ Forall is_byte bs /\ js_length bs = 2 * js_length s /\
    utf16leSlice bs 0 (js_length bs) = s.
Proof.
  intros He Hu Hs. unfold small in Hs. destruct (utf16le_ok s (length s) Hu ltac:(lia)) as [Hread Hlen].
  set (bs := utf16leToBytes s _) in *. assert (js_length bs = 2 * js_length s) as Hl by (unfold js_length; lia).
  assert (Forall is_byte bs) as Hb by by apply utf16le_bytes. exists bs. split_and!; [|done|done|].
  - apply (fromString_ok _ _ Utf16le); [done|unfold kMaxLength; lia| |].
    + unfold Buffer_byteLength. rewrite He, Hl. destruct (Z.eqb_spec (js_length s) 0) as [Hz|]; [by rewrite Hz|done].
    + intros buf Hbuf. rewrite (write_whole _ _ _ _ He). unfold ucs2Write. rewrite Z.sub_0_r.
      replace (utf16leToBytes s (js_length buf)) with bs; [by rewrite blit_all|]. unfold bs. f_equal.
      unfold js_length. rewrite Hbuf. lia.
  - unfold utf16leSlice. fold (window bs 0 (js_length bs)). pose proof (window_all bs) as Hw. unfold window in Hw.
    rewrite Z.min_id in Hw. by rewrite Hw.
Qed.

(** *** UTF-8 *)

Lemma enc_length c : 0 <= c < 1114112 -> (length (enc c) <= 4)%nat /\ (c < 65536 -> (length (enc c) <= 3)%nat).
Proof.
  intros Hc. unfold enc, code_point. repeat case_match; simpl in *; simplify_eq; try (split; simpl; lia).
Qed.
Lemma encoded_length s : Forall is_unit s -> (length (encoded s) <= 3 * length s)%nat.
Proof.
  unfold encoded. induction s as [|c rest Hc IH|c Hc|c d rest Hc Hd IH|c d rest Hc Hd IH] using surrogate_ind; intros Hs; [done|..];
    apply Forall_cons in Hs as [Hu Hs]; cbn [code_points]; rewrite Hc.
  - specialize (IH Hs). destruct (is_trail c); rewrite bind_cons, length_app; cbn [length].
    + change (length (enc 65533)) with 3%nat. lia.
    + unfold is_unit in Hu. destruct (enc_length c) as [_ H3]; [lia|]. specialize (H3 ltac:(lia)). lia.
  - simpl. lia.
  - apply Forall_cons in Hs as [Hv Hs]. specialize (IH Hs). rewrite Hd, bind_cons, length_app. cbn [length].
    destruct (enc_length (pair_of c d)) as [H4 _]; [surr; lia|]. lia.
  - specialize (IH Hs). cbn [code_points] in IH. rewrite Hd in *. rewrite bind_cons, length_app. cbn [length] in *.
    change (length (enc 65533)) with 3%nat. lia.
Qed.
Lemma without_last_lead_length s : (length (without_last_lead s) <= length s)%nat.
Proof.
  induction s as [|c rest IH]; [done|]. cbn [without_last_lead]. destruct rest as [|d []]; simpl in *; try lia.
  destruct (_ && _); simpl; lia.
Qed.
Lemma utf8_there enc s : encoding_of enc = Some Utf8 -> Forall is_unit s -> small s ->
  fromString s enc = Ok (encoded (without_last_lead s)) /\ js_length (encoded (without_last_lead s)) <= kMaxLength.
Proof.
  intros He Hu Hs. unfold small in Hs. pose proof (without_last_lead_sub s Hu) as Hw.
  pose proof (encoded_length _ Hw) as Hl. pose proof (without_last_lead_length s) as Hwl. unfold kMaxLength.
  assert (js_length (encoded (without_last_lead s)) <= 2147483647) as Hmax by (unfold js_length in *; lia). split; [|done].
  destruct (utf8_loop_ok s Hu) as [Hall _]. set (bs := encoded _) in *.
  apply (fromString_ok _ _ Utf8); [done..| |].
  - unfold Buffer_byteLength, utf8ToBytes. rewrite He, Hall. destruct (Z.eqb_spec (js_length s) 0) as [Hz|]; [|done].
    destruct s; [done|unfold js_length in Hz; simpl in Hz; lia].
  - intros buf Hbuf. rewrite (write_whole _ _ _ _ He). unfold utf8Write, utf8ToBytes. rewrite Z.sub_0_r.
    replace (utf8_loop s _ None) with (Ok bs : res js_err (list Z)); [rewrite blit_all; [done|by apply encoded_bytes|done]|].
    destruct (utf8_loop_budget s (js_length buf) None bs Hall) as (p & Hp & _ & _ & Hfit).
    rewrite Hfit in Hp by (unfold js_length; lia). destruct (js_length buf) eqn:Hj; [by rewrite Hall|by rewrite Hp..].
Qed.

(** *** ASCII *)

Lemma low_bits bs : Forall is_byte bs -> (fun b => 127 &' b) <$> bs = (fun b => b mod 128) <$> bs.
Proof.
  induction 1 as [|b bs Hx Hb IH]; [done|]. rewrite !fmap_cons, IH. f_equal.
  apply (below_decide 256 (fun b => 127 &' b = b mod 128)); [by vm_compute|exact Hx].
Qed.
Lemma low_bytes bs : Forall is_byte ((fun b => b mod 128) <$> bs).
Proof. apply Forall_fmap, Forall_true. intros b. unfold is_byte. simpl. pose proof (Z.mod_pos_bound b 128). lia. Qed.
Lemma ascii_read bs : Forall is_byte bs -> asciiSlice bs 0 (js_length bs) = (fun b => b mod 128) <$> bs.
Proof. intros Hb. unfold asciiSlice. rewrite window_all, low_bits by done. apply fromCharCode_units, byte_units, low_bytes. Qed.

(** *** Base64 *)

Lemma pad_to_4_is k : forall fuel s, (k <= fuel)%nat -> (k < 4)%nat -> (js_length s + Z.of_nat k) mod 4 = 0 ->
  pad_to_4 fuel s = s ++ replicate k 61.
Proof.
  induction k as [|k IH]; intros fuel s Hf Hk Hm.
  - rewrite Z.add_0_r in Hm. rewrite app_nil_r. destruct fuel; cbn [pad_to_4]; [done|]. by rewrite Hm.
  - destruct fuel as [|fuel]; [lia|]. cbn [pad_to_4].
    destruct (Z.eqb_spec (js_length s mod 4) 0) as [Hz|_]; [exfalso; Z.to_euclidean_division_equations; lia|].
    rewrite IH; [by rewrite <- app_assoc|lia|lia|]. unfold js_length in *. rewrite length_app. cbn [length].
    rewrite <- Hm. f_equal. lia.
Qed.

Lemma sextets_length bs :
  ((length (sextets bs) + length (padding (length bs)) = 4 * ((length bs + 2) / 3)) /\
   (length bs <= 3 * length (sextets bs)) /\ (length (padding (length bs)) < 3))%nat /\
  padding (length bs) = replicate (length (padding (length bs))) 61.
Proof.
  destruct (split3 bs) as (l & t & -> & [n Hn] & Ht).
  rewrite sextets_app, length_app, sextets_len, length_app, Hn by (by exists n).
  rewrite (Nat.mul_comm 3 n), Nat.div_mul by lia.
  assert (padding (n * 3 + length t) = padding (length t)) as ->.
  { unfold padding. by rewrite Nat.add_comm, Nat.Div0.mod_add. }
  replace (n * 3 + length t + 2)%nat with (length t + 2 + n * 3)%nat by lia. rewrite Nat.div_add by lia.
  destruct t as [|a [|b [|]]]; cbn [length sextets] in *; try lia; cbn; split_and!; (done || lia).
Qed.

Lemma base64_there_back enc bs : encoding_of enc = Some Base64 -> Forall is_byte bs -> small bs ->
  fromString (fromByteArray bs) enc = Ok bs.
Proof.
  intros He Hb Hs. unfold small in Hs. rewrite fromByteArray_std by done.
  pose proof (sextets_range bs Hb) as Hr. destruct (sextets_length bs) as ((Hlen & Hpos & Hp) & Hpad).
  assert (base64ToBytes (StdEncode bs) = Ok bs) as Hdec.
  { rewrite <- (proj2 (toByteArray_std bs Hb)). unfold base64ToBytes. f_equal.
    unfold base64clean, StdEncode, RawStdEncode. fold (b64_units (sextets bs)).
    rewrite before_pad_std by (done || (rewrite Hpad; destruct (length (padding _)); simpl; eauto)).
    rewrite b64_units_clean by done. pose proof (proj1 (b64_units_rev _ Hr)) as Hl.
    destruct (Z.ltb_spec (js_length (b64_units (sextets bs))) 2) as [Hlt|Hge].
    - unfold js_length in Hlt. rewrite Hl in Hlt. destruct bs as [|x bs]; [done|].
      assert (1 <= (length (x :: bs) + 2) / 3)%nat by (apply Nat.div_le_lower_bound; simpl; lia). lia.
    - rewrite Hpad. apply pad_to_4_is; [lia|lia|]. unfold js_length. rewrite Hl.
      replace (_ + _) with (Z.of_nat ((length bs + 2) / 3) * 4) by (rewrite <- Nat2Z.inj_add, Hlen; lia). by apply Z.mod_mul. }
  apply (fromString_ok _ _ Base64); [done|unfold kMaxLength; lia| |].
  - unfold Buffer_byteLength. rewrite He, Hdec. destruct (Z.eqb_spec (js_length (StdEncode bs)) 0) as [Hz|]; [|done].
    destruct bs as [|x bs]; [done|]. unfold StdEncode, RawStdEncode, js_length in Hz.
    fold (b64_units (sextets (x :: bs))) in Hz. rewrite length_app, (proj1 (b64_units_rev _ Hr)) in Hz. cbn [length] in Hpos. lia.
  - intros buf Hbuf. rewrite (write_whole _ _ _ _ He). unfold base64Write. rewrite Hdec. by rewrite blit_all.
Qed.

(** C33: strings to bytes to strings, by any spelling of the encoding's name, up to
    2^29 units. Bytes shown in hexadecimal, base64 or Latin-1 and read back are the
    same bytes; shown in ASCII they come back without their highest bits. A string
    stored as UTF-16 and shown is the same string; stored as UTF-8 it is its well-formed
    version, but for a last lead surrogate that is lost (see [utf8_roundtrip]). *)
Theorem Buffer_roundtrip enc e l : encoding_of enc = Some e -> small l ->
  match e with
  | Hex | Base64 | Latin1 => Forall is_byte l ->
      exists s, Buffer_toString l enc = Ok s /\ fromString s enc = Ok l
  | Ascii => Forall is_byte l -> exists s, Buffer_toString l enc = Ok s /\ fromString s enc = Ok ((fun b => b mod 128) <$> l)
  | Utf16le => Forall is_unit l -> exists bs, fromString l enc = Ok bs /\ Buffer_toString bs enc = Ok l
  | Utf8 => Forall is_unit l -> exists bs, fromString l enc = Ok bs /\
      Buffer_toString bs enc = Ok (toWellFormed (without_last_lead l))
  end.
Proof.
  intros He Hs. assert (js_length l <= kMaxLength) as Hmax by (unfold small, kMaxLength in *; lia).
  pose proof (fun bs => toString_whole bs enc e He) as Hshow. destruct e; cbn [shown] in Hshow; intros Hl.
  - eexists. split; [by apply Hshow|]. by apply hex_there_back.
  - destruct (utf8_there enc l He Hl Hs) as [Hf Hm]. eexists. split; [exact Hf|]. rewrite Hshow by done. by rewrite utf8_read.
  - eexists. split; [by apply Hshow|]. rewrite ascii_read by done. apply (latin1_write _ _ _ He); [by right|apply low_bytes|].
    unfold small, js_length in *. by rewrite length_fmap.
  - eexists. split; [by apply Hshow|]. rewrite latin1_read by done. apply (latin1_write _ _ _ He); [by left|done..].
  - eexists. split; [by apply Hshow|]. by apply base64_there_back.
  - destruct (utf16le_there enc l He Hl Hs) as (bs & Hf & Hb & Hlen & Hr). exists bs. split; [done|].
    unfold small, kMaxLength in *. rewrite Hshow by lia. by rewrite Hr.
Qed.

Lemma Buffer_roundtrip_witness :
  (exists s, Buffer_toString [222; 173; 190; 239] (units "HEX") = Ok s /\ fromString s (units "HEX") = Ok [222; 173; 190; 239]) /\
  (exists bs, fromString [8364; 55296; 97] (units "utf-8") = Ok bs /\ Buffer_toString bs (units "utf-8") = Ok [8364; 65533; 97]).
Proof.
  split.
  - apply (Buffer_roundtrip (units "HEX") Hex [222; 173; 190; 239]); [done..|]. repeat constructor; by compute.
  - apply (Buffer_roundtrip (units "utf-8") Utf8 [8364; 55296; 97]); [done..|]. repeat constructor; by compute.
Defined.

(** ** Comparison *)

Definition sign_of (p : Z * Z) : Z := if p.1 <? p.2 then -1 else if p.2 <? p.1 then 1 else 0.
(** The reference: lexicographic order. *)
Fixpoint lex (s o : list Z) : Z :=
  match s, o with
  | [], [] => 0
  | [], _ => -1
  | _, [] => 1
  | a :: s, b :: o => if a =? b then lex s o else sign_of (a, b)
  end.

Lemma get_head {A} (l : list A) (u : nat) x k : drop u l = x :: k -> get l (Z.of_nat u) = Some x.
Proof.
  intros Hl. rewrite <- (Z.add_0_r (Z.of_nat u)). rewrite (get_drop l u 0 (x :: k) []); [done|by rewrite app_nil_r|simpl; lia].
Qed.
Lemma drop_next {A} (l : list A) (u : nat) x k : drop u l = x :: k -> drop (S u) l = k /\ (u < length l)%nat.
Proof.
  intros Hl. split; [replace (S u) with (u + 1)%nat by lia; by rewrite <- drop_drop, Hl|].
  apply (f_equal length) in Hl. rewrite length_drop in Hl. simpl in Hl. lia.
Qed.

Lemma compare_from l : forall k fuel s o (u : nat), drop u s = l -> drop u o = k -> (u <= length s)%nat -> (u <= length o)%nat ->
  (length l <= fuel)%nat ->
  sign_of (default (js_length s, js_length o) (compare_loop fuel s o (Z.of_nat u) (Z.min (js_length s) (js_length o)))) = lex l k.
Proof.
  induction l as [|a l IH]; intros k fuel s o u Hs Ho Hus Huo Hf.
  - assert (length s = u) as Hl by (apply (f_equal length) in Hs; rewrite length_drop in Hs; simpl in Hs; lia).
    replace (compare_loop _ _ _ _ _) with (None : option (Z * Z)).
    + unfold sign_of, js_length; simpl. apply (f_equal length) in Ho. rewrite length_drop in Ho.
      destruct k; simpl in *; repeat case_match; rewrite ?Z.ltb_lt, ?Z.ltb_ge in *; lia.
    + destruct fuel; cbn [compare_loop]; [done|]. by rewrite (proj2 (Z.ltb_ge _ _)) by (unfold js_length; lia).
  - destruct fuel as [|fuel]; [simpl in Hf; lia|]. cbn [compare_loop]. destruct (drop_next _ _ _ _ Hs) as [Hs' Hls].
    destruct k as [|b k].
    + assert (length o = u) as Hl by (apply (f_equal length) in Ho; rewrite length_drop in Ho; simpl in Ho; lia).
      rewrite (proj2 (Z.ltb_ge _ _)) by (unfold js_length; lia). unfold sign_of, js_length; simpl.
      by rewrite (proj2 (Z.ltb_ge _ _)), (proj2 (Z.ltb_lt _ _)) by lia.
    + destruct (drop_next _ _ _ _ Ho) as [Ho' Hlo]. rewrite (proj2 (Z.ltb_lt _ _)) by (unfold js_length; lia).
      rewrite (get_head _ _ _ _ Hs), (get_head _ _ _ _ Ho). change (num (Some a)) with a. change (num (Some b)) with b. cbn [lex].
      destruct (Z.eqb_spec a b) as [->|Hne]; [|done].
      replace (Z.of_nat u + 1) with (Z.of_nat (S u)) by lia. apply IH; (done || simpl in Hf; lia).
Qed.
Lemma Buffer_compare_lex s o : Buffer_compare s o = lex s o.
Proof.
  rewrite <- (compare_from s o (length s) s o 0) by (done || lia). unfold Buffer_compare, sign_of, default, id.
  change (Z.of_nat 0) with 0. by destruct (compare_loop _ _ _ _ _) as [[]|].
Qed.
Lemma lex_anti s : forall o, lex o s = - lex s o.
Proof.
  induction s as [|a s IH]; intros [|b o]; try done. cbn [lex]. rewrite Z.eqb_sym. destruct (Z.eqb_spec a b); [done|].
  unfold sign_of; simpl. repeat case_match; rewrite ?Z.ltb_lt, ?Z.ltb_ge in *; lia.
Qed.
Lemma lex_zero s : forall o, lex s o = 0 <-> s = o.
Proof.
  induction s as [|a s IH]; intros [|b o]; try done. cbn [lex]. destruct (Z.eqb_spec a b) as [->|Hne].
  - rewrite IH. split; [by intros ->|by intros [= ->]].
  - split; [|by intros [= ??]]. unfold sign_of; simpl. repeat case_match; rewrite ?Z.ltb_lt, ?Z.ltb_ge in *; lia.
Qed.
Lemma lex_trans s : forall o t, lex s o <= 0 -> lex o t <= 0 -> lex s t <= 0.
Proof.
  induction s as [|a s IH]; intros [|b o] [|c t]; try done; try (simpl; lia). cbn [lex].
  specialize (IH o t). unfold sign_of; simpl. repeat case_match; rewrite ?Z.ltb_lt, ?Z.ltb_ge, ?Z.eqb_eq, ?Z.eqb_neq in *; subst; try lia.
Qed.

(** [Buffer.compare] is the lexicographic order of bytes: a total order whose
    equality is equality of contents, and [equals] is that equality. *)
Theorem Buffer_compare_order s o t :
  Buffer_compare s o = lex s o /\ Buffer_compare o s = - Buffer_compare s o /\
  (Buffer_equals s o = true <-> s = o) /\
  (Buffer_compare s o <= 0 /\ Buffer_compare o t <= 0 -> Buffer_compare s t <= 0).
Proof.
  unfold Buffer_equals. rewrite !Buffer_compare_lex. split_and!; [done|apply lex_anti|by rewrite Z.eqb_eq, <- lex_zero|].
  intros [??]. by apply (lex_trans s o t).
Qed.

(** ** Search *)

(** The bytes of [o] stand at [p] in [s]. *)
Definition occurs (s o : list Z) (p : Z) : Prop := 0 <= p /\ take (length o) (drop (Z.to_nat p) s) = o.

Lemma occurs_bounds s o p : o <> [] -> occurs s o p -> 0 <= p /\ p + js_length o <= js_length s.
Proof.
  intros Ho [Hp Ht]. split; [done|]. apply (f_equal length) in Ht. rewrite length_take, length_drop in Ht.
  destruct o as [|b o]; [done|]. cbn [length] in *. unfold js_length. cbn [length]. lia.
Qed.
Lemma get_plus {A} (l : list A) p (j : nat) : 0 <= p -> get l (p + Z.of_nat j) = drop (Z.to_nat p) l !! j.
Proof.
  intros Hp. rewrite lookup_drop. replace (p + Z.of_nat j) with (Z.of_nat (Z.to_nat p + j)) by lia. apply get_nat.
Qed.
Lemma occurs_get s o p : occurs s o p <-> 0 <= p /\ forall j : nat, (j < length o)%nat -> get s (p + Z.of_nat j) = o !! j.
Proof.
  unfold occurs. split; intros [Hp Hs]; (split; [done|]).
  - intros j Hj. rewrite get_plus by done. rewrite <- (lookup_take_lt _ (length o)) by done. by rewrite Hs.
  - apply list_eq. intros j. destruct (decide (j < length o)%nat) as [Hj|Hj].
    + rewrite lookup_take_lt, <- Hs by done. by rewrite get_plus.
    + rewrite lookup_take_ge by lia. symmetry. apply lookup_ge_None. lia.
Qed.

Lemma num_get (l : list Z) p : 0 <= p < js_length l -> exists x, get l p = Some x /\ num (get l p) = x /\ x ∈ l.
Proof.
  intros Hp. unfold get. rewrite (proj2 (Z.ltb_ge _ _)) by lia.
  destruct (lookup_lt_is_Some_2 l (Z.to_nat p)) as [x Hx]; [unfold js_length in *; lia|]. rewrite Hx.
  exists x. split_and!; [done..|]. by eapply list_elem_of_lookup_2.
Qed.
Lemma unit_width_cases enc : unit_width enc = 1 \/ unit_width enc = 2.
Proof. unfold unit_width. repeat case_match; auto. Qed.
Lemma read_unit_two s k : Forall is_byte s -> 0 <= k -> k + 2 <= js_length s ->
  read_unit 2 s k = Ok (num (get s k) * 256 + num (get s (k + 1))).
Proof.
  intros Hs Hk Hl. unfold read_unit, checkOffset. cbn [Z.eqb Pos.eqb]. rewrite !(proj2 (Z.ltb_ge _ _)) by lia.
  destruct (num_get s k ltac:(lia)) as (x & _ & -> & Hx), (num_get s (k + 1) ltac:(lia)) as (y & _ & -> & Hy).
  rewrite Forall_forall in Hs. pose proof (Hs x Hx) as Hbx. pose proof (Hs y Hy) as Hby. unfold is_byte in *. f_equal.
  rewrite js_shl_pos by lia. change (2 ^ 8) with 256. change 256 with (2 ^ 8) at 1 2. apply js_or_add; lia.
Qed.

Section Search.
Context (s o : list Z) (Ho : o <> []) (w : Z) (Hw : w = 1 \/ w = 2).

(** *** Every search ends *)

Lemma same_unit_second x y b : same_unit w s x o y = Ok b -> 0 <= y < js_length o -> y + w <= js_length o.
Proof.
  intros Hs Hy. destruct Hw as [->| ->]; [lia|]. unfold same_unit in Hs. destruct (read_unit 2 s x); [|done].
  unfold read_unit, checkOffset in Hs. cbn [Z.eqb Pos.eqb] in Hs. destruct (y <? 0) eqn:H1; [done|]. destruct (_ <? y + 2) eqn:H2; [done|]. apply Z.ltb_ge in H2. lia.
Qed.
Lemma start_of a j : 0 <= a -> 0 <= j ->
  (if (if j =? 0 then -1 else a) =? -1 then 0 else a + j - (if j =? 0 then -1 else a)) = j /\
  (if (if j =? 0 then -1 else a) =? -1 then a + j else if j =? 0 then -1 else a) = a.
Proof.
  intros Ha Hj. destruct (Z.eqb_spec j 0) as [->|]; [split; cbn; lia|]. rewrite (proj2 (Z.eqb_neq a (-1))) by lia. split; lia.
Qed.

(** Steps left: whole starts, less the bytes matched at the current one. *)
Lemma indexOf_loop_ends fuel : forall a j, 0 <= a -> 0 <= j < js_length o -> (0 < fuel)%nat ->
  (js_length s - a) * js_length o - j < Z.of_nat fuel -> is_Some (indexOf_loop fuel w s o (a + j) (if j =? 0 then -1 else a)).
Proof.
  induction fuel as [|fuel IH]; intros a j Ha Hj Hpos Hf; [lia|]. cbn [indexOf_loop].
  destruct (Z.ltb_spec (a + j) (js_length s)) as [Hlt|Hge]; [|by eexists]. destruct (start_of a j Ha ltac:(lia)) as [-> ->].
  assert (0 < w) by lia. pose proof (js_length_nonneg s).
  destruct (same_unit w s (a + j) o j) as [[]|e] eqn:Hu; [| |by eexists].
  - replace (a + j - a + w) with (j + w) by lia. destruct (Z.eqb_spec (j + w) (js_length o)) as [|Hmore]; [by eexists|].
    apply same_unit_second in Hu; [|lia]. specialize (IH a (j + w)). rewrite (proj2 (Z.eqb_neq (j + w) 0)), Z.add_assoc in IH by lia.
    apply IH; [lia..| |lia]. destruct fuel; [exfalso; nia|lia].
  - specialize (IH (a + w) 0). rewrite Z.add_0_r in IH. apply IH; [lia|lia| |nia]. destruct fuel; [exfalso; nia|lia].
Qed.
Lemma matches_at_ends k fuel : forall a, 0 <= a -> (0 < fuel)%nat -> js_length o - a < Z.of_nat fuel -> is_Some (matches_at fuel w s o k a).
Proof.
  induction fuel as [|fuel IH]; intros a Ha Hpos Hf; cbn [matches_at].
  - lia.
  - destruct (Z.ltb_spec a (js_length o)) as [Hlt|]; [|by eexists]. destruct (same_unit _ _ _ _ _) as [[]|e]; [|by eexists..].
    apply IH; lia.
Qed.
Lemma lastIndexOf_loop_ends fuel : forall k, (0 < fuel)%nat -> k + 1 < Z.of_nat fuel -> is_Some (lastIndexOf_loop fuel w s o k).
Proof.
  induction fuel as [|fuel IH]; intros k Hpos Hf; [lia|]. cbn [lastIndexOf_loop]. destruct (Z.leb_spec 0 k); [|by eexists].
  destruct (matches_at_ends k (S (length o)) 0) as [[[]|e] ->]; [lia|lia|unfold js_length; lia|by eexists| |by eexists].
  apply IH; lia.
Qed.

(** *** One comparison *)

Context (Hb : w = 2 -> Forall is_byte s /\ Forall is_byte o /\ (2 | js_length o)).

Lemma width_divides : (w | js_length o).
Proof. destruct Hw as [E|E]; rewrite E; [apply Z.divide_1_l|by apply Hb]. Qed.
(** A place [w] divides the distance to, at or after [k]. *)
Lemma aligned_next k p : (w | p - k) -> k <= p -> p = k \/ k + w <= p /\ (w | p - (k + w)).
Proof.
  intros [z Hz] Hle. destruct Hw as [E|E]; rewrite E in *.
  - destruct (decide (p = k)); [by left|right]. split; [lia|apply Z.divide_1_l].
  - destruct (decide (p = k)); [by left|right]. split; [lia|]. exists (z - 1). lia.
Qed.
Lemma same_unit_bytes x y : 0 <= x -> x + w <= js_length s -> 0 <= y -> y + w <= js_length o ->
  exists b, same_unit w s x o y = Ok b /\ (b = true <-> forall i : nat, Z.of_nat i < w -> get s (x + Z.of_nat i) = get o (y + Z.of_nat i)).
Proof.
  intros Hx Hxs Hy Hyo. unfold same_unit. destruct Hw as [E|E].
  - rewrite E in *. cbn [read_unit Z.eqb Pos.eqb]. unfold read_unit. cbn [Z.eqb Pos.eqb]. eexists. split; [done|].
    destruct (num_get s x ltac:(lia)) as (u & Hu & -> & _), (num_get o y ltac:(lia)) as (v & Hv & -> & _). rewrite Z.eqb_eq. split.
    + intros -> i Hi. replace (Z.of_nat i) with 0 by lia. rewrite !Z.add_0_r. congruence.
    + intros Hall. specialize (Hall 0%nat ltac:(lia)). rewrite !Z.add_0_r in Hall. congruence.
  - destruct (Hb E) as (Hbs & Hbo & _). rewrite E in *. rewrite !read_unit_two by (done || lia). eexists. split; [done|].
    destruct (num_get s x ltac:(lia)) as (u & Hu & -> & Iu), (num_get s (x + 1) ltac:(lia)) as (u' & Hu' & -> & Iu').
    destruct (num_get o y ltac:(lia)) as (v & Hv & -> & Iv), (num_get o (y + 1) ltac:(lia)) as (v' & Hv' & -> & Iv').
    rewrite Forall_forall in Hbs, Hbo. pose proof (Hbs _ Iu). pose proof (Hbs _ Iu'). pose proof (Hbo _ Iv). pose proof (Hbo _ Iv'). unfold is_byte in *.
    rewrite Z.eqb_eq. split.
    + intros Heq i Hi. assert (u = v /\ u' = v') as [-> ->] by lia. destruct i as [|[|i]]; [change (Z.of_nat 0) with 0; rewrite !Z.add_0_r; congruence|change (Z.of_nat 1) with 1; congruence|lia].
    + intros Hall. pose proof (Hall 0%nat ltac:(lia)) as E0. pose proof (Hall 1%nat ltac:(lia)) as E1. change (Z.of_nat 0) with 0 in E0. rewrite !Z.add_0_r in E0. change (Z.of_nat 1) with 1 in E1.
      assert (u = v) by congruence. assert (u' = v') by congruence. lia.
Qed.

(** The prefix of [o] of [j] bytes stands at [a]. *)
Definition partial (a j : Z) : Prop := forall i : nat, Z.of_nat i < j -> get s (a + Z.of_nat i) = o !! i.
(** One comparison of the loop, with [j] bytes matched from [a]. *)
Lemma compare_unit a j : 0 <= a -> 0 <= j -> j + w <= js_length o -> a + j + w <= js_length s -> partial a j ->
  exists b, same_unit w s (a + j) o j = Ok b /\ (b = true -> partial a (j + w)) /\ (b = false -> ~ occurs s o a).
Proof.
  intros Ha Hj Hjo Hs Hp. destruct (same_unit_bytes (a + j) j) as (b & Hu & Hiff); [lia..|]. exists b. split; [done|]. split.
  - intros Hbt i Hi. destruct (decide (Z.of_nat i < j)) as [|Hge]; [auto|]. pose proof (proj1 Hiff Hbt (i - Z.to_nat j)%nat ltac:(lia)) as Hg.
    replace (a + j + Z.of_nat (i - Z.to_nat j)) with (a + Z.of_nat i) in Hg by lia. rewrite Hg. rewrite <- (get_nat o i). f_equal. lia.
  - intros -> [_ Hocc]%occurs_get. enough (false = true) by done. apply Hiff. intros i Hi.
    specialize (Hocc (Z.to_nat j + i)%nat ltac:(unfold js_length in *; lia)). replace (a + j + Z.of_nat i) with (a + Z.of_nat (Z.to_nat j + i)) by lia.
    rewrite Hocc. rewrite <- (get_nat o). f_equal. lia.
Qed.
Lemma partial_all a : 0 <= a -> partial a (js_length o) -> occurs s o a.
Proof. intros Ha Hp. apply occurs_get. split; [done|]. intros j Hj. apply Hp. unfold js_length. lia. Qed.

(** *** Forwards *)

(** What the forward loop looks for: the first occurrence from [k] on, at a whole
    number of units from [k]. *)
Definition first_from (k : Z) (r : option Z) : Prop :=
  match r with
  | None => forall p, k <= p -> (w | p - k) -> ~ occurs s o p
  | Some r => k <= r /\ (w | r - k) /\ occurs s o r /\ forall p, k <= p < r -> (w | p - k) -> ~ occurs s o p
  end.
Lemma first_from_skip k r : ~ occurs s o k -> first_from (k + w) r -> first_from k r.
Proof.
  intros Hk Hr. assert (0 < w) by lia. destruct r as [r|]; cbn in *.
  - destruct Hr as (Hr & Hd & Hor & Hp). split_and!; [lia| |done|].
    + replace (r - k) with (r - (k + w) + w) by lia. by apply Z.divide_add_r; [|apply Z.divide_refl].
    + intros p Hpk Hdp. destruct (aligned_next k p Hdp) as [->|[? ?]]; [lia|done|]. apply Hp; [lia|done].
  - intros p Hpk Hdp. destruct (aligned_next k p Hdp) as [->|[? ?]]; [lia|done|]. by apply Hr.
Qed.
Lemma first_from_here k : occurs s o k -> first_from k (Some k).
Proof. intros Hk. split_and!; [lia|by exists 0; lia|done|lia]. Qed.
Lemma occurs_range p : occurs s o p -> 0 <= p < js_length s /\ p + js_length o <= js_length s.
Proof using Ho.
  clear Hb Hw. intros Hocc. destruct (occurs_bounds s o p Ho Hocc). destruct o; [done|]. unfold js_length in *. cbn [length] in *. lia.
Qed.

Lemma indexOf_loop_ok fuel : forall a j, 0 <= a -> 0 <= j < js_length o -> (w | j) -> (w | js_length s - a) -> partial a j -> a + j <= js_length s ->
  (0 < fuel)%nat -> (js_length s - a) * js_length o - j < Z.of_nat fuel ->
  exists r, indexOf_loop fuel w s o (a + j) (if j =? 0 then -1 else a) = Some (Ok r) /\ first_from a r.
Proof.
  induction fuel as [|fuel IH]; intros a j Ha Hj Hdj Hda Hp Hb' Hpos Hf; [lia|]. cbn [indexOf_loop]. assert (0 < w) by lia.
  destruct (Z.ltb_spec (a + j) (js_length s)) as [Hlt|Hge].
  - destruct (start_of a j Ha ltac:(lia)) as [-> ->].
    assert (j + w <= js_length o) as Hjo.
    { destruct (aligned_next j (js_length o)) as [|[? _]]; [apply Z.divide_sub_r; [apply width_divides|done]|lia..]. }
    assert (a + j + w <= js_length s) as Hjs.
    { destruct (aligned_next (a + j) (js_length s)) as [|[? _]]; [|lia..]. replace (js_length s - (a + j)) with (js_length s - a - j) by lia. by apply Z.divide_sub_r. }
    destruct (compare_unit a j Ha ltac:(lia) Hjo Hjs Hp) as (b & -> & Hyes & Hno). destruct b.
    + replace (a + j - a + w) with (j + w) by lia. destruct (Z.eqb_spec (j + w) (js_length o)) as [Hfull|Hmore].
      * eexists. split; [done|]. apply first_from_here, partial_all; [done|]. rewrite <- Hfull. auto.
      * specialize (IH a (j + w)). rewrite (proj2 (Z.eqb_neq (j + w) 0)), Z.add_assoc in IH by lia.
        apply IH; [lia|lia|by apply Z.divide_add_r; [|apply Z.divide_refl]|done|auto|lia| |lia]. destruct fuel; [exfalso; nia|lia].
    + specialize (IH (a + w) 0). rewrite Z.add_0_r in IH. change (if 0 =? 0 then -1 else a + w) with (-1) in IH. destruct IH as (r & -> & Hr); [lia|lia|apply Z.divide_0_r| |by intros i ?; lia|lia| |nia|].
      * replace (js_length s - (a + w)) with (js_length s - a - w) by lia. apply Z.divide_sub_r; [done|apply Z.divide_refl].
      * destruct fuel; [exfalso; nia|lia].
      * exists r. split; [done|]. apply first_from_skip; auto.
  - exists None. split; [done|]. intros p Hpa _ Hocc%occurs_range. lia.
Qed.

(** *** Backwards *)

(** The last occurrence up to [k], at a whole number of units from [k]. *)
Definition last_upto (k : Z) (r : option Z) : Prop :=
  match r with
  | None => forall p, p <= k -> (w | k - p) -> ~ occurs s o p
  | Some r => r <= k /\ (w | k - r) /\ occurs s o r /\ forall p, r < p <= k -> (w | k - p) -> ~ occurs s o p
  end.
Lemma last_upto_skip k r : ~ occurs s o k -> last_upto (k - w) r -> last_upto k r.
Proof.
  intros Hk Hr. assert (0 < w) by lia. assert (forall p, p <= k -> (w | k - p) -> p = k \/ p <= k - w /\ (w | k - w - p)) as Hnext.
  { intros p Hle Hd. destruct (aligned_next p k Hd Hle) as [->|[? Hd']]; [by left|right]. split; [lia|]. by replace (k - w - p) with (k - (p + w)) by lia. }
  destruct r as [r|]; cbn in *.
  - destruct Hr as (Hr & Hd & Hor & Hp). split_and!; [lia| |done|].
    + replace (k - r) with (k - w - r + w) by lia. by apply Z.divide_add_r; [|apply Z.divide_refl].
    + intros p Hpk Hdp. destruct (Hnext p ltac:(lia) Hdp) as [->|[? ?]]; [done|]. apply Hp; [lia|done].
  - intros p Hpk Hdp. destruct (Hnext p ltac:(lia) Hdp) as [->|[? ?]]; [done|]. by apply Hr.
Qed.
Lemma last_upto_neg k : k < 0 -> last_upto k None.
Proof. clear. intros Hk p Hp _ [? _]. lia. Qed.

Lemma matches_at_ok k : 0 <= k -> k + js_length o <= js_length s -> forall fuel a, 0 <= a <= js_length o -> (w | a) -> partial k a ->
  js_length o - a < Z.of_nat fuel -> exists b, matches_at fuel w s o k a = Some (Ok b) /\ (b = true <-> occurs s o k).
Proof.
  intros Hk Hks. assert (0 < w) by lia. induction fuel as [|fuel IH]; intros a Ha Hda Hp Hf; cbn [matches_at]; [lia|].
  destruct (Z.ltb_spec a (js_length o)) as [Hlt|Hge].
  - assert (a + w <= js_length o) as Hao.
    { destruct (aligned_next a (js_length o)) as [|[? _]]; [apply Z.divide_sub_r; [apply width_divides|done]|lia..]. }
    destruct (compare_unit k a Hk ltac:(lia) Hao ltac:(lia) Hp) as (b & -> & Hyes & Hno). destruct b.
    + apply IH; [lia|by apply Z.divide_add_r; [|apply Z.divide_refl]|auto|lia].
    + exists false. split; [done|]. split; [done|]. by intros Hocc%(Hno eq_refl).
  - exists true. split; [done|]. split; [intros _|done]. apply partial_all; [done|]. by replace (js_length o) with a by lia.
Qed.
Lemma lastIndexOf_loop_ok fuel : forall k, (0 < fuel)%nat -> k + 1 < Z.of_nat fuel -> k + js_length o <= js_length s ->
  exists r, lastIndexOf_loop fuel w s o k = Some (Ok r) /\ last_upto k r.
Proof.
  induction fuel as [|fuel IH]; intros k Hpos Hf Hks; [lia|]. cbn [lastIndexOf_loop].
  destruct (Z.leb_spec 0 k) as [Hk|Hk]; [|exists None; split; [done|by apply last_upto_neg]].
  pose proof (js_length_nonneg o). destruct (matches_at_ok k Hk Hks (S (length o)) 0) as (b & -> & Hiff);
    [lia|apply Z.divide_0_r|intros i Hi; lia|unfold js_length; lia|]. destruct b.
  - exists (Some k). split; [done|]. split_and!; [lia|by exists 0; lia|by apply Hiff|lia].
  - assert (~ occurs s o k) as Hnot by (by intros Hocc%Hiff).
    destruct (IH (k - w)) as (r & -> & Hr); [lia..|]. exists r. split; [done|]. by apply last_upto_skip.
Qed.
End Search.

(** Where a search starts: a negative offset counts from the end, an absent one is
    the whole buffer. *)
Definition search_start (n : Z) (i : option Z) (forward : bool) : Z :=
  match i with None => if forward then 0 else n - 1 | Some i => if i <? 0 then n + i else i end.

(** The start the code computes, after its clamp to 32 bits. *)
Definition code_start (n : Z) (i : option Z) (forward : bool) : Z :=
  let i := match i with
    | Some i => if 2147483647 <? i then 2147483647 else if i <? -2147483648 then -2147483648 else i
    | None => if forward then 0 else n - 1
    end in
  if i <? 0 then n + i else i.
Lemma code_start_spec n i forward : 0 < n <= kMaxLength ->
  let k := code_start n i forward in let K := search_start n i forward in
  k = K \/ n <= k /\ n <= K \/ k < 0 /\ K < 0.
Proof.
  intros Hn k K. subst k K. unfold kMaxLength in Hn. unfold code_start, search_start. destruct i as [i|].
  - destruct (Z.ltb_spec 2147483647 i), (Z.ltb_spec i (-2147483648)), (Z.ltb_spec i 0); simpl;
      repeat (rewrite (proj2 (Z.ltb_ge i 0)) by lia || rewrite (proj2 (Z.ltb_lt i 0)) by lia); lia.
  - destruct forward; [by left|]. left. by rewrite (proj2 (Z.ltb_ge _ _)) by lia.
Qed.

Definition place (at_place : Z -> Found) (r : option Z) : Found := match r with None => NotFound | Some k => at_place k end.

Section Offsets.
Context (s o : list Z) (enc : option JsString).
#[local] Abbreviation w := (unit_width enc).
#[local] Abbreviation at_end := (if w =? 1 then AtByte else AtUnit).

Lemma needle_pos : o <> [] -> 1 <= js_length o.
Proof. destruct o; [done|unfold js_length; simpl; lia]. Qed.
Lemma arrayIndexOf_ends i forward : o <> [] -> (forward = true -> 0 <= i) -> is_Some (arrayIndexOf s o i enc forward).
Proof.
  intros Ho%needle_pos Hi. pose proof (unit_width_cases enc) as Hw. unfold arrayIndexOf. destruct (_ && _); [by eexists|]. destruct forward.
  - destruct (indexOf_loop_ends s o w Hw (length s * S (length o) + 1) i 0) as [[[r|]|e] Hr]; [auto|lia|lia|unfold js_length in *; nia|..];
      rewrite Z.add_0_r in Hr; change (if 0 =? 0 then -1 else i) with (-1) in Hr; rewrite Hr; by eexists.
  - match goal with |- context [lastIndexOf_loop _ _ _ _ ?k] => set (k' := k) end.
    assert (k' + js_length o <= js_length s) by (unfold k'; destruct (Z.ltb_spec (js_length s) (i + js_length o)); lia).
    destruct (lastIndexOf_loop_ends s o w Hw (S (length s)) k') as [[[r|]|e] ->]; [lia|unfold js_length in *; lia|by eexists..].
Qed.
Lemma search_ends i forward : is_Some (bidirectionalIndexOf s o i enc forward).
Proof.
  unfold bidirectionalIndexOf. cbv zeta. destruct (_ =? 0) eqn:Hs; [by eexists|]. apply Z.eqb_neq in Hs. pose proof (js_length_nonneg s).
  assert (forall k, (forward = true -> 0 <= k) -> is_Some (if js_length o =? 0 then Some (Ok NotFound) else arrayIndexOf s o k enc forward)) as Hk.
  { intros k Hk. destruct (Z.eqb_spec (js_length o) 0); [by eexists|]. apply arrayIndexOf_ends; [by intros ->|done]. }
  set (k := if _ <? 0 then _ else _). destruct (js_length s <=? k); [destruct forward; [by eexists|by apply Hk]|].
  destruct (Z.ltb_spec k 0); [destruct forward; [by apply Hk|by eexists]|by apply Hk].
Qed.

Context (Ho : o <> []) (Hb : w = 2 -> Forall is_byte s /\ Forall is_byte o /\ (2 | js_length o)).

(** A buffer too short for a unit has no place for [o]. *)
Lemma too_short p : negb (w =? 1) && ((js_length s <? 2) || (js_length o <? 2)) = true -> ~ occurs s o p.
Proof.
  intros [H1 H2]%andb_true_iff Hocc%(occurs_bounds s o p Ho). pose proof (needle_pos Ho). apply negb_true_iff, Z.eqb_neq in H1.
  destruct (unit_width_cases enc) as [|Hw]; [done|]. destruct (Hb Hw) as (_ & _ & [z Hz]).
  apply orb_true_iff in H2 as [H2%Z.ltb_lt|H2%Z.ltb_lt]; lia.
Qed.
Lemma arrayIndexOf_forward i : 0 <= i <= js_length s -> (w | js_length s - i) ->
  exists r, arrayIndexOf s o i enc true = Some (Ok (place AtByte r)) /\ first_from s o w i r.
Proof.
  intros Hi Hd. pose proof (needle_pos Ho). unfold arrayIndexOf. destruct (_ && _) eqn:Hshort.
  { exists None. split; [done|]. intros p _ _. by apply too_short. }
  destruct (indexOf_loop_ok s o Ho w (unit_width_cases enc) Hb (length s * S (length o) + 1) i 0) as (r & Hr & Hf);
    [lia|lia|apply Z.divide_0_r|done|intros j Hj; lia|lia|lia|unfold js_length in *; nia|].
  rewrite Z.add_0_r in Hr. change (if 0 =? 0 then -1 else i) with (-1) in Hr. exists r. rewrite Hr. by destruct r.
Qed.
Lemma arrayIndexOf_backward i : exists r, arrayIndexOf s o i enc false = Some (Ok (place at_end r)) /\
  last_upto s o w (Z.min i (js_length s - js_length o)) r.
Proof.
  pose proof (needle_pos Ho). unfold arrayIndexOf. destruct (_ && _) eqn:Hshort.
  { exists None. split; [done|]. intros p _ _. by apply too_short. }
  replace (if js_length s <? i + js_length o then js_length s - js_length o else i) with (Z.min i (js_length s - js_length o))
    by (destruct (Z.ltb_spec (js_length s) (i + js_length o)); lia).
  destruct (lastIndexOf_loop_ok s o w (unit_width_cases enc) Hb (S (length s)) (Z.min i (js_length s - js_length o))) as (r & -> & Hf);
    [lia|unfold js_length in *; lia|lia|]. exists r. by destruct r.
Qed.
Lemma nowhere_after k : js_length s <= k -> first_from s o w k None.
Proof. intros Hk p Hp _ Hocc%occurs_range; [lia|done]. Qed.

Lemma search_forward i : js_length s <= kMaxLength -> let start := Z.max 0 (search_start (js_length s) i true) in (w | js_length s - start) ->
  exists r, bidirectionalIndexOf s o i enc true = Some (Ok (place AtByte r)) /\ first_from s o w start r.
Proof.
  intros Hs start Hd. pose proof (js_length_nonneg s) as Hn. pose proof (needle_pos Ho). unfold bidirectionalIndexOf. cbv zeta. rewrite (proj2 (Z.eqb_neq (js_length o) 0)) by lia.
  destruct (Z.eqb_spec (js_length s) 0) as [Hz|Hz]; [exists None; split; [done|apply nowhere_after; lia]|].
  fold (code_start (js_length s) i true). destruct (code_start_spec (js_length s) i true) as [He|[[Hk HK]|[Hk HK]]]; [lia|..]; subst start.
  - rewrite He. destruct (Z.leb_spec (js_length s) (search_start (js_length s) i true)); [exists None; split; [done|apply nowhere_after; lia]|].
    destruct (Z.ltb_spec (search_start (js_length s) i true) 0); [rewrite Z.max_l in * by lia|rewrite Z.max_r in * by lia]; apply arrayIndexOf_forward; (done || lia).
  - rewrite (proj2 (Z.leb_le _ _)) by done. exists None. split; [done|apply nowhere_after; lia].
  - rewrite (proj2 (Z.leb_gt _ _)), (proj2 (Z.ltb_lt _ _)) by lia. rewrite Z.max_l in * by lia. apply arrayIndexOf_forward; (done || lia).
Qed.
Lemma search_backward i : js_length s <= kMaxLength ->
  exists r, bidirectionalIndexOf s o i enc false = Some (Ok (place at_end r)) /\
    last_upto s o w (Z.min (search_start (js_length s) i false) (js_length s - js_length o)) r.
Proof.
  intros Hs. pose proof (js_length_nonneg s) as Hn. pose proof (needle_pos Ho). unfold bidirectionalIndexOf. cbv zeta. rewrite (proj2 (Z.eqb_neq (js_length o) 0)) by lia.
  destruct (Z.eqb_spec (js_length s) 0) as [Hz|Hz]; [exists None; split; [done|apply last_upto_neg; lia]|].
  fold (code_start (js_length s) i false).
  assert (forall K, js_length s <= K -> exists r, arrayIndexOf s o (js_length s - 1) enc false = Some (Ok (place at_end r)) /\ last_upto s o w (Z.min K (js_length s - js_length o)) r) as Hend.
  { intros K HK. destruct (arrayIndexOf_backward (js_length s - 1)) as (r & -> & Hr). exists r. split; [done|].
    by replace (Z.min K (js_length s - js_length o)) with (Z.min (js_length s - 1) (js_length s - js_length o)) by lia. }
  destruct (code_start_spec (js_length s) i false) as [He|[[Hk HK]|[Hk HK]]]; [lia|..].
  - rewrite He. destruct (Z.leb_spec (js_length s) (search_start (js_length s) i false)); [by apply Hend|].
    destruct (Z.ltb_spec (search_start (js_length s) i false) 0); [exists None; split; [done|apply last_upto_neg; lia]|apply arrayIndexOf_backward].
  - rewrite (proj2 (Z.leb_le _ _)) by done. by apply Hend.
  - rewrite (proj2 (Z.leb_gt _ _)), (proj2 (Z.ltb_lt _ _)) by lia. exists None. split; [done|apply last_upto_neg; lia].
Qed.
End Offsets.

(** C35: searching ends and finds. For every offset, encoding and direction the
    search of a buffer returns (or throws, it never spins). The empty buffer is never
    found. In one-byte units [indexOf] is the place of the first occurrence from its
    start on and [lastIndexOf] that of the last one up to its own, and -1 means there is
    none; in two-byte units, over bytes and for a needle of whole units, they are
    so among the places a whole number of units from where they start (forwards, from a
    start that is a whole number of units before the end), but the backward search
    returns the place counted in units, half the place in bytes. *)
Theorem Buffer_search s o i enc : js_length s <= kMaxLength ->
  (forall forward, exists r, bidirectionalIndexOf s o i enc forward = Some r) /\
  (o = [] -> forall forward, bidirectionalIndexOf s o i enc forward = Some (Ok NotFound)) /\
  let w := unit_width enc in
  let start := Z.max 0 (search_start (js_length s) i true) in
  let stop := Z.min (search_start (js_length s) i false) (js_length s - js_length o) in
  (o <> [] -> (w = 2 -> Forall is_byte s /\ Forall is_byte o /\ (2 | js_length o)) ->
    ((w | js_length s - start) -> exists r, bidirectionalIndexOf s o i enc true = Some (Ok (place AtByte r)) /\ first_from s o w start r) /\
    exists r, bidirectionalIndexOf s o i enc false = Some (Ok (place (if w =? 1 then AtByte else AtUnit) r)) /\ last_upto s o w stop r).
Proof.
  intros Hs. split; [|split].
  - intros forward. apply search_ends.
  - intros -> forward. unfold bidirectionalIndexOf. change (js_length [] =? 0) with true. by repeat case_match.
  - intros w start stop Ho Hb. split; [by apply search_forward|by apply search_backward].
Qed.

Lemma Buffer_search_witness :
  (exists r, bidirectionalIndexOf [97; 97; 98; 97; 98] [97; 98] None None true = Some (Ok (place AtByte r)) /\
     first_from [97; 97; 98; 97; 98] [97; 98] 1 0 r) /\
  (exists r, bidirectionalIndexOf [97; 0; 98; 0; 97; 0] [97; 0] None (Some (units "UCS2")) false = Some (Ok (place AtUnit r)) /\
     last_upto [97; 0; 98; 0; 97; 0] [97; 0] 2 4 r).
Proof.
  split.
  - destruct (Buffer_search [97; 97; 98; 97; 98] [97; 98] None None) as (_ & _ & Hf); [by vm_compute|].
    destruct Hf as [Hf _]; [done|done|]. apply Hf. apply Z.divide_1_l.
  - destruct (Buffer_search [97; 0; 98; 0; 97; 0] [97; 0] None (Some (units "UCS2"))) as (_ & _ & Hf); [by vm_compute|].
    destruct Hf as [_ Hf]; [done| |exact Hf]. intros _. split_and!; [repeat constructor; by compute..|by exists 1].
Defined.
(** Found at byte 4, which is what the forward search says; the backward one says 2. An
    odd number of bytes makes the forward search throw instead of not finding. *)
Example two_byte_search : let ucs2 := Some (units "ucs2") in
  bidirectionalIndexOf [98; 0; 99; 0; 97; 0] [97; 0] None ucs2 true = Some (Ok (AtByte 4)) /\
  bidirectionalIndexOf [98; 0; 99; 0; 97; 0] [97; 0] None ucs2 false = Some (Ok (AtUnit 4)) /\
  bidirectionalIndexOf [98; 0; 99; 0; 97] [97; 0] None ucs2 true = Some (Err (RangeError "Trying to access beyond buffer length")).
Proof. by vm_compute. Qed.
