(* ===== verification/BufferIntsProps.v ===== *)
(** * Integers in the bundled [Buffer]: what is written is read back *)
From S2P Require Import Prelude Js Base64Js BufferInts.

#[local] Open Scope js_scope.

(** ** The bytes of an integer, in two's complement *)

Definition byte_at (v k : Z) : Z := v / 256 ^ k mod 256.

Lemma byte_at_range v k : 0 <= byte_at v k < 256.
Proof. apply Z.mod_pos_bound. done. Qed.
Lemma mod_next v k : 0 <= k -> v mod 256 ^ (k + 1) = v mod 256 ^ k + byte_at v k * 256 ^ k.
Proof.
  intros Hk. unfold byte_at. rewrite Z.pow_add_r by lia. change (256 ^ 1) with 256.
  rewrite Z.rem_mul_r by (lia || by apply Z.pow_nonzero). lia.
Qed.
Lemma byte_at_0 v : byte_at v 0 = v mod 256.
Proof. unfold byte_at. by rewrite Z.pow_0_r, Z.div_1_r. Qed.

(** The mask of the code, on any integer. *)
Lemma js_and_255 x : x &' 255 = x mod 256 /\ 255 &' x = x mod 256.
Proof.
  assert (x &' 255 = x mod 256) as He.
  { unfold js_and. change (ToInt32 255) with (Z.ones 8). rewrite Z.land_ones by done. change (2 ^ 8) with 256.
    unfold ToInt32. destruct (_ <? _); Z.to_euclidean_division_equations; lia. }
  split; [done|]. rewrite <- He. unfold js_and. apply Z.land_comm.
Qed.
Lemma js_or_0 x : (x |' 0) mod 256 = x mod 256 /\ forall y, ((x |' 0) - y) mod 256 = (x - y) mod 256.
Proof.
  assert (x |' 0 = ToInt32 x) as -> by (unfold js_or; change (ToInt32 0) with 0; by rewrite Z.lor_0_r).
  unfold ToInt32. split; [|intros y]; destruct (_ <? _); Z.to_euclidean_division_equations; lia.
Qed.

(** Truncated division with the borrow is the byte of the floor. *)
Lemma quot_byte v k : 0 <= k ->
  (Z.quot v (256 ^ k) - (if (v <? 0) && negb (v mod 256 ^ k =? 0) then 1 else 0)) mod 256 = byte_at v k.
Proof.
  intros Hk. unfold byte_at. assert (0 < 256 ^ k) by (apply Z.pow_pos_nonneg; lia). set (u := 256 ^ k) in *. f_equal.
  destruct (Z.ltb_spec v 0), (Z.eqb_spec (v mod u) 0); cbn [andb negb]; Z.to_euclidean_division_equations; nia.
Qed.

(** ** Stores *)

Lemma get_put8 l i v j : 0 <= i < js_length l -> get (put8 l i v) j = if decide (j = i) then Some (ToUint8 v) else get l j.
Proof.
  intros Hi. unfold put8, get. rewrite (proj2 (Z.ltb_ge i 0)) by lia. destruct (decide (j = i)) as [->|Hne].
  - rewrite (proj2 (Z.ltb_ge i 0)) by lia. apply list_lookup_insert_eq. unfold js_length in Hi. lia.
  - destruct (Z.ltb_spec j 0); [done|]. apply list_lookup_insert_ne. lia.
Qed.

(** [m] bytes of [v] from byte [k] on, byte [k] at [pos k]. *)
Fixpoint fill (m : nat) (buf : list Z) (pos : Z -> Z) (v k : Z) : list Z :=
  match m with O => buf | S m => fill m (put8 buf (pos k) (byte_at v k)) pos v (k + 1) end.

(** [buf'] is [buf] with the bytes of [v] below [n] at their positions. *)
Definition written (buf buf' : list Z) (pos : Z -> Z) (v n : Z) : Prop :=
  length buf' = length buf /\ (forall k, 0 <= k < n -> get buf' (pos k) = Some (byte_at v k)) /\
  (forall p, (forall k, 0 <= k < n -> p <> pos k) -> get buf' p = get buf p).

Section Positions.
Context (pos : Z -> Z) (v n len : Z)
  (Hpos : forall k, 0 <= k < n -> 0 <= pos k < len) (Hinj : forall k j, 0 <= k < n -> 0 <= j < n -> pos k = pos j -> k = j).

Lemma written_step buf0 buf k : js_length buf = len -> 0 <= k < n -> written buf0 buf pos v k ->
  written buf0 (put8 buf (pos k) (byte_at v k)) pos v (k + 1).
Proof.
  intros Hl Hk (Hlen & Hin & Hout). specialize (Hpos k Hk) as Hp. pose proof (byte_at_range v k).
  split_and!; [by rewrite length_put8| |].
  - intros j Hj. rewrite get_put8 by lia. destruct (decide (pos j = pos k)) as [He|Hne].
    + apply Hinj in He as ->; [|lia..]. by rewrite ToUint8_id by lia.
    + apply Hin. destruct (decide (j = k)) as [->|]; [done|lia].
  - intros p Hnot. rewrite get_put8 by lia. rewrite decide_False by (apply Hnot; lia). apply Hout. intros j Hj. apply Hnot. lia.
Qed.
Lemma written_fill buf0 m : forall buf k, js_length buf = len -> 0 <= k -> k + Z.of_nat m = n -> written buf0 buf pos v k ->
  written buf0 (fill m buf pos v k) pos v n.
Proof.
  induction m as [|m IH]; intros buf k Hl Hk Hm Hw; cbn [fill]; [by replace n with k by lia|].
  apply IH; [unfold js_length in *; by rewrite length_put8|lia|lia|]. apply written_step; [done|lia|done].
Qed.
Lemma written_nil buf : written buf buf pos v 0.
Proof. split_and!; [done|lia|done]. Qed.
End Positions.

Lemma pos_LE o n len : 0 <= o -> o + n <= len ->
  (forall k, 0 <= k < n -> 0 <= o + k < len) /\ (forall k j, 0 <= k < n -> 0 <= j < n -> o + k = o + j -> k = j).
Proof. intros. split; intros; lia. Qed.
Lemma pos_BE o n len : 0 <= o -> o + n <= len ->
  (forall k, 0 <= k < n -> 0 <= o + (n - 1 - k) < len) /\
  (forall k j, 0 <= k < n -> 0 <= j < n -> o + (n - 1 - k) = o + (n - 1 - j) -> k = j).
Proof. intros. split; intros; lia. Qed.

Lemma pow_next k : 0 <= k -> 256 ^ k * 256 = 256 ^ (k + 1).
Proof. intros. by rewrite Z.pow_add_r by lia. Qed.

(** ** The write loops *)

Lemma uint_byte v k : 0 <= v -> 0 <= k -> Z.quot v (256 ^ k) &' 255 = byte_at v k.
Proof.
  intros Hv Hk. rewrite (proj1 (js_and_255 _)), <- quot_byte by done. by rewrite (proj2 (Z.ltb_ge v 0)), Z.sub_0_r by done.
Qed.
Lemma write_UIntLE_fill v o m : 0 <= v -> forall fuel buf n k, (m <= fuel)%nat -> 0 <= k -> n = k + 1 + Z.of_nat m ->
  write_UIntLE_loop fuel buf v o n k (256 ^ k) = fill m buf (fun k => o + k) v (k + 1).
Proof.
  intros Hv. induction m as [|m IH]; intros fuel buf n k Hf Hk Hn.
  - destruct fuel; cbn [write_UIntLE_loop]; [done|]. by rewrite (proj2 (Z.ltb_ge _ _)) by lia.
  - destruct fuel as [|fuel]; [lia|]. cbn [write_UIntLE_loop fill]. rewrite (proj2 (Z.ltb_lt _ _)) by lia.
    rewrite pow_next, uint_byte by lia. apply IH; lia.
Qed.
Lemma write_UIntBE_fill v o m : 0 <= v -> forall fuel buf n k, (m <= fuel)%nat -> 0 <= k -> n = k + 1 + Z.of_nat m ->
  write_UIntBE_loop fuel buf v o (n - 1 - k) (256 ^ k) = fill m buf (fun k => o + (n - 1 - k)) v (k + 1).
Proof.
  intros Hv. induction m as [|m IH]; intros fuel buf n k Hf Hk Hn.
  - destruct fuel; cbn [write_UIntBE_loop]; [done|]. by rewrite (proj2 (Z.leb_gt _ _)) by lia.
  - destruct fuel as [|fuel]; [lia|]. cbn [write_UIntBE_loop fill]. rewrite (proj2 (Z.leb_le _ _)) by lia.
    rewrite pow_next, uint_byte by lia. replace (n - 1 - k - 1) with (n - 1 - (k + 1)) by lia. apply IH; lia.
Qed.

(** The borrow before byte [k]. *)
Definition borrowed (v k : Z) : Z := if (v <? 0) && negb (v mod 256 ^ k =? 0) then 1 else 0.
Lemma borrow_next buf v k p : 0 <= k -> get buf p = Some (byte_at v k) -> borrow buf v (borrowed v k) p = borrowed v (k + 1).
Proof.
  intros Hk Hp. unfold borrow, borrowed. rewrite Hp, mod_next by done. cbn [num default]. change (default 0 (Some ?x)) with x.
  assert (0 < 256 ^ k) by (apply Z.pow_pos_nonneg; lia). pose proof (Z.mod_pos_bound v (256 ^ k)) as Hm.
  pose proof (byte_at_range v k). unfold id. destruct (v <? 0); cbn [andb]; [|done].
  destruct (Z.eqb_spec (v mod 256 ^ k) 0), (Z.eqb_spec (byte_at v k) 0);
    destruct (Z.eqb_spec (v mod 256 ^ k + byte_at v k * 256 ^ k) 0); cbn [negb Z.eqb andb]; try done; nia.
Qed.
Lemma int_byte v k : 0 <= k -> ((Z.quot v (256 ^ k) |' 0) - borrowed v k) &' 255 = byte_at v k.
Proof. intros Hk. rewrite (proj1 (js_and_255 _)), (proj2 (js_or_0 _)). by apply quot_byte. Qed.

Lemma write_IntLE_fill v o m : forall fuel buf n k, (m <= fuel)%nat -> 0 <= k -> n = k + 1 + Z.of_nat m ->
  0 <= o -> o + n <= js_length buf -> get buf (o + k) = Some (byte_at v k) ->
  write_IntLE_loop fuel buf v o n k (256 ^ k) (borrowed v k) = fill m buf (fun k => o + k) v (k + 1).
Proof.
  induction m as [|m IH]; intros fuel buf n k Hf Hk Hn Ho Hb Hg.
  - destruct fuel; cbn [write_IntLE_loop]; [done|]. by rewrite (proj2 (Z.ltb_ge _ _)) by lia.
  - destruct fuel as [|fuel]; [lia|]. cbn [write_IntLE_loop fill]. rewrite (proj2 (Z.ltb_lt _ _)) by lia.
    replace (o + (k + 1) - 1) with (o + k) by lia. rewrite (borrow_next _ _ _ _ Hk Hg), pow_next, int_byte by lia.
    pose proof (byte_at_range v (k + 1)). apply IH; try lia; [unfold js_length in *; rewrite length_put8; lia|].
    rewrite get_put8 by lia. by rewrite decide_True, ToUint8_id by (done || lia).
Qed.
Lemma write_IntBE_fill v o m : forall fuel buf n k, (m <= fuel)%nat -> 0 <= k -> n = k + 1 + Z.of_nat m ->
  0 <= o -> o + n <= js_length buf -> get buf (o + (n - 1 - k)) = Some (byte_at v k) ->
  write_IntBE_loop fuel buf v o (n - 1 - k) (256 ^ k) (borrowed v k) = fill m buf (fun k => o + (n - 1 - k)) v (k + 1).
Proof.
  induction m as [|m IH]; intros fuel buf n k Hf Hk Hn Ho Hb Hg.
  - destruct fuel; cbn [write_IntBE_loop]; [done|]. by rewrite (proj2 (Z.leb_gt _ _)) by lia.
  - destruct fuel as [|fuel]; [lia|]. cbn [write_IntBE_loop fill]. rewrite (proj2 (Z.leb_le _ _)) by lia.
    replace (o + (n - 1 - k - 1) + 1) with (o + (n - 1 - k)) by lia. rewrite (borrow_next _ _ _ _ Hk Hg), pow_next, int_byte by lia.
    replace (n - 1 - k - 1) with (n - 1 - (k + 1)) by lia.
    pose proof (byte_at_range v (k + 1)). apply IH; try lia; [unfold js_length in *; rewrite length_put8; lia|].
    rewrite get_put8 by lia. by rewrite decide_True, ToUint8_id by (done || lia).
Qed.

(** ** The read loops *)

Lemma read_LE_value buf v o n : (forall k, 0 <= k < n -> get buf (o + k) = Some (byte_at v k)) ->
  forall m fuel k, (m <= fuel)%nat -> 0 <= k -> n = k + 1 + Z.of_nat m ->
  read_LE_loop fuel buf o n k (256 ^ k) (v mod 256 ^ (k + 1)) = (v mod 256 ^ n, 256 ^ (n - 1)).
Proof.
  intros Hin. induction m as [|m IH]; intros fuel k Hf Hk Hn.
  - replace (n - 1) with k by lia. replace n with (k + 1) by lia. destruct fuel; cbn [read_LE_loop]; [done|].
    by rewrite Z.ltb_irrefl.
  - destruct fuel as [|fuel]; [lia|]. cbn [read_LE_loop]. rewrite (proj2 (Z.ltb_lt _ _)) by lia.
    rewrite Hin, pow_next by lia. change (num (Some ?x)) with x. rewrite <- mod_next by lia. apply IH; lia.
Qed.
Lemma read_BE_value buf v o n : (forall k, 0 <= k < n -> get buf (o + (n - 1 - k)) = Some (byte_at v k)) ->
  forall m fuel k, (m <= fuel)%nat -> 0 <= k -> n = k + 1 + Z.of_nat m ->
  read_BE_loop fuel buf o (n - 1 - k) (256 ^ k) (v mod 256 ^ (k + 1)) = (v mod 256 ^ n, 256 ^ (n - 1)).
Proof.
  intros Hin. induction m as [|m IH]; intros fuel k Hf Hk Hn.
  - replace (n - 1) with k by lia. replace n with (k + 1) by lia. destruct fuel; cbn [read_BE_loop]; [done|].
    by rewrite (proj2 (Z.ltb_ge _ _)) by lia.
  - destruct fuel as [|fuel]; [lia|]. cbn [read_BE_loop]. rewrite (proj2 (Z.ltb_lt _ _)) by lia.
    replace (n - 1 - k - 1) with (n - 1 - (k + 1)) by lia.
    rewrite Hin, pow_next by lia. change (num (Some ?x)) with x. rewrite <- mod_next by lia. apply IH; lia.
Qed.

Lemma pow_256 n : 0 <= n -> 2 ^ (8 * n) = 256 ^ n.
Proof. intros. by rewrite Z.pow_mul_r by lia. Qed.
Lemma half_256 n : 1 <= n -> 2 ^ (8 * n - 1) = 128 * 256 ^ (n - 1) /\ 256 ^ n = 256 * 256 ^ (n - 1) /\ 0 < 256 ^ (n - 1).
Proof.
  intros Hn. split_and!; [| |apply Z.pow_pos_nonneg; lia].
  - replace (8 * n - 1) with (7 + 8 * (n - 1)) by lia. rewrite Z.pow_add_r, pow_256 by lia. done.
  - rewrite <- (Z.pow_succ_r 256) by lia. f_equal. lia.
Qed.
Lemma sign_extend_ok v n : 1 <= n -> - 2 ^ (8 * n - 1) <= v < 2 ^ (8 * n - 1) ->
  sign_extend (v mod 256 ^ n, 256 ^ (n - 1)) n = v.
Proof.
  intros Hn Hv. destruct (half_256 n Hn) as (Hh & Hp & Hpos). unfold sign_extend. rewrite pow_256, Hp by lia. rewrite Hh in Hv.
  set (u := 256 ^ (n - 1)) in *. destruct (decide (0 <= v)) as [Hge|Hlt].
  - rewrite (Z.mod_small v) by lia. by rewrite (proj2 (Z.leb_gt _ _)) by lia.
  - assert (v mod (256 * u) = v + 256 * u) as ->.
    { rewrite <- (Z.mod_small (v + 256 * u) (256 * u)) by lia. rewrite <- (Z.mul_1_l (256 * u)) at 2. by rewrite Z.mod_add by lia. }
    rewrite (proj2 (Z.leb_le _ _)) by lia. lia.
Qed.

(** ** Both byte orders *)

Inductive Order : Type := LE | BE.
Definition position (e : Order) (o n k : Z) : Z := match e with LE => o + k | BE => o + (n - 1 - k) end.
Definition writeUInt (e : Order) := match e with LE => writeUIntLE | BE => writeUIntBE end.
Definition writeInt (e : Order) := match e with LE => writeIntLE | BE => writeIntBE end.
Definition readUInt (e : Order) := match e with LE => readUIntLE | BE => readUIntBE end.
Definition readInt (e : Order) := match e with LE => readIntLE | BE => readIntBE end.

Section Room.
Context (buf : list Z) (o n : Z) (Ho : 0 <= o) (Hn : 1 <= n <= 6) (Hroom : o + n <= js_length buf) (Hmax : js_length buf < 2 ^ 31).

Lemma room_offset : ToUint32 o = o /\ ToUint32 n = n.
Proof. rewrite !ToUint32_id by lia. done. Qed.

Lemma checkInt_ok v max min : checkInt buf v o n max min =
  if (max <? v) || (v <? min) then Err (RangeError "value is out of bounds") else Ok ().
Proof. unfold checkInt. rewrite (proj2 (Z.ltb_ge (js_length buf) _)) by done. by destruct (_ || _). Qed.

(** The first byte, then the rest. *)
Lemma fill_written e v buf1 : buf1 = put8 buf (position e o n 0) (byte_at v 0) ->
  written buf (fill (Z.to_nat (n - 1)) buf1 (position e o n) v 1) (position e o n) v n.
Proof.
  intros ->. assert ((forall k, 0 <= k < n -> 0 <= position e o n k < js_length buf) /\
    (forall k j, 0 <= k < n -> 0 <= j < n -> position e o n k = position e o n j -> k = j)) as [Hp Hi]
    by (destruct e; cbn [position]; [by apply pos_LE|by apply pos_BE]).
  apply (written_fill _ _ _ _ Hp Hi); [unfold js_length; by rewrite length_put8|lia|lia|].
  apply (written_step _ _ n (js_length buf) Hp Hi buf buf 0); [done|lia|apply written_nil].
Qed.

Lemma writeUInt_ok e v : 0 <= v < 2 ^ (8 * n) -> exists buf', writeUInt e buf v o n = Ok (buf', o + n) /\
  written buf buf' (position e o n) v n.
Proof.
  intros Hv. destruct room_offset as [Hro Hrn]. eexists. split; [|by apply (fill_written e v)].
  pose proof (proj2 (js_and_255 v)) as H255. rewrite <- byte_at_0 in H255.
  destruct e; cbn [writeUInt position]; [unfold writeUIntLE|unfold writeUIntBE]; rewrite Hro, Hrn, checkInt_ok, H255;
    rewrite !(proj2 (Z.ltb_ge _ _)) by lia; cbn [orb]; do 2 f_equal.
  - rewrite Z.add_0_r. apply (write_UIntLE_fill v o _ (proj1 Hv) _ _ n 0); lia.
  - rewrite Z.sub_0_r. pose proof (write_UIntBE_fill v o (Z.to_nat (n - 1)) (proj1 Hv) (Z.to_nat n)
      (put8 buf (o + (n - 1)) (byte_at v 0)) n 0) as Hw. rewrite Z.sub_0_r in Hw. apply Hw; lia.
Qed.

Lemma first_byte e v buf1 : buf1 = put8 buf (position e o n 0) (byte_at v 0) ->
  js_length buf1 = js_length buf /\ get buf1 (position e o n 0) = Some (byte_at v 0).
Proof.
  intros ->. split; [unfold js_length; by rewrite length_put8|]. pose proof (byte_at_range v 0).
  rewrite get_put8 by (destruct e; cbn [position]; lia). by rewrite decide_True, ToUint8_id by (done || lia).
Qed.
Lemma writeInt_ok e v : - 2 ^ (8 * n - 1) <= v < 2 ^ (8 * n - 1) -> exists buf', writeInt e buf v o n = Ok (buf', o + n) /\
  written buf buf' (position e o n) v n.
Proof.
  intros Hv. destruct room_offset as [Hro _]. eexists. split; [|by apply (fill_written e v)].
  destruct (first_byte e v _ eq_refl) as [Hl Hg]. pose proof (proj2 (js_and_255 v)) as H255. rewrite <- byte_at_0 in H255.
  assert (borrowed v 0 = 0) as Hb0 by (unfold borrowed; rewrite Z.pow_0_r, Z.mod_1_r; by rewrite andb_false_r).
  destruct e; cbn [writeInt position] in *; [unfold writeIntLE|unfold writeIntBE]; rewrite Hro, checkInt_ok, H255;
    rewrite !(proj2 (Z.ltb_ge _ _)) by lia; cbn [orb]; do 2 f_equal.
  - rewrite Z.add_0_r in *. pose proof (write_IntLE_fill v o (Z.to_nat (n - 1)) (Z.to_nat n)
      (put8 buf o (byte_at v 0)) n 0) as Hw. rewrite Hb0, Z.add_0_r in Hw. apply Hw; (done || lia).
  - rewrite Z.sub_0_r in *. pose proof (write_IntBE_fill v o (Z.to_nat (n - 1)) (Z.to_nat n)
      (put8 buf (o + (n - 1)) (byte_at v 0)) n 0) as Hw. rewrite Hb0, Z.sub_0_r in Hw. apply Hw; (done || lia).
Qed.

Lemma read_ok e v : (forall k, 0 <= k < n -> get buf (position e o n k) = Some (byte_at v k)) ->
  readUInt e buf o n = Ok (v mod 256 ^ n) /\ readInt e buf o n = Ok (sign_extend (v mod 256 ^ n, 256 ^ (n - 1)) n).
Proof.
  intros Hin. destruct room_offset as [Hro Hrn]. assert (checkOffset o n (js_length buf) = Ok ()) as Hc.
  { unfold checkOffset. by rewrite !(proj2 (Z.ltb_ge _ _)) by lia. }
  pose proof (Hin 0 ltac:(lia)) as H0. rewrite byte_at_0 in H0.
  destruct e; cbn [readUInt readInt position] in *;
    [unfold readUIntLE, readIntLE|unfold readUIntBE, readIntBE]; rewrite Hro, Hrn, Hc.
  - rewrite Z.add_0_r in H0. rewrite H0. change (num (Some ?x)) with x.
    pose proof (read_LE_value buf v o n Hin (Z.to_nat (n - 1)) (Z.to_nat n) 0) as Hr. change (256 ^ (0 + 1)) with 256 in Hr.
    rewrite Z.pow_0_r in Hr. rewrite Hr by lia. done.
  - rewrite Z.sub_0_r in H0. rewrite H0. change (num (Some ?x)) with x.
    pose proof (read_BE_value buf v o n Hin (Z.to_nat (n - 1)) (Z.to_nat n) 0) as Hr. change (256 ^ (0 + 1)) with 256 in Hr.
    rewrite Z.pow_0_r, Z.sub_0_r in Hr. rewrite Hr by lia. done.
Qed.
End Room.

(** C34: an integer of one to six bytes, in either byte order, signed or not. A value
    in range is written in two's complement at its offset and nothing else changes;
    reading it back gives the value and the returned offset is just past it. A value
    out of range, or one that does not fit in the buffer, is a [RangeError]. *)
Theorem Buffer_ints e buf o n v : 0 <= o -> 1 <= n <= 6 -> js_length buf < 2 ^ 31 -> o < 2 ^ 31 ->
  let room := o + n <= js_length buf in
  (if decide (room /\ 0 <= v < 2 ^ (8 * n)) then exists buf', writeUInt e buf v o n = Ok (buf', o + n) /\
     written buf buf' (position e o n) v n /\ readUInt e buf' o n = Ok v
   else exists m, writeUInt e buf v o n = Err (RangeError m)) /\
  (if decide (room /\ - 2 ^ (8 * n - 1) <= v < 2 ^ (8 * n - 1)) then exists buf', writeInt e buf v o n = Ok (buf', o + n) /\
     written buf buf' (position e o n) v n /\ readInt e buf' o n = Ok v
   else exists m, writeInt e buf v o n = Err (RangeError m)).
Proof.
  intros Ho Hn Hmax Hoff room. subst room.
  assert (forall max min, ~ (o + n <= js_length buf /\ min <= v <= max) -> exists m, checkInt buf v o n max min = Err (RangeError m)) as Hbad.
  { intros max min Hnot. unfold checkInt. destruct (Z.ltb_spec max v), (Z.ltb_spec v min); cbn [orb]; eauto.
    rewrite (proj2 (Z.ltb_lt _ _)) by lia. eauto. }
  assert (ToUint32 o = o /\ ToUint32 n = n) as [Hro Hrn] by (rewrite !ToUint32_id by lia; done).
  assert (forall buf' : list Z, length buf' = length buf -> js_length buf' = js_length buf) as Hlen by (unfold js_length; lia).
  split.
  - destruct (decide _) as [[Hroom Hv]|Hnot].
    + destruct (writeUInt_ok buf o n Ho Hn Hroom Hmax e v Hv) as (buf' & Hw & Hb). exists buf'. split_and!; [done|done|].
      destruct Hb as (Hl & Hin & _). specialize (Hlen buf' Hl).
      rewrite (proj1 (read_ok buf' o n Ho Hn ltac:(lia) ltac:(lia) e v Hin)). f_equal. apply Z.mod_small. by rewrite <- pow_256 by lia.
    + destruct (Hbad (2 ^ (8 * n) - 1) 0) as [m Hm]; [lia|]. exists m.
      destruct e; cbn [writeUInt]; [unfold writeUIntLE|unfold writeUIntBE]; by rewrite Hro, Hrn, Hm.
  - destruct (decide _) as [[Hroom Hv]|Hnot].
    + destruct (writeInt_ok buf o n Ho Hn Hroom Hmax e v Hv) as (buf' & Hw & Hb). exists buf'. split_and!; [done|done|].
      destruct Hb as (Hl & Hin & _). specialize (Hlen buf' Hl).
      rewrite (proj2 (read_ok buf' o n Ho Hn ltac:(lia) ltac:(lia) e v Hin)). f_equal. apply sign_extend_ok; [lia|done].
    + destruct (Hbad (2 ^ (8 * n - 1) - 1) (- 2 ^ (8 * n - 1))) as [m Hm]; [lia|]. exists m.
      destruct e; cbn [writeInt]; [unfold writeIntLE|unfold writeIntBE]; by rewrite Hro, Hm.
Qed.

Lemma Buffer_ints_witness : exists buf', writeInt BE [1; 2; 3; 4; 5] (-300) 1 3 = Ok (buf', 4) /\
  written [1; 2; 3; 4; 5] buf' (position BE 1 3) (-300) 3 /\ readInt BE buf' 1 3 = Ok (-300).
Proof. apply (Buffer_ints BE [1; 2; 3; 4; 5] 1 3 (-300)); done. Defined.
