(* ===== verification/SyncPlane.v ===== *)
(** * What a handler does to the dataplane when nothing goes wrong

    A request that logs no failure leaves the dataplane in agreement with the
    database. This file has the reasoning the handlers share: [calm m w Q], the
    outcome of [m] from [w] if it logs nothing, and [Plane], the database together
    with the isolation table and the peers as predicates, with the rule for each
    call a handler makes. *)
From S2P Require Import Prelude GoStrings Netip Ipam Codec Db StoreInv StoreUsers StoreNodes StoreAnnounce StoreOps UsersProps CascadeProps StoreEffects NodesProps AnnounceProps Netfw NetfwProps Isolation Wg WgProps Auth Api ApiZones ApiRoutes Sync.

#[local] Open Scope lw_scope.

(** ** Runs that log nothing *)

Section Calm.
Context {K D : Type} `{Nftables K} `{WgHost D} `{WgTypes}.
Abbreviation HM := (M Resp (World K D)).

Definition calm {A} (m : HM A) (w : World K D) (Q : res Resp A -> World K D -> Prop) : Prop :=
  forall r w', m w = (r, w') -> w_log w' = w_log w -> Q r w'.

(** The log only grows. *)
Definition grows {A} (m : HM A) : Prop := forall l, pres (fun w => l `prefix_of` w_log w) m.
(** [m] returns a value, and logs if it [fails]. *)
Definition settles {A} (m : HM A) : Prop := grows m /\ forall w, exists a, fst (m w) = Ok a.
(** [m] always logs. *)
Definition noisy {A} (m : HM A) : Prop := forall w, w_log (snd (m w)) <> w_log w /\ w_log w `prefix_of` w_log (snd (m w)).

Lemma grows_prefix {A} (m : HM A) w : grows m -> w_log w `prefix_of` w_log (snd (m w)).
Proof. intros Hm. by apply (Hm (w_log w)). Qed.
Lemma prefix_eq (l k j : list string) : l `prefix_of` k -> k `prefix_of` j -> j = l -> k = l.
Proof. intros Hlk Hkj ->. by apply (anti_symm prefix). Qed.

Lemma grows_db {A} (m : SM A) : grows (db m).
Proof. intros l w Hl. unfold db. by destruct (m (w_store w)). Qed.
Lemma grows_netfw {A} (m : M unit K A) : grows (netfw m).
Proof. intros l w Hl. unfold netfw. by destruct (m (w_nft w)). Qed.
Lemma grows_wg {A} (m : M wg_err D A) : grows (wg m).
Proof. intros l w Hl. unfold wg. by destruct (m (w_wg w)). Qed.
Lemma grows_log_error msg : grows (log_error msg).
Proof. intros l w Hl. simpl. by apply prefix_app_r. Qed.
Lemma grows_ret {A} (a : A) : grows (ret a).
Proof. intros l. apply pres_ret. Qed.
Lemma grows_throw {A} r : grows (throw (A:=A) r).
Proof. intros l. apply pres_throw. Qed.
Lemma grows_gets {A} (f : World K D -> A) : grows (gets f).
Proof. intros l. apply pres_gets. Qed.
Lemma grows_bind {A B} (m : HM A) (f : A -> HM B) : grows m -> (forall a, grows (f a)) -> grows (bind m f).
Proof. intros Hm Hf l. apply pres_bind; [apply Hm|intros a; apply Hf]. Qed.
Lemma grows_log_failure {E A} msg (r : res E A) : grows (log_failure msg r).
Proof. destruct r; [apply grows_ret|apply grows_log_error]. Qed.
Lemma grows_serverError {A} : grows (serverError (A:=A)).
Proof. apply grows_bind; [apply grows_log_error|intros; apply grows_throw]. Qed.
Lemma grows_or_fail {A} known (m : HM (res serr A)) : grows m -> grows (or_fail known m).
Proof.
  intros Hm. apply grows_bind; [done|]. intros [a|e]; [apply grows_ret|].
  destruct (known e); [apply grows_throw|apply grows_serverError].
Qed.
Lemma grows_for_each {A} (l : list A) (f : A -> HM unit) : (forall x, grows (f x)) -> grows (for_each l f).
Proof. intros Hf. induction l as [|x l IH]; simpl; [apply grows_ret|by apply grows_bind]. Qed.
Lemma grows_when b (m : HM unit) : grows m -> grows (when b m).
Proof. destruct b; [done|]. intros _. apply grows_ret. Qed.

Lemma settles_db {A} (m : SM A) : settles (db m).
Proof. split; [apply grows_db|]. intros w. unfold db. destruct (m (w_store w)). by eexists. Qed.
Lemma settles_netfw {A} (m : M unit K A) : settles (netfw m).
Proof. split; [apply grows_netfw|]. intros w. unfold netfw. destruct (m (w_nft w)). by eexists. Qed.
Lemma settles_wg {A} (m : M wg_err D A) : settles (wg m).
Proof. split; [apply grows_wg|]. intros w. unfold wg. destruct (m (w_wg w)). by eexists. Qed.
Lemma settles_ret {A} (a : A) : settles (ret a).
Proof. split; [apply grows_ret|]. by exists a. Qed.
Lemma settles_log_error msg : settles (log_error msg).
Proof. split; [apply grows_log_error|]. by exists tt. Qed.
Lemma settles_log_failure {E A} msg (r : res E A) : settles (log_failure msg r).
Proof. destruct r; [apply settles_ret|apply settles_log_error]. Qed.
Lemma settles_bind {A B} (m : HM A) (f : A -> HM B) : settles m -> (forall a, settles (f a)) -> settles (bind m f).
Proof.
  intros [Hg Hm] Hf. split; [apply grows_bind; [done|intros a; apply Hf]|]. intros w. unfold bind.
  destruct (Hm w) as [a Ha]. destruct (m w) as [r w1]. simpl in Ha. subst r. apply Hf.
Qed.

Lemma noisy_log_error msg : noisy (log_error msg).
Proof.
  intros w. simpl. split; [|by apply prefix_app_r]. intros Heq%(f_equal length). rewrite length_app in Heq. simpl in Heq. lia.
Qed.
Lemma noisy_first {A B} (m : HM A) (f : A -> HM B) : noisy m -> (forall a, grows (f a)) -> noisy (bind m f).
Proof.
  intros Hm Hf w. destruct (Hm w) as [Hne Hp]. unfold bind. destruct (m w) as [[a|e] w1]; simpl in *; [|done].
  pose proof (grows_prefix (f a) w1 (Hf a)) as Hp'. split; [|by etrans]. intros Heq. apply Hne.
  by apply (prefix_eq _ _ _ Hp Hp').
Qed.
Lemma noisy_serverError {A} : noisy (serverError (A:=A)).
Proof. apply noisy_first; [apply noisy_log_error|intros; apply grows_throw]. Qed.
Lemma noisy_after {A B} (m : HM A) (f : A -> HM B) : settles m -> (forall a, noisy (f a)) -> noisy (bind m f).
Proof.
  intros [Hg Hm] Hf w. pose proof (grows_prefix m w Hg) as Hp. unfold bind. destruct (Hm w) as [a Ha].
  destruct (m w) as [r w1]. simpl in *. subst r. destruct (Hf a w1) as [Hne Hp']. split; [|by etrans].
  intros Heq. apply Hne. rewrite Heq. symmetry. by apply (prefix_eq _ _ _ Hp Hp').
Qed.

Lemma calm_noisy {A} (m : HM A) w Q : noisy m -> calm m w Q.
Proof. intros Hm r w' Hrun Hl. destruct (Hm w) as [Hne _]. by rewrite Hrun in Hne. Qed.
Lemma calm_ret {A} (a : A) w (Q : res Resp A -> World K D -> Prop) : Q (Ok a) w -> calm (ret a) w Q.
Proof. by intros HQ r w' [= <- <-] _. Qed.
Lemma calm_throw {A} e w (Q : res Resp A -> World K D -> Prop) : Q (Err e) w -> calm (throw e) w Q.
Proof. by intros HQ r w' [= <- <-] _. Qed.
Lemma calm_gets {A} (f : World K D -> A) w (Q : res Resp A -> World K D -> Prop) : Q (Ok (f w)) w -> calm (gets f) w Q.
Proof. by intros HQ r w' [= <- <-] _. Qed.
Lemma calm_mono {A} (m : HM A) w (Q Q' : res Resp A -> World K D -> Prop) :
  calm m w Q -> (forall r w', Q r w' -> Q' r w') -> calm m w Q'.
Proof. intros Hm HQ r w' Hrun Hl. by apply HQ, Hm. Qed.
Lemma calm_bind {A B} (m : HM A) (f : A -> HM B) w Q :
  grows m -> (forall a, grows (f a)) ->
  calm m w (fun r w1 => match r with Ok a => calm (f a) w1 Q | Err e => Q (Err e) w1 end) -> calm (bind m f) w Q.
Proof.
  intros Hgm Hgf Hm r w' Hrun Hl. pose proof (grows_prefix m w Hgm) as Hp. unfold bind in Hrun.
  destruct (m w) as [[a|e] w1] eqn:Hmw; simpl in Hp.
  - pose proof (grows_prefix (f a) w1 (Hgf a)) as Hp1. rewrite Hrun in Hp1. simpl in Hp1.
    pose proof (prefix_eq _ _ _ Hp Hp1 Hl) as Hl1. apply (Hm _ _ Hmw Hl1 r w' Hrun). congruence.
  - injection Hrun as <- <-. by apply (Hm _ _ Hmw).
Qed.
End Calm.

Create HintDb grows discriminated.
#[export] Hint Resolve grows_db grows_netfw grows_wg grows_log_error grows_ret grows_throw grows_gets grows_log_failure
  grows_serverError grows_or_fail grows_when : grows.
#[export] Hint Resolve settles_db settles_netfw settles_wg settles_ret settles_log_error settles_log_failure noisy_log_error noisy_serverError : grows.

(** The side conditions of [calm_bind]. *)
Ltac grow :=
  repeat first
    [ progress intros
    | solve [auto with grows nocore]
    | match goal with
      | |- grows (let x := ?v in _) => cbv zeta
      | |- grows (bind _ _) => apply grows_bind
      | |- grows (or_server_error _) => unfold or_server_error
      | |- grows (or_fail _ _) => apply grows_or_fail
      | |- grows (for_each _ _) => apply grows_for_each
      | |- grows (when _ _) => apply grows_when
      | |- grows (match ?x with _ => _ end) => destruct x
      | |- settles (bind _ _) => apply settles_bind
      | |- settles (match ?x with _ => _ end) => destruct x
      | |- noisy (bind _ _) => apply noisy_after
      end ].
(** One bind: its side conditions, then its first computation. *)
Ltac calm_step := apply calm_bind; [grow|grow|].

(** ** The dataplane as predicates *)

(** [pl_mem z a]: address [a] is a member of zone [z]; [pl_rts z p]: prefix [p] is
    announced into [z]; [pl_peer k s]: the peer of key [k] has allowed IPs [s]. *)
Record Plane : Type := mkPlane
  { pl_db : DB; pl_seq : Z; pl_ids : list Z; pl_mem : Z -> Addr -> Prop; pl_rts : Z -> Prefix -> Prop;
    pl_peer : Key -> gset Prefix -> Prop }.

Definition with_db d (p : Plane) : Plane := mkPlane d (pl_seq p) (pl_ids p) (pl_mem p) (pl_rts p) (pl_peer p).
Definition with_zones n ids (p : Plane) : Plane := mkPlane (pl_db p) n ids (pl_mem p) (pl_rts p) (pl_peer p).
Definition with_mem f (p : Plane) : Plane := mkPlane (pl_db p) (pl_seq p) (pl_ids p) f (pl_rts p) (pl_peer p).
Definition with_rts f (p : Plane) : Plane := mkPlane (pl_db p) (pl_seq p) (pl_ids p) (pl_mem p) f (pl_peer p).
Definition with_peer f (p : Plane) : Plane := mkPlane (pl_db p) (pl_seq p) (pl_ids p) (pl_mem p) (pl_rts p) f.

(** What the database alone describes. *)
Definition plane_of `{WgTypes} (d : DB) : Plane :=
  mkPlane d (seq (zones d)) (z_id <$> rows (zones d)) (fun z a => a ∈ member_ips z d) (fun z p => p ∈ zone_prefixes d z)
    (fun k s => exists n, n ∈ rows (nodes d) /\ ParseKey (n_key n) = Some k /\ s = node_allowed d n).

Definition iso_at (t : string) (p : Plane) (r : Ruleset) : Prop := exists I, synced t (pl_seq p) I r /\ iso_ids I = pl_ids p /\
  (forall z a, a ∈ iso_mem I z <-> z ∈ pl_ids p /\ pl_mem p z a) /\
  (forall z q, q ∈ iso_rts I z <-> z ∈ pl_ids p /\ pl_rts p z q).
Definition peers_at (p : Plane) (m : gmap Key (gset Prefix)) : Prop := forall k s, m !! k = Some s <-> pl_peer p k s.

(** The same plane, but for zones the table does not have. *)
Record plane_eq (p p' : Plane) : Prop := mkPlaneEq
  { pe_db : pl_db p' = pl_db p; pe_seq : pl_seq p' = pl_seq p; pe_ids : pl_ids p' = pl_ids p;
    pe_mem z a : z ∈ pl_ids p -> pl_mem p' z a <-> pl_mem p z a;
    pe_rts z q : z ∈ pl_ids p -> pl_rts p' z q <-> pl_rts p z q;
    pe_peer k s : pl_peer p' k s <-> pl_peer p k s }.

Lemma plane_eq_refl p : plane_eq p p.
Proof. by constructor. Qed.

(** Restricting the abstract state to its zones. *)
Lemma iso_at_intro t p r I : synced t (pl_seq p) I r -> iso_ids I = pl_ids p ->
  (forall z a, z ∈ pl_ids p -> a ∈ iso_mem I z <-> pl_mem p z a) ->
  (forall z q, z ∈ pl_ids p -> q ∈ iso_rts I z <-> pl_rts p z q) -> iso_at t p r.
Proof.
  intros Hs Hids Hm Hr.
  exists (mkIso (iso_ids I) (fun z => if decide (z ∈ pl_ids p) then iso_mem I z else ∅)
            (fun z => if decide (z ∈ pl_ids p) then iso_rts I z else ∅)). split_and!; [|done|..]; simpl.
  - eapply (synced_ext _ _ I); [done| |exact Hs]. intros z Hz. simpl. rewrite !decide_True by (by rewrite <- Hids). done.
  - intros z a. destruct (decide (z ∈ pl_ids p)) as [Hz|Hz]; [rewrite Hm by done; tauto|set_solver].
  - intros z q. destruct (decide (z ∈ pl_ids p)) as [Hz|Hz]; [rewrite Hr by done; tauto|set_solver].
Qed.
Lemma iso_at_eq t p p' r : plane_eq p p' -> iso_at t p r -> iso_at t p' r.
Proof.
  intros [] (I & Hs & Hids & Hm & Hr). apply (iso_at_intro _ _ _ I); [by rewrite pe_seq0|by rewrite pe_ids0|..]; rewrite pe_ids0.
  - intros z a Hz. rewrite Hm, pe_mem0 by done. tauto.
  - intros z q Hz. rewrite Hr, pe_rts0 by done. tauto.
Qed.

Section Steps.
Context {K D : Type} `{NftablesLaws K} `{WgHostLaws D} `{WgTypes} (h : Options).
Abbreviation HM := (M Resp (World K D)).

Definition iso_of (p : Plane) (k : K) : Prop := iso_at (h_netfw h) p (nft_view k).
Definition peers_of (p : Plane) (x : D) : Prop := peers_at p (device x (h_wg h)).
Definition at_plane (p : Plane) (w : World K D) : Prop :=
  s_db (w_store w) = pl_db p /\ iso_of p (w_nft w) /\ peers_of p (w_wg w).

Lemma at_plane_eq p p' w : plane_eq p p' -> at_plane p w -> at_plane p' w.
Proof.
  intros He (Hd & Hi & Hp). split_and!; [by rewrite (pe_db _ _ He)|by apply (iso_at_eq _ p)|].
  intros k s. rewrite (pe_peer _ _ He). apply Hp.
Qed.

(** *** Calls into the store *)

Lemma calm_db {A} (c : SM A) p w P (Q : res Resp (res serr A) -> World K D -> Prop) :
  at_plane p w -> effect c (pl_db p) P -> (forall e w', at_plane p w' -> Q (Ok (Err e)) w') ->
  (forall a d', P a d' -> (schema_ok (pl_db p) -> schema_ok d') -> forall w', at_plane (with_db d' p) w' -> Q (Ok (Ok a)) w') ->
  calm (db c) w Q.
Proof.
  intros (Hd & Hi & Hp) (Hat & Hy & Hs) Herr Hok r w' Hrun _. unfold db in Hrun.
  destruct (c (w_store w)) as [[a|e] s] eqn:Hc; injection Hrun as <- <-.
  - apply (Hok a (s_db s)); [by apply (Hy _ _ _ Hd Hc)| |by split_and!].
    intros Hsch. specialize (Hs (w_store w)). rewrite Hc in Hs. simpl in Hs. apply Hs. by rewrite Hd.
  - apply Herr. split_and!; [|done..]. simpl. by rewrite (Hat _ _ _ Hc).
Qed.
Lemma calm_or_fail {A} known (c : SM A) p w P (Q : res Resp A -> World K D -> Prop) :
  at_plane p w -> effect c (pl_db p) P -> (forall resp w', at_plane p w' -> Q (Err resp) w') ->
  (forall a d', P a d' -> (schema_ok (pl_db p) -> schema_ok d') -> forall w', at_plane (with_db d' p) w' -> Q (Ok a) w') ->
  calm (or_fail known (db c)) w Q.
Proof.
  intros Hw He Herr Hok. calm_step. eapply calm_db; [done..| |].
  - intros e w' Hw'. destruct (known e); [by apply calm_throw, Herr|apply calm_noisy; grow].
  - intros a d' HP Hs w' Hw'. by eapply calm_ret, Hok.
Qed.

(** Where no error of the store is answered, each is logged. *)
Lemma calm_or_server {A} (c : SM A) p w P (Q : res Resp A -> World K D -> Prop) :
  at_plane p w -> effect c (pl_db p) P ->
  (forall a d', P a d' -> (schema_ok (pl_db p) -> schema_ok d') -> forall w', at_plane (with_db d' p) w' -> Q (Ok a) w') ->
  calm (or_server_error (db c)) w Q.
Proof.
  intros Hw He Hok. unfold or_server_error, or_fail. calm_step. eapply calm_db; [done..| |].
  - intros e w' _. apply calm_noisy; grow.
  - intros a d' HP Hs w' Hw'. by eapply calm_ret, Hok.
Qed.

(** *** Calls into the table and the device, their failures logged *)

Lemma calm_netfw (m : M unit K unit) p p' w (Q : res Resp (res unit unit) -> World K D -> Prop) :
  at_plane p w -> (forall k k', m k = (Ok tt, k') -> iso_of p k -> iso_of p' k') ->
  pl_db p' = pl_db p -> (forall k s, pl_peer p' k s <-> pl_peer p k s) ->
  (forall w', at_plane p' w' -> Q (Ok (Ok tt)) w') -> (forall e w', Q (Ok (Err e)) w') -> calm (netfw m) w Q.
Proof.
  intros (Hd & Hi & Hp) Hm Hdb Hpeer Hok Herr r w' Hrun _. unfold netfw in Hrun.
  destruct (m (w_nft w)) as [[[]|e] k] eqn:Hc; injection Hrun as <- <-; [|apply Herr].
  apply Hok. split_and!; [by rewrite Hdb|by apply (Hm _ _ Hc)|]. intros k' s. rewrite Hpeer. apply Hp.
Qed.
Lemma calm_wg (m : M wg_err D unit) p p' w (Q : res Resp (res wg_err unit) -> World K D -> Prop) :
  at_plane p w -> (forall x x', m x = (Ok tt, x') -> peers_of p x -> peers_of p' x') ->
  p' = with_peer (pl_peer p') p ->
  (forall w', at_plane p' w' -> Q (Ok (Ok tt)) w') -> (forall e w', Q (Ok (Err e)) w') -> calm (wg m) w Q.
Proof.
  intros (Hd & Hi & Hp) Hm Heq Hok Herr r w' Hrun _. unfold wg in Hrun.
  destruct (m (w_wg w)) as [[[]|e] k] eqn:Hc; injection Hrun as <- <-; [|apply Herr].
  apply Hok. split_and!; [rewrite Heq; exact Hd|rewrite Heq; exact Hi|by apply (Hm _ _ Hc)].
Qed.

(** A logged call, as a statement. *)
Lemma calm_logged {E} (m : HM (res E unit)) msg w (Q : res Resp unit -> World K D -> Prop) :
  grows m -> calm m w (fun r w' => r = Ok (Ok tt) /\ Q (Ok tt) w' \/ exists e, r = Ok (Err e)) ->
  calm (let! r := m in log_failure msg r) w Q.
Proof.
  intros Hg Hm. apply calm_bind; [done|intros; apply grows_log_failure|]. eapply calm_mono; [exact Hm|].
  intros r w' [[-> HQ]|[e ->]]; [by apply calm_ret|]. apply calm_noisy, noisy_log_error.
Qed.
Lemma calm_netfw_logged (m : M unit K unit) msg p p' w (Q : res Resp unit -> World K D -> Prop) :
  at_plane p w -> (forall k k', m k = (Ok tt, k') -> iso_of p k -> iso_of p' k') ->
  pl_db p' = pl_db p -> (forall k s, pl_peer p' k s <-> pl_peer p k s) ->
  (forall w', at_plane p' w' -> Q (Ok tt) w') -> calm (let! r := netfw m in log_failure msg r) w Q.
Proof.
  intros Hw Hm Hdb Hpeer HQ. apply calm_logged; [grow|]. eapply calm_netfw; [done..| |].
  - intros w' Hw'. left. auto.
  - intros e w'. right. by exists e.
Qed.
Lemma calm_wg_logged (m : M wg_err D unit) msg p p' w (Q : res Resp unit -> World K D -> Prop) :
  at_plane p w -> (forall x x', m x = (Ok tt, x') -> peers_of p x -> peers_of p' x') ->
  p' = with_peer (pl_peer p') p ->
  (forall w', at_plane p' w' -> Q (Ok tt) w') -> calm (let! r := wg m in log_failure msg r) w Q.
Proof.
  intros Hw Hm Heq HQ. apply calm_logged; [grow|]. eapply calm_wg; [done..| |].
  - intros w' Hw'. left. auto.
  - intros e w'. right. by exists e.
Qed.

(** The same in front of the rest of a handler. *)
Lemma calm_logged_then {E B} (m : HM (res E unit)) msg (k : HM B) w Q :
  grows m -> grows k -> calm (let! r := m in log_failure msg r) w (fun r w1 => r = Ok tt /\ calm k w1 Q) ->
  calm (let! r := m in do! log_failure msg r in k) w Q.
Proof.
  intros Hgm Hgk Hm.
  assert (bind m (fun r => bind (log_failure msg r) (fun _ => k)) w = bind (bind m (log_failure msg)) (fun _ => k) w) as Hassoc
    by (unfold bind; by destruct (m w) as [[r|e] w1]).
  intros r w' Hrun. rewrite Hassoc in Hrun. revert r w' Hrun. apply calm_bind; [grow|done|].
  eapply calm_mono; [exact Hm|]. by intros r w1 [-> Hk].
Qed.

(** A loop of statements that move the plane on. *)
Lemma calm_for_each {A} (f : A -> HM unit) (step : list A -> Plane) l w (Q : res Resp unit -> World K D -> Prop) :
  (forall x, grows (f x)) -> at_plane (step []) w ->
  (forall don x rest w1, l = don ++ x :: rest -> at_plane (step don) w1 ->
     calm (f x) w1 (fun r w2 => r = Ok tt /\ at_plane (step (don ++ [x])) w2)) ->
  (forall w', at_plane (step l) w' -> Q (Ok tt) w') -> calm (for_each l f) w Q.
Proof.
  intros Hg Hini Hstep HQ.
  assert (forall rest don w1, l = don ++ rest -> at_plane (step don) w1 -> calm (for_each rest f) w1 Q) as Hgen.
  { induction rest as [|x rest IH]; intros don w1 Hl Hw1; simpl.
    - apply calm_ret, HQ. by rewrite Hl, app_nil_r.
    - apply calm_bind; [done|intros; by apply grows_for_each|]. eapply calm_mono; [by eapply Hstep|].
      intros r w2 [-> Hw2]. apply (IH (don ++ [x])); [by rewrite <- app_assoc|done]. }
  by apply (Hgen l []).
Qed.
End Steps.

(** ** What each call does to the plane *)

Definition mem_added (z : Z) (ip : Addr) (p : Plane) : Plane := with_mem (fun z' a => pl_mem p z' a \/ z' = z /\ a = ip) p.
Definition rts_added (z : Z) (q : Prefix) (p : Plane) : Plane := with_rts (fun z' a => pl_rts p z' a \/ z' = z /\ a = q) p.
(** The members and routes in [L] are gone. *)
Definition mem_gone (L : list (Z * Addr)) (p : Plane) : Plane := with_mem (fun z a => pl_mem p z a /\ (z, a) ∉ L) p.
Definition rts_gone (L : list (Z * Prefix)) (p : Plane) : Plane := with_rts (fun z q => pl_rts p z q /\ (z, q) ∉ L) p.
Definition zone_added (z : Z) (p : Plane) : Plane :=
  with_zones z (pl_ids p ++ [z]) (with_mem (fun z' a => pl_mem p z' a /\ z' <> z) (with_rts (fun z' q => pl_rts p z' q /\ z' <> z) p)).
Definition zones_gone (L : list Z) (p : Plane) : Plane := with_zones (pl_seq p) (filter (fun z => z ∉ L) (pl_ids p)) p.
Definition peer_set (k : Key) (s : gset Prefix) (p : Plane) : Plane :=
  with_peer (fun k' s' => if decide (k' = k) then s' = s else pl_peer p k' s') p.
Definition peers_gone (L : list Key) (p : Plane) : Plane := with_peer (fun k s => pl_peer p k s /\ (k ∉ L)) p.

Section Operations.
Context {K D : Type} `{NftablesLaws K} `{WgHostLaws D} `{WgTypes} (h : Options).

Lemma iso_AddMember p z ip k k' : AddMember (h_netfw h) z ip k = (Ok tt, k') -> iso_of h p k -> iso_of h (mem_added z ip p) k'.
Proof.
  intros Hrun (I & Hs & Hids & Hm & Hr). eapply iso_at_intro; [by eapply AddMember_ok|done|..]; simpl.
  - intros z' a Hz. destruct (decide (z' = z)) as [->|]; rewrite ?elem_of_union, ?elem_of_singleton, Hm; naive_solver.
  - intros z' q Hz. rewrite Hr. tauto.
Qed.
Lemma iso_AddZoneRoute p z q k k' :
  AddZoneRoute (h_netfw h) z q k = (Ok tt, k') -> iso_of h p k -> iso_of h (rts_added z q p) k'.
Proof.
  intros Hrun (I & Hs & Hids & Hm & Hr). eapply iso_at_intro; [by eapply AddZoneRoute_ok|done|..]; simpl.
  - intros z' a Hz. rewrite Hm. tauto.
  - intros z' a Hz. destruct (decide (z' = z)) as [->|]; rewrite ?elem_of_union, ?elem_of_singleton, Hr; naive_solver.
Qed.
Lemma iso_RemoveMember p z ip k k' : RemoveMember (h_netfw h) z ip k = (Ok tt, k') ->
  is_u32 ip -> (forall z a, pl_mem p z a -> is_u32 a) -> iso_of h p k -> iso_of h (mem_gone [(z, ip)] p) k'.
Proof.
  intros Hrun Hip Hall (I & Hs & Hids & Hm & Hr). eapply iso_at_intro; [eapply RemoveMember_ok; [done..|]|done|..]; simpl.
  - intros a [_ Ha]%Hm. by eapply Hall.
  - intros z' a Hz. rewrite list_elem_of_singleton.
    destruct (decide (z' = z)) as [->|]; rewrite ?elem_of_difference, ?elem_of_singleton, Hm; naive_solver.
  - intros z' q Hz. rewrite Hr. tauto.
Qed.
Lemma iso_RemoveZoneRoute p z q k k' : RemoveZoneRoute (h_netfw h) z q k = (Ok tt, k') -> range_ok q ->
  (forall q', pl_rts p z q' -> q' <> q -> range_ok q' /\ Overlaps (BlockFromPrefix q') (BlockFromPrefix q) = false) ->
  iso_of h p k -> iso_of h (rts_gone [(z, q)] p) k'.
Proof.
  intros Hrun Hq Hall (I & Hs & Hids & Hm & Hr). eapply iso_at_intro; [eapply RemoveZoneRoute_ok; [done..|]|done|..]; simpl.
  - intros q' [_ Ha]%Hr. by apply Hall.
  - intros z' a Hz. rewrite Hm. tauto.
  - intros z' a Hz. rewrite list_elem_of_singleton.
    destruct (decide (z' = z)) as [->|]; rewrite ?elem_of_difference, ?elem_of_singleton, Hr; naive_solver.
Qed.
Lemma iso_AddZone p z k k' : AddZone (h_netfw h) z k = (Ok tt, k') -> pl_seq p < z -> iso_of h p k -> iso_of h (zone_added z p) k'.
Proof.
  intros Hrun Hz (I & Hs & Hids & Hm & Hr). eapply iso_at_intro; [by eapply AddZone_ok|simpl; by rewrite Hids|..]; simpl;
    intros z' a; rewrite elem_of_app, list_elem_of_singleton; rewrite ?Hm, ?Hr; (destruct (decide (z' = z)) as [->|]; [set_solver|]);
    rewrite ?Hm, ?Hr; tauto.
Qed.
Lemma iso_DeleteZone p z k k' : DeleteZone (h_netfw h) z k = (Ok tt, k') -> iso_of h p k -> iso_of h (zones_gone [z] p) k'.
Proof.
  intros Hrun (I & Hs & Hids & Hm & Hr). eapply iso_at_intro; [by eapply DeleteZone_ok|..]; simpl.
  - rewrite Hids. apply list_filter_iff. intros x. by rewrite list_elem_of_singleton.
  - intros z' a [_ Hz]%list_elem_of_filter. rewrite Hm. tauto.
  - intros z' a [_ Hz]%list_elem_of_filter. rewrite Hr. tauto.
Qed.

Lemma peers_Set p key ip routes k x x' : SetPeerRoutes (h_wg h) key ip routes x = (Ok tt, x') -> ParseKey key = Some k ->
  (forall k' s, pl_peer p k' s -> k' <> k -> s ## allowed_ips ip routes) ->
  peers_of h p x -> peers_of h (peer_set k (allowed_ips ip routes) p) x'.
Proof.
  intros (k0 & Hk0 & Hset)%SetPeerRoutes_ok Hk Hdis Hp. rewrite Hk in Hk0. injection Hk0 as <-.
  unfold peers_of, peers_at. rewrite Hset by (intros k' s Hs; apply Hdis; by apply Hp). intros k' s. simpl.
  destruct (decide (k' = k)) as [->|Hne].
  - rewrite lookup_insert_eq. split; [by intros [= <-]|by intros ->].
  - rewrite lookup_insert_ne by done. apply Hp.
Qed.
Lemma peers_Remove p key k x x' : RemovePeer (h_wg h) key x = (Ok tt, x') -> ParseKey key = Some k ->
  peers_of h p x -> peers_of h (peers_gone [k] p) x'.
Proof.
  intros (k0 & Hk0 & Hdel)%RemovePeer_ok Hk Hp. rewrite Hk in Hk0. injection Hk0 as <-.
  unfold peers_of, peers_at. rewrite Hdel. intros k' s. simpl. rewrite list_elem_of_singleton, lookup_delete_Some.
  rewrite (Hp k' s). naive_solver.
Qed.
End Operations.
