(* ===== verification/SyncData.v ===== *)
(** * How the derived state follows the database

    Rows leave the database ([shrunk]): which members, routes and allowed IPs leave
    the plane with them. Also the agreement itself, [insync], and a database whose
    dataplane part did not change ([same_plane]). *)
From S2P Require Import Prelude GoStrings Netip Ipam Codec Db StoreInv StoreUsers StoreNodes StoreAnnounce StoreOps UsersProps CascadeProps StoreEffects NodesProps AnnounceProps Netfw NetfwProps Isolation Wg WgProps Auth Api ApiZones ApiRoutes Sync SyncPlane.

#[local] Open Scope lw_scope.

(** The data are those of a server, and the dataplane is what they describe. *)
Definition insync {K D} `{NftablesLaws K} `{WgHostLaws D} `{WgTypes} (h : Options) (pool : Prefix) (w : World K D) : Prop :=
  let d := s_db (w_store w) in
  data_ok pool d /\ fw_synced (h_netfw h) d (nft_view (w_nft w)) /\ wg_synced d (device (w_wg w) (h_wg h)).

Lemma insync_at {K D} `{NftablesLaws K} `{WgHostLaws D} `{WgTypes} h pool (w : World K D) :
  insync h pool w -> at_plane h (plane_of (s_db (w_store w))) w.
Proof.
  intros (_ & Hfw & Hwg). split_and!; [done| |exact Hwg]. apply (iso_at_intro _ _ _ (db_iso (s_db (w_store w)))); [done..| |];
    intros z x _; simpl; by rewrite elem_of_list_to_set.
Qed.
Lemma insync_intro {K D} `{NftablesLaws K} `{WgHostLaws D} `{WgTypes} h pool p (w : World K D) :
  at_plane h p w -> data_ok pool (pl_db p) -> plane_eq p (plane_of (pl_db p)) -> insync h pool w.
Proof.
  intros Hw Hd He. pose proof (at_plane_eq _ _ _ _ He Hw) as (Hdb & (I & Hs & Hids & Hm & Hr) & Hp). simpl in Hdb.
  unfold insync. rewrite Hdb. split_and!; [done| |exact Hp].
  unfold fw_synced. eapply (synced_ext _ _ I); [done| |exact Hs]. simpl in *. intros z Hz. rewrite Hids in Hz.
  split; apply set_eq; intros x; rewrite ?Hm, ?Hr, elem_of_list_to_set; tauto.
Qed.

(** ** Rows of the announcement table *)

Section Blocks.
Context `{WgTypes} (pool : Prefix) (d : DB) (Hd : data_ok pool d) (Hpool : range_ok pool).

Lemma synth_range a : a ∈ rows (announcements d) -> range_ok (synth_prefix a).
Proof.
  intros Ha. destruct (synth_prefix_eq pool d Hd a Ha) as (_ & _ & Hb & Hok). split; [done|]. rewrite Hb.
  destruct (bk_synth _ _ (do_blocks _ _ Hd) a Ha) as (_ & _ & _ & Hend). destruct Hpool as [Hp Hpe].
  rewrite BlockFromPrefix_eq in Hpe by done. rewrite size_pow in Hpe by (simpl; destruct Hp; lia). simpl in *. lia.
Qed.
Lemma synth_disjoint a b : a ∈ rows (announcements d) -> b ∈ rows (announcements d) -> synth_prefix a <> synth_prefix b ->
  Overlaps (BlockFromPrefix (synth_prefix a)) (BlockFromPrefix (synth_prefix b)) = false.
Proof.
  intros Ha Hb Hne. rewrite (proj1 (proj2 (proj2 (synth_prefix_eq pool d Hd a Ha)))),
    (proj1 (proj2 (proj2 (synth_prefix_eq pool d Hd b Hb)))).
  apply (bk_disjoint _ _ (do_blocks _ _ Hd)); [done..|]. by intros ->.
Qed.
(** What [RemoveZoneRoute] asks of the routes of a table. *)
Lemma routes_apart a q : a ∈ rows (announcements d) -> (exists b, b ∈ rows (announcements d) /\ q = synth_prefix b) ->
  q <> synth_prefix a -> range_ok q /\ Overlaps (BlockFromPrefix q) (BlockFromPrefix (synth_prefix a)) = false.
Proof. intros Ha (b & Hb & ->) Hne. split; [by apply synth_range|by apply synth_disjoint]. Qed.
End Blocks.

Lemma node_addr_u32 n : is_u32 (node_addr n).
Proof. apply u32_range. Qed.
Lemma member_u32 z d a : a ∈ member_ips z d -> is_u32 a.
Proof. intros (m & n & _ & _ & _ & _ & ->)%elem_of_member_ips. apply node_addr_u32. Qed.

(** ** Rows that leave *)

Record shrunk (d d' : DB) : Prop := mkShrunk
  { sh_nodes n : n ∈ rows (nodes d') -> n ∈ rows (nodes d);
    sh_members m : m ∈ zone_members d' -> m ∈ zone_members d;
    sh_anns a : a ∈ rows (announcements d') -> a ∈ rows (announcements d);
    sh_attach az : az ∈ announcement_zones d' -> az ∈ announcement_zones d }.

Lemma data_ok_shrunk `{WgTypes} pool d d' : data_ok pool d -> schema_ok d' -> shrunk d d' -> data_ok pool d'.
Proof.
  intros [] Hs []. constructor; [done|by eapply blocks_ok_sub|..]; auto.
Qed.

Section Shrink.
Context `{WgTypes} (pool : Prefix) (d d' : DB) (Hd : data_ok pool d) (Hs' : schema_ok d') (Hsh : shrunk d d').

Lemma members_shrunk (L : list (Z * Addr)) z a :
  (forall m n, m ∈ zone_members d -> n ∈ rows (nodes d) -> n_id n = m_node m -> m_zone m = z ->
     (z, node_addr n) ∈ L <-> ~ m ∈ zone_members d') ->
  a ∈ member_ips z d' <-> a ∈ member_ips z d /\ (z, a) ∉ L.
Proof.
  intros HL. rewrite !elem_of_member_ips. split.
  - intros (m & n & Hm & Hz & Hn & Hid & ->). destruct Hsh.
    split; [exists m, n; split_and!; auto|]. rewrite (HL m n) by auto. tauto.
  - intros [(m & n & Hm & Hz & Hn & Hid & ->) Hnot]. rewrite (HL m n) in Hnot by auto.
    assert (m ∈ zone_members d') as Hm' by (destruct (decide (m ∈ zone_members d')); tauto).
    exists m. pose proof (fk_member_node _ Hs') as Hfk. unfold refs in Hfk.
    destruct (proj1 (list_elem_of_fmap _ _ _) (Hfk m Hm')) as (n' & Heq & Hn').
    assert (n = n') as <- by (apply (node_id_inj pool d Hd); [done|by apply (sh_nodes _ _ Hsh)|congruence]).
    by exists n.
Qed.

Lemma routes_shrunk (L : list (Z * Prefix)) z p :
  (forall az a, az ∈ announcement_zones d -> a ∈ rows (announcements d) -> a_id a = az_ann az -> az_zone az = z ->
     (z, synth_prefix a) ∈ L <-> ~ az ∈ announcement_zones d') ->
  p ∈ zone_prefixes d' z <-> p ∈ zone_prefixes d z /\ (z, p) ∉ L.
Proof.
  intros HL. rewrite !elem_of_zone_prefixes. split.
  - intros (az & a & Haz & Hz & Ha & Hid & ->). destruct Hsh.
    split; [exists az, a; split_and!; auto|]. rewrite (HL az a) by auto. tauto.
  - intros [(az & a & Haz & Hz & Ha & Hid & ->) Hnot]. rewrite (HL az a) in Hnot by auto.
    assert (az ∈ announcement_zones d') as Haz' by (destruct (decide (az ∈ announcement_zones d')); tauto).
    exists az. pose proof (fk_attach_ann _ Hs') as Hfk. unfold refs in Hfk.
    destruct (proj1 (list_elem_of_fmap _ _ _) (Hfk az Haz')) as (a' & Heq & Ha').
    assert (a = a') as <-.
    { apply (uniq_inj a_id (rows (announcements d))); [apply table_ok_uniq, ok_anns, (do_schema _ _ Hd)|done|by apply (sh_anns _ _ Hsh)|congruence]. }
    by exists a.
Qed.

(** The peers when the nodes of [d'] are left, those in [R] with their allowed IPs
    recomputed. *)
Definition peers_part (R : list Z) (k : Key) (s : gset Prefix) : Prop := exists n,
  n ∈ rows (nodes d') /\ ParseKey (n_key n) = Some k /\ s = node_allowed (if decide (n_id n ∈ R) then d' else d) n.

Lemma peers_left (Ks : list Key) k s : (forall n, n ∈ rows (nodes d) -> forall k, ParseKey (n_key n) = Some k -> k ∈ Ks <-> ~ n ∈ rows (nodes d')) ->
  peers_part [] k s <-> pl_peer (plane_of d) k s /\ (k ∉ Ks).
Proof.
  intros HK. unfold peers_part. simpl. split.
  - intros (n & Hn & Hk & ->). pose proof (sh_nodes _ _ Hsh n Hn) as Hnd. split; [by exists n|]. rewrite (HK n) by done. tauto.
  - intros [(n & Hn & Hk & ->) Hnot]. rewrite (HK n) in Hnot by done.
    exists n. split; [|done]. destruct (decide (n ∈ rows (nodes d'))); tauto.
Qed.
Lemma node_allowed_sub n p : p ∈ node_allowed d' n -> p ∈ node_allowed d n.
Proof.
  pose proof (data_ok_shrunk _ _ _ Hd Hs' Hsh) as Hd'. rewrite (elem_of_node_allowed pool d' Hd'), (elem_of_node_allowed pool d Hd).
  intros [?|(a & Ha & ?)]; [by left|right]. exists a. split; [by apply (sh_anns _ _ Hsh)|done].
Qed.
Lemma part_disjoint (R : list Z) n n' : n ∈ rows (nodes d') -> n' ∈ rows (nodes d') -> n <> n' ->
  node_allowed (if decide (n_id n ∈ R) then d' else d) n ## node_allowed d' n'.
Proof.
  intros Hn Hn' Hne p Hp Hp'. apply node_allowed_sub in Hp'.
  assert (p ∈ node_allowed d n) as Hpn by (destruct (decide _); [by apply node_allowed_sub|done]).
  by apply (node_allowed_disjoint pool d Hd n n' (sh_nodes _ _ Hsh _ Hn) (sh_nodes _ _ Hsh _ Hn') Hne p).
Qed.
Lemma peers_part_set (R : list Z) n k k' s : n ∈ rows (nodes d') -> ParseKey (n_key n) = Some k ->
  peers_part (R ++ [n_id n]) k' s <-> (if decide (k' = k) then s = node_allowed d' n else peers_part R k' s).
Proof.
  intros Hn Hk. unfold peers_part. destruct (decide (k' = k)) as [->|Hne].
  - split.
    + intros (n' & Hn' & Hk' & ->). assert (n' = n) as ->.
      { apply (do_key_inj _ _ Hd); [by apply (sh_nodes _ _ Hsh)..|congruence]. }
      rewrite decide_True by set_solver. done.
    + intros ->. exists n. rewrite decide_True by set_solver. done.
  - assert (forall n', n' ∈ rows (nodes d') -> ParseKey (n_key n') = Some k' -> n_id n' ∈ R ++ [n_id n] <-> n_id n' ∈ R) as HR.
    { intros n' Hn' Hk'. rewrite elem_of_app, list_elem_of_singleton. split; [|by left]. intros [?|Heq]; [done|].
      apply (node_id_inj pool d Hd) in Heq as ->; [congruence|by apply (sh_nodes _ _ Hsh)..]. }
    split; intros (n' & Hn' & Hk' & ->); exists n'; (split_and!; [done..|]); f_equal; specialize (HR n' Hn' Hk');
      destruct (decide (n_id n' ∈ R)), (decide (n_id n' ∈ R ++ [n_id n])); tauto.
Qed.
Lemma peers_part_done (R : list Z) k s :
  (forall a, a ∈ rows (announcements d) -> (a_node a ∉ R) -> a_node a ∈ n_id <$> rows (nodes d') -> a ∈ rows (announcements d')) ->
  peers_part R k s <-> pl_peer (plane_of d') k s.
Proof.
  intros HR. assert (forall n, n ∈ rows (nodes d') -> node_allowed (if decide (n_id n ∈ R) then d' else d) n = node_allowed d' n) as Heq.
  { intros n Hn. destruct (decide (n_id n ∈ R)) as [|Hnot]; [done|]. apply set_eq. intros p. split; [|apply node_allowed_sub].
    pose proof (data_ok_shrunk _ _ _ Hd Hs' Hsh) as Hd'. rewrite (elem_of_node_allowed pool d' Hd'), (elem_of_node_allowed pool d Hd).
    intros [?|(a & Ha & Han & ->)]; [by left|right]. exists a. split_and!; [|done..].
    apply HR; [done|congruence|]. rewrite Han. by apply list_elem_of_fmap_2. }
  unfold peers_part. simpl. split; intros (n & Hn & Hk & ->); exists n; (split_and!; [done..|]); rewrite Heq; done.
Qed.
End Shrink.

(** ** Changes the dataplane does not see *)

Record same_plane (d d' : DB) : Prop := mkSamePlane
  { sp_nodes : rows (nodes d') = rows (nodes d); sp_seq : seq (zones d') = seq (zones d);
    sp_zones : z_id <$> rows (zones d') = z_id <$> rows (zones d); sp_members : zone_members d' = zone_members d;
    sp_anns : rows (announcements d') = rows (announcements d); sp_attach : announcement_zones d' = announcement_zones d }.

Lemma same_plane_refl d : same_plane d d.
Proof. done. Qed.
Lemma same_plane_trans d1 d2 d3 : same_plane d1 d2 -> same_plane d2 d3 -> same_plane d1 d3.
Proof. intros [] []. constructor; congruence. Qed.
Lemma same_plane_shrunk d d' : same_plane d d' -> shrunk d d'.
Proof. intros []. constructor; intros x; congruence. Qed.
Lemma same_plane_eq `{WgTypes} d d' : same_plane d d' -> plane_eq (with_db d' (plane_of d)) (plane_of d').
Proof.
  intros []. constructor; simpl; [done..| | |].
  - intros z a _. unfold member_ips. by rewrite sp_members0, sp_nodes0.
  - intros z p _. rewrite !elem_of_zone_prefixes, sp_anns0, sp_attach0. done.
  - intros k s. unfold node_allowed, node_prefixes. by rewrite sp_nodes0, sp_anns0.
Qed.
