(* ===== verification/SyncHandlers.v ===== *)
(** * Handlers that take something away keep the dataplane in agreement *)
From S2P Require Import Prelude GoStrings Netip Ipam Codec Db StoreInv StoreUsers StoreNodes StoreAnnounce StoreOps UsersProps CascadeProps StoreEffects NodesProps AnnounceProps Netfw NetfwProps Isolation Wg WgProps Auth Api ApiZones ApiRoutes Sync SyncPlane SyncData.

#[local] Open Scope lw_scope.

(** The routes of a plane are blocks announced in [d]. *)
Definition routes_from (d : DB) (p : Plane) : Prop :=
  forall z q, pl_rts p z q -> exists a, a ∈ rows (announcements d) /\ q = synth_prefix a.
Definition members_u32 (p : Plane) : Prop := forall z a, pl_mem p z a -> is_u32 a.

Lemma plane_routes_from `{WgTypes} d : routes_from d (plane_of d).
Proof. intros z q (az & a & _ & _ & Ha & _ & ->)%elem_of_zone_prefixes. by exists a. Qed.
Lemma plane_members_u32 `{WgTypes} d : members_u32 (plane_of d).
Proof. intros z a. apply member_u32. Qed.

Lemma mem_gone_snoc L x p : plane_eq (mem_gone [x] (mem_gone L p)) (mem_gone (L ++ [x]) p).
Proof. constructor; simpl; try done. intros z a _. rewrite elem_of_app. tauto. Qed.
Lemma rts_gone_snoc L x p : plane_eq (rts_gone [x] (rts_gone L p)) (rts_gone (L ++ [x]) p).
Proof. constructor; simpl; try done. intros z a _. rewrite elem_of_app. tauto. Qed.
Lemma peers_gone_snoc `{WgTypes} L x p : plane_eq (peers_gone [x] (peers_gone L p)) (peers_gone (L ++ [x]) p).
Proof. constructor; simpl; try done. intros k s. rewrite elem_of_app. tauto. Qed.
Lemma zones_gone_snoc L x p : plane_eq (zones_gone [x] (zones_gone L p)) (zones_gone (L ++ [x]) p).
Proof.
  constructor; simpl; try done. rewrite list_filter_filter. apply list_filter_iff. intros z. rewrite elem_of_app. tauto.
Qed.
Lemma mem_gone_nil p : plane_eq p (mem_gone [] p).
Proof. constructor; simpl; try done. intros z a _. symmetry. apply and_not_nil. Qed.
Lemma rts_gone_nil p : plane_eq p (rts_gone [] p).
Proof. constructor; simpl; try done. intros z a _. symmetry. apply and_not_nil. Qed.
Lemma peers_gone_nil `{WgTypes} p : plane_eq p (peers_gone [] p).
Proof. constructor; simpl; try done. intros k s. symmetry. apply and_not_nil. Qed.
Lemma zones_gone_nil p : plane_eq p (zones_gone [] p).
Proof. constructor; simpl; try done. apply filter_all. intros x _. apply not_elem_of_nil. Qed.

Section Loops.
Context {K D : Type} `{NftablesLaws K} `{WgHostLaws D} `{WgTypes} (h : Options).
Abbreviation HM := (M Resp (World K D)).

Lemma calm_drop_members {A} (f : A -> Z * Addr) l msg p w (Q : res Resp unit -> World K D -> Prop) :
  at_plane h p w -> members_u32 p -> (forall x, x ∈ l -> is_u32 (f x).2) ->
  (forall w', at_plane h (mem_gone (f <$> l) p) w' -> Q (Ok tt) w') ->
  calm (for_each l (fun x => let! r := netfw (RemoveMember (h_netfw h) (f x).1 (f x).2) in log_failure msg r)) w Q.
Proof.
  intros Hw Hu Hl HQ. apply (calm_for_each h _ (fun don => mem_gone (f <$> don) p)); [grow|eapply at_plane_eq, Hw; apply mem_gone_nil| |done].
  intros don x rest w1 -> Hw1. eapply (calm_netfw_logged h _ _ _ _ _ _ Hw1).
  - intros k k' Hrun. apply (iso_RemoveMember _ _ _ _ _ _ Hrun); [apply Hl; set_solver|]. intros z a [Ha _]. by eapply Hu.
  - done.
  - done.
  - intros w2 Hw2. split; [done|]. rewrite fmap_app. eapply at_plane_eq, Hw2. change (f <$> [x]) with [f x].
    destruct (f x). apply mem_gone_snoc.
Qed.

Lemma calm_drop_routes {A} pool d (f : A -> Z * Prefix) l msg p w (Q : res Resp unit -> World K D -> Prop) :
  data_ok pool d -> range_ok pool -> at_plane h p w -> routes_from d p ->
  (forall x, x ∈ l -> exists a, a ∈ rows (announcements d) /\ (f x).2 = synth_prefix a) ->
  (forall w', at_plane h (rts_gone (f <$> l) p) w' -> Q (Ok tt) w') ->
  calm (for_each l (fun x => let! r := netfw (RemoveZoneRoute (h_netfw h) (f x).1 (f x).2) in log_failure msg r)) w Q.
Proof.
  intros Hd Hpool Hw Hu Hl HQ. apply (calm_for_each h _ (fun don => rts_gone (f <$> don) p)); [grow|eapply at_plane_eq, Hw; apply rts_gone_nil| |done].
  intros don x rest w1 -> Hw1. destruct (Hl x) as (a & Ha & Heq); [set_solver|]. rewrite Heq.
  eapply (calm_netfw_logged h _ _ _ _ _ _ Hw1).
  - intros k k' Hrun.
    apply (iso_RemoveZoneRoute _ _ _ _ _ _ Hrun); [by apply (synth_range pool d)|].
    intros q [Hq _] Hne. by apply (routes_apart pool d); [..|eapply Hu|].
  - done.
  - done.
  - intros w2 Hw2. split; [done|]. rewrite fmap_app. eapply at_plane_eq, Hw2.
    rewrite <- Heq. change (f <$> [x]) with [f x]. destruct (f x). apply rts_gone_snoc.
Qed.

Lemma calm_drop_zones l msg p w (Q : res Resp unit -> World K D -> Prop) :
  at_plane h p w -> (forall w', at_plane h (zones_gone l p) w' -> Q (Ok tt) w') ->
  calm (for_each l (fun zid => let! r := netfw (DeleteZone (h_netfw h) zid) in log_failure msg r)) w Q.
Proof.
  intros Hw HQ. apply (calm_for_each h _ (fun don => zones_gone don p)); [grow|eapply at_plane_eq, Hw; apply zones_gone_nil| |done].
  intros don x rest w1 -> Hw1. eapply (calm_netfw_logged h _ _ _ _ _ _ Hw1).
  - intros k k' Hrun. by apply iso_DeleteZone.
  - done.
  - done.
  - intros w2 Hw2. split; [done|]. eapply at_plane_eq, Hw2. apply zones_gone_snoc.
Qed.

Lemma calm_drop_peer key k msg p w (Q : res Resp unit -> World K D -> Prop) :
  ParseKey key = Some k -> at_plane h p w -> (forall w', at_plane h (peers_gone [k] p) w' -> Q (Ok tt) w') ->
  calm (let! r := wg (RemovePeer (h_wg h) key) in log_failure msg r) w Q.
Proof.
  intros Hk Hw HQ. apply (calm_wg_logged h _ _ _ (peers_gone [k] p) _ _ Hw); [|done..].
  intros x x' Hrun. by apply peers_Remove with (key := key).
Qed.
Lemma calm_drop_peers keys ks msg p w (Q : res Resp unit -> World K D -> Prop) :
  Forall2 (fun key k => ParseKey key = Some k) keys ks -> at_plane h p w ->
  (forall w', at_plane h (peers_gone ks p) w' -> Q (Ok tt) w') ->
  calm (for_each keys (fun pub => let! r := wg (RemovePeer (h_wg h) pub) in log_failure msg r)) w Q.
Proof.
  intros Hks. revert p w. induction Hks as [|key k keys ks Hk Hks IH]; intros p w Hw HQ.
  - apply calm_ret, HQ. eapply at_plane_eq, Hw. apply peers_gone_nil.
  - apply calm_bind; [grow|intros; apply grows_for_each; grow|]. eapply calm_drop_peer; [done..|]. intros w1 Hw1.
    eapply IH; [done|]. intros w2 Hw2. apply HQ. eapply at_plane_eq, Hw2. constructor; simpl; try done.
    intros k' s. rewrite elem_of_cons, list_elem_of_singleton. tauto.
Qed.

(** [recompute_peer] on a node that is left. *)
Lemma calm_recompute pool d d' (R : list Z) n p m1 m2 w (Q : res Resp unit -> World K D -> Prop) :
  pl_db p = d' -> data_ok pool d -> schema_ok d' -> shrunk d d' -> at_plane h p w -> (forall k s, pl_peer p k s <-> peers_part d d' R k s) ->
  n ∈ rows (nodes d') -> (forall w', at_plane h (with_peer (peers_part d d' (R ++ [n_id n])) p) w' -> Q (Ok tt) w') ->
  calm (recompute_peer h (n_id n) (n_key n) (node_addr n) m1 m2) w Q.
Proof.
  intros Hdb Hd Hs' Hsh Hw Hp Hn HQ. unfold recompute_peer. calm_step. eapply (calm_db h _ _ _ _ _ Hw); [apply query_effect|..].
  - intros e w1 _. apply calm_noisy, noisy_log_error.
  - intros routes d1 [-> ->] _ w1 Hw1. cbv beta. assert (with_db (pl_db p) p = p) as Hsame by by destruct p. rewrite Hsame in Hw1. destruct (do_key _ _ Hd n (sh_nodes _ _ Hsh n Hn)) as [k Hk].
    rewrite Hdb. assert (blocksToPrefixes (synth_block <$> filter (fun a => a_node a = n_id n) (rows (announcements d'))) = node_prefixes d' (n_id n)) as ->
      by (unfold blocksToPrefixes, node_prefixes; by rewrite <- list_fmap_compose).
    eapply (calm_wg_logged h _ _ _ (peer_set k (node_allowed d' n) p) _ _ Hw1).
    + intros x x' Hrun. apply (peers_Set _ _ _ _ _ _ _ _ Hrun Hk). intros k' s (n' & Hn' & Hk' & ->)%Hp Hne.
      apply (part_disjoint pool d d' Hd Hs' Hsh); [done..|]. intros ->. congruence.
    + done.
    + intros w2 Hw2. apply HQ. eapply at_plane_eq, Hw2. constructor; simpl; try done. intros k' s.
      rewrite (peers_part_set pool d d' Hd Hs' Hsh _ _ _ _ _ Hn Hk). destruct (decide (k' = k)); [done|]. symmetry. apply Hp.
Qed.
End Loops.

(** ** Handlers, from a database in agreement *)

Section Handlers.
Context {K D : Type} `{NftablesLaws K} `{WgHostLaws D} `{WgTypes} `{NetipV6} `{Sqlite} `{Argon2} (h : Options)
  (pool : Prefix) (Hpool : range_ok pool) (d : DB) (Hd : data_ok pool d).
Abbreviation HM := (M Resp (World K D)).

Definition start (w : World K D) : Prop := at_plane h (plane_of d) w.
Definition ends {A} (_ : res Resp A) (w : World K D) : Prop := insync h pool w.

Lemma start_insync w : start w -> insync h pool w.
Proof. intros Hw. by apply (insync_intro h pool (plane_of d)); [|exact Hd|apply plane_eq_refl]. Qed.

(** A read, then the rest. *)
Lemma calm_read {A B} known (c : SM A) (k : A -> HM B) (P : A -> Prop) w :
  (forall a, grows (k a)) -> start w -> effect c d (fun a d' => d' = d /\ P a) ->
  (forall a w1, P a -> start w1 -> calm (k a) w1 ends) -> calm (bind (or_fail known (db c)) k) w ends.
Proof.
  intros Hg Hw Hc Hk. apply calm_bind; [grow|done|]. eapply (calm_or_fail h _ _ _ _ _ _ Hw Hc).
  - intros resp w1 Hw1. by apply start_insync.
  - intros a d' [-> HP] _ w1 Hw1. by apply Hk.
Qed.
Lemma calm_get_query {A B} known (f : DB -> A) (k : A -> HM B) w :
  (forall a, grows (k a)) -> start w -> (forall w1, start w1 -> calm (k (f d)) w1 ends) ->
  calm (bind (or_fail known (db (query f))) k) w ends.
Proof.
  intros Hg Hw Hk. eapply (calm_read _ _ _ (fun a => a = f d)); [done..| |].
  - eapply effect_mono; [apply query_effect|]. by intros a d' [-> ->].
  - intros a w1 -> Hw1. by apply Hk.
Qed.

(** Computations that only read. *)
Definition still {A} (m : HM A) : Prop := grows m /\ forall w, start w -> calm m w (fun _ w' => start w').
Lemma still_ret {A} (a : A) : still (ret a).
Proof. split; [grow|]. intros w Hw. by apply calm_ret. Qed.
Lemma still_throw {A} r : still (throw (A:=A) r).
Proof. split; [grow|]. intros w Hw. by apply calm_throw. Qed.
Lemma still_bind {A B} (m : HM A) (f : A -> HM B) : still m -> (forall a, still (f a)) -> still (bind m f).
Proof.
  intros [Hgm Hm] Hf. split; [apply grows_bind; [done|intros a; apply Hf]|]. intros w Hw.
  apply calm_bind; [done|intros a; apply Hf|]. eapply calm_mono; [by apply Hm|]. intros [a|e] w1 Hw1; [by apply Hf|done].
Qed.
Lemma still_read {A} known (c : SM A) : reads c -> still (or_fail known (db c)).
Proof.
  intros Hc. split; [grow|]. intros w Hw.
  assert (effect c d (fun _ d' => d' = d)) as He.
  { apply effect_reads; [done|]. intros s a s' Hs Hrun. specialize (Hc s). rewrite Hrun in Hc. simpl in Hc. by rewrite Hc. }
  by eapply (calm_or_fail h _ _ _ _ _ _ Hw He); [|intros a d' -> _].
Qed.
Lemma still_query {A} known (f : DB -> A) : still (or_fail known (db (query f))).
Proof. apply still_read, reads_query. Qed.
Lemma still_then {A B} (m : HM A) (k : A -> HM B) w :
  still m -> (forall a, grows (k a)) -> start w -> (forall a w1, start w1 -> calm (k a) w1 ends) -> calm (bind m k) w ends.
Proof.
  intros [Hgm Hm] Hg Hw Hk. apply calm_bind; [done..|]. eapply calm_mono; [by apply Hm|].
  intros [a|e] w1 Hw1; [by apply Hk|by apply start_insync].
Qed.
Lemma memberZone_still user name : still (memberZone user name).
Proof.
  apply still_bind; [apply still_query|]. intros [z|]; [|apply still_throw]. apply still_bind; [apply still_query|].
  intros b. destruct (negb b); [apply still_throw|apply still_ret].
Qed.
Lemma ownedZone_still user name : still (ownedZone user name).
Proof.
  apply still_bind; [apply still_query|]. intros [z|]; [|apply still_throw]. destruct (negb _); [apply still_throw|apply still_ret].
Qed.

Lemma grows_identity caller : grows (identity (K:=K) (D:=D) caller).
Proof. unfold identity. grow. Qed.
Lemma grows_decoded {A} (b : option A) : grows (decoded (K:=K) (D:=D) b).
Proof. unfold decoded. grow. Qed.
Lemma grows_memberZone user name : grows (memberZone (K:=K) (D:=D) user name).
Proof. unfold memberZone. grow. Qed.
Lemma grows_ownedZone user name : grows (ownedZone (K:=K) (D:=D) user name).
Proof. unfold ownedZone. grow. Qed.

Lemma calm_identity {B} (caller : option Claims) (k : Claims -> HM B) w :
  (forall c, grows (k c)) -> start w -> (forall c, calm (k c) w ends) -> calm (bind (identity caller) k) w ends.
Proof.
  intros Hg Hw Hk. unfold identity. destruct caller as [c|]; apply calm_bind; try solve [grow | done].
  - by apply calm_ret.
  - by apply calm_throw, start_insync.
Qed.
Lemma calm_decoded {A B} (b : option A) (k : A -> HM B) w :
  (forall a, grows (k a)) -> start w -> (forall a, calm (k a) w ends) -> calm (bind (decoded b) k) w ends.
Proof.
  intros Hg Hw Hk. unfold decoded. destruct b as [a|]; apply calm_bind; try solve [grow | done].
  - by apply calm_ret.
  - by apply calm_throw, start_insync.
Qed.
Lemma calm_refuse {A} resp w : start w -> calm (throw (A:=A) resp) w ends.
Proof. intros Hw. by apply calm_throw, start_insync. Qed.

(** The plane a handler that only takes away ends in: the members in [L1] and the
    routes in [L2] are gone, the nodes in [R] recomputed. *)
Definition left_plane (d' : DB) (ids : list Z) (L1 : list (Z * Addr)) (L2 : list (Z * Prefix)) (R : list Z) : Plane :=
  mkPlane d' (seq (zones d)) ids (fun z a => a ∈ member_ips z d /\ (z, a) ∉ L1) (fun z q => q ∈ zone_prefixes d z /\ (z, q) ∉ L2)
    (peers_part d d' R).
Lemma insync_left d' ids L1 L2 (R : list Z) w :
  at_plane h (left_plane d' ids L1 L2 R) w -> schema_ok d' -> shrunk d d' ->
  seq (zones d') = seq (zones d) -> z_id <$> rows (zones d') = ids ->
  (forall m n, m ∈ zone_members d -> n ∈ rows (nodes d) -> n_id n = m_node m -> m_zone m ∈ ids ->
     (m_zone m, node_addr n) ∈ L1 <-> ~ m ∈ zone_members d') ->
  (forall az a, az ∈ announcement_zones d -> a ∈ rows (announcements d) -> a_id a = az_ann az -> az_zone az ∈ ids ->
     (az_zone az, synth_prefix a) ∈ L2 <-> ~ az ∈ announcement_zones d') ->
  (forall a, a ∈ rows (announcements d) -> (a_node a ∉ R) -> a_node a ∈ n_id <$> rows (nodes d') -> a ∈ rows (announcements d')) ->
  insync h pool w.
Proof.
  intros Hw Hs Hsh Hseq Hids HL1 HL2 HR. apply (insync_intro h pool _ _ Hw); [by apply (data_ok_shrunk pool d)|].
  constructor; simpl; [done|done|done|..].
  - intros z a Hz. apply (members_shrunk pool d d' Hd Hs Hsh). intros m n Hm Hn Hid <-. by apply HL1.
  - intros z p Hz. apply (routes_shrunk pool d d' Hd Hs Hsh). intros az a Haz Ha Hid <-. by apply HL2.
  - intros k s. symmetry. by apply (peers_part_done pool d d' Hd Hs Hsh).
Qed.

Lemma grows_recompute node key ip m1 m2 : grows (recompute_peer (K:=K) h node key ip m1 m2).
Proof. unfold recompute_peer. grow. Qed.
#[local] Hint Resolve grows_recompute : grows.
Lemma grows_drop_routes z dets b : grows (drop_routes (K:=K) (D:=D) h z dets b).
Proof. revert b. induction dets as [|x dets IH]; intros b; simpl; grow. Qed.
#[local] Hint Resolve grows_drop_routes : grows.
Lemma grows_cascade node z : grows (cascadeNodeZoneAnnouncements (K:=K) h node z).
Proof. unfold cascadeNodeZoneAnnouncements. grow. Qed.
#[local] Hint Resolve grows_cascade : grows.
Lemma grows_exit z node msg : grows (exit_zone (K:=K) h z node msg).
Proof. unfold exit_zone. grow. Qed.
#[local] Hint Resolve grows_exit : grows.

(** *** Leaving a zone *)

Lemma calm_drop_detached dets : forall z b p w (Q : res Resp bool -> World K D -> Prop), at_plane h p w -> routes_from d p ->
  (forall det, det ∈ dets -> exists a, a ∈ rows (announcements d) /\ dr_synthetic det = synth_prefix a) ->
  (forall w', at_plane h (rts_gone ((fun det => (z, dr_synthetic det)) <$> dets) p) w' -> Q (Ok (b || existsb dr_reclaimed dets)) w') ->
  calm (drop_routes h z dets b) w Q.
Proof.
  induction dets as [|det dets IH]; intros z b p w Q Hw Hf Hl HQ; simpl.
  - apply calm_ret. rewrite <- (orb_false_r b). apply HQ. eapply at_plane_eq, Hw. apply rts_gone_nil.
  - destruct (Hl det) as (a & Ha & Heq); [left|]. rewrite Heq. pose proof (grows_drop_routes z dets) as Hg.
    apply calm_logged_then; [grow|auto|].
    eapply (calm_netfw_logged h _ _ _ (rts_gone [(z, synth_prefix a)] p) _ _ Hw); [|done..|].
    + intros k k' Hrun. apply (iso_RemoveZoneRoute _ _ _ _ _ _ Hrun); [by apply (synth_range pool d)|].
      intros q Hq Hne. apply (routes_apart pool d); [done..|by eapply Hf|done].
    + intros w1 Hw1. split; [done|]. apply (IH _ _ _ _ _ Hw1); [intros z' q [Hq _]; by eapply Hf|intros x Hx; apply Hl; by right|].
      intros w2 Hw2. rewrite <- orb_assoc. apply HQ. eapply at_plane_eq, Hw2. constructor; simpl; try done.
      intros z' q _. rewrite !not_elem_of_cons. rewrite Heq. set_solver.
Qed.
Lemma node_row_ip n : n_ip (node_of_row n) = node_addr n.
Proof. apply Uint32ToAddr_col. Qed.

(** The database after a node left a zone and its announcements there were dropped. *)
Lemma exit_end n z recs d2 (R : list Z) w :
  n ∈ rows (nodes d) ->
  (forall rc : Z * Block, rc ∈ recs <-> exists az a, az ∈ announcement_zones d /\ az_zone az = z /\ a ∈ rows (announcements d) /\
     a_id a = az_ann az /\ a_node a = n_id n /\ rc = (a_id a, synth_block a)) ->
  let d1 := set_members (filter (fun m => ~ (m_zone m = z /\ m_node m = n_id n)) (zone_members d)) d in
  StoreEffects.detached z (fun i => i ∈ recs.*1) recs.*1 d1 d2 -> schema_ok d2 ->
  (n_id n ∈ R \/ forall rc, rc ∈ recs -> StoreEffects.kept z d1 rc.1) ->
  at_plane h (left_plane d2 (z_id <$> rows (zones d)) [(z, node_addr n)] ((fun rc => (z, BlockPrefix rc.2)) <$> recs) R) w ->
  insync h pool w.
Proof.
  intros Hn Hrec d1 [Hnodes Hzones Hmem Hatt Hann] Hsch Hre Hw. simpl in *.
  assert (forall i, i ∈ recs.*1 <-> exists az a, az ∈ announcement_zones d /\ az_zone az = z /\ a ∈ rows (announcements d) /\
    a_id a = az_ann az /\ a_node a = n_id n /\ i = a_id a) as Hids.
  { intros i. rewrite list_elem_of_fmap. setoid_rewrite Hrec. split.
    - intros (rc & -> & az & a & ? & ? & ? & ? & ? & ->). by exists az, a.
    - intros (az & a & ? & ? & ? & ? & ? & ->). exists (a_id a, synth_block a). split; [done|]. by exists az, a. }
  apply (insync_left _ _ _ _ _ _ Hw); [done| |by rewrite Hzones|by rewrite Hzones|..].
  - constructor; [by rewrite Hnodes|rewrite Hmem; by intros m [_ ?]%list_elem_of_filter|by intros a [? _]%Hann|by intros az [? _]%Hatt].
  - intros m n' Hm Hn' Hid _. rewrite Hmem, list_elem_of_singleton, list_elem_of_filter. split.
    + intros [= Hz Ha]. apply (node_addr_inj pool d Hd) in Ha as ->; [|done..]. rewrite Hid. tauto.
    + intros Hnot. destruct (decide (m_zone m = z /\ m_node m = n_id n)) as [[-> Hmn]|]; [|tauto].
      do 2 f_equal. apply (node_id_inj pool d Hd); [done..|congruence].
  - intros az a Haz Ha Hid _. rewrite Hatt, Hids, list_elem_of_fmap. split.
    + intros (rc & [Hz Hp]%pair_equal_spec & (az' & a' & Haz' & Hz' & Ha' & Hid' & Han' & ->)%Hrec) [_ Hnot]. apply Hnot. split; [done|].
      apply (synth_prefix_inj pool d Hd) in Hp as ->; [|done..]. rewrite <- Hid. by exists az', a'.
    + intros Hnot. destruct (decide (az_zone az = z)) as [Hz|Hz]; [|exfalso; apply Hnot; tauto].
      destruct (decide (a_node a = n_id n)) as [Han|Han].
      * exists (a_id a, synth_block a). rewrite Hz. split; [done|]. apply Hrec. by exists az, a.
      * exfalso. apply Hnot. split; [done|]. intros [_ (az' & a' & _ & _ & Ha' & _ & Han' & Heq)].
        apply Han. rewrite <- Han'. f_equal.
        apply (uniq_inj a_id (rows (announcements d))); [apply table_ok_uniq, ok_anns, (do_schema _ _ Hd)|done..|congruence].
  - intros a Ha HnR _. apply Hann. split; [done|]. intros Hin. destruct Hre as [HR|Hk].
    + apply Hids in Hin as (az & a' & _ & _ & Ha' & _ & Han & Heq). exfalso. apply HnR. replace a with a'; [by rewrite Han|].
      apply (uniq_inj a_id (rows (announcements d))); [apply table_ok_uniq, ok_anns, (do_schema _ _ Hd)|done..].
    + apply list_elem_of_fmap in Hin as (rc & -> & Hrc). auto.
Qed.

Lemma calm_exit_zone z n msg w : n ∈ rows (nodes d) -> start w -> calm (exit_zone h z (node_of_row n) msg) w ends.
Proof.
  intros Hn Hw. unfold exit_zone. calm_step.
  eapply (calm_or_fail h _ _ _ _ _ _ Hw (LeaveZone_effect z (n_id n) d)); [intros resp w1 Hw1; by apply start_insync|].
  intros _ d1 [-> _] Hs1 w1 Hw1. set (p1 := with_db _ _) in Hw1. rewrite node_row_ip. change (n_id (node_of_row n)) with (n_id n) in *.
  apply calm_logged_then; [grow|grow|].
  eapply (calm_netfw_logged h _ _ _ (mem_gone [(z, node_addr n)] p1) _ _ Hw1); [|done..|].
  { intros k k' Hrun. apply (iso_RemoveMember _ _ _ _ _ _ Hrun); [apply node_addr_u32|exact (plane_members_u32 d)]. }
  intros w2 Hw2. split; [done|]. set (p2 := mem_gone _ _) in Hw2. unfold cascadeNodeZoneAnnouncements. calm_step. calm_step.
  change (n_id (node_of_row n)) with (n_id n) in *. change (n_key (node_of_row n)) with (n_key n) in *.
  eapply (calm_db h _ _ _ _ _ Hw2 (DetachAllForNodeZone_effect (n_id n) z _)).
  { intros e w3 _. apply calm_noisy. grow. }
  intros dets d2 (recs & Hrecs & Hsyn & Hdet & Hre) Hs2 w3 Hw3. set (p3 := with_db _ _) in Hw3.
  assert (forall rc, rc ∈ recs <-> exists az a, az ∈ announcement_zones d /\ az_zone az = z /\ a ∈ rows (announcements d) /\
    a_id a = az_ann az /\ a_node a = n_id n /\ rc = (a_id a, synth_block a)) as Hrec by exact Hrecs. clear Hrecs.
  calm_step. apply (calm_drop_detached _ _ _ _ _ _ Hw3); [exact (plane_routes_from d)| |].
  { intros det Hin. apply (list_elem_of_fmap_2 dr_synthetic) in Hin. rewrite Hsyn in Hin.
    apply list_elem_of_fmap in Hin as (rc & -> & (az & a & _ & _ & Ha & _ & _ & ->)%Hrec). by exists a. }
  intros w4 Hw4. assert (schema_ok d2) as Hsch by apply Hs2, Hs1, (do_schema _ _ Hd).
  assert (shrunk d d2) as Hsh.
  { destruct Hdet as [Hnodes Hzones Hmem Hatt Hann]. simpl in *.
    constructor; [by rewrite Hnodes|rewrite Hmem; by intros m [_ ?]%list_elem_of_filter|by intros a [? _]%Hann|by intros az [? _]%Hatt]. }
  set (p5 := left_plane d2 (z_id <$> rows (zones d)) [(z, node_addr n)] ((fun rc => (z, BlockPrefix rc.2)) <$> recs) []).
  assert (at_plane h p5 w4) as Hw5.
  { eapply at_plane_eq, Hw4. constructor; simpl; try done.
    - intros z' q _. replace ((fun rc : Z * Block => (z, BlockPrefix rc.2)) <$> recs) with ((fun det => (z, dr_synthetic det)) <$> dets); [done|].
      change ((fun det => (z, dr_synthetic det)) <$> dets) with ((pair z ∘ dr_synthetic) <$> dets).
      rewrite list_fmap_compose, Hsyn. by rewrite <- list_fmap_compose.
    - intros k s. rewrite (peers_left d d2 Hsh []); [simpl; set_solver|]. intros n' Hn' k' _.
      destruct Hdet as [Hnodes _ _ _ _]. simpl in Hnodes. rewrite Hnodes. set_solver. }
  cbn [orb]. destruct (existsb dr_reclaimed dets) eqn:Hany.
  - rewrite node_row_ip. apply (calm_recompute h pool d d2 [] n p5); [done..| |].
    { destruct Hdet as [Hnodes _ _ _ _]. simpl in Hnodes. by rewrite Hnodes. }
    intros w6 Hw6. apply calm_ret. apply (exit_end n z recs d2 [n_id n] w6 Hn Hrec Hdet Hsch); [left; by apply list_elem_of_singleton|exact Hw6].
  - apply calm_ret, calm_ret. apply (exit_end n z recs d2 [] w4 Hn Hrec Hdet Hsch); [right; by destruct Hre|exact Hw5].
Qed.
End Handlers.

#[export] Hint Resolve grows_identity grows_decoded grows_memberZone grows_ownedZone : grows.
#[export] Hint Resolve grows_recompute grows_drop_routes grows_cascade grows_exit : grows.
