(* ===== verification/SyncDeletes.v ===== *)
(** * The handlers that take something away keep the dataplane in agreement

    Leaving a zone and being ejected from one, deleting a zone, a node, an
    announcement, a user. *)
From S2P Require Import Prelude GoStrings Netip Ipam Codec Db StoreInv StoreUsers StoreNodes StoreAnnounce StoreOps UsersProps CascadeProps StoreEffects NodesProps AnnounceProps Netfw NetfwProps Isolation Wg WgProps Auth Api ApiZones ApiRoutes Sync SyncPlane SyncData SyncHandlers.

#[local] Open Scope lw_scope.

Section Deletes.
Context {K D : Type} `{NftablesLaws K} `{WgHostLaws D} `{WgTypes} `{NetipV6} `{Sqlite} `{Argon2} (h : Options)
  (pool : Prefix) (Hpool : range_ok pool) (d : DB) (Hd : data_ok pool d).
Abbreviation HM := (M Resp (World K D)).
#[local] Abbreviation start := (start (K:=K) (D:=D) h d).
#[local] Abbreviation ends := (ends (K:=K) (D:=D) h pool).

(** ** Leaving a zone *)

Lemma calm_owned {B} user id msg (k : node_row -> HM B) w : (forall n, grows (k n)) -> start w ->
  (forall n w1, n ∈ rows (nodes d) -> n_id n = id -> n_user n = user -> start w1 -> calm (k (node_of_row n)) w1 ends) ->
  calm (bind (or_fail (node_missing msg) (db (GetOwned user id))) k) w ends.
Proof.
  intros Hg Hw Hk. eapply (calm_read h pool d Hd); [done..|apply GetOwned_effect|].
  intros n w1 (n0 & Hn & Hid & Hu & ->) Hw1. by apply Hk.
Qed.
Lemma calm_node {B} known id (k : node_row -> HM B) w : (forall n, grows (k n)) -> start w ->
  (forall n w1, n ∈ rows (nodes d) -> n_id n = id -> start w1 -> calm (k (node_of_row n)) w1 ends) ->
  calm (bind (or_fail known (db (GetNodeByID id))) k) w ends.
Proof.
  intros Hg Hw Hk. eapply (calm_read h pool d Hd); [done..|apply GetNodeByID_effect|].
  intros n w1 (n0 & Hn & Hid & ->) Hw1. by apply Hk.
Qed.

Lemma calm_leaveZone caller name b w : start w -> calm (leaveZone h caller name b) w ends.
Proof.
  intros Hw. apply (calm_identity h pool d Hd); [grow|done|]. intros id.
  apply (calm_decoded h pool d Hd); [grow|done|]. intros req.
  apply (still_then h pool d Hd); [apply still_query|grow|done|]. intros [z|] w1 Hw1; [|by apply (calm_refuse h pool d Hd)].
  apply calm_owned; [grow|done|]. intros n w2 Hn _ _ Hw2. by apply (calm_exit_zone h pool Hpool d Hd).
Qed.
Lemma calm_kickMember caller name node w : start w -> calm (kickMember h caller name node) w ends.
Proof.
  intros Hw. apply (calm_identity h pool d Hd); [grow|done|]. intros id.
  apply (still_then h pool d Hd); [apply ownedZone_still|grow|done|]. intros z w1 Hw1.
  destruct (ParseInt64 node) as [nid|]; [|by apply (calm_refuse h pool d Hd)].
  apply calm_node; [grow|done|]. intros n w2 Hn _ Hw2. by apply (calm_exit_zone h pool Hpool d Hd).
Qed.

(** ** Deleting a zone *)

(** The plane after the table and the peers were cut, before any recomputation. *)
Lemma left_start p d' (Ks : list Key) L1 L2 w : at_plane h p w -> pl_db p = d' -> pl_seq p = seq (zones d) -> shrunk d d' ->
  (forall z a, z ∈ pl_ids p -> pl_mem p z a <-> a ∈ member_ips z d /\ (z, a) ∉ L1) ->
  (forall z q, z ∈ pl_ids p -> pl_rts p z q <-> q ∈ zone_prefixes d z /\ (z, q) ∉ L2) ->
  (forall k s, pl_peer p k s <-> pl_peer (plane_of d) k s /\ (k ∉ Ks)) ->
  (forall n, n ∈ rows (nodes d) -> forall k, ParseKey (n_key n) = Some k -> k ∈ Ks <-> ~ n ∈ rows (nodes d')) ->
  at_plane h (left_plane d d' (pl_ids p) L1 L2 []) w.
Proof.
  intros Hw Hdb Hseq Hsh Hm Hr Hp HK. eapply at_plane_eq, Hw. constructor; simpl; try done.
  - intros z a Hz. by rewrite Hm.
  - intros z q Hz. by rewrite Hr.
  - intros k s. rewrite (peers_left d d' Hsh Ks) by done. by rewrite Hp.
Qed.
Lemma same_nodes_kept (d' : DB) : nodes d' = nodes d ->
  forall n, n ∈ rows (nodes d) -> forall k, ParseKey (n_key n) = Some k -> k ∈ ([] : list Key) <-> ~ n ∈ rows (nodes d').
Proof. intros -> n Hn k _. split; [by intros ?%not_elem_of_nil|tauto]. Qed.

Lemma grows_reclaimed dets : forall seen, grows (recomputeReclaimedPeers (K:=K) h seen dets).
Proof. induction dets as [|dt dets IH]; intros seen; simpl; [grow|]. destruct (_ || _); [apply IH|]. grow. Qed.
#[local] Hint Resolve grows_reclaimed : grows.

(** The nodes of the reclaimed announcements are recomputed, in some order. *)
Lemma calm_reclaimed d' p (Q : res Resp unit -> World K D -> Prop) dets :
  pl_db p = d' -> schema_ok d' -> shrunk d d' ->
  forall seen (R : list Z) w, at_plane h (with_peer (peers_part d d' R) p) w -> (forall i, i ∈ seen -> i ∈ R) ->
  (forall R' w', (forall i, i ∈ R -> i ∈ R') -> (forall dt, dt ∈ dets -> zd_reclaimed dt = true -> zd_node dt ∈ R') ->
     at_plane h (with_peer (peers_part d d' R') p) w' -> Q (Ok tt) w') ->
  calm (recomputeReclaimedPeers h seen dets) w Q.
Proof.
  intros Hdb Hs Hsh. induction dets as [|dt dets IH]; intros seen R w Hw Hseen HQ; cbn [recomputeReclaimedPeers].
  - apply calm_ret, (HQ R); [done|by intros dt ?%not_elem_of_nil|done].
  - destruct (_ || _) eqn:Hskip.
    + apply (IH seen R); [done..|]. intros R' w' HR Hdets Hw'. apply (HQ R'); [done| |done].
      intros x [->|Hx]%elem_of_cons; [|by apply Hdets]. intros Hre. rewrite Hre in Hskip. simpl in Hskip.
      apply HR, Hseen. by apply bool_decide_eq_true in Hskip.
    + calm_step. eapply (calm_db h _ _ _ _ _ Hw); [apply GetNodeByID_effect|..].
      { intros e w1 _. apply calm_noisy. apply noisy_first; grow. }
      intros n d1 (-> & n0 & Hn & Hid & ->) _ w1 Hw1. simpl in Hn, Hw1. calm_step. rewrite node_row_ip, <- Hid.
      change (n_key (node_of_row n0)) with (n_key n0). rewrite Hdb in Hn.
      assert (with_db (pl_db p) (with_peer (peers_part d d' R) p) = with_peer (peers_part d d' R) p) as Hsame by by destruct p.
      rewrite Hsame in Hw1. eapply (calm_recompute h pool d d' R n0 (with_peer (peers_part d d' R) p)); [done..|].
      intros w2 Hw2. apply (IH _ (R ++ [n_id n0])); [exact Hw2|..].
      * intros i [->%elem_of_singleton|Hi]%elem_of_union; apply elem_of_app; [right; by apply list_elem_of_singleton|left; auto].
      * intros R' w' HR Hdets Hw'. apply (HQ R'); [| |done].
        -- intros i Hi. apply HR, elem_of_app. by left.
        -- intros x [->|Hx]%elem_of_cons; [|by apply Hdets]. intros _. rewrite <- Hid. apply HR, elem_of_app. right. by apply list_elem_of_singleton.
Qed.

Lemma kept_dec z i : StoreEffects.kept z d i \/ ~ StoreEffects.kept z d i.
Proof.
  destruct (decide (Exists (fun az => az_ann az = i /\ az_zone az <> z) (announcement_zones d))) as [Hk|Hk]; rewrite Exists_exists in Hk;
    [left|right]; [|intros (az & ? & ? & ?); apply Hk; by exists az]. destruct Hk as (az & ? & ? & ?). by exists az.
Qed.

(** The end of [deleteZone]: the announcements only zone [z] held are reclaimed, the
    zone's row is deleted, and the nodes in [R] are recomputed. *)
Lemma zone_end z (ids : list Z) (dets : list ZoneDetachment) d1 (R : list Z) w :
  let d2 := delete_zones (fun x => z_id x = z) d1 in
  StoreEffects.detached z (fun _ => True) ids d d1 -> schema_ok d2 -> shrunk d d2 ->
  (forall i, i ∈ ids -> ~ StoreEffects.kept z d i -> exists dt, dt ∈ dets /\ zd_ann dt = i /\ zd_reclaimed dt = true) ->
  (forall dt, dt ∈ dets -> exists a, a ∈ rows (announcements d) /\ a_id a = zd_ann dt /\ a_node a = zd_node dt) ->
  (forall dt, dt ∈ dets -> zd_reclaimed dt = true -> zd_node dt ∈ R) ->
  at_plane h (left_plane d d2 (filter (fun x => x ∉ [z]) (z_id <$> rows (zones d))) [] [] R) w -> insync h pool w.
Proof.
  intros d2 [Hnodes Hzones Hmem Hatt Hann] Hs Hsh Hids Hdets HR Hw.
  assert (z_id <$> rows (zones d2) = filter (fun x => x ∉ [z]) (z_id <$> rows (zones d))) as Hz2.
  { simpl. rewrite Hzones, filter_of_fmap. f_equal. apply list_filter_iff. intros x. simpl. by rewrite list_elem_of_singleton. }
  assert (forall i, i ∈ filter (fun x => x ∉ [z]) (z_id <$> rows (zones d)) -> i ∉ z_id <$> filter (fun x => z_id x = z) (rows (zones d1))) as Hlive.
  { intros i [Hi _]%list_elem_of_filter (x & -> & [Hx _]%list_elem_of_filter)%list_elem_of_fmap. by rewrite Hx, list_elem_of_singleton in Hi. }
  apply (insync_left h pool d Hd _ _ _ _ _ _ Hw); [done|done|simpl; by rewrite Hzones|done|..].
  - intros m n Hm Hn Hid Hz. split; [by intros ?%not_elem_of_nil|]. intros Hnot. exfalso. apply Hnot. simpl.
    rewrite list_elem_of_filter, Hmem. split; [by apply Hlive|done].
  - intros az a Haz Ha Hid Hz. split; [by intros ?%not_elem_of_nil|]. intros Hnot. exfalso. apply Hnot. simpl.
    rewrite list_elem_of_filter, Hatt. split; [by apply Hlive|]. split; [done|]. intros [Heq _].
    apply list_elem_of_filter in Hz as [Hz _]. by rewrite Heq, list_elem_of_singleton in Hz.
  - intros a Ha HnR _. simpl. apply Hann. split; [done|]. intros Hin. destruct (kept_dec z (a_id a)) as [|Hk]; [done|].
    destruct (Hids _ Hin Hk) as (dt & Hdt & Hai & Hre). destruct (Hdets dt Hdt) as (a' & Ha' & Hai' & Hnode).
    exfalso. apply HnR. replace a with a'; [rewrite Hnode; by apply HR|].
    apply (uniq_inj a_id (rows (announcements d))); [apply table_ok_uniq, ok_anns, (do_schema _ _ Hd)|done..|congruence].
Qed.

Lemma calm_deleteZone caller name w : start w -> calm (deleteZone h caller name) w ends.
Proof.
  intros Hw. apply (calm_identity h pool d Hd); [grow|done|]. intros id.
  apply (still_then h pool d Hd); [by apply (ownedZone_still h d)|grow|done|]. intros zone w1 Hw1. set (z := z_id zone).
  calm_step. eapply (calm_or_server h _ _ _ _ _ Hw1 (DetachAllForZone_effect z d)). intros dets d1 (ids & Hdet & Hids & Hdets) Hs1 w2 Hw2.
  calm_step. eapply (calm_or_server h _ _ _ _ _ Hw2 (DeleteZoneRow_effect z d1)). intros [] d2 -> Hs2 w3 Hw3.
  apply calm_logged_then; [grow|grow|].
  eapply (calm_netfw_logged h _ _ _ (zones_gone [z] _) _ _ Hw3); [|done..|].
  { intros k k' Hrun. by apply iso_DeleteZone. }
  intros w4 Hw4. split; [done|]. set (d2 := delete_zones _ d1) in *.
  assert (schema_ok d2) as Hs by apply Hs2, Hs1, (do_schema _ _ Hd).
  assert (shrunk d d2) as Hsh.
  { destruct Hdet as [Hn Hz Hm Hat Han]. constructor; simpl.
    - by rewrite Hn.
    - intros m [_ Hin]%list_elem_of_filter. by rewrite Hm in Hin.
    - by intros a [? _]%Han.
    - by intros az [_ [? _]%Hat]%list_elem_of_filter. }
  apply (left_start _ d2 [] [] []) in Hw4; [|done|done|done| | | |apply same_nodes_kept, Hdet];
    try (intros; apply and_not_nil).
  calm_step. apply (calm_reclaimed d2 (left_plane d d2 (filter (fun x => x ∉ [z]) (z_id <$> rows (zones d))) [] [] []) _ dets eq_refl Hs Hsh ∅ []);
    [exact Hw4|by intros i ?%not_elem_of_empty|].
  intros R w5 _ HR Hw5. apply calm_ret. by apply (zone_end z ids dets d1 R).
Qed.

(** ** Deleting a node *)

Lemma node_gone n (P : node_row -> Prop) `{forall x, Decision (P x)} :
  n ∈ rows (nodes d) -> P n -> (forall x, P x -> n_id x = n_id n) ->
  let d' := delete_nodes P d in
  (forall x, x ∈ rows (nodes d') <-> x ∈ rows (nodes d) /\ x <> n) /\
  (forall m, m ∈ zone_members d' <-> m ∈ zone_members d /\ m_node m <> n_id n) /\
  (forall a, a ∈ rows (announcements d') <-> a ∈ rows (announcements d) /\ a_node a <> n_id n) /\
  (forall az a, az ∈ announcement_zones d -> a ∈ rows (announcements d) -> a_id a = az_ann az ->
     az ∈ announcement_zones d' <-> a_node a <> n_id n) /\
  shrunk d d'.
Proof.
  intros Hn HP Hid d'.
  assert (forall i, i ∈ n_id <$> filter P (rows (nodes d)) <-> i = n_id n) as Hdead.
  { intros i. rewrite list_elem_of_fmap. split.
    - intros (x & -> & [HPx _]%list_elem_of_filter). auto.
    - intros ->. exists n. split; [done|]. by apply list_elem_of_filter. }
  split_and!.
  - intros x. simpl. rewrite list_elem_of_filter. split.
    + intros [Hx Hin]. split; [done|]. by intros ->.
    + intros [Hin Hx]. split; [|done]. intros HPx. apply Hx, (node_id_inj pool d Hd); auto.
  - intros m. simpl. rewrite list_elem_of_filter, Hdead. tauto.
  - intros a. simpl. rewrite list_elem_of_filter, Hdead. tauto.
  - intros az a Haz Ha Hai. simpl. rewrite list_elem_of_filter. rewrite list_elem_of_fmap. setoid_rewrite list_elem_of_filter.
    setoid_rewrite Hdead. split.
    + intros [Hnot _] Han. apply Hnot. by exists a.
    + intros Hne. split; [|done]. intros (a' & Heq & Han & Ha'). apply Hne. rewrite <- Han. f_equal.
      apply (uniq_inj a_id (rows (announcements d))); [apply table_ok_uniq, ok_anns, (do_schema _ _ Hd)|done..|congruence].
  - constructor; simpl; intros x; rewrite list_elem_of_filter; tauto.
Qed.

Lemma node_end n (P : node_row -> Prop) `{forall x, Decision (P x)} w : n ∈ rows (nodes d) -> P n -> (forall x, P x -> n_id x = n_id n) ->
  at_plane h (left_plane d (delete_nodes P d) (z_id <$> rows (zones d))
    ((fun zid => (zid, node_addr n)) <$> (m_zone <$> filter (fun m => m_node m = n_id n) (zone_members d)))
    ((fun p => (az_zone p.1, synth_prefix p.2)) <$> filter (fun p => a_node p.2 = n_id n) (attached d)) []) w -> insync h pool w.
Proof.
  intros Hn HP Hid Hw. destruct (node_gone n P Hn HP Hid) as (_ & Hmem & Hann & Hatt & Hsh). set (d' := delete_nodes P d) in *.
  apply (insync_left h pool d Hd _ _ _ _ _ _ Hw); [apply delete_nodes_ok, (do_schema _ _ Hd)|exact Hsh|done|done|..].
  - intros m n' Hm Hn' Hid' _. rewrite Hmem. rewrite list_elem_of_fmap. setoid_rewrite list_elem_of_fmap. setoid_rewrite list_elem_of_filter. split.
    + intros (zid & [_ Ha]%pair_equal_spec & _) [_ Hne]. apply Hne. rewrite <- Hid'. f_equal. by apply (node_addr_inj pool d Hd).
    + intros Hnot. assert (m_node m = n_id n) as Hmn by (destruct (decide (m_node m = n_id n)); tauto).
      exists (m_zone m). split; [|by exists m]. do 2 f_equal. apply (node_id_inj pool d Hd); [done..|congruence].
  - intros az a Haz Ha Hai _. rewrite (Hatt az a) by done. rewrite list_elem_of_fmap. setoid_rewrite list_elem_of_filter.
    setoid_rewrite elem_of_attached. split.
    + intros ([az' a'] & [_ Hp]%pair_equal_spec & Han & _ & Ha' & _) Hne. apply Hne. rewrite <- Han. f_equal. by apply (synth_prefix_inj pool d Hd).
    + intros Hnot. exists (az, a). split_and!; [done| |done..]. simpl. lia.
  - intros a Ha _ (x & Heq & [Hx Hne]%(proj1 (node_gone n P Hn HP Hid)))%list_elem_of_fmap. apply Hann. split; [done|].
    intros Han. apply Hne, (node_id_inj pool d Hd); [done..|congruence].
Qed.

Lemma key_gone n (P : node_row -> Prop) `{forall x, Decision (P x)} k :
  n ∈ rows (nodes d) -> P n -> (forall x, P x -> n_id x = n_id n) -> ParseKey (n_key n) = Some k ->
  forall x, x ∈ rows (nodes d) -> forall k', ParseKey (n_key x) = Some k' -> k' ∈ [k] <-> ~ x ∈ rows (nodes (delete_nodes P d)).
Proof.
  intros Hn HP Hid Hk x Hx k' Hk'. destruct (node_gone n P Hn HP Hid) as (Hrows & _). rewrite Hrows, list_elem_of_singleton. split.
  - intros -> [_ Hne]. apply Hne, (do_key_inj _ _ Hd); [done..|congruence].
  - intros Hnot. destruct (decide (n_id x = n_id n)) as [Heq|Hne].
    + apply (node_id_inj pool d Hd) in Heq as ->; [congruence|done..].
    + exfalso. apply Hnot. split; [done|]. by intros ->.
Qed.

Lemma calm_deleteNode caller path w : start w -> calm (deleteNode h caller path) w ends.
Proof.
  intros Hw. apply (calm_identity h pool d Hd); [grow|done|]. intros c.
  destruct (ParseInt64 path) as [nid|]; [|by apply (calm_refuse h pool d Hd)].
  apply calm_owned; [grow|done|]. intros n w1 Hn Hid Hu Hw1.
  apply (calm_get_query h pool d Hd); [grow|done|]. clear w1 Hw1. intros w1 Hw1.
  apply (calm_get_query h pool d Hd); [grow|done|]. clear w1 Hw1. intros w1 Hw1.
  calm_step. eapply (calm_or_fail h _ _ _ _ _ _ Hw1 (DeleteOwned_effect (c_UserID c) nid d)).
  { intros resp w2 Hw2. by apply (start_insync h pool d Hd). }
  set (P := fun x => n_id x = nid /\ n_user x = c_UserID c). intros key d' -> Hs w2 Hw2.
  assert (P n) as HP by done. assert (forall x, P x -> n_id x = n_id n) as HPid by (intros x [-> _]; by rewrite Hid).
  destruct (node_gone n P Hn HP HPid) as (_ & _ & _ & _ & Hsh). set (d' := delete_nodes P d) in *.
  destruct (do_key _ _ Hd n Hn) as [k Hk]. rewrite node_row_ip. change (n_key (node_of_row n)) with (n_key n).
  apply calm_logged_then; [grow|grow|]. eapply (calm_wg_logged h _ _ _ (peers_gone [k] _) _ _ Hw2); [|done|].
  { intros x x' Hrun. by apply peers_Remove with (key := n_key n). }
  intros w3 Hw3. split; [done|].
  calm_step. apply (calm_drop_members h (fun zid => (zid, node_addr n)) _ _ _ _ _ Hw3); [exact (plane_members_u32 d)|intros; apply node_addr_u32|].
  intros w4 Hw4. calm_step.
  apply (calm_drop_routes h pool d (fun att => (zd_zone att, zd_synthetic att)) _ _ _ _ _ Hd Hpool Hw4); [exact (plane_routes_from d)| |].
  { intros att ([az a] & -> & [_ (_ & Ha & _)%elem_of_attached]%list_elem_of_filter)%list_elem_of_fmap. by exists a. }
  intros w5 Hw5. apply calm_ret. apply (node_end n P w5 Hn HP HPid). subst nid.
  rewrite <- list_fmap_compose in Hw5.
  apply (left_start _ d' [k] ((fun zid => (zid, node_addr n)) <$> (m_zone <$> filter (fun m => m_node m = n_id n) (zone_members d)))
    ((fun p => (az_zone p.1, synth_prefix p.2)) <$> filter (fun p => a_node p.2 = n_id n) (attached d))) in Hw5; try done.
  by apply (key_gone n P k).
Qed.

(** ** Withdrawing an announcement *)

Lemma detached_shrunk z gone ids d' : StoreEffects.detached z gone ids d d' -> shrunk d d'.
Proof.
  intros [Hn Hz Hm Hat Han]. constructor; [by rewrite Hn|by rewrite Hm|by intros a [? _]%Han|by intros az [? _]%Hat].
Qed.
Lemma ann_id_inj a b : a ∈ rows (announcements d) -> b ∈ rows (announcements d) -> a_id a = a_id b -> a = b.
Proof. apply uniq_inj, table_ok_uniq, ok_anns, (do_schema _ _ Hd). Qed.

Lemma detach_end z a d' (R : list Z) w : a ∈ rows (announcements d) ->
  StoreEffects.detached z (fun i => i = a_id a) [a_id a] d d' -> schema_ok d' -> (a_node a ∈ R \/ StoreEffects.kept z d (a_id a)) ->
  at_plane h (left_plane d d' (z_id <$> rows (zones d)) [] [(z, synth_prefix a)] R) w -> insync h pool w.
Proof.
  intros Ha Hdet Hs HR Hw. pose proof (detached_shrunk _ _ _ _ Hdet) as Hsh. destruct Hdet as [Hn Hz Hm Hat Han].
  apply (insync_left h pool d Hd _ _ _ _ _ _ Hw); [done|done|by rewrite Hz|by rewrite Hz|..].
  - intros m n' Hmem Hn' Hid _. rewrite Hm. split; [by intros ?%not_elem_of_nil|tauto].
  - intros az b Haz Hb Hid _. rewrite Hat, list_elem_of_singleton. split.
    + intros [Hzz Hp]%pair_equal_spec [_ Hnot]. apply (synth_prefix_inj pool d Hd) in Hp as ->; [|done..]. apply Hnot. by rewrite Hid.
    + intros Hnot. destruct (decide (az_zone az = z /\ az_ann az = a_id a)) as [[-> Heq]|]; [|tauto].
      do 2 f_equal. apply ann_id_inj; [done..|congruence].
  - intros b Hb HbR _. apply Han. split; [done|]. intros ->%list_elem_of_singleton%ann_id_inj; [|done..]. tauto.
Qed.

Lemma calm_deleteAnnouncement caller name path w : start w -> calm (deleteAnnouncement h caller name path) w ends.
Proof.
  intros Hw. apply (calm_identity h pool d Hd); [grow|done|]. intros c.
  apply (still_then h pool d Hd); [by apply (memberZone_still h d)|grow|done|]. intros zone w1 Hw1. set (z := z_id zone).
  destruct (ParseInt64 path) as [aid|]; [|by apply (calm_refuse h pool d Hd)].
  eapply (calm_read h pool d Hd); [grow|done|apply GetAnnouncement_effect|]. intros ann w2 (a & Ha & Hid & ->) Hw2.
  apply calm_node; [grow|done|]. intros n w3 Hn Hnid Hw3. change (an_node (ann_of_row a)) with (a_node a) in Hnid.
  destruct (_ && _); [by apply (calm_refuse h pool d Hd)|].
  calm_step. eapply (calm_or_fail h _ _ _ _ _ _ Hw3 (Detach_effect z aid d)); [intros resp w4 Hw4; by apply (start_insync h pool d Hd)|].
  intros [an reclaimed] d' (Hdet & Hre & _) Hs w4 Hw4. subst aid. pose proof (detached_shrunk _ _ _ _ Hdet) as Hsh.
  assert (schema_ok d') as Hsch by apply Hs, (do_schema _ _ Hd).
  change (BlockPrefix (Synthetic (ann_of_row a))) with (synth_prefix a).
  apply calm_logged_then; [grow|grow|]. eapply (calm_netfw_logged h _ _ _ (rts_gone [(z, synth_prefix a)] _) _ _ Hw4); [|done..|].
  { intros k k' Hrun. apply (iso_RemoveZoneRoute _ _ _ _ _ _ Hrun); [by apply (synth_range pool d)|].
    intros q Hq Hne. by apply (routes_apart pool d); [..|apply (plane_routes_from d) in Hq|]. }
  intros w5 Hw5. split; [done|].
  apply (left_start _ d' [] [] [(z, synth_prefix a)]) in Hw5; [|done|done|done| |done| |apply same_nodes_kept, Hdet]; try (intros; apply and_not_nil).
  simpl in Hre. calm_step. destruct reclaimed; cbn [when].
  - rewrite node_row_ip. change (n_key (node_of_row n)) with (n_key n). change (n_id (node_of_row n)) with (n_id n).
    apply (calm_recompute h pool d d' [] n (left_plane d d' (z_id <$> rows (zones d)) [] [(z, synth_prefix a)] [])); [done..| |].
    { by destruct Hdet as [-> _ _ _ _]. }
    intros w6 Hw6. apply calm_ret. apply (detach_end z a d' [n_id n]); [done..| |done]. left. rewrite <- Hnid. by apply list_elem_of_singleton.
  - apply calm_ret, calm_ret. apply (detach_end z a d' []); [done..| |done]. right. by destruct Hre.
Qed.

(** ** Deleting a user *)

Lemma parsed_keys (l : list node_row) : (forall n, n ∈ l -> n ∈ rows (nodes d)) ->
  exists ks : list Key, Forall2 (fun key k => ParseKey key = Some k) (n_key <$> l) ks /\
    forall k, k ∈ ks <-> exists n, n ∈ l /\ ParseKey (n_key n) = Some k.
Proof.
  induction l as [|n l IH]; intros Hl.
  - exists []. split; [constructor|]. intros k. split; [by intros ?%not_elem_of_nil|by intros (n & ?%not_elem_of_nil & _)].
  - destruct IH as (ks & Hks & Hin); [intros; apply Hl; by right|]. destruct (do_key _ _ Hd n) as [k Hk]; [apply Hl; left|].
    exists (k :: ks). split; [by constructor|]. intros k'. rewrite elem_of_cons, Hin. split.
    + intros [->|(n' & Hn' & Hk')]; [exists n; split; [left|done]|exists n'; split; [by right|done]].
    + intros (n' & [->|Hn']%elem_of_cons & Hk'); [left; congruence|right; by exists n'].
Qed.

Lemma calm_recompute_each d' p m1 m2 l (Q : res Resp unit -> World K D -> Prop) : pl_db p = d' -> schema_ok d' -> shrunk d d' ->
  forall (R : list Z) w, at_plane h (with_peer (peers_part d d' R) p) w ->
  (forall r, r ∈ l -> exists n, n ∈ rows (nodes d') /\ r = mkRecompute (n_id n) (n_key n) (u32 (n_ip n))) ->
  (forall w', at_plane h (with_peer (peers_part d d' (R ++ (rr_node <$> l))) p) w' -> Q (Ok tt) w') ->
  calm (for_each l (fun n => recompute_peer h (rr_node n) (rr_key n) (rr_ip n) m1 m2)) w Q.
Proof.
  intros Hdb Hs Hsh. induction l as [|r l IH]; intros R w Hw Hl HQ.
  - apply calm_ret, HQ. simpl. by rewrite app_nil_r.
  - cbn [for_each]. calm_step. destruct (Hl r) as (n & Hn & ->); [left|]. cbn [rr_node rr_key rr_ip].
    apply (calm_recompute h pool d d' R n (with_peer (peers_part d d' R) p)); [done..|]. intros w1 Hw1.
    apply (IH (R ++ [n_id n])); [done|intros; apply Hl; by right|]. intros w2 Hw2. apply HQ. by rewrite <- app_assoc in Hw2.
Qed.

Lemma cascade_shrunk id d' r : cascade id d d' r -> shrunk d d'.
Proof.
  intros []. constructor; [rewrite cs_nodes; by intros n [_ ?]%list_elem_of_filter|by intros m [? _]%cs_members|by intros a [? _]%cs_anns|
    by intros az [? _]%cs_attach].
Qed.
Lemma cascade_node id d' r n : cascade id d d' r -> n ∈ rows (nodes d) -> n_id n ∈ n_id <$> rows (nodes d') <-> n_user n <> id.
Proof.
  intros Hc Hn. rewrite (cs_nodes _ _ _ _ Hc), list_elem_of_fmap. setoid_rewrite list_elem_of_filter. split.
  - intros (n' & Heq & Hu & Hn'). apply (node_id_inj pool d Hd) in Heq as ->; done.
  - intros Hu. by exists n.
Qed.
Lemma cascade_key id d' r (ks : list Key) : cascade id d d' r ->
  (forall k, k ∈ ks <-> exists n, n ∈ filter (fun n => n_user n = id) (rows (nodes d)) /\ ParseKey (n_key n) = Some k) ->
  forall x, x ∈ rows (nodes d) -> forall k, ParseKey (n_key x) = Some k -> k ∈ ks <-> ~ x ∈ rows (nodes d').
Proof.
  intros Hc Hks x Hx k Hk. rewrite Hks, (cs_nodes _ _ _ _ Hc), list_elem_of_filter. setoid_rewrite list_elem_of_filter. split.
  - intros (n & [Hu Hn] & Hk') [Hne _]. apply Hne. replace x with n; [done|]. apply (do_key_inj _ _ Hd); [done..|congruence].
  - intros Hnot. exists x. split_and!; [|done..]. destruct (decide (n_user x = id)); tauto.
Qed.

Lemma cascade_member id d' r m n : cascade id d d' r -> m ∈ zone_members d -> n ∈ rows (nodes d) -> n_id n = m_node m ->
  m_zone m ∈ z_id <$> rows (zones d') -> (node_addr n, m_zone m) ∈ SurvivingMemberships r <-> ~ m ∈ zone_members d'.
Proof.
  intros Hc Hm Hn Hid Hz. pose proof (cascade_node id d' r n Hc Hn) as Hnode. rewrite (cs_surviving _ _ _ _ Hc), (cs_members _ _ _ _ Hc), <- Hid, Hnode. split.
  - intros (m' & n' & Hm' & Hn' & Hid' & Hu & Ha & _) (_ & Hne & _). apply Hne.
    apply (node_addr_inj pool d Hd) in Ha as ->; done.
  - intros Hnot. exists m, n. split_and!; try done. destruct (decide (n_user n = id)); tauto.
Qed.
Lemma cascade_route id d' r az a : cascade id d d' r -> az ∈ announcement_zones d -> a ∈ rows (announcements d) -> a_id a = az_ann az ->
  az_zone az ∈ z_id <$> rows (zones d') -> (az_zone az, synth_prefix a) ∈ SurvivingZoneRoutes r <-> ~ az ∈ announcement_zones d'.
Proof.
  intros Hc Haz Ha Hid Hz. rewrite (cs_routes _ _ _ _ Hc), (cs_attach _ _ _ _ Hc). split.
  - intros (az' & a' & n' & Haz' & Ha' & Hn' & Hid' & Han & Hu & Hp & _) (_ & (a2 & Ha2 & Hid2 & Hn2) & _).
    apply (synth_prefix_inj pool d Hd) in Hp as ->; [|done..]. assert (a2 = a') as -> by (apply ann_id_inj; [done..|congruence]).
    rewrite Han in Hn2. apply (cascade_node id d' r n' Hc Hn') in Hn2. done.
  - intros Hnot. pose proof (fk_ann_node _ (do_schema _ _ Hd) a Ha) as (n & Han & Hn)%list_elem_of_fmap.
    exists az, a, n. split_and!; try done. destruct (decide (n_user n = id)) as [|Hu]; [done|]. exfalso. apply Hnot. split_and!; [done| |done].
    exists a. split_and!; [done..|]. rewrite Han. by apply (cascade_node id d' r n Hc Hn).
Qed.

Lemma cascade_zone_ids id d' r : cascade id d d' r ->
  filter (fun z => z ∉ OwnedZoneIDs r) (z_id <$> rows (zones d)) = z_id <$> rows (zones d').
Proof.
  intros Hc. rewrite (cs_owned _ _ _ _ Hc), (cs_zones _ _ _ _ Hc), filter_of_fmap. f_equal. apply filter_iff_in. intros z Hz. rewrite list_elem_of_fmap.
  setoid_rewrite list_elem_of_filter. split.
  - intros Hnot Ho. apply Hnot. by exists z.
  - intros Ho (z' & Heq & Ho' & Hz'). apply Ho. rewrite <- Ho'. f_equal.
    apply (uniq_inj z_id (rows (zones d))); [apply table_ok_uniq, ok_zones, (do_schema _ _ Hd)|done..].
Qed.
Lemma user_end id d' r w : cascade id d d' r -> schema_ok d' ->
  at_plane h (left_plane d d' (z_id <$> rows (zones d')) ((fun m => (m.2, m.1)) <$> SurvivingMemberships r)
    ((fun x => (x.1, x.2)) <$> SurvivingZoneRoutes r) (rr_node <$> RouteRecomputeNodes r)) w -> insync h pool w.
Proof.
  intros Hc Hs Hw. apply (insync_left h pool d Hd _ _ _ _ _ _ Hw); [done|by eapply cascade_shrunk|by eapply cs_zone_seq|done|..].
  - intros m n Hm Hn Hid Hz. rewrite <- (cascade_member id d' r m n Hc) by done. rewrite list_elem_of_fmap. split.
    + by intros ([ip z] & [= -> ->] & Hin).
    + intros Hin. by exists (node_addr n, m_zone m).
  - intros az a Haz Ha Hid Hz. rewrite <- (cascade_route id d' r az a Hc) by done. rewrite list_elem_of_fmap. split.
    + by intros ([z p] & [-> ->]%pair_equal_spec & Hin).
    + intros Hin. by exists (az_zone az, synth_prefix a).
  - intros a Ha HR Hn. destruct (decide (a ∈ rows (announcements d'))) as [|Hgone]; [done|]. exfalso. apply HR.
    apply (cs_recompute _ _ _ _ Hc). split; [done|]. by exists a.
Qed.

Lemma calm_deleteUser caller path w : start w -> calm (deleteUser h caller path) w ends.
Proof.
  intros Hw. apply (calm_identity h pool d Hd); [grow|done|]. intros c.
  destruct (ParseInt64 path) as [uid|]; [|by apply (calm_refuse h pool d Hd)].
  destruct (uid =? c_UserID c); [by apply (calm_refuse h pool d Hd)|].
  calm_step. eapply (calm_or_fail h _ _ _ _ _ _ Hw (DeleteCascade_effect uid d (do_schema _ _ Hd))).
  { intros resp w1 Hw1. by apply (start_insync h pool d Hd). }
  intros r d' Hc Hs w1 Hw1. pose proof (cascade_shrunk _ _ _ Hc) as Hsh. assert (schema_ok d') as Hsch by apply Hs, (do_schema _ _ Hd).
  destruct (parsed_keys (filter (fun n => n_user n = uid) (rows (nodes d)))) as (ks & Hks & Hin); [by intros n [_ ?]%list_elem_of_filter|].
  rewrite <- (cs_keys _ _ _ _ Hc) in Hks. calm_step. apply (calm_drop_peers h _ ks _ _ _ _ Hks Hw1). intros w2 Hw2.
  calm_step. apply (calm_drop_members h (fun m => (m.2, m.1)) _ _ _ _ _ Hw2); [exact (plane_members_u32 d)| |].
  { intros [ip z] (m & n & _ & _ & _ & _ & -> & _)%(cs_surviving _ _ _ _ Hc). apply u32_range. }
  intros w3 Hw3. calm_step. apply (calm_drop_zones h _ _ _ _ _ Hw3). intros w4 Hw4.
  calm_step. apply (calm_drop_routes h pool d (fun x => (x.1, x.2)) _ _ _ _ _ Hd Hpool Hw4); [exact (plane_routes_from d)| |].
  { intros [z q] (az & a & n & _ & Ha & _ & _ & _ & _ & -> & _)%(cs_routes _ _ _ _ Hc). by exists a. }
  intros w5 Hw5. calm_step.
  apply (left_start _ d' ks ((fun m => (m.2, m.1)) <$> SurvivingMemberships r) ((fun x => (x.1, x.2)) <$> SurvivingZoneRoutes r)) in Hw5; try done;
    [|by apply (cascade_key uid d' r)].
  change (pl_ids _) with (filter (fun z => z ∉ OwnedZoneIDs r) (z_id <$> rows (zones d))) in Hw5. rewrite (cascade_zone_ids uid d' r Hc) in Hw5.
  set (p := left_plane _ _ _ _ _ _) in Hw5.
  apply (calm_recompute_each d' p _ _ _ _ eq_refl Hsch Hsh [] _ Hw5); [apply (cs_recompute_row _ _ _ _ Hc)|].
  intros w6 Hw6. apply calm_ret. by apply (user_end uid d' r w6 Hc Hsch).
Qed.
End Deletes.
