(* ===== verification/SyncGrowth.v ===== *)
(** * The handlers that add something keep the dataplane in agreement

    Joining a zone, creating a zone, registering a node, announcing a subnet. *)
From S2P Require Import Prelude GoStrings Netip Ipam Codec Db StoreInv StoreUsers StoreNodes StoreAnnounce StoreOps UsersProps CascadeProps StoreEffects NodesProps AnnounceProps Netfw NetfwProps Isolation Wg WgProps Auth Api ApiZones ApiRoutes Sync SyncPlane SyncData SyncHandlers SyncDeletes.

#[local] Open Scope lw_scope.

(** The nodes and the announcements decide, given the schema. *)
Lemma data_ok_rows `{WgTypes} pool d d' : data_ok pool d -> schema_ok d' ->
  rows (nodes d') = rows (nodes d) -> rows (announcements d') = rows (announcements d) -> data_ok pool d'.
Proof.
  intros [] Hs Hn Ha. constructor; rewrite ?Hn, ?Ha; try done. eapply blocks_ok_sub; [|done]. by rewrite Ha.
Qed.

Section Joining.
Context {K D : Type} `{NftablesLaws K} `{WgHostLaws D} `{WgTypes} `{NetipV6} `{Sqlite} `{Argon2} (h : Options)
  (pool : Prefix) (d : DB) (Hd : data_ok pool d).
Abbreviation HM := (M Resp (World K D)).
#[local] Abbreviation start := (start (K:=K) (D:=D) h d).
#[local] Abbreviation ends := (ends (K:=K) (D:=D) h pool).

(** ** Joining a zone *)

Definition joined (z node : Z) (l : list member_row) : Prop :=
  (forall m, m ∈ zone_members d -> m ∈ l) /\ (exists m, m ∈ l /\ m_zone m = z /\ m_node m = node) /\
  (forall m, m ∈ l -> m ∈ zone_members d \/ m_zone m = z /\ m_node m = node).

Lemma joined_end z n l w : n ∈ rows (nodes d) -> joined z (n_id n) l -> schema_ok (set_members l d) ->
  at_plane h (mem_added z (node_addr n) (with_db (set_members l d) (plane_of d))) w -> insync h pool w.
Proof.
  intros Hn (Hold & (m0 & Hm0 & Hz0 & Hn0) & Hnew) Hs Hw. apply (insync_intro h pool _ _ Hw); [by apply (data_ok_rows pool d)|].
  constructor; simpl; try done. intros z' a _. rewrite !elem_of_member_ips. simpl. split.
  - intros (m & n' & [Hm|[Hz Hid]]%Hnew & <- & Hn' & Hid' & ->); [left; by exists m, n'|right].
    split; [done|]. f_equal. apply (node_id_inj pool d Hd); [done..|congruence].
  - intros [(m & n' & Hm & Hz & Hn' & Hid & ->)|[-> ->]]; [exists m, n'|exists m0, n]; split_and!; auto.
Qed.

(** The member's address goes into the table; a failure is rolled back and logged. *)
Lemma calm_add_member {B} z n l (undo : unit -> HM B) (k : unit -> HM B) w (Q : res Resp B -> World K D -> Prop) :
  n ∈ rows (nodes d) -> joined z (n_id n) l -> schema_ok (set_members l d) ->
  at_plane h (with_db (set_members l d) (plane_of d)) w -> (forall e, noisy (undo e)) -> (forall a, grows (k a)) ->
  (forall a w', insync h pool w' -> calm (k a) w' Q) ->
  calm (let! r := netfw (AddMember (h_netfw h) z (n_ip (node_of_row n))) in match r with Err e => undo e | Ok a => k a end) w Q.
Proof.
  intros Hn Hj Hs Hw Hu Hg Hk. apply calm_bind; [grow| |].
  { intros [a|e]; [apply Hg|]. intros l' w' Hl. destruct (Hu e w') as [_ Hp]. by etrans. }
  rewrite node_row_ip. eapply (calm_netfw h _ _ (mem_added z (node_addr n) _) _ _ Hw); [|done|done| |].
  - intros k0 k' Hrun. by apply iso_AddMember.
  - intros w' Hw'. by eapply Hk, joined_end.
  - intros e w'. by apply calm_noisy.
Qed.
End Joining.

Section Growth.
Context {K D : Type} `{NftablesLaws K} `{WgHostLaws D} `{WgTypes} `{NetipV6} `{Sqlite} `{Argon2} (h : Options)
  (pool : Prefix) (d : DB) (Hd : data_ok pool d).
Abbreviation HM := (M Resp (World K D)).
#[local] Abbreviation start := (start (K:=K) (D:=D) h d).
#[local] Abbreviation ends := (ends (K:=K) (D:=D) h pool).

Lemma calm_joinZone caller name b w : start w -> calm (joinZone h caller name b) w ends.
Proof.
  intros Hw. apply (calm_identity h pool d Hd); [grow|done|]. intros c.
  apply (calm_decoded h pool d Hd); [grow|done|]. intros req.
  destruct (_ || _); [by apply (calm_refuse h pool d Hd)|].
  apply (still_then h pool d Hd); [apply still_query|grow|done|]. intros [z|] w1 Hw1; [|by apply (calm_refuse h pool d Hd)].
  destruct (VerifyPassword _ _) as [[]|]; try by apply (calm_refuse h pool d Hd).
  apply (calm_owned h pool d Hd); [grow|done|]. intros n w2 Hn _ _ Hw2. change (n_id (node_of_row n)) with (n_id n).
  calm_step. eapply (calm_or_server h _ _ _ _ _ Hw2 (JoinZone_effect (z_id z) (n_id n) d)).
  intros [] d' (l & -> & Hj) Hs w3 Hw3.
  apply (calm_add_member h pool d Hd (z_id z) n l (fun _ => _) (fun _ => _)); [done..|apply Hs, (do_schema _ _ Hd)|done|grow|grow|].
  intros _ w4 Hw4. by apply calm_ret.
Qed.

(** ** Creating a zone *)

Definition grown_zones (mk : Z -> zone_row) : DB := set_zones (insert_row mk (zones d)) d.

(** A fresh zone has no members and no routes. *)
Lemma created_plane mk w : schema_ok (grown_zones mk) -> z_id (mk (next_id (zones d))) = next_id (zones d) ->
  at_plane h (zone_added (next_id (zones d)) (with_db (grown_zones mk) (plane_of d))) w -> at_plane h (plane_of (grown_zones mk)) w.
Proof.
  intros Hs Hid Hw. eapply at_plane_eq, Hw. set (z := next_id (zones d)) in *.
  assert (forall i, i ∈ z_id <$> rows (zones d) -> i <> z) as Hfresh.
  { intros i (x & -> & Hx)%list_elem_of_fmap. destruct (ok_zones _ (do_schema _ _ Hd)) as (_ & _ & Hmax).
    specialize (Hmax x Hx). unfold z, next_id. lia. }
  constructor; simpl; try done.
  - by rewrite fmap_app, <- Hid at 1.
  - intros z' a _. rewrite !elem_of_member_ips. simpl. split; [|by intros [? _]]. intros Hm. split; [done|].
    destruct Hm as (m & n & Hm & <- & _). apply Hfresh. by apply (fk_member_zone _ (do_schema _ _ Hd)).
  - intros z' q _. rewrite !elem_of_zone_prefixes. simpl. split; [|by intros [? _]]. intros Hm. split; [done|].
    destruct Hm as (az & a & Haz & <- & _). apply Hfresh. by apply (fk_attach_zone _ (do_schema _ _ Hd)).
Qed.

Lemma grows_rollbackZone z : grows (rollbackZone (K:=K) (D:=D) h z).
Proof. unfold rollbackZone. grow. Qed.
Lemma settles_rollbackZone z : settles (rollbackZone (K:=K) (D:=D) h z).
Proof. unfold rollbackZone. grow. Qed.
#[local] Hint Resolve grows_rollbackZone settles_rollbackZone : grows.

Lemma HashPassword_reads pw : reads (HashPassword pw).
Proof. apply reads_bind; [apply reads_rand|intros salt; apply reads_ret]. Qed.

(** The node that joins the new zone, when the request names one. *)
Definition creator (m : option node_row) : Prop := forall x, m = Some x -> exists n, n ∈ rows (nodes d) /\ x = node_of_row n.

Lemma calm_createZone caller b w : start w -> calm (createZone h caller b) w ends.
Proof.
  intros Hw. apply (calm_identity h pool d Hd); [grow|done|]. intros c.
  apply (calm_decoded h pool d Hd); [grow|done|]. intros req. cbv zeta.
  destruct (_ || _); [by apply (calm_refuse h pool d Hd)|]. destruct (_ <? _); [by apply (calm_refuse h pool d Hd)|].
  calm_step. apply (calm_mono _ _ (fun r w2 => start w2 /\ match r with Ok m => creator m | Err _ => True end)).
  { destruct (negb _).
    - calm_step. eapply (calm_or_fail h _ _ _ _ _ _ Hw (GetOwned_effect _ _ d)); [by intros resp w1 Hw1|].
      intros n d1 (-> & n0 & Hn & _ & _ & ->) _ w1 Hw1. apply calm_ret. split; [done|]. intros x [= <-]. by exists n0.
    - apply calm_ret. split; [done|]. by intros x. }
  intros [member|e] w1 [Hw1 Hmem]; [|by apply (start_insync h pool d Hd)].
  apply (still_then h pool d Hd); [apply still_read, HashPassword_reads|grow|done|]. intros hash w2 Hw2.
  calm_step. eapply (calm_or_fail h _ _ _ _ _ _ Hw2 (CreateZone_effect _ _ _ _ d)); [intros resp w3 Hw3; by apply (start_insync h pool d Hd)|].
  intros zone d1 (Hz & now & ->) Hs w3 Hw3. rewrite Hz. set (d1 := set_zones _ d) in *. specialize (Hs (do_schema _ _ Hd)).
  calm_step. eapply (calm_netfw h _ _ (zone_added (next_id (zones d)) _) _ _ Hw3); [|done|done| |intros e w4; apply calm_noisy; grow].
  { intros k k' Hrun. apply iso_AddZone; [done|]. simpl. unfold next_id. lia. }
  intros w4 Hw4. apply created_plane in Hw4; [|done|done]. assert (data_ok pool d1) as Hd1 by by apply (data_ok_rows pool d).
  destruct member as [m|]; calm_step; [|by apply calm_ret, calm_ret, (start_insync h pool d1 Hd1)].
  destruct (Hmem m eq_refl) as (n & Hn & ->). change (n_id (node_of_row n)) with (n_id n).
  calm_step. eapply (calm_db h _ _ _ _ _ Hw4 (JoinZone_effect _ (n_id n) d1)); [intros e w5 _; apply calm_noisy; grow|].
  intros [] d2 (l & -> & Hj) Hs2 w5 Hw5.
  apply (calm_add_member h pool d1 Hd1 (next_id (zones d)) n l (fun _ => _) (fun _ => _)); [done..|by apply Hs2|done|grow|grow|].
  intros _ w6 Hw6. by apply calm_ret, calm_ret.
Qed.

(** ** Registering a node *)

(** No node of the database has another spelling of the key. *)
Definition fresh_key (key : string) : Prop := forall n, n ∈ rows (nodes d) -> ParseKey (n_key n) = ParseKey key -> n_key n = key.

Section Node.
Context (user : Z) (name key platform : string) (ip now : Z) (k : Key).
Let mk : Z -> node_row := fun id => NodeRow id user name key ip now platform.
Let n0 : node_row := mk (next_id (nodes d)).
Let d' : DB := set_nodes (insert_row mk (nodes d)) d.
Context (Hs : schema_ok d') (Hip : is_u32 ip) (Hk : ParseKey key = Some k) (Hfresh : fresh_key key).

Lemma new_node_rows n : n ∈ rows (nodes d') <-> n ∈ rows (nodes d) \/ n = n0.
Proof. simpl. by rewrite elem_of_app, list_elem_of_singleton. Qed.
Lemma new_node_id n : n ∈ rows (nodes d) -> n_id n <> n_id n0.
Proof. intros Hn. destruct (ok_nodes _ (do_schema _ _ Hd)) as (_ & _ & Hmax). specialize (Hmax n Hn). simpl. unfold next_id. lia. Qed.
Lemma new_node_ref i : i ∈ n_id <$> rows (nodes d) -> i <> n_id n0.
Proof. intros (n & -> & Hn)%list_elem_of_fmap. by apply new_node_id. Qed.
Lemma new_node_key n : n ∈ rows (nodes d) -> ParseKey (n_key n) <> Some k.
Proof.
  intros Hn Heq. assert (n_key n = key) as Hkey by (apply Hfresh; [done|congruence]).
  apply (new_node_id n Hn). f_equal. apply (uniq_inj n_key (rows (nodes d'))); [apply uq_node_key, Hs|..]; [by apply new_node_rows; left|by apply new_node_rows; right|done].
Qed.

Lemma registered_ok : data_ok pool d'.
Proof.
  pose proof Hd as []. constructor; [done|by apply (blocks_ok_sub pool d)|..].
  - intros n [Hn| ->]%new_node_rows; [auto|done].
  - done.
  - intros n [Hn| ->]%new_node_rows; [auto|by exists k].
  - intros n n' [Hn| ->]%new_node_rows [Hn'| ->]%new_node_rows Heq; [auto| | |done].
    + exfalso. apply (new_node_key n Hn). by rewrite Heq.
    + exfalso. apply (new_node_key n' Hn'). by rewrite <- Heq.
Qed.

Lemma registered_allowed : node_allowed d' n0 = allowed_ips (Uint32ToAddr ip) [].
Proof.
  unfold node_allowed, node_prefixes. rewrite Uint32ToAddr_u32. f_equal.
  assert (filter (fun a => a_node a = n_id n0) (rows (announcements d')) = []) as ->; [|done].
  apply elem_of_nil_inv. intros a [Ha Hin]%list_elem_of_filter. apply (new_node_ref (a_node a)); [|done].
  by apply (fk_ann_node _ (do_schema _ _ Hd)).
Qed.

Lemma registered_plane : plane_eq (peer_set k (allowed_ips (Uint32ToAddr ip) []) (with_db d' (plane_of d))) (plane_of d').
Proof.
  constructor; simpl; try done.
  - intros z a _. rewrite !elem_of_member_ips. split; intros (m & n & Hm & Hz & Hn & Hid & ->); exists m, n; (split_and!; [done..| |done|done]).
    + apply new_node_rows in Hn as [Hn| ->]; [done|]. exfalso. apply (new_node_ref (m_node m)); [by apply (fk_member_node _ (do_schema _ _ Hd))|done].
    + apply new_node_rows. by left.
  - intros k' s. rewrite <- registered_allowed. split.
    + intros (n & [Hn| ->]%new_node_rows & Hk' & ->).
      * rewrite decide_False; [by exists n|]. intros ->. by apply (new_node_key n Hn).
      * rewrite decide_True; [done|]. simpl in Hk'. congruence.
    + destruct (decide (k' = k)) as [->|Hne].
      * intros ->. exists n0. split_and!; [apply new_node_rows; by right|done..].
      * intros (n & Hn & Hk' & ->). exists n. split_and!; [apply new_node_rows; by left|done..].
Qed.
Lemma registered_apart n : n ∈ rows (nodes d) -> node_allowed d n ## allowed_ips (Uint32ToAddr ip) [].
Proof.
  intros Hn. rewrite <- registered_allowed. change (node_allowed d n) with (node_allowed d' n).
  apply (node_allowed_disjoint pool d' registered_ok); [apply new_node_rows; by left|apply new_node_rows; by right|].
  intros ->. by apply (new_node_id n0).
Qed.
End Node.

(** A request whose key is another spelling of a registered one is outside: the
    server would give both nodes the same peer. *)
Definition key_not_respelled (b : option RegisterNodeRequest) : Prop := forall req, b = Some req -> fresh_key (rn_WGPubKey req).

Lemma calm_registerNode caller b w : key_not_respelled b -> start w -> calm (registerNode h caller b) w ends.
Proof.
  intros Hb Hw. apply (calm_identity h pool d Hd); [grow|done|]. intros c. unfold decoded.
  destruct b as [req|]; [|calm_step; by apply calm_throw, (start_insync h pool d Hd)]. calm_step. apply calm_ret. specialize (Hb req eq_refl). cbv zeta.
  destruct (_ || _); [by apply (calm_refuse h pool d Hd)|].
  destruct (ParseKey (rn_WGPubKey req)) as [k|] eqn:Hk; [|by apply (calm_refuse h pool d Hd)].
  destruct (negb _); [by apply (calm_refuse h pool d Hd)|].
  destruct (PoolRange _) as [[first last]|e]; [|apply calm_noisy; grow].
  calm_step. eapply (calm_or_fail h _ _ _ _ _ _ Hw (CreateNode_effect _ _ _ _ _ _ _ d)); [intros resp w1 Hw1; by apply (start_insync h pool d Hd)|].
  intros n d' (ip & now & Hip & -> & ->) Hs w1 Hw1. specialize (Hs (do_schema _ _ Hd)). cbn [n_key n_ip n_id].
  assert (Hd' := registered_ok _ _ _ _ _ _ _ Hs Hip Hk Hb).
  assert (Hpe := registered_plane _ _ _ _ _ _ _ Hs Hk Hb).
  calm_step. eapply (calm_wg h _ _ (peer_set k (allowed_ips (Uint32ToAddr ip) []) _) _ _ Hw1); [|done| |intros e w2; apply calm_noisy; grow].
  - intros x x' Hrun. apply (peers_Set _ _ _ _ _ _ _ _ Hrun Hk). intros k' s (n & Hn & Hk' & ->) Hne.
    by apply (registered_apart (c_UserID c) (TrimSpace (rn_Name req)) (rn_WGPubKey req)
      (if decide (rn_Platform req = "") then "unknown" else rn_Platform req) ip now k).
  - intros w2 Hw2. apply calm_ret. by apply (insync_intro h pool _ _ Hw2).
Qed.

(** ** Announcing a subnet *)

(** Zone [z] now holds announcement [a] of node [n], which existed or is new. *)
Record grown (z : Z) (n : node_row) (a : ann_row) (d' : DB) : Prop := mkGrown
  { gr_nodes : nodes d' = nodes d; gr_zones : zones d' = zones d; gr_members : zone_members d' = zone_members d;
    gr_anns b : b ∈ rows (announcements d') <-> b ∈ rows (announcements d) \/ b = a;
    gr_node : a_node a = n_id n;
    gr_attach az : az ∈ announcement_zones d' <-> az ∈ announcement_zones d \/ az = AttachRow (a_id a) z }.

Section Grown.
Context (z : Z) (n : node_row) (a : ann_row) (d' : DB) (Hg : grown z n a d') (Hd' : data_ok pool d') (Hn : n ∈ rows (nodes d)).

Lemma grown_old x : x ∈ rows (nodes d) -> x ∈ rows (nodes d').
Proof. by rewrite (gr_nodes _ _ _ _ Hg). Qed.
Lemma grown_allowed_sub x : node_allowed d x ⊆ node_allowed d' x.
Proof.
  intros p. rewrite (elem_of_node_allowed pool d Hd), (elem_of_node_allowed pool d' Hd'). intros [?|(b & Hb & ?)]; [by left|right].
  exists b. split; [|done]. apply (gr_anns _ _ _ _ Hg). by left.
Qed.
Lemma grown_allowed x : x ∈ rows (nodes d) -> x <> n -> node_allowed d' x = node_allowed d x.
Proof.
  intros Hx Hne. apply (anti_symm (⊆)); [|apply grown_allowed_sub]. intros p.
  rewrite (elem_of_node_allowed pool d Hd), (elem_of_node_allowed pool d' Hd'). intros [?|(b & [Hb| ->]%(gr_anns _ _ _ _ Hg) & Hbn & ->)]; [by left|right; by exists b|].
  exfalso. apply Hne, (node_id_inj pool d Hd); [done..|]. rewrite <- Hbn. apply (gr_node _ _ _ _ Hg).
Qed.
Lemma grown_apart x : x ∈ rows (nodes d) -> x <> n -> node_allowed d x ## node_allowed d' n.
Proof.
  intros Hx Hne. rewrite <- (grown_allowed x) by done. by apply (node_allowed_disjoint pool d' Hd'); [apply grown_old..|].
Qed.

Lemma grown_prefixes z' q : q ∈ zone_prefixes d' z' <-> q ∈ zone_prefixes d z' \/ z' = z /\ q = synth_prefix a.
Proof.
  assert (forall b, b ∈ rows (announcements d') -> a_id b = a_id a -> b = a) as Hinj.
  { intros b Hb Heq. apply (uniq_inj a_id (rows (announcements d'))); [apply table_ok_uniq, ok_anns, (do_schema _ _ Hd')|done| |done].
    apply (gr_anns _ _ _ _ Hg). by right. }
  rewrite !elem_of_zone_prefixes. split.
  - intros (az & b & [Haz| ->]%(gr_attach _ _ _ _ Hg) & <- & Hb & Hid & ->); [left|right].
    + pose proof (fk_attach_ann _ (do_schema _ _ Hd) az Haz) as (b' & Heq & Hb')%list_elem_of_fmap.
      exists az, b. split_and!; try done. replace b with b'; [done|].
      apply (uniq_inj a_id (rows (announcements d'))); [apply table_ok_uniq, ok_anns, (do_schema _ _ Hd')| |done|congruence].
      apply (gr_anns _ _ _ _ Hg). by left.
    + simpl in *. by rewrite (Hinj b).
  - intros [(az & b & Haz & Hz & Hb & Hid & ->)|[-> ->]].
    + exists az, b. split_and!; try done; [apply (gr_attach _ _ _ _ Hg)|apply (gr_anns _ _ _ _ Hg)]; by left.
    + exists (AttachRow (a_id a) z), a. split_and!; try done; [apply (gr_attach _ _ _ _ Hg)|apply (gr_anns _ _ _ _ Hg)]; by right.
Qed.

Lemma grown_plane k : ParseKey (n_key n) = Some k ->
  plane_eq (rts_added z (synth_prefix a) (peer_set k (node_allowed d' n) (with_db d' (plane_of d)))) (plane_of d').
Proof.
  intros Hk. constructor; simpl; [done|by rewrite (gr_zones _ _ _ _ Hg)..| | |].
  - intros z' x _. unfold member_ips. by rewrite (gr_members _ _ _ _ Hg), (gr_nodes _ _ _ _ Hg).
  - intros z' q _. apply grown_prefixes.
  - intros k' s. rewrite (gr_nodes _ _ _ _ Hg). destruct (decide (k' = k)) as [->|Hne].
    + split; [|intros ->; by exists n]. intros (x & Hx & Hk' & ->). f_equal. apply (do_key_inj _ _ Hd); [done..|congruence].
    + split; intros (x & Hx & Hk' & ->); exists x; (split_and!; [done..|]); [|symmetry]; apply grown_allowed; [done| |done|]; intros ->; congruence.
Qed.
End Grown.

Lemma settles_rollbackAnnouncement z i n : settles (rollbackAnnouncement (K:=K) (D:=D) h z i n).
Proof. unfold rollbackAnnouncement, recompute_peer. grow. Qed.
Lemma grows_rollbackAnnouncement z i n : grows (rollbackAnnouncement (K:=K) (D:=D) h z i n).
Proof. apply settles_rollbackAnnouncement. Qed.
#[local] Hint Resolve settles_rollbackAnnouncement grows_rollbackAnnouncement : grows.
Lemma grows_dataplane zone n ann : grows (grow_dataplane (K:=K) (D:=D) h zone n ann).
Proof. unfold grow_dataplane. grow. Qed.
#[local] Hint Resolve grows_dataplane : grows.

Lemma calm_grow_dataplane zone n a d' ann w (Q : res Resp unit -> World K D -> Prop) :
  grown (z_id zone) n a d' -> data_ok pool d' -> n ∈ rows (nodes d) -> Synthetic ann = synth_block a ->
  at_plane h (with_db d' (plane_of d)) w -> (forall w', insync h pool w' -> Q (Ok tt) w') ->
  calm (grow_dataplane h zone (node_of_row n) ann) w Q.
Proof.
  intros Hg Hd' Hn Hsyn Hw HQ. unfold grow_dataplane. change (n_id (node_of_row n)) with (n_id n). change (n_key (node_of_row n)) with (n_key n).
  rewrite node_row_ip. calm_step. eapply (calm_db h _ _ _ _ _ Hw (query_effect _ _)); [intros e w1 _; apply calm_noisy; grow|].
  intros routes d1 [-> ->] _ w1 Hw1. cbv beta.
  assert (blocksToPrefixes (synth_block <$> filter (fun a => a_node a = n_id n) (rows (announcements d'))) = node_prefixes d' (n_id n)) as Hroutes
    by (unfold blocksToPrefixes, node_prefixes; by rewrite <- list_fmap_compose).
  cbn [pl_db with_db]. rewrite Hroutes. destruct (do_key _ _ Hd n Hn) as [k Hk].
  calm_step. eapply (calm_wg h _ _ (peer_set k (node_allowed d' n) _) _ _ Hw1); [|done| |intros e w2; apply calm_noisy; grow].
  { intros x x' Hrun. apply (peers_Set _ _ _ _ _ _ _ _ Hrun Hk). intros k' s (n' & Hn' & Hk' & ->) Hne.
    apply (grown_apart (z_id zone) n a d' Hg Hd' Hn n' Hn'). intros ->. congruence. }
  intros w2 Hw2. calm_step.
  eapply (calm_netfw h _ _ (rts_added (z_id zone) (BlockPrefix (Synthetic ann)) _) _ _ Hw2); [|done|done| |intros e w3; apply calm_noisy; grow].
  { intros k0 k' Hrun. by apply iso_AddZoneRoute. }
  intros w3 Hw3. apply calm_ret, HQ, (insync_intro h pool _ _ Hw3); [done|]. rewrite Hsyn.
  by apply (grown_plane (z_id zone) n a d' Hg Hd' Hn k).
Qed.

(** What the server's configuration offers for announcements. *)
Definition announces_from (h : Options) (pool : Prefix) : Prop := forall p, announcePool h = Some p -> p = P4 pool.

(** The database after an announcement. *)
Lemma announced_grown node z realb ann b d' : prefix_ok pool -> block_ok realb -> PrefixLen realb < 32 -> schema_ok d' ->
  announced (P4 pool) (n_id node) z realb d ann b d' ->
  (b = false /\ d' = d) \/ (b = true /\ exists a, grown z node a d' /\ data_ok pool d' /\ Synthetic ann = synth_block a).
Proof.
  intros Hp Hrb Hlen Hs Hann. destruct Hann as [a _ _ _ _ _|a Ha Hna _ Hsyn|blk now a Halloc Hover _ Hsyn]; [by left|right; split; [done|]..].
  - exists a. split_and!; [|by apply (data_ok_rows pool d)|done]. constructor; try done.
    + intros b. simpl. split; [by left|by intros [?| ->]].
    + intros az. simpl. by rewrite elem_of_app, list_elem_of_singleton.
  - assert (Bits pool <= PrefixLen realb <= 32) as Hfit.
    { unfold AllocateBlock in Halloc. destruct (_ || _) eqn:Hc; [done|]. apply orb_false_iff in Hc. lia. }
    assert (data_ok pool (set_attachments (announcement_zones d ++ [AttachRow (a_id a) z]) (set_anns (Db.Table (rows (announcements d) ++ [a]) (a_id a)) d))) as Hd'.
    { pose proof (alloc_blocks_ok pool d (n_id node) realb blk now Hp Hrb Hfit (do_blocks _ _ Hd) Halloc Hover) as Hb.
      pose proof Hd as []. constructor; [done|by eapply blocks_ok_sub, Hb|done| |done|done].
      intros x [Hx| ->%list_elem_of_singleton]%elem_of_app; [auto|done]. }
    exists a. split_and!; [|done|].
    + constructor; try done; intros x; simpl; by rewrite elem_of_app, list_elem_of_singleton.
    + rewrite Hsyn. unfold synth_block. simpl. f_equal. symmetry. apply u32_id.
      destruct (bk_synth _ _ (do_blocks _ _ Hd') a) as ((Hu & _) & _); [apply elem_of_app; right; by apply list_elem_of_singleton|done].
Qed.

Lemma validAnnouncedSubnet_len p : validAnnouncedSubnet h p = None -> 16 <= Bits p <= 30.
Proof. unfold validAnnouncedSubnet. destruct (_ || _) eqn:Hc; [done|]. intros _. apply orb_false_iff in Hc. lia. Qed.

Lemma calm_createAnnouncement caller name b w : prefix_ok pool -> announces_from h pool -> start w ->
  calm (createAnnouncement h caller name b) w ends.
Proof.
  intros Hp Hfrom Hw. apply (calm_identity h pool d Hd); [grow|done|]. intros c.
  apply (still_then h pool d Hd); [by apply (memberZone_still h d)|grow|done|]. intros zone w1 Hw1.
  apply (calm_decoded h pool d Hd); [grow|done|]. intros req.
  destruct (announcePool h) as [ap|] eqn:Hap; [|by apply (calm_refuse h pool d Hd)]. apply Hfrom in Hap as ->.
  apply (calm_owned h pool d Hd); [grow|done|]. intros n w2 Hn _ _ Hw2. change (n_id (node_of_row n)) with (n_id n).
  destruct (negb _); [by apply (calm_refuse h pool d Hd)|].
  destruct (ParsePrefix (ca_Subnet req)) as [[p|a bits]|] eqn:Hparse; try by apply (calm_refuse h pool d Hd). cbv zeta.
  apply ParsePrefix_ok in Hparse. destruct (validAnnouncedSubnet h (Masked p)) as [msg|] eqn:Hvalid; [by apply (calm_refuse h pool d Hd)|].
  apply validAnnouncedSubnet_len in Hvalid. pose proof (BlockFromPrefix_ok _ (Masked_ok _ Hparse)) as Hblk.
  calm_step. eapply (calm_or_fail h _ _ _ _ _ _ Hw2 (CreateAnnouncement_effect _ (n_id n) (BlockFromPrefix (Masked p)) (z_id zone) _ (P4 pool) d)).
  { intros resp w3 Hw3. by apply (start_insync h pool d Hd). }
  intros [ann attached] d' [_ Hann] Hs w3 Hw3. specialize (Hs (do_schema _ _ Hd)). cbn [fst snd] in Hann.
  apply announced_grown in Hann as [[-> ->]|(-> & a & Hg & Hd' & Hsyn)]; [| |done|done| |done].
  - calm_step. by apply calm_ret, calm_ret, (start_insync h pool d Hd).
  - calm_step. apply (calm_grow_dataplane zone n a d'); [done..|]. intros w4 Hw4. by apply calm_ret.
  - rewrite BlockFromPrefix_eq by by apply Masked_ok. simpl in *. lia.
Qed.
End Growth.
