(* ===== verification/SyncQuiet.v ===== *)
(** * The handlers that leave the dataplane's data alone

    Accounts, invites, sessions, a zone's password, and everything that only reads. *)
From S2P Require Import Prelude GoStrings Netip Ipam PasswordPolicy Codec Db StoreInv StoreUsers StoreNodes StoreAnnounce StoreOps UsersProps CascadeProps StoreEffects NodesProps AnnounceProps Netfw NetfwProps Isolation Wg WgProps Auth Api ApiZones ApiRoutes Sync SyncPlane SyncData SyncHandlers SyncDeletes SyncGrowth.

#[local] Open Scope lw_scope.

(** ** Repository methods *)

Definition quiet {A} (m : SM A) : Prop := forall d, yields m d (fun _ d' => same_plane d d').

Lemma quiet_ret {A} (a : A) : quiet (ret a).
Proof. intros d. by apply yields_ret. Qed.
Lemma quiet_throw {A} e : quiet (throw (A:=A) e).
Proof. intros d. apply yields_throw. Qed.
Lemma quiet_query {A} (f : DB -> A) : quiet (query f).
Proof. intros d. by apply yields_query. Qed.
Lemma quiet_now : quiet now_seconds.
Proof. intros d. by apply yields_now. Qed.
Lemma quiet_rand : quiet rand_read.
Proof. intros d. by apply yields_rand. Qed.
Lemma quiet_bind {A B} (m : SM A) (f : A -> SM B) : quiet m -> (forall a, quiet (f a)) -> quiet (bind m f).
Proof.
  intros Hm Hf d. apply yields_bind. eapply yields_mono; [apply Hm|]. intros a d1 H1. cbv beta in H1.
  eapply yields_mono; [apply Hf|]. intros b d2 H2. by eapply same_plane_trans.
Qed.
Definition quiet_stmt (f : DB -> res string (SqlResult * DB)) : Prop := forall d r d', f d = Ok (r, d') -> same_plane d d'.
Lemma quiet_exec f : quiet_stmt f -> quiet (exec f).
Proof. intros Hf d. apply yields_exec. intros r d'. apply Hf. Qed.
Lemma quiet_try_exec f : quiet_stmt f -> quiet (try (exec f)).
Proof. intros Hf d. apply yields_try_exec; [done|]. intros r d'. apply Hf. Qed.
Lemma quiet_tx {A} (m : SM A) : quiet m -> quiet (tx m).
Proof. intros Hm d. apply yields_tx, Hm. Qed.

Lemma quiet_insert `{Sqlite} {A} violated fk (mk : DB -> Z -> A) t (set : table A -> DB -> DB) :
  (forall k d, same_plane d (set k d)) -> quiet_stmt (fun d => checked_insert (violated d) (fk d) (mk d) (t d) (fun k => set k d)).
Proof. intros Hset d r d' (_ & _ & -> & _)%checked_insert_ok. apply Hset. Qed.
Lemma quiet_update {A} (P : A -> Prop) `{forall x, Decision (P x)} f t (set : table A -> DB -> DB) :
  (forall d, same_plane d (set (map_rows (fun x => if decide (P x) then f x else x) (t d)) d)) ->
  quiet_stmt (fun d => update_where P f (t d) (fun k => set k d)).
Proof. intros Hset d r d' [= _ <-]. apply Hset. Qed.

(** A quiet method of the repositories. *)
Definition keeps_plane {A} (m : SM A) : Prop := forall d, effect m d (fun _ d' => same_plane d d').
Lemma keeps_reads {A} (m : SM A) : reads m -> keeps_plane m.
Proof.
  intros Hr d. apply effect_reads; [done|]. intros s a s' Hs Hrun. specialize (Hr s). rewrite Hrun in Hr. simpl in Hr. by rewrite Hr, Hs.
Qed.
Lemma keeps_op `{Sqlite} {A} op (m : SM A) : runs m (exec_op op) -> quiet m -> keeps_plane m.
Proof. intros Hm Hq d. by apply (effect_op op). Qed.

Section Methods.
Context `{Sqlite}.

Lemma Register_quiet name hash code : keeps_plane (Register name hash code).
Proof.
  apply (keeps_op (OpRegister name hash code)); [apply runs_void|].
  apply quiet_tx, quiet_bind; [apply quiet_now|]. intros now. apply quiet_bind; [apply quiet_try_exec; by apply quiet_insert|].
  intros [r|e]; [|apply quiet_throw]. apply quiet_bind; [apply quiet_exec; by apply quiet_update|]. intros upd.
  destruct (negb _); [apply quiet_throw|apply quiet_ret].
Qed.
Lemma CreateInvite_quiet creator ttl : keeps_plane (CreateInvite creator ttl).
Proof.
  apply (keeps_op (OpCreateInvite creator ttl)); [apply runs_void|]. apply quiet_bind; [apply quiet_now|]. intros now.
  apply quiet_bind; [|intros; apply quiet_ret]. generalize 5%nat. intros tries. induction tries as [|tries IH]; [apply quiet_throw|].
  apply quiet_bind; [apply quiet_bind; [apply quiet_rand|intros; apply quiet_ret]|]. intros code.
  apply quiet_bind; [apply quiet_try_exec; by apply quiet_insert|]. intros [r|e]; [apply quiet_ret|].
  destruct (isUniqueViolation e); [apply IH|apply quiet_throw].
Qed.
Lemma Issue_quiet user : keeps_plane (Issue user).
Proof.
  apply (keeps_op (OpIssue user)); [apply runs_void|]. apply quiet_bind; [apply quiet_rand|]. intros b.
  apply quiet_bind; [apply quiet_now|]. intros now. apply quiet_bind; [apply quiet_exec; by apply quiet_insert|]. intros r. apply quiet_ret.
Qed.
Lemma ValidateRefresh_quiet token : keeps_plane (ValidateRefresh token).
Proof.
  apply (keeps_op (OpValidate token)); [apply runs_void|]. apply quiet_bind; [apply quiet_now|]. intros now.
  apply quiet_bind; [apply quiet_query|]. intros [r|]; [|apply quiet_throw]. case_decide; [apply quiet_throw|].
  destruct (negb _); [apply quiet_throw|]. apply quiet_bind; [apply quiet_exec; by apply quiet_update|]. intros x. apply quiet_ret.
Qed.
Lemma Revoke_quiet token : keeps_plane (Revoke token).
Proof.
  apply (keeps_op (OpRevoke token)); [apply runs_unit|]. apply quiet_bind; [apply quiet_now|]. intros now.
  apply quiet_bind; [apply quiet_exec; by apply quiet_update|]. intros x. apply quiet_ret.
Qed.
Lemma UpdateZonePassword_quiet zone hash : keeps_plane (UpdateZonePassword zone hash).
Proof.
  apply (keeps_op (OpUpdateZonePassword zone hash)); [apply runs_unit|].
  apply quiet_bind; [apply quiet_exec; apply quiet_update|intros x; apply quiet_ret].
  intros d. constructor; try done. simpl. rewrite <- list_fmap_compose. apply list_fmap_ext. intros i z _. simpl. by case_decide.
Qed.
End Methods.

(** ** Handlers *)

Section Tranquil.
Context {K D : Type} `{NftablesLaws K} `{WgHostLaws D} `{WgTypes} `{NetipV6} `{Sqlite} `{Argon2} `{JwtLib} (h : Options) (pool : Prefix).
Abbreviation HM := (M Resp (World K D)).

(** From agreement to agreement, unless something is logged. *)
Definition agrees {A} (m : HM A) : Prop := forall w, insync h pool w -> calm m w (fun _ w' => insync h pool w').
Definition tranquil {A} (m : HM A) : Prop := grows m /\ agrees m.

Lemma agrees_from {A} (m : HM A) :
  (forall d w, data_ok pool d -> start h d w -> calm m w (ends h pool)) -> agrees m.
Proof. intros Hm w Hw. pose proof Hw as (Hd & _). by apply (Hm _ _ Hd), insync_at with (pool := pool). Qed.

Lemma tranquil_ret {A} (a : A) : tranquil (ret a).
Proof. split; [grow|]. intros w Hw. by apply calm_ret. Qed.
Lemma tranquil_throw {A} r : tranquil (throw (A:=A) r).
Proof. split; [grow|]. intros w Hw. by apply calm_throw. Qed.
Lemma tranquil_gets {A} (f : World K D -> A) : tranquil (gets f).
Proof. split; [grow|]. intros w Hw. by apply calm_gets. Qed.
Lemma tranquil_serverError {A} : tranquil (serverError (A:=A)).
Proof. split; [grow|]. intros w Hw. apply calm_noisy. grow. Qed.
Lemma tranquil_bind {A B} (m : HM A) (f : A -> HM B) : tranquil m -> (forall a, tranquil (f a)) -> tranquil (bind m f).
Proof.
  intros [Hgm Hm] Hf. split; [apply grows_bind; [done|intros a; apply Hf]|]. intros w Hw.
  apply calm_bind; [done|intros a; apply Hf|]. eapply calm_mono; [by apply Hm|]. intros [a|e] w1 Hw1; [by apply Hf|done].
Qed.
Lemma tranquil_db {A} known (c : SM A) : keeps_plane c -> tranquil (or_fail known (db c)).
Proof.
  intros Hc. split; [grow|]. apply agrees_from. intros d w Hd Hw. eapply (calm_or_fail h _ _ _ _ _ _ Hw (Hc d)).
  - intros resp w1 Hw1. by apply (start_insync h pool d Hd).
  - intros a d' Hsp Hs w1 Hw1. apply (insync_intro h pool _ _ Hw1); [|by apply same_plane_eq]. apply (data_ok_rows pool d); [done| | |].
    + apply Hs, (do_schema _ _ Hd).
    + apply (sp_nodes _ _ Hsp).
    + apply (sp_anns _ _ Hsp).
Qed.
Lemma tranquil_query {A} known (f : DB -> A) : tranquil (or_fail known (db (query f))).
Proof. apply tranquil_db, keeps_reads, reads_query. Qed.
Lemma tranquil_identity c : tranquil (identity c).
Proof. destruct c; [apply tranquil_ret|apply tranquil_throw]. Qed.
Lemma tranquil_decoded {A} (b : option A) : tranquil (decoded b).
Proof. destruct b; [apply tranquil_ret|apply tranquil_throw]. Qed.
End Tranquil.

Create HintDb tranquil discriminated.
#[export] Hint Resolve tranquil_ret tranquil_throw tranquil_gets tranquil_serverError tranquil_query tranquil_identity tranquil_decoded : tranquil.
#[export] Hint Resolve tranquil_db Register_quiet CreateInvite_quiet Issue_quiet ValidateRefresh_quiet Revoke_quiet UpdateZonePassword_quiet : tranquil.

Ltac tranq :=
  repeat first
    [ progress intros
    | solve [auto with tranquil nocore]
    | progress cbv zeta
    | match goal with
      | |- tranquil _ _ (bind _ _) => apply tranquil_bind
      | |- tranquil _ _ (or_server_error (db (HashPassword _))) => apply tranquil_db, keeps_reads, HashPassword_reads
      | |- tranquil _ _ (or_server_error _) => unfold or_server_error
      | |- tranquil _ _ (or_fail _ (db _)) => first [apply tranquil_query|apply tranquil_db]
      | |- tranquil _ _ (match ?x with _ => _ end) => destruct x
      end ].

Section Quiet.
Context {K D : Type} `{NftablesLaws K} `{WgHostLaws D} `{WgTypes} `{NetipV6} `{Sqlite} `{Argon2} `{JwtLib} (h : Options) (pool : Prefix).
#[local] Abbreviation tranquil := (tranquil (K:=K) (D:=D) h pool).

Lemma healthz_tranquil version method : tranquil (healthz version method).
Proof. unfold healthz. tranq. Qed.
Lemma issue_token_tranquil u : tranquil (issue_token h u).
Proof. unfold issue_token, now_ns. tranq. Qed.
#[local] Hint Resolve issue_token_tranquil : tranquil.
Lemma login_tranquil b : tranquil (login h b).
Proof. unfold login. tranq. Qed.
Lemma register_tranquil b : tranquil (register b).
Proof. unfold register. tranq. Qed.
Lemma refresh_tranquil b : tranquil (refresh h b).
Proof. unfold refresh. tranq. Qed.
Lemma logout_tranquil b : tranquil (logout b).
Proof. unfold logout. tranq. Qed.
Lemma me_tranquil c : tranquil (me c).
Proof. unfold me. tranq. Qed.
Lemma serverInfo_tranquil : tranquil (serverInfo h).
Proof. unfold serverInfo. tranq. Qed.
Lemma listNodes_tranquil c : tranquil (listNodes c).
Proof. unfold listNodes, now_ns. tranq. Qed.
Lemma listZones_tranquil c : tranquil (listZones c).
Proof. unfold listZones. tranq. Qed.
Lemma memberZone_tranquil user name : tranquil (memberZone user name).
Proof. unfold memberZone. tranq. Qed.
Lemma ownedZone_tranquil user name : tranquil (ownedZone user name).
Proof. unfold ownedZone. tranq. Qed.
#[local] Hint Resolve memberZone_tranquil ownedZone_tranquil : tranquil.
Lemma zoneMembers_tranquil c name : tranquil (zoneMembers c name).
Proof. unfold zoneMembers. tranq. Qed.
Lemma listAnnouncements_tranquil c name : tranquil (listAnnouncements c name).
Proof. unfold listAnnouncements. tranq. Qed.
Lemma changeZonePassword_tranquil c name b : tranquil (changeZonePassword c name b).
Proof. unfold changeZonePassword. tranq. Qed.
Lemma createInvite_tranquil c : tranquil (createInvite h c).
Proof. unfold createInvite. tranq. Qed.
Lemma listInvites_tranquil : tranquil listInvites.
Proof. unfold listInvites, now_ns. tranq. Qed.
End Quiet.
