(* ===== verification/SyncServe.v ===== *)
(** * The server keeps the database and the dataplane in agreement

    Every request through the router that logs no failure takes a relay in
    agreement to a relay in agreement; so the relay a server reaches forwards
    exactly what its database allows. *)
From S2P Require Import Prelude GoStrings Netip Ipam PasswordPolicy Codec Db StoreInv StoreUsers StoreNodes StoreAnnounce StoreOps UsersProps CascadeProps StoreEffects NodesProps AnnounceProps Netfw NetfwProps Isolation Wg WgProps Auth AuthProps Api ApiZones ApiRoutes Sync SyncPlane SyncData SyncHandlers SyncDeletes SyncGrowth SyncQuiet.

#[local] Open Scope lw_scope.

Section Serve.
Context {K D : Type} `{NftablesLaws K} `{WgHostLaws D} `{WgTypes} `{NetipV6} `{Sqlite} `{Argon2} `{JwtLib} (h : Options)
  (pool : Prefix) (Hpool : range_ok pool) (Hfrom : announces_from h pool).
Abbreviation HM := (M Resp (World K D)).
#[local] Abbreviation agrees := (agrees (K:=K) (D:=D) h pool).

(** ** Every handler *)


Lemma leaveZone_agrees c name b : agrees (leaveZone h c name b).
Proof. apply agrees_from. intros d w Hd Hw. by apply (calm_leaveZone h pool Hpool d Hd). Qed.
Lemma kickMember_agrees c name node : agrees (kickMember h c name node).
Proof. apply agrees_from. intros d w Hd Hw. by apply (calm_kickMember h pool Hpool d Hd). Qed.
Lemma deleteZone_agrees c name : agrees (deleteZone h c name).
Proof. apply agrees_from. intros d w Hd Hw. by apply (calm_deleteZone h pool d Hd). Qed.
Lemma deleteNode_agrees c path : agrees (deleteNode h c path).
Proof. apply agrees_from. intros d w Hd Hw. by apply (calm_deleteNode h pool Hpool d Hd). Qed.
Lemma deleteAnnouncement_agrees c name path : agrees (deleteAnnouncement h c name path).
Proof. apply agrees_from. intros d w Hd Hw. by apply (calm_deleteAnnouncement h pool Hpool d Hd). Qed.
Lemma deleteUser_agrees c path : agrees (deleteUser h c path).
Proof. apply agrees_from. intros d w Hd Hw. by apply (calm_deleteUser h pool Hpool d Hd). Qed.
Lemma joinZone_agrees c name b : agrees (joinZone h c name b).
Proof. apply agrees_from. intros d w Hd Hw. by apply (calm_joinZone h pool d Hd). Qed.
Lemma createZone_agrees c b : agrees (createZone h c b).
Proof. apply agrees_from. intros d w Hd Hw. by apply (calm_createZone h pool d Hd). Qed.
Lemma createAnnouncement_agrees c name b : agrees (createAnnouncement h c name b).
Proof. apply agrees_from. intros d w Hd Hw. apply (calm_createAnnouncement h pool d Hd); [apply Hpool|done..]. Qed.
Lemma registerNode_calm c b w : insync h pool w -> key_not_respelled (s_db (w_store w)) b ->
  calm (registerNode h c b) w (fun _ w' => insync h pool w').
Proof. intros Hw Hb. pose proof Hw as (Hd & _). by apply (calm_registerNode h pool _ Hd); [|apply insync_at with (pool := pool)]. Qed.

(** ** The middleware and the table *)

Lemma calm_AuthRequired (g : Request -> HM Resp) r w :
  insync h pool w -> (forall c, calm (g (with_identity c r)) w (fun _ w' => insync h pool w')) ->
  calm (AuthRequired h g r) w (fun _ w' => insync h pool w').
Proof.
  intros Hw Hg. unfold AuthRequired. destruct (CutPrefix _ _) as [token|]; [|by apply calm_throw].
  unfold bind, now_ns, gets. intros out w'. destruct (VerifyJWT _ _ _) as [c|]; [apply Hg|]. intros [= <- <-] _. exact Hw.
Qed.
Lemma calm_AdminRequired (g : Request -> HM Resp) r w :
  insync h pool w -> calm (g r) w (fun _ w' => insync h pool w') -> calm (AdminRequired g r) w (fun _ w' => insync h pool w').
Proof.
  intros Hw Hg. unfold AdminRequired. destruct (rq_ctx r) as [c|]; [|by apply calm_throw]. destruct (negb _); [by apply calm_throw|done].
Qed.

(** The lemma of a handler, by its name. *)
Ltac handler Hkey :=
  match goal with
  | |- calm (healthz _ _) _ _ => apply healthz_tranquil
  | |- calm (login _ _) _ _ => apply login_tranquil
  | |- calm (register _) _ _ => apply register_tranquil
  | |- calm (refresh _ _) _ _ => apply refresh_tranquil
  | |- calm (logout _) _ _ => apply logout_tranquil
  | |- calm (me _) _ _ => apply me_tranquil
  | |- calm (serverInfo _) _ _ => apply serverInfo_tranquil
  | |- calm (listNodes _) _ _ => apply listNodes_tranquil
  | |- calm (listZones _) _ _ => apply listZones_tranquil
  | |- calm (zoneMembers _ _) _ _ => apply zoneMembers_tranquil
  | |- calm (listAnnouncements _ _) _ _ => apply listAnnouncements_tranquil
  | |- calm (changeZonePassword _ _ _) _ _ => apply changeZonePassword_tranquil
  | |- calm (createInvite _ _) _ _ => apply createInvite_tranquil
  | |- calm listInvites _ _ => apply listInvites_tranquil
  | |- calm (deleteNode _ _ _) _ _ => apply deleteNode_agrees
  | |- calm (createZone _ _ _) _ _ => apply createZone_agrees
  | |- calm (joinZone _ _ _ _) _ _ => apply joinZone_agrees
  | |- calm (leaveZone _ _ _ _) _ _ => apply leaveZone_agrees
  | |- calm (createAnnouncement _ _ _ _) _ _ => apply createAnnouncement_agrees
  | |- calm (deleteAnnouncement _ _ _ _) _ _ => apply deleteAnnouncement_agrees
  | |- calm (deleteZone _ _ _) _ _ => apply deleteZone_agrees
  | |- calm (kickMember _ _ _ _) _ _ => apply kickMember_agrees
  | |- calm (deleteUser _ _ _) _ _ => apply deleteUser_agrees
  | |- calm (registerNode _ _ _) _ _ => apply registerNode_calm; [|by apply Hkey]
  end.

Lemma calm_route p f r w : (p, f) ∈ routes h -> insync h pool w ->
  (p = "POST /api/v1/nodes" -> key_not_respelled (s_db (w_store w)) (as_register_node (rq_body r))) ->
  calm (f r) w (fun _ w' => insync h pool w').
Proof.
  intros Hin Hw Hkey. unfold routes in Hin.
  repeat (apply elem_of_cons in Hin as [[= -> ->]|Hin];
    [repeat first [apply calm_AuthRequired; [done|intros c] | apply calm_AdminRequired; [done|]];
     handler Hkey; try exact Hw|]).
  by apply not_elem_of_nil in Hin.
Qed.

Lemma lookup_route_elem p f rs : lookup_route p rs = Some f -> (p, f) ∈ (rs : list (string * (Request -> HM Resp))).
Proof.
  induction rs as [|[q g] rs IH]; simpl; [done|]. case_decide as Hq; [intros [= ->]; subst; left|]. intros Hl. right. auto.
Qed.

Lemma calm_NewRouter allow matched method auth path b w : insync h pool w ->
  (matched = Some "POST /api/v1/nodes" -> key_not_respelled (s_db (w_store w)) (as_register_node b)) ->
  calm (NewRouter h allow matched method auth path b) w (fun _ w' => insync h pool w').
Proof.
  intros Hw Hkey. unfold NewRouter, RateLimit. destruct (negb allow); [by apply calm_throw|]. unfold mux, notFound.
  destruct matched as [p|]; [|by apply calm_throw]. cbn [mbind option_bind].
  destruct (lookup_route p (routes h)) as [f|] eqn:Hf; [|by apply calm_throw]. apply lookup_route_elem in Hf.
  apply (calm_route p f _ _ Hf Hw). intros ->. by apply Hkey.
Qed.
End Serve.

(** ** The life of a server *)

(** A relay some server has reached: booted on a database of its own making, then
    requests that logged no failure, one at a time, in between which only the
    environment moves (the clock, the entropy, the driver's failures to come, the
    tracker, the log, what the device keeps of handshakes and traffic). *)
Inductive running {K D} `{NftablesLaws K} `{WgHostLaws D} `{WgTypes} `{NetipV6} `{Sqlite} `{Argon2} `{JwtLib} (h : Options) (pool : Prefix) :
  World K D -> Prop :=
| running_boot w w' : data_ok pool (s_db (w_store w)) -> rebuild_dataplane h w = (Ok tt, w') -> running h pool w'
| running_request w allow matched method auth path b out w' :
    running h pool w -> NewRouter h allow matched method auth path b w = (out, w') -> w_log w' = w_log w ->
    (matched = Some "POST /api/v1/nodes" -> key_not_respelled (s_db (w_store w)) (as_register_node b)) -> running h pool w'
| running_elapse w w' :
    running h pool w -> s_db (w_store w') = s_db (w_store w) -> w_nft w' = w_nft w -> device (w_wg w') (h_wg h) = device (w_wg w) (h_wg h) ->
    running h pool w'.

Section Running.
Context {K D : Type} `{NftablesLaws K} `{WgHostLaws D} `{WgTypes} `{NetipV6} `{Sqlite} `{Argon2} `{JwtLib} (h : Options)
  (pool : Prefix) (Hpool : range_ok pool) (Hfrom : announces_from h pool).

Lemma boot_insync (w w' : World K D) : data_ok pool (s_db (w_store w)) -> rebuild_dataplane h w = (Ok tt, w') -> insync h pool w'.
Proof.
  intros Hd Hrun. unfold rebuild_dataplane, bind in Hrun. destruct (rebuildNodePeers h w) as [[[]|] w1] eqn:Hpeers; [|done].
  apply (rebuild_peers_sync h pool) in Hpeers as (D1 & _ & Hwg); [|done].
  apply rebuild_rules_sync in Hrun as (D2 & G2 & Hfw); [|rewrite D1; apply (do_schema _ _ Hd)].
  unfold insync. rewrite D2, G2, D1. by rewrite D1 in Hfw.
Qed.

Lemma running_insync (w : World K D) : running h pool w -> insync h pool w.
Proof.
  induction 1 as [w w' Hd Hrun|w allow matched method auth path b out w' _ IH Hrun Hlog Hkey|w w' _ IH Hdb Hnft Hwg].
  - by eapply boot_insync.
  - by apply (calm_NewRouter h pool Hpool Hfrom allow matched method auth path b w IH Hkey out w').
  - unfold insync. by rewrite Hdb, Hnft, Hwg.
Qed.
End Running.

(** ** What the database allows *)

(** Address [a] is that of a member of zone [z]. *)
Definition in_zone (d : DB) (z : Z) (a : Addr) : Prop := exists m n,
  m ∈ zone_members d /\ n ∈ rows (nodes d) /\ m_zone m = z /\ m_node m = n_id n /\ a = n_ip n.
(** Address [a] lies in a subnet announced into zone [z]. *)
Definition announced_into (d : DB) (z : Z) (a : Addr) : Prop := exists az r,
  az ∈ announcement_zones d /\ r ∈ rows (announcements d) /\ az_zone az = z /\ az_ann az = a_id r /\ in_block a (synth r).
Definition may_send (d : DB) (src dst : Addr) : Prop := exists z, in_zone d z src /\ (in_zone d z dst \/ announced_into d z dst).

Section Allowed.
Context `{WgTypes} (pool : Prefix) (Hpool : range_ok pool) (d : DB) (Hd : data_ok pool d).

Lemma member_in_zone z a : a ∈ member_ips z d <-> in_zone d z a.
Proof.
  assert (forall n, n ∈ rows (nodes d) -> node_addr n = n_ip n) as Haddr by (intros n Hn; apply u32_id, (do_ip _ _ Hd n Hn)).
  rewrite elem_of_member_ips. split; intros (m & n & H1 & H2 & H3 & H4 & ->); exists m, n; rewrite Haddr by done; done.
Qed.
Lemma prefix_announced z a : (exists q, q ∈ zone_prefixes d z /\ in_block a (BlockFromPrefix q)) <-> announced_into d z a.
Proof.
  setoid_rewrite elem_of_zone_prefixes. split.
  - intros (q & (az & r & Haz & Hz & Hr & Hid & ->) & Hin). exists az, r. split_and!; [done..|].
    by rewrite (proj1 (proj2 (proj2 (synth_prefix_eq pool d Hd r Hr)))) in Hin.
  - intros (az & r & Haz & Hr & Hz & Hid & Hin). exists (synth_prefix r). split; [by exists az, r|].
    by rewrite (proj1 (proj2 (proj2 (synth_prefix_eq pool d Hd r Hr)))).
Qed.
Lemma db_iso_ok : iso_ok (db_iso d).
Proof.
  assert (forall z q, q ∈ iso_rts (db_iso d) z -> exists r, r ∈ rows (announcements d) /\ q = synth_prefix r) as Hr.
  { intros z q. simpl. rewrite elem_of_list_to_set. intros (az & r & _ & _ & Hr & _ & ->)%elem_of_zone_prefixes. by exists r. }
  constructor.
  - intros z a _. simpl. rewrite elem_of_list_to_set. apply member_u32.
  - intros z q _ (r & Hin & ->)%Hr. by apply (synth_range pool d).
  - intros z p q _ (a & Ha & ->)%Hr (b & Hb & ->)%Hr. by apply (synth_disjoint pool d).
Qed.
Lemma iso_may_send src dst : same_zone (db_iso d) src dst \/ zone_route (db_iso d) src dst <-> may_send d src dst.
Proof.
  assert (forall z a, a ∈ iso_mem (db_iso d) z <-> in_zone d z a) as Hm by (intros z a; simpl; rewrite elem_of_list_to_set; apply member_in_zone).
  assert (forall z, in_zone d z src -> z ∈ iso_ids (db_iso d)) as Hz.
  { intros z (m & n & Hin & _ & <- & _). by apply (fk_member_zone _ (do_schema _ _ Hd)). }
  unfold same_zone, zone_route, may_send. setoid_rewrite Hm. setoid_rewrite <- prefix_announced. split.
  - intros [(z & _ & Hs & Hdst)|(z & q & _ & Hs & Hq & Hb)]; exists z; (split; [done|]); [by left|right].
    exists q. split; [|done]. simpl in Hq. by rewrite elem_of_list_to_set in Hq.
  - intros (z & Hs & [Hdst|(q & Hq & Hb)]); [left; exists z; auto|right]. exists z, q. split_and!; [auto|done| |done].
    simpl. by rewrite elem_of_list_to_set.
Qed.
End Allowed.

Lemma insync_forwards {K D : Type} `{NftablesLaws K} `{WgHostLaws D} `{WgTypes} `{NftVM} h pool (w : World K D) p src dst v :
  range_ok pool -> insync h pool w -> ipv4_packet src dst p -> is_u32 src -> is_u32 dst -> ct_bits p v ->
  forwards (h_netfw h) (nft_view (w_nft w)) p <-> established v \/ may_send (s_db (w_store w)) src dst.
Proof.
  intros Hpool (Hd & Hfw & _) Hp Hsrc Hdst Hct.
  rewrite <- (iso_may_send pool) by done. apply (zone_isolation _ _ _ _ _ _ _ _ Hfw); [by apply (db_iso_ok pool)|done..].
Qed.

(** C1: network isolation, end to end. However a server got where it is (booted on
    its database, then any requests of any callers, none of which logged a failure),
    the relay forwards an IPv4 packet exactly when conntrack knows its flow, or the
    database has a zone of which the source is a member, and of which the
    destination is a member too or lies in a subnet announced into it. *)
Theorem served_isolation {K D : Type} `{NftablesLaws K} `{WgHostLaws D} `{WgTypes} `{NetipV6} `{Sqlite} `{Argon2} `{JwtLib} `{NftVM}
    h pool (w : World K D) p src dst v :
  range_ok pool -> announces_from h pool -> running h pool w ->
  ipv4_packet src dst p -> is_u32 src -> is_u32 dst -> ct_bits p v ->
  forwards (h_netfw h) (nft_view (w_nft w)) p <-> established v \/ may_send (s_db (w_store w)) src dst.
Proof. intros Hpool Hfrom Hw%running_insync; [by eapply insync_forwards|done..]. Qed.

(** C2: every request keeps the database and the dataplane in agreement. When the
    isolation table holds exactly the zones, members and announced blocks of the
    database, and the WireGuard device exactly its nodes as peers with their
    addresses and blocks, then the same is so after any request through the router
    (whatever its route, caller, body and outcome, refusals included) that logs no
    failure; and the data stay those of a server. A node registered under a second
    spelling of a registered key is the exception. *)
Theorem requests_keep_agreement {K D : Type} `{NftablesLaws K} `{WgHostLaws D} `{WgTypes} `{NetipV6} `{Sqlite} `{Argon2} `{JwtLib}
    h pool allow matched method auth path b (w w' : World K D) out :
  range_ok pool -> announces_from h pool -> insync h pool w ->
  (matched = Some "POST /api/v1/nodes" -> key_not_respelled (s_db (w_store w)) (as_register_node b)) ->
  NewRouter h allow matched method auth path b w = (out, w') -> w_log w' = w_log w -> insync h pool w'.
Proof. intros Hpool Hfrom Hw Hkey. by apply calm_NewRouter. Qed.

(** ** A server with two users: one announces a subnet into the other's zone, and is
    then deleted *)

#[local] Instance no_v6 : NetipV6 := fun _ => None.
Definition serve_pool : Prefix := PrefixFrom 180879360 16.  (** 10.200.0.0/16 *)
Definition serve_ops : list repo_op :=
  [OpCreateAdmin "ann" "h"; OpCreateAdmin "bob" "h";
   OpCreateNode 1 "router" key_a "openwrt" 1681915906 1681981437 0; OpCreateNode 2 "laptop" key_b "linux" 1681915906 1681981437 0;
   OpCreateZone 2 "home" "h" 0; OpJoin 1 1; OpJoin 1 2; OpAnnounce 1 1 (mkBlock 3232235776 24) 1 0 (P4 serve_pool)].
Definition serve_db : DB := s_db (run_ops serve_ops (mkStore empty_db [] 0 [])).
Definition serve_opts : Options :=
  mkOptions "1" (mkJWTManager "s" 3600000000000) wg0 "lanweave" (mkWgCfg "wg0" "100.64.0.0/10" 51820 0) "" 10 10 10 (Some (P4 serve_pool)) 0.
Definition serve_world : World Ruleset SimHost := mkWorld (Quiet serve_db 150 []) 0 ∅ bare_host NewTracker [].
Definition booted_world : World Ruleset SimHost := snd (rebuild_dataplane serve_opts serve_world).
Definition after_delete : World Ruleset SimHost :=
  snd (NewRouter serve_opts true (Some "DELETE /api/v1/admin/users/{id}") "DELETE" "Bearer token" (fun _ => "1") no_body booted_world).

Lemma serve_pool_ok : range_ok serve_pool.
Proof. split; [split; [by split|split; simpl; lia]|by vm_compute]. Qed.
Lemma serve_from : announces_from serve_opts serve_pool.
Proof. by intros p [= <-]. Qed.
Definition router : node_row := NodeRow 1 1 "router" key_a 1681915906 0 "openwrt".
Definition laptop : node_row := NodeRow 2 2 "laptop" key_b 1681915907 0 "linux".
Lemma serve_nodes n : n ∈ rows (nodes serve_db) -> n = router \/ n = laptop.
Proof.
  assert (rows (nodes serve_db) = [router; laptop]) as -> by by vm_compute.
  by rewrite elem_of_cons, list_elem_of_singleton.
Qed.
Lemma serve_db_ok : data_ok serve_pool serve_db.
Proof.
  constructor.
  - apply (run_ops_schema serve_ops (mkStore empty_db [] 0 [])), empty_db_ok.
  - apply run_blocks_ok; [apply serve_pool_ok|]. repeat constructor; unfold is_u32, W32; cbn; lia.
  - intros n [->| ->]%serve_nodes; split; by vm_compute.
  - assert (rows (announcements serve_db) = [AnnRow 1 1 3232235776 24 180879360 0]) as -> by by vm_compute.
    by intros a ->%list_elem_of_singleton.
  - intros n [->| ->]%serve_nodes; eexists; by vm_compute.
  - intros n n' [->| ->]%serve_nodes [->| ->]%serve_nodes; [done|by vm_compute..|done].
Qed.
Lemma booted_db : s_db (w_store booted_world) = serve_db.
Proof. by vm_compute. Qed.
Lemma deleted_nodes : rows (nodes (s_db (w_store after_delete))) = [laptop].
Proof. by vm_compute. Qed.
Lemma deleted_anns : rows (announcements (s_db (w_store after_delete))) = [].
Proof. by vm_compute. Qed.
Lemma deleted_log : w_log after_delete = w_log booted_world.
Proof. by vm_compute. Qed.
Lemma booted_running : running serve_opts serve_pool booted_world.
Proof. apply (running_boot _ _ serve_world); [apply serve_db_ok|].
  apply (run_pair (rebuild_dataplane serve_opts serve_world)). by vm_compute. Qed.
Lemma deleted_running : running serve_opts serve_pool after_delete.
Proof.
  eapply running_request; [apply booted_running|apply surjective_pairing|apply deleted_log|done].
Qed.

#[local] Opaque booted_world after_delete serve_db.
Lemma served_isolation_witness :
  forwards "lanweave" (nft_view (w_nft booted_world)) (demo_packet 1681915907 180879365) /\
  ~ forwards "lanweave" (nft_view (w_nft after_delete)) (demo_packet 1681915907 180879365).
Proof.
  assert (forall a b, ipv4_packet a b (demo_packet a b)) as Hp by (intros a b; split_and!; reflexivity || (simpl; lia)).
  assert (is_u32 1681915907 /\ is_u32 180879365) as [Hs Hd] by (unfold is_u32, W32; lia).
  assert (forall a b, ct_bits (demo_packet a b) 0) as Hct by (split; [unfold is_u32, W32; lia|reflexivity]).
  split.
  - apply (served_isolation serve_opts serve_pool booted_world (demo_packet 1681915907 180879365) 1681915907 180879365 0
      serve_pool_ok serve_from booted_running (Hp _ _) Hs Hd (Hct _ _)).
    right. rewrite booted_db. exists 1. split; [|right].
    + exists (MemberRow 1 2 0), laptop. split_and!; [apply (bool_decide_unpack _); by vm_compute..|done|done|done].
    + exists (AttachRow 1 1), (AnnRow 1 1 3232235776 24 180879360 0).
      split_and!; [apply (bool_decide_unpack _); by vm_compute..|done|done|split; by vm_compute].
  - intros Hf. apply (served_isolation serve_opts serve_pool after_delete (demo_packet 1681915907 180879365) 1681915907 180879365 0
      serve_pool_ok serve_from deleted_running (Hp _ _) Hs Hd (Hct _ _)) in Hf as [He|Hf]; [by apply He|].
    destruct Hf as (z & _ & [(m & n & Hm & Hn & _ & Hid & Ha)|(az & r & _ & Hr & _)]).
    + rewrite deleted_nodes in Hn. apply list_elem_of_singleton in Hn as ->. by vm_compute in Ha.
    + rewrite deleted_anns in Hr. by apply not_elem_of_nil in Hr.
Defined.

Lemma requests_keep_agreement_witness : insync serve_opts serve_pool after_delete.
Proof.
  apply (requests_keep_agreement serve_opts serve_pool true (Some "DELETE /api/v1/admin/users/{id}") "DELETE" "Bearer token"
    (fun _ => "1") no_body booted_world after_delete (fst (NewRouter serve_opts true (Some "DELETE /api/v1/admin/users/{id}") "DELETE"
      "Bearer token" (fun _ => "1") no_body booted_world)) serve_pool_ok serve_from).
  - apply (running_insync serve_opts serve_pool serve_pool_ok serve_from), booted_running.
  - done.
  - apply surjective_pairing.
  - apply deleted_log.
Defined.
