(* ===== verification/Netutil.v ===== *)
(** * IPv4-prefix helpers of the clients ([internal/netutil])

    [CanonicalPrefixes] and [LocalOverlap], with what the former computes: the
    distinct masked prefixes in increasing order. The host's interface list is a
    class of two calls. *)
From stdpp Require Import sorting.
From S2P Require Import Prelude GoStrings Netip Ipam.

#[local] Open Scope lw_scope.

#[export] Instance AnyPrefix_eq_dec : EqDecision AnyPrefix.
Proof. solve_decision. Defined.
#[export] Instance AnyPrefix_countable : Countable AnyPrefix.
Proof.
  refine (inj_countable' (fun p => match p with P4 p => inl p | P6 a b => inr (a, b) end)
    (fun x => match x with inl p => P4 p | inr (a, b) => P6 a b end) _).
  by intros [].
Defined.

(** [netip.Prefix.Masked] on either family. *)
Definition AnyMasked (p : AnyPrefix) : AnyPrefix :=
  match p with P4 p => P4 (Masked p) | P6 a b => P6 (Z.shiftl (Z.shiftr a (128 - b)) (128 - b)) b end.

(** The sort key: [netip.Addr.Less] puts IPv4 first, then the address, then the length. *)
Definition prefix_key (p : AnyPrefix) : Z * Z * Z :=
  match p with P4 p => (0, Addr_of p, Bits p) | P6 a b => (1, a, b) end.
Definition key_lt (x y : Z * Z * Z) : Prop :=
  x.1.1 < y.1.1 \/ (x.1.1 = y.1.1 /\ (x.1.2 < y.1.2 \/ (x.1.2 = y.1.2 /\ x.2 < y.2))).
Definition prefix_le (p q : AnyPrefix) : Prop := ~ key_lt (prefix_key q) (prefix_key p).
#[export] Instance key_lt_dec x y : Decision (key_lt x y).
Proof. unfold key_lt. apply _. Defined.
#[export] Instance prefix_le_dec : RelDecision prefix_le.
Proof. unfold RelDecision, prefix_le. intros. apply _. Defined.

Fixpoint dedupe (seen : list AnyPrefix) (l : list AnyPrefix) : list AnyPrefix :=
  match l with
  | [] => []
  | p :: l => let m := AnyMasked p in if decide (m ∈ seen) then dedupe seen l else m :: dedupe (m :: seen) l
  end.
Definition CanonicalPrefixes (l : list AnyPrefix) : list AnyPrefix := merge_sort prefix_le (dedupe [] l).

(** ** Local networks *)

(** An interface address: an [*net.IPNet] with an IPv4 address and its mask's
    length, or anything else. *)
Inductive LocalAddr : Type := LocalV4 (a : Addr) (ones : Z) | LocalOther.

Class Interfaces (D : Type) : Type :=
  { net_Interfaces : M unit D (list string);
    net_Addrs : string -> M unit D (list LocalAddr) }.

(** [netip.PrefixFrom] is invalid, and overlaps nothing, for a length over 32. *)
Definition addr_overlaps (p : AnyPrefix) (a : LocalAddr) : bool :=
  match a, p with
  | LocalV4 addr ones, P4 p => (0 <=? ones) && (ones <=? 32) && PrefixOverlaps (Masked (PrefixFrom addr ones)) p
  | _, _ => false
  end.

Section LocalOverlap.
Context {D : Type} `{Interfaces D}.

Fixpoint overlap_loop {E} (p : AnyPrefix) (excludeIface : string) (ifaces : list string) : M E D (option string) :=
  match ifaces with
  | [] => ret None
  | i :: ifaces =>
      if decide (i = excludeIface) then overlap_loop p excludeIface ifaces else fun d =>
      match net_Addrs i d with
      | (Err _, d) => overlap_loop p excludeIface ifaces d
      | (Ok addrs, d) => if existsb (addr_overlaps p) addrs then (Ok (Some i), d) else overlap_loop p excludeIface ifaces d
      end
  end.
Definition LocalOverlap {E} (p : AnyPrefix) (excludeIface : string) : M E D (option string) := fun d =>
  match net_Interfaces d with
  | (Err _, d) => (Ok None, d)
  | (Ok ifaces, d) => overlap_loop p excludeIface ifaces d
  end.
End LocalOverlap.

(** ** The canonical list *)

Lemma prefix_key_inj p q : prefix_key p = prefix_key q -> p = q.
Proof. destruct p as [[]|], q as [[]|]; simpl; by intros [= -> ->]. Qed.
#[export] Instance prefix_le_total : Total prefix_le.
Proof. intros p q. unfold prefix_le, key_lt. destruct (decide (key_lt (prefix_key q) (prefix_key p))) as [Hl|]; [right|by left]. unfold key_lt in *. lia. Qed.
#[export] Instance prefix_le_trans : Transitive prefix_le.
Proof. intros p q r. unfold prefix_le, key_lt. lia. Qed.
Lemma prefix_le_lt p q : prefix_le p q -> p <> q -> key_lt (prefix_key p) (prefix_key q).
Proof.
  intros Hle Hne. assert (prefix_key p <> prefix_key q) as Hk by by intros ?%prefix_key_inj.
  unfold prefix_le, key_lt in *. destruct (prefix_key p) as [[x1 x2] x3], (prefix_key q) as [[y1 y2] y3]. simpl in *.
  assert (x1 <> y1 \/ x2 <> y2 \/ x3 <> y3); [|lia].
  destruct (decide (x1 = y1)) as [->|]; [|auto]. destruct (decide (x2 = y2)) as [->|]; [|auto]. right. right. by intros ->.
Qed.

Lemma elem_of_dedupe seen l p : p ∈ dedupe seen l <-> (p ∉ seen) /\ p ∈ AnyMasked <$> l.
Proof.
  revert seen. induction l as [|q l IH]; intros seen; simpl; [rewrite !elem_of_nil; tauto|]. rewrite elem_of_cons.
  case_decide as Hs.
  - rewrite IH. split; [tauto|]. intros [Hns [->|Hin]]; [done|tauto].
  - rewrite elem_of_cons, IH, not_elem_of_cons. split; [intros [->|([_ ?] & ?)]; tauto|].
    intros [Hns [->|Hin]]; [by left|]. destruct (decide (p = AnyMasked q)); [by left|right]. tauto.
Qed.
Lemma NoDup_dedupe seen l : NoDup (dedupe seen l).
Proof.
  revert seen. induction l as [|q l IH]; intros seen; simpl; [constructor|]. case_decide; [done|]. constructor; [|done].
  rewrite elem_of_dedupe. intros [Hns _]. apply Hns. left.
Qed.

Lemma elem_of_canonical l p : p ∈ CanonicalPrefixes l <-> p ∈ AnyMasked <$> l.
Proof. unfold CanonicalPrefixes. rewrite merge_sort_Permutation, elem_of_dedupe. split; [tauto|]. intros. split; [apply not_elem_of_nil|done]. Qed.
Lemma NoDup_canonical l : NoDup (CanonicalPrefixes l).
Proof. unfold CanonicalPrefixes. rewrite merge_sort_Permutation. apply NoDup_dedupe. Qed.
Lemma canonical_sorted l : StronglySorted (fun p q => key_lt (prefix_key p) (prefix_key q)) (CanonicalPrefixes l).
Proof.
  pose proof (NoDup_canonical l) as Hnd. assert (StronglySorted prefix_le (CanonicalPrefixes l)) as Hs by apply (StronglySorted_merge_sort prefix_le).
  induction Hs as [|p k Hs IH Hall]; constructor.
  - apply IH. by apply NoDup_cons in Hnd as [_ ?].
  - apply NoDup_cons in Hnd as [Hp _]. rewrite Forall_forall in Hall. apply List.Forall_forall. intros q Hq%list_elem_of_In.
    apply prefix_le_lt; [by apply Hall|]. by intros ->.
Qed.

(** Two lists of distinct elements in the same strict order with the same elements are equal. *)
Lemma sorted_unique {A} (R : A -> A -> Prop) l k : (forall x, ~ R x x) -> (forall x y, R x y -> ~ R y x) ->
  StronglySorted R l -> StronglySorted R k -> (forall x, x ∈ l <-> x ∈ k) -> l = k.
Proof.
  intros Hirr Has Hl. revert k. induction Hl as [|x l Hl IH Hx]; intros k Hk Hin.
  - destruct k as [|y k]; [done|]. exfalso. apply (not_elem_of_nil y), Hin. left.
  - destruct Hk as [|y k Hk Hy]; [exfalso; apply (not_elem_of_nil x), Hin; left|].
    rewrite List.Forall_forall in Hx, Hy. setoid_rewrite <- list_elem_of_In in Hx. setoid_rewrite <- list_elem_of_In in Hy.
    assert (x = y) as ->.
    { assert (x ∈ y :: k) as [->|Hxk]%elem_of_cons by (apply Hin; left); [done|].
      assert (y ∈ x :: l) as [->|Hyl]%elem_of_cons by (apply Hin; left); [done|]. exfalso. by eapply Has; [apply Hx|apply Hy]. }
    f_equal. apply IH; [done|]. intros z. split; intros Hz.
    + assert (z ∈ y :: k) as [->|?]%elem_of_cons by (apply Hin; by right); [|done]. exfalso. by apply (Hirr y), Hx.
    + assert (z ∈ y :: l) as [->|?]%elem_of_cons by (apply Hin; by right); [|done]. exfalso. by apply (Hirr y), Hy.
Qed.

(** The canonical list of prefixes depends only on the set of networks given,
    not on their order, repetition or host bits: it is the one strictly increasing
    list of the masked prefixes. *)
Theorem CanonicalPrefixes_spec l out :
  out = CanonicalPrefixes l <->
  StronglySorted (fun p q => key_lt (prefix_key p) (prefix_key q)) out /\ (forall p, p ∈ out <-> exists q, q ∈ l /\ p = AnyMasked q).
Proof.
  assert (forall p, p ∈ CanonicalPrefixes l <-> exists q, q ∈ l /\ p = AnyMasked q) as Hin.
  { intros p. rewrite elem_of_canonical, list_elem_of_fmap. naive_solver. }
  split; [intros ->; split; [apply canonical_sorted|apply Hin]|]. intros [Hs Hout].
  apply (sorted_unique (fun p q => key_lt (prefix_key p) (prefix_key q))); [| |done|apply canonical_sorted|].
  - intros x. unfold key_lt. lia.
  - intros x y. unfold key_lt. lia.
  - intros p. by rewrite Hout, Hin.
Qed.
