(* ===== verification/Engine.v ===== *)
(** * The router's kernel tunnel ([internal/router/engine])

    The engine's methods over the router's network: [netlink], [wgctrl], the
    resolver and the interface list are a class of calls, their effect on the
    links and routes a second class. The engine's own state is its memory of the
    consumer routes. *)
From Stdlib Require Import Ascii.
From S2P Require Import Prelude GoStrings Netip Ipam Wg Netutil.

#[local] Open Scope lw_scope.

(** ** The router's network *)

(** An address of the resolver: IPv4, or an IPv6 one. *)
Inductive IPAddr : Type := IP4 (a : Addr) | IP6 (a : Z).

(** [wgtypes.PeerConfig] and [wgtypes.Config], the fields the engine sets; an
    allowed IP or route [net.IPNet] is given as the prefix it is made of. *)
Record RPeerConfig : Type := mkRPeerConfig
  { rp_key : Key; rp_endpoint : option (IPAddr * Z); rp_allowed : list AnyPrefix; rp_keepalive : option Z;
    rp_update_only : bool; rp_replace : bool }.

Record RPeer : Type := mkRPeer { peer_endpoint : option (IPAddr * Z); peer_keepalive : option Z; peer_allowed : gset AnyPrefix }.
Record Link : Type := mkLink { link_up : bool; link_addrs : gset Prefix; link_private : option Key; link_peers : gmap Key RPeer }.
(** The links by name, and the link each destination is routed to. *)
Record RouterNet : Type := mkNet { net_links : gmap string Link; net_routes : gmap AnyPrefix string }.

Inductive NetCall : Type :=
| LinkAdd_Wireguard (name : string)
| LinkDel (name : string)
| AddrAdd (name : string) (p : Prefix)
| LinkSetUp (name : string)
| RouteReplace (name : string) (dst : AnyPrefix)
| RouteDel (name : string) (dst : AnyPrefix)
| ConfigureDevice (name : string) (private : option Key) (peer : RPeerConfig).

(** A peer section. [UpdateOnly] leaves an unknown peer out; an allowed IP belongs
    to one peer. *)
Definition configure_peer (peers : gmap Key RPeer) (c : RPeerConfig) : gmap Key RPeer :=
  match peers !! rp_key c, rp_update_only c with
  | None, true => peers
  | old, _ =>
      let o := default (mkRPeer None None ∅) old in
      let ips := list_to_set (rp_allowed c) : gset AnyPrefix in
      <[rp_key c := mkRPeer (match rp_endpoint c with Some e => Some e | None => peer_endpoint o end)
                            (match rp_keepalive c with Some k => Some k | None => peer_keepalive o end)
                            ((if rp_replace c then ∅ else peer_allowed o) ∪ ips)]>
        ((fun p => mkRPeer (peer_endpoint p) (peer_keepalive p) (peer_allowed p ∖ ips)) <$> peers)
  end.

Definition on_link (name : string) (f : Link -> Link) (n : RouterNet) : RouterNet := mkNet (alter f name (net_links n)) (net_routes n).

(** The effect of a call that succeeds. *)
Definition net_effect (c : NetCall) (n : RouterNet) : RouterNet :=
  match c with
  | LinkAdd_Wireguard i => mkNet (<[i := mkLink false ∅ None ∅]> (net_links n)) (net_routes n)
  | LinkDel i => mkNet (delete i (net_links n)) (filter (fun x => x.2 <> i) (net_routes n))
  | AddrAdd i p => on_link i (fun l => mkLink (link_up l) (link_addrs l ∪ {[p]}) (link_private l) (link_peers l)) n
  | LinkSetUp i => on_link i (fun l => mkLink true (link_addrs l) (link_private l) (link_peers l)) n
  | RouteReplace i p => mkNet (net_links n) (<[p := i]> (net_routes n))
  | RouteDel i p => mkNet (net_links n) (delete p (net_routes n))
  | ConfigureDevice i k c =>
      on_link i (fun l => mkLink (link_up l) (link_addrs l) (match k with Some k => Some k | None => link_private l end)
                                 (configure_peer (link_peers l) c)) n
  end.
(** The link a call needs. *)
Definition net_pre (c : NetCall) (n : RouterNet) : Prop :=
  match c with
  | LinkAdd_Wireguard i => net_links n !! i = None
  | AddrAdd i p => exists l, net_links n !! i = Some l /\ (p ∉ link_addrs l)
  | LinkDel i | LinkSetUp i | RouteReplace i _ | ConfigureDevice i _ _ => is_Some (net_links n !! i)
  | RouteDel i p => net_routes n !! p = Some i
  end.

Class RouterHost (D : Type) : Type :=
  { rh_LinkByName : string -> M unit D unit;
    rh_call : NetCall -> M unit D unit;
    rh_wgctrl_New : M unit D unit;
    rh_Device : string -> M unit D (list (Key * GoTime));
    rh_LookupPort : string -> M unit D Z;
    rh_LookupIP : string -> M unit D (list IPAddr) }.

(** [net.SplitHostPort]. *)
Definition SplitHostPort (s : string) : option (string * string) :=
  '(host, port) ← CutLast ":"%char s;
  match s with
  | String "["%char rest =>
      '(inside, _) ← Cut "]"%char rest;
      (** the bracket closes right before the last colon, and none is left over *)
      if bool_decide (host = "[" +:+ inside +:+ "]") && no_char "["%char inside && no_char "["%char port && no_char "]"%char port
      then Some (inside, port) else None
  | _ =>
      if no_char ":"%char host && no_char "["%char s && no_char "]"%char s then Some (host, port) else None
  end.

(** What a call does to the network behind a host state: a call that succeeds had
    what it needs and has its effect; one that fails changes nothing, except that
    a failed configuration may leave the link half configured. *)
Class RouterHostLaws (D : Type) `{RouterHost D, Interfaces D} : Type :=
  { rh_view : D -> RouterNet;
    rh_find_view i d : rh_view (snd (rh_LinkByName i d)) = rh_view d;
    rh_find_ok i d : is_ok (fst (rh_LinkByName i d)) = true -> is_Some (net_links (rh_view d) !! i);
    rh_new_view d : rh_view (snd (rh_wgctrl_New d)) = rh_view d;
    rh_device_view i d : rh_view (snd (rh_Device i d)) = rh_view d;
    rh_port_view s d : rh_view (snd (rh_LookupPort s d)) = rh_view d;
    rh_ip_view s d : rh_view (snd (rh_LookupIP s d)) = rh_view d;
    rh_ifaces_view d : rh_view (snd (net_Interfaces d)) = rh_view d;
    rh_addrs_view i d : rh_view (snd (net_Addrs i d)) = rh_view d;
    rh_call_ok c d d' : rh_call c d = (Ok tt, d') -> net_pre c (rh_view d) /\ rh_view d' = net_effect c (rh_view d);
    rh_call_err c d d' e : rh_call c d = (Err e, d') ->
      match c with
      | ConfigureDevice i _ _ => exists f, rh_view d' = on_link i f (rh_view d)
      | _ => rh_view d' = rh_view d
      end;
    (** [rh_healthy ep d]: from [d] on, every call that has what it needs succeeds and
        the endpoint [ep] resolves. A host may never be healthy. *)
    rh_healthy : string -> D -> Prop;
    rh_healthy_find ep i d : rh_healthy ep d ->
      rh_healthy ep (snd (rh_LinkByName i d)) /\ (is_Some (net_links (rh_view d) !! i) -> is_ok (fst (rh_LinkByName i d)) = true);
    rh_healthy_call ep c d : rh_healthy ep d ->
      rh_healthy ep (snd (rh_call c d)) /\ (net_pre c (rh_view d) -> is_ok (fst (rh_call c d)) = true);
    rh_healthy_new ep d : rh_healthy ep d -> rh_healthy ep (snd (rh_wgctrl_New d)) /\ is_ok (fst (rh_wgctrl_New d)) = true;
    rh_healthy_device ep i d : rh_healthy ep d -> rh_healthy ep (snd (rh_Device i d));
    rh_healthy_port ep s d : rh_healthy ep d -> rh_healthy ep (snd (rh_LookupPort s d)) /\
      (forall h, SplitHostPort ep = Some (h, s) -> is_ok (fst (rh_LookupPort s d)) = true);
    rh_healthy_ip ep s d : rh_healthy ep d -> rh_healthy ep (snd (rh_LookupIP s d)) /\
      (forall p, SplitHostPort ep = Some (s, p) -> exists ip ips, fst (rh_LookupIP s d) = Ok (ip :: ips));
    rh_healthy_ifaces ep d : rh_healthy ep d -> rh_healthy ep (snd (net_Interfaces d));
    rh_healthy_addrs ep i d : rh_healthy ep d -> rh_healthy ep (snd (net_Addrs i d)) }.

(** ** [Config] and [Engine] *)

Definition DefaultIface : string := "lanweave0".

Record Config : Type := mkConfig
  { Iface : string; PrivateKey : string; Address : Addr; Network : AnyPrefix; ServerPubKey : string; Endpoint : string; Keepalive : Z }.
Definition iface (c : Config) : string := if decide (Iface c = "") then DefaultIface else Iface c.

(** The engine's memory and the host it drives. *)
Record EngineState (D : Type) : Type := mkEngine { routesWanted : list AnyPrefix; routesApplied : list AnyPrefix; eng_host : D }.
Arguments mkEngine {D}. Arguments routesWanted {D}. Arguments routesApplied {D}. Arguments eng_host {D}.
Definition New {D} (d : D) : EngineState D := mkEngine [] [] d.

Inductive eng_err : Type := EIfaceExists | EDeviceKey | EServerKey | EEndpoint | EHostCall | ENoServerPeer.
#[export] Instance eng_err_eq_dec : EqDecision eng_err.
Proof. solve_decision. Defined.

Section Engine.
Context {D : Type} `{RouterHost D} `{Interfaces D} `{WgTypes} (cfg : Config).

Abbreviation EM := (M eng_err (EngineState D)).

Definition on_host {A} (err : eng_err) (m : M unit D A) : EM A := fun s =>
  let '(r, d) := m (eng_host s) in
  (match r with Ok a => Ok a | Err _ => Err err end, mkEngine (routesWanted s) (routesApplied s) d).
Definition call (c : NetCall) : EM unit := on_host EHostCall (rh_call c).
Definition or_throw {A} (err : eng_err) (o : option A) : EM A := match o with Some a => ret a | None => throw err end.

Definition pick_ip (ips : list IPAddr) : option IPAddr :=
  match filter (fun ip => match ip with IP4 _ => true | IP6 _ => false end = true) ips with
  | ip :: _ => Some ip
  | [] => head ips
  end.
Definition splitEndpoint (endpoint : string) : EM (IPAddr * Z) :=
  let! hp := or_throw EEndpoint (SplitHostPort endpoint) in
  let '(hostStr, portStr) := hp in
  let! port := on_host EEndpoint (rh_LookupPort portStr) in
  let! ips := on_host EEndpoint (rh_LookupIP hostStr) in
  let! ip := or_throw EEndpoint (pick_ip ips) in
  ret (ip, port).

Definition Down : EM unit := fun s =>
  match rh_LinkByName (iface cfg) (eng_host s) with
  | (Err _, d) => (Ok tt, mkEngine [] [] d)
  | (Ok _, d) => call (LinkDel (iface cfg)) (mkEngine [] [] d)
  end.

(** The steps after [LinkAdd]; the link is looked up again first. *)
Definition build (key serverKey : Key) (host : IPAddr) (port : Z) : EM unit :=
  let name := iface cfg in
  do! on_host EHostCall (rh_LinkByName name) in
  do! call (AddrAdd name (PrefixFrom (Address cfg) 32)) in
  do! on_host EHostCall rh_wgctrl_New in
  let allowed := AnyMasked (Network cfg) in
  do! call (ConfigureDevice name (Some key)
              (mkRPeerConfig serverKey (Some (host, port)) [allowed] (Some (Keepalive cfg)) false false)) in
  do! call (LinkSetUp name) in
  call (RouteReplace name allowed).

(** A failure of [m] takes the interface down again. *)
Definition or_down (m : EM unit) : EM unit := fun s =>
  match m s with
  | (Ok _, s) => (Ok tt, s)
  | (Err e, s) => (Err e, snd (Down s))
  end.

Definition Up : EM unit :=
  let name := iface cfg in
  let! found := try (on_host EHostCall (rh_LinkByName name)) in
  match found with
  | Ok _ => throw EIfaceExists
  | Err _ =>
      let! key := or_throw EDeviceKey (ParseKey (PrivateKey cfg)) in
      let! serverKey := or_throw EServerKey (ParseKey (ServerPubKey cfg)) in
      let! hp := splitEndpoint (Endpoint cfg) in
      let '(host, port) := hp in
      do! call (LinkAdd_Wireguard name) in
      or_down (build key serverKey host port)
  end.

Definition LastHandshake : EM GoTime :=
  do! on_host EHostCall rh_wgctrl_New in
  let! peers := on_host EHostCall (rh_Device (iface cfg)) in
  match filter (fun p => KeyString p.1 = ServerPubKey cfg) peers with
  | p :: _ => ret p.2
  | [] => throw ENoServerPeer
  end.

Definition Connected (now threshold : Z) : EM bool := fun s =>
  match LastHandshake s with
  | (Ok (Some hs), s) => (Ok (now - hs <? threshold), s)
  | (_, s) => (Ok false, s)
  end.

(** ** [SetRoutes] *)

(** The conflict gate: the prefixes that overlap no local network. *)
Fixpoint gate (desired : list AnyPrefix) : EM (list AnyPrefix) :=
  match desired with
  | [] => ret []
  | p :: desired =>
      let! clash := (fun s => let '(r, d) := LocalOverlap p (iface cfg) (eng_host s) in (r, mkEngine (routesWanted s) (routesApplied s) d)) in
      let! applied := gate desired in
      ret (match clash with Some _ => applied | None => p :: applied end)
  end.

(** The routes to add: a failing one is left out. *)
Fixpoint add_routes (cur applied : list AnyPrefix) : EM (list AnyPrefix) :=
  match applied with
  | [] => ret []
  | p :: applied =>
      let! ok := (if decide (p ∈ cur) then ret (Ok tt) else try (call (RouteReplace (iface cfg) p))) in
      let! routed := add_routes cur applied in
      ret (if is_ok ok then p :: routed else routed)
  end.
(** The routes to delete: failures are ignored. *)
Definition del_routes (want cur : list AnyPrefix) : EM unit :=
  for_each cur (fun p =>
    if decide (p ∈ want) then ret tt else do! try (call (RouteDel (iface cfg) p)) in ret tt).

(** On an error the code also returns the prefixes it had routed; no caller looks at them. *)
Definition SetRoutes (extra : list AnyPrefix) : EM (list AnyPrefix) := fun s =>
  let desired := CanonicalPrefixes extra in
  if decide (desired = routesWanted s /\ length (routesApplied s) = length (routesWanted s)) then (Ok (routesApplied s), s) else
  (do! on_host EHostCall (rh_LinkByName (iface cfg)) in
   let! applied := gate desired in
   let! routed := add_routes (routesApplied s) applied in
   do! del_routes applied (routesApplied s) in
   let! srvKey := or_throw EServerKey (ParseKey (ServerPubKey cfg)) in
   do! on_host EHostCall rh_wgctrl_New in
   do! call (ConfigureDevice (iface cfg) None
               (mkRPeerConfig srvKey None (AnyMasked (Network cfg) :: routed) None true true)) in
   fun s => (Ok routed, mkEngine desired routed (eng_host s))) s.

Definition Routes : EM (list AnyPrefix) := gets routesApplied.
End Engine.
