(* ===== verification/EngineProps.v ===== *)
(** * The engine against the router's network

    What bringing the tunnel up, taking it down and setting the consumer routes
    leave behind, on success and on failure. *)
From Stdlib Require Import Ascii.
From S2P Require Import Prelude GoStrings Netip Ipam Wg Netutil Engine.

#[local] Open Scope lw_scope.

(** ** Calls *)

Section Calls.
Context {D : Type} `{RouterHostLaws D} `{WgTypes} (cfg : Config).

Definition net (s : EngineState D) : RouterNet := rh_view (eng_host s).
(** The engine's memory is the same, and a healthy host is still healthy. *)
Definition healthier (s s' : EngineState D) : Prop := forall ep, rh_healthy ep (eng_host s) -> rh_healthy ep (eng_host s').
Definition same_memory (s s' : EngineState D) : Prop :=
  routesWanted s' = routesWanted s /\ routesApplied s' = routesApplied s /\ healthier s s'.
(** Nothing but the host's own bookkeeping changed. *)
Definition same_net (s s' : EngineState D) : Prop := net s' = net s /\ same_memory s s'.

Lemma same_net_trans s1 s2 s3 : same_net s1 s2 -> same_net s2 s3 -> same_net s1 s3.
Proof. unfold same_net, same_memory, healthier. intros (? & ? & ? & ?) (? & ? & ? & ?). split_and!; [congruence..|auto]. Qed.
Lemma same_memory_trans s1 s2 s3 : same_memory s1 s2 -> same_memory s2 s3 -> same_memory s1 s3.
Proof. unfold same_memory, healthier. intros (? & ? & ?) (? & ? & ?). split_and!; [congruence..|auto]. Qed.
Lemma same_net_refl s : same_net s s.
Proof. do 3 (split; [done|]). by intros ep. Qed.

Lemma wp_on_host {A} err (m : M unit D A) (Q : res eng_err A -> EngineState D -> Prop) s :
  (forall d, rh_view (snd (m d)) = rh_view d) -> (forall ep d, rh_healthy ep d -> rh_healthy ep (snd (m d))) ->
  (forall r s', same_net s s' -> match r with
     | Ok a => fst (m (eng_host s)) = Ok a
     | Err e => e = err /\ is_ok (fst (m (eng_host s))) = false end -> Q r s') ->
  wp (on_host err m) Q s.
Proof.
  intros Hv Hh HQ. unfold wp, on_host. specialize (Hv (eng_host s)).
  assert (forall ep, rh_healthy ep (eng_host s) -> rh_healthy ep (snd (m (eng_host s)))) as Hh' by auto. clear Hh.
  destruct (m (eng_host s)) as [[a|[]] d]; simpl in *; apply HQ; by try (split_and!; [done..|by intros ep Hep; apply Hh']).
Qed.
Lemma wp_find err i (Q : res eng_err unit -> EngineState D -> Prop) s :
  (forall s', same_net s s' -> is_Some (net_links (net s) !! i) -> Q (Ok tt) s') ->
  (forall s', same_net s s' -> ((exists ep, rh_healthy ep (eng_host s)) -> net_links (net s) !! i = None) -> Q (Err err) s') ->
  wp (on_host err (rh_LinkByName i)) Q s.
Proof.
  intros Hok Herr. apply wp_on_host; [apply rh_find_view|intros ep d Hd; by apply rh_healthy_find|].
  intros [[]|e] s' Hs Hr; [apply Hok; [done|]; apply rh_find_ok; by rewrite Hr|]. destruct Hr as [-> Hr]. apply Herr; [done|].
  intros [ep Hep]. apply eq_None_not_Some. intros Hsome. destruct (rh_healthy_find ep i (eng_host s) Hep) as [_ Hf]. by rewrite Hf in Hr.
Qed.
Lemma wp_new (Q : res eng_err unit -> EngineState D -> Prop) s :
  (forall s', same_net s s' -> Q (Ok tt) s') ->
  (forall s', same_net s s' -> ~ (exists ep, rh_healthy ep (eng_host s)) -> Q (Err EHostCall) s') ->
  wp (on_host EHostCall rh_wgctrl_New) Q s.
Proof.
  intros Hok Herr. apply wp_on_host; [apply rh_new_view|intros ep d Hd; by apply rh_healthy_new|].
  intros [[]|e] s' Hs Hr; [by apply Hok|]. destruct Hr as [-> Hr]. apply Herr; [done|]. intros [ep Hep].
  destruct (rh_healthy_new ep (eng_host s) Hep) as [_ Hf]. by rewrite Hf in Hr.
Qed.

Lemma wp_call c (Q : res eng_err unit -> EngineState D -> Prop) s :
  (forall s', same_memory s s' -> net_pre c (net s) -> net s' = net_effect c (net s) -> Q (Ok tt) s') ->
  (forall s', same_memory s s' ->
     match c with ConfigureDevice i _ _ => exists f, net s' = on_link i f (net s) | _ => net s' = net s end ->
     ((exists ep, rh_healthy ep (eng_host s)) -> ~ net_pre c (net s)) -> Q (Err EHostCall) s') ->
  wp (call c) Q s.
Proof.
  intros Hok Herr. unfold wp, call, on_host.
  assert (forall ep, rh_healthy ep (eng_host s) -> rh_healthy ep (snd (rh_call c (eng_host s)))) as Hh by (intros ep Hep; by apply rh_healthy_call).
  pose proof (fun ep Hep => proj2 (rh_healthy_call ep c (eng_host s) Hep)) as Hgo.
  destruct (rh_call c (eng_host s)) as [[[]|e] d] eqn:Hc; simpl in *.
  - apply rh_call_ok in Hc as [Hp He]. by apply Hok.
  - apply rh_call_err in Hc. apply Herr; [by split_and!|done|]. intros [ep Hep] Hp. by specialize (Hgo ep Hep Hp).
Qed.

Lemma wp_or_throw {A} err (o : option A) (Q : res eng_err A -> EngineState D -> Prop) s :
  (forall a, o = Some a -> Q (Ok a) s) -> (o = None -> Q (Err err) s) -> wp (or_throw err o) Q s.
Proof. intros Hs Hn. destruct o; [by apply Hs|by apply Hn]. Qed.

(** ** Up and down *)

(** The tunnel [Up] builds. *)
Definition built (key serverKey : Key) (ep : IPAddr * Z) : Link :=
  mkLink true {[PrefixFrom (Address cfg) 32]} (Some key)
    {[serverKey := mkRPeer (Some ep) (Some (Keepalive cfg)) {[AnyMasked (Network cfg)]}]}.

Lemma configure_fresh key c : rp_update_only c = false -> rp_key c = key ->
  configure_peer ∅ c = {[key := mkRPeer (rp_endpoint c) (rp_keepalive c) (list_to_set (rp_allowed c))]}.
Proof.
  intros Hu <-. unfold configure_peer. rewrite lookup_empty, Hu, fmap_empty, insert_empty. cbn [default peer_endpoint peer_keepalive peer_allowed].
  assert ((if rp_replace c then ∅ else ∅) = (∅ : gset AnyPrefix)) as -> by by destruct (rp_replace c).
  rewrite (left_id_L ∅ (∪)). by destruct (rp_endpoint c), (rp_keepalive c).
Qed.

(** A link being built: the other links and the routes are as before. *)
Definition building (n : RouterNet) (s : EngineState D) : Prop :=
  exists l, net s = mkNet (<[iface cfg := l]> (net_links n)) (net_routes n).
Lemma on_link_eq f l n : on_link (iface cfg) f (mkNet (<[iface cfg := l]> (net_links n)) (net_routes n)) =
  mkNet (<[iface cfg := f l]> (net_links n)) (net_routes n).
Proof. unfold on_link. simpl. by rewrite alter_insert_eq. Qed.

Definition ever_healthy (s : EngineState D) : Prop := exists ep, rh_healthy ep (eng_host s).
Lemma healthy_mono s s' : same_memory s s' -> ever_healthy s -> ever_healthy s'.
Proof. intros (_ & _ & Hh) [ep Hep]. exists ep. by apply Hh. Qed.

(** Everything [build] does before its last call keeps to the link being built. *)
Definition build_stopped (n : RouterNet) (m : EngineState D) (e : eng_err) (s : EngineState D) : Prop :=
  e = EHostCall /\ building n s /\ ~ ever_healthy m.

Lemma build_call_wp n m l s c f (Q : res eng_err unit -> EngineState D -> Prop) : same_memory m s ->
  net s = mkNet (<[iface cfg := l]> (net_links n)) (net_routes n) -> net_pre c (net s) ->
  (forall l, net_effect c (mkNet (<[iface cfg := l]> (net_links n)) (net_routes n)) = mkNet (<[iface cfg := f l]> (net_links n)) (net_routes n)) ->
  match c with ConfigureDevice i _ _ => i = iface cfg | _ => True end ->
  (forall s', same_memory m s' -> net s' = mkNet (<[iface cfg := f l]> (net_links n)) (net_routes n) -> Q (Ok tt) s') ->
  (forall s', same_memory m s' -> build_stopped n m EHostCall s' -> Q (Err EHostCall) s') ->
  wp (call c) Q s.
Proof.
  intros Hm Hs Hpre Hf Hc Hok Herr. apply wp_call; intros s' Hm' Hn'.
  - intros He. apply Hok; [by eapply same_memory_trans|]. by rewrite He, Hs, Hf.
  - intros Hno. apply Herr; [by eapply same_memory_trans|]. split_and!; [done| |].
    + destruct c; try (eexists; by rewrite Hn'). destruct Hn' as [g Hn']. subst name. rewrite Hs, on_link_eq in Hn'. by eexists.
    + intros Hh. apply Hno; [|done]. eapply healthy_mono; eauto.
Qed.

Lemma build_wp key sk host port n m s :
  net s = mkNet (<[iface cfg := mkLink false ∅ None ∅]> (net_links n)) (net_routes n) -> same_memory m s ->
  wp (build cfg key sk host port) (fun r s' => same_memory m s' /\ match r with
    | Ok _ => net s' = mkNet (<[iface cfg := built key sk (host, port)]> (net_links n)) (<[AnyMasked (Network cfg) := iface cfg]> (net_routes n))
    | Err e => build_stopped n m e s' end) s.
Proof.
  intros Hs Hm. assert (forall l, net_links (mkNet (<[iface cfg := l]> (net_links n)) (net_routes n)) !! iface cfg = Some l) as Hl.
  { intros l. apply lookup_insert_eq. }
  unfold build. apply wp_bind, wp_find; intros s1 [Hn1 Hm1] Hr1; rewrite Hs in Hn1; pose proof (same_memory_trans _ _ _ Hm Hm1) as M1.
  2:{ split; [done|]. split_and!; [done|by eexists|]. intros Hh. specialize (Hr1 (healthy_mono _ _ Hm Hh)). rewrite Hs, Hl in Hr1. done. }
  apply wp_bind. eapply (build_call_wp n m); [done|done| |intros l; unfold net_effect; by rewrite on_link_eq|done| |auto].
  { rewrite Hn1. eexists. split; [apply Hl|]. by apply not_elem_of_empty. }
  intros s2 M2 Hn2. apply wp_bind, wp_new; intros s3 [Hn3 Hm3] *; pose proof (same_memory_trans _ _ _ M2 Hm3) as M3; rewrite Hn2 in Hn3.
  2:{ intros Hno. split; [done|]. split_and!; [done|by eexists|]. intros Hh. apply Hno. exact (healthy_mono _ _ M2 Hh). }
  apply wp_bind. eapply (build_call_wp n m); [done|done| |intros l; unfold net_effect; by rewrite on_link_eq|done| |auto].
  { rewrite Hn3. simpl. rewrite lookup_insert_eq. by eexists. }
  intros s4 M4 Hn4. apply wp_bind.
  eapply (build_call_wp n m); [done|done| |intros l; unfold net_effect; by rewrite on_link_eq|done| |auto].
  { rewrite Hn4. simpl. rewrite lookup_insert_eq. by eexists. }
  intros s5 M5 Hn5. apply wp_call; intros s6 Hm6 Hn6; pose proof (same_memory_trans _ _ _ M5 Hm6) as M6.
  - intros Hn6'. split; [done|]. rewrite Hn6', Hn5. unfold net_effect. cbn [net_links net_routes]. do 2 f_equal.
    unfold built. cbn [link_up link_addrs link_private link_peers]. rewrite (configure_fresh sk) by done.
    cbn [rp_endpoint rp_keepalive rp_allowed list_to_set]. by rewrite (left_id_L ∅ (∪)), (right_id_L ∅ (∪)).
  - intros Hno. split; [done|]. split_and!; [done|by eexists; rewrite Hn6|]. intros Hh. apply Hno; [exact (healthy_mono _ _ M5 Hh)|].
    rewrite Hn5. simpl. rewrite lookup_insert_eq. by eexists.
Qed.

(** Routes go through links that exist. *)
Definition net_ok (n : RouterNet) : Prop := forall p i, net_routes n !! p = Some i -> is_Some (net_links n !! i).
Lemma filter_routes_id n i : net_ok n -> net_links n !! i = None -> filter (fun x => x.2 <> i) (net_routes n) = net_routes n.
Proof.
  intros Hn Hi. apply map_filter_id. intros p j Hp. simpl. intros ->. destruct (Hn _ _ Hp) as [l Hl]. congruence.
Qed.

Definition forgot (s s' : EngineState D) : Prop := routesWanted s' = [] /\ routesApplied s' = [] /\ healthier s s'.
Lemma Down_wp s : wp (Down cfg) (fun r s' => forgot s s' /\ match r with
  | Ok _ => (is_Some (net_links (net s) !! iface cfg) /\ net s' = net_effect (LinkDel (iface cfg)) (net s)) \/
      (net s' = net s /\ (ever_healthy s -> net_links (net s) !! iface cfg = None))
  | Err _ => net s' = net s /\ ~ ever_healthy s end) s.
Proof.
  assert (wp (on_host EHostCall (rh_LinkByName (iface cfg))) (fun r s1 => same_net s s1 /\ match r with
    | Ok _ => is_Some (net_links (net s) !! iface cfg)
    | Err _ => ever_healthy s -> net_links (net s) !! iface cfg = None end) s) as Hf by (apply wp_find; auto).
  unfold wp, on_host in Hf. unfold wp, Down. destruct (rh_LinkByName (iface cfg) (eng_host s)) as [[[]|[]] d]; simpl in Hf; destruct Hf as [(Hn & _ & _ & Hh) Hf].
  - set (s1 := mkEngine [] [] d : EngineState D). fold (wp (call (LinkDel (iface cfg))) (fun r s' => forgot s s' /\ match r with
      | Ok _ => (is_Some (net_links (net s) !! iface cfg) /\ net s' = net_effect (LinkDel (iface cfg)) (net s)) \/
          (net s' = net s /\ (ever_healthy s -> net_links (net s) !! iface cfg = None))
      | Err _ => net s' = net s /\ ~ ever_healthy s end) s1).
    assert (net s1 = net s) as Hn1 by done. apply wp_call; intros s' (Hw & Ha & Hh'); rewrite Hn1.
    + intros _ He. split; [split_and!; [done|done|]; intros ep Hep; by apply Hh', Hh|]. by left.
    + intros He Hno. split; [split_and!; [done|done|]; intros ep Hep; by apply Hh', Hh|]. split; [done|].
      intros [ep Hep]. apply Hno; [exists ep; by apply Hh|done].
  - split; [by split_and!|]. by right.
Qed.

(** The clean-up of a half-built tunnel fails on host [d]. *)
Definition cleanup_fails (d : D) : Prop :=
  is_ok (fst (rh_LinkByName (iface cfg) d)) = false \/ is_ok (fst (rh_call (LinkDel (iface cfg)) (snd (rh_LinkByName (iface cfg) d)))) = false.
Lemma Down_cleans s r s' n : Down cfg s = (r, s') -> building n s -> net_ok n -> net_links n !! iface cfg = None ->
  net s' = n \/ (cleanup_fails (eng_host s) /\ building n s').
Proof.
  intros Hd [l Hb] Hn Hi. unfold Down in Hd. pose proof (rh_find_view (iface cfg) (eng_host s)) as Hv. unfold cleanup_fails.
  destruct (rh_LinkByName _ _) as [[[]|[]] d]; simpl in *.
  - unfold call, on_host in Hd. simpl in Hd. destruct (rh_call (LinkDel (iface cfg)) d) as [[[]|[]] d'] eqn:Hc; injection Hd as <- <-.
    + left. apply rh_call_ok in Hc as [_ Hc]. unfold net in *. simpl. rewrite Hc, Hv, Hb. unfold net_effect. cbn [net_links net_routes].
      rewrite delete_insert_id, filter_routes_id by done. by destruct n.
    + right. split; [by right|]. apply rh_call_err in Hc. exists l. unfold net in *. simpl. congruence.
  - injection Hd as <- <-. right. split; [by left|]. exists l. unfold net in *. simpl. congruence.
Qed.

Lemma wp_resolve {A} (m : M unit D A) (Q : res eng_err A -> EngineState D -> Prop) s :
  (forall d, rh_view (snd (m d)) = rh_view d) -> (forall ep d, rh_healthy ep d -> rh_healthy ep (snd (m d))) ->
  (forall a s', same_net s s' -> fst (m (eng_host s)) = Ok a -> Q (Ok a) s') ->
  (forall s', same_net s s' -> is_ok (fst (m (eng_host s))) = false -> Q (Err EEndpoint) s') -> wp (on_host EEndpoint m) Q s.
Proof.
  intros Hv Hh Hok Herr. apply wp_on_host; [done..|]. intros [a|e] s' Hs Hr; [by apply Hok|]. destruct Hr as [-> Hr]. by apply Herr.
Qed.
(** A healthy host resolves its endpoint. *)
Lemma splitEndpoint_wp ep s : wp (splitEndpoint ep) (fun r s' => same_net s s' /\ match r with
  | Ok _ => True
  | Err e => e = EEndpoint /\ (is_Some (SplitHostPort ep) -> ~ rh_healthy ep (eng_host s)) end) s.
Proof.
  unfold splitEndpoint. apply wp_bind, wp_or_throw; [|intros ->; split; [apply same_net_refl|]; split; [done|by intros []]].
  intros [h p] Hsplit. apply wp_bind, wp_resolve; [apply rh_port_view|intros; by apply rh_healthy_port| |].
  2:{ intros s1 N1 Hr. split; [done|]. split; [done|]. intros _ Hh. destruct (rh_healthy_port ep p _ Hh) as [_ Hf]. by rewrite (Hf h) in Hr. }
  intros port s1 N1 Hport. apply wp_bind, wp_resolve; [apply rh_ip_view|intros; by apply rh_healthy_ip| |].
  2:{ intros s2 N2 Hr. split; [by eapply same_net_trans|]. split; [done|]. intros _ Hh. apply N1 in Hh.
      destruct (rh_healthy_ip ep h _ Hh) as [_ Hf]. destruct (Hf p Hsplit) as (ip & ips & Hi). by rewrite Hi in Hr. }
  intros ips s2 N2 Hips. apply wp_bind, wp_or_throw; [intros ip _; apply wp_ret; split; [by eapply same_net_trans|done]|].
  intros Hnone. split; [by eapply same_net_trans|]. split; [done|]. intros _ Hh. apply N1 in Hh.
  destruct (rh_healthy_ip ep h _ Hh) as [_ Hf]. destruct (Hf p Hsplit) as (ip & ips' & Hi). rewrite Hi in Hips. injection Hips as <-.
  unfold pick_ip in Hnone. rewrite filter_cons in Hnone. by destruct (decide _); [|destruct (filter _ ips')].
Qed.

(** A configuration [Up] can use. *)
Definition valid_config : Prop :=
  is_Some (ParseKey (PrivateKey cfg)) /\ is_Some (ParseKey (ServerPubKey cfg)) /\ is_Some (SplitHostPort (Endpoint cfg)).

(** [Up] left a link behind: after the link was added to [n] the build failed with [e],
    on the host it had come to [Down] was called, and there finding or deleting the link
    failed too. *)
Definition left_behind (n : RouterNet) (e : eng_err) (s' : EngineState D) : Prop :=
  exists key sk host port s0 s1 r, net s0 = net_effect (LinkAdd_Wireguard (iface cfg)) n /\
    build cfg key sk host port s0 = (Err e, s1) /\ Down cfg s1 = (r, s') /\ cleanup_fails (eng_host s1) /\ building n s'.

(** What [Up] leaves: the tunnel, or the network as it was, or a link left behind. *)
Definition up_outcome (s : EngineState D) (r : res eng_err unit) (s' : EngineState D) : Prop :=
  match r with
  | Ok _ => same_memory s s' /\ net_links (net s) !! iface cfg = None /\ exists key sk ep,
      ParseKey (PrivateKey cfg) = Some key /\ ParseKey (ServerPubKey cfg) = Some sk /\
      net s' = mkNet (<[iface cfg := built key sk ep]> (net_links (net s))) (<[AnyMasked (Network cfg) := iface cfg]> (net_routes (net s)))
  | Err e => healthier s s' /\
      (net s' = net s \/ (e <> EIfaceExists /\ net_links (net s) !! iface cfg = None /\ left_behind (net s) e s')) /\
      (rh_healthy (Endpoint cfg) (eng_host s) -> valid_config -> e = EIfaceExists /\ is_Some (net_links (net s) !! iface cfg))
  end.

Lemma Up_wp s : net_ok (net s) -> wp (Up cfg) (up_outcome s) s.
Proof.
  intros Hok. unfold Up. apply wp_bind, wp_try, wp_find; intros s1 N1 Hfound.
  { split; [apply N1|]. split; [left; apply N1|done]. }
  apply wp_bind, wp_or_throw; [|intros Hno; split; [apply N1|]; split; [left; apply N1|]; intros _ ([k Hk] & _); congruence]. intros key Hkey.
  apply wp_bind, wp_or_throw; [|intros Hno; split; [apply N1|]; split; [left; apply N1|]; intros _ (_ & [k Hk] & _); congruence]. intros sk Hsk.
  apply wp_bind. eapply wp_mono; [apply splitEndpoint_wp|]. intros r2 s2 [N2 Hr2].
  pose proof (same_net_trans _ _ _ N1 N2) as N. destruct r2 as [[host port]|e].
  2:{ destruct Hr2 as [-> Hr2]. split; [apply N|]. split; [left; apply N|]. intros Hh (_ & _ & Hep). exfalso. apply (Hr2 Hep). by apply N1. }
  destruct N as [Hn Hm]. apply wp_bind, wp_call; intros s3 Hm3; rewrite Hn.
  2:{ intros Hn3 Hno. pose proof (same_memory_trans _ _ _ Hm Hm3) as M3. split; [apply M3|]. split; [by left|]. intros Hh _. exfalso. apply Hno; [exists (Endpoint cfg); by apply Hm|].
      apply Hfound. by exists (Endpoint cfg). }
  intros Hpre Hn3. pose proof (same_memory_trans _ _ _ Hm Hm3) as M3.
  pose proof (build_wp key sk host port (net s) s s3 Hn3 M3) as Hb. unfold wp, or_down. unfold wp in Hb.
  destruct (build cfg key sk host port s3) as [[[]|e1] s4] eqn:Hbuild; simpl in Hb |- *; destruct Hb as [Hm4 Hb].
  - split_and!; [done..|]. by eexists _, _, _.
  - destruct Hb as (-> & Hb & Hno). pose proof (Down_wp s4) as Hdw. unfold wp in Hdw. destruct (Down cfg s4) as [r5 s5] eqn:Hd. simpl in Hdw |- *.
    destruct Hdw as [(_ & _ & Hh5) _]. split; [|split].
    + intros ep Hep. apply Hh5. by apply Hm4.
    + destruct (Down_cleans s4 r5 s5 (net s) Hd Hb Hok Hpre) as [?|[Hc Hs5]]; [by left|]. right. split_and!; [done..|]. by exists key, sk, host, port, s3, s4, r5.
    + intros Hh _. exfalso. apply Hno. by eexists.
Qed.
End Calls.
