(* ===== verification/EngineRoutes.v ===== *)
(** * The consumer routes ([SetRoutes])

    After a call that succeeds, the kernel routes through the tunnel, the server
    peer's allowed IPs and the engine's memory name the same prefixes. *)
From Stdlib Require Import Ascii.
From S2P Require Import Prelude GoStrings Netip Ipam Wg WgProps Netutil Engine EngineProps.

#[local] Open Scope lw_scope.

Section Routes.
Context {D : Type} `{RouterHostLaws D} `{WgTypes} (cfg : Config).

Abbreviation vpn := (AnyMasked (Network cfg)).
Abbreviation tun := (iface cfg).

(** ** The parts of [SetRoutes] *)

Lemma overlap_loop_same p i ifaces (d : D) : exists o, fst (overlap_loop (E:=eng_err) p i ifaces d) = Ok o /\
  rh_view (snd (overlap_loop (E:=eng_err) p i ifaces d)) = rh_view d /\
  forall ep, rh_healthy ep d -> rh_healthy ep (snd (overlap_loop (E:=eng_err) p i ifaces d)).
Proof.
  revert d. induction ifaces as [|j ifaces IH]; intros d; simpl; [by eexists|]. destruct (decide (j = i)); [apply IH|].
  pose proof (rh_addrs_view j d) as Hv. pose proof (fun ep => rh_healthy_addrs ep j d) as Hh.
  destruct (net_Addrs j d) as [[addrs|e] d1]; simpl in *.
  - destruct (existsb _ addrs); simpl; [by eexists|]. destruct (IH d1) as (o & ? & ? & Hh'). exists o. split_and!; [done|congruence|auto].
  - destruct (IH d1) as (o & ? & ? & Hh'). exists o. split_and!; [done|congruence|auto].
Qed.
Lemma LocalOverlap_same p i (d : D) : exists o, fst (LocalOverlap (E:=eng_err) p i d) = Ok o /\
  rh_view (snd (LocalOverlap (E:=eng_err) p i d)) = rh_view d /\
  forall ep, rh_healthy ep d -> rh_healthy ep (snd (LocalOverlap (E:=eng_err) p i d)).
Proof.
  unfold LocalOverlap. pose proof (rh_ifaces_view d) as Hv. pose proof (fun ep => rh_healthy_ifaces ep d) as Hh.
  destruct (net_Interfaces d) as [[l|e] d1]; simpl in *; [|by eexists].
  destruct (overlap_loop_same p i l d1) as (o & ? & ? & Hh'). exists o. split_and!; [done|congruence|auto].
Qed.

(** No address that another interface ever shows overlaps the prefix; an interface that
    is always there always shows one that does. *)
Definition unblocked (q : AnyPrefix) : Prop := forall i (d : D) addrs, i <> tun -> fst (net_Addrs i d) = Ok addrs -> existsb (addr_overlaps q) addrs = false.
Definition busy (q : AnyPrefix) : Prop := exists i, i <> tun /\ (forall d : D, exists l, fst (net_Interfaces d) = Ok l /\ i ∈ l) /\
  forall d : D, exists addrs, fst (net_Addrs i d) = Ok addrs /\ existsb (addr_overlaps q) addrs = true.
Lemma overlap_loop_unblocked q ifaces (d : D) : unblocked q -> fst (overlap_loop (E:=eng_err) q tun ifaces d) = Ok None.
Proof.
  intros Hq. revert d. induction ifaces as [|i ifaces IH]; intros d; [done|]. cbn [overlap_loop]. case_decide as Hi; [apply IH|].
  pose proof (fun a => Hq i d a Hi) as Hc. destruct (net_Addrs i d) as [[addrs|e] d1]; [|apply IH]. by rewrite Hc.
Qed.
Lemma overlap_loop_busy q i ifaces (d : D) : i <> tun -> i ∈ ifaces ->
  (forall d : D, exists addrs, fst (net_Addrs i d) = Ok addrs /\ existsb (addr_overlaps q) addrs = true) -> fst (overlap_loop (E:=eng_err) q tun ifaces d) <> Ok None.
Proof.
  intros Hi Hin Ha. revert d. induction ifaces as [|j ifaces IH]; intros d; [by apply not_elem_of_nil in Hin|]. cbn [overlap_loop].
  apply elem_of_cons in Hin as [<-|Hin].
  - rewrite decide_False by done. destruct (Ha d) as (addrs & Hd & Ho). destruct (net_Addrs i d) as [r d1]. cbn in Hd. subst r. by rewrite Ho.
  - case_decide; [by apply IH|]. destruct (net_Addrs j d) as [[addrs|e] d1]; [|by apply IH]. destruct (existsb _ _); [done|by apply IH].
Qed.
(** The prefix is not in the way of a local network: none overlaps it, or the check
    never finds one that does. *)
Definition clear (q : AnyPrefix) : Prop := unblocked q \/ forall d : D, fst (LocalOverlap (E:=eng_err) q tun d) = Ok None.
Lemma LocalOverlap_clear q (d : D) : clear q -> fst (LocalOverlap (E:=eng_err) q tun d) = Ok None.
Proof. intros [Hq|Hq]; [|done]. unfold LocalOverlap. destruct (net_Interfaces d) as [[l|e] d1]; [by apply overlap_loop_unblocked|done]. Qed.
Lemma LocalOverlap_busy q (d : D) : busy q -> fst (LocalOverlap (E:=eng_err) q tun d) <> Ok None.
Proof.
  intros (i & Hi & Hl & Ha). unfold LocalOverlap. destruct (Hl d) as (l & Hd & Hin). destruct (net_Interfaces d) as [r d1]. cbn in Hd. subst r.
  by apply (overlap_loop_busy q i).
Qed.

Lemma gate_wp desired s : wp (gate cfg desired) (fun r s' => same_net s s' /\
  exists l, r = Ok l /\ sublist l desired /\ (forall q, q ∈ desired -> clear q -> q ∈ l) /\ forall q, q ∈ l -> ~ busy q) s.
Proof.
  revert s. induction desired as [|p desired IH]; intros s; [split; [apply same_net_refl|]; exists []; split_and!; [done..|by intros q ?%not_elem_of_nil]|]. simpl. apply wp_bind.
  destruct (LocalOverlap_same p tun (eng_host s)) as (o & Ho & Hv & Hh). assert (clear p -> o = None) as Hclear.
  { intros Hc%(LocalOverlap_clear p (eng_host s)). congruence. }
  assert (o = None -> ~ busy p) as Hbusy by (intros -> Hb; by apply (LocalOverlap_busy p (eng_host s))).
  unfold wp at 1.
  destruct (LocalOverlap (E:=eng_err) p tun (eng_host s)) as [r d]. simpl in Ho, Hv, Hh |- *. subst r.
  set (s1 := mkEngine (routesWanted s) (routesApplied s) d : EngineState D).
  assert (same_net s s1) as N1 by (split; [exact Hv|]; split_and!; [done|done|exact Hh]).
  apply wp_bind. eapply wp_mono; [apply IH|]. intros r s2 [N2 (l & -> & Hl & Hin & Hno)]. apply wp_ret.
  split; [by eapply same_net_trans|]. eexists. split; [done|]. split; [destruct o; by constructor|]. split.
  - intros q [->|Hq]%elem_of_cons Hc; [rewrite Hclear by done; left|]. destruct o; [|right]; by apply Hin.
  - intros q. destruct o; [apply Hno|]. intros [->|Hq]%elem_of_cons; [by apply Hbusy|by apply Hno].
Qed.

(** The links do not change; the routes change at the given prefixes. *)
Definition routes_only (s s' : EngineState D) : Prop := same_memory s s' /\ net_links (net s') = net_links (net s).
Lemma routes_only_refl s : routes_only s s.
Proof. split; [|done]. apply (same_net_refl s). Qed.
Lemma routes_only_trans s1 s2 s3 : routes_only s1 s2 -> routes_only s2 s3 -> routes_only s1 s3.
Proof. intros [M1 L1] [M2 L2]. split; [by eapply same_memory_trans|congruence]. Qed.

Lemma try_call_wp c s (Q : res eng_err (res eng_err unit) -> EngineState D -> Prop) :
  (forall s', same_memory s s' -> net_pre c (net s) -> net s' = net_effect c (net s) -> Q (Ok (Ok tt)) s') ->
  (forall s', same_memory s s' -> net s' = net s -> (ever_healthy s -> ~ net_pre c (net s)) -> Q (Ok (Err EHostCall)) s') ->
  match c with ConfigureDevice _ _ _ => False | _ => True end -> wp (try (call c)) Q s.
Proof. intros Hok Herr Hc. apply wp_try, wp_call; [done|]. intros s' Hm Hn. destruct c; by try apply Herr. Qed.

Lemma add_routes_wp cur applied s : is_Some (net_links (net s) !! tun) ->
  wp (add_routes cfg cur applied) (fun r s' => routes_only s s' /\ exists routed, r = Ok routed /\ sublist routed applied /\
    (ever_healthy s -> routed = applied) /\
    forall q, net_routes (net s') !! q = if decide (q ∈ routed /\ (q ∉ cur)) then Some tun else net_routes (net s) !! q) s.
Proof.
  revert s. induction applied as [|p applied IH]; intros s Hl; simpl.
  { split; [apply routes_only_refl|]. exists []. split_and!; [done..|]. intros q. rewrite decide_False; [done|]. by intros [?%not_elem_of_nil _]. }
  apply wp_bind. destruct (decide (p ∈ cur)) as [Hp|Hp].
  - apply wp_ret, wp_bind. eapply wp_mono; [by apply IH|]. intros r s' (Hs & routed & -> & Hsub & Hh & Hr). apply wp_ret. split; [done|].
    exists (p :: routed). split_and!; [done|by constructor|intros Hev; f_equal; auto|]. intros q. rewrite Hr.
    destruct (decide (q = p)) as [->|]; [rewrite !decide_False by naive_solver; done|]. apply decide_ext. rewrite elem_of_cons. naive_solver.
  - apply try_call_wp; [| |done]; intros s1 M1.
    + intros _ Hn. assert (routes_only s s1) as R1 by (split; [done|by rewrite Hn]). apply wp_bind.
      eapply wp_mono; [apply IH; by rewrite (proj2 R1)|]. intros r s' (Hs & routed & -> & Hsub & Hh & Hr). apply wp_ret.
      split; [by eapply routes_only_trans|]. exists (p :: routed). simpl.
      split_and!; [done|by constructor|intros Hev; f_equal; apply Hh; by eapply healthy_mono|]. intros q. rewrite Hr, Hn. simpl.
      destruct (decide (q = p)) as [->|].
      * rewrite lookup_insert_eq, (decide_True (P:=p ∈ p :: routed /\ _)) by (split; [left|done]). by case_decide.
      * rewrite lookup_insert_ne by done. apply decide_ext. rewrite elem_of_cons. naive_solver.
    + intros Hn Hno. assert (routes_only s s1) as R1 by (split; [done|by rewrite Hn]). apply wp_bind.
      eapply wp_mono; [apply IH; by rewrite (proj2 R1)|]. intros r s' (Hs & routed & -> & Hsub & Hh & Hr). apply wp_ret.
      split; [by eapply routes_only_trans|]. exists routed. simpl. split_and!; [done|by constructor|intros Hev; by destruct (Hno Hev)|].
      intros q. by rewrite Hr, Hn.
Qed.

Lemma del_routes_wp want cur s :
  wp (del_routes cfg want cur) (fun r s' => r = Ok tt /\ routes_only s s' /\ exists gone : list AnyPrefix,
    (forall q, q ∈ gone -> q ∈ cur /\ (q ∉ want)) /\
    (ever_healthy s -> forall q, q ∈ cur -> (q ∉ want) -> net_routes (net s) !! q = Some tun -> q ∈ gone) /\
    forall q, net_routes (net s') !! q = if decide (q ∈ gone) then None else net_routes (net s) !! q) s.
Proof.
  revert s. unfold del_routes. induction cur as [|p cur IH]; intros s; simpl.
  { split; [done|]. split; [apply routes_only_refl|]. exists []. split_and!; [by intros q ?%not_elem_of_nil|by intros _ q ?%not_elem_of_nil|done]. }
  apply wp_bind. destruct (decide (p ∈ want)) as [Hp|Hp].
  - apply wp_ret. eapply wp_mono; [apply IH|]. intros r s' (-> & Hs & gone & Hg & Hh & Hr). split; [done|]. split; [done|].
    exists gone. split_and!; [intros q Hq; destruct (Hg q Hq); split; [by right|done]| |done].
    intros Hev q [->|Hq]%elem_of_cons; [done|auto].
  - apply wp_bind, try_call_wp; [| |done]; intros s1 M1.
    + intros _ Hn. assert (routes_only s s1) as R1 by (split; [done|by rewrite Hn]). apply wp_ret. eapply wp_mono; [apply IH|].
      intros r s' (-> & Hs & gone & Hg & Hh & Hr). split; [done|]. split; [by eapply routes_only_trans|]. exists (p :: gone). split_and!.
      * intros q [->|Hq]%elem_of_cons; [split; [left|done]|]. destruct (Hg q Hq). split; [by right|done].
      * intros Hev q Hq Hqw Hqr. destruct (decide (q = p)) as [->|Hne]; [left|right]. apply elem_of_cons in Hq as [->|Hq]; [done|].
        apply Hh; [by eapply healthy_mono|done..|]. rewrite Hn. simpl. by rewrite lookup_delete_ne.
      * intros q. rewrite Hr, Hn. simpl. destruct (decide (q = p)) as [->|Hne].
        -- rewrite lookup_delete_eq, (decide_True (P:=p ∈ p :: gone)) by left. by case_decide.
        -- rewrite lookup_delete_ne by done. apply decide_ext. rewrite elem_of_cons. naive_solver.
    + intros Hn Hno. assert (routes_only s s1) as R1 by (split; [done|by rewrite Hn]). apply wp_ret. eapply wp_mono; [apply IH|].
      intros r s' (-> & Hs & gone & Hg & Hh & Hr). split; [done|]. split; [by eapply routes_only_trans|]. exists gone. split_and!.
      * intros q Hq. destruct (Hg q Hq). split; [by right|done].
      * intros Hev q [->|Hq]%elem_of_cons Hqw Hqr; [by destruct (Hno Hev)|]. apply Hh; [by eapply healthy_mono|done..|]. by rewrite Hn.
      * intros q. by rewrite Hr, Hn.
Qed.

(** ** Memory, routes and allowed IPs *)

(** The server peer, with the allowed IPs given. *)
Definition server_peer (n : RouterNet) (allowed : list AnyPrefix) : Prop :=
  exists l sk ep ka, net_links n !! tun = Some l /\ ParseKey (ServerPubKey cfg) = Some sk /\
    link_peers l = {[sk := mkRPeer ep ka (list_to_set allowed)]}.
(** The engine's memory agrees with the kernel. *)
Definition tracks (s : EngineState D) : Prop :=
  server_peer (net s) (vpn :: routesApplied s) /\
  (forall q, net_routes (net s) !! q = Some tun <-> q ∈ vpn :: routesApplied s) /\
  sublist (routesApplied s) (routesWanted s).

Lemma configure_server sk ep ka old l : configure_peer {[sk := mkRPeer ep ka old]} (mkRPeerConfig sk None l None true true) =
  {[sk := mkRPeer ep ka (list_to_set l)]}.
Proof.
  unfold configure_peer. cbn [rp_key rp_update_only rp_replace rp_endpoint rp_keepalive rp_allowed]. rewrite lookup_singleton_eq.
  cbn [default peer_endpoint peer_keepalive]. rewrite map_fmap_singleton, (left_id_L ∅ (∪)). apply insert_singleton_eq.
Qed.

(** A freshly built tunnel is tracked with no routes, whatever the memory was. *)
Lemma built_tracks s s' : net_ok (net s) -> up_outcome cfg s (Ok tt) s' -> routesApplied s = [] -> tracks s'.
Proof.
  intros Hok ((Hw & Ha & _) & Hno & key & sk & ep & _ & Hsk & Hn) Happ. unfold tracks. rewrite Hw, Ha, Happ, Hn. split_and!.
  - eexists _, sk, _, _. simpl. rewrite lookup_insert_eq. split_and!; [done..|]. simpl. by rewrite (right_id_L ∅ (∪)).
  - intros q. simpl. rewrite list_elem_of_singleton. destruct (decide (q = vpn)) as [->|Hq]; [by rewrite lookup_insert_eq|].
    rewrite lookup_insert_ne by done. split; [|done]. intros Hr. destruct (Hok _ _ Hr) as [l Hl]. congruence.
  - apply sublist_nil_l.
Qed.

(** Two sublists of a duplicate-free list of the same length as it. *)
Lemma sublist_full {A} (l k : list A) : sublist l k -> length l = length k -> l = k.
Proof. intros Hs Hl. by apply sublist_all_equal || (induction Hs as [|x l k Hs IH|x l k Hs IH]; simpl in *; [done|f_equal; auto|]; apply sublist_length in Hs; lia). Qed.

(** What [SetRoutes] promises when it succeeds: [out] is what the kernel routes
    into the tunnel and what the peer may carry; a route that is not in [out] is one
    that could not be deleted. *)
Definition routes_set (s : EngineState D) (extra out : list AnyPrefix) (s' : EngineState D) : Prop :=
  sublist out (CanonicalPrefixes extra) /\ routesWanted s' = CanonicalPrefixes extra /\ routesApplied s' = out /\
  server_peer (net s') (vpn :: out) /\ (forall q, q ∈ vpn :: out -> net_routes (net s') !! q = Some tun) /\
  (forall q, net_routes (net s') !! q = Some tun -> q ∈ vpn :: out \/ (q ∈ routesApplied s /\ ~ ever_healthy s)) /\
  (ever_healthy s -> forall q, q ∈ CanonicalPrefixes extra -> clear q -> q ∈ out) /\
  (forall q, q ∈ out -> busy q -> q ∈ routesApplied s).

Lemma SetRoutes_wp extra s : tracks s -> (vpn ∉ CanonicalPrefixes extra) -> (vpn ∉ routesApplied s) ->
  wp (SetRoutes cfg extra) (fun r s' => match r with
    | Ok out => routes_set s extra out s'
    | Err _ => same_memory s s' /\ is_Some (net_links (net s') !! tun) end) s.
Proof.
  intros (Hpeer & Hroutes & Hsub) Hvpn Hvpn'. unfold wp, SetRoutes. set (desired := CanonicalPrefixes extra) in *.
  destruct (decide _) as [[Hd Hlen]|_]; simpl.
  { assert (routesApplied s = routesWanted s) as Ha by by apply sublist_full. unfold routes_set. fold desired.
    split_and!; [by rewrite Ha, <- Hd|by rewrite <- Hd|done..|by apply Hroutes| | |].
    - intros q Hq. left. by apply Hroutes.
    - intros _ q Hq _. change (q ∈ desired) in Hq. by rewrite Ha, <- Hd.
    - done. }
  match goal with |- match fst (?m s) with _ => _ end => change (wp m (fun r s' => match r with
    | Ok out => routes_set s extra out s' | Err _ => same_memory s s' /\ is_Some (net_links (net s') !! tun) end) s) end.
  destruct Hpeer as (l & sk & ep & ka & Hl & Hsk & Hps). assert (is_Some (net_links (net s) !! tun)) as Hlink by by eexists.
  apply wp_bind, wp_find; intros s1 [Hn1 M1] _; [|split; [done|by rewrite Hn1]].
  apply wp_bind. eapply wp_mono; [apply gate_wp|]. intros r s2 [[Hn2 M2] (applied & -> & Happ & Hclear & Hbusy)]. simpl.
  pose proof (same_memory_trans _ _ _ M1 M2) as M. assert (net s2 = net s) as Hn by congruence.
  apply wp_bind. eapply wp_mono; [apply add_routes_wp; by rewrite Hn|]. intros r s3 [[M3 L3] (routed & -> & Hrout & Hall & R3)]. simpl.
  pose proof (same_memory_trans _ _ _ M M3) as M3'.
  apply wp_bind. eapply wp_mono; [apply del_routes_wp|]. intros r s4 (-> & [M4 L4] & gone & Hgone & Hev & R4). simpl.
  pose proof (same_memory_trans _ _ _ M3' M4) as M4'. assert (net_links (net s4) = net_links (net s)) as HL by congruence.
  apply wp_bind, wp_or_throw; [|intros Hno; congruence]. intros sk' Hsk'. rewrite Hsk in Hsk'. injection Hsk' as <-.
  apply wp_bind, wp_new; intros s5 [Hn5 M5]; [|intros _; split; [by eapply same_memory_trans|by rewrite Hn5, HL]].
  pose proof (same_memory_trans _ _ _ M4' M5) as M5'.
  apply wp_bind, wp_call; intros s6 M6.
  2:{ intros [f Hn6] _. split; [by eapply same_memory_trans|]. rewrite Hn6. simpl. rewrite lookup_alter_eq, Hn5, HL, Hl. by eexists. }
  intros _ Hn6. unfold wp. simpl.
  assert (net_routes (net s6) = net_routes (net s4)) as HR by (rewrite Hn6, Hn5; done).
  assert (forall q, q ∈ routed -> (q ∉ gone)) as Hrg.
  { intros q Hq Hg%Hgone. destruct Hg as [_ Hnot]. apply Hnot. eapply sublist_subseteq; done. }
  split_and!; [by etransitivity|done|done| | | | |].
  - exists (mkLink (link_up l) (link_addrs l) (link_private l) {[sk := mkRPeer ep ka (list_to_set (vpn :: routed))]}), sk, ep, ka.
    split_and!; [|done|done]. change (net_links (net s6) !! tun = Some (mkLink (link_up l) (link_addrs l) (link_private l)
      {[sk := mkRPeer ep ka (list_to_set (vpn :: routed))]})).
    rewrite Hn6, Hn5. simpl. rewrite lookup_alter_eq, HL, Hl. simpl. f_equal. f_equal. rewrite Hps. apply configure_server.
  - intros q Hq. change (net_routes (net s6) !! q = Some tun). rewrite HR, R4. apply elem_of_cons in Hq as [->|Hq].
    + rewrite decide_False by (intros Hg%Hgone; tauto). rewrite R3. case_decide; [done|]. rewrite Hn. apply Hroutes. left.
    + rewrite decide_False by by apply Hrg. rewrite R3. case_decide as Hc; [done|]. rewrite Hn. apply Hroutes. right.
      destruct (decide (q ∈ routesApplied s)) as [Hin|]; [done|tauto].
  - intros q Hq. change (net_routes (net s6) !! q = Some tun) in Hq. rewrite HR, R4 in Hq. case_decide as Hg; [done|].
    destruct (decide (q ∈ vpn :: routed)) as [|Hout]; [by left|right]. apply not_elem_of_cons in Hout as [Hqv Hqr].
    rewrite R3 in Hq. rewrite decide_False in Hq by tauto. rewrite Hn in Hq. pose proof Hq as Hin%Hroutes.
    apply elem_of_cons in Hin as [?|Hin]; [done|]. split; [done|]. intros Hh.
    assert (ever_healthy s2) as Hh2 by (eapply healthy_mono; [exact M|exact Hh]). pose proof (Hall Hh2) as ->.
    apply Hg, Hev; [by eapply healthy_mono|done|done|]. rewrite R3, decide_False by tauto. by rewrite Hn.
  - intros Hh q Hq Hc. rewrite Hall by (eapply healthy_mono; [exact M|exact Hh]). by apply Hclear.
  - intros q Hq Hb. exfalso. apply (Hbusy q); [|done]. by eapply sublist_subseteq.
Qed.
End Routes.

(** C31: bringing the tunnel up. A successful [Up] found no interface of the name
    and leaves one with the node's /32, the device key and the server as its only
    peer, carrying the VPN network, to which that network is routed; nothing else
    changes. A failed one leaves the network as it was, an existing interface always
    untouched; only a build that failed, was followed by [Down] on the host it had come
    to, and there could not be taken down, leaves a half-built interface. *)
Theorem Up_spec {D} `{RouterHostLaws D} `{WgTypes} cfg (s : EngineState D) r s' :
  net_ok (net s) -> Up cfg s = (r, s') ->
  match r with
  | Ok _ => net_links (net s) !! iface cfg = None /\ exists key sk ep,
      ParseKey (PrivateKey cfg) = Some key /\ ParseKey (ServerPubKey cfg) = Some sk /\
      net s' = mkNet (<[iface cfg := mkLink true {[PrefixFrom (Address cfg) 32]} (Some key)
                          {[sk := mkRPeer (Some ep) (Some (Keepalive cfg)) {[AnyMasked (Network cfg)]}]}]> (net_links (net s)))
                     (<[AnyMasked (Network cfg) := iface cfg]> (net_routes (net s)))
  | Err e => net s' = net s \/
      (e <> EIfaceExists /\ net_links (net s) !! iface cfg = None /\ left_behind cfg (net s) e s')
  end.
Proof.
  intros Hok Hu. pose proof (Up_wp cfg s Hok) as Hw. unfold wp in Hw. rewrite Hu in Hw. destruct r as [[]|e]; simpl in Hw.
  - destruct Hw as (_ & Hno & key & sk & ep & Hk & Hs & Hn). split; [done|]. by exists key, sk, ep.
  - by destruct Hw as (_ & Hw & _).
Qed.

(** C30: the consumer routes. From an agreeing state, a [SetRoutes] that succeeds
    returns a part [out] of the canonical list of the prefixes asked for, and then
    the engine's memory, the allowed IPs of the server peer and the kernel's routes
    into the tunnel are [out] (the last two with the VPN network), up to old routes
    that could not be deleted; on a healthy host the three agree exactly again, so
    the next call starts from an agreeing state, and [out] leaves out only prefixes
    that overlap an address of another interface; a prefix that such an interface
    blocks all the time is not newly routed. *)
Theorem SetRoutes_spec {D} `{RouterHostLaws D} `{WgTypes} cfg extra (s : EngineState D) out s' :
  tracks cfg s -> (AnyMasked (Network cfg) ∉ CanonicalPrefixes extra) -> (AnyMasked (Network cfg) ∉ routesApplied s) ->
  SetRoutes cfg extra s = (Ok out, s') ->
  sublist out (CanonicalPrefixes extra) /\ routesApplied s' = out /\ server_peer cfg (net s') (AnyMasked (Network cfg) :: out) /\
  (forall q, q ∈ AnyMasked (Network cfg) :: out -> net_routes (net s') !! q = Some (iface cfg)) /\
  (forall q, net_routes (net s') !! q = Some (iface cfg) -> q ∈ AnyMasked (Network cfg) :: out \/ q ∈ routesApplied s) /\
  (ever_healthy s -> tracks cfg s' /\ forall q, q ∈ CanonicalPrefixes extra -> clear cfg q -> q ∈ out) /\
  (forall q, q ∈ out -> busy cfg q -> q ∈ routesApplied s).
Proof.
  intros Ht Hv Hv' Hs. pose proof (SetRoutes_wp cfg extra s Ht Hv Hv') as Hw. unfold wp in Hw. rewrite Hs in Hw. simpl in Hw.
  destruct Hw as (Hsub & Hw & Ha & Hp & Hin & Hout & Hall & Hbusy). split_and!; [done..| | |done].
  - intros q Hq. destruct (Hout q Hq) as [?|[? _]]; auto.
  - intros Hh. split; [|by apply Hall]. split_and!; [by rewrite Ha| |by rewrite Ha, Hw]. intros q. rewrite Ha. split; [|apply Hin].
    intros Hq. by destruct (Hout q Hq) as [?|[_ ?]].
Qed.

(** ** A host to run it on *)

(** A network whose calls fail as the list of faults says. *)
Record SimRouter : Type := mkSimRouter { sim_net : RouterNet; sim_faults : list bool }.
Definition net_preb (c : NetCall) (n : RouterNet) : bool :=
  match c with
  | LinkAdd_Wireguard i => bool_decide (net_links n !! i = None)
  | AddrAdd i p => match net_links n !! i with Some l => bool_decide (p ∉ link_addrs l) | None => false end
  | LinkDel i | LinkSetUp i | Engine.RouteReplace i _ | Engine.ConfigureDevice i _ _ => bool_decide (is_Some (net_links n !! i))
  | RouteDel i p => bool_decide (net_routes n !! p = Some i)
  end.
Lemma net_preb_spec c n : net_preb c n = true <-> net_pre c n.
Proof.
  destruct c; simpl; rewrite ?bool_decide_eq_true; try done. destruct (net_links n !! name) as [l|].
  - rewrite bool_decide_eq_true. split; [by eexists|by intros (? & [= <-] & ?)].
  - split; [done|by intros (? & ? & _)].
Qed.
#[global] Instance sim_ifaces : Interfaces SimRouter | 100 := {| net_Interfaces := ret []; net_Addrs := fun _ => ret [] |}.
#[global] Instance sim_router : RouterHost SimRouter | 100 :=
  {| rh_LinkByName := fun i d => (if decide (is_Some (net_links (sim_net d) !! i)) then Ok tt else Err tt, d);
     rh_call := fun c d =>
       match sim_faults d with
       | true :: fs => (Err tt, mkSimRouter (sim_net d) fs)
       | fs => if net_preb c (sim_net d) then (Ok tt, mkSimRouter (net_effect c (sim_net d)) (tail fs)) else (Err tt, mkSimRouter (sim_net d) (tail fs))
       end;
     rh_wgctrl_New := ret tt;
     rh_Device := fun i d => match net_links (sim_net d) !! i with
       | Some l => (Ok ((fun p => (p.1, None)) <$> map_to_list (link_peers l)), d)
       | None => (Err tt, d) end;
     rh_LookupPort := fun _ => ret 51820;
     rh_LookupIP := fun _ => ret [IP6 1; IP4 (AddrFrom4 [203; 0; 113; 1])] |}.
#[global, program] Instance sim_router_laws : RouterHostLaws SimRouter | 100 :=
  {| rh_view := sim_net; rh_healthy := fun _ d => sim_faults d = [] |}.
Next Obligation. done. Qed.
Next Obligation. intros i d. simpl. by case_decide. Qed.
Next Obligation. done. Qed.
Next Obligation. intros i d. simpl. by case_match. Qed.
Next Obligation. done. Qed.
Next Obligation. done. Qed.
Next Obligation. done. Qed.
Next Obligation. done. Qed.
Next Obligation.
  intros c d d'. simpl. destruct (sim_faults d) as [|[] fs]; [|done|]; destruct (net_preb c (sim_net d)) eqn:Hp; try done;
    intros [= <-]; by apply net_preb_spec in Hp.
Qed.
Next Obligation.
  intros c d d' e. simpl. assert (match c with Engine.ConfigureDevice i _ _ => exists f, sim_net d = on_link i f (sim_net d) | _ => sim_net d = sim_net d end) as Hsame.
  { destruct c; try done. exists id. unfold on_link. destruct (sim_net d) as [ls rs]. simpl. f_equal. symmetry. by apply alter_id. }
  destruct (sim_faults d) as [|[] fs]; [|by intros [= <- <-]|]; destruct (net_preb c (sim_net d)); try done; by intros [= <- <-].
Qed.
Next Obligation. intros ep i d Hd. simpl. split; [done|]. intros Hl. by case_decide. Qed.
Next Obligation.
  intros ep c d Hd. simpl. rewrite Hd. destruct (net_preb c (sim_net d)) eqn:Hp; [done|]. split; [done|]. intros Hc%net_preb_spec. congruence.
Qed.
Next Obligation. done. Qed.
Next Obligation. intros ep i d Hd. simpl. by case_match. Qed.
Next Obligation. done. Qed.
Next Obligation. intros ep s d Hd. split; [done|]. intros p _. by eexists _, _. Qed.
Next Obligation. done. Qed.
Next Obligation. done. Qed.

Definition demo_cfg : Config :=
  mkConfig "" key_a (AddrFrom4 [10; 8; 0; 5]) (P4 (PrefixFrom (AddrFrom4 [10; 8; 0; 0]) 16)) key_b "vpn.example.org:51820" 25.
Definition bare_router : SimRouter := mkSimRouter (mkNet ∅ ∅) [].
Definition demo_up : EngineState SimRouter := snd (Up demo_cfg (New bare_router)).
Lemma demo_up_run : Up demo_cfg (New bare_router) = (Ok tt, demo_up).
Proof. apply run_pair. vm_compute. reflexivity. Qed.
Lemma bare_ok : net_ok (net (New bare_router)).
Proof. intros p i. simpl. by rewrite lookup_empty. Qed.
Lemma demo_up_tracks : tracks demo_cfg demo_up.
Proof.
  apply (built_tracks demo_cfg (New bare_router) demo_up bare_ok); [|done].
  pose proof (Up_wp demo_cfg (New bare_router) bare_ok) as Hw. unfold wp in Hw. by rewrite demo_up_run in Hw.
Qed.
Definition block_a : AnyPrefix := P4 (PrefixFrom (AddrFrom4 [100; 64; 1; 0]) 24).
Definition block_b : AnyPrefix := P4 (PrefixFrom (AddrFrom4 [100; 64; 2; 0]) 24).
Definition demo_routes : EngineState SimRouter := snd (SetRoutes demo_cfg [block_b; block_a; block_b] demo_up).
Lemma demo_routes_run : SetRoutes demo_cfg [block_b; block_a; block_b] demo_up = (Ok [block_a; block_b], demo_routes).
Proof. apply run_pair. vm_compute. reflexivity. Qed.
Lemma demo_vpn_free : (AnyMasked (Network demo_cfg) ∉ CanonicalPrefixes [block_b; block_a; block_b]) /\
  (AnyMasked (Network demo_cfg) ∉ routesApplied demo_up).
Proof.
  assert (CanonicalPrefixes [block_b; block_a; block_b] = [block_a; block_b]) as -> by (vm_compute; reflexivity).
  assert (routesApplied demo_up = []) as -> by (vm_compute; reflexivity). split; [|apply not_elem_of_nil].
  rewrite !not_elem_of_cons. split_and!; [done|done|apply not_elem_of_nil].
Qed.

#[local] Opaque demo_up demo_routes.
Lemma Up_spec_witness : net_links (net (New bare_router)) !! iface demo_cfg = None.
Proof. exact (proj1 (Up_spec demo_cfg (New bare_router) (Ok tt) demo_up bare_ok demo_up_run)). Defined.
Lemma SetRoutes_spec_witness : routesApplied demo_routes = [block_a; block_b].
Proof.
  exact (proj1 (proj2 (SetRoutes_spec demo_cfg [block_b; block_a; block_b] demo_up [block_a; block_b] demo_routes
    demo_up_tracks (proj1 demo_vpn_free) (proj2 demo_vpn_free) demo_routes_run))).
Defined.
#[local] Transparent demo_up demo_routes.

(** The address cannot be assigned: the link is taken down again; when that fails too,
    it stays. *)
Example Up_undone : let up faults := Up demo_cfg (New (mkSimRouter (mkNet ∅ ∅) faults)) in
  fst (up [false; true]) = Err EHostCall /\ net (snd (up [false; true])) = mkNet ∅ ∅ /\
  fst (up [false; true; true]) = Err EHostCall /\ net (snd (up [false; true; true])) <> mkNet ∅ ∅.
Proof. by vm_compute. Qed.

(** A configuration that fails after the routes were added leaves the memory behind
    them: asking for no routes is then taken for done, and the route stays. *)
Definition faulty_up : EngineState SimRouter := mkEngine [] [] (mkSimRouter (sim_net (eng_host demo_up)) [false; true]).
Example SetRoutes_leaks :
  exists s1 s2, SetRoutes demo_cfg [block_a] faulty_up = (Err EHostCall, s1) /\ SetRoutes demo_cfg [] s1 = (Ok [], s2) /\
    net_routes (net s2) !! block_a = Some (iface demo_cfg).
Proof.
  exists (snd (SetRoutes demo_cfg [block_a] faulty_up)), (snd (SetRoutes demo_cfg [] (snd (SetRoutes demo_cfg [block_a] faulty_up)))).
  split_and!; [apply run_pair; by vm_compute|apply run_pair; by vm_compute|by vm_compute].
Qed.
