(* ===== verification/NatCtl.v ===== *)
(** * The router's address-translation table ([internal/router/natctl])

    One prefix-DNAT and one masquerade rule per announcement, in a table of the
    router's kernel that is rebuilt as a whole. [google/nftables], the kernel and
    the lock file are a class of operations, their behaviour a second class. *)
From Stdlib Require Import Ascii.
From S2P Require Import Prelude GoStrings Netip Ipam Netfw.

#[local] Open Scope lw_scope.

(** ** What the table is made of *)

(** The expressions of [nftables/expr] the rules use. *)
Inductive NExpr : Type :=
| NMeta_NFPROTO (reg : Z)
| NCmpEq (reg : Z) (data : list Z)
| NPayloadNetwork (dreg offset len : Z)
| NBitwise (sreg dreg len : Z) (mask xor : list Z)
| NImmediate (reg : Z) (data : list Z)
| NDestNATPrefix (family regMin regMax : Z)   (** [expr.NAT] with [Prefix: true] *)
| NMasq.

Inductive Hook : Type := HookPrerouting | HookPostrouting.

(** A rule: its expressions and its opaque user data. *)
Record NRule : Type := mkNRule { nr_exprs : list NExpr; nr_data : string }.
Record NChain : Type := mkNChain { nc_hook : Hook; nc_rules : list NRule }.
(** A table: its chains by name; and the inet tables of the router by name. *)
Record NTable : Type := mkNTable { nt_chains : gmap string NChain }.
Abbreviation NatTables := (gmap string NTable).

Inductive NatOp : Type :=
| NDelTable (t : string)
| NAddTable (t : string)
| NAddChain (t c : string) (h : Hook)
| NAddRule (t c : string) (r : NRule).

Definition apply_nat_op (op : NatOp) (ts : NatTables) : option NatTables :=
  match op with
  | NDelTable t => if decide (is_Some (ts !! t)) then Some (delete t ts) else None
  | NAddTable t => Some (match ts !! t with Some _ => ts | None => <[t := mkNTable ∅]> ts end)
  | NAddChain t c h =>
      tb ← ts !! t;
      Some (match nt_chains tb !! c with Some _ => ts | None => <[t := mkNTable (<[c := mkNChain h []]> (nt_chains tb))]> ts end)
  | NAddRule t c r =>
      tb ← ts !! t; ch ← nt_chains tb !! c;
      Some (<[t := mkNTable (<[c := mkNChain (nc_hook ch) (nc_rules ch ++ [r])]> (nt_chains tb))]> ts)
  end.
Fixpoint apply_nat_ops (ops : list NatOp) (ts : NatTables) : option NatTables :=
  match ops with [] => Some ts | op :: ops => ts' ← apply_nat_op op ts; apply_nat_ops ops ts' end.

(** The lock file and the library's calls. *)
Class NatKernel (K : Type) : Type :=
  { nk_Lock : string -> M unit K unit;
    nk_Unlock : string -> K -> K;
    nk_New : M unit K unit;
    nk_ListTables : M unit K (list string);
    nk_ListChains : M unit K (list (string * string));
    nk_GetRules : string -> string -> M unit K (list NRule);
    nk_Flush : list NatOp -> M unit K unit }.

Class NatKernelLaws (K : Type) `{NatKernel K} : Type :=
  { nk_view : K -> NatTables;
    nk_lock_view t k : nk_view (snd (nk_Lock t k)) = nk_view k;
    nk_unlock_view t k : nk_view (nk_Unlock t k) = nk_view k;
    nk_new_view k : nk_view (snd (nk_New k)) = nk_view k;
    nk_tables_view k : nk_view (snd (nk_ListTables k)) = nk_view k;
    nk_chains_view k : nk_view (snd (nk_ListChains k)) = nk_view k;
    nk_rules_view t c k : nk_view (snd (nk_GetRules t c k)) = nk_view k;
    nk_tables_ok k l : fst (nk_ListTables k) = Ok l -> NoDup l /\ forall t, t ∈ l <-> is_Some (nk_view k !! t);
    nk_chains_ok k l : fst (nk_ListChains k) = Ok l -> forall t c,
      (t, c) ∈ l <-> exists tb, nk_view k !! t = Some tb /\ is_Some (nt_chains tb !! c);
    nk_rules_ok t c k rs : fst (nk_GetRules t c k) = Ok rs ->
      exists tb ch, nk_view k !! t = Some tb /\ nt_chains tb !! c = Some ch /\ rs = nc_rules ch;
    nk_flush_ok ops k k' : nk_Flush ops k = (Ok tt, k') -> apply_nat_ops ops (nk_view k) = Some (nk_view k');
    nk_flush_err ops k k' e : nk_Flush ops k = (Err e, k') -> nk_view k' = nk_view k }.

(** ** [Rule] *)

(** [natctl.Rule]: traffic to [nat_Synthetic] is translated to [nat_Real]. *)
Record NatRule : Type := mkNatRule { nat_Synthetic : AnyPrefix; nat_Real : AnyPrefix }.

Definition userData (synthetic real : Prefix) : string :=
  "lw " +:+ PrefixString synthetic +:+ ">" +:+ PrefixString real.

Definition ruleFromUserData `{NetipV6} (b : string) : option NatRule :=
  s ← CutPrefix b "lw ";
  '(synth, real) ← Cut ">"%char s;
  sp ← ParsePrefix synth; rp ← ParsePrefix real;
  Some (mkNatRule sp rp).

Definition prefixMask (bits : Z) : list Z :=
  let m := u32 (Z.shiftl 0xFFFFFFFF (32 - bits)) in
  [Z.shiftr m 24 mod 256; Z.shiftr m 16 mod 256; Z.shiftr m 8 mod 256; m mod 256].
Definition addrBytes (base : Z) : list Z := As4 (Uint32ToAddr base).

Definition dnatPrefixExprs (synthetic real : Prefix) : list NExpr :=
  let synth := BlockFromPrefix synthetic in
  let real := BlockFromPrefix real in
  let realLast := u32 (Base real + u32 (Z.shiftl 1 (32 - PrefixLen real)) - 1) in
  [NMeta_NFPROTO 1; NCmpEq 1 [NFPROTO_IPV4];
   NPayloadNetwork 1 16 4; NBitwise 1 1 4 (prefixMask (PrefixLen synth)) [0; 0; 0; 0]; NCmpEq 1 (addrBytes (Base synth));
   NImmediate 1 (addrBytes (Base real)); NImmediate 2 (addrBytes realLast);
   NDestNATPrefix NFPROTO_IPV4 1 2].

Definition masqueradeExprs (vpnPool real : Prefix) : list NExpr :=
  let pool := BlockFromPrefix vpnPool in
  let dst := BlockFromPrefix real in
  [NMeta_NFPROTO 1; NCmpEq 1 [NFPROTO_IPV4];
   NPayloadNetwork 1 12 4; NBitwise 1 1 4 (prefixMask (PrefixLen pool)) [0; 0; 0; 0]; NCmpEq 1 (addrBytes (Base pool));
   NPayloadNetwork 1 16 4; NBitwise 1 1 4 (prefixMask (PrefixLen dst)) [0; 0; 0; 0]; NCmpEq 1 (addrBytes (Base dst));
   NMasq].

(** ** The table's operations *)

(** [EPanic]: [ipam.BlockFromPrefix] or a shift count panics on an IPv6 prefix. *)
Inductive nat_err : Type := ENatLock | ENft | EPanic.

Definition as_v4 (p : AnyPrefix) : option Prefix := match p with P4 p => Some p | P6 _ _ => None end.

(** The messages of the rules, [None] for the panic. *)
Fixpoint rule_ops (table : string) (vpnPool : AnyPrefix) (rules : list NatRule) : option (list NatOp) :=
  match rules with
  | [] => Some []
  | r :: rules =>
      synthetic ← as_v4 (nat_Synthetic r); real ← as_v4 (nat_Real r); pool ← as_v4 vpnPool;
      ops ← rule_ops table vpnPool rules;
      Some (NAddRule table "prerouting" (mkNRule (dnatPrefixExprs synthetic real) (userData synthetic real))
            :: NAddRule table "postrouting" (mkNRule (masqueradeExprs pool real) "") :: ops)
  end.

Section Table.
Context {K : Type} `{NatKernel K} (table : string).

Definition nft {A} (m : M unit K A) : M nat_err K A :=
  fun k => let '(r, k) := m k in (match r with Ok a => Ok a | Err _ => Err ENft end, k).

(** [lockTable] with its deferred release. *)
Definition locked {A} (m : M nat_err K A) : M nat_err K A := fun k =>
  match nk_Lock table k with
  | (Err _, k) => (Err ENatLock, k)
  | (Ok _, k) => let '(r, k) := m k in (r, nk_Unlock table k)
  end.

Definition deleteTable (existing : list string) : list NatOp := NDelTable <$> filter (fun t => t = table) existing.

Definition Rebuild (vpnPool : AnyPrefix) (rules : list NatRule) : M nat_err K unit :=
  locked (
    do! nft nk_New in
    let! existing := nft nk_ListTables in
    match rule_ops table vpnPool rules with
    | None => throw EPanic
    | Some ops =>
        nft (nk_Flush (deleteTable existing ++
          [NAddTable table; NAddChain table "prerouting" HookPrerouting; NAddChain table "postrouting" HookPostrouting] ++ ops))
    end).

Definition Teardown : M nat_err K unit :=
  locked (
    do! nft nk_New in
    let! existing := nft nk_ListTables in
    nft (nk_Flush (deleteTable existing))).

Definition findTableChain (chain : string) : M nat_err K (option (string * string)) :=
  let! chains := try (nft nk_ListChains) in
  ret (match chains with
       | Ok cs => head (filter (fun tc => tc.1 = table /\ tc.2 = chain) cs)
       | Err _ => None
       end).

Definition Current `{NetipV6} : M nat_err K (list NatRule) :=
  do! nft nk_New in
  let! found := findTableChain "prerouting" in
  match found with
  | None => ret []
  | Some (t, c) =>
      let! rules := nft (nk_GetRules t c) in
      ret (omap (fun r => ruleFromUserData (nr_data r)) rules)
  end.
End Table.
