(* ===== verification/NatCtlProps.v ===== *)
(** * What the router translates

    A rebuilt table is exactly the given rules, reads back as them, and the
    kernel then maps a synthetic block onto the real one host by host. The
    meaning of the expressions in the kernel is a parameter with a law each. *)
From Stdlib Require Import Ascii.
From S2P Require Import Prelude GoStrings Netip Ipam Netfw NetfwProps Isolation NatCtl.

#[local] Open Scope lw_scope.

(** ** The rebuilt table *)

Definition two_chains (pre post : list NRule) : NTable :=
  mkNTable (<["prerouting" := mkNChain HookPrerouting pre]> {["postrouting" := mkNChain HookPostrouting post]}).

(** The two rules of one announcement. *)
Definition rule_pair (vpnPool : AnyPrefix) (r : NatRule) : option (NRule * NRule) :=
  synthetic ← as_v4 (nat_Synthetic r); real ← as_v4 (nat_Real r); pool ← as_v4 vpnPool;
  Some (mkNRule (dnatPrefixExprs synthetic real) (userData synthetic real), mkNRule (masqueradeExprs pool real) "").
Definition pair_ops (table : string) (p : NRule * NRule) : list NatOp :=
  [NAddRule table "prerouting" p.1; NAddRule table "postrouting" p.2].

Lemma rule_ops_pairs table pool rules :
  rule_ops table pool rules = (fun ps => ps ≫= pair_ops table) <$> mapM (rule_pair pool) rules.
Proof.
  induction rules as [|r rules IH]; simpl; [done|]. unfold rule_pair at 2.
  destruct (as_v4 (nat_Synthetic r)) as [s|]; simpl; [|done]. destruct (as_v4 (nat_Real r)) as [q|]; simpl; [|done].
  destruct (as_v4 pool) as [v|]; simpl; [|done]. rewrite IH. by destruct (mapM (rule_pair pool) rules).
Qed.

Lemma apply_nat_app a b ts : apply_nat_ops (a ++ b) ts = (apply_nat_ops a ts ≫= apply_nat_ops b).
Proof. revert ts. induction a as [|op a IH]; intros ts; simpl; [done|]. by destruct (apply_nat_op op ts); simpl. Qed.

Lemma pair_ops_apply table p pre post (ts : NatTables) :
  apply_nat_ops (pair_ops table p) (<[table := two_chains pre post]> ts) =
  Some (<[table := two_chains (pre ++ [p.1]) (post ++ [p.2])]> ts).
Proof.
  unfold two_chains. cbn [pair_ops apply_nat_ops apply_nat_op]. rewrite lookup_insert_eq.
  cbn [mbind option_bind nt_chains]. rewrite lookup_insert_eq. cbn [mbind option_bind nc_hook nc_rules].
  rewrite lookup_insert_eq. cbn [mbind option_bind nt_chains]. rewrite !lookup_insert_ne, lookup_singleton_eq by done.
  cbn [mbind option_bind nc_hook nc_rules]. rewrite !insert_insert_eq. do 3 f_equal.
Qed.
Lemma pairs_apply table ps pre post (ts : NatTables) :
  apply_nat_ops (ps ≫= pair_ops table) (<[table := two_chains pre post]> ts) =
  Some (<[table := two_chains (pre ++ ps.*1) (post ++ ps.*2)]> ts).
Proof.
  revert pre post. induction ps as [|p ps IH]; intros pre post; [by rewrite !app_nil_r|].
  change ((p :: ps) ≫= pair_ops table) with (pair_ops table p ++ (ps ≫= pair_ops table)).
  rewrite apply_nat_app, pair_ops_apply. cbn [mbind option_bind]. rewrite IH, <- !app_assoc. done.
Qed.

Lemma filter_absent (t : string) l : (t ∉ l) -> filter (fun x => x = t) l = [].
Proof.
  induction l as [|x l IH]; [done|]. intros [Hne Hin]%not_elem_of_cons. rewrite filter_cons, decide_False by done. by apply IH.
Qed.
Lemma filter_single (t : string) l : NoDup l -> t ∈ l -> filter (fun x => x = t) l = [t].
Proof.
  induction 1 as [|x l Hx Hnd IH]; [by intros ?%not_elem_of_nil|]. intros Hin. rewrite filter_cons. case_decide as Heq.
  - subst x. by rewrite filter_absent.
  - apply IH. by apply elem_of_cons in Hin as [->|?].
Qed.
Lemma delete_apply table l (ts : NatTables) : NoDup l -> (forall t, t ∈ l <-> is_Some (ts !! t)) ->
  apply_nat_ops (deleteTable table l) ts = Some (delete table ts).
Proof.
  intros Hnd Hl. unfold deleteTable. destruct (decide (table ∈ l)) as [Hin|Hin].
  - rewrite filter_single by done.
    simpl. rewrite decide_True by (by apply Hl). done.
  - rewrite filter_absent by done.
    simpl. f_equal. symmetry. apply delete_id. apply eq_None_not_Some. by rewrite <- Hl.
Qed.

Lemma fresh_apply table (ts : NatTables) : ts !! table = None ->
  apply_nat_ops [NAddTable table; NAddChain table "prerouting" HookPrerouting; NAddChain table "postrouting" HookPostrouting] ts =
  Some (<[table := two_chains [] []]> ts).
Proof.
  intros Hts. cbn [apply_nat_ops apply_nat_op]. rewrite Hts. cbn [mbind option_bind]. rewrite lookup_insert_eq.
  cbn [mbind option_bind nt_chains]. rewrite lookup_empty, insert_insert_eq, lookup_insert_eq. cbn [mbind option_bind nt_chains].
  rewrite lookup_insert_ne, lookup_empty, insert_insert_eq by done. unfold two_chains. by do 3 f_equal.
Qed.

Section Rebuilt.
Context {K : Type} `{NatKernelLaws K}.

Lemma nft_inv {A} (m : M unit K A) k r k' : nft m k = (r, k') ->
  match r with Ok a => m k = (Ok a, k') | Err e => e = ENft /\ m k = (Err tt, k') end.
Proof. unfold nft. destruct (m k) as [[a|[]] k1]; by intros [= <- <-]. Qed.
Lemma nft_view {A} (m : M unit K A) k r k' : (forall k, nk_view (snd (m k)) = nk_view k) -> nft m k = (r, k') ->
  nk_view k' = nk_view k.
Proof. intros Hv. unfold nft. specialize (Hv k). destruct (m k) as [x k1]. by intros [= _ <-]. Qed.

Lemma flush_inv ops k r k' : nft (nk_Flush ops) k = (r, k') ->
  match r with Ok _ => apply_nat_ops ops (nk_view k) = Some (nk_view k') | Err _ => nk_view k' = nk_view k end.
Proof.
  intros Hf%nft_inv. destruct r as [[]|e]; [by apply nk_flush_ok|]. destruct Hf as [_ Hf]. by eapply nk_flush_err.
Qed.

Lemma locked_inv {A} table (m : M nat_err K A) k r k' : locked table m k = (r, k') ->
  (r = Err ENatLock /\ nk_view k' = nk_view k) \/
  exists k1 k2, nk_view k1 = nk_view k /\ m k1 = (r, k2) /\ nk_view k' = nk_view k2.
Proof.
  unfold locked. pose proof (nk_lock_view table k) as Hv. destruct (nk_Lock table k) as [[[]|[]] k1]; simpl in Hv.
  - destruct (m k1) as [x k2] eqn:Hm. intros [= <- <-]. right. exists k1, k2. by rewrite nk_unlock_view.
  - intros [= <- <-]. by left.
Qed.

(** [New] and [ListTables], before a flush. *)
Lemma tables_inv {A} (g : list string -> M nat_err K A) k r k' :
  bind (nft nk_ListTables) g k = (r, k') ->
  (r = Err ENft /\ nk_view k' = nk_view k) \/
  exists l k1, NoDup l /\ (forall t, t ∈ l <-> is_Some (nk_view k !! t)) /\ nk_view k1 = nk_view k /\ g l k1 = (r, k').
Proof.
  unfold bind. destruct (nft nk_ListTables k) as [x k1] eqn:Hl. pose proof (nft_view _ _ _ _ nk_tables_view Hl) as Hv.
  apply nft_inv in Hl. destruct x as [l|e].
  - intros Hf. right. destruct (nk_tables_ok k l) as [Hnd Hin]; [by rewrite Hl|]. by exists l, k1.
  - destruct Hl as [-> _]. intros [= <- <-]. by left.
Qed.

(** A rebuild: the table becomes the given rules and nothing else changes, or
    nothing changes at all. *)
Lemma Rebuild_view table pool rules k r k' : Rebuild table pool rules k = (r, k') ->
  match r with
  | Ok _ => exists ps, mapM (rule_pair pool) rules = Some ps /\ nk_view k' = <[table := two_chains ps.*1 ps.*2]> (nk_view k)
  | Err e => nk_view k' = nk_view k /\ (e = EPanic -> mapM (rule_pair pool) rules = None)
  end.
Proof.
  intros [[-> Hv]|(k1 & k2 & Hv1 & Hm & Hv2)]%locked_inv; [done|]. unfold bind at 1 in Hm.
  destruct (nft nk_New k1) as [x k3] eqn:Hn. pose proof (nft_view _ _ _ _ nk_new_view Hn) as Hv3.
  apply nft_inv in Hn. destruct x as [u|e]; [|injection Hm as <- <-; split; [congruence|by destruct Hn as [-> _]]].
  apply tables_inv in Hm; destruct Hm as [[-> Hv4]|(l & k4 & Hnd & Hl & Hv4 & Hm)]; [split; [congruence|done]|].
  rewrite rule_ops_pairs in Hm. destruct (mapM (rule_pair pool) rules) as [ps|] eqn:Hps; cbn [fmap option_fmap option_map] in Hm.
  - pose proof (flush_inv _ _ _ _ Hm) as Hf. destruct r as [[]|e]; [|split; [congruence|]; apply nft_inv in Hm as [-> _]; done].
    exists ps. split; [done|]. rewrite apply_nat_app, (delete_apply table l) in Hf by (rewrite ?Hv4; done).
    cbn [mbind option_bind] in Hf. rewrite apply_nat_app, fresh_apply in Hf by apply lookup_delete_eq.
    cbn [mbind option_bind] in Hf.
    rewrite pairs_apply in Hf. injection Hf as Hf. rewrite Hv2, <- Hf, insert_delete_eq. congruence.
  - injection Hm as <- <-. split; [congruence|done].
Qed.

Lemma Teardown_view table k r k' : Teardown table k = (r, k') ->
  nk_view k' = match r with Ok _ => delete table (nk_view k) | Err _ => nk_view k end.
Proof.
  intros [[-> Hv]|(k1 & k2 & Hv1 & Hm & Hv2)]%locked_inv; [done|]. unfold bind at 1 in Hm.
  destruct (nft nk_New k1) as [x k3] eqn:Hn. pose proof (nft_view _ _ _ _ nk_new_view Hn) as Hv3.
  destruct x as [u|e]; [|injection Hm as <- <-; congruence].
  apply tables_inv in Hm; destruct Hm as [[-> Hv4]|(l & k4 & Hnd & Hl & Hv4 & Hm)]; [congruence|].
  apply flush_inv in Hm. rewrite Hv2. destruct r as [[]|e]; [|congruence].
  rewrite (delete_apply table l) in Hm by (rewrite ?Hv4; done). injection Hm as <-. congruence.
Qed.
End Rebuilt.

(** ** Reading the rules back *)

(** A list of IPv4 translations, synthetic block and real subnet. *)
Definition v4_rules (vs : list (Prefix * Prefix)) : list NatRule := (fun v => mkNatRule (P4 v.1) (P4 v.2)) <$> vs.
Definition rules_ok (vs : list (Prefix * Prefix)) : Prop := Forall (fun v => prefix_ok v.1 /\ prefix_ok v.2) vs.
Definition pre_rule (v : Prefix * Prefix) : NRule := mkNRule (dnatPrefixExprs v.1 v.2) (userData v.1 v.2).
Definition post_rule (pool : Prefix) (v : Prefix * Prefix) : NRule := mkNRule (masqueradeExprs pool v.2) "".

Lemma rule_pairs_v4 pool vs :
  mapM (rule_pair (P4 pool)) (v4_rules vs) = Some ((fun v => (pre_rule v, post_rule pool v)) <$> vs).
Proof.
  unfold v4_rules. induction vs as [|v vs IH]; [done|]. rewrite !fmap_cons. cbn [mapM].
  change (rule_pair (P4 pool) (mkNatRule (P4 v.1) (P4 v.2))) with (Some (pre_rule v, post_rule pool v)).
  cbn [mbind option_bind]. by rewrite IH.
Qed.

Lemma userData_roundtrip `{NetipV6} s r : prefix_ok s -> prefix_ok r ->
  ruleFromUserData (userData s r) = Some (mkNatRule (P4 s) (P4 r)).
Proof.
  intros Hs Hr. unfold ruleFromUserData, userData. rewrite CutPrefix_app. cbn [mbind option_bind].
  rewrite Cut_app by by apply PrefixString_no_char. cbn [mbind option_bind].
  unfold ParsePrefix. by rewrite !ParsePrefix4_String.
Qed.
Lemma omap_userData `{NetipV6} vs : rules_ok vs ->
  omap (fun r => ruleFromUserData (nr_data r)) (pre_rule <$> vs) = v4_rules vs.
Proof.
  induction 1 as [|v vs [Hs Hr] Hvs IH]; [done|]. rewrite fmap_cons. cbn [omap list_omap nr_data pre_rule].
  rewrite userData_roundtrip, IH by done. done.
Qed.

Section ReadBack.
Context {K : Type} `{NatKernelLaws K} `{NetipV6}.

Lemma Rebuild_v4 table pool vs k k' : Rebuild table (P4 pool) (v4_rules vs) k = (Ok tt, k') ->
  nk_view k' = <[table := two_chains (pre_rule <$> vs) (post_rule pool <$> vs)]> (nk_view k).
Proof.
  intros (ps & Hps & ->)%Rebuild_view. rewrite rule_pairs_v4 in Hps. injection Hps as <-. by rewrite <- !list_fmap_compose.
Qed.

Lemma find_chain table c k r k' : findTableChain table c k = (r, k') -> nk_view k' = nk_view k /\
  exists o, r = Ok o /\ (is_ok (fst (nk_ListChains k)) = true -> (exists tb, nk_view k !! table = Some tb /\ is_Some (nt_chains tb !! c)) ->
    o = Some (table, c)).
Proof.
  unfold findTableChain, bind, try. pose proof (nk_chains_view k) as Hv. pose proof (nk_chains_ok k) as Hok. unfold nft.
  destruct (nk_ListChains k) as [[l|[]] k1]; intros [= <- <-]; (split; [done|]); eexists; (split; [done|]); [|done].
  intros _ Htb. specialize (Hok l eq_refl table c). apply Hok in Htb. clear Hok Hv.
  induction l as [|[t d] l IH]; [by apply not_elem_of_nil in Htb|]. rewrite filter_cons. case_decide as Heq; simpl in Heq; [by destruct Heq as [-> ->]|].
  apply IH. apply elem_of_cons in Htb as [[= <- <-]|?]; [|done]. by destruct Heq.
Qed.

(** What [Current] returns of a table of rules, provided the chains can be listed. *)
Lemma Current_two table vs post k rs k' : rules_ok vs ->
  nk_view k !! table = Some (two_chains (pre_rule <$> vs) post) ->
  is_ok (fst (nk_ListChains (snd (nft nk_New k)))) = true ->
  Current table k = (Ok rs, k') -> rs = v4_rules vs /\ nk_view k' = nk_view k.
Proof.
  intros Hvs Htb Hlist. unfold Current. unfold bind at 1. destruct (nft nk_New k) as [x k1] eqn:Hn.
  pose proof (nft_view _ _ _ _ nk_new_view Hn) as Hv1. destruct x as [u|]; [|done]. simpl in Hlist.
  unfold bind at 1. destruct (findTableChain table "prerouting" k1) as [o k2] eqn:Hf.
  apply find_chain in Hf as (Hv2 & o' & -> & Ho). rewrite (Ho Hlist); [|rewrite Hv1; eexists; split; [exact Htb|]; by eexists].
  unfold bind. destruct (nft (nk_GetRules table "prerouting") k2) as [y k3] eqn:Hg.
  pose proof (nft_view _ _ _ _ (nk_rules_view table "prerouting") Hg) as Hv3. apply nft_inv in Hg.
  destruct y as [l|]; [|done]. intros [= <- <-]. split; [|congruence].
  destruct (nk_rules_ok table "prerouting" k2 l) as (tb & ch & Htb' & Hch & ->); [by rewrite Hg|].
  rewrite Hv2, Hv1, Htb in Htb'. injection Htb' as <-. unfold two_chains in Hch. cbn [nt_chains] in Hch.
  rewrite lookup_insert_eq in Hch. injection Hch as <-. by apply omap_userData.
Qed.
End ReadBack.

(** ** The kernel's translation *)

Inductive NatAction : Type :=
| ToRange (min max : list Z)   (** destination NAT onto a range, host bits kept *)
| ToMasquerade.

(** [nv_run pkt rg es]: what a rule's expressions do from registers [rg], [None]
    when they do not match; [nv_netmap]: an address mapped onto a range. *)
Class NatVM : Type :=
  { nv_run : Packet -> Regs -> list NExpr -> option NatAction;
    nv_netmap : list Z -> list Z -> Addr -> Addr;
    nv_meta p rg r es : nv_run p rg (NMeta_NFPROTO r :: es) = nv_run p (set_reg r [pk_nfproto p] rg) es;
    nv_cmp p rg r d es : nv_run p rg (NCmpEq r d :: es) = if decide (rg r = d) then nv_run p rg es else None;
    nv_payload p rg d off len es : 0 <= off -> 0 <= len -> off + len <= Z.of_nat (length (pk_header p)) ->
      nv_run p rg (NPayloadNetwork d off len :: es) = nv_run p (set_reg d (slice off len (pk_header p)) rg) es;
    nv_bitwise p rg s d len mask xor es :
      nv_run p rg (NBitwise s d len mask xor :: es) = nv_run p (set_reg d (lxor_bytes (land_bytes (rg s) mask) xor) rg) es;
    nv_immediate p rg r d es : nv_run p rg (NImmediate r d :: es) = nv_run p (set_reg r d rg) es;
    nv_dnat p rg f a b : nv_run p rg [NDestNATPrefix f a b] = Some (ToRange (rg a) (rg b));
    nv_masq p rg : nv_run p rg [NMasq] = Some ToMasquerade;
    (** An aligned range of [2^n] addresses keeps the low [n] bits. *)
    nv_netmap_range lo n a : is_u32 lo -> is_u32 a -> 0 <= n <= 32 -> lo mod 2 ^ n = 0 ->
      nv_netmap (As4 lo) (As4 (lo + 2 ^ n - 1)) a = lo + a mod 2 ^ n }.

(** The first rule of a chain that matches decides. *)
Definition chain_action `{NatVM} (rules : list NRule) (p : Packet) : option NatAction :=
  head (omap (fun r => nv_run p (fun _ => []) (nr_exprs r)) rules).

(** The destination after prerouting, and whether postrouting masquerades. *)
Definition table_chain (ts : NatTables) (t c : string) : list NRule :=
  match ts !! t with Some tb => match nt_chains tb !! c with Some ch => nc_rules ch | None => [] end | None => [] end.
Definition translated `{NatVM} (ts : NatTables) (t : string) (p : Packet) (dst : Addr) : Addr :=
  match chain_action (table_chain ts t "prerouting") p with Some (ToRange lo hi) => nv_netmap lo hi dst | _ => dst end.
Definition masquerades `{NatVM} (ts : NatTables) (t : string) (p : Packet) : bool :=
  match chain_action (table_chain ts t "postrouting") p with Some ToMasquerade => true | _ => false end.

(** *** Bytes and masks *)

Lemma byte_land x y n : 0 <= n -> Z.land (Z.shiftr x n mod 256) (Z.shiftr y n mod 256) = Z.shiftr (Z.land x y) n mod 256.
Proof.
  intros Hn. change 256 with (2 ^ 8). rewrite <- !Z.land_ones, Z.shiftr_land by lia.
  apply Z.bits_inj'. intros i Hi. rewrite !Z.land_spec. destruct (Z.testbit (Z.ones 8) i); by rewrite ?andb_true_r, ?andb_false_r.
Qed.
Lemma land_As4 a b : lxor_bytes (land_bytes (As4 a) (As4 b)) [0; 0; 0; 0] = As4 (Z.land a b).
Proof.
  unfold As4, land_bytes, lxor_bytes. cbn [zip_with]. rewrite !Z.lxor_0_r, !byte_land by lia.
  pose proof (byte_land a b 0 ltac:(lia)) as H0. rewrite !Z.shiftr_0_r in H0. by rewrite H0.
Qed.
Lemma prefixMask_As4 bits : prefixMask bits = As4 (u32 (Z.shiftl 0xFFFFFFFF (32 - bits))).
Proof. done. Qed.
Lemma land_mask a bits : is_u32 a -> 0 <= bits <= 32 -> Z.land a (u32 (Z.shiftl 0xFFFFFFFF (32 - bits))) = mask_addr a bits.
Proof.
  intros Ha Hb. change 0xFFFFFFFF with (Z.ones 32). unfold u32, W32, mask_addr. rewrite <- Z.land_ones by lia.
  apply Z.bits_inj'. intros i Hi. rewrite !Z.land_spec. destruct (decide (i < 32)) as [Hlt|Hge].
  - rewrite (Z.ones_spec_low 32 i), andb_true_r by lia. destruct (decide (i < 32 - bits)) as [Hlo|Hhi].
    + rewrite !Z.shiftl_spec_low by lia. apply andb_false_r.
    + rewrite !Z.shiftl_spec, Z.shiftr_spec, Z.ones_spec_low by lia. rewrite andb_true_r. f_equal. lia.
  - rewrite Z.ones_spec_high, !andb_false_r by lia. symmetry.
    destruct (mask_addr_fits a bits Ha Hb) as (Hm0 & Hm1 & _). pose proof (pow_le_32 (32 - bits) ltac:(lia)).
    fold (mask_addr a bits). rewrite <- (Z.mod_small (mask_addr a bits) (2 ^ 32)) by (unfold W32 in *; lia).
    apply Z.mod_pow2_bits_high. lia.
Qed.

(** The comparison after the mask: the address is in the prefix. *)
Lemma masked_cmp p a : prefix_ok p -> is_u32 a ->
  lxor_bytes (land_bytes (As4 a) (prefixMask (PrefixLen (BlockFromPrefix p)))) [0; 0; 0; 0] = addrBytes (Base (BlockFromPrefix p)) <->
  Contains p a = true.
Proof.
  intros [Hp Hb] Ha. unfold addrBytes, BlockFromPrefix. cbn [PrefixLen Base Addr_of Bits Masked].
  rewrite prefixMask_As4, land_As4, land_mask by done.
  pose proof (mask_addr_fits _ _ Hp Hb) as (Hm0 & Hm1 & _). pose proof (mask_addr_fits _ _ Ha Hb) as (Hn0 & Hn1 & _).
  pose proof (pow_le_32 (32 - Bits p) ltac:(lia)).
  assert (is_u32 (mask_addr (Addr_of p) (Bits p)) /\ is_u32 (mask_addr a (Bits p))) as [Hu Hv] by (unfold is_u32; lia).
  rewrite AddrToUint32_id, Uint32ToAddr_id by (rewrite ?AddrToUint32_id; done).
  unfold Contains. rewrite Z.eqb_eq. unfold mask_addr in *. split.
  - intros Heq%As4_inj; [|done..]. apply (f_equal (fun x => Z.shiftr x (32 - Bits p))) in Heq.
    rewrite !Z.shiftr_shiftl_l, !Z.sub_diag, !Z.shiftl_0_r in Heq by lia. done.
  - by intros ->.
Qed.

Lemma set_reg_eq r v rg : set_reg r v rg r = v.
Proof. unfold set_reg. by rewrite decide_True. Qed.
Lemma set_reg_ne r r' v rg : r' <> r -> set_reg r v rg r' = rg r'.
Proof. unfold set_reg. intros. by rewrite decide_False. Qed.

Section Translation.
Context `{NatVM}.

Lemma ipv4_reg src dst p : ipv4_packet src dst p -> [pk_nfproto p] = [NFPROTO_IPV4].
Proof. by intros (-> & _). Qed.

(** An address field compared with a prefix; the registers after it do not matter. *)
Lemma field_match q off a p rg es : prefix_ok q -> is_u32 a -> 0 <= off -> off + 4 <= Z.of_nat (length (pk_header p)) ->
  slice off 4 (pk_header p) = As4 a ->
  exists rg', nv_run p rg (NPayloadNetwork 1 off 4 :: NBitwise 1 1 4 (prefixMask (PrefixLen (BlockFromPrefix q))) [0; 0; 0; 0]
      :: NCmpEq 1 (addrBytes (Base (BlockFromPrefix q))) :: es) = if Contains q a then nv_run p rg' es else None.
Proof.
  intros Hq Ha Hoff Hlen Hsl. rewrite nv_payload, nv_bitwise, nv_cmp by lia. rewrite !set_reg_eq, Hsl.
  eexists. case_decide as Hc.
  - apply masked_cmp in Hc; [|done..]. by rewrite Hc.
  - destruct (Contains q a) eqn:Hin; [|done]. exfalso. by apply Hc, masked_cmp.
Qed.

Lemma last_address q : prefix_ok q ->
  u32 (Base (BlockFromPrefix q) + u32 (Z.shiftl 1 (32 - PrefixLen (BlockFromPrefix q))) - 1) =
  mask_addr (Addr_of q) (Bits q) + 2 ^ (32 - Bits q) - 1 /\ is_u32 (mask_addr (Addr_of q) (Bits q)).
Proof.
  intros [Hq Hb]. unfold BlockFromPrefix. cbn [PrefixLen Base Addr_of Bits Masked].
  pose proof (mask_addr_fits _ _ Hq Hb) as (Hm0 & Hm1 & _). pose proof (pow_le_32 (32 - Bits q) ltac:(lia)).
  assert (is_u32 (mask_addr (Addr_of q) (Bits q))) as Hu by (unfold is_u32; lia). split; [|done].
  rewrite AddrToUint32_id, Z.shiftl_mul_pow2, Z.mul_1_l by (done || lia). unfold u32.
  rewrite <- (Z.mod_small (mask_addr (Addr_of q) (Bits q) + 2 ^ (32 - Bits q) - 1) W32) by lia.
  rewrite Zminus_mod, Zplus_mod_idemp_r, <- Zminus_mod. done.
Qed.

Lemma dnat_rule s r p src dst : prefix_ok s -> prefix_ok r -> ipv4_packet src dst p -> is_u32 dst ->
  nv_run p (fun _ => []) (dnatPrefixExprs s r) =
  if Contains s dst
  then Some (ToRange (As4 (mask_addr (Addr_of r) (Bits r))) (As4 (mask_addr (Addr_of r) (Bits r) + 2 ^ (32 - Bits r) - 1)))
  else None.
Proof.
  intros Hs Hr Hp Hdst. pose proof (ipv4_reg _ _ _ Hp) as Hn. destruct Hp as (_ & Hlen & _ & Hd). unfold dnatPrefixExprs.
  rewrite nv_meta, nv_cmp. rewrite set_reg_eq, decide_True by done.
  destruct (last_address r Hr) as [-> Hu]. pose proof (pow_le_32 (32 - Bits r) ltac:(destruct Hr; lia)).
  pose proof (mask_addr_fits _ _ (proj1 Hr) (proj2 Hr)) as (Hm0 & Hm1 & _).
  edestruct (field_match s 16 dst p) as [rg ->]; [done|done|lia|lia|done|]. destruct (Contains s dst); [|done].
  rewrite !nv_immediate, nv_dnat, set_reg_ne, !set_reg_eq by done. unfold addrBytes, BlockFromPrefix.
  cbn [PrefixLen Base Addr_of Bits Masked]. rewrite AddrToUint32_id by done.
  rewrite !Uint32ToAddr_id by (unfold is_u32; lia). done.
Qed.
Lemma masquerade_rule pool r p src dst : prefix_ok pool -> prefix_ok r -> ipv4_packet src dst p -> is_u32 src -> is_u32 dst ->
  nv_run p (fun _ => []) (masqueradeExprs pool r) = if Contains pool src && Contains r dst then Some ToMasquerade else None.
Proof.
  intros Hpool Hr Hp Hsrc Hdst. pose proof (ipv4_reg _ _ _ Hp) as Hn. destruct Hp as (_ & Hlen & Hs & Hd). unfold masqueradeExprs.
  rewrite nv_meta, nv_cmp. rewrite set_reg_eq, decide_True by done.
  edestruct (field_match pool 12 src p) as [rg ->]; [done|done|lia|lia|done|]. destruct (Contains pool src); [|done].
  edestruct (field_match r 16 dst p) as [rg' ->]; [done|done|lia|lia|done|]. destruct (Contains r dst); [|done]. apply nv_masq.
Qed.

(** A chain of such rules: the first match. *)
Lemma chain_pre vs p src dst : rules_ok vs -> ipv4_packet src dst p -> is_u32 dst ->
  chain_action (pre_rule <$> vs) p =
  (fun v : Prefix * Prefix => ToRange (As4 (mask_addr (Addr_of v.2) (Bits v.2))) (As4 (mask_addr (Addr_of v.2) (Bits v.2) + 2 ^ (32 - Bits v.2) - 1)))
    <$> head (filter (fun v => Contains v.1 dst = true) vs).
Proof.
  intros Hvs Hp Hd. unfold chain_action. induction Hvs as [|v vs [Hs Hr] Hvs IH]; [done|].
  rewrite fmap_cons. cbn [omap list_omap nr_exprs pre_rule]. rewrite (dnat_rule _ _ _ src dst) by done. rewrite filter_cons.
  destruct (Contains v.1 dst); [done|]. exact IH.
Qed.
Lemma chain_post pool vs p src dst : prefix_ok pool -> rules_ok vs -> ipv4_packet src dst p -> is_u32 src -> is_u32 dst ->
  chain_action (post_rule pool <$> vs) p =
  if Contains pool src && existsb (fun v => Contains v.2 dst) vs then Some ToMasquerade else None.
Proof.
  intros Hpool Hvs Hp Hsrc Hd. unfold chain_action. induction Hvs as [|v vs [Hs Hr] Hvs IH]; [by rewrite andb_false_r|].
  rewrite fmap_cons. cbn [omap list_omap nr_exprs post_rule existsb]. rewrite (masquerade_rule _ _ _ src dst) by done.
  destruct (Contains pool src); simpl; [|exact IH]. destruct (Contains v.2 dst); [done|exact IH].
Qed.
End Translation.

(** The rebuilt table. A rebuild that succeeds leaves every other table as it
    was and makes this one the given rules, which [Current] then reads back in
    order when the chains can be listed; one that fails, or panics on an IPv6
    prefix, changes no table. *)
Theorem Rebuild_spec {K} `{NatKernelLaws K} `{NetipV6} table pool vs k r k' :
  rules_ok vs -> Rebuild table (P4 pool) (v4_rules vs) k = (r, k') ->
  match r with
  | Ok _ => delete table (nk_view k') = delete table (nk_view k) /\
      forall rs k2, is_ok (fst (nk_ListChains (snd (nft nk_New k')))) = true -> Current table k' = (Ok rs, k2) -> rs = v4_rules vs
  | Err e => nk_view k' = nk_view k /\ e <> EPanic
  end.
Proof.
  intros Hvs Hr. destruct r as [[]|e].
  - pose proof (Rebuild_v4 _ _ _ _ _ Hr) as Hv. split; [by rewrite Hv, delete_insert_eq|].
    intros rs k2 Hl Hc. apply (Current_two table vs (post_rule pool <$> vs) k' rs k2); [done| |done..]. by rewrite Hv, lookup_insert_eq.
  - apply Rebuild_view in Hr as [Hv Hp]. split; [done|]. intros He%Hp. by rewrite rule_pairs_v4 in He.
Qed.

(** The announcements a server gives out: blocks as long as their subnets, no two
    blocks sharing an address. *)
Definition blocks_match (vs : list (Prefix * Prefix)) : Prop :=
  (forall v, v ∈ vs -> Bits v.1 = Bits v.2) /\
  (forall v w a, v ∈ vs -> w ∈ vs -> Contains v.1 a = true -> Contains w.1 a = true -> v = w).

Lemma head_filter_in {A} (P : A -> Prop) `{forall x, Decision (P x)} l x : x ∈ l -> P x -> (forall y, y ∈ l -> P y -> y = x) ->
  head (filter P l) = Some x.
Proof.
  intros Hx HP Hu. assert (x ∈ filter P l) as Hf by by apply list_elem_of_filter.
  destruct (filter P l) as [|y l'] eqn:Heq; [by apply not_elem_of_nil in Hf|]. simpl. f_equal.
  assert (y ∈ filter P l) as [? ?]%list_elem_of_filter by (rewrite Heq; left). by apply Hu.
Qed.

Lemma block_offset p a : prefix_ok p -> is_u32 a -> Contains p a = true -> a mod 2 ^ (32 - Bits p) = a - mask_addr (Addr_of p) (Bits p).
Proof.
  intros [Hp Hb] Ha Hc%Contains_iff; [|done]. pose proof (mask_addr_fits _ _ Hp Hb) as (_ & _ & Hm).
  pose proof (pow_le_32 (32 - Bits p) ltac:(lia)).
  rewrite <- (Z.mod_small (a - mask_addr (Addr_of p) (Bits p)) (2 ^ (32 - Bits p))) by lia.
  by rewrite Zminus_mod, Hm, Z.sub_0_r, Zmod_mod.
Qed.

(** C29: what the table does to packets. After a successful rebuild, a packet for
    host [n] of an announcement's synthetic block goes to host [n] of its subnet, a
    packet for no announced block keeps its destination, and a forwarded packet is
    masqueraded exactly when its source is in the VPN pool and its destination in
    an announced subnet. *)
Theorem translation_spec {K} `{NatKernelLaws K} `{NatVM} table pool vs k k' p src dst :
  Rebuild table (P4 pool) (v4_rules vs) k = (Ok tt, k') -> prefix_ok pool -> rules_ok vs -> blocks_match vs ->
  ipv4_packet src dst p -> is_u32 src -> is_u32 dst ->
  (forall v, v ∈ vs -> Contains v.1 dst = true ->
     translated (nk_view k') table p dst = mask_addr (Addr_of v.2) (Bits v.2) + (dst - mask_addr (Addr_of v.1) (Bits v.1)) /\
     Contains v.2 (translated (nk_view k') table p dst) = true) /\
  ((forall v, v ∈ vs -> Contains v.1 dst = false) -> translated (nk_view k') table p dst = dst) /\
  masquerades (nk_view k') table p = Contains pool src && existsb (fun v => Contains v.2 dst) vs.
Proof.
  intros Hr Hpool Hvs [Hlen Hdis] Hp Hsrc Hdst. apply Rebuild_v4 in Hr as ->. unfold translated, masquerades, table_chain, two_chains.
  rewrite lookup_insert_eq. cbn [nt_chains]. rewrite lookup_insert_eq, lookup_insert_ne, lookup_singleton_eq by done. cbn [nc_rules].
  rewrite (chain_pre vs p src dst), (chain_post pool vs p src dst) by done. split_and!.
  - intros v Hv Hc. rewrite (head_filter_in _ vs v) by eauto. cbn [fmap option_fmap option_map].
    unfold rules_ok in Hvs. rewrite Forall_forall in Hvs. destruct (Hvs v Hv) as [Hs [Hr Hb]]. pose proof (mask_addr_fits _ _ Hr Hb) as (Hm0 & Hm1 & Hm).
    pose proof (pow_le_32 (32 - Bits v.2) ltac:(lia)).
    rewrite nv_netmap_range by (done || lia || (unfold is_u32; lia)).
    assert (dst mod 2 ^ (32 - Bits v.2) = dst - mask_addr (Addr_of v.1) (Bits v.1)) as -> by (rewrite <- (Hlen v Hv); by apply block_offset).
    split; [done|]. apply Contains_iff in Hc; [|apply Hs]. apply Contains_iff; [done|]. rewrite (Hlen v Hv) in Hc |- *. lia.
  - intros Hno. assert (filter (fun v => Contains v.1 dst = true) vs = []) as ->; [|done].
    clear Hvs Hlen Hdis. induction vs as [|v vs IH]; [done|]. rewrite filter_cons, (Hno v) by left. apply IH. intros w Hw. apply Hno. by right.
  - by destruct (Contains pool src && _).
Qed.

(** ** A kernel to run it on *)

#[global] Instance sim_nat : NatKernel NatTables | 100 :=
  {| nk_Lock := fun _ => ret tt; nk_Unlock := fun _ k => k; nk_New := ret tt;
     nk_ListTables := gets (fun k => (map_to_list k).*1);
     nk_ListChains := gets (fun k => map_to_list k ≫= fun t => (fun c => (t.1, c.1)) <$> map_to_list (nt_chains t.2));
     nk_GetRules := fun t c k => match k !! t ≫= fun tb => nt_chains tb !! c with Some ch => (Ok (nc_rules ch), k) | None => (Err tt, k) end;
     nk_Flush := fun ops k => match apply_nat_ops ops k with Some k' => (Ok tt, k') | None => (Err tt, k) end |}.
#[global, program] Instance sim_nat_laws : NatKernelLaws NatTables | 100 := {| nk_view k := k |}.
Next Obligation. done. Qed.
Next Obligation. done. Qed.
Next Obligation. done. Qed.
Next Obligation. done. Qed.
Next Obligation. done. Qed.
Next Obligation. intros t c k. simpl. by case_match. Qed.
Next Obligation.
  intros k l [= <-]. split; [apply NoDup_fst_map_to_list|]. intros t. rewrite list_elem_of_fmap. split.
  - intros ([t' tb] & -> & Hin%elem_of_map_to_list). by exists tb.
  - intros [tb Htb]. exists (t, tb). split; [done|]. by apply elem_of_map_to_list.
Qed.
Next Obligation.
  intros k l [= <-] t c. rewrite list_elem_of_bind. split.
  - intros ([t' tb] & ([c' ch] & [= -> ->] & Hc%elem_of_map_to_list)%list_elem_of_fmap & Hin%elem_of_map_to_list). simpl in *. eauto.
  - intros (tb & Htb & [ch Hch]). exists (t, tb). split; [|by apply elem_of_map_to_list].
    apply list_elem_of_fmap. exists (c, ch). split; [done|]. by apply elem_of_map_to_list.
Qed.
Next Obligation.
  intros t c k rs. simpl. destruct (k !! t) as [tb|]; simpl; [|done]. destruct (nt_chains tb !! c) as [ch|] eqn:Hc; simpl; [|done].
  intros [= <-]. eauto.
Qed.
Next Obligation. intros ops k k'. simpl. case_match; congruence. Qed.
Next Obligation. intros ops k k' e. simpl. case_match; congruence. Qed.

(** The kernel's NETMAP: the bits in which the range's ends differ are the host's. *)
Definition netmap (lo hi : list Z) (a : Addr) : Addr :=
  let host := Z.lxor (be_Uint32 lo) (be_Uint32 hi) in Z.lor (Z.ldiff (be_Uint32 lo) host) (Z.land a host).

Lemma aligned_land lo n : 0 <= n -> lo mod 2 ^ n = 0 -> Z.land lo (Z.ones n) = 0.
Proof. intros Hn Hm. by rewrite Z.land_ones. Qed.
Lemma aligned_add lo n x : 0 <= n -> lo mod 2 ^ n = 0 -> 0 <= x < 2 ^ n -> Z.lor lo x = lo + x.
Proof.
  intros Hn Hm Hx. apply Z.div_exact in Hm; [|lia]. rewrite Z.mul_comm in Hm. rewrite Hm, <- Z.shiftl_mul_pow2 by done.
  by rewrite lor_shiftl_add, Z.shiftl_mul_pow2.
Qed.
Lemma netmap_range lo n a : is_u32 lo -> is_u32 a -> 0 <= n <= 32 -> lo mod 2 ^ n = 0 ->
  netmap (As4 lo) (As4 (lo + 2 ^ n - 1)) a = lo + a mod 2 ^ n.
Proof.
  intros Hlo Ha Hn Hm. pose proof (pow_le_32 n Hn) as Hp. pose proof (W32_split (32 - n) ltac:(lia)) as HW.
  replace (32 - (32 - n)) with n in HW by lia.
  assert (lo + 2 ^ n <= W32) as Hfit.
  { apply Z.div_exact in Hm; [|lia]. unfold is_u32 in Hlo. assert (lo / 2 ^ n < 2 ^ (32 - n)) by (apply Z.div_lt_upper_bound; lia). nia. }
  unfold netmap. rewrite !be_range by (unfold is_u32 in *; lia).
  pose proof (aligned_land lo n ltac:(lia) Hm) as Hland.
  assert (Z.lxor lo (lo + 2 ^ n - 1) = Z.ones n) as ->.
  { rewrite <- Z.add_sub_assoc, <- (aligned_add lo n (2 ^ n - 1)) by lia. rewrite Z.sub_1_r, <- Z.ones_equiv.
    by rewrite <- Z.lxor_lor, <- Z.lxor_assoc, Z.lxor_nilpotent, Z.lxor_0_l. }
  rewrite Z.land_ones by lia. assert (Z.ldiff lo (Z.ones n) = lo) as ->.
  { rewrite Z.ldiff_ones_r, Z.shiftr_div_pow2, Z.shiftl_mul_pow2 by lia. apply Z.div_exact in Hm; lia. }
  apply (aligned_add lo n); [lia|done|]. apply Z.mod_pos_bound. lia.
Qed.

Fixpoint sim_nat_run (p : Packet) (rg : Regs) (es : list NExpr) : option NatAction :=
  match es with
  | [] => None
  | NMeta_NFPROTO r :: es => sim_nat_run p (set_reg r [pk_nfproto p] rg) es
  | NCmpEq r d :: es => if decide (rg r = d) then sim_nat_run p rg es else None
  | NPayloadNetwork d off len :: es => sim_nat_run p (set_reg d (slice off len (pk_header p)) rg) es
  | NBitwise s d len mask xor :: es => sim_nat_run p (set_reg d (lxor_bytes (land_bytes (rg s) mask) xor) rg) es
  | NImmediate r d :: es => sim_nat_run p (set_reg r d rg) es
  | NDestNATPrefix f a b :: _ => Some (ToRange (rg a) (rg b))
  | NMasq :: _ => Some ToMasquerade
  end.
#[global, program] Instance sim_nat_vm : NatVM | 100 := {| nv_run := sim_nat_run; nv_netmap := netmap |}.
Solve Obligations with (try done).
Next Obligation. intros. by apply netmap_range. Qed.

(** Two announcements of a router in 10.8.0.0/16, and packets to host 7 of each. *)
Definition demo_vs : list (Prefix * Prefix) :=
  [(PrefixFrom (AddrFrom4 [100; 64; 1; 0]) 24, PrefixFrom (AddrFrom4 [192; 168; 1; 0]) 24);
   (PrefixFrom (AddrFrom4 [100; 64; 2; 0]) 24, PrefixFrom (AddrFrom4 [192; 168; 9; 0]) 24)].
Definition demo_pool : Prefix := PrefixFrom (AddrFrom4 [10; 8; 0; 0]) 16.
Definition demo_nat : NatTables := snd (Rebuild "lanweave_rt" (P4 demo_pool) (v4_rules demo_vs) (∅ : NatTables)).
Lemma demo_nat_run : Rebuild "lanweave_rt" (P4 demo_pool) (v4_rules demo_vs) (∅ : NatTables) = (Ok tt, demo_nat).
Proof. apply run_pair. vm_compute. reflexivity. Qed.
Lemma demo_vs_ok : rules_ok demo_vs.
Proof. unfold rules_ok. repeat constructor; vm_compute; congruence. Qed.
(** A check of [blocks_match]. *)
Definition apart (v w : Prefix * Prefix) : bool :=
  let start p := mask_addr (Addr_of p) (Bits p) in let stop p := start p + 2 ^ (32 - Bits p) in
  bool_decide (v = w) || (stop v.1 <=? start w.1) || (stop w.1 <=? start v.1).
Lemma apart_match vs : rules_ok vs -> forallb (fun v => Bits v.1 =? Bits v.2) vs = true ->
  forallb (fun v => forallb (apart v) vs) vs = true -> blocks_match vs.
Proof.
  unfold rules_ok. rewrite Forall_forall, !forallb_forall. setoid_rewrite <- list_elem_of_In. intros Hok Hlen Hap.
  split; [intros v Hv; by apply Z.eqb_eq, Hlen|]. intros v w a Hv Hw Ha Hb. specialize (Hap v Hv).
  rewrite forallb_forall in Hap. specialize (Hap w). rewrite <- list_elem_of_In in Hap. specialize (Hap Hw).
  apply Contains_iff in Ha; [|by apply Hok]. apply Contains_iff in Hb; [|by apply Hok].
  unfold apart in Hap. rewrite !orb_true_iff, bool_decide_eq_true, !Z.leb_le in Hap. destruct Hap as [[?|?]|?]; [done|lia..].
Qed.
Lemma demo_vs_match : blocks_match demo_vs.
Proof. apply apart_match; [apply demo_vs_ok|reflexivity..]. Qed.

#[local] Opaque demo_nat.
#[local] Instance no_ipv6 : NetipV6 := fun _ => None.
Lemma Rebuild_spec_witness : delete "lanweave_rt" (nk_view demo_nat) = delete "lanweave_rt" (∅ : NatTables).
Proof.
  exact (proj1 (Rebuild_spec "lanweave_rt" demo_pool demo_vs (∅ : NatTables) (Ok tt) demo_nat demo_vs_ok demo_nat_run)).
Defined.

Definition nat_packet : Packet := demo_packet (AddrFrom4 [10; 8; 0; 5]) (AddrFrom4 [100; 64; 2; 7]).
Lemma nat_packet_ok : ipv4_packet (AddrFrom4 [10; 8; 0; 5]) (AddrFrom4 [100; 64; 2; 7]) nat_packet.
Proof. split_and!; reflexivity || (vm_compute; congruence). Qed.
Lemma translation_spec_witness : translated demo_nat "lanweave_rt" nat_packet (AddrFrom4 [100; 64; 2; 7]) = AddrFrom4 [192; 168; 9; 7].
Proof.
  destruct (translation_spec "lanweave_rt" demo_pool demo_vs (∅ : NatTables) demo_nat nat_packet (AddrFrom4 [10; 8; 0; 5])
    (AddrFrom4 [100; 64; 2; 7]) demo_nat_run) as (Hin & _);
    [by repeat split|exact demo_vs_ok|exact demo_vs_match|exact nat_packet_ok|by repeat split..|].
  destruct (Hin (PrefixFrom (AddrFrom4 [100; 64; 2; 0]) 24, PrefixFrom (AddrFrom4 [192; 168; 9; 0]) 24)) as [Heq _].
  - right. left.
  - reflexivity.
  - exact Heq.
Defined.
