(* ===== verification/RouteSync.v ===== *)
(** * What a client reaches: the aggregated announcements
    ([internal/client/routesync], [internal/netutil], [internal/router/reconcile])

    The server's lists per zone become one entry per announcement, with the zones
    it is in; the announcer's and the consumer's views are taken from it. The list
    call is a parameter, a computation that may fail. *)
From stdpp Require Import sorting.
From S2P Require Import Prelude GoStrings Netip Ipam Codec Db StoreUsers StoreNodes StoreAnnounce Netfw Wg Auth Api Netutil NatCtl.

#[local] Open Scope lw_scope.


(** ** routesync.go *)

Record Entry : Type := mkEntry
  { e_ID : Z; e_Subnet : AnyPrefix; e_Synthetic : AnyPrefix; e_Zones : list string; e_NodeID : Z; e_Announcer : string }.

Inductive fetch_err : Type :=
| EList (zone : string)      (** the list call failed *)
| ESubnet (text : string)    (** a malformed CIDR from the server *)
| ESynthetic (text : string).

Definition add_zone (z : string) (e : Entry) : Entry :=
  mkEntry (e_ID e) (e_Subnet e) (e_Synthetic e) (e_Zones e ++ [z]) (e_NodeID e) (e_Announcer e).
Definition sort_zones (e : Entry) : Entry :=
  mkEntry (e_ID e) (e_Subnet e) (e_Synthetic e) (merge_sort String.le (e_Zones e)) (e_NodeID e) (e_Announcer e).

Definition entry_le (a b : Entry) : Prop := e_ID a <= e_ID b.
#[export] Instance entry_le_dec : RelDecision entry_le.
Proof. unfold RelDecision, entry_le. intros a b. apply _. Defined.

Section Fetch.
Context `{NetipV6}.

(** The entry of an announcement first met in zone [z]. *)
Definition new_entry (z : string) (a : AnnouncementResponse) : res fetch_err Entry :=
  match ParsePrefix (ar_Subnet a) with
  | None => Err (ESubnet (ar_Subnet a))
  | Some real =>
      match ParsePrefix (ar_Synthetic a) with
      | None => Err (ESynthetic (ar_Synthetic a))
      | Some synth => Ok (mkEntry (ar_ID a) real synth [z] (ar_NodeID a) (ar_NodeName a))
      end
  end.

(** The inner loop: the announcements of zone [z]. *)
Fixpoint fetch_anns (z : string) (anns : list AnnouncementResponse) (byID : gmap Z Entry) : res fetch_err (gmap Z Entry) :=
  match anns with
  | [] => Ok byID
  | a :: anns =>
      match byID !! ar_ID a with
      | Some e => fetch_anns z anns (<[ar_ID a := add_zone z e]> byID)
      | None =>
          match new_entry z a with
          | Err e => Err e
          | Ok e => fetch_anns z anns (<[ar_ID a := e]> byID)
          end
      end
  end.

(** [S]: the state behind the list call. *)
Fixpoint fetch_zones {E S} (list_anns : string -> M E S (list AnnouncementResponse)) (zones : list ZoneResponse)
    (byID : gmap Z Entry) : M fetch_err S (gmap Z Entry) :=
  match zones with
  | [] => ret byID
  | z :: zones => fun s =>
      match list_anns (zr_Name z) s with
      | (Err _, s) => (Err (EList (zr_Name z)), s)
      | (Ok anns, s) =>
          match fetch_anns (zr_Name z) anns byID with
          | Err e => (Err e, s)
          | Ok byID => fetch_zones list_anns zones byID s
          end
      end
  end.

(** The entries leave the map in any order and are sorted by their id. *)
Definition Fetch {E S} (zones : list ZoneResponse) (list_anns : string -> M E S (list AnnouncementResponse)) :
    M fetch_err S (list Entry) :=
  let! byID := fetch_zones list_anns zones ∅ in
  ret (merge_sort entry_le (sort_zones <$> (map_to_list byID).*2)).

Definition Mine (entries : list Entry) (nodeID : Z) : list Entry := filter (fun e => e_NodeID e = nodeID) entries.

Fixpoint consume (nodeID : Z) (seen : list AnyPrefix) (entries : list Entry) : list Entry :=
  match entries with
  | [] => []
  | e :: entries =>
      if bool_decide (e_NodeID e = nodeID) || bool_decide (e_Synthetic e ∈ seen)
      then consume nodeID seen entries
      else e :: consume nodeID (e_Synthetic e :: seen) entries
  end.
Definition Consumed (entries : list Entry) (nodeID : Z) : list Entry := consume nodeID [] entries.

Definition Prefixes (entries : list Entry) : list AnyPrefix := e_Synthetic <$> entries.

Fixpoint MemberZones {E S} (zones : list ZoneResponse) (members : string -> M E S (list ZoneMemberResponse)) (selfIP : string) :
    M E S (list ZoneResponse) :=
  match zones with
  | [] => ret []
  | z :: zones =>
      let! resp := try (members (zr_Name z)) in
      let! out := MemberZones zones members selfIP in
      ret (match resp with
           | Ok ms => if existsb (fun m => bool_decide (mr_IP m = selfIP)) ms then z :: out else out
           | Err _ => out
           end)
  end.

(** ** reconcile.go *)

(** [reconcile.Entry]: one of this node's announcements. *)
Record OwnEntry : Type := mkOwnEntry { own_ID : Z; own_Subnet : AnyPrefix; own_Synthetic : AnyPrefix; own_Zones : list string }.

Definition Desired {E S} (zones : list ZoneResponse) (list_anns : string -> M E S (list AnnouncementResponse)) (nodeID : Z) :
    M fetch_err S (list NatRule * list OwnEntry) :=
  let! all := Fetch zones list_anns in
  let mine := Mine all nodeID in
  ret ((fun e => mkNatRule (e_Synthetic e) (e_Subnet e)) <$> mine,
       (fun e => mkOwnEntry (e_ID e) (e_Subnet e) (e_Synthetic e) (e_Zones e)) <$> mine).
End Fetch.
