(* ===== verification/RouteSyncProps.v ===== *)
(** * The aggregation is what the lists say *)
From stdpp Require Import sorting.
From S2P Require Import Prelude GoStrings Netip Ipam Codec Db StoreUsers StoreNodes StoreAnnounce Netfw Wg Auth Api Netutil NatCtl RouteSync.

#[local] Open Scope lw_scope.

(** ** Occurrences *)

(** Every announcement with the zone that lists it, in the order of the calls. *)
Abbreviation Occ := (string * AnnouncementResponse)%type.
Fixpoint gather {E S} (list_anns : string -> M E S (list AnnouncementResponse)) (zones : list ZoneResponse) : M E S (list Occ) :=
  match zones with
  | [] => ret []
  | z :: zones =>
      let! anns := list_anns (zr_Name z) in
      let! rest := gather list_anns zones in
      ret ((pair (zr_Name z) <$> anns) ++ rest)
  end.
Definition about (id : Z) (occs : list Occ) : list Occ := filter (fun o => ar_ID o.2 = id) occs.

Section Aggregation.
Context `{NetipV6}.

(** The entry of the occurrences of one announcement: the first gives the fields,
    all of them the zones. *)
Definition entry_of (occs : list Occ) : option Entry :=
  match occs with
  | [] => None
  | o :: rest =>
      match new_entry o.1 o.2 with
      | Ok e => Some (mkEntry (e_ID e) (e_Subnet e) (e_Synthetic e) (o.1 :: rest.*1) (e_NodeID e) (e_Announcer e))
      | Err _ => None
      end
  end.

Fixpoint fetch_occs (occs : list Occ) (byID : gmap Z Entry) : res fetch_err (gmap Z Entry) :=
  match occs with
  | [] => Ok byID
  | o :: occs =>
      match byID !! ar_ID o.2 with
      | Some e => fetch_occs occs (<[ar_ID o.2 := add_zone o.1 e]> byID)
      | None => match new_entry o.1 o.2 with Err e => Err e | Ok e => fetch_occs occs (<[ar_ID o.2 := e]> byID) end
      end
  end.

Lemma fetch_anns_occs z anns rest m :
  fetch_occs ((pair z <$> anns) ++ rest) m = match fetch_anns z anns m with Ok m' => fetch_occs rest m' | Err e => Err e end.
Proof.
  revert m. induction anns as [|a anns IH]; intros m; simpl; [done|].
  destruct (m !! ar_ID a) as [e|]; [apply IH|]. destruct (new_entry z a) as [e|e]; [apply IH|done].
Qed.
Lemma fetch_zones_gather {E S} (list_anns : string -> M E S (list AnnouncementResponse)) zones s s' m m' :
  fetch_zones list_anns zones m s = (Ok m', s') <->
  exists occs, gather list_anns zones s = (Ok occs, s') /\ fetch_occs occs m = Ok m'.
Proof.
  revert s m. induction zones as [|z zones IH]; intros s m; simpl.
  - split; [intros [= <- <-]; by exists []|]. by intros (occs & [= <- <-] & [= <-]).
  - unfold bind. destruct (list_anns (zr_Name z) s) as [[anns|e] s1]; [|split; [done|by intros (? & ? & _)]].
    transitivity (exists occs, gather list_anns zones s1 = (Ok occs, s') /\ fetch_occs ((pair (zr_Name z) <$> anns) ++ occs) m = Ok m').
    + setoid_rewrite fetch_anns_occs. destruct (fetch_anns _ anns m) as [m1|e]; [apply IH|]. split; [done|by intros (? & _ & ?)].
    + destruct (gather list_anns zones s1) as [[occs|e] s2]; (split; [|]).
      * intros (? & [= <- <-] & Hm). by eexists.
      * intros (? & [= <- <-] & Hm). by eexists.
      * by intros (? & ? & _).
      * by intros (? & ? & _).
Qed.

(** The table after some occurrences. *)
Definition table_of (occs : list Occ) (m : gmap Z Entry) : Prop :=
  forall id, m !! id = entry_of (about id occs) /\ (about id occs <> [] -> is_Some (m !! id)).

Lemma entry_of_snoc l o e : entry_of l = Some e -> entry_of (l ++ [o]) = Some (add_zone o.1 e).
Proof.
  destruct l as [|p l]; [done|]. simpl. destruct (new_entry p.1 p.2) as [e0|]; [|done]. intros [= <-].
  unfold add_zone. simpl. by rewrite fmap_app.
Qed.
Lemma new_entry_zones z a e : new_entry z a = Ok e -> e_ID e = ar_ID a /\ e_Zones e = [z] /\ e_NodeID e = ar_NodeID a /\
  ParsePrefix (ar_Subnet a) = Some (e_Subnet e) /\ ParsePrefix (ar_Synthetic a) = Some (e_Synthetic e) /\ e_Announcer e = ar_NodeName a.
Proof.
  unfold new_entry. destruct (ParsePrefix (ar_Subnet a)) as [p|]; [|done]. destruct (ParsePrefix (ar_Synthetic a)) as [q|]; [|done].
  by intros [= <-].
Qed.
Lemma entry_of_one o e : new_entry o.1 o.2 = Ok e -> entry_of [o] = Some e.
Proof. intros Hn. simpl. rewrite Hn. apply new_entry_zones in Hn as (_ & Hz & _). destruct e. simpl in *. by rewrite Hz. Qed.

Lemma about_snoc id occs o : about id (occs ++ [o]) = if decide (ar_ID o.2 = id) then about id occs ++ [o] else about id occs.
Proof.
  unfold about. rewrite filter_app, filter_cons, filter_nil. case_decide; [done|apply app_nil_r].
Qed.
Lemma table_of_snoc occs m o e : table_of occs m ->
  (forall id, id = ar_ID o.2 -> entry_of (about id occs ++ [o]) = Some e) -> table_of (occs ++ [o]) (<[ar_ID o.2 := e]> m).
Proof.
  intros Hm He id. rewrite about_snoc. destruct (decide (ar_ID o.2 = id)) as [<-|Hne].
  - rewrite lookup_insert_eq, He by done. done.
  - by rewrite lookup_insert_ne.
Qed.

Lemma fetch_occs_table rest : forall don m, table_of don m -> (forall o, o ∈ rest -> is_ok (new_entry o.1 o.2) = true) ->
  exists m', fetch_occs rest m = Ok m' /\ table_of (don ++ rest) m'.
Proof.
  induction rest as [|o rest IH]; intros don m Hm Hok; simpl; [exists m; by rewrite app_nil_r|].
  destruct (Hm (ar_ID o.2)) as [Hid Hsome].
  assert (exists e, table_of (don ++ [o]) (<[ar_ID o.2 := e]> m) /\
    match m !! ar_ID o.2 with Some e0 => e = add_zone o.1 e0 | None => new_entry o.1 o.2 = Ok e end) as (e & Ht & He).
  { destruct (m !! ar_ID o.2) as [e0|] eqn:Hlook.
    - exists (add_zone o.1 e0). split; [|done]. apply table_of_snoc; [done|]. intros id ->. by apply entry_of_snoc.
    - specialize (Hok o (list_elem_of_here _ _)). destruct (new_entry o.1 o.2) as [e|] eqn:Hn; [|done]. exists e. split; [|done].
      apply table_of_snoc; [done|]. intros id ->. destruct (about (ar_ID o.2) don) eqn:Hab; [by apply entry_of_one|].
      by destruct Hsome as [? [=]]. }
  destruct (IH (don ++ [o]) _ Ht) as (m' & Hm' & Htab); [intros; apply Hok; by right|].
  exists m'. rewrite <- app_assoc in Htab. split; [|done].
  destruct (m !! ar_ID o.2) as [e0|]; [by subst e|]. by rewrite He.
Qed.
Lemma table_of_nil : table_of [] ∅.
Proof. intros id. by rewrite lookup_empty. Qed.
End Aggregation.

#[export] Instance entry_le_total : Total entry_le.
Proof. intros a b. unfold entry_le. lia. Qed.
#[export] Instance entry_le_trans : Transitive entry_le.
Proof. intros a b c. unfold entry_le. lia. Qed.

Section Fetched.
Context `{NetipV6}.

Lemma entry_of_id id occs e : entry_of (about id occs) = Some e -> e_ID e = id.
Proof.
  unfold about. destruct (filter _ occs) as [|o l] eqn:Hf; [done|]. simpl. destruct (new_entry o.1 o.2) as [e0|] eqn:Hn; [|done].
  intros [= <-]. simpl. rewrite (proj1 (new_entry_zones _ _ _ Hn)).
  assert (o ∈ filter (fun o => ar_ID o.2 = id) occs) as [? _]%list_elem_of_filter; [rewrite Hf; left|done].
Qed.

(** The entries of a table, sorted. *)
Definition entries_of (m : gmap Z Entry) : list Entry := merge_sort entry_le (sort_zones <$> (map_to_list m).*2).
Lemma elem_of_entries m e : (forall id x, m !! id = Some x -> e_ID x = id) ->
  e ∈ entries_of m <-> exists x, m !! e_ID e = Some x /\ e = sort_zones x.
Proof.
  intros Hid. unfold entries_of. rewrite merge_sort_Permutation, list_elem_of_fmap. split.
  - intros (x & -> & ([i y] & -> & Hin%elem_of_map_to_list)%list_elem_of_fmap). exists y. simpl. by rewrite (Hid i y).
  - intros (x & Hx & ->). exists x. split; [done|]. apply list_elem_of_fmap. exists (e_ID x, x). split; [done|].
    by apply elem_of_map_to_list.
Qed.
Lemma entries_sorted m : (forall id x, m !! id = Some x -> e_ID x = id) ->
  StronglySorted (fun a b => e_ID a < e_ID b) (entries_of m).
Proof.
  intros Hid. assert (StronglySorted entry_le (entries_of m)) as Hs by apply (StronglySorted_merge_sort entry_le).
  assert (NoDup (e_ID <$> entries_of m)) as Hnd.
  { unfold entries_of. rewrite merge_sort_Permutation, <- list_fmap_compose.
    assert ((e_ID ∘ sort_zones) <$> (map_to_list m).*2 = (map_to_list m).*1) as ->; [|apply NoDup_fst_map_to_list].
    rewrite <- list_fmap_compose. apply list_fmap_ext. intros i [k x] Hin%list_elem_of_lookup_2%elem_of_map_to_list. simpl. by apply Hid. }
  induction Hs as [|e l Hs IH Hall]; constructor.
  - apply IH. by apply NoDup_cons in Hnd as [_ ?].
  - apply NoDup_cons in Hnd as [Hnot _]. rewrite Forall_forall in Hall. apply List.Forall_forall. intros x Hx%list_elem_of_In.
    specialize (Hall x Hx). unfold entry_le in Hall.
    assert (e_ID e <> e_ID x) by (intros Heq; apply Hnot; rewrite Heq; by apply list_elem_of_fmap_2). lia.
Qed.

Lemma Fetch_entries {E S} (list_anns : string -> M E S (list AnnouncementResponse)) zones s m s' :
  fetch_zones list_anns zones ∅ s = (Ok m, s') -> Fetch zones list_anns s = (Ok (entries_of m), s').
Proof. unfold Fetch, bind. by intros ->. Qed.

(** The entry of an announcement, field by field. *)
Definition describes (occs : list Occ) (e : Entry) : Prop := exists o rest, about (e_ID e) occs = o :: rest /\
  ParsePrefix (ar_Subnet o.2) = Some (e_Subnet e) /\ ParsePrefix (ar_Synthetic o.2) = Some (e_Synthetic e) /\
  e_NodeID e = ar_NodeID o.2 /\ e_Announcer e = ar_NodeName o.2 /\ e_Zones e = merge_sort String.le (o :: rest).*1.
Lemma describes_entry occs e : describes occs e <-> exists x, entry_of (about (e_ID e) occs) = Some x /\ e = sort_zones x.
Proof.
  split.
  - intros (o & rest & Hab & Hs & Hy & Hn & Ha & Hz). rewrite Hab. simpl. unfold new_entry. rewrite Hs, Hy. eexists. split; [done|].
    assert (o ∈ about (e_ID e) occs) as [Hid _]%list_elem_of_filter by (rewrite Hab; left).
    unfold sort_zones. simpl. destruct e. simpl in *. by subst.
  - intros (x & Hx & He). destruct (about (e_ID e) occs) as [|o rest] eqn:Hab; [done|]. simpl in Hx.
    destruct (new_entry o.1 o.2) as [e0|] eqn:Hn; [|done]. injection Hx as <-. exists o, rest. rewrite He. simpl.
    apply new_entry_zones in Hn as (Hid & _ & ? & ? & ? & ?). rewrite He in Hab. simpl in Hab. done.
Qed.
(** Lists that answer with announcements that parse are aggregated. *)
Lemma Fetch_table {E S} (list_anns : string -> M E S (list AnnouncementResponse)) zones s occs s' :
  gather list_anns zones s = (Ok occs, s') -> (forall o, o ∈ occs -> is_ok (new_entry o.1 o.2) = true) ->
  exists m, Fetch zones list_anns s = (Ok (entries_of m), s') /\ forall id, m !! id = entry_of (about id occs).
Proof.
  intros Hg Hok. destruct (fetch_occs_table occs [] ∅ table_of_nil Hok) as (m & Hm & Ht). simpl in Ht.
  exists m. split; [apply Fetch_entries, fetch_zones_gather; by exists occs|]. intros id. apply Ht.
Qed.
Lemma table_ids occs (m : gmap Z Entry) : (forall id, m !! id = entry_of (about id occs)) -> forall id x, m !! id = Some x -> e_ID x = id.
Proof. intros Ht id x Hx. rewrite Ht in Hx. by apply (entry_of_id id occs). Qed.
End Fetched.

(** The aggregation against the lists. When every list call answers and the
    announcements carry CIDRs, the result has one entry per announcement id, in
    strictly increasing id order: the subnet, block, node and name of its first
    occurrence, and the names of all the zones that list it, sorted. *)
Theorem Fetch_spec `{NetipV6} {E S} (list_anns : string -> M E S (list AnnouncementResponse)) zones s occs s' :
  gather list_anns zones s = (Ok occs, s') -> (forall o, o ∈ occs -> is_ok (new_entry o.1 o.2) = true) ->
  exists es, Fetch zones list_anns s = (Ok es, s') /\ StronglySorted (fun a b => e_ID a < e_ID b) es /\
    forall e, e ∈ es <-> describes occs e.
Proof.
  intros Hg Hok. destruct (Fetch_table list_anns zones s occs s' Hg Hok) as (m & Hf & Ht). pose proof (table_ids occs m Ht) as Hid.
  exists (entries_of m). split_and!; [done|by apply entries_sorted|]. intros e. by rewrite elem_of_entries, describes_entry, Ht by done.
Qed.

(** ** The two views *)

Lemma elem_of_consume n seen es p :
  p ∈ Prefixes (consume n seen es) <-> (p ∉ seen) /\ exists e, e ∈ es /\ e_NodeID e <> n /\ e_Synthetic e = p.
Proof.
  revert seen. induction es as [|e es IH]; intros seen; simpl.
  { split; [by intros ?%not_elem_of_nil|by intros [_ (e & ?%not_elem_of_nil & _)]]. }
  setoid_rewrite elem_of_cons. destruct (_ || _) eqn:Hc.
  - rewrite IH. apply orb_true_iff in Hc. rewrite !bool_decide_eq_true in Hc. split; [naive_solver|].
    intros [Hns (x & [->|Hx] & Hne & <-)]; [exfalso; naive_solver|]. split; [done|by exists x].
  - apply orb_false_iff in Hc as [Hn Hs]. apply bool_decide_eq_false in Hn, Hs. simpl. rewrite elem_of_cons, IH, not_elem_of_cons. split.
    + intros [->|[[Hne Hns] (x & Hx & ? & <-)]]; [split; [done|]; exists e; auto|]. split; [done|]. exists x. auto.
    + intros [Hns (x & [->|Hx] & Hne & <-)]; [by left|]. destruct (decide (e_Synthetic x = e_Synthetic e)) as [->|]; [by left|right].
      split; [done|by exists x].
Qed.
Lemma consume_NoDup n seen es : NoDup (Prefixes (consume n seen es)).
Proof.
  revert seen. induction es as [|e es IH]; intros seen; simpl; [constructor|]. destruct (_ || _); [done|]. simpl. constructor; [|done].
  intros [Hns _]%elem_of_consume. apply Hns. left.
Qed.

(** Two zones that both list announcement 5; the second also lists 3. *)
#[local] Instance no_ipv6 : NetipV6 := fun _ => None.
Definition demo_ann (id node : Z) (subnet synth : string) : AnnouncementResponse := mkAnnResponse id node "gw" "ann" subnet synth.
Definition demo_list (z : string) : M unit unit (list AnnouncementResponse) :=
  if decide (z = "home") then ret [demo_ann 5 1 "192.168.1.0/24" "100.64.1.0/24"]
  else ret [demo_ann 5 1 "192.168.1.0/24" "100.64.1.0/24"; demo_ann 3 2 "192.168.9.0/24" "100.64.2.0/24"].
Definition demo_zone_list : list ZoneResponse := [mkZoneResponse 1 "home" true; mkZoneResponse 2 "club" false].
Definition demo_occs : list Occ :=
  [("home", demo_ann 5 1 "192.168.1.0/24" "100.64.1.0/24"); ("club", demo_ann 5 1 "192.168.1.0/24" "100.64.1.0/24");
   ("club", demo_ann 3 2 "192.168.9.0/24" "100.64.2.0/24")].
Lemma demo_occs_ok : forall o, o ∈ demo_occs -> is_ok (new_entry o.1 o.2) = true.
Proof. apply Forall_forall. repeat constructor. Qed.
Lemma Fetch_spec_witness :
  exists es, Fetch demo_zone_list demo_list tt = (Ok es, tt) /\ (e_ID <$> es) = [3; 5] /\ (e_Zones <$> es) = [["club"]; ["club"; "home"]].
Proof.
  destruct (Fetch_spec demo_list demo_zone_list tt demo_occs tt eq_refl demo_occs_ok) as (es & Hes & _ & _).
  exists es. split; [exact Hes|]. vm_compute in Hes. injection Hes as <-. split; reflexivity.
Defined.
