(* ===== verification/Daemon.v ===== *)
(** * The router's watch loop ([internal/router/daemon])

    [Run] over the events it selects on, against the interface it has of the
    engine: a class of the three methods and a class of what it relies on. *)
From S2P Require Import Prelude GoStrings Netip Ipam Wg Netutil Engine.

#[local] Open Scope lw_scope.

(** [daemon.Engine]. *)
Class DaemonEngine (S : Type) : Type :=
  { de_Up : M eng_err S unit;
    de_Down : M eng_err S unit;
    de_LastHandshake : M eng_err S GoTime }.

(** What the loop relies on, for states [de_wf]: whether the interface exists
    ([de_present]), and what the methods do on a host that works ([de_healthy]). *)
Class DaemonEngineLaws (S : Type) `{DaemonEngine S} : Type :=
  { de_wf : S -> Prop;
    de_present : S -> Prop;
    de_healthy : S -> Prop;
    de_up_wf s : de_wf s -> de_wf (snd (de_Up s));
    de_down_wf s : de_wf s -> de_wf (snd (de_Down s));
    de_handshake_wf s : de_wf s -> de_wf (snd (de_LastHandshake s));
    de_up_present s : de_wf s -> is_ok (fst (de_Up s)) = true -> de_present (snd (de_Up s));
    de_down_present s : de_wf s -> is_ok (fst (de_Down s)) = false -> de_present s -> de_present (snd (de_Down s));
    de_handshake_present s : de_present s -> de_present (snd (de_LastHandshake s));
    de_healthy_up s : de_wf s -> de_healthy s -> de_healthy (snd (de_Up s)) /\
      (is_ok (fst (de_Up s)) = true \/ fst (de_Up s) = Err EIfaceExists) /\ (~ de_present s -> is_ok (fst (de_Up s)) = true);
    de_healthy_down s : de_wf s -> de_healthy s ->
      de_healthy (snd (de_Down s)) /\ is_ok (fst (de_Down s)) = true /\ ~ de_present (snd (de_Down s));
    de_healthy_handshake s : de_healthy s -> de_healthy (snd (de_LastHandshake s)) }.

Definition checkEvery : Z := 15 * 1000000000.
Definition staleAfter : Z := 240 * 1000000000.

(** [Run]'s local [up], the engine, and how often [OnUp] has fired. *)
Record DaemonState (S : Type) : Type := mkDaemon { d_up : bool; d_eng : S; d_ups : nat }.
Arguments mkDaemon {S}. Arguments d_up {S}. Arguments d_eng {S}. Arguments d_ups {S}.

(** What wakes the loop: the ticker, at a time, and the cancelled context. Between
    two of these the reconcile goroutine may have run ([Sync]). *)
Inductive Event (S : Type) : Type := Tick (now : Z) | Done | Sync (f : S -> S).
Arguments Tick {S}. Arguments Done {S}. Arguments Sync {S}.

(** The period of the ticker: the default unless overridden. *)
Definition tick (Tick : Z) : Z := if 0 <? Tick then Tick else checkEvery.

Section Daemon.
Context {S : Type} `{DaemonEngine S}.

Definition tryUp (s : S) : bool * S :=
  match de_Up s with
  | (Err EIfaceExists, s) =>
      match de_Down s with
      | (Err _, s) => (false, s)
      | (Ok _, s) => let '(r, s) := de_Up s in (is_ok r, s)
      end
  | (r, s) => (is_ok r, s)
  end.

Definition stale (now : Z) (s : S) : bool * S :=
  match de_LastHandshake s with
  | (Ok (Some hs), s) => (staleAfter <? now - hs, s)
  | (_, s) => (false, s)
  end.

(** [tryUp] with [OnUp] after a success. *)
Definition bring_up (st : DaemonState S) (s : S) : DaemonState S :=
  let '(up, s) := tryUp s in mkDaemon up s (if up then Datatypes.S (d_ups st) else d_ups st).

Definition on_tick (now : Z) (st : DaemonState S) : DaemonState S :=
  if negb (d_up st) then bring_up st (d_eng st) else
  let '(old, s) := stale now (d_eng st) in
  if old then
    match de_Down s with
    | (Err _, s) => mkDaemon true s (d_ups st)
    | (Ok _, s) => bring_up st s
    end
  else mkDaemon true s (d_ups st).

(** The loop; [None] when it has not returned after the events. *)
Fixpoint watch (evs : list (Event S)) (st : DaemonState S) : option (res eng_err unit) * DaemonState S :=
  match evs with
  | [] => (None, st)
  | Done :: _ => let '(r, s) := de_Down (d_eng st) in (Some r, mkDaemon (d_up st) s (d_ups st))
  | Tick now :: evs => watch evs (on_tick now st)
  | Sync f :: evs => watch evs (mkDaemon (d_up st) (f (d_eng st)) (d_ups st))
  end.
Definition Run (evs : list (Event S)) (s : S) : option (res eng_err unit) * DaemonState S :=
  watch evs (bring_up (mkDaemon false s 0) s).
End Daemon.

(** ** The engine is such an engine *)
#[export] Instance engine_daemon {D} `{RouterHost D} `{Interfaces D} `{WgTypes} (cfg : Config) : DaemonEngine (EngineState D) | 50 :=
  {| de_Up := Up cfg; de_Down := Down cfg; de_LastHandshake := Engine.LastHandshake cfg |}.
