(* ===== verification/DaemonProps.v ===== *)
(** * The watch loop keeps the tunnel up

    The engine discharges the loop's interface; a loop on such an engine never
    returns before it is told to, and one tick on a working host brings it up. *)
From S2P Require Import Prelude GoStrings Netip Ipam Wg WgProps Netutil Engine EngineProps EngineRoutes Daemon.

#[local] Open Scope lw_scope.

(** ** The engine's side *)

Section EngineLaws.
Context {D : Type} `{RouterHostLaws D} `{WgTypes} (cfg : Config).

Lemma net_ok_insert n i l p : net_ok n -> net_ok (mkNet (<[i := l]> (net_links n)) (<[p := i]> (net_routes n))).
Proof.
  intros Hn q j. simpl. intros [[<- <-]|[_ Hq]]%lookup_insert_Some; [rewrite lookup_insert_eq; by eexists|].
  destruct (decide (i = j)) as [->|]; [rewrite lookup_insert_eq; by eexists|]. rewrite lookup_insert_ne by done. by apply (Hn q).
Qed.
Lemma net_ok_link n i l : net_ok n -> net_ok (mkNet (<[i := l]> (net_links n)) (net_routes n)).
Proof.
  intros Hn q j Hq. simpl in *. destruct (decide (i = j)) as [->|]; [rewrite lookup_insert_eq; by eexists|].
  rewrite lookup_insert_ne by done. by apply (Hn q).
Qed.
Lemma net_ok_del n i : net_ok n -> net_ok (net_effect (LinkDel i) n).
Proof.
  intros Hn q j. simpl. intros [Hq Hj]%map_lookup_filter_Some. simpl in Hj. rewrite lookup_delete_ne by done. by apply (Hn q).
Qed.

Lemma Up_net_ok (s : EngineState D) : net_ok (net s) -> net_ok (net (snd (Up cfg s))).
Proof.
  intros Hok. pose proof (Up_wp cfg s Hok) as Hw. unfold wp in Hw. destruct (fst (Up cfg s)) as [[]|e]; simpl in Hw.
  - destruct Hw as (_ & _ & key & sk & ep & _ & _ & ->). by apply net_ok_insert.
  - destruct Hw as (_ & [->|(_ & _ & Hl)] & _); [done|].
    destruct Hl as (key & sk & host & port & s0 & s1 & r & _ & _ & _ & _ & [l ->]). by apply net_ok_link.
Qed.
Lemma Down_net_ok (s : EngineState D) : net_ok (net s) -> net_ok (net (snd (Down cfg s))).
Proof.
  intros Hok. pose proof (Down_wp cfg s) as Hw. unfold wp in Hw. destruct Hw as [_ Hw].
  destruct (fst (Down cfg s)); [destruct Hw as [[_ ->]|[-> _]]|destruct Hw as [-> _]]; [by apply net_ok_del|done|done].
Qed.
Lemma LastHandshake_wp (s : EngineState D) : wp (Engine.LastHandshake cfg) (fun _ s' => same_net s s') s.
Proof.
  unfold Engine.LastHandshake. apply wp_bind, wp_new; intros s1 N1; [|done].
  apply wp_bind, wp_on_host; [apply rh_device_view|intros; by apply rh_healthy_device|]. intros r s2 N2 _.
  pose proof (same_net_trans _ _ _ N1 N2). destruct r as [l|e]; [|done]. by destruct (filter _ l).
Qed.

#[export] Instance engine_daemon_laws : @DaemonEngineLaws (EngineState D) (engine_daemon cfg).
Proof.
  refine {| de_wf := fun s => net_ok (net s); de_present := fun s => is_Some (net_links (net s) !! iface cfg);
            de_healthy := fun s => rh_healthy (Endpoint cfg) (eng_host s) /\ valid_config cfg |}; simpl.
  - apply Up_net_ok.
  - apply Down_net_ok.
  - intros s Hok. pose proof (LastHandshake_wp s) as [Hn _]. by rewrite Hn.
  - intros s Hok Hr. pose proof (Up_wp cfg s Hok) as Hw. unfold wp in Hw. destruct (fst (Up cfg s)) as [[]|e]; [|done].
    destruct Hw as (_ & _ & key & sk & ep & _ & _ & ->). simpl. rewrite lookup_insert_eq. by eexists.
  - intros s Hok Hr Hp. pose proof (Down_wp cfg s) as Hw. unfold wp in Hw. destruct (fst (Down cfg s)); [done|]. by destruct Hw as (_ & -> & _).
  - intros s Hp. pose proof (LastHandshake_wp s) as [Hn _]. by rewrite Hn.
  - intros s Hok [Hh Hv]. pose proof (Up_wp cfg s Hok) as Hw. unfold wp in Hw. destruct (fst (Up cfg s)) as [[]|e]; simpl in Hw.
    + destruct Hw as ((_ & _ & Hm) & _). split_and!; [by apply Hm|done|by left|done].
    + destruct Hw as (Hm & _ & He). destruct (He Hh Hv) as [-> Hp]. split_and!; [by apply Hm|done|by right|done].
  - intros s Hok [Hh Hv]. pose proof (Down_wp cfg s) as Hw. unfold wp in Hw. destruct Hw as [(_ & _ & Hm) Hw].
    destruct (fst (Down cfg s)); simpl in *; [|destruct Hw as [_ Hno]; exfalso; apply Hno; by eexists].
    split_and!; [by apply Hm|done|done|]. destruct Hw as [[_ ->]|[-> Hnone]]; simpl.
    + rewrite lookup_delete_eq. by intros [].
    + rewrite Hnone by by eexists. by intros [].
  - intros s [Hh Hv]. pose proof (LastHandshake_wp s) as (_ & _ & _ & Hm). split; [by apply Hm|done].
Defined.
End EngineLaws.

(** ** The reconcile goroutine's side *)

Section Sync.
Context {D : Type} `{RouterHostLaws D} `{WgTypes} (cfg : Config).

(** The links stay, with whatever new settings, and new routes go through the tunnel. *)
Definition keeps_links (s s' : EngineState D) : Prop :=
  (forall i, is_Some (net_links (net s) !! i) -> is_Some (net_links (net s') !! i)) /\
  (forall q j, net_routes (net s') !! q = Some j -> j = iface cfg \/ net_routes (net s) !! q = Some j).
Definition safe_sync (s s' : EngineState D) : Prop := healthier s s' /\ (is_Some (net_links (net s) !! iface cfg) -> keeps_links s s') /\
  (net_links (net s) !! iface cfg = None -> net s' = net s).
Lemma safe_same s s' : same_net s s' -> safe_sync s s'.
Proof. intros (Hn & _ & _ & Hh). split_and!; [done| |done]. intros _. unfold keeps_links. rewrite Hn. split; auto. Qed.

Lemma SetRoutes_safe extra s : safe_sync s (snd (SetRoutes cfg extra s)).
Proof.
  unfold SetRoutes. destruct (decide _); [apply safe_same, same_net_refl|].
  match goal with |- safe_sync s (snd (?m s)) => cut (wp m (fun _ s' => safe_sync s s') s); [done|] end.
  apply wp_bind, wp_find; intros s1 N1 Hl; [|by apply safe_same].
  apply wp_bind. eapply wp_mono; [apply gate_wp|]. intros r s2 [N2 (applied & -> & _)]. simpl.
  pose proof (same_net_trans _ _ _ N1 N2) as [Hn M].
  apply wp_bind. eapply wp_mono; [apply add_routes_wp; by rewrite Hn|]. intros r s3 [[M3 L3] (routed & -> & _ & _ & R3)]. simpl.
  apply wp_bind. eapply wp_mono; [apply del_routes_wp|]. intros r s4 (-> & [M4 L4] & gone & _ & _ & R4). simpl.
  pose proof (same_memory_trans _ _ _ M (same_memory_trans _ _ _ M3 M4)) as M'.
  assert (keeps_links s s4) as Hk.
  { split; [intros i; by rewrite L4, L3, Hn|]. intros q j. rewrite R4. case_decide; [done|]. rewrite R3.
    case_decide; [intros [= <-]; by left|]. rewrite Hn. by right. }
  assert (forall s', same_memory s s' -> net s' = net s4 -> safe_sync s s') as Hend.
  { intros s' (_ & _ & Hh) Hs'. split_and!; [done| |].
    - intros _. unfold keeps_links. by rewrite Hs'.
    - intros Hnone. rewrite Hnone in Hl. by destruct Hl. }
  apply wp_bind, wp_or_throw; [|intros _; by apply Hend]. intros sk _.
  apply wp_bind, wp_new; intros s5 [N5 M5]; [|intros _; apply Hend; [by eapply same_memory_trans|done]].
  assert (forall s' f, same_memory s5 s' -> net s' = on_link (iface cfg) f (net s5) -> safe_sync s s') as Hcfg.
  { intros s' f Ms' Hs'. pose proof (same_memory_trans _ _ _ M' (same_memory_trans _ _ _ M5 Ms')) as (_ & _ & Hh). split_and!; [done| |].
    - intros _. destruct Hk as [Hk1 Hk2]. unfold keeps_links. rewrite Hs', N5. simpl. split; [|done]. intros i Hi%Hk1.
      destruct (decide (i = iface cfg)) as [->|]; [rewrite lookup_alter_eq; by apply fmap_is_Some|by rewrite lookup_alter_ne].
    - intros Hnone. rewrite Hnone in Hl. by destruct Hl. }
  apply wp_bind, wp_call; intros s6 M6; [|intros [f Hf] _; by eapply Hcfg].
  intros _ Hn6. exact (Hcfg s6 _ M6 Hn6).
Qed.
End Sync.

(** ** The loop's side *)

Section Loop.
Context {S : Type} `{DaemonEngineLaws S}.

(** What the reconcile goroutine may do to the engine: it leaves the interface there. *)
Definition benign (f : S -> S) : Prop := forall s, de_wf s ->
  de_wf (f s) /\ (de_present s -> de_present (f s)) /\ (de_healthy s -> de_healthy (f s)).
Definition no_done (ev : Event S) : Prop := match ev with Tick _ => True | Done => False | Sync f => benign f end.

(** The loop's invariant: when it believes the tunnel up, the interface exists. *)
Definition believes (st : DaemonState S) : Prop := de_wf (d_eng st) /\ (d_up st = true -> de_present (d_eng st)).

Lemma bring_up_believes st s : de_wf s -> believes (bring_up st s).
Proof.
  intros Hwf. unfold bring_up, tryUp, believes. pose proof (de_up_wf s Hwf) as W1. pose proof (de_up_present s Hwf) as P1.
  destruct (de_Up s) as [r s1]; simpl in *. destruct r as [u|e]; [split; auto|]. destruct e; try (split; [done|by intros [=]]).
  pose proof (de_down_wf s1 W1) as W2. destruct (de_Down s1) as [r2 s2]; simpl in *. destruct r2 as [u2|e2]; [|split; [done|by intros [=]]].
  pose proof (de_up_wf s2 W2) as W3. pose proof (de_up_present s2 W2) as P3. destruct (de_Up s2) as [r3 s3]; simpl in *. split; auto.
Qed.
Lemma on_tick_believes now st : believes st -> believes (on_tick now st).
Proof.
  intros [Hwf Hup]. unfold on_tick. destruct (d_up st); simpl; [|by apply bring_up_believes]. specialize (Hup eq_refl).
  unfold stale. pose proof (de_handshake_wf _ Hwf) as W1. pose proof (de_handshake_present _ Hup) as P1.
  destruct (de_LastHandshake (d_eng st)) as [[[hs|]|e] s1]; simpl in *; [|split; auto|split; auto].
  destruct (_ <? _); [|split; auto]. pose proof (de_down_wf s1 W1) as W2. pose proof (de_down_present s1 W1) as P2.
  destruct (de_Down s1) as [[u|e] s2]; simpl in *; [by apply bring_up_believes|]. split; auto.
Qed.

(** On a working host a bring-up succeeds, whether the interface is there or not. *)
Lemma bring_up_healthy st s : de_wf s -> de_healthy s -> d_up (bring_up st s) = true /\ de_healthy (d_eng (bring_up st s)).
Proof.
  intros Hwf Hh. unfold bring_up, tryUp. destruct (de_healthy_up s Hwf Hh) as (Hh1 & Hr & Hgo). pose proof (de_up_wf s Hwf) as W1.
  destruct (de_Up s) as [[u|e] s1]; simpl in *; [done|]. destruct Hr as [?|[= ->]]; [done|].
  destruct (de_healthy_down s1 W1 Hh1) as (Hh2 & Hok2 & Hp2). pose proof (de_down_wf s1 W1) as W2.
  destruct (de_Down s1) as [[u2|e2] s2]; simpl in *; [|done]. destruct (de_healthy_up s2 W2 Hh2) as (Hh3 & _ & Hgo3). specialize (Hgo3 Hp2).
  destruct (de_Up s2) as [[u3|e3] s3]; simpl in *; done.
Qed.
Lemma on_tick_healthy now st : believes st -> de_healthy (d_eng st) -> d_up (on_tick now st) = true /\ de_healthy (d_eng (on_tick now st)).
Proof.
  intros [Hwf Hup] Hh. unfold on_tick. destruct (d_up st); simpl; [|by apply bring_up_healthy].
  unfold stale. pose proof (de_handshake_wf _ Hwf) as W1. pose proof (de_healthy_handshake _ Hh) as Hh1.
  destruct (de_LastHandshake (d_eng st)) as [[[hs|]|e] s1]; simpl in *; [|done..]. destruct (_ <? _); [|done].
  destruct (de_healthy_down s1 W1 Hh1) as (Hh2 & Hok2 & _). pose proof (de_down_wf s1 W1) as W2.
  destruct (de_Down s1) as [[u|e] s2]; simpl in *; [by apply bring_up_healthy|done].
Qed.

Lemma watch_app evs evs' st : Forall no_done evs -> watch (evs ++ evs') st = watch evs' (snd (watch evs st)) /\ fst (watch evs st) = None.
Proof. intros Hev. revert st. induction Hev as [|ev evs Hd Hev IH]; intros st; [done|]. destruct ev; simpl; [apply IH|done|apply IH]. Qed.
Lemma watch_believes evs st : Forall no_done evs -> believes st -> believes (snd (watch evs st)).
Proof.
  intros Hev. revert st. induction Hev as [|ev evs Hd Hev IH]; intros st Hst; [done|]. destruct ev as [now| |f]; simpl; [|done|].
  - by apply IH, on_tick_believes.
  - apply IH. destruct Hst as [Hwf Hup]. destruct (Hd _ Hwf) as (? & ? & _). split; simpl; auto.
Qed.
Lemma watch_healthy evs st : Forall no_done evs -> believes st -> de_healthy (d_eng st) -> d_up st = true ->
  d_up (snd (watch evs st)) = true /\ de_healthy (d_eng (snd (watch evs st))).
Proof.
  intros Hev. revert st. induction Hev as [|ev evs Hd Hev IH]; intros st Hst Hh Hup; [done|]. destruct ev as [now| |f]; simpl; [|done|].
  - destruct (on_tick_healthy now st Hst Hh). apply IH; [by apply on_tick_believes|done..].
  - destruct Hst as [Hwf Hpr]. destruct (Hd _ Hwf) as (? & ? & ?). apply IH; simpl; [split; simpl; auto|auto|done].
Qed.
End Loop.

(** [SetRoutes], whatever it is asked and whatever fails, is such a step. *)
Lemma SetRoutes_benign {D} `{RouterHostLaws D} `{WgTypes} cfg extra :
  @benign _ _ (engine_daemon_laws cfg) (fun s => snd (SetRoutes cfg extra s)).
Proof.
  intros s Hok. destruct (SetRoutes_safe cfg extra s) as (Hh & Hk & Hnone). simpl in *.
  destruct (net_links (net s) !! iface cfg) as [l|] eqn:Hl.
  - destruct Hk as [Hk1 Hk2]; [by eexists|]. split_and!.
    + intros q j [->|Hq]%Hk2; [apply Hk1; rewrite Hl; by eexists|]. by eapply Hk1, Hok.
    + intros _. apply Hk1. rewrite Hl. by eexists.
    + intros [Hep Hv]. split; [by apply Hh|done].
  - rewrite Hnone by done. rewrite Hl. split_and!; [done|by intros []|]. intros [Hep Hv]. split; [by apply Hh|done].
Qed.

(** C24: the loop converges. It never returns by itself, whatever fails; and once
    the host works again, after any history of ticks and reconciliations, the next
    tick brings the tunnel up, and from then on it stays up with its interface. *)
Theorem Run_converges {S} `{DaemonEngineLaws S} (before after : list (Event S)) now s :
  de_wf s -> Forall no_done before -> Forall no_done after ->
  let st := snd (Run before s) in let st' := snd (Run (before ++ Tick now :: after) s) in
  fst (Run (before ++ Tick now :: after) s) = None /\
  (de_healthy (d_eng st) -> d_up st' = true /\ de_present (d_eng st')).
Proof.
  intros Hwf Hb Ha. simpl. unfold Run. set (st0 := bring_up _ s). assert (believes st0) as W0 by by apply bring_up_believes.
  destruct (watch_app before (Tick now :: after) st0 Hb) as [-> _]. pose proof (watch_believes before st0 Hb W0) as W1.
  set (st := snd (watch before st0)) in *. simpl. destruct (watch_app after [] (on_tick now st) Ha) as [_ Hnone]. split; [done|].
  intros Hh. destruct (on_tick_healthy now st W1 Hh) as [Hup Hh']. pose proof (on_tick_believes now st W1) as W2.
  destruct (watch_healthy after _ Ha W2 Hh' Hup) as [Hup' _]. split; [done|]. by apply (watch_believes after _ Ha W2).
Qed.

(** A router whose first two calls fail: the interface cannot be created at start,
    nor at the first tick. *)
#[local] Instance demo_daemon : DaemonEngine (EngineState SimRouter) := engine_daemon demo_cfg.
Definition rough_router : EngineState SimRouter := New (mkSimRouter (mkNet ∅ ∅) [true; true]).
Lemma demo_no_done : Forall (@no_done _ _ (engine_daemon_laws demo_cfg)) [Tick 15].
Proof. by repeat constructor. Qed.
Lemma rough_healthy : @de_healthy _ _ (engine_daemon_laws demo_cfg) (d_eng (snd (Run [Tick 15] rough_router))).
Proof. split; [by vm_compute|]. split_and!; by vm_compute; eexists. Qed.
Lemma rough_ok : net_ok (net rough_router).
Proof. intros p i. simpl. by rewrite lookup_empty. Qed.
Lemma Run_converges_witness : d_up (snd (Run [Tick 15] rough_router)) = false /\ d_up (snd (Run [Tick 15; Tick 30] rough_router)) = true.
Proof.
  split; [by vm_compute|].
  exact (proj1 (proj2 (@Run_converges _ _ (engine_daemon_laws demo_cfg) [Tick 15] [] 30 rough_router rough_ok demo_no_done (List.Forall_nil _)) rough_healthy)).
Defined.
