(* ===== verification/ApiClient.v ===== *)
(** * The client's side of the API ([internal/client/apiclient])

    The calls of [Client] with the silent refresh of an expired session and the
    typed errors, over a transport that is a parameter; and the part of [net/url]
    and of [http.ServeMux] that carries a call's path to the server's route. *)
From Stdlib Require Import Ascii.
From S2P Require Import Prelude GoStrings Api.

#[local] Open Scope lw_scope.

(** ** Paths *)

(** [url.PathEscape]: a byte is kept, or written as [%] and two hexadecimal digits. *)
Definition in_range (lo hi : nat) (a : ascii) : bool := Nat.leb lo (nat_of_ascii a) && Nat.leb (nat_of_ascii a) hi.
Definition path_safe (a : ascii) : bool :=
  in_range 48 57 a || in_range 65 90 a || in_range 97 122 a ||
  bool_decide (a ∈ ["-"; "_"; "."; "~"; "$"; "&"; "+"; ":"; "="; "@"]%char).
Definition upper_hex (n : nat) : ascii := ascii_of_nat (if Nat.ltb n 10 then 48 + n else 55 + n).
Fixpoint PathEscape (s : string) : string :=
  match s with
  | "" => ""
  | String a r =>
      if path_safe a then String a (PathEscape r)
      else String "%" (String (upper_hex (nat_of_ascii a / 16)) (String (upper_hex (nat_of_ascii a mod 16)) (PathEscape r)))
  end.

(** [url.PathUnescape]. *)
Definition unhex (a : ascii) : option nat :=
  if in_range 48 57 a then Some (nat_of_ascii a - 48)%nat
  else if in_range 97 102 a then Some (nat_of_ascii a - 87)%nat
  else if in_range 65 70 a then Some (nat_of_ascii a - 55)%nat else None.
Fixpoint PathUnescape (s : string) : option string :=
  match s with
  | "" => Some ""
  | String "%" r =>
      match r with
      | String x (String y r) => h ← unhex x; l ← unhex y; t ← PathUnescape r; Some (String (ascii_of_nat (16 * h + l)) t)
      | _ => None
      end
  | String a r => t ← PathUnescape r; Some (String a t)
  end.

(** A pattern of the mux: its method, if it has one, and its segments; a segment in
    braces is a named value. *)
Definition parse_pattern (p : string) : option string * list string :=
  match Cut " "%char p with
  | Some (m, path) => (Some m, Split "/"%char path)
  | None => (None, Split "/"%char p)
  end.
Definition wildcard (seg : string) : option string :=
  match seg with String "{" r => fst <$> CutLast "}"%char r | _ => None end.
Fixpoint match_segments (pat segs : list string) : option (list (string * string)) :=
  match pat, segs with
  | [], [] => Some []
  | p :: pat, s :: segs =>
      match wildcard p, s with
      | Some x, "" => None
      | Some x, _ => vs ← match_segments pat segs; Some ((x, s) :: vs)
      | None, _ => if bool_decide (p = s) then match_segments pat segs else None
      end
  | _, _ => None
  end.
(** The pattern among [patterns] that a request with these segments, unescaped,
    matches, with the values of its named segments; GET's patterns serve HEAD too. *)
Fixpoint match_patterns (patterns : list string) (method : string) (segs : list string) : option (string * list (string * string)) :=
  match patterns with
  | [] => None
  | p :: patterns =>
      let '(m, pat) := parse_pattern p in
      if match m with Some m => bool_decide (m = method \/ (m = "GET" /\ method = "HEAD")) | None => true end then
        match match_segments pat segs with
        | Some vs => Some (p, vs)
        | None => match_patterns patterns method segs
        end
      else match_patterns patterns method segs
  end.
(** [net/http]'s [cleanPath]; a final slash is kept. *)
Definition final_slash (p : string) : bool := match CutLast "/"%char p with Some (_, "") => true | _ => false end.
Definition cleanPath (p : string) : string :=
  let p := if HasPrefix "/" p then p else "/" +:+ p in
  let np := Clean p in
  if final_slash p && bool_decide (np <> "/") then np +:+ "/" else np.

(** The mux: it matches only a path that is its own cleaning, and redirects from
    another. The patterns of the route table do not overlap, so their order does not
    matter. *)
Definition mux_match (patterns : list string) (method path : string) : option (string * list (string * string)) :=
  if bool_decide (cleanPath path = path)
  then segs ← mapM PathUnescape (Split "/"%char path); match_patterns patterns method segs
  else None.
Fixpoint path_value (vs : list (string * string)) (x : string) : string :=
  match vs with [] => "" | (y, v) :: vs => if bool_decide (x = y) then v else path_value vs x end.

(** ** Requests and errors *)

(** A request's body: the DTO it is the JSON of. *)
Inductive ReqBody : Type :=
| NoBody
| BodyLogin (r : LoginRequest)
| BodyRefresh (r : RefreshRequest)
| BodyLogout (r : LogoutRequest)
| BodyRegister (r : RegisterRequest)
| BodyRegisterNode (r : RegisterNodeRequest)
| BodyCreateZone (r : CreateZoneRequest)
| BodyJoinZone (r : JoinZoneRequest)
| BodyLeaveZone (r : LeaveZoneRequest)
| BodyChangePassword (r : ChangeZonePasswordRequest)
| BodyCreateAnn (r : CreateAnnouncementRequest).

(** [hr_auth]: the Authorization header, if there is one. *)
Record HttpReq : Type := mkHttpReq { hr_method : string; hr_path : string; hr_auth : option string; hr_body : ReqBody }.

(** How a round trip fails: a [*CertError] of [VerifyConnection], a standard
    certificate error, anything else. *)
Record CertError : Type := mkCertError { Fingerprint : string; Changed : bool }.
Inductive http_err : Type := HttpCert (e : CertError) | HttpUntrusted | HttpOther.

(** [http.Client.Do], on the state [N] of the network and what is behind it. *)
Class Transport (N : Type) : Type := http_Do : HttpReq -> M http_err N Resp.

(** [New]'s [VerifyConnection]: the pin, the presented leaf's fingerprint, and
    whether the leaf verifies against the roots. *)
Definition VerifyConnection (pin fp : string) (verifies : bool) : res CertError unit :=
  if bool_decide (pin <> "" /\ fp = pin) then Ok tt
  else if verifies then Ok tt
  else Err (mkCertError fp (bool_decide (pin <> ""))).

Inductive client_err : Type :=
| ErrUnreachable | ErrCert (e : CertError) | ErrUntrustedCert | ErrAuthFailed | ErrInviteInvalid | ErrUsernameTaken
| ErrNodeNameTaken | ErrPubKeyTaken | ErrPoolExhausted | ErrDeviceLimitReached
| ErrServer | ErrServerCode (code : string) | ErrServerStatus (status : Z) (code : string)  (** wrap [ErrServer] *)
| ErrRefreshFailed | ErrSessionExpired | ErrZoneNameTaken | ErrOwnedZoneLimitReached | ErrZoneOrPassword
| ErrNotOwner | ErrNotMember | ErrZoneNotFound | ErrPlatformUnsupported | ErrAnnounceDisabled | ErrSubnetInvalid
| ErrSubnetOverlap | ErrAnnounceLimit | ErrSyntheticPoolExhausted | ErrDecode.
#[export] Instance CertError_eq_dec : EqDecision CertError.
Proof. solve_decision. Defined.
#[export] Instance client_err_eq_dec : EqDecision client_err.
Proof. solve_decision. Defined.

(** The codes [mapError] knows whatever the status. *)
Definition known_codes : list (string * client_err) :=
  [("node_name_taken", ErrNodeNameTaken); ("pubkey_taken", ErrPubKeyTaken); ("pool_exhausted", ErrPoolExhausted);
   ("device_limit_reached", ErrDeviceLimitReached); ("zone_name_taken", ErrZoneNameTaken);
   ("zone_limit_reached", ErrOwnedZoneLimitReached); ("invalid_zone_or_password", ErrZoneOrPassword);
   ("forbidden", ErrNotOwner); ("platform_unsupported", ErrPlatformUnsupported); ("announce_disabled", ErrAnnounceDisabled);
   ("subnet_invalid", ErrSubnetInvalid); ("subnet_overlap", ErrSubnetOverlap); ("announce_limit_reached", ErrAnnounceLimit);
   ("synthetic_pool_exhausted", ErrSyntheticPoolExhausted)].
Fixpoint lookup_code (code : string) (l : list (string * client_err)) : option client_err :=
  match l with [] => None | (c, e) :: l => if bool_decide (code = c) then Some e else lookup_code code l end.

(** The error envelope: empty when the body is not one. *)
Definition envelope (b : Body) : string * string := match b with BError code message => (code, message) | _ => ("", "") end.

Definition mapError (path : string) (auth : bool) (resp : Resp) : client_err :=
  let '(code, message) := envelope (body resp) in
  match lookup_code code known_codes with
  | Some e => e
  | None =>
      if status resp =? 401 then (if auth then ErrSessionExpired else ErrAuthFailed)
      else if status resp =? 404 then
        (if StrContains path "/leave" || StrContains path "/members/" then ErrNotMember else ErrZoneNotFound)
      else if status resp =? 409 then
        (if bool_decide (path = "/api/v1/register")
         then (if StrContains (lower_ascii (code +:+ message)) "user" then ErrUsernameTaken else ErrInviteInvalid)
         else ErrServerCode code)
      else if status resp =? 400 then
        (if bool_decide (path = "/api/v1/register") then ErrInviteInvalid else ErrServerCode code)
      else if 500 <=? status resp then ErrServer
      else ErrServerStatus (status resp) code
  end.

(** ** [Client] *)

Record ClientState (N : Type) : Type := mkClient { c_token : string; c_refreshToken : string; c_net : N }.
Arguments mkClient {N}. Arguments c_token {N}. Arguments c_refreshToken {N}. Arguments c_net {N}.

Section Client.
Context {N : Type} `{Transport N}.

Abbreviation CM := (M client_err (ClientState N)).

(** A reader of the response's body: [out] of the calls. A 2xx answer of another
    shape is taken for one that does not decode. *)
Definition attempt {A} (method path : string) (auth : bool) (b : ReqBody) (out : Body -> option A) : CM A := fun c =>
  let req := mkHttpReq method path (if auth then Some ("Bearer " +:+ c_token c) else None) b in
  let '(r, n) := http_Do req (c_net c) in
  let c := mkClient (c_token c) (c_refreshToken c) n in
  match r with
  | Err (HttpCert e) => (Err (ErrCert e), c)
  | Err HttpUntrusted => (Err ErrUntrustedCert, c)
  | Err HttpOther => (Err ErrUnreachable, c)
  | Ok resp =>
      if (200 <=? status resp) && (status resp <? 300)
      then (match out (body resp) with Some a => Ok a | None => Err ErrDecode end, c)
      else (Err (mapError path auth resp), c)
  end.

(** [Refresh]; its request carries no session, so [do] does not recur on it. *)
Definition Refresh : CM unit := fun c =>
  if bool_decide (c_refreshToken c = "") then (Err ErrRefreshFailed, c) else
  match attempt "POST" "/api/v1/refresh" false (BodyRefresh (mkRefresh (c_refreshToken c)))
          (fun b => match b with BRefresh t => Some t | _ => None end) c with
  | (Ok t, c) => (Ok tt, mkClient t (c_refreshToken c) (c_net c))
  | (Err _, c) => (Err ErrRefreshFailed, c)
  end.

(** [do]. *)
Definition do_call {A} (method path : string) (auth : bool) (b : ReqBody) (out : Body -> option A) : CM A := fun c =>
  match attempt method path auth b out c with
  | (Err ErrSessionExpired, c) =>
      if auth && bool_decide (c_refreshToken c <> "") then
        match Refresh c with
        | (Err _, c) => (Err ErrSessionExpired, c)
        | (Ok _, c) => attempt method path auth b out c
        end
      else (Err ErrSessionExpired, c)
  | r => r
  end.

Definition no_out (b : Body) : option unit := Some tt.

Definition Register (invite username password : string) : CM unit :=
  do_call "POST" "/api/v1/register" false (BodyRegister (mkRegister invite username password)) no_out.
Definition Login (username password : string) : CM unit :=
  let! tokens := do_call "POST" "/api/v1/login" false (BodyLogin (mkLogin username password))
    (fun b => match b with BLogin t r => Some (t, r) | _ => None end) in
  fun c => (Ok tt, mkClient tokens.1 tokens.2 (c_net c)).
Definition Logout : CM unit := fun c =>
  if bool_decide (c_refreshToken c = "") then (Ok tt, c) else
  do_call "POST" "/api/v1/logout" false (BodyLogout (mkLogout (c_refreshToken c))) no_out c.
Definition RegisterNodePlatform (name pubKey platform : string) : CM NodeResponse :=
  do_call "POST" "/api/v1/nodes" true (BodyRegisterNode (mkRegisterNode name pubKey platform))
    (fun b => match b with BNode n => Some n | _ => None end).
Definition RegisterNode (name pubKey : string) : CM NodeResponse := RegisterNodePlatform name pubKey "".
Definition ListNodes : CM (list NodeResponse) :=
  do_call "GET" "/api/v1/nodes" true NoBody (fun b => match b with BNodes l => Some l | _ => None end).
Definition ServerInfo : CM (string * string * string * Z) :=
  do_call "GET" "/api/v1/server" true NoBody (fun b => match b with BServer k e n m => Some (k, e, n, m) | _ => None end).
Definition Me : CM (Z * string * bool) :=
  do_call "GET" "/api/v1/me" true NoBody (fun b => match b with BMe i n a => Some (i, n, a) | _ => None end).

Definition zone_path (name suffix : string) : string := "/api/v1/zones/" +:+ PathEscape name +:+ suffix.

Definition CreateZone (name : string) (nodeID : Z) (password : string) : CM ZoneResponse :=
  do_call "POST" "/api/v1/zones" true (BodyCreateZone (mkCreateZone name password nodeID))
    (fun b => match b with BZone z => Some z | _ => None end).
Definition ListZones : CM (list ZoneResponse) :=
  do_call "GET" "/api/v1/zones" true NoBody (fun b => match b with BZones l => Some l | _ => None end).
Definition JoinZone (name : string) (nodeID : Z) (password : string) : CM unit :=
  do_call "POST" (zone_path name "/join") true (BodyJoinZone (mkJoinZone nodeID password)) no_out.
Definition LeaveZone (name : string) (nodeID : Z) : CM unit :=
  do_call "POST" (zone_path name "/leave") true (BodyLeaveZone (mkLeaveZone nodeID)) no_out.
Definition ZoneMembers (name : string) : CM (list ZoneMemberResponse) :=
  do_call "GET" (zone_path name "/members") true NoBody (fun b => match b with BMembers l => Some l | _ => None end).
Definition ChangeZonePassword (name password : string) : CM unit :=
  do_call "PATCH" (zone_path name "") true (BodyChangePassword (mkChangePassword password)) no_out.
Definition DeleteZone (name : string) : CM unit := do_call "DELETE" (zone_path name "") true NoBody no_out.
Definition KickMember (name : string) (nodeID : Z) : CM unit :=
  do_call "DELETE" (zone_path name ("/members/" +:+ pretty nodeID)) true NoBody no_out.
Definition CreateAnnouncement (zone : string) (nodeID : Z) (subnet : string) : CM AnnouncementResponse :=
  do_call "POST" (zone_path zone "/announcements") true (BodyCreateAnn (mkCreateAnn nodeID subnet))
    (fun b => match b with BAnn a => Some a | _ => None end).
Definition DeleteAnnouncement (zone : string) (id : Z) : CM unit :=
  do_call "DELETE" (zone_path zone ("/announcements/" +:+ pretty id)) true NoBody no_out.
Definition ListAnnouncements (zone : string) : CM (list AnnouncementResponse) :=
  do_call "GET" (zone_path zone "/announcements") true NoBody (fun b => match b with BAnns l => Some l | _ => None end).
Definition DeleteNode (nodeID : Z) : CM unit := do_call "DELETE" ("/api/v1/nodes/" +:+ pretty nodeID) true NoBody no_out.
End Client.
