(* ===== verification/ClientPaths.v ===== *)
(** * A client's path and the server's mux

    The percent-escaping of the zone names and the patterns of the route table: a
    call's path reaches the route and the zone it was meant for. *)
From Stdlib Require Import Ascii.
From S2P Require Import Prelude GoStrings Netip Ipam Codec Db StoreInv StoreUsers StoreNodes StoreAnnounce UsersProps Netfw Isolation Wg WgProps Auth AuthProps Api ApiZones ApiRoutes ApiProps ApiClient.

#[local] Open Scope lw_scope.

(** ** Paths *)

(** A path without empty, "." and ".." segments is not cleaned away. *)
Lemma cleanPath_proper l s : Split "/"%char s = "" :: l -> l <> [] -> Forall proper l -> cleanPath s = s.
Proof.
  intros Hs Hne Hl. assert (HasPrefix "/" s = true) as Hp.
  { pose proof (concat_Split "/"%char s) as Hc. rewrite Hs in Hc. destruct l; [done|]. by rewrite <- Hc. }
  assert (final_slash s = false) as Hf.
  { unfold final_slash. destruct (CutLast "/"%char s) as [[x [|b y]]|] eqn:Hc; [|done..]. exfalso.
    apply CutLast_parts in Hc as [He _]. rewrite He, Split_snoc in Hs by done.
    destruct (Split "/"%char x) as [|x0 xs]; [by destruct l|]. injection Hs as _ <-.
    apply Forall_app in Hl as [_ Hl]. apply Forall_inv in Hl. by destruct Hl. }
  unfold cleanPath. rewrite Hp, Hf. cbn [andb]. by apply (Clean_proper l).
Qed.

Lemma unescape_other a r : a <> "%"%char -> PathUnescape (String a r) = (t ← PathUnescape r; Some (String a t)).
Proof. intros Ha. destruct a as [[] [] [] [] [] [] [] []]; try reflexivity. by destruct Ha. Qed.
Lemma path_safe_not a : path_safe a = true -> a <> "%"%char /\ a <> "/"%char.
Proof. intros Hs. split; intros ->; by vm_compute in Hs. Qed.
Lemma unhex_upper n : (n < 16)%nat -> unhex (upper_hex n) = Some n /\ bool_decide (upper_hex n <> "/"%char) = true.
Proof. intros Hn. do 16 (destruct n as [|n]; [by vm_compute|]). lia. Qed.

Lemma PathUnescape_Escape s : PathUnescape (PathEscape s) = Some s.
Proof.
  induction s as [|a r IH]; [done|]. cbn [PathEscape]. destruct (path_safe a) eqn:Ha.
  - rewrite unescape_other by by apply path_safe_not. by rewrite IH.
  - assert (nat_of_ascii a < 256)%nat as Hlt by apply nat_ascii_bounded.
    cbn [PathUnescape]. rewrite (proj1 (unhex_upper (nat_of_ascii a / 16) ltac:(apply Nat.Div0.div_lt_upper_bound; lia))).
    rewrite (proj1 (unhex_upper (nat_of_ascii a mod 16) ltac:(apply Nat.mod_upper_bound; lia))).
    cbn [mbind option_bind]. rewrite IH. cbn [mbind option_bind]. rewrite <- Nat.Div0.div_mod. by rewrite ascii_nat_embedding.
Qed.
Lemma PathEscape_no_slash s : no_char "/"%char (PathEscape s) = true.
Proof.
  induction s as [|a r IH]; [done|]. cbn [PathEscape]. destruct (path_safe a) eqn:Ha; cbn [chars].
  - rewrite bool_decide_true by by apply path_safe_not. exact IH.
  - assert (nat_of_ascii a < 256)%nat as Hlt by apply nat_ascii_bounded.
    rewrite (proj2 (unhex_upper (nat_of_ascii a / 16) ltac:(apply Nat.Div0.div_lt_upper_bound; lia))).
    rewrite (proj2 (unhex_upper (nat_of_ascii a mod 16) ltac:(apply Nat.mod_upper_bound; lia))). exact IH.
Qed.

Lemma append_nil (s : string) : s +:+ "" = s.
Proof. induction s as [|a r IH]; [done|]. change (String a (r +:+ "") = String a r). by rewrite IH. Qed.
(** The segments of a zone's path. *)
Lemma zone_path_segments name rest : Split "/"%char (zone_path name (String "/" rest)) =
  "" :: "api" :: "v1" :: "zones" :: PathEscape name :: Split "/"%char rest.
Proof.
  unfold zone_path. change ("/api/v1/zones/" +:+ PathEscape name +:+ String "/" rest) with
    ("" +:+ "/" +:+ ("api" +:+ "/" +:+ ("v1" +:+ "/" +:+ ("zones" +:+ "/" +:+ (PathEscape name +:+ "/" +:+ rest))))).
  rewrite !Split_app by (done || apply PathEscape_no_slash). done.
Qed.
Lemma zone_path_only name : Split "/"%char (zone_path name "") = ["" ; "api"; "v1"; "zones"; PathEscape name].
Proof.
  unfold zone_path. rewrite append_nil.
  change ("/api/v1/zones/" +:+ PathEscape name) with ("" +:+ "/" +:+ ("api" +:+ "/" +:+ ("v1" +:+ "/" +:+ ("zones" +:+ "/" +:+ PathEscape name)))).
  rewrite !Split_app by (done || apply PathEscape_no_slash). by rewrite Split_no_char by apply PathEscape_no_slash.
Qed.
Lemma pretty_segment (i : Z) : no_char "/"%char (pretty i) = true.
Proof. by apply pretty_Z_no_char. Qed.

(** The patterns of the route table. *)
Definition route_patterns : list string :=
  ["/api/v1/healthz"; "POST /api/v1/login"; "POST /api/v1/register"; "POST /api/v1/refresh"; "POST /api/v1/logout"; "GET /api/v1/me";
   "GET /api/v1/server"; "POST /api/v1/nodes"; "GET /api/v1/nodes"; "DELETE /api/v1/nodes/{id}"; "POST /api/v1/zones"; "GET /api/v1/zones";
   "POST /api/v1/zones/{name}/join"; "POST /api/v1/zones/{name}/leave"; "GET /api/v1/zones/{name}/members";
   "POST /api/v1/zones/{name}/announcements"; "GET /api/v1/zones/{name}/announcements"; "DELETE /api/v1/zones/{name}/announcements/{id}";
   "PATCH /api/v1/zones/{name}"; "DELETE /api/v1/zones/{name}"; "DELETE /api/v1/zones/{name}/members/{node_id}";
   "POST /api/v1/admin/invites"; "GET /api/v1/admin/invites"; "DELETE /api/v1/admin/users/{id}"].
Lemma route_patterns_ok {K D} `{Nftables K} `{WgHost D} `{WgTypes} `{NetipV6} `{Sqlite} `{Argon2} `{JwtLib} h :
  fst <$> routes (K:=K) (D:=D) h = route_patterns.
Proof. reflexivity. Qed.

Lemma unescape_plain s : chars path_safe s = true -> PathUnescape s = Some s.
Proof.
  induction s as [|a r IH]; [done|]. simpl chars. intros [Ha Hr]%andb_true_iff. rewrite unescape_other by by apply path_safe_not.
  by rewrite IH.
Qed.
Lemma digit_safe a : is_digit a = true -> path_safe a = true.
Proof.
  unfold is_digit. intros Hd%bool_decide_eq_true. unfold digit_of in Hd.
  unfold path_safe, in_range. destruct a as [[] [] [] [] [] [] [] []]; try (by vm_compute); by destruct Hd.
Qed.
Lemma pretty_plain (i : Z) : chars path_safe (pretty i) = true /\ pretty i <> "".
Proof.
  assert (forall n : N, chars path_safe (pretty n) = true /\ pretty n <> "") as Hn.
  { intros n. split; [eapply chars_impl; [apply digit_safe|apply pretty_N_digits]|].
    intros He. pose proof (parse_dec_pretty_N n) as Hp. by rewrite He in Hp. }
  destruct i as [|p|p]; [split; [by vm_compute|done]|apply (Hn (N.pos p))|].
  change (pretty (Z.neg p)) with (String "-" (pretty (N.pos p))). split; [|done]. cbn [chars]. by rewrite (proj1 (Hn (N.pos p))).
Qed.

(** Segments that are not cleaned away. *)
Lemma escaped_proper name : proper name -> proper (PathEscape name).
Proof.
  intros (H1 & H2 & H3). pose proof (PathUnescape_Escape name) as He.
  split_and!; intros Hs; rewrite Hs in He; injection He as He; by rewrite <- He in *.
Qed.
Lemma pretty_proper (i : Z) : proper (pretty i).
Proof.
  pose proof (pretty_Z_no_char "."%char i eq_refl ltac:(done)) as Hd. destruct (pretty_plain i) as [_ Hne].
  split_and!; [done|intros Hp; by rewrite Hp in Hd..].
Qed.

(** The pattern a zone's path matches is that of its segments. *)
Lemma zone_match method name rest segs : proper name -> Forall proper (Split "/"%char rest) -> mapM PathUnescape (Split "/"%char rest) = Some segs ->
  mux_match route_patterns method (zone_path name (String "/" rest)) =
    match_patterns route_patterns method ("" :: "api" :: "v1" :: "zones" :: name :: segs).
Proof.
  intros Hn Hrest Hr. unfold mux_match. rewrite bool_decide_true.
  - rewrite zone_path_segments. cbn [mapM]. rewrite PathUnescape_Escape. cbn [mbind option_bind]. by rewrite Hr.
  - eapply cleanPath_proper; [apply zone_path_segments|done|]. repeat constructor; try done. all: by apply escaped_proper.
Qed.
Lemma zone_match_only method name : proper name ->
  mux_match route_patterns method (zone_path name "") = match_patterns route_patterns method ["" ; "api"; "v1"; "zones"; name].
Proof.
  intros Hn. unfold mux_match. rewrite bool_decide_true.
  - rewrite zone_path_only. cbn [mapM]. by rewrite PathUnescape_Escape.
  - eapply cleanPath_proper; [apply zone_path_only|done|]. repeat constructor; try done. all: by apply escaped_proper.
Qed.
Lemma zone_match_id method name x (i : Z) : proper name -> proper x -> chars path_safe x = true -> no_char "/"%char x = true ->
  mux_match route_patterns method (zone_path name ("/" +:+ x +:+ "/" +:+ pretty i)) =
    match_patterns route_patterns method ["" ; "api"; "v1"; "zones"; name; x; pretty i].
Proof.
  intros Hn Hx Hs Hc. apply (zone_match method name (x +:+ "/" +:+ pretty i) [x; pretty i] Hn).
  all: rewrite Split_app, Split_no_char by (done || apply pretty_segment).
  - repeat constructor; try apply Hx; apply pretty_proper.
  - cbn [mapM]. by rewrite !unescape_plain by (done || apply pretty_plain).
Qed.

(** The routes of the client's calls on a zone. *)
Section ZoneRoutes.
Context (name : string) (Hname : proper name) (i : Z).
Abbreviation route method suffix p vs := (mux_match route_patterns method (zone_path name suffix) = Some (p, ("name", name) :: vs)).
(** [seg]: the single further segment; [id]: followed by a number. *)
#[local] Ltac concrete := destruct name as [|a r]; [by destruct Hname|vm_compute; reflexivity].
#[local] Ltac match_seg seg := etransitivity; [exact (zone_match _ name seg [seg] Hname ltac:(by repeat constructor) eq_refl)|concrete].
#[local] Ltac match_id seg :=
  etransitivity; [exact (zone_match_id _ name seg i Hname ltac:(by repeat constructor) eq_refl eq_refl)|];
  destruct (pretty_plain i) as [_ Hi]; destruct (pretty i) as [|b t]; [by destruct Hi|clear Hi; concrete].
#[local] Ltac match_only := etransitivity; [exact (zone_match_only _ name Hname)|concrete].
Lemma join_route : route "POST" "/join" "POST /api/v1/zones/{name}/join" [].
Proof. match_seg "join". Qed.
Lemma leave_route : route "POST" "/leave" "POST /api/v1/zones/{name}/leave" [].
Proof. match_seg "leave". Qed.
Lemma members_route : route "GET" "/members" "GET /api/v1/zones/{name}/members" [].
Proof. match_seg "members". Qed.
Lemma announce_route : route "POST" "/announcements" "POST /api/v1/zones/{name}/announcements" [].
Proof. match_seg "announcements". Qed.
Lemma announcements_route : route "GET" "/announcements" "GET /api/v1/zones/{name}/announcements" [].
Proof. match_seg "announcements". Qed.
Lemma withdraw_route : route "DELETE" ("/announcements/" +:+ pretty i) "DELETE /api/v1/zones/{name}/announcements/{id}" [("id", pretty i)].
Proof. match_id "announcements". Qed.
Lemma password_route : route "PATCH" "" "PATCH /api/v1/zones/{name}" [].
Proof. match_only. Qed.
Lemma delete_route : route "DELETE" "" "DELETE /api/v1/zones/{name}" [].
Proof. match_only. Qed.
Lemma kick_route : route "DELETE" ("/members/" +:+ pretty i) "DELETE /api/v1/zones/{name}/members/{node_id}" [("node_id", pretty i)].
Proof. match_id "members". Qed.
End ZoneRoutes.
