(* ===== verification/ClientSession.v ===== *)
(** * The client's session against the server

    The server's router as the client's transport, and the silent renewal of an
    expired session. *)
From Stdlib Require Import Ascii.
From S2P Require Import Prelude GoStrings Netip Ipam Codec Db StoreInv StoreUsers StoreNodes StoreAnnounce StoreOps UsersProps Netfw Isolation Wg WgProps Auth AuthProps Api ApiZones ApiRoutes ApiProps ApiClient ClientPaths.

#[local] Open Scope lw_scope.

(** ** The server as a transport *)

(** What [decodeJSON] reads of a DTO the client has encoded. *)
Definition decode_body (b : ReqBody) : Decoded :=
  match b with
  | NoBody => no_body
  | BodyLogin r => mkDecoded (Some r) None None None None None None None None None
  | BodyRefresh r => mkDecoded None (Some r) None None None None None None None None
  | BodyLogout r => mkDecoded None None (Some r) None None None None None None None
  | BodyRegister r => mkDecoded None None None (Some r) None None None None None None
  | BodyRegisterNode r => mkDecoded None None None None (Some r) None None None None None
  | BodyCreateZone r => mkDecoded None None None None None (Some r) None None None None
  | BodyJoinZone r => mkDecoded None None None None None None (Some r) None None None
  | BodyLeaveZone r => mkDecoded None None None None None None None (Some r) None None
  | BodyChangePassword r => mkDecoded None None None None None None None None (Some r) None
  | BodyCreateAnn r => mkDecoded None None None None None None None None None (Some r)
  end.

(** A token the library makes survives the header: no white space to trim. *)
Class JwtText `{JwtLib} : Type :=
  { signed_graphic c secret t : SignedString c secret = Some t -> chars graphic t = true }.

(** [http.Client] before a path the mux redirects from: the redirect, to the path's
    cleaning, is followed by a GET without a body, the header kept. Such a path of the
    client's holds no percent sign. *)
Definition follow_redirect (r : HttpReq) : HttpReq :=
  let p := cleanPath (hr_path r) in
  if bool_decide (p = hr_path r) then r
  else mkHttpReq (if bool_decide (hr_method r = "HEAD") then "HEAD" else "GET") p (hr_auth r) NoBody.

(** A round trip to a server that is reached and does not limit the rate. *)
Definition served {K D : Type} `{Nftables K} `{WgHost D} `{WgTypes} `{NetipV6} `{Sqlite} `{Argon2} `{JwtLib} (h : Options) :
    Transport (World K D) := fun r w =>
  let r := follow_redirect r in
  let found := mux_match route_patterns (hr_method r) (hr_path r) in
  let '(out, w') := NewRouter h true (fst <$> found) (hr_method r) (default "" (hr_auth r))
                      (path_value (default [] (snd <$> found))) (decode_body (hr_body r)) w in
  (Ok (match out with Ok resp | Err resp => resp end), w').

Section Served.
Context {K D : Type} `{Nftables K} `{WgHost D} `{WgTypes} `{NetipV6} `{Sqlite} `{Argon2} `{JwtLib} (h : Options).
#[local] Instance here : Transport (World K D) := served h.

(** The time at which a world's request is served. *)
Definition clock (w : World K D) : Z := s_now (w_store w) * 1000000000 + w_nanos w.
Definition with_store (s : Store) (w : World K D) : World K D := mkWorld s (w_nanos w) (w_nft w) (w_wg w) (w_status w) (w_log w).
Definition claims_of (u : user_row) : Claims := mkClaims (u_id u) (u_name u) (u_admin u).

Lemma CutPrefix_bearer t : CutPrefix ("Bearer " +:+ t) "Bearer " = Some t.
Proof. reflexivity. Qed.
Lemma match_patterns_in ps method segs p vs : match_patterns ps method segs = Some (p, vs) -> p ∈ ps.
Proof.
  induction ps as [|q ps IH]; [done|]. cbn [match_patterns]. destruct (parse_pattern q) as [m pat].
  destruct (match m with Some m0 => _ | None => _ end); [destruct (match_segments pat segs)|].
  - intros [= -> _]. left.
  - intros ?%IH. by right.
  - intros ?%IH. by right.
Qed.

Lemma route_pattern method path p vs : mux_match route_patterns method path = Some (p, vs) -> p ∈ fst <$> routes (K:=K) (D:=D) h.
Proof.
  rewrite route_patterns_ok. unfold mux_match. case_bool_decide; [|done]. destruct (mapM _ _) as [segs|]; [|done]. apply match_patterns_in.
Qed.
(** A request that matches [p] is the business of that route. *)
Lemma served_match r w p vs : mux_match route_patterns (hr_method r) (hr_path r) = Some (p, vs) ->
  served h r w = let out := NewRouter h true (Some p) (hr_method r) (default "" (hr_auth r)) (path_value vs) (decode_body (hr_body r)) w in
    (Ok (match fst out with Ok resp | Err resp => resp end), snd out).
Proof.
  intros Hm. unfold served. assert (follow_redirect r = r) as ->.
  { unfold mux_match in Hm. destruct (bool_decide_reflect (cleanPath (hr_path r) = hr_path r)) as [Hc|]; [|done].
    unfold follow_redirect. by rewrite bool_decide_true. }
  rewrite Hm. cbn [fmap option_fmap option_map fst snd]. by destruct (NewRouter _ _ _ _ _ _ _ _).
Qed.
Lemma mapError_unauthorized path : mapError path true unauthorized = ErrSessionExpired.
Proof. reflexivity. Qed.

(** A call on a route that needs a session, with a token the server does not accept. *)
Lemma attempt_rejected {A} method path p vs b (out : Body -> option A) (c : ClientState (World K D)) :
  mux_match route_patterns method path = Some (p, vs) -> p ∉ public_patterns ->
  VerifyJWT (h_jwt h) (clock (c_net c)) (TrimSpace (c_token c)) = None ->
  attempt method path true b out c = (Err ErrSessionExpired, c).
Proof.
  intros Hm Hpub Hv. unfold attempt, http_Do, here. rewrite (served_match _ _ p vs) by exact Hm. cbn [hr_method hr_path hr_auth hr_body].
  rewrite guard_none; [|by eapply route_pattern|done|exact Hv].
  cbn [fst snd]. rewrite mapError_unauthorized. by destruct c.
Qed.

(** The refresh handler. *)
Lemma refresh_live d now rand rt w r u t' :
  w_store w = Quiet d now rand -> schema_ok d -> rt <> "" -> r ∈ rows (refresh_tokens d) -> r_hash r = hashRefreshToken rt -> live now r ->
  u ∈ rows (users d) -> u_id u = r_user r -> IssueJWT (h_jwt h) (clock w) (claims_of u) = Some t' ->
  refresh (K:=K) (D:=D) h (Some (mkRefresh rt)) w =
    (Ok (writeJSON 200 (BRefresh t')), with_store (Quiet (set_refresh (map_rows (slide_row now r) (refresh_tokens d)) d) now rand) w).
Proof.
  intros Hw Hd Hrt Hr Hh Hl Hu Hid Ht. unfold refresh, decoded. unfold bind at 1. unfold ret at 1. cbn [rf_RefreshToken]. rewrite bool_decide_false by done.
  unfold or_server_error, or_fail, bind, db. rewrite Hw, (ValidateRefresh_live rt d now rand r) by done.
  assert (user_by_id d (r_user r) = Some u) as Huser.
  { apply (by_id_iff u_id); [apply Hd|done]. }
  unfold ret. cbn [w_store w_nanos w_nft w_wg w_status w_log]. unfold GetUserByID, query, driver, gets. cbn [s_faults s_db].
  change (user_by_id (set_refresh _ d) (r_user r)) with (user_by_id d (r_user r)). rewrite Huser.
  unfold issue_token, bind, now_ns, gets. unfold clock, claims_of in Ht. rewrite Hw in Ht. cbn [w_store w_nanos s_now] in *. by rewrite Ht.
Qed.
Lemma refresh_dead d now rand rt w :
  w_store w = Quiet d now rand -> rt <> "" -> (forall r, r ∈ rows (refresh_tokens d) -> r_hash r = hashRefreshToken rt -> ~ live now r) ->
  refresh (K:=K) (D:=D) h (Some (mkRefresh rt)) w = (Err invalid_refresh, w).
Proof.
  intros Hw Hrt Hno. unfold refresh, decoded. unfold bind at 1. unfold ret at 1. cbn [rf_RefreshToken]. rewrite bool_decide_false by done.
  unfold or_fail, bind, db. rewrite Hw, (ValidateRefresh_dead rt d now rand) by done. destruct w as [s]. cbn in *. by rewrite Hw.
Qed.

(** [Refresh] is that handler's answer. *)
Lemma refresh_route rt auth path method w out :
  (refresh (K:=K) (D:=D) h (Some (mkRefresh rt)) w = out) ->
  NewRouter h true (Some "POST /api/v1/refresh") method auth path (decode_body (BodyRefresh (mkRefresh rt))) w = out.
Proof. done. Qed.
Lemma Refresh_ok rt t w t' w' : rt <> "" ->
  (refresh (K:=K) (D:=D) h (Some (mkRefresh rt)) w = (Ok (writeJSON 200 (BRefresh t')), w')) ->
  Refresh (mkClient t rt w) = (Ok tt, mkClient t' rt w').
Proof.
  intros Hrt Hr. unfold Refresh, attempt, http_Do, here. cbn [c_refreshToken c_net c_token]. rewrite bool_decide_false by done.
  rewrite (served_match _ _ "POST /api/v1/refresh" []) by by vm_compute. cbn [hr_method hr_path hr_auth hr_body decode_body].
  rewrite (refresh_route _ _ _ _ _ _ Hr). reflexivity.
Qed.
Lemma Refresh_refused rt t w resp w' : rt <> "" -> 300 <= status resp ->
  (refresh (K:=K) (D:=D) h (Some (mkRefresh rt)) w = (Err resp, w')) ->
  Refresh (mkClient t rt w) = (Err ErrRefreshFailed, mkClient t rt w').
Proof.
  intros Hrt Hst Hr. unfold Refresh, attempt, http_Do, here. cbn [c_refreshToken c_net c_token]. rewrite bool_decide_false by done.
  rewrite (served_match _ _ "POST /api/v1/refresh" []) by by vm_compute. cbn [hr_method hr_path hr_auth hr_body decode_body].
  rewrite (refresh_route _ _ _ _ _ _ Hr). cbn [fst snd]. by rewrite (proj2 (Z.ltb_ge (status resp) 300)), andb_false_r by done.
Qed.

Context `{!JwtLaws} `{!JwtText}.

(** The client after a silent renewal. *)
Definition renewed d now rand rt r t' (w : World K D) : ClientState (World K D) :=
  mkClient t' rt (with_store (Quiet (set_refresh (map_rows (slide_row now r) (refresh_tokens d)) d) now rand) w).

(** C27: an expired session is renewed behind the call's back. A call
    on a route that needs a session, made with a token the server does not accept:
    if the client holds a live refresh token, the call is the same call made with a
    session the server has just issued to that token's user, and nothing else has
    changed than the refresh token's expiry; if it does not, the call reports an
    expired session and nothing has changed at all. The server's sessions last at
    least a second, the precision of the expiry a token carries. *)
Theorem silent_refresh {A} method path p vs b (out : Body -> option A) d now rand rt t (w : World K D) :
  w_store w = Quiet d now rand -> schema_ok d -> rt <> "" -> 1000000000 <= jwt_ttl (h_jwt h) ->
  mux_match route_patterns method path = Some (p, vs) -> p ∉ public_patterns ->
  VerifyJWT (h_jwt h) (clock w) (TrimSpace t) = None ->
  (forall r u t', r ∈ rows (refresh_tokens d) -> r_hash r = hashRefreshToken rt -> live now r ->
     u ∈ rows (users d) -> u_id u = r_user r -> 0 <= u_id u < 2 ^ 63 -> IssueJWT (h_jwt h) (clock w) (claims_of u) = Some t' ->
     do_call method path true b out (mkClient t rt w) = attempt method path true b out (renewed d now rand rt r t' w) /\
     caller h ("Bearer " +:+ t') (c_net (renewed d now rand rt r t' w)) = Some (claims_of u)) /\
  ((forall r, r ∈ rows (refresh_tokens d) -> r_hash r = hashRefreshToken rt -> ~ live now r) ->
     do_call method path true b out (mkClient t rt w) = (Err ErrSessionExpired, mkClient t rt w)).
Proof.
  intros Hw Hd Hrt Httl Hm Hpub Hv. unfold do_call. rewrite (attempt_rejected method path p vs) by done.
  cbn [andb c_refreshToken]. rewrite bool_decide_true by done. split.
  - intros r u t' Hr Hh Hl Hu Hid Hrange Ht. split.
    + by rewrite (Refresh_ok rt t w t' _ Hrt (refresh_live d now rand rt w r u t' Hw Hd Hrt Hr Hh Hl Hu Hid Ht)).
    + unfold caller. rewrite CutPrefix_bearer. cbn [mbind option_bind renewed c_net w_store with_store w_nanos s_now].
      pose proof (f_equal s_now Hw) as Hnow. cbn [s_now] in Hnow. rewrite <- Hnow. fold (clock w).
      rewrite TrimSpace_graphic by by eapply signed_graphic. unfold VerifyJWT. unfold IssueJWT in Ht. rewrite (parse_signed _ _ _ (clock w) Ht).
      cbn [jc_ExpiresAt]. unfold NumericDate. rewrite (proj2 (Z.ltb_lt _ _)).
      * cbn [mbind option_bind jc_Subject]. by rewrite ParseInt64_pretty.
      * pose proof (Z.div_mod (clock w + jwt_ttl (h_jwt h)) 1000000000). pose proof (Z.mod_pos_bound (clock w + jwt_ttl (h_jwt h)) 1000000000). lia.
  - intros Hno. by rewrite (Refresh_refused rt t w invalid_refresh w Hrt ltac:(done) (refresh_dead d now rand rt w Hw Hrt Hno)).
Qed.
End Served.

(** Ann, with an expired session and a live refresh token. *)
#[local] Instance no_v6 : NetipV6 := fun _ => None.
#[export, program] Instance sim_jwt_text : JwtText | 100 := {| signed_graphic := _ |}.
Next Obligation. intros c secret t. unfold SignedString, sim_jwt. case_decide; [|done]. by intros [= <-]. Qed.
Definition ann_token : refresh_row := RefreshRow 1 7 (hashRefreshToken "tok") 500 None 0.
Definition ann_db : DB :=
  set_refresh (Db.Table [ann_token] 1) (set_users (Db.Table [UserRow 7 "ann" "h" true 0] 7) empty_db).
Lemma ann_db_ok : schema_ok ann_db.
Proof.
  destruct empty_db_ok; constructor; try done.
  1,2: split_and!; [done|repeat constructor|by intros x ->%list_elem_of_singleton].
  1,2: apply NoDup_singleton.
  1,2: by intros x i Hx%not_elem_of_nil.
  1,2: by intros x Hx%not_elem_of_nil.
  intros x ->%list_elem_of_singleton. left.
Qed.
Definition ann_world : World Ruleset SimHost := mkWorld (Quiet ann_db 100 []) 0 ∅ bare_host NewTracker [].
#[local] Instance ann_net : Transport (World Ruleset SimHost) := here api_opts.
Lemma ann_token_in : ann_token ∈ rows (refresh_tokens ann_db).
Proof. left. Qed.
Lemma ann_token_hash : r_hash ann_token = hashRefreshToken "tok".
Proof. unfold ann_token. cbn [r_hash]. exact eq_refl. Qed.
Lemma ann_token_live : live 100 ann_token.
Proof. by split; [|vm_compute]. Qed.
Lemma ann_in : UserRow 7 "ann" "h" true 0 ∈ rows (users ann_db).
Proof. left. Qed.
Lemma ann_issued : IssueJWT (h_jwt api_opts) (clock ann_world) (claims_of (UserRow 7 "ann" "h" true 0)) = Some "token".
Proof. by vm_compute. Qed.
Lemma silent_refresh_witness :
  fst (Me (mkClient "old" "tok" ann_world)) = Ok (7, "ann", true) /\
  fst (Me (mkClient "old" "lost" ann_world)) = Err ErrSessionExpired.
Proof.
  assert (mux_match route_patterns "GET" "/api/v1/me" = Some ("GET /api/v1/me", [])) as Hm by by vm_compute.
  assert ("GET /api/v1/me" ∉ public_patterns) as Hp by (apply (bool_decide_unpack _); by vm_compute).
  unfold Me, ann_net. split.
  - destruct (silent_refresh api_opts "GET" "/api/v1/me" _ _ NoBody (fun b => match b with BMe i n a => Some (i, n, a) | _ => None end)
      ann_db 100 [] "tok" "old" ann_world eq_refl ann_db_ok ltac:(done) ltac:(done) Hm Hp ltac:(done)) as [Hlive _].
    rewrite (proj1 (Hlive ann_token (UserRow 7 "ann" "h" true 0) "token" ann_token_in ann_token_hash ann_token_live ann_in eq_refl ltac:(done) ann_issued)).
    by vm_compute.
  - refine (f_equal fst (proj2 (silent_refresh api_opts "GET" "/api/v1/me" _ _ NoBody _
      ann_db 100 [] "lost" "old" ann_world eq_refl ann_db_ok ltac:(done) ltac:(done) Hm Hp ltac:(done)) _)).
    intros r ->%list_elem_of_singleton Hh. exfalso. revert Hh. by vm_compute.
Defined.
