(* ===== verification/ClientReads.v ===== *)
(** * What the client reads is what the store holds

    The three listing calls of the client, made with a valid session against the
    server's router over a quiet store: their answers are the store's queries, and
    they change neither the server nor the client. *)
From Stdlib Require Import Ascii.
From stdpp Require Import sorting.
From S2P Require Import Prelude GoStrings Netip Ipam Codec Db StoreInv StoreUsers StoreNodes StoreAnnounce StoreOps UsersProps Netfw Isolation Wg WgProps Auth AuthProps Api ApiZones ApiRoutes ApiProps ApiClient ClientPaths ClientSession.

#[local] Open Scope lw_scope.

(** The client's reading of an answer. *)
Definition reply {A} (path : string) (out : Body -> option A) (resp : Resp) : res client_err A :=
  if (200 <=? status resp) && (status resp <? 300)
  then match out (body resp) with Some a => Ok a | None => Err ErrDecode end
  else Err (mapError path true resp).

(** What the listing queries answer. *)
Definition user_zones (d : DB) (user : Z) : list (zone_row * bool) :=
  (fun z => (z, bool_decide (z_owner z = user))) <$>
    reverse (filter (fun z => z_owner z = user \/ z_id z ∈ member_zone_ids user d) (rows (zones d))).
Definition zone_members_of (d : DB) (z : Z) : list ZoneMember := snd <$> merge_sort member_le (members_joined z d).
Definition zone_anns_of (d : DB) (z : Z) : list Announcement :=
  merge_sort ann_le
    (join_on (attached d) (fun p => az_zone p.1 = z) (fun p =>
     join_on (rows (nodes d)) (fun n => n_id n = a_node p.2) (fun n =>
     join_on (rows (users d)) (fun u => u_id u = n_user n) (fun u =>
     let a := ann_of_row p.2 in
     [mkAnn (an_id a) (an_node a) (Real a) (Synthetic a) (an_created a) (n_name n) (u_name u)])))).

(** The zone of that name, if the user takes part in it. *)
Definition joined_zone (d : DB) (user : Z) (name : string) : option zone_row :=
  z ← first_row (fun z => z_name z = name) (rows (zones d)); if is_participant (z_id z) user d then Some z else None.

Section Reads.
Context {K D : Type} `{Nftables K} `{WgHost D} `{WgTypes} `{NetipV6} `{Sqlite} `{Argon2} `{JwtLib} (h : Options).
#[local] Hint Extern 0 (Transport (World K D)) => exact (here h) : typeclass_instances.

(** The client's session is that of [c]. *)
Definition session (c : Claims) (cl : ClientState (World K D)) : Prop := caller h ("Bearer " +:+ c_token cl) (c_net cl) = Some c.

(** A guarded call with a session is its handler's answer, as the caller. *)
Lemma attempt_guarded {A} method path p vs g b (out : Body -> option A) c cl resp w' :
  mux_match route_patterns method path = Some (p, vs) -> (lookup_route p (routes (K:=K) (D:=D) h) = Some (AuthRequired h g)) -> session c cl ->
  g (with_identity c (mkRequest method ("Bearer " +:+ c_token cl) None (path_value vs) (decode_body b))) (c_net cl) = (resp, w') ->
  attempt method path true b out cl =
    (reply path out (match resp with Ok resp | Err resp => resp end), mkClient (c_token cl) (c_refreshToken cl) w').
Proof.
  intros Hm Hl Hs Hg. unfold attempt, http_Do, here. rewrite (served_match h _ _ p vs) by exact Hm. cbn [hr_method hr_path hr_auth hr_body default id].
  unfold NewRouter, RateLimit, mux. cbn [negb mbind option_bind]. rewrite Hl. unfold AuthRequired. cbn [rq_auth].
  unfold session, caller in Hs. rewrite CutPrefix_bearer in Hs |- *. cbn [mbind option_bind] in Hs. unfold bind, now_ns, gets.
  rewrite Hs, Hg. cbn [fst snd]. unfold reply. by destruct (_ && _).
Qed.
Lemma call_guarded {A} method path p vs g b (out : Body -> option A) c cl resp w' :
  mux_match route_patterns method path = Some (p, vs) -> (lookup_route p (routes (K:=K) (D:=D) h) = Some (AuthRequired h g)) -> session c cl ->
  g (with_identity c (mkRequest method ("Bearer " +:+ c_token cl) None (path_value vs) (decode_body b))) (c_net cl) = (resp, w') ->
  let r := reply path out (match resp with Ok resp | Err resp => resp end) in r <> Err ErrSessionExpired ->
  do_call method path true b out cl = (r, mkClient (c_token cl) (c_refreshToken cl) w').
Proof.
  intros Hm Hl Hs Hg r Hr. unfold do_call. rewrite (attempt_guarded method path p vs g b out c cl resp w' Hm Hl Hs Hg). fold r.
  destruct r as [a|[]]; congruence || done.
Qed.

Context (d : DB) (now : Z) (rand : list (list Z)).
Definition quiet_net (w : World K D) : Prop := w_store w = Quiet d now rand.

Lemma db_query {A} (f : DB -> A) w : quiet_net w -> db (query f) w = (Ok (Ok (f d)), w).
Proof. intros Hw. unfold db. rewrite Hw. destruct w. cbn in *. by rewrite Hw. Qed.
Lemma or_server_error_query {A B} (f : DB -> A) (k : A -> M Resp (World K D) B) w : quiet_net w ->
  bind (or_server_error (db (query f))) k w = k (f d) w.
Proof. intros Hw. unfold bind at 1, or_server_error, or_fail, bind. by rewrite db_query. Qed.

Lemma memberZone_read {B} user name (k : zone_row -> M Resp (World K D) B) w : quiet_net w ->
  bind (memberZone user name) k w = match joined_zone d user name with Some z => k z w | None => (Err (not_found "Not found."), w) end.
Proof.
  intros Hw. unfold bind at 1, memberZone, joined_zone, GetZoneByName, IsParticipant. rewrite or_server_error_query by done.
  destruct (first_row _ _) as [z|]; [|done]. cbn [mbind option_bind]. rewrite or_server_error_query by done.
  by destruct (is_participant _ _ _).
Qed.

Context (c : Claims) (cl : ClientState (World K D)) (Hq : quiet_net (c_net cl)) (Hs : session c cl).
Lemma client_eta : mkClient (c_token cl) (c_refreshToken cl) (c_net cl) = cl.
Proof. by destruct cl. Qed.

Lemma ListZones_read : ListZones cl = (Ok (zone_item <$> user_zones d (c_UserID c)), cl).
Proof.
  unfold ListZones. rewrite (call_guarded "GET" "/api/v1/zones" "GET /api/v1/zones" [] (fun r => listZones (rq_ctx r)) NoBody _ c cl
    (Ok (writeJSON 200 (BZones (zone_item <$> user_zones d (c_UserID c))))) (c_net cl));
    [by rewrite client_eta|by vm_compute|reflexivity|exact Hs| |done].
  unfold listZones. cbn [with_identity rq_ctx]. unfold bind at 1, identity, ret at 1. unfold ListForUser. by rewrite or_server_error_query.
Qed.

(** A refused listing is not taken for an expired session. *)
Lemma not_found_reply {A} path (out : Body -> option A) : exists e, reply path out (not_found "Not found.") = Err e /\ e <> ErrSessionExpired.
Proof.
  change (exists e, Err (if StrContains path "/leave" || StrContains path "/members/" then ErrNotMember else ErrZoneNotFound) = Err (A:=A) e /\ e <> ErrSessionExpired).
  eexists. split; [reflexivity|]. by destruct (_ || _).
Qed.

Lemma zone_read {A B} suffix p (out : Body -> option A) (rd : zone_row -> SM B) (f : zone_row -> DB -> B) (wrap : B -> Body) (val : B -> A) name :
  mux_match route_patterns "GET" (zone_path name suffix) = Some (p, [("name", name)]) ->
  (lookup_route p (routes (K:=K) (D:=D) h) = Some (AuthRequired h (fun r =>
     let! id := identity (rq_ctx r) in
     let! zone := memberZone (c_UserID id) (rq_path r "name") in
     let! l := or_server_error (db (rd zone)) in ret (writeJSON 200 (wrap l))))) ->
  (forall z, rd z = query (f z)) -> (forall l, out (wrap l) = Some (val l)) ->
  exists r, do_call "GET" (zone_path name suffix) true NoBody out cl = (r, cl) /\
    match joined_zone d (c_UserID c) name with Some z => r = Ok (val (f z d)) | None => exists e, r = Err e end.
Proof.
  intros Hm Hl Hrd Hout.
  set (resp := match joined_zone d (c_UserID c) name with Some z => Ok (writeJSON 200 (wrap (f z d))) | None => Err (not_found "Not found.") end : res Resp Resp).
  exists (reply (zone_path name suffix) out (match resp with Ok resp | Err resp => resp end)).
  assert (match joined_zone d (c_UserID c) name with Some z => reply (zone_path name suffix) out (match resp with Ok resp | Err resp => resp end) = Ok (val (f z d))
    | None => exists e, reply (zone_path name suffix) out (match resp with Ok resp | Err resp => resp end) = Err e /\ e <> ErrSessionExpired end) as Hr.
  { unfold resp. destruct (joined_zone d _ _) as [z|]; [|apply not_found_reply]. unfold reply. cbn [status writeJSON body].
    change ((200 <=? 200) && (200 <? 300)) with true. by rewrite Hout. }
  split; [|destruct (joined_zone d _ _); naive_solver].
  erewrite (call_guarded "GET" _ p _ _ NoBody out c cl resp (c_net cl) Hm Hl Hs); [by rewrite client_eta| |].
  - cbn [with_identity rq_ctx rq_path]. unfold bind at 1, identity, ret at 1. rewrite memberZone_read by done.
    change (path_value (("name", name) :: []) "name") with name. unfold resp. destruct (joined_zone d _ _) as [z|]; [|done].
    rewrite Hrd. by rewrite or_server_error_query.
  - destruct (joined_zone d _ _); [by rewrite Hr|]. destruct Hr as (e & -> & ?). congruence.
Qed.

(** What a listing of a zone answers. *)
Definition answers {A} (r : res client_err A) (name : string) (val : zone_row -> A) : Prop :=
  match joined_zone d (c_UserID c) name with Some z => r = Ok (val z) | None => exists e, r = Err e end.
Lemma ZoneMembers_read name : proper name ->
  exists r, ZoneMembers name cl = (r, cl) /\ answers r name (fun z => member_item <$> zone_members_of d (z_id z)).
Proof.
  intros Hname. apply (zone_read "/members" "GET /api/v1/zones/{name}/members" (fun b => match b with BMembers l => Some l | _ => None end)
    (fun z => MembersByZone (z_id z)) (fun z d => zone_members_of d (z_id z))
    (fun l => BMembers (member_item <$> l)) (fun l => member_item <$> l)); try done.
  by apply members_route.
Qed.
Lemma ListAnnouncements_read name : proper name ->
  exists r, ListAnnouncements name cl = (r, cl) /\ answers r name (fun z => ann_item <$> zone_anns_of d (z_id z)).
Proof.
  intros Hname. apply (zone_read "/announcements" "GET /api/v1/zones/{name}/announcements" (fun b => match b with BAnns l => Some l | _ => None end)
    (fun z => ListByZone (z_id z)) (fun z d => zone_anns_of d (z_id z))
    (fun l => BAnns (ann_item <$> l)) (fun l => ann_item <$> l)); try done.
  by apply announcements_route.
Qed.
End Reads.
