(* ===== verification/Routerd.v ===== *)
(** * The router daemon ([cmd/lanweave-routerd])

    The daemon's own part of [main.go]: the engine made from the saved record, and
    the reconciliation that rebuilds the translation table and the tunnel's routes
    from the server's lists, over the API client, [routesync], [natctl] and the
    engine. *)
From S2P Require Import Prelude GoStrings Netip Ipam Codec Db StoreUsers StoreNodes StoreAnnounce Netfw Wg Auth Api Netutil NatCtl Engine RouteSync Daemon ApiClient.

#[local] Open Scope lw_scope.

(** [state.Record], as [state.Load] gives it. *)
Record StateRecord : Type := mkRecord
  { st_SchemaVersion : Z; st_ServerURL : string; st_NodeName : string; st_IP : string; st_ServerPublicKey : string; st_Endpoint : string;
    st_Network : string; st_PinnedCertSHA256 : string; st_FirewallAllowVPN : bool; st_NodeID : Z }.

(** [keyring.Store]. *)
Class KeyRing (S : Type) : Type :=
  { kr_Get : string -> M unit S string;
    kr_Set : string -> string -> M unit S unit;
    kr_Delete : string -> M unit S unit }.

Definition DeviceKeyName : string := "lanweave-device-private-key".
Definition SessionTokenName : string := "lanweave-session-token".
Definition RefreshTokenName : string := "lanweave-refresh-token".

Inductive rd_err : Type :=
| ENotOnboarded | EKeyMissing | EStateIP | EStateNetwork   (** of [engineFromState] *)
| ENoServer | EApi (e : client_err) | EFetch (e : fetch_err) | ENat (e : nat_err) | ERoutes (e : eng_err).

(** What the daemon holds: the key ring, the network with the server behind it, the
    kernel's translation tables and the tunnel engine. *)
Record RouterState (S N K D : Type) : Type := mkRouter { rs_keys : S; rs_net : N; rs_nat : K; rs_eng : EngineState D }.
Arguments mkRouter {S N K D}. Arguments rs_keys {S N K D}. Arguments rs_net {S N K D}.
Arguments rs_nat {S N K D}. Arguments rs_eng {S N K D}.

(** One reconciliation's state: the client in place of the network. *)
Record Cycle (N K D : Type) : Type := mkCycle { cy_client : ClientState N; cy_nat : K; cy_eng : EngineState D }.
Arguments mkCycle {N K D}. Arguments cy_client {N K D}. Arguments cy_nat {N K D}. Arguments cy_eng {N K D}.

(** ** The engine of the saved record *)

Definition keepalive : Z := 25 * 1000000000.
(** The address is one the server gave, an IPv4 address; another text is refused
    here, where [ParseAddr] would also read an IPv6 one. *)
Definition engineFromState {S} `{KeyRing S} `{NetipV6} (iface : string) (load : option StateRecord) : M rd_err S (Config * StateRecord) := fun s =>
  match load with
  | None => (Err ENotOnboarded, s)
  | Some rec =>
      match kr_Get DeviceKeyName s with
      | (Err _, s) => (Err EKeyMissing, s)
      | (Ok priv, s) =>
          match ParseAddr4 (st_IP rec) with
          | None => (Err EStateIP, s)
          | Some addr =>
              match ParsePrefix (st_Network rec) with
              | None => (Err EStateNetwork, s)
              | Some network => (Ok (mkConfig iface priv addr network (st_ServerPublicKey rec) (st_Endpoint rec) keepalive, rec), s)
              end
          end
      end
  end.

Section Reconcile.
Context {S N K D : Type} `{KeyRing S} `{Transport N} `{NatKernel K} `{RouterHost D} `{Interfaces D} `{WgTypes} `{NetipV6}.
Context (table : string) (cfg : Config).

Abbreviation RM := (M rd_err (Cycle N K D)).
Definition on_client {E A} (m : M E (ClientState N) A) : M rd_err (Cycle N K D) (res E A) := fun c =>
  let '(r, cl) := m (cy_client c) in (Ok r, mkCycle cl (cy_nat c) (cy_eng c)).
Definition on_nat {A} (m : M nat_err K A) : M rd_err (Cycle N K D) (res nat_err A) := fun c =>
  let '(r, k) := m (cy_nat c) in (Ok r, mkCycle (cy_client c) k (cy_eng c)).
Definition on_eng {A} (m : M eng_err (EngineState D) A) : M rd_err (Cycle N K D) (res eng_err A) := fun c =>
  let '(r, e) := m (cy_eng c) in (Ok r, mkCycle (cy_client c) (cy_nat c) e).
Definition or_err {E A} (f : E -> rd_err) (m : M rd_err (Cycle N K D) (res E A)) : RM A :=
  let! r := m in match r with Ok a => ret a | Err e => throw (f e) end.

(** [newClient], with the tokens of the key ring. *)
Definition newClient (rec : StateRecord) : M rd_err (RouterState S N K D) (ClientState N) := fun s =>
  if bool_decide (st_ServerURL rec = "") then (Err ENoServer, s) else
  let '(tok, k) := kr_Get SessionTokenName (rs_keys s) in
  let '(rt, k) := kr_Get RefreshTokenName k in
  let text r := match r with Ok t => t | Err _ => "" end in
  (Ok (mkClient (text tok) (text rt) (rs_net s)), mkRouter k (rs_net s) (rs_nat s) (rs_eng s)).

Definition persistTokens (c : ClientState N) (k : S) : S :=
  let k := if bool_decide (c_token c = "") then k else snd (kr_Set SessionTokenName (c_token c) k) in
  if bool_decide (c_refreshToken c = "") then k else snd (kr_Set RefreshTokenName (c_refreshToken c) k).

(** The body of [reconcileAll] once it has a client. *)
Definition reconcile_cycle (rec : StateRecord) : RM unit :=
  let! zones := or_err EApi (on_client ListZones) in
  let! memberOf := or_err EApi (on_client (MemberZones zones ZoneMembers (st_IP rec))) in
  let! entries := or_err EFetch (on_client (Fetch memberOf ListAnnouncements)) in
  match ParsePrefix (st_Network rec) with
  | None => throw EStateNetwork
  | Some network =>
      let rules := (fun e => mkNatRule (e_Synthetic e) (e_Subnet e)) <$> Mine entries (st_NodeID rec) in
      do! or_err ENat (on_nat (NatCtl.Rebuild table network rules)) in
      do! or_err ERoutes (on_eng (SetRoutes cfg (Prefixes (Consumed entries (st_NodeID rec))))) in
      ret tt
  end.

(** [reconcileAll], with its deferred [persistTokens]. *)
Definition reconcileAll (rec : StateRecord) : M rd_err (RouterState S N K D) unit := fun s =>
  match newClient rec s with
  | (Err e, s) => (Err e, s)
  | (Ok c, s) =>
      let '(r, y) := reconcile_cycle rec (mkCycle c (rs_nat s) (rs_eng s)) in
      (r, mkRouter (persistTokens (cy_client y) (rs_keys s)) (c_net (cy_client y)) (cy_nat y) (cy_eng y))
  end.
End Reconcile.
