(* ===== verification/RouterLists.v ===== *)
(** * What a router's lists say of the database

    For a node of the database: which of the listed zones it is a member of, which
    announcements these zones list, and what their aggregation holds. *)
From Stdlib Require Import Ascii.
From stdpp Require Import sorting.
From S2P Require Import Prelude GoStrings Netip Ipam Codec Db StoreInv StoreUsers StoreNodes StoreAnnounce StoreOps UsersProps CascadeProps AnnounceProps StoreEffects Netfw Isolation Wg WgProps Auth AuthProps Api ApiZones ApiRoutes ApiProps Sync SyncServe NatCtl RouteSync RouteSyncProps ApiClient ClientPaths ClientSession ClientReads.

#[local] Open Scope lw_scope.

(** The prefix of an announcement's real subnet. *)
Definition real_prefix (a : ann_row) : Prefix := BlockPrefix (real_block a).
(** The announcement is in some zone that the node is a member of. *)
Definition offered (d : DB) (n : node_row) (a : ann_row) : Prop :=
  a ∈ rows (announcements d) /\ exists az, az ∈ announcement_zones d /\ az_ann az = a_id a /\ in_zone d (az_zone az) (n_ip n).
(** No zone has a name that the path of a request cannot carry. *)
Definition addressable (d : DB) : Prop := forall z, z ∈ rows (zones d) -> z_name z <> "" /\ z_name z <> "." /\ z_name z <> "..".

Section Lists.
Context `{WgTypes} `{NetipV6} (pool : Prefix) (d : DB) (Hd : data_ok pool d) (n : node_row) (Hn : n ∈ rows (nodes d)).

Lemma real_prefix_ok a : a ∈ rows (announcements d) -> prefix_ok (real_prefix a).
Proof.
  intros Ha. destruct (bk_real _ _ (do_blocks _ _ Hd) a Ha) as (Hu & Hl & _). unfold real_prefix, BlockPrefix, real_block. simpl in *.
  rewrite u32_id, Uint32ToAddr_id by done. done.
Qed.

(** ** The members of a zone *)

Definition lists_node (z : Z) : bool := existsb (fun m => bool_decide (mr_IP m = AddrString (n_ip n))) (member_item <$> zone_members_of d z).

Lemma node_user n' : n' ∈ rows (nodes d) -> exists u, u ∈ rows (users d) /\ u_id u = n_user n'.
Proof. intros Hn'. pose proof (fk_node_user _ (do_schema _ _ Hd) n' Hn') as (u & -> & Hu)%list_elem_of_fmap. by exists u. Qed.

Lemma lists_node_iff z : lists_node z = true <-> in_zone d z (n_ip n).
Proof.
  unfold lists_node. rewrite existsb_exists. setoid_rewrite <- list_elem_of_In. unfold zone_members_of.
  setoid_rewrite list_elem_of_fmap. setoid_rewrite list_elem_of_fmap. setoid_rewrite elem_of_merge_sort. unfold members_joined.
  setoid_rewrite elem_of_join_on. setoid_rewrite elem_of_join_on. setoid_rewrite elem_of_join_on. setoid_rewrite list_elem_of_singleton. split.
  - intros (x & (y & -> & [k mb] & -> & m & Hm & Hz & n' & Hn' & Hid & u & Hu & Hus & [= -> ->]) & Heq%bool_decide_eq_true).
    exists m, n'. split_and!; [done|done|done|done|]. simpl in Heq.
    pose proof (do_ip _ _ Hd n' Hn'). pose proof (do_ip _ _ Hd n Hn).
    rewrite u32_id, Uint32ToAddr_id in Heq by done.
    pose proof (ParseAddr4_String (n_ip n') ltac:(done)) as P1. rewrite Heq, ParseAddr4_String in P1 by done. by injection P1.
  - intros (m & n' & Hm & Hn' & Hz & Hid & Hip). destruct (node_user n' Hn') as (u & Hu & Hus).
    eexists. split; [eexists; split; [reflexivity|]; eexists; split; [reflexivity|]; exists m; split_and!; [done|done|];
      exists n'; split_and!; [done|done|]; exists u; split_and!; [done|done|reflexivity]|].
    apply bool_decide_eq_true. simpl. pose proof (do_ip _ _ Hd n' Hn'). by rewrite u32_id, Uint32ToAddr_id, Hip by done.
Qed.

(** ** The announcements of a zone *)

Definition item_of (a : ann_row) (o : AnnouncementResponse) : Prop :=
  ar_ID o = a_id a /\ ar_NodeID o = a_node a /\ ar_Subnet o = PrefixString (real_prefix a) /\ ar_Synthetic o = PrefixString (synth_prefix a).

Lemma zone_anns_in z o : o ∈ ann_item <$> zone_anns_of d z ->
  exists a az, a ∈ rows (announcements d) /\ az ∈ announcement_zones d /\ az_ann az = a_id a /\ az_zone az = z /\ item_of a o.
Proof.
  unfold zone_anns_of. rewrite list_elem_of_fmap. setoid_rewrite elem_of_merge_sort. setoid_rewrite elem_of_join_on.
  intros (x & -> & [az a] & (Haz & Ha & Hid)%elem_of_attached & Hz & Hx). simpl in *.
  apply elem_of_join_on in Hx as (n' & Hn' & _ & Hx). apply elem_of_join_on in Hx as (u & _ & _ & ->%list_elem_of_singleton).
  exists a, az. by split_and!.
Qed.
Lemma zone_anns_all z a az : a ∈ rows (announcements d) -> az ∈ announcement_zones d -> az_ann az = a_id a -> az_zone az = z ->
  exists o, o ∈ ann_item <$> zone_anns_of d z /\ ar_ID o = a_id a.
Proof.
  intros Ha Haz Hid Hz. pose proof (fk_ann_node _ (do_schema _ _ Hd) a Ha) as (n' & Hnid & Hn')%list_elem_of_fmap.
  destruct (node_user n' Hn') as (u & Hu & Hus). unfold zone_anns_of. setoid_rewrite list_elem_of_fmap. setoid_rewrite elem_of_merge_sort.
  setoid_rewrite elem_of_join_on.
  eexists. split; [eexists; split; [reflexivity|]; exists (az, a); split_and!; [by apply elem_of_attached|done|];
    apply elem_of_join_on; exists n'; split_and!; [done|done|]; apply elem_of_join_on; exists u; split_and!; [done|done|by apply list_elem_of_singleton]|done].
Qed.

(** ** The zones of the node's user *)

Lemma member_zone_ids_iff u z : z ∈ member_zone_ids u d <->
  exists m n', m ∈ zone_members d /\ n' ∈ rows (nodes d) /\ n_id n' = m_node m /\ n_user n' = u /\ m_zone m = z.
Proof.
  unfold member_zone_ids. rewrite list_elem_of_bind. setoid_rewrite elem_of_join_on. split.
  - intros (m & (n' & Hn' & Hid & Hz) & Hm). case_decide; [|by apply not_elem_of_nil in Hz]. apply list_elem_of_singleton in Hz. by exists m, n'.
  - intros (m & n' & Hm & Hn' & Hid & Hu & Hz). exists m. split; [|done]. exists n'. split_and!; [done|done|].
    by rewrite decide_True, list_elem_of_singleton.
Qed.

Lemma user_zone_joined u zb : zb ∈ user_zones d u -> zb.1 ∈ rows (zones d) /\ joined_zone d u (z_name zb.1) = Some zb.1.
Proof.
  unfold user_zones. rewrite list_elem_of_fmap. setoid_rewrite elem_of_reverse. setoid_rewrite list_elem_of_filter.
  intros (z & -> & Hz & Hin). simpl. split; [done|]. unfold joined_zone.
  rewrite (first_row_unique _ _ z); [|intros y Hy Heq; by apply (uniq_inj z_name _ _ _ (uq_zone_name _ (do_schema _ _ Hd)))|done|done].
  cbn [mbind option_bind]. unfold is_participant.
  assert (bool_decide (z_id z ∈ z_id <$> filter (fun z => z_owner z = u) (rows (zones d))) || bool_decide (z_id z ∈ member_zone_ids u d) = true) as ->; [|done].
  apply orb_true_iff. rewrite !bool_decide_eq_true. destruct Hz as [Ho|Hm]; [left|by right]. apply list_elem_of_fmap_2. by apply list_elem_of_filter.
Qed.
Lemma node_zone_listed z : in_zone d z (n_ip n) -> exists zb, zb ∈ user_zones d (n_user n) /\ z_id zb.1 = z.
Proof.
  intros (m & n' & Hm & Hn' & Hz & Hid & Hip).
  assert (n = n') as <- by by apply (uniq_inj n_ip _ _ _ (uq_node_ip _ (do_schema _ _ Hd))).
  pose proof (fk_member_zone _ (do_schema _ _ Hd) m Hm) as (r & Hr & Hin)%list_elem_of_fmap.
  exists (r, bool_decide (z_owner r = n_user n)). split; [|simpl; congruence]. unfold user_zones.
  apply list_elem_of_fmap. exists r. split; [reflexivity|]. apply elem_of_reverse, list_elem_of_filter. split; [|done].
  right. apply member_zone_ids_iff. exists m, n. by split_and!.
Qed.

(** The zones [MemberZones] keeps. *)
Definition own_zones : list (zone_row * bool) := filter (fun zb => lists_node (z_id zb.1) = true) (user_zones d (n_user n)).
Lemma elem_of_own_zones z : (exists zb, zb ∈ own_zones /\ z_id zb.1 = z) <-> in_zone d z (n_ip n).
Proof.
  unfold own_zones. setoid_rewrite list_elem_of_filter. setoid_rewrite lists_node_iff. split; [by intros (zb & [? _] & <-)|].
  intros Hz. destruct (node_zone_listed z Hz) as (zb & Hin & Hid). exists zb. by rewrite Hid.
Qed.

(** ** The aggregation *)

(** Every announcement the node is offered, with the name of the zone that lists it. *)
Definition own_occs : list Occ := own_zones ≫= fun zb => pair (z_name zb.1) <$> (ann_item <$> zone_anns_of d (z_id zb.1)).
Lemma own_occs_in o : o ∈ own_occs -> exists a, offered d n a /\ item_of a o.2.
Proof.
  unfold own_occs. rewrite list_elem_of_bind. setoid_rewrite list_elem_of_fmap.
  intros (zb & (x & -> & (a & az & Ha & Haz & Hid & Hz & Hi)%zone_anns_in) & Hzb). exists a. split; [|done]. split; [done|].
  exists az. split_and!; [done|done|]. rewrite Hz. apply elem_of_own_zones. by exists zb.
Qed.
Lemma own_occs_all a : offered d n a -> exists o, o ∈ own_occs /\ ar_ID o.2 = a_id a.
Proof.
  intros (Ha & az & Haz & Hid & (zb & Hzb & Hz)%elem_of_own_zones). destruct (zone_anns_all (z_id zb.1) a az Ha Haz Hid) as (x & Hx & Hxid); [done|].
  exists (z_name zb.1, x). split; [|done]. unfold own_occs. apply list_elem_of_bind. exists zb. split; [|done]. by apply list_elem_of_fmap_2.
Qed.
Lemma own_occs_parse o : o ∈ own_occs -> exists a, offered d n a /\ exists e, new_entry o.1 o.2 = Ok e /\
  e_ID e = a_id a /\ e_NodeID e = a_node a /\ e_Subnet e = P4 (real_prefix a) /\ e_Synthetic e = P4 (synth_prefix a).
Proof.
  intros (a & [Ha Hoff] & Hid & Hnode & Hs & Hy)%own_occs_in. exists a. split; [done|]. unfold new_entry.
  assert (forall p, prefix_ok p -> ParsePrefix (PrefixString p) = Some (P4 p)) as Hp by (intros p Hp; unfold ParsePrefix; by rewrite ParsePrefix4_String).
  rewrite Hs, Hy, (Hp _ (real_prefix_ok a Ha)), (Hp _ (proj2 (proj2 (proj2 (synth_prefix_eq pool d Hd a Ha))))).
  eexists. split; [reflexivity|]. done.
Qed.

(** The entry of a table made of these occurrences. *)
Definition entry_for (e : Entry) (a : ann_row) : Prop :=
  e_ID e = a_id a /\ e_NodeID e = a_node a /\ e_Subnet e = P4 (real_prefix a) /\ e_Synthetic e = P4 (synth_prefix a).
Lemma entries_offered (m : gmap Z Entry) : (forall id, m !! id = entry_of (about id own_occs)) ->
  (forall e, e ∈ entries_of m -> exists a, offered d n a /\ entry_for e a) /\
  (forall a, offered d n a -> exists e, e ∈ entries_of m /\ entry_for e a).
Proof.
  intros Ht. pose proof (table_ids own_occs m Ht) as Hids.
  assert (forall id x, m !! id = Some x -> exists a, offered d n a /\ entry_for (sort_zones x) a /\ a_id a = id) as Hrow.
  { intros id x Hx. pose proof (Hids _ _ Hx) as Hxid. rewrite Ht in Hx. destruct (about id own_occs) as [|o rest] eqn:Hab; [done|]. simpl in Hx.
    assert (o ∈ about id own_occs) as [Hoid Ho]%list_elem_of_filter by (rewrite Hab; left).
    destruct (own_occs_parse o Ho) as (a & Hoff & e & He & Hf). rewrite He in Hx. injection Hx as <-. exists a. destruct Hf as (? & ? & ? & ?).
    split_and!; [done|by split_and!|]. simpl in Hxid. congruence. }
  split.
  - intros e (x & Hx & ->)%elem_of_entries; [|done]. destruct (Hrow _ _ Hx) as (a & ? & ? & _). by exists a.
  - intros a Hoff. destruct (own_occs_all a Hoff) as (o & Ho & Hoid).
    assert (o ∈ about (a_id a) own_occs) as Hin by by apply list_elem_of_filter.
    destruct (m !! a_id a) as [x|] eqn:Hx.
    + destruct (Hrow _ _ Hx) as (a' & [Ha' Hoff'] & He & Hid'). destruct Hoff as [Ha Hoff].
      assert (a' = a) as -> by by apply (uniq_inj a_id _ _ _ (table_ok_uniq _ _ (ok_anns _ (do_schema _ _ Hd)))).
      exists (sort_zones x). split; [|done]. apply elem_of_entries; [done|]. exists x. split; [|done]. simpl. by rewrite (Hids _ _ Hx).
    + rewrite Ht in Hx. destruct (about (a_id a) own_occs) as [|o' rest] eqn:Hab; [by apply not_elem_of_nil in Hin|]. simpl in Hx.
      assert (o' ∈ about (a_id a) own_occs) as [_ Ho']%list_elem_of_filter by (rewrite Hab; left).
      destruct (own_occs_parse o' Ho') as (? & _ & e & He & _). by rewrite He in Hx.
Qed.
End Lists.
