(* ===== verification/RouterdProps.v ===== *)
(** * The router reconciled with the server

    Against the server's router over a quiet store, one reconciliation of the
    daemon makes the kernel's translation table and the tunnel's routes what the
    database says of the router's node. *)
From Stdlib Require Import Ascii.
From stdpp Require Import sorting.
From S2P Require Import Prelude GoStrings Netip Ipam Codec Db StoreInv StoreUsers StoreNodes StoreAnnounce StoreOps UsersProps CascadeProps AnnounceProps StoreEffects Netfw Isolation Wg WgProps Auth AuthProps Api ApiZones ApiRoutes ApiProps Sync SyncServe Netutil Engine EngineProps EngineRoutes NatCtl NatCtlProps RouteSync RouteSyncProps Daemon ApiClient ClientPaths ClientSession ClientReads Routerd RouterLists.

#[local] Open Scope lw_scope.

Section Router.
Context {K D : Type} `{Nftables K} `{WgHost D} `{WgTypes} `{NetipV6} `{Sqlite} `{Argon2} `{JwtLib} (h : Options).
#[local] Hint Extern 0 (Transport (World K D)) => exact (here h) : typeclass_instances.
Context (pool : Prefix) (d : DB) (now : Z) (rand : list (list Z)) (Hd : data_ok pool d) (Hnames : addressable d).
Context (n : node_row) (Hn : n ∈ rows (nodes d)) (c : Claims) (Huser : c_UserID c = n_user n).
Context (cl : ClientState (World K D)) (Hq : quiet_net d now rand (c_net cl)) (Hs : session h c cl).

(** ** The lists the router asks for *)

Abbreviation listed := (fun zb : zone_row * bool => zb.1 ∈ rows (zones d) /\ joined_zone d (n_user n) (z_name zb.1) = Some zb.1).
Lemma MemberZones_read zs : Forall listed zs ->
  MemberZones (zone_item <$> zs) ZoneMembers (AddrString (n_ip n)) cl =
    (Ok (zone_item <$> filter (fun zb => lists_node d n (z_id zb.1) = true) zs), cl).
Proof.
  induction 1 as [|zb zs [Hz Hj] Hzs IH]; [done|]. cbn [MemberZones fmap list_fmap].
  destruct (ZoneMembers_read h d now rand c cl Hq Hs (z_name zb.1)) as (r & Hr & Ha); [by apply Hnames|].
  unfold answers in Ha. rewrite Huser, Hj in Ha. subst r. unfold bind at 1, try. cbn [zone_item zr_Name]. rewrite Hr. cbn [fst snd].
  unfold bind at 1. cbn [fmap] in IH. rewrite IH. unfold ret. rewrite filter_cons. fold (lists_node d n (z_id zb.1)).
  destruct (lists_node d n (z_id zb.1)) eqn:Hl; [rewrite decide_True by done|rewrite decide_False by done]; done.
Qed.
Lemma gather_read zs : Forall listed zs ->
  gather ListAnnouncements (zone_item <$> zs) cl =
    (Ok (zs ≫= fun zb => pair (z_name zb.1) <$> (ann_item <$> zone_anns_of d (z_id zb.1))), cl).
Proof.
  induction 1 as [|zb zs [Hz Hj] Hzs IH]; [done|]. cbn [gather fmap list_fmap].
  destruct (ListAnnouncements_read h d now rand c cl Hq Hs (z_name zb.1)) as (r & Hr & Ha); [by apply Hnames|].
  unfold answers in Ha. rewrite Huser, Hj in Ha. subst r. unfold bind at 1. cbn [zone_item zr_Name]. rewrite Hr.
  unfold bind at 1. cbn [fmap] in IH. rewrite IH. done.
Qed.
Lemma user_zones_listed : Forall listed (user_zones d (n_user n)).
Proof. apply Forall_forall. intros zb. apply (user_zone_joined pool d Hd). Qed.

(** The aggregation of what the node is offered. *)
Lemma router_fetch : exists m, (forall id, m !! id = entry_of (about id (own_occs d n))) /\
  ListZones cl = (Ok (zone_item <$> user_zones d (n_user n)), cl) /\
  MemberZones (zone_item <$> user_zones d (n_user n)) ZoneMembers (AddrString (n_ip n)) cl = (Ok (zone_item <$> own_zones d n), cl) /\
  Fetch (zone_item <$> own_zones d n) ListAnnouncements cl = (Ok (entries_of m), cl).
Proof.
  assert (Forall listed (own_zones d n)) as Hown.
  { apply Forall_forall. intros zb [_ Hzb]%list_elem_of_filter. pose proof user_zones_listed as Hall. rewrite Forall_forall in Hall. by apply Hall. }
  destruct (Fetch_table ListAnnouncements (zone_item <$> own_zones d n) cl (own_occs d n) cl) as (m & Hf & Ht).
  - apply (gather_read _ Hown).
  - intros o Ho. destruct (own_occs_parse pool d Hd n Hn o Ho) as (a & _ & e & -> & _). done.
  - exists m. split_and!; [done| |apply MemberZones_read, user_zones_listed|done].
    rewrite <- Huser. by apply (ListZones_read h d now rand).
Qed.
End Router.

(** ** The two views *)

Section Views.
Context `{WgTypes} `{NetipV6} (pool : Prefix) (d : DB) (Hd : data_ok pool d) (n : node_row) (es : list Entry).
Context (Hin : forall e, e ∈ es -> exists a, offered d n a /\ entry_for e a)
  (Hall : forall a, offered d n a -> exists e, e ∈ es /\ entry_for e a).

Definition v4_of (p : AnyPrefix) : Prefix := default (PrefixFrom 0 0) (as_v4 p).
Lemma own_rules : let vs := (fun e => (v4_of (e_Synthetic e), v4_of (e_Subnet e))) <$> Mine es (n_id n) in
  ((fun e => mkNatRule (e_Synthetic e) (e_Subnet e)) <$> Mine es (n_id n)) = v4_rules vs /\
  forall v, v ∈ vs <-> exists a, offered d n a /\ a_node a = n_id n /\ v = (synth_prefix a, real_prefix a).
Proof.
  intros vs. split.
  - unfold vs, v4_rules. rewrite <- list_fmap_compose. apply list_fmap_ext. intros i e He%list_elem_of_lookup_2.
    apply list_elem_of_filter in He as [_ (a & _ & _ & _ & Hs & Hy)%Hin]. simpl. by rewrite Hs, Hy.
  - intros v. unfold vs, Mine. rewrite list_elem_of_fmap. setoid_rewrite list_elem_of_filter. split.
    + intros (e & -> & Hnode & (a & Hoff & _ & Han & Hs & Hy)%Hin). exists a. rewrite Hs, Hy. split_and!; [done|congruence|done].
    + intros (a & Hoff & Hnode & ->). destruct (Hall a Hoff) as (e & He & _ & Hen & Hs & Hy). exists e. rewrite Hs, Hy. by rewrite Hen.
Qed.
Lemma other_blocks q : q ∈ Prefixes (Consumed es (n_id n)) <-> exists a, offered d n a /\ a_node a <> n_id n /\ q = P4 (synth_prefix a).
Proof.
  unfold Consumed. rewrite elem_of_consume. split.
  - intros [_ (e & (a & Hoff & _ & Hen & _ & Hy)%Hin & Hne & <-)]. exists a. split_and!; [done|congruence|done].
  - intros (a & Hoff & Hne & ->). split; [apply not_elem_of_nil|]. destruct (Hall a Hoff) as (e & He & _ & Hen & _ & Hy). exists e.
    split_and!; [done|congruence|done].
Qed.
Lemma other_canonical q : q ∈ CanonicalPrefixes (Prefixes (Consumed es (n_id n))) <->
  exists a, offered d n a /\ a_node a <> n_id n /\ q = P4 (synth_prefix a).
Proof.
  rewrite elem_of_canonical, list_elem_of_fmap. setoid_rewrite other_blocks. split.
  - intros (x & -> & a & Hoff & Hne & ->). exists a. split_and!; [done..|]. simpl. by rewrite (proj1 (proj2 (synth_prefix_eq pool d Hd a (proj1 Hoff)))).
  - intros (a & Hoff & Hne & ->). exists (P4 (synth_prefix a)). split; [|by exists a]. simpl.
    by rewrite (proj1 (proj2 (synth_prefix_eq pool d Hd a (proj1 Hoff)))).
Qed.
End Views.

(** A block the node is offered is one the relay lets it send to. *)
Lemma offered_may_send d n a dst : offered d n a -> in_block dst (synth a) -> may_send d (n_ip n) dst.
Proof. intros (Ha & az & Haz & Hid & Hz) Hdst. exists (az_zone az). split; [done|right]. by exists az, a. Qed.

(** ** One reconciliation *)

Section Reconcile.
Context {K D : Type} `{Nftables K} `{WgHost D} `{WgTypes} `{NetipV6} `{Sqlite} `{Argon2} `{JwtLib} (h : Options).
Context {S KR DR : Type} `{KeyRing S} `{NatKernelLaws KR} `{RouterHostLaws DR}.
#[local] Hint Extern 0 (Transport (World K D)) => exact (here h) : typeclass_instances.
#[local] Abbreviation Router := (RouterState S (World K D) KR DR).

(** The daemon of node [n]: its saved record, and a session of the node's user. *)
Record daemon_of (d : DB) (n : node_row) (network : Prefix) (rec : StateRecord) (s : Router) : Prop := mkDaemonOf
  { df_url : st_ServerURL rec <> "";
    df_id : st_NodeID rec = n_id n;
    df_ip : st_IP rec = AddrString (n_ip n);
    df_network : ParsePrefix (st_Network rec) = Some (P4 network);
    df_session : exists tok c, fst (kr_Get SessionTokenName (rs_keys s)) = Ok tok /\
      caller h ("Bearer " +:+ tok) (rs_net s) = Some c /\ c_UserID c = n_user n }.
(** The VPN network of the engine is none of the announced blocks. *)
Definition vpn_apart (cfg : Config) (d : DB) (e : EngineState DR) : Prop :=
  (forall a, a ∈ rows (announcements d) -> AnyMasked (Network cfg) <> P4 (synth_prefix a)) /\ (AnyMasked (Network cfg) ∉ routesApplied e).

(** The translation table of node [n]: its own announcements, block to subnet. *)
Definition translates (table : string) (network : Prefix) (d : DB) (n : node_row) (k k' : KR) : Prop :=
  exists vs, nk_view k' = <[table := two_chains (pre_rule <$> vs) (post_rule network <$> vs)]> (nk_view k) /\
    forall v, v ∈ vs <-> exists a, offered d n a /\ a_node a = n_id n /\ v = (synth_prefix a, real_prefix a).
(** The tunnel's routes of node [n]: blocks that others announce to it; all of them,
    but for those a local network is in the way of, when the host works. *)
Definition routes_blocks (cfg : Config) (d : DB) (n : node_row) (e e' : EngineState DR) : Prop :=
  (forall q, q ∈ routesApplied e' -> exists a, offered d n a /\ a_node a <> n_id n /\ q = P4 (synth_prefix a)) /\
  (ever_healthy e -> tracks cfg e' /\
     forall a, offered d n a -> a_node a <> n_id n -> clear cfg (P4 (synth_prefix a)) -> P4 (synth_prefix a) ∈ routesApplied e').

Context (pool : Prefix) (d : DB) (now : Z) (rand : list (list Z)) (Hd : data_ok pool d) (Hnames : addressable d).
Context (n : node_row) (Hn : n ∈ rows (nodes d)) (network : Prefix) (rec : StateRecord).

(** The cycle, once the lists are read. *)
Lemma cycle_read table cfg c (cl : ClientState (World K D)) (k : KR) (e : EngineState DR) :
  c_UserID c = n_user n -> quiet_net d now rand (c_net cl) -> session h c cl ->
  st_NodeID rec = n_id n -> st_IP rec = AddrString (n_ip n) -> ParsePrefix (st_Network rec) = Some (P4 network) ->
  exists es vs, (forall v, v ∈ vs <-> exists a, offered d n a /\ a_node a = n_id n /\ v = (synth_prefix a, real_prefix a)) /\
    (forall q, q ∈ CanonicalPrefixes (Prefixes (Consumed es (n_id n))) <-> exists a, offered d n a /\ a_node a <> n_id n /\ q = P4 (synth_prefix a)) /\
    reconcile_cycle table cfg rec (mkCycle cl k e) =
      match NatCtl.Rebuild table (P4 network) (v4_rules vs) k with
      | (Err x, k') => (Err (ENat x), mkCycle cl k' e)
      | (Ok _, k') =>
          let '(r, e') := SetRoutes cfg (Prefixes (Consumed es (n_id n))) e in
          (match r with Ok _ => Ok tt | Err x => Err (ERoutes x) end, mkCycle cl k' e')
      end.
Proof.
  intros Huser Hq Hs Hid Hip Hnet.
  destruct (router_fetch h pool d now rand Hd Hnames n Hn c Huser cl Hq Hs) as (m & Ht & Hz & Hm & Hf).
  destruct (entries_offered pool d Hd n Hn m Ht) as [Hin Hall]. destruct (own_rules d n (entries_of m) Hin Hall) as [Hrules Hvs].
  eexists (entries_of m), _. split; [exact Hvs|]. split; [by apply (other_canonical pool d Hd n (entries_of m) Hin Hall)|].
  unfold reconcile_cycle, or_err, on_client, on_nat, on_eng, bind. cbn [cy_client cy_nat cy_eng]. rewrite Hz. cbn [ret fst snd cy_client cy_nat cy_eng].
  rewrite Hip, Hm. cbn [ret fst snd cy_client cy_nat cy_eng]. rewrite Hf. cbn [ret fst snd cy_client cy_nat cy_eng].
  rewrite Hnet, Hid, Hrules. cbn [cy_client cy_nat cy_eng]. destruct (NatCtl.Rebuild _ _ _ k) as [[[]|x] k']; [|done]. cbn [ret cy_client cy_nat cy_eng].
  by destruct (SetRoutes _ _ e) as [[out|x] e'].
Qed.

Lemma persist_cycle table cfg (s : Router) r s' : daemon_of d n network rec s -> quiet_net d now rand (rs_net s) ->
  reconcileAll table cfg rec s = (r, s') ->
  exists c cl y, c_UserID c = n_user n /\ quiet_net d now rand (c_net cl) /\ session h c cl /\ c_net cl = rs_net s /\
    reconcile_cycle table cfg rec (mkCycle cl (rs_nat s) (rs_eng s)) = (r, y) /\
    rs_net s' = c_net (cy_client y) /\ rs_nat s' = cy_nat y /\ rs_eng s' = cy_eng y.
Proof.
  intros [Hurl _ _ _ (tok & c & Htok & Hc & Huser)] Hq. unfold reconcileAll, newClient. rewrite bool_decide_false by done.
  destruct (kr_Get SessionTokenName (rs_keys s)) as [rt k1]. simpl in Htok. subst rt.
  destruct (kr_Get RefreshTokenName k1) as [rt k2]. cbn [rs_nat rs_eng].
  set (cl := mkClient tok (match rt with Ok t => t | Err _ => "" end) (rs_net s)).
  destruct (reconcile_cycle table cfg rec (mkCycle cl (rs_nat s) (rs_eng s))) as [r1 y] eqn:Hy. intros [= <- <-].
  exists c, cl, y. by split_and!.
Qed.
End Reconcile.

(** C8: one reconciliation, end to end. Whatever the kernel does, a reconciliation
    of a router's daemon against its server (a database as the server keeps it, no
    driver failure, a session of the node's user) leaves the server as it is; when
    it reports success, the translation table maps exactly the blocks of the node's
    own announcements, in zones it is a member of, onto its subnets, and the tunnel
    routes only blocks that other nodes announce into its zones (all of them, on a
    working host, that overlap no local network); when it reports a failure, that
    was the kernel's: of the translation, and nothing has changed, or of the routes,
    after the translation table was made right. *)
Theorem reconcile_spec {K D S KR DR : Type} `{Nftables K} `{WgHost D} `{WgTypes} `{NetipV6} `{Sqlite} `{Argon2} `{JwtLib}
    `{KeyRing S} `{NatKernelLaws KR} `{RouterHostLaws DR} h pool d now rand n network rec table cfg (s s' : RouterState S (World K D) KR DR) r :
  data_ok pool d -> addressable d -> n ∈ rows (nodes d) -> w_store (rs_net s) = Quiet d now rand ->
  daemon_of h d n network rec s -> tracks cfg (rs_eng s) -> vpn_apart cfg d (rs_eng s) ->
  (@reconcileAll _ _ _ _ _ (here h) _ _ _ _ _ table cfg rec s = (r, s')) ->
  rs_net s' = rs_net s /\
  match r with
  | Ok _ => translates table network d n (rs_nat s) (rs_nat s') /\ routes_blocks cfg d n (rs_eng s) (rs_eng s')
  | Err (ENat _) => nk_view (rs_nat s') = nk_view (rs_nat s) /\ rs_eng s' = rs_eng s
  | Err (ERoutes _) => translates table network d n (rs_nat s) (rs_nat s') /\ routesApplied (rs_eng s') = routesApplied (rs_eng s)
  | Err _ => False
  end.
Proof.
  intros Hd Hnames Hn Hq Hdf Ht [Hapart Hvpn] Hrun.
  destruct (persist_cycle h d now rand n network rec table cfg s r s' Hdf Hq Hrun) as (c & cl & y & Huser & Hqc & Hs & Hnet & Hy & Hn' & Hk & He).
  destruct (cycle_read h pool d now rand Hd Hnames n Hn network rec table cfg c cl (rs_nat s) (rs_eng s) Huser Hqc Hs
    (df_id _ _ _ _ _ _ Hdf) (df_ip _ _ _ _ _ _ Hdf) (df_network _ _ _ _ _ _ Hdf)) as (es & vs & Hvs & Hcan & Hcycle).
  rewrite Hcycle in Hy. clear Hcycle. destruct (NatCtl.Rebuild table (P4 network) (v4_rules vs) (rs_nat s)) as [[[]|x] k'] eqn:Hreb.
  - assert (translates table network d n (rs_nat s) k') as Htr by (exists vs; split; [by apply Rebuild_v4|exact Hvs]).
    assert (AnyMasked (Network cfg) ∉ CanonicalPrefixes (Prefixes (Consumed es (n_id n)))) as Hfree.
    { rewrite Hcan. intros (a & [Ha _] & _ & Heq). by apply (Hapart a). }
    pose proof (SetRoutes_wp cfg _ (rs_eng s) Ht Hfree Hvpn) as Hw. unfold wp in Hw.
    destruct (SetRoutes cfg _ (rs_eng s)) as [[out|x] e']; injection Hy as <- <-; rewrite Hn', Hk, He; (split; [done|]); simpl in Hw |- *.
    + destruct Hw as (Hsub & Hwant & Happ & Hpeer & Hin & Hout & Hclear & _). split; [done|]. split.
      * intros q Hq'. apply Hcan. rewrite Happ in Hq'. by eapply sublist_subseteq.
      * intros Hh. rewrite Happ. split; [|intros a Ho Hne Hcl; apply Hclear; [done|apply Hcan; by exists a|done]].
        split_and!; [by rewrite Happ| |by rewrite Happ, Hwant]. intros q. rewrite Happ. split; [|apply Hin].
        intros Hq'. by destruct (Hout q Hq') as [?|[_ ?]].
    + destruct Hw as [(_ & Ha & _) _]. by rewrite Ha.
  - injection Hy as <- <-. rewrite Hn', Hk, He. split; [done|]. simpl. split; [|done]. by apply Rebuild_view in Hreb as [Hv _].
Qed.

(** ** A router and its neighbour

    Ann's router announces 192.168.1.0/24 and Bob's gateway 192.168.9.0/24, both
    into the zone "home". *)

#[local] Instance no_v6 : NetipV6 := fun _ => None.
Definition sim_keyring : KeyRing (gmap string string) :=
  {| kr_Get k := fun s => (match s !! k with Some v => Ok v | None => Err tt end, s); kr_Set k v := fun s => (Ok tt, <[k := v]> s);
     kr_Delete k := fun s => (Ok tt, delete k s) |}.
#[local] Existing Instance sim_keyring.
Definition home_ops : list repo_op :=
  [OpCreateAdmin "a" "h"; OpCreateAdmin "b" "h"; OpCreateAdmin "c" "h"; OpCreateAdmin "d" "h"; OpCreateAdmin "e" "h"; OpCreateAdmin "f" "h";
   OpCreateAdmin "ann" "h"; OpCreateAdmin "bob" "h";
   OpCreateNode 7 "router" key_a "openwrt" 1681915906 1681981437 0; OpCreateNode 8 "gateway" key_b "openwrt" 1681915906 1681981437 0;
   OpCreateZone 8 "home" "h" 0; OpJoin 1 1; OpJoin 1 2;
   OpAnnounce 7 1 (mkBlock 3232235776 24) 1 0 (P4 serve_pool); OpAnnounce 8 2 (mkBlock 3232237824 24) 1 0 (P4 serve_pool)].
Definition home_db : DB := s_db (run_ops home_ops (mkStore empty_db [] 0 [])).
Definition home_world : World Ruleset SimHost := mkWorld (Quiet home_db 150 []) 0 ∅ bare_host NewTracker [].
Definition home_router : node_row := NodeRow 1 7 "router" key_a 1681915906 0 "openwrt".
Definition home_record : StateRecord := mkRecord 3 "https://vpn" "router" "100.64.0.2" "" "" "10.8.0.0/16" "" false 1.
Definition home_state : RouterState (gmap string string) (World Ruleset SimHost) NatTables SimRouter :=
  mkRouter {[SessionTokenName := "token"]} home_world ∅ demo_up.
#[local] Instance home_net : Transport (World Ruleset SimHost) := here serve_opts.
Definition home_done : RouterState (gmap string string) (World Ruleset SimHost) NatTables SimRouter :=
  snd (reconcileAll "lanweave_rt" demo_cfg home_record home_state).

Lemma home_nodes x : x ∈ rows (nodes home_db) -> x = home_router \/ x = NodeRow 2 8 "gateway" key_b 1681915907 0 "openwrt".
Proof.
  assert (rows (nodes home_db) = [home_router; NodeRow 2 8 "gateway" key_b 1681915907 0 "openwrt"]) as -> by by vm_compute.
  by rewrite elem_of_cons, list_elem_of_singleton.
Qed.
Lemma home_anns x : x ∈ rows (announcements home_db) -> x = AnnRow 1 1 3232235776 24 180879360 0 \/ x = AnnRow 2 2 3232237824 24 180879616 0.
Proof.
  assert (rows (announcements home_db) = [AnnRow 1 1 3232235776 24 180879360 0; AnnRow 2 2 3232237824 24 180879616 0]) as -> by by vm_compute.
  by rewrite elem_of_cons, list_elem_of_singleton.
Qed.
Lemma home_ok : data_ok serve_pool home_db.
Proof.
  constructor.
  - apply (run_ops_schema home_ops (mkStore empty_db [] 0 [])), empty_db_ok.
  - apply run_blocks_ok; [apply serve_pool_ok|]. repeat constructor; unfold is_u32, W32; cbn; lia.
  - intros x [->| ->]%home_nodes; split; by vm_compute.
  - by intros x [->| ->]%home_anns.
  - intros x [->| ->]%home_nodes; eexists; by vm_compute.
  - intros x x' [->| ->]%home_nodes [->| ->]%home_nodes; [done|by vm_compute..|done].
Qed.
Lemma home_addressable : addressable home_db.
Proof.
  intros z. assert (rows (zones home_db) = [ZoneRow 1 "home" "h" 8 0]) as -> by by vm_compute. by intros ->%list_elem_of_singleton.
Qed.
Lemma home_router_in : home_router ∈ rows (nodes home_db).
Proof. apply (bool_decide_unpack _). by vm_compute. Qed.
Lemma home_daemon : daemon_of serve_opts home_db home_router demo_pool home_record home_state.
Proof.
  split; [done|done|by vm_compute|by vm_compute|]. exists "token", (mkClaims 7 "ann" true). split_and!; [by vm_compute|by vm_compute|done].
Qed.
Lemma home_apart : vpn_apart demo_cfg home_db (rs_eng home_state).
Proof. split; [by intros a [->| ->]%home_anns|by apply not_elem_of_nil]. Qed.
Lemma home_run : reconcileAll "lanweave_rt" demo_cfg home_record home_state = (Ok tt, home_done).
Proof. apply (run_pair (reconcileAll "lanweave_rt" demo_cfg home_record home_state)). by vm_compute. Qed.
Lemma home_routes : routesApplied (rs_eng home_done) = [P4 (PrefixFrom 180879616 24)].
Proof. by vm_compute. Qed.
#[local] Opaque home_done home_db home_world.
Lemma reconcile_spec_witness :
  translates "lanweave_rt" demo_pool home_db home_router ∅ (rs_nat home_done) /\
  exists a, offered home_db home_router a /\ a_node a <> 1 /\ P4 (PrefixFrom 180879616 24) = P4 (synth_prefix a).
Proof.
  destruct (reconcile_spec serve_opts serve_pool home_db 150 [] home_router demo_pool home_record "lanweave_rt" demo_cfg home_state home_done (Ok tt)
    home_ok home_addressable home_router_in eq_refl home_daemon demo_up_tracks home_apart home_run) as (_ & Htr & Hroutes & _).
  split; [exact Htr|]. apply Hroutes. rewrite home_routes. left.
Defined.
