(* ===== verification/Tunnel.v ===== *)
(** * The desktop client's tunnel ([internal/client/tunnel])

    The profile it gives the user-space WireGuard device, the consumer routes, and
    the calls on a tunnel as a transition system: a call is a thread that takes the
    mutex step by step, so the steps of several calls interleave. The device and
    the adapter are the [engine] seam: their effect is a table of the devices that
    are up, their outcome a choice of each step. *)
From Stdlib Require Import Ascii.
From S2P Require Import Prelude GoStrings Netip Ipam Codec Db StoreUsers StoreNodes StoreAnnounce Netfw Wg Auth Api Netutil NatCtl Engine RouteSync Daemon ApiClient Routerd.

#[local] Open Scope lw_scope.

(** ** profile.go *)

(** The text of an IPv6 prefix: outside the model, a parameter. *)
Class NetipV6Text : Type := v6_text : Z -> Z -> string.
Definition AnyString `{NetipV6Text} (p : AnyPrefix) : string := match p with P4 p => PrefixString p | P6 a b => v6_text a b end.

(** [base64.StdEncoding.DecodeString]: the padding closes the last quantum, line
    breaks count for nothing. *)
Fixpoint drop_breaks (s : string) : string :=
  match s with
  | "" => ""
  | String a r => if decide (byte_of a = 10 \/ byte_of a = 13) then drop_breaks r else String a (drop_breaks r)
  end.
Definition unpad (s : string) : string :=
  let n := String.length s in
  if bool_decide (String.substring (n - 2) 2 s = "==") then String.substring 0 (n - 2) s
  else if bool_decide (String.substring (n - 1) 1 s = "=") then String.substring 0 (n - 1) s else s.
Definition StdDecode (s : string) : option (list Z) :=
  let s := drop_breaks s in if (String.length s mod 4 =? 0)%nat then RawStdDecode (unpad s) else None.

Definition keyB64ToHex (b64 : string) : option string :=
  raw ← StdDecode (TrimSpace b64); if (length raw =? 32)%nat then Some (HexEncode raw) else None.

Definition KeepaliveSeconds : Z := 25.
Definition line (k v : string) : string := k +:+ "=" +:+ v +:+ nl_string.

Definition BuildUAPIConfig `{NetipV6} `{NetipV6Text} (rec : StateRecord) (privKeyBase64 : string) : option string :=
  privHex ← keyB64ToHex privKeyBase64;
  pubHex ← keyB64ToHex (st_ServerPublicKey rec);
  if bool_decide (st_Endpoint rec = "") then None else
  network ← ParsePrefix (st_Network rec);
  ip ← ParseAddr4 (st_IP rec);
  Some (line "private_key" privHex +:+ line "public_key" pubHex +:+ line "endpoint" (st_Endpoint rec) +:+
        line "persistent_keepalive_interval" (pretty KeepaliveSeconds) +:+ line "allowed_ip" (AnyString (AnyMasked network))).

Fixpoint allowed_lines `{NetipV6Text} (extras : list AnyPrefix) : string :=
  match extras with [] => "" | p :: extras => line "allowed_ip" (AnyString (AnyMasked p)) +:+ allowed_lines extras end.
Definition BuildPeerUpdate `{NetipV6Text} (serverPubB64 : string) (network : AnyPrefix) (extras : list AnyPrefix) : option string :=
  pubHex ← keyB64ToHex serverPubB64;
  Some (line "public_key" pubHex +:+ line "replace_allowed_ips" "true" +:+ line "allowed_ip" (AnyString (AnyMasked network)) +:+
        allowed_lines extras).

Definition routeDiff (current desired : list AnyPrefix) : list AnyPrefix * list AnyPrefix :=
  (filter (fun p => p ∉ current) desired, filter (fun p => p ∉ desired) current).

(** ** The tunnel *)

Inductive State : Type := Disconnected | Connecting | Connected.
#[export] Instance State_eq_dec : EqDecision State.
Proof. solve_decision. Defined.
Inductive tunnel_err : Type := ErrServerUnreachable | ErrNoSetup | ErrAdapter | EUpdate | ENetwork.

(** [Tunnel]'s fields that its methods change; an engine is known by its number. *)
Record Tunnel : Type := mkTunnel
  { t_state : State; t_eng : option nat; t_ifName : string; t_desired : bool;
    extraWanted : list AnyPrefix; extraApplied : list AnyPrefix }.
Definition NewTunnel : Tunnel := mkTunnel Disconnected None "" false [] [].

(** A device that is up: the OS routes through its adapter, and what its peer may carry. *)
Record Device : Type := mkDev { dev_name : string; dev_routes : list AnyPrefix; dev_allowed : list AnyPrefix }.

Definition set_state (s : State) (t : Tunnel) : Tunnel := mkTunnel s (t_eng t) (t_ifName t) (t_desired t) (extraWanted t) (extraApplied t).
Definition SetDesired (connected : bool) (t : Tunnel) : Tunnel :=
  mkTunnel (t_state t) (t_eng t) (t_ifName t) connected (extraWanted t) (extraApplied t).
Definition set_ifName (i : string) (t : Tunnel) : Tunnel := mkTunnel (t_state t) (t_eng t) i (t_desired t) (extraWanted t) (extraApplied t).
Definition set_extra (w a : list AnyPrefix) (t : Tunnel) : Tunnel := mkTunnel (t_state t) (t_eng t) (t_ifName t) (t_desired t) w a.

(** ** [SetExtraRoutes], under the mutex throughout *)

(** What the host answers in one call: the prefixes that overlap a local network,
    those that cannot be added or deleted, and whether the device takes the update. *)
Record Answers : Type := mkAnswers { an_clash : list AnyPrefix; an_noadd : list AnyPrefix; an_nodel : list AnyPrefix; an_update : bool }.

Section Tunnel.
Context `{NetipV6} `{NetipV6Text} (rec : StateRecord) (privKey : string).

Definition SetExtraRoutes (ans : Answers) (extra : list AnyPrefix) (t : Tunnel) (devs : gmap nat Device) :
    res tunnel_err (list AnyPrefix) * Tunnel * gmap nat Device :=
  match t_state t, t_eng t with
  | Connected, Some e =>
      let desired := CanonicalPrefixes extra in
      if decide (desired = extraWanted t /\ length (extraApplied t) = length (extraWanted t)) then (Ok (extraApplied t), t, devs) else
      let applied := filter (fun p => p ∉ an_clash ans) desired in
      let '(add, del) := routeDiff (extraApplied t) applied in
      let gone := filter (fun p => p ∉ an_nodel ans) del in
      let routed := filter (fun p => ~ (p ∈ add /\ p ∈ an_noadd ans)) applied in
      let devs := alter (fun v => mkDev (dev_name v)
        (filter (fun p => p ∉ gone) (dev_routes v) ++ filter (fun p => p ∈ add) routed) (dev_allowed v)) e devs in
      match ParsePrefix (st_Network rec) with
      | None => (Err ENetwork, t, devs)
      | Some network =>
          match BuildPeerUpdate (st_ServerPublicKey rec) network routed with
          | None => (Err EUpdate, t, devs)
          | Some _ =>
              if an_update ans && bool_decide (is_Some (devs !! e))
              then (Ok routed, set_extra desired routed t,
                    alter (fun v => mkDev (dev_name v) (dev_routes v) (AnyMasked network :: (AnyMasked <$> routed))) e devs)
              else (Err EUpdate, t, devs)
          end
      end
  | _, _ => (Ok [], t, devs)
  end.

(** ** The calls, step by step *)

(** Where a call stands: [Connect] at its first lock, between [newEngine] and
    [up], with the interface to record, waiting for the handshake, with it; then the
    two locks of [teardown] and the closing of the engine it took. *)
Inductive Thread : Type :=
| AtConnect
| AtUp (e : nat)
| AtName (e : nat) (name : string)
| AtWait (e : nat)
| AtShaken (e : nat)
| AtDrop (r : res tunnel_err unit)
| AtTake (r : res tunnel_err unit)
| AtClose (e : nat) (r : res tunnel_err unit)
| Returned (r : res tunnel_err unit).

(** What a step is answered: [up] gives an interface or fails; a round of the wait
    finds a handshake, finds none, or is past the deadline. *)
Inductive Answer : Type := UpAs (name : string) | UpFails | Shaken | NotYet | Late | Silent.

(** [nexts]: how many engines have been made. *)
Record Sys : Type := mkSys { sy_t : Tunnel; sy_devs : gmap nat Device; sy_next : nat; sy_threads : list Thread }.

(** Whether the saved record gives a profile, an address and a network. *)
Definition profile_ok : bool :=
  match BuildUAPIConfig rec privKey, ParseAddr4 (st_IP rec), ParsePrefix (st_Network rec) with Some _, Some _, Some _ => true | _, _, _ => false end.
Definition network_of : list AnyPrefix := match ParsePrefix (st_Network rec) with Some p => [AnyMasked p] | None => [] end.

(** One step of a call; the shared state is the tunnel, the devices and the counter. *)
Definition thread_step (th : Thread) (a : Answer) (t : Tunnel) (devs : gmap nat Device) (n : nat) :
    option (Thread * Tunnel * gmap nat Device * nat) :=
  match th, a with
  | AtConnect, Silent =>
      if negb (bool_decide (t_state t = Disconnected)) then Some (Returned (Ok tt), t, devs, n)
      else if bool_decide (privKey = "") || bool_decide (st_IP rec = "") then Some (Returned (Err ErrNoSetup), t, devs, n)
      else
        let t := mkTunnel Connecting (Some n) (t_ifName t) (t_desired t) (extraWanted t) (extraApplied t) in
        Some (if profile_ok then AtUp n else AtDrop (Err ErrNoSetup), t, devs, S n)
  | AtUp e, UpAs name => Some (AtName e name, t, <[e := mkDev name [] network_of]> devs, n)
  | AtUp e, UpFails => Some (AtDrop (Err ErrAdapter), t, devs, n)
  | AtName e name, Silent => Some (AtWait e, set_ifName name t, devs, n)
  | AtWait e, Shaken => if bool_decide (is_Some (devs !! e)) then Some (AtShaken e, t, devs, n) else None
  | AtWait e, NotYet => Some (AtWait e, t, devs, n)
  | AtWait e, Late => Some (AtDrop (Err ErrServerUnreachable), t, devs, n)
  | AtShaken e, Silent =>
      Some (Returned (Ok tt), if bool_decide (t_eng t = Some e) then set_state Connected t else t, devs, n)
  | AtDrop r, Silent => Some (AtTake r, set_extra [] [] t, devs, n)
  | AtTake r, Silent =>
      let t' := mkTunnel Disconnected None "" (t_desired t) (extraWanted t) (extraApplied t) in
      Some (match t_eng t with Some e => AtClose e r | None => Returned r end, t', devs, n)
  | AtClose e r, Silent => Some (Returned r, t, delete e devs, n)
  | _, _ => None
  end.

(** The calls of the client, and a step of one of them. *)
Inductive Label : Type :=
| CallConnect | CallDisconnect
| CallExtra (ans : Answers) (extra : list AnyPrefix)
| Run (i : nat) (a : Answer).

Definition sys_step (l : Label) (s : Sys) : option Sys :=
  match l with
  | CallConnect => Some (mkSys (sy_t s) (sy_devs s) (sy_next s) (sy_threads s ++ [AtConnect]))
  | CallDisconnect => Some (mkSys (sy_t s) (sy_devs s) (sy_next s) (sy_threads s ++ [AtDrop (Ok tt)]))
  | CallExtra ans extra =>
      let '(_, t, devs) := SetExtraRoutes ans extra (sy_t s) (sy_devs s) in Some (mkSys t devs (sy_next s) (sy_threads s))
  | Run i a =>
      th ← sy_threads s !! i;
      '(th, t, devs, n) ← thread_step th a (sy_t s) (sy_devs s) (sy_next s);
      Some (mkSys t devs n (<[i := th]> (sy_threads s)))
  end.
Fixpoint sys_run (ls : list Label) (s : Sys) : option Sys :=
  match ls with [] => Some s | l :: ls => s ← sys_step l s; sys_run ls s end.
Definition start : Sys := mkSys NewTunnel ∅ 0 [].
End Tunnel.

(** ** The engine: the user-space device and its adapter

    The calls on wireguard-go, on the adapter and on its links are a class; a device is
    known by the number of the adapter it took over. The device's own address is an IPv4
    address; a mask is given by its length, [AddrReplace] taking one past 32 as none. *)
Class UserDevice (G : Type) : Type :=
  { ud_CreateTUN : string -> Z -> M unit G nat;
    ud_Name : nat -> M unit G string;
    ud_CloseTUN : nat -> G -> G;
    ud_IpcSet : nat -> string -> M unit G unit;
    ud_IpcGet : nat -> M unit G string;
    ud_Up : nat -> M unit G unit;
    ud_Close : nat -> G -> G;
    ud_LinkByName : string -> M unit G unit;
    ud_AddrReplace : string -> Addr -> Z -> M unit G unit;
    ud_LinkSetUp : string -> M unit G unit;
    ud_LinkSetDown : string -> M unit G unit;
    ud_RouteReplace : string -> AnyPrefix -> M unit G unit }.

(** [wgEngine]; the state of its methods is it and what it drives. *)
Record wgEngine : Type := mkWgEngine { we_dev : option nat; we_name : string }.
Definition no_engine : wgEngine := mkWgEngine None "".

(** The [int64] sums of the counters. *)
Definition s64 (z : Z) : Z := (z + 2 ^ 63) mod 2 ^ 64 - 2 ^ 63.
(** The number [strconv.ParseInt] returns, its error dropped: 0 for ill-formed text, the
    nearest bound for a number out of range; digits past an overflow are not looked at. *)
Fixpoint uint_value (acc : Z) (s : string) : option Z :=
  match s with
  | "" => Some acc
  | String a r => d ← digit_of a; let n := acc * 10 + d in if 2 ^ 64 - 1 <? n then Some (2 ^ 64 - 1) else uint_value n r
  end.
Definition ParseIntValue (s : string) : Z :=
  let value neg body :=
    match body with
    | "" => 0
    | _ => match uint_value 0 body with
           | None => 0
           | Some n => if neg : bool then - Z.min n (2 ^ 63) else Z.min n (2 ^ 63 - 1)
           end
    end in
  match s with
  | String "-"%char r => value true r
  | String "+"%char r => value false r
  | _ => value false s
  end.

Definition uapi_lines (uapi : string) : list string := Split (ascii_of_nat 10) uapi.
Fixpoint first_port (lines : list string) : Z :=
  match lines with
  | [] => 0
  | l :: lines => match CutPrefix l "listen_port=" with Some v => ParseIntValue (TrimSpace v) | None => first_port lines end
  end.
Definition parseListenPort (uapi : string) : Z := first_port (uapi_lines uapi).
Definition later_handshake (last : Z) (l : string) : Z :=
  match CutPrefix l "last_handshake_time_sec=" with
  | Some v => let n := ParseIntValue (TrimSpace v) in if last <? n then n else last
  | None => last
  end.
Definition parseHandshakeAge (uapi : string) : Z * bool :=
  let last := fold_left later_handshake (uapi_lines uapi) 0 in (last, 0 <? last).
Definition count_line (sums : Z * Z) (l : string) : Z * Z :=
  match CutPrefix l "rx_bytes=" with
  | Some v => (s64 (sums.1 + ParseIntValue (TrimSpace v)), sums.2)
  | None =>
      match CutPrefix l "tx_bytes=" with
      | Some v => (sums.1, s64 (sums.2 + ParseIntValue (TrimSpace v)))
      | None => sums
      end
  end.
Definition sumTransfer (uapi : string) : Z * Z := fold_left count_line (uapi_lines uapi) (0, 0).

Section Engine.
Context {G : Type} `{UserDevice G}.

Definition configureAdapter (ifName : string) (ip : Addr) (network : AnyPrefix) : M unit G unit :=
  do! ud_LinkByName ifName in
  do! ud_AddrReplace ifName ip (match network with P4 p => Bits p | P6 _ b => b end) in
  do! ud_LinkSetUp ifName in
  ud_RouteReplace ifName (AnyMasked network).
Definition teardownAdapter (ifName : string) : M unit G unit := fun g =>
  match ud_LinkByName ifName g with
  | (Err _, g) => (Ok tt, g)
  | (Ok _, g) => (Ok tt, snd (ud_LinkSetDown ifName g))
  end.

(** [m], with [undo] if it fails. *)
Definition or_undo {A} (undo : G -> G) (m : M unit G A) : M unit G A := fun g =>
  match m g with (Ok a, g) => (Ok a, g) | (Err x, g) => (Err x, undo g) end.
Definition wg_up (cfg : string) (ip : Addr) (network : AnyPrefix) : M unit (wgEngine * G) string := fun '(e, g) =>
  let '(r, g) := (let! td := ud_CreateTUN "lanweave0" 1420 in
                  let! name := or_undo (ud_CloseTUN td) (ud_Name td) in
                  do! or_undo (ud_Close td) (ud_IpcSet td cfg) in
                  do! or_undo (ud_Close td) (ud_Up td) in
                  do! or_undo (ud_Close td) (configureAdapter name ip network) in
                  ret (td, name)) g in
  match r with
  | Ok (td, name) => (Ok name, (mkWgEngine (Some td) name, g))
  | Err x => (Err x, (e, g))
  end.
Definition wg_close : M unit (wgEngine * G) unit := fun '(e, g) =>
  let g := if bool_decide (we_name e = "") then g else snd (teardownAdapter (we_name e) g) in
  let g := match we_dev e with Some td => ud_Close td g | None => g end in
  (Ok tt, (no_engine, g)).
(** What the device's text says, 0 without a device. *)
Definition read_device {A} (none : A) (f : string -> A) : M unit (wgEngine * G) A := fun '(e, g) =>
  match we_dev e with
  | None => (Ok none, (e, g))
  | Some td => let '(r, g) := ud_IpcGet td g in (match r with Ok s => Ok (f s) | Err x => Err x end, (e, g))
  end.
Definition wg_applyPeerUpdate (uapi : string) : M unit (wgEngine * G) unit := fun '(e, g) =>
  match we_dev e with
  | None => (Err tt, (e, g))
  | Some td => let '(r, g) := ud_IpcSet td uapi g in (r, (e, g))
  end.
Definition wg_lastHandshake : M unit (wgEngine * G) Z := read_device 0 (fun s => fst (parseHandshakeAge s)).
Definition wg_handshaked : M unit (wgEngine * G) bool := let! ts := wg_lastHandshake in ret (0 <? ts).
Definition wg_transfer : M unit (wgEngine * G) (Z * Z) := read_device (0, 0) sumTransfer.
Definition wg_localPort : M unit (wgEngine * G) Z := fun s =>
  match read_device 0 parseListenPort s with (Ok p, s) => (Ok p, s) | (Err _, s) => (Ok 0, s) end.

(** [Stale] and [Transfer], given whether the tunnel has an engine; times in nanoseconds, of
    the years a [Duration] can span. *)
Definition staleThreshold : Z := 240 * 1000000000.
Definition Stale (has_engine : bool) (now : Z) : M unit (wgEngine * G) bool := fun s =>
  if negb has_engine then (Ok false, s) else
  match wg_lastHandshake s with
  | (Ok ts, s) => (Ok ((0 <? ts) && (staleThreshold <? now - ts * 1000000000)), s)
  | (Err _, s) => (Ok false, s)
  end.
Definition Transfer (has_engine : bool) : M unit (wgEngine * G) (Z * Z) :=
  if has_engine then wg_transfer else ret (0, 0).
End Engine.
