(* ===== verification/TunnelProps.v ===== *)
(** * The tunnel under interleaved calls

    Invariants of every run, whatever the interleaving; what a run leaves whose
    calls do not overlap; and runs in which overlapping calls go wrong. *)
From Stdlib Require Import Ascii.
From S2P Require Import Prelude GoStrings Netip Ipam Codec Wg WgProps AuthProps Api Netutil ApiClient Routerd Tunnel.

#[local] Open Scope lw_scope.

Section Runs.
Context `{NetipV6} `{NetipV6Text} (rec : StateRecord) (privKey : string).
Abbreviation run := (sys_run rec privKey).
Abbreviation step := (sys_step rec privKey).

(** ** What every interleaving keeps *)

(** A thread that has an engine has one that was made, up once [up] has returned
    unless some [teardown] took it; an engine to be closed has been taken. *)
Definition thread_ok (t : Tunnel) (devs : gmap nat Device) (n : nat) (th : Thread) : Prop :=
  match th with
  | AtUp e => e < n
  | AtName e _ | AtWait e | AtShaken e => e < n /\ (t_eng t = Some e -> is_Some (devs !! e))
  | AtClose e _ => e < n /\ t_eng t <> Some e
  | _ => True
  end%nat.
Record good (s : Sys) : Prop := mkGood
  { g_eng : t_state (sy_t s) = Disconnected <-> t_eng (sy_t s) = None;
    g_next e : t_eng (sy_t s) = Some e -> (e < sy_next s)%nat;
    g_up : t_state (sy_t s) = Connected -> exists e, t_eng (sy_t s) = Some e /\ is_Some (sy_devs s !! e);
    g_threads : Forall (thread_ok (sy_t s) (sy_devs s) (sy_next s)) (sy_threads s) }.

(** The parts of the shared state that the other threads' conditions are about. *)
Lemma thread_ok_mono t devs n t' devs' n' th :
  (n <= n')%nat -> (forall e, (e < n)%nat -> t_eng t' = Some e -> t_eng t = Some e /\ (is_Some (devs !! e) -> is_Some (devs' !! e))) ->
  thread_ok t devs n th -> thread_ok t' devs' n' th.
Proof.
  intros Hn He. destruct th; simpl; try done; try lia.
  1-3: intros [Hl Hd]; split; [lia|]; intros Ht; destruct (He e Hl Ht) as [? Hm]; auto.
  intros [Hl Hne]. split; [lia|]. intros Ht. by apply Hne, He.
Qed.

(** A step of one thread. *)
Lemma thread_step_good th a t devs n th' t' devs' n' threads i :
  threads !! i = Some th -> good (mkSys t devs n threads) -> thread_step rec privKey th a t devs n = Some (th', t', devs', n') ->
  good (mkSys t' devs' n' (<[i := th']> threads)).
Proof.
  intros Hi [Heng Hnext Hup Hall] Hs. simpl in *. pose proof (proj1 (Forall_lookup _ _) Hall i th Hi) as Hth.
  assert (forall t2 devs2 n2 th2, (n <= n2)%nat ->
    (forall e, (e < n)%nat -> t_eng t2 = Some e -> t_eng t = Some e /\ (is_Some (devs !! e) -> is_Some (devs2 !! e))) ->
    thread_ok t2 devs2 n2 th2 -> Forall (thread_ok t2 devs2 n2) (<[i := th2]> threads)) as Hthreads.
  { intros t2 devs2 n2 th2 Hn He Hok. apply Forall_insert; [|done]. eapply Forall_impl; [exact Hall|]. intros x. by apply thread_ok_mono. }
  assert (forall t2, t_state t2 = t_state t -> t_eng t2 = t_eng t -> forall th2, thread_ok t2 devs n th2 ->
    good (mkSys t2 devs n (<[i := th2]> threads))) as Hsame.
  { intros t2 Hst He th2 Hok. constructor; simpl; rewrite ?Hst, ?He; [done..|]. apply Hthreads; [done| |done]. intros e _. rewrite He. auto. }
  destruct th, a; try done; simpl in Hs, Hth.
  - destruct (negb _) eqn:Hd; [injection Hs as <- <- <- <-; by apply Hsame|]. destruct (_ || _); [injection Hs as <- <- <- <-; by apply Hsame|].
    injection Hs as <- <- <- <-. apply negb_false_iff, bool_decide_eq_true, Heng in Hd. constructor; simpl.
    + done.
    + intros e [= <-]. lia.
    + done.
    + apply Hthreads; [lia| |destruct (profile_ok _ _); simpl; [lia|done]]. simpl. intros e He [= ->]. lia.
  - injection Hs as <- <- <- <-. constructor; simpl; [done|done| |].
    + intros Hc. destruct (Hup Hc) as (e' & He' & Hde). exists e'. split; [done|]. rewrite lookup_insert_is_Some'. by right.
    + apply Hthreads; [done| |simpl; split; [done|]; intros _; rewrite lookup_insert_eq; by eexists].
      intros e' _ He'. split; [done|]. rewrite lookup_insert_is_Some'. by right.
  - injection Hs as <- <- <- <-. by apply Hsame.
  - injection Hs as <- <- <- <-. by apply Hsame.
  - case_bool_decide; [|done]. injection Hs as <- <- <- <-. by apply Hsame.
  - injection Hs as <- <- <- <-. by apply Hsame.
  - injection Hs as <- <- <- <-. by apply Hsame.
  - injection Hs as <- <- <- <-. case_bool_decide as He; [|by apply Hsame]. destruct Hth as [Hl Hd]. constructor; simpl; rewrite ?He.
    + done.
    + by intros e' [= <-].
    + intros _. exists e. auto.
    + apply Hthreads; [done| |done]. simpl. auto.
  - injection Hs as <- <- <- <-. by apply Hsame.
  - injection Hs as <- <- <- <-. constructor; simpl; [done|done|done|]. apply Hthreads; [done|done|].
    destruct (t_eng t) as [e|] eqn:He; simpl; [|done]. split; [by apply Hnext|done].
  - injection Hs as <- <- <- <-. destruct Hth as [Hl Hne]. constructor; simpl; [done|done| |].
    + intros Hc. destruct (Hup Hc) as (e' & He' & Hd). exists e'. split; [done|]. rewrite lookup_delete_ne by congruence. done.
    + apply Hthreads; [done| |done]. intros e' _ He'. split; [done|]. by rewrite lookup_delete_ne by congruence.
Qed.

Lemma extra_good ans extra t devs r t' devs' n threads :
  SetExtraRoutes rec ans extra t devs = (r, t', devs') -> good (mkSys t devs n threads) -> good (mkSys t' devs' n threads).
Proof.
  intros Hr [Heng Hnext Hup Hall]. simpl in *.
  assert (t_state t' = t_state t /\ t_eng t' = t_eng t /\ forall e, is_Some (devs !! e) -> is_Some (devs' !! e)) as (Hs & He & Hd).
  { assert (forall f e (d : gmap nat Device) e', is_Some (d !! e') -> is_Some (alter f e d !! e')) as Halt.
    { intros f e d e' Hd. destruct (decide (e = e')) as [->|]; [rewrite lookup_alter_eq; by apply fmap_is_Some|by rewrite lookup_alter_ne]. }
    unfold SetExtraRoutes in Hr. destruct (t_state t) eqn:Hst, (t_eng t) eqn:Hte; try by injection Hr as <- <- <-.
    case_decide; [by injection Hr as <- <- <-|]. destruct (routeDiff _ _) as [add del]. destruct (ParsePrefix _) as [net|]; [|injection Hr as <- <- <-; auto].
    destruct (BuildPeerUpdate _ _ _); [|injection Hr as <- <- <-; auto]. destruct (_ && _); injection Hr as <- <- <-; simpl; rewrite ?Hst, ?Hte; auto. }
  constructor; simpl; rewrite ?Hs, ?He; [done..| |].
  - intros Hc. destruct (Hup Hc) as (e & ? & ?). exists e. auto.
  - eapply Forall_impl; [exact Hall|]. intros th. apply thread_ok_mono; [done|]. rewrite He. auto.
Qed.

Lemma step_good l s s' : good s -> step l s = Some s' -> good s'.
Proof.
  intros Hg Hs. destruct s as [t devs n threads], l as [| |ans extra|i a]; simpl in Hs.
  - injection Hs as <-. destruct Hg as [? ? ? Hall]. constructor; simpl in *; [done..|]. apply Forall_app. split; [done|]. by repeat constructor.
  - injection Hs as <-. destruct Hg as [? ? ? Hall]. constructor; simpl in *; [done..|]. apply Forall_app. split; [done|]. by repeat constructor.
  - destruct (SetExtraRoutes _ _ _ _ _) as [[r t'] devs'] eqn:Hr. injection Hs as <-. by eapply extra_good.
  - destruct (threads !! i) as [th|] eqn:Hi; [|done]. cbn [mbind option_bind] in Hs.
    destruct (thread_step _ _ _ _ _ _ _) as [[[[th' t'] devs'] n']|] eqn:Hts; [|done]. injection Hs as <-. by eapply thread_step_good.
Qed.
Lemma run_good ls s s' : good s -> run ls s = Some s' -> good s'.
Proof.
  revert s. induction ls as [|l ls IH]; intros s Hg; simpl; [by intros [= <-]|].
  destruct (step l s) as [s1|] eqn:Hl; [|done]. apply IH. by eapply step_good.
Qed.
Lemma start_good : good start.
Proof. by constructor. Qed.

(** ** A tunnel that is down stays down *)

Definition down (s : Sys) : Prop := t_state (sy_t s) = Disconnected /\ t_eng (sy_t s) = None /\ (AtConnect ∉ sy_threads s).
Lemma step_down l s s' : down s -> l <> CallConnect -> step l s = Some s' -> down s'.
Proof.
  intros (Hst & He & Hno) Hl Hs. destruct s as [t devs n threads]; simpl in *. destruct l as [| |ans extra|i a]; simpl in Hs; [done| | |].
  - injection Hs as <-. split_and!; [done..|]. simpl. rewrite elem_of_app, list_elem_of_singleton. by intros [?|?].
  - unfold SetExtraRoutes in Hs. rewrite Hst in Hs. by injection Hs as <-.
  - destruct (threads !! i) as [th|] eqn:Hi; [|done]. cbn [mbind option_bind] in Hs.
    assert (th <> AtConnect) as Hth by (intros ->; by apply Hno, (list_elem_of_lookup_2 _ i)).
    destruct (thread_step _ _ _ _ _ _ _) as [[[[th' t'] devs'] n']|] eqn:Hts; [|done]. injection Hs as <-.
    assert (t_state t' = Disconnected /\ t_eng t' = None /\ th' <> AtConnect) as (? & ? & Hne).
    { destruct th, a; try done; simpl in Hts; rewrite ?He in Hts; try case_bool_decide; try done; injection Hts as <- <- <- <-; done. }
    split_and!; [done..|]. simpl. intros Hin%list_elem_of_lookup. destruct Hin as [j Hj]. apply list_lookup_insert_Some in Hj as [(_ & -> & _)|[_ Hj]]; [done|].
    by apply Hno, (list_elem_of_lookup_2 _ j).
Qed.
Lemma run_down ls s s' : down s -> (CallConnect ∉ ls) -> run ls s = Some s' -> down s'.
Proof.
  revert s. induction ls as [|l ls IH]; intros s Hd Hc; simpl; [by intros [= <-]|].
  apply not_elem_of_cons in Hc as [Hl Hc]. destruct (step l s) as [s1|] eqn:Hs; [|done]. apply IH; [|done]. by eapply step_down.
Qed.

(** ** Calls one at a time *)

Definition returned (th : Thread) : Prop := match th with Returned _ => True | _ => False end.
Definition settled (s : Sys) : Prop := Forall returned (sy_threads s).
(** Each call is made when the ones before it have returned. *)
Fixpoint alone (ls : list Label) (s : Sys) : Prop :=
  match ls with
  | [] => True
  | l :: ls => match l with Run _ _ => True | _ => settled s end /\ match step l s with Some s' => alone ls s' | None => True end
  end.

(** No device but that of the tunnel, which is up exactly when the tunnel is. *)
Definition clean (t : Tunnel) (devs : gmap nat Device) : Prop :=
  match t_eng t with
  | None => t_state t = Disconnected /\ devs = ∅ /\ t_ifName t = "" /\ extraWanted t = [] /\ extraApplied t = []
  | Some e => t_state t = Connected /\ exists v, devs = {[e := v]} /\ t_ifName t = dev_name v
  end.
Definition no_extra (t : Tunnel) : Prop := extraWanted t = [] /\ extraApplied t = [].
Definition at_most (e : option nat) (devs : gmap nat Device) : Prop := devs = ∅ \/ exists i v, e = Some i /\ devs = {[i := v]}.
(** What holds while one call is under way. *)
Definition under_way (th : Thread) (t : Tunnel) (devs : gmap nat Device) : Prop :=
  match th with
  | AtConnect | Returned _ => clean t devs
  | AtUp e => t_eng t = Some e /\ t_state t = Connecting /\ devs = ∅ /\ t_ifName t = "" /\ no_extra t
  | AtName e name => t_eng t = Some e /\ t_state t = Connecting /\ no_extra t /\ exists v, devs = {[e := v]} /\ dev_name v = name
  | AtWait e | AtShaken e => t_eng t = Some e /\ t_state t = Connecting /\ no_extra t /\ exists v, devs = {[e := v]} /\ t_ifName t = dev_name v
  | AtDrop _ => at_most (t_eng t) devs
  | AtTake _ => at_most (t_eng t) devs /\ no_extra t
  | AtClose e _ => t_eng t = None /\ t_state t = Disconnected /\ t_ifName t = "" /\ no_extra t /\ at_most (Some e) devs
  end.
Definition one_call (s : Sys) : Prop := exists i, (forall j th, j <> i -> sy_threads s !! j = Some th -> returned th) /\
  match sy_threads s !! i with Some th => under_way th (sy_t s) (sy_devs s) | None => clean (sy_t s) (sy_devs s) end.

Lemma under_way_step th a t devs n th' t' devs' n' :
  under_way th t devs -> thread_step rec privKey th a t devs n = Some (th', t', devs', n') -> under_way th' t' devs'.
Proof.
  intros Hu Hs. destruct th, a; try done; simpl in Hs, Hu.
  - destruct (negb _) eqn:Hd; [by injection Hs as <- <- <- <-|]. destruct (_ || _); [by injection Hs as <- <- <- <-|].
    injection Hs as <- <- <- <-. apply negb_false_iff, bool_decide_eq_true in Hd. unfold clean in Hu.
    destruct (t_eng t); [destruct Hu as [Hc _]; congruence|]. destruct Hu as (_ & -> & Hi & Hw & Ha).
    destruct (profile_ok _ _); simpl; [done|by left].
  - injection Hs as <- <- <- <-. destruct Hu as (He & Hst & -> & Hi & Hx). simpl. split_and!; [done..|]. eexists. by rewrite insert_empty.
  - injection Hs as <- <- <- <-. destruct Hu as (He & Hst & -> & Hi & Hx). by left.
  - injection Hs as <- <- <- <-. destruct Hu as (He & Hst & Hx & v & -> & Hv). simpl. split_and!; [done..|]. by exists v.
  - case_bool_decide; [|done]. by injection Hs as <- <- <- <-.
  - by injection Hs as <- <- <- <-.
  - injection Hs as <- <- <- <-. destruct Hu as (He & _ & _ & v & -> & _). right. by exists e, v.
  - injection Hs as <- <- <- <-. destruct Hu as (He & _ & _ & v & -> & Hv). rewrite bool_decide_true by done.
    unfold under_way, clean. simpl. rewrite He. split; [done|]. by exists v.
  - injection Hs as <- <- <- <-. split; [exact Hu|done].
  - injection Hs as <- <- <- <-. destruct Hu as [Hm Hx]. destruct (t_eng t) as [e|]; simpl; [by split_and!|].
    destruct Hm as [->|(? & ? & [=] & _)]. unfold clean. simpl. by split_and!; try apply Hx.
  - injection Hs as <- <- <- <-. destruct Hu as (He & Hst & Hi & Hx & Hm). simpl. unfold clean. rewrite He.
    split_and!; [done| |done|apply Hx..]. destruct Hm as [->|(i & v & [= ->] & ->)]; [by rewrite delete_empty|by rewrite delete_singleton_eq].
Qed.
Lemma extra_clean ans extra t devs r t' devs' :
  SetExtraRoutes rec ans extra t devs = (r, t', devs') -> clean t devs -> clean t' devs'.
Proof.
  intros Hr Hc. assert (forall f e v, (forall v, dev_name (f v) = dev_name v) ->
    exists v', alter f e ({[e := v]} : gmap nat Device) = {[e := v']} /\ dev_name v' = dev_name v) as Halt.
  { intros f e v Hf. exists (f v). split; [|done]. apply map_eq. intros j. destruct (decide (e = j)) as [->|].
    - by rewrite lookup_alter_eq, !lookup_singleton_eq.
    - by rewrite lookup_alter_ne, !lookup_singleton_ne. }
  unfold SetExtraRoutes in Hr. unfold clean in *. destruct (t_eng t) as [e|] eqn:He.
  - destruct Hc as (Hst & v & -> & Hi). rewrite Hst in Hr. case_decide; [injection Hr as <- <- <-; rewrite He; eauto|].
    destruct (routeDiff _ _) as [add del]. cbn zeta in Hr.
    match type of Hr with context [alter ?f e {[e := v]}] => destruct (Halt f e v (fun _ => eq_refl)) as (v1 & Hv1 & Hn1) end.
    rewrite Hv1 in Hr.
    destruct (ParsePrefix _) as [net|]; [|injection Hr as <- <- <-; rewrite He; split; [done|]; exists v1; by rewrite Hn1].
    destruct (BuildPeerUpdate _ _ _); [|injection Hr as <- <- <-; rewrite He; split; [done|]; exists v1; by rewrite Hn1].
    destruct (_ && _); [|injection Hr as <- <- <-; rewrite He; split; [done|]; exists v1; by rewrite Hn1].
    match type of Hr with context [alter ?f e {[e := v1]}] => destruct (Halt f e v1 (fun _ => eq_refl)) as (v2 & Hv2 & Hn2) end.
    rewrite Hv2 in Hr. injection Hr as <- <- <-. simpl. rewrite He. split; [done|]. exists v2. by rewrite Hn2, Hn1.
  - destruct Hc as (Hst & Hc). rewrite Hst in Hr. injection Hr as <- <- <-. by rewrite He.
Qed.

Lemma settled_clean s : one_call s -> settled s -> clean (sy_t s) (sy_devs s).
Proof.
  intros (i & _ & Hi) Hs. destruct (sy_threads s !! i) as [th|] eqn:Hth; [|done].
  pose proof (proj1 (Forall_lookup _ _) Hs i th Hth) as Hr. by destruct th.
Qed.
(** A call made on its own is the one under way. *)
Lemma call_one s th : settled s -> clean (sy_t s) (sy_devs s) -> (clean (sy_t s) (sy_devs s) -> under_way th (sy_t s) (sy_devs s)) ->
  one_call (mkSys (sy_t s) (sy_devs s) (sy_next s) (sy_threads s ++ [th])).
Proof.
  intros Hset Hc Hu. exists (length (sy_threads s)). simpl. rewrite list_lookup_middle by done. split; [|auto].
  intros j x Hj Hx. apply lookup_app_Some in Hx as [Hx|[Hge Hx]]; [by eapply (proj1 (Forall_lookup _ _) Hset)|].
  apply list_lookup_singleton_Some in Hx as [Hx _]. lia.
Qed.
Lemma step_one_call l s s' : one_call s -> match l with Run _ _ => True | _ => settled s end -> step l s = Some s' -> one_call s'.
Proof.
  intros Hone Hl Hs. destruct l as [| |ans extra|i a]; simpl in Hs.
  - injection Hs as <-. apply call_one; [done|by apply settled_clean|done].
  - injection Hs as <-. apply call_one; [done|by apply settled_clean|]. unfold clean. simpl. destruct (t_eng (sy_t s)) as [e|].
    + intros (_ & v & -> & _). right. by exists e, v.
    + intros (_ & -> & _). by left.
  - destruct (SetExtraRoutes _ _ _ _ _) as [[r t'] devs'] eqn:Hr. injection Hs as <-. pose proof (extra_clean _ _ _ _ _ _ _ Hr (settled_clean s Hone Hl)) as Hc.
    exists (length (sy_threads s)). simpl. rewrite lookup_ge_None_2 by done. split; [|done]. intros j th _ Hth. by eapply (proj1 (Forall_lookup _ _) Hl).
  - destruct (sy_threads s !! i) as [th|] eqn:Hi; [|done]. cbn [mbind option_bind] in Hs.
    destruct (thread_step _ _ _ _ _ _ _) as [[[[th' t'] devs'] n']|] eqn:Hts; [|done]. injection Hs as <-.
    destruct Hone as (k & Hothers & Hk). assert (k = i) as ->.
    { destruct (decide (k = i)) as [|Hne]; [done|]. pose proof (Hothers i th ltac:(done) Hi) as Hr. by destruct th. }
    rewrite Hi in Hk. exists i. simpl. rewrite list_lookup_insert_eq by by eapply lookup_lt_Some. split; [|by eapply under_way_step].
    intros j x Hj Hx. rewrite list_lookup_insert_ne in Hx by done. by eapply Hothers.
Qed.
Lemma alone_one_call ls s s' : one_call s -> alone ls s -> run ls s = Some s' -> one_call s'.
Proof.
  revert s. induction ls as [|l ls IH]; intros s Hone Ha; simpl; [by intros [= <-]|]. destruct Ha as [Hl Ha].
  destruct (step l s) as [s1|] eqn:Hs; [|done]. apply IH; [|done]. by eapply step_one_call.
Qed.
Lemma start_one_call : one_call start.
Proof. exists 0%nat. by split. Qed.
End Runs.

(** C12: the connection state is the truth, and a disconnect is final. However the
    steps of the calls interleave: a tunnel is disconnected exactly when it has no
    engine, and a connected one has an engine whose device is up; and once it is
    disconnected and every Connect in flight is past its first lock, it stays
    disconnected, whatever the devices, the clock and the other calls do, until
    Connect is called again. *)
Theorem tunnel_runs `{NetipV6} `{NetipV6Text} rec privKey ls s :
  sys_run rec privKey ls start = Some s ->
  (t_state (sy_t s) = Disconnected <-> t_eng (sy_t s) = None) /\
  (t_state (sy_t s) = Connected -> exists e, t_eng (sy_t s) = Some e /\ is_Some (sy_devs s !! e)) /\
  forall ls' s', t_state (sy_t s) = Disconnected -> (AtConnect ∉ sy_threads s) -> (CallConnect ∉ ls') -> sys_run rec privKey ls' s = Some s' ->
    t_state (sy_t s') = Disconnected.
Proof.
  intros Hrun. destruct (run_good rec privKey ls start s start_good Hrun) as [Heng _ Hup _]. split_and!; [done|done|].
  intros ls' s' Hst Hno Hc Hrun'. apply (run_down rec privKey ls' s s'); [|done|done]. split_and!; [done|by apply Heng|done].
Qed.

(** Calls that do not overlap leave nothing behind. After any run in which each
    call starts when the earlier ones have returned, whatever fails on the way, and
    with every call returned: the tunnel is connected, its device is the only one
    that is up and the recorded interface is its own; or it is disconnected, with no
    device, no interface name and no consumer routes. *)
Theorem alone_clean `{NetipV6} `{NetipV6Text} rec privKey ls s :
  sys_run rec privKey ls start = Some s -> alone rec privKey ls start -> settled s -> clean (sy_t s) (sy_devs s).
Proof. intros Hrun Ha Hs. apply settled_clean; [|done]. by eapply alone_one_call; [apply start_one_call|..]. Qed.

(** ** The engine *)

(** What is relied on of the user-space device: creating an adapter opens one that was
    not open, closing closes it, and nothing else opens or closes any. *)
Class UserDeviceLaws (G : Type) `{UserDevice G} : Type := mkUserDeviceLaws
  { ud_open : G -> gset nat;
    ud_create name mtu g : match ud_CreateTUN name mtu g with
      | (Ok td, g') => (td ∉ ud_open g) /\ ud_open g' = {[td]} ∪ ud_open g
      | (Err _, g') => ud_open g' = ud_open g end;
    ud_close_tun td g : ud_open (ud_CloseTUN td g) = ud_open g ∖ {[td]};
    ud_close_dev td g : ud_open (ud_Close td g) = ud_open g ∖ {[td]};
    ud_name_open td g : ud_open (snd (ud_Name td g)) = ud_open g;
    ud_set_open td s g : ud_open (snd (ud_IpcSet td s g)) = ud_open g;
    ud_get_open td g : ud_open (snd (ud_IpcGet td g)) = ud_open g;
    ud_up_open td g : ud_open (snd (ud_Up td g)) = ud_open g;
    ud_find_open i g : ud_open (snd (ud_LinkByName i g)) = ud_open g;
    ud_addr_open i a b g : ud_open (snd (ud_AddrReplace i a b g)) = ud_open g;
    ud_linkup_open i g : ud_open (snd (ud_LinkSetUp i g)) = ud_open g;
    ud_linkdown_open i g : ud_open (snd (ud_LinkSetDown i g)) = ud_open g;
    ud_route_open i p g : ud_open (snd (ud_RouteReplace i p g)) = ud_open g }.

Section Engine.
Context {G : Type} `{UserDeviceLaws G}.

(** Calls that open and close nothing. *)
Definition opens_none {A} (m : M unit G A) : Prop := forall g, ud_open (snd (m g)) = ud_open g.
Lemma opens_bind {A B} (m : M unit G A) (k : A -> M unit G B) : opens_none m -> (forall a, opens_none (k a)) -> opens_none (bind m k).
Proof. intros Hm Hk g. unfold bind. specialize (Hm g). destruct (m g) as [[a|x] g']; [|exact Hm]. cbn [snd] in Hm. by rewrite Hk. Qed.
Lemma configureAdapter_opens name ip network : opens_none (configureAdapter name ip network).
Proof.
  unfold configureAdapter. apply opens_bind; [intros g; apply ud_find_open|intros _]. apply opens_bind; [intros g; apply ud_addr_open|intros _].
  apply opens_bind; [intros g; apply ud_linkup_open|intros _]. intros g. apply ud_route_open.
Qed.
Lemma teardownAdapter_opens name : opens_none (teardownAdapter name).
Proof.
  intros g. unfold teardownAdapter. pose proof (ud_find_open name g) as Hf. destruct (ud_LinkByName name g) as [[u|x] g1]; cbn [snd] in *; [|exact Hf].
  by rewrite ud_linkdown_open.
Qed.

(** A step of [wg_up] after the adapter was created: a failure closes it. *)
Lemma or_undo_closes {A} (undo : G -> G) (m : M unit G A) td g o : (forall g, ud_open (undo g) = ud_open g ∖ {[td]}) -> opens_none m ->
  (td ∉ o) -> ud_open g = {[td]} ∪ o ->
  match or_undo undo m g with (Ok _, g') => ud_open g' = {[td]} ∪ o | (Err _, g') => ud_open g' = o end.
Proof.
  intros Hu Hm Htd Hg. unfold or_undo. specialize (Hm g). destruct (m g) as [[a|x] g']; cbn [snd] in Hm; [congruence|].
  rewrite Hu, Hm, Hg. set_solver.
Qed.

Lemma wg_up_runs cfg ip network g : match wg_up cfg ip network (no_engine, g) with
  | (Ok name, (e, g')) => exists td, e = mkWgEngine (Some td) name /\ (td ∉ ud_open g) /\ ud_open g' = {[td]} ∪ ud_open g
  | (Err _, (e, g')) => e = no_engine /\ ud_open g' = ud_open g
  end.
Proof.
  unfold wg_up, bind at 1. pose proof (ud_create "lanweave0" 1420 g) as Hc. destruct (ud_CreateTUN "lanweave0" 1420 g) as [[td|x] g1]; [|by split].
  destruct Hc as [Htd Hg1].
  pose proof (or_undo_closes (ud_CloseTUN td) (ud_Name td) td g1 _ (ud_close_tun td) (ud_name_open td) Htd Hg1) as I1.
  unfold bind at 1. destruct (or_undo (ud_CloseTUN td) (ud_Name td) g1) as [[name|x] g2]; [|by split].
  pose proof (or_undo_closes (ud_Close td) (ud_IpcSet td cfg) td g2 _ (ud_close_dev td) (ud_set_open td cfg) Htd I1) as I2.
  unfold bind at 1. destruct (or_undo (ud_Close td) (ud_IpcSet td cfg) g2) as [[u|x] g3]; [|by split].
  pose proof (or_undo_closes (ud_Close td) (ud_Up td) td g3 _ (ud_close_dev td) (ud_up_open td) Htd I2) as I3.
  unfold bind at 1. destruct (or_undo (ud_Close td) (ud_Up td) g3) as [[u'|x] g4]; [|by split].
  pose proof (or_undo_closes (ud_Close td) (configureAdapter name ip network) td g4 _ (ud_close_dev td) (configureAdapter_opens name ip network) Htd I3) as I4.
  unfold bind. destruct (or_undo (ud_Close td) (configureAdapter name ip network) g4) as [[u''|x] g5]; [|by split]. by exists td.
Qed.
Lemma wg_close_runs e g : exists g', wg_close (e, g) = (Ok tt, (no_engine, g')) /\
  ud_open g' = match we_dev e with Some td => ud_open g ∖ {[td]} | None => ud_open g end.
Proof.
  unfold wg_close. eexists. split; [reflexivity|].
  assert (forall g, ud_open (if bool_decide (we_name e = "") then g else snd (teardownAdapter (we_name e) g)) = ud_open g) as Ht
    by (intros g0; case_bool_decide; [done|apply teardownAdapter_opens]).
  destruct (we_dev e) as [td|]; [by rewrite ud_close_dev, Ht|apply Ht].
Qed.
End Engine.

(** The engine leaks no adapter: bringing it up opens one on success, which it is then
    the engine of, and none on failure; closing it, whatever the calls answer, closes
    that one and leaves an engine without device; up and close leave what was open. *)
Theorem wgEngine_clean {G} `{UserDeviceLaws G} cfg ip network g :
  let '(r, (e, g1)) := wg_up cfg ip network (no_engine, g) in
  match r with
  | Ok name => exists td, e = mkWgEngine (Some td) name /\ (td ∉ ud_open g) /\ ud_open g1 = {[td]} ∪ ud_open g
  | Err _ => e = no_engine /\ ud_open g1 = ud_open g
  end /\
  exists g2, wg_close (e, g1) = (Ok tt, (no_engine, g2)) /\ ud_open g2 = ud_open g.
Proof.
  pose proof (wg_up_runs cfg ip network g) as Hup. destruct (wg_up cfg ip network (no_engine, g)) as [[name|x] [e g1]]; (split; [exact Hup|]);
    destruct (wg_close_runs e g1) as (g2 & E & Ho); exists g2; (split; [exact E|]); rewrite Ho.
  - destruct Hup as (td & -> & Htd & ->). cbn [we_dev]. set_solver.
  - by destruct Hup as [-> ->].
Qed.

(** Devices that are only open or closed, with links that never come up; an adapter
    that is brought up on them fails last, and is closed. *)
#[local] Instance plain_devices : UserDevice (gset nat) :=
  { ud_CreateTUN _ _ g := (Ok (fresh g), {[fresh g]} ∪ g);
    ud_Name _ g := (Ok "lanweave0", g); ud_CloseTUN td g := g ∖ {[td]};
    ud_IpcSet _ _ g := (Ok tt, g); ud_IpcGet _ g := (Ok "", g); ud_Up _ g := (Ok tt, g);
    ud_Close td g := g ∖ {[td]};
    ud_LinkByName _ g := (Ok tt, g); ud_AddrReplace _ _ _ g := (Ok tt, g);
    ud_LinkSetUp _ g := (Err tt, g); ud_LinkSetDown _ g := (Ok tt, g); ud_RouteReplace _ _ g := (Ok tt, g) }.
#[local] Instance plain_devices_laws : UserDeviceLaws (gset nat).
Proof. by refine (mkUserDeviceLaws _ _ id _ _ _ _ _ _ _ _ _ _ _ _); intros; [split; [apply is_fresh|]|..]. Qed.
Lemma no_leak_without_link : let g := {[7%nat]} : gset nat in
  fst (wg_up "" 0 (P4 (PrefixFrom 0 16)) (no_engine, g)) = Err tt /\ ud_open (snd (snd (wg_up "" 0 (P4 (PrefixFrom 0 16)) (no_engine, g)))) = ud_open g.
Proof.
  intros g. pose proof (wg_up_runs "" 0 (P4 (PrefixFrom 0 16)) g) as Hup. destruct (wg_up _ _ _ (no_engine, g)) as [[name|x] [e g']] eqn:E;
    [by vm_compute in E|]. by destruct x, Hup as [_ Hup].
Qed.

(** ** The counters of the device

    The text of a device: a line for each key and value, the counters decimal. *)

Fixpoint uapi_text (kvs : list (string * string)) : string :=
  match kvs with [] => "" | (k, v) :: kvs => line k v +:+ uapi_text kvs end.
Definition counters : list string := ["rx_bytes"; "tx_bytes"; "last_handshake_time_sec"].
Definition plain_line (kv : string * string) : Prop :=
  no_char (ascii_of_nat 10) kv.1 = true /\ no_char "="%char kv.1 = true /\ no_char (ascii_of_nat 10) kv.2 = true /\
  (kv.1 ∈ counters -> exists n, kv.2 = pretty n /\ 0 <= n < 2 ^ 63).
(** The numbers under a key. *)
Definition numbers (key : string) (kvs : list (string * string)) : list Z :=
  ParseIntValue ∘ snd <$> filter (fun kv => kv.1 = key) kvs.

Lemma uint_value_digits s acc n : parse_digits acc s = Some n -> 0 <= acc -> n < 2 ^ 64 -> uint_value acc s = Some n.
Proof.
  revert acc. induction s as [|a s IH]; intros acc; simpl; [done|]. destruct (digit_of a) as [d|] eqn:Hd; [|done]. cbn [mbind option_bind].
  intros Hp Hacc Hn. assert (0 <= d) by (unfold digit_of in Hd; destruct (_ && _) eqn:Hb; [injection Hd as <-; lia|done]).
  assert (forall s acc n, parse_digits acc s = Some n -> 0 <= acc -> acc <= n) as Hmono.
  { clear. induction s as [|a s IH]; intros acc n; simpl; [intros [= ->]; lia|]. destruct (digit_of a) as [d|] eqn:Hd; [|done]. cbn [mbind option_bind].
    intros Hp Hacc. assert (0 <= d) by (unfold digit_of in Hd; destruct (_ && _) eqn:Hb; [injection Hd as <-; lia|done]).
    specialize (IH _ _ Hp ltac:(lia)). lia. }
  pose proof (Hmono _ _ _ Hp ltac:(lia)). destruct (2 ^ 64 - 1 <? acc * 10 + d) eqn:Hb; [apply Z.ltb_lt in Hb; lia|]. apply IH; [done|lia|done].
Qed.
Lemma ParseIntValue_pretty n : 0 <= n < 2 ^ 63 -> ParseIntValue (pretty n) = n.
Proof.
  intros Hn. pose proof (parse_dec_pretty n ltac:(lia)) as Hp. pose proof (pretty_Z_digits n ltac:(lia)) as Hd.
  unfold ParseIntValue. unfold parse_dec in Hp. destruct (pretty n) as [|a r]; [done|].
  cbn [chars] in Hd. apply andb_true_iff in Hd as [Ha _]. pose proof (uint_value_digits (String a r) 0 n Hp ltac:(lia) ltac:(lia)) as Hu.
  transitivity (match uint_value 0 (String a r) with None => 0 | Some n => Z.min n (2 ^ 63 - 1) end).
  - by destruct a as [[] [] [] [] [] [] [] []].
  - rewrite Hu. lia.
Qed.

Lemma cut_key k v key : no_char "="%char k = true -> no_char "="%char key = true ->
  CutPrefix (k +:+ "=" +:+ v) (key +:+ "=") = if bool_decide (k = key) then Some v else None.
Proof.
  revert k. induction key as [|b key IH]; intros [|a k]; cbn [chars].
  - done.
  - rewrite andb_true_iff. intros [Ha%bool_decide_eq_true _] _.
    change (CutPrefix (String a k +:+ "=" +:+ v) ("" +:+ "=")) with (if decide ("="%char = a) then Some (k +:+ "=" +:+ v) else None).
    rewrite decide_False by congruence. by rewrite bool_decide_false.
  - intros _. rewrite andb_true_iff. intros [Hb%bool_decide_eq_true _].
    change (CutPrefix ("" +:+ "=" +:+ v) (String b key +:+ "=")) with (if decide (b = "="%char) then CutPrefix v (key +:+ "=") else None).
    rewrite decide_False by congruence. by rewrite bool_decide_false.
  - rewrite !andb_true_iff. intros [_ Hk] [_ Hkey]. specialize (IH k Hk Hkey).
    change (CutPrefix (String a k +:+ "=" +:+ v) (String b key +:+ "=")) with
      (if decide (b = a) then CutPrefix (k +:+ "=" +:+ v) (key +:+ "=") else None).
    destruct (decide (b = a)) as [->|Hne]; [rewrite IH|]; repeat case_bool_decide; congruence.
Qed.
Lemma string_app_assoc s t u : (s +:+ t) +:+ u = s +:+ t +:+ u.
Proof. induction s as [|a s IH]; [done|]. change (String a ((s +:+ t) +:+ u) = String a (s +:+ t +:+ u)). by rewrite IH. Qed.
Lemma lines_of kvs : Forall plain_line kvs -> uapi_lines (uapi_text kvs) = ((fun kv => kv.1 +:+ "=" +:+ kv.2) <$> kvs) ++ [""].
Proof.
  induction 1 as [|[k v] kvs (Hk & _ & Hv & _) _ IH]; [done|]. unfold uapi_lines in *. cbn [uapi_text fmap list_fmap app fst snd] in *. unfold line.
  assert ((k +:+ "=" +:+ v +:+ nl_string) +:+ uapi_text kvs = (k +:+ "=" +:+ v) +:+ String (ascii_of_nat 10) "" +:+ uapi_text kvs) as ->.
  { change nl_string with (String (ascii_of_nat 10) ""). by rewrite !string_app_assoc. }
  rewrite Split_app; [by rewrite IH|]. by rewrite !chars_app, Hk, Hv.
Qed.
Lemma counter_value k v key : plain_line (k, v) -> key ∈ counters ->
  CutPrefix (k +:+ "=" +:+ v) (key +:+ "=") = (if bool_decide (k = key) then Some v else None) /\
  (k = key -> ParseIntValue (TrimSpace v) = ParseIntValue v).
Proof.
  intros (_ & Hk & _ & Hv) Hkey. split.
  - apply cut_key; [done|]. unfold counters in Hkey. rewrite !elem_of_cons in Hkey. by destruct Hkey as [->|[->|[->|?%not_elem_of_nil]]].
  - intros ->. cbn [fst snd] in Hv. destruct (Hv Hkey) as (n & -> & Hn). rewrite TrimSpace_graphic; [done|].
    eapply chars_impl; [apply digit_graphic|]. apply pretty_Z_digits. lia.
Qed.
Lemma numbers_cons key k v kvs : numbers key ((k, v) :: kvs) = (if bool_decide (k = key) then [ParseIntValue v] else []) ++ numbers key kvs.
Proof. unfold numbers. rewrite filter_cons. cbn [fst]. by case_bool_decide; [rewrite decide_True|rewrite decide_False]. Qed.
Lemma s64_add a b : s64 (s64 a + b) = s64 (a + b).
Proof. unfold s64. replace ((a + 2 ^ 63) mod 2 ^ 64 - 2 ^ 63 + b + 2 ^ 63) with ((a + 2 ^ 63) mod 2 ^ 64 + b) by lia. rewrite Z.add_mod_idemp_l by lia. do 2 f_equal. lia. Qed.
Lemma s64_small a : - 2 ^ 63 <= a < 2 ^ 63 -> s64 a = a.
Proof. intros Ha. unfold s64. rewrite Z.mod_small; lia. Qed.

Lemma count_lines kvs a b : Forall plain_line kvs ->
  fold_left count_line (((fun kv => kv.1 +:+ "=" +:+ kv.2) <$> kvs) ++ [""]) (s64 a, s64 b) =
  (s64 (a + foldr Z.add 0 (numbers "rx_bytes" kvs)), s64 (b + foldr Z.add 0 (numbers "tx_bytes" kvs))).
Proof.
  intros Hkvs. revert a b. induction Hkvs as [|[k v] kvs Hl _ IH]; intros a b; [cbn; by rewrite !Z.add_0_r|].
  destruct (counter_value k v "rx_bytes" Hl ltac:(by left)) as [Er Vr]. destruct (counter_value k v "tx_bytes" Hl ltac:(by right; left)) as [Et Vt].
  rewrite !numbers_cons. cbn [fmap list_fmap app fold_left fst snd]. unfold count_line at 2. change ("rx_bytes=") with ("rx_bytes" +:+ "=").
  change ("tx_bytes=") with ("tx_bytes" +:+ "="). rewrite Er, Et. cbn [fst snd].
  destruct (decide (k = "rx_bytes")) as [Hr|Hr]; [rewrite bool_decide_true, bool_decide_false by (done || by rewrite Hr)|rewrite (bool_decide_false _ Hr); case_bool_decide as Ht].
  - rewrite (Vr Hr), s64_add, IH. cbn. by rewrite Z.add_assoc.
  - rewrite (Vt Ht), s64_add, IH. cbn. by rewrite Z.add_assoc.
  - by rewrite IH.
Qed.
Lemma handshake_lines kvs a : Forall plain_line kvs ->
  fold_left later_handshake (((fun kv => kv.1 +:+ "=" +:+ kv.2) <$> kvs) ++ [""]) a = Z.max a (foldr Z.max a (numbers "last_handshake_time_sec" kvs)).
Proof.
  intros Hkvs. revert a. induction Hkvs as [|[k v] kvs Hl _ IH]; intros a; [cbn; lia|].
  destruct (counter_value k v "last_handshake_time_sec" Hl ltac:(by do 2 right; left)) as [E V].
  rewrite numbers_cons. cbn [fmap list_fmap app fold_left fst snd]. unfold later_handshake at 2.
  change ("last_handshake_time_sec=") with ("last_handshake_time_sec" +:+ "="). rewrite E.
  assert (forall a b l, Z.max b (foldr Z.max b l) = Z.max b (Z.max a (foldr Z.max a l)) \/ b < a) as Hfold
    by (clear; intros a b l; induction l; simpl; lia).
  case_bool_decide as Hk; [rewrite (V Hk)|apply IH]. cbn [app foldr].
  destruct (a <? ParseIntValue v) eqn:Hlt; [apply Z.ltb_lt in Hlt|apply Z.ltb_ge in Hlt]; rewrite IH; [|lia].
  destruct (Hfold a (ParseIntValue v) (numbers "last_handshake_time_sec" kvs)); lia.
Qed.

(** The counters are read back. From a device's text, a line for each key and value,
    whose peers' counters are decimal numbers below 2^63: the bytes received and sent
    are the sums of the peers', as [int64]s; the last handshake is the latest of the
    peers', 0 when none had one. *)
Theorem counters_spec kvs : Forall plain_line kvs ->
  sumTransfer (uapi_text kvs) = (s64 (foldr Z.add 0 (numbers "rx_bytes" kvs)), s64 (foldr Z.add 0 (numbers "tx_bytes" kvs))) /\
  fst (parseHandshakeAge (uapi_text kvs)) = foldr Z.max 0 (numbers "last_handshake_time_sec" kvs).
Proof.
  intros Hkvs. unfold sumTransfer, parseHandshakeAge. rewrite lines_of by done. split.
  - by apply (count_lines kvs 0 0).
  - rewrite handshake_lines by done. cbn [fst]. assert (forall l, 0 <= foldr Z.max 0 l) as Hm by (intros l; induction l; simpl; lia).
    specialize (Hm (numbers "last_handshake_time_sec" kvs)). lia.
Qed.

(** Two peers, one that never shook hands. *)
Example two_peers :
  let kvs := [("private_key", "00"); ("listen_port", "4711"); ("public_key", "01"); ("last_handshake_time_sec", "1700000000"); ("rx_bytes", "20"); ("tx_bytes", "10");
              ("public_key", "02"); ("last_handshake_time_sec", "0"); ("rx_bytes", "9223372036854775807"); ("tx_bytes", "1")] in
  parseListenPort (uapi_text kvs) = 4711 /\ parseHandshakeAge (uapi_text kvs) = (1700000000, true) /\ sumTransfer (uapi_text kvs) = (19 - 2 ^ 63, 11).
Proof. by vm_compute. Qed.

(** ** Runs of a set-up client *)

#[local] Instance no_v6 : NetipV6 := fun _ => None.
#[local] Instance no_v6_text : NetipV6Text := fun _ _ => "".
Definition demo_key : string := "AQIDBAUGBwgJCgsMDQ4PEBESExQVFhcYGRobHB0eHyA=".
Definition pc_record : StateRecord := mkRecord 3 "https://vpn" "pc" "10.8.0.5" demo_key "vpn.example.org:51820" "10.8.0.0/16" "" false 3.
Definition pc_run : list Label -> Sys -> option Sys := sys_run pc_record demo_key.
Definition block_9 : AnyPrefix := P4 (PrefixFrom 180879616 24).
Definition yes : Answers := mkAnswers [] [] [] true.
(** [Connect] as thread [i], from its first lock to its return. *)
Definition connect (i : nat) : list Label :=
  [Run i Silent; Run i (UpAs "lanweave0"); Run i Silent; Run i NotYet; Run i Shaken; Run i Silent].
Definition disconnect (i : nat) : list Label := [Run i Silent; Run i Silent; Run i Silent].

(** Connected with a consumer route, then disconnected. *)
Definition day : list Label := CallConnect :: connect 0 ++ [CallExtra yes [block_9]; CallDisconnect] ++ disconnect 1.
Definition after (ls : list Label) : Sys := default start (pc_run ls start).
Lemma after_day : sys_run pc_record demo_key day start = Some (after day).
Proof. by vm_compute. Qed.
Definition again : list Label := [CallDisconnect; Run 2 Silent; Run 2 Silent].
Lemma day_threads : sy_threads (after day) = [Returned (Ok tt); Returned (Ok tt)].
Proof. by vm_compute. Qed.
Lemma again_run : sys_run pc_record demo_key again (after day) = Some (after (day ++ again)).
Proof. by vm_compute. Qed.
Lemma tunnel_runs_witness : t_state (sy_t (after (day ++ again))) = Disconnected.
Proof.
  refine (proj2 (proj2 (tunnel_runs pc_record demo_key day (after day) after_day)) again _ _ _ _ again_run).
  - by vm_compute.
  - rewrite day_threads, !not_elem_of_cons. split_and!; [done|done|apply not_elem_of_nil].
  - unfold again. rewrite !not_elem_of_cons. split_and!; [done|done|done|apply not_elem_of_nil].
Defined.
Lemma alone_clean_witness : clean (sy_t (after day)) (sy_devs (after day)) /\ t_eng (sy_t (after day)) = None.
Proof.
  split; [|by vm_compute]. apply (alone_clean pc_record demo_key day (after day) after_day); vm_compute; repeat (split || constructor).
Defined.

(** ** Calls that overlap

    A disconnect between [newEngine] and [up] closes a device that is not there yet:
    [Connect] then brings it up, reports success, and no call will close it. *)
Example late_up_leaks : exists s, pc_run ([CallConnect; Run 0 Silent; CallDisconnect] ++ disconnect 1 ++
    [Run 0 (UpAs "lanweave0"); Run 0 Silent; Run 0 Shaken; Run 0 Silent]) start = Some s /\
  settled s /\ t_state (sy_t s) = Disconnected /\ t_ifName (sy_t s) = "lanweave0" /\ is_Some (sy_devs s !! 0%nat).
Proof. eexists. split; [by vm_compute|]. split_and!; [repeat constructor|done|done|]. vm_compute. by eexists. Qed.
(** The deadline of a [Connect] that was disconnected takes down the tunnel of a
    later one. *)
Example old_deadline_kills : exists s1 s2,
  pc_run ([CallConnect; Run 0 Silent; Run 0 (UpAs "lanweave0"); Run 0 Silent; CallDisconnect] ++ disconnect 1 ++
          CallConnect :: connect 2) start = Some s1 /\ t_state (sy_t s1) = Connected /\
  pc_run ([Run 0 Late] ++ disconnect 0) s1 = Some s2 /\ t_state (sy_t s2) = Disconnected.
Proof. eexists _, _. split; [by vm_compute|]. split; [done|]. by split; [vm_compute|]. Qed.
(** Routes set between the two locks of [teardown] are remembered by the next tunnel,
    which then does not install them. *)
Example remembered_routes : exists s1 s2,
  pc_run (CallConnect :: connect 0 ++ [CallDisconnect; Run 1 Silent; CallExtra yes [block_9]; Run 1 Silent; Run 1 Silent]) start = Some s1 /\
  t_state (sy_t s1) = Disconnected /\ extraApplied (sy_t s1) = [block_9] /\
  pc_run (CallConnect :: connect 2 ++ [CallExtra yes [block_9]]) s1 = Some s2 /\
  extraApplied (sy_t s2) = [block_9] /\ (dev_routes <$> sy_devs s2 !! 1%nat) = Some [].
Proof. eexists _, _. split; [by vm_compute|]. split; [done|]. split; [done|]. split; [by vm_compute|]. by split; vm_compute. Qed.
