(* ===== verification/StateFile.v ===== *)
(** * The client's saved record and its secrets ([internal/client/state], [keyring])

    The calls on the file are a class; what a file holds is the record its JSON
    stands for. What the key ring's clients rely on of it. *)
From S2P Require Import Prelude GoStrings Routerd.

#[local] Open Scope lw_scope.

Definition SchemaVersion : Z := 3.

(** A missing file, and any other failure. *)
Inductive file_err : Type := ErrNotExist | EFile.
#[export] Instance file_err_eq_dec : EqDecision file_err.
Proof. solve_decision. Defined.
(** The calls on the file: reading and decoding it; the directory and a temporary file
    with the record's JSON beside it; renaming that file over it; removing it. *)
Class StateDisk (P : Type) : Type :=
  { sd_Read : M file_err P StateRecord;
    sd_Temp : StateRecord -> M file_err P unit;
    sd_Rename : StateRecord -> M file_err P unit;
    sd_Remove : M file_err P unit }.

Inductive state_err : Type := EStateFile (e : file_err) | EIncomplete.

Definition incomplete (r : StateRecord) : bool :=
  bool_decide (st_SchemaVersion r = 0) || bool_decide (st_ServerURL r = "") || bool_decide (st_NodeName r = "") || bool_decide (st_IP r = "").
Definition versioned (r : StateRecord) : StateRecord :=
  if bool_decide (st_SchemaVersion r = 0)
  then mkRecord SchemaVersion (st_ServerURL r) (st_NodeName r) (st_IP r) (st_ServerPublicKey r) (st_Endpoint r) (st_Network r)
         (st_PinnedCertSHA256 r) (st_FirewallAllowVPN r) (st_NodeID r)
  else r.

Definition with_pin (fp : string) (r : StateRecord) : StateRecord :=
  mkRecord (st_SchemaVersion r) (st_ServerURL r) (st_NodeName r) (st_IP r) (st_ServerPublicKey r) (st_Endpoint r) (st_Network r) fp
    (st_FirewallAllowVPN r) (st_NodeID r).

Section Ops.
Context {P : Type} `{StateDisk P}.
Definition on_disk {A} (m : M file_err P A) : M state_err P A := fun p =>
  let '(r, p) := m p in (match r with Ok a => Ok a | Err e => Err (EStateFile e) end, p).

Definition Load : M state_err P StateRecord :=
  let! r := on_disk sd_Read in if incomplete r then throw EIncomplete else ret r.
Definition Save (r : StateRecord) : M state_err P unit :=
  let r := versioned r in do! on_disk (sd_Temp r) in on_disk (sd_Rename r).
Definition Clear : M state_err P unit :=
  let! r := try (on_disk sd_Remove) in
  match r with Ok _ | Err (EStateFile ErrNotExist) => ret tt | Err e => throw e end.
End Ops.

(** What is relied on of the disk: the record the file holds, if it is there; only a
    rename and a removal that succeed change it, and reading tells what it is. *)
Class StateDiskLaws (P : Type) `{StateDisk P} : Type := mkStateDiskLaws
  { sd_view : P -> option StateRecord;
    sd_read p : exists r p', sd_Read p = (r, p') /\ sd_view p' = sd_view p /\
      match r with Ok rec => sd_view p = Some rec | Err ErrNotExist => sd_view p = None | Err EFile => True end;
    sd_temp rec p : sd_view (snd (sd_Temp rec p)) = sd_view p;
    sd_rename rec p : sd_view (snd (sd_Rename rec p)) = match fst (sd_Rename rec p) with Ok _ => Some rec | Err _ => sd_view p end;
    sd_remove p : exists r p', sd_Remove p = (r, p') /\
      match r with Ok _ => sd_view p' = None | Err ErrNotExist => sd_view p = None /\ sd_view p' = None | Err EFile => sd_view p' = sd_view p end }.

Section Laws.
Context {P : Type} `{StateDiskLaws P}.

(** Saving is all or nothing. *)
Lemma Save_view rec p : sd_view (snd (Save rec p)) = match fst (Save rec p) with Ok _ => Some (versioned rec) | Err _ => sd_view p end.
Proof.
  unfold Save, bind, on_disk. pose proof (sd_temp (versioned rec) p) as Ht. destruct (sd_Temp (versioned rec) p) as [[[]|e] p1]; [|exact Ht].
  cbn [snd] in Ht. pose proof (sd_rename (versioned rec) p1) as Hr. rewrite <- Ht. by destruct (sd_Rename (versioned rec) p1) as [[[]|e] p2].
Qed.
Lemma Clear_view p : sd_view (snd (Clear p)) = match fst (Clear p) with Ok _ => None | Err _ => sd_view p end.
Proof.
  unfold Clear, bind, try, on_disk. destruct (sd_remove p) as (r & p' & -> & Hr).
  destruct r as [[]|[]]; [exact Hr|by destruct Hr|exact Hr].
Qed.
Lemma Load_view p : sd_view (snd (Load p)) = sd_view p /\ forall rec, fst (Load p) = Ok rec -> sd_view p = Some rec /\ incomplete rec = false.
Proof.
  unfold Load, bind, on_disk. destruct (sd_read p) as (r & p' & -> & Hv & Hr). destruct r as [rec|e]; [|by split].
  destruct (incomplete rec) eqn:Hi; cbn; (split; [done|]); [done|by intros rec' [= <-]].
Qed.
Lemma Load_cases p : match fst (Load p) with
  | Ok r => sd_view p = Some r /\ incomplete r = false
  | Err EIncomplete => exists r, sd_view p = Some r /\ incomplete r = true
  | Err (EStateFile ErrNotExist) => sd_view p = None
  | Err (EStateFile EFile) => True
  end.
Proof.
  unfold Load, bind, on_disk. destruct (sd_read p) as (r & p' & -> & _ & Hr). destruct r as [rec|[]]; [|done..].
  destruct (incomplete rec) eqn:Hi; [by exists rec|done].
Qed.
Lemma versioned_complete r : st_ServerURL r <> "" -> st_NodeName r <> "" -> st_IP r <> "" -> incomplete (versioned r) = false.
Proof.
  intros. unfold incomplete. rewrite !orb_false_iff, !bool_decide_eq_false. unfold versioned. case_bool_decide; by split_and!.
Qed.
End Laws.

(** What is relied on of the key ring: what a call that reports success has done, that
    reading changes nothing and setting a secret no other one, and that a deletion that
    fails has changed nothing. *)
Class KeyRingLaws (S : Type) `{KeyRing S} : Type := mkKeyRingLaws
  { kr_view : S -> gmap string string;
    kr_get_view name s : kr_view (snd (kr_Get name s)) = kr_view s;
    kr_set_other name v s other : other <> name -> kr_view (snd (kr_Set name v s)) !! other = kr_view s !! other;
    kr_set_ok name v s s' : kr_Set name v s = (Ok tt, s') -> kr_view s' = <[name := v]> (kr_view s);
    kr_delete_ok name s s' : kr_Delete name s = (Ok tt, s') -> kr_view s' = delete name (kr_view s);
    kr_delete_err name s s' : kr_Delete name s = (Err tt, s') -> kr_view s' = kr_view s }.

(** The saved record. A save is all or nothing: after one that succeeds the file
    holds the record, with the current schema version if it had none, and after one
    that fails what it held before; a clear that succeeds leaves no record, also
    where there was none, and one that fails leaves it. Loading answers exactly a
    record that the file holds and that is complete, and changes nothing; so a
    complete record that was saved is the one that loads, when the file can be read. *)
Theorem state_file_spec {P : Type} `{StateDiskLaws P} rec p :
  (sd_view (snd (Save rec p)) = match fst (Save rec p) with Ok _ => Some (versioned rec) | Err _ => sd_view p end) /\
  (sd_view (snd (Clear p)) = match fst (Clear p) with Ok _ => None | Err _ => sd_view p end) /\
  sd_view (snd (Load p)) = sd_view p /\
  match fst (Load p) with
  | Ok r => sd_view p = Some r /\ incomplete r = false
  | Err EIncomplete => exists r, sd_view p = Some r /\ incomplete r = true
  | Err (EStateFile ErrNotExist) => sd_view p = None
  | Err (EStateFile EFile) => True
  end.
Proof. split_and!; [apply Save_view|apply Clear_view|apply Load_view|apply Load_cases]. Qed.

(** A disk that works. *)
Definition sim_file : StateDisk (option StateRecord) :=
  {| sd_Read := fun s => (match s with Some r => Ok r | None => Err ErrNotExist end, s); sd_Temp r := fun s => (Ok tt, s);
     sd_Rename r := fun _ => (Ok tt, Some r); sd_Remove := fun s => (match s with Some _ => Ok tt | None => Err ErrNotExist end, None) |}.
#[local] Existing Instance sim_file.
#[export, refine] Instance sim_file_laws : StateDiskLaws (option StateRecord) := {| sd_view s := s |}.
Proof. - intros [r|]; by eexists _, _. - done. - done. - intros [r|]; by eexists _, _. Defined.
Definition pc_saved : StateRecord := mkRecord 0 "https://vpn" "pc" "10.8.0.5" "" "" "" "" false 3.
Lemma state_file_spec_witness : snd (Save pc_saved None) = Some (versioned pc_saved) /\ st_SchemaVersion (versioned pc_saved) = 3.
Proof. split; [exact (proj1 (state_file_spec pc_saved None))|reflexivity]. Defined.
