(* ===== verification/Panel.v ===== *)
(** * The desktop client's management panel ([internal/client/panel])

    The controller's operations over the API client, the key ring, the state file
    and the host firewall, each a class of calls that may fail. *)
From S2P Require Import Prelude GoStrings Netip Ipam Codec Db StoreUsers StoreNodes StoreAnnounce Netfw Wg Auth Api Netutil NatCtl Engine RouteSync Daemon ApiClient Routerd StateFile.

#[local] Open Scope lw_scope.

(** [firewall.Control]; [RouteSetter]. *)
Class Firewall (F : Type) : Type := { fw_Allow : M unit F unit; fw_Clear : M unit F unit }.
Class RouteSetter (R : Type) : Type := rt_SetExtraRoutes : list AnyPrefix -> M unit R (list AnyPrefix).

Inductive panel_err : Type :=
| PApi (e : client_err) | PFetch (e : fetch_err) | errNotRegistered | PRoutes
| PKeys | PState | PFirewall | ErrRemoteMayLinger.
Inductive LogoutOutcome : Type := LogoutDone | LogoutBlocked | LogoutNeedSignIn.
Inductive removeResult : Type := removeDone | removeBlocked | removeNeedSignIn | removeWarn.
#[export] Instance removeResult_eq_dec : EqDecision removeResult.
Proof. solve_decision. Defined.

Record DeviceView : Type := mkDeviceView
  { dv_Name : string; dv_IP : string; dv_LastSeen : option Z; dv_Online : bool; dv_IsThisMachine : bool }.
Record ZoneView : Type := mkZoneView { zv_Name : string; zv_IsOwner : bool }.
Record MemberView : Type := mkMemberView { mv_NodeID : Z; mv_NodeName : string; mv_Owner : string; mv_IP : string }.
(** The prefixes are kept as such; the panel shows their text. *)
Record ReachableView : Type := mkReachable
  { rv_Synthetic : AnyPrefix; rv_Subnet : AnyPrefix; rv_Zones : list string; rv_Announcer : string; rv_Conflict : bool }.

Record Controller (N S F P : Type) : Type := mkController
  { ct_client : ClientState N; ct_record : StateRecord; ct_keys : S; ct_fw : F; ct_file : P; ct_insecure : bool }.
Arguments mkController {N S F P}. Arguments ct_client {N S F P}. Arguments ct_record {N S F P}. Arguments ct_keys {N S F P}.
Arguments ct_fw {N S F P}. Arguments ct_file {N S F P}. Arguments ct_insecure {N S F P}.

Definition with_allow (on : bool) (r : StateRecord) : StateRecord :=
  mkRecord (st_SchemaVersion r) (st_ServerURL r) (st_NodeName r) (st_IP r) (st_ServerPublicKey r) (st_Endpoint r) (st_Network r)
    (st_PinnedCertSHA256 r) on (st_NodeID r).

Section Panel.
Context {N S F P : Type} `{Transport N} `{KeyRing S} `{Firewall F} `{StateDisk P} `{NetipV6}.

Abbreviation PM := (M panel_err (Controller N S F P)).

Definition on_api {E A} (f : E -> panel_err) (m : M E (ClientState N) A) : PM A := fun c =>
  let '(r, cl) := m (ct_client c) in
  (match r with Ok a => Ok a | Err e => Err (f e) end, mkController cl (ct_record c) (ct_keys c) (ct_fw c) (ct_file c) (ct_insecure c)).
Definition on_keys {A} (m : M unit S A) : PM A := fun c =>
  let '(r, k) := m (ct_keys c) in
  (match r with Ok a => Ok a | Err _ => Err PKeys end, mkController (ct_client c) (ct_record c) k (ct_fw c) (ct_file c) (ct_insecure c)).
Definition on_fw {A} (m : M unit F A) : PM A := fun c =>
  let '(r, f) := m (ct_fw c) in
  (match r with Ok a => Ok a | Err _ => Err PFirewall end, mkController (ct_client c) (ct_record c) (ct_keys c) f (ct_file c) (ct_insecure c)).
Definition on_file {E A} (m : M E P A) : PM A := fun c =>
  let '(r, p) := m (ct_file c) in
  (match r with Ok a => Ok a | Err _ => Err PState end, mkController (ct_client c) (ct_record c) (ct_keys c) (ct_fw c) p (ct_insecure c)).
Definition set_tokens (f : ClientState N -> ClientState N) : PM unit := fun c =>
  (Ok tt, mkController (f (ct_client c)) (ct_record c) (ct_keys c) (ct_fw c) (ct_file c) (ct_insecure c)).
Definition set_record (f : StateRecord -> StateRecord) : PM unit := fun c =>
  (Ok tt, mkController (ct_client c) (f (ct_record c)) (ct_keys c) (ct_fw c) (ct_file c) (ct_insecure c)).
Definition SetToken (tok : string) (c : ClientState N) : ClientState N := mkClient tok (c_refreshToken c) (c_net c).
Definition SetRefreshToken (rt : string) (c : ClientState N) : ClientState N := mkClient (c_token c) rt (c_net c).

(** ** Sessions *)

(** The tokens of the key ring, where there are any. *)
Definition LoadSession : PM bool :=
  let! tok := try (on_keys (kr_Get SessionTokenName)) in
  match tok with
  | Ok tok =>
      if bool_decide (tok = "") then ret true else
      do! set_tokens (SetToken tok) in
      let! rt := try (on_keys (kr_Get RefreshTokenName)) in
      do! match rt with Ok rt => if bool_decide (rt = "") then ret tt else set_tokens (SetRefreshToken rt) | Err _ => ret tt end in
      let! me := try (on_api PApi Me) in
      match me with
      | Ok _ => ret false
      | Err (PApi ErrSessionExpired) | Err (PApi ErrAuthFailed) => ret true
      | Err e => throw e
      end
  | Err _ => ret true
  end.
Definition SignIn (username password : string) : PM unit :=
  do! on_api PApi (ApiClient.Login username password) in
  let! tok := gets (fun c => c_token (ct_client c)) in
  do! on_keys (kr_Set SessionTokenName tok) in
  let! rt := gets (fun c => c_refreshToken (ct_client c)) in
  on_keys (kr_Set RefreshTokenName rt).
(** [UseClient], given the client swapped in. *)
Definition UseClient (a : ClientState N) : PM unit :=
  let! tok := try (on_keys (kr_Get SessionTokenName)) in
  let a := match tok with Ok tok => if bool_decide (tok = "") then a else SetToken tok a | Err _ => a end in
  let! rt := try (on_keys (kr_Get RefreshTokenName)) in
  let a := match rt with Ok rt => if bool_decide (rt = "") then a else SetRefreshToken rt a | Err _ => a end in
  set_tokens (fun _ => a).

(** ** Views *)

Definition isThisMachine (rec : StateRecord) (name ip : string) : bool :=
  bool_decide (st_NodeName rec <> "" /\ name = st_NodeName rec) || bool_decide (st_IP rec <> "" /\ ip = st_IP rec).
Definition thisMachineNodeID : PM Z :=
  let! list := on_api PApi ApiClient.ListNodes in
  let! rec := gets ct_record in
  match List.find (fun n => isThisMachine rec (nr_Name n) (nr_IP n)) list with Some n => ret (nr_ID n) | None => throw errNotRegistered end.
Definition Devices : PM (list DeviceView) :=
  let! list := on_api PApi ApiClient.ListNodes in
  let! rec := gets ct_record in
  ret ((fun n => mkDeviceView (nr_Name n) (nr_IP n) (nr_LastHandshake n) (nr_Online n) (isThisMachine rec (nr_Name n) (nr_IP n))) <$> list).
Definition Zones : PM (list ZoneView) :=
  let! list := on_api PApi ListZones in ret ((fun z => mkZoneView (zr_Name z) (zr_IsOwner z)) <$> list).
Definition Members (zoneName : string) : PM (list MemberView) :=
  let! list := on_api PApi (ApiClient.ZoneMembers zoneName) in
  ret ((fun m => mkMemberView (mr_NodeID m) (mr_NodeName m) (mr_Owner m) (mr_IP m)) <$> list).

Definition CreateZone (name password : string) : PM unit :=
  let! id := thisMachineNodeID in do! on_api PApi (ApiClient.CreateZone name id password) in ret tt.
Definition JoinZone (name password : string) : PM unit :=
  let! id := thisMachineNodeID in on_api PApi (ApiClient.JoinZone name id password).
Definition LeaveZone (name : string) : PM unit :=
  let! id := thisMachineNodeID in on_api PApi (ApiClient.LeaveZone name id).
Definition ChangePassword (name password : string) : PM unit := on_api PApi (ApiClient.ChangeZonePassword name password).
Definition KickMember (name : string) (nodeID : Z) : PM unit := on_api PApi (ApiClient.KickMember name nodeID).
Definition DeleteZone (name : string) : PM unit := on_api PApi (ApiClient.DeleteZone name).

(** [SyncRoutes], given the tunnel's state. *)
Definition SyncRoutes {R} `{RouteSetter R} : M panel_err (Controller N S F P * R) (list ReachableView) := fun '(c, rt) =>
  match (let! zones := on_api PApi ListZones in
         let! rec := gets ct_record in
         let! mine := on_api PApi (MemberZones zones ApiClient.ZoneMembers (st_IP rec)) in
         let! entries := on_api PFetch (Fetch mine ListAnnouncements) in
         let! nodeID := try thisMachineNodeID in
         ret (Consumed entries (match nodeID with Ok id => id | Err _ => 0 end))) c with
  | (Err e, c) => (Err e, (c, rt))
  | (Ok consumed, c) =>
      match rt_SetExtraRoutes (Prefixes consumed) rt with
      | (Err _, rt) => (Err PRoutes, (c, rt))
      | (Ok applied, rt) =>
          (Ok ((fun e => mkReachable (e_Synthetic e) (e_Subnet e) (e_Zones e) (e_Announcer e) (bool_decide (e_Synthetic e ∉ applied))) <$> consumed),
           (c, rt))
      end
  end.

(** ** Signing out *)

Definition classifyRemoveErr (e : panel_err) : removeResult :=
  match e with
  | PApi ErrUnreachable => removeBlocked
  | PApi ErrSessionExpired | PApi ErrRefreshFailed => removeNeedSignIn
  | _ => removeWarn
  end.
Definition tryRemoveRemoteNode : PM removeResult :=
  let! id := try thisMachineNodeID in
  match id with
  | Err errNotRegistered => ret removeDone
  | Err e => ret (classifyRemoveErr e)
  | Ok id =>
      let! r := try (on_api PApi (ApiClient.DeleteNode id)) in
      ret (match r with Ok _ | Err (PApi ErrZoneNotFound) => removeDone | Err e => classifyRemoveErr e end)
  end.
(** The attempts left; the pause between two has no effect on the state. *)
Fixpoint remove_loop (attempts : nat) : PM removeResult :=
  match attempts with
  | O => ret removeBlocked
  | Datatypes.S attempts =>
      let! res := tryRemoveRemoteNode in
      if bool_decide (res = removeBlocked) then remove_loop attempts else ret res
  end.
Definition maxAttempts : nat := 3.
Definition removeRemoteNode : PM removeResult := remove_loop maxAttempts.

Definition failed {A} (m : PM A) : PM (list panel_err) :=
  let! r := try m in ret (match r with Ok _ => [] | Err e => [e] end).
(** The errors joined. *)
Definition tearDownLocal : PM (list panel_err) :=
  do! failed (on_api PApi ApiClient.Logout) in
  do! failed (on_fw fw_Clear) in
  let! e1 := failed (on_keys (kr_Delete SessionTokenName)) in
  let! e2 := failed (on_keys (kr_Delete RefreshTokenName)) in
  let! e3 := failed (on_keys (kr_Delete DeviceKeyName)) in
  let! e4 := failed (on_file StateFile.Clear) in
  ret (e1 ++ e2 ++ e3 ++ e4).

Definition Logout : PM (LogoutOutcome * list panel_err) :=
  let! res := removeRemoteNode in
  match res with
  | removeBlocked => ret (LogoutBlocked, [])
  | removeNeedSignIn => ret (LogoutNeedSignIn, [])
  | removeWarn => let! errs := tearDownLocal in ret (LogoutDone, ErrRemoteMayLinger :: errs)
  | removeDone => let! errs := tearDownLocal in ret (LogoutDone, errs)
  end.
Definition ForceLogout : PM (list panel_err) := tearDownLocal.

(** ** The saved record and the firewall *)

Definition SetPinnedCert (fp : string) : PM unit :=
  do! set_record (with_pin fp) in let! rec := gets ct_record in on_file (StateFile.Save rec).
Definition applyFirewall (open : bool) : PM unit := if open then on_fw fw_Allow else on_fw fw_Clear.
Definition SetFirewallAllowed (on connected : bool) : PM unit :=
  do! set_record (with_allow on) in
  let! rec := gets ct_record in
  do! on_file (StateFile.Save rec) in
  applyFirewall (on && connected).
Definition ReconcileFirewall (connected : bool) : PM unit :=
  let! rec := gets ct_record in applyFirewall (st_FirewallAllowVPN rec && connected).
End Panel.
