(* ===== verification/NodeReads.v ===== *)
(** * The node calls of the client against the server

    Listing and deleting the user's nodes, and signing out, over a quiet store. *)
From Stdlib Require Import Ascii.
From S2P Require Import Prelude GoStrings Netip Ipam Codec Db StoreInv StoreUsers StoreNodes StoreAnnounce StoreOps UsersProps Netfw Isolation Wg WgProps Auth AuthProps Api ApiZones ApiRoutes ApiProps ApiClient ClientPaths ClientSession ClientReads.

#[local] Open Scope lw_scope.

Lemma node_path_split (i : Z) : Split "/"%char ("/api/v1/nodes/" +:+ pretty i) = [""; "api"; "v1"; "nodes"; pretty i].
Proof.
  change ("/api/v1/nodes/" +:+ pretty i) with ("" +:+ "/" +:+ ("api" +:+ "/" +:+ ("v1" +:+ "/" +:+ ("nodes" +:+ "/" +:+ pretty i)))).
  by rewrite !Split_app, Split_no_char by (done || apply pretty_segment).
Qed.
Lemma node_mux (i : Z) : mux_match route_patterns "DELETE" ("/api/v1/nodes/" +:+ pretty i) = Some ("DELETE /api/v1/nodes/{id}", [("id", pretty i)]).
Proof.
  unfold mux_match. rewrite bool_decide_true.
  - rewrite node_path_split. cbn [mapM]. rewrite (unescape_plain (pretty i)) by apply pretty_plain.
    destruct (pretty_plain i) as [_ Hne]. destruct (pretty i) as [|a r]; [done|]. by vm_compute.
  - eapply cleanPath_proper; [apply node_path_split|done|]. repeat constructor; try done. all: apply pretty_proper.
Qed.

Section Nodes.
Context {K D : Type} `{Nftables K} `{WgHost D} `{WgTypes} `{NetipV6} `{Sqlite} `{Argon2} `{JwtLib} (h : Options).
#[local] Hint Extern 0 (Transport (World K D)) => exact (here h) : typeclass_instances.
Context (now : Z) (rand : list (list Z)).

(** Computations of a handler that do not fail, leave the store alone, and end in
    a value of [P]. *)
Definition aside {A} (P : A -> Prop) (m : M Resp (World K D) A) : Prop :=
  forall w, exists a w', m w = (Ok a, w') /\ P a /\ w_store w' = w_store w /\ w_nanos w' = w_nanos w.
Lemma aside_bind {A B} P Q (m : M Resp (World K D) A) (k : A -> M Resp (World K D) B) : aside P m -> (forall a, P a -> aside Q (k a)) -> aside Q (bind m k).
Proof.
  intros Hm Hk w. destruct (Hm w) as (a & w1 & E1 & Pa & S1 & N1). destruct (Hk a Pa w1) as (b & w2 & E2 & Qb & S2 & N2). exists b, w2.
  unfold bind. rewrite E1. split_and!; [done|done|congruence..].
Qed.
Lemma aside_ret {A} (P : A -> Prop) (a : A) : P a -> aside P (ret a).
Proof. intros Pa w. by exists a, w. Qed.
Lemma aside_log {E A} msg (r : res E A) : aside (fun _ => True) (log_failure msg r).
Proof. destruct r; [by apply aside_ret|]. intros w. by eexists _, _. Qed.
Lemma aside_wg {A} (m : M wg_err D A) : aside (fun _ => True) (wg m).
Proof. intros w. unfold wg. destruct (m (w_wg w)) as [r d]. by eexists _, _. Qed.
Lemma aside_netfw {A} (m : M unit K A) : aside (fun _ => True) (netfw m).
Proof. intros w. unfold netfw. destruct (m (w_nft w)) as [r k]. by eexists _, _. Qed.
Lemma aside_each {A} (l : list A) (f : A -> M Resp (World K D) unit) : (forall x, aside (fun _ => True) (f x)) -> aside (fun _ => True) (for_each l f).
Proof. intros Hf. induction l as [|x l IH]; [by apply aside_ret|]. simpl. by eapply aside_bind. Qed.

Definition own (user id : Z) (n : node_row) : Prop := n_id n = id /\ n_user n = user.
#[export] Instance own_dec user id n : Decision (own user id n).
Proof. unfold own. apply _. Defined.
Definition without (user id : Z) (d : DB) : DB := delete_nodes (fun n => n_id n = id /\ n_user n = user) d.

Lemma deleteNode_quiet d c n w : schema_ok d -> n ∈ rows (nodes d) -> n_user n = c_UserID c -> 0 <= n_id n < 2 ^ 63 ->
  w_store w = Quiet d now rand ->
  exists w', (deleteNode (K:=K) (D:=D) h (Some c) (pretty (n_id n)) w = (Ok (mkResp 204 BEmpty), w')) /\
    w_store w' = Quiet (without (c_UserID c) (n_id n) d) now rand /\ w_nanos w' = w_nanos w.
Proof.
  intros Hd Hn Hu Hid Hw. unfold deleteNode. unfold bind at 1, identity, ret at 1. rewrite ParseInt64_pretty by done.
  assert (owned_node (c_UserID c) (n_id n) d = Some n) as Hown.
  { unfold owned_node. apply first_row_unique; [|done|done]. intros y Hy [Hyid _]. by apply (uniq_inj n_id _ _ _ (table_ok_uniq _ _ (ok_nodes _ Hd))). }
  assert (db (GetOwned (c_UserID c) (n_id n)) w = (Ok (Ok (node_of_row n)), w)) as Hget.
  { unfold db. rewrite Hw. unfold GetOwned, bind, query, driver, gets. cbn [s_faults s_db]. rewrite Hown. cbn. destruct w; cbn in *; by rewrite Hw. }
  unfold bind at 1, or_fail, bind at 1. rewrite Hget. unfold ret at 1.
  unfold ZonesForNode. rewrite (or_server_error_query d now rand) by done.
  unfold AttachmentsForNode. rewrite (or_server_error_query d now rand) by done.
  set (w1 := with_store (Quiet (without (c_UserID c) (n_id n) d) now rand) w).
  assert (db (DeleteOwned (c_UserID c) (n_id n)) w = (Ok (Ok (n_key n)), w1)) as Hdel.
  { unfold db. rewrite Hw. unfold DeleteOwned, bind, query, driver, gets. cbn [s_faults s_db]. rewrite Hown. cbn [or_not_found ret]. rewrite exec_quiet. done. }
  unfold bind at 1, bind at 1. rewrite Hdel. unfold ret at 1.
  match goal with |- exists w', ?m w1 = _ /\ _ => assert (aside (eq (mkResp 204 BEmpty)) m) as Ha end.
  { repeat first [by apply aside_ret|eapply aside_bind; [|intros ? _]|apply aside_wg|apply aside_netfw|apply aside_log|apply aside_each; intros ?]. }
  destruct (Ha w1) as (a & w' & E & <- & Es & En). exists w'. by rewrite E, Es, En.
Qed.

(** The store's database, and the clock with it, as the client's calls see them. *)
Definition same_time (w w' : World K D) : Prop := clock w' = clock w.
Lemma session_kept c cl w' : same_time (c_net cl) w' -> session h c cl -> session h c (mkClient (c_token cl) (c_refreshToken cl) w').
Proof. unfold same_time, clock, session, caller. cbn [c_net c_token]. by intros ->. Qed.

Definition listed (d : DB) (w : World K D) (user : Z) : list NodeResponse :=
  node_item (w_status w) (clock w) <$> (node_of_row <$> reverse (filter (fun n => n_user n = user) (rows (nodes d)))).

Lemma ListNodes_attempt d c cl : quiet_net d now rand (c_net cl) -> session h c cl ->
  attempt "GET" "/api/v1/nodes" true NoBody (fun b => match b with BNodes l => Some l | _ => None end) cl =
    (Ok (listed d (c_net cl) (c_UserID c)), cl).
Proof.
  intros Hq Hs. rewrite (attempt_guarded h "GET" "/api/v1/nodes" "GET /api/v1/nodes" [] (fun r => listNodes (rq_ctx r)) NoBody _ c cl
    (Ok (writeJSON 200 (BNodes (listed d (c_net cl) (c_UserID c))))) (c_net cl));
    [by destruct cl|by vm_compute|reflexivity|exact Hs|].
  unfold listNodes. cbn [with_identity rq_ctx]. unfold bind at 1, identity, ret at 1. unfold ListByUser. by rewrite (or_server_error_query d now rand).
Qed.

(** The answer to a deletion, and the server's state after it. *)
Lemma DeleteNode_attempt d c cl n : schema_ok d -> n ∈ rows (nodes d) -> n_user n = c_UserID c -> 0 <= n_id n < 2 ^ 63 ->
  quiet_net d now rand (c_net cl) -> session h c cl ->
  exists w', quiet_net (without (c_UserID c) (n_id n) d) now rand w' /\ same_time (c_net cl) w' /\
    attempt "DELETE" ("/api/v1/nodes/" +:+ pretty (n_id n)) true NoBody no_out cl = (Ok tt, mkClient (c_token cl) (c_refreshToken cl) w').
Proof.
  intros Hd Hn Hu Hid Hq Hs. destruct (deleteNode_quiet d c n (c_net cl) Hd Hn Hu Hid Hq) as (w' & E & Hst & Hns).
  exists w'. split; [exact Hst|]. split; [unfold same_time, clock; by rewrite Hst, Hns, Hq|].
  by rewrite (attempt_guarded h _ _ _ _ (fun r => deleteNode h (rq_ctx r) (rq_path r "id")) NoBody no_out c cl _ w' (node_mux (n_id n)) eq_refl Hs E).
Qed.

(** Signing out touches no node. *)
Lemma logout_nodes d w b out w' : quiet_net d now rand w -> logout (K:=K) (D:=D) b w = (out, w') -> nodes (s_db (w_store w')) = nodes d.
Proof.
  intros Hq. unfold logout. destruct b as [[rt]|]; [|intros [= _ <-]; by rewrite Hq].
  unfold bind at 1, decoded, ret at 1. cbn [lo_RefreshToken]. case_bool_decide; [intros [= _ <-]; by rewrite Hq|].
  unfold bind, or_server_error, or_fail, bind, db. rewrite Hq. unfold Revoke. rewrite bind_now, bind_exec. cbn. intros [= _ <-]. done.
Qed.
Lemma logout_served d w m a path b w' : quiet_net d now rand w ->
  (snd (NewRouter h true (Some "POST /api/v1/logout") m a path b w) = w') -> nodes (s_db (w_store w')) = nodes d.
Proof.
  intros Hq <-. change (NewRouter h true (Some "POST /api/v1/logout") m a path b w) with (logout (K:=K) (D:=D) (as_logout b) w).
  by eapply logout_nodes; [|apply surjective_pairing].
Qed.
End Nodes.

(** ** Every call of a signed-in client *)

Section Calls.
Context {K D : Type} `{Nftables K} `{WgHost D} `{WgTypes} `{NetipV6} `{Sqlite} `{Argon2} `{JwtLib} (h : Options).
#[local] Hint Extern 0 (Transport (World K D)) => exact (here h) : typeclass_instances.

(** Computations of a handler that do not answer 401: as it returns, its result is
    in [P]; as it throws, the answer has another status. *)
Definition settled {A} (P : A -> Prop) (m : M Resp (World K D) A) : Prop :=
  forall w, match fst (m w) with Ok a => P a | Err resp => status resp <> 401 end.
Abbreviation other := (fun resp => status resp <> 401).
Lemma settled_bind {A B} (P : A -> Prop) (Q : B -> Prop) m (k : A -> M Resp (World K D) B) :
  settled P m -> (forall a, P a -> settled Q (k a)) -> settled Q (bind m k).
Proof.
  intros Hm Hk w. specialize (Hm w). unfold bind. destruct (m w) as [[a|e] w']; [by apply (Hk a)|done].
Qed.
Lemma settled_seq {A B} (Q : B -> Prop) m (k : A -> M Resp (World K D) B) :
  settled (fun _ => True) m -> (forall a, settled Q (k a)) -> settled Q (bind m k).
Proof. intros Hm Hk. eapply settled_bind; [exact Hm|auto]. Qed.
Lemma settled_ret {A} (P : A -> Prop) (a : A) : P a -> settled P (ret a).
Proof. by intros Ha w. Qed.
Lemma settled_throw {A} (P : A -> Prop) resp : status resp <> 401 -> settled P (throw resp).
Proof. by intros Ha w. Qed.
Lemma settled_db {A} (m : SM A) : settled (fun _ => True) (db m).
Proof. intros w. unfold db. by destruct (m (w_store w)). Qed.
Lemma settled_netfw {A} (m : M unit K A) : settled (fun _ => True) (netfw m).
Proof. intros w. unfold netfw. by destruct (m (w_nft w)). Qed.
Lemma settled_wg {A} (m : M wg_err D A) : settled (fun _ => True) (wg m).
Proof. intros w. unfold wg. by destruct (m (w_wg w)). Qed.
Lemma settled_gets {A} (f : World K D -> A) : settled (fun _ => True) (gets f).
Proof. by intros w. Qed.
Lemma settled_now : settled (fun _ => True) now_ns.
Proof. by intros w. Qed.
Lemma settled_log msg : settled (fun _ => True) (log_error msg).
Proof. by intros w. Qed.
Lemma settled_error {A} (P : A -> Prop) : settled P serverError.
Proof. by intros w. Qed.
Lemma settled_or_fail {A} known (m : M Resp (World K D) (res serr A)) :
  settled (fun _ => True) m -> (forall e resp, known e = Some resp -> status resp <> 401) -> settled (fun _ => True) (or_fail known m).
Proof.
  intros Hm Hk. apply settled_seq; [done|]. intros [a|e]; [by apply settled_ret|].
  destruct (known e) as [resp|] eqn:He; [by eapply settled_throw, Hk|apply settled_error].
Qed.
Lemma settled_each {A} (l : list A) (f : A -> M Resp (World K D) unit) :
  (forall x, settled (fun _ => True) (f x)) -> settled (fun _ => True) (for_each l f).
Proof. intros Hf. induction l as [|x l IH]; [by apply settled_ret|]. by apply settled_seq. Qed.
Lemma settled_failure {E A} msg (r : res E A) : settled (fun _ => True) (log_failure msg r).
Proof. destruct r; [by apply settled_ret|apply settled_log]. Qed.

Lemma settled_identity c : settled (fun _ => True) (identity (K:=K) (D:=D) (Some c)).
Proof. by apply settled_ret. Qed.
Lemma settled_decoded {A} (b : option A) : settled (fun _ => True) (decoded b).
Proof. destruct b; [by apply settled_ret|by apply settled_throw]. Qed.

Create HintDb settled.
#[local] Hint Resolve settled_error settled_db settled_netfw settled_wg settled_gets settled_now settled_log settled_failure settled_identity settled_decoded : settled.
#[local] Ltac settle :=
  repeat match goal with
  | |- forall _, _ => intros ?
  | |- settled _ (bind _ _) => apply settled_seq
  | |- settled _ (ret _) => by apply settled_ret
  | |- settled _ (throw _) => by apply settled_throw
  | |- settled _ (or_server_error _) => unfold or_server_error
  | |- settled _ (or_fail _ _) => apply settled_or_fail; [|intros [] ? [= <-]; done]
  | |- settled _ (for_each _ _) => apply settled_each
  | |- settled _ (when _ _) => unfold when
  | |- settled _ (match ?x with _ => _ end) => destruct x
  | |- settled _ _ => solve [auto with settled nocore]
  end.

Lemma settled_recompute node key ip m1 m2 : settled (fun _ => True) (recompute_peer h node key ip m1 m2).
Proof. unfold recompute_peer. settle. Qed.
#[local] Hint Resolve settled_recompute : settled.
Lemma settled_member user name : settled (fun _ => True) (memberZone user name).
Proof. unfold memberZone. settle. Qed.
Lemma settled_owned user name : settled (fun _ => True) (ownedZone user name).
Proof. unfold ownedZone. settle. Qed.
Lemma settled_rollback z : settled (fun _ => True) (rollbackZone h z).
Proof. unfold rollbackZone. settle. Qed.
#[local] Hint Resolve settled_member settled_owned settled_rollback : settled.
Lemma settled_drop z dets b : settled (fun _ => True) (drop_routes h z dets b).
Proof. revert b. induction dets as [|det dets IH]; intros b; cbn [drop_routes]; settle. Qed.
#[local] Hint Resolve settled_drop : settled.
Lemma settled_exit z node msg : settled other (exit_zone h z node msg).
Proof.
  unfold exit_zone, cascadeNodeZoneAnnouncements. settle.
Qed.
Lemma settled_reclaimed seen dets : settled (fun _ => True) (recomputeReclaimedPeers h seen dets).
Proof.
  revert seen. induction dets as [|det dets IH]; intros seen; cbn [recomputeReclaimedPeers]; settle.
Qed.
Lemma settled_grow zone node ann : settled (fun _ => True) (grow_dataplane h zone node ann).
Proof. unfold grow_dataplane, rollbackAnnouncement. settle. Qed.
(** The answer of a handler, as the client's call reads it. *)
Definition handled {A} (path : string) (out : Body -> option A) (m : M Resp (World K D) Resp) (cl : ClientState (World K D)) :
    res client_err A * ClientState (World K D) :=
  let '(r, w') := m (c_net cl) in
  (reply path out (match r with Ok resp | Err resp => resp end), mkClient (c_token cl) (c_refreshToken cl) w').

Lemma mapError_expired path resp : status resp <> 401 -> mapError path true resp <> ErrSessionExpired.
Proof.
  intros Hs. unfold mapError. destruct (envelope (body resp)) as [code msg].
  assert (forall e, lookup_code code known_codes = Some e -> e <> ErrSessionExpired) as Hk.
  { unfold known_codes. cbn [lookup_code]. intros e. repeat (case_bool_decide; [by intros [= <-]|]). done. }
  destruct (lookup_code _ _) as [e|]; [by apply Hk|]. rewrite (proj2 (Z.eqb_neq _ _) Hs). by repeat case_match.
Qed.
Lemma call_handled {A} method path p vs g b (out : Body -> option A) c cl :
  mux_match route_patterns method path = Some (p, vs) -> (lookup_route p (routes (K:=K) (D:=D) h) = Some (AuthRequired h g)) -> session h c cl ->
  let m := g (with_identity c (mkRequest method ("Bearer " +:+ c_token cl) None (path_value vs) (decode_body b))) in
  settled other m -> do_call method path true b out cl = handled path out m cl.
Proof.
  intros Hm Hl Hs m Hset. specialize (Hset (c_net cl)). unfold handled. destruct (m (c_net cl)) as [r w'] eqn:Hg.
  eapply (call_guarded h); try done. unfold reply. destruct (_ && _); [by destruct (out _)|]. intros [= He]. revert He.
  apply mapError_expired. by destruct r.
Qed.
#[local] Hint Resolve settled_exit settled_reclaimed settled_grow : settled.
(** The handlers, with an identity. *)
Lemma settled_joinZone c name b : settled other (joinZone h (Some c) name b).
Proof. unfold joinZone. settle. Qed.
Lemma settled_leaveZone c name b : settled other (leaveZone h (Some c) name b).
Proof. unfold leaveZone. settle. Qed.
Lemma settled_zoneMembers c name : settled other (zoneMembers (K:=K) (D:=D) (Some c) name).
Proof. unfold zoneMembers. settle. Qed.
Lemma settled_changeZonePassword c name b : settled other (changeZonePassword (K:=K) (D:=D) (Some c) name b).
Proof. unfold changeZonePassword. settle. Qed.
Lemma settled_deleteZone c name : settled other (deleteZone h (Some c) name).
Proof. unfold deleteZone. settle. Qed.
Lemma settled_kickMember c name id : settled other (kickMember h (Some c) name id).
Proof. unfold kickMember. settle. Qed.
Lemma settled_createAnnouncement c name b : settled other (createAnnouncement h (Some c) name b).
Proof. unfold createAnnouncement. settle. Qed.
Lemma settled_deleteAnnouncement c name id : settled other (deleteAnnouncement h (Some c) name id).
Proof. unfold deleteAnnouncement. settle. Qed.
Lemma settled_listAnnouncements c name : settled other (listAnnouncements (K:=K) (D:=D) (Some c) name).
Proof. unfold listAnnouncements. settle. Qed.
Lemma settled_createZone c b : settled other (createZone h (Some c) b).
Proof. unfold createZone. settle. Qed.
Lemma settled_listZones c : settled other (listZones (K:=K) (D:=D) (Some c)).
Proof. unfold listZones. settle. Qed.
Lemma settled_registerNode c b : settled other (registerNode (K:=K) h (Some c) b).
Proof. unfold registerNode. settle. Qed.
Lemma settled_listNodes c : settled other (listNodes (K:=K) (D:=D) (Some c)).
Proof. unfold listNodes. settle. Qed.
Lemma settled_deleteNode c id : settled other (deleteNode h (Some c) id).
Proof. unfold deleteNode. settle. Qed.
Lemma settled_serverInfo : settled other (serverInfo (K:=K) (D:=D) h).
Proof. unfold serverInfo. settle. Qed.
Lemma settled_me c : settled other (me (K:=K) (D:=D) (Some c)).
Proof. unfold me. settle. Qed.
Lemma plain_route method path : Is_true (bool_decide (mux_match route_patterns method path = Some (method +:+ " " +:+ path, []))) ->
  mux_match route_patterns method path = Some (method +:+ " " +:+ path, []).
Proof. apply bool_decide_unpack. Qed.

(** A call by its route, and the route's handler. *)
#[local] Ltac handle Hroute settled_handler :=
  match goal with Hs : session _ ?c ?cl |- _ => etransitivity;
    [apply (call_handled _ _ _ _ _ _ _ c cl Hroute eq_refl Hs); apply settled_handler|reflexivity] end.

(** C28: a signed-in client's call is the server's handler of the operation it names,
    run as that user. For every session the server accepts, every zone name (but the
    empty one, "." and "..", which the mux cleans away) and every argument, each of
    the client's sixteen calls that carry the session does to the server exactly what
    the handler meant for it does with those arguments, and returns the handler's
    answer read as the call's result; a number in a path reads back as itself. The
    client's tokens stay as they are. *)
Theorem calls_handled c cl name (i : Z) : session h c cl -> proper name -> 0 <= i < 2 ^ 63 ->
  (forall node pw, JoinZone name node pw cl = handled (zone_path name "/join") no_out (joinZone h (Some c) name (Some (mkJoinZone node pw))) cl) /\
  (forall node, LeaveZone name node cl = handled (zone_path name "/leave") no_out (leaveZone h (Some c) name (Some (mkLeaveZone node))) cl) /\
  ZoneMembers name cl =
    handled (zone_path name "/members") (fun b => match b with BMembers l => Some l | _ => None end) (zoneMembers (Some c) name) cl /\
  (forall pw, ChangeZonePassword name pw cl =
    handled (zone_path name "") no_out (changeZonePassword (Some c) name (Some (mkChangePassword pw))) cl) /\
  DeleteZone name cl = handled (zone_path name "") no_out (deleteZone h (Some c) name) cl /\
  (forall node subnet, CreateAnnouncement name node subnet cl =
    handled (zone_path name "/announcements") (fun b => match b with BAnn a => Some a | _ => None end)
      (createAnnouncement h (Some c) name (Some (mkCreateAnn node subnet))) cl) /\
  ListAnnouncements name cl =
    handled (zone_path name "/announcements") (fun b => match b with BAnns l => Some l | _ => None end) (listAnnouncements (Some c) name) cl /\
  (exists id, ParseInt64 id = Some i /\
     KickMember name i cl = handled (zone_path name ("/members/" +:+ id)) no_out (kickMember h (Some c) name id) cl /\
     DeleteAnnouncement name i cl = handled (zone_path name ("/announcements/" +:+ id)) no_out (deleteAnnouncement h (Some c) name id) cl /\
     DeleteNode i cl = handled ("/api/v1/nodes/" +:+ id) no_out (deleteNode h (Some c) id) cl) /\
  (forall zone node pw, CreateZone zone node pw cl =
    handled "/api/v1/zones" (fun b => match b with BZone z => Some z | _ => None end) (createZone h (Some c) (Some (mkCreateZone zone pw node))) cl) /\
  ListZones cl = handled "/api/v1/zones" (fun b => match b with BZones l => Some l | _ => None end) (listZones (Some c)) cl /\
  (forall device key platform, RegisterNodePlatform device key platform cl =
    handled "/api/v1/nodes" (fun b => match b with BNode n => Some n | _ => None end) (registerNode h (Some c) (Some (mkRegisterNode device key platform))) cl) /\
  ListNodes cl = handled "/api/v1/nodes" (fun b => match b with BNodes l => Some l | _ => None end) (listNodes (Some c)) cl /\
  ServerInfo cl = handled "/api/v1/server" (fun b => match b with BServer k e n m => Some (k, e, n, m) | _ => None end) (serverInfo h) cl /\
  Me cl = handled "/api/v1/me" (fun b => match b with BMe i n a => Some (i, n, a) | _ => None end) (me (Some c)) cl.
Proof.
  intros Hs Hname Hi. split_and!.
  - intros. handle (join_route name Hname) settled_joinZone.
  - intros. handle (leave_route name Hname) settled_leaveZone.
  - handle (members_route name Hname) settled_zoneMembers.
  - intros. handle (password_route name Hname) settled_changeZonePassword.
  - handle (delete_route name Hname) settled_deleteZone.
  - intros. handle (announce_route name Hname) settled_createAnnouncement.
  - handle (announcements_route name Hname) settled_listAnnouncements.
  - exists (pretty i). split_and!; [by apply ParseInt64_pretty| | |].
    + handle (kick_route name Hname i) settled_kickMember.
    + handle (withdraw_route name Hname i) settled_deleteAnnouncement.
    + handle (node_mux i) settled_deleteNode.
  - intros. handle (plain_route "POST" "/api/v1/zones" I) settled_createZone.
  - handle (plain_route "GET" "/api/v1/zones" I) settled_listZones.
  - intros. handle (plain_route "POST" "/api/v1/nodes" I) settled_registerNode.
  - handle (plain_route "GET" "/api/v1/nodes" I) settled_listNodes.
  - handle (plain_route "GET" "/api/v1/server" I) settled_serverInfo.
  - handle (plain_route "GET" "/api/v1/me" I) settled_me.
Qed.
End Calls.

(** Ann's zone, with a name that needs escaping. *)
#[local] Existing Instance ClientSession.no_v6.
Definition lab_client_of (name : string) : ClientState (World Ruleset SimHost) :=
  mkClient "token" "tok" (mkWorld (Quiet (set_zones (Db.Table [ZoneRow 3 name "h" 7 0] 3) ann_db) 100 []) 0 ∅ bare_host NewTracker []).
Definition lab_client : ClientState (World Ruleset SimHost) := lab_client_of "the lab/2%".
#[local] Instance lab_net : Transport (World Ruleset SimHost) := here api_opts.
(** The deletion of a zone named "." is redirected to the list of zones: it is reported
    as done and the zone is still there. *)
Example dot_zone : let '(r, cl) := DeleteZone "." (lab_client_of ".") in
  r = Ok tt /\ z_name <$> rows (zones (s_db (w_store (c_net cl)))) = ["."].
Proof. by vm_compute. Qed.
Lemma calls_handled_witness :
  fst (DeleteZone "the lab/2%" lab_client) = Ok tt /\ rows (zones (s_db (w_store (c_net (snd (DeleteZone "the lab/2%" lab_client)))))) = [] /\
  fst (LeaveZone "the lab/2%" 12 lab_client) = Err ErrNotMember.
Proof.
  destruct (calls_handled api_opts (claims_of (UserRow 7 "ann" "h" true 0)) lab_client "the lab/2%" 12) as
    (_ & Hleave & _ & _ & Hdel & _); [by vm_compute|done|done|].
  unfold lab_net. rewrite Hdel, Hleave. split_and!; by vm_compute.
Defined.

(** ** Calls over a network that loses messages

    A transport over another: of each round trip, the request may be lost, or the
    answer, when the server has already acted. *)

(** What becomes of the next round trips; past the list the network works. *)
Inductive Fate : Type := Delivered | RequestLost | AnswerLost.
#[export] Instance Fate_eq_dec : EqDecision Fate.
Proof. solve_decision. Defined.
Definition unreliable {N} (T : Transport N) : Transport (list Fate * N) := fun r '(fs, n) =>
  match fs with
  | RequestLost :: fs => (Err HttpOther, (fs, n))
  | AnswerLost :: fs => (Err HttpOther, (fs, snd (http_Do r n)))
  | _ => let '(x, n) := http_Do r n in (x, (tail fs, n))
  end.

(** A call's outcome, given that of the round trip it would make on the server's
    side: [r], after which that side is [n']. *)
Definition lossy {A N} (tok rt : string) (fs : list Fate) (n n' : N) (r : res client_err A) : res client_err A * ClientState (list Fate * N) :=
  match fs with
  | RequestLost :: fs => (Err ErrUnreachable, mkClient tok rt (fs, n))
  | AnswerLost :: fs => (Err ErrUnreachable, mkClient tok rt (fs, n'))
  | _ => (r, mkClient tok rt (tail fs, n'))
  end.
Lemma lossy_attempt {N A} (T : Transport N) method path auth b (out : Body -> option A) tok rt fs n n' r :
  attempt method path auth b out (mkClient tok rt n) = (r, mkClient tok rt n') ->
  @attempt _ (unreliable T) A method path auth b out (mkClient tok rt (fs, n)) = lossy tok rt fs n n' r.
Proof.
  unfold attempt, lossy. cbn [c_token c_refreshToken c_net]. set (req := mkHttpReq method path _ b).
  change (@http_Do _ (unreliable T) req (fs, n)) with (unreliable T req (fs, n)). unfold unreliable.
  destruct (http_Do req n) as [x m]. cbn [snd]. intros Ha. destruct fs as [|[] fs]; cbn [tail].
  - destruct x as [resp|[]]; [destruct (_ && _)|..]; injection Ha as <- <-; done.
  - destruct x as [resp|[]]; [destruct (_ && _)|..]; injection Ha as <- <-; done.
  - done.
  - destruct x as [resp|[]]; [destruct (_ && _)|..]; injection Ha as _ <-; done.
Qed.
(** A call that would not find its session expired. *)
Lemma lossy_call {N A} (T : Transport N) method path auth b (out : Body -> option A) tok rt fs n n' r :
  attempt method path auth b out (mkClient tok rt n) = (r, mkClient tok rt n') -> r <> Err ErrSessionExpired ->
  @do_call _ (unreliable T) A method path auth b out (mkClient tok rt (fs, n)) = lossy tok rt fs n n' r.
Proof.
  intros Ha Hr. unfold do_call. rewrite (lossy_attempt T _ _ _ _ _ _ _ _ _ _ _ Ha).
  unfold lossy. destruct fs as [|[] fs]; try done; destruct r as [a|[]]; congruence || done.
Qed.
