(* ===== verification/PanelProps.v ===== *)
(** * Signing this machine out

    The panel's controller against the server, over a network that loses requests
    and answers. *)
From S2P Require Import Prelude GoStrings Netip Ipam Codec Db StoreInv StoreUsers StoreNodes StoreAnnounce StoreOps UsersProps Netfw Isolation Wg WgProps Auth AuthProps Api ApiZones ApiRoutes ApiProps Sync SyncServe Netutil NatCtl Engine RouteSync Daemon ApiClient ClientPaths ClientSession ClientReads NodeReads Routerd StateFile Panel EngineRoutes RouterLists RouterdProps.

#[local] Open Scope lw_scope.

(** The messages lost. *)
Definition losses (fs : list Fate) : nat := length (filter (fun f => f <> Delivered) fs).

Section Panel.
Context {K D S F P : Type} `{Nftables K} `{WgHost D} `{WgTypes} `{NetipV6} `{Sqlite} `{Argon2} `{JwtLib} (h : Options).
Context `{KeyRingLaws S} `{Firewall F} `{StateDiskLaws P}.
#[local] Hint Extern 0 (Transport (list Fate * World K D)) => exact (unreliable (here h)) : typeclass_instances.
#[local] Abbreviation Panel := (Controller (list Fate * World K D) S F P).

Definition with_client {N} (cl : ClientState N) (ct : Controller N S F P) : Controller N S F P :=
  mkController cl (ct_record ct) (ct_keys ct) (ct_fw ct) (ct_file ct) (ct_insecure ct).

(** The saved record is that of node [n]. *)
Definition record_of (rec : StateRecord) (n : node_row) : Prop :=
  st_NodeName rec = n_name n /\ n_name n <> "" /\ st_IP rec = AddrString (n_ip n).

Context (pool : Prefix) (d : DB) (now : Z) (rand : list (list Z)) (Hd : data_ok pool d).
Context (n : node_row) (Hn : n ∈ rows (nodes d)) (Hid : 0 <= n_id n < 2 ^ 63) (rec : StateRecord) (Hrec : record_of rec n).
Context (c : Claims) (Hc : c_UserID c = n_user n) (tok rt : string).

(** ** Which node is this machine *)

Lemma this_machine (x : node_row) : x ∈ rows (nodes d) -> n_user x = n_user n ->
  isThisMachine rec (n_name x) (AddrString (n_ip (node_of_row x))) = true <-> x = n.
Proof.
  intros Hx Hu. destruct Hrec as (Hname & Hne & Hip). unfold isThisMachine. rewrite Hname, Hip, orb_true_iff, !bool_decide_eq_true.
  unfold node_of_row. cbn [n_ip]. rewrite Uint32ToAddr_col, (u32_id (n_ip x)) by (by apply (do_ip _ _ Hd)).
  split; [|intros ->; by left].
  intros [[_ He]|[_ He]].
  - apply (uniq_inj (fun n => (n_user n, n_name n)) (rows (nodes d))); [apply uq_node_name, (do_schema _ _ Hd)|done..|simpl; congruence].
  - apply (uniq_inj n_ip (rows (nodes d))); [apply uq_node_ip, (do_schema _ _ Hd)|done..|].
    apply (f_equal ParseAddr4) in He. pose proof (do_ip _ _ Hd _ Hx). pose proof (do_ip _ _ Hd _ Hn).
    rewrite !ParseAddr4_String in He by done. by injection He.
Qed.

(** The server with the node, and without it. *)
Definition server_db (present : bool) : DB := if present then d else without (n_user n) (n_id n) d.
Lemma server_rows present x : x ∈ rows (nodes (server_db present)) <-> x ∈ rows (nodes d) /\ (present = false -> x <> n).
Proof.
  unfold server_db. destruct present; [naive_solver|]. unfold without, delete_nodes, delete_anns, keep_rows. simpl.
  rewrite list_elem_of_filter. split; [|intros [Hx Hne]; split; [|done]].
  - intros [Hne Hx]. split; [done|]. intros _ ->. apply Hne. by split.
  - intros [Hi Hu]. apply (Hne eq_refl). by apply (uniq_inj n_id _ _ _ (table_ok_uniq _ _ (ok_nodes _ (do_schema _ _ Hd)))).
Qed.

(** The machine's entry in the user's listing, as long as it is there. *)
Lemma find_this present (w : World K D) :
  match List.find (fun x => isThisMachine rec (nr_Name x) (nr_IP x)) (listed (server_db present) w (n_user n)) with
  | Some x => present = true /\ nr_ID x = n_id n
  | None => present = false
  end.
Proof.
  destruct (List.find _ _) as [y|] eqn:Hf.
  - apply List.find_some in Hf as [Hy%list_elem_of_In Hm]. unfold listed in Hy.
    apply list_elem_of_fmap in Hy as (x1 & -> & (x & -> & [Hu Hx%server_rows]%elem_of_reverse%list_elem_of_filter)%list_elem_of_fmap).
    cbn [nr_Name nr_IP node_item] in Hm. change (n_name (node_of_row x)) with (n_name x) in Hm.
    destruct Hx as [Hx Hp]. apply this_machine in Hm; [|done..]. subst x. split; [|done]. destruct present; [done|]. by destruct (Hp eq_refl).
  - destruct present; [|done]. exfalso. pose proof (List.find_none _ _ Hf (node_item (w_status w) (clock w) (node_of_row n))) as Hnone.
    cbn [nr_Name nr_IP node_item] in Hnone. change (n_name (node_of_row n)) with (n_name n) in Hnone.
    rewrite (proj2 (this_machine n Hn eq_refl) eq_refl) in Hnone. discriminate Hnone.
    apply list_elem_of_In, list_elem_of_fmap. eexists. split; [reflexivity|]. apply list_elem_of_fmap. eexists. split; [reflexivity|].
    by apply elem_of_reverse, list_elem_of_filter.
Qed.

(** ** The attempts *)

(** A world of the server, with or without the node, that the session is good for. *)
Definition at_server (present : bool) (w : World K D) : Prop :=
  quiet_net (server_db present) now rand w /\ session h c (mkClient tok rt w).
Definition net (fs : list Fate) (w : World K D) : ClientState (list Fate * World K D) := mkClient tok rt (fs, w).

(** A call whose round trip is delivered has the answer [r] and leaves the server
    at [w']; if it is lost, the call fails and one fate of loss is used up. *)
Lemma lossy_cases {A} fs (w w' : World K D) (r : res client_err A) :
  (exists fs', lossy tok rt fs w w' r = (r, net fs' w') /\ (losses fs' <= losses fs)%nat) \/
  (exists fs' w1, lossy tok rt fs w w' r = (Err ErrUnreachable, net fs' w1) /\ (losses fs' < losses fs)%nat /\ (w1 = w \/ w1 = w')).
Proof.
  destruct fs as [|[] fs]; cbn [lossy].
  - left. by exists [].
  - left. by exists fs.
  - right. exists fs, w. split_and!; [done|unfold losses; rewrite filter_cons_True by done; simpl; lia|by left].
  - right. exists fs, w'. split_and!; [done|unfold losses; rewrite filter_cons_True by done; simpl; lia|by right].
Qed.

Lemma ListNodes_lossy present fs w : at_server present w ->
  ApiClient.ListNodes (net fs w) = lossy tok rt fs w w (Ok (listed (server_db present) w (n_user n))).
Proof.
  intros [Hq Hs]. unfold ApiClient.ListNodes. rewrite <- Hc. apply (lossy_call (here h)); [|done].
  apply (ListNodes_attempt h now rand (server_db present) c (mkClient tok rt w) Hq Hs).
Qed.
Lemma DeleteNode_lossy fs w : at_server true w ->
  exists w', at_server false w' /\ ApiClient.DeleteNode (n_id n) (net fs w) = lossy tok rt fs w w' (Ok tt).
Proof.
  intros [Hq Hs]. destruct (DeleteNode_attempt h now rand d c (mkClient tok rt w) n (do_schema _ _ Hd) Hn (eq_sym Hc) Hid Hq Hs) as (w' & Hw' & Ht & Ha).
  exists w'. split.
  - split; [unfold server_db; by rewrite <- Hc|]. exact (session_kept h c (mkClient tok rt w) w' Ht Hs).
  - unfold ApiClient.DeleteNode. by apply (lossy_call (here h)).
Qed.

(** One attempt at removing the node. *)
Lemma try_remove present fs w (ct : Panel) : ct_record ct = rec -> ct_client ct = net fs w -> at_server present w ->
  exists res present' fs' w', tryRemoveRemoteNode ct = (Ok res, with_client (net fs' w') ct) /\ at_server present' w' /\
    (res = removeDone /\ present' = false \/ res = removeBlocked /\ (losses fs' < losses fs)%nat).
Proof.
  intros Hr Hcl Hw. unfold tryRemoveRemoteNode, bind at 1, try at 1, thisMachineNodeID, bind at 1, on_api. rewrite Hcl, (ListNodes_lossy present) by done.
  destruct (lossy_cases fs w w (Ok (listed (server_db present) w (n_user n)))) as [(fs1 & -> & Hl1)|(fs1 & w1 & -> & Hl1 & Hw1)].
  2:{ exists removeBlocked, present, fs1, w1. split_and!; [done|by destruct Hw1 as [->| ->]|by right]. }
  unfold bind at 1, gets. cbn [ct_record]. rewrite Hr. pose proof (find_this present w) as Hf.
  destruct (List.find _ _) as [x|]; cbn [ret throw].
  2:{ exists removeDone, present, fs1, w. split_and!; [by unfold with_client; rewrite Hr|done|by left]. }
  destruct Hf as [-> ->]. destruct (DeleteNode_lossy fs1 w Hw) as (w' & Hw' & Hdel). unfold bind, try, on_api. cbn [ct_client]. rewrite Hdel.
  destruct (lossy_cases fs1 w w' (Ok tt)) as [(fs2 & -> & Hl2)|(fs2 & w2 & -> & Hl2 & Hw2)]; cbn [ret].
  - exists removeDone, false, fs2, w'. split_and!; [by unfold with_client; rewrite Hr|done|by left].
  - destruct Hw2 as [->| ->]; [exists removeBlocked, true, fs2, w|exists removeBlocked, false, fs2, w'];
      (split_and!; [by unfold with_client; rewrite Hr|done|right; split; [done|lia]]).
Qed.

(** All the attempts: the node is gone, unless as many messages were lost. *)
Lemma remove_loop_runs k : forall present fs w (ct : Panel), ct_record ct = rec -> ct_client ct = net fs w -> at_server present w ->
  exists res present' fs' w', remove_loop k ct = (Ok res, with_client (net fs' w') ct) /\ at_server present' w' /\
    (res = removeDone /\ present' = false \/ res = removeBlocked /\ (k <= losses fs)%nat).
Proof.
  induction k as [|k IH]; intros present fs w ct Hr Hcl Hw.
  { exists removeBlocked, present, fs, w. split_and!; [|done|right; split; [done|lia]]. rewrite <- Hcl. by destruct ct. }
  destruct (try_remove present fs w ct Hr Hcl Hw) as (res & p1 & fs1 & w1 & E & Hw1 & Hres).
  cbn [remove_loop]. unfold bind. rewrite E. destruct Hres as [[-> ->]|[-> Hl]]; cbn [ret].
  - rewrite bool_decide_false by done. exists removeDone, false, fs1, w1. by split_and!; [..|left].
  - rewrite bool_decide_true by done. destruct (IH p1 fs1 w1 (with_client (net fs1 w1) ct) Hr eq_refl Hw1) as (res2 & p2 & fs2 & w2 & E2 & Hw2 & Hres2).
    rewrite E2. exists res2, p2, fs2, w2. split_and!; [by destruct ct|done|]. destruct Hres2 as [?|[? ?]]; [by left|right; split; [done|lia]].
Qed.

(** ** The local tear-down *)

Lemma Logout_net present fs w : at_server present w ->
  exists r cl, ApiClient.Logout (net fs w) = (r, cl) /\ nodes (s_db (w_store (snd (c_net cl)))) = nodes (server_db present).
Proof.
  intros [Hq _]. assert (nodes (s_db (w_store w)) = nodes (server_db present)) as Hsame by (unfold quiet_net in Hq; by rewrite Hq).
  unfold ApiClient.Logout. cbn [c_refreshToken net]. case_bool_decide; [by eexists _, _|].
  unfold do_call, attempt. cbn [c_token c_refreshToken c_net net]. set (req := mkHttpReq _ _ _ _).
  change (@http_Do _ (unreliable (here h)) req (fs, w)) with (unreliable (here h) req (fs, w)). unfold unreliable.
  assert (nodes (s_db (w_store (snd (@http_Do _ (here h) req w)))) = nodes (server_db present)) as Hserved.
  { unfold http_Do, here. rewrite (served_match h _ _ "POST /api/v1/logout" []) by by vm_compute. cbn [snd]. by eapply logout_served. }
  destruct (http_Do req w) as [x w']. cbn [snd] in *.
  destruct fs as [|[] fs]; [destruct x as [resp|[]]; [destruct (_ && _)|..]|destruct x as [resp|[]]; [destruct (_ && _)|..]|..];
    try (eexists _, _; split; [reflexivity|done]); destruct (mapError _ _ _); by eexists _, _.
Qed.

Definition with_keys (k : S) (ct : Panel) : Panel := mkController (ct_client ct) (ct_record ct) k (ct_fw ct) (ct_file ct) (ct_insecure ct).
Definition with_fw (f : F) (ct : Panel) : Panel := mkController (ct_client ct) (ct_record ct) (ct_keys ct) f (ct_file ct) (ct_insecure ct).
Definition with_file (p : P) (ct : Panel) : Panel := mkController (ct_client ct) (ct_record ct) (ct_keys ct) (ct_fw ct) p (ct_insecure ct).
Definition errs_of {E A} (f : E -> panel_err) (r : res E A) : list panel_err := match r with Ok _ => [] | Err e => [f e] end.

Lemma failed_api {A B} (m : M client_err (ClientState (list Fate * World K D)) A) (k : list panel_err -> M panel_err Panel B) ct :
  bind (failed (on_api PApi m)) k ct = let '(r, cl) := m (ct_client ct) in k (errs_of PApi r) (with_client cl ct).
Proof. unfold bind, failed, try, bind, on_api. destruct (m _) as [[a|e] cl]; reflexivity. Qed.
Lemma failed_keys {A B} (m : M unit S A) (k : list panel_err -> M panel_err Panel B) ct :
  bind (failed (on_keys m)) k ct = let '(r, s) := m (ct_keys ct) in k (errs_of (fun _ => PKeys) r) (with_keys s ct).
Proof. unfold bind, failed, try, bind, on_keys. destruct (m _) as [[a|e] cl]; reflexivity. Qed.
Lemma failed_fw {A B} (m : M unit F A) (k : list panel_err -> M panel_err Panel B) ct :
  bind (failed (on_fw m)) k ct = let '(r, f) := m (ct_fw ct) in k (errs_of (fun _ => PFirewall) r) (with_fw f ct).
Proof. unfold bind, failed, try, bind, on_fw. destruct (m _) as [[a|e] cl]; reflexivity. Qed.
Lemma failed_file {E A B} (m : M E P A) (k : list panel_err -> M panel_err Panel B) ct :
  bind (failed (on_file m)) k ct = let '(r, p) := m (ct_file ct) in k (errs_of (fun _ => PState) r) (with_file p ct).
Proof. unfold bind, failed, try, bind, on_file. destruct (m _) as [[a|e] cl]; reflexivity. Qed.

(** One deletion of the tear-down. *)
Definition deleted (name : string) (s s' : S) (errs : list panel_err) : Prop :=
  (forall e, e ∈ errs -> e = PKeys) /\ (errs = [] -> kr_view s' !! name = None) /\
  (kr_view s' = kr_view s \/ kr_view s' = delete name (kr_view s)).
Lemma delete_step name (s : S) : exists r s', kr_Delete name s = (r, s') /\ deleted name s s' (errs_of (fun _ => PKeys) r).
Proof.
  destruct (kr_Delete name s) as [[[]|[]] s'] eqn:E; eexists _, _; (split; [done|]); unfold deleted, errs_of.
  - apply kr_delete_ok in E. rewrite E. split_and!; [by intros e ?%not_elem_of_nil|intros _; apply lookup_delete_eq|by right].
  - apply kr_delete_err in E. split_and!; [by intros e ->%list_elem_of_singleton|done|by left].
Qed.
Definition secrets : list string := [SessionTokenName; RefreshTokenName; DeviceKeyName].
(** What is gone stays gone; what is not named stays. *)
Lemma deleted_other name s s' errs other : deleted name s s' errs -> (kr_view s !! other = None -> kr_view s' !! other = None) /\
  (other <> name -> kr_view s' !! other = kr_view s !! other).
Proof.
  intros (_ & _ & [-> | ->]); [done|]. split; [|intros Hne; by rewrite lookup_delete_ne].
  intros Hnone. destruct (decide (other = name)) as [->|]; [apply lookup_delete_eq|by rewrite lookup_delete_ne].
Qed.

Lemma tear_down present fs w (ct : Panel) : ct_client ct = net fs w -> at_server present w ->
  exists errs ct', tearDownLocal ct = (Ok errs, ct') /\ (forall e, e ∈ errs -> e = PKeys \/ e = PState) /\
    (errs = [] -> (forall name, name ∈ secrets -> kr_view (ct_keys ct') !! name = None) /\ sd_view (ct_file ct') = None) /\
    (forall name, name ∉ secrets -> kr_view (ct_keys ct') !! name = kr_view (ct_keys ct) !! name) /\
    nodes (s_db (w_store (snd (c_net (ct_client ct'))))) = nodes (server_db present).
Proof.
  intros Hcl Hw. destruct (Logout_net present fs w Hw) as (r0 & cl & E0 & Hnodes).
  unfold tearDownLocal. rewrite failed_api, Hcl, E0, failed_fw. cbn [with_client ct_fw]. destruct (fw_Clear (ct_fw ct)) as [r1 f'].
  rewrite failed_keys. cbn [with_fw with_client ct_keys].
  destruct (delete_step SessionTokenName (ct_keys ct)) as (r2 & k1 & -> & D1). rewrite failed_keys. cbn [with_keys ct_keys].
  destruct (delete_step RefreshTokenName k1) as (r3 & k2 & -> & D2). rewrite failed_keys. cbn [with_keys ct_keys].
  destruct (delete_step DeviceKeyName k2) as (r4 & k3 & -> & D3). rewrite failed_file. cbn [with_keys with_fw with_client ct_file].
  pose proof (Clear_view (ct_file ct)) as E5. destruct (StateFile.Clear (ct_file ct)) as [r5 p']. cbn [fst snd] in E5. eexists _, _. split; [reflexivity|]. cbn [with_file with_keys with_fw with_client ct_keys ct_file ct_client].
  split_and!; [| | |exact Hnodes].
  - intros e. rewrite !elem_of_app. intros [?|[?|[?|He]]]; [left; by apply D1|left; by apply D2|left; by apply D3|right].
    destruct r5; [by apply not_elem_of_nil in He|by apply list_elem_of_singleton in He].
  - intros [N2 [N3 [N4 N5]%app_eq_nil]%app_eq_nil]%app_eq_nil. split; [|by destruct r5].
    intros name Hin. unfold secrets in Hin. rewrite !elem_of_cons in Hin. destruct Hin as [->|[->|[->|?%not_elem_of_nil]]]; [..|done].
    + apply (deleted_other _ _ _ _ _ D3), (deleted_other _ _ _ _ _ D2). by apply D1.
    + apply (deleted_other _ _ _ _ _ D3). by apply D2.
    + by apply D3.
  - intros name Hout. unfold secrets in Hout. rewrite !not_elem_of_cons in Hout. destruct Hout as (N1 & N2 & N3 & _).
    rewrite (proj2 (deleted_other _ _ _ _ _ D3) N3), (proj2 (deleted_other _ _ _ _ _ D2) N2). apply (deleted_other _ _ _ _ _ D1), N1.
Qed.

(** What the panel knows of the machine's account and of the machine. *)
Definition signed_in (fs : list Fate) (ct : Panel) : Prop :=
  ct_record ct = rec /\ exists w, ct_client ct = net fs w /\ at_server true w.
(** The server's nodes, as the panel has left them. *)
Definition server_nodes (ct : Panel) : list node_row := rows (nodes (s_db (w_store (snd (c_net (ct_client ct)))))).
(** Signed out of the machine: its node gone from the server, no other secret and
    no other node touched; the secrets and the state file gone if no error says
    otherwise. *)
Definition signed_out (ct ct' : Panel) (errs : list panel_err) : Prop :=
  (forall e, e ∈ errs -> e = PKeys \/ e = PState) /\
  (errs = [] -> (forall name, name ∈ secrets -> kr_view (ct_keys ct') !! name = None) /\ sd_view (ct_file ct') = None) /\
  (forall name, name ∉ secrets -> kr_view (ct_keys ct') !! name = kr_view (ct_keys ct) !! name) /\
  (forall x, x ∈ server_nodes ct' <-> x ∈ rows (nodes d) /\ x <> n).
(** Blocked: nothing of the machine is touched, and nothing of the server but,
    perhaps, the machine's own node. *)
Definition left_alone (ct ct' : Panel) : Prop :=
  (exists fs' w', ct' = with_client (net fs' w') ct) /\
  ((forall x, x ∈ server_nodes ct' <-> x ∈ rows (nodes d)) \/ (forall x, x ∈ server_nodes ct' <-> x ∈ rows (nodes d) /\ x <> n)).

Lemma logout_runs fs (ct : Panel) : signed_in fs ct ->
  exists out errs ct', Logout ct = (Ok (out, errs), ct') /\
    (out = LogoutDone /\ signed_out ct ct' errs \/ out = LogoutBlocked /\ errs = [] /\ (3 <= losses fs)%nat /\ left_alone ct ct').
Proof.
  intros [Hr (w & Hcl & Hw)]. destruct (remove_loop_runs maxAttempts true fs w ct Hr Hcl Hw) as (res & p & fs1 & w1 & E & Hw1 & Hres).
  unfold Logout, removeRemoteNode, bind at 1. rewrite E. destruct Hres as [[-> ->]|[-> Hl]].
  - destruct (tear_down false fs1 w1 (with_client (net fs1 w1) ct) eq_refl Hw1) as (errs & ct' & Ht & He & Hok & Hkeep & Hnodes).
    unfold bind. rewrite Ht. eexists LogoutDone, errs, ct'. split; [reflexivity|]. left. split; [done|]. split_and!; [done..|].
    intros x. unfold server_nodes. rewrite Hnodes, server_rows. naive_solver.
  - eexists LogoutBlocked, [], _. split; [reflexivity|]. right. split_and!; [done|done|exact Hl|split; [by eexists _, _|]].
    unfold server_nodes. cbn [with_client ct_client net c_net snd]. destruct Hw1 as [Hq _]. unfold quiet_net in Hq. rewrite Hq. cbn [s_db].
    destruct p; [left|right]; intros x; rewrite server_rows; naive_solver.
Qed.
End Panel.

(** C9: signing out of a machine, over a network that may lose any request and any
    answer. The panel of node [n]'s machine, signed in as the node's user, on a
    server without driver failures: signing out always comes to an end, and to one
    of two. It is done: node [n], and no other, is gone from the server, every
    other secret of the key ring is untouched, and unless an error of the key ring
    or of the state file is reported the session, the refresh token, the device key
    and the state file are all gone. Or it is blocked: then at least three messages
    were lost, nothing of the machine has changed (key ring, state file, firewall,
    record, session) and no other node has. Fewer losses than three never block it. *)
Theorem logout_exact {K D S F P : Type} `{Nftables K} `{WgHost D} `{WgTypes} `{NetipV6} `{Sqlite} `{Argon2} `{JwtLib}
    `{KeyRingLaws S} `{Firewall F} `{StateDiskLaws P} h pool d now rand n rec c tok rt fs (ct : Controller (list Fate * World K D) S F P) :
  data_ok pool d -> n ∈ rows (nodes d) -> 0 <= n_id n < 2 ^ 63 -> record_of rec n -> c_UserID c = n_user n ->
  signed_in h d now rand n rec c tok rt fs ct ->
  exists out errs ct', @Logout _ _ _ _ (unreliable (here h)) _ _ _ ct = (Ok (out, errs), ct') /\
    (out = LogoutDone /\ signed_out d n ct ct' errs \/
     out = LogoutBlocked /\ errs = [] /\ (3 <= losses fs)%nat /\ left_alone d n tok rt ct ct').
Proof. intros Hd Hn Hid Hrec Hc Hs. by apply (logout_runs h pool d now rand Hd n Hn Hid rec Hrec c Hc). Qed.

(** ** Ann's router signs out *)

#[local] Instance no_v6 : NetipV6 := fun _ => None.
#[local] Existing Instance sim_keyring.
#[export, refine] Instance sim_keyring_laws : KeyRingLaws (gmap string string) := {| kr_view s := s |}.
Proof. all: intros; simplify_eq/=; try done. by rewrite lookup_insert_ne. Defined.
#[local] Instance sim_firewall : Firewall bool := {| fw_Allow := fun _ => (Ok tt, true); fw_Clear := fun _ => (Ok tt, false) |}.
#[local] Existing Instance sim_file.

Definition home_panel (fs : list Fate) : Controller (list Fate * World Ruleset SimHost) (gmap string string) bool (option StateRecord) :=
  mkController (mkClient "token" "" (fs, home_world)) home_record {[SessionTokenName := "token"; DeviceKeyName := "k"; "other" := "x"]} true
    (Some home_record) false.
#[local] Instance home_net : Transport (list Fate * World Ruleset SimHost) := unreliable (here serve_opts).
Definition sign_out (fs : list Fate) := Logout (home_panel fs).

Lemma home_signed_in fs : signed_in serve_opts home_db 150 [] home_router home_record (mkClaims 7 "ann" true) "token" "" fs (home_panel fs).
Proof. split; [done|]. exists home_world. split; [reflexivity|].
  split; [|by vm_compute]. unfold quiet_net, server_db, home_world. cbn [w_store]. reflexivity.
Qed.

(** A lost answer does not keep the second attempt from finding the node gone. *)
Example second_attempt : let '(r, ct) := sign_out [Delivered; AnswerLost] in r = Ok (LogoutDone, []) /\ map_to_list (ct_keys ct) = [("other", "x")] /\ ct_file ct = None.
Proof. vm_compute. split; [reflexivity|split; reflexivity]. Qed.
(** "Nothing changed" is not so on the server: the machine's node may be gone. *)
Example blocked_but_gone :
  let '(r, ct) := sign_out [Delivered; AnswerLost; RequestLost; RequestLost] in
  r = Ok (LogoutBlocked, []) /\ ct_keys ct !! DeviceKeyName = Some "k" /\ n_id <$> server_nodes ct = [2].
Proof. vm_compute. split; [reflexivity|split; reflexivity]. Qed.

#[local] Opaque home_db home_world.
Lemma logout_exact_witness : exists out errs ct', sign_out [AnswerLost] = (Ok (out, errs), ct') /\ out = LogoutDone /\ signed_out home_db home_router (home_panel [AnswerLost]) ct' errs.
Proof.
  destruct (logout_exact serve_opts serve_pool home_db 150 [] home_router home_record (mkClaims 7 "ann" true) "token" "" [AnswerLost] (home_panel [AnswerLost])
    home_ok home_router_in ltac:(by vm_compute) ltac:(by split_and!; vm_compute) eq_refl (home_signed_in _)) as (out & errs & ct' & E & [[Hout Hs]|(_ & _ & Hl & _)]).
  - exists out, errs, ct'. split; [exact E|]. split; [exact Hout|exact Hs].
  - exfalso. clear E. unfold losses in Hl. simpl in Hl. lia.
Defined.
