(* ===== verification/PanelSync.v ===== *)
(** * The panel's route list

    What the panel asks of the tunnel and shows the user is what the database
    offers this machine. *)
From S2P Require Import Prelude GoStrings Netip Ipam Codec Db StoreInv StoreUsers StoreNodes StoreAnnounce StoreOps UsersProps Netfw Isolation Wg WgProps Auth AuthProps Api ApiZones ApiRoutes ApiProps Sync SyncServe Netutil NatCtl Engine RouteSync RouteSyncProps Daemon ApiClient ClientPaths ClientSession ClientReads NodeReads Routerd StateFile Panel EngineRoutes RouterLists RouterdProps Tunnel TunnelProps PanelProps.

#[local] Open Scope lw_scope.

Section Sync.
Context {K D S F P R : Type} `{Nftables K} `{WgHost D} `{WgTypes} `{NetipV6} `{Sqlite} `{Argon2} `{JwtLib} (h : Options).
Context `{KeyRing S} `{Firewall F} `{StateDisk P} `{RouteSetter R}.
#[local] Hint Extern 0 (Transport (World K D)) => exact (here h) : typeclass_instances.
Context (pool : Prefix) (d : DB) (now : Z) (rand : list (list Z)) (Hd : data_ok pool d) (Hnames : addressable d).
Context (n : node_row) (Hn : n ∈ rows (nodes d)).

(** An announcement another node offers this one. *)
Definition reachable (a : ann_row) : Prop := offered d n a /\ a_node a <> n_id n.
(** Its row in the panel, given what the tunnel has applied. *)
Definition row_for (applied : list AnyPrefix) (a : ann_row) (v : ReachableView) : Prop :=
  rv_Synthetic v = P4 (synth_prefix a) /\ rv_Subnet v = P4 (real_prefix a) /\ (rv_Conflict v = true <-> P4 (synth_prefix a) ∉ applied).

Lemma P4_inj p q : P4 p = P4 q -> p = q.
Proof. congruence. Qed.
Lemma consumed_in es e : e ∈ Consumed es (n_id n) -> e ∈ es.
Proof.
  unfold Consumed. generalize (@nil AnyPrefix). induction es as [|x es IH]; intros seen; simpl; [done|].
  rewrite elem_of_cons. destruct (_ || _); [by right; eapply IH|]. rewrite elem_of_cons. intros [->|?]; [by left|right; by eapply IH].
Qed.

Definition view_of (applied : list AnyPrefix) (e : Entry) : ReachableView :=
  mkReachable (e_Synthetic e) (e_Subnet e) (e_Zones e) (e_Announcer e) (bool_decide (e_Synthetic e ∉ applied)).
Lemma view_row applied e a : entry_for e a -> row_for applied a (view_of applied e).
Proof. intros (_ & _ & Hs & Hy). unfold row_for, view_of. cbn. by rewrite Hs, Hy, bool_decide_eq_true. Qed.
Lemma views_rows es applied :
  (forall e, e ∈ es -> exists a, offered d n a /\ entry_for e a) -> (forall a, offered d n a -> exists e, e ∈ es /\ entry_for e a) ->
  let vs := view_of applied <$> Consumed es (n_id n) in
  NoDup (rv_Synthetic <$> vs) /\
  (forall v, v ∈ vs -> exists a, reachable a /\ row_for applied a v) /\ (forall a, reachable a -> exists v, v ∈ vs /\ row_for applied a v).
Proof.
  intros Hin Hall vs. pose proof (other_blocks d n es Hin Hall) as Hother.
  assert (rv_Synthetic <$> vs = Prefixes (Consumed es (n_id n))) as Hp by (unfold vs, Prefixes; by rewrite <- list_fmap_compose).
  assert (forall e, e ∈ Consumed es (n_id n) -> exists a, reachable a /\ entry_for e a) as Hcons.
  { intros e He. destruct (Hin e (consumed_in es e He)) as (a & Hoff & Hent). exists a. split; [|done].
    destruct (proj1 (Hother (e_Synthetic e))) as (b & Hb & Hne & Heq); [by apply list_elem_of_fmap_2|].
    rewrite (proj2 (proj2 (proj2 Hent))) in Heq. apply P4_inj in Heq.
    apply (synth_prefix_inj pool d Hd) in Heq as ->; [by split|apply Hoff|apply Hb]. }
  split_and!.
  - rewrite Hp. apply consume_NoDup.
  - intros v (e & -> & He)%list_elem_of_fmap. destruct (Hcons e He) as (a & Ha & Hent). exists a. split; [done|by apply view_row].
  - intros a [Hoff Hne]. assert (P4 (synth_prefix a) ∈ Prefixes (Consumed es (n_id n))) as (e & He & Hcon)%list_elem_of_fmap by (apply Hother; by exists a).
    destruct (Hcons e Hcon) as (b & [Hb _] & Hent). rewrite (proj2 (proj2 (proj2 Hent))) in He. apply P4_inj in He.
    apply (synth_prefix_inj pool d Hd) in He as ->; [|apply Hoff|apply Hb].
    exists (view_of applied e). split; [by apply list_elem_of_fmap_2|by apply view_row].
Qed.

(** A call that leaves the client as it is leaves the controller as it is. *)
Lemma on_api_calm {E A} (f : E -> panel_err) (m : M E (ClientState (World K D)) A) (ct : Controller (World K D) S F P) a :
  m (ct_client ct) = (Ok a, ct_client ct) -> on_api f m ct = (Ok a, ct).
Proof. intros E1. unfold on_api. rewrite E1. by destruct ct. Qed.
Lemma bind_calm {E St A B} (m : M E St A) (k : A -> M E St B) s a : m s = (Ok a, s) -> bind m k s = k a s.
Proof. unfold bind. by intros ->. Qed.

(** The synchronisation, once the lists are read: the tunnel is asked for [ps]. *)
Lemma sync_read c (cl : ClientState (World K D)) (ct : Controller (World K D) S F P) (t : R) :
  0 <= n_id n < 2 ^ 63 -> c_UserID c = n_user n -> quiet_net d now rand (c_net cl) -> session h c cl ->
  record_of (ct_record ct) n -> ct_client ct = cl ->
  exists es, (forall e, e ∈ es -> exists a, offered d n a /\ entry_for e a) /\ (forall a, offered d n a -> exists e, e ∈ es /\ entry_for e a) /\
    SyncRoutes (ct, t) = match rt_SetExtraRoutes (Prefixes (Consumed es (n_id n))) t with
      | (Err _, t') => (Err PRoutes, (ct, t'))
      | (Ok applied, t') => (Ok (view_of applied <$> Consumed es (n_id n)), (ct, t'))
      end.
Proof.
  intros Hid Huser Hq Hs Hrec Hcl.
  destruct (router_fetch h pool d now rand Hd Hnames n Hn c Huser cl Hq Hs) as (m & Ht & Hz & Hm & Hf).
  destruct (entries_offered pool d Hd n Hn m Ht) as [Hin Hall]. exists (entries_of m). split_and!; [done..|].
  assert (ApiClient.ListNodes (ct_client ct) = (Ok (listed d (c_net cl) (n_user n)), ct_client ct)) as Hnodes.
  { unfold ApiClient.ListNodes, do_call. by rewrite Hcl, (ListNodes_attempt h now rand d c cl Hq Hs), Huser. }
  pose proof (find_this pool d Hd n Hn Hid (ct_record ct) Hrec true (c_net cl)) as Hfind. cbn [server_db] in Hfind.
  rewrite <- Hcl in Hz, Hm, Hf. destruct Hrec as (_ & _ & Hip). rewrite <- Hip in Hm.
  unfold SyncRoutes. rewrite (bind_calm _ _ _ _ (on_api_calm PApi _ _ _ Hz)). unfold bind at 1, gets.
  rewrite (bind_calm _ _ _ _ (on_api_calm PApi _ _ _ Hm)), (bind_calm _ _ _ _ (on_api_calm PFetch _ _ _ Hf)).
  assert (thisMachineNodeID ct = (Ok (n_id n), ct)) as Hthis.
  { unfold thisMachineNodeID. rewrite (bind_calm _ _ _ _ (on_api_calm PApi _ _ _ Hnodes)). unfold bind, gets.
    destruct (List.find _ _) as [x|]; [|done]. by destruct Hfind as [_ <-]. }
  unfold bind, try. rewrite Hthis. cbn [ret]. by destruct (rt_SetExtraRoutes _ t) as [[applied|x] t'].
Qed.
End Sync.

(** C25: the panel's routes are the database's. For the machine of node [n], signed in
    as the node's user, on a server without driver failures: the panel asks the tunnel
    for exactly the blocks that other nodes announce into this node's zones; if the
    tunnel refuses, the panel reports it; if not, the panel shows one row for each of
    those announcements and no other, the block with the subnet behind it, marked as
    a conflict exactly where the tunnel has not applied it. The server, the client's
    session and the panel's own state are as before. *)
Theorem SyncRoutes_spec {K D S F P R : Type} `{Nftables K} `{WgHost D} `{WgTypes} `{NetipV6} `{Sqlite} `{Argon2} `{JwtLib}
    `{KeyRing S} `{Firewall F} `{StateDisk P} `{RouteSetter R} h pool d now rand n c (ct : Controller (World K D) S F P) (t : R) :
  data_ok pool d -> addressable d -> n ∈ rows (nodes d) -> 0 <= n_id n < 2 ^ 63 -> c_UserID c = n_user n ->
  quiet_net d now rand (c_net (ct_client ct)) -> session h c (ct_client ct) -> record_of (ct_record ct) n ->
  exists ps, (forall q, q ∈ ps <-> exists a, reachable d n a /\ q = P4 (synth_prefix a)) /\
    match rt_SetExtraRoutes ps t with
    | (Err _, t') => @SyncRoutes _ _ _ _ (here h) _ R _ (ct, t) = (Err PRoutes, (ct, t'))
    | (Ok applied, t') => exists vs, @SyncRoutes _ _ _ _ (here h) _ R _ (ct, t) = (Ok vs, (ct, t')) /\ NoDup (rv_Synthetic <$> vs) /\
        (forall v, v ∈ vs -> exists a, reachable d n a /\ row_for applied a v) /\ (forall a, reachable d n a -> exists v, v ∈ vs /\ row_for applied a v)
    end.
Proof.
  intros Hd Hnames Hn Hid Hc Hq Hs Hrec.
  destruct (sync_read h pool d now rand Hd Hnames n Hn c (ct_client ct) ct t Hid Hc Hq Hs Hrec eq_refl) as (es & Hin & Hall & ->).
  exists (Prefixes (Consumed es (n_id n))). split.
  - intros q. rewrite (other_blocks d n es Hin Hall). unfold reachable. naive_solver.
  - destruct (rt_SetExtraRoutes _ t) as [[applied|[]] t']; [|done]. eexists. split; [reflexivity|].
    by apply (views_rows pool d Hd n es applied Hin Hall).
Qed.

(** ** Ann's laptop and Bob's gateway *)

#[local] Instance no_v6 : NetipV6 := fun _ => None.
#[local] Instance no_v6_text : NetipV6Text := fun _ _ => "".
#[local] Existing Instance sim_keyring.
#[local] Existing Instance sim_firewall.
#[local] Existing Instance sim_file.
(** The setter is the desktop client's tunnel. *)
#[local] Instance tunnel_routes (rec : StateRecord) (ans : Answers) : RouteSetter (Tunnel * gmap nat Device) := fun extra '(t, devs) =>
  let '(r, t, devs) := SetExtraRoutes rec ans extra t devs in (match r with Ok l => Ok l | Err _ => Err tt end, (t, devs)).
Definition laptop_record : StateRecord := mkRecord 3 "https://vpn" "router" "100.64.0.2" demo_key "vpn:51820" "10.8.0.0/16" "" false 1.
Definition laptop : Controller (World Ruleset SimHost) (gmap string string) bool (option StateRecord) :=
  mkController (mkClient "token" "" home_world) laptop_record ∅ true None false.
Definition laptop_tunnel : Tunnel * gmap nat Device := (mkTunnel Connected (Some 0%nat) "lanweave0" true [] [], {[0%nat := mkDev "lanweave0" [] []]}).
#[local] Instance laptop_setter : RouteSetter (Tunnel * gmap nat Device) := tunnel_routes laptop_record yes.
#[local] Instance home_net : Transport (World Ruleset SimHost) := here serve_opts.

Lemma laptop_quiet : quiet_net home_db 150 [] (c_net (ct_client laptop)).
Proof. unfold quiet_net, laptop, home_world. cbn [ct_client c_net w_store]. reflexivity. Qed.
Lemma laptop_session : session serve_opts (mkClaims 7 "ann" true) (ct_client laptop).
Proof. by vm_compute. Qed.
Lemma laptop_synced : fst (SyncRoutes (laptop, laptop_tunnel)) = Ok [mkReachable block_9 (P4 (PrefixFrom 3232237824 24)) ["home"] "gateway" false].
Proof. by vm_compute. Qed.
#[local] Opaque home_db home_world.
(** What the panel shows is an announcement the laptop can reach. *)
Lemma SyncRoutes_spec_witness : exists a, reachable home_db home_router a /\ row_for [block_9] a (mkReachable block_9 (P4 (PrefixFrom 3232237824 24)) ["home"] "gateway" false).
Proof.
  destruct (SyncRoutes_spec serve_opts serve_pool home_db 150 [] home_router (mkClaims 7 "ann" true) laptop laptop_tunnel
    home_ok home_addressable home_router_in ltac:(by vm_compute) eq_refl laptop_quiet laptop_session ltac:(by split_and!; vm_compute)) as (ps & _ & Hsync).
  pose proof laptop_synced as Hrows. unfold home_net in Hrows. destruct (rt_SetExtraRoutes ps laptop_tunnel) as [[applied|e] t'].
  - destruct Hsync as (vs & E & _ & Hin & _). rewrite E in Hrows. cbn [fst] in Hrows. injection Hrows as ->.
    destruct (Hin _ (list_elem_of_here _ _)) as (a & Ha & Hr). exists a. split; [exact Ha|]. destruct Hr as (R1 & R2 & R3). split_and!; [exact R1|exact R2|].
    cbn in R1 |- *. rewrite <- R1. split; [done|]. intros Hnot. exfalso. apply Hnot. left.
  - rewrite Hsync in Hrows. discriminate Hrows.
Defined.
