(* ===== verification/Onboard.v ===== *)
(** * Setting a machine up ([internal/client/onboard], [internal/client/wgkey])

    The first-run sequence over the API client, the key ring, the state file and the
    source of random bytes. *)
From S2P Require Import Prelude GoStrings Codec Db StoreUsers StoreNodes Wg Auth Api ApiClient Routerd StateFile.

#[local] Open Scope lw_scope.

Inductive AuthMode : Type := CreateAccount | SignIn.
Record Credentials : Type := mkCredentials { cr_Mode : AuthMode; cr_Invite : string; cr_Username : string; cr_Password : string }.

(** [Provisioner]'s settings; the parts it works on are the state [Machine]. *)
Record Provisioner : Type := mkProvisioner { pv_ServerURL : string; pv_KeyName : string; pv_Pinned : string; pv_Platform : string }.
Record Machine (N S P : Type) : Type := mkMachine { mc_client : ClientState N; mc_keys : S; mc_file : P; mc_rand : list (list Z) }.
Arguments mkMachine {N S P}. Arguments mc_client {N S P}. Arguments mc_keys {N S P}. Arguments mc_file {N S P}. Arguments mc_rand {N S P}.

Inductive onboard_err : Type :=
| OName | OGenerate | OStoreKey | OApi (e : client_err) | OUnrecovered | OState (e : state_err) | OCacheSession | OCacheRefresh.

(** [wgkey.GenerateKeyPair]: the private key and its public key, as base64. *)
Definition GenerateKeyPair `{WgTypes} : M unit (list (list Z)) (string * string) := fun rand =>
  match rand with
  | [] => (Err tt, [])
  | bs :: rand => let priv := GeneratePrivateKey bs in (Ok (KeyString priv, KeyString (PublicKeyOf priv)), rand)
  end.

Definition keyName (p : Provisioner) : string := if bool_decide (pv_KeyName p <> "") then pv_KeyName p else DeviceKeyName.

Section Onboard.
Context {N S P : Type} `{Transport N} `{KeyRing S} `{StateDisk P} `{WgTypes} (p : Provisioner).

Abbreviation OM := (M onboard_err (Machine N S P)).
Definition on_api {A} (m : M client_err (ClientState N) A) : OM A := fun s =>
  let '(r, c) := m (mc_client s) in
  (match r with Ok a => Ok a | Err e => Err (OApi e) end, mkMachine c (mc_keys s) (mc_file s) (mc_rand s)).
Definition on_keys {A} (e : onboard_err) (m : M unit S A) : OM A := fun s =>
  let '(r, k) := m (mc_keys s) in (match r with Ok a => Ok a | Err _ => Err e end, mkMachine (mc_client s) k (mc_file s) (mc_rand s)).
Definition on_file {A} (m : M state_err P A) : OM A := fun s =>
  let '(r, f) := m (mc_file s) in (match r with Ok a => Ok a | Err e => Err (OState e) end, mkMachine (mc_client s) (mc_keys s) f (mc_rand s)).
Definition on_rand {A} (m : M unit (list (list Z)) A) : OM A := fun s =>
  let '(r, b) := m (mc_rand s) in (match r with Ok a => Ok a | Err _ => Err OGenerate end, mkMachine (mc_client s) (mc_keys s) (mc_file s) b).

Definition Authenticate (c : Credentials) : OM unit :=
  do! match cr_Mode c with
      | CreateAccount => on_api (ApiClient.Register (cr_Invite c) (cr_Username c) (cr_Password c))
      | SignIn => ret tt
      end in
  on_api (ApiClient.Login (cr_Username c) (cr_Password c)).

(** The address and the number of the node. *)
Definition registerDevice (nodeName pub : string) : OM (string * Z) :=
  let! r := try (on_api (RegisterNodePlatform nodeName pub (pv_Platform p))) in
  match r with
  | Ok node => ret (nr_IP node, nr_ID node)
  | Err (OApi ErrPubKeyTaken) =>
      let! list := on_api ApiClient.ListNodes in
      match List.find (fun n => bool_decide (nr_Name n = nodeName)) list with
      | Some n => ret (nr_IP n, nr_ID n)
      | None => throw OUnrecovered
      end
  | Err e => throw e
  end.

Definition ProvisionDevice (nodeName : string) : OM StateRecord :=
  if bool_decide (nodeName = "") then throw OName else
  let! keys := on_rand GenerateKeyPair in
  let '(priv, pub) := keys in
  do! on_keys OStoreKey (kr_Set (keyName p) priv) in
  let! node := registerDevice nodeName pub in
  let '(ip, nodeID) := node in
  let! info := on_api ServerInfo in
  let '(key, endpoint, network, _) := info in
  let rec := mkRecord 0 (pv_ServerURL p) nodeName ip key endpoint network (pv_Pinned p) false nodeID in
  do! on_file (Save rec) in
  let! token := gets (fun s => c_token (mc_client s)) in
  do! on_keys OCacheSession (kr_Set SessionTokenName token) in
  let! rt := gets (fun s => c_refreshToken (mc_client s)) in
  do! on_keys OCacheRefresh (kr_Set RefreshTokenName rt) in
  ret rec.
Definition Provision (c : Credentials) (nodeName : string) : OM StateRecord :=
  if bool_decide (nodeName = "") then throw OName else
  do! Authenticate c in ProvisionDevice nodeName.

(** The errors joined. *)
Definition failure {A} (m : OM A) : OM (list onboard_err) :=
  let! r := try m in ret (match r with Ok _ => [] | Err e => [e] end).
Definition Cleanup : OM (list onboard_err) :=
  let! e1 := failure (on_keys OStoreKey (kr_Delete (keyName p))) in
  let! e2 := failure (on_keys OCacheSession (kr_Delete SessionTokenName)) in
  let! e3 := failure (on_keys OCacheRefresh (kr_Delete RefreshTokenName)) in
  let! e4 := failure (on_file Clear) in
  ret (e1 ++ e2 ++ e3 ++ e4).
End Onboard.

(** [StartupTarget]: the wizard, or home with the record. *)
Inductive Target : Type := Wizard | Home (r : StateRecord).
Definition StartupTarget {P : Type} `{StateDisk P} (file : P) : Target := match fst (Load file) with Ok r => Home r | Err _ => Wizard end.
