(* ===== verification/OnboardProps.v ===== *)
(** * A machine that has been set up

    Provisioning against the server's router over a quiet store, signed in as an
    account that exists, with a key the server has not seen. *)
From Stdlib Require Import Ascii.
From S2P Require Import Prelude GoStrings Netip Ipam Codec Db StoreInv StoreUsers StoreNodes StoreAnnounce StoreOps UsersProps NodesProps Netfw Isolation Wg WgProps Auth AuthProps Api ApiZones ApiRoutes ApiProps ApiClient ClientPaths ClientSession ClientReads NodeReads Sync SyncServe Routerd RouterLists RouterdProps StateFile Panel PanelProps Onboard.

#[local] Open Scope lw_scope.

Section Register.
Context {K D : Type} `{Nftables K} `{WgHost D} `{WgTypes} `{NetipV6} `{Sqlite} `{Argon2} `{JwtLib} (h : Options).
#[local] Hint Extern 0 (Transport (World K D)) => exact (here h) : typeclass_instances.
Context (d : DB) (now : Z) (rand : list (list Z)) (Hd : schema_ok d) (c : Claims) (Huser : user_exists d (c_UserID c) = true).

(** A refusal that the client takes neither for an expired session nor for a known key. *)
Definition plain_refusal (resp : Resp) : Prop :=
  (200 <=? status resp) && (status resp <? 300) = false /\
  mapError "/api/v1/nodes" true resp <> ErrSessionExpired /\ mapError "/api/v1/nodes" true resp <> ErrPubKeyTaken.

(** Registering a node with a new key: refused, or the node is the database's new row. *)
Definition new_node (req : RegisterNodeRequest) (n : node_row) : Prop :=
  n_id n = next_id (nodes d) /\ n_user n = c_UserID c /\ n_name n = TrimSpace (rn_Name req) /\ n_key n = rn_WGPubKey req.
Lemma create_new first last cap plat req : is_u32 first -> is_u32 last -> ~ key_taken (rn_WGPubKey req) d ->
  let '(r, s) := CreateNode (c_UserID c) (TrimSpace (rn_Name req)) (rn_WGPubKey req) plat first last cap (Quiet d now rand) in
  match r with
  | Ok n => new_node req n /\ s = Quiet (with_node n d) now rand
  | Err e => e = Db.ErrPoolExhausted \/ e = Db.ErrDeviceLimitReached \/ e = Db.ErrNodeNameTaken
  end.
Proof.
  intros Hf Hl Hk. destruct (CreateNode_cases (c_UserID c) (TrimSpace (rn_Name req)) (rn_WGPubKey req) plat first last cap d now rand Hd Huser Hf Hl)
    as [[_ ->]|(ip & _ & _ & [[_ ->]|[_ [(_ & _ & ->)|[[? _]|[_ ->]]]]])]; [by left|by right; left|by split|done|by right; right].
Qed.
Lemma registerNode_quiet req w out w' : quiet_net d now rand w -> ~ key_taken (rn_WGPubKey req) d ->
  registerNode (K:=K) (D:=D) h (Some c) (Some req) w = (out, w') ->
  match out with
  | Ok resp => exists n, new_node req n /\ quiet_net (with_node n d) now rand w' /\ w_nanos w' = w_nanos w /\ status resp = 201 /\
      exists item, body resp = BNode item /\ nr_ID item = n_id n /\ nr_IP item = AddrString (n_ip n)
  | Err resp => plain_refusal resp
  end.
Proof.
  intros Hq Hk. unfold registerNode. unfold bind at 1, identity, ret at 1. unfold bind at 1, decoded, ret at 1.
  destruct (_ || _); [by intros [= <- <-]|]. destruct (ParseKey _); [|by intros [= <- <-]].
  destruct (negb _); [by intros [= <- <-]|]. destruct (PoolRange _) as [[first last]|] eqn:Hpool; [|by intros [= <- <-]].
  destruct (PoolRange_u32 _ _ _ Hpool) as [Hf Hl].
  set (cap := if c_IsAdmin c then 0 else maxDevicesPerUser h). set (plat := if decide _ then _ else _).
  pose proof (create_new first last cap plat req Hf Hl Hk) as Hcr.
  unfold bind at 1, or_fail, bind at 1, db at 1. rewrite Hq. destruct (CreateNode _ _ _ _ _ _ _ _) as [[n|e] s1].
  2: { destruct Hcr as [->|[->| ->]]; by intros [= <- <-]. }
  destruct Hcr as [Hnew ->]. cbn [ret]. unfold bind at 1, wg. cbn [w_wg]. destruct (AddPeer _ _ _ _) as [[[]|e] dev]; cbn [w_store w_nanos w_nft w_status w_log].
  - intros [= <- <-]. exists n. split_and!; [done..|]. by eexists.
  - unfold bind at 1, db. cbn [w_store w_nanos w_nft w_status w_log w_wg]. destruct (DeleteOwned _ _ _) as [[k|e1] s2]; by intros [= <- <-].
Qed.

(** The two calls of the client. *)
Lemma register_call name pub plat (cl cl' : ClientState (World K D)) r : quiet_net d now rand (c_net cl) -> session h c cl -> ~ key_taken pub d ->
  RegisterNodePlatform name pub plat cl = (r, cl') ->
  match r with
  | Ok item => exists n, new_node (mkRegisterNode name pub plat) n /\ nr_ID item = n_id n /\ nr_IP item = AddrString (n_ip n) /\
      quiet_net (with_node n d) now rand (c_net cl') /\ session h c cl' /\ c_token cl' = c_token cl /\ c_refreshToken cl' = c_refreshToken cl
  | Err e => e <> ErrPubKeyTaken
  end.
Proof.
  intros Hq Hs Hk. set (req := mkRegisterNode name pub plat).
  destruct (registerNode (K:=K) (D:=D) h (Some c) (Some req) (c_net cl)) as [out w'] eqn:Hout.
  pose proof (registerNode_quiet req (c_net cl) out w' Hq Hk Hout) as Hcase.
  assert (mux_match route_patterns "POST" "/api/v1/nodes" = Some ("POST /api/v1/nodes", [])) as Hm by by vm_compute.
  unfold RegisterNodePlatform. destruct out as [resp|resp].
  - destruct Hcase as (n & Hnew & Hq' & Hns & Hst & item & Hb & Hid & Hip).
    erewrite (call_guarded h "POST" "/api/v1/nodes" _ [] (fun r => registerNode h (rq_ctx r) (as_register_node (rq_body r))) (BodyRegisterNode req) _ c cl
      _ w' Hm eq_refl Hs Hout); cbn beta iota; unfold reply; rewrite Hst, Hb; [|done].
    intros [= <- <-]. exists n. split_and!; [done..| |done|done].
    apply (session_kept h c cl w'); [|done]. unfold same_time, clock. unfold quiet_net in Hq, Hq'. by rewrite Hq, Hq', Hns.
  - destruct Hcase as (Hst & Hexp & Hkey).
    erewrite (call_guarded h "POST" "/api/v1/nodes" _ [] (fun r => registerNode h (rq_ctx r) (as_register_node (rq_body r))) (BodyRegisterNode req) _ c cl
      _ w' Hm eq_refl Hs Hout); cbn beta iota; unfold reply; rewrite Hst; [|congruence].
    by intros [= <- <-].
Qed.
Lemma ServerInfo_call (cl : ClientState (World K D)) : session h c cl ->
  ServerInfo cl = (Ok (KeyString (srv_pub (h_wg h)), h_Endpoint h, cfg_Network (h_wgConfig h), cfg_MTU (h_wgConfig h)), cl).
Proof.
  intros Hs. unfold ServerInfo. rewrite (call_guarded h "GET" "/api/v1/server" "GET /api/v1/server" [] (fun _ => serverInfo h) NoBody _ c cl
    (fst (serverInfo h (c_net cl))) (c_net cl)); [by destruct cl|by vm_compute|reflexivity|exact Hs|reflexivity|done].
Qed.
End Register.

(** ** The sequence *)

Section Provision.
Context {K D S P : Type} `{Nftables K} `{WgHost D} `{WgTypes} `{NetipV6} `{Sqlite} `{Argon2} `{JwtLib} (h : Options).
Context `{KeyRingLaws S} `{StateDiskLaws P} (p : Provisioner).
#[local] Hint Extern 0 (Transport (World K D)) => exact (here h) : typeclass_instances.
Context (d : DB) (now : Z) (rand : list (list Z)) (c : Claims).
#[local] Abbreviation Mach := (Machine (World K D) S P).

(** The record of a machine whose node is [n], and the node. *)
Definition machine_node (name pub : string) (n : node_row) : Prop :=
  n_id n = next_id (nodes d) /\ n_user n = c_UserID c /\ n_name n = TrimSpace name /\ n_key n = pub.
Definition machine_record (name : string) (n : node_row) : StateRecord :=
  mkRecord 0 (pv_ServerURL p) name (AddrString (n_ip n)) (KeyString (srv_pub (h_wg h))) (h_Endpoint h) (cfg_Network (h_wgConfig h))
    (pv_Pinned p) false (n_id n).

(** Up to the saved record. *)
Lemma registerDevice_run name pub (m : Mach) r m' : schema_ok d -> user_exists d (c_UserID c) = true ->
  quiet_net d now rand (c_net (mc_client m)) -> session h c (mc_client m) -> ~ key_taken pub d ->
  registerDevice p name pub m = (r, m') ->
  mc_keys m' = mc_keys m /\ mc_file m' = mc_file m /\
  match r with
  | Ok (ip, id) => exists n, machine_node name pub n /\ ip = AddrString (n_ip n) /\ id = n_id n /\
      quiet_net (with_node n d) now rand (c_net (mc_client m')) /\ session h c (mc_client m') /\
      c_token (mc_client m') = c_token (mc_client m) /\ c_refreshToken (mc_client m') = c_refreshToken (mc_client m)
  | Err e => exists e', e = OApi e'
  end.
Proof.
  intros Hd Hu Hq Hs Hk. unfold registerDevice. unfold bind at 1, try, on_api at 1.
  destruct (RegisterNodePlatform name pub (pv_Platform p) (mc_client m)) as [r1 cl] eqn:Hcall.
  pose proof (register_call h d now rand Hd c Hu name pub (pv_Platform p) _ _ _ Hq Hs Hk Hcall) as Hreg.
  destruct r1 as [item|e].
  - destruct Hreg as (n & Hnew & Hid & Hip & Hq' & Hs' & Ht & Hr). intros [= <- <-]. split_and!; [done..|]. cbn [mc_client]. exists n. by split_and!.
  - destruct e; try exact (False_ind _ (Hreg eq_refl)); intros [= <- <-]; exact (conj eq_refl (conj eq_refl (ex_intro _ _ eq_refl))).
Qed.

(** What provisioning leaves: the record, the secrets and the node agree, or the
    state file is as it was, but for a token that could not be cached at the end. *)
Definition provisioned (name priv pub : string) (m : Mach) (r : res onboard_err StateRecord) (m' : Mach) : Prop :=
  match r with
  | Ok rec => exists n, machine_node name pub n /\ rec = machine_record name n /\ quiet_net (with_node n d) now rand (c_net (mc_client m')) /\
      sd_view (mc_file m') = Some (versioned rec) /\
      kr_view (mc_keys m') = <[RefreshTokenName := c_refreshToken (mc_client m)]> (<[SessionTokenName := c_token (mc_client m)]>
        (<[keyName p := priv]> (kr_view (mc_keys m))))
  | Err OCacheSession | Err OCacheRefresh =>
      exists n, machine_node name pub n /\ quiet_net (with_node n d) now rand (c_net (mc_client m')) /\
        sd_view (mc_file m') = Some (versioned (machine_record name n))
  | Err _ => sd_view (mc_file m') = sd_view (mc_file m)
  end.

Lemma ProvisionDevice_run name bs bytes (m : Mach) r m' : schema_ok d -> user_exists d (c_UserID c) = true ->
  quiet_net d now rand (c_net (mc_client m)) -> session h c (mc_client m) -> mc_rand m = bs :: bytes ->
  let priv := KeyString (GeneratePrivateKey bs) in let pub := KeyString (PublicKeyOf (GeneratePrivateKey bs)) in
  ~ key_taken pub d -> ProvisionDevice p name m = (r, m') -> provisioned name priv pub m r m'.
Proof.
  intros Hd Hu Hq Hs Hrand priv pub Hk. unfold ProvisionDevice. case_bool_decide; [by intros [= <- <-]|].
  unfold bind at 1, on_rand, GenerateKeyPair. rewrite Hrand. fold priv pub. cbn [mc_client mc_keys mc_file mc_rand].
  unfold bind at 1, on_keys at 1. cbn [mc_keys]. destruct (kr_Set (keyName p) priv (mc_keys m)) as [[[]|] k1] eqn:E1; [|by intros [= <- <-]].
  apply kr_set_ok in E1. cbn [mc_client mc_file mc_rand]. set (m1 := mkMachine (mc_client m) k1 (mc_file m) bytes).
  unfold bind at 1. destruct (registerDevice p name pub m1) as [r1 m2] eqn:Hreg.
  destruct (registerDevice_run name pub m1 r1 m2 Hd Hu Hq Hs Hk Hreg) as (Hkeys & Hfile & Hr).
  destruct r1 as [[ip id]|e].
  2: { destruct Hr as [e' ->]. intros [= <- <-]. cbn [provisioned]. by rewrite Hfile. }
  destruct Hr as (n & Hn & -> & -> & Hq2 & Hs2 & Ht2 & Hrt2).
  unfold bind at 1, on_api at 1. rewrite (ServerInfo_call h c _ Hs2).
  cbn [mc_client mc_keys mc_file mc_rand]. change (mkRecord 0 _ _ _ _ _ _ _ _ _) with (machine_record name n).
  unfold bind at 1, on_file at 1. cbn [mc_file]. rewrite Hkeys, Hfile. cbn [mc_keys mc_file m1].
  pose proof (Save_view (machine_record name n) (mc_file m)) as Hsave. destruct (Save (machine_record name n) (mc_file m)) as [[[]|e] f1]; cbn [fst snd] in Hsave.
  2: { by intros [= <- <-]. }
  cbn [mc_client mc_keys mc_file mc_rand]. unfold bind at 1, gets at 1, bind at 1, on_keys at 1. cbn [mc_client mc_keys]. rewrite Ht2. cbn [mc_client m1].
  destruct (kr_Set SessionTokenName (c_token (mc_client m)) k1) as [[[]|[]] k2] eqn:E2; [|intros [= <- <-]; by exists n].
  apply kr_set_ok in E2. unfold bind at 1, gets at 1, bind at 1, on_keys at 1. cbn [mc_client mc_keys mc_file mc_rand]. rewrite Hrt2. cbn [mc_client m1].
  destruct (kr_Set RefreshTokenName (c_refreshToken (mc_client m)) k2) as [[[]|[]] k3] eqn:E3; [|intros [= <- <-]; by exists n].
  apply kr_set_ok in E3. intros [= <- <-]. exists n. cbn [mc_client mc_keys mc_file]. by rewrite E3, E2, E1.
Qed.
End Provision.

(** C26: a machine that has been set up. For an account that exists, signed in, on a
    server without driver failures, and a fresh key: when provisioning a device
    reports a record, the server has gained exactly one node, of that account, under
    the given name (trimmed) and with the public key of the key drawn; the record
    names that node, its address and the server's own key, endpoint and network, and
    is the one in the state file; the key ring has gained the private key, the
    session and the refresh token. When it fails, the state file is as it was, so the
    next start is the wizard again, unless all that failed was to cache a token. *)
Theorem provision_spec {K D S P : Type} `{Nftables K} `{WgHost D} `{WgTypes} `{NetipV6} `{Sqlite} `{Argon2} `{JwtLib} h
    `{KeyRingLaws S} `{StateDiskLaws P} p d now rand c name bs bytes (m m' : Machine (World K D) S P) r :
  schema_ok d -> user_exists d (c_UserID c) = true -> quiet_net d now rand (c_net (mc_client m)) -> session h c (mc_client m) ->
  mc_rand m = bs :: bytes -> ~ key_taken (KeyString (PublicKeyOf (GeneratePrivateKey bs))) d ->
  @ProvisionDevice _ _ _ (here h) _ _ _ p name m = (r, m') ->
  provisioned h p d now rand c name (KeyString (GeneratePrivateKey bs)) (KeyString (PublicKeyOf (GeneratePrivateKey bs))) m r m'.
Proof. intros Hd Hu Hq Hs Hr Hk. by apply (ProvisionDevice_run h p d now rand c name bs bytes). Qed.

(** ** Ann's laptop *)

#[local] Instance no_v6 : NetipV6 := fun _ => None.
#[local] Existing Instance sim_keyring.
#[local] Existing Instance sim_file.
Definition fresh_laptop {N} (net : N) : Machine N (gmap string string) (option StateRecord) :=
  mkMachine (mkClient "token" "" net) ∅ None [[7; 7]; [8; 8]].
Definition pv : Provisioner := mkProvisioner "https://vpn" "" "" "".
#[local] Instance home_net : Transport (World Ruleset SimHost) := here serve_opts.
Definition set_up {N} `{Transport N} (name : string) (m : Machine N (gmap string string) (option StateRecord)) := ProvisionDevice pv name m.
Definition laptop_ready : Machine (World Ruleset SimHost) (gmap string string) (option StateRecord) := snd (set_up "laptop " (fresh_laptop home_world)).
Definition laptop_rec : StateRecord := mkRecord 0 "https://vpn" "laptop " "100.64.0.4" "=" "" "100.64.0.0/10" "" false 3.
Definition key_7 : string := "BwcAAAAAAAAAAAAAAAAAAAAAAAAAAAAAAAAAAAAAAAA=".

Lemma laptop_key : KeyString (GeneratePrivateKey [7; 7]) = key_7.
Proof. by vm_compute. Qed.
Lemma laptop_run : fst (set_up "laptop " (fresh_laptop home_world)) = Ok laptop_rec.
Proof. by vm_compute. Qed.
(** The trimmed name is the node's, the name as typed the record's. *)
Example name_trimmed : n_name <$> rows (nodes (s_db (w_store (c_net (mc_client laptop_ready))))) = ["router"; "gateway"; "laptop"] /\
  st_NodeName laptop_rec = "laptop ".
Proof. split; [by vm_compute|reflexivity]. Qed.

(** The answer to [ServerInfo] is lost after the node is registered. A second attempt
    draws another key, so the server does not recognise the device: the name is
    taken, and the key ring holds a key the node does not have. *)
Definition lossy_laptop : Machine (list Fate * World Ruleset SimHost) (gmap string string) (option StateRecord) :=
  fresh_laptop ([Delivered; AnswerLost], home_world).
Definition attempt_1 := @set_up _ (unreliable (here serve_opts)) "laptop" lossy_laptop.
Definition attempt_2 := @set_up _ (unreliable (here serve_opts)) "laptop" (snd attempt_1).
Example retry_is_refused :
  fst attempt_1 = Err (OApi ErrUnreachable) /\ fst attempt_2 = Err (OApi ErrNodeNameTaken) /\
  n_key <$> filter (fun n => n_name n = "laptop") (rows (nodes (s_db (w_store (snd (c_net (mc_client (snd attempt_2)))))))) = [key_7] /\
  mc_keys (snd attempt_2) !! DeviceKeyName = Some "CAgAAAAAAAAAAAAAAAAAAAAAAAAAAAAAAAAAAAAAAAA=".
Proof. split_and!; by vm_compute. Qed.

Lemma laptop_fresh : ~ key_taken (KeyString (PublicKeyOf (GeneratePrivateKey [7; 7]))) home_db.
Proof. apply (bool_decide_unpack _). by vm_compute. Qed.
Lemma laptop_schema : schema_ok home_db.
Proof. apply (do_schema _ _ home_ok). Qed.
Lemma laptop_net_quiet : quiet_net home_db 150 [] (c_net (mc_client (P:=option StateRecord) (S:=gmap string string) (fresh_laptop home_world))).
Proof. unfold quiet_net, fresh_laptop, home_world. cbn [mc_client c_net w_store]. reflexivity. Qed.
#[local] Opaque home_db home_world.
Lemma provision_spec_witness : exists n, machine_node home_db (mkClaims 7 "ann" true) "laptop " (KeyString (PublicKeyOf (GeneratePrivateKey [7; 7]))) n /\
  laptop_rec = machine_record serve_opts pv "laptop " n.
Proof.
  assert (set_up "laptop " (fresh_laptop home_world) = (Ok laptop_rec, laptop_ready)) as Hrun.
  { rewrite <- laptop_run. apply surjective_pairing. }
  destruct (provision_spec serve_opts pv home_db 150 [] (mkClaims 7 "ann" true) "laptop " [7; 7] [[8; 8]] (fresh_laptop home_world) laptop_ready (Ok laptop_rec)
    laptop_schema ltac:(by vm_compute) laptop_net_quiet ltac:(by vm_compute) eq_refl laptop_fresh Hrun) as (n & Hn & Hrec & _).
  exists n. split; [exact Hn|exact Hrec].
Defined.
