(* ===== verification/ServerConfig.v ===== *)
(** * The server's configuration ([internal/server/config])

    What the TOML decodes to, its defaults and its validation, with
    [time.ParseDuration]: nanoseconds from texts such as "1h30m", its [uint64] sums that
    wrap and its float64 fractions. The calls on the file
    system are a class; TOML is a parameter. *)
From Stdlib Require Import Ascii SpecFloat.
From S2P Require Import Prelude GoStrings Netip Engine.

#[local] Open Scope lw_scope.

(** ** [time.ParseDuration] *)

(** float64. *)
Definition f64_mul : spec_float -> spec_float -> spec_float := SFmul 53 1024.
Definition f64_div : spec_float -> spec_float -> spec_float := SFdiv 53 1024.
Definition f64 (z : Z) : spec_float := binary_normalize 53 1024 z 0 false.
(** The conversion to an integer, towards zero; amd64's answer where there is none. *)
Definition f64_int (f : spec_float) : Z :=
  match f with
  | S754_zero _ => 0
  | S754_finite s m e =>
      let a := if 0 <=? e then Z.pos m * 2 ^ e else Z.pos m / 2 ^ (- e) in
      let v := if s then - a else a in
      if (- 2 ^ 63 <=? v) && (v <? 2 ^ 63) then v else - 2 ^ 63
  | S754_infinity _ | S754_nan => - 2 ^ 63
  end.

(** Units, in nanoseconds; the micro sign and the Greek letter too. *)
Definition unitMap : list (string * Z) :=
  [("ns", 1); ("us", 1000); ("µs", 1000); ("μs", 1000); ("ms", 1000000); ("s", 1000000000); ("m", 60000000000); ("h", 3600000000000)].
Fixpoint find_unit (u : string) (l : list (string * Z)) : option Z :=
  match l with [] => None | (n, z) :: l => if decide (u = n) then Some z else find_unit u l end.

(** [leadingInt]: [None] past 2^63. *)
Fixpoint leadingInt (x : Z) (s : string) : option (Z * string) :=
  match s with
  | "" => Some (x, s)
  | String a r =>
      match digit_of a with
      | None => Some (x, s)
      | Some c => if 2 ^ 63 / 10 <? x then None else if 2 ^ 63 <? x * 10 + c then None else leadingInt (x * 10 + c) r
      end
  end.
(** [leadingFraction]: digits that no longer fit are skipped. *)
Fixpoint leadingFraction (overflow : bool) (x : Z) (scale : spec_float) (s : string) : Z * spec_float * string :=
  match s with
  | "" => (x, scale, s)
  | String a r =>
      match digit_of a with
      | None => (x, scale, s)
      | Some c =>
          if overflow || ((2 ^ 63 - 1) / 10 <? x) || (2 ^ 63 <? x * 10 + c) then leadingFraction true x scale r
          else leadingFraction false (x * 10 + c) (f64_mul scale (f64 10)) r
      end
  end.
(** The unit's text: up to the next digit or point. *)
Fixpoint unit_text (s : string) : string * string :=
  match s with
  | "" => ("", "")
  | String a r => if is_digit a || bool_decide (a = "."%char) then ("", s) else let '(u, rest) := unit_text r in (String a u, rest)
  end.

(** A point and its digits, if they come next, and whether there are any. *)
Definition fraction (s : string) : Z * spec_float * string * bool :=
  match s with
  | String "." r => let '(f, scale, r') := leadingFraction false 0 (f64 1) r in (f, scale, r', negb (bool_decide (r' = r)))
  | _ => (0, f64 1, s, false)
  end.
(** One number with its unit, and what is left. *)
Definition duration_part (s : string) : option (Z * string) :=
  match s with
  | "" => None
  | String a _ =>
      if negb (is_digit a || bool_decide (a = "."%char)) then None else
      '(v, rest) ← leadingInt 0 s;
      let pre := is_digit a in
      let '(f, scale, rest, post) := fraction rest in
      if negb (pre || post) then None else
      let '(u, rest) := unit_text rest in
      unit ← find_unit u unitMap;
      if 2 ^ 63 / unit <? v then None else
      let v := v * unit + (if 0 <? f then f64_int (f64_mul (f64 f) (f64_div (f64 unit) scale)) else 0) in
      if 2 ^ 63 <? v then None else Some (v, rest)
  end.
Fixpoint duration_loop (fuel : nat) (d : Z) (s : string) : option Z :=
  match s, fuel with
  | "", _ => Some d
  | _, O => None
  | _, S fuel =>
      '(v, rest) ← duration_part s;
      let d := (d + v) mod 2 ^ 64 in
      if 2 ^ 63 <? d then None else duration_loop fuel d rest
  end.

Definition ParseDuration (s : string) : option Z :=
  let '(neg, body) := match s with
                      | String a r => if decide (a = "-"%char) then (true, r)
                                      else if decide (a = "+"%char) then (false, r) else (false, s)
                      | "" => (false, s)
                      end in
  if bool_decide (body = "0") then Some 0 else
  if bool_decide (body = "") then None else
  d ← duration_loop (String.length body) 0 body;
  if neg then Some (- d) else if 2 ^ 63 - 1 <? d then None else Some d.

Example durations : ParseDuration <$> ["2h"; "1h30m"; "-1.5s"; "0"; ".5ms"; "0.3s"; "1.000000000000000000001s"; "24"; ""; "1µs"; "2562048h"; "1h "] =
  [Some 7200000000000; Some 5400000000000; Some (-1500000000); Some 0; Some 500000; Some 300000000; Some 1000000000; None; None; Some 1000;
   None; None].
Proof. by vm_compute. Qed.
(** The sum of two halves of the range is zero. *)
Example duration_wraps : ParseDuration "9223372036854775808ns9223372036854775808ns" = Some 0.
Proof. by vm_compute. Qed.

(** ** The range *)

Lemma duration_loop_range fuel : forall d s d', 0 <= d <= 2 ^ 63 -> duration_loop fuel d s = Some d' -> 0 <= d' <= 2 ^ 63.
Proof.
  induction fuel as [|fuel IH]; intros d s d' Hd; destruct s as [|a s]; cbn [duration_loop]; try congruence.
  destruct (duration_part _) as [[v rest]|]; [|done]. cbn [mbind option_bind]. destruct (_ <? _) eqn:Hlt; [done|].
  apply IH. apply Z.ltb_ge in Hlt. split; [by apply Z.mod_pos_bound|done].
Qed.
Lemma ParseDuration_range s d : ParseDuration s = Some d -> - 2 ^ 63 <= d < 2 ^ 63.
Proof.
  unfold ParseDuration. destruct (match s with "" => _ | String a r => _ end) as [neg body].
  case_bool_decide; [by intros [= <-]|]. case_bool_decide; [done|]. destruct (duration_loop _ 0 body) as [n|] eqn:Hn; [|done].
  apply duration_loop_range in Hn; [|done]. cbn [mbind option_bind]. destruct neg; [intros [= <-]; lia|].
  destruct (_ <? _) eqn:Hlt; [done|]. intros [= <-]. apply Z.ltb_ge in Hlt. lia.
Qed.

(** ** The fuel

    Each part takes at least one character, so the length of the text is enough. *)

Lemma leadingInt_rest s : forall x v r, leadingInt x s = Some (v, r) -> (String.length r <= String.length s)%nat.
Proof.
  induction s as [|a s IH]; intros x v r; cbn [leadingInt]; [by intros [= _ <-]|].
  destruct (digit_of a); [|by intros [= _ <-]]. repeat case_match; try done. intros Hr%IH. simpl. lia.
Qed.
Lemma leadingFraction_rest s : forall o x f, (String.length (leadingFraction o x f s).2 <= String.length s)%nat.
Proof.
  induction s as [|a s IH]; intros o x f; cbn [leadingFraction]; [done|].
  destruct (digit_of a); [|done]. case_match; etrans; try apply IH; simpl; lia.
Qed.
Lemma fraction_rest s : (String.length (fraction s).1.2 <= String.length s)%nat.
Proof.
  destruct s as [|a s]; [done|]. assert (fraction (String a s) = if bool_decide (a = "."%char)
    then let '(f, scale, r') := leadingFraction false 0 (f64 1) s in (f, scale, r', negb (bool_decide (r' = s))) else (0, f64 1, String a s, false)) as ->.
  { destruct a as [[] [] [] [] [] [] [] []]; reflexivity. }
  case_bool_decide; [|done]. pose proof (leadingFraction_rest s false 0 (f64 1)) as Hl. destruct (leadingFraction _ _ _ s) as [[f g] r]. simpl in *. lia.
Qed.
Lemma unit_text_rest s : (String.length (unit_text s).1 + String.length (unit_text s).2 = String.length s)%nat.
Proof.
  induction s as [|a s IH]; cbn [unit_text]; [done|]. case_match; [done|]. destruct (unit_text s) as [u r]. simpl in *. lia.
Qed.
Lemma find_unit_some u z : find_unit u unitMap = Some z -> (0 < String.length u)%nat.
Proof. destruct u; [done|]. simpl. lia. Qed.
Lemma duration_part_rest s v r : duration_part s = Some (v, r) -> (String.length r < String.length s)%nat.
Proof.
  destruct s as [|a s]; [done|]. unfold duration_part. destruct (negb (is_digit a || _)); [done|].
  destruct (leadingInt 0 _) as [[n rest]|] eqn:Hi; [|done]. apply leadingInt_rest in Hi. cbn [mbind option_bind].
  pose proof (fraction_rest rest) as Hf. destruct (fraction rest) as [[[f scale] rest'] post].
  cbn [fst snd] in Hf. destruct (negb _); [done|]. pose proof (unit_text_rest rest') as Hu. destruct (unit_text rest') as [u rest2].
  destruct (find_unit u unitMap) as [z|] eqn:Hz; [|done]. apply find_unit_some in Hz. cbn [mbind option_bind fst snd] in *.
  repeat case_match; try done; intros [= _ <-]; lia.
Qed.
Lemma duration_fuel fuel : forall d s, (String.length s <= fuel)%nat -> duration_loop fuel d s = duration_loop (String.length s) d s.
Proof.
  induction fuel as [fuel IH] using lt_wf_ind. intros d s Hs. destruct s as [|a s]; [by destruct fuel|].
  destruct fuel as [|fuel]; [simpl in Hs; lia|]. cbn [duration_loop String.length] in *.
  destruct (duration_part _) as [[v r]|] eqn:Hp; [|done]. apply duration_part_rest in Hp. cbn [mbind option_bind String.length] in *.
  destruct (_ <? _); [done|]. rewrite (IH fuel) by lia. destruct (decide (String.length s = fuel)) as [<-|]; [|rewrite (IH (String.length s)) by lia; done].
  rewrite (IH (String.length s)) by lia. done.
Qed.

(** ** [net] on CIDR texts *)

(** The text of an IPv6 network: outside the model, a parameter. *)
Class NetV6Cidr : Type := v6_cidr : string -> option (Z * Z).

(** A network as [net.IPNet] compares it: an IPv4-mapped one is an IPv4 network. *)
Inductive IPNet : Type := Net4 (p : Prefix) | Net6 (addr bits : Z).
Definition mask6 (a bits : Z) : Z := Z.shiftl (Z.shiftr a (128 - bits)) (128 - bits).
Definition net6 (a bits : Z) : IPNet :=
  let a := mask6 a bits in
  if Z.shiftr a 32 =? 65535 then Net4 (PrefixFrom (u32 a) (Z.max 0 (bits - 96))) else Net6 a bits.

(** The mask of [net.ParseCIDR]: decimal digits, of any number. *)
Definition cidr_bits (s : string) : option Z := n ← parse_dec s; if n <=? 32 then Some n else None.
Definition ParseCIDR `{NetV6Cidr} (s : string) : option IPNet :=
  match '(a, b) ← Cut "/"%char s; addr ← ParseAddr4 a; n ← cidr_bits b; Some (PrefixFrom addr n) with
  | Some p => Some (Net4 (Masked p))
  | None => '(a, b) ← v6_cidr s; Some (net6 a b)
  end.
(** [IPNet.Contains] of the other's address. *)
Definition ContainsIP (n m : IPNet) : bool :=
  match n, m with
  | Net4 p, Net4 q => Contains p (Addr_of q)
  | Net6 a b, Net6 a' _ => mask6 a' b =? mask6 a b
  | _, _ => false
  end.

(** [net.ParseIP] on IPv4 text, and loopback; IPv6 is a parameter. *)
Class NetV6Loopback : Type := v6_loopback : string -> bool.

(** ** The configuration *)

Record ServerConfig : Type := mkServerConfig { Listen : string; TLS : option bool; TLSCert : string; TLSKey : string; DataDir : string; APIDocs : option bool }.
Record WireGuardConfig : Type := mkWireGuardConfig { Network : string; ListenPort : Z; Interface : string; MTU : Z; Endpoint : string }.
Record AuthConfig : Type := mkAuthConfig { JWTSecret : string; JWTTTL : string; InviteTTL : string }.
Record LimitsConfig : Type := mkLimitsConfig
  { MaxDevicesPerUser : option Z; MaxOwnedZonesPerUser : option Z; MaxAnnouncedSubnetsPerUser : option Z }.
Record Config : Type := mkConfig
  { c_Server : ServerConfig; c_LogLevel : string; c_RPS : spec_float; c_Burst : Z; c_WireGuard : WireGuardConfig; c_Table : string;
    c_Auth : AuthConfig; c_AdminUsername : string; c_AdminPassword : string; c_Limits : LimitsConfig; c_AnnouncePool : string }.

Definition defaultPerUserLimit : Z := 10.
Definition DefaultConfigPath : string := "/etc/lanweave/config.toml".

(** [Secret]: every text of it but [Reveal] is redacted. *)
Definition SecretText (s : string) : string := "[REDACTED]".

Definition TLSEnabled (s : ServerConfig) : bool := match TLS s with None => true | Some b => b end.
Definition APIDocsEnabled (s : ServerConfig) : bool := match APIDocs s with None => true | Some b => b end.
Definition listenIsLoopback `{NetV6Loopback} (s : ServerConfig) : bool :=
  match SplitHostPort (Listen s) with
  | None => false
  | Some (host, _) =>
      if bool_decide (host = "") then false else if bool_decide (host = "localhost") then true else
      match ParseAddr4 host with Some a => Z.shiftr a 24 =? 127 | None => v6_loopback host end
  end.
Definition WarnPlaintextExposure `{NetV6Loopback} (s : ServerConfig) : bool := negb (TLSEnabled s) && negb (listenIsLoopback s).

(** ** [path/filepath] on Unix *)

(** [Join] of a directory and a name. *)
Definition JoinPath (dir name : string) : string :=
  if bool_decide (dir = "") then Clean name else Clean (dir +:+ "/" +:+ name).

Definition DBPath (c : Config) : string := JoinPath (DataDir (c_Server c)) "db.sqlite".

(** The flag, the environment, the default. *)
Definition Resolve (flagPath env : string) : string :=
  if bool_decide (flagPath <> "") then flagPath else if bool_decide (env <> "") then env else DefaultConfigPath.

Definition or_default (s d : string) : string := if bool_decide (s = "") then d else s.
Definition applyDefaults (c : Config) : Config :=
  let lim l := match l with None => Some defaultPerUserLimit | Some v => Some v end in
  mkConfig (c_Server c) (or_default (c_LogLevel c) "info") (if SFeqb (c_RPS c) (f64 0) then f64 100 else c_RPS c)
    (if c_Burst c =? 0 then 200 else c_Burst c) (c_WireGuard c) (or_default (c_Table c) "lanweave")
    (mkAuthConfig (JWTSecret (c_Auth c)) (or_default (JWTTTL (c_Auth c)) "2h") (InviteTTL (c_Auth c)))
    (c_AdminUsername c) (c_AdminPassword c)
    (mkLimitsConfig (lim (MaxDevicesPerUser (c_Limits c))) (lim (MaxOwnedZonesPerUser (c_Limits c))) (lim (MaxAnnouncedSubnetsPerUser (c_Limits c))))
    (c_AnnouncePool c).

(** [Load], given the file's text and its decoding. *)
Inductive load_err : Type := ERead | EParse.
Definition Load (read : string -> option string) (unmarshal : string -> option Config) (path : string) : res load_err Config :=
  match read path with
  | None => Err ERead
  | Some data => match unmarshal data with None => Err EParse | Some c => Ok (applyDefaults c) end
  end.

(** ** [Validate] *)

(** The file system and the certificate loader: whether a file opens, a key pair
    loads, what a path is (a directory or not), a temporary file in a directory and
    its removal. *)
Class ConfigHost : Type :=
  { ch_Open : string -> bool; ch_LoadX509KeyPair : string -> string -> bool; ch_Stat : string -> option bool;
    ch_CreateTemp : string -> option string; ch_Remove : string -> bool }.

Inductive problem : Type :=
| ListenRequired | ListenNotHostPort | FileRequired (field : string) | FileUnreadable (field : string) | KeyPairInvalid
| DataDirRequired | DataDirMissing | DataDirNotDirectory | DataDirNotWritable | LogLevelUnknown | RPSNotPositive | BurstBelowRPS
| NetworkRequired | NetworkNotCIDR | EndpointRequired | EndpointNotHostPort | TableNotBare | SecretTooShort | JWTTTLInvalid
| InviteTTLInvalid | InviteTTLNegative | AdminUsernameRequired | AdminUsernameTooLong | AdminPasswordRequired
| LimitNegative (field : string) | PoolNotIPv4CIDR | PoolOverlapsNetwork.

Section Validate.
Context `{NetV6Cidr} `{ConfigHost}.

Definition requireReadable (field path : string) : list problem :=
  if bool_decide (path = "") then [FileRequired field] else if ch_Open path then [] else [FileUnreadable field].
Definition checkWritable (dir : string) : bool := match ch_CreateTemp dir with None => false | Some name => ch_Remove name end.
Definition when (b : bool) (e : problem) : list problem := if b then [e] else [].

Definition validate_listen (s : ServerConfig) : list problem :=
  if bool_decide (Listen s = "") then [ListenRequired] else match SplitHostPort (Listen s) with None => [ListenNotHostPort] | Some _ => [] end.
Definition validate_tls (s : ServerConfig) : list problem :=
  if TLSEnabled s then
    let cert := requireReadable "server.tls_cert" (TLSCert s) in
    let key := requireReadable "server.tls_key" (TLSKey s) in
    cert ++ key ++ match cert, key with [], [] => when (negb (ch_LoadX509KeyPair (TLSCert s) (TLSKey s))) KeyPairInvalid | _, _ => [] end
  else [].
Definition validate_data_dir (s : ServerConfig) : list problem :=
  if bool_decide (DataDir s = "") then [DataDirRequired] else
  match ch_Stat (DataDir s) with
  | None => [DataDirMissing]
  | Some false => [DataDirNotDirectory]
  | Some true => when (negb (checkWritable (DataDir s))) DataDirNotWritable
  end.
Definition validate_wireguard (w : WireGuardConfig) : list problem :=
  (if bool_decide (Network w = "") then [NetworkRequired] else match ParseCIDR (Network w) with None => [NetworkNotCIDR] | Some _ => [] end) ++
  (if bool_decide (Endpoint w = "") then [EndpointRequired] else match SplitHostPort (Endpoint w) with None => [EndpointNotHostPort] | Some _ => [] end).
Definition validate_auth (a : AuthConfig) : list problem :=
  when (Z.of_nat (String.length (JWTSecret a)) <? 32) SecretTooShort ++
  match ParseDuration (JWTTTL a) with None => [JWTTTLInvalid] | Some _ => [] end ++
  (if bool_decide (InviteTTL a = "") then [] else match ParseDuration (InviteTTL a) with None => [InviteTTLInvalid] | Some d => when (d <? 0) InviteTTLNegative end).
Definition validate_admin (username password : string) : list problem :=
  (if bool_decide (username = "") then [AdminUsernameRequired] else when (64 <? Z.of_nat (String.length username)) AdminUsernameTooLong) ++
  when (bool_decide (password = "")) AdminPasswordRequired.
Definition validate_limit (field : string) (l : option Z) : list problem :=
  match l with Some v => when (v <? 0) (LimitNegative field) | None => [] end.
Definition validate_pool (pool network : string) : list problem :=
  if bool_decide (pool = "") then [] else
  match ParseCIDR pool with
  | Some (Net4 p) =>
      if bool_decide (network = "") then [] else
      match ParseCIDR network with
      | Some vpn => when (ContainsIP (Net4 p) vpn || ContainsIP vpn (Net4 p)) PoolOverlapsNetwork
      | None => []
      end
  | _ => [PoolNotIPv4CIDR]
  end.

(** The errors it joins, in their order. *)
Definition Validate (c : Config) : list problem :=
  validate_listen (c_Server c) ++ validate_tls (c_Server c) ++ validate_data_dir (c_Server c) ++
  when (bool_decide (c_LogLevel c ∉ ["debug"; "info"; "warn"; "error"])) LogLevelUnknown ++
  when (SFleb (c_RPS c) (f64 0)) RPSNotPositive ++
  when (c_Burst c <? f64_int (c_RPS c)) BurstBelowRPS ++
  validate_wireguard (c_WireGuard c) ++
  when (negb (no_char " "%char (c_Table c) && no_char (ascii_of_nat 9) (c_Table c))) TableNotBare ++
  validate_auth (c_Auth c) ++
  validate_admin (c_AdminUsername c) (c_AdminPassword c) ++
  validate_limit "limits.max_devices_per_user" (MaxDevicesPerUser (c_Limits c)) ++
  validate_limit "limits.max_owned_zones_per_user" (MaxOwnedZonesPerUser (c_Limits c)) ++
  validate_limit "limits.max_announced_subnets_per_user" (MaxAnnouncedSubnetsPerUser (c_Limits c)) ++
  validate_pool (c_AnnouncePool c) (Network (c_WireGuard c)).
End Validate.
