(* ===== verification/ConfigProps.v ===== *)
(** * What a validated configuration guarantees

    The announcement pool of a validated configuration is apart from the VPN
    network. *)
From Stdlib Require Import Ascii SpecFloat.
From S2P Require Import Prelude GoStrings Netip Ipam Codec Db StoreInv StoreUsers StoreNodes StoreAnnounce StoreOps UsersProps CascadeProps StoreEffects NodesProps AnnounceProps Netfw Wg Auth Api Sync SyncData SyncDeletes SyncQuiet Engine ServerConfig.

#[local] Open Scope lw_scope.

(** ** The two readings of a CIDR text *)

Lemma CutLast_eq c s a b : CutLast c s = Some (a, b) -> s = a +:+ String c "" +:+ b.
Proof.
  revert a. induction s as [|x s IH]; intros a; simpl; [done|]. destruct (CutLast c s) as [[a' b']|].
  - intros [= <- <-]. by rewrite (IH a') by done.
  - case_decide; [|done]. intros [= <- <-]. by subst.
Qed.
Lemma Split_chars P c s : P c = true -> Forall (fun t => chars P t = true) (Split c s) -> chars P s = true.
Proof.
  intros Hc. induction s as [|x s IH]; [done|]. cbn [Split chars]. case_decide as Hx.
  - subst x. inversion_clear 1. by rewrite Hc, IH.
  - destruct (Split c s) as [|t ts]; inversion_clear 1 as [|? ? Ht Hts]; simpl in Ht; apply andb_true_iff in Ht as [-> Ht]; by rewrite IH by (by constructor).
Qed.
Lemma parse_digits_chars acc s n : parse_digits acc s = Some n -> chars is_digit s = true.
Proof.
  revert acc. induction s as [|a s IH]; intros acc; [done|]. cbn [parse_digits chars]. destruct (digit_of a) as [d|] eqn:Hd; [|done].
  intros Hr%IH. rewrite Hr, andb_true_r. unfold is_digit. rewrite Hd. by apply bool_decide_eq_true.
Qed.
Lemma parse_octet_chars s n : parse_octet s = Some n -> chars is_digit s = true.
Proof.
  intros Ho. assert (is_Some (parse_dec s)) as [m Hm].
  { unfold parse_octet in Ho. destruct (parse_dec s) as [m|] eqn:Hm; [by exists m|]. destruct s as [|a [|b s]]; cbn in *; repeat case_match; try done. }
  unfold parse_dec in Hm. destruct s; [done|]. by eapply parse_digits_chars.
Qed.
Lemma ParseAddr4_chars s a : ParseAddr4 s = Some a -> no_char "/"%char s = true.
Proof.
  intros Ha. apply (Split_chars _ "."%char); [done|]. unfold ParseAddr4 in Ha. destruct (Split "."%char s) as [|s0 [|s1 [|s2 [|s3 [|]]]]]; try done.
  destruct (parse_octet s0) eqn:E0; [|done]. destruct (parse_octet s1) eqn:E1; [|done]. destruct (parse_octet s2) eqn:E2; [|done].
  destruct (parse_octet s3) eqn:E3; [|done]. repeat constructor; apply digits_no_char; try done; by eapply parse_octet_chars.
Qed.
Lemma parse_bits_cidr s n : parse_bits s = Some n -> cidr_bits s = Some n.
Proof. unfold parse_bits, cidr_bits. intros Hb. repeat case_match; try done. Qed.

(** What [netip.ParsePrefix] reads of an IPv4 prefix, [net.ParseCIDR] reads masked. *)
Lemma ParsePrefix_cidr `{NetipV6} `{NetV6Cidr} s p : ParsePrefix s = Some (P4 p) -> ParseCIDR s = Some (Net4 (Masked p)).
Proof.
  unfold ParsePrefix. destruct (ParsePrefix4 s) as [q|] eqn:Hq; [|by destruct (v6_prefix s) as [[]|]]. intros [= ->].
  unfold ParsePrefix4 in Hq. destruct (CutLast "/"%char s) as [[a b]|] eqn:Hcut; [|done]. apply CutLast_eq in Hcut as ->. cbn [mbind option_bind] in Hq.
  destruct (ParseAddr4 a) as [addr|] eqn:Haddr; [|done]. destruct (parse_bits b) as [bits|] eqn:Hb; [|done]. injection Hq as <-.
  unfold ParseCIDR. rewrite Cut_app by (by eapply ParseAddr4_chars). cbn [mbind option_bind]. rewrite Haddr, (parse_bits_cidr _ _ Hb). done.
Qed.

(** ** Two networks that contain neither the other's address *)

Lemma Masked_mask p : prefix_ok p -> mask_addr (Addr_of (Masked p)) (Bits p) = mask_addr (Addr_of p) (Bits p).
Proof. intros [_ Hb]. simpl. unfold mask_addr. by rewrite Z.shiftr_shiftl_l, Z.sub_diag, Z.shiftl_0_r by lia. Qed.
Lemma nets_apart p q x y : prefix_ok p -> prefix_ok q ->
  ContainsIP (Net4 (Masked p)) (Net4 (Masked q)) = false -> ContainsIP (Net4 (Masked q)) (Net4 (Masked p)) = false ->
  mask_addr (Addr_of p) (Bits p) <= x < mask_addr (Addr_of p) (Bits p) + 2 ^ (32 - Bits p) ->
  mask_addr (Addr_of q) (Bits q) <= y < mask_addr (Addr_of q) (Bits q) + 2 ^ (32 - Bits q) -> x <> y.
Proof.
  intros Hp Hq Hpq Hqp Hx Hy ->. cbn [ContainsIP] in Hpq, Hqp.
  assert (forall p q, prefix_ok p -> prefix_ok q -> Contains (Masked p) (Addr_of (Masked q)) = false ->
    ~ (mask_addr (Addr_of p) (Bits p) <= mask_addr (Addr_of q) (Bits q) < mask_addr (Addr_of p) (Bits p) + 2 ^ (32 - Bits p))) as Hout.
  { intros p' q' Hp' Hq' Hc Hin. assert (Contains (Masked p') (Addr_of (Masked q')) = true) as Ht; [|congruence].
    apply Contains_iff; [apply Hp'|]. change (Bits (Masked p')) with (Bits p'). by rewrite Masked_mask. }
  apply Hout in Hpq; [|done..]. apply Hout in Hqp; [|done..]. lia.
Qed.

Section Config.
Context `{NetipV6} `{NetV6Cidr} `{ConfigHost}.

Lemma Validate_pool c : Validate c = [] -> validate_pool (c_AnnouncePool c) (Network (c_WireGuard c)) = [].
Proof. unfold Validate. intros Hv. repeat (apply app_eq_nil in Hv as [_ Hv]). exact Hv. Qed.
Lemma validate_pool_apart pool network p q : pool <> "" -> network <> "" -> ParsePrefix pool = Some (P4 p) -> ParsePrefix network = Some (P4 q) ->
  validate_pool pool network = [] ->
  ContainsIP (Net4 (Masked p)) (Net4 (Masked q)) = false /\ ContainsIP (Net4 (Masked q)) (Net4 (Masked p)) = false.
Proof.
  intros Hpool Hnet Hp Hq. unfold validate_pool. rewrite !bool_decide_false by done.
  rewrite (ParsePrefix_cidr _ _ Hp), (ParsePrefix_cidr _ _ Hq). unfold when.
  destruct (ContainsIP (Net4 (Masked p)) _), (ContainsIP (Net4 (Masked q)) _); by simpl.
Qed.
Lemma empty_prefix p : ParsePrefix "" <> Some (P4 p).
Proof. unfold ParsePrefix. cbn. by destruct (v6_prefix "") as [[]|]. Qed.

(** The range nodes are given and the server's own address lie in the network. *)
Lemma network_range network server bits first last : FirstUsableAddress network = Ok (server, bits) -> PoolRange network = Ok (first, last) ->
  exists q, ParsePrefix network = Some (P4 q) /\ prefix_ok q /\ is_u32 first /\ is_u32 last /\ mask_addr (Addr_of q) (Bits q) < server < first /\
    last < mask_addr (Addr_of q) (Bits q) + 2 ^ (32 - Bits q) /\ server < mask_addr (Addr_of q) (Bits q) + 2 ^ (32 - Bits q).
Proof.
  unfold FirstUsableAddress. destruct (ParsePrefix network) as [[q|]|] eqn:Hq; [|done..]. destruct (30 <? Bits q) eqn:Hb; [done|]. apply Z.ltb_ge in Hb.
  destruct (negb _); [done|]. intros [= <- <-] Hr. apply ParsePrefix_ok in Hq as Hok. exists q. split; [done|]. split; [done|].
  rewrite (PoolRange_unfold _ _ Hq) in Hr. cbv zeta in Hr. destruct Hok as [Ha Hbits]. destruct (mask_addr_fits _ _ Ha Hbits) as (H3 & H4 & _).
  assert (2 ^ 2 <= 2 ^ (32 - Bits q)) by (apply Z.pow_le_mono_r; lia). simpl (Addr_of (Masked q)).
  rewrite !u32_id in Hr by (unfold is_u32; lia). rewrite (u32_id (_ + 1)) by (unfold is_u32; lia). destruct (_ <? _); [done|]. injection Hr as <- <-. unfold is_u32. split_and!; lia.
Qed.
End Config.

(** What a database keeps apart when its nodes come from the network's range and its
    blocks from the pool. *)
Definition apart (server : Addr) (d : DB) : Prop :=
  (forall n, n ∈ rows (nodes d) -> n_ip n <> server) /\
  forall a, a ∈ rows (announcements d) -> ~ in_block server (synth a) /\ forall n, n ∈ rows (nodes d) -> ~ in_block (n_ip n) (synth a).

Lemma config_apart `{NetipV6} `{NetV6Cidr} `{ConfigHost} cfg pool server bits first last d :
  Validate cfg = [] -> ParsePrefix (c_AnnouncePool cfg) = Some (P4 pool) ->
  FirstUsableAddress (Network (c_WireGuard cfg)) = Ok (server, bits) -> PoolRange (Network (c_WireGuard cfg)) = Ok (first, last) ->
  blocks_ok pool d -> (forall n, n ∈ rows (nodes d) -> first <= n_ip n <= last) -> apart server d.
Proof.
  intros Hv Hpool Hserver Hr Hblocks Hnodes. destruct (network_range _ _ _ _ _ Hserver Hr) as (q & Hq & Hqok & Hf & Hl & Hsrv & Hlast & Hin).
  assert (c_AnnouncePool cfg <> "" /\ Network (c_WireGuard cfg) <> "") as [Hne1 Hne2] by (split; intros He; rewrite He in *; by eapply empty_prefix).
  apply ParsePrefix_ok in Hpool as Hpok. destruct (validate_pool_apart _ _ pool q Hne1 Hne2 Hpool Hq (Validate_pool cfg Hv)) as [Hpq Hqp].
  split; [intros n Hn; pose proof (Hnodes n Hn); lia|].
  intros a Ha. pose proof (bk_synth _ _ Hblocks a Ha) as (_ & _ & Hlo & Hhi).
  assert (forall x, mask_addr (Addr_of q) (Bits q) <= x < mask_addr (Addr_of q) (Bits q) + 2 ^ (32 - Bits q) ->
    ~ in_block x (synth a)) as Hout; [|split; [|intros n Hn; pose proof (Hnodes n Hn)]; apply Hout; lia].
  intros x Hx Hb. apply (nets_apart pool q x x Hpok Hqok Hpq Hqp); [|done..]. destruct Hb as [Hb1 Hb2].
  split; [exact (Z.le_trans _ _ _ Hlo Hb1)|exact (Z.lt_le_trans _ _ _ Hb2 Hhi)].
Qed.

(** ** Configurations *)

Section Demo.
#[local] Instance no_v6_cidr : NetV6Cidr := fun _ => None.
#[local] Instance plain_host : ConfigHost := { ch_Open _ := true; ch_LoadX509KeyPair _ _ := true; ch_Stat _ := Some true; ch_CreateTemp _ := Some "f"; ch_Remove _ := true }.
Definition demo_config (jwt_ttl pool : string) : Config :=
  applyDefaults (mkConfig (mkServerConfig "0.0.0.0:8443" None "cert.pem" "key.pem" "/var/lib/lanweave" None) "" (f64 0) 0
    (mkWireGuardConfig "10.8.0.1/24" 51820 "lw0" 1420 "vpn.example.com:51820") ""
    (mkAuthConfig "0123456789abcdef0123456789abcdef" jwt_ttl "24h") "admin" "pw" (mkLimitsConfig None (Some 0) None) pool).
(** Problems are all reported at once, and a pool around or inside the network is one. *)
Example validate_overlap : Validate (demo_config "2weeks" "10.0.0.0/8") = [JWTTTLInvalid; PoolOverlapsNetwork].
Proof. vm_compute. reflexivity. Qed.
(** A session lifetime that is not positive is no problem to it. *)
Example validate_negative_ttl : Validate (demo_config "-2h" "") = [] /\ Validate (demo_config "0" "") = [].
Proof. vm_compute. split; reflexivity. Qed.
End Demo.
