(* ===== verification/ApiOps.v ===== *)
(** * Every request is a run of repository operations

    Whatever a request does to the store, through whichever handler and with
    whichever failures, is a run of [repo_op]s: so what holds of every run holds
    of the database of a server that serves. *)
From S2P Require Import Prelude GoStrings Netip Ipam PasswordPolicy Codec Db StoreInv StoreUsers StoreNodes StoreAnnounce StoreOps UsersProps CascadeProps StoreEffects NodesProps AnnounceProps Netfw NetfwProps Isolation Wg WgProps Auth AuthProps Api ApiZones ApiRoutes Sync SyncPlane SyncData SyncHandlers SyncDeletes SyncGrowth SyncQuiet SyncServe.

#[local] Open Scope lw_scope.

(** ** What a row's creation makes true of it, stays true *)

Section Rows.
Context `{Sqlite} (N : node_row -> Prop) (A : ann_row -> Prop).

Definition rows_all (d : DB) : Prop := (forall n, n ∈ rows (nodes d) -> N n) /\ (forall a, a ∈ rows (announcements d) -> A a).
(** Creation establishes the properties. *)
Definition created (op : repo_op) : Prop :=
  match op with
  | OpCreateNode user name key platform first last _ => forall id i now, first <= i <= last -> N (NodeRow id user name key (u32 i) now platform)
  | OpAnnounce _ node realb _ _ _ => forall id synth now, A (AnnRow id node (Base realb) (PrefixLen realb) synth now)
  | _ => True
  end.

Lemma rows_all_sub d d' : (forall n, n ∈ rows (nodes d') -> n ∈ rows (nodes d)) ->
  (forall a, a ∈ rows (announcements d') -> a ∈ rows (announcements d)) -> rows_all d -> rows_all d'.
Proof. intros Hn Ha [H1 H2]. split; auto. Qed.
Lemma create_node_rows tries user name key platform first last cap now d :
  (forall id i now, first <= i <= last -> N (NodeRow id user name key (u32 i) now platform)) -> rows_all d ->
  yields (create_node tries user name key platform first last cap now) d (fun _ d' => rows_all d').
Proof.
  intros Hnew Hd. induction tries as [|tries IH]; [apply yields_throw|]. cbn [create_node]. unfold lowestFree.
  apply yields_bind, yields_bind, yields_query, yields_ret. destruct (min_list _) as [ip|] eqn:Hmin; [|apply yields_throw].
  apply lowest_some in Hmin as [[Hr _] _]. cbn [fmap option_fmap option_map].
  apply yields_bind, yields_try_exec; [intros e; repeat case_match; try apply yields_throw; apply IH|].
  intros r d' Hf. destruct (_ && _); [apply yields_throw|]. apply yields_ret. unfold insert_node_capped in Hf.
  destruct (_ && negb _); [by injection Hf as _ <-|]. apply checked_insert_ok in Hf as (_ & _ & -> & _).
  destruct Hd as [Hn Ha]. split; [|exact Ha].
  intros n. simpl. rewrite elem_of_app, list_elem_of_singleton. intros [Hin| ->]; [by apply Hn|by apply Hnew].
Qed.

(** A method of a known effect. *)
Lemma effect_rows {B} (m : SM B) s P : effect m (s_db s) P -> (forall a d', P a d' -> rows_all (s_db s) -> rows_all d') ->
  rows_all (s_db s) -> rows_all (s_db (snd (m s))).
Proof.
  intros (Hat & Hy & _) HP Hd. destruct (m s) as [[a|e] s'] eqn:Hm; simpl.
  - eapply HP; [|done]. by eapply Hy.
  - by rewrite (Hat _ _ _ Hm).
Qed.
Lemma void_snd {B} (m : SM B) s : snd (void m s) = snd (m s).
Proof. unfold void, bind. by destruct (m s) as [[a|e] s']. Qed.
Lemma plane_rows d d' : same_plane d d' -> rows_all d -> rows_all d'.
Proof. intros []. apply rows_all_sub; intros x; by rewrite ?sp_nodes, ?sp_anns. Qed.
Lemma detached_rows zone gone ids d d' : StoreEffects.detached zone gone ids d d' -> rows_all d -> rows_all d'.
Proof. intros []. apply rows_all_sub; [intros n; by rewrite dt_nodes|intros a [Ha _]%dt_anns; done]. Qed.
Lemma CreateAdmin_quiet name hash : keeps_plane (CreateAdmin name hash).
Proof.
  apply (keeps_op (OpCreateAdmin name hash)); [apply runs_void|].
  apply quiet_bind; [apply quiet_now|]. intros now. apply quiet_bind; [apply quiet_try_exec; by apply quiet_insert|].
  intros [r|e]; [apply quiet_ret|apply quiet_throw].
Qed.
Lemma quiet_rows {B} (m : SM B) s : keeps_plane m -> rows_all (s_db s) -> rows_all (s_db (snd (m s))).
Proof. intros Hm. eapply effect_rows; [apply (Hm (s_db s))|]. intros a d'. apply plane_rows. Qed.
Lemma announced_rows pool node zone realb d ann attached d' : announced pool node zone realb d ann attached d' ->
  (forall id synth now, A (AnnRow id node (Base realb) (PrefixLen realb) synth now)) -> rows_all d -> rows_all d'.
Proof.
  intros Ha Hnew [H1 H2]. inversion Ha; subst; [done|done|]. split; [done|]. intros r. simpl.
  rewrite elem_of_app, list_elem_of_singleton. intros [Hr| ->]; [by apply H2|apply Hnew].
Qed.

Lemma CreateNode_rows user name key platform first last cap s :
  (forall id i now, first <= i <= last -> N (NodeRow id user name key (u32 i) now platform)) ->
  rows_all (s_db s) -> rows_all (s_db (snd (CreateNode user name key platform first last cap s))).
Proof.
  intros Hnew Hd. pose proof (CreateNode_effect user name key platform first last cap (s_db s)) as (Hat & _ & _).
  destruct (CreateNode _ _ _ _ _ _ _ s) as [[n|e] s'] eqn:Hm; cbn [snd]; [|by rewrite (Hat _ _ _ Hm)].
  assert (yields (CreateNode user name key platform first last cap) (s_db s) (fun _ d' => rows_all d')) as Hy; [|by eapply Hy].
  apply yields_bind, yields_now. intros now. by apply create_node_rows.
Qed.

Lemma op_rows op s : schema_ok (s_db s) -> created op -> rows_all (s_db s) -> rows_all (s_db (run_op op s)).
Proof.
  intros Hs Hop. unfold run_op. destruct op; cbn [exec_op created] in *; rewrite ?void_snd.
  all: try (apply quiet_rows; first [apply CreateAdmin_quiet|apply Register_quiet|apply CreateInvite_quiet|apply Issue_quiet|
    apply ValidateRefresh_quiet|apply Revoke_quiet|apply UpdateZonePassword_quiet]).
  - eapply effect_rows; [by apply DeleteCascade_effect|]. intros r d' Hc. apply rows_all_sub; [|by intros a [Ha _]%(cs_anns _ _ _ _ Hc)].
    intros n. rewrite (cs_nodes _ _ _ _ Hc), list_elem_of_filter. tauto.
  - by apply CreateNode_rows.
  - eapply effect_rows; [apply DeleteOwned_effect|]. intros r d' ->. unfold delete_nodes, delete_anns, keep_rows. simpl.
    apply rows_all_sub; intros x; simpl; rewrite list_elem_of_filter; tauto.
  - eapply effect_rows; [apply CreateZone_effect|]. intros z d' (_ & now & ->). done.
  - eapply effect_rows; [apply DeleteZoneRow_effect|]. by intros _ d' ->.
  - eapply effect_rows; [apply JoinZone_effect|]. by intros _ d' (l & -> & _).
  - eapply effect_rows; [apply LeaveZone_effect|]. by intros _ d' [-> _].
  - eapply effect_rows; [apply CreateAnnouncement_effect|]. intros r d' [_ Ha]. by eapply announced_rows.
  - eapply effect_rows; [apply Detach_effect|]. intros r d' [Hdt _]. by eapply detached_rows.
  - eapply effect_rows; [apply DetachAllForNodeZone_effect|]. intros r d' (recs & _ & _ & Hdt & _). by eapply detached_rows.
  - eapply effect_rows; [apply DetachAllForZone_effect|]. intros r d' (ids & Hdt & _). by eapply detached_rows.
  - done.
Qed.
Lemma run_rows ops s : schema_ok (s_db s) -> Forall created ops -> rows_all (s_db s) -> rows_all (s_db (run_ops ops s)).
Proof.
  intros Hs Hops Hd. apply (run_ops_inv (fun s => schema_ok (s_db s) /\ rows_all (s_db s)) created); [|done|done].
  intros op s' Hop [Hs' Hd']. split; [apply (exec_op_keeps op s' Hs')|by apply op_rows].
Qed.
End Rows.

(** ** Requests *)

(** What a server with these options creates: nodes from the network's range, with
    a key that parses; announcements of /16 to /30 subnets, from its pool. *)
Definition served_op `{WgTypes} `{NetipV6} (h : Options) (op : repo_op) : Prop :=
  match op with
  | OpCreateNode _ _ key _ first last _ => PoolRange (cfg_Network (h_wgConfig h)) = Ok (first, last) /\ is_Some (ParseKey key)
  | OpAnnounce _ _ realb _ _ pool => announcePool h = Some pool /\ block_ok realb /\ 16 <= PrefixLen realb <= 30
  | _ => True
  end.

Lemma run_ops_app `{Sqlite} a b s : run_ops (a ++ b) s = run_ops b (run_ops a s).
Proof. apply foldl_app. Qed.

Section ByOps.
Context {K D : Type} `{Nftables K} `{WgHost D} `{WgTypes} `{NetipV6} `{Sqlite} `{Argon2} `{JwtLib} (h : Options).
Abbreviation HM := (M Resp (World K D)).

Definition by_ops {A} (m : HM A) : Prop := forall w, exists ops,
  Forall (served_op h) ops /\ w_store (snd (m w)) = run_ops ops (w_store w).

Lemma by_ops_still {A} (m : HM A) : (forall w, w_store (snd (m w)) = w_store w) -> by_ops m.
Proof. intros Hm w. exists []. by rewrite Hm. Qed.
Lemma by_ops_ret {A} (a : A) : by_ops (ret a).
Proof. by apply by_ops_still. Qed.
Lemma by_ops_throw {A} r : by_ops (throw (A:=A) r).
Proof. by apply by_ops_still. Qed.
Lemma by_ops_gets {A} (f : World K D -> A) : by_ops (gets f).
Proof. by apply by_ops_still. Qed.
Lemma by_ops_log msg : by_ops (log_error msg).
Proof. by apply by_ops_still. Qed.
Lemma by_ops_netfw {A} (m : M unit K A) : by_ops (netfw m).
Proof. apply by_ops_still. intros w. unfold netfw. by destruct (m (w_nft w)). Qed.
Lemma by_ops_wg {A} (m : M wg_err D A) : by_ops (wg m).
Proof. apply by_ops_still. intros w. unfold wg. by destruct (m (w_wg w)). Qed.
Lemma by_ops_bind {A B} (m : HM A) (f : A -> HM B) : by_ops m -> (forall a, by_ops (f a)) -> by_ops (bind m f).
Proof.
  intros Hm Hf w. destruct (Hm w) as (ops & Hops & Hw). unfold bind. destruct (m w) as [[a|e] w1]; simpl in Hw; [|by exists ops].
  destruct (Hf a w1) as (ops' & Hops' & Hw'). exists (ops ++ ops'). split; [by apply Forall_app|]. by rewrite Hw', Hw, run_ops_app.
Qed.
Lemma by_ops_db_op {A} op (m : SM A) : runs m (exec_op op) -> served_op h op -> by_ops (db m).
Proof.
  intros Hm Hop w. exists [op]. split; [by constructor|]. unfold run_ops, run_op. simpl. rewrite (proj1 (Hm _)). unfold db.
  by destruct (m (w_store w)).
Qed.
(** Reading uses up the driver's failures: a move of the environment. *)
Lemma by_ops_db_reads {A} (m : SM A) : reads m -> by_ops (db m).
Proof.
  intros Hm w. specialize (Hm (w_store w)). unfold db. destruct (m (w_store w)) as [r [d f n bs]]. simpl in *. subst d.
  exists [OpEnv n f bs]. split; [by constructor|]. done.
Qed.
Lemma by_ops_serverError {A} : by_ops (serverError (A:=A)).
Proof. by apply by_ops_still. Qed.
Lemma by_ops_or_fail {A} known (m : HM (res serr A)) : by_ops m -> by_ops (or_fail known m).
Proof.
  intros Hm. apply by_ops_bind; [done|]. intros [a|e]; [apply by_ops_ret|].
  destruct (known e); [apply by_ops_throw|apply by_ops_serverError].
Qed.
Lemma by_ops_log_failure {E A} msg (r : res E A) : by_ops (log_failure msg r).
Proof. destruct r; [apply by_ops_ret|apply by_ops_log]. Qed.
Lemma by_ops_identity c : by_ops (identity c).
Proof. destruct c; [apply by_ops_ret|apply by_ops_throw]. Qed.
Lemma by_ops_decoded {A} (b : option A) : by_ops (decoded b).
Proof. destruct b; [apply by_ops_ret|apply by_ops_throw]. Qed.
Lemma by_ops_for_each {A} (l : list A) (f : A -> HM unit) : (forall a, by_ops (f a)) -> by_ops (for_each l f).
Proof. intros Hf. induction l as [|a l IH]; [apply by_ops_ret|]. cbn [for_each]. by apply by_ops_bind. Qed.
End ByOps.

(** ** The methods the handlers call *)

Create HintDb by_ops discriminated.
#[export] Hint Resolve by_ops_ret by_ops_throw by_ops_gets by_ops_log by_ops_netfw by_ops_wg by_ops_serverError by_ops_log_failure
  by_ops_identity by_ops_decoded : by_ops.
#[export] Hint Resolve reads_query reads_ret reads_throw reads_now reads_or_not_found HashPassword_reads : by_ops.

(** A call on the store: the operation it is, or a read. *)
Ltac store_call :=
  match goal with
  | |- by_ops _ (db (Register ?n ?p ?c)) => apply (by_ops_db_op _ (OpRegister n p c)); [apply runs_void|]
  | |- by_ops _ (db (DeleteCascade ?i)) => apply (by_ops_db_op _ (OpDeleteUser i)); [apply runs_void|]
  | |- by_ops _ (db (CreateInvite ?c ?t)) => apply (by_ops_db_op _ (OpCreateInvite c t)); [apply runs_void|]
  | |- by_ops _ (db (Issue ?u)) => apply (by_ops_db_op _ (OpIssue u)); [apply runs_void|]
  | |- by_ops _ (db (ValidateRefresh ?t)) => apply (by_ops_db_op _ (OpValidate t)); [apply runs_void|]
  | |- by_ops _ (db (Revoke ?t)) => apply (by_ops_db_op _ (OpRevoke t)); [apply runs_unit|]
  | |- by_ops _ (db (CreateNode ?u ?n ?k ?p ?f ?l ?c)) => apply (by_ops_db_op _ (OpCreateNode u n k p f l c)); [apply runs_void|]
  | |- by_ops _ (db (DeleteOwned ?u ?n)) => apply (by_ops_db_op _ (OpDeleteNode u n)); [apply runs_void|]
  | |- by_ops _ (db (CreateZone ?o ?n ?p ?c)) => apply (by_ops_db_op _ (OpCreateZone o n p c)); [apply runs_void|]
  | |- by_ops _ (db (UpdateZonePassword ?z ?p)) => apply (by_ops_db_op _ (OpUpdateZonePassword z p)); [apply runs_unit|]
  | |- by_ops _ (db (DeleteZoneRow ?z)) => apply (by_ops_db_op _ (OpDeleteZone z)); [apply runs_unit|]
  | |- by_ops _ (db (JoinZone ?z ?n)) => apply (by_ops_db_op _ (OpJoin z n)); [apply runs_unit|]
  | |- by_ops _ (db (LeaveZone ?z ?n)) => apply (by_ops_db_op _ (OpLeave z n)); [apply runs_unit|]
  | |- by_ops _ (db (CreateAnnouncement ?u ?n ?r ?z ?l ?p)) => apply (by_ops_db_op _ (OpAnnounce u n r z l p)); [apply runs_void|]
  | |- by_ops _ (db (Detach ?z ?a)) => apply (by_ops_db_op _ (OpDetach z a)); [apply runs_void|]
  | |- by_ops _ (db (DetachAllForNodeZone ?n ?z)) => apply (by_ops_db_op _ (OpDetachNodeZone n z)); [apply runs_void|]
  | |- by_ops _ (db (DetachAllForZone ?z)) => apply (by_ops_db_op _ (OpDetachZone z)); [apply runs_void|]
  | |- by_ops _ (db _) => apply by_ops_db_reads
  end.
Ltac by_ops :=
  repeat first
    [ progress intros
    | solve [auto with by_ops nocore]
    | exact I
    | progress cbv zeta
    | match goal with
      | |- by_ops _ (bind _ _) => apply by_ops_bind
      | |- by_ops _ (for_each _ _) => apply by_ops_for_each
      | |- by_ops _ (db _) => store_call
      | |- by_ops _ (or_server_error _) => unfold or_server_error
      | |- by_ops _ (or_fail _ _) => apply by_ops_or_fail
      | |- reads (bind _ _) => apply reads_bind
      | |- by_ops _ (match ?x with _ => _ end) => destruct x
      end ].
#[export] Hint Extern 1 (reads (GetByUsername _)) => apply reads_query : by_ops.

Section Handlers.
Context {K D : Type} `{Nftables K} `{WgHost D} `{WgTypes} `{NetipV6} `{Sqlite} `{Argon2} `{JwtLib} (h : Options).
Abbreviation HM := (M Resp (World K D)).
#[local] Abbreviation by_ops := (by_ops (K:=K) (D:=D) h).

Lemma healthz_ops version method : by_ops (healthz version method).
Proof. unfold healthz. by_ops. Qed.
Lemma issue_token_ops u : by_ops (issue_token h u).
Proof. unfold issue_token, now_ns. by_ops. Qed.
#[local] Hint Resolve issue_token_ops : by_ops.
Lemma recompute_peer_ops node key ip m1 m2 : by_ops (recompute_peer h node key ip m1 m2).
Proof. unfold recompute_peer, RoutesForNode. by_ops. Qed.
#[local] Hint Resolve recompute_peer_ops : by_ops.

Lemma login_ops b : by_ops (login h b).
Proof. unfold login. by_ops. Qed.
Lemma refresh_ops b : by_ops (refresh h b).
Proof. unfold refresh, GetUserByID. by_ops. Qed.
Lemma logout_ops b : by_ops (logout b).
Proof. unfold logout. by_ops. Qed.
Lemma me_ops c : by_ops (me c).
Proof. unfold me. by_ops. Qed.
Lemma register_ops b : by_ops (register b).
Proof. unfold register. by_ops. Qed.
Lemma serverInfo_ops : by_ops (serverInfo h).
Proof. unfold serverInfo. by_ops. Qed.
Lemma createInvite_ops c : by_ops (createInvite h c).
Proof. unfold createInvite. by_ops. Qed.
Lemma listInvites_ops : by_ops listInvites.
Proof. unfold listInvites, ListInvites, now_ns. by_ops. Qed.
Lemma listNodes_ops c : by_ops (listNodes c).
Proof. unfold listNodes, ListByUser, now_ns. by_ops. Qed.
Lemma deleteNode_ops c path : by_ops (deleteNode h c path).
Proof. unfold deleteNode, GetOwned, ZonesForNode, AttachmentsForNode. by_ops. Qed.
Lemma deleteUser_ops c path : by_ops (deleteUser h c path).
Proof. unfold deleteUser. by_ops. Qed.
Lemma registerNode_ops c b : by_ops (registerNode h c b).
Proof.
  unfold registerNode. apply by_ops_bind; [by_ops|]. intros id. apply by_ops_bind; [by_ops|]. intros req. cbv zeta.
  destruct (_ || _); [by_ops|]. destruct (ParseKey _) as [k|] eqn:Hk; [|by_ops]. destruct (negb _); [by_ops|].
  destruct (PoolRange _) as [[first last]|e] eqn:Hr; [|by_ops]. apply by_ops_bind.
  - apply by_ops_or_fail. store_call. split; [done|by exists k].
  - by_ops.
Qed.

(** ** Zones and announcements *)

Lemma memberZone_ops user name : by_ops (memberZone user name).
Proof. unfold memberZone, GetZoneByName, IsParticipant. by_ops. Qed.
Lemma ownedZone_ops user name : by_ops (ownedZone user name).
Proof. unfold ownedZone, GetZoneByName. by_ops. Qed.
Lemma rollbackZone_ops zone : by_ops (rollbackZone h zone).
Proof. unfold rollbackZone. by_ops. Qed.
Lemma drop_routes_ops zone dets reclaimed : by_ops (drop_routes h zone dets reclaimed).
Proof. revert reclaimed. induction dets as [|det dets IH]; intros reclaimed; cbn [drop_routes]; by_ops. Qed.
Lemma cascade_ops node zone : by_ops (cascadeNodeZoneAnnouncements h node zone).
Proof. unfold cascadeNodeZoneAnnouncements. by_ops. apply drop_routes_ops. Qed.
Lemma exit_zone_ops zone node msg : by_ops (exit_zone h zone node msg).
Proof. unfold exit_zone. by_ops. apply cascade_ops. Qed.
Lemma recomputeReclaimedPeers_ops seen dets : by_ops (recomputeReclaimedPeers h seen dets).
Proof. revert seen. induction dets as [|det dets IH]; intros seen; cbn [recomputeReclaimedPeers]; unfold GetNodeByID; by_ops. Qed.
#[local] Hint Resolve memberZone_ops ownedZone_ops rollbackZone_ops exit_zone_ops recomputeReclaimedPeers_ops : by_ops.

Lemma createZone_ops c b : by_ops (createZone h c b).
Proof. unfold createZone, GetOwned. by_ops. Qed.
Lemma joinZone_ops c name b : by_ops (joinZone h c name b).
Proof. unfold joinZone, GetZoneByName, GetOwned. by_ops. Qed.
Lemma leaveZone_ops c name b : by_ops (leaveZone h c name b).
Proof. unfold leaveZone, GetZoneByName, GetOwned. by_ops. Qed.
Lemma listZones_ops c : by_ops (listZones c).
Proof. unfold listZones, ListForUser. by_ops. Qed.
Lemma zoneMembers_ops c name : by_ops (zoneMembers c name).
Proof. unfold zoneMembers, MembersByZone. by_ops. Qed.
Lemma changeZonePassword_ops c name b : by_ops (changeZonePassword c name b).
Proof. unfold changeZonePassword. by_ops. Qed.
Lemma kickMember_ops c name path : by_ops (kickMember h c name path).
Proof. unfold kickMember, GetNodeByID. by_ops. Qed.
Lemma deleteZone_ops c name : by_ops (deleteZone h c name).
Proof. unfold deleteZone. by_ops. Qed.
Lemma rollbackAnnouncement_ops zone ann node : by_ops (rollbackAnnouncement h zone ann node).
Proof. unfold rollbackAnnouncement. by_ops. Qed.
#[local] Hint Resolve rollbackAnnouncement_ops : by_ops.
Lemma grow_dataplane_ops zone node ann : by_ops (grow_dataplane h zone node ann).
Proof. unfold grow_dataplane, RoutesForNode. by_ops. Qed.
Lemma createAnnouncement_ops c name b : by_ops (createAnnouncement h c name b).
Proof.
  unfold createAnnouncement. apply by_ops_bind; [by_ops|]. intros id. apply by_ops_bind; [by_ops|]. intros zone.
  apply by_ops_bind; [by_ops|]. intros req. destruct (announcePool h) as [pool|] eqn:Hpool; [|by_ops].
  apply by_ops_bind; [unfold GetOwned; by_ops|]. intros node. destruct (negb _); [by_ops|].
  destruct (ParsePrefix _) as [[p|]|] eqn:Hp; [|by_ops..]. cbv zeta. apply ParsePrefix_ok in Hp as Hok.
  destruct (validAnnouncedSubnet h (Masked p)) as [msg|] eqn:Hv; [by_ops|]. apply validAnnouncedSubnet_len in Hv.
  assert (prefix_ok (Masked p)) as Hm by by apply Masked_ok.
  apply by_ops_bind.
  - apply by_ops_or_fail. store_call. split; [done|]. split; [by apply BlockFromPrefix_ok|]. done.
  - intros [ann attached]. apply by_ops_bind; [unfold when; by_ops; apply grow_dataplane_ops|by_ops].
Qed.
Lemma deleteAnnouncement_ops c name path : by_ops (deleteAnnouncement h c name path).
Proof. unfold deleteAnnouncement, GetAnnouncement, getAnnouncementTx, GetNodeByID, when. by_ops. Qed.
Lemma listAnnouncements_ops c name : by_ops (listAnnouncements c name).
Proof. unfold listAnnouncements, ListByZone. by_ops. Qed.

(** ** The router *)

#[local] Hint Resolve healthz_ops login_ops refresh_ops logout_ops me_ops register_ops serverInfo_ops createInvite_ops listInvites_ops
  listNodes_ops deleteNode_ops deleteUser_ops registerNode_ops createZone_ops joinZone_ops leaveZone_ops listZones_ops zoneMembers_ops
  changeZonePassword_ops kickMember_ops deleteZone_ops createAnnouncement_ops deleteAnnouncement_ops listAnnouncements_ops : by_ops.
Lemma AuthRequired_ops (g : Request -> HM Resp) r : (forall c, by_ops (g (with_identity c r))) -> by_ops (AuthRequired h g r).
Proof. intros Hg. unfold AuthRequired, now_ns. by_ops. Qed.
Lemma AdminRequired_ops (g : Request -> HM Resp) r : by_ops (g r) -> by_ops (AdminRequired g r).
Proof. intros Hg. unfold AdminRequired. by_ops. Qed.
Lemma route_ops p f r : (p, f) ∈ routes h -> by_ops (f r).
Proof.
  unfold routes. intros Hin.
  repeat (apply elem_of_cons in Hin as [[= -> ->]|Hin];
    [repeat first [apply AuthRequired_ops; intros c | apply AdminRequired_ops]; auto with by_ops nocore|]).
  by apply not_elem_of_nil in Hin.
Qed.
Lemma NewRouter_ops allow matched method auth path b : by_ops (NewRouter h allow matched method auth path b).
Proof.
  unfold NewRouter, RateLimit. destruct (negb allow); [apply by_ops_throw|]. unfold mux, notFound.
  destruct matched as [p|]; [|apply by_ops_throw]. cbn [mbind option_bind].
  destruct (lookup_route p (routes h)) as [f|] eqn:Hf; [|apply by_ops_throw]. eapply route_ops, lookup_route_elem, Hf.
Qed.
End Handlers.

(** C7: every request is a run of repository operations. Whatever the route, the
    caller, the body and the outcome, and whatever fails on the way, what a request does
    to the store is a sequence of the repositories' operations, in which nodes are
    created from the network's range with a key that parses, and announcements are of
    /16 to /30 subnets and from the server's pool. *)
Theorem requests_are_operations {K D : Type} `{Nftables K} `{WgHost D} `{WgTypes} `{NetipV6} `{Sqlite} `{Argon2} `{JwtLib}
    h allow matched method auth path b (w : World K D) : exists ops,
  Forall (served_op h) ops /\ w_store (snd (NewRouter h allow matched method auth path b w)) = run_ops ops (w_store w).
Proof. apply NewRouter_ops. Qed.
