(* ===== verification/App.v ===== *)
(** * The server's start ([internal/server/app])

    [Run] up to the moment it serves: what a configuration file makes of the key
    file, the database, the WireGuard device and the isolation table, and of the
    options its router is built with. *)
From S2P Require Import Prelude GoStrings Netip Codec Db StoreUsers Netfw Wg Auth Api ApiZones ApiRoutes ServerConfig.
From Stdlib Require Import Ascii SpecFloat.

#[local] Open Scope lw_scope.

(** What the start asks of the process's host: the configuration file and its TOML,
    opening the database, bringing its schema up to date, binding the listener (the
    address it is bound to), and the route to a pool that is not IPv4 text
    ([netip] has it as IPv6 where [net] unmaps it). *)
Class AppHost (D : Type) : Type :=
  { ah_ReadFile : string -> option string; ah_Unmarshal : string -> option Config;
    ah_Open : string -> bool; ah_Migrate : bool; ah_Listen : string -> option string;
    ah_PoolRoute6 : string -> Z -> Z -> M wg_err D unit }.

(** The machine: the server's state, and the file system of the key file and of
    [/proc]. *)
Record Machine (K D : Type) : Type := mkMachine { m_world : World K D; m_disk : Disk }.
Arguments mkMachine {K D}.
Arguments m_world {K D}.
Arguments m_disk {K D}.

Inductive start_err : Type :=
| ELoad (e : load_err) | EInvalid (problems : list problem) | EStore | EMigrate | EAdmin (e : serr) | EServerKey (e : key_err)
| EInterface (e : wg_err) | EForward (e : key_err) | EPeers | EZoneRules | ECert | EJWTTTL | EInviteTTL | EPool
| EPoolRoute (e : wg_err) | EPanic | EListen.

(** A server that serves: the router's options, HTTPS or not, the API's pages or not,
    the limiter, the bound address, and whether the plaintext warning was given. *)
Record Serving : Type := mkServing
  { sv_options : Options; sv_tls : bool; sv_docs : bool; sv_rps : spec_float; sv_burst : Z; sv_addr : string; sv_warned : bool }.

Definition ipForwardPath : string := "/proc/sys/net/ipv4/ip_forward".
(** [os.WriteFile] with mode 0644. *)
Definition EnableIPv4Forward : M key_err Disk unit :=
  let write data d := put_file ipForwardPath (data, match files d !! ipForwardPath with Some (_, m) => m | None => 420 end) d in
  let data := "1" +:+ nl_string in
  disk_call EWrite (fun n => write (String.substring 0 n data)) (fun d => (Ok tt, write data d)).

Section App.
Context {K D : Type} `{Nftables K} `{WgHost D} `{WgTypes} `{NetipV6} `{Sqlite} `{Argon2}.
Context `{NetV6Cidr} `{NetV6Loopback} `{ConfigHost} `{!AppHost D}.

Abbreviation AM := (M start_err (Machine K D)).

(** A call on a part of the machine. *)
Definition on_disk {A} (wrap : key_err -> start_err) (m : M key_err Disk A) : AM A := fun s =>
  let '(r, d) := m (m_disk s) in
  (match r with Ok a => Ok a | Err e => Err (wrap e) end, mkMachine (m_world s) d).
Definition on_wg {A} (wrap : wg_err -> start_err) (m : M wg_err D A) : AM A := fun s =>
  let w := m_world s in
  let '(r, d) := m (w_wg w) in
  (match r with Ok a => Ok a | Err e => Err (wrap e) end,
   mkMachine (mkWorld (w_store w) (w_nanos w) (w_nft w) d (w_status w) (w_log w)) (m_disk s)).
Definition on_store {A} (wrap : serr -> start_err) (m : SM A) : AM A := fun s =>
  let w := m_world s in
  let '(r, st) := m (w_store w) in
  (match r with Ok a => Ok a | Err e => Err (wrap e) end,
   mkMachine (mkWorld st (w_nanos w) (w_nft w) (w_wg w) (w_status w) (w_log w)) (m_disk s)).
Definition on_world {A} (e : start_err) (m : M unit (World K D) A) : AM A := fun s =>
  let '(r, w) := m (m_world s) in (match r with Ok a => Ok a | Err _ => Err e end, mkMachine w (m_disk s)).
Definition check {A} (e : start_err) (o : option A) : AM A := match o with Some a => ret a | None => throw e end.
Definition ensure (e : start_err) (b : bool) : AM unit := if b then ret tt else throw e.

Definition wg_config (w : WireGuardConfig) : WgConfig := mkWgCfg (Interface w) (Network w) (ListenPort w) (MTU w).

(** [setupDataPlane]; the manager is its table. Closing the handles on a failure
    changes nothing. *)
Definition setupDataPlane (cfg : Config) : AM (Server * string) :=
  let! (key, generated) := on_disk EServerKey (LoadOrGenerateKey (JoinPath (DataDir (c_Server cfg)) "wg_private")) in
  let! srv := on_wg EInterface (EnsureInterface (wg_config (c_WireGuard cfg)) key) in
  do! on_disk EForward EnableIPv4Forward in
  ret (srv, c_Table cfg).

(** A field behind a pointer: [nil] panics. *)
Definition deref {A} (o : option A) : AM A := check EPanic o.

Definition invite_ttl (cfg : Config) : AM Z :=
  if bool_decide (InviteTTL (c_Auth cfg) = "") then ret 0 else check EInviteTTL (ParseDuration (InviteTTL (c_Auth cfg))).
Definition announce_pool (cfg : Config) (srv : Server) : AM (option AnyPrefix) :=
  if bool_decide (c_AnnouncePool cfg = "") then ret None else
  let! pool := check EPool (ParsePrefix (c_AnnouncePool cfg)) in
  do! on_wg EPoolRoute (match pool with P4 p => EnsurePoolRoute srv p | P6 a b => ah_PoolRoute6 (srv_name srv) a b end) in
  ret (Some pool).
(** The options of [api.NewRouter]. *)
Definition router_options (version : string) (cfg : Config) (srv : Server) (table : string) (jwt : JWTManager) (ttl : Z)
    (pool : option AnyPrefix) : AM Options :=
  let! devices := deref (MaxDevicesPerUser (c_Limits cfg)) in
  let! owned := deref (MaxOwnedZonesPerUser (c_Limits cfg)) in
  let! announced := deref (MaxAnnouncedSubnetsPerUser (c_Limits cfg)) in
  ret (mkOptions version jwt srv table (wg_config (c_WireGuard cfg)) (Endpoint (c_WireGuard cfg)) devices owned announced pool ttl).

(** [rebuildNodePeers] and [rebuildZoneRules] look at nothing but the server and the
    table. *)
Definition dataplane_options (srv : Server) (table : string) : Options :=
  mkOptions "" (mkJWTManager "" 0) srv table (mkWgCfg "" "" 0 0) "" 0 0 0 None 0.

(** The data plane of a configuration: interface, peers and rules from the database. *)
Definition start_dataplane (cfg : Config) : AM (Server * string) :=
  let! (srv, table) := setupDataPlane cfg in
  do! on_world EPeers (rebuildNodePeers (dataplane_options srv table)) in
  do! on_world EZoneRules (rebuildZoneRules (dataplane_options srv table)) in
  ret (srv, table).
(** [status.New]: nothing has been polled yet. *)
Definition new_tracker : AM unit := fun s =>
  let w := m_world s in
  (Ok tt, mkMachine (mkWorld (w_store w) (w_nanos w) (w_nft w) (w_wg w) NewTracker (w_log w)) (m_disk s)).

(** [Run] with a valid configuration and its database open. *)
Definition start_serving (version : string) (cfg : Config) : AM Serving :=
  do! on_store EAdmin (EnsureAdmin (c_AdminUsername cfg) (c_AdminPassword cfg)) in
  let! (srv, table) := start_dataplane cfg in
  do! new_tracker in
  do! (if TLSEnabled (c_Server cfg) then ensure ECert (ch_LoadX509KeyPair (TLSCert (c_Server cfg)) (TLSKey (c_Server cfg))) else ret tt) in
  let! jwtTTL := check EJWTTTL (ParseDuration (JWTTTL (c_Auth cfg))) in
  let! ttl := invite_ttl cfg in
  let! pool := announce_pool cfg srv in
  let! opts := router_options version cfg srv table (mkJWTManager (JWTSecret (c_Auth cfg)) jwtTTL) ttl pool in
  let! addr := check EListen (ah_Listen (Listen (c_Server cfg))) in
  ret (mkServing opts (TLSEnabled (c_Server cfg)) (APIDocsEnabled (c_Server cfg)) (c_RPS cfg) (c_Burst cfg) addr
         (WarnPlaintextExposure (c_Server cfg))).
(** [Run] with a configuration that was loaded. *)
Definition run_config (version : string) (cfg : Config) : AM Serving :=
  do! (match Validate cfg with [] => ret tt | problems => throw (EInvalid problems) end) in
  do! ensure EStore (ah_Open (DBPath cfg)) in
  do! ensure EMigrate ah_Migrate in
  start_serving version cfg.
Definition Run (version path : string) : AM Serving :=
  match Load ah_ReadFile ah_Unmarshal path with
  | Err e => throw (ELoad e)
  | Ok cfg => run_config version cfg
  end.
End App.
