(* ===== verification/AppProps.v ===== *)
(** * A server started from its configuration, over its whole life

    What [Run] leaves when it serves, and what holds of the database however the
    server lives: requests with any outcome, failures, restarts. *)
From S2P Require Import Prelude GoStrings Netip Ipam PasswordPolicy Codec Db StoreInv StoreUsers StoreNodes StoreAnnounce StoreOps UsersProps CascadeProps StoreEffects NodesProps AnnounceProps Netfw NetfwProps Isolation Wg WgProps Auth AuthProps Api ApiZones ApiRoutes Sync SyncPlane SyncData SyncHandlers SyncDeletes SyncGrowth SyncQuiet SyncServe ServerConfig ConfigProps ApiOps App.

#[local] Open Scope lw_scope.

(** ** The data of a server *)

(** All of [data_ok] but that no key is registered in two spellings, which no check
    of the server ensures. *)
Definition data_sound `{WgTypes} (pool : Prefix) (first last : Addr) (d : DB) : Prop :=
  schema_ok d /\ blocks_ok pool d /\
  rows_all (fun n => (is_u32 (n_ip n) /\ first <= n_ip n <= last) /\ is_Some (ParseKey (n_key n))) (fun a => a_len a < 32) d.
Definition no_respelling `{WgTypes} (d : DB) : Prop :=
  forall n n', n ∈ rows (nodes d) -> n' ∈ rows (nodes d) -> ParseKey (n_key n) = ParseKey (n_key n') -> n = n'.

Lemma sound_data_ok `{WgTypes} pool first last d : data_sound pool first last d -> no_respelling d -> data_ok pool d.
Proof. intros (Hs & Hb & Hn & Ha) Hk. constructor; [done|done| |done| |done]; intros n Hin; apply (Hn n Hin). Qed.
Lemma empty_sound `{WgTypes} pool first last : data_sound pool first last empty_db.
Proof. split_and!; [apply empty_db_ok|apply empty_blocks_ok|]. split; by intros x ?%not_elem_of_nil. Qed.

Section Sound.
Context `{WgTypes} `{NetipV6} `{Sqlite} (h : Options) (pool : Prefix) (first last : Addr).
Context (Hpool : prefix_ok pool) (Hfrom : announces_from h pool) (Hrange : PoolRange (cfg_Network (h_wgConfig h)) = Ok (first, last)).

Lemma ops_sound ops s : Forall (served_op h) ops -> data_sound pool first last (s_db s) -> data_sound pool first last (s_db (run_ops ops s)).
Proof.
  intros Hops (Hs & Hb & Hr). destruct (PoolRange_u32 _ _ _ Hrange) as [Hf Hl]. split_and!.
  - by apply run_ops_schema.
  - assert (Forall (op_ok (fun _ => True) (announce_ok pool)) ops) as Hann.
    { eapply Forall_impl; [exact Hops|]. intros [] Hop; try done; cbn in *; [|by apply Forall_true].
      destruct Hop as (Hp & Hok & _). by rewrite (Hfrom _ Hp). }
    by apply run_blocks.
  - apply run_rows; [done| |done]. eapply Forall_impl; [exact Hops|]. intros [] Hop; try done; cbn in *.
    + destruct Hop as [Heq Hk]. rewrite Hrange in Heq. injection Heq as <- <-. intros id i now Hi.
      rewrite u32_id by (unfold is_u32 in *; lia). split; [|done]. split; [unfold is_u32 in *; lia|done].
    + intros. lia.
Qed.
End Sound.

(** ** A start, step by step *)

(** Netlink's calls on links and routes do not touch WireGuard's configuration. *)
Class WgRouteLaws (D : Type) `{WgHostLaws D} `{!AppHost D} : Prop :=
  { link_view n g r g' : LinkByName n g = (r, g') -> forall m, wg_view g' m = wg_view g m;
    route_view n p g r g' : RouteReplace n p g = (r, g') -> forall m, wg_view g' m = wg_view g m;
    route6_view n a b g r g' : ah_PoolRoute6 n a b g = (r, g') -> forall m, wg_view g' m = wg_view g m }.

Section Start.
Context {K D : Type} `{NftablesLaws K} `{WgHostLaws D} `{WgTypesLaws} `{NetipV6} `{Sqlite} `{Argon2} `{JwtLib}.
Context `{NetV6Cidr} `{NetV6Loopback} `{ConfigHost} `{!AppHost D} `{!WgRouteLaws D}.
Abbreviation AM := (M start_err (Machine K D)).

Definition with_world (w : World K D) (s : Machine K D) : Machine K D := mkMachine w (m_disk s).
Definition with_store (st : Store) (w : World K D) : World K D := mkWorld st (w_nanos w) (w_nft w) (w_wg w) (w_status w) (w_log w).
Definition with_wg (g : D) (w : World K D) : World K D := mkWorld (w_store w) (w_nanos w) (w_nft w) g (w_status w) (w_log w).

Lemma start_bind {A B} (m : AM A) (f : A -> AM B) s b s' : bind m f s = (Ok b, s') ->
  exists a s1, m s = (Ok a, s1) /\ f a s1 = (Ok b, s').
Proof. unfold bind. destruct (m s) as [[a|e] s1]; [|done]. by exists a, s1. Qed.
Lemma on_disk_ok {A} wrap (m : M key_err Disk A) (s : Machine K D) a s' : on_disk wrap m s = (Ok a, s') ->
  exists d, m (m_disk s) = (Ok a, d) /\ s' = mkMachine (m_world s) d.
Proof. unfold on_disk. destruct (m (m_disk s)) as [[x|e] d]; [|done]. intros [= -> <-]. by exists d. Qed.
Lemma on_wg_ok {A} wrap (m : M wg_err D A) (s : Machine K D) a s' : on_wg wrap m s = (Ok a, s') ->
  exists g, m (w_wg (m_world s)) = (Ok a, g) /\ s' = with_world (with_wg g (m_world s)) s.
Proof. unfold on_wg. destruct (m (w_wg (m_world s))) as [[x|e] g]; [|done]. intros [= -> <-]. by exists g. Qed.
Lemma on_store_ok {A} wrap (m : SM A) (s : Machine K D) a s' : on_store wrap m s = (Ok a, s') ->
  exists st, m (w_store (m_world s)) = (Ok a, st) /\ s' = with_world (with_store st (m_world s)) s.
Proof. unfold on_store. destruct (m (w_store (m_world s))) as [[x|e] st]; [|done]. intros [= -> <-]. by exists st. Qed.
Lemma on_world_ok {A} e (m : M unit (World K D) A) s a s' : on_world e m s = (Ok a, s') ->
  exists w, m (m_world s) = (Ok a, w) /\ s' = with_world w s.
Proof. unfold on_world. destruct (m (m_world s)) as [[x|x] w]; [|done]. intros [= -> <-]. by exists w. Qed.
Lemma check_ok {A} e (o : option A) (s : Machine K D) a s' : check e o s = (Ok a, s') -> o = Some a /\ s' = s.
Proof. destruct o; [|done]. by intros [= -> ->]. Qed.
Lemma ensure_ok e b (s s' : Machine K D) u : ensure e b s = (Ok u, s') -> b = true /\ s' = s.
Proof. destruct b; [|done]. by intros [= <- <-]. Qed.

(** The interface, the peers and the rules. *)
Lemma start_dataplane_inv cfg s srv table s' : start_dataplane cfg s = (Ok (srv, table), s') ->
  exists key generated d g,
    LoadOrGenerateKey (JoinPath (DataDir (c_Server cfg)) "wg_private") (m_disk s) = (Ok (key, generated), d) /\
    EnsureInterface (wg_config (c_WireGuard cfg)) key (w_wg (m_world s)) = (Ok srv, g) /\
    EnableIPv4Forward d = (Ok tt, m_disk s') /\ table = c_Table cfg /\
    rebuild_dataplane (dataplane_options srv table) (with_wg g (m_world s)) = (Ok tt, m_world s').
Proof.
  unfold start_dataplane, setupDataPlane. intros ([srv0 table0] & s3 & Hset & Hrest)%start_bind.
  apply start_bind in Hset as ([key generated] & s1 & (d & Hkey & ->)%on_disk_ok & Hset).
  apply start_bind in Hset as (srv1 & s2 & (g & Hif & ->)%on_wg_ok & Hset).
  apply start_bind in Hset as ([] & s4 & (d4 & Hfw & ->)%on_disk_ok & Hret). injection Hret as -> <- <-.
  apply start_bind in Hrest as ([] & s5 & (w5 & Hp & ->)%on_world_ok & Hrest).
  apply start_bind in Hrest as ([] & s6 & (w6 & Hz & ->)%on_world_ok & Hret). injection Hret as <- <- <-.
  exists key, generated, d, g. split_and!; [done..|]. unfold rebuild_dataplane, bind. cbn in Hp. rewrite Hp. exact Hz.
Qed.

Lemma host_view {A} (m : M nl_err D A) g r g' : (forall r g', m g = (r, g') -> forall n, wg_view g' n = wg_view g n) ->
  host m g = (r, g') -> forall n, wg_view g' n = wg_view g n.
Proof. intros Hm Hr%host_inv. destruct r as [a|x]; [exact (Hm _ _ Hr)|destruct Hr as [e He]; exact (Hm _ _ He)]. Qed.
Lemma pool_route_view srv p g r g' : EnsurePoolRoute srv p g = (r, g') -> forall m, wg_view g' m = wg_view g m.
Proof.
  unfold EnsurePoolRoute, bind. destruct (host (LinkByName _) g) as [[ty|e] g1] eqn:Hl.
  - intros Hr m. rewrite (host_view _ _ _ _ (route_view _ _ g1) Hr). apply (host_view _ _ _ _ (link_view _ g) Hl).
  - intros [= _ <-]. exact (host_view _ _ _ _ (link_view _ g) Hl).
Qed.
Lemma announce_pool_inv cfg srv s pool s' : announce_pool cfg srv s = (Ok pool, s') ->
  (exists g, s' = with_world (with_wg g (m_world s)) s /\ forall m, wg_view g m = wg_view (w_wg (m_world s)) m) /\
  pool = (if bool_decide (c_AnnouncePool cfg = "") then None else ParsePrefix (c_AnnouncePool cfg)) /\
  (c_AnnouncePool cfg <> "" -> is_Some pool).
Proof.
  unfold announce_pool. case_bool_decide as He.
  - intros [= <- <-]. split; [|done]. exists (w_wg (m_world s)). split; [by destruct s as [[] ?]|done].
  - intros (p & s1 & [Hp ->]%check_ok & Hrun)%start_bind. apply start_bind in Hrun as ([] & s2 & (g & Hg & ->)%on_wg_ok & [= <- <-]).
    split; [|split; [done|by exists p]]. exists g. split; [done|].
    destruct p as [p|a b]; [by eapply pool_route_view|by eapply route6_view].
Qed.
Lemma invite_ttl_inv cfg s ttl (s' : Machine K D) : invite_ttl cfg s = (Ok ttl, s') ->
  s' = s /\ Some ttl = (if bool_decide (InviteTTL (c_Auth cfg) = "") then Some 0 else ParseDuration (InviteTTL (c_Auth cfg))).
Proof. unfold invite_ttl. case_bool_decide; [by intros [= <- <-]|]. by intros [-> ->]%check_ok. Qed.
Lemma router_options_inv version cfg srv table jwt ttl pool s opts (s' : Machine K D) :
  router_options version cfg srv table jwt ttl pool s = (Ok opts, s') -> s' = s /\ exists devices owned announced,
    c_Limits cfg = mkLimitsConfig (Some devices) (Some owned) (Some announced) /\
    opts = mkOptions version jwt srv table (wg_config (c_WireGuard cfg)) (Endpoint (c_WireGuard cfg)) devices owned announced pool ttl.
Proof.
  unfold router_options, deref. intros (x & s1 & [Hx ->]%check_ok & Hrun)%start_bind. apply start_bind in Hrun as (y & s2 & [Hy ->]%check_ok & Hrun).
  apply start_bind in Hrun as (z & s3 & [Hz ->]%check_ok & [= <- <-]). split; [done|]. exists x, y, z. split; [|done].
  destruct (c_Limits cfg); simpl in *; by subst.
Qed.

(** What a start that serves went through. *)
Lemma run_config_inv version cfg s sv s' : run_config version cfg s = (Ok sv, s') ->
  Validate cfg = [] /\ exists st srv w jwtTTL ttl devices owned announced addr,
    EnsureAdmin (c_AdminUsername cfg) (c_AdminPassword cfg) (w_store (m_world s)) = (Ok tt, st) /\
    start_dataplane cfg (with_world (with_store st (m_world s)) s) = (Ok (srv, c_Table cfg), mkMachine w (m_disk s')) /\
    ParseDuration (JWTTTL (c_Auth cfg)) = Some jwtTTL /\
    Some ttl = (if bool_decide (InviteTTL (c_Auth cfg) = "") then Some 0 else ParseDuration (InviteTTL (c_Auth cfg))) /\
    c_Limits cfg = mkLimitsConfig (Some devices) (Some owned) (Some announced) /\
    let pool := if bool_decide (c_AnnouncePool cfg = "") then None else ParsePrefix (c_AnnouncePool cfg) in
    (c_AnnouncePool cfg <> "" -> is_Some pool) /\
    sv = mkServing (mkOptions version (mkJWTManager (JWTSecret (c_Auth cfg)) jwtTTL) srv (c_Table cfg) (wg_config (c_WireGuard cfg))
           (Endpoint (c_WireGuard cfg)) devices owned announced pool ttl)
           (TLSEnabled (c_Server cfg)) (APIDocsEnabled (c_Server cfg)) (c_RPS cfg) (c_Burst cfg) addr (WarnPlaintextExposure (c_Server cfg)) /\
    w_store (m_world s') = w_store w /\ w_nft (m_world s') = w_nft w /\
    (forall n, wg_view (w_wg (m_world s')) n = wg_view (w_wg w) n).
Proof.
  unfold run_config, start_serving. intros ([] & s0 & Hv & Hrun)%start_bind.
  destruct (Validate cfg) as [|p ps]; [|done]. injection Hv as <-. split; [done|].
  apply start_bind in Hrun as ([] & s1 & [_ ->]%ensure_ok & Hrun). apply start_bind in Hrun as ([] & s2 & [_ ->]%ensure_ok & Hrun).
  apply start_bind in Hrun as ([] & s3 & (st & Hadmin & ->)%on_store_ok & Hrun).
  apply start_bind in Hrun as ([srv table] & s4 & Hup & Hrun). apply start_bind in Hrun as ([] & s5 & [= <-] & Hrun).
  apply start_bind in Hrun as ([] & s6 & Hcert & Hrun).
  assert (s6 = mkMachine (mkWorld (w_store (m_world s4)) (w_nanos (m_world s4)) (w_nft (m_world s4)) (w_wg (m_world s4)) NewTracker (w_log (m_world s4))) (m_disk s4)) as ->.
  { destruct (TLSEnabled _); [by apply ensure_ok in Hcert as [_ ->]|by injection Hcert]. }
  apply start_bind in Hrun as (jwtTTL & s7 & [Hj ->]%check_ok & Hrun). apply start_bind in Hrun as (ttl & s8 & [-> Ht]%invite_ttl_inv & Hrun).
  apply start_bind in Hrun as (pool & s9 & ((g & -> & Hg) & Hpool & Hsome)%announce_pool_inv & Hrun).
  apply start_bind in Hrun as (opts & s10 & [-> (x & y & z & Hl & ->)]%router_options_inv & Hrun).
  apply start_bind in Hrun as (addr & s11 & [_ ->]%check_ok & [= <- <-]).
  assert (table = c_Table cfg) as -> by (by apply start_dataplane_inv in Hup as (? & ? & ? & ? & _ & _ & _ & -> & _)).
  exists st, srv, (m_world s4), jwtTTL, ttl, x, y, z, addr. cbv zeta. rewrite <- Hpool. split_and!; try done. by destruct s4.
Qed.

(** ** The first administrator *)

Definition plane_kept (d : DB) (s : Store) : Prop := schema_ok (s_db s) /\ same_plane d (s_db s).
Lemma keeps_pres {A} (m : SM A) d : keeps_plane m -> pres (plane_kept d) m.
Proof.
  intros Hm s [Hs Hd]. destruct (Hm (s_db s)) as (Hat & Hy & Hk). split; [by apply Hk|].
  destruct (m s) as [[a|e] s1] eqn:Hrun; cbn [snd]; [|by rewrite (Hat _ _ _ Hrun)].
  eapply same_plane_trans; [exact Hd|exact (Hy s a s1 eq_refl Hrun)].
Qed.
Lemma EnsureAdmin_pres user pw d : pres (plane_kept d) (EnsureAdmin user pw).
Proof.
  unfold EnsureAdmin. case_bool_decide; [apply pres_throw|]. apply pres_bind; [apply keeps_pres, keeps_reads, reads_query|].
  intros [u|]; [apply pres_ret|]. apply pres_bind; [apply keeps_pres, keeps_reads, HashPassword_reads|]. intros hash.
  apply pres_bind; [apply pres_try, keeps_pres, CreateAdmin_quiet|]. intros [u|[]]; first [apply pres_ret|apply pres_throw].
Qed.
Lemma plane_sound pool first last d d' : same_plane d d' -> schema_ok d' -> data_sound pool first last d -> data_sound pool first last d'.
Proof.
  intros Hp Hs (_ & Hb & Hr). split; [done|]. split; [|by eapply plane_rows].
  eapply blocks_ok_sub; [|exact Hb]. by rewrite (sp_anns _ _ Hp).
Qed.

(** ** The start that serves *)

Definition pool_text (cfg : Config) : option AnyPrefix :=
  if bool_decide (c_AnnouncePool cfg = "") then None else ParsePrefix (c_AnnouncePool cfg).

Lemma Run_inv version path s sv s' : Run version path s = (Ok sv, s') ->
  exists cfg, Load ah_ReadFile ah_Unmarshal path = Ok cfg /\ run_config version cfg s = (Ok sv, s').
Proof. unfold Run. destruct (Load _ _ _) as [cfg|e]; [by exists cfg|done]. Qed.

Lemma setup_db cfg s srv table w d : start_dataplane cfg s = (Ok (srv, table), mkMachine w d) ->
  exists g, rebuild_dataplane (dataplane_options srv table) (with_wg g (m_world s)) = (Ok tt, w).
Proof. intros (key & gen & d1 & g & _ & _ & _ & _ & Hr)%start_dataplane_inv. by exists g. Qed.

(** A start that serves leaves a relay that runs, on the database it found and its
    administrator. *)
Lemma started_running version cfg s sv s' pool first last : run_config version cfg s = (Ok sv, s') ->
  data_sound pool first last (s_db (w_store (m_world s))) -> no_respelling (s_db (w_store (m_world s))) ->
  running (sv_options sv) pool (m_world s').
Proof.
  intros (Hv & st & srv & w & jwtTTL & ttl & x & y & z & addr & Hadmin & Hup & _ & _ & _ & _ & -> & Hst & Hn & Hg)%run_config_inv Hd Hk.
  apply setup_db in Hup as (g & Hr). cbn [m_world with_world] in Hr.
  pose proof (EnsureAdmin_pres (c_AdminUsername cfg) (c_AdminPassword cfg) (s_db (w_store (m_world s))) (w_store (m_world s))
    (conj (proj1 Hd) (same_plane_refl _))) as Hp. rewrite Hadmin in Hp. destruct Hp as [Hs Hp]. cbn [snd] in Hs, Hp.
  apply running_elapse with w.
  - eapply running_boot; [|exact Hr]. eapply sound_data_ok; [by eapply plane_sound|].
    intros n n'. cbn. rewrite (sp_nodes _ _ Hp). apply Hk.
  - by rewrite Hst.
  - done.
  - unfold device. by rewrite Hg.
Qed.
Lemma rebuild_db h (w w' : World K D) : schema_ok (s_db (w_store w)) -> rebuild_dataplane h w = (Ok tt, w') ->
  s_db (w_store w') = s_db (w_store w).
Proof.
  intros Hs. unfold rebuild_dataplane, bind. destruct (rebuildNodePeers h w) as [[[]|] w1] eqn:Hp; [|done].
  unfold rebuildNodePeers, bind in Hp.
  destruct (boot (db AllForPeers) w) as [[ns|] w2] eqn:E1; [|done]. apply boot_query in E1 as (-> & D1 & _).
  destruct (boot (db RoutesByNode) w2) as [[rn|] w3] eqn:E2; [|done]. apply boot_query in E2 as (-> & D2 & _).
  apply boot_wg in Hp as (_ & S3 & _). assert (s_db (w_store w1) = s_db (w_store w)) as Hw1 by by rewrite S3, D2, D1.
  intros (D4 & _)%rebuild_rules_sync; [by rewrite D4|by rewrite Hw1].
Qed.
Lemma started_sound version cfg s sv s' pool first last : run_config version cfg s = (Ok sv, s') ->
  data_sound pool first last (s_db (w_store (m_world s))) ->
  data_sound pool first last (s_db (w_store (m_world s'))) /\ same_plane (s_db (w_store (m_world s))) (s_db (w_store (m_world s'))).
Proof.
  intros (Hv & st & srv & w & jwtTTL & ttl & x & y & z & addr & Hadmin & Hup & _ & _ & _ & _ & -> & Hst & Hn & Hg)%run_config_inv Hd.
  pose proof (EnsureAdmin_pres (c_AdminUsername cfg) (c_AdminPassword cfg) (s_db (w_store (m_world s))) (w_store (m_world s))
    (conj (proj1 Hd) (same_plane_refl _))) as Hp. rewrite Hadmin in Hp. destruct Hp as [Hs Hp]. cbn [snd] in Hs, Hp.
  apply setup_db in Hup as (g & Hr). cbn [m_world with_world] in Hr. apply rebuild_db in Hr; [|done].
  rewrite Hst, Hr. cbn [w_store with_wg with_store]. split; [by eapply plane_sound|done].
Qed.
End Start.

(** ** A first start, on a bare host *)

#[local] Instance no_v6 : NetipV6 := fun _ => None.
#[local] Instance no_v6_cidr : NetV6Cidr := fun _ => None.
#[local] Instance no_v6_loopback : NetV6Loopback := fun _ => false.
Definition plain_host : ConfigHost :=
  {| ch_Open _ := true; ch_LoadX509KeyPair _ _ := true; ch_Stat _ := Some true; ch_CreateTemp _ := Some "f"; ch_Remove _ := true |}.
(** Its configuration file is ["toml"], and its listener binds what it is asked to. *)
Definition sim_app : AppHost SimHost :=
  {| ah_ReadFile p := if decide (p = DefaultConfigPath) then Some "toml" else None;
     ah_Unmarshal t := if decide (t = "toml") then Some (demo_config "" "100.64.0.0/16") else None;
     ah_Open _ := true; ah_Migrate := true; ah_Listen s := Some s; ah_PoolRoute6 n a b := ret tt |}.
#[local] Existing Instance plain_host.
#[local] Existing Instance sim_app.
Lemma sim_app_laws : WgRouteLaws SimHost.
Proof. constructor; [intros n g r g' [= _ <-]|intros n p g r g' [= _ <-]|intros n a b g r g' [= _ <-]]; done. Qed.

Definition machine_of (d : DB) (disk : Disk) : Machine Ruleset SimHost :=
  mkMachine (mkWorld (mkStore d [] 100 [demo_salt]) 0 ∅ bare_host NewTracker []) disk.
Definition fresh_machine : Machine Ruleset SimHost := machine_of empty_db empty_disk.
Definition app_config : Config := demo_config "" "100.64.0.0/16".
Definition app_options : Options :=
  mkOptions "1" (mkJWTManager "0123456789abcdef0123456789abcdef" 7200000000000) (mkServer "lw0" (PublicKeyOf (GeneratePrivateKey [7; 7])))
    "lanweave" (mkWgCfg "lw0" "10.8.0.1/24" 51820 1420) "vpn.example.com:51820" 10 0 10 (Some (P4 (PrefixFrom 1681915904 16))) 86400000000000.
Definition app_serving : Serving := mkServing app_options true true (f64 100) 200 "0.0.0.0:8443" false.
Definition first_start : Machine Ruleset SimHost := snd (run_config "1" app_config fresh_machine).
Lemma first_run : run_config "1" app_config fresh_machine = (Ok app_serving, first_start).
Proof. apply (run_pair (run_config "1" app_config fresh_machine)). by vm_compute. Qed.
