(* ===== verification/Life.v ===== *)
(** * The life of a server

    A server is started on an empty database, serves requests of any outcome, is
    killed in the middle of one, and is started again on what is left, by
    configurations that agree on the network and the pool. *)
From S2P Require Import Prelude GoStrings Netip Ipam PasswordPolicy Codec Db StoreInv StoreUsers StoreNodes StoreAnnounce StoreOps UsersProps CascadeProps StoreEffects NodesProps AnnounceProps Netfw NetfwProps Isolation Wg WgProps Auth AuthProps Api ApiZones ApiRoutes Sync SyncPlane SyncData SyncHandlers SyncDeletes SyncGrowth SyncQuiet SyncServe ServerConfig ConfigProps ApiOps App AppProps.

#[local] Open Scope lw_scope.

Lemma may_send_plane d d' src dst : same_plane d d' -> may_send d' src dst <-> may_send d src dst.
Proof. intros []. unfold may_send, in_zone, announced_into. by rewrite sp_nodes, sp_members, sp_anns, sp_attach. Qed.

Section Life.
Context {K D : Type} `{NftablesLaws K} `{WgHostLaws D} `{WgTypesLaws} `{NetipV6} `{Sqlite} `{Argon2} `{JwtLib} `{NetV6Cidr} `{NetV6Loopback}.
Context (network poolText : string).

(** One start, on a host and a configuration of its own, that ends serving. *)
Inductive boots (m : Machine K D) : Options -> Machine K D -> Prop :=
| boots_intro `{ConfigHost} `{!AppHost D} `{!WgRouteLaws D} version cfg sv m' :
    Network (c_WireGuard cfg) = network -> c_AnnouncePool cfg = poolText ->
    run_config version cfg m = (Ok sv, m') -> boots m (sv_options sv) m'.

(** Between two moments only the database is certain to stay: the kernel, the device
    and the environment may have done anything. [life_ops] is a request killed in the
    middle, or requests served at once, their operations in any order. *)
Inductive life : Options -> World K D -> Prop :=
| life_start m h m' : s_db (w_store (m_world m)) = empty_db -> boots m h m' -> life h (m_world m')
| life_request h w allow matched method auth path b out w' :
    life h w -> NewRouter h allow matched method auth path b w = (out, w') -> life h w'
| life_ops h w ops w' :
    life h w -> Forall (served_op h) ops -> s_db (w_store w') = s_db (run_ops ops (w_store w)) -> life h w'
| life_elapse h w w' : life h w -> s_db (w_store w') = s_db (w_store w) -> life h w'
| life_restart h w m h' m' :
    life h w -> s_db (w_store (m_world m)) = s_db (w_store w) -> boots m h' m' -> life h' (m_world m').

(** ** What every moment of it keeps *)

Context (pool : Prefix) (first last : Addr) (Hpool : ParsePrefix poolText = Some (P4 pool)) (Hrange : PoolRange network = Ok (first, last)).

(** A configuration without problems that has these texts. *)
Definition texts_valid : Prop := exists (conf : ConfigHost) cfg, Validate cfg = [] /\ Network (c_WireGuard cfg) = network /\ c_AnnouncePool cfg = poolText.

Lemma boots_options m h m' : boots m h m' ->
  texts_valid /\ announces_from h pool /\ PoolRange (cfg_Network (h_wgConfig h)) = Ok (first, last).
Proof.
  intros [conf app laws version cfg sv m1 Hnet Hp Hrun].
  apply run_config_inv in Hrun as (Hv & st & srv & w & jwtTTL & ttl & x & y & z & addr & _ & _ & _ & _ & _ & _ & -> & _).
  split; [by exists conf, cfg|]. cbn. rewrite Hnet, Hp. split; [|done]. intros q Hq. cbn in Hq. case_bool_decide; [done|].
  rewrite Hpool in Hq. by injection Hq.
Qed.
Lemma boots_sound m h m' : boots m h m' -> data_sound pool first last (s_db (w_store (m_world m))) ->
  data_sound pool first last (s_db (w_store (m_world m'))) /\ same_plane (s_db (w_store (m_world m))) (s_db (w_store (m_world m'))).
Proof. intros [conf app laws version cfg sv m1 Hnet Hp Hrun] Hd. by eapply started_sound. Qed.

Lemma life_inv h w : life h w ->
  data_sound pool first last (s_db (w_store w)) /\ texts_valid /\ announces_from h pool /\ PoolRange (cfg_Network (h_wgConfig h)) = Ok (first, last).
Proof.
  apply ParsePrefix_ok in Hpool as Hok.
  induction 1 as [m h m' He Hb|h w allow matched method auth path b out w' _ (Hd & Hv & Ha & Hr) Hrun|h w ops w' _ (Hd & Hv & Ha & Hr) Hops Hw
    |h w w' _ IH Hw|h w m h' m' _ (Hd & _) He Hb].
  - split; [|by eapply boots_options]. eapply boots_sound; [exact Hb|]. rewrite He. apply empty_sound.
  - split; [|done]. destruct (NewRouter_ops h allow matched method auth path b w) as (ops & Hops & Hw). rewrite Hrun in Hw. cbn [snd] in Hw.
    rewrite Hw. by apply (ops_sound h pool).
  - split; [|done]. rewrite Hw. by apply (ops_sound h pool).
  - by rewrite Hw.
  - split; [|by eapply boots_options]. eapply boots_sound; [exact Hb|]. by rewrite He.
Qed.
End Life.

(** C4: what a server records stays well-formed and apart for its whole life. However a
    server lives (started on an empty database by configurations with one network and
    one pool; any requests with any outcome and any failures, one by one or at once; killed in
    the middle of them; restarted on what is left, with anything happening to the kernel and the
    device): its database satisfies the schema, the announced synthetic blocks are
    disjoint blocks of the pool, every node has an address of the network's range, no
    node has the server's own address, and no announced block contains an address of a
    node or of the server. *)
Theorem life_apart {K D : Type} `{NftablesLaws K} `{WgHostLaws D} `{WgTypesLaws} `{NetipV6} `{Sqlite} `{Argon2} `{JwtLib} `{NetV6Cidr} `{NetV6Loopback}
    network poolText pool server bits first last h (w : World K D) :
  ParsePrefix poolText = Some (P4 pool) -> FirstUsableAddress network = Ok (server, bits) -> PoolRange network = Ok (first, last) ->
  life network poolText h w ->
  let d := s_db (w_store w) in
  schema_ok d /\ blocks_ok pool d /\ (forall n, n ∈ rows (nodes d) -> first <= n_ip n <= last) /\ apart server d.
Proof.
  intros Hpool Hserver Hrange Hl d.
  destruct (life_inv network poolText pool first last Hpool Hrange h w Hl) as ((Hs & Hb & Hn & _) & (conf & cfg & Hv & <- & <-) & _).
  assert (forall n, n ∈ rows (nodes d) -> first <= n_ip n <= last) as Hin by (intros n Hin; apply (Hn n Hin)).
  split_and!; [done..|]. by apply (config_apart cfg pool server bits first last).
Qed.

(** C3: a restart heals the relay. However a server lived before, and whatever its
    requests failed to tell the kernel and the device: once it has been started again
    and serves, the relay forwards an IPv4 packet exactly when conntrack knows its flow
    or the database it found allows it (the source is a member of a zone of which the
    destination is a member, or into which a subnet with the destination is announced),
    unless two nodes hold one key in two spellings. *)
Theorem restart_heals {K D : Type} `{NftablesLaws K} `{WgHostLaws D} `{WgTypesLaws} `{NetipV6} `{Sqlite} `{Argon2} `{JwtLib} `{NetV6Cidr} `{NetV6Loopback} `{NftVM}
    network poolText pool first last h (w : World K D) m h' m' p src dst v :
  ParsePrefix poolText = Some (P4 pool) -> range_ok pool -> PoolRange network = Ok (first, last) ->
  life network poolText h w -> no_respelling (s_db (w_store w)) ->
  s_db (w_store (m_world m)) = s_db (w_store w) -> boots network poolText m h' m' ->
  ipv4_packet src dst p -> is_u32 src -> is_u32 dst -> ct_bits p v ->
  forwards (h_netfw h') (nft_view (w_nft (m_world m'))) p <-> established v \/ may_send (s_db (w_store w)) src dst.
Proof.
  intros Hpool Hok Hrange Hl Hk Hdb Hb Hp Hsrc Hdst Hct.
  destruct (life_inv network poolText pool first last Hpool Hrange h w Hl) as (Hd & _).
  destruct (boots_sound network poolText pool first last m h' m' Hb) as (_ & Hplane); [by rewrite Hdb|]. rewrite Hdb in Hplane.
  destruct (boots_options network poolText pool first last Hpool Hrange m h' m' Hb) as (_ & Hfrom & _).
  rewrite <- (may_send_plane _ _ src dst Hplane). apply (insync_forwards h' pool); [done| |done..].
  apply running_insync; [done..|]. destruct Hb as [conf app laws version cfg sv m1 Hnet Ht Hrun].
  eapply (started_running version cfg m sv m1 pool first last Hrun); by rewrite Hdb.
Qed.

(** ** A server that recorded two nodes, a zone and a subnet, and was killed before it
    told the kernel *)

#[local] Instance no_v6 : NetipV6 := fun _ => None.
#[local] Instance no_v6_cidr : NetV6Cidr := fun _ => None.
#[local] Instance no_v6_loopback : NetV6Loopback := fun _ => false.
#[local] Existing Instance plain_host.
#[local] Existing Instance sim_app.
#[local] Existing Instance sim_app_laws.

Lemma first_boots : boots "10.8.0.1/24" "100.64.0.0/16" fresh_machine app_options first_start.
Proof. exact (boots_intro _ _ fresh_machine "1" app_config app_serving first_start eq_refl eq_refl first_run). Qed.
Definition killed_ops : list repo_op :=
  [OpCreateNode 1 "router" key_a "openwrt" 168296450 168296702 0; OpCreateNode 1 "laptop" key_b "linux" 168296450 168296702 0;
   OpCreateZone 1 "home" "h" 0; OpJoin 1 1; OpJoin 1 2; OpAnnounce 1 1 (mkBlock 3232235776 24) 1 0 (P4 (PrefixFrom 1681915904 16))].
Definition killed_db : DB := s_db (run_ops killed_ops (w_store (m_world first_start))).
Definition killed_machine : Machine Ruleset SimHost := machine_of killed_db (m_disk first_start).
Definition second_start : Machine Ruleset SimHost := snd (run_config "1" app_config killed_machine).
Lemma killed_served : Forall (served_op app_options) killed_ops.
Proof.
  assert (forall k, is_Some (ParseKey (KeyString (GeneratePrivateKey k)))) as Hk by (intros k; rewrite ParseKey_String; by eexists).
  repeat constructor; try apply Hk; cbn; unfold is_u32, W32; lia.
Qed.
Lemma killed_life : life "10.8.0.1/24" "100.64.0.0/16" app_options (m_world killed_machine).
Proof.
  eapply life_ops; [eapply life_start; [|exact first_boots]; reflexivity|exact killed_served|reflexivity].
Qed.
Lemma killed_nodes : rows (nodes killed_db) =
  [NodeRow 1 1 "router" key_a 168296450 100 "openwrt"; NodeRow 2 1 "laptop" key_b 168296451 100 "linux"].
Proof. by vm_compute. Qed.
Lemma killed_keys : no_respelling killed_db.
Proof.
  intros n n'. rewrite killed_nodes, !elem_of_cons. intros [->|[->|?%not_elem_of_nil]] [->|[->|?%not_elem_of_nil]]; try done; by vm_compute.
Qed.
Lemma second_run : run_config "1" app_config killed_machine = (Ok app_serving, second_start).
Proof. apply (run_pair (run_config "1" app_config killed_machine)). by vm_compute. Qed.
Lemma second_boots : boots "10.8.0.1/24" "100.64.0.0/16" killed_machine app_options second_start.
Proof. exact (boots_intro _ _ killed_machine "1" app_config app_serving second_start eq_refl eq_refl second_run). Qed.

#[local] Opaque first_start second_start killed_db.
Lemma life_apart_witness :
  (n_ip <$> rows (nodes killed_db)) = [168296450; 168296451] /\ apart 168296449 killed_db.
Proof.
  split; [by rewrite killed_nodes|].
  apply (life_apart "10.8.0.1/24" "100.64.0.0/16" (PrefixFrom 1681915904 16) 168296449 24 168296450 168296702 app_options (m_world killed_machine)).
  - reflexivity.
  - reflexivity.
  - reflexivity.
  - exact killed_life.
Defined.
Lemma killed_sends : may_send killed_db 168296451 1681915909.
Proof.
  exists 1. split.
  - exists (MemberRow 1 2 100), (NodeRow 2 1 "laptop" key_b 168296451 100 "linux").
    split_and!; [apply (bool_decide_unpack _); vm_compute; reflexivity..|reflexivity|reflexivity|reflexivity].
  - right. exists (AttachRow 1 1), (AnnRow 1 1 3232235776 24 1681915904 100).
    split_and!; [apply (bool_decide_unpack _); vm_compute; reflexivity..|reflexivity|reflexivity|split; vm_compute; congruence].
Qed.
Lemma restart_heals_witness : forwards "lanweave" (nft_view (w_nft (m_world second_start))) (demo_packet 168296451 1681915909).
Proof.
  apply (restart_heals "10.8.0.1/24" "100.64.0.0/16" (PrefixFrom 1681915904 16) 168296450 168296702 app_options (m_world killed_machine)
    killed_machine app_options second_start (demo_packet 168296451 1681915909) 168296451 1681915909 0).
  - reflexivity.
  - split; [split; [by split|split; simpl; lia]|by vm_compute].
  - reflexivity.
  - exact killed_life.
  - exact killed_keys.
  - reflexivity.
  - exact second_boots.
  - split_and!; reflexivity || (simpl; lia).
  - unfold is_u32, W32; lia.
  - unfold is_u32, W32; lia.
  - split; [unfold is_u32, W32; lia|reflexivity].
  - right. exact killed_sends.
Defined.

(** ** Requests served at once

    The handlers take no lock between the database and the kernel: a [join] and a
    [leave] of one node that overlap can leave the departed node in the isolation
    table, until the server is started again. *)

(** *** [joinZone] at its two effects *)

Section Join.
Context {K D : Type} `{Nftables K} `{WgHost D} `{WgTypes} `{NetipV6} `{Sqlite} `{Argon2} (h : Options).
Abbreviation HM := (M Resp (World K D)).

(** The membership, and what follows it. *)
Definition join_record (zone : zone_row) (node : node_row) : HM unit := or_server_error (db (JoinZone (z_id zone) (n_id node))).
Definition join_apply (zone : zone_row) (node : node_row) : HM Resp :=
  let! r := netfw (AddMember (h_netfw h) (z_id zone) (n_ip node)) in
  match r with
  | Err _ =>
      let! r := db (LeaveZone (z_id zone) (n_id node)) in
      do! log_failure "failed to roll back membership after nft failure" r in
      serverError
  | Ok _ => ret (mkResp 200 BEmpty)
  end.
Lemma joinZone_steps id path_name b : joinZone (K:=K) (D:=D) h id path_name b =
  let! id := identity id in
  let! req := decoded b in
  if (jz_NodeID req =? 0) || bool_decide (jz_Password req = "")
  then throw (validation_error "node_id and password are required.") else
  let! zone := or_server_error (db (GetZoneByName path_name)) in
  match zone with
  | None => throw zoneOrPassword
  | Some zone =>
      match VerifyPassword (jz_Password req) (z_hash zone) with
      | Ok true =>
          let! node := or_fail (node_missing "Node not found.") (db (GetOwned (c_UserID id) (jz_NodeID req))) in
          do! join_record zone node in
          join_apply zone node
      | _ => throw zoneOrPassword
      end
  end.
Proof. reflexivity. Qed.
End Join.

(** *** Two users, a zone with a router in it, and a laptop that joins and leaves at once *)

Definition race_ops : list repo_op :=
  [OpCreateAdmin "ann" "h"; OpCreateAdmin "bob" "h";
   OpCreateNode 1 "router" key_a "openwrt" 1681915906 1681981437 0; OpCreateNode 2 "laptop" key_b "linux" 1681915906 1681981437 0;
   OpCreateZone 2 "home" "h" 0; OpJoin 1 1].
Definition race_start : World Ruleset SimHost :=
  snd (rebuild_dataplane serve_opts (mkWorld (Quiet (s_db (run_ops race_ops (mkStore empty_db [] 0 []))) 150 []) 0 ∅ bare_host NewTracker [])).
Definition home : zone_row := ZoneRow 1 "home" "h" 2 0.

(** The leave runs whole between the two effects of the join. *)
Definition recorded : World Ruleset SimHost := snd (join_record home laptop race_start).
Definition left_between : World Ruleset SimHost := snd (exit_zone serve_opts 1 laptop "failed to remove set element on leave" recorded).
Definition joined_late : World Ruleset SimHost := snd (join_apply serve_opts home laptop left_between).

Lemma race_outcomes : fst (exit_zone serve_opts 1 laptop "failed to remove set element on leave" recorded) = Ok (mkResp 204 BEmpty) /\
  fst (join_apply serve_opts home laptop left_between) = Ok (mkResp 200 BEmpty).
Proof. vm_compute. split; reflexivity. Qed.
Lemma late_members : zone_members (s_db (w_store joined_late)) = [MemberRow 1 1 0].
Proof. vm_compute. reflexivity. Qed.

(** The table of a server whose database has the laptop in the zone. *)
Definition joined_db : DB := s_db (run_ops (race_ops ++ [OpJoin 1 2]) (mkStore empty_db [] 0 [])).
Definition joined_boot : World Ruleset SimHost :=
  snd (rebuild_dataplane serve_opts (mkWorld (Quiet joined_db 150 []) 0 ∅ bare_host NewTracker [])).
Lemma joined_table : w_nft joined_late = w_nft joined_boot.
Proof. vm_compute. reflexivity. Qed.

Lemma late_nodes : rows (nodes (s_db (w_store joined_late))) = [router; laptop].
Proof. vm_compute. reflexivity. Qed.
Lemma joined_nodes n : n ∈ rows (nodes joined_db) -> n = router \/ n = laptop.
Proof.
  assert (rows (nodes joined_db) = [router; laptop]) as -> by by vm_compute. by rewrite elem_of_cons, list_elem_of_singleton.
Qed.
Lemma joined_db_ok : data_ok serve_pool joined_db.
Proof.
  constructor.
  - apply (run_ops_schema (race_ops ++ [OpJoin 1 2]) (mkStore empty_db [] 0 [])), empty_db_ok.
  - apply run_blocks_ok; [apply serve_pool_ok|]. by repeat constructor.
  - intros n [->| ->]%joined_nodes; split; by vm_compute.
  - assert (rows (announcements joined_db) = []) as -> by by vm_compute. by intros a ?%not_elem_of_nil.
  - intros n [->| ->]%joined_nodes; eexists; by vm_compute.
  - intros n n' [->| ->]%joined_nodes [->| ->]%joined_nodes; [done|by vm_compute..|done].
Qed.
Lemma joined_synced : insync serve_opts serve_pool joined_boot.
Proof.
  apply (boot_insync serve_opts serve_pool (mkWorld (Quiet joined_db 150 []) 0 ∅ bare_host NewTracker [])); [apply joined_db_ok|].
  apply (run_pair (rebuild_dataplane serve_opts (mkWorld (Quiet joined_db 150 []) 0 ∅ bare_host NewTracker []))). by vm_compute.
Qed.
Lemma joined_sends : may_send (s_db (w_store joined_boot)) 1681915907 1681915906.
Proof.
  assert (s_db (w_store joined_boot) = joined_db) as -> by by vm_compute.
  exists 1. split; [exists (MemberRow 1 2 0), laptop|left; exists (MemberRow 1 1 0), router];
    (split_and!; [apply (bool_decide_unpack _); by vm_compute..|done|done|done]).
Qed.

#[local] Opaque joined_boot joined_late joined_db.
(** Both requests answer success and nothing is logged; the database has the laptop
    nowhere, and the relay still forwards from it to the router of the zone. *)
Lemma late_join_leaks :
  forwards "lanweave" (nft_view (w_nft joined_late)) (demo_packet 1681915907 1681915906) /\
  ~ may_send (s_db (w_store joined_late)) 1681915907 1681915906.
Proof.
  split.
  - rewrite joined_table.
    apply (insync_forwards serve_opts serve_pool joined_boot (demo_packet 1681915907 1681915906) 1681915907 1681915906 0 serve_pool_ok joined_synced).
    + split_and!; reflexivity || (simpl; lia).
    + unfold is_u32, W32; lia.
    + unfold is_u32, W32; lia.
    + split; [unfold is_u32, W32; lia|reflexivity].
    + right. apply joined_sends.
  - intros (z & (m & n & Hm & Hn & _ & Hid & Hip) & _). rewrite late_members in Hm. rewrite late_nodes in Hn.
    apply list_elem_of_singleton in Hm as ->. apply elem_of_cons in Hn as [->|Hn%list_elem_of_singleton]; [done|subst n]; done.
Qed.
