(* ===== verification/RunProps.v ===== *)
(** * What a start does

    On success: the options of the router are the configuration's, the device runs with
    the key of the key file, and forwarding is on. On failure: what is left, and which
    errors a validated configuration cannot meet. *)
From S2P Require Import Prelude GoStrings Netip Ipam PasswordPolicy Codec Db StoreInv StoreUsers StoreNodes StoreAnnounce StoreOps UsersProps CascadeProps StoreEffects NodesProps AnnounceProps Netfw NetfwProps Isolation Wg WgProps Auth AuthProps Api ApiZones ApiRoutes Sync SyncPlane SyncData SyncHandlers SyncDeletes SyncGrowth SyncQuiet SyncServe ServerConfig ConfigProps ApiOps App AppProps.
From Stdlib Require Import Ascii.

#[local] Open Scope lw_scope.

(** ** A joined path ends in the joined name *)

Fixpoint last_char (s : string) : option ascii := match s with "" => None | String a "" => Some a | String _ s => last_char s end.
Lemma last_char_app s t : t <> "" -> last_char (s +:+ t) = last_char t.
Proof.
  intros Ht. induction s as [|a s IH]; [done|]. change (String a s +:+ t) with (String a (s +:+ t)). cbn [last_char].
  rewrite IH. destruct s as [|b s]; [|done]. change ("" +:+ t) with t. by destruct t.
Qed.
Lemma last_char_some s : s <> "" -> is_Some (last_char s).
Proof. intros Hs. induction s as [|a [|b s] IH]; [done|by exists a|]. by apply IH. Qed.
Lemma clean_elems_snoc rooted l n acc : n <> "" -> n <> "." -> n <> ".." ->
  exists xs, clean_elems rooted acc (l ++ [n]) = xs ++ [n].
Proof.
  intros H1 H2 H3. revert acc. induction l as [|e l IH]; intros acc.
  - exists (rev acc). change ([] ++ [n]) with [n]. cbn [clean_elems]. rewrite !bool_decide_false by tauto. done.
  - cbn [app clean_elems]. change ((e :: l) ++ [n]) with (e :: (l ++ [n])). cbn [clean_elems]. repeat case_match; apply IH.
Qed.
Lemma text_app_assoc (a b c : string) : a +:+ (b +:+ c) = (a +:+ b) +:+ c.
Proof. induction a as [|x a IH]; [done|]. change (String x (a +:+ (b +:+ c)) = String x ((a +:+ b) +:+ c)). by rewrite IH. Qed.
Lemma concat_snoc sep xs n : exists p, String.concat sep (xs ++ [n]) = p +:+ n.
Proof.
  induction xs as [|x xs [p IH]]; [by exists ""|]. destruct xs as [|y xs].
  - exists (x +:+ sep). by rewrite <- text_app_assoc.
  - exists (x +:+ sep +:+ p). change (String.concat sep ((x :: y :: xs) ++ [n])) with (x +:+ sep +:+ String.concat sep ((y :: xs) ++ [n])).
    by rewrite IH, !text_app_assoc.
Qed.
Lemma JoinPath_last dir n : no_char "/"%char n = true -> n <> "" -> n <> "." -> n <> ".." -> last_char (JoinPath dir n) = last_char n.
Proof.
  intros Hn H1 H2 H3.
  assert (forall s, (exists l, Split "/"%char s = l ++ [n]) -> last_char (Clean s) = last_char n) as Hclean.
  { intros s [l Hl]. unfold Clean. rewrite Hl.
    destruct (clean_elems_snoc (match s with String a _ => bool_decide (a = "/"%char) | "" => false end) l n [] H1 H2 H3) as [xs ->].
    destruct (concat_snoc "/" xs n) as [p ->]. assert (p +:+ n <> "") as Hne.
    { intros He. apply (f_equal last_char) in He. rewrite last_char_app in He by done. destruct (last_char_some n H1) as [x Hx]. by rewrite Hx in He. }
    destruct (match s with String a _ => _ | "" => false end); [by rewrite !last_char_app|].
    rewrite bool_decide_false by done. by apply last_char_app. }
  unfold JoinPath. case_bool_decide; apply Hclean; [exists []; by rewrite Split_no_char|]. exists (Split "/"%char dir). by rewrite <- Split_snoc.
Qed.
Lemma key_path_apart dir : JoinPath dir "wg_private" <> ipForwardPath.
Proof. intros He. apply (f_equal last_char) in He. by rewrite JoinPath_last in He. Qed.

(** ** What serves is the configuration's *)

Lemma EnableIPv4Forward_ok d d' : EnableIPv4Forward d = (Ok tt, d') ->
  exists m, files d' = <[ipForwardPath := ("1" +:+ nl_string, m)]> (files d).
Proof. unfold EnableIPv4Forward. intros [(n & fs & ? & _)|(fs & [= <-])]%disk_call_inv; [done|]. by eexists. Qed.
(** What loads a key looks at its file alone. *)
Lemma loads_same `{WgTypes} path d d' key : files d' !! path = files d !! path -> (exists c m, files d !! path = Some (c, m) /\ Z.land m 63 = 0) ->
  loads path d key -> loads path d' key.
Proof.
  intros Hf (c & m & Hc & Hm) Hl. eapply (loads_intro _ _ c m); [by rewrite Hf|done|].
  specialize (Hl []). unfold LoadOrGenerateKey, bind in Hl. cbn in Hl. rewrite Hc in Hl. cbn in Hl. rewrite Hm in Hl. cbn in Hl.
  rewrite Hc in Hl. cbn in Hl. destruct (ParseKey _); [|done]. by injection Hl as ->.
Qed.

Section Serves.
Context {K D : Type} `{NftablesLaws K} `{WgHostLaws D} `{WgTypesLaws} `{NetipV6} `{Sqlite} `{Argon2} `{JwtLib}.
Context `{NetV6Cidr} `{NetV6Loopback} `{ConfigHost} `{!AppHost D} `{!WgRouteLaws D}.

Lemma ReplacePeers_identity s peers g g' : ReplacePeers s peers g = (Ok tt, g') ->
  wd_private (wg_view g' (srv_name s)) = wd_private (wg_view g (srv_name s)) /\ wd_port (wg_view g' (srv_name s)) = wd_port (wg_view g (srv_name s)).
Proof.
  unfold ReplacePeers, bind. destruct (map_each peers _ g) as [[cs|e] g1] eqn:Hm; [|done].
  apply peerConfigs_ok in Hm as [-> _]. intros Hc%host_inv. by rewrite (configure_ok _ _ _ _ Hc).
Qed.
Lemma rebuild_identity h (w w' : World K D) : schema_ok (s_db (w_store w)) -> rebuild_dataplane h w = (Ok tt, w') ->
  let n := srv_name (h_wg h) in
  wd_private (wg_view (w_wg w') n) = wd_private (wg_view (w_wg w) n) /\ wd_port (wg_view (w_wg w') n) = wd_port (wg_view (w_wg w) n).
Proof.
  intros Hs. unfold rebuild_dataplane, bind. destruct (rebuildNodePeers h w) as [[[]|] w1] eqn:Hp; [|done].
  unfold rebuildNodePeers, bind in Hp.
  destruct (boot (db AllForPeers) w) as [[ns|] w2] eqn:E1; [|done]. apply boot_query in E1 as (-> & D1 & _ & G1).
  destruct (boot (db RoutesByNode) w2) as [[rn|] w3] eqn:E2; [|done]. apply boot_query in E2 as (-> & D2 & _ & G2).
  apply boot_wg in Hp as (Hp & S3 & _). apply ReplacePeers_identity in Hp. rewrite G2, G1 in Hp.
  intros (_ & -> & _)%rebuild_rules_sync; [exact Hp|]. by rewrite S3, D2, D1.
Qed.
End Serves.

(** C5: what serves is what was configured. When a start ends serving: the configuration
    it loaded has no problem; the WireGuard device holds exactly the key of the key file
    in the data directory, listens on the configured port, and the public key told to the
    clients is that key's; a key file that was there keeps its contents, and every later
    start loads the same key; IPv4 forwarding is on; and the router's options, lifetimes,
    limits and pool are those of the configuration. *)
Theorem Run_serves {K D : Type} `{NftablesLaws K} `{WgHostLaws D} `{WgTypesLaws} `{NetipV6} `{Sqlite} `{Argon2} `{JwtLib}
    `{NetV6Cidr} `{NetV6Loopback} `{ConfigHost} `{!AppHost D} `{!WgRouteLaws D} version path (m : Machine K D) sv m' :
  schema_ok (s_db (w_store (m_world m))) -> Run version path m = (Ok sv, m') ->
  exists cfg key jwtTTL ttl devices owned announced,
    Load ah_ReadFile ah_Unmarshal path = Ok cfg /\ Validate cfg = [] /\
    let file := JoinPath (DataDir (c_Server cfg)) "wg_private" in
    let dev := wg_view (w_wg (m_world m')) (Interface (c_WireGuard cfg)) in
    kept file (m_disk m) (m_disk m') /\ loads file (m_disk m') key /\
    wd_private dev = Some key /\ wd_port dev = ListenPort (c_WireGuard cfg) /\
    fst <$> files (m_disk m') !! ipForwardPath = Some ("1" +:+ nl_string) /\
    ParseDuration (JWTTTL (c_Auth cfg)) = Some jwtTTL /\
    Some ttl = (if bool_decide (InviteTTL (c_Auth cfg) = "") then Some 0 else ParseDuration (InviteTTL (c_Auth cfg))) /\
    c_Limits cfg = mkLimitsConfig (Some devices) (Some owned) (Some announced) /\
    sv_options sv = mkOptions version (mkJWTManager (JWTSecret (c_Auth cfg)) jwtTTL)
      (mkServer (Interface (c_WireGuard cfg)) (PublicKeyOf key)) (c_Table cfg) (wg_config (c_WireGuard cfg))
      (Endpoint (c_WireGuard cfg)) devices owned announced (pool_text cfg) ttl /\
    sv_tls sv = TLSEnabled (c_Server cfg) /\ sv_docs sv = APIDocsEnabled (c_Server cfg).
Proof.
  intros Hs (cfg & Hload & Hrun)%Run_inv. pose proof Hrun as (Hv & st & srv & w & jwtTTL & ttl & x & y & z & addr & Hadmin & Hup & Hj & Ht & Hl & _ &
    -> & _ & _ & Hg)%run_config_inv.
  pose proof (EnsureAdmin_pres (c_AdminUsername cfg) (c_AdminPassword cfg) (s_db (w_store (m_world m))) (w_store (m_world m))
    (conj Hs (same_plane_refl _))) as Hp. rewrite Hadmin in Hp. destruct Hp as [Hs' _]. cbn [snd] in Hs'.
  apply start_dataplane_inv in Hup as (key & gen & d & g & Hkey & Hif & Hfwd & _ & Hr). cbn [m_world m_disk with_world] in *.
  destruct (EnsureInterface_clean _ _ _ _ _ Hif) as [Hdev _]. destruct (Hdev srv eq_refl) as [-> Hview].
  apply rebuild_identity in Hr; [|done]. cbn [h_wg dataplane_options srv_name w_wg with_wg] in Hr.
  change (cfg_Interface (wg_config (c_WireGuard cfg))) with (Interface (c_WireGuard cfg)) in *. rewrite Hview in Hr. destruct Hr as [Hpriv Hport].
  apply EnableIPv4Forward_ok in Hfwd as (mode & Hfiles). apply key_file_stable in Hkey as (Hkept & _ & Hkey).
  assert (files (m_disk m') !! JoinPath (DataDir (c_Server cfg)) "wg_private" = files d !! JoinPath (DataDir (c_Server cfg)) "wg_private") as Hsame.
  { rewrite Hfiles. apply lookup_insert_ne. intros He. by apply (key_path_apart (DataDir (c_Server cfg))). }
  exists cfg, key, jwtTTL, ttl, x, y, z. split; [done|]. split; [done|]. cbv zeta. rewrite !Hg. split_and!; try done.
  - intros c mo Hc. destruct (Hkept _ _ Hc) as [m2 Hm2]. exists m2. by rewrite Hsame.
  - destruct gen; [destruct Hkey as (_ & (c & Hc) & Hk)|destruct Hkey as ((c & mo & Hc & Hmo) & Hk)];
      (eapply loads_same; [exact Hsame| |exact Hk]); [by exists c, 384|by exists c, mo].
  - rewrite Hfiles, lookup_insert_eq. done.
Qed.

(** ** What a start that fails leaves *)

Ltac possible := intros; (split; [discriminate|split; discriminate]).

Section Fails.
Context {K D : Type} `{NftablesLaws K} `{WgHostLaws D} `{WgTypesLaws} `{NetipV6} `{Sqlite} `{Argon2} `{JwtLib}.
Context `{NetV6Cidr} `{NetV6Loopback} `{ConfigHost} `{!AppHost D}.
Abbreviation AM := (M start_err (Machine K D)).

(** The errors a step can end with. *)
Definition raises {A} (P : start_err -> Prop) (m : AM A) : Prop := forall s e s', m s = (Err e, s') -> P e.
Lemma raises_ret {A} P (a : A) : raises P (ret a).
Proof. by intros s e s'. Qed.
Lemma raises_throw {A} (P : start_err -> Prop) e : P e -> raises P (throw (A:=A) e).
Proof. by intros Hp s e' s' [= <- _]. Qed.
Lemma raises_bind {A B} P (m : AM A) (f : A -> AM B) : raises P m -> (forall a, raises P (f a)) -> raises P (bind m f).
Proof. intros Hm Hf s e s'. unfold bind. destruct (m s) as [[a|e1] s1] eqn:Hr; [apply Hf|]. intros [= <- _]. by eapply Hm. Qed.
Lemma raises_disk {A} (P : start_err -> Prop) wrap (m : M key_err Disk A) : (forall e, P (wrap e)) -> raises P (on_disk wrap m).
Proof. intros Hp s e s'. unfold on_disk. destruct (m (m_disk s)) as [[a|x] d]; [done|]. by intros [= <- _]. Qed.
Lemma raises_wg {A} (P : start_err -> Prop) wrap (m : M wg_err D A) : (forall e, P (wrap e)) -> raises P (on_wg wrap m).
Proof. intros Hp s e s'. unfold on_wg. destruct (m (w_wg (m_world s))) as [[a|x] d]; [done|]. by intros [= <- _]. Qed.
Lemma raises_store {A} (P : start_err -> Prop) wrap (m : SM A) : (forall e, P (wrap e)) -> raises P (on_store wrap m).
Proof. intros Hp s e s'. unfold on_store. destruct (m (w_store (m_world s))) as [[a|x] d]; [done|]. by intros [= <- _]. Qed.
Lemma raises_world {A} (P : start_err -> Prop) e (m : M unit (World K D) A) : P e -> raises P (on_world e m).
Proof. intros Hp s e' s'. unfold on_world. destruct (m (m_world s)) as [[a|x] d]; [done|]. by intros [= <- _]. Qed.
Lemma raises_check {A} (P : start_err -> Prop) e (o : option A) : (o = None -> P e) -> raises P (check e o).
Proof. intros Hp. destruct o; [apply raises_ret|by apply raises_throw, Hp]. Qed.
Lemma raises_ensure (P : start_err -> Prop) e b : P e -> raises P (ensure e b).
Proof. intros Hp. destruct b; [apply raises_ret|by apply raises_throw]. Qed.

Lemma raises_dataplane (P : start_err -> Prop) cfg : (forall e, P (EServerKey e)) -> (forall e, P (EInterface e)) -> (forall e, P (EForward e)) ->
  P EPeers -> P EZoneRules -> raises P (start_dataplane cfg).
Proof.
  intros. unfold start_dataplane, setupDataPlane. apply raises_bind; [|intros [srv table]].
  - apply raises_bind; [by apply raises_disk|intros [key gen]]. apply raises_bind; [by apply raises_wg|intros srv].
    apply raises_bind; [by apply raises_disk|intros []]. apply raises_ret.
  - apply raises_bind; [by apply raises_world|intros []]. apply raises_bind; [by apply raises_world|intros []]. apply raises_ret.
Qed.

(** No panic, and no error of what the validation has parsed. *)
Definition reachable_err (e : start_err) : Prop := e <> EPanic /\ e <> EJWTTTL /\ e <> EInviteTTL.
Lemma valid_auth (cfg : Config) : Validate cfg = [] -> validate_auth (c_Auth cfg) = [].
Proof. unfold Validate. intros Hv. do 8 (apply app_eq_nil in Hv as [_ Hv]). by apply app_eq_nil in Hv as [Hv _]. Qed.
Lemma valid_ttls cfg : Validate cfg = [] -> ParseDuration (JWTTTL (c_Auth cfg)) <> None /\
  (InviteTTL (c_Auth cfg) <> "" -> ParseDuration (InviteTTL (c_Auth cfg)) <> None).
Proof.
  intros Hv%valid_auth. unfold validate_auth in Hv. apply app_eq_nil in Hv as [_ Hv]. apply app_eq_nil in Hv as [Hj Hi]. split.
  - by destruct (ParseDuration (JWTTTL _)).
  - intros Hne. rewrite bool_decide_false in Hi by done. by destruct (ParseDuration (InviteTTL _)).
Qed.
(** Past the opening of the database. *)
Definition late_err (e : start_err) : Prop := match e with ELoad _ | EInvalid _ | EStore | EMigrate => False | _ => reachable_err e end.
Lemma late_reachable e : late_err e -> reachable_err e.
Proof. by destruct e. Qed.
Lemma raises_serving version cfg : Validate (applyDefaults cfg) = [] -> raises late_err (start_serving version (applyDefaults cfg)).
Proof.
  intros [Hj Hi]%valid_ttls. unfold start_serving. apply raises_bind; [apply raises_store; possible|intros []].
  apply raises_bind; [apply raises_dataplane; possible|intros [srv table]]. apply raises_bind; [by intros s e s'|intros []].
  apply raises_bind; [destruct (TLSEnabled _); [apply raises_ensure; possible|apply raises_ret]|intros []].
  apply raises_bind; [apply raises_check; intros Hn; by destruct Hj|intros jwt]. apply raises_bind.
  { unfold invite_ttl. case_bool_decide as He; [apply raises_ret|apply raises_check; intros Hn; by destruct (Hi He)]. }
  intros ttl. apply raises_bind.
  { unfold announce_pool. case_bool_decide; [apply raises_ret|]. apply raises_bind; [apply raises_check; possible|intros q].
    apply raises_bind; [apply raises_wg; possible|intros []; apply raises_ret]. }
  intros pool. apply raises_bind; [|intros opts; apply raises_bind; [apply raises_check; possible|intros addr; apply raises_ret]].
  unfold router_options, deref. cbn [applyDefaults c_Limits MaxDevicesPerUser MaxOwnedZonesPerUser MaxAnnouncedSubnetsPerUser].
  repeat (apply raises_bind; [by destruct (_ (c_Limits cfg)); apply raises_ret|intros ?]). apply raises_ret.
Qed.
Lemma run_config_err version cfg (s : Machine K D) e s' : run_config version (applyDefaults cfg) s = (Err e, s') ->
  reachable_err e /\ match e with ELoad _ | EInvalid _ | EStore | EMigrate => s' = s | _ => True end.
Proof.
  unfold run_config. destruct (Validate (applyDefaults cfg)) as [|p ps] eqn:Hv; [|intros [= <- <-]; by split; [possible|]].
  unfold bind, ensure, ret, throw. destruct (ah_Open _); [|intros [= <- <-]; by split; [possible|]].
  destruct ah_Migrate; [|intros [= <- <-]; by split; [possible|]]. intros Hl%raises_serving; [|done].
  split; [by apply late_reachable|by destruct e].
Qed.

(** The database keeps its schema and all the plane is made of. *)
Definition files_kept (dk dk' : Disk) : Prop := forall p, p <> ipForwardPath -> kept p dk dk'.
Definition machine_kept (m s : Machine K D) : Prop :=
  plane_kept (s_db (w_store (m_world m))) (w_store (m_world s)) /\ files_kept (m_disk m) (m_disk s).
Lemma kept_disk {A} d wrap (m : M key_err Disk A) : (forall dk, files_kept dk (snd (m dk))) -> pres (machine_kept d) (on_disk wrap m).
Proof.
  intros Hm s [Hs Hf]. unfold on_disk. specialize (Hm (m_disk s)). destruct (m (m_disk s)) as [r dk]. split; [done|].
  intros p Hp c mo Hc. destruct (Hf p Hp c mo Hc) as [mo' Hc']. by apply (Hm p Hp c mo').
Qed.
Lemma key_files path dk : files_kept dk (snd (LoadOrGenerateKey path dk)).
Proof.
  destruct (LoadOrGenerateKey path dk) as [r dk'] eqn:Hrun. apply key_file_stable in Hrun as (Hk & Hdel & _). intros p _.
  destruct (decide (p = path)) as [->|Hp]; [exact Hk|]. intros c mo Hc. exists mo. apply (f_equal (fun f => f !! p)) in Hdel.
  rewrite !lookup_delete_ne in Hdel by done. cbn [snd]; by rewrite Hdel.
Qed.
Lemma forward_files dk : files_kept dk (snd (EnableIPv4Forward dk)).
Proof.
  intros p Hp c mo Hc. exists mo. unfold EnableIPv4Forward, disk_call.
  destruct (disk_faults dk) as [|[n|] fs]; cbn; by rewrite lookup_insert_ne.
Qed.
Lemma kept_wg {A} d wrap (m : M wg_err D A) : pres (machine_kept d) (on_wg wrap m).
Proof. intros s [Hs Hf]. unfold on_wg. by destruct (m (w_wg (m_world s))). Qed.
Lemma kept_store {A} d wrap (m : SM A) : pres (plane_kept (s_db (w_store (m_world d)))) m -> pres (machine_kept d) (on_store wrap m).
Proof. intros Hm s [Hs Hf]. unfold on_store. specialize (Hm _ Hs). by destruct (m (w_store (m_world s))). Qed.
Lemma kept_check {A} d e (o : option A) : pres (machine_kept d) (check e o).
Proof. destruct o; [apply pres_ret|apply pres_throw]. Qed.
Lemma kept_ensure d e b : pres (machine_kept d) (ensure e b).
Proof. destruct b; [apply pres_ret|apply pres_throw]. Qed.
Definition world_kept (d : DB) (w : World K D) : Prop := plane_kept d (w_store w).
Lemma kept_world {A} d e (m : M unit (World K D) A) : pres (world_kept (s_db (w_store (m_world d)))) m -> pres (machine_kept d) (on_world e m).
Proof. intros Hm s [Hs Hf]. unfold on_world. specialize (Hm _ Hs). by destruct (m (m_world s)). Qed.
Lemma kept_boot {E A} d (m : World K D -> res Resp (res E A) * World K D) :
  (forall w, world_kept d w -> world_kept d (snd (m w))) -> pres (world_kept d) (boot m).
Proof. intros Hm w Hw. unfold boot. specialize (Hm w Hw). by destruct (m w) as [[[a|e]|r] w1]. Qed.
Lemma kept_db {A} d (f : DB -> A) : pres (world_kept d) (boot (db (query f))).
Proof.
  apply kept_boot. intros w Hw. unfold db. pose proof (keeps_pres (query f) d (keeps_reads _ (reads_query f)) (w_store w) Hw) as Hq.
  by destruct (query f (w_store w)).
Qed.
Lemma kept_peers d h : pres (world_kept d) (rebuildNodePeers h).
Proof.
  apply pres_bind; [apply kept_db|intros ns]. apply pres_bind; [apply kept_db|intros rs]. apply kept_boot.
  intros w Hw. unfold wg. by destruct (ReplacePeers _ _ _).
Qed.
Lemma kept_rules d h : pres (world_kept d) (rebuildZoneRules h).
Proof.
  apply pres_bind; [apply kept_db|intros ns]. apply pres_bind; [apply kept_db|intros rs]. apply kept_boot.
  intros w Hw. unfold netfw. by destruct (Rebuild _ _ _).
Qed.
Lemma kept_dataplane d cfg : pres (machine_kept d) (start_dataplane cfg).
Proof.
  unfold start_dataplane, setupDataPlane. apply pres_bind; [|intros [srv table]].
  - apply pres_bind; [apply kept_disk, key_files|intros [key gen]]. apply pres_bind; [apply kept_wg|intros srv].
    apply pres_bind; [apply kept_disk, forward_files|intros []]. apply pres_ret.
  - apply pres_bind; [apply kept_world, kept_peers|intros []]. apply pres_bind; [apply kept_world, kept_rules|intros []]. apply pres_ret.
Qed.
Lemma kept_run d version cfg : pres (machine_kept d) (run_config version cfg).
Proof.
  unfold run_config, start_serving. apply pres_bind; [destruct (Validate cfg); [apply pres_ret|apply pres_throw]|intros []].
  apply pres_bind; [apply kept_ensure|intros []]. apply pres_bind; [apply kept_ensure|intros []].
  apply pres_bind; [apply kept_store, EnsureAdmin_pres|intros []]. apply pres_bind; [apply kept_dataplane|intros [srv table]].
  apply pres_bind; [by intros s|intros []]. apply pres_bind; [destruct (TLSEnabled _); [apply kept_ensure|apply pres_ret]|intros []].
  apply pres_bind; [apply kept_check|intros jwt].
  apply pres_bind; [unfold invite_ttl; case_bool_decide; [apply pres_ret|apply kept_check]|intros ttl].
  apply pres_bind; [unfold announce_pool; case_bool_decide; [apply pres_ret|apply pres_bind; [apply kept_check|intros q];
    apply pres_bind; [apply kept_wg|intros []; apply pres_ret]]|intros pool].
  apply pres_bind; [unfold router_options; repeat (apply pres_bind; [apply kept_check|intros ?]); apply pres_ret|intros opts].
  apply pres_bind; [apply kept_check|intros addr; apply pres_ret].
Qed.
End Fails.

(** C6: a start that fails does no harm. It never panics, and a lifetime the validation
    accepted is never refused later; an unreadable or invalid configuration and a
    database that does not open leave the machine exactly as it was; and whatever fails,
    the database keeps its schema, its nodes, zones, members and announcements, and every
    file but the one that turns forwarding on keeps its contents. *)
Theorem Run_fails {K D : Type} `{NftablesLaws K} `{WgHostLaws D} `{WgTypesLaws} `{NetipV6} `{Sqlite} `{Argon2} `{JwtLib}
    `{NetV6Cidr} `{NetV6Loopback} `{ConfigHost} `{!AppHost D} version path (m : Machine K D) e m' :
  schema_ok (s_db (w_store (m_world m))) -> Run version path m = (Err e, m') ->
  reachable_err e /\
  (match e with ELoad _ | EInvalid _ | EStore | EMigrate => m' = m | _ => True end) /\
  plane_kept (s_db (w_store (m_world m))) (w_store (m_world m')) /\ files_kept (m_disk m) (m_disk m').
Proof.
  intros Hs Hrun. assert (machine_kept m m') as Hkept.
  { assert (machine_kept m m) as Hm by (split; [split; [done|apply same_plane_refl]|intros p _; by apply kept_refl]).
    unfold Run in Hrun. destruct (Load _ _ _) as [cfg|x]; [|by injection Hrun as _ <-].
    pose proof (kept_run m version cfg m Hm) as Hk. by rewrite Hrun in Hk. }
  revert Hrun. unfold Run, Load. destruct (ah_ReadFile path) as [data|]; [|intros [= <- <-]; split; [possible|done]].
  destruct (ah_Unmarshal data) as [cfg|]; [|intros [= <- <-]; split; [possible|done]].
  intros [He Hu]%run_config_err. done.
Qed.

(** ** Starts *)

#[local] Instance no_v6 : NetipV6 := fun _ => None.
#[local] Instance no_v6_cidr : NetV6Cidr := fun _ => None.
#[local] Instance no_v6_loopback : NetV6Loopback := fun _ => false.
#[local] Existing Instance plain_host.
#[local] Existing Instance sim_app.
#[local] Existing Instance sim_app_laws.

#[local] Opaque first_start.
Lemma app_load : Load ah_ReadFile ah_Unmarshal DefaultConfigPath = Ok app_config.
Proof. vm_compute. reflexivity. Qed.
Lemma first_Run : Run "1" DefaultConfigPath fresh_machine = (Ok app_serving, first_start).
Proof. unfold Run. rewrite app_load. exact first_run. Qed.
Lemma Run_serves_witness :
  loads "/var/lib/lanweave/wg_private" (m_disk first_start) (GeneratePrivateKey [7; 7]) /\
  wd_private (wg_view (w_wg (m_world first_start)) "lw0") = Some (GeneratePrivateKey [7; 7]).
Proof.
  destruct (Run_serves "1" DefaultConfigPath fresh_machine app_serving first_start empty_db_ok first_Run)
    as (cfg & key & j & t & x & y & z & Hload & _ & _ & Hl & Hp & _ & _ & _ & _ & _ & Ho & _).
  rewrite app_load in Hload. injection Hload as <-. apply (f_equal (fun o => srv_pub (h_wg o))) in Ho.
  assert (key = GeneratePrivateKey [7; 7]) as -> by exact (eq_sym Ho). exact (conj Hl Hp).
Defined.

(** A corrupt key file stops the start; it and the database stay. *)
Definition corrupt_disk : Disk := mkDisk {["/var/lib/lanweave/wg_private" := ("garbage", 384)]} [] [].
Definition corrupt_start : Machine Ruleset SimHost := snd (Run "1" DefaultConfigPath (machine_of demo_db corrupt_disk)).
Lemma corrupt_run : Run "1" DefaultConfigPath (machine_of demo_db corrupt_disk) = (Err (EServerKey ECorrupt), corrupt_start).
Proof. apply (run_pair (Run "1" DefaultConfigPath (machine_of demo_db corrupt_disk))). by vm_compute. Qed.
#[local] Opaque corrupt_start.
Lemma Run_fails_witness : plane_kept demo_db (w_store (m_world corrupt_start)) /\ files_kept corrupt_disk (m_disk corrupt_start).
Proof.
  destruct (Run_fails "1" DefaultConfigPath (machine_of demo_db corrupt_disk) (EServerKey ECorrupt) corrupt_start demo_db_ok corrupt_run)
    as (_ & _ & Hk). exact Hk.
Defined.

(** [net.ParseCIDR] reads a length with a leading zero, [netip.ParsePrefix] does not: a
    pool the validation accepts fails the start, the relay already rebuilt. *)
Example leading_zero : Validate (demo_config "" "100.64.0.0/016") = [] /\
  fst (run_config "1" (demo_config "" "100.64.0.0/016") fresh_machine) = Err EPool.
Proof. vm_compute. split; reflexivity. Qed.
