(* ===== verification/RouterCmd.v ===== *)
(** * The commands of the router's client ([cmd/lanweave-routerd])

    [main.go] and [announce.go]: the command line (with the part of package [flag]
    they use), every command over the saved record, the key ring, the API client, the
    translation table and the tunnel engine, and [run], which chooses among them. What
    a command prints is kept as what it says, not as text. *)
From Stdlib Require Import Ascii.
From stdpp Require Import sorting.
From S2P Require Import Prelude GoStrings Netip Ipam Codec Db StoreUsers StoreNodes StoreAnnounce Netfw Wg Auth Api Netutil NatCtl Engine RouteSync Daemon ApiClient Routerd StateFile Onboard.

#[local] Open Scope lw_scope.

(** ** Package [flag] *)

(** The flags a set defines: taking a value, or boolean. *)
Inductive FlagKind : Type := FString | FBool.
#[export] Instance FlagKind_eq_dec : EqDecision FlagKind.
Proof. solve_decision. Defined.

(** [strconv.ParseBool]. *)
Definition ParseBool (s : string) : option bool :=
  if bool_decide (s ∈ ["1"; "t"; "T"; "true"; "TRUE"; "True"]) then Some true
  else if bool_decide (s ∈ ["0"; "f"; "F"; "false"; "FALSE"; "False"]) then Some false else None.

(** What an argument is to [parseOne]: the end of the flags, [--], ill-formed, or a
    flag with the value that came with it. *)
Inductive Arg : Type := ArgStop | ArgDashes | ArgBad | ArgFlag (name : string) (value : option string).
Definition flag_name (name : string) : Arg :=
  match name with
  | "" => ArgBad
  | String "-"%char _ | String "="%char _ => ArgBad
  | _ => match Cut "="%char name with Some (n, v) => ArgFlag n (Some v) | None => ArgFlag name None end
  end.
Definition classify (s : string) : Arg :=
  match s with
  | String "-"%char "-" => ArgDashes
  | String "-"%char (String "-"%char name) => flag_name name
  | String "-"%char (String a name) => flag_name (String a name)
  | _ => ArgStop
  end.

(** [FlagSet.Parse] and what it leaves of the arguments; [None]: an error, which the
    package reports. A flag's value is as given; a boolean's is [true] or [false]. *)
Fixpoint Parse (defs : gmap string FlagKind) (args : list string) (vals : gmap string string) : option (gmap string string * list string) :=
  match args with
  | [] => Some (vals, [])
  | a :: rest =>
      match classify a with
      | ArgStop => Some (vals, args)
      | ArgDashes => Some (vals, rest)
      | ArgBad => None
      | ArgFlag name value =>
          match defs !! name, value, rest with
          | None, _, _ => None
          | Some FBool, None, _ => Parse defs rest (<[name := "true"]> vals)
          | Some FBool, Some v, _ =>
              match ParseBool v with
              | Some b => Parse defs rest (<[name := if b then "true" else "false"]> vals)
              | None => None
              end
          | Some FString, Some v, _ => Parse defs rest (<[name := v]> vals)
          | Some FString, None, v :: rest => Parse defs rest (<[name := v]> vals)
          | Some FString, None, [] => None
          end
      end
  end.
Definition flag_string (vals : gmap string string) (name : string) : string := default "" (vals !! name).
Definition flag_bool (vals : gmap string string) (name : string) : bool := bool_decide (vals !! name = Some "true").

(** [strings.TrimRight]. *)
Fixpoint TrimRight (s : string) (cutset : list ascii) : string :=
  match s with
  | "" => ""
  | String a r =>
      let t := TrimRight r cutset in
      if bool_decide (t = "") && bool_decide (a ∈ cutset) then "" else String a t
  end.
Definition CR : ascii := ascii_of_nat 13.
Definition LF : ascii := ascii_of_nat 10.

(** ** Commands *)

Definition defaultDataDir : string := "/etc/lanweave".
(** [env], but for the streams. *)
Record Env : Type := mkEnv { e_dataDir : string; e_iface : string; e_insecure : bool }.

(** How a client's connections are verified: the options of [apiclient.New]. *)
Inductive TlsOption : Type := TlsSystem | TlsPinned (fp : string) | TlsInsecure.
Class Dialer (N : Type) : Type := dial : string -> TlsOption -> Transport N.

(** The links of the kernel as [netlink] lists them: names; the IPv4 addresses of a
    link, [None] for one without four bytes, with the length of the mask; the
    destinations of its IPv4 routes. *)
Class LinkList (D : Type) : Type :=
  { nl_LinkList : M unit D (list string);
    nl_AddrList : string -> M unit D (list (option Addr * Z));
    nl_RouteList : string -> M unit D (list (option AnyPrefix)) }.

(** How a command fails. [CFlags] was reported by the package [flag]; [CPanic] is a
    panic of [ipam.BlockFromPrefix] on a prefix that is not IPv4. *)
Inductive cmd_err : Type :=
| CFlags | CUsage | CUnknown | CMissing (flag : string) | CSecret | CState (e : file_err) | CNotOnboarded (e : state_err)
| CEngine (e : rd_err) | CDown (e : eng_err) | CNoServer | CApi (e : client_err) | CFetch (e : fetch_err) | COnboard (e : onboard_err)
| CAlreadyRegistered (name : string) | CNotSignedIn | CNoDevice | CDeregister (e : client_err) | CWipe
| CSynthetic (text : string) | COverlap (link : string) | CTranslation (e : cmd_err) | CNat (e : nat_err) | CNetwork
| CNotAnnounced | CPanic | CRunning.

(** A line a command prints, by what it says. *)
Inductive Line : Type :=
| LUsage | LServerSet (url : string) | LPinned (fp : string) | LSignedIn (user : string) | LRegistered (name : string) (id : Z) (ip : string)
| LDown | LZoneCreated (name : string) | LJoined (name : string) | LLeft (name : string) | LNoZones | LZone (name : string) (owner : bool)
| LMember (node ip owner : string) | LLoggedOut | LAnnounced (subnet synthetic zone : string) (id : Z) | LWithdrawn (subnet zone : string)
| LNoAnnouncements | LOwn (subnet synthetic : AnyPrefix) (zones : list string) (ok : bool)
| LForeign (subnet synthetic : AnyPrefix) (zones : list string) (announcer : string) (routed : bool)
| LStatus (running connected : bool) (ip : string) (last : GoTime) (zones : option (list string))
| WRevocation (e : client_err) | WOrphan | WTunnel (e : eng_err) | WTable (e : nat_err) | WCleanup (e : cmd_err)
| WCompensation (e : client_err) | WUnreachable (subnet : string) | WNotRunning.

(** What a command works on: the client it made (without tokens until then), the key
    ring and the record of the data directory, the translation tables, the host, the
    source of random bytes, the standard input, [None] if it cannot be read, and what
    was printed. *)
Record Box (N S P K D : Type) : Type := mkBox
  { bx_client : ClientState N; bx_keys : S; bx_file : P; bx_nat : K; bx_host : D; bx_rand : list (list Z);
    bx_stdin : option string; bx_out : list Line }.
Arguments mkBox {N S P K D}. Arguments bx_client {N S P K D}. Arguments bx_keys {N S P K D}. Arguments bx_file {N S P K D}.
Arguments bx_nat {N S P K D}. Arguments bx_host {N S P K D}. Arguments bx_rand {N S P K D}. Arguments bx_stdin {N S P K D}.
Arguments bx_out {N S P K D}.

Definition DefaultTable : string := "lanweave_rt".

(** [state.Record] before anything was saved. *)
Definition no_record : StateRecord := mkRecord 0 "" "" "" "" "" "" "" false 0.
Definition with_server (url : string) (r : StateRecord) : StateRecord :=
  mkRecord (st_SchemaVersion r) url (st_NodeName r) (st_IP r) (st_ServerPublicKey r) (st_Endpoint r) (st_Network r)
    (st_PinnedCertSHA256 r) (st_FirewallAllowVPN r) (st_NodeID r).

(** [announceFlags]: the positional argument is taken out before the flags are parsed. *)
Fixpoint lift_subnet (args : list string) (subnet : string) (flags : list string) : string * list string :=
  match args with
  | [] => (subnet, flags)
  | a :: args =>
      if negb (HasPrefix "-" a) && bool_decide (subnet = "") && negb (bool_decide (last flags = Some "--zone"))
      then lift_subnet args a flags else lift_subnet args subnet (flags ++ [a])
  end.
Definition announceFlags (args : list string) : res cmd_err (string * string) :=
  let '(subnet, flags) := lift_subnet args "" [] in
  match Parse {["zone" := FString]} flags ∅ with
  | None => Err CFlags
  | Some (vals, others) =>
      if bool_decide (subnet = "") || negb (bool_decide (others = [])) || bool_decide (flag_string vals "zone" = "")
      then Err CUsage else Ok (subnet, flag_string vals "zone")
  end.

(** [sameRules]. *)
#[export] Instance NatRule_eq_dec : EqDecision NatRule.
Proof. solve_decision. Defined.
Definition sameRules (a b : list NatRule) : bool := Nat.eqb (length a) (length b) && forallb (fun r => bool_decide (r ∈ a)) b.

Section Commands.
Context {N S P K D : Type} `{KeyRing S} `{StateDisk P} `{NatKernel K} `{RouterHost D} `{Interfaces D} `{LinkList D} `{WgTypes} `{NetipV6}.
Context `{Dialer N} (e : Env).

Abbreviation BM := (M cmd_err (Box N S P K D)).

Definition set_client (c : ClientState N) (b : Box N S P K D) : Box N S P K D :=
  mkBox c (bx_keys b) (bx_file b) (bx_nat b) (bx_host b) (bx_rand b) (bx_stdin b) (bx_out b).
Definition set_keys (k : S) (b : Box N S P K D) : Box N S P K D :=
  mkBox (bx_client b) k (bx_file b) (bx_nat b) (bx_host b) (bx_rand b) (bx_stdin b) (bx_out b).
Definition set_file (p : P) (b : Box N S P K D) : Box N S P K D :=
  mkBox (bx_client b) (bx_keys b) p (bx_nat b) (bx_host b) (bx_rand b) (bx_stdin b) (bx_out b).
Definition set_nat (k : K) (b : Box N S P K D) : Box N S P K D :=
  mkBox (bx_client b) (bx_keys b) (bx_file b) k (bx_host b) (bx_rand b) (bx_stdin b) (bx_out b).
Definition set_host (d : D) (b : Box N S P K D) : Box N S P K D :=
  mkBox (bx_client b) (bx_keys b) (bx_file b) (bx_nat b) d (bx_rand b) (bx_stdin b) (bx_out b).
Definition print (l : Line) : BM unit := fun b =>
  (Ok tt, mkBox (bx_client b) (bx_keys b) (bx_file b) (bx_nat b) (bx_host b) (bx_rand b) (bx_stdin b) (bx_out b ++ [l])).

Definition map_err {E A} (f : E -> cmd_err) (r : res E A) : res cmd_err A := match r with Ok a => Ok a | Err e => Err (f e) end.
Definition api {E A} (f : E -> cmd_err) (m : M E (ClientState N) A) : BM A := fun b =>
  let '(r, c) := m (bx_client b) in (map_err f r, set_client c b).
Definition keys {A} (m : M unit S A) : BM A := fun b => let '(r, k) := m (bx_keys b) in (map_err (fun _ => CWipe) r, set_keys k b).
Definition file {E A} (f : E -> cmd_err) (m : M E P A) : BM A := fun b => let '(r, p) := m (bx_file b) in (map_err f r, set_file p b).
Definition nat_table {A} (m : M nat_err K A) : BM A := fun b => let '(r, k) := m (bx_nat b) in (map_err CNat r, set_nat k b).
(** A method of an engine made for this command. *)
Definition engine {A} (m : M eng_err (EngineState D) A) : BM A := fun b =>
  let '(r, s) := m (New (bx_host b)) in (map_err CDown r, set_host (eng_host s) b).
Definition host {A} (m : M unit D A) : M cmd_err (Box N S P K D) (option A) := fun b =>
  let '(r, d) := m (bx_host b) in (Ok (match r with Ok a => Some a | Err _ => None end), set_host d b).

(** ** What the commands share *)

Definition loadLoose : BM StateRecord :=
  let! r := try (file CState sd_Read) in
  match r with Ok rec => ret rec | Err (CState ErrNotExist) => ret no_record | Err e => throw e end.

Definition tls (rec : StateRecord) : TlsOption :=
  if e_insecure e then TlsInsecure
  else if bool_decide (st_PinnedCertSHA256 rec <> "") then TlsPinned (st_PinnedCertSHA256 rec) else TlsSystem.
(** [newClient]: the client's connections; its tokens go into the state. *)
Definition connect (rec : StateRecord) : BM (Transport N) :=
  if bool_decide (st_ServerURL rec = "") then throw CNoServer else
  let! tok := try (keys (kr_Get SessionTokenName)) in
  let! rt := try (keys (kr_Get RefreshTokenName)) in
  let text r := match r with Ok t => t | Err _ => "" end in
  do! modify (fun b => set_client (mkClient (text tok) (text rt) (c_net (bx_client b))) b) in
  ret (dial (st_ServerURL rec) (tls rec)).
Definition persist : BM unit := modify (fun b => set_keys (persistTokens (bx_client b) (bx_keys b)) b).
(** [defer e.persistTokens(c)] before [m]. *)
Definition deferring {A} (m : BM A) : BM A := fun b => let '(r, b) := m b in (r, snd (persist b)).

Definition readSecret : BM string :=
  let! stdin := gets bx_stdin in
  match stdin with
  | None => throw CSecret
  | Some s => let s := TrimRight (String.substring 0 4096 s) [CR; LF] in if bool_decide (s = "") then throw CSecret else ret s
  end.

Definition parsed (defs : gmap string FlagKind) (args : list string) : BM (gmap string string) :=
  match Parse defs args ∅ with Some (vals, _) => ret vals | None => throw CFlags end.
(** The engine of the tunnel interface, of which only the name is known. *)
Definition bare_engine (serverKey : string) : Config := mkConfig (e_iface e) "" 0 (P4 (PrefixFrom 0 0)) serverKey "" 0.

(** ** Setting up *)

Definition cmdSetup (args : list string) : BM unit :=
  let! vals := parsed {["server" := FString; "pin" := FString]} args in
  if bool_decide (flag_string vals "server" = "") then throw (CMissing "server") else
  let! rec := loadLoose in
  let rec := with_server (TrimRight (flag_string vals "server") ["/"%char]) rec in
  let rec := if bool_decide (flag_string vals "pin" = "") then rec else with_pin (lower_ascii (flag_string vals "pin")) rec in
  do! file CNotOnboarded (Save rec) in
  print (LServerSet (st_ServerURL rec)).

Definition cmdTrust (args : list string) : BM unit :=
  match args with
  | [fp] =>
      if bool_decide (fp = "") then throw CUsage else
      let! rec := loadLoose in
      if bool_decide (st_ServerURL rec = "") then throw CNoServer else
      let rec := with_pin (lower_ascii fp) rec in
      do! file CNotOnboarded (Save rec) in
      print (LPinned (st_PinnedCertSHA256 rec))
  | _ => throw CUsage
  end.

Definition cmdLogin (args : list string) (createAccount : bool) : BM unit :=
  let! vals := parsed {["username" := FString; "invite" := FString]} args in
  let username := flag_string vals "username" in
  let invite := flag_string vals "invite" in
  if bool_decide (username = "") then throw (CMissing "username") else
  if createAccount && bool_decide (invite = "") then throw (CMissing "invite") else
  let! password := readSecret in
  let! rec := loadLoose in
  let! T := connect rec in
  do! when createAccount (api CApi (ApiClient.Register invite username password)) in
  do! api CApi (ApiClient.Login username password) in
  do! persist in
  print (LSignedIn username).

(** [onboard.Provisioner] on the command's client, key ring and file. *)
Definition provision `{Transport N} (p : Provisioner) (nodeName : string) : BM StateRecord := fun b =>
  let '(r, m) := ProvisionDevice p nodeName (mkMachine (bx_client b) (bx_keys b) (bx_file b) (bx_rand b)) in
  (map_err COnboard r, mkBox (mc_client m) (mc_keys m) (mc_file m) (bx_nat b) (bx_host b) (mc_rand m) (bx_stdin b) (bx_out b)).
Definition cmdRegister (args : list string) : BM unit :=
  let! vals := parsed {["name" := FString]} args in
  let nodeName := flag_string vals "name" in
  if bool_decide (nodeName = "") then throw (CMissing "name") else
  let! rec := loadLoose in
  if negb (st_NodeID rec =? 0) || negb (bool_decide (st_NodeName rec = "")) then throw (CAlreadyRegistered (st_NodeName rec)) else
  let! T := connect rec in
  let! c := gets bx_client in
  if bool_decide (c_token c = "") && bool_decide (c_refreshToken c = "") then throw CNotSignedIn else
  let! newRec := provision (mkProvisioner (st_ServerURL rec) "" (st_PinnedCertSHA256 rec) "openwrt") nodeName in
  do! persist in
  print (LRegistered (st_NodeName newRec) (st_NodeID newRec) (st_IP newRec)).

(** ** Zones, the tunnel, the status *)

Definition cmdDown : BM unit := do! engine (Engine.Down (bare_engine "")) in print LDown.

(** [now]: the time of the call. *)
Definition cmdStatus (now : Z) : BM unit :=
  let! rec := loadLoose in
  let! hs := try (engine (Engine.LastHandshake (bare_engine (st_ServerPublicKey rec)))) in
  let last := match hs with Ok hs => hs | Err _ => None end in
  let connected := match last with Some hs => now - hs <? 3 * 60 * 1000000000 | None => false end in
  let! T := try (connect rec) in
  let! zones := match T with
                | Err _ => ret None
                | Ok T =>
                    let! list := try (api CApi ListZones) in
                    match list with
                    | Err _ => ret None
                    | Ok l => do! persist in ret (Some (merge_sort String.le (zr_Name <$> l)))
                    end
                end in
  print (LStatus (is_ok hs) connected (if bool_decide (st_IP rec = "") then "unassigned" else st_IP rec) last zones).

Definition zone_command (rec : StateRecord) `{Transport N} (sub : string) (rest : list string) : BM unit :=
  if bool_decide (sub = "create") then
    match rest with
    | [name] =>
        let! password := readSecret in
        let! z := api CApi (ApiClient.CreateZone name (st_NodeID rec) password) in
        print (LZoneCreated (zr_Name z))
    | _ => throw CUsage
    end
  else if bool_decide (sub = "join") then
    match rest with
    | [name] =>
        let! password := readSecret in
        do! api CApi (ApiClient.JoinZone name (st_NodeID rec) password) in
        print (LJoined name)
    | _ => throw CUsage
    end
  else if bool_decide (sub = "leave") then
    match rest with
    | [name] => do! api CApi (ApiClient.LeaveZone name (st_NodeID rec)) in print (LLeft name)
    | _ => throw CUsage
    end
  else if bool_decide (sub = "list") then
    let! zones := api CApi ListZones in
    if bool_decide (length zones = 0)%nat then print LNoZones else
    for_each zones (fun z => print (LZone (zr_Name z) (zr_IsOwner z)))
  else if bool_decide (sub = "members") then
    match rest with
    | [name] =>
        let! members := api CApi (ApiClient.ZoneMembers name) in
        for_each members (fun m => print (LMember (mr_NodeName m) (mr_IP m) (mr_Owner m)))
    | _ => throw CUsage
    end
  else throw CUnknown.
Definition cmdZone (args : list string) : BM unit :=
  match args with
  | [] => throw CUsage
  | sub :: rest =>
      let! rec := file CNotOnboarded Load in
      let! T := connect rec in
      deferring (zone_command rec sub rest)
  end.

(** ** Announcements *)

(** [localOverlap]: the first link with an address in [p]'s block. *)
Definition link_overlaps (target : Block) (a : option Addr * Z) : bool :=
  match a.1 with Some addr => Overlaps target (BlockFromPrefix (PrefixFrom addr a.2)) | None => false end.
Fixpoint links_overlap (target : Block) (links : list string) : BM (option string) :=
  match links with
  | [] => ret None
  | l :: links =>
      let! addrs := host (nl_AddrList l) in
      match addrs with
      | Some addrs => if existsb (link_overlaps target) addrs then ret (Some l) else links_overlap target links
      | None => links_overlap target links
      end
  end.
Definition localOverlap (p : option AnyPrefix) : BM (option string) :=
  let! links := host nl_LinkList in
  match links with
  | None => ret None
  | Some links =>
      match p with
      | Some (P4 p) => links_overlap (BlockFromPrefix p) links
      | _ => throw CPanic
      end
  end.

(** [desired], over [reconcile.Desired], and [rebuildFromServer]. *)
Definition desired `{Transport N} (rec : StateRecord) : BM (list NatRule) :=
  let! zones := api CApi ListZones in
  let! d := api CFetch (Desired zones ListAnnouncements (st_NodeID rec)) in
  ret d.1.
Definition rebuildFromServer `{Transport N} (rec : StateRecord) : BM unit :=
  let! rules := desired rec in
  match ParsePrefix (st_Network rec) with
  | None => throw CNetwork
  | Some network => nat_table (NatCtl.Rebuild DefaultTable network rules)
  end.
Definition compensate `{Transport N} (zone : string) (id : Z) : BM unit :=
  let! r := try (api CApi (ApiClient.DeleteAnnouncement zone id)) in
  match r with
  | Ok _ | Err (CApi ErrZoneNotFound) | Err (CApi ErrNotMember) => ret tt
  | Err (CApi x) => print (WCompensation x)
  | Err _ => ret tt
  end.

Definition cmdAnnounceAdd `{Transport N} (rec : StateRecord) (args : list string) : BM unit :=
  match announceFlags args with
  | Err x => throw x
  | Ok (subnet, zone) =>
      let! ann := api CApi (ApiClient.CreateAnnouncement zone (st_NodeID rec) subnet) in
      match ParsePrefix (ar_Synthetic ann) with
      | None => throw (CSynthetic (ar_Synthetic ann))
      | Some synthetic =>
          let! clash := localOverlap (Some synthetic) in
          match clash with
          | Some link => do! compensate zone (ar_ID ann) in throw (COverlap link)
          | None =>
              let! r := try (rebuildFromServer rec) in
              match r with
              | Err x => do! compensate zone (ar_ID ann) in throw (CTranslation x)
              | Ok _ =>
                  let! attached := localOverlap (ParsePrefix (ar_Subnet ann)) in
                  do! match attached with Some _ => ret tt | None => print (WUnreachable (ar_Subnet ann)) end in
                  let! hs := try (engine (Engine.LastHandshake (bare_engine (st_ServerPublicKey rec)))) in
                  do! match hs with Ok _ => ret tt | Err _ => print WNotRunning end in
                  print (LAnnounced (ar_Subnet ann) (ar_Synthetic ann) zone (ar_ID ann))
              end
          end
      end
  end.

Definition cmdAnnounceRemove `{Transport N} (rec : StateRecord) (args : list string) : BM unit :=
  match announceFlags args with
  | Err x => throw x
  | Ok (subnet, zone) =>
      let! list := api CApi (ListAnnouncements zone) in
      match List.find (fun a => bool_decide (ar_NodeID a = st_NodeID rec /\ ar_Subnet a = subnet)) list with
      | None => throw CNotAnnounced
      | Some a =>
          if ar_ID a =? 0 then throw CNotAnnounced else
          do! api CApi (ApiClient.DeleteAnnouncement zone (ar_ID a)) in
          let! r := try (rebuildFromServer rec) in
          do! match r with Ok _ => ret tt | Err x => print (WCleanup x) end in
          print (LWithdrawn subnet zone)
      end
  end.

(** [consumerRoutePresent]. *)
Definition consumerRoutePresent (p : AnyPrefix) : BM bool :=
  let name := if bool_decide (e_iface e = "") then DefaultIface else e_iface e in
  let! link := host (rh_LinkByName name) in
  match link with
  | None => ret false
  | Some _ =>
      let! routes := host (nl_RouteList name) in
      ret (match routes with Some l => existsb (fun r => bool_decide (r = Some (AnyMasked p))) l | None => false end)
  end.
Definition print_entry (rec : StateRecord) (natOK : bool) (en : Entry) : BM unit :=
  if e_NodeID en =? st_NodeID rec then print (LOwn (e_Subnet en) (e_Synthetic en) (e_Zones en) natOK) else
  let! routed := consumerRoutePresent (e_Synthetic en) in
  print (LForeign (e_Subnet en) (e_Synthetic en) (e_Zones en) (e_Announcer en) routed).
Definition cmdAnnounceList `{Transport N} (rec : StateRecord) (args : list string) : BM unit :=
  let! vals := parsed {["all" := FBool]} args in
  let all := flag_bool vals "all" in
  let! zones := api CApi ListZones in
  let! memberOf := api CApi (MemberZones zones ApiClient.ZoneMembers (st_IP rec)) in
  let! entries := api CFetch (Fetch memberOf ListAnnouncements) in
  let mine := Mine entries (st_NodeID rec) in
  if negb all && bool_decide (mine = []) then print LNoAnnouncements else
  if all && bool_decide (entries = []) then print LNoAnnouncements else
  let rules := (fun en => mkNatRule (e_Synthetic en) (e_Subnet en)) <$> mine in
  let! current := try (nat_table (NatCtl.Current DefaultTable)) in
  do! match current with Ok _ => ret tt | Err (CNat x) => print (WTable x) | Err _ => ret tt end in
  let natOK := match current with Ok l => sameRules l rules | Err _ => false end in
  for_each (if all then entries else mine) (print_entry rec natOK).

Definition cmdAnnounce (args : list string) : BM unit :=
  match args with
  | [] => throw CUsage
  | sub :: rest =>
      let! rec := file CNotOnboarded Load in
      if st_NodeID rec =? 0 then throw CNoDevice else
      let! T := connect rec in
      deferring (
        if bool_decide (sub = "add") then cmdAnnounceAdd rec rest
        else if bool_decide (sub = "remove") then cmdAnnounceRemove rec rest
        else if bool_decide (sub = "list") then cmdAnnounceList rec rest
        else throw CUnknown)
  end.

(** ** Signing out *)

(** The attempts left and the last failure; the pauses have no effect on the state. *)
Fixpoint deregister `{Transport N} (nodeID : Z) (attempts : nat) (last : option cmd_err) : BM (option cmd_err) :=
  match attempts with
  | O => ret last
  | Datatypes.S attempts =>
      let! r := try (api CDeregister (ApiClient.DeleteNode nodeID)) in
      match r with Ok _ => ret None | Err x => deregister nodeID attempts (Some x) end
  end.
(** The tear-down of the tunnel, the table, the key ring and the record. *)
Definition wipe : BM unit :=
  let! r := try (engine (Engine.Down (bare_engine ""))) in
  do! match r with Err (CDown x) => print (WTunnel x) | _ => ret tt end in
  let! r := try (nat_table (NatCtl.Teardown DefaultTable)) in
  do! match r with Err (CNat x) => print (WTable x) | _ => ret tt end in
  let! e1 := try (keys (kr_Delete DeviceKeyName)) in
  let! e2 := try (keys (kr_Delete SessionTokenName)) in
  let! e3 := try (keys (kr_Delete RefreshTokenName)) in
  let! e4 := try (file CNotOnboarded Clear) in
  if is_ok e1 && is_ok e2 && is_ok e3 && is_ok e4 then print LLoggedOut else throw CWipe.
Definition cmdLogout (args : list string) : BM unit :=
  let! vals := parsed {["force" := FBool]} args in
  let! rec := loadLoose in
  do! (if flag_bool vals "force" then print WOrphan else
       let! T := connect rec in
       if st_NodeID rec =? 0 then throw CNoDevice else
       let! last := deregister (st_NodeID rec) 3 None in
       match last with
       | Some x => throw x
       | None =>
           let! r := try (api CApi ApiClient.Logout) in
           match r with Err (CApi x) => print (WRevocation x) | _ => ret tt end
       end) in
  wipe.

(** ** The daemon *)

(** What wakes the daemon: the ticker of the watch loop, at a time; a reconciliation, of
    its own ticker or after the tunnel came up, when none is in flight; a signal. *)
Inductive Wake : Type := WakeTick (now : Z) | WakeReconcile | WakeStop.

#[export] Instance router_daemon (cfg : Config) : DaemonEngine (RouterState S N K D) | 60 :=
  let on_eng {A} (m : M eng_err (EngineState D) A) : M eng_err (RouterState S N K D) A := fun s =>
    let '(r, g) := m (rs_eng s) in (r, mkRouter (rs_keys s) (rs_net s) (rs_nat s) g) in
  {| de_Up := on_eng (Engine.Up cfg); de_Down := on_eng (Engine.Down cfg); de_LastHandshake := on_eng (Engine.LastHandshake cfg) |}.

Definition wake_event `{Transport N} (cfg : Config) (rec : StateRecord) (w : Wake) : Event (RouterState S N K D) :=
  match w with
  | WakeTick now => Tick now
  | WakeReconcile => Sync (fun s => snd (reconcileAll DefaultTable cfg rec s))
  | WakeStop => Done
  end.
(** [cmdRunCtx] over what wakes it; [CRunning] while it has not returned. *)
Definition cmdRun (wakes : list Wake) : BM unit := fun b =>
  let '(loaded, p) := Load (bx_file b) in
  let b := set_file p b in
  match engineFromState (e_iface e) (match loaded with Ok rec => Some rec | Err _ => None end) (bx_keys b) with
  | (Err x, k) => (Err (CEngine x), set_keys k b)
  | (Ok (cfg, rec), k) =>
      let T := dial (st_ServerURL rec) (tls rec) in
      let '(r, st) := @Daemon.Run _ (router_daemon cfg) (wake_event cfg rec <$> wakes) (mkRouter k (c_net (bx_client b)) (bx_nat b) (New (bx_host b))) in
      let s := d_eng st in
      (match r with None => Err CRunning | Some (Err x) => Err (CDown x) | Some (Ok _) => Ok tt end,
       mkBox (mkClient "" "" (rs_net s)) (rs_keys s) (bx_file b) (rs_nat s) (eng_host (rs_eng s)) (bx_rand b) (bx_stdin b) (bx_out b))
  end.
End Commands.
Arguments Box : clear implicits.

(** ** The command line *)

(** The flags before the command. *)
Inductive Globals : Type := GCommand (e : Env) (args : list string) | GHelp | GUnknown (flag : string).
Fixpoint globals (e : Env) (args : list string) : Globals :=
  match args with
  | [] => GCommand e []
  | a :: rest =>
      if negb (HasPrefix "--" a) then GCommand e args else
      if bool_decide (a = "--insecure") then globals (mkEnv (e_dataDir e) (e_iface e) true) rest else
      match bool_decide (a = "--data-dir"), CutPrefix a "--data-dir=", bool_decide (a = "--iface"), rest with
      | true, _, _, v :: rest => globals (mkEnv v (e_iface e) (e_insecure e)) rest
      | _, Some v, _, _ => globals (mkEnv v (e_iface e) (e_insecure e)) rest
      | _, _, true, v :: rest => globals (mkEnv (e_dataDir e) v (e_insecure e)) rest
      | _, _, _, _ => if bool_decide (a = "--help") then GHelp else GUnknown a
      end
  end.

Section Run.
Context {N S P K D : Type} `{KeyRing S} `{StateDisk P} `{NatKernel K} `{RouterHost D} `{Interfaces D} `{LinkList D} `{WgTypes} `{NetipV6}.
Context `{Dialer N} (now : Z) (wakes : list Wake).

Definition command (e : Env) (cmd : string) (rest : list string) : M cmd_err (Box N S P K D) unit :=
  if bool_decide (cmd = "setup") then cmdSetup rest
  else if bool_decide (cmd = "login") then cmdLogin e rest false
  else if bool_decide (cmd = "register-account") then cmdLogin e rest true
  else if bool_decide (cmd = "register") then cmdRegister e rest
  else if bool_decide (cmd = "trust") then cmdTrust rest
  else if bool_decide (cmd = "run") then cmdRun e wakes
  else if bool_decide (cmd = "down") then cmdDown e
  else if bool_decide (cmd = "status") then cmdStatus e now
  else if bool_decide (cmd = "zone") then cmdZone e rest
  else if bool_decide (cmd = "announce") then cmdAnnounce e rest
  else if bool_decide (cmd = "logout") then cmdLogout e rest
  else if bool_decide (cmd ∈ ["help"; "--help"; "-h"]) then print LUsage
  else do! print LUsage in throw CUnknown.

(** [run], on the state of the data directory the command line names. *)
Definition run (args : list string) : M cmd_err (Box N S P K D) unit :=
  match globals (mkEnv defaultDataDir "" false) args with
  | GHelp => print LUsage
  | GUnknown _ => throw CUnknown
  | GCommand e [] => do! print LUsage in throw CUsage
  | GCommand e (cmd :: rest) => command e cmd rest
  end.
End Run.
