(* ===== verification/RouterCmdProps.v ===== *)
(** * The router's commands against the server

    Signing a router out over a network that loses messages; what each command may
    touch; announcing a subnet. *)
From Stdlib Require Import Ascii.
From S2P Require Import Prelude GoStrings Netip Ipam Codec Db StoreInv StoreUsers StoreNodes StoreAnnounce StoreOps UsersProps Netfw Isolation Wg WgProps Auth AuthProps Api ApiZones ApiRoutes ApiProps Sync SyncServe Netutil NatCtl NatCtlProps Engine EngineProps RouteSync Daemon ApiClient ClientPaths ClientSession ClientReads NodeReads Routerd StateFile Onboard EngineRoutes DaemonProps RouterLists RouterdProps.
From S2P Require Import PanelProps.
From S2P Require Import RouterCmd.

#[local] Open Scope lw_scope.

(** ** Running the parts *)

Section Parts.
Context {N S P K D : Type}.
#[local] Abbreviation B := (Box N S P K D).

Lemma try_api {E A C} (f : E -> cmd_err) (m : M E (ClientState N) A) (k : res cmd_err A -> M cmd_err B C) (b : B) :
  bind (try (api f m)) k b = let '(r, c) := m (bx_client b) in k (map_err f r) (set_client c b).
Proof. unfold bind, try, api. destruct (m _) as [[a|e] c]; reflexivity. Qed.
Lemma try_keys {A C} (m : M unit S A) (k : res cmd_err A -> M cmd_err B C) (b : B) :
  bind (try (keys m)) k b = let '(r, s) := m (bx_keys b) in k (map_err (fun _ => CWipe) r) (set_keys s b).
Proof. unfold bind, try, keys. destruct (m _) as [[a|e] s]; reflexivity. Qed.
Lemma try_file {E A C} (f : E -> cmd_err) (m : M E P A) (k : res cmd_err A -> M cmd_err B C) (b : B) :
  bind (try (file f m)) k b = let '(r, p) := m (bx_file b) in k (map_err f r) (set_file p b).
Proof. unfold bind, try, file. destruct (m _) as [[a|e] s]; reflexivity. Qed.
Lemma try_nat {A C} (m : M nat_err K A) (k : res cmd_err A -> M cmd_err B C) (b : B) :
  bind (try (nat_table m)) k b = let '(r, x) := m (bx_nat b) in k (map_err CNat r) (set_nat x b).
Proof. unfold bind, try, nat_table. destruct (m _) as [[a|e] s]; reflexivity. Qed.
Lemma try_engine {A C} (m : M eng_err (EngineState D) A) (k : res cmd_err A -> M cmd_err B C) (b : B) :
  bind (try (engine m)) k b = let '(r, s) := m (New (bx_host b)) in k (map_err CDown r) (set_host (eng_host s) b).
Proof. unfold bind, try, engine. destruct (m _) as [[a|e] s]; reflexivity. Qed.

(** The record of the data directory, when it can be read. *)
Lemma loadLoose_read `{StateDisk P} rec (b : B) : fst (sd_Read (bx_file b)) = Ok rec -> exists p,
  snd (sd_Read (bx_file b)) = p /\ loadLoose b = (Ok rec, set_file p b).
Proof. intros Hr. eexists. split; [done|]. unfold loadLoose. rewrite try_file. destruct (sd_Read _) as [x p]. simpl in Hr. by subst x. Qed.

(** The client of the key ring's tokens. *)
Lemma connect_run `{KeyRingLaws S} `{Dialer N} e rec tok (b : B) : st_ServerURL rec <> "" -> fst (kr_Get SessionTokenName (bx_keys b)) = Ok tok ->
  exists rt s, kr_view s = kr_view (bx_keys b) /\
    connect e rec b = (Ok (dial (st_ServerURL rec) (tls e rec)), set_client (mkClient tok rt (c_net (bx_client b))) (set_keys s b)).
Proof.
  intros Hurl Htok. unfold connect. case_bool_decide; [done|]. rewrite try_keys.
  pose proof (kr_get_view SessionTokenName (bx_keys b)) as Hv1. destruct (kr_Get SessionTokenName (bx_keys b)) as [x s1]. simpl in Htok, Hv1. subst x.
  rewrite try_keys. cbn [set_keys bx_keys]. pose proof (kr_get_view RefreshTokenName s1) as Hv2.
  destruct (kr_Get RefreshTokenName s1) as [x s2]. cbn [snd] in Hv2. eexists _, s2. split; [congruence|]. reflexivity.
Qed.
End Parts.

(** ** What a command may touch *)

(** The saved record, the device key, the translation tables, the links and routes. *)
Record Touch : Type := mkTouch { t_file : bool; t_key : bool; t_nat : bool; t_net : bool }.
Definition may_touch (cmd : string) : Touch :=
  if bool_decide (cmd ∈ ["setup"; "trust"]) then mkTouch true false false false
  else if bool_decide (cmd = "register") then mkTouch true true false false
  else if bool_decide (cmd = "announce") then mkTouch false false true false
  else if bool_decide (cmd = "down") then mkTouch false false false true
  else if bool_decide (cmd = "run") then mkTouch false false true true
  else if bool_decide (cmd = "logout") then mkTouch true true true true
  else mkTouch false false false false.

(** What is relied on of the link lists: they change nothing. *)
Class LinkListLaws (D : Type) `{RouterHostLaws D, LinkList D} : Type := mkLinkListLaws
  { nl_links_view d : rh_view (snd (nl_LinkList d)) = rh_view d;
    nl_addrs_view l d : rh_view (snd (nl_AddrList l d)) = rh_view d;
    nl_routes_view l d : rh_view (snd (nl_RouteList l d)) = rh_view d }.

Section Frame.
Context {N S P K D : Type} `{KeyRingLaws S} `{StateDiskLaws P} `{NatKernelLaws K} `{RouterHostLaws D} `{!LinkList D} `{!LinkListLaws D} `{WgTypes} `{NetipV6} `{Dialer N}.
#[local] Abbreviation B := (Box N S P K D).

Definition device_key (s : S) : option string := kr_view s !! DeviceKeyName.
Definition within (t : Touch) (b b' : B) : Prop :=
  (t_file t = false -> sd_view (bx_file b') = sd_view (bx_file b)) /\ (t_key t = false -> device_key (bx_keys b') = device_key (bx_keys b)) /\
  (t_nat t = false -> nk_view (bx_nat b') = nk_view (bx_nat b)) /\ (t_net t = false -> rh_view (bx_host b') = rh_view (bx_host b)).
#[local] Instance within_preorder t : PreOrder (within t).
Proof.
  split; [intros b; by split_and!|]. intros x y z (F1 & F2 & F3 & F4) (G1 & G2 & G3 & G4).
  split_and!; intros Ht; [rewrite G1|rewrite G2|rewrite G3|rewrite G4]; auto.
Qed.
(** [m] touches no more than [t], from the state [b0] on. *)
Context (b0 : B).
#[local] Abbreviation keeps t m := (pres (E:=cmd_err) (within t b0) m).
Lemma keeps_of {A} t (m : M cmd_err B A) : (forall b, within t b (snd (m b))) -> keeps t m.
Proof. intros Hm b Hb. etrans; [exact Hb|apply Hm]. Qed.

Lemma keeps_print t l : keeps t (print l).
Proof. apply keeps_of. intros b. by split_and!. Qed.
Lemma keeps_api {E A} t (f : E -> cmd_err) (m : M E (ClientState N) A) : keeps t (api f m).
Proof. apply keeps_of. intros b. unfold api. by destruct (m _). Qed.
Lemma keeps_host {A} t (m : M unit D A) : (forall d, rh_view (snd (m d)) = rh_view d) -> keeps t (host m).
Proof. intros Hm. apply keeps_of. intros b. unfold host. specialize (Hm (bx_host b)). by destruct (m _). Qed.
Lemma keeps_keys {A} t (m : M unit S A) : (t_key t = false -> forall s, device_key (snd (m s)) = device_key s) -> keeps t (keys m).
Proof. intros Hm. apply keeps_of. intros b. unfold keys. specialize (fun Ht => Hm Ht (bx_keys b)). by destruct (m _). Qed.
Lemma keeps_file {E A} t (f : E -> cmd_err) (m : M E P A) : (t_file t = false -> forall p, sd_view (snd (m p)) = sd_view p) -> keeps t (file f m).
Proof. intros Hm. apply keeps_of. intros b. unfold file. specialize (fun Ht => Hm Ht (bx_file b)). by destruct (m _). Qed.
Lemma keeps_nat {A} t (m : M nat_err K A) : (t_nat t = false -> forall k, nk_view (snd (m k)) = nk_view k) -> keeps t (nat_table m).
Proof. intros Hm. apply keeps_of. intros b. unfold nat_table. specialize (fun Ht => Hm Ht (bx_nat b)). by destruct (m _). Qed.
Lemma keeps_engine {A} t (m : M eng_err (EngineState D) A) :
  (t_net t = false -> forall s, rh_view (eng_host (snd (m s))) = rh_view (eng_host s)) -> keeps t (engine m).
Proof. intros Hm. apply keeps_of. intros b. unfold engine. specialize (fun Ht => Hm Ht (New (bx_host b))). by destruct (m _). Qed.

Lemma get_key name s : device_key (snd (kr_Get name s)) = device_key s.
Proof. unfold device_key. by rewrite kr_get_view. Qed.
Lemma set_key name v s : name <> DeviceKeyName -> device_key (snd (kr_Set name v s)) = device_key s.
Proof. intros Hn. unfold device_key. by rewrite kr_set_other. Qed.
Lemma persist_key (c : ClientState N) s : device_key (persistTokens c s) = device_key s.
Proof. unfold persistTokens. repeat case_bool_decide; by rewrite ?set_key. Qed.
Lemma keeps_get t name : keeps t (keys (kr_Get name)).
Proof. apply keeps_keys. intros _ s. apply get_key. Qed.
Lemma keeps_persist t : keeps t persist.
Proof. apply keeps_of. intros b. split_and!; try done. intros _. apply persist_key. Qed.
Lemma keeps_client t (f : B -> ClientState N) : keeps t (modify (fun b => set_client (f b) b)).
Proof. apply keeps_of. intros b. by split_and!. Qed.
Lemma keeps_deferring {A} t (m : M cmd_err B A) : keeps t m -> keeps t (deferring m).
Proof. intros Hm b Hb. unfold deferring. specialize (Hm b Hb). destruct (m b) as [r b']. by apply (keeps_persist t). Qed.
Lemma keeps_read t f : keeps t (file f sd_Read).
Proof. apply keeps_file. intros _ p. by destruct (sd_read p) as (r & p' & -> & Hv & _). Qed.
Lemma keeps_state_load t : keeps t (file CNotOnboarded Load).
Proof. apply keeps_file. intros _ p. apply Load_view. Qed.
Lemma keeps_state_save t rec : t_file t = true -> keeps t (file CNotOnboarded (Save rec)).
Proof. intros Ht. apply keeps_file. congruence. Qed.
Lemma keeps_handshake t e key : keeps t (engine (Engine.LastHandshake (bare_engine e key))).
Proof. apply keeps_engine. intros _ s. destruct (LastHandshake_wp (bare_engine e key) s) as [Hn _]. exact Hn. Qed.
Lemma keeps_current t table : keeps t (nat_table (NatCtl.Current table)).
Proof.
  apply keeps_nat. intros _ k. unfold NatCtl.Current, bind at 1. destruct (nft nk_New k) as [x k1] eqn:E1.
  pose proof (nft_view _ _ _ _ nk_new_view E1) as V1. destruct x as [u|]; [|exact V1].
  unfold bind at 1. destruct (findTableChain table "prerouting" k1) as [o k2] eqn:E2. apply find_chain in E2 as (V2 & o' & -> & _).
  destruct o' as [[t' c']|]; [|cbn; congruence]. unfold bind. destruct (nft (nk_GetRules t' c') k2) as [y k3] eqn:E3.
  pose proof (nft_view _ _ _ _ (nk_rules_view t' c') E3) as V3. destruct y; cbn; congruence.
Qed.
#[local] Hint Resolve keeps_print keeps_api keeps_get keeps_persist keeps_client keeps_read keeps_state_load keeps_handshake keeps_current : pres.

(** ** The commands *)

Lemma keeps_load t : keeps t loadLoose.
Proof. unfold loadLoose. pres_auto. Qed.
Lemma keeps_connect t e rec : keeps t (connect e rec).
Proof. unfold connect. pres_auto. Qed.
Lemma keeps_secret t : keeps t readSecret.
Proof. unfold readSecret. pres_auto. Qed.
Lemma keeps_parsed t defs args : keeps t (parsed defs args).
Proof. unfold parsed. pres_auto. Qed.
#[local] Hint Resolve keeps_load keeps_connect keeps_secret keeps_parsed keeps_deferring : pres.

Lemma keeps_setup t args : t_file t = true -> keeps t (cmdSetup args).
Proof. intros Ht. pose proof (fun rec => keeps_state_save t rec Ht). unfold cmdSetup. pres_auto. Qed.
Lemma keeps_trust t args : t_file t = true -> keeps t (cmdTrust args).
Proof. intros Ht. pose proof (fun rec => keeps_state_save t rec Ht). unfold cmdTrust. pres_auto. Qed.
Lemma keeps_login t e args create : keeps t (cmdLogin e args create).
Proof. unfold cmdLogin. pres_auto. Qed.
Lemma keeps_status t e now : keeps t (cmdStatus e now).
Proof. unfold cmdStatus. pres_auto. Qed.
Lemma keeps_zone t e args : keeps t (cmdZone e args).
Proof. unfold cmdZone, zone_command. pres_auto; apply keeps_deferring; pres_auto. Qed.
Lemma keeps_down t e : t_net t = true -> keeps t (cmdDown e).
Proof. intros Ht. apply pres_bind; [apply keeps_engine; congruence|pres_auto]. Qed.
Lemma keeps_register t e args : t_file t = true -> t_key t = true -> keeps t (cmdRegister e args).
Proof.
  intros Hf Hk. assert (forall (T : Transport N) p name, keeps t (provision p name)) as Hp.
  { intros T p name. apply keeps_of. intros b. unfold provision. destruct (ProvisionDevice _ _ _) as [r m]. split_and!; [congruence..|done|done]. }
  unfold cmdRegister. pres_auto.
Qed.

Lemma keeps_overlap t p : keeps t (localOverlap p).
Proof.
  assert (forall target links, keeps t (links_overlap target links)) as Hl.
  { intros target links. induction links as [|l links IH]; [apply pres_ret|]. cbn [links_overlap].
    pose proof (keeps_host t (nl_AddrList l) (nl_addrs_view l)). pres_auto. }
  pose proof (keeps_host t nl_LinkList nl_links_view). unfold localOverlap. pres_auto.
Qed.
Lemma keeps_present t e p : keeps t (consumerRoutePresent e p).
Proof.
  unfold consumerRoutePresent. cbv zeta. apply pres_bind; [apply keeps_host, rh_find_view|]. intros [u|]; [|apply pres_ret].
  apply pres_bind; [apply keeps_host, nl_routes_view|pres_auto].
Qed.
#[local] Hint Resolve keeps_overlap keeps_present : pres.
Lemma keeps_announce t e args : t_nat t = true -> keeps t (cmdAnnounce e args).
Proof.
  intros Ht. assert (forall (T : Transport N) rec, keeps t (rebuildFromServer rec)) as Hr.
  { intros T rec. unfold rebuildFromServer, desired. pres_auto. apply keeps_nat. congruence. }
  assert (forall (T : Transport N) zone id, keeps t (compensate zone id)) as Hc by (intros; unfold compensate; pres_auto).
  unfold cmdAnnounce, cmdAnnounceAdd, cmdAnnounceRemove, cmdAnnounceList, print_entry. pres_auto; apply keeps_deferring; pres_auto.
Qed.
Lemma keeps_everything {A} (m : M cmd_err B A) : keeps (mkTouch true true true true) m.
Proof. apply keeps_of. intros b. by split_and!. Qed.

(** The daemon leaves the record and the device key alone. *)
Lemma bring_up_keeps {T} `{DaemonEngine T} (I : T -> Prop) : (forall s, I s -> I (snd (de_Up s))) -> (forall s, I s -> I (snd (de_Down s))) ->
  forall st s, I s -> I (d_eng (bring_up st s)).
Proof.
  intros Hup Hdown st s Hs. unfold bring_up, tryUp. pose proof (Hup s Hs) as I1. destruct (de_Up s) as [[u|[]] s1]; cbn [snd] in I1; try exact I1.
  pose proof (Hdown s1 I1) as I2. destruct (de_Down s1) as [[u|x] s2]; cbn [snd] in I2; [|exact I2].
  pose proof (Hup s2 I2) as I3. by destruct (de_Up s2) as [r s3].
Qed.
Lemma watch_keeps {T} `{DaemonEngine T} (I : T -> Prop) : (forall s, I s -> I (snd (de_Up s))) -> (forall s, I s -> I (snd (de_Down s))) ->
  (forall s, I s -> I (snd (de_LastHandshake s))) ->
  forall evs st, (forall f, Sync f ∈ evs -> forall s, I s -> I (f s)) -> I (d_eng st) -> I (d_eng (snd (watch evs st))).
Proof.
  intros Hup Hdown Hhs. pose proof (bring_up_keeps I Hup Hdown) as Hbring.
  intros evs. induction evs as [|[now| |f] evs IH]; intros st Hf Hst; cbn [watch].
  - exact Hst.
  - apply IH; [intros g Hg; apply Hf; by right|]. unfold on_tick. destruct (negb (d_up st)); [by apply Hbring|]. unfold stale.
    pose proof (Hhs _ Hst) as I1. destruct (de_LastHandshake (d_eng st)) as [[[hs|]|x] s1]; cbn [snd] in I1; [|exact I1..].
    destruct (staleAfter <? now - hs); [|exact I1]. pose proof (Hdown s1 I1) as I2. destruct (de_Down s1) as [[u|x] s2]; [by apply Hbring|exact I2].
  - pose proof (Hdown _ Hst) as I1. by destruct (de_Down (d_eng st)).
  - apply IH; [intros g Hg; apply Hf; by right|]. apply Hf; [left|exact Hst].
Qed.
Lemma reconcileAll_key `{Transport N} table cfg rec (s : RouterState S N K D) : device_key (rs_keys (snd (reconcileAll table cfg rec s))) = device_key (rs_keys s).
Proof.
  unfold reconcileAll, newClient. case_bool_decide; [done|].
  pose proof (get_key SessionTokenName (rs_keys s)) as I1. destruct (kr_Get SessionTokenName (rs_keys s)) as [x s1]. cbn [snd] in I1.
  pose proof (get_key RefreshTokenName s1) as I2. destruct (kr_Get RefreshTokenName s1) as [y s2]. cbn [snd] in I2.
  destruct (reconcile_cycle _ _ _ _) as [r cy]. cbn [snd rs_keys]. rewrite persist_key. congruence.
Qed.
Lemma daemon_key (T : Transport N) cfg rec wakes (s : RouterState S N K D) :
  device_key (rs_keys (d_eng (snd (@Daemon.Run _ (router_daemon cfg) (wake_event cfg rec <$> wakes) s)))) = device_key (rs_keys s).
Proof.
  set (I := fun x : RouterState S N K D => device_key (rs_keys x) = device_key (rs_keys s)).
  assert (forall x, I x -> I (snd (@de_Up _ (router_daemon cfg) x))) as Hup by (intros x Hx; cbn; by destruct (Engine.Up cfg (rs_eng x))).
  assert (forall x, I x -> I (snd (@de_Down _ (router_daemon cfg) x))) as Hdown by (intros x Hx; cbn; by destruct (Engine.Down cfg (rs_eng x))).
  assert (forall x, I x -> I (snd (@de_LastHandshake _ (router_daemon cfg) x))) as Hhs by (intros x Hx; cbn; by destruct (Engine.LastHandshake cfg (rs_eng x))).
  unfold Daemon.Run. apply (@watch_keeps _ (router_daemon cfg) I Hup Hdown Hhs).
  - intros f (w & Hw & _)%list_elem_of_fmap x Hx. destruct w; try done. injection Hw as ->. unfold I. by rewrite reconcileAll_key.
  - by apply (@bring_up_keeps _ (router_daemon cfg) I Hup Hdown).
Qed.
Lemma keeps_run t e wakes : t_nat t = true -> t_net t = true -> keeps t (cmdRun e wakes).
Proof.
  intros Hk Hn. apply keeps_of. intros b. unfold cmdRun. pose proof (proj1 (Load_view (bx_file b))) as Hf.
  destruct (Load (bx_file b)) as [loaded p]. cbn [snd] in Hf. unfold engineFromState.
  destruct loaded as [rec|x]; cbn [fst snd]; [|by split_and!].
  pose proof (get_key DeviceKeyName (bx_keys b)) as I1. cbn [set_file bx_keys]. destruct (kr_Get DeviceKeyName (bx_keys b)) as [[priv|u] k1]; cbn [snd] in I1; [|by split_and!].
  destruct (ParseAddr4 (st_IP rec)) as [addr|]; [|by split_and!]. destruct (ParsePrefix (st_Network rec)) as [network|]; [|by split_and!].
  cbv zeta. match goal with |- context [@Daemon.Run _ (router_daemon ?c) (wake_event ?c ?rc <$> _) ?s] => pose proof (daemon_key (dial (st_ServerURL rec) (tls e rec)) c rc wakes s) as Hkey end.
  destruct (Daemon.Run _ _) as [r st]. cbn [snd rs_keys] in Hkey. split_and!; [done| |congruence..].
  intros _. cbn [snd bx_keys]. by rewrite Hkey.
Qed.

(** ** The dispatcher *)

Lemma keeps_command wakes now e cmd rest : keeps (may_touch cmd) (command now wakes e cmd rest).
Proof.
  unfold command.
  repeat (case_bool_decide; [subst cmd; first [by apply keeps_setup|by apply keeps_login|by apply keeps_register|by apply keeps_trust|by apply keeps_run
    |by apply keeps_down|by apply keeps_status|by apply keeps_zone|by apply keeps_announce|apply keeps_everything]|]).
  all: pres_auto.
Qed.
End Frame.
(** ** Announcing a subnet *)

Section Announce.
Context {N S P K D : Type} `{NatKernelLaws K} `{RouterHost D} `{Interfaces D} `{!LinkList D} `{WgTypes} `{NetipV6} (T : Transport N) (e : Env) (rec : StateRecord).
#[local] Abbreviation B := (Box N S P K D).

(** States that differ in the host and in what was printed, which only grows. *)
Definition aside_of (b b' : B) : Prop := bx_client b' = bx_client b /\ bx_keys b' = bx_keys b /\ bx_file b' = bx_file b /\ bx_nat b' = bx_nat b.
Lemma host_aside {A} (m : M unit D A) (b : B) : exists o d, host m b = (Ok o, set_host d b).
Proof. unfold host. destruct (m _) as [r d]. by eexists _, _. Qed.
Lemma links_aside target links (b : B) : exists o b', links_overlap target links b = (Ok o, b') /\ aside_of b b'.
Proof.
  revert b. induction links as [|l links IH]; intros b; [by exists None, b|]. cbn [links_overlap]. unfold bind.
  destruct (host_aside (nl_AddrList l) b) as (o & d & ->). destruct o as [addrs|]; [destruct (existsb _ _); [by eexists _, _|]|];
    destruct (IH (set_host d b)) as (o' & b' & E & ?); by exists o', b'.
Qed.
(** A text that is not an IPv4 prefix. *)
Definition not_v4 (s : string) : Prop := forall p, ParsePrefix s <> Some (P4 p).
Lemma localOverlap_aside p (b : B) : exists r b', localOverlap p b = (r, b') /\ aside_of b b' /\
  match r with Ok _ => True | Err x => x = CPanic /\ forall q, p <> Some (P4 q) end.
Proof.
  unfold localOverlap, bind. destruct (host_aside nl_LinkList b) as (o & d & ->). destruct o as [links|]; [|by eexists _, _].
  destruct p as [[p|p]|]; [|by eexists _, _..].
  destruct (links_aside (BlockFromPrefix p) links (set_host d b)) as (o' & b' & E & ?). by exists (Ok o'), b'.
Qed.

(** The rules the server's lists ask for, as a client at [c] reads them. *)
Definition wanted (c : ClientState N) (network : AnyPrefix) (ps : list (NRule * NRule)) : Prop :=
  exists zones c1 rules c2, ListZones c = (Ok zones, c1) /\ Desired zones ListAnnouncements (st_NodeID rec) c1 = (Ok rules, c2) /\
    ParsePrefix (st_Network rec) = Some network /\ mapM (rule_pair network) rules.1 = Some ps.
(** The table rebuilt from them, and nothing else of the kernel touched. *)
Definition rebuilt (c : ClientState N) (k k' : K) : Prop :=
  exists network ps, wanted c network ps /\ nk_view k' = <[DefaultTable := two_chains ps.*1 ps.*2]> (nk_view k).
Lemma rebuild_runs (b : B) : exists r b', rebuildFromServer rec b = (r, b') /\
  bx_keys b' = bx_keys b /\ bx_file b' = bx_file b /\
  match r with Ok _ => rebuilt (bx_client b) (bx_nat b) (bx_nat b') | Err _ => nk_view (bx_nat b') = nk_view (bx_nat b) end.
Proof.
  unfold rebuildFromServer, desired, bind at 1, bind at 1, api at 1. destruct (ListZones (bx_client b)) as [[zones|x] c1] eqn:E1; [|by eexists _, _].
  cbn [map_err]. unfold bind at 1, api. cbn [set_client bx_client].
  destruct (Desired zones ListAnnouncements (st_NodeID rec) c1) as [[rules|x] c2] eqn:E2; [|by eexists _, _]. cbn [map_err ret].
  destruct (ParsePrefix (st_Network rec)) as [network|] eqn:E3; [|by eexists _, _]. unfold nat_table. cbn [set_client bx_nat].
  destruct (NatCtl.Rebuild DefaultTable network rules.1 (bx_nat b)) as [r k'] eqn:E4. apply Rebuild_view in E4.
  destruct r as [u|x]; (eexists _, _; split; [reflexivity|]); cbn [map_err]; (split; [done|]); (split; [done|]); [|by destruct E4].
  destruct E4 as (ps & Hps & Hv). exists network, ps. split; [|exact Hv]. by exists zones, c1, rules, c2.
Qed.

(** The attachment was taken back, found gone, or a line says that it was not. *)
Definition withdrawn (zone : string) (id : Z) (b' : B) : Prop :=
  exists c r c', ApiClient.DeleteAnnouncement zone id c = (r, c') /\ bx_client b' = c' /\
    (r = Ok tt \/ r = Err ErrZoneNotFound \/ r = Err ErrNotMember \/ exists x, r = Err x /\ last (bx_out b') = Some (WCompensation x)).
Lemma compensate_runs zone id (b : B) : exists b', compensate zone id b = (Ok tt, b') /\ withdrawn zone id b' /\
  bx_keys b' = bx_keys b /\ bx_file b' = bx_file b /\ bx_nat b' = bx_nat b.
Proof.
  unfold compensate. rewrite try_api. destruct (ApiClient.DeleteAnnouncement zone id (bx_client b)) as [r c'] eqn:E.
  destruct r as [[]|x]; [eexists; split; [reflexivity|]; split; [eexists _, _, _; split; [exact E|]; split; [done|by left]|done]|].
  destruct x; cbn [map_err]; (eexists; split; [reflexivity|]; split; [eexists _, _, _; split; [exact E|]; split; [done|]|done]);
    first [right; right; right; eexists; split; [reflexivity|apply last_snoc]|by right; left|by right; right; left].
Qed.

(** What [announce add] comes to, after the create's outcome: a failure, and nothing
    happened here; done, with the table rebuilt; given up on this machine, with the table
    as it was and the attachment taken back; or, on an answer whose prefixes are not
    IPv4, abandoned where it was, before the table was touched or after. *)
Definition add_outcome (subnet zone : string) (b b' : B) (r : res cmd_err unit) : Prop :=
  bx_keys b' = bx_keys b /\ bx_file b' = bx_file b /\
  match ApiClient.CreateAnnouncement zone (st_NodeID rec) subnet (bx_client b) with
  | (Err x, c) => r = Err (CApi x) /\ bx_client b' = c /\ bx_nat b' = bx_nat b
  | (Ok ann, c) =>
      match r with
      | Ok _ => rebuilt c (bx_nat b) (bx_nat b') /\ last (bx_out b') = Some (LAnnounced (ar_Subnet ann) (ar_Synthetic ann) zone (ar_ID ann))
      | Err x =>
          (((exists link, x = COverlap link) \/ exists y, x = CTranslation y) /\ nk_view (bx_nat b') = nk_view (bx_nat b) /\
             withdrawn zone (ar_ID ann) b') \/
          (not_v4 (ar_Synthetic ann) /\ (x = CSynthetic (ar_Synthetic ann) \/ x = CPanic) /\ bx_client b' = c /\ bx_nat b' = bx_nat b) \/
          (not_v4 (ar_Subnet ann) /\ x = CPanic /\ rebuilt c (bx_nat b) (bx_nat b'))
      end
  end.
Lemma add_tail (ann : AnnouncementResponse) zone o (b : B) : exists b',
  (do! match o : option string with Some _ => ret tt | None => print (WUnreachable (ar_Subnet ann)) end in
   let! hs := try (engine (Engine.LastHandshake (bare_engine e (st_ServerPublicKey rec)))) in
   do! match hs with Ok _ => ret tt | Err _ => print WNotRunning end in
   print (LAnnounced (ar_Subnet ann) (ar_Synthetic ann) zone (ar_ID ann))) b = (Ok (E:=cmd_err) tt, b') /\
  bx_keys b' = bx_keys b /\ bx_file b' = bx_file b /\ bx_nat b' = bx_nat b /\
  last (bx_out b') = Some (LAnnounced (ar_Subnet ann) (ar_Synthetic ann) zone (ar_ID ann)).
Proof.
  destruct o; unfold bind at 1; cbn [ret print]; rewrite try_engine; cbn [bx_host];
    destruct (Engine.LastHandshake _ _) as [[hs|x] g]; (eexists; split; [reflexivity|]; split_and!; [done..|apply last_snoc]).
Qed.

Lemma add_runs args subnet zone (b : B) : announceFlags args = Ok (subnet, zone) ->
  exists r b', cmdAnnounceAdd e rec args b = (r, b') /\ add_outcome subnet zone b b' r.
Proof.
  intros Hargs. unfold cmdAnnounceAdd, add_outcome. rewrite Hargs. unfold bind at 1, api.
  destruct (ApiClient.CreateAnnouncement _ _ _ _) as [[ann|x] c]; cbn [map_err]; [|by eexists _, _].
  destruct (ParsePrefix (ar_Synthetic ann)) as [p|] eqn:Hp.
  2:{ eexists _, _. split; [reflexivity|]. split_and!; [done..|]. right; left. split; [intros p; congruence|]. by split; [left|]. }
  unfold bind at 1. destruct (localOverlap_aside (Some p) (set_client c b)) as ([o|x] & b1 & -> & (C1 & K1 & F1 & N1) & Ho).
  2:{ destruct Ho as [-> Hnot]. eexists _, _. split; [reflexivity|]. rewrite K1, F1, C1, N1. split_and!; [done..|]. right; left.
      split; [intros q; rewrite Hp; apply Hnot|]. by split; [right|]. }
  destruct o as [link|].
  - unfold bind. destruct (compensate_runs zone (ar_ID ann) b1) as (b2 & -> & Hw & K2 & F2 & N2). eexists _, b2. split; [reflexivity|].
    rewrite K2, F2, N2, K1, F1, N1. split_and!; [done..|]. left. split_and!; [by left; exists link|done|done].
  - unfold bind at 1, try at 1. destruct (rebuild_runs b1) as (r & b2 & -> & K2 & F2 & Hr). rewrite C1, N1 in Hr. destruct r as [[]|y].
    + unfold bind at 1. clear Ho. destruct (localOverlap_aside (ParsePrefix (ar_Subnet ann)) b2) as ([o|x] & b3 & -> & (_ & K3 & F3 & N3) & Ho).
      * destruct (add_tail ann zone o b3) as (b4 & -> & K4 & F4 & N4 & L4). eexists _, b4. split; [reflexivity|].
        rewrite K4, F4, N4, K3, F3, N3, K2, F2, K1, F1. by split_and!.
      * destruct Ho as [-> Hnot]. eexists _, b3. split; [reflexivity|]. rewrite K3, F3, N3, K2, F2, K1, F1. split_and!; [done..|].
        right; right. by split_and!.
    + unfold bind. destruct (compensate_runs zone (ar_ID ann) b2) as (b3 & -> & Hw & K3 & F3 & N3). eexists _, b3. split; [reflexivity|].
      rewrite K3, F3, N3, K2, F2, K1, F1. split_and!; [done..|]. left. split_and!; [by right; exists y|exact Hr|exact Hw].
Qed.
End Announce.

(** ** Removing the node *)

Lemma no_char_contains a s sub : no_char a s = true -> no_char a sub = false -> StrContains s sub = false.
Proof.
  intros Hs Hsub. assert (forall p s, no_char a s = true -> HasPrefix p s = true -> no_char a p = true) as Hp.
  { clear. induction p as [|x p IH]; [done|]. intros [|y s]; [done|]. cbn [chars HasPrefix]. rewrite !andb_true_iff.
    intros [Hy Hs] [->%bool_decide_eq_true Hp]. split; [done|]. by apply (IH s). }
  induction s as [|x s IH]; cbn [StrContains].
  - rewrite orb_false_r. apply not_true_is_false. intros Hpre%(Hp _ _ Hs). congruence.
  - apply orb_false_iff. split; [apply not_true_is_false; intros Hpre%(Hp _ _ Hs); congruence|].
    apply IH. cbn [chars] in Hs. by apply andb_true_iff in Hs as [_ ?].
Qed.

(** Whether the first of the next [k] requests that is not lost has its answer delivered. *)
Fixpoint answered (k : nat) (fs : list Fate) : bool :=
  match k, fs with
  | O, _ => false
  | Datatypes.S k, RequestLost :: fs => answered k fs
  | _, AnswerLost :: _ => false
  | _, _ => true
  end.
(** Whether one of them reaches the server at all. *)
Fixpoint reaches (k : nat) (fs : list Fate) : bool :=
  match k, fs with
  | O, _ => false
  | Datatypes.S k, RequestLost :: fs => reaches k fs
  | _, _ => true
  end.

Section Logout.
Context {K D S P KR DR : Type} `{Nftables K} `{WgHost D} `{WgTypes} `{NetipV6} `{Sqlite} `{Argon2} `{JwtLib} (h : Options).
Context `{KeyRingLaws S} `{StateDiskLaws P} `{NatKernelLaws KR} `{RouterHostLaws DR}.
#[local] Abbreviation lossy_net := (unreliable (here h)).
#[local] Hint Extern 0 (Transport (list Fate * World K D)) => exact (unreliable (here h)) : typeclass_instances.
#[local] Hint Extern 0 (Dialer (list Fate * World K D)) => exact (fun _ _ => unreliable (here h)) : typeclass_instances.
#[local] Abbreviation RBox := (Box (list Fate * World K D) S P KR DR).

Context (pool : Prefix) (d : DB) (now : Z) (rand : list (list Z)) (Hd : data_ok pool d).
Context (n : node_row) (Hn : n ∈ rows (nodes d)) (Hid : 0 < n_id n < 2 ^ 63).
Context (c : Claims) (Hc : c_UserID c = n_user n) (tok rt : string).
#[local] Abbreviation at_server := (at_server h d now rand n c tok rt).

Lemma deleteNode_absent (w : World K D) : quiet_net (server_db d n false) now rand w ->
  deleteNode (K:=K) (D:=D) h (Some c) (pretty (n_id n)) w = (Err (not_found "Node not found."), w).
Proof.
  intros Hw. unfold deleteNode. unfold bind at 1, identity, ret at 1. rewrite ParseInt64_pretty by lia.
  unfold bind at 1, or_fail, bind at 1. assert (owned_node (c_UserID c) (n_id n) (server_db d n false) = None) as Hown.
  { destruct (owned_node _ _ _) as [x|] eqn:Hx; [|done]. unfold owned_node in Hx. apply first_row_some in Hx as [[Hi Hu] Hx].
    apply (server_rows pool d Hd n Hn ltac:(lia)) in Hx as [Hx Hne]. exfalso. apply (Hne eq_refl).
    by apply (uniq_inj n_id _ _ _ (table_ok_uniq _ _ (ok_nodes _ (do_schema _ _ Hd)))). }
  unfold db. rewrite Hw. unfold GetOwned, bind, query, driver, gets. cbn [s_faults s_db]. rewrite Hown. cbn. destruct w; cbn in *; by rewrite Hw.
Qed.
Lemma DeleteNode_absent fs w : at_server false w ->
  @ApiClient.DeleteNode _ lossy_net (n_id n) (net tok rt fs w) = lossy tok rt fs w w (Err ErrZoneNotFound).
Proof.
  intros [Hq Hs]. unfold ApiClient.DeleteNode. apply (lossy_call (here h)); [|done].
  rewrite (attempt_guarded h _ _ _ _ (fun r => deleteNode h (rq_ctx r) (rq_path r "id")) NoBody no_out c (mkClient tok rt w)
    (Err (not_found "Node not found.")) w (node_mux (n_id n)) eq_refl Hs (deleteNode_absent w Hq)). cbn [c_token c_refreshToken].
  f_equal. change (reply _ _ (not_found "Node not found.")) with
    (Err (A:=unit) (if StrContains ("/api/v1/nodes/" +:+ pretty (n_id n)) "/leave" || StrContains ("/api/v1/nodes/" +:+ pretty (n_id n)) "/members/"
                    then ErrNotMember else ErrZoneNotFound)).
  by rewrite (no_char_contains "l"%char), (no_char_contains "m"%char) by (done || by rewrite chars_app, pretty_Z_no_char).
Qed.

#[local] Abbreviation refused k last := (k <> 0%nat \/ exists e, last = Some (CDeregister e)).
Lemma set_client_twice c1 c2 (b : RBox) : set_client c1 (set_client c2 b) = set_client c1 b.
Proof. done. Qed.

(** The node gone, every attempt fails. *)
Lemma deregister_gone k : forall fs w last (b : RBox), bx_client b = net tok rt fs w -> at_server false w -> refused k last ->
  exists e fs', @deregister _ _ _ _ _ lossy_net (n_id n) k last b = (Ok (Some (CDeregister e)), set_client (net tok rt fs' w) b).
Proof.
  induction k as [|k IH]; intros fs w last b Hb Hw Hlast.
  { destruct Hlast as [|[e ->]]; [done|]. exists e, fs. rewrite <- Hb. by destruct b. }
  cbn [deregister]. rewrite try_api, Hb, (DeleteNode_absent fs w Hw).
  destruct (lossy_cases tok rt fs w w (A:=unit) (Err ErrZoneNotFound)) as [(fs' & -> & _)|(fs' & w1 & -> & _ & Hw1)]; cbn [map_err].
  - destruct (IH fs' w (Some (CDeregister ErrZoneNotFound)) (set_client (net tok rt fs' w) b) eq_refl Hw) as (e & fs2 & ->); [by right; eexists|]. by exists e, fs2.
  - assert (w1 = w) as -> by by destruct Hw1.
    destruct (IH fs' w (Some (CDeregister ErrUnreachable)) (set_client (net tok rt fs' w) b) eq_refl Hw) as (e & fs2 & ->); [by right; eexists|]. by exists e, fs2.
Qed.
Lemma deregister_runs k : forall fs w last (b : RBox), bx_client b = net tok rt fs w -> at_server true w -> refused k last ->
  exists x fs' w', @deregister _ _ _ _ _ lossy_net (n_id n) k last b = (Ok x, set_client (net tok rt fs' w') b) /\
    at_server (negb (reaches k fs)) w' /\ (if answered k fs then x = None else exists e, x = Some (CDeregister e)).
Proof.
  induction k as [|k IH]; intros fs w last b Hb Hw Hlast.
  { destruct Hlast as [|[e ->]]; [done|]. exists (Some (CDeregister e)), fs, w. split_and!; [rewrite <- Hb; by destruct b|done|by exists e]. }
  cbn [deregister]. destruct (DeleteNode_lossy h pool d now rand Hd n Hn ltac:(lia) c Hc tok rt fs w Hw) as (w' & Hw' & Hdel).
  rewrite try_api, Hb, Hdel. destruct fs as [|[] fs]; cbn [lossy map_err answered reaches negb].
  - by exists None, [], w'.
  - by exists None, fs, w'.
  - destruct (IH fs w (Some (CDeregister ErrUnreachable)) (set_client (net tok rt fs w) b) eq_refl Hw) as (x & fs' & w1 & E & Hw1 & Hx);
      [by right; eexists|]. unfold net in E. rewrite E. by exists x, fs', w1.
  - destruct (deregister_gone k fs w' (Some (CDeregister ErrUnreachable)) (set_client (net tok rt fs w') b) eq_refl Hw') as (e & fs' & E);
      [by right; eexists|]. unfold net in E. rewrite E. exists (Some (CDeregister e)), fs', w'. split_and!; [done|done|by exists e].
Qed.

(** ** The local tear-down *)

(** Everything of the machine but the client and what was printed. *)
Definition untouched (b b' : RBox) : Prop :=
  kr_view (bx_keys b') = kr_view (bx_keys b) /\ sd_view (bx_file b') = sd_view (bx_file b) /\ bx_nat b' = bx_nat b /\ bx_host b' = bx_host b.
(** The server's nodes, as a command has left them. *)
Definition server_rows_of (b : RBox) : list node_row := rows (nodes (s_db (w_store (snd (c_net (bx_client b)))))).
(** Wiped: unless a deletion failed, the secrets and the record are gone, no other
    secret is; the translation table and the tunnel are gone, or a line says not. *)
Definition wiped (e : Env) (b b' : RBox) (r : res cmd_err unit) : Prop :=
  match r with
  | Ok _ => (forall name, name ∈ secrets -> kr_view (bx_keys b') !! name = None) /\ sd_view (bx_file b') = None
  | Err x => x = CWipe
  end /\
  (forall name, name ∉ secrets -> kr_view (bx_keys b') !! name = kr_view (bx_keys b) !! name) /\
  (nk_view (bx_nat b') = delete DefaultTable (nk_view (bx_nat b)) \/ exists x, WTable x ∈ bx_out b') /\
  ((exists ep, rh_healthy ep (bx_host b)) -> net_links (rh_view (bx_host b')) !! iface (bare_engine e "") = None).

(** The warnings of the tear-down. *)
Definition noted (l : list Line) (b : RBox) : RBox :=
  mkBox (bx_client b) (bx_keys b) (bx_file b) (bx_nat b) (bx_host b) (bx_rand b) (bx_stdin b) (bx_out b ++ l).
Lemma noted_nil b : noted [] b = b.
Proof. destruct b. unfold noted. by rewrite app_nil_r. Qed.
Lemma note_tunnel {A C} (r : res eng_err A) (k : unit -> M cmd_err RBox C) b :
  bind (match map_err CDown r with Err (CDown x) => print (WTunnel x) | _ => ret tt end) k b =
  k tt (noted (match r with Ok _ => [] | Err x => [WTunnel x] end) b).
Proof. destruct r; [by rewrite noted_nil|done]. Qed.
Lemma note_table {A C} (r : res nat_err A) (k : unit -> M cmd_err RBox C) b :
  bind (match map_err CNat r with Err (CNat x) => print (WTable x) | _ => ret tt end) k b =
  k tt (noted (match r with Ok _ => [] | Err x => [WTable x] end) b).
Proof. destruct r; [by rewrite noted_nil|done]. Qed.
Lemma note_session {A C} (r : res client_err A) (k : unit -> M cmd_err RBox C) b :
  bind (match map_err CApi r with Err (CApi x) => print (WRevocation x) | _ => ret tt end) k b =
  k tt (noted (match r with Ok _ => [] | Err x => [WRevocation x] end) b).
Proof. destruct r; [by rewrite noted_nil|done]. Qed.

Lemma is_ok_map {E A} (f : E -> cmd_err) (r : res E A) : is_ok (map_err f r) = is_ok r.
Proof. by destruct r. Qed.
(** The deletions: with the errors of each. *)
Lemma delete_secrets (s : S) : exists r1 s1 r2 s2 r3 s3,
  kr_Delete DeviceKeyName s = (r1, s1) /\ kr_Delete SessionTokenName s1 = (r2, s2) /\ kr_Delete RefreshTokenName s2 = (r3, s3) /\
  (is_ok r1 && is_ok r2 && is_ok r3 = true -> forall name, name ∈ secrets -> kr_view s3 !! name = None) /\
  (forall name, name ∉ secrets -> kr_view s3 !! name = kr_view s !! name).
Proof.
  destruct (delete_step DeviceKeyName s) as (r1 & s1 & E1 & D1). destruct (delete_step SessionTokenName s1) as (r2 & s2 & E2 & D2).
  destruct (delete_step RefreshTokenName s2) as (r3 & s3 & E3 & D3). exists r1, s1, r2, s2, r3, s3. split_and!; [done..| |].
  - rewrite !andb_true_iff. intros [[O1 O2] O3] name Hin. destruct r1, r2, r3; try done. unfold secrets in Hin. rewrite !elem_of_cons in Hin.
    destruct Hin as [->|[->|[->|?%not_elem_of_nil]]]; [..|done].
    + apply (deleted_other _ _ _ _ _ D3). by apply D2.
    + by apply D3.
    + apply (deleted_other _ _ _ _ _ D3), (deleted_other _ _ _ _ _ D2). by apply D1.
  - intros name Hout. unfold secrets in Hout. rewrite !not_elem_of_cons in Hout. destruct Hout as (N1 & N2 & N3 & _).
    rewrite (proj2 (deleted_other _ _ _ _ _ D3) N2), (proj2 (deleted_other _ _ _ _ _ D2) N1). apply (deleted_other _ _ _ _ _ D1), N3.
Qed.

Lemma wipe_runs e (b : RBox) : exists r b', wipe e b = (r, b') /\ wiped e b b' r /\ bx_client b' = bx_client b.
Proof.
  unfold wipe. rewrite try_engine. pose proof (Down_wp (bare_engine e "") (New (bx_host b))) as Hdown. unfold wp in Hdown.
  destruct (Engine.Down (bare_engine e "") (New (bx_host b))) as [r0 g]. cbn [fst snd] in Hdown. rewrite note_tunnel, try_nat.
  cbn [noted set_host bx_nat]. pose proof (Teardown_view DefaultTable (bx_nat b)) as Hnat.
  destruct (NatCtl.Teardown DefaultTable (bx_nat b)) as [r1 k']. specialize (Hnat _ _ eq_refl). rewrite note_table, try_keys.
  cbn [noted set_host set_nat bx_keys]. destruct (delete_secrets (bx_keys b)) as (x1 & s1 & x2 & s2 & x3 & s3 & E1 & E2 & E3 & Hgone & Hkept).
  rewrite E1, try_keys. cbn [set_keys bx_keys]. rewrite E2, try_keys. cbn [set_keys bx_keys]. rewrite E3, try_file.
  cbn [set_keys noted set_nat set_host bx_file]. pose proof (Clear_view (bx_file b)) as Hfile. destruct (Clear (bx_file b)) as [x4 p']. cbn [fst snd] in Hfile.
  cbv beta iota. rewrite !is_ok_map.
  match goal with |- context [(if _ then print LLoggedOut else throw CWipe) ?b1] => set (b' := b1) end.
  assert (wiped_rest : (forall name, name ∉ secrets -> kr_view (bx_keys b') !! name = kr_view (bx_keys b) !! name) /\
    (nk_view (bx_nat b') = delete DefaultTable (nk_view (bx_nat b)) \/ exists x, WTable x ∈ bx_out b') /\
    ((exists ep, rh_healthy ep (bx_host b)) -> net_links (rh_view (bx_host b')) !! iface (bare_engine e "") = None)).
  { split_and!; [exact Hkept| |].
    - cbn. destruct r1 as [u|x]; [by left|right]. exists x. apply elem_of_app. right. left.
    - intros Hep. cbn. destruct Hdown as [_ Hdown]. destruct r0; [|by destruct Hdown].
      destruct Hdown as [[_ Hlink]|[Hsame Hnone]]; unfold EngineProps.net in *; [rewrite Hlink; apply lookup_delete_eq|rewrite Hsame; by apply Hnone]. }
  destruct (is_ok x1 && is_ok x2 && is_ok x3 && is_ok x4) eqn:Hok.
  - eexists (Ok tt), _. split; [reflexivity|]. split; [|done]. split.
    + apply andb_true_iff in Hok as [Hok H4']. split; [by apply Hgone|]. destruct x4; [exact Hfile|done].
    + destruct wiped_rest as (Hk & Hn' & Hh). split_and!; [done| |done]. destruct Hn' as [?|[x Hx]]; [by left|right]. exists x. apply elem_of_app. by left.
  - exists (Err CWipe), b'. split; [reflexivity|]. split; [|done]. split; [done|exact wiped_rest].
Qed.

(** The router of node [n], with the node still on the server or not: a record that is
    read, a session of the node's user, a network of the given fates. *)
Definition machine (present : bool) (rec : StateRecord) (fs : list Fate) (b : RBox) : Prop :=
  fst (sd_Read (bx_file b)) = Ok rec /\ st_ServerURL rec <> "" /\ st_NodeID rec = n_id n /\
  fst (kr_Get SessionTokenName (bx_keys b)) = Ok tok /\
  exists w, c_net (bx_client b) = (fs, w) /\ quiet_net (server_db d n present) now rand w /\ caller h ("Bearer " +:+ tok) w = Some c.
End Logout.

Section LogoutRuns.
Context {K D S P KR DR : Type} `{Nftables K} `{WgHost D} `{WgTypes} `{NetipV6} `{Sqlite} `{Argon2} `{JwtLib} (h : Options).
Context `{KeyRingLaws S} `{StateDiskLaws P} `{NatKernelLaws KR} `{RouterHostLaws DR}.
#[local] Hint Extern 0 (Transport (list Fate * World K D)) => exact (unreliable (here h)) : typeclass_instances.
#[local] Hint Extern 0 (Dialer (list Fate * World K D)) => exact (fun _ _ => unreliable (here h)) : typeclass_instances.
#[local] Abbreviation RBox := (Box (list Fate * World K D) S P KR DR).
Context (pool : Prefix) (d : DB) (now : Z) (rand : list (list Z)) (Hd : data_ok pool d).
Context (n : node_row) (Hn : n ∈ rows (nodes d)) (Hid : 0 < n_id n < 2 ^ 63).
Context (c : Claims) (Hc : c_UserID c = n_user n) (tok : string) (rec : StateRecord).

(** What signing out comes to, given whether the node was there. *)
Definition sign_out_outcome (e : Env) (present : bool) (fs : list Fate) (b b' : RBox) (r : res cmd_err unit) : Prop :=
  if present && answered 3 fs
  then wiped e b b' r /\ forall x, x ∈ server_rows_of b' <-> x ∈ rows (nodes d) /\ x <> n
  else (exists x, r = Err (CDeregister x)) /\ untouched b b' /\
    forall x, x ∈ server_rows_of b' <-> x ∈ rows (nodes d) /\ (present = false \/ reaches 3 fs = true -> x <> n).

Lemma wiped_from e (b b1 b' : RBox) r : kr_view (bx_keys b1) = kr_view (bx_keys b) -> bx_nat b1 = bx_nat b -> bx_host b1 = bx_host b ->
  wiped e b1 b' r -> wiped e b b' r.
Proof. intros Hk Hn' Hh (Hr & Ho & Hnat & Hnet). rewrite Hk in Ho. rewrite Hn' in Hnat. rewrite Hh in Hnet. by split_and!. Qed.

Lemma cmdLogout_runs e present fs args vals others (b : RBox) :
  Parse {["force" := FBool]} args ∅ = Some (vals, others) -> flag_bool vals "force" = false -> machine h d now rand n c tok present rec fs b ->
  exists r b', cmdLogout e args b = (r, b') /\ sign_out_outcome e present fs b b' r.
Proof.
  intros Hargs Hforce (Hread & Hurl & Hnode & Htok & w & Hnet & Hq & Hs). unfold cmdLogout, parsed. rewrite Hargs. unfold bind at 1, ret at 1.
  destruct (loadLoose_read rec b Hread) as (p & Hp & Hload). unfold bind at 1. rewrite Hload, Hforce.
  assert (sd_view p = sd_view (bx_file b)) as Hpv.
  { rewrite <- Hp. destruct (sd_read (bx_file b)) as (x & p' & E & Hv & _). by rewrite E. }
  destruct (connect_run e rec tok (set_file p b) Hurl Htok) as (rt & s & Hsv & Hconn). cbn [set_file bx_client bx_keys] in Hsv, Hconn.
  rewrite Hnet in Hconn.
  set (b1 := set_client (net tok rt fs w) (set_keys s (set_file p b))).
  change (connect e rec (set_file p b) = (Ok (unreliable (here h)), b1)) in Hconn.
  assert (at_server h d now rand n c tok rt present w) as Hat by by split.
  assert (forall cl, untouched b (set_client cl b1)) as Hb1 by by intros cl; split_and!.
  unfold bind at 1. unfold bind at 1. rewrite Hconn, Hnode, (proj2 (Z.eqb_neq _ _)) by lia.
  assert (forall l cl, nodes (s_db (w_store (snd (c_net cl)))) = nodes (server_db d n false) ->
    exists r b', wipe e (noted l (set_client cl b1)) = (r, b') /\ wiped e b b' r /\ forall x, x ∈ server_rows_of b' <-> x ∈ rows (nodes d) /\ x <> n) as Hwipe.
  { intros l cl Hnodes. destruct (wipe_runs e (noted l (set_client cl b1))) as (r & b' & E & Hw & Hcl). exists r, b'. split_and!; [done|by apply (wiped_from e b (noted l (set_client cl b1)))|].
    intros x. unfold server_rows_of. rewrite Hcl. cbn [noted set_client bx_client]. rewrite Hnodes, (server_rows pool d Hd n Hn ltac:(lia)). naive_solver. }
  assert (forall k fs' w', at_server h d now rand n c tok rt k w' ->
    forall x, x ∈ server_rows_of (set_client (net tok rt fs' w') b1) <-> x ∈ rows (nodes d) /\ (k = false -> x <> n)) as Hrows.
  { intros k fs' w' [Hq' _] x. unfold server_rows_of, quiet_net in *. cbn [set_client bx_client net c_net snd]. rewrite Hq'.
    apply (server_rows pool d Hd n Hn ltac:(lia)). }
  unfold bind at 1. destruct present.
  - destruct (deregister_runs h pool d now rand Hd n Hn Hid c Hc tok rt 3 fs w None b1 eq_refl Hat) as (x & fs' & w' & E & Hw' & Hx); [by left|].
    rewrite E. unfold sign_out_outcome. cbn [andb]. destruct (answered 3 fs) eqn:Ha.
    + assert (reaches 3 fs = true) as Hreach by (destruct fs as [|[] [|[] [|[] ?]]]; done). rewrite Hreach in Hw'. subst x. rewrite try_api.
      change (bx_client (set_client (net tok rt fs' w') b1)) with (net tok rt fs' w').
      destruct (Logout_net h d now rand n c tok rt false fs' w' Hw') as (r0 & cl & E0 & Hnodes). rewrite E0, set_client_twice.
      destruct r0 as [[]|x0]; [rewrite <- (noted_nil (set_client cl b1)); apply (Hwipe [])|apply (Hwipe [WRevocation x0])]; exact Hnodes.
    + destruct Hx as [y0 ->]. eexists _, _. split; [reflexivity|]. split; [by exists y0|]. split; [apply Hb1|].
      intros y. rewrite (Hrows _ _ _ Hw'). destruct (reaches 3 fs); naive_solver.
  - destruct (deregister_gone h pool d now rand Hd n Hn Hid c tok rt 3 fs w None b1 eq_refl Hat) as (x & fs' & E); [by left|].
    rewrite E. eexists _, _. split; [reflexivity|]. unfold sign_out_outcome. cbn [andb]. split; [by exists x|]. split; [apply Hb1|].
    intros y. rewrite (Hrows _ _ _ Hat). naive_solver.
Qed.
End LogoutRuns.

(** C21: what a command line may touch. Whatever it is, whatever the server, the network
    and the kernel answer, and however it ends: the saved record is changed only by
    [setup], [trust], [register] and [logout], the device key only by [register] and
    [logout], the translation tables only by [announce], [run] and [logout], the links
    and routes of the router only by [down], [run] and [logout]; help, an unknown
    command or flag, and an empty command line change none of them. *)
Theorem run_frame {N S P K D : Type} `{KeyRingLaws S} `{StateDiskLaws P} `{NatKernelLaws K} `{RouterHostLaws D} `{!LinkList D} `{!LinkListLaws D}
    `{WgTypes} `{NetipV6} `{Dialer N} now wakes args (b : Box N S P K D) :
  within (match globals (mkEnv defaultDataDir "" false) args with GCommand _ (cmd :: _) => may_touch cmd | _ => mkTouch false false false false end)
    b (snd (run now wakes args b)).
Proof.
  assert (forall t (m : M cmd_err (Box N S P K D) unit), pres (within t b) m -> within t b (snd (m b))) as Hp by (intros t m Hm; by apply Hm, within_preorder).
  pose proof (fun t => keeps_print b t LUsage). unfold run. destruct (globals _ _) as [e [|cmd rest]| |f]; apply Hp; [|apply keeps_command|..]; pres_auto.
Qed.

(** C11: announcing a subnet from a router, against any server whatever: the command
    leaves the key ring and the record alone, and ends in one of these ways. The call
    fails, and nothing has been done on this machine (if it is the answer that was lost,
    the server may have made the announcement). It is done: the translation table was
    rebuilt, as a whole and alone, from the lists the server gave after the
    announcement, and the last line says so. A local network is in the way or the table
    could not be rebuilt: then the tables are as they were and the attachment was taken
    back, or found gone, or the last line says that the server still has it. Or the
    answer is not one with IPv4 prefixes: on such a synthetic block the command may stop
    at once, the table as it was and the attachment left on the server, and on such a
    subnet it may crash when all is done. *)
Theorem announce_add {N S P K D : Type} `{NatKernelLaws K} `{RouterHost D} `{Interfaces D} `{!LinkList D} `{WgTypes} `{NetipV6}
    (T : Transport N) e rec args subnet zone (b : Box N S P K D) :
  announceFlags args = Ok (subnet, zone) ->
  exists r b', cmdAnnounceAdd e rec args b = (r, b') /\ add_outcome T rec subnet zone b b' r.
Proof. apply add_runs. Qed.

(** The two orders and the two spellings of the flag. *)
Lemma announceFlags_forms subnet zone : subnet <> "" -> HasPrefix "-" subnet = false -> zone <> "" -> zone <> "--zone" ->
  announceFlags [subnet; "--zone"; zone] = Ok (subnet, zone) /\ announceFlags ["--zone"; zone; subnet] = Ok (subnet, zone) /\
  announceFlags [subnet; "--zone=" +:+ zone] = Ok (subnet, zone) /\ announceFlags ["--zone=" +:+ zone; subnet] = Ok (subnet, zone).
Proof.
  intros Hs Hd Hz Hne. destruct subnet as [|s0 sr]; [done|]. destruct zone as [|z0 zr]; [done|].
  assert (bool_decide (Some (String z0 zr) = Some "--zone") = false) as Hb by (apply bool_decide_eq_false; congruence).
  unfold announceFlags. cbn [lift_subnet]. rewrite Hd. cbn [app last]. rewrite Hb. destruct (HasPrefix "-" (String z0 zr)); split_and!; vm_compute; reflexivity.
Qed.

(** C10: signing a router out without [--force], over a network that may lose any
    request and any answer. Whatever the network does, the command ends. If the node
    was on the server and the first of the three requests that is not lost has its
    answer delivered, node [n], and no other, is gone from the server, every other
    secret is untouched, the tunnel (on a working host) and the translation table are
    taken down, or a line says why not, and on success the secrets and the record are
    gone. Otherwise the command fails for the deregistration and touches neither the
    key ring nor the record, the table or the host, and of the server at most node [n];
    so once the node is gone from the server, which one lost answer is enough for, it
    fails however often it is tried and however good the network is. *)
Theorem router_logout {K D S P KR DR : Type} `{Nftables K} `{WgHost D} `{WgTypes} `{NetipV6} `{Sqlite} `{Argon2} `{JwtLib}
    `{KeyRingLaws S} `{StateDiskLaws P} `{NatKernelLaws KR} `{RouterHostLaws DR} h pool d now rand n c tok rec e present fs args vals others
    (b : Box (list Fate * World K D) S P KR DR) :
  data_ok pool d -> n ∈ rows (nodes d) -> 0 < n_id n < 2 ^ 63 -> c_UserID c = n_user n ->
  Parse {["force" := FBool]} args ∅ = Some (vals, others) -> flag_bool vals "force" = false ->
  machine h d now rand n c tok present rec fs b ->
  exists r b', @cmdLogout _ _ _ _ _ _ _ _ _ (fun _ _ => unreliable (here h)) e args b = (r, b') /\ sign_out_outcome d n e present fs b b' r.
Proof. intros Hd Hn Hid Hc. by apply (cmdLogout_runs h pool d now rand Hd n Hn Hid c Hc). Qed.

(** ** Ann's router *)

#[local] Instance no_v6 : NetipV6 := fun _ => None.
#[local] Existing Instance sim_keyring.
#[local] Existing Instance sim_file.
#[export] Instance sim_links : LinkList SimRouter :=
  {| nl_LinkList := fun d => (Ok (map_to_list (net_links (sim_net d))).*1, d);
     nl_AddrList l := fun d =>
       (match net_links (sim_net d) !! l with Some x => Ok ((fun p => (Some (Addr_of p), Bits p)) <$> elements (link_addrs x)) | None => Err tt end, d);
     nl_RouteList l := fun d => (Ok ((fun x => Some x.1) <$> filter (fun x => x.2 = l) (map_to_list (net_routes (sim_net d)))), d) |}.
#[export] Instance sim_links_laws : LinkListLaws SimRouter.
Proof. by split. Qed.
#[local] Instance home_net : Transport (list Fate * World Ruleset SimHost) := unreliable (here serve_opts).
#[local] Instance home_dial : Dialer (list Fate * World Ruleset SimHost) := fun _ _ => unreliable (here serve_opts).
#[local] Abbreviation HomeBox := (Box (list Fate * World Ruleset SimHost) (gmap string string) (option StateRecord) NatTables SimRouter).
Definition home_box (fs : list Fate) : HomeBox :=
  mkBox (mkClient "" "" (fs, home_world)) {[SessionTokenName := "token"; DeviceKeyName := "k"; "other" := "x"]} (Some home_record) ∅
    (eng_host demo_up) [] None [].
Definition home_env : Env := mkEnv defaultDataDir "" false.

(** The answer to the deletion is lost: the node is gone, and the router is told that it
    could not be deregistered, then and at every later attempt. *)
Example lost_answer : let '(r, b) := cmdLogout home_env [] (home_box [AnswerLost]) in
  r = Err (CDeregister ErrZoneNotFound) /\ n_id <$> server_rows_of b = [2] /\ fst (cmdLogout home_env [] b) = Err (CDeregister ErrZoneNotFound).
Proof. vm_compute. split; [reflexivity|split; reflexivity]. Qed.

Lemma home_machine fs : machine serve_opts home_db 150 [] home_router (mkClaims 7 "ann" true) "token" true home_record fs (home_box fs).
Proof.
  split; [reflexivity|]. split; [done|]. split; [reflexivity|]. split; [by vm_compute|].
  exists home_world. split; [reflexivity|]. split; [|by vm_compute]. unfold quiet_net, server_db, home_world. cbn [w_store]. reflexivity.
Qed.
(** A failed attempt to announce again what is announced takes the announcement back. *)
Example announced_again : let '(r, b) := run 0 [] ["announce"; "add"; "192.168.1.0/24"; "--zone"; "home"] (home_box [Delivered; RequestLost]) in
  r = Err (CTranslation (CApi ErrUnreachable)) /\ a_id <$> rows (announcements home_db) = [1; 2] /\
  a_id <$> rows (announcements (s_db (w_store (snd (c_net (bx_client b)))))) = [2].
Proof. vm_compute. split; [reflexivity|split; reflexivity]. Qed.
(** With a single dash the zone is taken for the subnet, and the subnet for the zone. *)
Example single_dash : announceFlags ["-zone"; "home"; "192.168.1.0/24"] = Ok ("home", "192.168.1.0/24").
Proof. vm_compute. reflexivity. Qed.

(** An answer whose synthetic block does not parse: one request is all the server sees. *)
#[local] Instance odd_net : Transport nat | 100 := fun r n =>
  (Ok (mkResp 201 (BAnn (mkAnnResponse 1 1 "router" "ann" "192.168.1.0/24" "soon"))), S n).
Example not_compensated : let '(r, b) := cmdAnnounceAdd home_env home_record ["192.168.1.0/24"; "--zone"; "home"]
    (mkBox (mkClient "token" "" 0%nat) (∅ : gmap string string) (Some home_record) (∅ : NatTables) (eng_host demo_up) [] None []) in
  r = Err (CSynthetic "soon") /\ c_net (bx_client b) = 1%nat.
Proof. by vm_compute. Qed.

Definition signed_box : HomeBox := mkBox (mkClient "token" "" ([], home_world)) ∅ (Some home_record) ∅ (eng_host demo_up) [] None [].

#[local] Opaque home_db home_world.
Lemma run_frame_witness : within (may_touch "zone") (home_box []) (snd (run 0 [] ["zone"; "list"] (home_box []))).
Proof. exact (run_frame 0 [] ["zone"; "list"] (home_box [])). Defined.
Lemma announce_add_witness : exists r b', cmdAnnounceAdd home_env home_record ["192.168.1.0/24"; "--zone"; "home"] signed_box = (r, b') /\
  add_outcome home_net home_record "192.168.1.0/24" "home" signed_box b' r.
Proof.
  exact (announce_add home_net home_env home_record ["192.168.1.0/24"; "--zone"; "home"] "192.168.1.0/24" "home" signed_box
    ltac:(by vm_compute)).
Defined.
Lemma router_logout_witness : exists r b', cmdLogout home_env ["--force=false"] (home_box [RequestLost]) = (r, b') /\
  wiped home_env (home_box [RequestLost]) b' r /\ forall x, x ∈ server_rows_of b' <-> x ∈ rows (nodes home_db) /\ x <> home_router.
Proof.
  exact (router_logout serve_opts serve_pool home_db 150 [] home_router (mkClaims 7 "ann" true) "token" home_record home_env true [RequestLost]
    ["--force=false"] {["force" := "false"]} [] (home_box [RequestLost]) home_ok home_router_in ltac:(by vm_compute) eq_refl
    ltac:(by vm_compute) eq_refl (home_machine _)).
Defined.
